(* ===== verification/_CoqProject ===== *)
-Q . S2P
Prelude.v
CoreTypes.v
Guards.v
Trace.v
Effects.v
Presentation.v
Json.v
TurnState.v
TurnEngine.v
TurnSafety.v
TurnPolicy.v
Samples.v
TurnLog.v
TurnOrder.v
TurnRounds.v
ToolArguments.v
Tools.v
ToolDispatch.v
ToolFacts.v
ToolBreaker.v
TurnFacts.v
History.v
Coordination.v
CoordinationSafety.v
CoordinationFacts.v
TurnStore.v
TurnStoreFacts.v
ContextBudget.v
ContextText.v
ContextCompiler.v
ContextFacts.v
Personas.v
PersonaFacts.v
MemoryOutbox.v
MemoryOutboxFacts.v
AuditOutbox.v
LongTasks.v
LongTaskFacts.v
MementosWorker.v
Fanout.v
Registry.v
RuntimeSession.v
RoleReply.v
RoleReplyFacts.v
TeamFacts.v
TeamStream.v
SceneSteps.v
StreamSafety.v
StreamFacts.v
BodyControl.v
Participation.v
HomePlanning.v
HomeMessages.v
HomeCommand.v
HomeFacts.v
Ingress.v
ChatStream.v
ChatFacts.v
Exchanges.v
DeviceTools.v
Signals.v
InMemory.v
Lexicon.v
Rules.v
Interpretation.v
LanguageModels.v
MemoryPort.v
MemoryClients.v
HomeTools.v
TaskTools.v
CapabilityTools.v
Laya.v
HomeFallback.v
ParticipationModel.v
LiveTurns.v
Conversations.v
Access.v
RemoteAuthorities.v
TraceSummary.v
