(* ===== verification/Prelude.v ===== *)
(** * eidolon-agent: a verification of the agent's core

    The program ([src/eidolon_agent/]) is the brain of a desktop companion: a gRPC service
    that a voice front end calls in the place of a language model. One call is one _turn_:
    policy gates decide what the turn may read and leave behind; a context compiler builds
    the prompt from the persona, memory, history and preferences; the model streams; its tool
    calls are dispatched; the answer is delivered event by event, remembered, persisted with
    its audit rows, and leaves for the memory service through an outbox. Beside the turns run
    the dispatchers of the outboxes, a worker for long tasks, sessions in which several
    companions take the floor in turn, the control of devices, and a smart-home command path.
    Everything is asyncio on one thread: state changes only between two awaits.

    ** How it is modelled

    Python values are [Prelude.pyval], dicts are association lists in insertion order, strings
    are UTF-8 [string]s cut at character boundaries by [Prelude.py_take] and its companions, and
    [int] is [Z]. Exceptions are the type [Prelude.exn] in [Prelude.res]. Sequential code is
    a computation of the state and exception monad of [Effects], whose program logic (preorders
    that every statement respects, and triples with a normal and an exceptional postcondition)
    carries the proofs. What another task may do at an await is a parameter of the
    model where one component is concerned (a schedule of exceptions, an environment that
    changes the store), and a step relation or a list of labels where interleaving is the
    matter (coordination, tool batches, the registry, the device cache). Clocks, tokenizers,
    Unicode tables, the SDK's pydantic types and every remote service are parameters; their
    documented behaviour, where a theorem needs it, is a hypothesis of that theorem.

    ** Files, in the order they are built

    - [Prelude], [CoreTypes] ([core/types/]), [Trace] ([core/types/trace.py]), [Json]
      ([json.dumps], [str], nested dicts), [Effects] (the monad and its logic).
    - [Guards]: [domain/runtime_policy.py], [domain/guardrails/],
      [domain/agent/committed_turn.py]. [Presentation]: [domain/agent/presentation.py].
    - [TurnState], [TurnEngine]: [domain/agent/turn.py], [TurnRunner] whole: admission, the
      guardrails, the tool loop with its breaker, the reply stream, cancellation, persistence and
      the memory observation. [TurnSafety] is the relation between two states of a turn that
      its statements respect; [TurnPolicy], [TurnLog], [TurnOrder], [TurnRounds],
      [ToolBreaker] and [TurnFacts] prove the theorems; [Samples] is a concrete world.
    - [ToolArguments], [Tools], [ToolDispatch], [ToolFacts]: [domain/tools/dispatcher.py],
      [registry.py], [visibility.py]. A call is a machine of at most three phases
      and [gather] runs any interleaving of them.
    - [History]: [domain/history/manager.py]. [Fanout]: [domain/history/fanout.py].
    - [Coordination], [CoordinationSafety], [CoordinationFacts]:
      [app/interaction/coordination/__init__.py]. The code between two awaits is a step; presses,
      releases, receipts, decisions and cancellations are the labels.
    - [RoleReply], [RoleReplyFacts], [TeamFacts]: [role_reply.py], [replies.py] and [prepare.py] beside
      it. [Participation]: [decision.py], [application.py].
    - [TurnStore], [TurnStoreFacts]: the turn half of [infra/persistence/agent_runtime.py]
      and the conversation store. [LongTasks], [LongTaskFacts]: its long-task half.
    - [ContextBudget], [ContextText], [ContextCompiler], [ContextFacts]: [domain/context/]
      and the text helpers it uses.
    - [Personas], [PersonaFacts]: [domain/personas/]. [RuntimeSession]:
      [domain/runtime_session.py] and the genome store over the authority.
    - [MemoryOutbox], [MemoryOutboxFacts], [AuditOutbox]: the two outboxes of
      [infra/persistence/runtime_store.py] and their dispatchers.
    - [MementosWorker]: [infra/long_tasks/mementos.py] and the routes of
      [app/admin/routers/long_tasks.py].
    - [Registry]: [domain/agent/registry.py].
    - [BodyControl]: [domain/body_control/].
    - [TeamStream], [SceneSteps], [StreamSafety], [StreamFacts]: [app/transport/coordination.py],
      [app/admin/routers/role_groups.py]: a coordination session behind the socket of its devices.
    - [HomePlanning], [HomeMessages], [HomeCommand], [HomeFacts]: [domain/smarthome/] and the sessions of
      [app/smarthome/]: a spoken home command from the directory to what is said of it. [HomeTools]: the six smart-home tools of the language model, which share that path.
    - [Ingress]: [app/interaction/__init__.py], [core/types/conversation.py]: a request becomes a turn.
      [ChatStream], [ChatFacts]: [app/transport/grpc/chat_servicer.py]: the turns of one stream.
    - [Exchanges], [DeviceTools]: [app/transport/grpc/channel_tools.py], [motion.py] and the
      tools that use the device of the stream. [Signals]: [domain/signals/].
    - [InMemory]: [infra/events/adapters/inmem.py], the bus and the store of one process.
    - [Lexicon], [Rules]: [infra/interpretation/adapters/]: the deterministic interpreter of
      home utterances. [Interpretation]: the service around interpreters, its
      shadows and its records.
    - [LanguageModels]: [infra/llm/]: the router and the LiteLLM provider.
    - [MemoryPort], [MemoryClients]: [infra/memory/]: the reads of a
      turn, the endpoints of a Realm and the sessions to them.
    - [TaskTools]: [domain/tools/builtin/], [domain/long_tasks/result_summary.py].
      [CapabilityTools]: [domain/tools/body_capability_provider.py].
    - [Laya]: the adapter of the trained interpreter and the same model asked about a request in
      progress. [HomeFallback]: [infra/smarthome/llm_fallback.py], where a language model proposes.
      [ParticipationModel]: [infra/participation/llm.py], the fallback of [Participation].
    - [LiveTurns]: [infra/observability/live_turns.py], the board that observes the turns of a process.
      [Conversations]: what the admin API reads of conversations and their turns.
    - [Access]: [app/admin/authority.py], [app/transport/grpc/interceptors.py] with the RPCs beside [Chat],
      [app/admin/routers/owner_runtime.py] and the deletions of [infra/persistence/runtime_store.py].
    - [RemoteAuthorities]: [infra/system_data/runtime_authority.py], the authorities behind
      [RuntimeSession]; [infra/smarthome/hub.py], the directory and the executor behind [HomeCommand].

    Interfaces: [TurnEngine.Ports] is what the engine asks of the other components (the
    compiler among them: [ContextFacts.compiler_refines_the_port] shows that the modelled one keeps
    what the engine's theorems assume of a port); the class [ContextFacts.PersonaPort] is what
    the compiler asks of the personas, discharged in [PersonaFacts]; [Coordination.SdkOps]
    and [Presentation.PresentationOps] are the SDK's validators.

    ** What the theorems show

    - Turns: for every world, input and schedule of exceptions, a turn has only the effects its
      policy permits; a speculative or uncommitted one leaves no trace; a crisis is private;
      memory is observed under stated conditions only; a cancelled answer keeps what was
      heard; one terminal event ends the stream; the tool rounds are bounded.
    - Tools: only calls that pass every gate are invoked, with arguments that satisfy the schema
      ([ToolArguments.validate_decides]); side effects keep their order in every interleaving;
      a retry is answered from the store; every call of a batch is answered.
    - Storage: conversations serve one scope, turn numbers are unique, persisting twice is
      persisting once, private turns are not read back, the history window is bounded and
      in order.
    - Prompts: reads follow the policy, the system prompt frames everything else, the budget
      holds, and the genome's boundaries are always in it.
    - Outboxes and tasks: the memory outbox refines a family of FIFO queues and drains; a stored
      task is read back; a result is announced at most once.
    - Teams: nobody speaks before everybody stopped, permits once revoked stay revoked, one
      reply at a time and within the budget, the history says what was heard, a reply counts as
      played only when the whole stream was, and what a prepared session decides can be played.
    - Devices: every command sent is allowed by a read of the directory.
    - Smart home: a command acts only on what was understood and is there, and is said to have
      done no more than was confirmed; the rules propose what was said of what there is; shadows
      of an interpreter change nothing for its callers.
    - Streams: a reply leaves after every device is silent; the public history is what was played;
      only the current turn of a conversation is heard; a device answers for itself.
    - Models and memory: a tool call is what its fragments spell; reads stay within the person and the
      Realm; every request to a pool of sessions is answered, queued or under way.
    - Tools of devices and tasks: a tool that is offered is one every device declares alike; an
      accepted delegation is queued.
    - Interpreters: whatever a model answers, a proposal is about a device of the request, with a command
      that the verb and the values that were said mean; a pending question is only settled by a sure
      answer; a decision about who speaks next has the shape the session demands.
    - Reading back: the board shows of every turn what its own events say, and a client that follows the
      cursors of the list of turns reads every turn once.
    - Access: nothing is served without a credential that is good now, a session of the local profile rests on
      active rows, forgetting an owner removes its rows and no others, and after its revocations; a
      home command is said not to have run only when it never left.

    ** Fuel and bounds

    The tool loop has as many rounds as the configuration says and its fuel is proved enough
    ([TurnRounds.loop_fuel_suffices]); [gather] is driven by an interleaving whose length is
    bounded by the phases of a call ([ToolFacts.batch_answers_every_call]); the dispatchers
    of the outboxes and the worker run forever in the code, and any number of their iterations here. JSON schemas
    and documents recurse structurally.

    ** Not modelled

    The gRPC and HTTP servers, their codecs and the remaining admin routes (they translate generated
    types); the client of the NATS server; settings and start-up (wiring); metrics, traces, logs
    and the summaries of them; the previews of a persona; the stand-ins of model and memory for tests;
    benchmarks and scripts. *)

From stdpp Require Export prelude strings gmap list sorting.
From Stdlib Require Export ZArith Lia.
From Stdlib Require Export Ascii.

#[global] Open Scope string_scope.
#[global] Open Scope list_scope.
#[global] Open Scope Z_scope.

(** ** Tactics *)

(** Case analysis on the scrutinee of a [match] or [if] of the goal, keeping
    its equation and closing the branches that contradict a hypothesis. *)
Ltac case_goal :=
  match goal with
  | |- context [match ?x with _ => _ end] =>
      lazymatch x with
      | context [match _ with _ => _ end] => fail
      | _ => let E := fresh "E" in destruct x eqn:E; simplify_eq/=
      end
  end.

(** Decides a closed proposition by evaluation. *)
Ltac by_compute := apply (bool_decide_unpack _); vm_compute; exact I.

Ltac case_hyp H :=
  match type of H with
  | context [match ?x with _ => _ end] =>
      lazymatch x with
      | context [match _ with _ => _ end] => fail
      | _ => let E := fresh "E" in destruct x eqn:E; simplify_eq/=
      end
  end.

(** Turns the boolean tests of the code into propositions. *)
Ltac bool_to_prop :=
  repeat match goal with
  | H : (_ && _)%bool = true |- _ => apply andb_true_iff in H as [? ?]
  | H : (_ && _)%bool = false |- _ => apply andb_false_iff in H
  | H : (_ || _)%bool = false |- _ => apply orb_false_iff in H as [? ?]
  | H : (_ || _)%bool = true |- _ => apply orb_true_iff in H
  | H : negb _ = true |- _ => apply negb_true_iff in H
  | H : negb _ = false |- _ => apply negb_false_iff in H
  | H : bool_decide _ = true |- _ => apply bool_decide_eq_true in H
  | H : bool_decide _ = false |- _ => apply bool_decide_eq_false in H
  end.

Create HintDb eidolon.

(** ** Results of fallible code *)

(** The exceptions the modelled code raises, catches or lets through. Those of
    [core/errors.py] carry the class and the message; the [code] of each class
    is [ecode]. [Cancelled] is [asyncio.CancelledError], [GeneratorExit] what
    closing an async generator raises at its [yield]: both are
    [BaseException]s, so [except Exception] does not catch them. *)
Inductive eclass :=
  | EidolonError | AuthError | UnauthenticatedError | PermissionDeniedError
  | TokenRevokedError | NotFoundError | ConflictError | QuotaExceededError
  | RateLimitedError | ConfigError | ValidationError | DependencyError
  | MemoryUnavailableError | LLMUnavailableError | NatsUnavailableError
  | TurnError | TurnCancelledError | TurnTimeoutError | PersonaError
  | EvolutionGuardError | ToolError | ToolPermissionError | ToolTimeoutError
  | GuardrailBlockedError.

Definition ecode (c : eclass) : string :=
  match c with
  | EidolonError => "eidolon.error"
  | AuthError => "eidolon.auth"
  | UnauthenticatedError => "eidolon.unauthenticated"
  | PermissionDeniedError => "eidolon.permission_denied"
  | TokenRevokedError => "eidolon.token_revoked"
  | NotFoundError => "eidolon.not_found"
  | ConflictError => "eidolon.conflict"
  | QuotaExceededError => "eidolon.quota_exceeded"
  | RateLimitedError => "eidolon.rate_limited"
  | ConfigError => "eidolon.config"
  | ValidationError => "eidolon.validation"
  | DependencyError => "eidolon.dependency"
  | MemoryUnavailableError => "eidolon.memory_unavailable"
  | LLMUnavailableError => "eidolon.llm_unavailable"
  | NatsUnavailableError => "eidolon.nats_unavailable"
  | TurnError => "eidolon.turn"
  | TurnCancelledError => "eidolon.turn_cancelled"
  | TurnTimeoutError => "eidolon.turn_timeout"
  | PersonaError => "eidolon.persona"
  | EvolutionGuardError => "eidolon.evolution_guard"
  | ToolError => "eidolon.tool"
  | ToolPermissionError => "eidolon.tool_permission_denied"
  | ToolTimeoutError => "eidolon.tool_timeout"
  | GuardrailBlockedError => "eidolon.guardrail_blocked"
  end.

(** [cls.__name__] *)
Definition eclass_name (c : eclass) : string :=
  match c with
  | EidolonError => "EidolonError"
  | AuthError => "AuthError"
  | UnauthenticatedError => "UnauthenticatedError"
  | PermissionDeniedError => "PermissionDeniedError"
  | TokenRevokedError => "TokenRevokedError"
  | NotFoundError => "NotFoundError"
  | ConflictError => "ConflictError"
  | QuotaExceededError => "QuotaExceededError"
  | RateLimitedError => "RateLimitedError"
  | ConfigError => "ConfigError"
  | ValidationError => "ValidationError"
  | DependencyError => "DependencyError"
  | MemoryUnavailableError => "MemoryUnavailableError"
  | LLMUnavailableError => "LLMUnavailableError"
  | NatsUnavailableError => "NatsUnavailableError"
  | TurnError => "TurnError"
  | TurnCancelledError => "TurnCancelledError"
  | TurnTimeoutError => "TurnTimeoutError"
  | PersonaError => "PersonaError"
  | EvolutionGuardError => "EvolutionGuardError"
  | ToolError => "ToolError"
  | ToolPermissionError => "ToolPermissionError"
  | ToolTimeoutError => "ToolTimeoutError"
  | GuardrailBlockedError => "GuardrailBlockedError"
  end.

(** The direct base class, [None] at the root. *)
Definition ebase (c : eclass) : option eclass :=
  match c with
  | EidolonError => None
  | UnauthenticatedError | PermissionDeniedError | TokenRevokedError => Some AuthError
  | MemoryUnavailableError | LLMUnavailableError | NatsUnavailableError =>
      Some DependencyError
  | TurnCancelledError | TurnTimeoutError => Some TurnError
  | EvolutionGuardError => Some PersonaError
  | ToolPermissionError | ToolTimeoutError => Some ToolError
  | _ => Some EidolonError
  end.

Inductive exn :=
  | Cancelled
  | GeneratorExit
  | Eidolon (c : eclass) (msg : string)
  (** any other [Exception]: its class name and [str(exc)] *)
  | PyError (cls : string) (msg : string).

#[global] Instance eclass_eq_dec : EqDecision eclass.
Proof. solve_decision. Defined.
#[global] Instance exn_eq_dec : EqDecision exn.
Proof. solve_decision. Defined.

(** [except Exception] catches it. *)
Definition is_exception (e : exn) : bool :=
  match e with Cancelled | GeneratorExit => false | _ => true end.

(** [type(exc).__name__] *)
Definition exn_type (e : exn) : string :=
  match e with
  | Cancelled => "CancelledError"
  | GeneratorExit => "GeneratorExit"
  | Eidolon cls _ => eclass_name cls
  | PyError cls _ => cls
  end.

(** [str(exc)]. *)
Definition exn_str (e : exn) : string :=
  match e with
  | Cancelled | GeneratorExit => ""
  | Eidolon _ m | PyError _ m => m
  end.

Inductive res (A : Type) :=
  | Ok (a : A)
  | Err (e : exn).
Arguments Ok {A} a.
Arguments Err {A} e.

#[global] Instance res_ret : MRet res := @Ok.
#[global] Instance res_bind : MBind res := fun A B f m =>
  match m with Ok a => f a | Err e => Err e end.
#[global] Instance res_fmap : FMap res := fun A B f m =>
  match m with Ok a => Ok (f a) | Err e => Err e end.

#[global] Instance res_eq_dec {A} `{EqDecision A} : EqDecision (res A).
Proof. solve_decision. Defined.

Lemma res_bind_ok {A B} (m : res A) (f : A -> res B) b :
  m ≫= f = Ok b <-> exists a, m = Ok a /\ f a = Ok b.
Proof. destruct m; cbn; naive_solver. Qed.

Lemma res_bind_err {A B} (m : res A) (f : A -> res B) e :
  m ≫= f = Err e <-> m = Err e \/ exists a, m = Ok a /\ f a = Err e.
Proof. destruct m; cbn; naive_solver. Qed.

(** ** Python strings

    A [str] is the [string] of its UTF-8 bytes; [chars] cuts it into its
    characters, one short string each. *)

Definition continuation_byte (a : ascii) : bool :=
  let n := N_of_ascii a in ((128 <=? n) && (n <? 192))%N.

Fixpoint chars (s : string) : list string :=
  match s with
  | "" => []
  | String a s' =>
      match chars s' with
      | String b c :: cs =>
          if continuation_byte b then String a (String b c) :: cs
          else String a "" :: String b c :: cs
      | cs => String a "" :: cs
      end
  end.

Fixpoint cat (l : list string) : string :=
  match l with [] => "" | c :: l' => (c +:+ cat l')%string end.

Definition nl : string := String "010" "".

(** [sep.join(l)] *)
Fixpoint py_join (sep : string) (l : list string) : string :=
  match l with
  | [] => ""
  | [c] => c
  | c :: l' => (c +:+ sep +:+ py_join sep l')%string
  end.

(** [len(s)] *)
Definition py_len (s : string) : nat := length (chars s).

(** [s[:n]] for [n >= 0] *)
Definition py_take (n : nat) (s : string) : string := cat (take n (chars s)).

Lemma cat_chars s : cat (chars s) = s.
Proof.
  induction s as [|a s IH]; [done|]. simpl.
  destruct (chars s) as [|[|b c] cs]; simpl in *; [by rewrite <- IH..|].
  destruct (continuation_byte b); simpl; by rewrite <- IH.
Qed.

Lemma append_assoc (s t u : string) : ((s +:+ t) +:+ u = s +:+ (t +:+ u))%string.
Proof. induction s as [|a s IH]; [done|]. exact (f_equal (String a) IH). Qed.

Lemma append_empty_r (s : string) : (s +:+ "" = s)%string.
Proof. induction s as [|a s IH]; [done|]. exact (f_equal (String a) IH). Qed.

Lemma cat_app l1 l2 : cat (l1 ++ l2) = (cat l1 +:+ cat l2)%string.
Proof.
  induction l1 as [|c l1 IH]; simpl; [done|]. by rewrite IH, append_assoc.
Qed.

(** A slice [s[:n]] is a prefix of [s]. *)
Lemma py_take_prefix n s : exists t, s = (py_take n s +:+ t)%string.
Proof.
  exists (cat (drop n (chars s))). unfold py_take.
  by rewrite <- cat_app, take_drop, cat_chars.
Qed.

Lemma py_take_all n s : (py_len s <= n)%nat -> py_take n s = s.
Proof. intros. unfold py_take. rewrite take_ge; [apply cat_chars|done]. Qed.

(** The characters [str.isspace] accepts. *)
Definition spaces : list string :=
  [String "009" ""; String "010" ""; String "011" ""; String "012" ""; String "013" "";
   String "028" ""; String "029" ""; String "030" ""; String "031" ""; " ";
   String "194" (String "133" ""); String "194" (String "160" "");
   String "225" (String "154" (String "128" ""))]
  ++ map (fun n => String "226" (String "128" (String (ascii_of_nat n) "")))
       [128; 129; 130; 131; 132; 133; 134; 135; 136; 137; 138; 168; 169; 175]%nat
  ++ [String "226" (String "129" (String "159" "")); String "227" (String "128" (String "128" ""))].

Definition py_isspace (c : string) : bool := bool_decide (c ∈ spaces).

Fixpoint drop_space (l : list string) : list string :=
  match l with
  | [] => []
  | c :: l' => if py_isspace c then drop_space l' else c :: l'
  end.

(** [s.strip()] *)
Definition py_strip (s : string) : string :=
  cat (rev (drop_space (rev (drop_space (chars s))))).

(** [s.split()]: the maximal runs of non-space characters. *)
Fixpoint split_chars (l : list string) (cur : list string) : list string :=
  match l with
  | [] => if cur is [] then [] else [cat (rev cur)]
  | c :: l' =>
      if py_isspace c
      then (if cur is [] then [] else [cat (rev cur)]) ++ split_chars l' []
      else split_chars l' (c :: cur)
  end.
Definition py_split (s : string) : list string := split_chars (chars s) [].

(** [sub in s] *)
Fixpoint py_contains (sub s : string) : bool :=
  String.prefix sub s || match s with "" => false | String _ s' => py_contains sub s' end.

Definition is_empty (s : string) : bool := match s with "" => true | _ => false end.

(** [x or default] on strings and on optional strings. *)
Definition str_or (s default : string) : string := if is_empty s then default else s.
Definition opt_truthy (o : option string) : bool :=
  match o with Some s => negb (is_empty s) | None => false end.
Definition opt_or (o : option string) (default : string) : string :=
  match o with Some s => str_or s default | None => default end.

Lemma is_empty_spec s : is_empty s = true <-> s = "".
Proof. destruct s; naive_solver. Qed.

Lemma is_empty_false s : is_empty s = false <-> s <> "".
Proof. destruct s; naive_solver. Qed.

(** ASCII lower-casing; the characters outside ASCII go through the Unicode
    case table [tbl], which is data of the interpreter. *)
Definition ascii_lower (a : ascii) : ascii :=
  let n := N_of_ascii a in
  if ((65 <=? n) && (n <=? 90))%N then ascii_of_N (n + 32) else a.
Definition py_lower (tbl : string -> string) (s : string) : string :=
  cat (map (fun c => match c with
                     | String a "" => String (ascii_lower a) ""
                     | _ => tbl c
                     end) (chars s)).

(** ** Slices *)

(** [l[-n:]]: for [n = 0] the whole list, for [n < 0] the list without its
    first [-n] elements. *)
Definition py_tail {A} (n : Z) (l : list A) : list A :=
  if 0 <? n then drop (length l - Z.to_nat n) l else drop (Z.to_nat (- n)) l.

Lemma py_tail_length {A} n (l : list A) :
  0 < n -> (length (py_tail n l) = min (length l) (Z.to_nat n))%nat.
Proof.
  intros Hn. unfold py_tail. destruct (Z.ltb_spec 0 n); [|lia].
  rewrite length_drop. lia.
Qed.

Lemma py_tail_suffix {A} n (l : list A) : py_tail n l `suffix_of` l.
Proof. unfold py_tail. case_match; apply suffix_drop. Qed.

Lemma py_tail_all {A} n (l : list A) : 0 < n -> (Z.of_nat (length l) <= n) -> py_tail n l = l.
Proof.
  intros. unfold py_tail. destruct (Z.ltb_spec 0 n); [|lia].
  by replace (length l - Z.to_nat n)%nat with 0%nat by lia.
Qed.

Lemma py_tail_elem {A} n (l : list A) x : x ∈ py_tail n l -> x ∈ l.
Proof.
  intros Hx. destruct (py_tail_suffix n l) as [k ->]. apply elem_of_app. by right.
Qed.

(** ** Filters *)

Lemma elem_of_filter_list {A} (f : A -> bool) x l : x ∈ List.filter f l <-> x ∈ l /\ f x = true.
Proof. by rewrite !list_elem_of_In, filter_In. Qed.
Lemma fold_left_inv {A B} (P : A -> Prop) (f : A -> B -> A) l a : P a -> (forall a b, b ∈ l -> P a -> P (f a b)) -> P (fold_left f l a).
Proof.
  revert a. induction l as [|b l IH]; simpl; intros a Ha Hf; [done|]. apply IH; [apply Hf; [by left|done]|]. intros a' b' ?. apply Hf. by right.
Qed.

Lemma filter_nil_iff {A} (f : A -> bool) l : List.filter f l = [] <-> forall x, x ∈ l -> f x = false.
Proof.
  induction l as [|x l IH]; simpl; [split; [by intros _ ? ?%elem_of_nil|done]|].
  destruct (f x) eqn:E.
  - split; [done|]. intros H. rewrite (H x) in E by left. done.
  - rewrite IH. split; intros H y Hy; [apply elem_of_cons in Hy as [->|]; auto|apply H; by right].
Qed.

Lemma NoDup_map_filter {A B} (g : A -> B) (f : A -> bool) l : NoDup (map g l) -> NoDup (map g (List.filter f l)).
Proof.
  induction l as [|x l IH]; simpl; [done|]. intros [Hx Hl]%NoDup_cons. destruct (f x); [|by apply IH].
  simpl. apply NoDup_cons. split; [|by apply IH]. intros (y & E & [Hy _]%elem_of_filter_list)%list_elem_of_fmap.
  apply Hx. rewrite E. by apply list_elem_of_fmap_2.
Qed.

Lemma NoDup_map_elem {A B} (f : A -> B) l x y : NoDup (map f l) -> x ∈ l -> y ∈ l -> f x = f y -> x = y.
Proof.
  induction l as [|z l IH]; simpl; [by intros _ ?%elem_of_nil|]. intros [Hz Hl]%NoDup_cons [->|Hx]%elem_of_cons [->|Hy]%elem_of_cons E; try done.
  - destruct Hz. rewrite E. by apply list_elem_of_fmap_2.
  - destruct Hz. rewrite <- E. by apply list_elem_of_fmap_2.
  - by apply IH.
Qed.

(** ** Insertion-ordered dicts *)

Section Dict.
Context {K V : Type} `{EqDecision K}.
Implicit Types (d : list (K * V)) (k : K) (v : V).

(** [d.get(k)] *)
Fixpoint dict_get d k : option V :=
  match d with
  | [] => None
  | (k', v) :: d' => if decide (k = k') then Some v else dict_get d' k
  end.

(** [d[k] = v]: an existing key keeps its place. *)
Fixpoint dict_set d k v : list (K * V) :=
  match d with
  | [] => [(k, v)]
  | (k', v') :: d' =>
      if decide (k = k') then (k', v) :: d' else (k', v') :: dict_set d' k v
  end.

(** [d.pop(k, None)] *)
Fixpoint dict_pop d k : list (K * V) :=
  match d with
  | [] => []
  | (k', v) :: d' => if decide (k = k') then d' else (k', v) :: dict_pop d' k
  end.

Definition dict_has d k : bool := if dict_get d k is Some _ then true else false.

Lemma dict_get_set_eq d k v : dict_get (dict_set d k v) k = Some v.
Proof. induction d as [|[k' v'] d IH]; simpl; repeat (case_decide; simpl); congruence. Qed.

Lemma dict_get_set_ne d k k' v : k <> k' -> dict_get (dict_set d k v) k' = dict_get d k'.
Proof.
  intros. induction d as [|[k1 v1] d IH]; simpl; repeat (case_decide; simplify_eq/=); congruence.
Qed.

Lemma dict_get_elem d k v : dict_get d k = Some v -> (k, v) ∈ d.
Proof.
  induction d as [|[k' v'] d IH]; simpl; [done|]. case_decide; simplify_eq/=.
  - intros [= ->]. by left.
  - intros. right. auto.
Qed.

Lemma dict_get_none d k : dict_get d k = None <-> k ∉ d.*1.
Proof.
  induction d as [|[k' v'] d IH]; simpl; [split; [intros _; apply not_elem_of_nil|done]|].
  rewrite not_elem_of_cons, <- IH. case_decide; naive_solver.
Qed.

Lemma dict_set_keys_in d k v : k ∈ d.*1 -> (dict_set d k v).*1 = d.*1.
Proof.
  induction d as [|[k' v'] d IH]; simpl; [by intros ?%not_elem_of_nil|].
  intros Hin. case_decide; simpl; [done|]. f_equal. apply IH.
  apply elem_of_cons in Hin. naive_solver.
Qed.

Lemma dict_set_keys_new d k v : k ∉ d.*1 -> (dict_set d k v).*1 = d.*1 ++ [k].
Proof.
  induction d as [|[k' v'] d IH]; simpl; [done|].
  rewrite not_elem_of_cons. intros [? Hn]. rewrite decide_False by done.
  simpl. f_equal. by apply IH.
Qed.

Lemma dict_set_nodup d k v : NoDup d.*1 -> NoDup (dict_set d k v).*1.
Proof.
  intros Hd. destruct (decide (k ∈ d.*1)); [by rewrite dict_set_keys_in|].
  rewrite dict_set_keys_new by done.
  apply NoDup_app. split; [done|]. split; [|apply NoDup_singleton].
  intros x Hx ->%list_elem_of_singleton. done.
Qed.

Lemma dict_set_elem d k v k' v' :
  (k', v') ∈ dict_set d k v -> (k' = k /\ v' = v) \/ (k', v') ∈ d.
Proof.
  induction d as [|[k1 v1] d IH]; simpl.
  - rewrite list_elem_of_singleton. naive_solver.
  - case_decide; rewrite !elem_of_cons; naive_solver.
Qed.

Lemma dict_elem_get d k v : NoDup d.*1 -> (k, v) ∈ d -> dict_get d k = Some v.
Proof.
  induction d as [|[k' v'] d IH]; simpl; [by intros _ ?%not_elem_of_nil|].
  rewrite NoDup_cons. intros [Hk Hd] [[= -> ->]|Hin]%elem_of_cons.
  - by rewrite decide_True.
  - rewrite decide_False; [auto|]. intros ->. apply Hk.
    apply list_elem_of_fmap. by exists (k', v).
Qed.

Lemma dict_set_elem_ne d k v k' v' :
  NoDup d.*1 -> (k', v') ∈ dict_set d k v -> (k' = k /\ v' = v) \/ (k' <> k /\ (k', v') ∈ d).
Proof.
  intros Hd Hin. destruct (decide (k' = k)) as [->|Hne].
  - left. split; [done|]. apply (dict_elem_get _ k v') in Hin; [|by apply dict_set_nodup].
    rewrite dict_get_set_eq in Hin. congruence.
  - right. split; [done|]. by apply dict_set_elem in Hin as [[? _]|?].
Qed.

Lemma dict_set_length d k v : (length (dict_set d k v) <= S (length d))%nat.
Proof. induction d as [|[k' v'] d IH]; simpl; [lia|]. case_decide; simpl; lia. Qed.

Lemma dict_set_app d e k v : k ∉ d.*1 -> dict_set (d ++ e) k v = d ++ dict_set e k v.
Proof.
  induction d as [|[k' v'] d IH]; simpl; [done|]. rewrite not_elem_of_cons. intros [Hne Hk].
  case_decide; [congruence|]. by rewrite IH.
Qed.

Lemma dict_set_new d k v : k ∉ d.*1 -> dict_set d k v = d ++ [(k, v)].
Proof. intros H. rewrite <- (app_nil_r d) at 1. by rewrite dict_set_app. Qed.

Lemma dict_set_set d k v v' : dict_set (dict_set d k v) k v' = dict_set d k v'.
Proof. induction d as [|[k1 v1] d IH]; simpl; repeat (case_decide; simplify_eq/=); congruence. Qed.

Lemma dict_pop_get_eq d k : NoDup d.*1 -> dict_get (dict_pop d k) k = None.
Proof.
  induction d as [|[k' v'] d IH]; simpl; [done|]. rewrite NoDup_cons. intros [Hk Hd].
  case_decide; subst; [by apply dict_get_none|]. simpl. by rewrite decide_False, IH.
Qed.

Lemma dict_pop_get_ne d k k' : k <> k' -> dict_get (dict_pop d k) k' = dict_get d k'.
Proof.
  intros. induction d as [|[k1 v1] d IH]; simpl; [done|].
  repeat (case_decide; simplify_eq/=); congruence.
Qed.

Lemma dict_pop_keys_sub d k : (dict_pop d k).*1 `sublist_of` d.*1.
Proof.
  induction d as [|[k' v'] d IH]; simpl; [done|].
  case_decide; [by apply sublist_cons|]. simpl. by apply sublist_skip.
Qed.

Lemma dict_pop_nodup d k : NoDup d.*1 -> NoDup (dict_pop d k).*1.
Proof. intros. eapply sublist_NoDup; [done|apply dict_pop_keys_sub]. Qed.
End Dict.

#[export] Hint Resolve dict_set_nodup dict_pop_nodup : eidolon.
#[export] Hint Rewrite @dict_get_set_eq : eidolon.

(** ** Stable sorting, [sorted(l, key=...)] *)

Section Sorted.
Context {A : Type} (leb : A -> A -> bool).

Fixpoint py_insert (x : A) (l : list A) : list A :=
  match l with
  | [] => [x]
  | y :: l' => if leb x y then x :: y :: l' else y :: py_insert x l'
  end.
Fixpoint py_sorted (l : list A) : list A :=
  match l with [] => [] | x :: l' => py_insert x (py_sorted l') end.

Lemma py_insert_perm x l : py_insert x l ≡ₚ x :: l.
Proof.
  induction l as [|y l IH]; simpl; [done|]. destruct (leb x y); [done|].
  rewrite IH. by rewrite Permutation_swap.
Qed.

Lemma py_sorted_perm l : py_sorted l ≡ₚ l.
Proof. induction l as [|x l IH]; simpl; [done|]. by rewrite py_insert_perm, IH. Qed.

Context (leb_total : forall x y, leb x y = true \/ leb y x = true).
Context (leb_trans : forall x y z, leb x y = true -> leb y z = true -> leb x z = true).

Lemma py_insert_sorted x l :
  StronglySorted (fun a b => leb a b = true) l ->
  StronglySorted (fun a b => leb a b = true) (py_insert x l).
Proof.
  induction 1 as [|y l Hl IH Hy]; simpl; [repeat constructor|].
  destruct (leb x y) eqn:E; constructor; [by constructor| |done|].
  - constructor; [done|]. eapply Forall_impl; [exact Hy|]. eauto.
  - rewrite py_insert_perm. constructor; [|done].
    destruct (leb_total x y); congruence.
Qed.

Lemma py_sorted_sorted l : StronglySorted (fun a b => leb a b = true) (py_sorted l).
Proof. induction l; simpl; [constructor|]. by apply py_insert_sorted. Qed.

Lemma py_sorted_id l :
  StronglySorted (fun a b => leb a b = true) l -> py_sorted l = l.
Proof.
  induction 1 as [|y l Hl IH Hy]; simpl; [done|]. rewrite IH.
  destruct l as [|z l]; simpl; [done|]. inversion Hy; subst. by case_match; simplify_eq.
Qed.

Lemma py_insert_filter (f : A -> bool) x l :
  StronglySorted (fun a b => leb a b = true) l ->
  List.filter f (py_insert x l) = if f x then py_insert x (List.filter f l) else List.filter f l.
Proof.
  induction 1 as [|y l Hl IH Hy]; simpl; [by destruct (f x)|].
  destruct (leb x y) eqn:E; simpl.
  - destruct (f x) eqn:Ex; [|done].
    destruct (f y) eqn:Ey; simpl; [by rewrite E|].
    clear IH. assert (Forall (fun b => leb x b = true) (List.filter f l)) as Hf.
    { apply Forall_forall. intros b [Hb _]%list_elem_of_In%filter_In.
      rewrite Forall_forall in Hy. eapply leb_trans; [exact E|]. apply Hy. by apply list_elem_of_In. }
    destruct (List.filter f l) as [|z l']; [done|]. simpl. apply Forall_cons in Hf as [-> _]. done.
  - rewrite IH. destruct (f x), (f y) eqn:Ey; simpl; by rewrite ?E.
Qed.

Lemma py_sorted_filter (f : A -> bool) l : List.filter f (py_sorted l) = py_sorted (List.filter f l).
Proof.
  induction l as [|x l IH]; simpl; [done|].
  rewrite py_insert_filter by apply py_sorted_sorted. rewrite IH. by destruct (f x).
Qed.
End Sorted.

Lemma StronglySorted_suffix {A} (R : A -> A -> Prop) l1 l2 :
  l1 `suffix_of` l2 -> StronglySorted R l2 -> StronglySorted R l1.
Proof.
  intros [k ->]. induction k as [|x k IH]; simpl; [done|]. intros H. inversion H; subst. auto.
Qed.

(** ** Dynamic values: JSON documents, metadata dicts, tool arguments *)

Inductive pyval :=
  | VNone
  | VBool (b : bool)
  | VInt (z : Z)
  (** a float that is not used in arithmetic here: its [repr] *)
  | VFloat (repr : string)
  | VStr (s : string)
  | VList (l : list pyval)
  | VDict (d : list (string * pyval)).

(** [bool(v)] *)
Definition truthy (v : pyval) : bool :=
  match v with
  | VNone => false
  | VBool b => b
  | VInt z => negb (z =? 0)
  | VFloat r => negb (bool_decide (r = "0.0")) && negb (bool_decide (r = "-0.0"))
  | VStr s => negb (is_empty s)
  | VList l => if l is [] then false else true
  | VDict d => if d is [] then false else true
  end.

(** [bool(o)] for the result of a [dict.get] *)
Definition get_truthy (o : option pyval) : bool :=
  if o is Some v then truthy v else false.

Definition of_opt_str (o : option string) : pyval := if o is Some s then VStr s else VNone.
Definition of_opt_int (o : option Z) : pyval := if o is Some z then VInt z else VNone.
