(* ===== verification/CoreTypes.v ===== *)
(** * The data of [core/types/]: turns, events, tools, messages, model deltas.

    Types that belong to the SDK packages keep only the fields this code reads. *)

From S2P Require Import Prelude.

(** ** [core/types/turn.py] *)

Inductive TurnTrigger :=
  | USER_UTTERANCE | CONTINUATION | PROACTIVE | SIGNAL_ONLY | COORDINATED_REPLY | SYSTEM_TRIGGER.
Definition trigger_value (t : TurnTrigger) : string :=
  match t with
  | USER_UTTERANCE => "user_utterance"
  | CONTINUATION => "continuation"
  | PROACTIVE => "proactive"
  | SIGNAL_ONLY => "signal_only"
  | COORDINATED_REPLY => "coordinated_reply"
  | SYSTEM_TRIGGER => "system"
  end.

Inductive TriageKind := SIMPLE | COMPLEX_LONG | TOOL_DIRECT.
Definition triage_value (t : TriageKind) : string :=
  match t with SIMPLE => "simple" | COMPLEX_LONG => "complex_long" | TOOL_DIRECT => "tool_direct" end.

Module TurnStatus.
Inductive t := OK | CANCELLED | ERRORED | HANDED_OFF.
Definition value (s : t) : string :=
  match s with
  | OK => "ok" | CANCELLED => "cancelled" | ERRORED => "errored" | HANDED_OFF => "handed_off"
  end.
End TurnStatus.

Module FSM.
Inductive t := IDLE | LISTENING | THINKING | SPEAKING | REFLECTING.
Definition value (s : t) : string :=
  match s with
  | IDLE => "idle" | LISTENING => "listening" | THINKING => "thinking"
  | SPEAKING => "speaking" | REFLECTING => "reflecting"
  end.
End FSM.

Module EventKind.
Inductive t :=
  | STATE | DELTA | TOOL_CALL | TOOL_RESULT | CITATION | USAGE | DONE | ERROR | ACK
  | PROGRESS | PRESENTATION | HANDOFF.
#[global] Instance eq_dec : EqDecision t.
Proof. solve_decision. Defined.
End EventKind.

(** A [TurnEvent] without its wall-clock [ts]. *)
Record TurnEvent := mkEvent {
  ev_seq : Z;
  ev_kind : EventKind.t;
  ev_data : list (string * pyval);
}.

Definition event_state (seq : Z) (s : FSM.t) : TurnEvent :=
  mkEvent seq EventKind.STATE [("state", VStr (FSM.value s))].
Definition event_delta (seq : Z) (text : string) (role : option string) : TurnEvent :=
  mkEvent seq EventKind.DELTA
    (("text", VStr text) :: match role with Some r => [("role", VStr r)] | None => [] end).
Definition event_done (seq : Z) (s : TurnStatus.t) (extra : list (string * pyval)) : TurnEvent :=
  mkEvent seq EventKind.DONE (("status", VStr (TurnStatus.value s)) :: extra).
Definition event_error (seq : Z) (code message : string) : TurnEvent :=
  mkEvent seq EventKind.ERROR [("code", VStr code); ("message", VStr message)].

(** ** [core/types/turn_context.py] *)

(** The fields of the SDK's [SpeakerIdentityObservation] this code reads. *)
Record SpeakerObservation := mkSpeaker {
  sp_status : string;
  sp_reason : string;
  sp_person_id : option string;
  sp_display_name : option string;
  (** [profile]: the language and the preferences *)
  sp_profile : option (pyval * list pyval);
}.

Record TurnContext := mkTurnContext {
  owner_id : string;
  companion_id : string;
  device_id : option string;
  memory_realm_id : string;
  genome_id : string;
  trace_id : string;
  request_id : string;
  person_id : option string;
  identity_epoch : option Z;
  person_revision : option Z;
  schema_version : string;
  genome_hash : string;
  realizer_version : string;
  locale : string;
  memory_enabled : bool;
  speaker_observation : option SpeakerObservation;
  source_session_id : option string;
  provisional_memory_save : bool;
  provisional_memory_recall : bool;
}.

(** [TurnContext.__post_init__]: the conditions under which it does not raise
    (the [type(...) is bool] tests are the record's types). *)
Definition turn_context_valid (c : TurnContext) : bool :=
  negb ((c.(provisional_memory_save) || c.(provisional_memory_recall)) &&
        (c.(memory_enabled) || is_empty c.(owner_id) || negb (opt_truthy c.(person_id)) ||
         match c.(identity_epoch) with Some e => e <? 0 | None => true end ||
         match c.(person_revision) with Some r => r <? 1 | None => true end ||
         negb (opt_truthy c.(source_session_id)))).

Definition memory_write_enabled (c : TurnContext) : bool :=
  c.(memory_enabled) || c.(provisional_memory_save).

(** ** [core/types/companion_runtime.py] *)

Record CompanionRuntimeConfig := mkRuntimeConfig {
  rc_model : option string;
  rc_temperature : string;
  rc_tool_allow : list string;
  rc_tool_deny : list string;
  rc_allow_body_control : bool;
  rc_max_tool_iters : option Z;
  rc_max_output_tokens : option Z;
}.

(** ** [core/types/tool.py] *)

(** The tool that hands a task to the worker. *)
Definition DELEGATE_TO_COWORKER_TOOL : string := "delegate_to_coworker".

Inductive Permission := MEMORY_READ | MEMORY_WRITE | NETWORK | FILESYSTEM | SYSTEM_PERM | USER_DATA.
#[global] Instance permission_eq_dec : EqDecision Permission.
Proof. solve_decision. Defined.
Definition permission_value (p : Permission) : string :=
  match p with
  | MEMORY_READ => "memory_read" | MEMORY_WRITE => "memory_write" | NETWORK => "network"
  | FILESYSTEM => "filesystem" | SYSTEM_PERM => "system" | USER_DATA => "user_data"
  end.

Record ToolSchema := mkToolSchema {
  ts_name : string;
  ts_description : string;
  ts_json_schema : list (string * pyval);
  ts_permissions : list Permission;
  ts_timeout_s : string;
  ts_side_effect : bool;
  ts_idempotency_key_template : option string;
  ts_llm_name : option string;
}.

Definition to_openai_function (s : ToolSchema) : pyval :=
  VDict [("type", VStr "function");
         ("function", VDict [("name", VStr (opt_or s.(ts_llm_name) s.(ts_name)));
                             ("description", VStr s.(ts_description));
                             ("parameters", VDict s.(ts_json_schema))])].

Record ToolCall := mkToolCall {
  tc_id : string;
  tc_name : string;
  tc_arguments : list (string * pyval);
}.

Record ToolResult := mkToolResult {
  tr_call_id : string;
  tr_name : string;
  tr_ok : bool;
  tr_content : pyval;
  tr_error_code : option string;
  tr_error_message : option string;
  tr_latency_ms : Z;
  tr_metadata : list (string * pyval);
}.

(** A failed [ToolResult] with the dataclass defaults. *)
Definition tool_failure (call_id name code message : string) : ToolResult :=
  mkToolResult call_id name false VNone (Some code) (Some message) 0 [].

(** ** [core/types/messages.py] *)

Inductive MessageRole := USER | ASSISTANT | SYSTEM | TOOL | PROACTIVE_ROLE.
#[global] Instance message_role_eq_dec : EqDecision MessageRole.
Proof. solve_decision. Defined.
Definition role_value (r : MessageRole) : string :=
  match r with
  | USER => "user" | ASSISTANT => "assistant" | SYSTEM => "system" | TOOL => "tool"
  | PROACTIVE_ROLE => "proactive"
  end.

(** A [datetime]: its wall clock in microseconds since 1970-01-01 00:00, and the
    zone offset in microseconds of an aware one. *)
Record datetime := mkDatetime { dt_us : Z; dt_tz : option Z }.

Record ChatMessage := mkMessage {
  m_id : string;
  m_role : MessageRole;
  m_content : string;
  m_created_at : datetime;
  m_tool_call_id : option string;
  m_tool_name : option string;
  m_tool_calls : list ToolCall;
  m_metadata : list (string * pyval);
}.

(** [ChatMessage(id=..., role=..., content=..., created_at=..., metadata=...)] *)
Definition plain_message (id : string) (role : MessageRole) (content : string) (at_ : datetime)
    (metadata : list (string * pyval)) : ChatMessage :=
  mkMessage id role content at_ None None [] metadata.

(** ** [core/types/llm.py] *)

Inductive LLMFinishReason := STOP | LENGTH | TOOL_CALLS | CONTENT_FILTER | FINISH_ERROR | FINISH_CANCELLED.
#[global] Instance finish_eq_dec : EqDecision LLMFinishReason.
Proof. solve_decision. Defined.

Inductive LLMActivityKind := REASONING | TOOL_CALL_ACTIVITY.
Definition activity_value (k : LLMActivityKind) : string :=
  match k with REASONING => "reasoning" | TOOL_CALL_ACTIVITY => "tool_call" end.

Record LLMUsage := mkUsage { tokens_in : Z; tokens_out : Z }.

Record LLMDelta := mkDelta {
  ld_text_delta : option string;
  ld_activity : option LLMActivityKind;
  ld_tool_call : option ToolCall;
  ld_finish : option LLMFinishReason;
  ld_usage : option LLMUsage;
}.
