(* ===== verification/Guards.v ===== *)
(** * Per-turn policy decisions: the privacy policy, the input and output
      guardrails, the crisis response, and the committed-turn boundary. *)

From S2P Require Import Prelude CoreTypes.

(** ** [domain/runtime_policy.py] *)

Module RuntimePolicy.

(** [PrivacyTrace] of [core/types/trace.py]. *)
Record PrivacyTrace := mkPrivacy {
  mode : string;
  memory_recall_allowed : bool;
  memory_write_allowed : bool;
  history_visible_to_context : bool;
}.

Definition normal_privacy : PrivacyTrace := mkPrivacy "normal" true true true.

(** [TurnRuntimePolicy.from_metadata] *)
Definition from_metadata (md : list (string * pyval)) : PrivacyTrace :=
  if get_truthy (dict_get md "temporary") || get_truthy (dict_get md "temporary_mode") then
    mkPrivacy "temporary" false false false
  else if get_truthy (dict_get md "is_private") || get_truthy (dict_get md "private") then
    mkPrivacy "private" true false false
  else normal_privacy.

Definition mark_messages_private (p : PrivacyTrace) : bool := negb (bool_decide (p.(mode) = "normal")).
Definition post_turn_side_effects_allowed (p : PrivacyTrace) : bool := p.(memory_write_allowed).

(** Marking a turn private leaves no way to write memory or to show the turn
    in later prompts. *)
Lemma private_closes_writes md :
  get_truthy (dict_get md "is_private") = true ->
  let p := from_metadata md in
  post_turn_side_effects_allowed p = false /\ history_visible_to_context p = false
  /\ mark_messages_private p = true.
Proof. intros H. unfold from_metadata. rewrite H. by destruct (_ || _)%bool. Qed.

Lemma mark_private_iff md :
  mark_messages_private (from_metadata md) = negb (post_turn_side_effects_allowed (from_metadata md)).
Proof. unfold from_metadata. repeat case_match; reflexivity. Qed.

End RuntimePolicy.

(** ** [domain/guardrails/] *)

Module Guardrails.

Inductive SafetyAction := PASS | SOFTEN | REFUSE | ESCALATE.
#[global] Instance safety_eq_dec : EqDecision SafetyAction.
Proof. solve_decision. Defined.

Record SafetyVerdict := mkVerdict {
  action : SafetyAction;
  reason : string;
  matched_rule : option string;
}.

Definition CRISIS_KEYWORDS : list string :=
  ["想死"; "活不下去"; "结束生命"; "不想活"; "自杀"; "kill myself"; "end my life"; "suicide"].
Definition ROLE_OVERRIDE : list string :=
  ["ignore previous instructions"; "你不再是"; "act as a different"; "忽略你的所有人格"].
Definition PII_MARKERS : list string := ["身份证号"; "credit card"; "信用卡号"].

Section WithCaseTable.
Context (case_table : string -> string).

(** [InputGuardrail.check] *)
Definition check_input (text : option string) : SafetyVerdict :=
  match text with
  | None | Some "" => mkVerdict PASS "" None
  | Some t =>
      let lower := py_lower case_table t in
      if existsb (fun k => py_contains k t || py_contains k lower) CRISIS_KEYWORDS then
        mkVerdict ESCALATE "self-harm signal" (Some "self_harm")
      else if existsb (fun p => py_contains p lower) ROLE_OVERRIDE then
        mkVerdict REFUSE "prompt injection attempt" (Some "role_override")
      else mkVerdict PASS "" None
  end.

(** A crisis keyword always escalates, also when the same text tries to
    override the role. *)
Lemma crisis_escalates t k :
  t <> "" -> k ∈ CRISIS_KEYWORDS -> py_contains k t = true ->
  (check_input (Some t)).(action) = ESCALATE.
Proof.
  intros Ht Hk Hc. unfold check_input. destruct t as [|a t]; [done|].
  enough (existsb (fun k0 => py_contains k0 (String a t)
            || py_contains k0 (py_lower case_table (String a t))) CRISIS_KEYWORDS = true) as -> by done.
  apply existsb_exists. exists k. split; [by apply list_elem_of_In|]. by rewrite Hc.
Qed.
End WithCaseTable.

(** [OutputGuardrail.check] *)
Definition check_output (output_text : string) (taboos : list string) : SafetyVerdict :=
  if is_empty output_text then mkVerdict PASS "" None
  else match List.find (fun m => py_contains m output_text) PII_MARKERS with
       | Some m => mkVerdict SOFTEN "PII leak" (Some ("pii:" +:+ m)%string)
       | None =>
           match List.find (fun t => negb (is_empty t) && py_contains t output_text) taboos with
           | Some t => mkVerdict SOFTEN "taboo violation" (Some ("taboo:" +:+ t)%string)
           | None => mkVerdict PASS "" None
           end
       end.

(** The output check only ever passes or softens. *)
Lemma check_output_actions o ts :
  (check_output o ts).(action) = PASS \/ (check_output o ts).(action) = SOFTEN.
Proof. unfold check_output. repeat case_match; simpl; auto. Qed.

(** It softens exactly when a marker or a non-empty taboo occurs. *)
Lemma check_output_soften o ts :
  (check_output o ts).(action) = SOFTEN <->
  o <> "" /\ ((exists m, m ∈ PII_MARKERS /\ py_contains m o = true)
              \/ (exists t, t ∈ ts /\ t <> "" /\ py_contains t o = true)).
Proof.
  unfold check_output. destruct (is_empty o) eqn:Eo.
  { apply is_empty_spec in Eo. simpl. naive_solver. }
  apply is_empty_false in Eo.
  destruct (List.find _ PII_MARKERS) as [m|] eqn:Em.
  - apply List.find_some in Em as [? ?]. simpl. split; [|done]. intros _. split; [done|]. left.
    exists m. by rewrite list_elem_of_In.
  - pose proof (List.find_none _ _ Em) as Hm.
    destruct (List.find _ ts) as [t|] eqn:Et; simpl.
    + apply List.find_some in Et as [Hin Ht]. bool_to_prop. split; [|done]. intros _.
      split; [done|]. right. exists t. rewrite list_elem_of_In. split_and!; [done| |done].
      by apply is_empty_false.
    + pose proof (List.find_none _ _ Et) as Hts. split; [done|].
      intros [_ [(m & Hm1 & Hm2)|(t & Ht1 & Ht2 & Ht3)]].
      * rewrite list_elem_of_In in Hm1. by rewrite Hm in Hm2.
      * rewrite list_elem_of_In in Ht1. specialize (Hts _ Ht1). simpl in Hts.
        apply is_empty_false in Ht2. by rewrite Ht2, Ht3 in Hts.
Qed.

(** [CrisisResponse] of [guardrails/crisis.py] *)
Record CrisisResponse := mkCrisis {
  cr_text : string;
  suppress_memory_write : bool;
  crisis_resources : list string;
}.

Definition crisis_reply : CrisisResponse := mkCrisis
  ("我听到你了，谢谢你愿意告诉我。我很担心你现在的感受。" +:+
   "你现在不需要一个人扛——可以拨打这些电话和专业的人聊聊。" +:+
   "我会一直在这。")%string
  true
  ["北京心理危机研究与干预中心：010-82951332 / 010-62716714（24h）";
   "全国心理援助热线：400-161-9995（24h）"].

End Guardrails.

(** ** [domain/agent/committed_turn.py] *)

Module CommittedTurn.

Record CommittedTurnValidation := mkCommitted {
  valid : bool;
  persistence_allowed : bool;
  creason : string;
}.

(** The SDK's [CommittedTurnDecision]: parsing of the metadata (which may raise
    [TypeError] or [ValueError]) and the transcript match. *)
Class DecisionOps := {
  decision : Type;
  decision_from_metadata : option pyval -> res decision;
  matches_text : decision -> option string -> bool;
}.

Section WithDecision.
Context {D : DecisionOps}.

(** [except (TypeError, ValueError)] *)
Definition type_or_value_error (e : exn) : bool :=
  match e with
  | PyError c _ => bool_decide (c = "TypeError") || bool_decide (c = "ValueError")
  | _ => false
  end.

(** [validate_committed_turn]; other exceptions propagate. *)
Definition validate_committed_turn (metadata : option pyval) (text : option string)
    (input_modality : string) : res CommittedTurnValidation :=
  if negb (bool_decide (input_modality = "voice")) then
    Ok (mkCommitted false true "synchronous_text_boundary")
  else match decision_from_metadata metadata with
       | Err e =>
           if type_or_value_error e
           then Ok (mkCommitted false false "missing_or_invalid_turn_decision")
           else Err e
       | Ok d =>
           if matches_text d text then Ok (mkCommitted true true "committed_turn_valid")
           else Ok (mkCommitted false false "committed_turn_transcript_mismatch")
       end.

(** Voice persists only behind a decision bound to this very transcript. *)
Lemma voice_persistence md text v :
  validate_committed_turn md text "voice" = Ok v ->
  v.(persistence_allowed) = true <->
  exists d, decision_from_metadata md = Ok d /\ matches_text d text = true.
Proof.
  unfold validate_committed_turn. rewrite bool_decide_true by done. simpl.
  destruct (decision_from_metadata md) as [d|e]; repeat case_match; intros [= <-]; simpl;
    split; try done; naive_solver.
Qed.
End WithDecision.

End CommittedTurn.
