(* ===== verification/Trace.v ===== *)
(** * [core/types/trace.py]: the diagnostics persisted with every turn. *)

From S2P Require Import Prelude CoreTypes Guards.

Record LatencyBreakdown := mkLatency {
  lb_guard_ms : option Z;
  lb_triage_ms : option Z;
  lb_compile_ms : option Z;
  lb_first_delta_ms : option Z;
  lb_output_ms : option Z;
  lb_tool_ms : Z;
  lb_total_ms : option Z;
}.

Definition latency_to_metadata (l : LatencyBreakdown) : pyval :=
  VDict [("guard_ms", of_opt_int l.(lb_guard_ms));
         ("triage_ms", of_opt_int l.(lb_triage_ms));
         ("compile_ms", of_opt_int l.(lb_compile_ms));
         ("first_delta_ms", of_opt_int l.(lb_first_delta_ms));
         ("output_ms", of_opt_int l.(lb_output_ms));
         ("tool_ms", VInt l.(lb_tool_ms));
         ("total_ms", of_opt_int l.(lb_total_ms))].

Record ToolTrace := mkToolTrace {
  tt_call_id : string;
  tt_name : string;
  tt_ok : bool;
  tt_latency_ms : Z;
  tt_error_code : option string;
  tt_cached : bool;
}.

Definition tool_trace_to_metadata (t : ToolTrace) : pyval :=
  VDict [("call_id", VStr t.(tt_call_id)); ("name", VStr t.(tt_name)); ("ok", VBool t.(tt_ok));
         ("latency_ms", VInt t.(tt_latency_ms)); ("error_code", of_opt_str t.(tt_error_code));
         ("cached", VBool t.(tt_cached))].

Definition privacy_to_metadata (p : RuntimePolicy.PrivacyTrace) : pyval :=
  VDict [("mode", VStr p.(RuntimePolicy.mode));
         ("memory_recall_allowed", VBool p.(RuntimePolicy.memory_recall_allowed));
         ("memory_write_allowed", VBool p.(RuntimePolicy.memory_write_allowed));
         ("history_visible_to_context", VBool p.(RuntimePolicy.history_visible_to_context))].

Record PersonaTrace := mkPersonaTrace {
  pt_companion_id : option string;
  pt_genome_id : option string;
  pt_snapshot_version : option Z;
}.

Definition persona_to_metadata (p : PersonaTrace) : pyval :=
  VDict [("companion_id", of_opt_str p.(pt_companion_id)); ("genome_id", of_opt_str p.(pt_genome_id));
         ("snapshot_version", of_opt_int p.(pt_snapshot_version))].

Record DevelopmentGuardTrace := mkDevGuard {
  dg_context_budget : pyval;
  dg_memory_write_policy : pyval;
  dg_tool_policy : pyval;
}.

Definition dev_guard_to_metadata (d : DevelopmentGuardTrace) : pyval :=
  VDict [("context_budget", d.(dg_context_budget));
         ("memory_write_policy", d.(dg_memory_write_policy));
         ("tool_policy", d.(dg_tool_policy))].

Record TurnTrace := mkTurnTrace {
  tn_turn_id : string;
  tn_conversation_id : string;
  tn_status : string;
  tn_trigger : string;
  tn_triage : option string;
  tn_input_modality : option string;
  tn_model : option string;
  tn_latency : LatencyBreakdown;
  tn_trace_id : option string;
  tn_termination_cause : pyval;
  tn_context_ledger : pyval;
  tn_memory_trace : pyval;
  tn_commitment_context_trace : pyval;
  tn_memory_recall_query : pyval;
  tn_memory_write_trace : pyval;
  tn_tool_trace : list ToolTrace;
  tn_persona : PersonaTrace;
  tn_privacy : RuntimePolicy.PrivacyTrace;
  tn_proactive_reason : pyval;
  tn_harness_snapshot : pyval;
  tn_context_structure_version : pyval;
  tn_history_presentation : pyval;
  tn_context_tags : list pyval;
  tn_interrupted_context_dropped_count : Z;
  tn_stale_generation_dropped : Z;
  tn_tool_repeat_suppressed_count : Z;
  tn_development_guards : DevelopmentGuardTrace;
  tn_usage : list (string * pyval);
}.

Definition TRACE_SCHEMA_VERSION : string := "turn_trace.v1".

(** [TurnTrace.to_metadata]; the context tags are dicts, so [dict(tag)] is the tag. *)
Definition turn_trace_to_metadata (t : TurnTrace) : pyval :=
  VDict
    [("schema_version", VStr TRACE_SCHEMA_VERSION);
     ("boundary", VStr "eidolon_agent.brain");
     ("turn", VDict
        [("turn_id", VStr t.(tn_turn_id));
         ("conversation_id", VStr t.(tn_conversation_id));
         ("status", VStr t.(tn_status));
         ("trigger", VStr t.(tn_trigger));
         ("triage", of_opt_str t.(tn_triage));
         ("input_modality", of_opt_str t.(tn_input_modality));
         ("model", of_opt_str t.(tn_model));
         ("trace_id", of_opt_str t.(tn_trace_id));
         ("termination_cause", t.(tn_termination_cause))]);
     ("latency", latency_to_metadata t.(tn_latency));
     ("context_ledger", t.(tn_context_ledger));
     ("memory_trace", t.(tn_memory_trace));
     ("commitment_context_trace", t.(tn_commitment_context_trace));
     ("memory_recall_query", t.(tn_memory_recall_query));
     ("memory_write_trace", t.(tn_memory_write_trace));
     ("tool_trace", VList (map tool_trace_to_metadata t.(tn_tool_trace)));
     ("persona", persona_to_metadata t.(tn_persona));
     ("privacy", privacy_to_metadata t.(tn_privacy));
     ("proactive_reason", t.(tn_proactive_reason));
     ("harness", t.(tn_harness_snapshot));
     ("context_structure_version", t.(tn_context_structure_version));
     ("history_presentation", t.(tn_history_presentation));
     ("context_tags", VList t.(tn_context_tags));
     ("interrupted_context_dropped_count", VInt t.(tn_interrupted_context_dropped_count));
     ("stale_generation_dropped", VInt t.(tn_stale_generation_dropped));
     ("tool_repeat_suppressed_count", VInt t.(tn_tool_repeat_suppressed_count));
     ("development_guards", dev_guard_to_metadata t.(tn_development_guards));
     ("usage", VDict t.(tn_usage))].
