(* ===== verification/Effects.v ===== *)
(** * A state and exception monad for the asynchronous code, with its logic.

    [M St A] is a computation that reads and writes a state and returns or
    raises. [mtry] and [mfinally] are Python's [try]. Two ways to reason:
    [preserves R m] for a preorder [R] on states that every statement of [m]
    respects, and the triples [triple P m Q E] with a postcondition for the
    normal and one for the exceptional exit. *)

From S2P Require Import Prelude.

Definition M (St A : Type) : Type := St -> res A * St.

Section Monad.
Context {St : Type}.

Definition mret_ {A} (a : A) : M St A := fun s => (Ok a, s).
Definition mbind_ {A B} (m : M St A) (f : A -> M St B) : M St B := fun s =>
  match m s with
  | (Ok a, s') => f a s'
  | (Err e, s') => (Err e, s')
  end.
Definition mraise {A} (e : exn) : M St A := fun s => (Err e, s).
Definition mget : M St St := fun s => (Ok s, s).
Definition mgets {A} (f : St -> A) : M St A := fun s => (Ok (f s), s).
Definition mmodify (f : St -> St) : M St unit := fun s => (Ok tt, f s).
Definition mlift {A} (r : res A) : M St A := fun s => (r, s).
Definition mwhen (b : bool) (m : M St unit) : M St unit := if b then m else mret_ tt.

(** [try: m except ...: h e], where [h e = None] lets [e] through. *)
Definition mtry {A} (m : M St A) (h : exn -> option (M St A)) : M St A := fun s =>
  match m s with
  | (Ok a, s') => (Ok a, s')
  | (Err e, s') => match h e with Some k => k s' | None => (Err e, s') end
  end.

(** [try: m finally: f]: an exception of [f] replaces the outcome of [m]. *)
Definition mfinally {A} (m : M St A) (f : M St unit) : M St A := fun s =>
  let '(r, s') := m s in
  match f s' with
  | (Ok _, s'') => (r, s'')
  | (Err e, s'') => (Err e, s'')
  end.

Fixpoint miter {A} (f : A -> M St unit) (l : list A) : M St unit :=
  match l with
  | [] => mret_ tt
  | x :: l' => mbind_ (f x) (fun _ => miter f l')
  end.
End Monad.

Lemma mbind_ok {St A B} (m : M St A) (k : A -> M St B) s a s' :
  m s = (Ok a, s') -> mbind_ m k s = k a s'.
Proof. intros H. unfold mbind_. by rewrite H. Qed.

Declare Scope eff_scope.
Delimit Scope eff_scope with eff.
Notation "x <-- m ;; k" := (mbind_ m (fun x => k))
  (at level 100, m at next level, right associativity) : eff_scope.
Notation "m ;;; k" := (mbind_ m (fun _ => k))
  (at level 100, right associativity) : eff_scope.

(** ** Preorders every statement respects *)

Section Preserves.
Context {St : Type} (R : St -> St -> Prop) `{!PreOrder R}.

Definition preserves {A} (m : M St A) : Prop := forall s, R s (snd (m s)).

Lemma preserves_ret {A} (a : A) : preserves (mret_ a).
Proof. intros s. simpl. reflexivity. Qed.
Lemma preserves_raise {A} e : preserves (@mraise St A e).
Proof. intros s. simpl. reflexivity. Qed.
Lemma preserves_lift {A} (r : res A) : preserves (mlift r).
Proof. intros s. simpl. reflexivity. Qed.
Lemma preserves_get : preserves mget.
Proof. intros s. simpl. reflexivity. Qed.
Lemma preserves_gets {A} (f : St -> A) : preserves (mgets f).
Proof. intros s. simpl. reflexivity. Qed.
Lemma preserves_modify f : (forall s, R s (f s)) -> preserves (mmodify f).
Proof. intros H s. simpl. apply H. Qed.

Lemma preserves_bind {A B} (m : M St A) (f : A -> M St B) :
  preserves m -> (forall a, preserves (f a)) -> preserves (mbind_ m f).
Proof.
  intros Hm Hf s. unfold mbind_. specialize (Hm s). destruct (m s) as [[a|e] s']; simpl in *.
  - etransitivity; [exact Hm|apply Hf].
  - exact Hm.
Qed.

Lemma preserves_when b m : (b = true -> preserves m) -> preserves (mwhen b m).
Proof. destruct b; simpl; intros; [auto|apply preserves_ret]. Qed.

Lemma preserves_try {A} (m : M St A) h :
  preserves m -> (forall e k, h e = Some k -> preserves k) -> preserves (mtry m h).
Proof.
  intros Hm Hh s. unfold mtry. specialize (Hm s). destruct (m s) as [[a|e] s']; simpl in *; [done|].
  destruct (h e) as [k|] eqn:E; [|done]. etransitivity; [exact Hm|by eapply Hh].
Qed.

Lemma preserves_finally {A} (m : M St A) f : preserves m -> preserves f -> preserves (mfinally m f).
Proof.
  intros Hm Hf s. unfold mfinally. specialize (Hm s). destruct (m s) as [r s']; simpl in *.
  specialize (Hf s'). destruct (f s') as [[?|?] s'']; simpl in *; by etransitivity.
Qed.

Lemma preserves_iter {A} (f : A -> M St unit) l :
  (forall x, preserves (f x)) -> preserves (miter f l).
Proof.
  intros Hf. induction l as [|x l IH]; simpl; [apply preserves_ret|].
  by apply preserves_bind.
Qed.

Lemma preserves_if {A} (b : bool) (m1 m2 : M St A) :
  preserves m1 -> preserves m2 -> preserves (if b then m1 else m2).
Proof. by destruct b. Qed.
End Preserves.

(** ** What a statement can return *)

Section Returns.
Context {St : Type}.

Definition returns {A} (m : M St A) (V : A -> Prop) : Prop := forall s a s', m s = (Ok a, s') -> V a.

Lemma returns_ret {A} (a : A) (V : A -> Prop) : V a -> returns (mret_ a) V.
Proof. by intros HV s b s' [= <- <-]. Qed.
Lemma returns_raise {A} e (V : A -> Prop) : returns (mraise e) V.
Proof. by intros s b s' ?. Qed.
Lemma returns_bind {A B} (m : M St A) (k : A -> M St B) V :
  (forall a, returns (k a) V) -> returns (mbind_ m k) V.
Proof.
  intros Hk s b s'. unfold mbind_. destruct (m s) as [[a|e] s1]; [|done]. apply Hk.
Qed.
Lemma returns_bind_with {A B} (m : M St A) (k : A -> M St B) U V :
  returns m U -> (forall a, U a -> returns (k a) V) -> returns (mbind_ m k) V.
Proof.
  intros Hm Hk s b s'. unfold mbind_. destruct (m s) as [[a|e] s1] eqn:E; [|done].
  apply Hk. by eapply Hm.
Qed.

Lemma preserves_bind_with (R : St -> St -> Prop) `{!PreOrder R} {A B} (m : M St A) (k : A -> M St B) U :
  preserves R m -> returns m U -> (forall a, U a -> preserves R (k a)) -> preserves R (mbind_ m k).
Proof.
  intros Hm Hr Hk s. specialize (Hm s). unfold mbind_. destruct (m s) as [[a|e] s'] eqn:E; simpl in *.
  - etransitivity; [exact Hm|apply Hk; by eapply Hr].
  - exact Hm.
Qed.
End Returns.

(** ** Triples *)

Section Triples.
Context {St : Type}.

Definition triple {A} (P : St -> Prop) (m : M St A) (Q : A -> St -> Prop) (E : exn -> St -> Prop)
  : Prop :=
  forall s, P s -> match m s with (Ok a, s') => Q a s' | (Err e, s') => E e s' end.

Implicit Types (P : St -> Prop).

Lemma triple_ret {A} (a : A) (Q : A -> St -> Prop) E : triple (Q a) (mret_ a) Q E.
Proof. intros s HP. exact HP. Qed.

Lemma triple_raise {A} e (Q : A -> St -> Prop) E : triple (E e) (mraise e) Q E.
Proof. intros s HP. exact HP. Qed.

Lemma triple_bind {A B} P (m : M St A) (f : A -> M St B) Qm Q E :
  triple P m Qm E -> (forall a, triple (Qm a) (f a) Q E) -> triple P (mbind_ m f) Q E.
Proof.
  intros Hm Hf s HP. unfold mbind_. specialize (Hm s HP). destruct (m s) as [[a|e] s']; [|done].
  by apply Hf.
Qed.

Lemma triple_bind_pure {A B} P I (F : A -> Prop) (m : M St A) (f : A -> M St B) Q E :
  triple P m (fun a s => I s /\ F a) E -> (forall a, F a -> triple I (f a) Q E) -> triple P (mbind_ m f) Q E.
Proof. intros Hm Hf. eapply triple_bind; [exact Hm|]. intros a s [Hs Ha]. by apply Hf. Qed.

Lemma triple_conseq {A} P P' (m : M St A) (Q Q' : A -> St -> Prop) (E E' : exn -> St -> Prop) :
  (forall s, P s -> P' s) -> triple P' m Q' E' ->
  (forall a s, Q' a s -> Q a s) -> (forall e s, E' e s -> E e s) -> triple P m Q E.
Proof.
  intros HP Hm HQ HE s Hs. specialize (Hm s (HP s Hs)).
  destruct (m s) as [[a|e] s']; auto.
Qed.

Lemma triple_try {A} P (m : M St A) h Q Em E :
  triple P m Q Em ->
  (forall e, match h e with Some k => triple (Em e) k Q E | None => forall s, Em e s -> E e s end) ->
  triple P (mtry m h) Q E.
Proof.
  intros Hm Hh s HP. unfold mtry. specialize (Hm s HP). destruct (m s) as [[a|e] s']; [done|].
  specialize (Hh e). destruct (h e); [by apply Hh|by apply Hh].
Qed.

Lemma triple_invariant {A} (I : St -> Prop) (m : M St A) :
  preserves (fun s s' => I s -> I s') m -> triple I m (fun _ => I) (fun _ => I).
Proof. intros Hm s Hs. specialize (Hm s Hs). by destruct (m s) as [[a|e] s']. Qed.

Lemma triple_finally {A} P (m : M St A) f Q0 E0 Q E :
  triple P m Q0 E0 ->
  (forall a, triple (Q0 a) f (fun _ => Q a) E) -> (forall e, triple (E0 e) f (fun _ => E e) E) ->
  triple P (mfinally m f) Q E.
Proof.
  intros Hm Hok Herr s HP. unfold mfinally. specialize (Hm s HP).
  destruct (m s) as [[a|e] s']; [specialize (Hok a s' Hm)|specialize (Herr e s' Hm)];
    by destruct (f s') as [[?|?] ?].
Qed.
End Triples.

(** Decomposes a [preserves] goal along the structure of the statement; the
    primitive statements of a component are in the database [effects]. *)
Create HintDb effects.

Ltac preserve_step :=
  lazymatch goal with
  | |- preserves _ (mbind_ _ _) => apply preserves_bind; [typeclasses eauto| |intros ?]
  | |- preserves _ (mret_ _) => apply preserves_ret; typeclasses eauto
  | |- preserves _ (mraise _) => apply preserves_raise; typeclasses eauto
  | |- preserves _ (mlift _) => apply preserves_lift; typeclasses eauto
  | |- preserves _ mget => apply preserves_get; typeclasses eauto
  | |- preserves _ (mgets _) => apply preserves_gets; typeclasses eauto
  | |- preserves _ (mwhen _ _) => apply preserves_when; [typeclasses eauto|intros ?]
  | |- preserves _ (mtry _ _) =>
      apply preserves_try; [typeclasses eauto| |intros ? ? ?]
  | |- preserves _ (mfinally _ _) => apply preserves_finally; [typeclasses eauto| |]
  | |- preserves _ (miter _ _) => apply preserves_iter; [typeclasses eauto|intros ?]
  | |- preserves _ (match ?x with _ => _ end) => let E := fresh "E" in destruct x eqn:E
  end.
Ltac preserve := repeat (first [preserve_step | solve [auto with effects nocore]]).
