(* ===== verification/Presentation.v ===== *)
(** * [domain/agent/presentation.py]: the model's terminal response, checked
      against the tool outcomes of the turn. *)

From S2P Require Import Prelude CoreTypes.

(** The SDK's presentation types: the fields the code reads, and the pydantic
    validators as operations. *)
Record OutputSelection := mkOutputs {
  os_speech : bool;
  os_dialogue_text : bool;
  os_expression : bool;
  os_motion : bool;
}.

Record PresentationCandidate := mkPresCandidate {
  pc_intent : string;
  pc_outcome_ref : option string;
  pc_rest : list (string * pyval);
}.

Record ResponseCandidate := mkRespCandidate {
  public_text : option string;
  presentation : PresentationCandidate;
}.

Record ResponseIntent := mkIntent {
  ri_presentation : PresentationCandidate;
  ri_response_id : string;
  ri_turn_id : string;
  ri_session_id : string;
}.

Class PresentationOps := {
  (** [OutputSelection.model_validate] *)
  outputs_validate : pyval -> res OutputSelection;
  (** [AssistantResponseCandidate.model_validate], [None] for a [ValidationError] *)
  candidate_validate : list (string * pyval) -> option ResponseCandidate;
  (** [PresentationCandidate(intent=i)] *)
  presentation_of : string -> PresentationCandidate;
  (** [ResponseIntent.model_dump(mode="json")] *)
  intent_dump : ResponseIntent -> list (string * pyval);
  (** [AssistantResponseCandidate.model_json_schema()] *)
  candidate_json_schema : list (string * pyval);
}.

Definition RESPONSE_TOOL : string := "eidolon_respond".

Definition invalid_presentation (m : string) : exn := PyError "InvalidPresentationError" m.
Definition is_invalid_presentation (e : exn) : bool :=
  match e with PyError c _ => bool_decide (c = "InvalidPresentationError") | _ => false end.

Section Validate.
Context {P : PresentationOps}.

Definition RESPONSE_SCHEMA : ToolSchema :=
  mkToolSchema RESPONSE_TOOL
    ("Finish this turn with a structured response and expressive intent. " +:+
     "Call this alone after all needed tools finish. Do not output raw text. " +:+
     "acknowledge means heard, not done or memorized. confirm/celebrate require " +:+
     "outcome_ref pointing to a successful, completed tool call in this turn. " +:+
     "Use public_text for the answer when language output is selected. " +:+
     "Expression is supplementary and never substitutes for a verbal answer. " +:+
     "Report only observed tool facts: accepted means pending, not completed. " +:+
     "A long-lived resource state is separate from completion of its command. " +:+
     "For pending work use acknowledge without outcome_ref; do not claim it has finished. " +:+
     "Do not claim memory was saved merely because a background write was queued.")%string
    candidate_json_schema [] "5.0" false None None.

(** [not text or not text.strip()] *)
Definition blank (t : option string) : bool :=
  match t with Some s => is_empty s || is_empty (py_strip s) | None => true end.

(** [schema["properties"]] as a dict; the SDK's schema has it as an object. *)
Definition sub_dict (d : list (string * pyval)) (k : string) : list (string * pyval) :=
  match dict_get d k with Some (VDict p) => p | _ => [] end.
Definition str_list (v : option pyval) : list string :=
  match v with
  | Some (VList l) => omap (fun x => match x with VStr s => Some s | _ => None end) l
  | _ => []
  end.
(** [list(dict.fromkeys(l))] *)
Definition dedup_keys (l : list string) : list string :=
  (fold_left (fun d k => dict_set d k tt) l []).*1.

Definition with_schema (s : ToolSchema) (json : list (string * pyval)) (descr : string) : ToolSchema :=
  mkToolSchema s.(ts_name) descr json s.(ts_permissions) s.(ts_timeout_s) s.(ts_side_effect)
    s.(ts_idempotency_key_template) s.(ts_llm_name).

(** [response_schema] *)
Definition response_schema (outputs : option OutputSelection) : ToolSchema :=
  match outputs with
  | None => RESPONSE_SCHEMA
  | Some o =>
      let schema := candidate_json_schema in
      let language := o.(os_speech) || o.(os_dialogue_text) in
      let expressive := o.(os_expression) || o.(os_motion) in
      let schema :=
        if expressive then schema
        else
          let s := dict_set schema "properties" (VDict (dict_pop (sub_dict schema "properties") "presentation")) in
          let s := dict_pop s "$defs" in
          dict_set s "required"
            (VList (map VStr (List.filter (fun k => negb (bool_decide (k = "presentation")))
                                (str_list (dict_get s "required"))))) in
      if negb expressive && negb language then
        let props := dict_pop (dict_pop (sub_dict schema "properties") "public_text") "schema_version" in
        with_schema RESPONSE_SCHEMA
          (dict_set (dict_set schema "properties" (VDict props)) "required" (VList []))
          "Finish this turn without a public response. Call this alone with {} after all needed tools finish. Do not generate reply text or expressive intent."
      else
        let text :=
          if language then
            VDict [("anyOf", VList [VDict [("type", VStr "string"); ("minLength", VInt 1); ("maxLength", VInt 8192)];
                                    VDict [("type", VStr "null")]]);
                   ("description", VStr "The public answer to speak or display. Null only for intentional intent=none suppression; expression otherwise supplements the answer.")]
          else VDict [("type", VStr "null"); ("description", VStr "No language output selected.")] in
        let schema := dict_set schema "properties"
                        (VDict (dict_set (sub_dict schema "properties") "public_text" text)) in
        let required := dedup_keys (str_list (dict_get schema "required") ++ ["public_text"]
                                    ++ (if expressive then ["presentation"] else [])) in
        with_schema RESPONSE_SCHEMA (dict_set schema "required" (VList (map VStr required)))
          RESPONSE_SCHEMA.(ts_description)
  end.

Definition outcome_completed (o : option ToolResult) : bool :=
  match o with
  | Some r => r.(tr_ok) &&
      match dict_get r.(tr_metadata) "outcome_state" with
      | Some (VStr s) => bool_decide (s = "completed")
      | _ => false
      end
  | None => false
  end.

(** [validate_response] *)
Definition validate_response (arguments : list (string * pyval)) (turn_id session_id : string)
    (outcomes : list (string * ToolResult)) (outputs : option OutputSelection)
    : res (ResponseCandidate * ResponseIntent) :=
  match candidate_validate arguments with
  | None => Err (invalid_presentation "INVALID_RESPONSE_CANDIDATE")
  | Some c =>
      c ← match outputs with
          | Some o =>
              if o.(os_speech) || o.(os_dialogue_text) then
                if negb (bool_decide (c.(presentation).(pc_intent) = "none")) && blank c.(public_text)
                then Err (invalid_presentation "PUBLIC_ANSWER_REQUIRED")
                else Ok c
              else Ok (mkRespCandidate None c.(presentation))
          | None => Ok c
          end;
      let c := match outputs with
               | Some o => if o.(os_expression) || o.(os_motion) then c
                           else mkRespCandidate c.(public_text) (presentation_of "none")
               | None => c
               end in
      let p := c.(presentation) in
      let completed := outcome_completed (dict_get outcomes (opt_or p.(pc_outcome_ref) "")) in
      if (if p.(pc_outcome_ref) is Some _ then true else false) && negb completed then
        Err (invalid_presentation "OUTCOME_NOT_COMPLETED_IN_THIS_TURN")
      else if (bool_decide (p.(pc_intent) = "confirm") || bool_decide (p.(pc_intent) = "celebrate"))
              && negb completed then
        Err (invalid_presentation "SUCCESS_INTENT_REQUIRES_COMPLETED_OUTCOME")
      else Ok (c, mkIntent p ("response:" +:+ turn_id)%string turn_id session_id)
  end.

Record ResolvedResponse := mkResolved {
  rr_candidate : ResponseCandidate;
  rr_intent : ResponseIntent;
  rr_presentation_error : option string;
}.

(** [resolve_response] *)
Definition resolve_response (arguments : list (string * pyval)) (turn_id session_id : string)
    (outcomes : list (string * ToolResult)) (outputs : option OutputSelection) : res ResolvedResponse :=
  match validate_response arguments turn_id session_id outcomes outputs with
  | Ok (c, i) => Ok (mkResolved c i None)
  | Err e =>
      if is_invalid_presentation e then
        '(c, i) ← validate_response (dict_set arguments "presentation" (VDict [("intent", VStr "none")]))
                    turn_id session_id outcomes outputs;
        if blank c.(public_text) then Err e
        else Ok (mkResolved c i (Some (exn_str e)))
      else Err e
  end.

(** *** Lemmas *)

(** A validated intent refers only to a completed outcome, and an intent that
    claims success refers to one. *)
Lemma validate_response_honest args tid sid outs sel c i :
  validate_response args tid sid outs sel = Ok (c, i) ->
  i.(ri_presentation) = c.(presentation) /\ i.(ri_turn_id) = tid /\ i.(ri_session_id) = sid /\
  (is_Some c.(presentation).(pc_outcome_ref)
   \/ c.(presentation).(pc_intent) = "confirm" \/ c.(presentation).(pc_intent) = "celebrate" ->
   outcome_completed (dict_get outs (opt_or c.(presentation).(pc_outcome_ref) "")) = true).
Proof.
  unfold validate_response. destruct (candidate_validate args) as [c0|]; [|done].
  intros H. apply res_bind_ok in H as (c1 & _ & H). cbv zeta in H.
  set (c2 := match sel with Some _ => _ | None => _ end) in H.
  destruct (outcome_completed (dict_get outs (opt_or (pc_outcome_ref (presentation c2)) ""))) eqn:Ec.
  - rewrite !andb_false_r in H. injection H as <- <-. simpl. auto.
  - rewrite !andb_true_r in H.
    destruct (pc_outcome_ref (presentation c2)) eqn:Er; [done|].
    destruct (_ || _)%bool eqn:Eo in H; [done|]. injection H as <- <-. simpl.
    apply orb_false_iff in Eo as [E1 E2]. apply bool_decide_eq_false in E1, E2.
    split_and!; try done. rewrite Er. intros [[? ?]|[?|?]]; done.
Qed.

(** With language output selected, a response that expresses something has a
    public text. *)
Lemma validate_response_text args tid sid outs sel c i :
  validate_response args tid sid outs (Some sel) = Ok (c, i) ->
  (sel.(os_speech) || sel.(os_dialogue_text) = false -> c.(public_text) = None) /\
  (sel.(os_speech) || sel.(os_dialogue_text) = true -> sel.(os_expression) || sel.(os_motion) = true ->
   blank c.(public_text) = true -> c.(presentation).(pc_intent) = "none").
Proof.
  unfold validate_response. destruct (candidate_validate args) as [c0|]; [|done].
  intros H. apply res_bind_ok in H as (c1 & H1 & H).
  assert (exists p, c = mkRespCandidate c1.(public_text) p /\
                    (sel.(os_expression) || sel.(os_motion) = true -> p = c1.(presentation))) as (p & -> & Hp).
  { cbv zeta in H. destruct c1 as [t p1]. destruct (os_expression sel || os_motion sel)%bool;
      repeat (destruct (_ && _)%bool in H; [done|]); injection H as <- _; simpl; eauto.
    eexists. by split. }
  destruct (os_speech sel || os_dialogue_text sel) eqn:El.
  - split; [done|]. intros _ Hx Hb. simpl in *. rewrite (Hp Hx).
    destruct (negb _ && _)%bool eqn:E in H1; [done|]. injection H1 as <-.
    apply andb_false_iff in E as [E|E]; [|congruence].
    by apply negb_false_iff, bool_decide_eq_true in E.
  - split; [|done]. intros _. by injection H1 as <-.
Qed.

Lemma with_schema_name s j d : (with_schema s j d).(ts_name) = s.(ts_name).
Proof. done. Qed.

Lemma response_schema_name o : (response_schema o).(ts_name) = RESPONSE_TOOL.
Proof. unfold response_schema. repeat case_match; done. Qed.
End Validate.
