(* ===== verification/Json.v ===== *)
(** * [json.dumps], [str] and nested-dict access on dynamic values. *)

From S2P Require Import Prelude.

(** Decimal digits of an integer, [str(n)]. *)
Fixpoint digits_fuel (fuel : nat) (n : Z) (acc : string) : string :=
  match fuel with
  | O => acc
  | S f =>
      let acc := String (ascii_of_N (Z.to_N (48 + n mod 10))) acc in
      if n / 10 =? 0 then acc else digits_fuel f (n / 10) acc
  end.
Definition int_str (z : Z) : string :=
  let n := Z.abs z in
  let d := digits_fuel (S (Z.to_nat (Z.log2 n))) n "" in
  if z <? 0 then String "-" d else d.

Definition hex_digit (n : N) : ascii :=
  if (n <? 10)%N then ascii_of_N (48 + n) else ascii_of_N (87 + n).

(** The escape of one character, [ensure_ascii=False]. *)
Definition json_escape_char (a : ascii) : string :=
  let n := N_of_ascii a in
  if (n =? 34)%N then String "\" (String a "")
  else if (n =? 92)%N then String "\" (String a "")
  else if (n =? 8)%N then "\b"
  else if (n =? 9)%N then "\t"
  else if (n =? 10)%N then "\n"
  else if (n =? 12)%N then "\f"
  else if (n =? 13)%N then "\r"
  else if (n <? 32)%N then ("\u00" +:+ String (hex_digit (n / 16)) (String (hex_digit (n mod 16)) ""))%string
  else String a "".
Fixpoint json_escape (s : string) : string :=
  match s with "" => "" | String a s' => (json_escape_char a +:+ json_escape s')%string end.
Definition json_string (s : string) : string :=
  (String (ascii_of_nat 34) (json_escape s) +:+ String (ascii_of_nat 34) "")%string.

(** Key order of [sort_keys=True]: by code point, which is the order of the
    UTF-8 bytes. *)
Fixpoint str_leb (s t : string) : bool :=
  match s, t with
  | "", _ => true
  | _, "" => false
  | String a s', String b t' =>
      let m := N_of_ascii a in let n := N_of_ascii b in
      if (m <? n)%N then true else if (n <? m)%N then false else str_leb s' t'
  end.

Lemma str_leb_total s t : str_leb s t = true \/ str_leb t s = true.
Proof.
  revert t. induction s as [|a s IH]; intros [|b t]; simpl; auto.
  destruct (N.ltb_spec (N_of_ascii a) (N_of_ascii b)); auto.
  destruct (N.ltb_spec (N_of_ascii b) (N_of_ascii a)); auto.
Qed.

Lemma str_leb_trans s t u : str_leb s t = true -> str_leb t u = true -> str_leb s u = true.
Proof.
  revert t u. induction s as [|a s IH]; intros [|b t] [|c u]; simpl; try done.
  destruct (N.ltb_spec (N_of_ascii a) (N_of_ascii b)) as [H1|H1];
  destruct (N.ltb_spec (N_of_ascii b) (N_of_ascii c)) as [H2|H2];
  destruct (N.ltb_spec (N_of_ascii a) (N_of_ascii c)) as [H3|H3]; try done; try (exfalso; lia);
  destruct (N.ltb_spec (N_of_ascii b) (N_of_ascii a)) as [H4|H4];
  destruct (N.ltb_spec (N_of_ascii c) (N_of_ascii b)) as [H5|H5];
  destruct (N.ltb_spec (N_of_ascii c) (N_of_ascii a)) as [H6|H6]; try done; try (exfalso; lia).
  apply IH.
Qed.

Lemma N_of_ascii_inj a b : N_of_ascii a = N_of_ascii b -> a = b.
Proof. intros H. by rewrite <- (ascii_N_embedding a), H, ascii_N_embedding. Qed.

Lemma str_leb_antisym s t : str_leb s t = true -> str_leb t s = true -> s = t.
Proof.
  revert t. induction s as [|a s IH]; intros [|b t]; simpl; try done.
  destruct (N.ltb_spec (N_of_ascii a) (N_of_ascii b));
    destruct (N.ltb_spec (N_of_ascii b) (N_of_ascii a)); try done; try (exfalso; lia).
  intros ? ?. f_equal; [apply N_of_ascii_inj; lia|auto].
Qed.

Definition sort_keys {A} (d : list (string * A)) : list (string * A) :=
  py_sorted (fun x y => str_leb x.1 y.1) d.

(** [json.dumps(v, ensure_ascii=False, sort_keys=sort, separators=(item, colon))] *)
Fixpoint json_dumps (sort : bool) (item colon : string) (v : pyval) : string :=
  match v with
  | VNone => "null"
  | VBool b => if b then "true" else "false"
  | VInt z => int_str z
  | VFloat r => r
  | VStr s => json_string s
  | VList l => ("[" +:+ py_join item (map (json_dumps sort item colon) l) +:+ "]")%string
  | VDict d =>
      let pairs := map (fun '(k, w) => (k, json_dumps sort item colon w)) d in
      let pairs := if sort then sort_keys pairs else pairs in
      ("{" +:+ py_join item (map (fun '(k, w) => (json_string k +:+ colon +:+ w)%string) pairs) +:+ "}")%string
  end.

(** The default separators. *)
Definition json_default (sort : bool) : pyval -> string := json_dumps sort ", " ": ".

Section Repr.
(** [repr] of a [str] depends on the Unicode table of printable characters. *)
Context (str_repr : string -> string).

Fixpoint py_repr (v : pyval) : string :=
  match v with
  | VNone => "None"
  | VBool b => if b then "True" else "False"
  | VInt z => int_str z
  | VFloat r => r
  | VStr s => str_repr s
  | VList l => ("[" +:+ py_join ", " (map py_repr l) +:+ "]")%string
  | VDict d => ("{" +:+ py_join ", " (map (fun '(k, w) => (str_repr k +:+ ": " +:+ py_repr w)%string) d) +:+ "}")%string
  end.

(** [str(v)] *)
Definition py_str (v : pyval) : string := match v with VStr s => s | _ => py_repr v end.
End Repr.

(** [dict(md.get(k) or {})] on a value that is a dict or absent; other values
    make [dict] raise. *)
Definition as_dict_or_empty (o : option pyval) : res (list (string * pyval)) :=
  match o with
  | None => Ok []
  | Some v => if truthy v then match v with VDict d => Ok d | _ => Err (PyError "TypeError" "") end
              else Ok []
  end.

(** [d.setdefault(k, v)] followed by reading it back *)
Definition setdefault (d : list (string * pyval)) (k : string) (v : pyval) : list (string * pyval) :=
  if dict_get d k is Some _ then d else dict_set d k v.

(** ** [v.get(k, d)], [v[k]], [list(v)], [v or {}] on a value of any type *)

Definition type_error : exn := PyError "TypeError" "".
Definition py_get (v : pyval) (k : string) (d : pyval) : res pyval := match v with VDict m => Ok (default d (dict_get m k)) | _ => Err (PyError "AttributeError" "") end.
Definition py_item (v : pyval) (k : string) : res pyval :=
  match v with VDict m => match dict_get m k with Some x => Ok x | None => Err (PyError "KeyError" k) end | _ => Err type_error end.
(** [list(v)] *)
Definition py_list (v : pyval) : res (list pyval) :=
  match v with VList l => Ok l | VDict d => Ok (map (fun x => VStr x.1) d) | VStr s => Ok (map VStr (chars s)) | _ => Err type_error end.
Definition py_length (v : pyval) : res nat := length <$> py_list v.
(** [v or {}] *)
Definition or_empty (v : pyval) : pyval := if truthy v then v else VDict [].
Definition is_dict (v : pyval) : bool := if v is VDict _ then true else false.

Example json_ex :
  json_default true (VDict [("b", VInt (-12)); ("a", VList [VBool true; VStr "x"])])
  = ("{" +:+ json_string "a" +:+ ": [true, " +:+ json_string "x" +:+ "], " +:+ json_string "b" +:+ ": -12}")%string.
Proof. reflexivity. Qed.
