(* ===== verification/TurnState.v ===== *)
(** * The state of one turn of [TurnEngine.run], and its primitive statements.

    The generator runs against an environment that may change the shared
    [ti.metadata] dict and may interrupt it at every suspension point: a
    schedule of [Slot]s, one per point, says what happens there. Emitted events
    and the calls to other components are recorded in order. *)

From S2P Require Import Prelude CoreTypes Guards Presentation Trace Effects.

(** What the engine asks of the other components, in order. *)
Record ObservationArgs := mkObservation {
  (** [person_id] and [identity_epoch], passed only when there is a person *)
  ob_person : option (string * option Z);
  ob_context : TurnContext;
  ob_session_id : string;
  ob_turn_id : string;
  ob_user_text : string;
  ob_assistant_text : string;
  ob_timestamp_iso : string;
  ob_metadata : list (string * pyval);
}.

Record PersistArgs := mkPersist {
  pa_status : TurnStatus.t;
  pa_triage : TriageKind;
  pa_started_at : datetime;
  pa_finished_at : datetime;
  pa_first_delta_ms : option Z;
  pa_total_ms : Z;
  pa_usage_in : Z;
  pa_usage_out : Z;
  pa_error_code : option string;
  pa_timings : list (string * pyval);
  pa_user_text : string;
  pa_assistant_text : string;
  pa_is_private : bool;
}.

Inductive effect :=
  | EAdmit                                            (** conversation guard *)
  | ECrisis                                           (** crisis audit event *)
  | EHistory (turn_id : string) (msgs : list ChatMessage)  (** [replace_turn] *)
  | EObserve (a : ObservationArgs)                    (** [fanout.publish_turn] *)
  | EBackgroundObserve                                (** the same, in the background *)
  | ECompile                                          (** [compiler.compile] *)
  | EAssemble                                         (** body capability provider *)
  | EModel (msgs : list ChatMessage) (tools : list ToolSchema)  (** [llm.stream] *)
  | EDispatch (calls : list ToolCall) (extra : list string) (denied : list string)
  | EDispatchCancelled
  | EExpect (i : ResponseIntent)                      (** [feedback.expect] *)
  | EAwaitReceipt                                     (** [feedback.wait] *)
  | EPersist (a : PersistArgs)                        (** background [_persist_turn] *)
  | ECompleted (s : TurnStatus.t) (t : TriageKind).   (** background [_publish_turn_completed] *)

Inductive interrupt := Cancel | Close.

(** One suspension point: what other tasks wrote into [ti.metadata] meanwhile,
    and whether the generator is cancelled or closed there. *)
Record Slot := mkSlot {
  sl_updates : list (string * pyval);
  sl_interrupt : option interrupt;
}.

(** ** The local variables of [run] *)

Record Timing := mkTiming {
  tm_guard : option Z;
  tm_triage : option Z;
  tm_compile : option Z;
  tm_first_delta : option Z;
  tm_first_activity : option Z;
  tm_output : option Z;
  tm_tool : Z;
  tm_counts : list (string * Z);
}.

Record ToolState := mkToolState {
  tl_trace : list ToolTrace;
  tl_failures : list (string * Z);
  tl_suppressed : Z;
  tl_handoffs : list pyval;
  tl_outcomes : list (string * ToolResult);
  tl_slow_hint : bool;
  tl_announced : list string;
}.

Record Reply := mkReply {
  rp_parts : list string;
  rp_persist : string;
  rp_status : TurnStatus.t;
  rp_error : option string;
  rp_finalized : bool;
  rp_in : Z;
  rp_out : Z;
  rp_policy : RuntimePolicy.PrivacyTrace;
  rp_response : option (ResponseCandidate * ResponseIntent);
}.

Record Stream := mkStream {
  sm_calls : list ToolCall;
  sm_finish : option LLMFinishReason;
}.

Record TState := mkTState {
  w_md : list (string * pyval);
  w_seq : Z;
  w_events : list TurnEvent;
  w_log : list effect;
  w_sched : list Slot;
  w_ticks : nat;
  w_time : Timing;
  w_tools : ToolState;
  w_reply : Reply;
  w_stream : Stream;
}.

Definition upd_tm_guard (f : option Z -> option Z) (r : Timing) : Timing :=
  mkTiming (f r.(tm_guard)) r.(tm_triage) r.(tm_compile) r.(tm_first_delta) r.(tm_first_activity) r.(tm_output) r.(tm_tool) r.(tm_counts).
Definition upd_tm_triage (f : option Z -> option Z) (r : Timing) : Timing :=
  mkTiming r.(tm_guard) (f r.(tm_triage)) r.(tm_compile) r.(tm_first_delta) r.(tm_first_activity) r.(tm_output) r.(tm_tool) r.(tm_counts).
Definition upd_tm_compile (f : option Z -> option Z) (r : Timing) : Timing :=
  mkTiming r.(tm_guard) r.(tm_triage) (f r.(tm_compile)) r.(tm_first_delta) r.(tm_first_activity) r.(tm_output) r.(tm_tool) r.(tm_counts).
Definition upd_tm_first_delta (f : option Z -> option Z) (r : Timing) : Timing :=
  mkTiming r.(tm_guard) r.(tm_triage) r.(tm_compile) (f r.(tm_first_delta)) r.(tm_first_activity) r.(tm_output) r.(tm_tool) r.(tm_counts).
Definition upd_tm_first_activity (f : option Z -> option Z) (r : Timing) : Timing :=
  mkTiming r.(tm_guard) r.(tm_triage) r.(tm_compile) r.(tm_first_delta) (f r.(tm_first_activity)) r.(tm_output) r.(tm_tool) r.(tm_counts).
Definition upd_tm_output (f : option Z -> option Z) (r : Timing) : Timing :=
  mkTiming r.(tm_guard) r.(tm_triage) r.(tm_compile) r.(tm_first_delta) r.(tm_first_activity) (f r.(tm_output)) r.(tm_tool) r.(tm_counts).
Definition upd_tm_tool (f : Z -> Z) (r : Timing) : Timing :=
  mkTiming r.(tm_guard) r.(tm_triage) r.(tm_compile) r.(tm_first_delta) r.(tm_first_activity) r.(tm_output) (f r.(tm_tool)) r.(tm_counts).
Definition upd_tm_counts (f : list (string * Z) -> list (string * Z)) (r : Timing) : Timing :=
  mkTiming r.(tm_guard) r.(tm_triage) r.(tm_compile) r.(tm_first_delta) r.(tm_first_activity) r.(tm_output) r.(tm_tool) (f r.(tm_counts)).

Definition upd_tl_trace (f : list ToolTrace -> list ToolTrace) (r : ToolState) : ToolState :=
  mkToolState (f r.(tl_trace)) r.(tl_failures) r.(tl_suppressed) r.(tl_handoffs) r.(tl_outcomes) r.(tl_slow_hint) r.(tl_announced).
Definition upd_tl_failures (f : list (string * Z) -> list (string * Z)) (r : ToolState) : ToolState :=
  mkToolState r.(tl_trace) (f r.(tl_failures)) r.(tl_suppressed) r.(tl_handoffs) r.(tl_outcomes) r.(tl_slow_hint) r.(tl_announced).
Definition upd_tl_suppressed (f : Z -> Z) (r : ToolState) : ToolState :=
  mkToolState r.(tl_trace) r.(tl_failures) (f r.(tl_suppressed)) r.(tl_handoffs) r.(tl_outcomes) r.(tl_slow_hint) r.(tl_announced).
Definition upd_tl_handoffs (f : list pyval -> list pyval) (r : ToolState) : ToolState :=
  mkToolState r.(tl_trace) r.(tl_failures) r.(tl_suppressed) (f r.(tl_handoffs)) r.(tl_outcomes) r.(tl_slow_hint) r.(tl_announced).
Definition upd_tl_outcomes (f : list (string * ToolResult) -> list (string * ToolResult)) (r : ToolState) : ToolState :=
  mkToolState r.(tl_trace) r.(tl_failures) r.(tl_suppressed) r.(tl_handoffs) (f r.(tl_outcomes)) r.(tl_slow_hint) r.(tl_announced).
Definition upd_tl_slow_hint (f : bool -> bool) (r : ToolState) : ToolState :=
  mkToolState r.(tl_trace) r.(tl_failures) r.(tl_suppressed) r.(tl_handoffs) r.(tl_outcomes) (f r.(tl_slow_hint)) r.(tl_announced).
Definition upd_tl_announced (f : list string -> list string) (r : ToolState) : ToolState :=
  mkToolState r.(tl_trace) r.(tl_failures) r.(tl_suppressed) r.(tl_handoffs) r.(tl_outcomes) r.(tl_slow_hint) (f r.(tl_announced)).

Definition upd_rp_parts (f : list string -> list string) (r : Reply) : Reply :=
  mkReply (f r.(rp_parts)) r.(rp_persist) r.(rp_status) r.(rp_error) r.(rp_finalized) r.(rp_in) r.(rp_out) r.(rp_policy) r.(rp_response).
Definition upd_rp_persist (f : string -> string) (r : Reply) : Reply :=
  mkReply r.(rp_parts) (f r.(rp_persist)) r.(rp_status) r.(rp_error) r.(rp_finalized) r.(rp_in) r.(rp_out) r.(rp_policy) r.(rp_response).
Definition upd_rp_status (f : TurnStatus.t -> TurnStatus.t) (r : Reply) : Reply :=
  mkReply r.(rp_parts) r.(rp_persist) (f r.(rp_status)) r.(rp_error) r.(rp_finalized) r.(rp_in) r.(rp_out) r.(rp_policy) r.(rp_response).
Definition upd_rp_error (f : option string -> option string) (r : Reply) : Reply :=
  mkReply r.(rp_parts) r.(rp_persist) r.(rp_status) (f r.(rp_error)) r.(rp_finalized) r.(rp_in) r.(rp_out) r.(rp_policy) r.(rp_response).
Definition upd_rp_finalized (f : bool -> bool) (r : Reply) : Reply :=
  mkReply r.(rp_parts) r.(rp_persist) r.(rp_status) r.(rp_error) (f r.(rp_finalized)) r.(rp_in) r.(rp_out) r.(rp_policy) r.(rp_response).
Definition upd_rp_in (f : Z -> Z) (r : Reply) : Reply :=
  mkReply r.(rp_parts) r.(rp_persist) r.(rp_status) r.(rp_error) r.(rp_finalized) (f r.(rp_in)) r.(rp_out) r.(rp_policy) r.(rp_response).
Definition upd_rp_out (f : Z -> Z) (r : Reply) : Reply :=
  mkReply r.(rp_parts) r.(rp_persist) r.(rp_status) r.(rp_error) r.(rp_finalized) r.(rp_in) (f r.(rp_out)) r.(rp_policy) r.(rp_response).
Definition upd_rp_policy (f : RuntimePolicy.PrivacyTrace -> RuntimePolicy.PrivacyTrace) (r : Reply) : Reply :=
  mkReply r.(rp_parts) r.(rp_persist) r.(rp_status) r.(rp_error) r.(rp_finalized) r.(rp_in) r.(rp_out) (f r.(rp_policy)) r.(rp_response).
Definition upd_rp_response (f : option (ResponseCandidate * ResponseIntent) -> option (ResponseCandidate * ResponseIntent)) (r : Reply) : Reply :=
  mkReply r.(rp_parts) r.(rp_persist) r.(rp_status) r.(rp_error) r.(rp_finalized) r.(rp_in) r.(rp_out) r.(rp_policy) (f r.(rp_response)).

Definition upd_sm_calls (f : list ToolCall -> list ToolCall) (r : Stream) : Stream :=
  mkStream (f r.(sm_calls)) r.(sm_finish).
Definition upd_sm_finish (f : option LLMFinishReason -> option LLMFinishReason) (r : Stream) : Stream :=
  mkStream r.(sm_calls) (f r.(sm_finish)).

Definition upd_w_md (f : list (string * pyval) -> list (string * pyval)) (r : TState) : TState :=
  mkTState (f r.(w_md)) r.(w_seq) r.(w_events) r.(w_log) r.(w_sched) r.(w_ticks) r.(w_time) r.(w_tools) r.(w_reply) r.(w_stream).
Definition upd_w_seq (f : Z -> Z) (r : TState) : TState :=
  mkTState r.(w_md) (f r.(w_seq)) r.(w_events) r.(w_log) r.(w_sched) r.(w_ticks) r.(w_time) r.(w_tools) r.(w_reply) r.(w_stream).
Definition upd_w_events (f : list TurnEvent -> list TurnEvent) (r : TState) : TState :=
  mkTState r.(w_md) r.(w_seq) (f r.(w_events)) r.(w_log) r.(w_sched) r.(w_ticks) r.(w_time) r.(w_tools) r.(w_reply) r.(w_stream).
Definition upd_w_log (f : list effect -> list effect) (r : TState) : TState :=
  mkTState r.(w_md) r.(w_seq) r.(w_events) (f r.(w_log)) r.(w_sched) r.(w_ticks) r.(w_time) r.(w_tools) r.(w_reply) r.(w_stream).
Definition upd_w_sched (f : list Slot -> list Slot) (r : TState) : TState :=
  mkTState r.(w_md) r.(w_seq) r.(w_events) r.(w_log) (f r.(w_sched)) r.(w_ticks) r.(w_time) r.(w_tools) r.(w_reply) r.(w_stream).
Definition upd_w_ticks (f : nat -> nat) (r : TState) : TState :=
  mkTState r.(w_md) r.(w_seq) r.(w_events) r.(w_log) r.(w_sched) (f r.(w_ticks)) r.(w_time) r.(w_tools) r.(w_reply) r.(w_stream).
Definition upd_w_time (f : Timing -> Timing) (r : TState) : TState :=
  mkTState r.(w_md) r.(w_seq) r.(w_events) r.(w_log) r.(w_sched) r.(w_ticks) (f r.(w_time)) r.(w_tools) r.(w_reply) r.(w_stream).
Definition upd_w_tools (f : ToolState -> ToolState) (r : TState) : TState :=
  mkTState r.(w_md) r.(w_seq) r.(w_events) r.(w_log) r.(w_sched) r.(w_ticks) r.(w_time) (f r.(w_tools)) r.(w_reply) r.(w_stream).
Definition upd_w_reply (f : Reply -> Reply) (r : TState) : TState :=
  mkTState r.(w_md) r.(w_seq) r.(w_events) r.(w_log) r.(w_sched) r.(w_ticks) r.(w_time) r.(w_tools) (f r.(w_reply)) r.(w_stream).
Definition upd_w_stream (f : Stream -> Stream) (r : TState) : TState :=
  mkTState r.(w_md) r.(w_seq) r.(w_events) r.(w_log) r.(w_sched) r.(w_ticks) r.(w_time) r.(w_tools) r.(w_reply) (f r.(w_stream)).

Definition apply_updates (us md : list (string * pyval)) : list (string * pyval) :=
  fold_left (fun d '(k, v) => dict_set d k v) us md.

(** ** Primitive statements *)

(** An [await] ([at_yield = false]) or [yield] ([at_yield = true]). Closing a
    generator is only possible at a [yield]. *)
Definition suspend (at_yield : bool) : M TState unit := fun s =>
  match s.(w_sched) with
  | [] => (Ok tt, s)
  | sl :: rest =>
      let s' := upd_w_md (apply_updates sl.(sl_updates)) (upd_w_sched (fun _ => rest) s) in
      match sl.(sl_interrupt) with
      | Some Cancel => (Err Cancelled, s')
      | Some Close => if at_yield then (Err GeneratorExit, s') else (Ok tt, s')
      | None => (Ok tt, s')
      end
  end.

Definition log_effect (e : effect) : M TState unit := mmodify (upd_w_log (fun l => l ++ [e])).

(** [seq.next()]: the counter starts at [-1]. *)
Definition next_seq : M TState Z := fun s =>
  (Ok (s.(w_seq) + 1), upd_w_seq (fun n => n + 1) s).

(** [yield ev]: the consumer has the event, then the generator waits. *)
Definition yield_event (ev : TurnEvent) : M TState unit :=
  mbind_ (mmodify (upd_w_events (fun l => l ++ [ev]))) (fun _ => suspend true).

(** [yield f(seq.next())] *)
Definition emit (f : Z -> TurnEvent) : M TState unit := mbind_ next_seq (fun n => yield_event (f n)).

Definition md_get (k : string) : M TState (option pyval) := mgets (fun s => dict_get s.(w_md) k).
Definition md_set (k : string) (v : pyval) : M TState unit := mmodify (upd_w_md (fun d => dict_set d k v)).

Definition on_time (f : Timing -> Timing) : M TState unit := mmodify (upd_w_time f).
Definition on_tools (f : ToolState -> ToolState) : M TState unit := mmodify (upd_w_tools f).
Definition on_reply (f : Reply -> Reply) : M TState unit := mmodify (upd_w_reply f).
Definition on_stream (f : Stream -> Stream) : M TState unit := mmodify (upd_w_stream f).

(** A tick of the environment's clocks and identifier source. *)
Definition tick : M TState nat := fun s => (Ok s.(w_ticks), upd_w_ticks S s).

Definition init_state (md : list (string * pyval)) (sched : list Slot) : TState :=
  mkTState md (-1) [] [] sched 0
    (mkTiming None None None None None None 0 [])
    (mkToolState [] [] 0 [] [] false [])
    (mkReply [] "" TurnStatus.OK None false 0 0 RuntimePolicy.normal_privacy None)
    (mkStream [] None).
