(* ===== verification/TurnEngine.v ===== *)
(** * [domain/agent/turn.py]: one turn, end to end.

    [run] is the async generator [TurnEngine.run]: admission, guardrails, the
    early history record, the memory observation, compilation, the model and
    tool loop, the output guardrail, the terminal event, and the exception and
    cleanup paths. The other components are the fields of [Ports]; each may
    depend on everything that happened before (the log). *)

From S2P Require Import Prelude CoreTypes Guards Presentation Trace Effects TurnState Json.
#[local] Open Scope eff_scope.

Definition MAX_FAILURES_PER_TOOL_PER_TURN : Z := 1.

(** [_normalize_guard_mode] *)
Definition normalize_guard_mode (mode : string) : string :=
  if bool_decide (mode ∈ ["enabled"; "shadow"; "disabled"]) then mode else "enabled".

(** What [TurnEngine.__init__] keeps. *)
Record Config := mkConfig {
  c_max_tool_iters : Z;
  c_memory_write_mode : string;
  c_tool_schema_strict : bool;
  c_require_idempotency : bool;
  c_genome_id : option string;
  c_slow_hint_delay_positive : bool;
  c_slow_hint_text : string;
  c_slow_hint_role : string;
  c_has_persister : bool;
  c_has_bus : bool;
  c_fanout_durable : bool;
  c_hidden_tools : list string;
  c_tool_schema_budget_tokens : Z;
}.

(** [TurnInput] without its mutable [metadata], which lives in the state. The
    channel and motion executors are known by the schemas of the tools built
    from them. *)
Record TurnInput := mkTurnInput {
  ti_turn_id : string;
  ti_conversation_id : string;
  ti_session_id : string;
  ti_context : TurnContext;
  ti_input_modality : string;
  ti_trigger : TurnTrigger;
  ti_runtime_config : CompanionRuntimeConfig;
  ti_text : option string;
  ti_has_feedback : bool;
  ti_coordinated : bool;
  ti_motion_tool : option ToolSchema;
  ti_channel_tools : option (list ToolSchema);
  ti_channel_capabilities : list string;
}.

Record Ports := mkPorts {
  (** the conversation guard, [None] when none is installed *)
  p_guard : option (res unit);
  (** publishing the crisis event, [Ok tt] without a bus *)
  p_crisis : list effect -> res unit;
  (** compiled messages, and the keys the compiler writes into the metadata *)
  p_compile : list effect -> list (string * pyval) -> res (list ChatMessage * list (string * pyval));
  p_list_schemas : list ToolSchema;
  p_assemble : option (list effect -> res (list ToolSchema * list string));
  (** the deltas of one model stream, and how it ends *)
  p_stream : list effect -> list ChatMessage -> list ToolSchema -> list LLMDelta * option exn;
  p_dispatch : list effect -> list ToolCall -> res (list ToolResult);
  (** the dispatch outlasts the hint delay *)
  p_slow : list effect -> bool;
  (** [fanout.publish_turn]: the status' [state] and [error] *)
  p_publish_turn : list effect -> ObservationArgs -> res (string * option string);
  p_expect : list effect -> res unit;
  p_receipt : list effect -> res (option (string * pyval));
  p_taboos : list string;
  p_model_id : option string;
  (** clocks and identifiers, indexed by the tick *)
  p_monotonic_us : nat -> Z;
  p_utc : nat -> datetime;
  p_uuid : nat -> string;
  p_isoformat : datetime -> string;
}.

Section Engine.
Context {P : PresentationOps} {D : CommittedTurn.DecisionOps}.
(** the Unicode tables of the interpreter, [int()] of a float or a string, and
    the SDK's face profile name *)
Context (case_table str_repr : string -> string) (int_other : pyval -> res Z) (face_profile : string).
Context (cfg : Config) (pt : Ports) (ti : TurnInput).

Definition monotonic : M TState Z := n <-- tick ;; mret_ (pt.(p_monotonic_us) n).
Definition utc_now : M TState datetime := n <-- tick ;; mret_ (pt.(p_utc) n).
Definition uuid4 : M TState string := n <-- tick ;; mret_ (pt.(p_uuid) n).
(** [int((time.monotonic() - t0) * 1000)] *)
Definition elapsed (t0 : Z) : M TState Z := t <-- monotonic ;; mret_ (Z.quot (t - t0) 1000).

Definition text : string := match ti.(ti_text) with Some t => t | None => "" end.

(** ** Helpers *)

(** [_persona_phrase] *)
Definition persona_phrase (md : list (string * pyval)) (key default : string) : string :=
  match dict_get md "persona_spoken_phrases" with
  | Some (VDict phrases) =>
      match dict_get phrases key with
      | Some (VStr v) => if is_empty (py_strip v) then default else v
      | _ => default
      end
  | _ => default
  end.

(** [_tool_answer_announcement] *)
Definition tool_answer_announcement (md : list (string * pyval)) (call : ToolCall) : string :=
  if bool_decide (call.(tc_name) = DELEGATE_TO_COWORKER_TOOL)
  then persona_phrase md "coworker_delegated" "收到，我已交给后台 coworker 处理，会继续跟进。"
  else "".

(** [_suppressed_tool_result] *)
Definition suppressed_tool_result (call : ToolCall) : ToolResult :=
  mkToolResult call.(tc_id) call.(tc_name) false VNone (Some "tool_repeat_suppressed")
    (Some ("tool " +:+ call.(tc_name) +:+ " already failed in this turn; repeated call was " +:+
           "suppressed. Answer the user from the latest available failure/result " +:+
           "instead of retrying the same tool again.")%string)
    0 [("repeat_suppressed", VBool true)].

(** [_merge_tool_results]: for a repeated call id the last result wins. *)
Definition merge_tool_results (calls : list ToolCall) (results : list ToolResult) : list ToolResult :=
  let by_call_id := fold_left (fun d r => dict_set d r.(tr_call_id) r) results [] in
  omap (fun c => dict_get by_call_id c.(tc_id)) calls.

Definition content_dict (v : pyval) : list (string * pyval) :=
  match v with VDict d => d | _ => [] end.

(** [_handoff_from_tool_result] *)
Definition handoff_of (r : ToolResult) : option (pyval * pyval) :=
  if negb (bool_decide (r.(tr_name) = DELEGATE_TO_COWORKER_TOOL)) || negb r.(tr_ok) then None
  else
    let content := content_dict r.(tr_content) in
    match dict_get content "task_id", dict_get content "progress_subject" with
    | Some t, Some p => if truthy t && truthy p then Some (t, p) else None
    | _, _ => None
    end.

(** [_handoff_summary_from_tool_result] *)
Definition handoff_summary (r : ToolResult) : pyval :=
  let content := content_dict r.(tr_content) in
  VDict [("tool_name", VStr r.(tr_name));
         ("task_id", default VNone (dict_get content "task_id"));
         ("accepted", VBool (get_truthy (dict_get content "accepted")));
         ("latency_ms", VInt r.(tr_latency_ms))].

(** [_update_harness_snapshot_tools] *)
Definition update_harness_snapshot_tools (names : list string) (budget : list (string * pyval))
  : M TState unit :=
  cur <-- md_get "harness_snapshot" ;;
  snapshot <-- mlift (as_dict_or_empty cur) ;;
  let snapshot := setdefault snapshot "kind" (VStr "realtime_agent_harness") in
  let tools := fold_left (fun d '(k, v) => dict_set d k v) budget
                 [("visible_names", VList (map VStr names))] in
  md_set "harness_snapshot" (VDict (dict_set snapshot "tools" (VDict tools))).

(** [_update_harness_snapshot_handoffs] *)
Definition update_harness_snapshot_handoffs : M TState unit :=
  cur <-- md_get "harness_snapshot" ;;
  snapshot <-- mlift (as_dict_or_empty cur) ;;
  let snapshot := setdefault snapshot "kind" (VStr "realtime_agent_harness") in
  hs <-- mgets (fun s => s.(w_tools).(tl_handoffs)) ;;
  md_set "harness_snapshot" (VDict (dict_set snapshot "handoffs" (VList hs))).

(** [skipped_reason] of [_memory_write_trace] *)
Definition memory_write_skipped (md : list (string * pyval)) (policy : RuntimePolicy.PrivacyTrace)
  : option string :=
  let ctx := ti.(ti_context) in
  let mode := normalize_guard_mode cfg.(c_memory_write_mode) in
  if negb (memory_write_enabled ctx) then Some "unidentified_person"
  else if ctx.(provisional_memory_save)
          && negb (bool_decide (ctx.(source_session_id) = Some ti.(ti_session_id)))
       then Some "provisional_session_mismatch"
  else if bool_decide (mode = "disabled") then Some "policy_disabled"
  else if bool_decide (ti.(ti_input_modality) = "voice")
          && negb match dict_get md "committed_turn_persistence_allowed" with
                  | Some (VBool true) => true | _ => false end
       then Some "uncommitted_voice_turn"
  else if is_empty text then Some "empty_user_text"
  else if negb (RuntimePolicy.post_turn_side_effects_allowed policy) then Some "privacy_policy"
  else if bool_decide (mode = "shadow") then Some "shadow_only"
  else None.

Definition ingest_policy : string :=
  if ti.(ti_context).(provisional_memory_save) then "provisional_source" else "semantic_steward".

(** [_memory_write_trace] *)
Definition memory_write_trace (md : list (string * pyval)) (policy : RuntimePolicy.PrivacyTrace)
  : list (string * pyval) :=
  let mode := normalize_guard_mode cfg.(c_memory_write_mode) in
  let skipped := memory_write_skipped md policy in
  [("trace_kind", VStr "memory_turn_observation");
   ("durable_result", VStr "async_memory_worker");
   ("source_turn_id", VStr ti.(ti_turn_id));
   ("conversation_id", VStr ti.(ti_conversation_id));
   ("privacy_mode", VStr policy.(RuntimePolicy.mode));
   ("mode", VStr mode);
   ("shadow_only", VBool (bool_decide (mode = "shadow")));
   ("ingest_policy", VStr ingest_policy);
   ("fanout_allowed", VBool (if skipped is None then true else false));
   ("skipped_reason", of_opt_str skipped);
   ("enqueue_state", default VNone (dict_get md "memory_observation_state"));
   ("enqueue_ms", default VNone (dict_get md "memory_observation_enqueue_ms"))].

(** [_development_guard_trace] *)
Definition development_guard_trace (md mwt : list (string * pyval)) : res DevelopmentGuardTrace :=
  guards ← as_dict_or_empty (dict_get md "development_guards");
  let get k := default VNone (dict_get mwt k) in
  Ok (mkDevGuard (default VNone (dict_get guards "context_budget"))
        (VDict [("mode", get "mode"); ("shadow_only", VBool (truthy (get "shadow_only")));
                ("fanout_allowed", VBool (truthy (get "fanout_allowed")));
                ("skipped_reason", get "skipped_reason"); ("ingest_policy", get "ingest_policy")])
        (VDict [("schema_strict", VBool cfg.(c_tool_schema_strict));
                ("require_idempotency_for_side_effect_tools", VBool cfg.(c_require_idempotency));
                ("max_tool_iters", VInt cfg.(c_max_tool_iters))])).

(** [_duration] *)
Definition duration (end_ms start_ms : option Z) : option Z :=
  match end_ms with Some e => Some (e - default 0 start_ms) | None => None end.

(** ** History and memory side effects *)

Definition turn_message_id (turn_id : string) (seq : Z) : string :=
  ("msg_" +:+ turn_id +:+ "_" +:+ int_str seq)%string.

(** [speaker_source] of [domain/history/source.py] *)
Definition speaker_source (o : option SpeakerObservation) : pyval :=
  match o with
  | None => VDict [("status", VStr "unrecorded")]
  | Some o =>
      VDict ([("status", VStr o.(sp_status)); ("reason", VStr o.(sp_reason))] ++
             if bool_decide (o.(sp_status) = "identified") && opt_truthy o.(sp_person_id)
             then [("person_id", of_opt_str o.(sp_person_id))] else [])
  end.

(** The messages [_remember_turn] stores. *)
Definition turn_messages (md : list (string * pyval)) (assistant_text : string)
    (started_at now : datetime) (turn_status : string) : list ChatMessage :=
  let policy := RuntimePolicy.from_metadata md in
  let metadata :=
    [("turn_id", VStr ti.(ti_turn_id)); ("turn_started_at", VStr (pt.(p_isoformat) started_at));
     ("turn_status", VStr turn_status)] ++
    (if RuntimePolicy.mark_messages_private policy then [("is_private", VBool true)] else []) in
  (if is_empty text then []
   else [plain_message (turn_message_id ti.(ti_turn_id) 0) USER text started_at
           (metadata ++ [("seq_in_turn", VInt 0);
                         ("speaker_source", speaker_source ti.(ti_context).(speaker_observation))])]) ++
  (if is_empty assistant_text then []
   else [plain_message (turn_message_id ti.(ti_turn_id) 1) ASSISTANT assistant_text now
           (metadata ++ [("seq_in_turn", VInt 1)] ++
            match dict_get md "capability_references" with
            | Some v => if truthy v then [("capability_references", v);
                                          ("reference_session_id", VStr ti.(ti_session_id))] else []
            | None => []
            end)]).

(** [_remember_turn] *)
Definition remember_turn (assistant_text : string) (started_at : datetime) (turn_status : string)
  : M TState unit :=
  md <-- mgets w_md ;;
  if get_truthy (dict_get md "speculative") then mret_ tt
  else match dict_get md "committed_turn_persistence_allowed" with
       | None => mraise (PyError "KeyError" "committed_turn_persistence_allowed")
       | Some allowed =>
           if negb (truthy allowed) then mret_ tt
           else
             now <-- (if is_empty assistant_text then mret_ started_at else utc_now) ;;
             let messages := turn_messages md assistant_text started_at now turn_status in
             suspend false ;;; log_effect (EHistory ti.(ti_turn_id) messages)
       end.

(** The call [_publish_memory_observation] makes, when it makes one. *)
Definition observation (md : list (string * pyval)) (started_at : datetime) : option ObservationArgs :=
  let ctx := ti.(ti_context) in
  if negb (memory_write_enabled ctx) then None
  else if ctx.(provisional_memory_save)
          && negb (bool_decide (ctx.(source_session_id) = Some ti.(ti_session_id))) then None
  else
    let policy := RuntimePolicy.from_metadata md in
    Some (mkObservation
      (match ctx.(person_id) with Some p => Some (p, ctx.(identity_epoch)) | None => None end)
      ctx ti.(ti_session_id) ti.(ti_turn_id) text "" (pt.(p_isoformat) started_at)
      ([("memory_ingest_policy", VStr ingest_policy)] ++
       (if ctx.(provisional_memory_save) then [("person_attribution", VStr "provisional")] else []) ++
       [("source_component", VStr "turn_observer");
        ("conversation_id", VStr ti.(ti_conversation_id));
        ("genome_id", of_opt_str cfg.(c_genome_id));
        ("privacy_mode", VStr policy.(RuntimePolicy.mode))])).

(** [_publish_memory_observation] *)
Definition publish_memory_observation (started_at : datetime) : M TState unit :=
  md <-- mgets w_md ;;
  match observation md started_at with
  | None => mret_ tt
  | Some a =>
      mtry
        (log_effect (EObserve a) ;;;
         suspend false ;;;
         r <-- mgets (fun s => pt.(p_publish_turn) s.(w_log) a) ;;
         status <-- mlift r ;;
         md_set "memory_observation_state" (VStr status.1) ;;;
         mwhen (opt_truthy status.2) (md_set "memory_observation_error" (of_opt_str status.2)))
        (fun e => if is_exception e
                  then Some (md_set "memory_observation_state" (VStr "enqueue_failed")) else None)
  end.

(** ** Tool assembly, [_tool_schemas] *)

(** [ToolVisibilityPolicy.filter] *)
Definition visibility_filter (schemas : list ToolSchema) (allow deny : list string) : list ToolSchema :=
  List.filter (fun s => negb (bool_decide (s.(ts_name) ∈ deny)) &&
                        (bool_decide (allow = []) || bool_decide (s.(ts_name) ∈ allow))) schemas.

Definition names (l : list ToolSchema) : list string := map ts_name l.

(** The harness hides its own tools from the model. *)
Definition visible_tool_schemas (schemas : list ToolSchema) : list ToolSchema :=
  List.filter (fun s => negb (bool_decide (s.(ts_name) ∈ cfg.(c_hidden_tools)))) schemas.

(** The last step of [_tool_schemas]: hide, and keep in the overlay only what
    is visible. *)
Definition finish_tools (schemas : list ToolSchema) (overlay : list string)
  : list ToolSchema * list string :=
  let visible := visible_tool_schemas schemas in
  (visible, List.filter (fun n => bool_decide (n ∈ names visible)) overlay).

Definition tool_schemas : M TState (list ToolSchema * list string) :=
  let rc := ti.(ti_runtime_config) in
  let schemas := visibility_filter pt.(p_list_schemas) rc.(rc_tool_allow) rc.(rc_tool_deny) in
  caps <-- match pt.(p_assemble) with
           | Some assemble =>
               if rc.(rc_allow_body_control) then
                 log_effect EAssemble ;;; suspend false ;;;
                 r <-- mgets (fun s => assemble s.(w_log)) ;; mlift r
               else mret_ ([], [])
           | None => mret_ ([], [])
           end ;;
  let not_denied n := negb (bool_decide (n ∈ rc.(rc_tool_deny))) in
  let schemas := schemas ++ List.filter (fun s => not_denied s.(ts_name)) caps.1 in
  let overlay := List.filter not_denied caps.2 in
  md <-- mgets w_md ;;
  let motion :=
    match ti.(ti_motion_tool) with
    | Some tool =>
        if rc.(rc_allow_body_control) && negb (get_truthy (dict_get md "speculative"))
           && match dict_get md "motion_profile" with
              | Some (VStr p) => bool_decide (p = "stackchan.head.v1") | _ => false
              end
           && match dict_get (content_dict (default VNone (dict_get md "selected_outputs"))) "motion" with
              | Some (VBool true) => true | _ => false end
        then visibility_filter [tool] rc.(rc_tool_allow) rc.(rc_tool_deny) else []
    | None => []
    end in
  let schemas := schemas ++ motion in
  let overlay := overlay ++ names motion in
  let channel :=
    match ti.(ti_channel_tools) with
    | Some tools =>
        visibility_filter
          (List.filter (fun t => bool_decide (t.(ts_name) ∈ ti.(ti_channel_capabilities))) tools)
          rc.(rc_tool_allow) rc.(rc_tool_deny)
    | None => []
    end in
  mret_ (finish_tools (schemas ++ channel) (overlay ++ names channel)).

(** [RealtimeAgentHarness.tool_schema_budget] *)
Definition estimate_tool_schema_tokens (s : ToolSchema) : Z :=
  Z.max 1 (Z.of_nat (py_len (json_default true (to_openai_function s))) / 3).
Definition tool_schema_budget (schemas : list ToolSchema) : list (string * pyval) :=
  let tokens_by_name := fold_left (fun d s => dict_set d s.(ts_name) (estimate_tool_schema_tokens s)) schemas [] in
  let total := fold_left Z.add (tokens_by_name.*2) 0 in
  [("schema_count", VInt (Z.of_nat (length schemas)));
   ("schema_token_estimate", VInt total);
   ("schema_budget_tokens", VInt cfg.(c_tool_schema_budget_tokens));
   ("schema_budget_exceeded", VBool (cfg.(c_tool_schema_budget_tokens) <? total));
   ("tokens_by_name", VDict (map (fun '(k, n) => (k, VInt n)) tokens_by_name))].

(** ** The model stream *)

Definition note_first_delta (t0 : Z) : M TState unit :=
  first <-- mgets (fun s => s.(w_time).(tm_first_delta)) ;;
  match first with
  | Some _ => mret_ tt
  | None => e <-- elapsed t0 ;; on_time (upd_tm_first_delta (fun _ => Some e))
  end.

Definition add_part (t : string) : M TState unit := on_reply (upd_rp_parts (fun l => l ++ [t])).

(** The body of [async for delta in self._llm.stream(...)]. *)
Definition on_activity (t0 : Z) (d : LLMDelta) : M TState unit :=
  match d.(ld_activity) with
  | None => mret_ tt
  | Some k =>
      let kind := activity_value k in
      first <-- mgets (fun s => s.(w_time).(tm_first_activity)) ;;
      match first with
      | Some _ => mret_ tt
      | None => e <-- elapsed t0 ;; on_time (upd_tm_first_activity (fun _ => Some e))
      end ;;;
      on_time (upd_tm_counts (fun c => dict_set c kind (default 0 (dict_get c kind) + 1))) ;;;
      emit (fun n => mkEvent n EventKind.PROGRESS [("phase", VStr "model"); ("kind", VStr kind)])
  end.

Definition on_text (pm : bool) (t0 : Z) (d : LLMDelta) : M TState unit :=
  match d.(ld_text_delta) with
  | Some t =>
      mwhen (negb (is_empty t) && negb pm)
        (note_first_delta t0 ;;; add_part t ;;; emit (fun n => event_delta n t None))
  | None => mret_ tt
  end.

Definition on_tool_call (pm : bool) (t0 : Z) (d : LLMDelta) : M TState unit :=
  match d.(ld_tool_call) with
  | None => mret_ tt
  | Some call =>
      on_stream (upd_sm_calls (fun l => l ++ [call])) ;;;
      mwhen (negb pm || negb (bool_decide (call.(tc_name) = RESPONSE_TOOL)))
        (md <-- mgets w_md ;;
         announced <-- mgets (fun s => s.(w_tools).(tl_announced)) ;;
         let a := if pm then "" else tool_answer_announcement md call in
         mwhen (negb (is_empty a) && negb (bool_decide (a ∈ announced)))
           (on_tools (upd_tl_announced (fun l => l ++ [a])) ;;;
            note_first_delta t0 ;;; add_part a ;;; emit (fun n => event_delta n a None)) ;;;
         emit (fun n => mkEvent n EventKind.TOOL_CALL
                 [("id", VStr call.(tc_id)); ("name", VStr call.(tc_name));
                  ("arguments", VDict call.(tc_arguments))]))
  end.

Definition on_usage (d : LLMDelta) : M TState unit :=
  match d.(ld_usage) with
  | None => mret_ tt
  | Some u =>
      on_reply (upd_rp_in (fun n => n + u.(tokens_in))) ;;;
      on_reply (upd_rp_out (fun n => n + u.(tokens_out))) ;;;
      emit (fun n => mkEvent n EventKind.USAGE
              [("tokens_in", VInt u.(tokens_in)); ("tokens_out", VInt u.(tokens_out))])
  end.

Definition on_delta (pm : bool) (t0 : Z) (d : LLMDelta) : M TState unit :=
  suspend false ;;;
  on_activity t0 d ;;; on_text pm t0 d ;;; on_tool_call pm t0 d ;;; on_usage d ;;;
  match d.(ld_finish) with
  | Some f => on_stream (upd_sm_finish (fun _ => Some f))
  | None => mret_ tt
  end.

Definition consume_stream (pm : bool) (t0 : Z) (messages : list ChatMessage) (tools : list ToolSchema)
  : M TState unit :=
  on_stream (fun _ => mkStream [] None) ;;;
  log_effect (EModel messages tools) ;;;
  out <-- mgets (fun s => pt.(p_stream) s.(w_log) messages tools) ;;
  miter (on_delta pm t0) out.1 ;;;
  suspend false ;;;
  match out.2 with Some e => mraise e | None => mret_ tt end.

(** ** One round of tool dispatch *)

Definition may_dispatch (failures : list (string * Z)) (call : ToolCall) : bool :=
  default 0 (dict_get failures call.(tc_name)) <? MAX_FAILURES_PER_TOOL_PER_TURN.

(** Waiting for the dispatch task, with the spoken hint for slow tools;
    leaving early cancels the task. *)
Definition run_dispatch (pm : bool) (t0 : Z) (calls : list ToolCall) (extra : list string)
  : M TState (list ToolResult) :=
  log_effect (EDispatch calls extra ti.(ti_runtime_config).(rc_tool_deny)) ;;;
  mtry
    (emitted <-- mgets (fun s => s.(w_tools).(tl_slow_hint)) ;;
     mwhen (negb emitted && negb pm && cfg.(c_slow_hint_delay_positive)
            && existsb (fun c => negb (bool_decide (c.(tc_name) = DELEGATE_TO_COWORKER_TOOL))) calls)
       (suspend false ;;;
        slow <-- mgets (fun s => pt.(p_slow) s.(w_log)) ;;
        mwhen slow
          (on_tools (upd_tl_slow_hint (fun _ => true)) ;;;
           note_first_delta t0 ;;;
           md <-- mgets w_md ;;
           emit (fun n => event_delta n (persona_phrase md "slow_tool_hint" cfg.(c_slow_hint_text))
                            (Some cfg.(c_slow_hint_role))))) ;;;
     suspend false)
    (fun e => Some (log_effect EDispatchCancelled ;;; mraise e)) ;;;
  r <-- mgets (fun s => pt.(p_dispatch) s.(w_log) calls) ;;
  mlift r.

Definition count_failure (r : ToolResult) (failures : list (string * Z)) : list (string * Z) :=
  if r.(tr_ok) then dict_pop failures r.(tr_name)
  else dict_set failures r.(tr_name) (default 0 (dict_get failures r.(tr_name)) + 1).

Definition trace_of (r : ToolResult) : ToolTrace :=
  mkToolTrace r.(tr_call_id) r.(tr_name) r.(tr_ok) r.(tr_latency_ms) r.(tr_error_code)
    (get_truthy (dict_get r.(tr_metadata) "idempotent_cache")).

(** [capability_references]: bounded, and only of successful results. *)
Definition retain_references (r : ToolResult) : M TState unit :=
  match dict_get r.(tr_metadata) "reference_context" with
  | Some (VDict (_ :: _ as refs)) =>
      mwhen (r.(tr_ok) && (Z.of_nat (String.length (json_default false (VDict refs))) <=? 8192))
        (cur <-- md_get "capability_references" ;;
         retained <-- mlift match cur with
                            | None => Ok []
                            | Some (VList l) => Ok l
                            | Some _ => Err (PyError "TypeError" "")
                            end ;;
         md_set "capability_references"
           (VList (py_tail 4 (retained ++ [VDict [("tool", VStr r.(tr_name)); ("call_id", VStr r.(tr_call_id));
                                                  ("objects", VDict refs)]]))))
  | _ => mret_ tt
  end.

(** The text of the TOOL message fed back to the model. *)
Definition tool_message_content (r : ToolResult) : string :=
  if r.(tr_ok) then
    match dict_get r.(tr_metadata) "outcome_state" with
    | Some (VStr o) =>
        if bool_decide (o ∈ ["accepted"; "completed"; "failed"])
        then py_str str_repr (VDict [("outcome_state", VStr o); ("result", r.(tr_content))])
        else py_str str_repr r.(tr_content)
    | _ => py_str str_repr r.(tr_content)
    end
  else opt_or r.(tr_error_message) "".

Definition on_result (now : datetime) (r : ToolResult) : M TState ChatMessage :=
  on_tools (upd_tl_outcomes (fun d => dict_set d r.(tr_call_id) r)) ;;;
  retain_references r ;;;
  emit (fun n => mkEvent n EventKind.TOOL_RESULT
          [("name", VStr r.(tr_name)); ("ok", VBool r.(tr_ok)); ("content", r.(tr_content));
           ("error", of_opt_str r.(tr_error_code))]) ;;;
  match handoff_of r with
  | None => mret_ tt
  | Some (task, progress) =>
      n <-- next_seq ;;
      on_tools (upd_tl_handoffs (fun l => l ++ [handoff_summary r])) ;;;
      update_harness_snapshot_handoffs ;;;
      yield_event (mkEvent n EventKind.HANDOFF [("task_id", task); ("progress_subject", progress)])
  end ;;;
  id <-- uuid4 ;;
  mret_ (mkMessage id TOOL (tool_message_content r) now (Some r.(tr_call_id)) (Some r.(tr_name)) [] []).

Fixpoint on_results (now : datetime) (rs : list ToolResult) : M TState (list ChatMessage) :=
  match rs with
  | [] => mret_ []
  | r :: rs' => m <-- on_result now r ;; ms <-- on_results now rs' ;; mret_ (m :: ms)
  end.

Definition record_results (results : list ToolResult) : M TState unit :=
  on_tools (upd_tl_failures (fun f => fold_left (fun f r => count_failure r f) results f)) ;;;
  on_tools (upd_tl_trace (fun l => l ++ map trace_of results)).

(** From the model's calls to the messages appended for the next model call. *)
Definition dispatch_round (pm : bool) (t0 : Z) (calls : list ToolCall) (extra : list string)
  : M TState (list ChatMessage) :=
  failures <-- mgets (fun s => s.(w_tools).(tl_failures)) ;;
  let dispatch_calls := List.filter (may_dispatch failures) calls in
  let suppressed := List.filter (fun c => negb (may_dispatch failures c)) calls in
  on_tools (upd_tl_suppressed (fun n => n + Z.of_nat (length suppressed))) ;;;
  tool_t0 <-- monotonic ;;
  dispatched <-- (if dispatch_calls is [] then mret_ [] else run_dispatch pm t0 dispatch_calls extra) ;;
  dt <-- elapsed tool_t0 ;;
  on_time (upd_tm_tool (fun n => n + dt)) ;;;
  let results := merge_tool_results calls (dispatched ++ map suppressed_tool_result suppressed) in
  record_results results ;;;
  now <-- utc_now ;;
  tool_messages <-- on_results now results ;;
  id <-- uuid4 ;;
  mret_ (mkMessage id ASSISTANT "" now None None calls [] :: tool_messages).

(** ** The model and tool loop

    [while True] makes one model call per round and goes round again only
    after a dispatch, at most [max_tool_iters] times; [fuel] counts the rounds
    and [out_of_fuel] is what running out of it would raise. *)

Definition out_of_fuel : exn := PyError "OutOfFuel" "".

Definition finish_presentation (call : ToolCall) (calls : list ToolCall)
    (finish : option LLMFinishReason) (outputs : option OutputSelection) : M TState unit :=
  if negb (bool_decide (length calls = 1%nat)) || negb (bool_decide (finish = Some TOOL_CALLS)) then
    mraise (invalid_presentation "TERMINAL_RESPONSE_MUST_BE_COMPLETE_AND_ALONE")
  else
    outcomes <-- mgets (fun s => s.(w_tools).(tl_outcomes)) ;;
    resolved <-- mlift (resolve_response call.(tc_arguments) ti.(ti_turn_id) ti.(ti_session_id)
                          outcomes outputs) ;;
    on_reply (upd_rp_response (fun _ => Some (resolved.(rr_candidate), resolved.(rr_intent)))) ;;;
    match resolved.(rr_presentation_error) with
    | Some e =>
        mwhen (negb (is_empty e))
          (md_set "presentation_error" (VStr e) ;;; md_set "presentation_delivery" (VStr "rejected"))
    | None => mret_ tt
    end.

Fixpoint tool_loop (fuel : nat) (pm : bool) (t0 : Z) (outputs : option OutputSelection)
    (tools : list ToolSchema) (extra : list string) (tool_iters : Z) (messages : list ChatMessage)
  : M TState unit :=
  match fuel with
  | O => mraise out_of_fuel
  | S fuel =>
      consume_stream pm t0 messages tools ;;;
      calls <-- mgets (fun s => s.(w_stream).(sm_calls)) ;;
      finish <-- mgets (fun s => s.(w_stream).(sm_finish)) ;;
      let terminal := if pm then List.filter (fun c => bool_decide (c.(tc_name) = RESPONSE_TOOL)) calls else [] in
      match terminal with
      | call :: _ => finish_presentation call calls finish outputs
      | [] =>
          mwhen (bool_decide (finish = Some LENGTH)) (md_set "output_truncated" (VBool true)) ;;;
          if bool_decide (finish = Some TOOL_CALLS) && negb (bool_decide (length calls = 0%nat)) then
            if ti.(ti_coordinated) then
              mraise (PyError "PermissionError" "coordinated replies do not authorize tool actions")
            else if cfg.(c_max_tool_iters) <=? tool_iters then
              emit (fun n => event_error n "tool_loop_exceeded"
                               ("exceeded max_tool_iters=" +:+ int_str cfg.(c_max_tool_iters))%string)
            else
              appended <-- dispatch_round pm t0 calls extra ;;
              tool_loop fuel pm t0 outputs tools extra (tool_iters + 1) (messages ++ appended)
          else mret_ tt
      end
  end.

(** Rounds the loop can make. *)
Definition loop_fuel : nat := S (Z.to_nat cfg.(c_max_tool_iters)).

(** ** The stages of the body *)

Definition safe_intent (intent : string) : ResponseIntent :=
  mkIntent (presentation_of intent) ("response:" +:+ ti.(ti_turn_id))%string ti.(ti_turn_id) ti.(ti_session_id).

Definition emit_presentation (i : ResponseIntent) : M TState unit :=
  emit (fun n => mkEvent n EventKind.PRESENTATION (intent_dump i)).

Definition set_persist (t : string) : M TState unit := on_reply (upd_rp_persist (fun _ => t)).
Definition set_finalized : M TState unit := on_reply (upd_rp_finalized (fun _ => true)).
Definition current_status : M TState string := mgets (fun s => TurnStatus.value s.(w_reply).(rp_status)).

Definition emit_done (payload : list (string * pyval)) : M TState unit :=
  emit (fun n => event_done n TurnStatus.OK payload).

Definition deliver_crisis (pm speculative : bool) (started_at : datetime) : M TState unit :=
  log_effect ECrisis ;;; suspend false ;;;
  r <-- mgets (fun s => pt.(p_crisis) s.(w_log)) ;;
  mlift r ;;;
  let crisis := Guardrails.crisis_reply in
  set_persist crisis.(Guardrails.cr_text) ;;;
  emit (fun n => event_state n FSM.SPEAKING) ;;;
  mwhen (pm && negb speculative) (emit_presentation (safe_intent "comfort")) ;;;
  emit (fun n => event_delta n crisis.(Guardrails.cr_text) None) ;;;
  st <-- current_status ;;
  remember_turn crisis.(Guardrails.cr_text) started_at st ;;;
  set_finalized.

Definition crisis_stage (pm speculative : bool) (started_at : datetime) : M TState unit :=
  deliver_crisis pm speculative started_at ;;;
  emit_done [("crisis", VBool true);
             ("resources", VList (map VStr Guardrails.crisis_reply.(Guardrails.crisis_resources)))].

Definition refusal : string := "我不能那样做，不过我可以继续陪你聊点别的。".

Definition deliver_refusal (pm speculative : bool) (started_at : datetime) : M TState unit :=
  set_persist refusal ;;;
  mwhen (pm && negb speculative) (emit_presentation (safe_intent "decline")) ;;;
  emit (fun n => event_delta n refusal None) ;;;
  st <-- current_status ;;
  remember_turn refusal started_at st ;;;
  set_finalized.

Definition refuse_stage (pm speculative : bool) (started_at : datetime) : M TState unit :=
  deliver_refusal pm speculative started_at ;;; emit_done [].

Definition observe_stage (speculative : bool) (started_at : datetime) : M TState unit :=
  md <-- mgets w_md ;;
  policy <-- mgets (fun s => s.(w_reply).(rp_policy)) ;;
  md_set "memory_write_trace" (VDict (memory_write_trace md policy)) ;;;
  mwhen (negb speculative && (if memory_write_skipped md policy is None then true else false))
    (md_set "memory_observation_scheduled" (VBool true) ;;;
     if cfg.(c_fanout_durable) then
       t <-- monotonic ;;
       publish_memory_observation started_at ;;;
       e <-- elapsed t ;;
       md_set "memory_observation_enqueue_ms" (VInt e)
     else log_effect EBackgroundObserve).

(** Compilation, tool assembly and the structured-response tool. *)
Definition prepare_stage (pm : bool) (t0 : Z) (selected : option OutputSelection)
  : M TState (list ChatMessage * list ToolSchema * list string * option OutputSelection) :=
  log_effect ECompile ;;; suspend false ;;;
  r <-- mgets (fun s => pt.(p_compile) s.(w_log) s.(w_md)) ;;
  compiled <-- mlift r ;;
  mmodify (upd_w_md (apply_updates compiled.2)) ;;;
  e <-- elapsed t0 ;; on_time (upd_tm_compile (fun _ => Some e)) ;;;
  tx <-- (if ti.(ti_coordinated) then mret_ ([], []) else tool_schemas) ;;
  prepared <--
    (if pm then
       if existsb (fun t => bool_decide (t.(ts_name) = RESPONSE_TOOL)) tx.1 then
         mraise (PyError "ValueError" "RESERVED_RESPONSE_TOOL_COLLISION")
       else
         so <-- md_get "selected_outputs" ;;
         sel <-- match so with Some v => o <-- mlift (outputs_validate v) ;; mret_ (Some o) | None => mret_ None end ;;
         let schema := response_schema sel in
         id <-- uuid4 ;;
         now <-- utc_now ;;
         mret_ (compiled.1 ++
                  [plain_message id SYSTEM
                     (schema.(ts_description) +:+ " Selected outputs: " +:+
                      py_str str_repr (default (VDict []) so))%string now []],
                tx.1 ++ [schema], sel)
     else mret_ (compiled.1, tx.1, selected)) ;;
  let '(messages, tools, sel) := prepared in
  let budget := tool_schema_budget tools in
  guards <-- md_get "development_guards" ;;
  gd <-- mlift match guards with
               | None => Ok []
               | Some (VDict d) => Ok d
               | Some _ => Err (PyError "TypeError" "")
               end ;;
  md_set "development_guards" (VDict (dict_set gd "tool_schema_budget" (VDict budget))) ;;;
  update_harness_snapshot_tools (names tools) budget ;;;
  mret_ (messages, tools, tx.2, sel).

Definition opt_z (o : option Z) : pyval := of_opt_int o.

(** The output guardrail, the presentation event and the history record. *)
Definition deliver_reply (pm speculative : bool) (t0 : Z) (started_at : datetime) : M TState unit :=
  response <-- mgets (fun s => s.(w_reply).(rp_response)) ;;
  mwhen (pm && (if response is None then true else false))
    (mraise (invalid_presentation "STRUCTURED_RESPONSE_REQUIRED")) ;;;
  parts <-- mgets (fun s => s.(w_reply).(rp_parts)) ;;
  md <-- mgets w_md ;;
  let answer := match response with Some (c, _) => default "" c.(public_text) | None => cat parts end in
  let soften := bool_decide ((Guardrails.check_output answer pt.(p_taboos)).(Guardrails.action) = Guardrails.SOFTEN) in
  let prefix := persona_phrase md "soften_prefix" "（让我换个说法）" in
  let final := if soften then (prefix +:+ answer)%string else answer in
  mwhen (soften && negb pm) (emit (fun n => event_delta n prefix None)) ;;;
  final <--
    match response with
    | Some (_, intent) =>
        if speculative then mret_ final
        else
          md_set "response_intent" (VDict (intent_dump intent)) ;;;
          mmodify (upd_w_md (fun d => setdefault d "presentation_delivery" (VStr "unconfirmed"))) ;;;
          mwhen (ti.(ti_has_feedback) && negb (bool_decide (intent.(ri_presentation).(pc_intent) = "none")))
            (log_effect (EExpect intent) ;;; r <-- mgets (fun s => pt.(p_expect) s.(w_log)) ;; mlift r) ;;;
          emit_presentation intent ;;;
          if negb (is_empty final) then
            md_set "language_delivery" (VStr "unconfirmed") ;;;
            on_reply (upd_rp_parts (fun _ => [final])) ;;;
            emit (fun n => event_delta n final None) ;;;
            mret_ final
          else
            mret_ ("[表达意图：" +:+ intent.(ri_presentation).(pc_intent) +:+ "；设备展示状态：unconfirmed]")%string
    | None => mret_ final
    end ;;
  set_persist final ;;;
  e <-- elapsed t0 ;; on_time (upd_tm_output (fun _ => Some e)) ;;;
  st <-- current_status ;;
  remember_turn final started_at st ;;;
  set_finalized.

(** The presentation receipt, awaited after the terminal event. *)
Definition await_receipt (speculative : bool) : M TState unit :=
  response <-- mgets (fun s => s.(w_reply).(rp_response)) ;;
  match response with
  | Some (_, intent) =>
      mwhen (negb speculative && ti.(ti_has_feedback)
             && negb (bool_decide (intent.(ri_presentation).(pc_intent) = "none")))
        (log_effect EAwaitReceipt ;;; suspend false ;;;
         r <-- mgets (fun s => pt.(p_receipt) s.(w_log)) ;;
         receipt <-- mlift r ;;
         match receipt with
         | Some (status, dump) =>
             md_set "presentation_delivery" (VStr status) ;;; md_set "presentation_receipt" dump
         | None => mret_ tt
         end)
  | None => mret_ tt
  end.

Definition output_stage (pm speculative : bool) (t0 : Z) (started_at : datetime) : M TState unit :=
  deliver_reply pm speculative t0 started_at ;;;
  first <-- mgets (fun s => s.(w_time).(tm_first_delta)) ;;
  emit_done [("triage", VStr (triage_value SIMPLE)); ("first_delta_ms", opt_z first)] ;;;
  await_receipt speculative.

(** The [try] body. *)
Definition body (pm speculative cancelled_during_admission : bool) (selected : option OutputSelection)
    (t0 : Z) (started_at : datetime) : M TState unit :=
  let verdict := Guardrails.check_input case_table ti.(ti_text) in
  let escalate := bool_decide (verdict.(Guardrails.action) = Guardrails.ESCALATE) in
  g <-- elapsed t0 ;; on_time (upd_tm_guard (fun _ => Some g)) ;;;
  mwhen escalate
    (md_set "is_private" (VBool true) ;;;
     md <-- mgets w_md ;;
     on_reply (upd_rp_policy (fun _ => RuntimePolicy.from_metadata md))) ;;;
  remember_turn "" started_at "active" ;;;
  mwhen cancelled_during_admission (mraise Cancelled) ;;;
  if escalate then crisis_stage pm speculative started_at
  else if bool_decide (verdict.(Guardrails.action) = Guardrails.REFUSE) then
    refuse_stage pm speculative started_at
  else
    observe_stage speculative started_at ;;;
    e <-- elapsed t0 ;; on_time (upd_tm_triage (fun _ => Some e)) ;;;
    emit (fun n => event_state n FSM.THINKING) ;;;
    prepared <-- prepare_stage pm t0 selected ;;
    let '(messages, tools, extra, outputs) := prepared in
    emit (fun n => event_state n FSM.SPEAKING) ;;;
    tool_loop loop_fuel pm t0 outputs tools extra 0 messages ;;;
    output_stage pm speculative t0 started_at.

(** ** Exceptions and cleanup *)

(** [int(v)] *)
Definition py_int (v : pyval) : res Z :=
  match v with
  | VInt z => Ok z
  | VBool b => Ok (if b then 1 else 0)
  | VFloat _ | VStr _ => int_other v
  | _ => Err (PyError "TypeError" "")
  end.

(** [int(metadata.get(k) or 0)] *)
Definition int_or_zero (o : option pyval) : res Z :=
  match o with Some v => if truthy v then py_int v else Ok 0 | None => Ok 0 end.

Definition set_outcome (s : TurnStatus.t) (code : string) : M TState unit :=
  on_reply (upd_rp_status (fun _ => s)) ;;; on_reply (upd_rp_error (fun _ => Some code)).

(** What the user heard of a cancelled answer. *)
Definition heard_text (md : list (string * pyval)) (parts : list string) : res string :=
  match dict_get md "cancel_played_chars" with
  | None | Some VNone => Ok (cat parts)
  | Some v => n ← py_int v; Ok (py_take (Z.to_nat (Z.max 0 n)) (cat parts))
  end.

Definition on_cancelled (started_at : datetime) : M TState unit :=
  set_outcome TurnStatus.CANCELLED (ecode TurnCancelledError) ;;;
  md <-- mgets w_md ;;
  parts <-- mgets (fun s => s.(w_reply).(rp_parts)) ;;
  heard <-- mlift (heard_text md parts) ;;
  set_persist heard ;;;
  remember_turn heard started_at (TurnStatus.value TurnStatus.CANCELLED) ;;;
  set_finalized ;;;
  emit (fun n => event_error n (ecode TurnCancelledError) "cancelled") ;;;
  mraise Cancelled.

Definition on_errored (code message : string) : M TState unit :=
  set_outcome TurnStatus.ERRORED code ;;;
  emit (fun n => event_error n code message).

(** The [except] clauses, in order. *)
Definition on_exception (started_at : datetime) (e : exn) : option (M TState unit) :=
  match e with
  | Cancelled => Some (on_cancelled started_at)
  | GeneratorExit => None
  | Eidolon GuardrailBlockedError m => Some (on_errored (ecode GuardrailBlockedError) m)
  | _ => if is_invalid_presentation e then Some (on_errored "invalid_presentation" (exn_str e))
         else Some (on_errored "internal" (exn_str e))
  end.

Definition md_of (md : list (string * pyval)) (k : string) : pyval := default VNone (dict_get md k).

(** [timings], with the [TurnTrace] inside. *)
Definition persist_timings (s : TState) (total_ms : Z) (mwt : list (string * pyval))
    (guards : DevelopmentGuardTrace) : res (list (string * pyval)) :=
  let md := s.(w_md) in let t := s.(w_time) in let tl := s.(w_tools) in let rp := s.(w_reply) in
  let tags := match dict_get md "context_tags" with
              | Some v => if truthy v then v else VList [] | None => VList [] end in
  dropped ← int_or_zero (dict_get md "interrupted_context_dropped_count");
  stale ← int_or_zero (dict_get md "stale_generation_dropped");
  let or_zero k := match dict_get md k with Some v => if truthy v then v else VInt 0 | None => VInt 0 end in
  let trace := mkTurnTrace ti.(ti_turn_id) ti.(ti_conversation_id) (TurnStatus.value rp.(rp_status))
    (trigger_value ti.(ti_trigger)) (Some (triage_value SIMPLE)) (Some ti.(ti_input_modality)) pt.(p_model_id)
    (mkLatency (duration t.(tm_guard) None) (duration t.(tm_triage) t.(tm_guard))
       (duration t.(tm_compile) t.(tm_triage)) (duration t.(tm_first_delta) t.(tm_compile))
       (duration t.(tm_output) t.(tm_first_delta)) t.(tm_tool) (Some total_ms))
    (Some ti.(ti_context).(trace_id)) (md_of md "termination_cause") (md_of md "context_ledger")
    (md_of md "memory_trace") (md_of md "commitment_context_trace") (md_of md "memory_recall_query")
    (VDict mwt) tl.(tl_trace)
    (mkPersonaTrace (Some ti.(ti_context).(companion_id)) cfg.(c_genome_id) None) rp.(rp_policy)
    (md_of md "proactive_reason") (md_of md "harness_snapshot") (md_of md "context_structure_version")
    (md_of md "history_presentation") (match tags with VList l => l | _ => [] end)
    dropped stale tl.(tl_suppressed) guards
    [("tokens_in", VInt rp.(rp_in)); ("tokens_out", VInt rp.(rp_out))] in
  Ok [("guard_ms", opt_z t.(tm_guard)); ("triage_ms", opt_z t.(tm_triage));
      ("compile_ms", opt_z t.(tm_compile)); ("first_delta_ms", opt_z t.(tm_first_delta));
      ("first_model_activity_ms", opt_z t.(tm_first_activity));
      ("model_activity_counts", VDict (map (fun '(k, n) => (k, VInt n)) t.(tm_counts)));
      ("output_ms", opt_z t.(tm_output)); ("tool_ms", VInt t.(tm_tool));
      ("context_ledger", md_of md "context_ledger"); ("memory_trace", md_of md "memory_trace");
      ("commitment_context_trace", md_of md "commitment_context_trace");
      ("memory_recall_query", md_of md "memory_recall_query");
      ("memory_write_trace", VDict mwt);
      ("tool_trace", VList (map tool_trace_to_metadata tl.(tl_trace)));
      ("context_structure_version", md_of md "context_structure_version");
      ("history_presentation", md_of md "history_presentation");
      ("context_tags", tags);
      ("interrupted_context_dropped_count", or_zero "interrupted_context_dropped_count");
      ("stale_generation_dropped", or_zero "stale_generation_dropped");
      ("tool_repeat_suppressed_count", VInt tl.(tl_suppressed));
      ("turn_trace", turn_trace_to_metadata trace)].

(** Hands the turn row to the background persister. *)
Definition persist_stage (allowed : bool) (t0 : Z) (started_at : datetime) : M TState unit :=
  total <-- elapsed t0 ;;
  md <-- mgets w_md ;;
  policy <-- mgets (fun s => s.(w_reply).(rp_policy)) ;;
  let mwt := memory_write_trace md policy in
  md_set "memory_write_trace" (VDict mwt) ;;;
  md <-- mgets w_md ;;
  guards <-- mlift (development_guard_trace md mwt) ;;
  s <-- mget ;;
  timings <-- mlift (persist_timings s total mwt guards) ;;
  finished <-- utc_now ;;
  let rp := s.(w_reply) in
  log_effect (EPersist (mkPersist rp.(rp_status) SIMPLE started_at finished s.(w_time).(tm_first_delta) total
    rp.(rp_in) rp.(rp_out) rp.(rp_error) timings
    (if allowed then text else "") (if allowed then rp.(rp_persist) else "")
    (RuntimePolicy.mark_messages_private rp.(rp_policy)))).

(** The [finally] block. *)
Definition cleanup (speculative allowed : bool) (t0 : Z) (started_at : datetime) : M TState unit :=
  rp <-- mgets w_reply ;;
  mwhen (negb rp.(rp_finalized))
    (remember_turn rp.(rp_persist) started_at (TurnStatus.value rp.(rp_status))) ;;;
  mwhen (cfg.(c_has_persister) && negb speculative) (persist_stage allowed t0 started_at) ;;;
  mwhen (cfg.(c_has_bus) && negb speculative && allowed)
    (st <-- mgets (fun s => s.(w_reply).(rp_status)) ;; log_effect (ECompleted st SIMPLE)).

(** ** Admission and [run] *)

(** Awaits the shielded guard: cancellations are remembered, not lost. The
    schedule's slots are consumed until one without a cancellation. *)
Fixpoint admission_wait (sched : list Slot) (cancelled : bool) (md : list (string * pyval))
  : bool * list Slot * list (string * pyval) :=
  match sched with
  | [] => (cancelled, [], md)
  | sl :: rest =>
      let md := apply_updates sl.(sl_updates) md in
      match sl.(sl_interrupt) with
      | Some Cancel => admission_wait rest true md
      | _ => (cancelled, rest, md)
      end
  end.

Definition admission : M TState bool :=
  match pt.(p_guard) with
  | Some verdict =>
      log_effect EAdmit ;;;
      s <-- mget ;;
      let '(cancelled, rest, md) := admission_wait s.(w_sched) false s.(w_md) in
      mmodify (fun s => upd_w_sched (fun _ => rest) (upd_w_md (fun _ => md) s)) ;;;
      mlift verdict ;;;
      mret_ cancelled
  | None =>
      if (if ti.(ti_context).(person_id) is Some _ then true else false)
         || negb ti.(ti_context).(memory_enabled)
      then mraise (Eidolon PermissionDeniedError "interactive conversation guard is unavailable")
      else mret_ false
  end.

Definition is_presentation_mode (md : list (string * pyval)) (selected : option OutputSelection) : bool :=
  match dict_get md "presentation_profile" with
  | Some (VStr p) => bool_decide (p = face_profile) | _ => false
  end
  || match selected with
     | Some o => o.(os_motion) || negb (o.(os_speech) || o.(os_dialogue_text))
     | None => false
     end.

(** The turn between the committed-turn boundary and its end. *)
Definition guarded (pm speculative cancelled : bool) (selected : option OutputSelection) (t0 : Z)
    (started_at : datetime) (committed : CommittedTurn.CommittedTurnValidation) : M TState unit :=
  md_set "committed_turn_decision_valid" (VBool committed.(CommittedTurn.valid)) ;;;
  md_set "committed_turn_decision_reason" (VStr committed.(CommittedTurn.creason)) ;;;
  md_set "committed_turn_persistence_allowed" (VBool committed.(CommittedTurn.persistence_allowed)) ;;;
  mfinally
    (mtry (body pm speculative cancelled selected t0 started_at) (on_exception started_at))
    (cleanup speculative committed.(CommittedTurn.persistence_allowed) t0 started_at).

(** [TurnEngine.run] behind the admission wait. *)
Definition admitted (cancelled : bool) : M TState unit :=
  started_at <-- utc_now ;;
  t0 <-- monotonic ;;
  md <-- mgets w_md ;;
  on_reply (upd_rp_policy (fun _ => RuntimePolicy.from_metadata md)) ;;;
  selected <-- match dict_get md "selected_outputs" with
               | Some v => o <-- mlift (outputs_validate v) ;; mret_ (Some o)
               | None => mret_ None
               end ;;
  committed <-- mlift (CommittedTurn.validate_committed_turn (dict_get md "turn_decision")
                         ti.(ti_text) ti.(ti_input_modality)) ;;
  guarded (is_presentation_mode md selected) (get_truthy (dict_get md "speculative")) cancelled selected t0
    started_at committed.

(** [TurnEngine.run] *)
Definition run : M TState unit := mbind_ admission admitted.

Definition run_turn (metadata : list (string * pyval)) (sched : list Slot) : res unit * TState :=
  run (init_state metadata sched).
End Engine.
