(* ===== verification/TurnSafety.v ===== *)
(** * What a turn may do to the outside: the invariant behind the safety
      theorems of [TurnEngine].

    [Safe K f pol Q s]: the metadata keys [K] still have the values [f], the
    turn's privacy policy is [pol], every recorded effect satisfies [Q], and the
    environment's remaining writes leave [K] alone. Every stage of [run] keeps it, under a premise on [Q] for each
    kind of effect the stage may have, available together with the conditions
    under which the code reaches the call. *)

From S2P Require Import Prelude CoreTypes Guards Presentation Trace Effects TurnState Json TurnEngine.
#[local] Open Scope eff_scope.

(** The metadata keys the engine writes after admission. *)
Definition engine_keys : list string :=
  ["harness_snapshot"; "memory_observation_state"; "memory_observation_error"; "capability_references";
   "presentation_error"; "presentation_delivery"; "output_truncated"; "memory_write_trace";
   "memory_observation_scheduled"; "memory_observation_enqueue_ms"; "development_guards";
   "response_intent"; "language_delivery"; "presentation_receipt"].

Definition leaves (K : list string) (us : list (string * pyval)) : Prop := Forall (fun kv => kv.1 ∉ K) us.

Record Safe (K : list string) (f : string -> option pyval) (pol : RuntimePolicy.PrivacyTrace)
    (Q : effect -> Prop) (s : TState) : Prop := {
  safe_md : forall k, k ∈ K -> dict_get s.(w_md) k = f k;
  safe_log : Forall Q s.(w_log);
  safe_sched : Forall (fun sl => leaves K sl.(sl_updates)) s.(w_sched);
  safe_policy : s.(w_reply).(rp_policy) = pol;
}.

Lemma apply_updates_get K us md k : leaves K us -> k ∈ K -> dict_get (apply_updates us md) k = dict_get md k.
Proof.
  unfold apply_updates. intros Hus Hk. revert md. induction Hus as [|[k' v] us Hk' Hus IH]; intros md; [done|].
  simpl. rewrite IH. apply dict_get_set_ne. by intros ->.
Qed.

Lemma setdefault_ne (d : list (string * pyval)) k v k' :
  k' <> k -> dict_get (setdefault d k v) k' = dict_get d k'.
Proof. intros H. unfold setdefault. destruct (dict_get d k); [done|]. by apply dict_get_set_ne. Qed.

(** ** Which tools a turn may offer

    The structured-response tool is added after the policy filters. *)

Section Offer.
Context {P : PresentationOps}.
Context (str_repr : string -> string) (cfg : Config) (pt : Ports) (ti : TurnInput).

Definition offered (s : ToolSchema) : Prop :=
  ts_name s ∉ rc_tool_deny (ti_runtime_config ti) /\ ts_name s ∉ c_hidden_tools cfg.

Definition offer_ok (r : list ToolSchema * list string) : Prop :=
  Forall offered r.1 /\ Forall (fun n => n ∉ rc_tool_deny (ti_runtime_config ti) /\ n ∈ names r.1) r.2.

Lemma filter_forall {A} (f : A -> bool) (Q : A -> Prop) l :
  (forall x, x ∈ l -> f x = true -> Q x) -> Forall Q (List.filter f l).
Proof.
  intros H. apply Forall_forall. intros x. rewrite list_elem_of_In, filter_In, <- list_elem_of_In. naive_solver.
Qed.

Lemma finish_tools_ok schemas overlay :
  Forall (fun s => ts_name s ∉ rc_tool_deny (ti_runtime_config ti)) schemas ->
  Forall (fun n => n ∉ rc_tool_deny (ti_runtime_config ti)) overlay ->
  offer_ok (finish_tools cfg schemas overlay).
Proof.
  rewrite !Forall_forall. intros Hs Ho. split; simpl.
  - apply filter_forall. intros s Hin Hf. bool_to_prop. split; [by apply Hs|]. done.
  - apply filter_forall. intros n Hin Hf. bool_to_prop. auto.
Qed.

Lemma visibility_filter_ok l a d : Forall (fun s => ts_name s ∉ d) (visibility_filter l a d).
Proof. apply filter_forall. intros s _ Hf. by bool_to_prop. Qed.

Lemma names_forall (Q : string -> Prop) l : Forall (fun s => Q (ts_name s)) l -> Forall Q (names l).
Proof. intros H. unfold names. by apply Forall_map. Qed.

Lemma tool_schemas_ok : returns (tool_schemas cfg pt ti) offer_ok.
Proof.
  unfold tool_schemas. apply returns_bind. intros caps. apply returns_bind. intros md.
  apply returns_ret, finish_tools_ok; repeat apply Forall_app_2; try apply names_forall.
  all: try (apply filter_forall; intros ? _ ?; by bool_to_prop).
  all: repeat case_match; try constructor; apply visibility_filter_ok.
Qed.
(** The tools of the model calls and the overlay of the dispatches. *)
Definition prepared_ok (pm : bool) (tools : list ToolSchema) (extra : list string) : Prop :=
  Forall (fun s => offered s \/ (pm = true /\ ts_name s = RESPONSE_TOOL)) tools
  /\ Forall (fun n => n ∉ rc_tool_deny (ti_runtime_config ti) /\ n ∈ names tools) extra.

Lemma prepare_ok pm t0 sel :
  returns (prepare_stage str_repr cfg pt ti pm t0 sel) (fun r => prepared_ok pm r.1.1.2 r.1.2).
Proof.
  unfold prepare_stage. do 6 (apply returns_bind; intros ?). apply returns_bind; intros ?.
  apply (returns_bind_with _ _ offer_ok).
  { destruct (ti_coordinated ti); [|apply tool_schemas_ok]. by apply returns_ret; split; constructor. }
  intros [ts ex] [Hts Hex]. simpl in *.
  apply (returns_bind_with _ _ (fun r => prepared_ok pm r.1.2 ex)).
  - destruct pm.
    + destruct (existsb _ ts); [apply returns_raise|]. do 4 (apply returns_bind; intros ?).
      apply returns_ret. split; simpl.
      * apply Forall_app. split; [eapply Forall_impl; [exact Hts|by left]|].
        constructor; [|constructor]. right. split; [done|apply response_schema_name].
      * eapply Forall_impl; [exact Hex|]. intros n [? Hn]. split; [done|].
        unfold names in *. rewrite map_app. apply elem_of_app. by left.
    + apply returns_ret. split; [|done]. eapply Forall_impl; [exact Hts|by left].
  - intros [[ms tools] o] Hok. do 4 (apply returns_bind; intros ?). by apply returns_ret.
Qed.
End Offer.

Section Safety.
Context {P : PresentationOps} {D : CommittedTurn.DecisionOps}.
Context (str_repr : string -> string) (int_other : pyval -> res Z).
Context (cfg : Config) (pt : Ports) (ti : TurnInput).
Context (K : list string) (f : string -> option pyval) (pol : RuntimePolicy.PrivacyTrace).
Context (Q : effect -> Prop).
Context (K_free : forall k, k ∈ engine_keys -> k ∉ K).
(** The compiler leaves the keys [K] of the metadata alone. *)
Context (compile_leaves : forall log md ms us, pt.(p_compile) log md = Ok (ms, us) -> leaves K us).

Notation R := (fun s s' => Safe K f pol Q s -> Safe K f pol Q s').
Notation keeps m := (preserves R m).

#[local] Instance R_preorder : PreOrder R.
Proof. split; [intros s H; exact H|intros s1 s2 s3 H1 H2 H; auto]. Qed.

Definition agrees (md : list (string * pyval)) : Prop := forall k, k ∈ K -> dict_get md k = f k.

Lemma keeps_suspend y : keeps (suspend y).
Proof.
  intros s [Hm Hl Hs Hp]. unfold suspend. destruct s as [md sq ev lg [|sl rest] tk tm tl rp sm]; simpl in *; [by split|].
  apply Forall_cons in Hs as [Hsl Hrest].
  assert (Safe K f pol Q (upd_w_md (apply_updates (sl_updates sl)) (upd_w_sched (fun _ => rest)
            (mkTState md sq ev lg (sl :: rest) tk tm tl rp sm)))) as HS.
  { split; simpl; [|done..]. intros k Hk. rewrite (apply_updates_get K); auto. }
  destruct (sl_interrupt sl) as [[|]|]; [exact HS| |exact HS]. by destruct y.
Qed.

Lemma keeps_log e : Q e -> keeps (log_effect e).
Proof. intros He s [Hm Hl Hs Hp]. split; simpl; [done| |done..]. apply Forall_app. by split; [|constructor]. Qed.

Lemma keeps_modify_md g : (forall md k, k ∈ K -> dict_get (g md) k = dict_get md k) -> keeps (mmodify (upd_w_md g)).
Proof. intros Hg s [Hm Hl Hs Hp]. split; simpl; [|done..]. intros k Hk. rewrite Hg; auto. Qed.

Lemma keeps_md_set k v : k ∈ engine_keys -> keeps (md_set k v).
Proof.
  intros Hk. apply keeps_modify_md. intros md k' Hk'. apply dict_get_set_ne.
  intros ->. by apply (K_free k').
Qed.

Lemma keeps_next_seq : keeps next_seq.
Proof. intros s [Hm Hl Hs Hp]. by split. Qed.
Lemma keeps_yield_event ev : keeps (yield_event ev).
Proof.
  unfold yield_event. apply preserves_bind; [typeclasses eauto| |intros; apply keeps_suspend].
  intros s [Hm Hl Hs Hp]. by split.
Qed.
Lemma keeps_tick : keeps tick.
Proof. intros s [Hm Hl Hs Hp]. by split. Qed.
Lemma keeps_on_time g : keeps (on_time g).
Proof. intros s [Hm Hl Hs Hp]. by split. Qed.
Lemma keeps_on_tools g : keeps (on_tools g).
Proof. intros s [Hm Hl Hs Hp]. by split. Qed.
Lemma keeps_on_reply g : (forall r, rp_policy (g r) = rp_policy r) -> keeps (on_reply g).
Proof. intros Hg s [Hm Hl Hs Hp]. split; simpl; [done..|]. by rewrite Hg. Qed.
Lemma keeps_on_stream g : keeps (on_stream g).
Proof. intros s [Hm Hl Hs Hp]. by split. Qed.

(** Reading the metadata under the invariant gives a value that agrees with [f]. *)
Lemma keeps_read_md {A} (k : list (string * pyval) -> M TState A) :
  (forall md, agrees md -> keeps (k md)) -> keeps (mbind_ (mgets w_md) k).
Proof. intros Hk s HS. unfold mbind_, mgets. apply Hk; [by intros ? ?; apply HS|exact HS]. Qed.

#[local] Hint Resolve keeps_suspend keeps_next_seq keeps_yield_event keeps_tick keeps_on_time
  keeps_on_tools keeps_on_stream : effects.
#[local] Hint Extern 1 (preserves _ (on_reply _)) => apply keeps_on_reply; intros ?; reflexivity : effects.
#[local] Hint Extern 1 (preserves _ (md_set _ _)) =>
  apply keeps_md_set; by_compute : effects.

Ltac prim := unfold monotonic, utc_now, uuid4, elapsed, md_get, emit.
Ltac go := repeat (prim; preserve).

Lemma keeps_elapsed t0 : keeps (elapsed pt t0).
Proof. go. Qed.
Lemma keeps_emit g : keeps (emit g).
Proof. go. Qed.
Lemma keeps_note t0 : keeps (note_first_delta pt t0).
Proof. unfold note_first_delta. go. Qed.
#[local] Hint Resolve keeps_elapsed keeps_emit keeps_note : effects.

Lemma keeps_remember txt st0 st :
  (forall md now, agrees md -> get_truthy (dict_get md "speculative") = false ->
     get_truthy (dict_get md "committed_turn_persistence_allowed") = true ->
     Q (EHistory (ti_turn_id ti) (turn_messages pt ti md txt st0 now st))) ->
  keeps (remember_turn pt ti txt st0 st).
Proof.
  intros HQ. unfold remember_turn. apply keeps_read_md. intros md Hmd.
  destruct (get_truthy (dict_get md "speculative")) eqn:Es; [go|].
  destruct (dict_get md "committed_turn_persistence_allowed") as [v|] eqn:Ea; [|go].
  destruct (truthy v) eqn:Ev; simpl; [|go]. go.
  all: apply keeps_log, HQ; try done; by rewrite Ea.
Qed.

Lemma observation_fields md st0 a :
  observation cfg pt ti md st0 = Some a ->
  ob_user_text a = text ti /\ ob_assistant_text a = "" /\ ob_turn_id a = ti_turn_id ti.
Proof. unfold observation. intros H. repeat case_hyp H; by simplify_eq. Qed.

Lemma keeps_publish st0 :
  (forall md a, agrees md -> observation cfg pt ti md st0 = Some a -> Q (EObserve a)) ->
  keeps (publish_memory_observation cfg pt ti st0).
Proof.
  intros HQ. unfold publish_memory_observation. apply keeps_read_md. intros md Hmd.
  destruct (observation _ _ _ _ _) as [a|] eqn:Ea; [|go]. go; [by eapply keeps_log, HQ|].
  case_match; simplify_eq. go.
Qed.

Lemma keeps_delta pm t0 d : keeps (on_delta pt pm t0 d).
Proof. unfold on_delta, on_activity, on_text, on_tool_call, on_usage, add_part. go. Qed.
#[local] Hint Resolve keeps_delta : effects.

Lemma keeps_consume pm t0 ms ts : (Q (EModel ms ts)) -> keeps (consume_stream pt pm t0 ms ts).
Proof. intros HQ. unfold consume_stream. go. by apply keeps_log. Qed.

Lemma keeps_harness ns b : keeps (update_harness_snapshot_tools ns b).
Proof. unfold update_harness_snapshot_tools. go. Qed.
Lemma keeps_handoffs : keeps update_harness_snapshot_handoffs.
Proof. unfold update_harness_snapshot_handoffs. go. Qed.
#[local] Hint Resolve keeps_harness keeps_handoffs : effects.

Lemma keeps_retain r : keeps (retain_references r).
Proof. unfold retain_references. go. Qed.
#[local] Hint Resolve keeps_retain : effects.
Lemma keeps_on_result now r : keeps (on_result str_repr pt now r).
Proof. unfold on_result. go. Qed.
#[local] Hint Resolve keeps_on_result : effects.
Lemma keeps_on_results now rs : keeps (on_results str_repr pt now rs).
Proof. induction rs as [|r rs IH]; simpl; go. Qed.
#[local] Hint Resolve keeps_on_results : effects.

Lemma keeps_run_dispatch pm t0 cs ex :
  Q (EDispatch cs ex (rc_tool_deny (ti_runtime_config ti))) -> Q EDispatchCancelled -> keeps (run_dispatch cfg pt ti pm t0 cs ex).
Proof.
  intros HQ HC. unfold run_dispatch. go; [by apply keeps_log|].
  simplify_eq. go. by apply keeps_log.
Qed.
Lemma keeps_dispatch_round pm t0 cs ex :
  (forall cs', Q (EDispatch cs' ex (rc_tool_deny (ti_runtime_config ti)))) -> Q EDispatchCancelled ->
  keeps (dispatch_round str_repr cfg pt ti pm t0 cs ex).
Proof.
  intros HQ HC. unfold dispatch_round, record_results. go. apply keeps_run_dispatch; auto.
Qed.

Lemma keeps_finish_presentation c cs fin o : keeps (finish_presentation ti c cs fin o).
Proof. unfold finish_presentation. go. Qed.
#[local] Hint Resolve keeps_finish_presentation : effects.

Lemma keeps_tool_loop fuel pm t0 o ts ex n ms :
  (forall ms', Q (EModel ms' ts)) ->
  (ti_coordinated ti = false -> (forall cs', Q (EDispatch cs' ex (rc_tool_deny (ti_runtime_config ti)))) /\ Q EDispatchCancelled) ->
  keeps (tool_loop str_repr cfg pt ti fuel pm t0 o ts ex n ms).
Proof.
  intros HM HD. revert n ms. induction fuel as [|fuel IH]; intros n ms; [simpl; go|].
  cbn [tool_loop]. go; [by apply keeps_consume|].
  destruct (HD eq_refl). by apply keeps_dispatch_round.
Qed.

(** ** The stages *)

(** What a history record of this turn may be. *)
Definition recordable (st0 : datetime) : Prop :=
  forall md now txt st, agrees md -> get_truthy (dict_get md "speculative") = false ->
    get_truthy (dict_get md "committed_turn_persistence_allowed") = true ->
    Q (EHistory (ti_turn_id ti) (turn_messages pt ti md txt st0 now st)).

Lemma keeps_record st0 txt st : recordable st0 -> keeps (remember_turn pt ti txt st0 st).
Proof. intros H. apply keeps_remember. auto. Qed.

Lemma keeps_emit_presentation i : keeps (emit_presentation i).
Proof. unfold emit_presentation. go. Qed.
Lemma keeps_set_persist t : keeps (set_persist t).
Proof. unfold set_persist. go. Qed.
Lemma keeps_set_finalized : keeps set_finalized.
Proof. unfold set_finalized. go. Qed.
Lemma keeps_current_status : keeps current_status.
Proof. unfold current_status. go. Qed.
#[local] Hint Resolve keeps_emit_presentation keeps_set_persist keeps_set_finalized keeps_current_status
  keeps_record : effects.

Lemma keeps_crisis pm sp st0 : Q ECrisis -> recordable st0 -> keeps (crisis_stage pt ti pm sp st0).
Proof. intros HC HH. unfold crisis_stage, deliver_crisis, emit_done. go. by apply keeps_log. Qed.

Lemma keeps_refuse pm sp st0 : recordable st0 -> keeps (refuse_stage pt ti pm sp st0).
Proof. intros HH. unfold refuse_stage, deliver_refusal, emit_done. go. Qed.

(** The conditions under which the code schedules an observation. *)
Lemma keeps_observe sp st0 :
  (forall md a, agrees md -> sp = false -> memory_write_skipped cfg ti md pol = None ->
     c_fanout_durable cfg = true ->
     forall md', agrees md' -> observation cfg pt ti md' st0 = Some a -> Q (EObserve a)) ->
  (forall md, agrees md -> sp = false -> memory_write_skipped cfg ti md pol = None ->
     c_fanout_durable cfg = false -> Q EBackgroundObserve) ->
  keeps (observe_stage cfg pt ti sp st0).
Proof.
  intros HO HB. unfold observe_stage. apply keeps_read_md. intros md Hmd.
  intros s HS. unfold mbind_ at 1, mgets. rewrite (safe_policy _ _ _ _ _ HS). revert s HS.
  change (keeps (mbind_ (md_set "memory_write_trace" (VDict (memory_write_trace cfg ti md pol)))
    (fun _ => mwhen (negb sp && (if memory_write_skipped cfg ti md pol is None then true else false))
      (mbind_ (md_set "memory_observation_scheduled" (VBool true)) (fun _ =>
         if c_fanout_durable cfg then
           mbind_ (monotonic pt) (fun t => mbind_ (publish_memory_observation cfg pt ti st0) (fun _ =>
             mbind_ (elapsed pt t) (fun e => md_set "memory_observation_enqueue_ms" (VInt e))))
         else log_effect EBackgroundObserve))))).
  go.
  - apply keeps_publish. intros md' ob Hmd' Ha. bool_to_prop.
    destruct sp; [done|]. destruct (memory_write_skipped cfg ti md pol) eqn:E'; [done|].
    eapply (HO md ob Hmd); eauto.
  - apply keeps_log. bool_to_prop.
    destruct sp; [done|]. destruct (memory_write_skipped cfg ti md pol) eqn:E'; [done|].
    eapply (HB md Hmd); eauto.
Qed.

Lemma keeps_tool_schemas : Q EAssemble -> keeps (tool_schemas cfg pt ti).
Proof. intros HQ. unfold tool_schemas. go. by apply keeps_log. Qed.

Lemma keeps_prepare pm t0 sel :
  Q ECompile -> (ti_coordinated ti = false -> Q EAssemble) ->
  keeps (prepare_stage str_repr cfg pt ti pm t0 sel).
Proof.
  intros HC HA. unfold prepare_stage.
  apply preserves_bind; [typeclasses eauto|by apply keeps_log|intros _].
  apply preserves_bind; [typeclasses eauto|apply keeps_suspend|intros _].
  intros s HS. unfold mbind_ at 1, mgets.
  destruct (p_compile pt (w_log s) (w_md s)) as [[ms us]|e] eqn:Ec; [|done].
  unfold mbind_ at 1, mlift. cbn [fst snd].
  match goal with |- Safe _ _ _ _ (snd (?m s)) => enough (keeps m) as Hk by (apply Hk; exact HS) end.
  apply preserves_bind; [typeclasses eauto| |intros ?].
  { apply keeps_modify_md. intros md k Hk. eapply (apply_updates_get K); eauto. }
  go; apply keeps_tool_schemas; auto.
Qed.

Lemma keeps_output pm sp t0 st0 :
  recordable st0 ->
  (sp = false -> ti_has_feedback ti = true -> (forall i, Q (EExpect i)) /\ Q EAwaitReceipt) ->
  keeps (output_stage pt ti pm sp t0 st0).
Proof.
  intros HH HE. unfold output_stage, deliver_reply, await_receipt, emit_done. go.
  all: try (apply keeps_modify_md; intros md k Hk; apply setdefault_ne; intros ->;
            apply (K_free "presentation_delivery"); [by_compute|done]).
  all: apply keeps_log; bool_to_prop; destruct sp; [by repeat match goal with H : _ /\ _ |- _ => destruct H end|]; apply HE; assumption || reflexivity.
Qed.

Lemma keeps_cancelled st0 : recordable st0 -> keeps (on_cancelled int_other pt ti st0).
Proof. intros HH. unfold on_cancelled, set_outcome. go. Qed.

Lemma keeps_exception st0 e k : recordable st0 -> on_exception int_other pt ti st0 e = Some k -> keeps k.
Proof.
  intros HH. unfold on_exception, on_errored, set_outcome. intros Hk.
  destruct e as [| |c m|c m]; [| |destruct c|]; simpl in Hk; repeat case_hyp Hk; simplify_eq; go.
  by apply keeps_cancelled.
Qed.

Lemma keeps_read {A B} (g : TState -> A) (k : A -> M TState B) :
  (forall s, Safe K f pol Q s -> keeps (k (g s))) -> keeps (mbind_ (mgets g) k).
Proof. intros Hk s HS. unfold mbind_, mgets. by apply Hk. Qed.

Lemma keeps_get {B} (k : TState -> M TState B) :
  (forall s, Safe K f pol Q s -> keeps (k s)) -> keeps (mbind_ mget k).
Proof. intros Hk s HS. unfold mbind_, mget. by apply Hk. Qed.

(** The row handed to the persister. *)
Definition row_ok (allowed : bool) (a : PersistArgs) : Prop :=
  pa_user_text a = (if allowed then text ti else "") /\
  (allowed = false -> pa_assistant_text a = "") /\
  pa_is_private a = RuntimePolicy.mark_messages_private pol.

Lemma keeps_persist allowed t0 st0 :
  (forall a, row_ok allowed a -> Q (EPersist a)) ->
  keeps (persist_stage int_other cfg pt ti allowed t0 st0).
Proof.
  intros HQ. unfold persist_stage.
  do 5 (apply preserves_bind; [typeclasses eauto|go|intros ?]).
  apply preserves_bind; [typeclasses eauto|go|intros ?]. apply keeps_get. intros s HS.
  go. apply keeps_log, HQ. split_and!; simpl; [done|by intros ->|].
  by rewrite (safe_policy _ _ _ _ _ HS).
Qed.

Lemma keeps_cleanup sp allowed t0 st0 :
  recordable st0 ->
  (c_has_persister cfg = true -> sp = false -> forall a, row_ok allowed a -> Q (EPersist a)) ->
  (c_has_bus cfg = true -> sp = false -> allowed = true -> forall st t, Q (ECompleted st t)) ->
  keeps (cleanup int_other cfg pt ti sp allowed t0 st0).
Proof.
  intros HH HP HC. unfold cleanup. go.
  - apply keeps_persist. bool_to_prop. destruct sp; [by repeat match goal with H : _ /\ _ |- _ => destruct H end|auto].
  - apply keeps_log. bool_to_prop. destruct sp; [by repeat match goal with H : _ /\ _ |- _ => destruct H end|auto].
Qed.

End Safety.
