(* ===== verification/TurnPolicy.v ===== *)
(** * What a whole turn may do: every effect of every run of [TurnEngine.run]
      is one the policy of the turn permits. *)

From S2P Require Import Prelude CoreTypes Guards Presentation Trace Effects TurnState Json TurnEngine TurnSafety.
#[local] Open Scope eff_scope.

(** The metadata keys the policy of a turn depends on; nobody but the engine
    writes them during the turn. *)
Definition policy_keys : list string :=
  ["speculative"; "committed_turn_persistence_allowed"; "temporary"; "temporary_mode"; "is_private"; "private";
   "turn_decision"].

Lemma policy_keys_free k : k ∈ engine_keys -> k ∉ policy_keys.
Proof. revert k. rewrite <- Forall_forall. apply (bool_decide_unpack _). by vm_compute. Qed.

Definition privacy_keys : list string := ["temporary"; "temporary_mode"; "is_private"; "private"].

Lemma privacy_policy_keys k : k ∈ privacy_keys -> k ∈ policy_keys.
Proof. revert k. rewrite <- Forall_forall. by_compute. Qed.

Lemma from_metadata_local (md md' : list (string * pyval)) :
  (forall k, k ∈ privacy_keys -> dict_get md' k = dict_get md k) ->
  RuntimePolicy.from_metadata md' = RuntimePolicy.from_metadata md.
Proof.
  intros H. unfold RuntimePolicy.from_metadata.
  by rewrite !H by by_compute.
Qed.

Lemma from_metadata_agrees (md md' : list (string * pyval)) :
  (forall k, k ∈ policy_keys -> dict_get md' k = dict_get md k) ->
  RuntimePolicy.from_metadata md' = RuntimePolicy.from_metadata md.
Proof. intros H. apply from_metadata_local. intros k Hk. by apply H, privacy_policy_keys. Qed.

Section Policy.
Context {P : PresentationOps} {D : CommittedTurn.DecisionOps}.
Context (case_table str_repr : string -> string) (int_other : pyval -> res Z) (face_profile : string).
Context (cfg : Config) (pt : Ports) (ti : TurnInput).
(** The metadata the turn starts with. *)
Context (md0 : list (string * pyval)).

Definition verdict : Guardrails.SafetyAction :=
  Guardrails.action (Guardrails.check_input case_table (ti_text ti)).
Definition speculative : bool := get_truthy (dict_get md0 "speculative").

(** The committed-turn boundary lets this turn be stored. *)
Definition storable : bool :=
  match CommittedTurn.validate_committed_turn (dict_get md0 "turn_decision") (ti_text ti) (ti_input_modality ti) with
  | Ok c => CommittedTurn.persistence_allowed c
  | Err _ => false
  end.

(** The metadata in the body: the boundary's decision, and a crisis turn is
    private. *)
Definition body_md : list (string * pyval) :=
  let md := dict_set md0 "committed_turn_persistence_allowed" (VBool storable) in
  if bool_decide (verdict = Guardrails.ESCALATE) then dict_set md "is_private" (VBool true) else md.

Definition policy : RuntimePolicy.PrivacyTrace := RuntimePolicy.from_metadata body_md.

Definition private_marks (ms : list ChatMessage) : Prop :=
  Forall (fun m => dict_get (m_metadata m) "is_private" =
                   if RuntimePolicy.mark_messages_private policy then Some (VBool true) else None) ms.

Definition observable : Prop :=
  verdict = Guardrails.PASS /\ speculative = false /\ memory_write_skipped cfg ti body_md policy = None.

(** The effects the policy permits. *)
Definition permitted (e : effect) : Prop :=
  match e with
  | EAdmit => p_guard pt <> None
  | ECrisis => verdict = Guardrails.ESCALATE
  | EHistory tid ms => tid = ti_turn_id ti /\ speculative = false /\ storable = true /\ private_marks ms
  | EObserve a =>
      observable /\ c_fanout_durable cfg = true /\ ob_user_text a = text ti /\ ob_assistant_text a = ""
      /\ ob_turn_id a = ti_turn_id ti
  | EBackgroundObserve => observable /\ c_fanout_durable cfg = false
  | ECompile => verdict = Guardrails.PASS
  | EModel _ tools =>
      verdict = Guardrails.PASS /\ Forall (fun s => offered cfg ti s \/ ts_name s = RESPONSE_TOOL) tools
  | EAssemble | EDispatchCancelled => verdict = Guardrails.PASS /\ ti_coordinated ti = false
  | EDispatch _ extra denied =>
      verdict = Guardrails.PASS /\ ti_coordinated ti = false /\ denied = rc_tool_deny (ti_runtime_config ti)
      /\ Forall (fun n => n ∉ denied) extra
  | EExpect _ | EAwaitReceipt =>
      verdict = Guardrails.PASS /\ speculative = false /\ ti_has_feedback ti = true
  | EPersist a => c_has_persister cfg = true /\ speculative = false /\ row_ok ti policy storable a
  | ECompleted _ _ => c_has_bus cfg = true /\ speculative = false /\ storable = true
  end.

(** The environment leaves the policy's keys alone. *)
Definition env_ok (sched : list Slot) : Prop :=
  Forall (fun sl => leaves policy_keys (sl_updates sl)) sched.
Context (compile_ok : forall log md ms us, p_compile pt log md = Ok (ms, us) -> leaves policy_keys us).

Notation R := (fun s s' => Safe policy_keys (dict_get body_md) policy permitted s ->
                           Safe policy_keys (dict_get body_md) policy permitted s').
Notation keeps m := (preserves R m).
#[local] Instance R_pre : PreOrder R.
Proof. split; [intros s H; exact H|intros s1 s2 s3 H1 H2 H; auto]. Qed.

Lemma body_md_boundary : get_truthy (dict_get body_md "committed_turn_persistence_allowed") = storable.
Proof.
  unfold body_md. case_bool_decide; [rewrite dict_get_set_ne by done|]; by rewrite dict_get_set_eq.
Qed.

Lemma body_md_speculative : get_truthy (dict_get body_md "speculative") = speculative.
Proof. unfold body_md. case_bool_decide; by rewrite ?dict_get_set_ne. Qed.

Lemma turn_messages_marks md st0 now txt st :
  agrees policy_keys (dict_get body_md) md -> private_marks (turn_messages pt ti md txt st0 now st).
Proof.
  intros Hmd. unfold private_marks, turn_messages. rewrite (from_metadata_agrees body_md md Hmd).
  change (RuntimePolicy.from_metadata body_md) with policy.
  destruct (RuntimePolicy.mark_messages_private policy), (is_empty (text ti)), (is_empty txt); simpl;
    repeat constructor; simpl; repeat case_match; done.
Qed.

Lemma recordable_ok st0 : recordable pt ti policy_keys (dict_get body_md) permitted st0.
Proof.
  intros md now txt st Hmd Hs Ha. simpl. split_and!; [done|..|by apply turn_messages_marks].
  - rewrite (Hmd "speculative") in Hs by by_compute. by rewrite body_md_speculative in Hs.
  - rewrite (Hmd "committed_turn_persistence_allowed") in Ha by by_compute. by rewrite body_md_boundary in Ha.
Qed.

Lemma skipped_agrees md pol :
  agrees policy_keys (dict_get body_md) md ->
  memory_write_skipped cfg ti md pol = memory_write_skipped cfg ti body_md pol.
Proof.
  intros Hmd. unfold memory_write_skipped.
  by rewrite (Hmd "committed_turn_persistence_allowed") by by_compute.
Qed.

Lemma passes : verdict <> Guardrails.ESCALATE -> verdict <> Guardrails.REFUSE -> verdict = Guardrails.PASS.
Proof.
  unfold verdict, Guardrails.check_input. destruct (ti_text ti) as [[|]|]; [done| |done].
  by destruct (existsb _ _); [|destruct (existsb _ _)].
Qed.

(** The body behind the safety checks. *)
Lemma keeps_reply pm sel t0 st0 :
  verdict = Guardrails.PASS ->
  keeps (observe_stage cfg pt ti speculative st0 ;;;
         e <-- elapsed pt t0 ;; on_time (upd_tm_triage (fun _ => Some e)) ;;;
         emit (fun n => event_state n FSM.THINKING) ;;;
         prepared <-- prepare_stage str_repr cfg pt ti pm t0 sel ;;
         let '(messages, tools, extra, outputs) := prepared in
         emit (fun n => event_state n FSM.SPEAKING) ;;;
         tool_loop str_repr cfg pt ti (loop_fuel cfg) pm t0 outputs tools extra 0 messages ;;;
         output_stage pt ti pm speculative t0 st0).
Proof.
  intros Hv. pose proof policy_keys_free as HK.
  apply preserves_bind; [typeclasses eauto| |intros _].
  { apply keeps_observe; [done|..].
    - intros md a Hmd Hsp Hsk Hd md' Hmd' Ha. rewrite skipped_agrees in Hsk by done.
      apply observation_fields in Ha as (? & ? & ?). by split_and!.
    - intros md Hmd Hsp Hsk Hd. rewrite skipped_agrees in Hsk by done. by split_and!. }
  apply preserves_bind; [typeclasses eauto|by apply keeps_elapsed|intros e].
  apply preserves_bind; [typeclasses eauto|by apply keeps_on_time|intros _].
  apply preserves_bind; [typeclasses eauto|by apply keeps_emit|intros _].
  eapply preserves_bind_with; [typeclasses eauto| |apply prepare_ok|].
  { apply keeps_prepare; [done..|]. by intros Hc. }
  intros [[[ms ts] ex] o] [Hts Hex]. simpl in Hts, Hex.
  apply preserves_bind; [typeclasses eauto|by apply keeps_emit|intros _].
  apply preserves_bind; [typeclasses eauto| |intros _].
  - apply keeps_tool_loop; [done|..].
    + intros ms'. split; [done|]. eapply Forall_impl; [exact Hts|]. naive_solver.
    + intros Hc. split; [|done]. intros cs. split_and!; [done..|].
      eapply Forall_impl; [exact Hex|]. naive_solver.
  - apply keeps_output; [done|apply recordable_ok|]. by intros Hsp Hf.
Qed.
(** The metadata right behind the committed-turn boundary. *)
Definition boundary_md : list (string * pyval) :=
  dict_set md0 "committed_turn_persistence_allowed" (VBool storable).

Notation At md := (Safe policy_keys (dict_get md) (RuntimePolicy.from_metadata md) permitted).

(** The crisis branch closes the turn before anything is recorded. *)
Lemma enter_crisis s : verdict = Guardrails.ESCALATE -> At boundary_md s ->
  let s' := upd_w_md (fun d => dict_set d "is_private" (VBool true)) s in
  At body_md (upd_w_reply (upd_rp_policy (fun _ => RuntimePolicy.from_metadata (w_md s'))) s').
Proof.
  intros Hv [Hm Hl Hs Hp].
  assert (forall k, k ∈ policy_keys ->
            dict_get (dict_set (w_md s) "is_private" (VBool true)) k = dict_get body_md k) as Ha.
  { intros k Hk. unfold body_md. rewrite bool_decide_true by done. fold boundary_md.
    destruct (decide (k = "is_private")) as [->|Hne]; [by rewrite !dict_get_set_eq|].
    rewrite !dict_get_set_ne by done. by apply Hm. }
  split; simpl; [done..|]. by apply from_metadata_agrees.
Qed.

Lemma prefix_safe t0 (k : unit -> M TState unit) s :
  At boundary_md s -> keeps (k tt) ->
  At body_md (snd ((g <-- elapsed pt t0 ;; on_time (upd_tm_guard (fun _ => Some g)) ;;;
    mbind_ (mwhen (bool_decide (verdict = Guardrails.ESCALATE))
      (md_set "is_private" (VBool true) ;;;
       md <-- mgets w_md ;;
       on_reply (upd_rp_policy (fun _ => RuntimePolicy.from_metadata md)))) k) s)).
Proof.
  intros HS Hk. case_bool_decide as He.
  - apply Hk. apply (enter_crisis _ He). by destruct HS.
  - apply Hk. destruct HS. unfold policy, body_md, boundary_md in *. rewrite !bool_decide_false by done. by split.
Qed.

Lemma body_safe pm cancelled sel t0 st0 s :
  At boundary_md s ->
  At body_md (snd (body case_table str_repr cfg pt ti pm speculative cancelled sel t0 st0 s)).
Proof.
  intros HS. apply prefix_safe; [done|].
  apply preserves_bind; [typeclasses eauto|apply keeps_record, recordable_ok|intros _].
  apply preserves_bind; [typeclasses eauto| |intros _].
  { apply preserves_when; [typeclasses eauto|]. intros _. apply preserves_raise. typeclasses eauto. }
  fold verdict. case_bool_decide as He; [apply keeps_crisis; [done|apply recordable_ok]|].
  case_bool_decide as Hr; [apply keeps_refuse, recordable_ok|].
  by apply keeps_reply, passes.
Qed.

(** ** Admission and the whole turn *)

Lemma admission_wait_ok sched c md :
  env_ok sched ->
  let '(_, rest, md') := admission_wait sched c md in
  env_ok rest /\ (forall k, k ∈ policy_keys -> dict_get md' k = dict_get md k).
Proof.
  intros H. revert c md. induction H as [|sl rest Hsl Hrest IH]; intros c md; simpl; [by split; [constructor|]|].
  assert (forall k, k ∈ policy_keys -> dict_get (apply_updates (sl_updates sl) md) k = dict_get md k) as Hk.
  { intros k. by apply apply_updates_get. }
  destruct (sl_interrupt sl) as [[|]|]; [|by split..].
  specialize (IH true (apply_updates (sl_updates sl) md)).
  destruct (admission_wait rest true _) as [[c' rest'] md'], IH as [? IH]. split; [done|].
  intros k Hin. by rewrite IH, Hk.
Qed.

Record Start (s : TState) : Prop := {
  st_md : agrees policy_keys (dict_get md0) (w_md s);
  st_log : Forall permitted (w_log s);
  st_sched : env_ok (w_sched s);
}.

Lemma admission_start sched : env_ok sched -> Start (snd (admission pt ti (init_state md0 sched))).
Proof.
  intros Hs. unfold admission. destruct (p_guard pt) as [v|] eqn:Ev; [|by destruct (_ || _)%bool].
  unfold log_effect, mmodify, mget, mlift, mret_, mbind_. simpl.
  pose proof (admission_wait_ok sched false md0 Hs) as Ha.
  destruct (admission_wait sched false md0) as [[c rest] md'], Ha as [Hr Hmd].
  destruct v; (split; simpl; [exact Hmd| |exact Hr]; constructor; [simpl; congruence|constructor]).
Qed.

Lemma guarded_safe pm cancelled sel t0 st0 c s :
  Start s -> rp_policy (w_reply s) = RuntimePolicy.from_metadata (w_md s) ->
  CommittedTurn.persistence_allowed c = storable ->
  At body_md (snd (guarded case_table str_repr int_other cfg pt ti pm speculative cancelled sel t0 st0 c s)).
Proof.
  intros [Hm Hl Hs] Hp Hc. unfold guarded.
  set (rest := mfinally _ _).
  assert (forall s, At boundary_md s -> At body_md (snd (rest s))) as Hrest.
  { intros s1 H1. subst rest. unfold mfinally, mtry.
    pose proof (body_safe pm cancelled sel t0 st0 s1 H1) as Hb.
    assert (keeps (cleanup int_other cfg pt ti speculative (CommittedTurn.persistence_allowed c) t0 st0)) as Hcl.
    { apply keeps_cleanup; [exact policy_keys_free|apply recordable_ok|..]; rewrite Hc; by repeat intros ?. }
    destruct (body _ _ _ _ _ _ _ _ _ _ _ s1) as [[r|e] s2]; simpl in Hb.
    - specialize (Hcl s2 Hb). destruct (cleanup _ _ _ _ _ _ _ _ s2) as [[?|?] s3]; exact Hcl.
    - destruct (on_exception int_other pt ti st0 e) as [k|] eqn:Ek.
      + assert (keeps k) as Hk by (eapply keeps_exception; [apply recordable_ok|exact Ek]).
        specialize (Hk s2 Hb). destruct (k s2) as [r s3]; simpl in Hk.
        specialize (Hcl s3 Hk). destruct (cleanup _ _ _ _ _ _ _ _ s3) as [[?|?] s4]; exact Hcl.
      + specialize (Hcl s2 Hb). destruct (cleanup _ _ _ _ _ _ _ _ s2) as [[?|?] s3]; exact Hcl. }
  apply Hrest. split; simpl; [|done..|].
  - intros k Hk. unfold boundary_md. rewrite Hc.
    destruct (decide (k = "committed_turn_persistence_allowed")) as [->|Hne]; [by rewrite !dict_get_set_eq|].
    assert (k <> "committed_turn_decision_valid" /\ k <> "committed_turn_decision_reason") as [H1 H2].
    { clear Hne. revert k Hk. rewrite <- Forall_forall. by_compute. }
    rewrite !dict_get_set_ne; [by apply Hm|done..].
  - rewrite Hp. apply from_metadata_local. intros k Hk. unfold boundary_md. rewrite dict_get_set_ne.
    + by apply Hm, privacy_policy_keys.
    + revert k Hk. rewrite <- Forall_forall. by_compute.
Qed.

Lemma admitted_safe c s : Start s ->
  Forall permitted (w_log (snd (admitted case_table str_repr int_other face_profile cfg pt ti c s))).
Proof.
  intros [Hm Hl Hs]. unfold admitted, utc_now, monotonic, tick, on_reply, mgets, mmodify, mlift, mret_, mbind_.
  cbn beta iota zeta. cbn [w_md upd_w_reply upd_w_ticks].
  assert (forall pm sel t0 st0 c' s', Start s' -> rp_policy (w_reply s') = RuntimePolicy.from_metadata (w_md s') ->
    CommittedTurn.persistence_allowed c' = storable ->
    Forall permitted (w_log (snd (guarded case_table str_repr int_other cfg pt ti pm speculative c sel t0 st0 c' s'))))
    as Hg by (intros; eapply safe_log, guarded_safe; eauto).
  rewrite !(Hm "turn_decision") by by_compute.
  rewrite !(Hm "speculative") by by_compute. fold speculative.
  assert (forall c', CommittedTurn.validate_committed_turn (dict_get md0 "turn_decision") (ti_text ti)
    (ti_input_modality ti) = Ok c' -> CommittedTurn.persistence_allowed c' = storable) as Hv.
  { intros c' Hc. unfold storable. by rewrite Hc. }
  destruct (dict_get (w_md s) "selected_outputs") as [v|]; [destruct (outputs_validate v); [|done]|];
    (destruct (CommittedTurn.validate_committed_turn _ _ _) as [c'|]; [|done]);
    (apply Hg; [by split|done|by apply Hv]).
Qed.

(** Everything a run does is permitted, whatever the environment does. *)
Lemma run_permitted sched : env_ok sched ->
  Forall permitted (w_log (snd (run_turn case_table str_repr int_other face_profile cfg pt ti md0 sched))).
Proof.
  intros Hs%admission_start. unfold run_turn, run, mbind_.
  destruct (admission pt ti (init_state md0 sched)) as [[c|e] s]; [by apply admitted_safe|by destruct Hs].
Qed.

End Policy.
