(* ===== verification/Samples.v ===== *)
(** * A concrete world for the witnesses: other components and inputs with
      which the hypotheses of the turn's theorems hold. *)

From S2P Require Import Prelude CoreTypes Guards Presentation Trace Effects TurnState Json TurnEngine TurnSafety TurnPolicy.

(** The SDK's presentation types, reduced to what the samples need. *)
#[export] Instance sample_presentation : PresentationOps := {
  outputs_validate v := match v with
    | VDict d => Ok (mkOutputs (get_truthy (dict_get d "speech")) (get_truthy (dict_get d "dialogue_text"))
                       (get_truthy (dict_get d "expression")) (get_truthy (dict_get d "motion")))
    | _ => Err (PyError "ValidationError" "")
    end;
  candidate_validate d :=
    let p := match dict_get d "presentation" with Some (VDict p) => p | _ => [] end in
    let str k d := match dict_get d k with Some (VStr s) => Some s | _ => None end in
    match str "intent" p with
    | Some i => Some (mkRespCandidate (str "public_text" d) (mkPresCandidate i (str "outcome_ref" p) []))
    | None => None
    end;
  presentation_of i := mkPresCandidate i None [];
  intent_dump i := [("intent", VStr i.(ri_presentation).(pc_intent))];
  candidate_json_schema := [("type", VStr "object"); ("properties", VDict []); ("required", VList [])];
}.

(** A decision is the transcript it was made for. *)
#[export] Instance sample_decision : CommittedTurn.DecisionOps := {
  CommittedTurn.decision := string;
  CommittedTurn.decision_from_metadata v := match v with
    | Some (VStr s) => Ok s
    | _ => Err (PyError "TypeError" "")
    end;
  CommittedTurn.matches_text d t := bool_decide (t = Some d);
}.

Definition sample_context : TurnContext :=
  mkTurnContext "owner" "companion" None "realm" "genome" "trace" "request" None None None "1" "h" "r" "zh" true
    None None false false.

Definition sample_cfg : Config :=
  mkConfig 2 "enabled" true true (Some "genome") false "" "" true true true [] 1000.

Definition sample_input (modality : string) (txt : option string) : TurnInput :=
  mkTurnInput "turn-1" "conv-1" "session-1" sample_context modality USER_UTTERANCE
    (mkRuntimeConfig None "0.7" [] ["shell"] false None None) txt false false None None [].

Definition sample_tool (n : string) : ToolSchema := mkToolSchema n "" [] [] "5.0" false None None.
Definition sample_time : datetime := mkDatetime 0 (Some 0).

(** A model that calls the tool [lookup] until the tool's answer is in the log
    [n] times, then says hello; the tool always fails. *)
Definition sample_call : ToolCall := mkToolCall "call-1" "lookup" [].
Definition text_delta (t : string) : LLMDelta := mkDelta (Some t) None None (Some STOP) None.
Definition call_delta (c : ToolCall) : LLMDelta := mkDelta None None (Some c) (Some TOOL_CALLS) None.

Definition sample_stream (n : nat) (log : list effect) : list LLMDelta * option exn :=
  let asked := length (List.filter (fun e => match e with EModel _ _ => true | _ => false end) log) in
  if bool_decide (asked <= n)%nat then ([call_delta sample_call], None) else ([text_delta "hello"], None).

Definition sample_ports (n : nat) : Ports := {|
  p_guard := Some (Ok tt);
  p_crisis _ := Ok tt;
  p_compile _ _ := Ok ([], [("context_tags", VList [])]);
  p_list_schemas := [sample_tool "lookup"; sample_tool "shell"];
  p_assemble := None;
  p_stream log _ _ := sample_stream n log;
  p_dispatch _ calls := Ok (map (fun c => tool_failure c.(tc_id) c.(tc_name) "tool_failed" "no") calls);
  p_slow _ := false;
  p_publish_turn _ _ := Ok ("queued", None);
  p_expect _ := Ok tt;
  p_receipt _ := Ok None;
  p_taboos := [];
  p_model_id := None;
  p_monotonic_us n := Z.of_nat n * 1000;
  p_utc _ := sample_time;
  p_uuid _ := "id";
  p_isoformat _ := "1970-01-01T00:00:00+00:00";
|}.

Definition sample_run (n : nat) (modality : string) (txt : string) (md : list (string * pyval)) (sched : list Slot)
  : res unit * TState :=
  run_turn id id (fun _ => Ok 0) "face.v1" sample_cfg (sample_ports n) (sample_input modality (Some txt)) md sched.

Lemma sample_compiler_ok n log md ms us :
  p_compile (sample_ports n) log md = Ok (ms, us) -> leaves policy_keys us.
Proof. intros [= _ <-]. repeat constructor. by_compute. Qed.

Lemma sample_env_ok : env_ok [].
Proof. constructor. Qed.

Lemma sample_echo n log cs rs :
  p_dispatch (sample_ports n) log cs = Ok rs ->
  forall r, r ∈ rs -> exists c, c ∈ cs /\ tc_name c = tr_name r.
Proof. intros [= <-] r (c & -> & Hc)%list_elem_of_fmap. by exists c. Qed.

(** A run that exhausts the tool loop reports the error and still ends [DONE]. *)
Example exceeded_then_done :
  map ev_kind (w_events (snd (sample_run 9 "text" "hi" [] []))) =
  [EventKind.STATE; EventKind.STATE; EventKind.TOOL_CALL; EventKind.TOOL_RESULT; EventKind.TOOL_CALL;
   EventKind.TOOL_RESULT; EventKind.TOOL_CALL; EventKind.ERROR; EventKind.DONE].
Proof. by vm_compute. Qed.
