(* ===== verification/TurnLog.v ===== *)
(** * What a turn emits, and in which order.

    [Ext Qe Ql s s']: between [s] and [s'] the turn appended events of the kinds
    [Qe], with sequence numbers strictly increasing and above the ones already
    used, and effects satisfying [Ql]; nothing was withdrawn. *)

From S2P Require Import Prelude CoreTypes Guards Presentation Trace Effects TurnState Json TurnEngine.
#[local] Open Scope eff_scope.

(** The sequence numbers [l] are strictly increasing, all in [(a, b]]. *)
Definition ascending (a : Z) (l : list Z) (b : Z) : Prop :=
  StronglySorted Z.lt l /\ Forall (fun n => a < n <= b) l /\ a <= b.

Lemma ascending_nil a : ascending a [] a.
Proof. split_and!; [constructor..|lia]. Qed.

Lemma ascending_app a l b l' c : ascending a l b -> ascending b l' c -> ascending a (l ++ l') c.
Proof.
  intros (Hs & Hf & Hab) (Hs' & Hf' & Hbc). split_and!; [|apply Forall_app; split|lia].
  - clear Hab. induction Hs as [|x l Hl IH Hx]; [exact Hs'|]. apply Forall_cons in Hf as [Hx' Hf].
    simpl. constructor; [by apply IH|]. apply Forall_app. split; [done|].
    eapply Forall_impl; [exact Hf'|]. simpl. lia.
  - eapply Forall_impl; [exact Hf|]. simpl. lia.
  - eapply Forall_impl; [exact Hf'|]. simpl. lia.
Qed.

Lemma ascending_one a b : a < b -> ascending a [b] b.
Proof. intros H. split_and!; [by repeat constructor|by repeat constructor; lia|lia]. Qed.

Definition Ext (Qe : EventKind.t -> Prop) (Ql : effect -> Prop) (s s' : TState) : Prop :=
  exists evs ls, w_events s' = w_events s ++ evs /\ w_log s' = w_log s ++ ls /\
    Forall (fun ev => Qe (ev_kind ev)) evs /\ Forall Ql ls /\
    ascending (w_seq s) (map ev_seq evs) (w_seq s').

Lemma Ext_same Qe Ql s s' :
  w_events s' = w_events s -> w_log s' = w_log s -> w_seq s' = w_seq s -> Ext Qe Ql s s'.
Proof.
  intros He Hl Hs. exists [], []. rewrite He, Hl, Hs, !app_nil_r. split_and!; try done. apply ascending_nil.
Qed.

#[global] Instance Ext_preorder Qe Ql : PreOrder (Ext Qe Ql).
Proof.
  split; [intros s; by apply Ext_same|].
  intros s1 s2 s3 (e1 & l1 & He1 & Hl1 & Q1 & L1 & A1) (e2 & l2 & He2 & Hl2 & Q2 & L2 & A2).
  exists (e1 ++ e2), (l1 ++ l2). rewrite He2, He1, Hl2, Hl1, !app_assoc, map_app.
  split_and!; [done..|by apply Forall_app|by apply Forall_app|by eapply ascending_app].
Qed.

Lemma Ext_weaken (Qe Qe' : EventKind.t -> Prop) (Ql Ql' : effect -> Prop) s s' :
  (forall k, Qe k -> Qe' k) -> (forall e, Ql e -> Ql' e) -> Ext Qe Ql s s' -> Ext Qe' Ql' s s'.
Proof.
  intros HE HL (e & l & ? & ? & Q & L & ?). exists e, l.
  split_and!; try done; [eapply Forall_impl; [exact Q|simpl; auto]|by eapply Forall_impl].
Qed.

(** The effects of the rounds of the tool loop. *)
Definition is_round (e : effect) : bool :=
  match e with EModel _ _ | EDispatch _ _ _ | EDispatchCancelled => true | _ => false end.

Section Log.
Context {P : PresentationOps} {D : CommittedTurn.DecisionOps}.
Context (str_repr : string -> string) (int_other : pyval -> res Z).
Context (cfg : Config) (pt : Ports) (ti : TurnInput).
Context (Qe : EventKind.t -> Prop) (Ql : effect -> Prop).

Notation ext m := (preserves (Ext Qe Ql) m).

Lemma ext_silent {A} (m : M TState A) :
  (forall s, w_events (snd (m s)) = w_events s /\ w_log (snd (m s)) = w_log s /\ w_seq (snd (m s)) = w_seq s) ->
  ext m.
Proof. intros H s. destruct (H s) as (? & ? & ?). by apply Ext_same. Qed.

Lemma ext_suspend y : ext (suspend y).
Proof.
  apply ext_silent. intros s. unfold suspend. destruct (w_sched s) as [|sl rest]; [done|].
  by destruct (sl_interrupt sl) as [[|]|]; [|destruct y|].
Qed.

Lemma ext_log e : Ql e -> ext (log_effect e).
Proof.
  intros He s. exists [], [e]. simpl. rewrite app_nil_r.
  split_and!; [done..|constructor|by constructor|apply ascending_nil].
Qed.


(** A sequence number taken for an event that is yielded right after, or never. *)
Lemma ext_emit_via (m m' : M TState unit) (f : Z -> TurnEvent) :
  (forall n, ev_seq (f n) = n /\ Qe (ev_kind (f n))) ->
  (forall s, w_events (snd (m s)) = w_events s /\ w_log (snd (m s)) = w_log s /\ w_seq (snd (m s)) = w_seq s) ->
  (forall s, w_events (snd (m' s)) = w_events s /\ w_log (snd (m' s)) = w_log s /\ w_seq (snd (m' s)) = w_seq s) ->
  ext (n <-- next_seq ;; m ;;; m' ;;; yield_event (f n)).
Proof.
  intros Hf Hm Hm' s. unfold next_seq, yield_event, mmodify, mbind_.
  destruct (Hf (w_seq s + 1)) as [Hseq Hkind].
  assert (forall s1, w_events s1 = w_events s -> w_log s1 = w_log s -> w_seq s1 = w_seq s + 1 -> Ext Qe Ql s s1)
    as Hgap.
  { intros s1 He Hl Hs. exists [], []. rewrite He, Hl, Hs, !app_nil_r.
    split_and!; [done..|constructor|constructor|]. split_and!; [constructor..|lia]. }
  specialize (Hm (upd_w_seq (fun n => n + 1) s)).
  destruct (m (upd_w_seq (fun n => n + 1) s)) as [[[]|e] s1]; simpl in *; destruct Hm as (He & Hl & Hs);
    [|by apply Hgap].
  specialize (Hm' s1). destruct (m' s1) as [[[]|e] s2]; simpl in *; destruct Hm' as (He' & Hl' & Hs');
    [|by apply Hgap; congruence].
  etransitivity; [|apply ext_suspend].
  exists [f (w_seq s + 1)], []. simpl. rewrite He', He, Hl', Hl, Hs', Hs, Hseq, app_nil_r.
  split_and!; [done..|by constructor|constructor|apply ascending_one; lia].
Qed.

Lemma ext_emit f : (forall n, ev_seq (f n) = n /\ Qe (ev_kind (f n))) -> ext (emit f).
Proof.
  intros Hf. change (emit f) with (n <-- next_seq ;; mret_ tt ;;; mret_ tt ;;; yield_event (f n)).
  by apply ext_emit_via.
Qed.

Lemma ext_tick : ext tick.
Proof. by apply ext_silent. Qed.
Lemma ext_modify_md g : ext (mmodify (upd_w_md g)).
Proof. by apply ext_silent. Qed.
Lemma ext_md_set k v : ext (md_set k v).
Proof. by apply ext_silent. Qed.
Lemma ext_on_time g : ext (on_time g).
Proof. by apply ext_silent. Qed.
Lemma ext_on_tools g : ext (on_tools g).
Proof. by apply ext_silent. Qed.
Lemma ext_on_reply g : ext (on_reply g).
Proof. by apply ext_silent. Qed.
Lemma ext_on_stream g : ext (on_stream g).
Proof. by apply ext_silent. Qed.

#[local] Hint Resolve ext_suspend ext_tick ext_modify_md ext_md_set ext_on_time ext_on_tools ext_on_reply
  ext_on_stream : effects.

(** Every kind of event but the terminal [DONE] may always occur. *)
Context (Qe_open : forall k, k <> EventKind.DONE -> Qe k).
#[local] Hint Extern 1 (preserves _ (emit _)) =>
  apply ext_emit; intros; split; [reflexivity|by apply Qe_open] : effects.

Ltac prim := unfold monotonic, utc_now, uuid4, elapsed, md_get.
Ltac go := repeat (prim; preserve).

Lemma ext_note t0 : ext (note_first_delta pt t0).
Proof. unfold note_first_delta. go. Qed.
#[local] Hint Resolve ext_note : effects.

Lemma ext_remember txt st0 st : (forall tid ms, Ql (EHistory tid ms)) -> ext (remember_turn pt ti txt st0 st).
Proof. intros HQ. unfold remember_turn. go; by apply ext_log. Qed.

Lemma ext_publish st0 : (forall a, Ql (EObserve a)) -> ext (publish_memory_observation cfg pt ti st0).
Proof.
  intros HQ. unfold publish_memory_observation. go; [by apply ext_log|]. case_hyp H; simplify_eq; go.
Qed.

Lemma ext_delta pm t0 d : ext (on_delta pt pm t0 d).
Proof. unfold on_delta, on_activity, on_text, on_tool_call, on_usage, add_part. go. Qed.
#[local] Hint Resolve ext_delta : effects.

Lemma ext_consume pm t0 ms ts : Ql (EModel ms ts) -> ext (consume_stream pt pm t0 ms ts).
Proof. intros HQ. unfold consume_stream. go. by apply ext_log. Qed.

Lemma ext_harness ns b : ext (update_harness_snapshot_tools ns b).
Proof. unfold update_harness_snapshot_tools. go. Qed.
Lemma ext_retain r : ext (retain_references r).
Proof. unfold retain_references. go. Qed.
#[local] Hint Resolve ext_harness ext_retain : effects.

Lemma handoffs_silent s :
  let s' := snd (update_harness_snapshot_handoffs s) in
  w_events s' = w_events s /\ w_log s' = w_log s /\ w_seq s' = w_seq s.
Proof.
  unfold update_harness_snapshot_handoffs, md_get, mgets, mlift, md_set, mmodify, mbind_. cbn.
  by destruct (as_dict_or_empty _).
Qed.

Lemma ext_on_result now r : ext (on_result str_repr pt now r).
Proof.
  unfold on_result. do 3 (apply preserves_bind; [typeclasses eauto|go|intros ?]).
  apply preserves_bind; [typeclasses eauto| |intros ?; go].
  destruct (handoff_of r) as [[task progress]|]; [|go].
  apply (ext_emit_via _ _ (fun n => mkEvent n EventKind.HANDOFF [("task_id", task); ("progress_subject", progress)]));
    [intros; split; [reflexivity|by apply Qe_open]|done|apply handoffs_silent].
Qed.
#[local] Hint Resolve ext_on_result : effects.
Lemma ext_on_results now rs : ext (on_results str_repr pt now rs).
Proof. induction rs as [|r rs IH]; simpl; go. Qed.
#[local] Hint Resolve ext_on_results : effects.

Lemma ext_run_dispatch pm t0 cs ex :
  (forall d, Ql (EDispatch cs ex d)) -> Ql EDispatchCancelled -> ext (run_dispatch cfg pt ti pm t0 cs ex).
Proof.
  intros HQ HC. unfold run_dispatch. go; [by apply ext_log|]. simplify_eq. go. by apply ext_log.
Qed.

Lemma ext_dispatch_round pm t0 cs ex :
  (forall cs ex d, Ql (EDispatch cs ex d)) -> Ql EDispatchCancelled ->
  ext (dispatch_round str_repr cfg pt ti pm t0 cs ex).
Proof. intros HQ HC. unfold dispatch_round, record_results. go. by apply ext_run_dispatch. Qed.

Lemma ext_finish_presentation c cs fin o : ext (finish_presentation ti c cs fin o).
Proof. unfold finish_presentation. go. Qed.
#[local] Hint Resolve ext_finish_presentation : effects.
Context (Q_history : forall tid ms, Ql (EHistory tid ms)).

Lemma ext_record txt st0 st : ext (remember_turn pt ti txt st0 st).
Proof. by apply ext_remember. Qed.
#[local] Hint Resolve ext_record : effects.

Lemma ext_exception st0 e k : on_exception int_other pt ti st0 e = Some k -> ext k.
Proof.
  unfold on_exception, on_errored, on_cancelled, set_outcome, set_persist, set_finalized. intros Hk.
  destruct e as [| |c m|c m]; [| |destruct c|]; simpl in Hk; repeat case_hyp Hk; simplify_eq; go.
Qed.

Lemma ext_cleanup sp allowed t0 st0 :
  (forall a, Ql (EPersist a)) -> (forall st t, Ql (ECompleted st t)) ->
  ext (cleanup int_other cfg pt ti sp allowed t0 st0).
Proof. intros HP HC. unfold cleanup, persist_stage. go; by apply ext_log. Qed.

Lemma ext_tool_loop fuel pm t0 o ts ex n ms :
  (forall e, Ql e) -> ext (tool_loop str_repr cfg pt ti fuel pm t0 o ts ex n ms).
Proof.
  intros HQ. revert n ms. induction fuel as [|fuel IH]; intros n ms; [simpl; go|].
  cbn [tool_loop]. go; [by apply ext_consume|by apply ext_dispatch_round].
Qed.

Context (Q_rest : forall e, is_round e = false -> Ql e).
#[local] Hint Extern 1 (preserves _ (log_effect _)) => apply ext_log, Q_rest; reflexivity : effects.

Lemma ext_crisis pm sp st0 : ext (deliver_crisis pt ti pm sp st0).
Proof. unfold deliver_crisis, set_persist, set_finalized, current_status, emit_presentation. go. Qed.
Lemma ext_refusal pm sp st0 : ext (deliver_refusal pt ti pm sp st0).
Proof. unfold deliver_refusal, set_persist, set_finalized, current_status, emit_presentation. go. Qed.
Lemma ext_observe sp st0 : ext (observe_stage cfg pt ti sp st0).
Proof. unfold observe_stage. go. apply ext_publish. intros ?. by apply Q_rest. Qed.
Lemma ext_prepare pm t0 sel : ext (prepare_stage str_repr cfg pt ti pm t0 sel).
Proof. unfold prepare_stage, tool_schemas. go. Qed.
Lemma ext_reply pm sp t0 st0 : ext (deliver_reply pt ti pm sp t0 st0).
Proof.
  unfold deliver_reply, set_persist, set_finalized, current_status, emit_presentation. go.
Qed.
Lemma ext_receipt sp : ext (await_receipt pt ti sp).
Proof. unfold await_receipt. go. Qed.
End Log.
