(* ===== verification/TurnOrder.v ===== *)
(** * Order of a turn's events and effects.

    Stated for every behaviour of the other components ([Ports]) and for every
    schedule: metadata written by other tasks, cancellation or closing at any
    suspension point. *)

From S2P Require Import Prelude CoreTypes Guards Presentation Trace Effects TurnState Json TurnEngine TurnSafety TurnPolicy TurnLog Samples.
#[local] Open Scope eff_scope.

Section Order.
Context {P : PresentationOps} {D : CommittedTurn.DecisionOps}.
Context (case_table str_repr : string -> string) (int_other : pyval -> res Z) (face_profile : string).
Context (cfg : Config) (pt : Ports) (ti : TurnInput).

Notation run_turn_ := (run_turn case_table str_repr int_other face_profile cfg pt ti).
Notation body_ := (body case_table str_repr cfg pt ti).

(** ** Order of the events *)

Notation ext_any m := (preserves (Ext (fun _ => True) (fun _ => True)) m).

Ltac prim := unfold monotonic, utc_now, uuid4, elapsed, md_get.
#[local] Hint Resolve ext_suspend ext_tick ext_modify_md ext_md_set ext_on_time ext_on_tools ext_on_reply
  ext_on_stream : effects.
#[local] Hint Extern 1 (preserves _ (log_effect _)) => by apply ext_log : effects.
#[local] Hint Extern 1 (preserves _ (emit _)) => by apply ext_emit : effects.
#[local] Hint Extern 1 (preserves _ (remember_turn _ _ _ _ _)) => by apply ext_record : effects.
#[local] Hint Extern 1 (preserves _ (emit_done _)) => by apply ext_emit : effects.
#[local] Hint Extern 1 (preserves _ (deliver_crisis _ _ _ _ _)) => by apply ext_crisis : effects.
#[local] Hint Extern 1 (preserves _ (deliver_refusal _ _ _ _ _)) => by apply ext_refusal : effects.
#[local] Hint Extern 1 (preserves _ (observe_stage _ _ _ _ _)) => by apply ext_observe : effects.
#[local] Hint Extern 1 (preserves _ (prepare_stage _ _ _ _ _ _ _)) => by apply ext_prepare : effects.
#[local] Hint Extern 1 (preserves _ (tool_loop _ _ _ _ _ _ _ _ _ _ _ _)) => by apply ext_tool_loop : effects.
#[local] Hint Extern 1 (preserves _ (deliver_reply _ _ _ _ _ _)) => by apply ext_reply : effects.
#[local] Hint Extern 1 (preserves _ (await_receipt _ _ _)) => by apply ext_receipt : effects.
#[local] Hint Extern 1 (preserves _ (cleanup _ _ _ _ _ _ _ _)) => by apply ext_cleanup : effects.
Ltac go := repeat (prim; preserve).

Lemma ext_body pm sp c sel t0 st0 : ext_any (body_ pm sp c sel t0 st0).
Proof. unfold body, crisis_stage, refuse_stage, output_stage. go. Qed.
#[local] Hint Resolve ext_body : effects.

Lemma ext_run : ext_any (run case_table str_repr int_other face_profile cfg pt ti).
Proof.
  unfold run, admission, admitted, guarded. go.
  - by apply ext_silent.
  - by eapply ext_exception.
Qed.

(** The sequence numbers of the emitted events are non-negative and strictly increasing in every
    run and under every interruption. *)
Theorem event_numbers_increase md sched :
  let evs := w_events (snd (run_turn case_table str_repr int_other face_profile cfg pt ti md sched)) in
  StronglySorted Z.lt (map ev_seq evs) /\ Forall (fun ev => 0 <= ev_seq ev) evs.
Proof.
  destruct (ext_run (init_state md sched)) as (evs & ls & He & _ & _ & _ & Hs & Hf & _).
  unfold run_turn. rewrite He. simpl in *. split; [done|].
  rewrite Forall_map in Hf. eapply Forall_impl; [exact Hf|]. simpl. lia.
Qed.

(** ** The terminal event *)

Definition is_done (ev : TurnEvent) : bool := bool_decide (ev_kind ev = EventKind.DONE).
Definition dones (s : TState) : nat := length (List.filter is_done (w_events s)).
Definition ends_with (k : EventKind.t) (s : TState) : Prop :=
  exists l ev, w_events s = l ++ [ev] /\ ev_kind ev = k.

Notation ext_open m := (preserves (Ext (fun k => k <> EventKind.DONE) (fun _ => True)) m).
Notation ext_mute m := (preserves (Ext (fun _ => False) (fun _ => True)) m).

Lemma open_dones s s' : Ext (fun k => k <> EventKind.DONE) (fun _ => True) s s' -> dones s' = dones s.
Proof.
  intros (evs & ls & He & _ & Hk & _). unfold dones. rewrite He, List.filter_app, length_app.
  enough (List.filter is_done evs = []) as -> by (simpl; lia).
  clear He. induction Hk as [|ev evs Hev Hk IH]; [done|]. simpl. unfold is_done at 1.
  by rewrite bool_decide_false.
Qed.

Lemma mute_events s s' : Ext (fun _ => False) (fun _ => True) s s' -> w_events s' = w_events s.
Proof.
  intros (evs & ls & He & _ & Hk & _). rewrite He. destruct Hk as [|? ? []]. by rewrite app_nil_r.
Qed.

Lemma open_triple {A} n (m : M TState A) :
  ext_open m -> triple (fun s => dones s = n) m (fun _ s => dones s = n) (fun _ s => dones s = n).
Proof.
  intros Hm s Hs. specialize (Hm s). destruct (m s) as [[a|e] s']; simpl in *; by rewrite (open_dones _ _ Hm).
Qed.

Definition finished (s : TState) : Prop := dones s = 1%nat /\ ends_with EventKind.DONE s.

Lemma mute_triple {A} (m : M TState A) :
  ext_mute m -> triple finished m (fun _ => finished) (fun _ => finished).
Proof.
  intros Hm s Hs. specialize (Hm s). unfold finished, dones, ends_with in *.
  destruct (m s) as [[a|e] s']; simpl in *; by rewrite (mute_events _ _ Hm).
Qed.

Lemma emit_triple k n (f : Z -> TurnEvent) :
  (forall z, ev_kind (f z) = k) ->
  let Q s := dones s = (n + if bool_decide (k = EventKind.DONE) then 1 else 0)%nat /\ ends_with k s in
  triple (fun s => dones s = n) (emit f) (fun _ => Q) (fun _ => Q).
Proof.
  intros Hf Q s Hs.
  assert (forall sq, Q (upd_w_events (fun l => l ++ [f (w_seq s + 1)]) (upd_w_seq sq s))) as HQ.
  { intros sq. split; [|by eexists _, _].
    unfold dones in *. simpl. rewrite List.filter_app, length_app, Hs. simpl. unfold is_done.
    rewrite Hf. by destruct (bool_decide _). }
  unfold emit, next_seq, yield_event, mmodify, suspend, mbind_. cbn.
  destruct (w_sched s) as [|sl rest]; [apply HQ|].
  by destruct (sl_interrupt sl) as [[|]|]; apply HQ.
Qed.

Lemma done_triple p : triple (fun s => dones s = 0%nat) (emit_done p) (fun _ => finished) (fun _ => finished).
Proof.
  unfold emit_done. eapply triple_conseq; [|by apply (emit_triple EventKind.DONE 0)|..]; done.
Qed.

Lemma open_step {A B} (m : M TState A) (k : A -> M TState B) (Q : B -> TState -> Prop) E :
  ext_open m -> (forall e s, dones s = 0%nat -> E e s) ->
  (forall a, triple (fun s => dones s = 0%nat) (k a) Q E) ->
  triple (fun s => dones s = 0%nat) (mbind_ m k) Q E.
Proof.
  intros Hm HE Hk. eapply triple_bind; [|exact Hk].
  eapply triple_conseq; [|by apply (open_triple 0)|..]; simpl; auto.
Qed.

Ltac early := apply open_step; [go|intros; by auto with lia|].

(** The body ends with exactly one [DONE], or raises with at most one. *)
Lemma body_triple pm sp c sel t0 st0 :
  triple (fun s => dones s = 0%nat) (body_ pm sp c sel t0 st0) (fun _ => finished)
    (fun _ s => dones s = 0%nat \/ finished s).
Proof.
  assert (forall p, triple (fun s => dones s = 0%nat) (emit_done p) (fun _ => finished)
    (fun _ s => dones s = 0%nat \/ finished s)) as Hdone.
  { intros p. eapply triple_conseq; [|apply done_triple|done|]; [done|by right]. }
  unfold body. do 5 (early; intros ?).
  destruct (bool_decide _); [|destruct (bool_decide _)].
  - unfold crisis_stage. early; intros _. apply Hdone.
  - unfold refuse_stage. early; intros _. apply Hdone.
  - do 4 (early; intros ?). early; intros [[[ms ts] ex] o].
    do 2 (early; intros ?). unfold output_stage.
    do 2 (early; intros ?).
    eapply triple_bind; [apply Hdone|]. intros [].
    eapply triple_conseq; [|apply mute_triple|..]; [done|by apply ext_receipt|done|by right].
Qed.

Lemma exception_triple st0 e k :
  on_exception int_other pt ti st0 e = Some k ->
  triple (fun s => dones s = 0%nat \/ finished s) k
    (fun _ s => (dones s <= 1)%nat /\ ends_with EventKind.ERROR s) (fun _ s => (dones s <= 1)%nat).
Proof.
  intros Hk s Hs.
  assert (ext_open k) as Ho by (by eapply ext_exception). specialize (Ho s). apply open_dones in Ho.
  assert ((dones s <= 1)%nat) as Hle by (destruct Hs as [Hs|[Hs _]]; lia).
  assert (triple (fun s => (dones s <= 1)%nat) k (fun _ => ends_with EventKind.ERROR) (fun _ _ => True)) as Ht.
  { clear s Hs Ho Hle. unfold on_exception in Hk.
    assert (forall c m, triple (fun s => (dones s <= 1)%nat) (on_errored c m)
              (fun _ => ends_with EventKind.ERROR) (fun _ _ => True)) as He.
    { intros c m s Hs. unfold on_errored, set_outcome, on_reply, mmodify, mbind_. cbn beta iota.
      match goal with |- context [emit ?f ?s'] => 
        pose proof (emit_triple EventKind.ERROR (dones s') f (fun z => eq_refl) s' eq_refl) as Hem;
        by destruct (emit f s') as [[?|?] ?]; [destruct Hem|]
      end. }
    assert (triple (fun s => (dones s <= 1)%nat) (on_cancelled int_other pt ti st0)
              (fun _ => ends_with EventKind.ERROR) (fun _ _ => True)) as Hc.
    { unfold on_cancelled. intros s _.
      match goal with |- let (_, _) := ?x in _ => destruct x as [[[]|e'] s'] eqn:E end; [|done].
      exfalso. revert E. unfold mbind_. intros E. repeat case_hyp E; done. }
    destruct e as [| |c m|c m]; [| |destruct c|]; simpl in Hk; repeat case_hyp Hk; simplify_eq; auto. }
  specialize (Ht s Hle). destruct (k s) as [[a|e'] s']; simpl in *; split_and?; try done; lia.
Qed.

Definition terminated (s : TState) : Prop :=
  (dones s <= 1)%nat /\ (ends_with EventKind.DONE s \/ ends_with EventKind.ERROR s).

Lemma mute_keeps (Q : TState -> Prop) {A} (m : M TState A) :
  (forall s s', w_events s' = w_events s -> Q s -> Q s') -> ext_mute m ->
  triple Q m (fun _ => Q) (fun _ => Q).
Proof.
  intros HQ Hm s Hs. specialize (Hm s). destruct (m s) as [[a|e] s']; simpl in *;
    (eapply HQ; [by apply mute_events|done]).
Qed.

Lemma guarded_triple pm sp c sel t0 st0 v :
  triple (fun s => dones s = 0%nat) (guarded case_table str_repr int_other cfg pt ti pm sp c sel t0 st0 v)
    (fun _ => terminated) (fun _ s => (dones s <= 1)%nat).
Proof.
  unfold guarded.
  do 3 (apply open_step; [go|intros; lia|intros _]).
  eapply triple_finally with (Q0 := fun _ => terminated) (E0 := fun _ s => (dones s <= 1)%nat).
  - eapply triple_try.
    + eapply triple_conseq; [|apply body_triple|..]; [done|..|intros e s H; exact H].
      intros _ s [? ?]. split; [lia|by left].
    + intros e. destruct (on_exception int_other pt ti st0 e) as [k|] eqn:Ek.
      * eapply triple_conseq; [|by eapply exception_triple|..]; [done|..|done].
        intros _ s [? ?]. split; [done|by right].
      * intros s [?|[? _]]; lia.
  - intros []. eapply triple_conseq; [|apply (mute_keeps terminated)|..]; [done| | |done|by intros ? ? []].
    + intros s s' He. unfold terminated, dones, ends_with. by rewrite He.
    + by apply ext_cleanup.
  - intros e. apply mute_keeps; [|by apply ext_cleanup]. intros s s' He. unfold dones. by rewrite He.
Qed.

(** C5: Every run emits at most one DONE event, and a run that ends normally emits DONE or ERROR
    last. *)
Theorem one_terminal_event md sched :
  let '(r, s) := run_turn_ md sched in
  (dones s <= 1)%nat /\ (r = Ok tt -> ends_with EventKind.DONE s \/ ends_with EventKind.ERROR s).
Proof.
  unfold run_turn, run, mbind_.
  assert (dones (init_state md sched) = 0%nat) as H0 by done.
  assert (ext_open (admission pt ti)) as Ha.
  { unfold admission. go. by apply ext_silent. }
  specialize (Ha (init_state md sched)). apply open_dones in Ha. rewrite H0 in Ha.
  destruct (admission pt ti (init_state md sched)) as [[c|e] s1]; cbn [snd] in Ha; [|split; [lia|done]].
  enough (triple (fun s => dones s = 0%nat) (admitted case_table str_repr int_other face_profile cfg pt ti c)
    (fun _ => terminated) (fun _ s => (dones s <= 1)%nat)) as Ht.
  { specialize (Ht s1 Ha). by destruct (admitted _ _ _ _ _ _ _ c s1) as [[a|e] s]; [destruct Ht|split]. }
  unfold admitted.
  do 6 (apply open_step; [go|intros; lia|intros ?]).
  apply guarded_triple.
Qed.

(** ** The user's message is stored before a model sees it *)

Definition user_record (e : effect) : Prop :=
  exists ms, e = EHistory (ti_turn_id ti) ms /\
    exists m, m ∈ ms /\ m_role m = USER /\ m_content m = text ti.

Definition is_model (e : effect) : Prop := match e with EModel _ _ => True | _ => False end.

(** Either the record is there, with no model call before it, or no model was
    called at all. *)
Definition record_first (s : TState) : Prop :=
  (exists l0 e l1, w_log s = l0 ++ e :: l1 /\ user_record e /\ Forall (fun e => ~ is_model e) l0)
  \/ Forall (fun e => ~ is_model e) (w_log s).
Definition recorded (s : TState) : Prop :=
  exists l0 e l1, w_log s = l0 ++ e :: l1 /\ user_record e /\ Forall (fun e => ~ is_model e) l0.
Definition no_model (s : TState) : Prop := Forall (fun e => ~ is_model e) (w_log s).

Lemma recorded_ext {A} (m : M TState A) : ext_any m -> preserves (fun s s' => recorded s -> recorded s') m.
Proof.
  intros Hm s (l0 & e & l1 & Hl & Hr & Hn). destruct (Hm s) as (_ & ls & _ & Hl' & _).
  exists l0, e, (l1 ++ ls). by rewrite Hl', Hl, <- app_assoc.
Qed.

Lemma no_model_ext s s' : Ext (fun _ => True) (fun e => ~ is_model e) s s' -> no_model s -> no_model s'.
Proof. intros (_ & ls & _ & Hl & _ & Hq & _) Hs. unfold no_model. rewrite Hl. by apply Forall_app. Qed.

Definition ready (s : TState) : Prop :=
  no_model s /\ get_truthy (dict_get (w_md s) "speculative") = false /\
  get_truthy (dict_get (w_md s) "committed_turn_persistence_allowed") = true.

Notation readies m := (preserves (fun s s' => ready s -> ready s') m).
#[local] Instance ready_preorder : PreOrder (fun s s' => ready s -> ready s').
Proof. split; [intros s H; exact H|intros s1 s2 s3 H1 H2 H; auto]. Qed.

Lemma ready_md_set k v :
  k <> "speculative" -> k <> "committed_turn_persistence_allowed" -> readies (md_set k v).
Proof. intros H1 H2 s (Hn & Hs & Hc). split_and!; [exact Hn|..]; simpl; by rewrite dict_get_set_ne. Qed.

Lemma ready_step {A B} (m : M TState A) (k : A -> M TState B) Q (E : exn -> TState -> Prop) :
  readies m -> (forall e s, record_first s -> E e s) -> (forall a, triple ready (k a) Q E) ->
  triple ready (mbind_ m k) Q E.
Proof.
  intros Hm HE Hk. eapply triple_bind; [|exact Hk].
  eapply triple_conseq; [|by apply (triple_invariant ready)|..]; simpl; [done..|].
  intros e s (Hn & _). apply HE. by right.
Qed.

(** With the user's text there is a message to store. *)
Context (text_nonempty : text ti <> "").

Lemma remember_user st0 :
  triple ready (remember_turn pt ti "" st0 "active") (fun _ => recorded) (fun _ => record_first).
Proof.
  intros s (Hn & Hs & Hc). unfold remember_turn, mgets, mbind_ at 1. rewrite Hs.
  destruct (dict_get (w_md s) "committed_turn_persistence_allowed") as [v|]; [|done].
  simpl in Hc. rewrite Hc. cbn [negb is_empty]. unfold mret_, mbind_ at 1, mbind_ at 1.
  set (ms := turn_messages pt ti (w_md s) "" st0 st0 "active").
  assert (user_record (EHistory (ti_turn_id ti) ms)) as Hu.
  { exists ms. split; [done|]. subst ms. unfold turn_messages. rewrite (proj2 (is_empty_false _) text_nonempty).
    eexists. split; [apply elem_of_app; left; apply list_elem_of_singleton; reflexivity|]. by split. }
  pose proof (ext_suspend (fun _ => True) (fun e => ~ is_model e) false s) as Hsus.
  assert (no_model (snd (suspend false s))) as Hns by (by eapply no_model_ext).
  destruct (suspend false s) as [[[]|e] s1]; simpl in *; [|by right].
  by exists (w_log s1), (EHistory (ti_turn_id ti) ms), [].
Qed.

Lemma recorded_first_step {A} (m : M TState A) :
  ext_any m -> preserves (Ext (fun _ => True) (fun e => ~ is_model e)) m ->
  triple record_first m (fun _ => record_first) (fun _ => record_first).
Proof.
  intros Hm Hm'. apply triple_invariant. intros s [Hr|Hn].
  - left. by apply (recorded_ext m Hm).
  - right. exact (no_model_ext _ _ (Hm' s) Hn).
Qed.

Lemma body_record_first pm sp c sel t0 st0 :
  triple ready (body_ pm sp c sel t0 st0) (fun _ => record_first) (fun _ => record_first).
Proof.
  unfold body. do 2 (apply ready_step; [intros s H; exact H|done|intros ?]).
  apply ready_step; [|done|intros []].
  { apply preserves_when; [typeclasses eauto|]. intros _.
    apply preserves_bind; [typeclasses eauto|by apply ready_md_set|intros _].
    intros s H. exact H. }
  eapply triple_bind; [apply remember_user|]. intros [].
  eapply triple_conseq; [done|apply (triple_invariant recorded), recorded_ext|by left|by left].
  unfold crisis_stage, refuse_stage, output_stage. go.
Qed.

Lemma guarded_record_first pm sp c sel t0 st0 v s :
  CommittedTurn.persistence_allowed v = true -> no_model s ->
  get_truthy (dict_get (w_md s) "speculative") = false ->
  record_first (snd (guarded case_table str_repr int_other cfg pt ti pm sp c sel t0 st0 v s)).
Proof.
  intros Hv Hn Hs. unfold guarded, md_set, mmodify, mbind_.
  match goal with |- record_first (snd (mfinally ?m ?f ?s')) =>
    assert (triple ready (mfinally m f) (fun _ => record_first) (fun _ => record_first)) as Ht;
    [|assert (ready s') as Hr; [|specialize (Ht s' Hr); by destruct (mfinally m f s') as [[?|?] ?]]] end.
  - eapply triple_finally with (Q0 := fun _ => record_first) (E0 := fun _ => record_first).
    + eapply triple_try; [apply body_record_first|]. intros e.
      destruct (on_exception _ _ _ _ e) as [k|] eqn:Ek; [|done].
      apply recorded_first_step; (eapply ext_exception; [done|by try intros ? ? []|exact Ek]).
    + intros _. apply recorded_first_step; apply ext_cleanup; first [done|intros ? H; exact H|intros ? ? H; exact H].
    + intros _. apply recorded_first_step; apply ext_cleanup; first [done|intros ? H; exact H|intros ? ? H; exact H].
  - split_and!; [exact Hn|..]; simpl; rewrite ?dict_get_set_eq, ?dict_get_set_ne by done; [done|].
    by rewrite Hv.
Qed.

(** C2: A committed, non-speculative turn stores the user message before the first model call: in
    every run no model call precedes the history record of the user text. *)
Theorem user_message_before_model md sched :
  env_ok sched -> speculative md = false -> storable ti md = true ->
  record_first (snd (run_turn_ md sched)).
Proof.
  intros Henv Hsp Hst. unfold run_turn, run, mbind_.
  assert (no_model (snd (admission pt ti (init_state md sched)))) as Hn.
  { apply (no_model_ext (init_state md sched)); [|constructor].
    assert (preserves (Ext (fun _ => True) (fun e => ~ is_model e)) (admission pt ti)) as Ha; [|apply Ha].
    unfold admission. go; [|by apply ext_silent]. apply ext_log. intros H. exact H. }
  assert (forall k, k ∈ policy_keys ->
    dict_get (w_md (snd (admission pt ti (init_state md sched)))) k = dict_get md k) as Hmd.
  { by apply admission_start. }
  destruct (admission pt ti (init_state md sched)) as [[c|e] s1]; simpl in Hn, Hmd; [|by right].
  unfold admitted, utc_now, monotonic, tick, on_reply, mgets, mmodify, mlift, mret_, mbind_.
  cbn beta iota zeta. cbn [w_md upd_w_reply upd_w_ticks].
  rewrite !(Hmd "turn_decision") by by_compute. rewrite !(Hmd "speculative") by by_compute.
  unfold storable in Hst.
  destruct (dict_get (w_md s1) "selected_outputs") as [v|]; [destruct (outputs_validate v); [|by right]|];
    (destruct (CommittedTurn.validate_committed_turn _ _ _) as [c'|]; [|done]);
    (apply guarded_record_first; [done|exact Hn|]); simpl; by rewrite (Hmd "speculative") by by_compute.
Qed.
End Order.

Lemma user_message_before_model_witness :
  record_first (sample_input "text" (Some "hi")) (snd (sample_run 1 "text" "hi" [] [])).
Proof.
  apply (user_message_before_model id id (fun _ => Ok 0) "face.v1"); [done|exact sample_env_ok|reflexivity|reflexivity].
Defined.
