(* ===== verification/TurnRounds.v ===== *)
(** * The model and tool loop: how often it goes round, and what it dispatches.

    [tool_loop] recurses on fuel; [loop_fuel_suffices] shows that the fuel [run]
    gives it is never the reason it stops, so the fuel-free [while True] of the
    code terminates with the same result. *)

From S2P Require Import Prelude CoreTypes Guards Presentation Trace Effects TurnState Json TurnEngine TurnLog.
#[local] Open Scope eff_scope.

Lemma mbind_ext {St A B} (m : M St A) (k k' : A -> M St B) s :
  (forall a s', k a s' = k' a s') -> mbind_ m k s = mbind_ m k' s.
Proof. intros H. unfold mbind_. by destruct (m s) as [[a|e] s']. Qed.

Section Rounds.
Context {P : PresentationOps} {D : CommittedTurn.DecisionOps}.
Context (str_repr : string -> string).
Context (cfg : Config) (pt : Ports) (ti : TurnInput).

Notation loop := (tool_loop str_repr cfg pt ti).

(** Rounds left after [n] dispatches. *)
Definition rounds (n : Z) : nat := S (Z.to_nat (c_max_tool_iters cfg - n)).

Lemma loop_fuel_irrelevant f f' pm t0 o ts ex n ms s :
  (rounds n <= f)%nat -> (rounds n <= f')%nat ->
  loop f pm t0 o ts ex n ms s = loop f' pm t0 o ts ex n ms s.
Proof.
  revert f' n ms s. induction f as [|f IH]; intros [|f'] n ms s H H'; unfold rounds in *; try lia.
  cbn [tool_loop]. do 3 (apply mbind_ext; intros ? ?).
  destruct (if pm then _ else _); [|done]. apply mbind_ext. intros ? ?.
  destruct (_ && _)%bool; [|done]. destruct (ti_coordinated ti); [done|].
  destruct (Z.leb_spec (c_max_tool_iters cfg) n); [done|].
  apply mbind_ext. intros ? ?. apply IH; lia.
Qed.

(** C6: The model and tool loop terminates: the fuel run gives it is enough, more fuel never changes
    the outcome. *)
Theorem loop_fuel_suffices k pm t0 o ts ex ms s :
  loop (loop_fuel cfg + k) pm t0 o ts ex 0 ms s = loop (loop_fuel cfg) pm t0 o ts ex 0 ms s.
Proof. apply loop_fuel_irrelevant; unfold rounds, loop_fuel; lia. Qed.

(** ** Bounds *)

Definition model_calls (l : list effect) : nat :=
  length (List.filter (fun e => match e with EModel _ _ => true | _ => false end) l).
Definition dispatches (l : list effect) : nat :=
  length (List.filter (fun e => match e with EDispatch _ _ _ => true | _ => false end) l).

(** At most [m] more model calls and [d] more dispatches. *)
Definition Within (m d : nat) (s s' : TState) : Prop :=
  (model_calls (w_log s') <= model_calls (w_log s) + m)%nat /\
  (dispatches (w_log s') <= dispatches (w_log s) + d)%nat.

Lemma counts_app f l l' :
  length (List.filter f (l ++ l')) = (length (List.filter f l) + length (List.filter (A:=effect) f l'))%nat.
Proof. by rewrite List.filter_app, length_app. Qed.

Definition no_call (e : effect) : Prop := match e with EModel _ _ | EDispatch _ _ _ => False | _ => True end.

Lemma within_ext s s' : Ext (fun _ => True) no_call s s' -> Within 0 0 s s'.
Proof.
  intros (_ & ls & _ & Hl & _ & Hq & _). unfold Within, model_calls, dispatches. rewrite Hl, !counts_app.
  clear Hl. induction Hq as [|e ls He Hq IH]; [simpl; lia|]. by destruct e; simpl in *; try lia.
Qed.

Lemma within_trans m d m' d' s1 s2 s3 :
  Within m d s1 s2 -> Within m' d' s2 s3 -> Within (m + m') (d + d') s1 s3.
Proof. unfold Within. lia. Qed.

Lemma within_weaken m d m' d' s s' : (m <= m')%nat -> (d <= d')%nat -> Within m d s s' -> Within m' d' s s'.
Proof. unfold Within. lia. Qed.

Definition within {A} (m d : nat) (x : M TState A) : Prop := forall s, Within m d s (snd (x s)).

Lemma within_quiet {A} (x : M TState A) : preserves (Ext (fun _ => True) no_call) x -> within 0 0 x.
Proof. intros H s. by apply within_ext. Qed.

Lemma within_bind {A B} m d m' d' (x : M TState A) (k : A -> M TState B) :
  within m d x -> (forall a, within m' d' (k a)) -> within (m + m') (d + d') (mbind_ x k).
Proof.
  intros Hx Hk s. specialize (Hx s). unfold mbind_. destruct (x s) as [[a|e] s']; simpl in *.
  - eapply within_trans; [done|apply Hk].
  - eapply within_weaken; [| |exact Hx]; lia.
Qed.

Lemma within_le {A} m d m' d' (x : M TState A) : (m <= m')%nat -> (d <= d')%nat -> within m d x -> within m' d' x.
Proof. intros Hm Hd Hx s. by eapply within_weaken. Qed.

Lemma within_log e :
  within (if e is EModel _ _ then 1 else 0) (if e is EDispatch _ _ _ then 1 else 0) (log_effect e).
Proof.
  intros s. unfold Within, model_calls, dispatches. simpl. rewrite !counts_app. by destruct e; simpl; lia.
Qed.

Lemma within_if {A} m d (b : bool) (x y : M TState A) :
  (b = true -> within m d x) -> (b = false -> within m d y) -> within m d (if b then x else y).
Proof. destruct b; auto. Qed.

#[local] Hint Resolve ext_suspend ext_tick ext_modify_md ext_md_set ext_on_time ext_on_tools ext_on_reply
  ext_on_stream : effects.
#[local] Hint Extern 1 (preserves _ (log_effect _)) => apply ext_log; exact I : effects.
#[local] Hint Extern 1 (preserves _ (emit _)) => by apply ext_emit : effects.
#[local] Hint Extern 1 (preserves _ (on_delta _ _ _ _)) => by apply ext_delta : effects.
#[local] Hint Extern 1 (preserves _ (note_first_delta _ _)) => by apply ext_note : effects.
#[local] Hint Extern 1 (preserves _ (on_results _ _ _ _)) => by apply ext_on_results : effects.
#[local] Hint Extern 1 (preserves _ (finish_presentation _ _ _ _ _)) => by apply ext_finish_presentation : effects.
Ltac go := repeat (unfold monotonic, utc_now, uuid4, elapsed, md_get; preserve).
Ltac quiet := apply within_quiet; solve [go].

Lemma within_consume pm t0 ms ts : within 1 0 (consume_stream pt pm t0 ms ts).
Proof.
  unfold consume_stream. apply (within_bind 0 0 1 0); [quiet|intros _].
  apply (within_bind 1 0 0 0); [apply (within_log (EModel ms ts))|intros _]. quiet.
Qed.

Lemma within_run_dispatch pm t0 cs ex : within 0 1 (run_dispatch cfg pt ti pm t0 cs ex).
Proof.
  unfold run_dispatch.
  apply (within_bind 0 1 0 0); [apply (within_log (EDispatch _ _ _))|intros _]. apply within_quiet. go. simplify_eq. go.
Qed.

Lemma within_dispatch_round pm t0 cs ex : within 0 1 (dispatch_round str_repr cfg pt ti pm t0 cs ex).
Proof.
  unfold dispatch_round, record_results. apply (within_bind 0 0 0 1); [quiet|intros failures].
  do 2 (apply (within_bind 0 0 0 1); [quiet|intros ?]).
  apply (within_bind 0 1 0 0); [|intros ?; quiet].
  destruct (List.filter _ cs); [|apply within_run_dispatch]. apply (within_le 0 0); [lia..|]. quiet.
Qed.

Lemma within_loop f pm t0 o ts ex n ms :
  within (rounds n) (Z.to_nat (c_max_tool_iters cfg - n)) (loop f pm t0 o ts ex n ms).
Proof.
  revert n ms. induction f as [|f IH]; intros n ms; [apply (within_le 0 0); [lia..|simpl; quiet]|].
  cbn [tool_loop]. unfold rounds. remember (Z.to_nat (c_max_tool_iters cfg - n)) as left eqn:Hleft.
  apply (within_bind 1 0 left left); [apply within_consume|intros _].
  do 2 (apply (within_bind 0 0 left left); [quiet|intros ?]).
  destruct (if pm then _ else _); [|apply (within_le 0 0); [lia..|quiet]].
  apply (within_bind 0 0 left left); [quiet|intros _].
  destruct (_ && _)%bool; [|apply (within_le 0 0); [lia..|quiet]].
  destruct (ti_coordinated ti); [apply (within_le 0 0); [lia..|quiet]|].
  destruct (Z.leb_spec (c_max_tool_iters cfg) n); [apply (within_le 0 0); [lia..|quiet]|].
  apply (within_le (0 + rounds (n + 1)) (1 + Z.to_nat (c_max_tool_iters cfg - (n + 1)))); [unfold rounds; lia..|].
  apply within_bind; [apply within_dispatch_round|intros ?; apply IH].
Qed.

Lemma within_try {A} m d (x : M TState A) h :
  within m d x -> (forall e k, h e = Some k -> within 0 0 k) -> within m d (mtry x h).
Proof.
  intros Hx Hh s. specialize (Hx s). unfold mtry. destruct (x s) as [[a|e] s']; simpl in *; [done|].
  destruct (h e) as [k|] eqn:E; [|done]. eapply within_weaken; [| |eapply within_trans; [exact Hx|by eapply Hh]]; lia.
Qed.

Lemma within_finally {A} m d (x : M TState A) f : within m d x -> within 0 0 f -> within m d (mfinally x f).
Proof.
  intros Hx Hf s. specialize (Hx s). unfold mfinally. destruct (x s) as [r s']; simpl in *. specialize (Hf s').
  destruct (f s') as [[?|?] s'']; simpl in *; (eapply within_weaken; [| |eapply within_trans; [exact Hx|exact Hf]]; lia).
Qed.

Context (case_table : string -> string) (int_other : pyval -> res Z) (face_profile : string).

Lemma no_call_rest e : is_round e = false -> no_call e.
Proof. by destruct e. Qed.
#[local] Hint Extern 1 (preserves _ (remember_turn _ _ _ _ _)) => by apply ext_record : effects.
#[local] Hint Extern 1 (preserves _ (emit_done _)) => by apply ext_emit : effects.
#[local] Hint Extern 1 (preserves _ (deliver_crisis _ _ _ _ _)) => apply ext_crisis; first [exact no_call_rest|done] : effects.
#[local] Hint Extern 1 (preserves _ (deliver_refusal _ _ _ _ _)) => apply ext_refusal; first [exact no_call_rest|done] : effects.
#[local] Hint Extern 1 (preserves _ (observe_stage _ _ _ _ _)) => apply ext_observe; first [exact no_call_rest|done] : effects.
#[local] Hint Extern 1 (preserves _ (prepare_stage _ _ _ _ _ _ _)) => apply ext_prepare; first [exact no_call_rest|done] : effects.
#[local] Hint Extern 1 (preserves _ (deliver_reply _ _ _ _ _ _)) => apply ext_reply; first [exact no_call_rest|done] : effects.
#[local] Hint Extern 1 (preserves _ (await_receipt _ _ _)) => apply ext_receipt; first [exact no_call_rest|done] : effects.
#[local] Hint Extern 1 (preserves _ (cleanup _ _ _ _ _ _ _ _)) => by apply ext_cleanup : effects.

Notation max_iters := (Z.to_nat (c_max_tool_iters cfg)).

Lemma within_body pm sp c sel t0 st0 :
  within (S max_iters) max_iters (body case_table str_repr cfg pt ti pm sp c sel t0 st0).
Proof.
  remember (S max_iters) as m eqn:Hm. remember max_iters as d eqn:Hd. unfold body.
  do 5 (apply (within_bind 0 0 m d); [quiet|intros ?]).
  destruct (bool_decide _); [|destruct (bool_decide _)].
  1,2: apply (within_le 0 0); [lia..|]; unfold crisis_stage, refuse_stage; quiet.
  do 4 (apply (within_bind 0 0 m d); [quiet|intros ?]).
  apply (within_bind 0 0 m d); [quiet|intros [[[ms ts] ex] o]].
  apply (within_bind 0 0 m d); [quiet|intros ?].
  apply (within_le (m + 0) (d + 0)); [lia..|]. apply within_bind; [|intros _; unfold output_stage; quiet].
  subst. replace max_iters with (Z.to_nat (c_max_tool_iters cfg - 0)) by (f_equal; lia). apply within_loop.
Qed.

(** A turn calls the model at most max_tool_iters + 1 times and dispatches tools at most
    max_tool_iters times. *)
Theorem turn_rounds_bounded md sched :
  let log := w_log (snd (run_turn case_table str_repr int_other face_profile cfg pt ti md sched)) in
  (model_calls log <= S (Z.to_nat (c_max_tool_iters cfg)))%nat /\
  (dispatches log <= Z.to_nat (c_max_tool_iters cfg))%nat.
Proof.
  enough (within (S max_iters) max_iters (run case_table str_repr int_other face_profile cfg pt ti)) as H.
  { specialize (H (init_state md sched)). exact H. }
  pose proof within_body as Hb. revert Hb.
  remember (S max_iters) as m eqn:Hm. remember max_iters as d eqn:Hd. intros Hb. unfold run.
  apply (within_bind 0 0 m d); [apply within_quiet; unfold admission; go; by apply ext_silent|intros c].
  unfold admitted. do 6 (apply (within_bind 0 0 m d); [quiet|intros ?]). unfold guarded.
  do 3 (apply (within_bind 0 0 m d); [quiet|intros ?]).
  apply within_finally; [|quiet]. apply within_try; [apply Hb|].
  intros e k Hk. apply within_quiet. by eapply ext_exception.
Qed.
End Rounds.
