(* ===== verification/ToolArguments.v ===== *)
(** * [_validate_json_schema] of [domain/tools/dispatcher.py], against the
      meaning of the JSON Schema subset it implements. *)

From S2P Require Import Prelude CoreTypes Json.

(** [F v] for the value [v] of the key [k], [none] without one. A structural walk,
    so that a recursive function may apply itself to [v]. *)
Fixpoint at_key {R} (k : string) (none : R) (F : pyval -> R) (d : list (string * pyval)) : R :=
  match d with
  | [] => none
  | (k', v) :: d' => if bool_decide (k = k') then F v else at_key k none F d'
  end.

Lemma at_key_get {R} k (none : R) F d :
  at_key k none F d = match dict_get d k with Some v => F v | None => none end.
Proof.
  induction d as [|[k' v] d IH]; simpl; [done|]. case_bool_decide; case_decide; done || congruence.
Qed.

(** The first error of a sequence of checks. *)
Definition then_check (r k : res (option string)) : res (option string) :=
  o ← r; match o with Some e => Ok (Some e) | None => k end.

(** Iterating a value for its strings: a list, the characters of a string, the
    keys of a dict. An element that is no string makes the later [join] raise. *)
Definition iter_strings (v : pyval) : res (list string) :=
  match v with
  | VStr s => Ok (chars s)
  | VDict d => Ok d.*1
  | VList l =>
      foldr (fun x r => acc ← r; match x with VStr s => Ok (s :: acc) | _ => Err (PyError "TypeError" "") end) (Ok []) l
  | _ => Err (PyError "TypeError" "")
  end.

(** [k in props] *)
Definition in_value (k : string) (v : pyval) : res bool :=
  match v with
  | VDict d => Ok (dict_has d k)
  | VList l => Ok (existsb (fun x => match x with VStr s => bool_decide (s = k) | _ => false end) l)
  | VStr s => Ok (py_contains k s)
  | _ => Err (PyError "TypeError" "")
  end.

Fixpoint filter_res (f : string -> res bool) (l : list string) : res (list string) :=
  match l with
  | [] => Ok []
  | x :: l' => b ← f x; (r ← filter_res f l'; Ok (if (b : bool) then x :: r else r))
  end.

(** [{...}.get(expected, True)]: the type test of a known type name. *)
Definition type_ok (expected : string) (v : pyval) : bool :=
  if bool_decide (expected = "object") then match v with VDict _ => true | _ => false end
  else if bool_decide (expected = "string") then match v with VStr _ => true | _ => false end
  else if bool_decide (expected = "integer") then match v with VInt _ => true | _ => false end
  else if bool_decide (expected = "number") then match v with VInt _ | VFloat _ => true | _ => false end
  else if bool_decide (expected = "boolean") then match v with VBool _ => true | _ => false end
  else if bool_decide (expected = "array") then match v with VList _ => true | _ => false end
  else true.

Definition sorted_unique (l : list string) : list string := py_sorted str_leb (remove_dups l).

(** The missing and the unexpected keys of an object. *)
Definition missing_keys (s d : list (string * pyval)) : res (list string) :=
  req ← match dict_get s "required" with
        | Some v => if truthy v then iter_strings v else Ok []
        | None => Ok []
        end;
  Ok (sorted_unique (List.filter (fun k => negb (dict_has d k)) req)).

Definition props_value (s : list (string * pyval)) : pyval :=
  match dict_get s "properties" with Some v => if truthy v then v else VDict [] | None => VDict [] end.

Definition unexpected_keys (s d : list (string * pyval)) : res (list string) :=
  match dict_get s "additionalProperties" with
  | Some (VBool false) =>
      l ← filter_res (fun k => negb <$> in_value k (props_value s)) d.*1; Ok (py_sorted str_leb l)
  | _ => Ok []
  end.

Definition key_error (path msg : string) (keys : list string) : res (option string) :=
  Ok (if decide (keys = []) then None else Some (path +:+ msg +:+ py_join ", " keys)%string).

Fixpoint check_props (validate : pyval -> pyval -> string -> res (option string))
    (path : string) (d : list (string * pyval)) (props : list (string * pyval)) : res (option string) :=
  match props with
  | [] => Ok None
  | (key, sub) :: props' =>
      then_check (match dict_get d key with
                  | Some v => validate sub v (path +:+ "." +:+ key)%string
                  | None => Ok None
                  end)
        (check_props validate path d props')
  end.

Fixpoint check_items (validate : pyval -> string -> res (option string)) (path : string) (idx : Z) (l : list pyval)
  : res (option string) :=
  match l with
  | [] => Ok None
  | v :: l' => then_check (validate v (path +:+ "[" +:+ int_str idx +:+ "]")%string) (check_items validate path (idx + 1) l')
  end.

(** [schema.get("type")], and the type name when it is a string. *)
Definition expected_type (s : list (string * pyval)) : option pyval :=
  match dict_get s "type" with Some VNone | None => None | Some t => Some t end.
Definition type_name (s : list (string * pyval)) : string :=
  match expected_type s with Some (VStr t) => t | _ => "" end.

Definition check_type (s : list (string * pyval)) (value : pyval) (path : string) : res (option string) :=
  match expected_type s with
  | None => Ok None
  | Some (VStr t) => Ok (if type_ok t value then None else Some (path +:+ " expected " +:+ t)%string)
  | Some (VList _ | VDict _) => Err (PyError "TypeError" "")
  | Some _ => Ok None
  end.

Definition check_keys (s d : list (string * pyval)) (path : string) : res (option string) :=
  missing ← missing_keys s d;
  then_check (key_error path " missing required: " missing)
    (extra ← unexpected_keys s d; key_error path " unexpected properties: " extra).

(** [_validate_json_schema] *)
Fixpoint validate_json_schema (schema value : pyval) (path : string) : res (option string) :=
  match schema with
  | VDict s =>
      then_check (check_type s value path)
      (then_check
        match value with
        | VDict d =>
            if bool_decide (type_name s = "object") then
              then_check (check_keys s d path)
                (at_key "properties" (Ok None)
                  (fun props => if truthy props then
                                  match props with
                                  | VDict props => check_props validate_json_schema path d props
                                  | _ => Err (PyError "AttributeError" "")
                                  end
                                else Ok None) s)
            else Ok None
        | _ => Ok None
        end
      (match value with
       | VList l =>
           if bool_decide (type_name s = "array") then
             at_key "items" (Ok None) (fun items => check_items (fun v p => validate_json_schema items v p) path 0 l) s
           else Ok None
       | _ => Ok None
       end))
  | _ => Err (PyError "AttributeError" "")
  end.

(** ** The meaning of a schema *)

(** A schema the validator can read: an object whose [type] is a string, with a
    list of strings as [required] and schemas as [properties] and [items]. *)
Definition key_shape (d : list (string * pyval)) : Prop :=
  (forall t, dict_get d "type" = Some t -> exists s, t = VStr s) /\
  (forall r, dict_get d "required" = Some r -> exists l, r = VList (map VStr l)) /\
  (forall p, dict_get d "properties" = Some p -> exists ps, p = VDict ps).

Inductive Schema : pyval -> Prop :=
  | schema_intro d :
      key_shape d ->
      (forall ps k sub, dict_get d "properties" = Some (VDict ps) -> (k, sub) ∈ ps -> Schema sub) ->
      (forall items, dict_get d "items" = Some items -> Schema items) ->
      Schema (VDict d).

Definition required_keys (s : list (string * pyval)) (k : string) : Prop :=
  exists l, dict_get s "required" = Some (VList (map VStr l)) /\ k ∈ l.

Definition keys_ok (s d : list (string * pyval)) : Prop :=
  (forall k, required_keys s k -> dict_has d k = true) /\
  (dict_get s "additionalProperties" = Some (VBool false) ->
     forall k, dict_has d k = true -> exists ps, dict_get s "properties" = Some (VDict ps) /\ dict_has ps k = true).

Inductive Conforms : pyval -> pyval -> Prop :=
  | conforms_intro s v :
      (forall t, dict_get s "type" = Some (VStr t) -> type_ok t v = true) ->
      (forall d, v = VDict d -> dict_get s "type" = Some (VStr "object") -> keys_ok s d) ->
      (forall d ps k sub w, v = VDict d -> dict_get s "type" = Some (VStr "object") ->
         dict_get s "properties" = Some (VDict ps) -> (k, sub) ∈ ps -> dict_get d k = Some w -> Conforms sub w) ->
      (forall l items w, v = VList l -> dict_get s "type" = Some (VStr "array") ->
         dict_get s "items" = Some items -> w ∈ l -> Conforms items w) ->
      Conforms (VDict s) v.

(** ** The validator decides conformance *)

Lemma then_check_none r k : then_check r k = Ok None <-> r = Ok None /\ k = Ok None.
Proof. unfold then_check. destruct r as [[e|]|e]; simpl; naive_solver. Qed.

Definition total (r : res (option string)) : Prop := exists o, r = Ok o.

Lemma then_check_total r k : total r -> (r = Ok None -> total k) -> total (then_check r k).
Proof. intros [[e|] ->] Hk; simpl; [by eexists|by apply Hk]. Qed.

Lemma sorted_unique_nil l : sorted_unique l = [] <-> l = [].
Proof.
  unfold sorted_unique. split; [|by intros ->]. intros H.
  destruct l as [|x l]; [done|]. exfalso.
  assert (x ∈ py_sorted str_leb (remove_dups (x :: l))) as Hx.
  { rewrite py_sorted_perm. apply elem_of_remove_dups. left. }
  rewrite H in Hx. by apply elem_of_nil in Hx.
Qed.

Lemma iter_str_list l : iter_strings (VList (map VStr l)) = Ok l.
Proof. simpl. induction l as [|x l IH]; simpl; [done|]. by rewrite IH. Qed.

Lemma map_VStr_inj l l' : map VStr l = map VStr l' -> l = l'.
Proof. revert l'. induction l as [|x l IH]; intros [|y l']; simpl; try done. intros [= -> ?]. f_equal. auto. Qed.

Lemma missing_keys_spec s d : key_shape s ->
  exists l, missing_keys s d = Ok l /\ (l = [] <-> forall k, required_keys s k -> dict_has d k = true).
Proof.
  intros (_ & Hr & _). unfold missing_keys, required_keys.
  destruct (dict_get s "required") as [r|] eqn:E.
  - destruct (Hr r eq_refl) as [l ->].
    assert ((if truthy (VList (map VStr l)) then iter_strings (VList (map VStr l)) else Ok []) = Ok l) as ->.
    { destruct l; [done|]. apply iter_str_list. }
    simpl. eexists. split; [done|]. rewrite sorted_unique_nil, filter_nil_iff. split.
    + intros H k (l' & [= Hl] & Hk). apply map_VStr_inj in Hl as <-. by apply negb_false_iff, H.
    + intros H k Hk. apply negb_false_iff, H. by exists l.
  - simpl. eexists. split; [done|]. split; [|done]. intros _ k (l & [=] & _).
Qed.

Lemma dict_has_elem {V} (d : list (string * V)) k : dict_has d k = true <-> k ∈ d.*1.
Proof.
  unfold dict_has. destruct (dict_get d k) as [v|] eqn:E.
  - split; [|done]. intros _. apply dict_get_elem in E. apply list_elem_of_fmap. by exists (k, v).
  - apply dict_get_none in E. by split.
Qed.

Lemma filter_res_ok f g l : (forall x, f x = Ok (g x)) -> filter_res f l = Ok (List.filter g l).
Proof. intros H. induction l as [|x l IH]; simpl; [done|]. rewrite H, IH. simpl. by destruct (g x). Qed.

Lemma props_dict s : key_shape s -> exists ps, props_value s = VDict ps /\
  forall k, dict_has ps k = true <-> exists ps', dict_get s "properties" = Some (VDict ps') /\ dict_has ps' k = true.
Proof.
  intros (_ & _ & Hp). unfold props_value. destruct (dict_get s "properties") as [p|] eqn:E.
  - destruct (Hp p eq_refl) as [ps ->]. exists ps. split; [by destruct ps|]. naive_solver.
  - exists []. split; [done|]. naive_solver.
Qed.

Lemma unexpected_keys_spec s d : key_shape s ->
  exists l, unexpected_keys s d = Ok l /\
    (l = [] <-> (dict_get s "additionalProperties" = Some (VBool false) ->
       forall k, dict_has d k = true -> exists ps, dict_get s "properties" = Some (VDict ps) /\ dict_has ps k = true)).
Proof.
  intros Hs. destruct (props_dict s Hs) as (ps & Hps & Hk). unfold unexpected_keys.
  destruct (dict_get s "additionalProperties") as [[|[|]| | | | |]|]; try (eexists; split; [done|]; by split).
  rewrite Hps, (filter_res_ok _ (fun k => negb (dict_has ps k))) by done. simpl.
  eexists. split; [done|].
  assert (py_sorted str_leb (List.filter (fun k => negb (dict_has ps k)) d.*1) = [] <->
          List.filter (fun k => negb (dict_has ps k)) d.*1 = []) as ->.
  { split; [|by intros ->]. intros H. apply Permutation_nil_r. by rewrite <- H, py_sorted_perm. }
  rewrite filter_nil_iff. split.
  - intros H _ k Hd. apply Hk, negb_false_iff, H. by apply dict_has_elem.
  - intros H x Hx. apply negb_false_iff, Hk, H; [done|]. by apply dict_has_elem.
Qed.

Lemma key_error_none path msg l : key_error path msg l = Ok None <-> l = [].
Proof. unfold key_error. case_decide; split; congruence. Qed.

Lemma check_props_spec validate path d props :
  (forall k sub, (k, sub) ∈ props -> forall v p, total (validate sub v p)) ->
  total (check_props validate path d props) /\
  (check_props validate path d props = Ok None <->
   forall k sub w, (k, sub) ∈ props -> dict_get d k = Some w -> validate sub w (path +:+ "." +:+ k)%string = Ok None).
Proof.
  induction props as [|[key sub] props IH]; intros Ht; simpl.
  { split; [by eexists|]. split; [|done]. by intros _ ? ? ? ?%elem_of_nil. }
  destruct IH as [IHt IHn]; [intros; eapply Ht; by right|]. split.
  - apply then_check_total; [|done]. destruct (dict_get d key); [by eapply Ht; left|by eexists].
  - rewrite then_check_none, IHn. split.
    + intros [H1 H2] k sub' w [[= -> ->]|Hin]%elem_of_cons Hw; [by rewrite Hw in H1|by eapply H2].
    + intros H. split; [|intros; eapply H; [by right|done]].
      destruct (dict_get d key) as [w|] eqn:Ew; [|done]. eapply H; [left|done].
Qed.

Lemma check_items_spec validate path i l :
  (forall v p, total (validate v p)) ->
  total (check_items validate path i l) /\
  (check_items validate path i l = Ok None <->
   forall n w, l !! n = Some w -> validate w (path +:+ "[" +:+ int_str (i + Z.of_nat n) +:+ "]")%string = Ok None).
Proof.
  intros Ht. revert i. induction l as [|x l IH]; intros i; simpl.
  { split; [by eexists|]. split; [|done]. by intros _ [|n] w ?. }
  destruct (IH (i + 1)) as [IHt IHn]. split; [by apply then_check_total|].
  rewrite then_check_none, IHn. split.
  - intros [H1 H2] [|n] w Hw; simpl in Hw; [simplify_eq; by rewrite Z.add_0_r|].
    specialize (H2 n w Hw). by replace (i + Z.of_nat (S n)) with (i + 1 + Z.of_nat n) by lia.
  - intros H. split; [specialize (H 0%nat x eq_refl); by rewrite Z.add_0_r in H|].
    intros n w Hw. specialize (H (S n) w Hw). by replace (i + 1 + Z.of_nat n) with (i + Z.of_nat (S n)) by lia.
Qed.

(** The [properties] part of an object's check. *)
Lemma props_part s d path :
  key_shape s ->
  (forall ps k sub, dict_get s "properties" = Some (VDict ps) -> (k, sub) ∈ ps ->
     forall v p, total (validate_json_schema sub v p)) ->
  let r := at_key "properties" (Ok None) (fun props => if truthy props then
             match props with
             | VDict props => check_props validate_json_schema path d props
             | _ => Err (PyError "AttributeError" "")
             end else Ok None) s in
  total r /\ (r = Ok None <-> forall ps k sub w, dict_get s "properties" = Some (VDict ps) -> (k, sub) ∈ ps ->
    dict_get d k = Some w -> validate_json_schema sub w (path +:+ "." +:+ k)%string = Ok None).
Proof.
  intros (_ & _ & Hprops) Ht r. subst r. rewrite at_key_get.
  destruct (dict_get s "properties") as [p|]; [|split; [by eexists|done]].
  destruct (Hprops p eq_refl) as [ps ->].
  destruct ps as [|kv ps]; simpl truthy; cbn iota.
  { split; [by eexists|]. split; [|done]. by intros _ ps k sub w [= <-] ?%elem_of_nil. }
  destruct (check_props_spec validate_json_schema path d (kv :: ps)) as [H1 H2]; [by intros; eapply Ht|].
  split; [exact H1|]. rewrite H2. split; [intros H ps' k sub w [= <-]; apply H|intros H k sub w; by apply H].
Qed.

Lemma type_name_spec s t : key_shape s -> t <> "" -> type_name s = t <-> dict_get s "type" = Some (VStr t).
Proof.
  intros (Ht & _) Hne. unfold type_name, expected_type. destruct (dict_get s "type") as [t'|].
  - destruct (Ht t' eq_refl) as [u ->]. split; congruence.
  - split; [by intros <-|done].
Qed.

Lemma check_type_spec s v path : key_shape s ->
  total (check_type s v path) /\
  (check_type s v path = Ok None <-> forall t, dict_get s "type" = Some (VStr t) -> type_ok t v = true).
Proof.
  intros (Ht & _). unfold check_type, expected_type. destruct (dict_get s "type") as [t'|].
  - destruct (Ht t' eq_refl) as [u ->]. split; [by eexists|]. destruct (type_ok u v) eqn:E.
    + split; [|done]. by intros _ t [= <-].
    + split; [done|]. intros H. by rewrite H in E.
  - split; [by eexists|]. by split.
Qed.

Lemma check_keys_spec s d path : key_shape s ->
  total (check_keys s d path) /\ (check_keys s d path = Ok None <-> keys_ok s d).
Proof.
  intros Hs. unfold check_keys, keys_ok.
  destruct (missing_keys_spec s d Hs) as (l1 & -> & M). destruct (unexpected_keys_spec s d Hs) as (l2 & -> & X). unfold mbind, res_bind. cbn beta iota.
  split; [apply then_check_total; by eexists|]. by rewrite then_check_none, !key_error_none, M, X.
Qed.

(** The parts of a check that do not apply to the value. *)
Lemma skip_part (Q : Prop) : Q -> total (Ok None) /\ (Ok None = @Ok (option string) None <-> Q).
Proof. intros HQ. split; [by eexists|]. by split. Qed.

Lemma validate_spec schema :
  Schema schema -> forall value path,
  total (validate_json_schema schema value path) /\
  (validate_json_schema schema value path = Ok None <-> Conforms schema value).
Proof.
  induction 1 as [s Hs Hps IHps Hit IHit]. intros v path. cbn [validate_json_schema].
  destruct (check_type_spec s v path Hs) as [T1 T2].
  match goal with |- total (then_check _ (then_check ?O ?A)) /\ _ =>
    assert (total O /\ (O = Ok None <-> forall d, v = VDict d -> dict_get s "type" = Some (VStr "object") ->
       keys_ok s d /\ (forall ps k sub w, dict_get s "properties" = Some (VDict ps) -> (k, sub) ∈ ps ->
                         dict_get d k = Some w -> Conforms sub w))) as [O1 O2];
    [|assert (total A /\ (A = Ok None <-> forall l items w, v = VList l -> dict_get s "type" = Some (VStr "array") ->
         dict_get s "items" = Some items -> w ∈ l -> Conforms items w)) as [A1 A2]] end.
  - destruct v as [| | | | | |d]; try (by apply skip_part).
    case_bool_decide as Hn; rewrite type_name_spec in Hn by done; [|apply skip_part; by intros d' _ ?].
    destruct (props_part s d path Hs) as [P1 P2]; [by intros; eapply IHps|].
    destruct (check_keys_spec s d path Hs) as [K1 K2].
    split; [by apply then_check_total|]. rewrite then_check_none, K2, P2. split.
    + intros [H1 H3] d' [= <-] _. split; [done|]. intros ps k sub w Hg Hin Hw.
      eapply IHps; [exact Hg|exact Hin|]. by eapply H3.
    + intros H. destruct (H d eq_refl Hn) as [H1 H3]. split; [done|].
      intros ps k sub w Hg Hin Hw. eapply IHps; [exact Hg|exact Hin|]. by eapply H3.
  - destruct v as [| | | | |l|]; try (by apply skip_part).
    case_bool_decide as Hn; rewrite type_name_spec in Hn by done; [|apply skip_part; by intros ? ? ? _ ?].
    rewrite at_key_get. destruct (dict_get s "items") as [items|] eqn:Ei; [|by apply skip_part].
    destruct (check_items_spec (fun v p => validate_json_schema items v p) path 0 l) as [C1 C2]; [by intros; eapply IHit|].
    split; [done|]. rewrite C2. split.
    + intros H l' items' w [= <-] _ [= <-] [n Hw]%list_elem_of_lookup. eapply IHit; [done|by eapply H].
    + intros H n w Hw. eapply IHit; [done|]. eapply H; try done. by eapply list_elem_of_lookup_2.
  - split; [apply then_check_total; [done|intros _; by apply then_check_total]|].
    rewrite !then_check_none, T2, O2, A2. split.
    + intros (H1 & H2 & H3). constructor; [done| | |done].
      * intros d Hv Ht. by apply (H2 d).
      * intros d ps k sub w Hv Ht. destruct (H2 d Hv Ht) as [_ H]. by apply H.
    + inversion 1; subst. split_and!; [done| |done]. intros d Hv Ht. split; [by auto|]. eauto.
Qed.

(** C11: For a readable schema the argument validator never raises and reports no error exactly for
    the values that conform to the schema (type, required, additionalProperties, properties and
    items, recursively). *)
Theorem validate_decides schema :
  Schema schema -> forall value path,
  total (validate_json_schema schema value path) /\
  (validate_json_schema schema value path = Ok None <-> Conforms schema value).
Proof. apply validate_spec. Qed.
