(* ===== verification/Tools.v ===== *)
(** * [domain/tools/]: the registry and the dispatcher.

    A dispatch runs read-only calls concurrently between the side-effecting ones,
    which run alone and in order. Each call is a small machine ([Phase]) whose
    steps are its awaits; a scheduler interleaves the machines of a batch. *)

From S2P Require Import Prelude CoreTypes Effects Json ToolArguments.
#[local] Open Scope eff_scope.

(** A tool is known by its schema and an identity. *)
Record Tool := mkTool { tool_id : nat; tool_schema : ToolSchema }.

(** ** [registry.py] *)

Record ToolRegistry := mkRegistry { r_tools : list (string * Tool); r_aliases : list (string * Tool) }.

Definition already (name : string) : exn := PyError "ValueError" ("tool already registered: " +:+ name)%string.

Definition register (r : ToolRegistry) (t : Tool) : res ToolRegistry :=
  let name := t.(tool_schema).(ts_name) in
  if dict_has r.(r_tools) name then Err (already name)
  else Ok (mkRegistry (dict_set r.(r_tools) name t) r.(r_aliases)).

Definition register_alias (r : ToolRegistry) (name : string) (t : Tool) : res ToolRegistry :=
  if dict_has r.(r_tools) name || dict_has r.(r_aliases) name then Err (already name)
  else Ok (mkRegistry r.(r_tools) (dict_set r.(r_aliases) name t)).

Definition deregister (r : ToolRegistry) (name : string) : ToolRegistry :=
  mkRegistry (dict_pop r.(r_tools) name) (dict_pop r.(r_aliases) name).

Definition registry_get (r : ToolRegistry) (name : string) : res Tool :=
  match dict_get r.(r_tools) name with
  | Some t => Ok t
  | None =>
      match dict_get r.(r_aliases) name with
      | Some t => Ok t
      | None => Err (Eidolon NotFoundError ("tool not registered: " +:+ name)%string)
      end
  end.

Definition list_schemas (r : ToolRegistry) : list ToolSchema := map (fun kt => tool_schema kt.2) r.(r_tools).
Definition registry_names (r : ToolRegistry) : list string := py_sorted str_leb (r.(r_tools).*1 ++ r.(r_aliases).*1).

(** ** [string.Template.safe_substitute] *)

Definition is_id_start (a : ascii) : bool :=
  let n := N_of_ascii (ascii_lower a) in ((97 <=? n) && (n <=? 122) || (n =? 95))%N.
Definition is_id_char (a : ascii) : bool :=
  let n := N_of_ascii a in is_id_start a || ((48 <=? n) && (n <=? 57))%N.

(** The longest identifier at the front, and the rest. *)
Fixpoint scan_id (start : bool) (s : string) : string * string :=
  match s with
  | "" => ("", "")
  | String a s' =>
      if (if start then is_id_start a else is_id_char a)
      then let '(i, r) := scan_id false s' in (String a i, r) else ("", s)
  end.

Fixpoint substitute (fuel : nat) (lookup : string -> option string) (s : string) : string :=
  match fuel with
  | O => s
  | S fuel =>
      match s with
      | "" => ""
      | String "$" (String "$" r) => String "$" (substitute fuel lookup r)
      | String "$" (String "{" r as r0) =>
          let '(i, r1) := scan_id true r in
          match r1 with
          | String "}" r2 =>
              if is_empty i then String "$" (substitute fuel lookup r0)
              else (default ("${" +:+ i +:+ "}") (lookup i) +:+ substitute fuel lookup r2)%string
          | _ => String "$" (substitute fuel lookup r0)
          end
      | String "$" r =>
          let '(i, r1) := scan_id true r in
          if is_empty i then String "$" (substitute fuel lookup r)
          else (default ("$" +:+ i) (lookup i) +:+ substitute fuel lookup r1)%string
      | String a r => String a (substitute fuel lookup r)
      end
  end.

(** Each round consumes a character. *)
Definition safe_substitute (template : string) (lookup : string -> option string) : string :=
  substitute (S (String.length template)) lookup template.

Example safe_substitute_ex :
  safe_substitute "a$$b ${owner}:$tool-$none ${x" (fun k => if bool_decide (k = "owner") then Some "o1"
    else if bool_decide (k = "tool") then Some "t" else None)
  = "a$b o1:t-$none ${x".
Proof. reflexivity. Qed.

(** ** [dispatcher.py] *)

Record ToolInvocationContext := mkInvocation {
  ic_turn_context : TurnContext;
  ic_turn_id : string;
  ic_extra_tools : option (list (string * Tool));
  ic_denied_tools : list string;
}.

(** What [ToolDispatcher.__init__] keeps besides the registry and the store. *)
Record Dispatcher := mkDispatcher {
  dc_registry : ToolRegistry;
  dc_has_store : bool;
  dc_allowed : option (list Permission);
  dc_schema_strict : bool;
  (** the batch timeout, as it is printed *)
  dc_batch_timeout_s : option string;
  dc_require_idempotency : bool;
}.

(** An access of the dispatch of [c] to the outside. *)
Inductive access :=
  | AGet (c : ToolCall) (key : string)
  | AInvoke (c : ToolCall) (t : Tool)
  | APut (c : ToolCall) (key : string).

(** The store of past results, the accesses so far, and how many more awaits
    complete before the batch is cancelled ([None]: it never is). *)
Record DState := mkDState {
  d_store : list (string * list (string * pyval));
  d_log : list access;
  d_budget : option nat;
}.

Inductive outcome := Returned (r : ToolResult) | Raised (e : exn) | TimedOut.

Record ToolWorld := mkWorld {
  tw_invoke : list access -> Tool -> ToolCall -> outcome;
  tw_store_error : list access -> option exn;
  tw_elapsed_ms : list access -> Z;
  (** which call of a concurrent batch steps next *)
  tw_schedule : list access -> list nat;
  tw_sha256_hex : string -> string;
}.

Inductive Phase :=
  | PStart
  | PInvoke (t : Tool) (key : option string)
  | PPut (key : string) (r : ToolResult)
  | PDone (r : ToolResult)
  | PRaised (e : exn).

Section Dispatch.
Context (str_repr : string -> string) (dc : Dispatcher) (w : ToolWorld) (ctx : ToolInvocationContext).

(** An await: the cancellation of the batch surfaces here. *)
Definition await_ : M DState unit := fun s =>
  match s.(d_budget) with
  | None => (Ok tt, s)
  | Some (S n) => (Ok tt, mkDState s.(d_store) s.(d_log) (Some n))
  | Some O => (Err Cancelled, s)
  end.

Definition access_ (a : access) : M DState unit :=
  mmodify (fun s => mkDState s.(d_store) (s.(d_log) ++ [a]) s.(d_budget)) ;;; await_.

(** [_resolve_tool]; [str] of a [KeyError] is the [repr] of its message. *)
Definition resolve_tool (name : string) : res Tool :=
  if bool_decide (name ∈ ctx.(ic_denied_tools))
  then Err (PyError "KeyError" (str_repr ("tool denied for companion: " +:+ name)%string))
  else match ctx.(ic_extra_tools) with
       | Some extra => match dict_get extra name with
                       | Some t => Ok t
                       | None => registry_get dc.(dc_registry) name
                       end
       | None => registry_get dc.(dc_registry) name
       end.

(** [_check_permissions] *)
Definition missing_permissions (t : Tool) : list Permission :=
  match dc.(dc_allowed) with
  | None => []
  | Some allowed => List.filter (fun p => negb (bool_decide (p ∈ allowed))) (remove_dups t.(tool_schema).(ts_permissions))
  end.
Definition permission_message (t : Tool) : string :=
  ("tool " +:+ t.(tool_schema).(ts_name) +:+ " needs " +:+
   py_repr str_repr (VList (map VStr (py_sorted str_leb (map permission_value (missing_permissions t))))) +:+
   " but instance lacks them")%string.

Definition failure_of (c : ToolCall) (e : exn) : ToolResult :=
  tool_failure c.(tc_id) c.(tc_name) (match e with Eidolon cls _ => ecode cls | _ => ecode ToolError end) (exn_str e).

(** [_maybe_idemp_key] *)
Definition maybe_idemp_key (t : Tool) (c : ToolCall) : option string :=
  match t.(tool_schema).(ts_idempotency_key_template) with
  | None | Some "" => None
  | Some tmpl =>
      let tc := ctx.(ic_turn_context) in
      let values := fold_left (fun d '(k, v) => dict_set d k v)
        [("owner_id", VStr tc.(owner_id)); ("companion_id", VStr tc.(companion_id));
         ("memory_realm_id", VStr tc.(memory_realm_id)); ("turn_id", VStr ctx.(ic_turn_id));
         ("trace_id", VStr (str_or tc.(trace_id) ctx.(ic_turn_id))); ("request_id", VStr tc.(request_id));
         ("tool_name", VStr c.(tc_name));
         ("arguments_json", VStr (json_dumps true "," ":" (VDict c.(tc_arguments))))] c.(tc_arguments) in
      let raw := safe_substitute tmpl (fun k => py_str str_repr <$> dict_get values k) in
      Some ("idemp_" +:+ w.(tw_sha256_hex) raw)%string
  end.

(** The key of a call, when results are kept. *)
Definition store_key (t : Tool) (c : ToolCall) : option string :=
  if dc.(dc_has_store) then maybe_idemp_key t c else None.

Definition opt_str (o : option pyval) : option string := match o with Some (VStr s) => Some s | _ => None end.

(** The result a stored payload stands for. *)
Definition cached_result (c : ToolCall) (payload : list (string * pyval)) : ToolResult :=
  mkToolResult c.(tc_id) c.(tc_name)
    match dict_get payload "ok" with Some v => truthy v | None => true end
    (default VNone (dict_get payload "content")) (opt_str (dict_get payload "error_code"))
    (opt_str (dict_get payload "error_message")) 0 [("idempotent_cache", VBool true)].

Definition store_error : M DState unit :=
  o <-- mgets (fun s => w.(tw_store_error) s.(d_log)) ;;
  match o with Some e => mraise e | None => mret_ tt end.

(** The head of [_invoke_one]: up to the invocation. *)
Definition begin_invoke (t : Tool) (c : ToolCall) : M DState Phase :=
  if dc.(dc_require_idempotency) && t.(tool_schema).(ts_side_effect)
     && negb (opt_truthy t.(tool_schema).(ts_idempotency_key_template))
  then mret_ (PDone (tool_failure c.(tc_id) c.(tc_name) "tool_requires_idempotency"
                       ("side-effect tool " +:+ c.(tc_name) +:+ " requires idempotency")%string))
  else match store_key t c with
       | None => mret_ (PInvoke t None)
       | Some key =>
           access_ (AGet c key) ;;; store_error ;;;
           cached <-- mgets (fun s => dict_get s.(d_store) key) ;;
           mret_ (match cached with
                  | Some payload => PDone (cached_result c payload)
                  | None => PInvoke t (Some key)
                  end)
       end.

Definition with_latency (r : ToolResult) (ms : Z) : ToolResult :=
  mkToolResult r.(tr_call_id) r.(tr_name) r.(tr_ok) r.(tr_content) r.(tr_error_code) r.(tr_error_message) ms r.(tr_metadata).

(** [tool.invoke] under its timeout. *)
Definition invoke_tool (t : Tool) (key : option string) (c : ToolCall) : M DState Phase :=
  log <-- mgets d_log ;;
  access_ (AInvoke c t) ;;;
  match w.(tw_invoke) log t c with
  | Raised e => mraise e
  | TimedOut =>
      ms <-- mgets (fun s => w.(tw_elapsed_ms) s.(d_log)) ;;
      mret_ (PDone (with_latency (tool_failure c.(tc_id) c.(tc_name) (ecode ToolTimeoutError)
        ("tool " +:+ c.(tc_name) +:+ " exceeded " +:+ t.(tool_schema).(ts_timeout_s) +:+ "s")%string) ms))
  | Returned r =>
      ms <-- mgets (fun s => w.(tw_elapsed_ms) s.(d_log)) ;;
      let r := if r.(tr_latency_ms) =? 0 then with_latency r ms else r in
      mret_ (match key with
             | Some k => if r.(tr_ok) then PPut k r else PDone r
             | None => PDone r
             end)
  end.

Definition put_result (c : ToolCall) (key : string) (r : ToolResult) : M DState Phase :=
  access_ (APut c key) ;;; store_error ;;;
  mmodify (fun s => mkDState (dict_set s.(d_store) key [("ok", VBool true); ("content", r.(tr_content))]) s.(d_log) s.(d_budget)) ;;;
  mret_ (PDone r).

(** The checks of [_dispatch_one] before [_invoke_one], an exception of the
    validator escaping. *)
Definition gate (c : ToolCall) : Tool + Phase :=
  match resolve_tool c.(tc_name) with
  | Err e => inr (PDone (tool_failure c.(tc_id) c.(tc_name) "tool_not_found" (exn_str e)))
  | Ok t =>
      if bool_decide (missing_permissions t = []) then
        match validate_json_schema (VDict t.(tool_schema).(ts_json_schema)) (VDict c.(tc_arguments)) "$" with
        | Err e => inr (PRaised e)
        | Ok (Some message) =>
            if dc.(dc_schema_strict)
            then inr (PDone (tool_failure c.(tc_id) c.(tc_name) "invalid_tool_arguments" message))
            else inl t
        | Ok None => inl t
        end
      else inr (PDone (tool_failure c.(tc_id) c.(tc_name) (ecode ToolPermissionError) (permission_message t)))
  end.

(** [except Exception] turns what [_invoke_one] raises into a failed result. *)
Definition catch (c : ToolCall) (m : M DState Phase) : M DState Phase :=
  mtry m (fun e => if is_exception e then Some (mret_ (PDone (failure_of c e))) else None).

(** One step of [_dispatch_one]. *)
Definition step (c : ToolCall) (p : Phase) : M DState Phase :=
  match p with
  | PStart => match gate c with inl t => catch c (begin_invoke t c) | inr p => mret_ p end
  | PInvoke t key => catch c (invoke_tool t key c)
  | PPut key r => catch c (put_result c key r)
  | PDone _ | PRaised _ => mret_ p
  end.

(** A call takes at most three steps. *)
Definition finish (c : ToolCall) (p : Phase) : M DState Phase :=
  p <-- step c p ;; p <-- step c p ;; step c p.

Definition outcome_of (p : Phase) : res ToolResult :=
  match p with
  | PDone r => Ok r
  | PRaised e => Err e
  | _ => Err (PyError "RuntimeError" "unfinished")
  end.

(** [_dispatch_one] *)
Definition dispatch_one (c : ToolCall) : M DState ToolResult :=
  p <-- finish c PStart ;; mlift (outcome_of p).

(** [asyncio.gather] of a batch: first the scheduled steps, then each call to its
    end; the first exception in batch order is the one raised. *)
Fixpoint interleave (sched : list nat) (items : list (ToolCall * Phase)) : M DState (list (ToolCall * Phase)) :=
  match sched with
  | [] => mret_ items
  | i :: rest =>
      match items !! i with
      | Some (c, p) => p' <-- step c p ;; interleave rest (<[i := (c, p')]> items)
      | None => interleave rest items
      end
  end.

Fixpoint finish_all (items : list (ToolCall * Phase)) : M DState (list Phase) :=
  match items with
  | [] => mret_ []
  | (c, p) :: rest => p' <-- finish c p ;; ps <-- finish_all rest ;; mret_ (p' :: ps)
  end.

Fixpoint outcomes (ps : list Phase) : res (list ToolResult) :=
  match ps with
  | [] => Ok []
  | p :: rest => match outcome_of p with
                 | Err e => Err e
                 | Ok r => match outcomes rest with Ok rs => Ok (r :: rs) | Err e => Err e end
                 end
  end.

Definition gather (calls : list ToolCall) : M DState (list ToolResult) :=
  sched <-- mgets (fun s => w.(tw_schedule) s.(d_log)) ;;
  items <-- interleave sched (map (fun c => (c, PStart)) calls) ;;
  ps <-- finish_all items ;;
  mlift (outcomes ps).

(** [results[idx] = result] for a batch *)
Fixpoint store_results (batch : list (nat * ToolCall)) (done : list ToolResult) (results : list (option ToolResult))
  : list (option ToolResult) :=
  match batch, done with
  | (idx, _) :: batch, r :: done => store_results batch done (<[idx := Some r]> results)
  | _, _ => results
  end.

Definition flush_readonly (readonly : list (nat * ToolCall)) (results : list (option ToolResult))
  : M DState (list (option ToolResult)) :=
  if readonly is [] then mret_ results
  else done <-- gather (readonly.*2) ;; mret_ (store_results readonly done results).

Definition is_readonly (c : ToolCall) : bool :=
  match resolve_tool c.(tc_name) with
  | Ok t => negb t.(tool_schema).(ts_side_effect)
  | Err _ => false
  end.

(** The loop of [_dispatch_batch_inner]. *)
Fixpoint dispatch_loop (calls : list (nat * ToolCall)) (readonly : list (nat * ToolCall))
    (results : list (option ToolResult)) : M DState (list (option ToolResult)) :=
  match calls with
  | [] => flush_readonly readonly results
  | (idx, c) :: rest =>
      if is_readonly c then dispatch_loop rest (readonly ++ [(idx, c)]) results
      else
        results <-- flush_readonly readonly results ;;
        r <-- dispatch_one c ;;
        dispatch_loop rest [] (<[idx := Some r]> results)
  end.

Definition dispatch_batch_inner (calls : list ToolCall) : M DState (list ToolResult) :=
  results <-- dispatch_loop (imap pair calls) [] (replicate (length calls) None) ;;
  mret_ (omap (fun o => o) results).

(** [dispatch_batch]; the cancellation [wait_for] sends on a timeout is the
    only one modelled under a batch timeout. *)
Definition dispatch_batch (calls : list ToolCall) : M DState (list ToolResult) :=
  match dc.(dc_batch_timeout_s) with
  | None => dispatch_batch_inner calls
  | Some t =>
      mtry (dispatch_batch_inner calls) (fun e => match e with
        | Cancelled => Some (mret_ (map (fun c => tool_failure c.(tc_id) c.(tc_name) (ecode ToolTimeoutError)
                                                    ("tool batch exceeded " +:+ t +:+ "s")%string) calls))
        | _ => None
        end)
  end.
End Dispatch.
