(* ===== verification/ToolDispatch.v ===== *)
(** * What [ToolDispatcher] promises, for every interleaving of a batch.

    [Drives] is the program logic of a dispatch: a predicate on the phases of a call,
    kept by each step, and an invariant of the state carry over from the steps to
    [gather], the batch loop and [dispatch_batch]. The theorems instantiate it. *)

From S2P Require Import Prelude CoreTypes Effects Json ToolArguments Tools.
#[local] Open Scope eff_scope.

Section Facts.
Context (str_repr : string -> string) (dc : Dispatcher) (w : ToolWorld) (ctx : ToolInvocationContext).
Notation step := (step str_repr dc w ctx).
Notation finish := (finish str_repr dc w ctx).
Notation gate := (gate str_repr dc ctx).
Notation dispatch_one := (dispatch_one str_repr dc w ctx).
Notation dispatch_loop := (dispatch_loop str_repr dc w ctx).
Notation dispatch_batch := (dispatch_batch str_repr dc w ctx).
Notation is_readonly := (is_readonly str_repr dc ctx).

(** ** A call ends in at most three steps *)

Definition rank (p : Phase) : nat :=
  match p with PStart => 3 | PInvoke _ _ => 2 | PPut _ _ => 1 | PDone _ | PRaised _ => 0 end.

Lemma catch_returns c (m : M DState Phase) (V : Phase -> Prop) :
  returns m V -> (forall e, V (PDone (failure_of c e))) -> returns (catch c m) V.
Proof.
  intros Hm HV s p' s'. unfold catch, mtry. destruct (m s) as [[a|e] s1] eqn:E.
  - intros [= <- <-]. by eapply Hm.
  - destruct (is_exception e); [|done]. by intros [= <- <-].
Qed.

Lemma step_rank c p : returns (step c p) (fun p' => (rank p' <= pred (rank p))%nat).
Proof.
  destruct p; simpl; try (apply returns_ret; simpl; lia).
  - unfold Tools.gate. destruct (resolve_tool _ _ _ _); [|apply returns_ret; simpl; lia].
    case_bool_decide; [|apply returns_ret; simpl; lia].
    assert (returns (catch c (begin_invoke str_repr dc w ctx a c)) (fun p' => (rank p' <= 2)%nat)) as Hb.
    { apply catch_returns; [|simpl; lia]. unfold begin_invoke. destruct (_ && _); [apply returns_ret; simpl; lia|].
      destruct (store_key _ _ _ _ _ _); [|apply returns_ret; simpl; lia].
      repeat (apply returns_bind; intros ?). apply returns_ret. destruct a2; simpl; lia. }
    destruct (validate_json_schema _ _ _) as [[?|]|]; [destruct (dc_schema_strict dc)|..];
      try exact Hb; apply returns_ret; simpl; lia.
  - apply catch_returns; [|simpl; lia]. unfold invoke_tool. repeat (apply returns_bind; intros ?).
    destruct (tw_invoke _ _ _ _) as [r|e|]; [|apply returns_raise|]; apply returns_bind; intros ?; apply returns_ret.
    + destruct key; [|simpl; lia]. destruct (tr_ok _); simpl; lia.
    + simpl; lia.
  - apply catch_returns; [|simpl; lia]. unfold put_result. repeat (apply returns_bind; intros ?). apply returns_ret. simpl; lia.
Qed.

Lemma finish_rank c p : returns (finish c p) (fun p' => rank p' = 0%nat).
Proof.
  unfold Tools.finish. apply returns_bind_with with (1 := step_rank c p). intros p1 H1.
  apply returns_bind_with with (1 := step_rank c p1). intros p2 H2 s p3 s3 H3%step_rank.
  assert (rank p <= 3)%nat by (destruct p; simpl; lia). lia.
Qed.

(** ** The logic of a dispatch *)

Section Drives.
Context (I : DState -> Prop) (E : exn -> DState -> Prop) (G : ToolCall -> Phase -> Prop).

(** Every step keeps [I] and [G], and a call that ends in an exception or is
    cancelled satisfies [E]. *)
Record Drives : Prop := {
  drive_step c p : G c p -> triple I (step c p) (fun p' s => I s /\ G c p') E;
  drive_raise c e s : G c (PRaised e) -> I s -> E e s;
}.
Context (Hd : Drives).

Lemma drive_finish c p : G c p -> triple I (finish c p) (fun p' s => I s /\ G c p') E.
Proof.
  intros Hp. unfold Tools.finish.
  eapply triple_bind_pure; [by apply (drive_step Hd)|]. intros p1 H1.
  eapply triple_bind_pure; [by apply (drive_step Hd)|]. intros p2 H2.
  by apply (drive_step Hd).
Qed.

(** What is known of a finished call. *)
Definition finished (c : ToolCall) (p : Phase) : Prop := G c p /\ rank p = 0%nat.
Definition ended (c : ToolCall) (r : ToolResult) : Prop := G c (PDone r).

Lemma drive_finished c p : G c p -> triple I (finish c p) (fun p' s => I s /\ finished c p') E.
Proof.
  intros Hp s Hs. pose proof (drive_finish c p Hp s Hs) as H. destruct (finish c p s) as [[p'|e] s'] eqn:Ef; [|done].
  destruct H. split; [done|split; [done|]]. eapply (finish_rank c p); exact Ef.
Qed.

Lemma finished_outcome c p s : I s -> finished c p ->
  match outcome_of p with Ok r => ended c r | Err e => E e s end.
Proof.
  intros Hs [HG Hr]. destruct p; simpl in *; try lia; [done|]. by eapply (drive_raise Hd).
Qed.

Lemma drive_one c : G c PStart -> triple I (dispatch_one c) (fun r s => I s /\ ended c r) E.
Proof.
  intros Hc. unfold Tools.dispatch_one. eapply triple_bind; [by apply drive_finished|].
  intros p s [Hs Hf]. pose proof (finished_outcome c p s Hs Hf) as H. unfold mlift. by destruct (outcome_of p).
Qed.

Definition live (items : list (ToolCall * Phase)) : Prop := Forall (fun cp => G cp.1 cp.2) items.

Lemma drive_interleave sched items : live items ->
  triple I (interleave str_repr dc w ctx sched items) (fun items' s => I s /\ live items' /\ items'.*1 = items.*1) E.
Proof.
  revert items. induction sched as [|i sched IH]; intros items Hl; simpl; [by intros s Hs|].
  destruct (items !! i) as [[c p]|] eqn:Ei; [|by apply IH].
  pose proof (Forall_lookup_1 _ _ _ _ Hl Ei) as Hp.
  eapply triple_bind; [by apply (drive_step Hd)|]. intros p' s [Hs Hp'].
  assert (live (<[i:=(c, p')]> items)) as Hl' by by apply Forall_insert.
  pose proof (IH _ Hl' s Hs) as H. destruct (interleave _ _ _ _ _ _ _) as [[items'|e] s']; [|done].
  destruct H as (? & ? & Hfst). split_and!; [done..|]. rewrite Hfst, list_fmap_insert. simpl.
  apply list_insert_id. by rewrite list_lookup_fmap, Ei.
Qed.

Lemma drive_finish_all items : live items ->
  triple I (finish_all str_repr dc w ctx items) (fun ps s => I s /\ Forall2 finished items.*1 ps) E.
Proof.
  induction items as [|[c p] items IH]; intros Hl; simpl; [intros s Hs; split; [done|constructor]|].
  apply Forall_cons in Hl as [Hp Hl]. eapply triple_bind_pure; [by apply drive_finished|].
  intros p' Hf. eapply triple_bind; [by apply IH|].
  intros ps s [Hs Hps]. split; [done|]. by constructor.
Qed.

Lemma drive_outcomes cs ps s : I s -> Forall2 finished cs ps ->
  match outcomes ps with Ok rs => Forall2 ended cs rs | Err e => E e s end.
Proof.
  intros Hs. induction 1 as [|c p cs ps Hf _ IH]; simpl; [constructor|].
  pose proof (finished_outcome c p s Hs Hf). destruct (outcome_of p); [|done].
  destruct (outcomes ps); [by constructor|done].
Qed.

Lemma drive_gather cs : Forall (fun c => G c PStart) cs ->
  triple I (gather str_repr dc w ctx cs) (fun rs s => I s /\ Forall2 ended cs rs) E.
Proof.
  intros Hcs. unfold gather. eapply triple_bind with (Qm := fun _ => I); [by intros s Hs|]. intros sched.
  assert (live (map (fun c => (c, PStart)) cs)) as Hl by by apply Forall_map.
  eapply triple_bind_pure; [by apply drive_interleave|]. intros items [Hi Hfst].
  eapply triple_bind; [by apply drive_finish_all|]. intros ps s [Hs Hps].
  rewrite Hfst, <- list_fmap_compose in Hps. cbn [compose fst] in Hps. setoid_rewrite list_fmap_id in Hps.
  pose proof (drive_outcomes cs ps s Hs Hps) as H. unfold mlift. by destruct (outcomes ps).
Qed.

(** *** The batch *)

Context (calls : list ToolCall) (Hcalls : Forall (fun c => G c PStart) calls).

(** The first [k] results are in place. *)
Definition placed (k : nat) (results : list (option ToolResult)) : Prop :=
  length results = length calls /\
  forall i c, (i < k)%nat -> calls !! i = Some c -> exists r, results !! i = Some (Some r) /\ ended c r.

(** [batch] is the run of calls from [k] on. *)
Definition from (k : nat) (batch : list (nat * ToolCall)) : Prop :=
  forall j i c, batch !! j = Some (i, c) -> i = (k + j)%nat /\ calls !! i = Some c.

Lemma from_cons k i c batch : from k ((i, c) :: batch) -> i = k /\ calls !! i = Some c /\ from (S k) batch.
Proof.
  intros H. destruct (H 0%nat i c eq_refl) as [-> ?]. rewrite Nat.add_0_r in *. split_and!; [done..|].
  intros j i' c' Hj. destruct (H (S j) i' c' Hj) as [-> ?]. split; [lia|done].
Qed.

Lemma from_app k b1 b2 : from k (b1 ++ b2) -> from k b1 /\ from (k + length b1) b2.
Proof.
  intros H. split; intros j i c Hj.
  - eapply H. by apply lookup_app_l_Some.
  - destruct (H (length b1 + j)%nat i c) as [-> ?]; [|split; [lia|done]].
    rewrite lookup_app_r by lia. by rewrite Nat.add_comm, Nat.add_sub.
Qed.

Lemma from_starts k batch : from k batch -> Forall (fun c => G c PStart) batch.*2.
Proof.
  intros H. apply Forall_lookup. intros j c Hj. rewrite list_lookup_fmap in Hj.
  destruct (batch !! j) as [[i c']|] eqn:E2; simplify_eq/=. destruct (H j i c E2) as [_ Hc].
  by eapply Forall_lookup_1 in Hcalls.
Qed.

Lemma placed_insert k i c r results : placed k results -> i = k -> calls !! i = Some c -> ended c r ->
  placed (S k) (<[i:=Some r]> results).
Proof.
  intros [Hlen Hp] -> Hc Hr. split; [by rewrite length_insert|]. intros j c' Hj Hc'.
  destruct (decide (j = k)) as [->|].
  - simplify_eq. exists r. split; [|done]. rewrite list_lookup_insert_eq; [done|]. rewrite Hlen. by eapply lookup_lt_Some.
  - rewrite list_lookup_insert_ne by done. apply Hp; [lia|done].
Qed.

Lemma store_results_placed k batch done results : placed k results -> from k batch ->
  Forall2 ended batch.*2 done -> placed (k + length batch) (store_results batch done results).
Proof.
  revert k done results. induction batch as [|[i c] batch IH]; intros k done results Hp Hf Hd2; inversion Hd2; subst; simpl.
  { by rewrite Nat.add_0_r. }
  apply from_cons in Hf as (-> & Hc & Hf). rewrite Nat.add_succ_r. apply (IH (S k)); [|done..].
  by eapply placed_insert.
Qed.

Lemma drive_flush k batch results : placed k results -> from k batch ->
  triple I (flush_readonly str_repr dc w ctx batch results) (fun rs s => I s /\ placed (k + length batch) rs) E.
Proof.
  intros Hp Hf. destruct batch as [|b batch]; simpl.
  { intros s Hs. by rewrite Nat.add_0_r. }
  eapply triple_bind; [apply drive_gather; exact (from_starts k (b :: batch) Hf)|]. intros done s [Hs Hdone]. split; [done|].
  by eapply (store_results_placed k (b :: batch)).
Qed.

Lemma drive_loop rest readonly k results : placed k results -> from k (readonly ++ rest) ->
  triple I (dispatch_loop rest readonly results) (fun rs s => I s /\ placed (k + length readonly + length rest) rs) E.
Proof.
  revert readonly k results. induction rest as [|[i c] rest IH]; intros readonly k results Hp Hf; simpl.
  { rewrite Nat.add_0_r, app_nil_r in *. by apply drive_flush. }
  destruct (Tools.is_readonly str_repr dc ctx c) eqn:Er.
  - assert (k + length readonly + S (length rest) = k + length (readonly ++ [(i, c)]) + length rest)%nat as ->
      by (rewrite length_app; simpl; lia).
    apply IH; [done|]. by rewrite <- app_assoc.
  - apply from_app in Hf as [Hf1 (-> & Hc & Hf2)%from_cons].
    eapply triple_bind_pure; [by apply drive_flush|]. intros rs Hrs.
    eapply triple_bind_pure; [apply drive_one; by eapply Forall_lookup_1 in Hcalls|]. intros r Hr.
    assert (k + length readonly + S (length rest) = S (k + length readonly) + length (@nil (nat * ToolCall)) + length rest)%nat
      as -> by (simpl; lia).
    apply (IH [] (S (k + length readonly)) (<[(k + length readonly)%nat := Some r]> rs)); [|done].
    by eapply placed_insert.
Qed.

Lemma placed_all results : placed (length calls) results -> Forall2 ended calls (omap (fun o => o) results).
Proof.
  intros [Hlen Hp]. revert results Hlen Hp. generalize calls. clear.
  intros cs. induction cs as [|c cs IH]; intros [|o results] Hlen Hp; simplify_eq/=; [constructor|].
  destruct (Hp 0%nat c) as (r & Hr & He); [simpl; lia|done|]. simplify_eq/=. constructor; [done|].
  apply IH; [done|]. intros i c' Hi Hc'. apply (Hp (S i)); [simpl; lia|done].
Qed.

Lemma from_imap : from 0 (imap pair calls).
Proof.
  intros j i c. rewrite list_lookup_imap. destruct (calls !! j) eqn:Ej; simpl; [|done]. by intros [= <- <-].
Qed.

Lemma drive_batch_inner :
  triple I (dispatch_batch_inner str_repr dc w ctx calls) (fun rs s => I s /\ Forall2 ended calls rs) E.
Proof.
  unfold dispatch_batch_inner.
  eapply triple_bind; [apply (drive_loop _ [] 0%nat); [|apply from_imap]|].
  { split; [apply length_replicate|lia]. }
  intros results s [Hs Hp]. split; [done|]. apply placed_all. by rewrite length_imap in Hp.
Qed.

(** Under a batch timeout the cancellation becomes a failure of every call. *)
Lemma drive_batch :
  (forall s, E Cancelled s -> I s) ->
  (forall c message, c ∈ calls -> ended c (tool_failure c.(tc_id) c.(tc_name) (ecode ToolTimeoutError) message)) ->
  triple I (dispatch_batch calls) (fun rs s => I s /\ Forall2 ended calls rs) (fun e s => E e s /\ (e = Cancelled -> dc_batch_timeout_s dc = None)).
Proof.
  intros HE Hf. unfold Tools.dispatch_batch. destruct (dc_batch_timeout_s dc) as [t|].
  - eapply triple_try; [apply drive_batch_inner|]. intros [| | |]; try (intros s Hs; by split).
    intros s Hs. split; [by apply HE|]. apply Forall2_fmap_r, Forall_Forall2_diag, Forall_forall. intros c Hc. by apply Hf.
  - eapply triple_conseq; [intros s Hs; exact Hs|apply drive_batch_inner|done|done].
Qed.
End Drives.

(** ** What a step does *)

(** The key [k] has a successful answer in the store. *)
Definition answered (k : string) (s : DState) : Prop :=
  exists payload, dict_get s.(d_store) k = Some payload /\ default true (truthy <$> dict_get payload "ok") = true.

(** From [s] to [s'] the accesses satisfy [ok], no answer is lost and no
    cancellation comes up. *)
Definition Acts (ok : access -> Prop) (s s' : DState) : Prop :=
  (exists ls, s'.(d_log) = s.(d_log) ++ ls /\ Forall ok ls) /\ (forall k, answered k s -> answered k s') /\
  (s.(d_budget) = None -> s'.(d_budget) = None).

#[global] Instance Acts_preorder ok : PreOrder (Acts ok).
Proof.
  split.
  - intros s. split; [|done]. exists []. by rewrite app_nil_r.
  - intros s1 s2 s3 [(l1 & E1 & F1) [A1 B1]] [(l2 & E2 & F2) [A2 B2]]. split; [|by auto].
    exists (l1 ++ l2). rewrite E2, E1, app_assoc. split; [done|by apply Forall_app].
Qed.

Lemma acts_access ok a : ok a -> preserves (Acts ok) (access_ a).
Proof.
  intros Ha s. unfold access_, await_, mmodify, mbind_. simpl.
  destruct (d_budget s) as [[|n]|] eqn:E; (split; [exists [a]; split; [done|by constructor]|split; [exact (fun _ H => H)|simpl; congruence]]).
Qed.

Lemma acts_put ok key v : preserves (Acts ok)
  (mmodify (fun s => mkDState (dict_set s.(d_store) key [("ok", VBool true); ("content", v)]) s.(d_log) s.(d_budget))).
Proof.
  intros s. split; [exists []; by rewrite app_nil_r|]. split; [|done]. intros k (p & Hk & Hp). unfold answered. simpl.
  destruct (decide (k = key)) as [->|].
  - rewrite dict_get_set_eq. by eexists.
  - rewrite dict_get_set_ne by done. by exists p.
Qed.

Lemma acts_store_error ok : preserves (Acts ok) (store_error w).
Proof.
  unfold store_error. apply preserves_bind; [typeclasses eauto|apply preserves_gets; typeclasses eauto|].
  intros [e|]; [apply preserves_raise|apply preserves_ret]; typeclasses eauto.
Qed.

#[local] Hint Resolve acts_put acts_store_error : effects.

Lemma acts_catch ok c m : preserves (Acts ok) m -> preserves (Acts ok) (catch c m).
Proof.
  intros Hm. apply preserves_try; [typeclasses eauto|done|]. intros e k He.
  destruct (is_exception e); simplify_eq. apply preserves_ret; typeclasses eauto.
Qed.

Lemma step_acts ok c p :
  (forall key, ok (AGet c key) /\ ok (APut c key)) -> (forall t key, p = PInvoke t key -> ok (AInvoke c t)) ->
  preserves (Acts ok) (step c p).
Proof.
  intros Hs Hi. destruct p; simpl; try (apply preserves_ret; typeclasses eauto).
  - destruct (Tools.gate _ _ _ _); [|preserve]. apply acts_catch. unfold begin_invoke. preserve.
    apply acts_access. by apply Hs.
  - apply acts_catch. unfold invoke_tool. preserve. apply acts_access. by eapply Hi.
  - apply acts_catch. unfold put_result. preserve. apply acts_access. by apply Hs.
Qed.
End Facts.
