(* ===== verification/ToolFacts.v ===== *)
(** * The theorems on the tool dispatcher: every call is answered in place, only
      gated calls are invoked, side effects are ordered, retries are not repeated. *)

From S2P Require Import Prelude CoreTypes Effects Json ToolArguments Tools ToolDispatch.
#[local] Open Scope eff_scope.

Section Facts.
Context (str_repr : string -> string) (dc : Dispatcher) (w : ToolWorld) (ctx : ToolInvocationContext).
Notation step := (step str_repr dc w ctx).
Notation gate := (gate str_repr dc ctx).
Notation dispatch_one := (dispatch_one str_repr dc w ctx).
Notation dispatch_batch := (dispatch_batch str_repr dc w ctx).

(** ** Every call is answered *)

Definition echoes (c : ToolCall) (r : ToolResult) : Prop := tr_call_id r = tc_id c /\ tr_name r = tc_name c.

(** Tools answer for the call they got; neither tools nor the store raise what is
    no [Exception]. *)
Definition world_behaves : Prop :=
  (forall log t c, match tw_invoke w log t c with
                   | Returned r => echoes c r
                   | Raised e => is_exception e = true
                   | TimedOut => True
                   end) /\
  (forall log e, tw_store_error w log = Some e -> is_exception e = true).

Definition schemas_readable (calls : list ToolCall) : Prop :=
  forall c t, c ∈ calls -> resolve_tool str_repr dc ctx (tc_name c) = Ok t -> Schema (VDict t.(tool_schema).(ts_json_schema)).

(** The only cancellation is the one of the batch timeout. *)
Definition uncancelled (s : DState) : Prop := s.(d_budget) = None \/ dc.(dc_batch_timeout_s) <> None.

Definition answers (c : ToolCall) (p : Phase) : Prop :=
  match p with
  | PStart => forall e, gate c <> inr (PRaised e)
  | PInvoke _ _ => True
  | PPut _ r | PDone r => echoes c r
  | PRaised _ => False
  end.

Definition timed_out (e : exn) (s : DState) : Prop := uncancelled s /\ e = Cancelled /\ dc.(dc_batch_timeout_s) <> None.
Definition caught_or_timed_out (e : exn) (s : DState) : Prop :=
  uncancelled s /\ (is_exception e = true \/ e = Cancelled /\ dc.(dc_batch_timeout_s) <> None).

Notation progress m F := (triple uncancelled m (fun a s => uncancelled s /\ F a) caught_or_timed_out).

Lemma progress_access a : progress (access_ a) (fun _ => True).
Proof.
  intros s. unfold access_, await_, mmodify, mbind_, uncancelled, caught_or_timed_out, uncancelled. simpl.
  destruct (d_budget s) as [[|n]|]; simpl; intros [Hs|Hs]; try done; auto.
Qed.

Lemma progress_store_error : world_behaves -> progress (store_error w) (fun _ => True).
Proof.
  intros [_ Hw] s Hs. unfold store_error, mgets, mbind_. destruct (tw_store_error w (d_log s)) as [e|] eqn:E; simpl; [|done].
  split; [done|]. left. by eapply Hw.
Qed.

Lemma progress_catch c m : progress m (answers c) ->
  triple uncancelled (catch c m) (fun p s => uncancelled s /\ answers c p) timed_out.
Proof.
  intros Hm. eapply triple_try; [exact Hm|]. intros e. destruct (is_exception e) eqn:E.
  - intros s [Hs _]. split; [done|]. by split.
  - intros s [Hs [?|[-> H]]]; [congruence|]. by split_and!.
Qed.

Lemma gate_answers c p : (forall e, gate c <> inr (PRaised e)) -> gate c = inr p -> answers c p.
Proof.
  unfold Tools.gate. intros Hr Hg. destruct (resolve_tool _ _ _ _); [|by simplify_eq].
  case_bool_decide; [|by simplify_eq].
  destruct (validate_json_schema _ _ _) as [[m|]|e]; [destruct (dc_schema_strict dc)|..]; simplify_eq; try done.
  by destruct (Hr e).
Qed.

Lemma progress_begin t c : world_behaves -> progress (begin_invoke str_repr dc w ctx t c) (answers c).
Proof.
  intros Hw. unfold begin_invoke. destruct (_ && _); [by intros s Hs|].
  destruct (store_key _ _ _ _ _ _); [|by intros s Hs].
  eapply triple_bind_pure; [apply progress_access|]. intros _ _.
  eapply triple_bind_pure; [by apply progress_store_error|]. intros _ _ s' Hs.
  unfold mgets, mbind_, mret_. split; [done|]. by destruct (dict_get _ _).
Qed.

Lemma progress_invoke t key c : world_behaves -> progress (invoke_tool w t key c) (answers c).
Proof.
  intros Hw. unfold invoke_tool.
  eapply triple_bind with (Qm := fun log s => uncancelled s); [by intros s Hs|]. intros log.
  eapply triple_bind_pure; [apply progress_access|]. intros _ _.
  pose proof (proj1 Hw log t c) as Hi. destruct (tw_invoke w log t c) as [r|e|].
  - intros s Hs. unfold mgets, mbind_, mret_. split; [done|].
    assert (echoes c (if tr_latency_ms r =? 0 then with_latency r (tw_elapsed_ms w (d_log s)) else r)) as He by by case_match.
    revert He. generalize (if tr_latency_ms r =? 0 then with_latency r (tw_elapsed_ms w (d_log s)) else r). intros r' He.
    destruct key; [|done]. by destruct (tr_ok r').
  - intros s Hs. split; [done|by left].
  - by intros s Hs.
Qed.

Lemma progress_put c key r : world_behaves -> echoes c r -> progress (put_result w c key r) (answers c).
Proof.
  intros Hw Hr. unfold put_result.
  eapply triple_bind_pure; [apply progress_access|]. intros _ _.
  eapply triple_bind_pure; [by apply progress_store_error|]. intros _ _ s Hs. by split.
Qed.

Lemma drives_answers : world_behaves -> Drives str_repr dc w ctx uncancelled timed_out answers.
Proof.
  intros Hw. constructor; [|done]. intros c [|t key|key r|r|e] Hp; simpl; [| | |by intros s Hs|done].
  - destruct (Tools.gate str_repr dc ctx c) as [t|p] eqn:Eg.
    + apply progress_catch. by apply progress_begin.
    + intros s Hs. split; [done|]. by apply gate_answers.
  - apply progress_catch. by apply progress_invoke.
  - apply progress_catch. by apply progress_put.
Qed.

Lemma readable_starts calls : schemas_readable calls -> Forall (fun c => answers c PStart) calls.
Proof.
  intros Hs. apply Forall_forall. intros c Hc e. unfold Tools.gate.
  destruct (resolve_tool _ _ _ _) as [t|] eqn:Et; [|done]. case_bool_decide; [|done].
  destruct (validate_spec _ (Hs c t Hc Et) (VDict (tc_arguments c)) "$") as [[o ->] _].
  destruct o; [by case_match|done].
Qed.

(** When tools answer for the call they got and schemas are readable, dispatch_batch returns
    for every batch, schedule, failure and batch timeout, with exactly one result per call, in
    the order of the calls and with the id and name of its call. *)
Theorem batch_answers_every_call calls s :
  world_behaves -> schemas_readable calls -> s.(d_budget) = None \/ dc.(dc_batch_timeout_s) <> None ->
  exists rs s', dispatch_batch calls s = (Ok rs, s') /\ Forall2 echoes calls rs.
Proof.
  intros Hw Hsch Hb.
  pose proof (drive_batch _ _ _ _ _ _ _ (drives_answers Hw) calls (readable_starts calls Hsch)) as H.
  specialize (H (fun s Hs => proj1 Hs) (fun c m _ => conj eq_refl eq_refl) s Hb).
  destruct (Tools.dispatch_batch _ _ _ _ _ _) as [[rs|e] s'].
  - destruct H as [_ H]. by exists rs, s'.
  - destruct H as [(_ & -> & H) Hn]. by destruct (H (Hn eq_refl)).
Qed.

(** ** What may be invoked *)

(** The conditions under which [_dispatch_one] reaches the tool. *)
Definition gated (t : Tool) (c : ToolCall) : Prop :=
  gate c = inl t /\
  (dc.(dc_require_idempotency) = true -> t.(tool_schema).(ts_side_effect) = true ->
   opt_truthy t.(tool_schema).(ts_idempotency_key_template) = true).

Definition entitled (t : Tool) : Prop :=
  forall allowed, dc.(dc_allowed) = Some allowed -> forall p, p ∈ t.(tool_schema).(ts_permissions) -> p ∈ allowed.

Lemma no_missing_permissions t : missing_permissions dc t = [] -> entitled t.
Proof.
  unfold missing_permissions. intros H allowed Ha p Hp. rewrite Ha in H.
  pose proof (proj1 (filter_nil_iff _ _) H p) as Hf. rewrite elem_of_remove_dups in Hf. specialize (Hf Hp).
  by apply negb_false_iff, bool_decide_eq_true in Hf.
Qed.

Lemma gate_spec t c : gate c = inl t ->
  (tc_name c ∉ ctx.(ic_denied_tools) /\ resolve_tool str_repr dc ctx (tc_name c) = Ok t) /\ entitled t /\
  (dc.(dc_schema_strict) = true -> Schema (VDict t.(tool_schema).(ts_json_schema)) ->
   Conforms (VDict t.(tool_schema).(ts_json_schema)) (VDict c.(tc_arguments))).
Proof.
  unfold Tools.gate. destruct (resolve_tool _ _ _ _) as [t'|] eqn:Er; [|done].
  case_bool_decide as Hm; [|done]. intros Hg. assert (t' = t) as -> by by repeat (case_match; simplify_eq).
  split_and!; [|done|by apply no_missing_permissions|].
  - unfold resolve_tool in Er. by case_bool_decide.
  - intros Hstrict Hs. apply (validate_spec _ Hs _ "$"). rewrite Hstrict in Hg. by repeat (case_match; simplify_eq).
Qed.

Lemma step_gated c p : returns (step c p) (fun p' => forall t key, p' = PInvoke t key -> gated t c).
Proof.
  destruct p; simpl; try by apply returns_ret.
  - destruct (Tools.gate str_repr dc ctx c) as [t|p] eqn:Eg.
    + apply catch_returns; [|done]. unfold begin_invoke.
      destruct (dc_require_idempotency dc && _ && _) eqn:Er; [by apply returns_ret|].
      assert (gated t c) as Hg.
      { split; [done|]. intros H1 H2. rewrite H1, H2 in Er. by apply negb_false_iff in Er. }
      destruct (store_key _ _ _ _ _ _); repeat (apply returns_bind; intros ?); apply returns_ret;
        [case_match|]; by intros ? ? [= <- <-].
    + apply returns_ret. intros t key ->. unfold Tools.gate in Eg. by repeat (case_match; simplify_eq).
  - apply catch_returns; [|done]. unfold invoke_tool. repeat (apply returns_bind; intros ?).
    destruct (tw_invoke _ _ _ _) as [r|e|]; [|apply returns_raise|]; apply returns_bind; intros ?; apply returns_ret; [|done].
    destruct key; [|done]. by destruct (tr_ok _).
  - apply catch_returns; [|done]. unfold put_result. repeat (apply returns_bind; intros ?). by apply returns_ret.
Qed.

(** A batch acts as its calls are allowed to. *)
Definition allowed_by (ok : access -> Prop) (c : ToolCall) : Prop :=
  (forall key, ok (AGet c key) /\ ok (APut c key)) /\ forall t, gated t c -> ok (AInvoke c t).

Definition gated_phase (ok : access -> Prop) (c : ToolCall) (p : Phase) : Prop :=
  allowed_by ok c /\ forall t key, p = PInvoke t key -> gated t c.

Lemma drives_acts ok s0 :
  Drives str_repr dc w ctx (Acts ok s0) (fun _ => Acts ok s0) (gated_phase ok).
Proof.
  constructor; [|done]. intros c p [Hok Hp] s Hs.
  pose proof (step_acts str_repr dc w ctx ok c p (proj1 Hok) (fun t key E => proj2 Hok t (Hp t key E)) s) as Ha.
  pose proof (step_gated c p s) as Hg. destruct (step c p s) as [[p'|e] s']; simpl in Ha; [|by etransitivity].
  split; [by etransitivity|]. split; [done|]. by eapply Hg.
Qed.

Lemma allowed_starts ok cs : Forall (allowed_by ok) cs -> Forall (fun c => gated_phase ok c PStart) cs.
Proof. intros H. eapply Forall_impl; [exact H|]. by intros c ?. Qed.

(** What a triple about [Acts] says as a transition. *)
Lemma acts_of_triple {A} ok (m : M DState A) (Q : A -> Prop) :
  (forall s0, triple (Acts ok s0) m (fun a s => Acts ok s0 s /\ Q a) (fun _ => Acts ok s0)) -> preserves (Acts ok) m.
Proof.
  intros H s. specialize (H s s ltac:(reflexivity)). destruct (m s) as [[a|e] s']; [by destruct H|done].
Qed.

Lemma one_acts ok c : allowed_by ok c -> preserves (Acts ok) (dispatch_one c).
Proof.
  intros Hc. eapply acts_of_triple. intros s0. apply (drive_one _ _ _ _ _ _ _ (drives_acts ok s0)). by split.
Qed.

Lemma flush_acts ok batch results : Forall (allowed_by ok) batch.*2 ->
  preserves (Acts ok) (flush_readonly str_repr dc w ctx batch results).
Proof.
  intros Hc. destruct batch as [|b batch]; [apply preserves_ret; typeclasses eauto|]. simpl. apply preserves_bind; [typeclasses eauto| |intros; preserve].
  eapply acts_of_triple. intros s0. apply (drive_gather _ _ _ _ _ _ _ (drives_acts ok s0)). by apply allowed_starts.
Qed.

Notation loop := (dispatch_loop str_repr dc w ctx).

Lemma loop_acts ok calls ro results : Forall (allowed_by ok) (ro.*2 ++ calls.*2) -> preserves (Acts ok) (loop calls ro results).
Proof.
  revert ro results. induction calls as [|[i c] calls IH]; intros ro results H; simpl.
  { rewrite app_nil_r in H. by apply flush_acts. }
  destruct (is_readonly str_repr dc ctx c).
  - apply IH. by rewrite fmap_app, <- app_assoc.
  - apply Forall_app in H as [Hro [Hc Hcs]%Forall_cons].
    apply preserves_bind; [typeclasses eauto|by apply flush_acts|]. intros rs.
    apply preserves_bind; [typeclasses eauto|by apply one_acts|]. intros r. by apply IH.
Qed.

Lemma imap_pair_snd {A} (l : list A) : (imap pair l).*2 = l.
Proof. apply list_eq. intros i. rewrite list_lookup_fmap, list_lookup_imap. by destruct (l !! i). Qed.

(** The state a batch leaves is the one of its loop. *)
Lemma batch_state calls s :
  snd (dispatch_batch calls s) = snd (loop (imap pair calls) [] (replicate (length calls) None) s).
Proof.
  unfold Tools.dispatch_batch, mtry, dispatch_batch_inner, mbind_.
  destruct (dc_batch_timeout_s dc); destruct (Tools.dispatch_loop _ _ _ _ _ _ _ s) as [[rs|[]] s']; done.
Qed.

Lemma batch_acts ok calls s : Forall (allowed_by ok) calls -> Acts ok s (snd (dispatch_batch calls s)).
Proof. intros Hc. rewrite batch_state. apply loop_acts. by rewrite imap_pair_snd. Qed.

(** C9: Whatever the schedule, timeouts and failures, a dispatched batch invokes a tool only for a
    call of the batch whose name is not denied and resolves to that tool, whose permissions are
    all granted, whose arguments satisfy the tool schema in strict mode, and which has an
    idempotency template where side effects require one. *)
Theorem only_gated_calls_are_invoked calls s :
  exists ls, (snd (dispatch_batch calls s)).(d_log) = s.(d_log) ++ ls /\
  forall c t, AInvoke c t ∈ ls ->
    c ∈ calls /\ tc_name c ∉ ctx.(ic_denied_tools) /\ resolve_tool str_repr dc ctx (tc_name c) = Ok t /\ entitled t /\
    (dc.(dc_schema_strict) = true -> Schema (VDict t.(tool_schema).(ts_json_schema)) ->
     Conforms (VDict t.(tool_schema).(ts_json_schema)) (VDict c.(tc_arguments))) /\
    (dc.(dc_require_idempotency) = true -> t.(tool_schema).(ts_side_effect) = true ->
     opt_truthy t.(tool_schema).(ts_idempotency_key_template) = true).
Proof.
  destruct (batch_acts (fun a => match a with AInvoke c t => c ∈ calls /\ gated t c | _ => True end) calls s) as [(ls & E & F) _].
  { apply Forall_forall. intros c Hc. split; [by split|]. by intros t Ht. }
  exists ls. split; [done|]. intros c t Hin. apply (proj1 (Forall_forall _ _) F) in Hin as [Hc [Hg Hi]].
  destruct (gate_spec t c Hg) as ([? ?] & ? & ?). by split_and!.
Qed.

(** ** Side effects are ordered *)

Definition call_of (a : access) : ToolCall := match a with AGet c _ | AInvoke c _ | APut c _ => c end.
Definition Within (cs : list ToolCall) : DState -> DState -> Prop := Acts (fun a => call_of a ∈ cs).

Notation is_readonly := (is_readonly str_repr dc ctx).

(** A call that is not read-only splits the loop. *)
Lemma loop_barrier l1 i c l2 ro results s : is_readonly c = false ->
  loop (l1 ++ (i, c) :: l2) ro results s =
  (results <-- loop l1 ro results ;; r <-- dispatch_one c ;; loop l2 [] (<[i := Some r]> results)) s.
Proof.
  intros Hc. revert ro results s. induction l1 as [|[j c1] l1 IH]; intros ro results s; simpl; [by rewrite Hc|].
  destruct (Tools.is_readonly str_repr dc ctx c1); [apply IH|].
  unfold mbind_. destruct (flush_readonly _ _ _ _ _ _ s) as [[rs|e] s1]; [|done].
  destruct (dispatch_one c1 s1) as [[r|e] s2]; [|done]. apply IH.
Qed.

Lemma within_allowed cs : Forall (allowed_by (fun a => call_of a ∈ cs)) cs.
Proof. apply Forall_forall. intros c Hc. by split; [split|]. Qed.

Lemma acts_log ok s s' : Acts ok s s' -> exists ls, s'.(d_log) = s.(d_log) ++ ls /\ Forall ok ls.
Proof. by intros []. Qed.

Lemma loop_ordered l1 i c l2 results s : is_readonly c = false ->
  exists k1 k k2,
    (snd (loop (l1 ++ (i, c) :: l2) [] results s)).(d_log) = s.(d_log) ++ k1 ++ k ++ k2 /\
    Forall (fun a => call_of a ∈ l1.*2) k1 /\ Forall (fun a => call_of a ∈ [c]) k /\
    Forall (fun a => call_of a ∈ l2.*2) k2.
Proof.
  intros Hc. rewrite (loop_barrier _ _ _ _ _ _ _ Hc). unfold mbind_ at 1.
  pose proof (loop_acts _ l1 [] results (within_allowed l1.*2) s) as H1.
  destruct (loop l1 [] results s) as [[rs|e] s1]; apply acts_log in H1 as (k1 & E1 & F1); simpl in E1;
    [|exists k1, [], []; simpl; by rewrite E1, !app_nil_r].
  pose proof (one_acts _ c (proj1 (Forall_singleton _ _) (within_allowed [c])) s1) as H2. unfold mbind_ at 1.
  destruct (dispatch_one c s1) as [[r|e] s2]; apply acts_log in H2 as (k2 & E2 & F2); simpl in E2;
    [|exists k1, k2, []; simpl; by rewrite E2, E1, !app_nil_r, <- !app_assoc].
  destruct (acts_log _ _ _ (loop_acts _ l2 [] (<[i:=Some r]> rs) (within_allowed l2.*2) s2)) as (k3 & E3 & F3).
  exists k1, k2, k3. by rewrite E3, E2, E1, <- !app_assoc.
Qed.

(** A call that is not read-only is a barrier in its batch: all accesses of earlier calls come
    before its own, and all accesses of later calls after, under every schedule and on every
    exit. *)
Theorem side_effects_are_ordered before c after s :
  is_readonly c = false ->
  exists l1 l l2,
    (snd (dispatch_batch (before ++ c :: after) s)).(d_log) = s.(d_log) ++ l1 ++ l ++ l2 /\
    Forall (fun a => call_of a ∈ before) l1 /\ Forall (fun a => call_of a ∈ [c]) l /\
    Forall (fun a => call_of a ∈ after) l2.
Proof.
  intros Hc. rewrite batch_state. pose proof (imap_pair_snd (before ++ c :: after)) as H.
  apply fmap_app_inv in H as (l1 & l2' & H1 & H2 & H3). symmetry in H2. apply fmap_cons_inv in H2 as ([i c'] & l2 & Hy & H4 & H5).
  rewrite H3, H5. simplify_eq/=. by apply loop_ordered.
Qed.

(** ** A retry is answered from the store *)

Definition store_reliable : Prop := forall log, tw_store_error w log = None.

Lemma await_free a s : s.(d_budget) = None -> access_ a s = (Ok tt, mkDState s.(d_store) (s.(d_log) ++ [a]) None).
Proof. intros H. unfold access_, await_, mmodify, mbind_. simpl. by rewrite H. Qed.

Lemma store_error_free s : store_reliable -> store_error w s = (Ok tt, s).
Proof. intros H. unfold store_error, mgets, mbind_. by rewrite H. Qed.

Lemma catch_ok c m s p s' : m s = (Ok p, s') -> catch c m s = (Ok p, s').
Proof. intros H. unfold catch, mtry. by rewrite H. Qed.
Lemma catch_err c m s e s' : m s = (Err e, s') -> is_exception e = true -> catch c m s = (Ok (PDone (failure_of c e)), s').
Proof. intros H He. unfold catch, mtry. by rewrite H, He. Qed.

(** A call that begins in [p1] at [s1] goes on from there. *)
Lemma one_from_start c t s p1 s1 : gate c = inl t -> begin_invoke str_repr dc w ctx t c s = (Ok p1, s1) ->
  dispatch_one c s = (p2 <-- step c p1 ;; p3 <-- step c p2 ;; mlift (outcome_of p3)) s1.
Proof.
  intros Hg Hb. unfold Tools.dispatch_one, Tools.finish. unfold mbind_ at 1 2. simpl.
  rewrite Hg, (catch_ok _ _ _ _ _ Hb). unfold mbind_. destruct (Tools.step str_repr dc w ctx c p1 s1) as [[p2|] s2]; [|done].
  by destruct (Tools.step str_repr dc w ctx c p2 s2) as [[p3|] s3].
Qed.

Definition after_get (s : DState) (c : ToolCall) (key : string) : DState :=
  mkDState s.(d_store) (s.(d_log) ++ [AGet c key]) None.

Lemma begin_keyed c t key s : store_reliable -> s.(d_budget) = None -> store_key str_repr dc w ctx t c = Some key ->
  begin_invoke str_repr dc w ctx t c s =
  (Ok (match dict_get s.(d_store) key with Some payload => PDone (cached_result c payload) | None => PInvoke t (Some key) end),
   after_get s c key).
Proof.
  intros Hr Hb Hk. unfold begin_invoke. rewrite Hk.
  assert (opt_truthy t.(tool_schema).(ts_idempotency_key_template) = true) as ->.
  { unfold store_key, maybe_idemp_key in Hk. destruct (dc_has_store dc); [|done].
    by destruct (ts_idempotency_key_template _) as [[|]|]. }
  rewrite andb_false_r. by rewrite (mbind_ok _ _ _ _ _ (await_free _ s Hb)), (mbind_ok _ _ _ _ _ (store_error_free _ Hr)).
Qed.

Lemma one_cached c t key s payload : store_reliable -> s.(d_budget) = None -> gate c = inl t ->
  store_key str_repr dc w ctx t c = Some key -> dict_get s.(d_store) key = Some payload ->
  dispatch_one c s = (Ok (cached_result c payload), after_get s c key).
Proof.
  intros Hr Hb Hg Hk Hp. pose proof (begin_keyed c t key s Hr Hb Hk) as H. rewrite Hp in H.
  by rewrite (one_from_start c t s _ _ Hg H).
Qed.

(** The payload of [key] stands for the content [v]. *)
Definition stored (key : string) (v : pyval) (s : DState) : Prop :=
  exists payload, dict_get s.(d_store) key = Some payload /\ default true (truthy <$> dict_get payload "ok") = true /\
  default VNone (dict_get payload "content") = v.

Lemma one_stores c t key s r s1 : store_reliable -> s.(d_budget) = None -> gate c = inl t ->
  store_key str_repr dc w ctx t c = Some key -> dispatch_one c s = (Ok r, s1) -> tr_ok r = true ->
  stored key (tr_content r) s1.
Proof.
  intros Hr Hb Hg Hk. pose proof (begin_keyed c t key s Hr Hb Hk) as H.
  destruct (dict_get (d_store s) key) as [payload|] eqn:Hp.
  { rewrite (one_cached c t key s payload) by done. intros [= <- <-] Hok. exists payload. split; [done|].
    simpl in Hok. by destruct (dict_get payload "ok"). }
  rewrite (one_from_start c t s _ _ Hg H). clear H.
  assert (forall p s', invoke_tool w t (Some key) c (after_get s c key) = (Ok p, s') -> d_budget s' = None /\
            match p with PPut k r' => k = key | PDone r' => tr_ok r' = false | _ => False end) as Hi.
  { intros p s'. unfold invoke_tool, mgets. unfold mbind_ at 1.
    rewrite (mbind_ok _ _ _ _ _ (await_free _ (after_get s c key) eq_refl)).
    destruct (tw_invoke _ _ _ _) as [r'|e|]; [|done|by intros [= <- <-]].
    unfold mbind_, mret_. intros [= <- <-]. split; [done|]. by match goal with |- context [tr_ok ?x] => destruct (tr_ok x) eqn:? end. }
  unfold mbind_. simpl. unfold catch at 1, mtry at 1.
  destruct (invoke_tool _ _ _ _ _) as [[p|e] s2].
  - destruct (Hi p s2 eq_refl) as [Hb2 Hp2]. destruct p as [| |k r'|r'|]; try done; simpl.
    + subst k. unfold catch, mtry, put_result.
      rewrite (mbind_ok _ _ _ _ _ (await_free _ s2 Hb2)), (mbind_ok _ _ _ _ _ (store_error_free _ Hr)). simpl.
      intros [= <- <-] _. eexists. simpl. by rewrite dict_get_set_eq.
    + intros [= <- <-]. congruence.
  - destruct (is_exception e); [|done]. simpl. by intros [= <- <-].
Qed.

(** C10: After a successful call with an idempotency key, any other batch may run, and a call with
    the same key is answered from the store as a success without invoking the tool; an immediate
    retry gets the same content. *)
Theorem retry_is_answered_from_the_store c c' t key s r s1 batch :
  store_reliable -> s.(d_budget) = None ->
  gate c = inl t -> store_key str_repr dc w ctx t c = Some key ->
  gate c' = inl t -> store_key str_repr dc w ctx t c' = Some key ->
  dispatch_one c s = (Ok r, s1) -> tr_ok r = true ->
  let s2 := snd (dispatch_batch batch s1) in
  (exists r', dispatch_one c' s2 = (Ok r', after_get s2 c' key) /\ echoes c' r' /\ tr_ok r' = true) /\
  exists r', dispatch_one c' s1 = (Ok r', after_get s1 c' key) /\ tr_content r' = tr_content r.
Proof.
  intros Hr Hb Hg Hk Hg' Hk' H Hok s2. destruct (one_stores c t key s r s1) as (p & Hp & Ho & Hc); try done.
  assert (d_budget s1 = None) as Hb1.
  { pose proof (one_acts (fun _ => True) c ltac:(by split) s) as (_ & _ & Ha). rewrite H in Ha. by apply Ha. }
  assert (Acts (fun _ => True) s1 s2) as (_ & Ha & Hb2) by (apply batch_acts, Forall_forall; by split).
  destruct (Ha key) as (p2 & Hp2 & Ho2); [by exists p|]. split.
  - exists (cached_result c' p2). split; [by eapply one_cached; [..|exact Hp2]; auto|]. split; [done|].
    simpl. by destruct (dict_get p2 "ok").
  - exists (cached_result c' p). by split; [eapply one_cached|].
Qed.
End Facts.

(** ** A concrete dispatcher *)

Definition sample_schema : list (string * pyval) :=
  [("type", VStr "object"); ("required", VList [VStr "text"]);
   ("properties", VDict [("text", VDict [("type", VStr "string")])]); ("additionalProperties", VBool false)].
Definition sample_note : Tool :=
  mkTool 0 (mkToolSchema "note" "" sample_schema [MEMORY_WRITE] "5.0" true (Some "${owner_id}:${arguments_json}") None).
Definition sample_clock : Tool := mkTool 1 (mkToolSchema "clock" "" [] [] "5.0" false None None).

Definition sample_dispatcher : Dispatcher :=
  mkDispatcher (mkRegistry [("note", sample_note); ("clock", sample_clock)] []) true (Some [MEMORY_WRITE]) true None true.
Definition sample_world : ToolWorld := {|
  tw_invoke _ t c := Returned (mkToolResult c.(tc_id) c.(tc_name) true (VInt (Z.of_nat t.(tool_id))) None None 0 []);
  tw_store_error _ := None;
  tw_elapsed_ms _ := 3;
  tw_schedule _ := [1; 0; 1]%nat;
  tw_sha256_hex s := s;
|}.
Definition sample_tool_context : ToolInvocationContext := mkInvocation
  (mkTurnContext "owner" "companion" None "realm" "genome" "trace" "request" None None None "1" "h" "r" "zh" true None None false false)
  "turn-1" None ["shell"].
Definition note_call (id : string) : ToolCall := mkToolCall id "note" [("text", VStr "buy milk")].
Definition clock_call (id : string) : ToolCall := mkToolCall id "clock" [].
Definition sample_batch : list ToolCall := [clock_call "c1"; clock_call "c2"; note_call "c3"; clock_call "c4"].
Definition sample_repr (s : string) : string := ("'" +:+ s +:+ "'")%string.
Definition no_access : DState := mkDState [] [] None.

(** The reads of [c1] and [c2] are taken in the scheduler's order. *)
Example sample_batch_log :
  map call_of (d_log (snd (dispatch_batch sample_repr sample_dispatcher sample_world sample_tool_context sample_batch no_access)))
  = [clock_call "c2"; clock_call "c1"; note_call "c3"; note_call "c3"; note_call "c3"; clock_call "c4"].
Proof. vm_compute. reflexivity. Qed.

Lemma sample_schema_readable : Schema (VDict sample_schema).
Proof.
  constructor.
  - split_and!; intros x; [intros [= <-]; by eexists| |intros [= <-]; by eexists].
    intros [= <-]. by exists ["text"].
  - intros ps k sub [= <-] H. apply list_elem_of_singleton in H. simplify_eq. constructor; [|done..].
    split_and!; intros x; [intros [= <-]; by eexists|done..].
  - done.
Qed.

Lemma empty_schema_readable : Schema (VDict []).
Proof. constructor; [|done..]. by split_and!. Qed.

Lemma sample_world_behaves : world_behaves sample_world.
Proof. by split. Qed.

Lemma sample_readable : schemas_readable sample_repr sample_dispatcher sample_tool_context sample_batch.
Proof.
  intros c t Hc. repeat apply elem_of_cons in Hc as [->|Hc]; try by apply elem_of_nil in Hc.
  all: vm_compute; intros [= <-]; first [exact sample_schema_readable|exact empty_schema_readable].
Qed.

Lemma batch_answers_every_call_witness :
  exists rs s', dispatch_batch sample_repr sample_dispatcher sample_world sample_tool_context sample_batch no_access = (Ok rs, s') /\
    Forall2 echoes sample_batch rs.
Proof.
  apply batch_answers_every_call; [exact sample_world_behaves|exact sample_readable|by left].
Defined.

Lemma side_effects_are_ordered_witness :
  exists l1 l l2,
    d_log (snd (dispatch_batch sample_repr sample_dispatcher sample_world sample_tool_context sample_batch no_access))
      = [] ++ l1 ++ l ++ l2 /\
    Forall (fun a => call_of a ∈ [clock_call "c1"; clock_call "c2"]) l1 /\
    Forall (fun a => call_of a ∈ [note_call "c3"]) l /\ Forall (fun a => call_of a ∈ [clock_call "c4"]) l2.
Proof.
  apply (side_effects_are_ordered sample_repr sample_dispatcher sample_world sample_tool_context
           [clock_call "c1"; clock_call "c2"] (note_call "c3") [clock_call "c4"] no_access).
  vm_compute. reflexivity.
Defined.

Definition first_note : res ToolResult * DState :=
  dispatch_one sample_repr sample_dispatcher sample_world sample_tool_context (note_call "c3") no_access.
Definition note_key : string := default "" (store_key sample_repr sample_dispatcher sample_world sample_tool_context sample_note (note_call "c3")).

Lemma retry_is_answered_from_the_store_witness :
  let s2 := snd (dispatch_batch sample_repr sample_dispatcher sample_world sample_tool_context sample_batch (snd first_note)) in
  (exists r', dispatch_one sample_repr sample_dispatcher sample_world sample_tool_context (note_call "c9") s2
               = (Ok r', after_get s2 (note_call "c9") note_key) /\ echoes (note_call "c9") r' /\ tr_ok r' = true) /\
  exists r', dispatch_one sample_repr sample_dispatcher sample_world sample_tool_context (note_call "c9") (snd first_note)
               = (Ok r', after_get (snd first_note) (note_call "c9") note_key) /\ tr_content r' = VInt 0.
Proof.
  apply (retry_is_answered_from_the_store sample_repr sample_dispatcher sample_world sample_tool_context
           (note_call "c3") (note_call "c9") sample_note note_key no_access
           (mkToolResult "c3" "note" true (VInt 0) None None 3 []) (snd first_note) sample_batch);
    [done|done|..]; vm_compute; reflexivity.
Defined.

Lemma validate_decides_witness :
  total (validate_json_schema (VDict sample_schema) (VDict [("text", VStr "x")]) "$") /\
  (validate_json_schema (VDict sample_schema) (VDict [("text", VStr "x")]) "$" = Ok None <->
   Conforms (VDict sample_schema) (VDict [("text", VStr "x")])).
Proof. apply validate_decides. exact sample_schema_readable. Defined.
