(* ===== verification/ToolBreaker.v ===== *)
(** * The per-turn tool breaker: a tool that failed is not dispatched again.

    [tl_failures] counts failures per tool name; [dispatch_round] only hands the
    dispatcher calls below the limit and answers the others itself. *)

From S2P Require Import Prelude CoreTypes Guards Presentation Trace Effects TurnState Json TurnEngine Samples.
#[local] Open Scope eff_scope.

Section Breaker.
Context {P : PresentationOps} {D : CommittedTurn.DecisionOps}.
Context (str_repr : string -> string).
Context (cfg : Config) (pt : Ports) (ti : TurnInput).
Context (name : string).

(** The breaker is open for [name]. *)
Definition failing (fs : list (string * Z)) : Prop := MAX_FAILURES_PER_TOOL_PER_TURN <= default 0 (dict_get fs name).

Definition avoids (e : effect) : Prop :=
  match e with EDispatch cs _ _ => Forall (fun c => tc_name c <> name) cs | _ => True end.

(** Between [s] and [s'] the breaker and the trace are untouched and, given [F],
    [name] was not dispatched. *)
Definition Quiet (F : Prop) (s s' : TState) : Prop :=
  tl_failures (w_tools s') = tl_failures (w_tools s) /\ tl_trace (w_tools s') = tl_trace (w_tools s) /\
  exists ls, w_log s' = w_log s ++ ls /\ Forall (fun e => F -> avoids e) ls.

#[local] Instance Quiet_preorder F : PreOrder (Quiet F).
Proof.
  split.
  - intros s. split_and!; [done..|]. exists []. by rewrite app_nil_r.
  - intros s1 s2 s3 (H1 & H1' & l1 & E1 & Q1) (H2 & H2' & l2 & E2 & Q2).
    split_and!; [congruence..|]. exists (l1 ++ l2). rewrite E2, E1, app_assoc. split; [done|]. by apply Forall_app.
Qed.

Section Quietly.
Context (F : Prop).
Notation quiet m := (preserves (Quiet F) m).

Lemma quiet_same {A} (m : M TState A) :
  (forall s, tl_failures (w_tools (snd (m s))) = tl_failures (w_tools s) /\
             tl_trace (w_tools (snd (m s))) = tl_trace (w_tools s) /\ w_log (snd (m s)) = w_log s) -> quiet m.
Proof. intros H s. destruct (H s) as (? & ? & ?). split_and!; [done..|]. exists []. by rewrite app_nil_r. Qed.

Lemma quiet_suspend y : quiet (suspend y).
Proof.
  apply quiet_same. intros s. unfold suspend. destruct (w_sched s) as [|sl rest]; [done|].
  by destruct (sl_interrupt sl) as [[|]|]; [|destruct y|].
Qed.
Lemma quiet_log e : (F -> avoids e) -> quiet (log_effect e).
Proof. intros He s. split_and!; [done..|]. exists [e]. split; [done|]. by constructor. Qed.
Lemma quiet_modify g :
  (forall s, tl_failures (w_tools (g s)) = tl_failures (w_tools s) /\
             tl_trace (w_tools (g s)) = tl_trace (w_tools s) /\ w_log (g s) = w_log s) -> quiet (mmodify g).
Proof. intros H. by apply quiet_same. Qed.

#[local] Hint Resolve quiet_suspend : effects.
#[local] Hint Extern 1 (preserves _ (log_effect _)) => apply quiet_log; intros _; exact I : effects.
#[local] Hint Extern 2 (preserves _ (mmodify _)) => by apply quiet_modify : effects.
#[local] Hint Extern 2 (preserves _ tick) => by apply quiet_same : effects.
#[local] Hint Extern 2 (preserves _ next_seq) => by apply quiet_same : effects.
Ltac go := repeat (unfold monotonic, utc_now, uuid4, elapsed, md_get, md_set, emit, yield_event, on_time, on_tools,
                     on_reply, on_stream; preserve).

Lemma quiet_consume pm t0 ms ts : quiet (consume_stream pt pm t0 ms ts).
Proof.
  unfold consume_stream, on_delta, on_activity, on_text, on_tool_call, on_usage, add_part, note_first_delta. go.
Qed.

Lemma quiet_on_results now rs : quiet (on_results str_repr pt now rs).
Proof.
  induction rs as [|r rs IH]; simpl; [go|].
  unfold on_result, retain_references, update_harness_snapshot_handoffs. go.
Qed.

Lemma quiet_finish c cs fin o : quiet (finish_presentation ti c cs fin o).
Proof. unfold finish_presentation. go. Qed.

Lemma quiet_run_dispatch pm t0 cs ex :
  (F -> Forall (fun c => tc_name c <> name) cs) -> quiet (run_dispatch cfg pt ti pm t0 cs ex).
Proof.
  intros Hcs. unfold run_dispatch, note_first_delta. go; [by apply quiet_log|]. simplify_eq. go.
Qed.


Lemma quiet_monotonic : quiet (monotonic pt).
Proof. go. Qed.
Lemma quiet_emit g : quiet (emit g).
Proof. go. Qed.
Lemma quiet_utc : quiet (utc_now pt).
Proof. go. Qed.
Lemma quiet_uuid : quiet (uuid4 pt).
Proof. go. Qed.
Lemma quiet_elapsed t0 : quiet (elapsed pt t0).
Proof. go. Qed.
End Quietly.


(** ** The counters *)

Definition only_failures (rs : list ToolResult) : Prop :=
  forall r, r ∈ rs -> tr_name r = name -> tr_ok r = false.

Lemma count_failure_other r fs : tr_name r <> name -> dict_get (count_failure r fs) name = dict_get fs name.
Proof.
  intros Hr. unfold count_failure. destruct (tr_ok r); [by apply dict_pop_get_ne|by apply dict_get_set_ne].
Qed.

Lemma count_failure_named r fs : tr_name r = name -> tr_ok r = false ->
  default 0 (dict_get (count_failure r fs) name) = default 0 (dict_get fs name) + 1.
Proof. intros <- Hr. unfold count_failure. by rewrite Hr, dict_get_set_eq. Qed.

Lemma failures_grow rs fs : only_failures rs ->
  default 0 (dict_get fs name) + (if decide (Exists (fun r => tr_name r = name) rs) then 1 else 0)
    <= default 0 (dict_get (fold_left (fun f r => count_failure r f) rs fs) name).
Proof.
  revert fs. induction rs as [|r rs IH]; intros fs Hf; cbn [fold_left].
  { case_decide as H; [by apply Exists_nil in H|lia]. }
  assert (only_failures rs) as Hf' by (intros r' ? ?; apply Hf; [by right|done]).
  specialize (IH (count_failure r fs) Hf'). destruct (decide (tr_name r = name)) as [Hn|Hn].
  - rewrite count_failure_named in IH; [|done|apply Hf; [by left|done]].
    repeat case_decide; lia.
  - rewrite count_failure_other in IH by done.
    pose proof (Exists_cons (fun r => tr_name r = name) r rs). repeat case_decide; try lia; tauto.
Qed.

Lemma failing_sticky rs fs : failing fs -> only_failures rs ->
  failing (fold_left (fun f r => count_failure r f) rs fs).
Proof.
  unfold failing, MAX_FAILURES_PER_TOOL_PER_TURN. intros Hf Hr. pose proof (failures_grow rs fs Hr).
  case_decide; lia.
Qed.

(** ** One round *)

(** The dispatcher answers only the calls it got. *)
Context (dispatch_echo : forall log cs rs, p_dispatch pt log cs = Ok rs ->
  forall r, r ∈ rs -> exists c, c ∈ cs /\ tc_name c = tr_name r).

Lemma merge_elem cs rs r : r ∈ merge_tool_results cs rs -> r ∈ rs.
Proof.
  unfold merge_tool_results. rewrite list_elem_of_omap. intros (c & _ & Hget).
  assert (forall d : list (string * ToolResult),
    dict_get (fold_left (fun d r => dict_set d (tr_call_id r) r) rs d) (tc_id c) = Some r ->
    r ∈ rs \/ dict_get d (tc_id c) = Some r) as H.
  { clear Hget. induction rs as [|r' rs IH]; simpl; [by right|]. intros d Hd.
    destruct (IH _ Hd) as [?|Hset]; [left; by right|].
    destruct (decide (tr_call_id r' = tc_id c)) as [Heq|Hne].
    - rewrite Heq, dict_get_set_eq in Hset. simplify_eq. left. by left.
    - rewrite dict_get_set_ne in Hset by done. by right. }
  by destruct (H [] Hget) as [|[=]].
Qed.

Lemma run_dispatch_results pm t0 cs ex :
  returns (run_dispatch cfg pt ti pm t0 cs ex) (fun rs => forall r, r ∈ rs -> exists c, c ∈ cs /\ tc_name c = tr_name r).
Proof.
  unfold run_dispatch. do 2 (apply returns_bind; intros ?). 
  intros s rs s'. unfold mgets, mlift, mbind_. intros [= Hrs _]. by eapply dispatch_echo.
Qed.

(** One round, between the breaker before it and the breaker after it. *)
Definition Round (s s' : TState) : Prop :=
  exists rs : list ToolResult,
    tl_failures (w_tools s') = fold_left (fun f r => count_failure r f) rs (tl_failures (w_tools s)) /\
    tl_trace (w_tools s') = tl_trace (w_tools s) ++ map trace_of rs /\
    (failing (tl_failures (w_tools s)) ->
       only_failures rs /\ exists ls, w_log s' = w_log s ++ ls /\ Forall avoids ls).

Lemma may_dispatch_failing fs c : failing fs -> may_dispatch fs c = true -> tc_name c <> name.
Proof.
  unfold failing, may_dispatch, MAX_FAILURES_PER_TOOL_PER_TURN. intros Hf Hc%Z.ltb_lt <-. lia.
Qed.

Lemma suppressed_fails c : tr_ok (suppressed_tool_result c) = false.
Proof. done. Qed.

(** What a round dispatches avoids a failing tool, and so do its successes. *)
Lemma round_calls fs cs (rs : list ToolResult) :
  failing fs ->
  (forall r, r ∈ rs -> exists c, c ∈ List.filter (may_dispatch fs) cs /\ tc_name c = tr_name r) ->
  only_failures (merge_tool_results cs
    (rs ++ map suppressed_tool_result (List.filter (fun c => negb (may_dispatch fs c)) cs))).
Proof.
  intros Hf Hrs r [Hr|Hr]%merge_elem%elem_of_app Hn.
  - destruct (Hrs r Hr) as (c & Hc & Hcn). apply list_elem_of_In, filter_In in Hc as [_ Hc].
    by apply may_dispatch_failing in Hc; [congruence|].
  - apply list_elem_of_fmap in Hr as (c & -> & _). done.
Qed.

Lemma filter_avoids fs cs : failing fs -> Forall (fun c => tc_name c <> name) (List.filter (may_dispatch fs) cs).
Proof.
  intros Hf. apply Forall_forall. intros c [_ Hc]%list_elem_of_In%filter_In. by eapply may_dispatch_failing.
Qed.

#[local] Instance Round_preorder : PreOrder Round.
Proof.
  split.
  - intros s. exists []. simpl. rewrite app_nil_r. split_and!; [done..|]. intros _.
    split; [by intros ? ?%elem_of_nil|]. exists []. by rewrite app_nil_r.
  - intros s1 s2 s3 (r1 & F1 & T1 & H1) (r2 & F2 & T2 & H2).
    exists (r1 ++ r2). rewrite fold_left_app, <- F1, map_app, app_assoc, <- T1. split_and!; [done..|].
    intros Hf. destruct (H1 Hf) as (O1 & l1 & E1 & Q1).
    destruct H2 as (O2 & l2 & E2 & Q2); [rewrite F1; by apply failing_sticky|].
    split; [intros r [?|?]%elem_of_app; auto|]. exists (l1 ++ l2). rewrite E2, E1, app_assoc.
    split; [done|]. by apply Forall_app.
Qed.

Lemma Quiet_Round s s' : Quiet (failing (tl_failures (w_tools s))) s s' -> Round s s'.
Proof.
  intros (F & T & l & E & Q). exists []. simpl. rewrite app_nil_r. split_and!; [done..|]. intros Hf.
  split; [by intros ? ?%elem_of_nil|]. exists l. split; [done|]. eapply Forall_impl; [exact Q|]. auto.
Qed.

Lemma quiet_round {A} (m : M TState A) : (forall F, preserves (Quiet F) m) -> preserves Round m.
Proof. intros H s. by apply Quiet_Round, H. Qed.

Lemma round_bind {A B} (m : M TState A) (k : A -> M TState B) s :
  Round s (snd (m s)) -> (forall a s', Round s' (snd (k a s'))) -> Round s (snd (mbind_ m k s)).
Proof.
  intros Hm Hk. unfold mbind_. destruct (m s) as [[a|e] s'] eqn:E; simpl in *; [|done].
  etransitivity; [exact Hm|by apply Hk].
Qed.

(** A statement [m] before which the breaker is [fs] and that leaves it so. *)
Lemma quiet_step {A B} fs (m : M TState A) (k : A -> M TState B) V s :
  tl_failures (w_tools s) = fs -> preserves (Quiet (failing fs)) m -> returns m V ->
  (forall a s', V a -> tl_failures (w_tools s') = fs -> Round s' (snd (k a s'))) ->
  Round s (snd (mbind_ m k s)).
Proof.
  intros Hs Hm Hv Hk. unfold mbind_. specialize (Hm s). specialize (Hv s).
  assert (Round s (snd (m s))) as Hr by (apply Quiet_Round; by rewrite Hs).
  destruct Hm as (F & _). destruct (m s) as [[a|e] s'] eqn:E; simpl in *; [|done].
  etransitivity; [exact Hr|]. apply Hk; [by eapply Hv|congruence].
Qed.

(** Counting and recording the results of a round. *)
Lemma round_record rs s : (failing (tl_failures (w_tools s)) -> only_failures rs) ->
  Round s (snd (record_results rs s)).
Proof.
  intros Hrs. exists rs. simpl. split_and!; [done..|]. intros Hf. split; [by apply Hrs|].
  exists []. by rewrite app_nil_r.
Qed.

Lemma returns_any {A} (m : M TState A) : returns m (fun _ => True).
Proof. by intros ? ? ? _. Qed.

Lemma round_dispatch_round pm t0 cs ex : preserves Round (dispatch_round str_repr cfg pt ti pm t0 cs ex).
Proof.
  intros s. unfold dispatch_round. unfold mgets at 1, mbind_ at 1. cbn beta iota.
  set (fs := tl_failures (w_tools s)). assert (tl_failures (w_tools s) = fs) as Hs by done. clearbody fs.
  set (V := fun rs : list ToolResult =>
    forall r, r ∈ rs -> exists c, c ∈ List.filter (may_dispatch fs) cs /\ tc_name c = tr_name r).
  eapply (quiet_step fs); [exact Hs|by apply quiet_modify|apply returns_any|]; clear s Hs; intros _ s _ Hs.
  eapply (quiet_step fs); [exact Hs|apply quiet_monotonic|apply returns_any|]; clear s Hs; intros tool_t0 s _ Hs.
  eapply (quiet_step fs _ _ V); [exact Hs| | |].
  { destruct (List.filter _ cs) eqn:E; [apply preserves_ret; typeclasses eauto|]. rewrite <- E.
    apply quiet_run_dispatch. intros Hf. by apply filter_avoids. }
  { unfold V. destruct (List.filter _ cs) eqn:E; [apply returns_ret; by intros ? ?%elem_of_nil|].
    apply run_dispatch_results. }
  clear s Hs. intros rs s HV Hs.
  eapply (quiet_step fs); [exact Hs|apply quiet_elapsed|apply returns_any|]; clear s Hs; intros dt s _ Hs.
  eapply (quiet_step fs); [exact Hs|by apply quiet_modify|apply returns_any|]; clear s Hs; intros _ s _ Hs.
  apply round_bind; [apply round_record; intros Hf; rewrite Hs in Hf; by apply round_calls|].
  clear s Hs. intros _.
  apply quiet_round. intros F. apply preserves_bind; [typeclasses eauto|apply quiet_utc|intros ?].
  apply preserves_bind; [typeclasses eauto|apply quiet_on_results|intros ?].
  apply preserves_bind; [typeclasses eauto|apply quiet_uuid|intros ?]. apply preserves_ret. typeclasses eauto.
Qed.

Lemma round_loop f pm t0 o ts ex n ms : preserves Round (tool_loop str_repr cfg pt ti f pm t0 o ts ex n ms).
Proof.
  revert n ms. induction f as [|f IH]; intros n ms; [apply preserves_raise; typeclasses eauto|].
  cbn [tool_loop]. preserve.
  all: first [apply round_dispatch_round | apply quiet_round; intros F].
  all: first [apply quiet_consume | apply quiet_finish | apply quiet_emit | by apply quiet_modify].
Qed.

(** After a round in which all results of a tool were failures, no later round of the turn
    dispatches that tool again. *)
Theorem failed_tool_not_retried pm t0 cs ex s ms s1 new :
  0 <= default 0 (dict_get (tl_failures (w_tools s)) name) ->
  dispatch_round str_repr cfg pt ti pm t0 cs ex s = (Ok ms, s1) ->
  tl_trace (w_tools s1) = tl_trace (w_tools s) ++ new ->
  (exists t, t ∈ new /\ tt_name t = name) ->
  (forall t, t ∈ new -> tt_name t = name -> tt_ok t = false) ->
  forall f pm' t0' o ts ex' n msgs,
  exists ls, w_log (snd (tool_loop str_repr cfg pt ti f pm' t0' o ts ex' n msgs s1)) = w_log s1 ++ ls /\ Forall avoids ls.
Proof.
  intros Hnn Hd Ht (t & Hin & Hname) Hbad f pm' t0' o ts ex' n msgs.
  pose proof (round_dispatch_round pm t0 cs ex s) as (rs & F & T & _). rewrite Hd in F, T. simpl in F, T.
  rewrite Ht in T. apply app_inv_head in T as ->.
  assert (only_failures rs) as Hrs.
  { intros r Hr Hn. apply (Hbad (trace_of r)); [by apply list_elem_of_fmap_2|done]. }
  apply list_elem_of_fmap in Hin as (r & -> & Hr).
  assert (failing (tl_failures (w_tools s1))) as Hf.
  { rewrite F. unfold failing, MAX_FAILURES_PER_TOOL_PER_TURN. pose proof (failures_grow rs (tl_failures (w_tools s)) Hrs) as Hg.
    rewrite decide_True in Hg; [lia|]. apply Exists_exists. by exists r. }
  destruct (round_loop f pm' t0' o ts ex' n msgs s1) as (rs2 & F2 & T2 & Hq). by destruct (Hq Hf).
Qed.

End Breaker.

(** One round in which the sample's tool fails. *)
Definition sample_round : res (list ChatMessage) * TState :=
  dispatch_round id sample_cfg (sample_ports 9) (sample_input "text" (Some "hi")) false 0 [sample_call] [] (init_state [] []).

Lemma failed_tool_not_retried_witness :
  exists ls,
    w_log (snd (tool_loop id sample_cfg (sample_ports 9) (sample_input "text" (Some "hi")) 3 false 0 None [] [] 1 []
      (snd sample_round))) = w_log (snd sample_round) ++ ls /\ Forall (avoids "lookup") ls.
Proof.
  eapply (failed_tool_not_retried id sample_cfg (sample_ports 9) (sample_input "text" (Some "hi")) "lookup"
    (sample_echo 9) false 0 [sample_call] [] (init_state [] [])).
  - by vm_compute.
  - unfold sample_round. vm_compute. reflexivity.
  - vm_compute. reflexivity.
  - eexists. split; [left|]. reflexivity.
  - intros t [->|[]%elem_of_nil]%elem_of_cons _. reflexivity.
Defined.
