(* ===== verification/TurnFacts.v ===== *)
(** * What a turn does to the outside, branch by branch.

    The consequences of [TurnPolicy.run_permitted] that matter for privacy and
    persistence, the admission wait, the crisis branch and cancellation. *)

From S2P Require Import Prelude CoreTypes Guards Presentation Trace Effects TurnState Json TurnEngine TurnSafety TurnPolicy Samples.
#[local] Open Scope eff_scope.

Section Facts.
Context {P : PresentationOps} {D : CommittedTurn.DecisionOps}.
Context (case_table str_repr : string -> string) (int_other : pyval -> res Z) (face_profile : string).
Context (cfg : Config) (pt : Ports) (ti : TurnInput).

Notation run_turn_ := (run_turn case_table str_repr int_other face_profile cfg pt ti).
Notation log_of md sched := (w_log (snd (run_turn_ md sched))).

(** The context compiler does not write the keys the policy reads. *)
Definition compiler_ok : Prop :=
  forall log md ms us, p_compile pt log md = Ok (ms, us) -> leaves policy_keys us.

Lemma permitted_in md sched e :
  compiler_ok -> env_ok sched -> e ∈ log_of md sched -> permitted case_table cfg pt ti md e.
Proof. intros Hc Hs. apply Forall_forall. by apply run_permitted. Qed.


(** Effects that leave something behind. *)
Definition is_durable (e : effect) : bool :=
  match e with
  | EHistory _ _ | EObserve _ | EBackgroundObserve | EPersist _ | ECompleted _ _ => true
  | _ => false
  end.

(** A speculative turn records no history, publishes no memory observation, persists no turn row
    and announces no completion, on every exit path. *)
Theorem speculative_turn_leaves_no_trace md sched :
  compiler_ok -> env_ok sched -> speculative md = true ->
  Forall (fun e => is_durable e = false) (log_of md sched).
Proof.
  intros Hc Hs Hsp. eapply Forall_impl; [by apply run_permitted|]. intros e He.
  destruct e; simpl in *; try done; unfold observable in He; destruct_and?; congruence.
Qed.

(** The voice boundary rejected the turn: it may still be answered and traced, but
    nothing of what was said is kept. *)
Definition keeps_no_text (e : effect) : Prop :=
  match e with
  | EHistory _ _ | EObserve _ | EBackgroundObserve | ECompleted _ _ => False
  | EPersist a => pa_user_text a = "" /\ pa_assistant_text a = ""
  | _ => True
  end.

(** C4: A voice turn without a decision bound to its transcript stores nothing of what was said: no
    history, no observation, no completion, and a persisted row with empty texts. *)
Theorem uncommitted_voice_not_stored md sched :
  compiler_ok -> env_ok sched -> ti_input_modality ti = "voice" ->
  (forall d, CommittedTurn.decision_from_metadata (dict_get md "turn_decision") = Ok d ->
             CommittedTurn.matches_text d (ti_text ti) = false) ->
  Forall keeps_no_text (log_of md sched).
Proof.
  intros Hc Hs Hv Hd.
  assert (storable ti md = false) as Hst.
  { unfold storable, CommittedTurn.validate_committed_turn. rewrite Hv. simpl.
    destruct (CommittedTurn.decision_from_metadata _) as [d|e] eqn:E; [by rewrite (Hd d eq_refl)|].
    by destruct (CommittedTurn.type_or_value_error e). }
  assert (observable case_table cfg ti md -> False) as Hob.
  { intros (_ & _ & Hsk). revert Hsk. unfold memory_write_skipped. rewrite Hv.
    assert (dict_get (body_md case_table ti md) "committed_turn_persistence_allowed" = Some (VBool false)) as ->.
    { unfold body_md. rewrite Hst. case_bool_decide; [rewrite dict_get_set_ne by done|]; by rewrite dict_get_set_eq. }
    simpl. by repeat case_match. }
  eapply Forall_impl; [by apply run_permitted|]. intros e He.
  destruct e as [| |tid ms|a| | | |ms ts|cs ex dn| |i| |a|st tr]; simpl in *; try done.
  - destruct He as (_ & _ & He & _). congruence.
  - destruct He as [He _]. by apply Hob.
  - destruct He as [He _]. by apply Hob.
  - destruct He as (_ & _ & Hu & Ha & _). rewrite Hst in Hu, Ha. by split; [|apply Ha].
  - destruct He as (_ & _ & He). congruence.
Qed.

Definition crisis_effect (e : effect) : Prop :=
  match e with
  | EAdmit | ECrisis | ECompleted _ _ => True
  | EHistory _ ms => Forall (fun m => dict_get (m_metadata m) "is_private" = Some (VBool true)) ms
  | EPersist a => pa_is_private a = true
  | _ => False
  end.

(** C3: When the input guardrail escalates, the run calls neither compiler, model, tools nor memory,
    and every history message and the persisted row are marked private. *)
Theorem crisis_turn_is_private md sched :
  compiler_ok -> env_ok sched ->
  Guardrails.action (Guardrails.check_input case_table (ti_text ti)) = Guardrails.ESCALATE ->
  Forall crisis_effect (log_of md sched).
Proof.
  intros Hc Hs Hv.
  assert (RuntimePolicy.mark_messages_private (policy case_table ti md) = true) as Hp.
  { unfold policy, body_md, verdict. rewrite Hv. rewrite bool_decide_true by done.
    apply RuntimePolicy.private_closes_writes. by rewrite dict_get_set_eq. }
  eapply Forall_impl; [by apply run_permitted|]. intros e He.
  destruct e as [| |tid ms|a| | | |ms ts|cs ex dn| |i| |a|st tr]; simpl in *;
    unfold observable, verdict in He; try rewrite Hv in He; destruct_and?; try done.
  - unfold private_marks in *. by rewrite Hp in *.
  - match goal with H : row_ok _ _ _ _ |- _ => destruct H as (_ & _ & ->) end. done.
Qed.

(** The conditions under which a turn is observed. *)
Lemma skipped_none md pol : memory_write_skipped cfg ti md pol = None ->
  memory_write_enabled (ti_context ti) = true /\
  normalize_guard_mode (c_memory_write_mode cfg) = "enabled" /\
  (ti_input_modality ti = "voice" -> dict_get md "committed_turn_persistence_allowed" = Some (VBool true)) /\
  text ti <> "" /\ RuntimePolicy.post_turn_side_effects_allowed pol = true.
Proof.
  unfold memory_write_skipped. intros H.
  destruct (memory_write_enabled _) eqn:Ew; [|done]. simpl in H.
  destruct (_ && negb (bool_decide (source_session_id _ = _)))%bool; [done|].
  destruct (bool_decide (normalize_guard_mode _ = "disabled")) eqn:Ed; [done|].
  destruct (bool_decide (ti_input_modality ti = "voice") && _)%bool eqn:Ev; [done|].
  destruct (is_empty (text ti)) eqn:Et; [done|].
  destruct (RuntimePolicy.post_turn_side_effects_allowed pol); [|done]. simpl in H.
  destruct (bool_decide (normalize_guard_mode _ = "shadow")) eqn:Es; [done|].
  apply bool_decide_eq_false in Ed, Es. apply is_empty_false in Et. split_and!; try done.
  - unfold normalize_guard_mode in *. case_bool_decide as Hin; [|done]. set_solver.
  - intros Hv. rewrite (bool_decide_true _ Hv) in Ev. simpl in Ev.
    destruct (dict_get md _) as [[|[|]| | | | |]|]; done.
Qed.

(** A published memory observation carries the user text and no assistant text, and is only made
    for an enabled memory, a non-empty normal-privacy non-speculative turn that passed the
    guardrail and, for voice, the committed-turn boundary. *)
Theorem memory_observation_conditions md sched a :
  compiler_ok -> env_ok sched -> EObserve a ∈ log_of md sched ->
  speculative md = false /\ memory_write_enabled (ti_context ti) = true /\
  text ti <> "" /\ ob_user_text a = text ti /\ ob_assistant_text a = "" /\
  normalize_guard_mode (c_memory_write_mode cfg) = "enabled" /\
  RuntimePolicy.mode (RuntimePolicy.from_metadata md) = "normal" /\
  (ti_input_modality ti = "voice" -> storable ti md = true) /\
  Guardrails.action (Guardrails.check_input case_table (ti_text ti)) = Guardrails.PASS.
Proof.
  intros Hc Hs Hin. apply permitted_in in Hin; [|done..]. simpl in Hin.
  destruct Hin as ((Hv & Hsp & Hsk) & _ & Hu & Ha & _).
  assert (policy case_table ti md = RuntimePolicy.from_metadata md) as Hpol.
  { unfold policy, body_md. rewrite Hv. rewrite bool_decide_false by done.
    apply from_metadata_local. intros k Hk. rewrite dict_get_set_ne; [done|].
    revert k Hk. rewrite <- Forall_forall. by_compute. }
  rewrite Hpol in Hsk. apply skipped_none in Hsk as (Hw & Hm & Hvoice & Ht & Hp).
  assert (RuntimePolicy.mode (RuntimePolicy.from_metadata md) = "normal") as Hmode.
  { revert Hp. unfold RuntimePolicy.from_metadata. by repeat case_match. }
  split_and!; try done. intros Hm'. specialize (Hvoice Hm'). revert Hvoice.
  unfold body_md. rewrite Hv. rewrite bool_decide_false by done. rewrite dict_get_set_eq.
  intros [= ->]. done.
Qed.

(** C8: A turn rejected by the conversation guard, or for a known person or disabled memory without
    a guard, ends with the rejection, emits no event and touches no other component. *)
Theorem admission_gates_the_turn md sched :
  let out := run_turn case_table str_repr int_other face_profile cfg pt ti md sched in
  (p_guard pt = None -> (is_Some (person_id (ti_context ti)) \/ memory_enabled (ti_context ti) = false) ->
     fst out = Err (Eidolon PermissionDeniedError "interactive conversation guard is unavailable") /\
     w_log (snd out) = [] /\ w_events (snd out) = []) /\
  (forall e, p_guard pt = Some (Err e) ->
     fst out = Err e /\ w_log (snd out) = [EAdmit] /\ w_events (snd out) = []).
Proof.
  cbv zeta. unfold run_turn, run, admission. split.
  - intros Hg Hp. rewrite Hg.
    assert (((if person_id (ti_context ti) is Some _ then true else false) || negb (memory_enabled (ti_context ti)))%bool
      = true) as Hb by (destruct Hp as [[? ->]| ->]; [done|by rewrite orb_true_r]).
    unfold mraise, mbind_. by rewrite Hb.
  - intros e Hg. rewrite Hg. unfold log_effect, mmodify, mget, mlift, mbind_. simpl.
    by destruct (admission_wait sched false md) as [[c rest] md'].
Qed.

Lemma remember_now txt st0 st s :
  w_sched s = [] -> get_truthy (dict_get (w_md s) "speculative") = false ->
  get_truthy (dict_get (w_md s) "committed_turn_persistence_allowed") = true ->
  exists now k, remember_turn pt ti txt st0 st s =
    (Ok tt, upd_w_log (fun l => l ++ [EHistory (ti_turn_id ti) (turn_messages pt ti (w_md s) txt st0 now st)])
              (upd_w_ticks k s)).
Proof.
  intros Hsch Hsp Hc. unfold remember_turn. erewrite mbind_ok by reflexivity. rewrite Hsp.
  destruct (dict_get (w_md s) "committed_turn_persistence_allowed") as [v|]; [|done]. simpl in Hc. rewrite Hc.
  cbn [negb]. destruct (is_empty txt).
  - exists st0, (fun n => n). erewrite mbind_ok by reflexivity.
    rewrite (mbind_ok _ _ s tt s) by (unfold suspend; by rewrite Hsch). by destruct s.
  - exists (p_utc pt (w_ticks s)), S. erewrite mbind_ok by reflexivity.
    rewrite (mbind_ok _ _ _ tt (upd_w_ticks S s)); [done|]. unfold suspend. simpl. by rewrite Hsch.
Qed.

Lemma emit_now f s : w_sched s = [] ->
  emit f s = (Ok tt, upd_w_events (fun l => l ++ [f (w_seq s + 1)]) (upd_w_seq (fun n => n + 1) s)).
Proof.
  intros Hsch. unfold emit. erewrite mbind_ok by reflexivity. unfold yield_event.
  erewrite mbind_ok by reflexivity. unfold suspend. simpl. by rewrite Hsch.
Qed.

(** C7: A cancelled turn stores as its answer exactly the prefix of the streamed text up to the
    playback boundary, emits one cancelled error event, finalizes the history and re-raises. *)
Theorem cancelled_turn_keeps_what_was_heard st0 s n :
  w_sched s = [] -> dict_get (w_md s) "cancel_played_chars" = Some (VInt n) ->
  get_truthy (dict_get (w_md s) "speculative") = false ->
  get_truthy (dict_get (w_md s) "committed_turn_persistence_allowed") = true ->
  let answer := cat (rp_parts (w_reply s)) in
  let heard := py_take (Z.to_nat (Z.max 0 n)) answer in
  (exists rest, answer = heard +:+ rest)%string /\
  exists now s', on_cancelled int_other pt ti st0 s = (Err Cancelled, s') /\
    w_log s' = w_log s ++ [EHistory (ti_turn_id ti) (turn_messages pt ti (w_md s) heard st0 now "cancelled")] /\
    w_events s' = w_events s ++ [event_error (w_seq s + 1) (ecode TurnCancelledError) "cancelled"] /\
    rp_persist (w_reply s') = heard /\ rp_status (w_reply s') = TurnStatus.CANCELLED /\
    rp_finalized (w_reply s') = true.
Proof.
  intros Hsch Hn Hsp Hc answer heard. split; [apply py_take_prefix|]. unfold on_cancelled.
  erewrite mbind_ok by reflexivity.
  match goal with |- context [mbind_ (mgets w_md) _ ?x] => set (s1 := x) end.
  erewrite mbind_ok by reflexivity. change (w_md s1) with (w_md s).
  erewrite mbind_ok by reflexivity. change (rp_parts (w_reply s1)) with (rp_parts (w_reply s)).
  assert (heard_text int_other (w_md s) (rp_parts (w_reply s)) = Ok heard) as Hh
    by (unfold heard_text; by rewrite Hn).
  rewrite Hh. erewrite mbind_ok by reflexivity. erewrite mbind_ok by reflexivity.
  match goal with |- context [mbind_ (remember_turn _ _ _ _ _) _ ?s2] =>
    destruct (remember_now heard st0 "cancelled" s2 Hsch Hsp Hc) as (now & k & Hr) end.
  erewrite mbind_ok by exact Hr. erewrite mbind_ok by reflexivity.
  match goal with |- context [mbind_ (emit _) _ ?s3] => rewrite (mbind_ok _ _ s3 _ _ (emit_now _ s3 Hsch)) end.
  exists now. eexists. split; [reflexivity|]. by split_and!.
Qed.
End Facts.

(** ** Witnesses *)

Notation sample_log n m t md := (w_log (snd (sample_run n m t md []))).


Lemma speculative_turn_leaves_no_trace_witness :
  Forall (fun e => is_durable e = false) (sample_log 1 "text" "hi" [("speculative", VBool true)]).
Proof.
  apply (speculative_turn_leaves_no_trace id id (fun _ => Ok 0) "face.v1");
    [exact (sample_compiler_ok 1)|exact sample_env_ok|reflexivity].
Defined.

Lemma uncommitted_voice_not_stored_witness :
  Forall keeps_no_text (sample_log 1 "voice" "hi" [("turn_decision", VStr "hello")]).
Proof.
  apply (uncommitted_voice_not_stored id id (fun _ => Ok 0) "face.v1");
    [exact (sample_compiler_ok 1)|exact sample_env_ok|reflexivity|].
  intros d [= <-]. reflexivity.
Defined.

Lemma crisis_turn_is_private_witness : Forall crisis_effect (sample_log 1 "text" "I want to kill myself" []).
Proof.
  apply (crisis_turn_is_private id id (fun _ => Ok 0) "face.v1");
    [exact (sample_compiler_ok 1)|exact sample_env_ok|vm_compute; reflexivity].
Defined.

Fixpoint first_observation (l : list effect) : option ObservationArgs :=
  match l with [] => None | EObserve a :: _ => Some a | _ :: l' => first_observation l' end.

Lemma first_observation_in l a : first_observation l = Some a -> EObserve a ∈ l.
Proof.
  induction l as [|e l IH]; [done|]. destruct e; simpl; try (intros ?; right; by apply IH).
  intros [= <-]. left.
Qed.

Lemma memory_observation_conditions_witness :
  exists a, first_observation (sample_log 1 "text" "hi" []) = Some a /\ ob_assistant_text a = "".
Proof.
  unfold sample_run.
  match goal with |- exists a, first_observation ?l = Some a /\ _ =>
    assert (is_Some (first_observation l)) as [a Ha] by (vm_compute; eexists; reflexivity) end.
  exists a. split; [exact Ha|]. apply first_observation_in in Ha.
  eapply (memory_observation_conditions id id (fun _ => Ok 0) "face.v1" sample_cfg (sample_ports 1)
    (sample_input "text" (Some "hi")) [] [] a (sample_compiler_ok 1) sample_env_ok Ha).
Defined.

Definition unguarded_ports : Ports :=
  let p := sample_ports 1 in
  mkPorts None (p_crisis p) (p_compile p) (p_list_schemas p) (p_assemble p) (p_stream p) (p_dispatch p) (p_slow p)
    (p_publish_turn p) (p_expect p) (p_receipt p) (p_taboos p) (p_model_id p) (p_monotonic_us p) (p_utc p) (p_uuid p)
    (p_isoformat p).
Definition sample_known : TurnInput :=
  let c := sample_context in
  mkTurnInput "turn-1" "conv-1" "session-1"
    (mkTurnContext "owner" "companion" None "realm" "genome" "trace" "request" (Some "ann") (Some 0) (Some 1) "1" "h"
       "r" "zh" true None None false false)
    "text" USER_UTTERANCE (mkRuntimeConfig None "0.7" [] [] false None None) (Some "hi") false false None None [].

Lemma admission_gates_the_turn_witness :
  w_log (snd (run_turn id id (fun _ => Ok 0) "face.v1" sample_cfg unguarded_ports sample_known [] [])) = [].
Proof.
  destruct (admission_gates_the_turn id id (fun _ => Ok 0) "face.v1" sample_cfg unguarded_ports sample_known [] [])
    as [H _].
  apply H; [reflexivity|left; by exists "ann"].
Defined.

(** A turn that has streamed "hello" when it is cancelled after two characters. *)
Definition sample_streamed : TState :=
  upd_w_reply (upd_rp_parts (fun _ => ["hel"; "lo"]))
    (init_state [("cancel_played_chars", VInt 2); ("committed_turn_persistence_allowed", VBool true)] []).

Lemma cancelled_turn_keeps_what_was_heard_witness :
  rp_persist (w_reply (snd (on_cancelled (fun _ => Ok 0) (sample_ports 1) (sample_input "text" (Some "hi"))
    sample_time sample_streamed))) = "he".
Proof.
  destruct (cancelled_turn_keeps_what_was_heard (fun _ => Ok 0) (sample_ports 1) (sample_input "text" (Some "hi"))
    sample_time sample_streamed 2 eq_refl eq_refl eq_refl eq_refl) as (_ & now & s' & E & _ & _ & H & _).
  rewrite E. exact H.
Defined.
