(* ===== verification/History.v ===== *)
(** * [domain/history/manager.py]: the in-process window of a conversation.

    One bounded, ordered window per conversation; [replace_turn] rewrites the
    messages of one turn and [recent_window] merges the window with what the
    durable store still has. *)

From S2P Require Import Prelude CoreTypes Json.

Notation Windows := (list (string * list ChatMessage)).

Section History.
(** [datetime.fromisoformat], [None] for a [ValueError], and [repr] of a string. *)
Context (fromisoformat : string -> option datetime) (str_repr : string -> string).

(** [str(metadata.get(k) or "")] *)
Definition str_or_empty (o : option pyval) : string :=
  match o with Some v => if truthy v then py_str str_repr v else "" | None => "" end.

(** [isinstance(seq, int)], of which a [bool] is an instance. *)
Definition int_of (o : option pyval) : option Z :=
  match o with
  | Some (VInt z) => Some z
  | Some (VBool b) => Some (if b then 1 else 0)
  | _ => None
  end.

(** [f"{seq}"] of such a value. *)
Definition int_text (o : option pyval) : string :=
  match o with Some v => py_str str_repr v | None => "" end.

(** [_utc_sort_key] *)
Definition utc_sort_key (d : datetime) : Z :=
  match d.(dt_tz) with None => d.(dt_us) | Some off => d.(dt_us) - off end.

(** [_message_order] *)
Definition message_order (m : ChatMessage) : Z * string * Z :=
  let turn_time :=
    match dict_get m.(m_metadata) "turn_started_at" with Some (VStr s) => fromisoformat s | _ => None end in
  (utc_sort_key (default m.(m_created_at) turn_time),
   str_or_empty (dict_get m.(m_metadata) "turn_id"),
   default 0 (int_of (dict_get m.(m_metadata) "seq_in_turn"))).

(** Comparison of the tuples. *)
Definition order_leb (a b : Z * string * Z) : bool :=
  let '(t, s, n) := a in let '(t', s', n') := b in
  if t <? t' then true else if t' <? t then false
  else if bool_decide (s = s') then n <=? n' else str_leb s s'.

Definition message_leb (a b : ChatMessage) : bool := order_leb (message_order a) (message_order b).

(** [_stable_message_key] *)
Definition stable_message_key (m : ChatMessage) : string :=
  let turn_id := py_strip (str_or_empty (dict_get m.(m_metadata) "turn_id")) in
  let seq := dict_get m.(m_metadata) "seq_in_turn" in
  if negb (is_empty turn_id) && (if int_of seq is Some _ then true else false)
  then ("turn:" +:+ turn_id +:+ ":" +:+ int_text seq)%string
  else ("message:" +:+ m.(m_id))%string.

(** [by_id] of [_merge_tail]: the last message with a key, at the first one's place. *)
Definition by_id (l : list ChatMessage) : list (string * ChatMessage) :=
  fold_left (fun d m => dict_set d (stable_message_key m) m) l [].

(** [_merge_tail] *)
Definition merge_tail (hydrated cached : list ChatMessage) (window : Z) : list ChatMessage :=
  py_tail window (py_sorted message_leb (by_id (hydrated ++ cached)).*2).

Definition is_private (m : ChatMessage) : bool := get_truthy (dict_get m.(m_metadata) "is_private").
Definition public_messages (l : list ChatMessage) : list ChatMessage := List.filter (fun m => negb (is_private m)) l.

(** [metadata.get("turn_id") == turn_id] *)
Definition has_turn (turn_id : string) (m : ChatMessage) : bool :=
  match dict_get m.(m_metadata) "turn_id" with Some (VStr t) => bool_decide (t = turn_id) | _ => false end.
Definition belongs_to_turn (m : ChatMessage) (turn_id : option string) : bool :=
  match turn_id with Some t => has_turn t m | None => false end.

(** [deque(l, maxlen=n)] *)
Definition bounded {A} (n : nat) (l : list A) : list A := drop (length l - n) l.

(** ** [HistoryManager] with its [window_size] *)

Context (window_size : nat).

Definition window_of (ws : Windows) (conv : string) : list ChatMessage := default [] (dict_get ws conv).

Definition append (ws : Windows) (conv : string) (m : ChatMessage) : Windows :=
  dict_set ws conv (bounded window_size (window_of ws conv ++ [m])).

Definition replace_turn (ws : Windows) (conv turn_id : string) (messages : list ChatMessage) : Windows :=
  let retained := List.filter (fun m => negb (has_turn turn_id m)) (window_of ws conv) in
  dict_set ws conv (bounded window_size (merge_tail retained messages (Z.of_nat window_size))).

Definition cached_window (ws : Windows) (conv : string) (window : Z) (exclude : option string) : list ChatMessage :=
  py_tail window (List.filter (fun m => negb (is_private m) && negb (belongs_to_turn m exclude)) (window_of ws conv)).

(** [recent_window]: [before] and [after] are the windows before and after the
    hydration; the hydrator answers a request for so many messages, [None] on a
    timeout or an exception. *)
Definition recent_window (hydrator : option (Z -> option (list ChatMessage))) (before after : Windows)
    (conv : string) (window : Z) (exclude : option string) : list ChatMessage :=
  let cached := cached_window before conv window exclude in
  match hydrator with
  | None => cached
  | Some hydrate =>
      if window <=? Z.of_nat (length cached) then cached
      else
        let cached := cached_window after conv window exclude in
        match hydrate (window + (if exclude is Some _ then 2 else 0)) with
        | None => cached
        | Some l =>
            merge_tail (List.filter (fun m => negb (belongs_to_turn m exclude)) (public_messages l)) cached window
        end
  end.

Definition drop_session (ws : Windows) (conv : string) : Windows := dict_pop ws conv.

(** ** Order and keys *)

Lemma order_leb_total a b : order_leb a b = true \/ order_leb b a = true.
Proof.
  destruct a as [[t u] n], b as [[t' u'] n']. simpl.
  destruct (Z.ltb_spec t t'), (Z.ltb_spec t' t); auto.
  rewrite (bool_decide_ext (u' = u) (u = u')) by naive_solver. case_bool_decide as Hu.
  - destruct (Z.leb_spec n n'); [auto|]. right. apply Z.leb_le. lia.
  - apply str_leb_total.
Qed.

Lemma order_leb_trans a b c : order_leb a b = true -> order_leb b c = true -> order_leb a c = true.
Proof.
  destruct a as [[t u] n], b as [[t' u'] n'], c as [[t2 u2] n2]. simpl.
  destruct (Z.ltb_spec t t'), (Z.ltb_spec t' t); try lia; try done;
  destruct (Z.ltb_spec t' t2), (Z.ltb_spec t2 t'); try lia; try done;
  destruct (Z.ltb_spec t t2), (Z.ltb_spec t2 t); try lia; try done.
  repeat case_bool_decide; subst; rewrite ?Z.leb_le; try done; try lia.
  - intros ? ?. exfalso. eauto using str_leb_antisym.
  - apply str_leb_trans.
Qed.

Lemma message_leb_total a b : message_leb a b = true \/ message_leb b a = true.
Proof. apply order_leb_total. Qed.
Lemma message_leb_trans a b c : message_leb a b = true -> message_leb b c = true -> message_leb a c = true.
Proof. apply order_leb_trans. Qed.
#[local] Hint Resolve message_leb_total message_leb_trans : core.

Notation keys l := (map stable_message_key l).
Notation ordered l := (StronglySorted (fun a b => message_leb a b = true) l).

Lemma by_id_fold l d :
  NoDup d.*1 -> (forall k m, (k, m) ∈ d -> stable_message_key m = k) ->
  let d' := fold_left (fun d m => dict_set d (stable_message_key m) m) l d in
  NoDup d'.*1 /\ forall k m, (k, m) ∈ d' -> stable_message_key m = k /\
    (m ∈ l \/ ((k, m) ∈ d /\ forall m', m' ∈ l -> stable_message_key m' <> k)).
Proof.
  revert d. induction l as [|x l IH]; intros d Hd Hk; simpl.
  { split; [done|]. intros k m Hin. split; [by apply Hk|]. right. split; [done|]. by intros ? ?%elem_of_nil. }
  destruct (IH (dict_set d (stable_message_key x) x)) as [Hn Hin]; [by apply dict_set_nodup| |].
  { intros k m Hm. apply dict_set_elem in Hm as [[-> ->]|Hm]; [done|by apply Hk]. }
  split; [done|]. intros k m Hm. destruct (Hin k m Hm) as [Hkm [?|[Hd' Hno]]]; split; try done; [by left; right|].
  apply dict_set_elem_ne in Hd' as [[-> ->]|[Hne Hd']]; [by left; left| |done].
  right. split; [done|]. intros m' [->|Hm']%elem_of_cons; [congruence|by apply Hno].
Qed.

Lemma by_id_nodup l : NoDup (by_id l).*1.
Proof. apply by_id_fold; [constructor|by intros ? ? ?%elem_of_nil]. Qed.

Lemma by_id_keys l : keys (by_id l).*2 = (by_id l).*1.
Proof.
  destruct (by_id_fold l []) as [_ H]; [constructor|by intros ? ? ?%elem_of_nil|].
  unfold by_id. revert H. generalize (fold_left (fun d m => dict_set d (stable_message_key m) m) l []).
  intros d Hd. induction d as [|[k m] d IH]; [done|]. simpl. f_equal; [by apply (Hd k m); left|].
  apply IH. intros k' m' Hin. apply Hd. by right.
Qed.

(** A merged message is a cached one, or a hydrated one the cache has no newer
    version of. *)
Lemma by_id_source h c m : m ∈ (by_id (h ++ c)).*2 ->
  m ∈ c \/ (m ∈ h /\ forall m', m' ∈ c -> stable_message_key m' <> stable_message_key m).
Proof.
  unfold by_id. rewrite fold_left_app. fold (by_id h). intros ([k m'] & -> & Hin)%list_elem_of_fmap.
  destruct (by_id_fold h []) as [_ Hh]; [constructor|by intros ? ? ?%elem_of_nil|]. fold (by_id h) in Hh.
  destruct (by_id_fold c (by_id h)) as [_ Hc]; [apply by_id_nodup|by intros; apply Hh|].
  simpl in *. destruct (Hc k m' Hin) as [<- [?|[Hm Hno]]]; [by left|]. right.
  destruct (Hh _ _ Hm) as [_ [?|[[]%elem_of_nil _]]]. by split.
Qed.

(** ** The merged tail *)

Lemma merge_sorted h c w : ordered (merge_tail h c w).
Proof. eapply StronglySorted_suffix; [apply py_tail_suffix|apply py_sorted_sorted; [apply message_leb_total|apply message_leb_trans]]. Qed.

Lemma merge_in h c w m : m ∈ merge_tail h c w -> m ∈ (by_id (h ++ c)).*2.
Proof. intros Hm%py_tail_elem. by rewrite py_sorted_perm in Hm. Qed.

Lemma merge_keys h c w : NoDup (keys (merge_tail h c w)).
Proof.
  unfold merge_tail. destruct (py_tail_suffix w (py_sorted message_leb (by_id (h ++ c)).*2)) as [k Hk].
  assert (NoDup (keys (py_sorted message_leb (by_id (h ++ c)).*2))) as Hn.
  { rewrite py_sorted_perm, by_id_keys. apply by_id_nodup. }
  rewrite Hk, map_app in Hn. by apply NoDup_app in Hn as (_ & _ & Hn).
Qed.

Lemma suffix_newest (R : ChatMessage -> ChatMessage -> Prop) l1 l2 m m' :
  StronglySorted R (l1 ++ l2) -> m ∈ l1 -> m' ∈ l2 -> R m m'.
Proof.
  induction l1 as [|x l1 IH]; simpl; [by intros _ ?%elem_of_nil|].
  inversion 1 as [|? ? Hs Hx]; subst. intros [->|Hm]%elem_of_cons Hm'; [|by apply IH].
  rewrite Forall_forall in Hx. apply Hx, elem_of_app. by right.
Qed.

(** merge_tail returns an ordered list of at most the window size without duplicate keys, in
    which a cached message replaces the hydrated one of its key, and no dropped message is newer
    than a returned one. *)
Theorem merge_tail_spec hydrated cached window :
  0 < window ->
  let r := merge_tail hydrated cached window in
  Z.of_nat (length r) <= window /\ ordered r /\ NoDup (keys r) /\
  (forall m, m ∈ r -> m ∈ cached \/
     (m ∈ hydrated /\ forall m', m' ∈ cached -> stable_message_key m' <> stable_message_key m)) /\
  (forall m m', m ∈ (by_id (hydrated ++ cached)).*2 -> m ∉ r -> m' ∈ r -> message_leb m m' = true).
Proof.
  intros Hw r. split_and!; [|apply merge_sorted|apply merge_keys| |].
  - subst r. unfold merge_tail. rewrite py_tail_length by done. lia.
  - intros m Hm. apply by_id_source. by eapply merge_in.
  - intros m m' Hm Hnot Hm'. subst r. unfold merge_tail in *.
    rewrite <- (py_sorted_perm message_leb) in Hm.
    pose proof (py_sorted_sorted message_leb message_leb_total message_leb_trans (by_id (hydrated ++ cached)).*2) as Hs.
    destruct (py_tail_suffix window (py_sorted message_leb (by_id (hydrated ++ cached)).*2)) as [l1 Hl].
    rewrite Hl in Hs, Hm. apply elem_of_app in Hm as [Hm|Hm]; [|done].
    exact (suffix_newest _ _ _ _ _ Hs Hm Hm').
Qed.

(** ** Rewriting a turn *)

Lemma bounded_all {A} n (l : list A) : (length l <= n)%nat -> bounded n l = l.
Proof. intros H. unfold bounded. by replace (length l - n)%nat with 0%nat by lia. Qed.

Lemma bounded_suffix {A} n (l : list A) : bounded n l `suffix_of` l.
Proof. apply suffix_drop. Qed.

Lemma bounded_length {A} n (l : list A) : (length (bounded n l) <= n)%nat.
Proof. unfold bounded. rewrite length_drop. lia. Qed.

(** The window of a conversation as the operations keep it. *)
Definition window_ok (l : list ChatMessage) : Prop := ordered l /\ NoDup (keys l) /\ (length l <= window_size)%nat.

Lemma replaced_window ws conv t ms :
  window_of (replace_turn ws conv t ms) conv =
  bounded window_size (merge_tail (List.filter (fun m => negb (has_turn t m)) (window_of ws conv)) ms
                         (Z.of_nat window_size)).
Proof. unfold replace_turn, window_of at 1. by rewrite dict_get_set_eq. Qed.

(** After replace_turn the window of the conversation is ordered, has no two messages with one
    key and fits the window size; its messages of the turn are among the new ones, the others
    were there before, and other conversations are untouched. *)
Theorem replace_turn_spec ws conv t ms :
  let ws' := replace_turn ws conv t ms in
  window_ok (window_of ws' conv) /\
  (forall m, m ∈ window_of ws' conv -> has_turn t m = true -> m ∈ ms) /\
  (forall m, m ∈ window_of ws' conv -> m ∈ ms \/ m ∈ window_of ws conv) /\
  (forall conv', conv' <> conv -> window_of ws' conv' = window_of ws conv').
Proof.
  intros ws'. subst ws'. rewrite replaced_window.
  set (retained := List.filter _ _).
  pose proof (bounded_suffix window_size (merge_tail retained ms (Z.of_nat window_size))) as Hsuf.
  assert (forall m, m ∈ bounded window_size (merge_tail retained ms (Z.of_nat window_size)) ->
            m ∈ ms \/ (m ∈ window_of ws conv /\ has_turn t m = false)) as Hin.
  { intros m Hm. destruct Hsuf as [l1 Hl].
    assert (m ∈ merge_tail retained ms (Z.of_nat window_size)) as Hm'.
    { rewrite Hl. apply elem_of_app. by right. }
    apply merge_in, by_id_source in Hm' as [?|[Hr _]]; [by left|]. right.
    apply list_elem_of_In, filter_In in Hr as [? Ht]. rewrite list_elem_of_In. by apply negb_true_iff in Ht. }
  split_and!; [split_and!|..].
  - eapply StronglySorted_suffix; [exact Hsuf|apply merge_sorted].
  - destruct Hsuf as [l1 Hl]. pose proof (merge_keys retained ms (Z.of_nat window_size)) as Hk.
    rewrite Hl, map_app in Hk. by apply NoDup_app in Hk as (_ & _ & ?).
  - apply bounded_length.
  - intros m Hm Ht. destruct (Hin m Hm) as [?|[_ ?]]; [done|congruence].
  - intros m Hm. destruct (Hin m Hm) as [?|[? _]]; auto.
  - intros conv' Hne. unfold window_of, replace_turn. by rewrite dict_get_set_ne.
Qed.

Lemma by_id_app l1 l2 : (forall m m', m ∈ l1 -> m' ∈ l2 -> stable_message_key m <> stable_message_key m') ->
  by_id (l1 ++ l2) = by_id l1 ++ by_id l2.
Proof.
  unfold by_id. rewrite fold_left_app. fold (by_id l1).
  assert (forall d, (forall k m', k ∈ d.*1 -> m' ∈ l2 -> k <> stable_message_key m') -> forall e,
    fold_left (fun d m => dict_set d (stable_message_key m) m) l2 (d ++ e) =
    d ++ fold_left (fun d m => dict_set d (stable_message_key m) m) l2 e) as H.
  { intros d. induction l2 as [|x l2 IH]; intros Hd e; simpl; [done|].
    rewrite dict_set_app by (intros Hx; by eapply Hd; [exact Hx|left|]).
    apply IH. intros k m' Hk Hm'. apply Hd; [done|by right]. }
  intros Hdis. rewrite <- (app_nil_r (by_id l1)) at 1. apply H.
  intros k m'. rewrite <- by_id_keys. intros (m & -> & Hm)%list_elem_of_fmap Hm'. apply Hdis; [|done].
  apply (by_id_source [] l1) in Hm as [?|[[]%elem_of_nil _]]. done.
Qed.

Lemma by_id_unique l : NoDup (keys l) -> (by_id l).*2 = l.
Proof.
  induction l as [|x l IH]; [done|]. simpl. rewrite NoDup_cons. intros [Hx Hl].
  change (x :: l) with ([x] ++ l) at 1. rewrite (by_id_app [x] l); [by rewrite fmap_app, IH|].
  intros m m' [->|[]%elem_of_nil]%elem_of_cons Hm' Heq. apply Hx. rewrite Heq. by apply list_elem_of_fmap_2.
Qed.

Lemma by_id_empty_key l : (by_id l).*2 = l -> NoDup (keys l).
Proof. intros H. rewrite <- H, by_id_keys. apply by_id_nodup. Qed.

Lemma merge_fits h c w : (length (h ++ c) <= w)%nat -> merge_tail h c (Z.of_nat w) = py_sorted message_leb (by_id (h ++ c)).*2.
Proof.
  intros Hl. unfold merge_tail. destruct w as [|w].
  { destruct (h ++ c); [done|simpl in Hl; lia]. }
  apply py_tail_all; [lia|].
  rewrite (Permutation_length (py_sorted_perm message_leb _)), length_fmap.
  enough (length (by_id (h ++ c)) <= length (h ++ c))%nat by lia.
  clear Hl. unfold by_id. generalize (h ++ c). intros l.
  enough (forall d, length (fold_left (fun d m => dict_set d (stable_message_key m) m) l d) <= length d + length l)%nat
    as H by (specialize (H []); simpl in H; lia).
  induction l as [|x l IH]; intros d; simpl; [lia|].
  specialize (IH (dict_set d (stable_message_key x) x)).
  pose proof (dict_set_length d (stable_message_key x) x). lia.
Qed.

(** Rewriting a turn twice is rewriting it once with the last version, when the first version
    fitted the window and its keys were its own: what a cancelled turn stored provisionally
    leaves no trace. *)
Theorem replace_turn_updates_in_place ws conv t ms0 ms :
  window_ok (window_of ws conv) ->
  Forall (fun m => has_turn t m = true) ms0 ->
  (forall m m', m ∈ window_of ws conv -> has_turn t m = false -> m' ∈ ms0 ->
     stable_message_key m <> stable_message_key m') ->
  (length (List.filter (fun m => negb (has_turn t m)) (window_of ws conv)) + length ms0 <= window_size)%nat ->
  replace_turn (replace_turn ws conv t ms0) conv t ms = replace_turn ws conv t ms.
Proof.
  intros (Hord & Hkeys & _) Hms0 Hdis Hfit.
  set (R := List.filter (fun m => negb (has_turn t m)) (window_of ws conv)) in *.
  assert (forall m, m ∈ R -> m ∈ window_of ws conv /\ has_turn t m = false) as HR.
  { intros m [Hm Ht]%list_elem_of_In%filter_In. rewrite list_elem_of_In. by apply negb_true_iff in Ht. }
  enough (List.filter (fun m => negb (has_turn t m)) (window_of (replace_turn ws conv t ms0) conv) = R) as Heq.
  { unfold replace_turn at 1. rewrite Heq. unfold replace_turn. by rewrite dict_set_set. }
  rewrite replaced_window. fold R. rewrite (merge_fits R ms0 window_size) by (rewrite length_app; lia).
  assert (NoDup (keys R)) as HnR.
  { subst R. clear -Hkeys. induction (window_of ws conv) as [|x l IH]; simpl in *; [done|].
    apply NoDup_cons in Hkeys as [Hx Hl]. specialize (IH Hl). destruct (negb _); [|done].
    apply NoDup_cons. split; [|done]. intros Hin. apply Hx. apply list_elem_of_fmap in Hin as (m & -> & Hm).
    apply list_elem_of_fmap_2. apply list_elem_of_In, filter_In in Hm as [Hm _]. by apply list_elem_of_In. }
  assert ((by_id (R ++ ms0)).*2 = R ++ (by_id ms0).*2) as Hby.
  { rewrite by_id_app, fmap_app, by_id_unique; [done..|]. intros m m' [? ?]%HR Hm'. by apply Hdis. }
  rewrite Hby. rewrite bounded_all.
  2:{ rewrite <- Hby, <- (merge_fits R ms0 window_size) by (rewrite length_app; lia). unfold merge_tail.
      destruct window_size as [|n]; [destruct R, ms0; simpl in *; try lia; done|]. rewrite py_tail_length by lia. lia. }
  rewrite (py_sorted_filter message_leb message_leb_total message_leb_trans), List.filter_app.
  assert (forall l, (forall m, m ∈ l -> has_turn t m = false) -> List.filter (fun m => negb (has_turn t m)) l = l) as Hall.
  { induction l as [|x l IH]; intros Hl; simpl; [done|]. rewrite (Hl x) by left. simpl. f_equal. apply IH.
    intros m Hm. apply Hl. by right. }
  rewrite Hall by (intros m Hm; by apply HR).
  assert (List.filter (fun m => negb (has_turn t m)) (by_id ms0).*2 = []) as ->.
  { assert (forall m, m ∈ (by_id ms0).*2 -> has_turn t m = true) as Ht.
    { intros m Hm. apply (by_id_source [] ms0) in Hm as [Hm|[[]%elem_of_nil _]].
      rewrite Forall_forall in Hms0. by apply Hms0. }
    revert Ht. generalize ((by_id ms0).*2). induction l as [|x l IH]; intros Ht; simpl; [done|].
    rewrite (Ht x) by left. simpl. apply IH. intros m Hm. apply Ht. by right. }
  rewrite app_nil_r. apply py_sorted_id. subst R.
  clear -Hord. induction Hord as [|x l Hl IH Hx]; simpl; [constructor|]. destruct (negb _); [|done].
  constructor; [done|]. apply Forall_forall. intros m [Hm _]%list_elem_of_In%filter_In.
  rewrite Forall_forall in Hx. apply Hx. by apply list_elem_of_In.
Qed.

(** ** Reading the window *)

Definition visible (exclude : option string) (m : ChatMessage) : Prop :=
  is_private m = false /\ belongs_to_turn m exclude = false.

Lemma cached_visible ws conv w ex m : m ∈ cached_window ws conv w ex -> visible ex m.
Proof.
  intros Hm%py_tail_elem. apply list_elem_of_In, filter_In in Hm as [_ Hm]. by bool_to_prop.
Qed.

(** recent_window returns at most the asked number of messages, never a private one nor one of
    the excluded turn; a hydrated answer is ordered, without duplicate keys, and takes the
    message of the cache over the stored one of the same key. *)
Theorem recent_window_spec hydrator before after conv w ex :
  0 < w ->
  let r := recent_window hydrator before after conv w ex in
  Forall (visible ex) r /\ Z.of_nat (length r) <= w /\
  (forall hydrate l, hydrator = Some hydrate -> Z.of_nat (length (cached_window before conv w ex)) < w ->
     hydrate (w + if ex is Some _ then 2 else 0) = Some l ->
     ordered r /\ NoDup (keys r) /\
     forall m, m ∈ r -> m ∈ cached_window after conv w ex \/ (m ∈ l /\
       forall m', m' ∈ cached_window after conv w ex -> stable_message_key m' <> stable_message_key m)).
Proof.
  intros Hw r.
  assert (forall ws, Forall (visible ex) (cached_window ws conv w ex) /\
            Z.of_nat (length (cached_window ws conv w ex)) <= w) as Hc.
  { intros ws. split; [apply Forall_forall; intros m; apply cached_visible|].
    unfold cached_window. rewrite py_tail_length by done. lia. }
  assert (forall l m, m ∈ List.filter (fun m => negb (belongs_to_turn m ex)) (public_messages l) ->
            visible ex m /\ m ∈ l) as Hl.
  { intros l m Hm. unfold public_messages in Hm. rewrite list_elem_of_In, !filter_In, <- list_elem_of_In in Hm.
    destruct Hm as [[? ?] ?]. by bool_to_prop. }
  subst r. unfold recent_window. destruct hydrator as [hydrate|]; [|by destruct (Hc before)].
  destruct (Z.leb_spec w (Z.of_nat (length (cached_window before conv w ex)))).
  { destruct (Hc before). split_and!; [done..|]. intros ? ? [= <-]. lia. }
  destruct (hydrate _) as [l|] eqn:El; [|destruct (Hc after); split_and!; [done..|]; intros ? ? [= <-]; congruence].
  split_and!.
  - apply Forall_forall. intros m Hm%merge_in%by_id_source.
    destruct Hm as [Hm|[Hm _]]; [by eapply cached_visible|by apply (Hl l)].
  - unfold merge_tail. rewrite py_tail_length by done. lia.
  - intros ? ? [= <-] _ Hh. simplify_eq. split_and!; [apply merge_sorted|apply merge_keys|].
    intros m Hm%merge_in%by_id_source. destruct Hm as [?|[Hm ?]]; [by left|]. right. split; [by apply (Hl l)|done].
Qed.
End History.

(** ** Witnesses *)

Definition sample_message (t : string) (n : Z) (content : string) : ChatMessage :=
  plain_message content USER content (mkDatetime n None) [("turn_id", VStr t); ("seq_in_turn", VInt n)].
Definition sample_windows : Windows :=
  [("conv", [sample_message "t1" 0 "a"; sample_message "t1" 1 "b"])].

Notation no_iso := (fun _ : string => @None datetime).

Lemma merge_tail_spec_witness :
  length (merge_tail no_iso id [sample_message "t1" 0 "a"; sample_message "t1" 1 "b"] [sample_message "t1" 1 "c"] 1) = 1%nat
  /\ 0 < 1 /\ Z.of_nat (length (merge_tail no_iso id [sample_message "t1" 0 "a"] [sample_message "t1" 1 "c"] 1)) <= 1.
Proof.
  split; [by vm_compute|]. split; [lia|].
  exact (proj1 (merge_tail_spec no_iso id [sample_message "t1" 0 "a"] [sample_message "t1" 1 "c"] 1 ltac:(lia))).
Defined.

(** The active record of a turn is replaced by its terminal one. *)
Lemma replace_turn_updates_in_place_witness :
  replace_turn no_iso id 4 (replace_turn no_iso id 4 sample_windows "conv" "t2" [sample_message "t2" 0 "u"]) "conv" "t2"
    [sample_message "t2" 0 "u"; sample_message "t2" 1 "v"] =
  replace_turn no_iso id 4 sample_windows "conv" "t2" [sample_message "t2" 0 "u"; sample_message "t2" 1 "v"].
Proof.
  apply replace_turn_updates_in_place.
  - split_and!; [|by_compute|by_compute].
    repeat constructor.
  - repeat constructor.
  - intros m m' Hm _ Hm'. apply elem_of_cons in Hm' as [->|[]%elem_of_nil].
    apply elem_of_cons in Hm as [->|[->|[]%elem_of_nil]%elem_of_cons]; by vm_compute.
  - by_compute.
Defined.

Lemma recent_window_spec_witness :
  Forall (visible (Some "t1")) (recent_window no_iso id (Some (fun _ => Some [sample_message "t0" 0 "z"]))
    sample_windows sample_windows "conv" 5 (Some "t1")).
Proof.
  exact (proj1 (recent_window_spec no_iso id (Some (fun _ => Some [sample_message "t0" 0 "z"]))
    sample_windows sample_windows "conv" 5 (Some "t1") ltac:(lia))).
Defined.
