(* ===== verification/Coordination.v ===== *)
(** * [app/interaction/coordination/__init__.py]: one session of several members.

    [CoordinationSession] as a transition system. The code between two awaits is one
    step; what an await delivers (a transcript, a stop receipt, a decision, a finished
    playout, a cancellation) and the input device's presses and releases are the labels. *)

From S2P Require Import Prelude CoreTypes Effects.
#[local] Open Scope eff_scope.

(** ** The data *)

(** The SDK's [SceneRole], with the fields this code names. *)
Record SceneRole := mkRole { sr_name : string; sr_description : string }.
#[global] Instance role_eq_dec : EqDecision SceneRole.
Proof. solve_decision. Defined.

Record Member := mkMember {
  mb_companion_id : string;
  mb_device_id : string;
  mb_description : string;
  mb_role : option SceneRole;
  mb_display_name : string;
}.

#[global] Instance member_eq_dec : EqDecision Member.
Proof. solve_decision. Defined.

(** The SDK's participation messages and decisions. *)
Record Message := mkMessage { ms_id : string; ms_author_kind : string; ms_author_id : string; ms_text : string }.
Record Candidate := mkCandidate { cn_companion_id : string; cn_description : string; cn_display_name : string }.
Record DecisionRequest := mkRequest {
  rq_decision_id : string;
  rq_context_ref : string;
  rq_context_version : Z;
  rq_membership_revision : Z;
  rq_cancellation_epoch : Z;
  rq_trigger : Message;
  rq_user_request : Message;
  rq_scene_goal : string;
  rq_recent : list Message;
  rq_candidates : list Candidate;
  rq_remaining_replies : Z;
  rq_timeout_ms : Z;
}.
Record Proposal := mkProposal { pr_action : string; pr_participants : list string; pr_instruction : string }.
Record DecisionResult := mkResult {
  dr_status : string;
  dr_proposal : option Proposal;
  dr_policy_version : string;
  dr_model_version : string;
}.

(** [ReplyTask] *)
Record ReplyTask := mkReplyTask {
  rt_decision_id : string;
  rt_context_ref : string;
  rt_trigger : Message;
  rt_public : list Message;
  rt_action : string;
  rt_instruction : string;
  rt_user_request : Message;
  rt_scene_goal : string;
}.

Record PlayedReply := mkPlayed { pl_text : string; pl_completed : bool }.
Record Permit := mkPermit { pm_turn_id : string; pm_epoch : Z; pm_companion : string }.
#[global] Instance permit_eq_dec : EqDecision Permit.
Proof. solve_decision. Defined.
Record CEvent := mkCEvent { ce_event : string; ce_epoch : Z; ce_facts : list (string * pyval) }.

(** [_stop_all(epoch)] with the members it still waits for; [st_listed] when it is
    in [_stop_tasks]. *)
Record StopTask := mkStop { st_id : nat; st_epoch : Z; st_pending : list Member; st_listed : bool }.

(** Where a [_run] is suspended. *)
Inductive RoundPc :=
  | RCreated
  | RTranscribing
  | RAwaitStops (text : string)
  | RDeciding (trigger user_request : Message) (remaining : nat) (request : DecisionRequest)
  | RReplying (user_request : Message) (remaining : nat) (p : Proposal) (permit : Permit) (task : ReplyTask).

Record Round := mkRound { r_id : nat; r_epoch : Z; r_capture : string; r_stops : list nat; r_pc : RoundPc }.

(** The state of a session and its running tasks. [c_permits] (every permit made) and
    [c_acks] (every stop receipt, with the epoch of its stop) only record. *)
Record CState := mkCState {
  c_epoch : Z;
  c_state : string;
  c_outcome : string;
  c_error : string;
  c_member_states : list (string * string);
  c_failures : list (string * string);
  c_history : list Message;
  c_events : list CEvent;
  c_captures : list string;
  c_capture : option string;
  c_held : bool;
  c_closed : bool;
  c_active_turn : option string;
  c_next_task : nat;
  c_stops : list StopTask;
  c_rounds : list Round;
  c_permits : list Permit;
  c_acks : list (Z * string);
}.

Definition set_c_epoch (v : Z) (s : CState) : CState :=
  mkCState v s.(c_state) s.(c_outcome) s.(c_error) s.(c_member_states) s.(c_failures) s.(c_history) s.(c_events) s.(c_captures) s.(c_capture) s.(c_held) s.(c_closed) s.(c_active_turn) s.(c_next_task) s.(c_stops) s.(c_rounds) s.(c_permits) s.(c_acks).
Definition set_c_state (v : string) (s : CState) : CState :=
  mkCState s.(c_epoch) v s.(c_outcome) s.(c_error) s.(c_member_states) s.(c_failures) s.(c_history) s.(c_events) s.(c_captures) s.(c_capture) s.(c_held) s.(c_closed) s.(c_active_turn) s.(c_next_task) s.(c_stops) s.(c_rounds) s.(c_permits) s.(c_acks).
Definition set_c_outcome (v : string) (s : CState) : CState :=
  mkCState s.(c_epoch) s.(c_state) v s.(c_error) s.(c_member_states) s.(c_failures) s.(c_history) s.(c_events) s.(c_captures) s.(c_capture) s.(c_held) s.(c_closed) s.(c_active_turn) s.(c_next_task) s.(c_stops) s.(c_rounds) s.(c_permits) s.(c_acks).
Definition set_c_error (v : string) (s : CState) : CState :=
  mkCState s.(c_epoch) s.(c_state) s.(c_outcome) v s.(c_member_states) s.(c_failures) s.(c_history) s.(c_events) s.(c_captures) s.(c_capture) s.(c_held) s.(c_closed) s.(c_active_turn) s.(c_next_task) s.(c_stops) s.(c_rounds) s.(c_permits) s.(c_acks).
Definition set_c_member_states (v : list (string * string)) (s : CState) : CState :=
  mkCState s.(c_epoch) s.(c_state) s.(c_outcome) s.(c_error) v s.(c_failures) s.(c_history) s.(c_events) s.(c_captures) s.(c_capture) s.(c_held) s.(c_closed) s.(c_active_turn) s.(c_next_task) s.(c_stops) s.(c_rounds) s.(c_permits) s.(c_acks).
Definition set_c_failures (v : list (string * string)) (s : CState) : CState :=
  mkCState s.(c_epoch) s.(c_state) s.(c_outcome) s.(c_error) s.(c_member_states) v s.(c_history) s.(c_events) s.(c_captures) s.(c_capture) s.(c_held) s.(c_closed) s.(c_active_turn) s.(c_next_task) s.(c_stops) s.(c_rounds) s.(c_permits) s.(c_acks).
Definition set_c_history (v : list Message) (s : CState) : CState :=
  mkCState s.(c_epoch) s.(c_state) s.(c_outcome) s.(c_error) s.(c_member_states) s.(c_failures) v s.(c_events) s.(c_captures) s.(c_capture) s.(c_held) s.(c_closed) s.(c_active_turn) s.(c_next_task) s.(c_stops) s.(c_rounds) s.(c_permits) s.(c_acks).
Definition set_c_events (v : list CEvent) (s : CState) : CState :=
  mkCState s.(c_epoch) s.(c_state) s.(c_outcome) s.(c_error) s.(c_member_states) s.(c_failures) s.(c_history) v s.(c_captures) s.(c_capture) s.(c_held) s.(c_closed) s.(c_active_turn) s.(c_next_task) s.(c_stops) s.(c_rounds) s.(c_permits) s.(c_acks).
Definition set_c_captures (v : list string) (s : CState) : CState :=
  mkCState s.(c_epoch) s.(c_state) s.(c_outcome) s.(c_error) s.(c_member_states) s.(c_failures) s.(c_history) s.(c_events) v s.(c_capture) s.(c_held) s.(c_closed) s.(c_active_turn) s.(c_next_task) s.(c_stops) s.(c_rounds) s.(c_permits) s.(c_acks).
Definition set_c_capture (v : option string) (s : CState) : CState :=
  mkCState s.(c_epoch) s.(c_state) s.(c_outcome) s.(c_error) s.(c_member_states) s.(c_failures) s.(c_history) s.(c_events) s.(c_captures) v s.(c_held) s.(c_closed) s.(c_active_turn) s.(c_next_task) s.(c_stops) s.(c_rounds) s.(c_permits) s.(c_acks).
Definition set_c_held (v : bool) (s : CState) : CState :=
  mkCState s.(c_epoch) s.(c_state) s.(c_outcome) s.(c_error) s.(c_member_states) s.(c_failures) s.(c_history) s.(c_events) s.(c_captures) s.(c_capture) v s.(c_closed) s.(c_active_turn) s.(c_next_task) s.(c_stops) s.(c_rounds) s.(c_permits) s.(c_acks).
Definition set_c_closed (v : bool) (s : CState) : CState :=
  mkCState s.(c_epoch) s.(c_state) s.(c_outcome) s.(c_error) s.(c_member_states) s.(c_failures) s.(c_history) s.(c_events) s.(c_captures) s.(c_capture) s.(c_held) v s.(c_active_turn) s.(c_next_task) s.(c_stops) s.(c_rounds) s.(c_permits) s.(c_acks).
Definition set_c_active_turn (v : option string) (s : CState) : CState :=
  mkCState s.(c_epoch) s.(c_state) s.(c_outcome) s.(c_error) s.(c_member_states) s.(c_failures) s.(c_history) s.(c_events) s.(c_captures) s.(c_capture) s.(c_held) s.(c_closed) v s.(c_next_task) s.(c_stops) s.(c_rounds) s.(c_permits) s.(c_acks).
Definition set_c_next_task (v : nat) (s : CState) : CState :=
  mkCState s.(c_epoch) s.(c_state) s.(c_outcome) s.(c_error) s.(c_member_states) s.(c_failures) s.(c_history) s.(c_events) s.(c_captures) s.(c_capture) s.(c_held) s.(c_closed) s.(c_active_turn) v s.(c_stops) s.(c_rounds) s.(c_permits) s.(c_acks).
Definition set_c_stops (v : list StopTask) (s : CState) : CState :=
  mkCState s.(c_epoch) s.(c_state) s.(c_outcome) s.(c_error) s.(c_member_states) s.(c_failures) s.(c_history) s.(c_events) s.(c_captures) s.(c_capture) s.(c_held) s.(c_closed) s.(c_active_turn) s.(c_next_task) v s.(c_rounds) s.(c_permits) s.(c_acks).
Definition set_c_rounds (v : list Round) (s : CState) : CState :=
  mkCState s.(c_epoch) s.(c_state) s.(c_outcome) s.(c_error) s.(c_member_states) s.(c_failures) s.(c_history) s.(c_events) s.(c_captures) s.(c_capture) s.(c_held) s.(c_closed) s.(c_active_turn) s.(c_next_task) s.(c_stops) v s.(c_permits) s.(c_acks).
Definition set_c_permits (v : list Permit) (s : CState) : CState :=
  mkCState s.(c_epoch) s.(c_state) s.(c_outcome) s.(c_error) s.(c_member_states) s.(c_failures) s.(c_history) s.(c_events) s.(c_captures) s.(c_capture) s.(c_held) s.(c_closed) s.(c_active_turn) s.(c_next_task) s.(c_stops) s.(c_rounds) v s.(c_acks).
Definition set_c_acks (v : list (Z * string)) (s : CState) : CState :=
  mkCState s.(c_epoch) s.(c_state) s.(c_outcome) s.(c_error) s.(c_member_states) s.(c_failures) s.(c_history) s.(c_events) s.(c_captures) s.(c_capture) s.(c_held) s.(c_closed) s.(c_active_turn) s.(c_next_task) s.(c_stops) s.(c_rounds) s.(c_permits) v.

(** The SDK's validation of the values the session builds. *)
Class SdkOps := {
  check_message : Message -> res unit;
  check_candidate : Candidate -> res unit;
  check_context : list Message -> res unit;
  check_request : DecisionRequest -> res unit;
  validate_proposal : DecisionRequest -> DecisionResult -> res unit;
}.

Record SessionConfig := mkSession {
  sc_session_id : string;
  sc_input_device_id : string;
  sc_members : list Member;
  sc_goal : string;
  sc_reply_budget : Z;
  (** the two timeouts in milliseconds *)
  sc_stop_timeout_ms : Z;
  sc_stage_timeout_ms : Z;
}.

Definition value_error (msg : string) : exn := PyError "ValueError" msg.

(** The checks of [CoordinationSession.__init__]. *)
Definition session_check (c : SessionConfig) : res unit :=
  let companions := map mb_companion_id c.(sc_members) in
  let devices := map mb_device_id c.(sc_members) in
  if is_empty c.(sc_session_id) || is_empty c.(sc_input_device_id) || bool_decide (c.(sc_members) = [])
  then Err (value_error "session, input and members required")
  else if bool_decide (16 < length c.(sc_members))%nat || negb (bool_decide (NoDup companions))
  then Err (value_error "unique bounded Companion membership required")
  else if bool_decide (c.(sc_input_device_id) ∈ devices) || negb (bool_decide (NoDup devices))
  then Err (value_error "input and response devices must be distinct")
  else if existsb (fun m => is_empty m.(mb_companion_id) || is_empty m.(mb_device_id)) c.(sc_members)
  then Err (value_error "member identities required")
  else if negb ((1 <=? c.(sc_reply_budget)) && (c.(sc_reply_budget) <=? 32)) || (c.(sc_stop_timeout_ms) <=? 0) || (c.(sc_stage_timeout_ms) <=? 0)
  then Err (value_error "bounded positive budgets required")
  else Ok tt.

Definition session_init (c : SessionConfig) : CState :=
  mkCState 0 "waiting" "waiting" "" (map (fun m => (m.(mb_companion_id), "waiting")) c.(sc_members)) [] [] [] [] None
    false false None 0 [] [] [] [].

(** [Permit.current] *)
Definition valid (epoch : Z) (s : CState) : bool := negb s.(c_closed) && negb s.(c_held) && (epoch =? s.(c_epoch)).
Definition permit_current (p : Permit) (s : CState) : bool :=
  valid p.(pm_epoch) s && bool_decide (s.(c_active_turn) = Some p.(pm_turn_id)) && negb (dict_has s.(c_failures) p.(pm_companion)).

Section Session.
Context `{SdkOps} (c : SessionConfig).

Definition event (kind : string) (facts : list (string * pyval)) : M CState unit :=
  mmodify (fun s => set_c_events (py_tail 512 (s.(c_events) ++ [mkCEvent kind s.(c_epoch) facts])) s).

(** [_dispatch_stop] *)
Definition dispatch_stop : M CState unit :=
  mmodify (fun s => set_c_next_task (S s.(c_next_task))
    (set_c_stops (s.(c_stops) ++ [mkStop s.(c_next_task) s.(c_epoch) c.(sc_members) true]) s)).

(** [press] *)
Definition press (device_id capture_id : string) : M CState Z :=
  s <-- mget ;;
  if s.(c_closed) || negb (bool_decide (device_id = c.(sc_input_device_id)))
  then mraise (value_error "input is not authorized for this session")
  else if bool_decide (s.(c_capture) = Some capture_id) && s.(c_held) then mret_ s.(c_epoch)
  else if is_empty capture_id || bool_decide (capture_id ∈ s.(c_captures)) || bool_decide (256 <= length s.(c_captures))%nat
  then mraise (value_error "invalid/replayed capture or session capture budget exhausted")
  else
    mmodify (fun s =>
      set_c_captures (s.(c_captures) ++ [capture_id])
     (set_c_capture (Some capture_id)
     (set_c_held true
     (set_c_epoch (s.(c_epoch) + 1)
     (set_c_active_turn None
     (set_c_state "recording"
     (set_c_outcome "waiting"
     (set_c_error ""
     (set_c_member_states (map (fun m => (m.(mb_companion_id),
        if dict_has s.(c_failures) m.(mb_companion_id) then "failed" else "waiting")) c.(sc_members)) s))))))))) ;;;
    event "press" [("capture_id", VStr capture_id)] ;;;
    dispatch_stop ;;;
    mgets c_epoch.

(** [stop(member)] of [_stop_all(epoch)], when its receipt or failure arrives; a
    cancellation has no handler. *)
Definition failure_text (e : exn) : string := ("stop:" +:+ exn_type e +:+ ":" +:+ exn_str e)%string.

Definition stop_done (epoch : Z) (m : Member) (r : res unit) : M CState unit :=
  match r with
  | Ok _ =>
      current <-- mgets (fun s => epoch =? s.(c_epoch)) ;;
      mwhen current (mmodify (fun s =>
        set_c_failures (dict_pop s.(c_failures) m.(mb_companion_id))
          (set_c_member_states (dict_set s.(c_member_states) m.(mb_companion_id) "waiting") s))) ;;;
      mmodify (fun s => set_c_acks ((epoch, m.(mb_companion_id)) :: s.(c_acks)) s) ;;;
      event "stopped" [("device_id", VStr m.(mb_device_id)); ("stop_epoch", VInt epoch)]
  | Err e =>
      mwhen (is_exception e)
        (current <-- mgets (fun s => epoch =? s.(c_epoch)) ;;
         mwhen current (mmodify (fun s =>
           set_c_failures (dict_set s.(c_failures) m.(mb_companion_id) (failure_text e))
             (set_c_member_states (dict_set s.(c_member_states) m.(mb_companion_id) "failed") s))) ;;;
         event "stop_failed" [("device_id", VStr m.(mb_device_id)); ("stop_epoch", VInt epoch);
                              ("error_type", VStr (exn_type e)); ("reason", VStr (exn_str e))])
  end.

(** [release]: the id of the round it starts. *)
Definition release (device_id capture_id : string) : M CState (option nat) :=
  s <-- mget ;;
  if negb (bool_decide (device_id = c.(sc_input_device_id))) || s.(c_closed)
  then mraise (value_error "input is not authorized for this session")
  else if negb (bool_decide (s.(c_capture) = Some capture_id)) || negb s.(c_held) then mret_ None
  else
    mmodify (fun s => set_c_held false (set_c_state "transcribing" s)) ;;;
    event "release" [("capture_id", VStr capture_id)] ;;;
    mmodify (fun s => set_c_next_task (S s.(c_next_task))
      (set_c_rounds (s.(c_rounds) ++
        [mkRound s.(c_next_task) s.(c_epoch) capture_id (map st_id (List.filter st_listed s.(c_stops))) RCreated]) s)) ;;;
    mret_ (Some s.(c_next_task)).

(** [_check] *)
Definition check (epoch : Z) : M CState unit :=
  b <-- mgets (valid epoch) ;; if (b : bool) then mret_ tt else mraise Cancelled.

Definition busy (st : string) : bool := bool_decide (st = "thinking") || bool_decide (st = "speaking").

(** [_fail_round] *)
Definition fail_round (reason : string) (stop : bool) : M CState unit :=
  mmodify (fun s => set_c_state "failed" (set_c_outcome "error" (set_c_error reason s))) ;;;
  event "round_failed" [("reason", VStr reason)] ;;;
  mmodify (fun s => set_c_epoch (s.(c_epoch) + 1) (set_c_active_turn None
    (set_c_member_states (map (fun '(k, v) => (k, if busy v then "failed" else v)) s.(c_member_states)) s))) ;;;
  mwhen stop dispatch_stop.

(** The end of [_run] after its loop. *)
Definition round_done (epoch : Z) (remaining : nat) : M CState (option RoundPc) :=
  check epoch ;;;
  mmodify (set_c_state "waiting") ;;;
  event "waiting" [("remaining_budget", VInt (Z.of_nat remaining))] ;;;
  mret_ None.

Definition set_outcome (o : string) : M CState unit := mmodify (set_c_outcome o).

Definition display_name (m : Member) : string :=
  if is_empty m.(mb_display_name) then match m.(mb_role) with Some r => r.(sr_name) | None => m.(mb_description) end else m.(mb_display_name).
Definition candidate_of (m : Member) : Candidate := mkCandidate m.(mb_companion_id) m.(mb_description) (display_name m).

Fixpoint check_all {A} (f : A -> res unit) (l : list A) : res unit :=
  match l with
  | [] => Ok tt
  | x :: l' => match f x with Ok _ => check_all f l' | Err e => Err e end
  end.

Definition recent (s : CState) : list Message := py_tail 64 s.(c_history).

(** The head of [while remaining], up to [ports.decide]. *)
Definition ask_decision (epoch : Z) (trigger user_request : Message) (remaining : nat) (uuid : string) : M CState (option RoundPc) :=
  match remaining with
  | O => set_outcome "budget_exhausted" ;;; round_done epoch 0
  | S _ =>
      check epoch ;;;
      s <-- mget ;;
      let candidates := map candidate_of (List.filter (fun m => negb (dict_has s.(c_failures) m.(mb_companion_id))) c.(sc_members)) in
      mlift (check_all check_candidate candidates) ;;;
      if bool_decide (candidates = []) then mraise (PyError "RuntimeError" "no healthy response devices") else
      mmodify (set_c_state "deciding") ;;;
      let request := mkRequest uuid c.(sc_session_id) (Z.of_nat (length s.(c_history))) 1 epoch trigger user_request
        c.(sc_goal) (recent s) candidates (Z.of_nat remaining) (Z.min 60000 (Z.max 1 c.(sc_stage_timeout_ms))) in
      mlift (check_context (recent s)) ;;;
      mlift (check_request request) ;;;
      mret_ (Some (RDeciding trigger user_request remaining request))
  end.

(** From the stop barrier to the first decision. *)
Definition after_stops (epoch : Z) (capture text uuid : string) : M CState (option RoundPc) :=
  check epoch ;;;
  failing <-- mgets (fun s => negb (bool_decide (s.(c_failures) = []))) ;;
  if (failing : bool) then fail_round "TEAM_STOP_UNCONFIRMED" false ;;; mret_ None
  else if is_empty (py_strip text) then
    mmodify (fun s => set_c_state "waiting" (set_c_outcome "empty_input" s)) ;;;
    event "empty_input" [] ;;;
    mret_ None
  else
    let trigger := mkMessage capture "user" c.(sc_input_device_id) text in
    mlift (check_message trigger) ;;;
    mmodify (fun s => set_c_history (s.(c_history) ++ [trigger]) s) ;;;
    ask_decision epoch trigger trigger (Z.to_nat c.(sc_reply_budget)) uuid.

(** After [ports.transcribe]. *)
Definition after_transcript (epoch : Z) (capture : string) (stops : list nat) (text uuid : string) : M CState (option RoundPc) :=
  check epoch ;;;
  if bool_decide (stops = []) then after_stops epoch capture text uuid
  else mret_ (Some (RAwaitStops text)).

(** After [ports.decide]. *)
Definition after_decision (epoch : Z) (trigger user_request : Message) (remaining : nat) (request : DecisionRequest)
    (result : DecisionResult) (uuid : string) : M CState (option RoundPc) :=
  check epoch ;;;
  mlift (validate_proposal request result) ;;;
  match result.(dr_proposal) with
  | None => set_outcome "abstained" ;;; round_done epoch remaining
  | Some p =>
      event "decision" [("decision_id", VStr request.(rq_decision_id)); ("action", VStr p.(pr_action));
        ("participants", VList (map VStr p.(pr_participants))); ("policy_version", VStr result.(dr_policy_version));
        ("model_version", VStr result.(dr_model_version))] ;;;
      if bool_decide (p.(pr_action) = "wait") || bool_decide (p.(pr_action) = "finish") then
        set_outcome (if bool_decide (p.(pr_action) = "finish") then "finished" else "waiting") ;;;
        round_done epoch remaining
      else
        match p.(pr_participants) with
        | [] => mraise (PyError "IndexError" "tuple index out of range")
        | companion :: _ =>
            check epoch ;;;
            quarantined <-- mgets (fun s => dict_has s.(c_failures) companion) ;;
            if (quarantined : bool) then mraise (PyError "RuntimeError" "response device is quarantined") else
            match List.find (fun m => bool_decide (m.(mb_companion_id) = companion)) c.(sc_members) with
            | None => mraise (PyError "StopIteration" "")
            | Some member =>
                let permit := mkPermit uuid epoch companion in
                mmodify (fun s => set_c_active_turn (Some uuid) (set_c_permits (permit :: s.(c_permits))
                  (set_c_state "responding" (set_c_member_states (dict_set s.(c_member_states) companion "thinking") s)))) ;;;
                event "reply_started" [("decision_id", VStr request.(rq_decision_id)); ("companion_id", VStr companion);
                  ("device_id", VStr member.(mb_device_id)); ("turn_id", VStr uuid)] ;;;
                context <-- mgets recent ;;
                mlift (check_context context) ;;;
                mret_ (Some (RReplying user_request remaining p permit
                  (mkReplyTask request.(rq_decision_id) c.(sc_session_id) trigger context p.(pr_action) p.(pr_instruction)
                     user_request c.(sc_goal))))
            end
        end
  end.

(** After [ports.reply]. *)
Definition after_reply (epoch : Z) (user_request : Message) (remaining : nat) (p : Proposal) (permit : Permit)
    (task : ReplyTask) (played : PlayedReply) (uuid : string) : M CState (option RoundPc) :=
  current <-- mgets (permit_current permit) ;;
  if negb (current : bool) then mraise Cancelled else
  mmodify (set_c_active_turn None) ;;;
  if negb played.(pl_completed) then mraise (PyError "CoordinationFailure" "TEAM_PLAYBACK_UNCONFIRMED") else
  let trigger := mkMessage permit.(pm_turn_id) "companion" permit.(pm_companion) played.(pl_text) in
  mlift (check_message trigger) ;;;
  mmodify (fun s => set_c_history (s.(c_history) ++ [trigger])
    (set_c_member_states (dict_set s.(c_member_states) permit.(pm_companion) "waiting") s)) ;;;
  event "reply_played" [("decision_id", VStr task.(rt_decision_id)); ("companion_id", VStr permit.(pm_companion));
    ("turn_id", VStr permit.(pm_turn_id))] ;;;
  if bool_decide (p.(pr_action) = "clarify")
  then set_outcome "clarification" ;;; round_done epoch (pred remaining)
  else ask_decision epoch trigger user_request (pred remaining) uuid.

(** The error code of a failed round. *)
Definition failure_code (e : exn) (state : string) : string :=
  match e with
  | PyError cls code =>
      if bool_decide (cls = "DecisionUnavailable") || bool_decide (cls = "CoordinationFailure") then code
      else if bool_decide (cls = "TimeoutError") && bool_decide (state = "deciding") then "DECISION_TIMEOUT"
      else "TEAM_ROUND_FAILED"
  | _ => "TEAM_ROUND_FAILED"
  end.

(** [except] and [finally] of [_run]. *)
Definition on_round_error (epoch : Z) (e : exn) : M CState unit :=
  b <-- mgets (valid epoch) ;;
  mwhen b
    (if is_exception e then
       event "round_error" [("error_type", VStr (exn_type e)); ("reason", VStr (exn_str e))] ;;;
       state <-- mgets c_state ;; fail_round (failure_code e state) true
     else mwhen (bool_decide (e = Cancelled)) (fail_round "cancelled" true)).

Definition round_finally (epoch : Z) : M CState unit :=
  mmodify (fun s => if epoch =? s.(c_epoch)
    then set_c_member_states (map (fun '(k, v) => (k, if busy v then "waiting" else v)) s.(c_member_states)) s else s).

(** A segment of [_run] inside its [try]. *)
Definition segment (epoch : Z) (m : M CState (option RoundPc)) : M CState (option RoundPc) :=
  pc <-- mtry m (fun e => Some (on_round_error epoch e ;;; mret_ None)) ;;
  match pc with
  | Some pc => mret_ (Some pc)
  | None => round_finally epoch ;;; mret_ None
  end.

(** What the await of a round delivers. *)
Inductive resume :=
  | GotText (r : res string)
  | GotStops (r : res unit)
  | GotDecision (r : res DecisionResult)
  | GotReply (r : res PlayedReply).

Definition or_raise {A B} (r : res A) (k : A -> M CState B) : M CState B :=
  match r with Ok a => k a | Err e => mraise e end.

(** The next segment of a round; [None] when the delivery is not the awaited one. *)
Definition round_segment (r : Round) (d : resume) (uuid : string) : option (M CState (option RoundPc)) :=
  match r.(r_pc), d with
  | RTranscribing, GotText t => Some (or_raise t (fun t => after_transcript r.(r_epoch) r.(r_capture) r.(r_stops) t uuid))
  | RAwaitStops text, GotStops x => Some (or_raise x (fun _ => after_stops r.(r_epoch) r.(r_capture) text uuid))
  | RDeciding trigger user n request, GotDecision x => Some (or_raise x (fun x => after_decision r.(r_epoch) trigger user n request x uuid))
  | RReplying user n p permit task, GotReply x => Some (or_raise x (fun x => after_reply r.(r_epoch) user n p permit task x uuid))
  | _, _ => None
  end.

Definition put_round (r : Round) (pc : option RoundPc) : M CState unit :=
  mmodify (fun s => set_c_rounds
    match pc with
    | Some pc => map (fun x => if bool_decide (x.(r_id) = r.(r_id)) then mkRound r.(r_id) r.(r_epoch) r.(r_capture) r.(r_stops) pc else x) s.(c_rounds)
    | None => List.filter (fun x => negb (bool_decide (x.(r_id) = r.(r_id)))) s.(c_rounds)
    end s).

(** [close], up to its wait for the stop receipts. *)
Definition close : M CState unit :=
  s <-- mget ;;
  if s.(c_closed) then mret_ tt else
  mmodify (fun s => set_c_closed true (set_c_held false (set_c_epoch (s.(c_epoch) + 1)
    (set_c_state "closed" (set_c_active_turn None s))))) ;;;
  mmodify (fun s => set_c_next_task (S s.(c_next_task))
    (set_c_stops (s.(c_stops) ++ [mkStop s.(c_next_task) s.(c_epoch) c.(sc_members) false]) s)).

(** [Permit.phase], as the adapter of a running reply calls it. *)
Definition permit_phase (p : Permit) (phase : string) : M CState unit :=
  current <-- mgets (permit_current p) ;;
  if negb (current : bool) then mraise Cancelled
  else if negb (busy phase) then mraise (value_error "invalid reply phase")
  else
    mmodify (fun s => set_c_member_states (dict_set s.(c_member_states) p.(pm_companion) phase) s) ;;;
    event "reply_phase" [("companion_id", VStr p.(pm_companion)); ("phase", VStr phase)].

(** ** The transition system *)

Inductive label :=
  | LPress (device_id capture_id : string)
  | LRelease (device_id capture_id : string)
  | LStop (task : nat) (m : Member) (r : res unit)
  | LStart (round : nat)
  | LResume (round : nat) (d : resume) (uuid : string)
  | LPhase (p : Permit) (phase : string)
  (** cancelled before its first step *)
  | LDrop (round : nat)
  | LClose
  | LClosed.

Definition find_round (i : nat) (s : CState) : option Round := List.find (fun r => bool_decide (r.(r_id) = i)) s.(c_rounds).
Definition find_stop (i : nat) (s : CState) : option StopTask := List.find (fun t => bool_decide (t.(st_id) = i)) s.(c_stops).

Definition put_stop (t : StopTask) (m : Member) : CState -> CState := fun s =>
  let pending := List.filter (fun x => negb (bool_decide (x = m))) t.(st_pending) in
  set_c_stops
    (if bool_decide (pending = [])
     then List.filter (fun x => negb (bool_decide (x.(st_id) = t.(st_id)))) s.(c_stops)
     else map (fun x => if bool_decide (x.(st_id) = t.(st_id)) then mkStop t.(st_id) t.(st_epoch) pending t.(st_listed) else x) s.(c_stops)) s.

(** A stop is cancelled only by [close]. *)
Definition stop_delivery (r : res unit) (s : CState) : bool :=
  match r with Ok _ => true | Err e => is_exception e || s.(c_closed) end.

(** The deliveries the environment can make to a round: a stop group is gathered only
    when all of its tasks are done, and a decision's uuid is new. *)
Definition deliverable (r : Round) (d : resume) (uuid : string) (s : CState) : bool :=
  match d with
  | GotStops (Ok _) => forallb (fun i => negb (existsb (fun t => bool_decide (t.(st_id) = i)) s.(c_stops))) r.(r_stops)
  | GotDecision _ => negb (existsb (fun p => bool_decide (p.(pm_turn_id) = uuid)) s.(c_permits))
  | _ => true
  end.

(** A label that does not apply changes nothing. *)
Definition idle : M CState unit := mret_ tt.

Definition fire (l : label) : M CState unit :=
  s <-- mget ;;
  match l with
  | LPress d cap => press d cap ;;; mret_ tt
  | LRelease d cap => release d cap ;;; mret_ tt
  | LStop i m r =>
      match find_stop i s with
      | Some t => if bool_decide (m ∈ t.(st_pending)) && stop_delivery r s then stop_done t.(st_epoch) m r ;;; mmodify (put_stop t m) else idle
      | None => idle
      end
  | LStart i =>
      match find_round i s with
      | Some r => if r.(r_pc) is RCreated then put_round r (Some RTranscribing) else idle
      | None => idle
      end
  | LResume i d uuid =>
      match find_round i s with
      | Some r =>
          if deliverable r d uuid s then
            match round_segment r d uuid with
            | Some m => pc <-- segment r.(r_epoch) m ;; put_round r pc
            | None => idle
            end
          else idle
      | None => idle
      end
  | LPhase p phase => permit_phase p phase
  | LDrop i =>
      match find_round i s with
      | Some r => if r.(r_pc) is RCreated then put_round r None else idle
      | None => idle
      end
  | LClose => close
  | LClosed => mwhen s.(c_closed) (event "closed" [])
  end.

(** The states a session reaches. *)
Inductive reachable : CState -> Prop :=
  | reach_init : session_check c = Ok tt -> reachable (session_init c)
  | reach_fire l s : reachable s -> reachable (snd (fire l s)).
End Session.
