(* ===== verification/CoordinationSafety.v ===== *)
(** * The invariant of a coordination session.

    [Base] holds between any two statements, [round_ok] of every running round; a
    segment of a round that is still valid is run from [Base] and the condition of its
    program counter ([pc_ok]) to the condition of the next one. *)

From S2P Require Import Prelude CoreTypes Effects Coordination.
#[local] Open Scope eff_scope.

(** The part of the state the invariant is about. *)
Definition core (s : CState) : CState :=
  mkCState s.(c_epoch) "" "" "" [] s.(c_failures) [] [] [] None s.(c_held) s.(c_closed) s.(c_active_turn)
    s.(c_next_task) s.(c_stops) s.(c_rounds) s.(c_permits) s.(c_acks).

Notation silent m := (preserves (fun s s' : CState => core s' = core s) m).

#[global] Instance core_preorder : PreOrder (fun s s' : CState => core s' = core s).
Proof. split; [done|]. intros s1 s2 s3 H1 H2. congruence. Qed.

(** A silent statement keeps every predicate on the core. *)
Class OnCore (P : CState -> Prop) := on_core : forall s, P (core s) <-> P s.

Lemma on_core_eq (P : CState -> Prop) `{!OnCore P} s s' : core s' = core s -> P s -> P s'.
Proof. intros E Hs. apply on_core. rewrite E. by apply on_core. Qed.

Lemma silent_triple {A} (P : CState -> Prop) `{!OnCore P} (m : M CState A) :
  silent m -> triple P m (fun _ => P) (fun _ => P).
Proof.
  intros Hm s Hs. specialize (Hm s). destruct (m s) as [[a|e] s']; simpl in Hm; by eapply on_core_eq.
Qed.

Lemma silent_modify g : (forall s, core (g s) = core s) -> silent (mmodify g).
Proof. intros H s. apply H. Qed.

#[export] Hint Extern 2 (preserves _ (mmodify _)) => by apply silent_modify : coord.
Lemma silent_event kind facts : silent (event kind facts).
Proof. by apply silent_modify. Qed.
Lemma silent_set_outcome o : silent (set_outcome o).
Proof. by apply silent_modify. Qed.
#[export] Hint Resolve silent_event silent_set_outcome : coord.

Ltac silent := repeat first [preserve_step | solve [eauto with coord nocore]].

Section Safety.
Context `{SdkOps} (c : SessionConfig).
Notation members := c.(sc_members).
Notation budget := (Z.to_nat c.(sc_reply_budget)).

(** Every member confirmed the stop of epoch [e], and none failed. *)
Definition Quiet (e : Z) (s : CState) : Prop :=
  s.(c_failures) = [] /\ (forall t, t ∈ s.(c_stops) -> t.(st_epoch) <> e) /\
  forall m, m ∈ members -> (e, m.(mb_companion_id)) ∈ s.(c_acks).

(** Every member is still being stopped in this epoch, confirmed it or failed. *)
Definition Covered (s : CState) : Prop :=
  forall m, m ∈ members ->
    (exists t, t ∈ s.(c_stops) /\ t.(st_epoch) = s.(c_epoch) /\ m ∈ t.(st_pending)) \/
    (s.(c_epoch), m.(mb_companion_id)) ∈ s.(c_acks) \/ dict_has s.(c_failures) m.(mb_companion_id) = true.

Definition issued (e : Z) (s : CState) : nat := length (List.filter (fun p => p.(pm_epoch) =? e) s.(c_permits)).
Definition turn_ids (s : CState) : list string := map pm_turn_id s.(c_permits).

Record Base (s : CState) : Prop := {
  b_stop_epochs t : t ∈ s.(c_stops) -> t.(st_epoch) <= s.(c_epoch) /\ (st_id t < s.(c_next_task))%nat;
  b_stop_ids : NoDup (map st_id s.(c_stops));
  b_listed t : s.(c_closed) = false -> t ∈ s.(c_stops) -> t.(st_listed) = true;
  b_permits p : p ∈ s.(c_permits) -> p.(pm_epoch) <= s.(c_epoch) /\
    (p.(pm_epoch) = s.(c_epoch) -> s.(c_held) = false /\ s.(c_closed) = false /\ Quiet s.(c_epoch) s);
  b_issued e : (issued e s <= budget)%nat;
  b_turns : NoDup (turn_ids s);
  b_held : s.(c_held) = true -> s.(c_closed) = false /\ Covered s;
}.

(** The condition of a round of the current epoch at [pc]. *)
Definition pc_ok (stops : list nat) (pc : RoundPc) (s : CState) : Prop :=
  match pc with
  | RCreated | RTranscribing | RAwaitStops _ =>
      Covered s /\ issued s.(c_epoch) s = 0%nat /\
      forall t, t ∈ s.(c_stops) -> t.(st_epoch) = s.(c_epoch) -> t.(st_id) ∈ stops
  | RDeciding _ _ n _ => Quiet s.(c_epoch) s /\ (1 <= n)%nat /\ (issued s.(c_epoch) s + n <= budget)%nat
  | RReplying _ n _ p _ => Quiet s.(c_epoch) s /\ (1 <= n)%nat /\ (issued s.(c_epoch) s + pred n <= budget)%nat /\
      p.(pm_epoch) = s.(c_epoch)
  end.

Definition current_round (r : Round) (s : CState) : Prop :=
  r.(r_epoch) = s.(c_epoch) /\ s.(c_held) = false /\ s.(c_closed) = false /\ pc_ok r.(r_stops) r.(r_pc) s.

(** A round waits for the reply it gave a permit to. *)
Definition own_permit (e : Z) (pc : RoundPc) : Prop :=
  match pc with RReplying _ _ _ p _ => p.(pm_epoch) = e | _ => True end.

Definition round_ok (s : CState) (r : Round) : Prop :=
  (r_id r < s.(c_next_task))%nat /\ own_permit r.(r_epoch) r.(r_pc) /\ (r.(r_epoch) < s.(c_epoch) \/ current_round r s).

(** The rounds have their own ids, and at most one of them is current. *)
Record Rounds (s : CState) : Prop := {
  r_ok : Forall (round_ok s) s.(c_rounds);
  r_ids : NoDup (map r_id s.(c_rounds));
  r_single r1 r2 : r1 ∈ s.(c_rounds) -> r2 ∈ s.(c_rounds) ->
    r1.(r_epoch) = s.(c_epoch) -> r2.(r_epoch) = s.(c_epoch) -> r1 = r2;
}.

Definition Inv (s : CState) : Prop := Base s /\ Rounds s.

(** How a session evolves: what was revoked stays revoked. *)
Record Evolves (s s' : CState) : Prop := {
  ev_epoch : s.(c_epoch) <= s'.(c_epoch);
  ev_closed : s.(c_closed) = true -> s'.(c_closed) = true;
  ev_permits : s.(c_permits) `suffix_of` s'.(c_permits);
  ev_acks : forall a, a ∈ s.(c_acks) -> a ∈ s'.(c_acks);
  ev_active t : s'.(c_active_turn) = Some t -> s.(c_active_turn) = Some t \/ t ∉ turn_ids s;
}.

#[global] Instance Evolves_preorder : PreOrder Evolves.
Proof.
  split.
  - intros s. constructor; auto; done.
  - intros s1 s2 s3 [e1 c1 p1 a1 t1] [e2 c2 p2 a2 t2]. constructor; [lia|by auto|by etransitivity|by auto|].
    intros t Ht. destruct (t2 t Ht) as [?|Hn]; [by apply t1|]. right. intros Hin. apply Hn.
    destruct p1 as [k E]. unfold turn_ids in *. rewrite E, map_app. apply elem_of_app. by right.
Qed.

Lemma evolves_same s s' : s'.(c_epoch) = s.(c_epoch) -> s'.(c_closed) = s.(c_closed) -> s'.(c_permits) = s.(c_permits) ->
  s'.(c_acks) = s.(c_acks) -> s'.(c_active_turn) = s.(c_active_turn) -> Evolves s s'.
Proof. intros He Hc Hp Ha Ht. constructor; rewrite ?He, ?Hc, ?Hp, ?Ha, ?Ht; [lia|done|done|done|by left]. Qed.

(** ** The barrier *)

(** When the groups of the epoch are gone and nothing failed, the epoch is quiet. *)
Lemma covered_quiet s : Covered s -> s.(c_failures) = [] ->
  (forall t, t ∈ s.(c_stops) -> t.(st_epoch) <> s.(c_epoch)) -> Quiet s.(c_epoch) s.
Proof.
  intros Hc Hf Hs. split_and!; [done..|]. intros m Hm. destruct (Hc m Hm) as [(t & Ht & He & _)|[?|Hd]]; [|done|].
  - by destruct (Hs t Ht).
  - by rewrite Hf in Hd.
Qed.

Lemma stops_gathered r d uuid s : d = GotStops (Ok tt) -> deliverable r d uuid s = true ->
  forall t, t ∈ s.(c_stops) -> t.(st_id) ∉ r.(r_stops).
Proof.
  intros -> Hd t Ht Hin. simpl in Hd. rewrite forallb_forall in Hd. apply list_elem_of_In in Hin.
  specialize (Hd _ Hin). apply negb_true_iff, not_true_iff_false in Hd. apply Hd, existsb_exists.
  exists t. split; [by apply list_elem_of_In|]. by apply bool_decide_eq_true.
Qed.

(** ** How the epoch and the stop groups move *)

(** No permit has the current epoch. *)
Definition unspoken (s : CState) : Prop := forall p, p ∈ s.(c_permits) -> p.(pm_epoch) < s.(c_epoch).

(** A new epoch, in which nothing is held. *)
Definition next_epoch (s : CState) : CState := set_c_epoch (s.(c_epoch) + 1) (set_c_active_turn None s).

Lemma base_next_epoch s : Base s -> s.(c_held) = false -> Base (next_epoch s) /\ unspoken (next_epoch s).
Proof.
  intros [] Hh. split; [constructor; simpl; try done|].
  - intros t Ht. destruct (b_stop_epochs0 t Ht). split; [lia|done].
  - intros p Hp. destruct (b_permits0 p Hp). split; lia.
  - intros Hheld. congruence.
  - intros p Hp. simpl. destruct (b_permits0 p Hp). lia.
Qed.

(** A stop group for the current epoch. *)
Definition new_stop (listed : bool) (s : CState) : CState :=
  set_c_next_task (S s.(c_next_task)) (set_c_stops (s.(c_stops) ++ [mkStop s.(c_next_task) s.(c_epoch) members listed]) s).

Lemma base_new_stop listed s : Base s -> unspoken s -> (listed = false -> s.(c_closed) = true) -> Base (new_stop listed s).
Proof.
  intros [] Hp Hl. constructor; simpl; try done.
  - intros t [Ht| ->%list_elem_of_singleton]%elem_of_app; simpl; [destruct (b_stop_epochs0 t Ht); lia|lia].
  - rewrite map_app. apply NoDup_app. split_and!; [done| |apply NoDup_singleton].
    intros i (t & -> & Ht)%list_elem_of_fmap Hi. apply list_elem_of_singleton in Hi.
    destruct (b_stop_epochs0 t Ht). simpl in Hi. lia.
  - intros t Hc [Ht| ->%list_elem_of_singleton]%elem_of_app; [by apply b_listed0|]. destruct listed; [done|]. simpl. rewrite Hl in Hc; done.
  - intros p Hpp. specialize (Hp p Hpp). simpl in Hp. lia.
  - intros Hh. destruct (b_held0 Hh) as [? Hcov]. split; [done|]. intros m Hm.
    destruct (Hcov m Hm) as [(t & ? & ? & ?)|?]; [|by right]. left. exists t. split; [apply elem_of_app; by left|done].
Qed.

(** Such a group covers every member. *)
Lemma new_stop_covers listed s : Covered (new_stop listed s).
Proof.
  intros m Hm. left. exists (mkStop s.(c_next_task) s.(c_epoch) members listed).
  split_and!; [apply elem_of_app; right; by apply list_elem_of_singleton|done..].
Qed.

(** A permit for a new turn. *)
Definition issue (p : Permit) (s : CState) : CState :=
  set_c_active_turn (Some p.(pm_turn_id)) (set_c_permits (p :: s.(c_permits)) s).

Lemma issued_issue p s e : issued e (issue p s) = (Nat.b2n (p.(pm_epoch) =? e)%Z + issued e s)%nat.
Proof. unfold issued. simpl. by destruct (pm_epoch p =? e). Qed.

Lemma base_issue p s : Base s -> s.(c_held) = false -> s.(c_closed) = false -> p.(pm_epoch) = s.(c_epoch) ->
  Quiet s.(c_epoch) s -> (S (issued s.(c_epoch) s) <= budget)%nat -> p.(pm_turn_id) ∉ turn_ids s -> Base (issue p s).
Proof.
  intros [] Hh Hc He Hq Hi Hn. constructor; try done.
  - intros p' [->|Hp']%elem_of_cons; [|by apply b_permits0]. simpl. split; [lia|done].
  - intros e. rewrite issued_issue. destruct (Z.eqb_spec (pm_epoch p) e); [subst; rewrite He; done|apply b_issued0].
  - by apply NoDup_cons.
Qed.

Lemma evolves_issue p s : p.(pm_turn_id) ∉ turn_ids s -> Evolves s (issue p s).
Proof. intros Hn. constructor; simpl; [lia|done|by exists [p]|done|]. intros t [= <-]. by right. Qed.

Lemma dispatch_stop_run s : dispatch_stop c s = (Ok tt, new_stop true s).
Proof. done. Qed.

(** ** The segments of a round *)

(** Predicates that read only the core. *)
#[local] Hint Extern 5 (OnCore _) => (intros ?; exact (iff_refl _)) : typeclass_instances.

#[local] Instance base_core : OnCore Base.
Proof. intros s. split; intros []; by constructor. Qed.
#[local] Instance rounds_core : OnCore Rounds.
Proof. intros s. split; intros []; by constructor. Qed.
#[local] Instance evolves_core s0 : OnCore (Evolves s0).
Proof. intros s. split; intros []; by constructor. Qed.

Section Round.
Context (s0 : CState) (e : Z) (stops : list nat).

(** Between two statements of a segment: [Live] while its round is valid. *)
Definition Mid (s : CState) : Prop :=
  Base s /\ s.(c_rounds) = s0.(c_rounds) /\ (s0.(c_next_task) <= s.(c_next_task))%nat /\ Evolves s0 s.
Definition Live (X : CState -> Prop) (s : CState) : Prop := Mid s /\ valid e s = true /\ X s.
Definition Post (pc : option RoundPc) (s : CState) : Prop :=
  match pc with Some pc => Live (pc_ok stops pc) s | None => Mid s end.

#[local] Instance mid_core : OnCore Mid.
Proof. intros s. unfold Mid. by rewrite (on_core (P := Base)), (on_core (P := Evolves s0)). Qed.
#[local] Instance live_core X `{!OnCore X} : OnCore (Live X).
Proof. intros s. unfold Live. by rewrite (on_core (P := Mid)), (on_core (P := X)). Qed.
#[local] Instance pc_core pc : OnCore (pc_ok stops pc).
Proof. by intros s; destruct pc. Qed.

Notation seg P m := (triple P m Post (fun _ => Live (fun _ => True))).

Lemma live_weaken X Y s : (X s -> Y s) -> Live X s -> Live Y s.
Proof. intros HXY (? & ? & ?). by split_and!; [..|apply HXY]. Qed.

(** A silent statement in front of a segment. *)
Lemma seg_silent {A} X `{!OnCore X} (m : M CState A) k :
  silent m -> (forall a, seg (Live X) (k a)) -> seg (Live X) (mbind_ m k).
Proof.
  intros Hm Hk. eapply triple_bind with (Qm := fun _ => Live X); [|exact Hk].
  eapply triple_conseq; [intros s Hs; exact Hs|by apply (silent_triple (Live X))|done|].
  intros ? s. by apply live_weaken.
Qed.

(** A test of the state in front of a segment. *)
Lemma seg_test X (f : CState -> bool) k :
  seg (Live (fun s => X s /\ f s = true)) (k true) -> seg (Live (fun s => X s /\ f s = false)) (k false) ->
  seg (Live X) (mbind_ (mgets f) k).
Proof.
  intros H1 H2 s Hs. unfold mgets, mbind_. destruct (f s) eqn:E; [apply H1|apply H2]; destruct Hs as (? & ? & ?); by split_and!.
Qed.

Lemma seg_conseq X Y m : (forall s, Live X s -> Y s) -> seg (Live Y) m -> seg (Live X) m.
Proof. intros HXY Hm s Hs. apply Hm. destruct Hs as (? & ? & ?). split_and!; [done..|]. by apply HXY. Qed.

Lemma seg_raise X x : seg (Live X) (mraise x : M CState (option RoundPc)).
Proof. intros s. by apply live_weaken. Qed.

Lemma valid_spec s : valid e s = true -> s.(c_closed) = false /\ s.(c_held) = false /\ e = s.(c_epoch).
Proof. unfold valid. intros [[?%negb_true_iff ?%negb_true_iff]%andb_true_iff ?%Z.eqb_eq]%andb_true_iff. done. Qed.

(** [_fail_round] ends the epoch. *)
Lemma live_fail reason stop s : Live (fun _ => True) s ->
  exists s', fail_round c reason stop s = (Ok tt, s') /\ Mid s'.
Proof.
  intros (Hm & (Hc & Hh & He)%valid_spec & _).
  set (s1 := snd ((mmodify (fun s => set_c_state "failed" (set_c_outcome "error" (set_c_error reason s))) ;;;
                   event "round_failed" [("reason", VStr reason)]) s)).
  set (s2 := set_c_member_states (map (fun '(k, v) => (k, if busy v then "failed" else v)) s1.(c_member_states)) (next_epoch s1)).
  exists (if stop then new_stop true s2 else s2). split; [by destruct stop|].
  assert (Mid s1) as (Hb & Hr & Hn & Hev) by by eapply (on_core_eq Mid s s1).
  destruct (base_next_epoch s1 Hb Hh) as [Hb2 Hu].
  assert (Base s2) as Hb3 by by eapply (on_core_eq Base (next_epoch s1) s2).
  assert (forall s', s' = s2 \/ s' = new_stop true s2 -> Evolves s1 s') as Hev2.
  { intros s' [->| ->]; (constructor; simpl; [lia|done|done|done|done]). }
  assert (Evolves s0 s2 /\ Evolves s0 (new_stop true s2)) as [Hv1 Hv2].
  { split; (etransitivity; [exact Hev|]); apply Hev2; auto. }
  destruct stop; (split; [|split; [exact Hr|split]]); try done.
  - by apply base_new_stop.
  - exact (Nat.le_le_succ_r _ _ Hn).
Qed.

Lemma seg_fail X reason stop : seg (Live X) (fail_round c reason stop ;;; mret_ None).
Proof.
  intros s Hs. destruct (live_fail reason stop s) as (s' & Hf & Hm); [by revert Hs; apply live_weaken|].
  by rewrite (mbind_ok _ _ _ _ _ Hf).
Qed.

Lemma seg_check X k : seg (Live X) k -> seg (Live X) (check e ;;; k).
Proof.
  intros Hk s Hs. unfold check, mgets, mbind_. pose proof Hs as (_ & Hv & _). rewrite Hv. by apply Hk.
Qed.

Lemma seg_done X `{!OnCore X} n : seg (Live X) (round_done e n).
Proof.
  unfold round_done. apply seg_check. do 2 (apply (seg_silent X); [silent|intros _]). by intros s [].
Qed.

Lemma seg_ask trigger user n uuid :
  seg (Live (fun s => Quiet s.(c_epoch) s /\ (issued s.(c_epoch) s + n <= budget)%nat)) (ask_decision c e trigger user n uuid) .
Proof.
  destruct n as [|n]; simpl.
  - apply (seg_silent _); [silent|intros _]. by apply (seg_done _).
  - apply seg_check. apply (seg_silent _); [silent|intros s']. apply (seg_silent _); [silent|intros _].
    case_bool_decide; [by intros s ?%(live_weaken _ (fun _ => True))|].
    do 3 (apply (seg_silent _); [silent|intros _]).
    intros s (Hm & Hv & Hq & Hi). split; [done|]. split; [done|]. split; [exact Hq|]. split; [lia|exact Hi].
Qed.

(** The first message of a round, once the epoch is quiet. *)
Lemma seg_after_stops capture text uuid :
  seg (Live (fun s => Covered s /\ issued s.(c_epoch) s = 0%nat /\
         forall t, t ∈ s.(c_stops) -> t.(st_epoch) <> s.(c_epoch)))
    (after_stops c e capture text uuid).
Proof.
  unfold after_stops. apply seg_check. apply seg_test; simpl; [apply seg_fail|].
  apply (seg_conseq _ (fun s => Quiet s.(c_epoch) s /\ (issued s.(c_epoch) s + budget <= budget)%nat)).
  { intros s (_ & _ & (Hc & Hi & Hn) & Hf). apply negb_false_iff, bool_decide_eq_true in Hf. split; [by apply covered_quiet|]. by rewrite Hi. }
  destruct (is_empty _).
  - do 2 (apply (seg_silent _); [silent|intros _]). by intros s [].
  - do 2 (apply (seg_silent _); [silent|intros _]). apply seg_ask.
Qed.

Lemma seg_after_transcript capture text uuid :
  seg (Live (pc_ok stops RTranscribing)) (after_transcript c e capture stops text uuid).
Proof.
  unfold after_transcript. apply seg_check. case_bool_decide as Hs.
  - eapply seg_conseq; [|apply seg_after_stops]. intros s (_ & _ & Hc & Hi & Hn). split_and!; [done..|].
    intros t Ht He. specialize (Hn t Ht He). rewrite Hs in Hn. by apply elem_of_nil in Hn.
  - intros s Hl. exact Hl.
Qed.

(** The reply a decision permits. *)
Definition replying (n : nat) (s : CState) : Prop :=
  Quiet s.(c_epoch) s /\ (1 <= n)%nat /\ (issued s.(c_epoch) s + pred n <= budget)%nat.

Lemma live_issue trigger user n request companion uuid s :
  Live (fun s => pc_ok stops (RDeciding trigger user n request) s /\ uuid ∉ turn_ids s) s ->
  Live (replying n) (issue (mkPermit uuid e companion) s).
Proof.
  intros ((Hb & Hr & Hn & Hev) & Hv & (Hq & Hn1 & Hi) & Hu). pose proof (valid_spec s Hv) as (Hc & Hh & He).
  assert ((e =? c_epoch s) = true) as Hee by by apply Z.eqb_eq.
  split; [split; [|split; [exact Hr|split; [exact Hn|]]]|split; [exact Hv|]].
  - apply base_issue; try done. lia.
  - etransitivity; [exact Hev|by apply evolves_issue].
  - split; [exact Hq|]. split; [done|]. rewrite issued_issue. simpl. rewrite Hee. simpl. lia.
Qed.

Lemma seg_after_decision trigger user n request result uuid :
  seg (Live (fun s => pc_ok stops (RDeciding trigger user n request) s /\ uuid ∉ turn_ids s))
    (after_decision c e trigger user n request result uuid).
Proof.
  unfold after_decision. apply seg_check. apply (seg_silent _); [silent|intros _].
  destruct (dr_proposal result) as [p|]; [|apply (seg_silent _); [silent|intros _]; by apply (seg_done _)].
  apply (seg_silent _); [silent|intros _].
  case_match; [apply (seg_silent _); [silent|intros _]; by apply (seg_done _)|].
  destruct (pr_participants p) as [|companion rest]; [apply seg_raise|]. apply seg_check.
  apply seg_test; simpl; [apply seg_raise|].
  destruct (List.find _ _) as [member|]; [|apply seg_raise].
  eapply triple_bind with (Qm := fun _ => Live (replying n)).
  - intros s Hs. eapply (on_core_eq (Live (replying n)) (issue (mkPermit uuid e companion) s)); [done|].
    apply (live_issue trigger user n request). destruct Hs as (Hm & Hv & [Hx _]). exact (conj Hm (conj Hv Hx)).
  - intros _. apply (seg_silent _); [silent|intros _]. apply (seg_silent _); [silent|intros ctx].
    apply (seg_silent _); [silent|intros _]. intros s (Hm & Hv & Hq & Hn1 & Hi).
    pose proof (valid_spec s Hv) as (_ & _ & He). by split_and!.
Qed.

Lemma live_quiet_voice X `{!OnCore X} s : (forall s, X s -> X (set_c_active_turn None s)) ->
  Live X s -> Live X (set_c_active_turn None s).
Proof.
  intros HX ((Hb & Hr & Hn & Hev) & Hv & Hs). split; [split; [|split; [exact Hr|split; [exact Hn|]]]|split; [exact Hv|by apply HX]].
  - destruct Hb. by constructor.
  - etransitivity; [exact Hev|]. by constructor.
Qed.

Lemma seg_after_reply user n p permit task played uuid :
  seg (Live (pc_ok stops (RReplying user n p permit task))) (after_reply c e user n p permit task played uuid).
Proof.
  unfold after_reply. apply seg_test; simpl; [|apply seg_raise].
  apply (seg_conseq _ (fun s => Quiet s.(c_epoch) s /\ (issued s.(c_epoch) s + pred n <= budget)%nat)).
  { by intros s (_ & _ & (? & ? & ? & ?) & _). }
  eapply triple_bind with (Qm := fun _ => Live (fun s => Quiet s.(c_epoch) s /\ (issued s.(c_epoch) s + pred n <= budget)%nat)).
  - intros s Hs. by apply live_quiet_voice.
  - intros _. destruct (pl_completed played); simpl; [|apply seg_raise].
    do 3 (apply (seg_silent _); [silent|intros _]).
    case_match; [apply (seg_silent _); [silent|intros _]; by apply (seg_done _)|]. apply seg_ask.
Qed.

(** [except] and [finally] *)
Lemma silent_finally : silent (round_finally e).
Proof. apply silent_modify. intros s. by destruct (_ =? _). Qed.

Lemma on_round_error_live x s : Live (fun _ => True) s -> exists s', on_round_error c e x s = (Ok tt, s') /\ Mid s'.
Proof.
  intros Hs. pose proof Hs as (Hm & Hv & _). unfold on_round_error.
  rewrite (mbind_ok (mgets (valid e)) _ s (valid e s) s eq_refl), Hv. unfold mwhen at 1.
  destruct (is_exception x).
  - set (ev := event _ _). assert (exists s1, ev s = (Ok tt, s1) /\ core s1 = core s) as (s1 & He & Hc) by by eexists.
    rewrite (mbind_ok ev _ s tt s1 He), (mbind_ok (mgets c_state) _ s1 _ s1 eq_refl).
    apply live_fail. by eapply (on_core_eq (Live (fun _ => True)) s).
  - unfold mwhen. case_bool_decide; [by apply live_fail|]. by exists s.
Qed.

Lemma segment_ok X m : seg (Live X) m -> triple (Live X) (segment c e m) Post (fun _ _ => False).
Proof.
  intros Hm. unfold segment. eapply triple_bind with (Qm := Post).
  - eapply triple_try; [exact Hm|]. intros x s Hs. destruct (on_round_error_live x s Hs) as (s' & Hf & Hm').
    by rewrite (mbind_ok _ _ _ _ _ Hf).
  - intros [pc|]; [by intros s Hs|].
    intros s Hs. pose proof (silent_triple Mid _ silent_finally s Hs) as Hf. unfold mbind_.
    by destruct (round_finally e s) as [[[]|x] s'] eqn:E.
Qed.
End Round.

(** ** The rounds *)

Lemma round_epoch s r : Rounds s -> r ∈ s.(c_rounds) -> r.(r_epoch) <= s.(c_epoch).
Proof. intros [Ho _ _] Hr. apply (proj1 (Forall_forall _ _) Ho) in Hr as (_ & _ & [?|[? _]]); lia. Qed.

(** Once the epoch has moved on, no round is current. *)
Lemma rounds_outdated s s' : Rounds s -> s'.(c_rounds) = s.(c_rounds) -> s.(c_epoch) < s'.(c_epoch) ->
  (s.(c_next_task) <= s'.(c_next_task))%nat -> Rounds s'.
Proof.
  intros HR Hr He Hn. constructor; rewrite Hr.
  - apply Forall_forall. intros r Hin. pose proof (round_epoch s r HR Hin). destruct HR as [Ho _ _].
    apply (proj1 (Forall_forall _ _) Ho) in Hin as (? & ? & _). split_and!; [lia|done|left; lia].
  - by destruct HR.
  - intros r1 r2 H1 _ H2. pose proof (round_epoch s r1 HR H1). lia.
Qed.

(** A round moves from one await to the next, or ends. *)
Lemma put_round_gen s s' r pc : r ∈ s.(c_rounds) -> s'.(c_rounds) = s.(c_rounds) -> NoDup (map r_id s.(c_rounds)) ->
  (forall x, x ∈ s.(c_rounds) -> x.(r_id) <> r.(r_id) -> round_ok s' x) ->
  (forall x1 x2, x1 ∈ s.(c_rounds) -> x2 ∈ s.(c_rounds) -> x1.(r_epoch) = s'.(c_epoch) -> x2.(r_epoch) = s'.(c_epoch) -> x1 = x2) ->
  (forall pc', pc = Some pc' -> round_ok s' (mkRound r.(r_id) r.(r_epoch) r.(r_capture) r.(r_stops) pc')) ->
  Rounds (snd (put_round r pc s')).
Proof.
  intros Hr Hrs Hids Hother Hsingle Hpc. unfold put_round, mmodify. simpl snd.
  destruct pc as [pc|]; constructor; simpl; rewrite Hrs.
  - apply Forall_map, Forall_forall. intros x Hx. simpl. case_bool_decide as E; [by apply (Hpc pc)|by apply Hother].
  - rewrite map_map. erewrite map_ext; [exact Hids|]. intros x. simpl. by case_bool_decide as E.
  - intros x1 x2 (y1 & -> & H1)%list_elem_of_fmap (y2 & -> & H2)%list_elem_of_fmap.
    repeat case_bool_decide; try done; simpl; intros E1 E2.
    + by rewrite (Hsingle r y2 Hr H2 E1 E2) in *.
    + by rewrite (Hsingle r y1 Hr H1 E2 E1) in *.
    + by apply Hsingle.
  - apply Forall_forall. intros x [Hx Hne]%elem_of_filter_list. apply negb_true_iff, bool_decide_eq_false in Hne. by apply Hother.
  - by apply NoDup_map_filter.
  - intros x1 x2 [Hx1 _]%elem_of_filter_list [Hx2 _]%elem_of_filter_list. by apply Hsingle.
Qed.

(** In a state whose rounds are in order. *)
Lemma put_round_same s r pc : Rounds s -> r ∈ s.(c_rounds) ->
  (forall pc', pc = Some pc' -> round_ok s (mkRound r.(r_id) r.(r_epoch) r.(r_capture) r.(r_stops) pc')) ->
  Rounds (snd (put_round r pc s)).
Proof.
  intros [Ho Hids Hs] Hr Hpc. eapply (put_round_gen s s); try done.
  intros x Hx _. by apply (proj1 (Forall_forall _ _) Ho x Hx).
Qed.

(** After a segment of the current round [r]. *)
Lemma put_round_next s s' r pc : Rounds s -> r ∈ s.(c_rounds) -> s'.(c_rounds) = s.(c_rounds) ->
  (s.(c_next_task) <= s'.(c_next_task))%nat -> s.(c_epoch) <= s'.(c_epoch) -> r.(r_epoch) = s.(c_epoch) ->
  (forall pc', pc = Some pc' -> own_permit r.(r_epoch) pc' /\ current_round (mkRound r.(r_id) r.(r_epoch) r.(r_capture) r.(r_stops) pc') s') ->
  Rounds (snd (put_round r pc s')).
Proof.
  intros [Ho Hids Hs] Hr Hrs Hn He Hre Hpc.
  assert (forall x, x ∈ s.(c_rounds) -> (r_id x < s'.(c_next_task))%nat /\ own_permit x.(r_epoch) x.(r_pc) /\ (x = r \/ x.(r_epoch) < s'.(c_epoch))) as Hx.
  { intros x Hx. pose proof (proj1 (Forall_forall _ _) Ho x Hx) as (Hi & Hown & [Hlt|[Hcur _]]); (split_and!; [lia|done|]); [right; lia|].
    left. by apply Hs. }
  eapply (put_round_gen s s'); try done.
  - intros x Hin Hne. destruct (Hx x Hin) as (? & ? & [->|?]); [done|]. split_and!; [done..|by left].
  - intros x1 x2 H1 H2 E1 E2. destruct (Hx x1 H1) as (_ & _ & [->|?]); [|lia]. destruct (Hx x2 H2) as (_ & _ & [->|?]); [done|lia].
  - intros pc' Epc. destruct (Hpc pc' Epc) as [Hown Hcur]. destruct (Hx r Hr) as (? & _). split_and!; [done..|by right].
Qed.

Lemma find_round_spec i s r : find_round i s = Some r -> r ∈ s.(c_rounds).
Proof. intros [Hr _]%find_some. by apply list_elem_of_In. Qed.

(** ** A delivery to a round *)

Lemma base_put_round s r pc : Base s -> Base (snd (put_round r pc s)).
Proof. intros []. by constructor. Qed.

(** A round that is no longer valid does nothing but end. *)
Lemma obsolete_body r d uuid m s : round_segment c r d uuid = Some m -> valid r.(r_epoch) s = false ->
  own_permit r.(r_epoch) r.(r_pc) -> exists x, m s = (Err x, s).
Proof.
  intros Hm Hv Hown.
  assert (forall A (k : M CState A), (check r.(r_epoch) ;;; k) s = (Err Cancelled, s)) as Hcheck.
  { intros A k. unfold check, mgets, mbind_. by rewrite Hv. }
  unfold round_segment in Hm. destruct (r_pc r) as [| |text|trigger user n request|user n p permit task], d as [t|x|x|x]; simplify_eq;
    match goal with |- context [or_raise ?v _] => destruct v as [v'|e'] end; simpl; try by eexists.
  - exists Cancelled. apply Hcheck.
  - exists Cancelled. apply Hcheck.
  - exists Cancelled. apply Hcheck.
  - exists Cancelled. unfold after_reply, mgets, mbind_. unfold permit_current. simpl in Hown. by rewrite Hown, Hv.
Qed.

Lemma obsolete_segment r d uuid m s : round_segment c r d uuid = Some m -> valid r.(r_epoch) s = false ->
  own_permit r.(r_epoch) r.(r_pc) -> segment c r.(r_epoch) m s = (Ok None, snd (round_finally r.(r_epoch) s)).
Proof.
  intros Hm Hv Hown. destruct (obsolete_body r d uuid m s Hm Hv Hown) as [x Hx].
  unfold segment, mtry, on_round_error, mgets. unfold mbind_ at 1. rewrite Hx. unfold mbind_. by rewrite Hv.
Qed.

(** The segment of a valid round, as its await is delivered. *)
Lemma round_segment_live s0 r d uuid m s : round_segment c r d uuid = Some m -> deliverable r d uuid s = true ->
  triple (Live s0 r.(r_epoch) (fun s1 => pc_ok r.(r_stops) r.(r_pc) s1 /\ s1 = s)) m
    (Post s0 r.(r_epoch) r.(r_stops)) (fun _ => Live s0 r.(r_epoch) (fun _ => True)).
Proof.
  intros Hm Hd. unfold round_segment in Hm.
  destruct (r_pc r) as [| |text|trigger user n request|user n p permit task], d as [v|v|v|v]; simplify_eq;
    (destruct v as [v|x]; [|by apply seg_raise]); cbn [or_raise].
  - eapply seg_conseq; [|apply seg_after_transcript]. by intros s1 (_ & _ & ? & _).
  - eapply seg_conseq; [|apply seg_after_stops]. intros s1 (_ & _ & (Hc & Hi & Hn) & ->). split_and!; [done..|].
    intros t Ht He. destruct v. eapply (stops_gathered r _ uuid s); [done|exact Hd|exact Ht|]. by apply Hn.
  - eapply seg_conseq; [|apply seg_after_decision]. intros s1 (_ & _ & Hpc & ->). split; [exact Hpc|].
    intros (p & -> & Hp)%list_elem_of_fmap. simpl in Hd. apply negb_true_iff, not_true_iff_false in Hd. apply Hd, existsb_exists.
    exists p. split; [by apply list_elem_of_In|by apply bool_decide_eq_true].
  - eapply seg_conseq; [|apply seg_after_reply]. by intros s1 (_ & _ & ? & _).
Qed.

Lemma post_next s0 r pc s : Post s0 r.(r_epoch) r.(r_stops) pc s ->
  Mid s0 s /\ forall pc', pc = Some pc' ->
    own_permit r.(r_epoch) pc' /\ current_round (mkRound r.(r_id) r.(r_epoch) r.(r_capture) r.(r_stops) pc') s.
Proof.
  destruct pc as [pc|]; simpl; [|done]. intros (Hm & (Hc & Hh & He)%valid_spec & Hpc). split; [done|].
  intros pc' [= <-]. split; [|done]. destruct pc; simpl in *; try done. destruct Hpc as (_ & _ & _ & ->). done.
Qed.

Definition Step (s s' : CState) : Prop := Inv s' /\ Evolves s s'.

Lemma resume_step i d uuid s : Inv s -> Step s (snd (fire c (LResume i d uuid) s)).
Proof.
  intros [Hb HR]. assert (Step s s) as Hidle by by split.
  unfold fire, mget. unfold mbind_ at 1. cbn beta iota.
  destruct (find_round i s) as [r|] eqn:Ef; [|exact Hidle]. apply find_round_spec in Ef.
  destruct (deliverable r d uuid s) eqn:Hd; [|exact Hidle].
  destruct (round_segment c r d uuid) as [m|] eqn:Em; [|exact Hidle].
  pose proof (proj1 (Forall_forall _ _) (r_ok _ HR) r Ef) as (Hid & Hown & Hcur).
  destruct (valid (r_epoch r) s) eqn:Hv.
  - destruct Hcur as [Hlt|(He & Hh & Hc & Hpc)]; [destruct (valid_spec _ _ Hv) as (_ & _ & ?); lia|].
    assert (Live s (r_epoch r) (fun s1 => pc_ok (r_stops r) (r_pc r) s1 /\ s1 = s) s) as Hlive.
    { split; [|by split_and!]. split_and!; [exact Hb|done|done|reflexivity]. }
    pose proof (segment_ok _ _ _ _ _ (round_segment_live s r d uuid m s Em Hd) s Hlive) as H1.
    unfold mbind_. destruct (segment c (r_epoch r) m s) as [[pc|x] s']; [|done].
    destruct (post_next s r pc s' H1) as [(Hb' & Hr' & Hn' & Hev') Hpc'].
    split; [split; [by apply base_put_round|]|].
    + eapply put_round_next; try done. by apply ev_epoch.
    + etransitivity; [exact Hev'|by apply evolves_same].
  - unfold mbind_. rewrite (obsolete_segment r d uuid m s Em Hv Hown).
    assert (core (snd (round_finally (r_epoch r) s)) = core s) as Hcore by apply silent_finally.
    pose proof (on_core_eq Base s _ Hcore Hb) as Hb1. pose proof (on_core_eq Rounds s _ Hcore HR) as HR1.
    pose proof (on_core_eq (Evolves s) s _ Hcore ltac:(reflexivity)) as Hev1.
    assert (c_rounds (snd (round_finally (r_epoch r) s)) = c_rounds s) as Hrs by exact (f_equal c_rounds Hcore).
    split; [split; [by apply base_put_round|]|].
    + apply put_round_same; [done|by rewrite Hrs|done].
    + etransitivity; [exact Hev1|by apply evolves_same].
Qed.

(** ** The other labels *)

Lemma step_refl s : Inv s -> Step s s.
Proof. intros Hs. by split. Qed.

(** A silent transition. *)
Lemma step_silent {A} (m : M CState A) s : silent m -> Inv s -> Step s (snd (m s)).
Proof.
  intros Hm [Hb HR]. specialize (Hm s). split; [split|].
  - exact (on_core_eq Base s _ Hm Hb).
  - exact (on_core_eq Rounds s _ Hm HR).
  - eapply (on_core_eq (Evolves s) s); [exact Hm|reflexivity].
Qed.

Lemma start_step i s : Inv s -> Step s (snd (fire c (LStart i) s)).
Proof.
  intros [Hb HR]. unfold fire, mget. unfold mbind_ at 1. cbn beta iota.
  destruct (find_round i s) as [r|] eqn:Ef; [|by apply step_refl]. apply find_round_spec in Ef.
  destruct (r_pc r) eqn:Epc; try by apply step_refl.
  pose proof (proj1 (Forall_forall _ _) (r_ok _ HR) r Ef) as (Hid & Hown & Hcur).
  split; [split; [by apply base_put_round|]|by apply evolves_same].
  apply put_round_same; [done..|]. intros pc' [= <-]. split; [done|]. split; [done|].
  destruct Hcur as [?|(? & ? & ? & Hpc)]; [by left|right]. rewrite Epc in Hpc. by split_and!.
Qed.

Lemma drop_step i s : Inv s -> Step s (snd (fire c (LDrop i) s)).
Proof.
  intros [Hb HR]. unfold fire, mget. unfold mbind_ at 1. cbn beta iota.
  destruct (find_round i s) as [r|] eqn:Ef; [|by apply step_refl]. apply find_round_spec in Ef.
  destruct (r_pc r) eqn:Epc; try by apply step_refl.
  split; [split; [by apply base_put_round|]|by apply evolves_same]. by apply put_round_same.
Qed.

Lemma phase_step p ph s : Inv s -> Step s (snd (fire c (LPhase p ph) s)).
Proof. intros Hs. apply step_silent; [|done]. unfold fire, permit_phase. silent. Qed.

Lemma closed_step s : Inv s -> Step s (snd (fire c LClosed s)).
Proof. intros Hs. apply step_silent; [|done]. unfold fire. silent. Qed.

Lemma base_unheld s : Base s -> Base (set_c_held false s).
Proof. intros []. constructor; try done. intros p Hp. destruct (b_permits0 p Hp) as [? Hq]. split; [done|]. intros E. by destruct (Hq E) as (_ & ? & ?). Qed.

(** [press] and [close] move to a new epoch with a stop group. *)
Lemma base_advance listed s : Base s -> (listed = false -> s.(c_closed) = true) ->
  let s' := new_stop listed (next_epoch (set_c_held false s)) in Base s' /\ unspoken s' /\ Covered s'.
Proof.
  intros Hb Hl. destruct (base_next_epoch (set_c_held false s)) as [Hb1 Hu]; [by apply base_unheld|done|].
  split_and!; [by apply base_new_stop|exact Hu|apply new_stop_covers].
Qed.

Lemma base_hold s : Base s -> unspoken s -> Covered s -> s.(c_closed) = false -> Base (set_c_held true s).
Proof.
  intros [] Hu Hcov Hc. constructor; try done.
  intros p Hp. simpl. specialize (Hu p Hp). split; [lia|]. lia.
Qed.

(** An accepted press: the state [press] leaves. *)
Definition pressed (cap : string) (s : CState) : CState := snd
  ((mmodify (fun s =>
      set_c_captures (s.(c_captures) ++ [cap])
     (set_c_capture (Some cap)
     (set_c_held true
     (set_c_epoch (s.(c_epoch) + 1)
     (set_c_active_turn None
     (set_c_state "recording"
     (set_c_outcome "waiting"
     (set_c_error ""
     (set_c_member_states (map (fun m => (m.(mb_companion_id),
        if dict_has s.(c_failures) m.(mb_companion_id) then "failed" else "waiting")) members) s))))))))) ;;;
    event "press" [("capture_id", VStr cap)] ;;;
    dispatch_stop c) s).

Definition press_accepted (dev cap : string) (s : CState) : bool :=
  negb s.(c_closed) && bool_decide (dev = c.(sc_input_device_id)) &&
  negb (bool_decide (s.(c_capture) = Some cap) && s.(c_held)) &&
  negb (is_empty cap || bool_decide (cap ∈ s.(c_captures)) || bool_decide (256 <= length s.(c_captures))%nat).

Lemma press_run dev cap s :
  press c dev cap s =
  if press_accepted dev cap s then (Ok (s.(c_epoch) + 1), pressed cap s)
  else if negb s.(c_closed) && bool_decide (dev = c.(sc_input_device_id)) && (bool_decide (s.(c_capture) = Some cap) && s.(c_held))
  then (Ok s.(c_epoch), s)
  else (Err (value_error (if s.(c_closed) || negb (bool_decide (dev = c.(sc_input_device_id)))
     then "input is not authorized for this session"
     else "invalid/replayed capture or session capture budget exhausted")), s).
Proof.
  unfold press, press_accepted, mget. unfold mbind_ at 1. cbn beta iota.
  destruct (c_closed s); [done|]. destruct (bool_decide (dev = _)); [|done]. simpl orb. simpl andb. cbn iota.
  destruct (bool_decide (c_capture s = Some cap) && c_held s); [done|]. simpl negb. cbn iota.
  by destruct (is_empty cap || _ || _).
Qed.

Lemma pressed_core cap s : core (pressed cap s) = core (set_c_held true (new_stop true (next_epoch (set_c_held false s)))).
Proof. done. Qed.

Lemma press_step dev cap s : Inv s -> Step s (snd (fire c (LPress dev cap) s)).
Proof.
  intros [Hb HR]. unfold fire, mget. unfold mbind_ at 1 2. cbn beta iota. rewrite press_run.
  destruct (press_accepted dev cap s) eqn:Ea; [|destruct (negb _ && _ && _); by apply step_refl].
  assert (c_closed s = false) as Hc. { unfold press_accepted in Ea. by destruct (c_closed s). }
  simpl snd. pose proof (pressed_core cap s) as Hcore.
  destruct (base_advance true s Hb) as (Hb1 & Hu & Hcov); [done|].
  split; [split; [apply (on_core_eq Base _ _ Hcore)|apply (on_core_eq Rounds _ _ Hcore)]|apply (on_core_eq (Evolves s) _ _ Hcore)].
  - by apply base_hold.
  - eapply (rounds_outdated s); simpl; [done..|lia|lia].
  - constructor; simpl; [lia|congruence|done|done|done].
Qed.

Lemma close_step s : Inv s -> Step s (snd (fire c LClose s)).
Proof.
  intros [Hb HR]. unfold fire, close, mget. unfold mbind_ at 1 2. cbn beta iota.
  destruct (c_closed s) eqn:Hc; [by apply step_refl|].
  destruct (base_next_epoch (set_c_held false s)) as [Hb1 Hu]; [by apply base_unheld|done|].
  assert (Base (set_c_closed true (next_epoch (set_c_held false s)))) as Hb2.
  { destruct Hb1. constructor; try done. intros p Hp. specialize (Hu p Hp). simpl in *. split; lia. }
  pose proof (base_new_stop false _ Hb2 Hu (fun _ => eq_refl)) as Hb3.
  split; [split|].
  - by eapply (on_core_eq Base _ _ _ Hb3).
  - eapply (rounds_outdated s); simpl; [done..|lia|lia].
  - constructor; simpl; [lia|done|done|done|done].
  Unshelve. done.
Qed.

Lemma release_step dev cap s : Inv s -> Step s (snd (fire c (LRelease dev cap) s)).
Proof.
  intros [Hb HR]. unfold fire, release, mget. unfold mbind_ at 1 2 3. cbn beta iota.
  destruct (negb _ || c_closed s) eqn:E1; [by apply step_refl|]. destruct (negb _ || negb (c_held s)) eqn:E2; [by apply step_refl|].
  apply orb_false_iff in E1 as [_ Hc]. apply orb_false_iff in E2 as [_ Hh%negb_false_iff].
  pose proof Hb as [_ _ Hl Hp _ _ Hheld]. destruct (Hheld Hh) as [_ Hcov].
  set (r := mkRound s.(c_next_task) s.(c_epoch) cap (map st_id (List.filter st_listed s.(c_stops))) RCreated).
  set (s1 := set_c_next_task (S s.(c_next_task)) (set_c_rounds (s.(c_rounds) ++ [r]) (set_c_held false s))).
  match goal with |- Step s (snd ?x) => assert (core (snd x) = core s1) as Hcore by done end.
  split; [split; [apply (on_core_eq Base _ _ Hcore)|apply (on_core_eq Rounds _ _ Hcore)]|apply (on_core_eq (Evolves s) _ _ Hcore)].
  - destruct (base_unheld s Hb) as [Hst]. constructor; try done. intros t Ht. destruct (Hst t Ht). simpl in *. split; lia.
  - assert (forall x, x ∈ s.(c_rounds) -> (r_id x < s.(c_next_task))%nat /\ own_permit x.(r_epoch) x.(r_pc) /\ x.(r_epoch) < s.(c_epoch)) as Hold.
    { intros x Hx. destruct HR as [Ho _ _]. pose proof (proj1 (Forall_forall _ _) Ho x Hx) as (? & ? & [?|(_ & Hh' & _)]); [done|congruence]. }
    constructor; simpl.
    + apply Forall_app. split; [|apply Forall_singleton].
      * apply Forall_forall. intros x Hx. destruct (Hold x Hx) as (? & ? & ?). split; [simpl; lia|]. split; [done|by left].
      * split; [simpl; lia|]. split; [done|]. right. split; [done|]. split; [done|]. split; [exact Hc|]. split; [exact Hcov|]. split.
        -- unfold issued. simpl. rewrite (proj2 (filter_nil_iff _ _)); [done|]. intros p Hpin. apply Z.eqb_neq. intros Ep.
           destruct (Hp p Hpin) as [_ Hq]. destruct (Hq Ep) as (? & _). congruence.
        -- intros t Ht _. apply list_elem_of_fmap_2. apply elem_of_filter_list. split; [done|]. by apply Hl.
    + rewrite map_app. apply NoDup_app. split_and!; [by destruct HR| |apply NoDup_singleton].
      intros k (x & -> & Hx)%list_elem_of_fmap Hk%list_elem_of_singleton. destruct (Hold x Hx). simpl in Hk. lia.
    + intros x1 x2 [H1| ->%list_elem_of_singleton]%elem_of_app [H2| ->%list_elem_of_singleton]%elem_of_app E1 E2; try done.
      * destruct (Hold x1 H1) as (_ & _ & ?). lia.
      * destruct (Hold x1 H1) as (_ & _ & ?). lia.
      * destruct (Hold x2 H2) as (_ & _ & ?). lia.
  - by apply evolves_same.
Qed.

(** *** Stop receipts *)

Lemma put_stop_old t m s t' : t ∈ s.(c_stops) -> t' ∈ (put_stop t m s).(c_stops) ->
  exists t0, t0 ∈ s.(c_stops) /\ t'.(st_id) = t0.(st_id) /\ t'.(st_epoch) = t0.(st_epoch) /\ t'.(st_listed) = t0.(st_listed).
Proof.
  intros Ht. unfold put_stop. simpl. case_bool_decide.
  - intros [Ht' _]%elem_of_filter_list. by exists t'.
  - intros (x & -> & Hx)%list_elem_of_fmap. case_bool_decide; [by exists t|by exists x].
Qed.

Lemma put_stop_keep t m s t0 m' : NoDup (map st_id s.(c_stops)) -> t ∈ s.(c_stops) -> t0 ∈ s.(c_stops) ->
  m' ∈ t0.(st_pending) -> m' <> m ->
  exists t', t' ∈ (put_stop t m s).(c_stops) /\ t'.(st_epoch) = t0.(st_epoch) /\ m' ∈ t'.(st_pending).
Proof.
  intros Hn Ht Ht0 Hm' Hne.
  assert (st_id t0 = st_id t -> m' ∈ List.filter (fun x => negb (bool_decide (x = m))) (st_pending t)) as Hin.
  { intros E. rewrite (NoDup_map_elem _ _ _ _ Hn Ht0 Ht E) in Hm'. apply elem_of_filter_list. split; [done|].
    by apply negb_true_iff, bool_decide_eq_false. }
  unfold put_stop. simpl. case_bool_decide as Ep.
  - exists t0. split_and!; [|done..]. apply elem_of_filter_list. split; [done|]. apply negb_true_iff, bool_decide_eq_false.
    intros E. apply Hin in E. rewrite Ep in E. by apply elem_of_nil in E.
  - destruct (decide (st_id t0 = st_id t)) as [E|E].
    + rewrite (NoDup_map_elem _ _ _ _ Hn Ht0 Ht E) in *.
      exists (mkStop (st_id t) (st_epoch t) (List.filter (fun x => negb (bool_decide (x = m))) (st_pending t)) (st_listed t)).
      split_and!; [|done|by apply Hin]. apply list_elem_of_fmap. exists t. by rewrite bool_decide_eq_true_2.
    + exists t0. split_and!; [|done..]. apply list_elem_of_fmap. exists t0. by rewrite bool_decide_eq_false_2.
Qed.

Lemma put_stop_ids t m s : NoDup (map st_id s.(c_stops)) -> NoDup (map st_id (put_stop t m s).(c_stops)).
Proof.
  intros Hn. unfold put_stop. simpl. case_bool_decide; [by apply NoDup_map_filter|].
  rewrite map_map. erewrite map_ext; [exact Hn|]. intros x. simpl. by case_bool_decide.
Qed.

(** What a receipt does to the failures and the receipts. *)
Definition receipt (epoch : Z) (m : Member) (r : res unit) (s : CState) : CState :=
  match r with
  | Ok _ => set_c_acks ((epoch, m.(mb_companion_id)) :: s.(c_acks))
      (if epoch =? s.(c_epoch) then set_c_failures (dict_pop s.(c_failures) m.(mb_companion_id)) s else s)
  | Err e => if is_exception e && (epoch =? s.(c_epoch))
      then set_c_failures (dict_set s.(c_failures) m.(mb_companion_id) (failure_text e)) s else s
  end.

Lemma stop_done_run epoch m r s : exists s1, stop_done epoch m r s = (Ok tt, s1) /\ core s1 = core (receipt epoch m r s).
Proof.
  unfold stop_done, receipt, mwhen. destruct r as [u|e].
  - unfold mbind_, mgets. destruct (epoch =? c_epoch s); by eexists.
  - destruct (is_exception e); [|by eexists]. unfold mbind_, mgets. destruct (epoch =? c_epoch s); by eexists.
Qed.

Lemma receipt_other epoch m r s : epoch <> s.(c_epoch) -> (receipt epoch m r s).(c_failures) = s.(c_failures).
Proof. intros Hne. apply Z.eqb_neq in Hne. unfold receipt. destruct r as [u|e]; rewrite Hne; [done|]. by rewrite andb_false_r. Qed.

Lemma receipt_same epoch m r s : let s' := receipt epoch m r s in
  s'.(c_epoch) = s.(c_epoch) /\ s'.(c_stops) = s.(c_stops) /\ s'.(c_permits) = s.(c_permits) /\ s'.(c_held) = s.(c_held) /\
  s'.(c_closed) = s.(c_closed) /\ s'.(c_next_task) = s.(c_next_task) /\ s'.(c_active_turn) = s.(c_active_turn) /\
  s'.(c_rounds) = s.(c_rounds) /\ forall a, a ∈ s.(c_acks) -> a ∈ s'.(c_acks).
Proof.
  unfold receipt. destruct r; [destruct (epoch =? _)|destruct (_ && _)]; simpl; split_and!; try done; intros x Hx; by right.
Qed.

(** After the receipt of [m] in the current epoch, [m] confirmed or failed; the
    others are as they were. *)
Lemma receipt_covers t m r s m' : stop_delivery r s = true -> s.(c_closed) = false ->
  (s.(c_epoch), m'.(mb_companion_id)) ∈ s.(c_acks) \/ dict_has s.(c_failures) m'.(mb_companion_id) = true \/
    (m' = m /\ t.(st_epoch) = s.(c_epoch)) ->
  let s' := receipt t.(st_epoch) m r s in
  (s.(c_epoch), m'.(mb_companion_id)) ∈ s'.(c_acks) \/ dict_has s'.(c_failures) m'.(mb_companion_id) = true.
Proof.
  intros Hd Hc Hm. unfold receipt. destruct r as [u|e].
  - simpl. destruct Hm as [Ha|[Hf|[-> He]]]; [left; by right| |left; rewrite He; by left].
    destruct (Z.eqb_spec (st_epoch t) (c_epoch s)) as [E|E]; simpl; [|by right].
    destruct (decide (mb_companion_id m' = mb_companion_id m)) as [Em|Em]; [left; rewrite E, Em; by left|right].
    unfold dict_has in *. by rewrite dict_pop_get_ne.
  - simpl in Hd. rewrite Hc, orb_false_r in Hd. rewrite Hd. simpl.
    destruct (Z.eqb_spec (st_epoch t) (c_epoch s)) as [E|E]; simpl.
    + destruct Hm as [Ha|[Hf|[-> He]]]; [by left|right..]; unfold dict_has in *.
      * destruct (decide (mb_companion_id m' = mb_companion_id m)) as [Em|Em]; [by rewrite Em, dict_get_set_eq|by rewrite dict_get_set_ne].
      * by rewrite dict_get_set_eq.
    + destruct Hm as [Ha|[Hf|[-> He]]]; [by left|by right|done].
Qed.

Section Receipt.
Context (t : StopTask) (m : Member) (r : res unit) (s : CState).
Context (Hb : Base s) (Ht : t ∈ s.(c_stops)) (Hd : stop_delivery r s = true).
Notation s2 := (receipt t.(st_epoch) m r s).
Notation s3 := (put_stop t m s2).

Lemma receipt_stops : s2.(c_stops) = s.(c_stops).
Proof. by destruct (receipt_same t.(st_epoch) m r s) as (_ & ? & _). Qed.

Lemma receipt_quiet e : Quiet e s -> e = s.(c_epoch) -> Quiet e s3.
Proof.
  intros (Hf & Hs & Ha) ->. pose proof (receipt_same t.(st_epoch) m r s) as (_ & Hst & _ & _ & _ & _ & _ & _ & Hacks).
  split_and!.
  - unfold put_stop. simpl. rewrite receipt_other; [done|]. by apply Hs.
  - intros t' Ht'. destruct (put_stop_old t m s2 t') as (t0 & Ht0 & _ & -> & _); [by rewrite Hst|done|]. rewrite Hst in Ht0. by apply Hs.
  - intros m' Hm'. by apply Hacks, Ha.
Qed.

Lemma receipt_covered : s.(c_closed) = false -> Covered s -> Covered s3.
Proof.
  intros Hc Hcov m' Hm'. pose proof (receipt_same t.(st_epoch) m r s) as (He & Hst & _).
  change (c_epoch s3) with (c_epoch s2). change (c_acks s3) with (c_acks s2). change (c_failures s3) with (c_failures s2).
  rewrite He. destruct (Hcov m' Hm') as [(t0 & Ht0 & Et0 & Hp0)|Hdone].
  - destruct (decide (m' = m)) as [->|Hne].
    + destruct (decide (st_id t0 = st_id t)) as [Hid|Hid].
      * right. rewrite (NoDup_map_elem _ _ _ _ (b_stop_ids s Hb) Ht0 Ht Hid) in Et0. apply receipt_covers; [done..|]. right. by right.
      * left. exists t0. split_and!; [|done..]. unfold put_stop. simpl. rewrite Hst. case_bool_decide.
        -- apply elem_of_filter_list. split; [done|]. by apply negb_true_iff, bool_decide_eq_false.
        -- apply list_elem_of_fmap. exists t0. by rewrite bool_decide_eq_false_2.
    + left. destruct (put_stop_keep t m s2 t0 m') as (t' & Ht' & Et' & Hp'); rewrite ?Hst; try done; [by apply b_stop_ids|].
      exists t'. by rewrite Et'.
  - right. apply receipt_covers; [done..|]. destruct Hdone; auto.
Qed.

Lemma receipt_old t' : t' ∈ s3.(c_stops) -> exists t0, t0 ∈ s.(c_stops) /\ t'.(st_id) = t0.(st_id) /\
  t'.(st_epoch) = t0.(st_epoch) /\ t'.(st_listed) = t0.(st_listed).
Proof. intros Ht'. rewrite <- receipt_stops. by apply (put_stop_old t m); [rewrite receipt_stops|]. Qed.

Lemma base_receipt : Base s3.
Proof.
  pose proof (receipt_same t.(st_epoch) m r s) as (He & Hst & Hp & Hh & Hc & Hn & _ & _ & _). pose proof receipt_old as Hold.
  constructor.
  - intros t' (t0 & Ht0 & -> & -> & _)%Hold. unfold put_stop; simpl. rewrite He, Hn. by apply b_stop_epochs.
  - apply put_stop_ids. rewrite Hst. by apply b_stop_ids.
  - intros t' Hc' (t0 & Ht0 & _ & _ & ->)%Hold. eapply b_listed; [done| |done]. by rewrite <- Hc.
  - intros p. unfold put_stop at 1 2 3 4 5 6; simpl. rewrite Hp, He, Hh, Hc. intros Hpp. destruct (b_permits s Hb p Hpp) as [? Hq].
    split; [done|]. intros E. destruct (Hq E) as (? & ? & HQ). split_and!; [done..|]. by apply receipt_quiet.
  - intros e. unfold issued, put_stop. simpl. rewrite Hp. by apply b_issued.
  - unfold turn_ids, put_stop. simpl. rewrite Hp. by apply b_turns.
  - unfold put_stop at 1 2; simpl. rewrite Hh, Hc. intros H1. destruct (b_held s Hb H1) as [? ?]. split; [done|]. by apply receipt_covered.
Qed.

Lemma rounds_receipt : Rounds s -> Rounds s3.
Proof.
  pose proof (receipt_same t.(st_epoch) m r s) as (He & Hst & Hp & Hh & Hc & Hn & _ & Hr & _).
  intros [Ho Hids Hsg]. constructor; unfold put_stop; simpl; rewrite Hr, ?He; [|done..].
  eapply Forall_impl; [exact Ho|]. intros x (Hi & Hown & Hx). split; [simpl; by rewrite Hn|]. split; [done|].
  simpl. rewrite He. destruct Hx as [?|(Hxe & Hxh & Hxc & Hpc)]; [by left|right].
  split; [simpl; congruence|]. split; [simpl; congruence|]. split; [simpl; congruence|].
  assert (issued (c_epoch s) s3 = issued (c_epoch s) s) as Hiss by (unfold issued, put_stop; simpl; by rewrite Hp).
  assert (c_epoch s3 = c_epoch s) as He3 by exact He.
  change (pc_ok (r_stops x) (r_pc x) s3). unfold pc_ok in *. rewrite !He3, Hiss. destruct (r_pc x).
  1-3: destruct Hpc as (Hcov & Hz & Hin); split; [by apply receipt_covered|split; [done|]];
    intros t' (t0 & Ht0 & -> & -> & _)%receipt_old Et'; by apply Hin.
  - destruct Hpc as (Hq & ?). split; [by apply receipt_quiet|done].
  - destruct Hpc as (Hq & ?). split; [by apply receipt_quiet|done].
Qed.
End Receipt.

Lemma stop_step i m r s : Inv s -> Step s (snd (fire c (LStop i m r) s)).
Proof.
  intros [Hb HR]. unfold fire, mget. unfold mbind_ at 1. cbn beta iota.
  destruct (find_stop i s) as [t|] eqn:Ef; [|by apply step_refl].
  destruct (bool_decide (m ∈ st_pending t) && stop_delivery r s) eqn:Eg; [|by apply step_refl].
  apply andb_true_iff in Eg as [_ Hd]. unfold find_stop in Ef. apply find_some in Ef as [Ht _]. apply list_elem_of_In in Ht.
  destruct (stop_done_run t.(st_epoch) m r s) as (s1 & E1 & Hcore1). rewrite (mbind_ok _ _ _ _ _ E1). clear E1.
  set (s2 := receipt t.(st_epoch) m r s) in *.
  assert (core (snd (mmodify (put_stop t m) s1)) = core (put_stop t m s2)) as Hcore.
  { change (put_stop t m (core s1) = put_stop t m (core s2)). by rewrite Hcore1. }
  clear Hcore1. pose proof (receipt_same t.(st_epoch) m r s) as (He & Hst & Hp & Hh & Hc & Hn & Hact & Hr & Ha).
  fold s2 in He, Hst, Hp, Hh, Hc, Hn, Hact, Hr, Ha.
  split; [split; [apply (on_core_eq Base _ _ Hcore)|apply (on_core_eq Rounds _ _ Hcore)]|apply (on_core_eq (Evolves s) _ _ Hcore)].
  - by apply base_receipt.
  - by apply rounds_receipt.
  - constructor; unfold put_stop, turn_ids; simpl; rewrite ?He, ?Hc, ?Hp, ?Hact; [lia|done|done|exact Ha|by left].
Qed.

Lemma fire_step l s : Inv s -> Step s (snd (fire c l s)).
Proof.
  destruct l; auto using press_step, release_step, stop_step, start_step, resume_step, phase_step, drop_step, close_step, closed_step.
Qed.
End Safety.
