(* ===== verification/CoordinationFacts.v ===== *)
(** * The theorems on coordination sessions, for every run: who may speak, when, and
      what enters the public history. *)

From S2P Require Import Prelude CoreTypes Effects Coordination CoordinationSafety.
#[local] Open Scope eff_scope.

Section Facts.
Context `{SdkOps} (c : SessionConfig).
Notation members := c.(sc_members).
Notation Inv := (Inv c).

(** A run of a session. *)
Definition run_session (ls : list label) (s : CState) : CState := fold_left (fun s l => snd (fire c l s)) ls s.

Lemma init_inv : Inv (session_init c).
Proof.
  split; constructor; simpl; try (by intros ? ?%elem_of_nil); try apply NoDup_nil_2; try done.
  - by intros t _ ?%elem_of_nil.
  - intros e. unfold issued. simpl. lia.
  - by intros r1 r2 ?%elem_of_nil.
Qed.

Lemma reachable_inv s : reachable c s -> Inv s.
Proof. induction 1 as [|l s _ IH]; [apply init_inv|]. by apply (fire_step c l s IH). Qed.

Lemma reachable_run ls s : reachable c s -> reachable c (run_session ls s).
Proof. revert s. induction ls as [|l ls IH]; intros s Hs; [done|]. apply IH. by constructor. Qed.

Lemma permit_current_spec p s : permit_current p s = true <->
  s.(c_closed) = false /\ s.(c_held) = false /\ p.(pm_epoch) = s.(c_epoch) /\ s.(c_active_turn) = Some p.(pm_turn_id) /\
  dict_has s.(c_failures) p.(pm_companion) = false.
Proof.
  unfold permit_current, valid. rewrite !andb_true_iff, !negb_true_iff, Z.eqb_eq, bool_decide_eq_true. tauto.
Qed.

(** In every reachable state of a coordination session, when a reply permit is current then
    every member confirmed the stop of the permit's epoch, no member is in failure and no stop
    of that epoch is pending: nobody speaks before the silence barrier is complete. *)
Theorem speech_needs_silence s p :
  reachable c s -> p ∈ s.(c_permits) -> permit_current p s = true ->
  s.(c_failures) = [] /\
  (forall m, m ∈ members -> (p.(pm_epoch), m.(mb_companion_id)) ∈ s.(c_acks)) /\
  forall t, t ∈ s.(c_stops) -> t.(st_epoch) < p.(pm_epoch).
Proof.
  intros [Hb _]%reachable_inv Hp (_ & _ & He & _)%permit_current_spec.
  destruct (b_permits c s Hb p Hp) as [_ Hq]. destruct (Hq He) as (_ & _ & Hf & Hs & Ha).
  rewrite He. split_and!; [done..|]. intros t Ht. destruct (b_stop_epochs c s Hb t Ht). specialize (Hs t Ht). lia.
Qed.

Lemma revoked_step s s' p : Inv s -> p ∈ s.(c_permits) -> Evolves s s' -> permit_current p s = false -> permit_current p s' = false.
Proof.
  intros [Hb _] Hp [He Hc _ _ Ha] Hn. apply not_true_iff_false. intros (Hc' & Hh' & Hep & Ht & Hf)%permit_current_spec.
  destruct (b_permits c s Hb p Hp) as [Hle Hq]. assert (pm_epoch p = c_epoch s) as E by lia.
  destruct (Hq E) as (Hh & Hcl & Hfail & _). apply not_true_iff_false in Hn. apply Hn, permit_current_spec.
  split_and!; [done..| |by rewrite Hfail]. destruct (Ha _ Ht) as [?|Hnot]; [done|]. destruct Hnot. by apply list_elem_of_fmap_2.
Qed.

(** C12: A permit that is not current any more is never current again, whatever the session goes
    through: late packets of a revoked reply cannot become audible. *)
Theorem revoked_permits_stay_revoked ls s p :
  reachable c s -> p ∈ s.(c_permits) -> permit_current p s = false -> permit_current p (run_session ls s) = false.
Proof.
  revert s. induction ls as [|l ls IH]; intros s Hs Hp Hn; [done|]. simpl.
  destruct (fire_step c l s (reachable_inv s Hs)) as [_ Hev]. apply IH.
  - by constructor.
  - destruct (ev_permits _ _ Hev) as [k ->]. apply elem_of_app. by right.
  - by apply (revoked_step s _ p (reachable_inv s Hs)).
Qed.

(** In every reachable state at most one permit is current. *)
Theorem one_reply_at_a_time s p1 p2 :
  reachable c s -> p1 ∈ s.(c_permits) -> p2 ∈ s.(c_permits) ->
  permit_current p1 s = true -> permit_current p2 s = true -> p1 = p2.
Proof.
  intros [Hb _]%reachable_inv H1 H2 (_ & _ & _ & E1 & _)%permit_current_spec (_ & _ & _ & E2 & _)%permit_current_spec.
  eapply (NoDup_map_elem pm_turn_id); [apply (b_turns c s Hb)|done..|congruence].
Qed.

(** In every reachable state at most reply_budget permits were issued in any one epoch. *)
Theorem replies_within_budget s e : reachable c s -> (issued e s <= Z.to_nat c.(sc_reply_budget))%nat.
Proof. intros [Hb _]%reachable_inv. by apply (b_issued c s Hb). Qed.

(** An accepted press opens the next epoch, records, makes every permit not current and starts
    a stop of all members; a duplicate of the held press returns the epoch, and every other
    press raises; neither changes the state. *)
Theorem press_revokes dev cap s :
  let '(r, s') := press c dev cap s in
  if press_accepted c dev cap s then
    r = Ok (s.(c_epoch) + 1) /\ s'.(c_epoch) = s.(c_epoch) + 1 /\ s'.(c_state) = "recording" /\ s'.(c_held) = true /\
    s'.(c_capture) = Some cap /\ cap ∈ s'.(c_captures) /\ s'.(c_history) = s.(c_history) /\
    (forall p, permit_current p s' = false) /\
    exists t, t ∈ s'.(c_stops) /\ t.(st_epoch) = s'.(c_epoch) /\ t.(st_pending) = members
  else s' = s /\ (r = Ok s.(c_epoch) <-> s.(c_closed) = false /\ dev = c.(sc_input_device_id) /\ s.(c_capture) = Some cap /\ s.(c_held) = true).
Proof.
  rewrite press_run. destruct (press_accepted c dev cap s) eqn:Ea.
  - split_and!; try done.
    + apply elem_of_app. right. by apply list_elem_of_singleton.
    + intros p. apply not_true_iff_false. by intros (_ & ? & _)%permit_current_spec.
    + eexists. split; [apply elem_of_app; right; by apply list_elem_of_singleton|done].
  - unfold press_accepted in Ea. destruct (c_closed s); simpl in *; [split; [done|]; split; [done|by intros (? & _)]|].
    case_bool_decide; simpl in *; [|split; [done|]; split; [done|by intros (_ & ? & _)]].
    case_bool_decide; simpl in *; [|split; [done|]; split; [done|by intros (_ & _ & ? & _)]].
    destruct (c_held s); (split; [done|]); split; try done. by intros (_ & _ & _ & ?).
Qed.

(** *** A closed session *)

(** What a closed session keeps. *)
Definition Sealed (s s' : CState) : Prop :=
  s'.(c_closed) = s.(c_closed) /\ s'.(c_state) = s.(c_state) /\ s'.(c_history) = s.(c_history) /\
  s'.(c_permits) = s.(c_permits) /\ s'.(c_epoch) = s.(c_epoch) /\ s'.(c_outcome) = s.(c_outcome).

#[local] Instance Sealed_preorder : PreOrder Sealed.
Proof.
  split; [by intros s|]. intros s1 s2 s3 (?&?&?&?&?&?) (?&?&?&?&?&?). unfold Sealed. split_and!; congruence.
Qed.

Ltac sealed := repeat first
  [ preserve_step
  | match goal with |- preserves Sealed (mmodify _) => apply preserves_modify; intros ?; unfold put_stop; repeat case_match; done
                  | |- preserves Sealed (event _ _) => by apply preserves_modify end ].

Lemma closed_fire l s : Inv s -> s.(c_closed) = true -> Sealed s (snd (fire c l s)).
Proof.
  intros [_ HR] Hc. assert (forall e, valid e s = false) as Hv by (intros e; unfold valid; by rewrite Hc).
  unfold fire, mget. unfold mbind_ at 1. cbn beta iota. destruct l as [dev cap|dev cap|i m r|i|i d uuid|p ph|i| |].
  - unfold mbind_. rewrite press_run. unfold press_accepted. by rewrite Hc.
  - unfold release, mget. unfold mbind_ at 1 2. rewrite Hc, orb_true_r. done.
  - destruct (find_stop i s); [|done]. destruct (_ && _); [|done].
    match goal with |- Sealed s (snd (?m s)) => enough (preserves Sealed m) by auto end. unfold stop_done. sealed.
  - destruct (find_round i s) as [r|]; [|done]. by destruct (r_pc r).
  - destruct (find_round i s) as [r|] eqn:Ef; [|done]. apply find_round_spec in Ef.
    destruct (deliverable r d uuid s); [|done]. destruct (round_segment c r d uuid) as [m|] eqn:Em; [|done].
    pose proof (proj1 (Forall_forall _ _) (r_ok c _ HR) r Ef) as (_ & Hown & _).
    unfold mbind_. rewrite (obsolete_segment c r d uuid m s Em (Hv _) Hown).
    unfold round_finally, mmodify, put_round. simpl. by destruct (_ =? _).
  - unfold permit_phase, mgets. unfold mbind_ at 1. unfold permit_current. by rewrite Hv.
  - destruct (find_round i s) as [r|]; [|done]. by destruct (r_pc r).
  - unfold close, mget, mbind_. by rewrite Hc.
  - unfold mwhen. by rewrite Hc.
Qed.

(** Once a session is closed no run changes its state or history, issues a permit or has a
    current permit. *)
Theorem closed_session_is_silent ls s :
  reachable c s -> s.(c_closed) = true ->
  let s' := run_session ls s in
  s'.(c_closed) = true /\ s'.(c_state) = s.(c_state) /\ s'.(c_history) = s.(c_history) /\ s'.(c_permits) = s.(c_permits) /\
  forall p, permit_current p s' = false.
Proof.
  intros Hs Hc. assert (Sealed s (run_session ls s)) as (H1 & H2 & H3 & H4 & _).
  { revert s Hs Hc. induction ls as [|l ls IH]; intros s Hs Hc; [done|]. simpl.
    pose proof (closed_fire l s (reachable_inv s Hs) Hc) as H1. etransitivity; [exact H1|]. apply IH; [by constructor|].
    destruct H1 as [-> _]. done. }
  split_and!; try congruence. intros p. apply not_true_iff_false. intros (? & _)%permit_current_spec. congruence.
Qed.

(** *** The public history *)

Notation unheard m := (preserves (fun s s' : CState => s'.(c_history) = s.(c_history)) m).

#[local] Instance history_preorder : PreOrder (fun s s' : CState => s'.(c_history) = s.(c_history)).
Proof. split; [done|]. intros s1 s2 s3 H1 H2. congruence. Qed.

Ltac unheard := repeat first
  [ preserve_step
  | match goal with |- preserves _ (mmodify _) => apply preserves_modify; intros ?; unfold put_stop; repeat case_match; done
                  | |- preserves _ (event _ _) => by apply preserves_modify end ].

Lemma unheard_check e : unheard (check e).
Proof. unfold check. unheard. Qed.
Lemma unheard_fail reason stop : unheard (fail_round c reason stop).
Proof. unfold fail_round, dispatch_stop. unheard. Qed.
Lemma unheard_done e n : unheard (round_done e n).
Proof. unfold round_done, check. unheard. Qed.
Lemma unheard_ask e t u n uuid : unheard (ask_decision c e t u n uuid).
Proof. destruct n; simpl; unfold round_done, check, set_outcome; unheard. Qed.
Lemma unheard_decision e t u n rq res uuid : unheard (after_decision c e t u n rq res uuid).
Proof. unfold after_decision, round_done, check, set_outcome. unheard. Qed.

(** One statement, then a rest that says nothing. *)
Lemma said_then {A} (m : M CState A) (msg : Message) s :
  unheard m -> let s' := snd ((mmodify (fun s => set_c_history (s.(c_history) ++ [msg]) s) ;;; m) s) in
  s'.(c_history) = s.(c_history) ++ [msg].
Proof. intros Hm. unfold mbind_, mmodify. by rewrite (Hm _). Qed.

(** The message a segment adds. *)
Definition says (s : CState) (ok : Message -> Prop) (s' : CState) : Prop :=
  s'.(c_history) = s.(c_history) \/ exists msg, s'.(c_history) = s.(c_history) ++ [msg] /\ ok msg.

Lemma says_silent {A} (m : M CState A) ok s : unheard m -> says s ok (snd (m s)).
Proof. intros Hm. left. apply Hm. Qed.

Lemma says_then {A B} (m : M CState A) (k : A -> M CState B) ok s : says s ok (snd (m s)) ->
  (forall a, unheard (k a)) -> says s ok (snd (mbind_ m k s)).
Proof.
  intros Hm Hk. unfold mbind_. destruct (m s) as [[a|e] s'] eqn:E; simpl in *; [|done].
  specialize (Hk a s'). unfold says in *. by rewrite Hk.
Qed.

Lemma mlift_bind {A B} (r : res A) (k : A -> M CState B) s :
  mbind_ (mlift r) k s = match r with Ok a => k a s | Err e => (Err e, s) end.
Proof. done. Qed.

Lemma check_run e s : check e s = ((if valid e s then Ok tt else Err Cancelled), s).
Proof. unfold check, mgets, mbind_. by destruct (valid e s). Qed.

(** The user's words, in a valid round all of whose members are silent. *)
Definition user_message (capture text : string) (e : Z) (s : CState) (msg : Message) : Prop :=
  msg = mkMessage capture "user" c.(sc_input_device_id) text /\ is_empty (py_strip text) = false /\ valid e s = true /\ s.(c_failures) = [].

Lemma says_stops e capture text uuid s : says s (user_message capture text e s) (snd (after_stops c e capture text uuid s)).
Proof.
  unfold after_stops. unfold mbind_ at 1. rewrite check_run. destruct (valid e s) eqn:Hv; [|by left].
  unfold mgets, mbind_ at 1.
  case_bool_decide as Hf; cbn [negb]; cbn beta iota.
  - destruct (is_empty (py_strip text)) eqn:Et; [apply says_silent; unheard|].
    rewrite mlift_bind. destruct (check_message _); [|by left]. right. eexists. split; [apply said_then, unheard_ask|].
    by split_and!.
  - apply says_silent. apply preserves_bind; [typeclasses eauto|apply unheard_fail|intros; unheard].
Qed.

Lemma says_reply e user n p permit task played uuid s :
  says s (fun msg => msg = mkMessage permit.(pm_turn_id) "companion" permit.(pm_companion) played.(pl_text) /\
                     permit_current permit s = true /\ played.(pl_completed) = true)
    (snd (after_reply c e user n p permit task played uuid s)).
Proof.
  unfold after_reply, mgets. unfold mbind_ at 1. destruct (permit_current permit s) eqn:Hp; cbn [negb]; cbn beta iota; [|by left].
  unfold mbind_ at 1, mmodify at 1. destruct (pl_completed played); cbn [negb]; cbn beta iota; [|by left].
  rewrite mlift_bind. destruct (check_message _); [|by left]. right. eexists. split; [|by split_and!].
  unfold mbind_ at 1, mmodify at 1.
  match goal with |- c_history (snd (?f ?x)) = _ => enough (unheard f) as Hm by by rewrite (Hm x) end.
  apply preserves_bind; [typeclasses eauto|by apply preserves_modify|]. intros _. case_match; [|apply unheard_ask].
  apply preserves_bind; [typeclasses eauto|by apply preserves_modify|intros _; apply unheard_done].
Qed.

(** What a label lets the session say. *)
Definition recorded (l : label) (s : CState) (msg : Message) : Prop :=
  (exists r text, r ∈ s.(c_rounds) /\ user_message r.(r_capture) text r.(r_epoch) s msg) \/
  (exists i uuid text p, l = LResume i (GotReply (Ok (mkPlayed text true))) uuid /\ permit_current p s = true /\
     msg = mkMessage p.(pm_turn_id) "companion" p.(pm_companion) text).

Lemma segment_says r d uuid m i s : find_round i s = Some r -> round_segment c r d uuid = Some m ->
  says s (recorded (LResume i d uuid) s) (snd (m s)).
Proof.
  intros Hr%find_round_spec Hm. unfold round_segment in Hm.
  destruct (r_pc r) as [| |text|trigger user n request|user n p permit task], d as [v|v|v|v]; simplify_eq;
    (destruct v as [v|x]; [|by left]); cbn [or_raise].
  - unfold after_transcript. unfold mbind_ at 1. rewrite check_run. destruct (valid _ s); [|by left].
    case_bool_decide; [|by left]. destruct (says_stops (r_epoch r) (r_capture r) v uuid s) as [?|(msg & ? & ?)]; [by left|right].
    exists msg. split; [done|]. left. by exists r, v.
  - destruct (says_stops (r_epoch r) (r_capture r) text uuid s) as [?|(msg & ? & ?)]; [by left|right].
    exists msg. split; [done|]. left. by exists r, text.
  - apply says_silent, unheard_decision.
  - destruct (says_reply (r_epoch r) user n p permit task v uuid s) as [?|(msg & Hh & -> & Hc & Hp)]; [by left|right].
    eexists. split; [exact Hh|]. right. destruct v as [text b]. simpl in *. subst b. by exists i, uuid, text, permit.
Qed.

(** What any label adds to the history. *)
Lemma fire_says l s : says s (recorded l s) (snd (fire c l s)).
Proof.
  unfold fire. unfold mbind_ at 1, mget at 1. cbn beta iota. destruct l as [dev cap|dev cap|i m r|i|i d uuid|p ph|i| |].
  - left. unfold mbind_. rewrite press_run. destruct (press_accepted c dev cap s); [done|]. by destruct (_ && _).
  - apply says_silent. unfold release. unheard.
  - destruct (find_stop i s); [|by left]. destruct (_ && _); [|by left]. apply says_silent. unfold stop_done. unheard.
  - destruct (find_round i s) as [r|]; [|by left]. destruct (r_pc r); by left.
  - destruct (find_round i s) as [r|] eqn:Ef; [|by left]. destruct (deliverable r d uuid s); [|by left].
    destruct (round_segment c r d uuid) as [m|] eqn:Em; [|by left].
    apply says_then; [|intros pc; unfold put_round; unheard]. unfold segment. apply says_then.
    + pose proof (segment_says r d uuid m i s Ef Em) as Hs. unfold mtry. destruct (m s) as [[a|e] s1]; [exact Hs|].
      assert (unheard (on_round_error c (r_epoch r) e ;;; mret_ (@None RoundPc))) as Hq.
      { apply preserves_bind; [typeclasses eauto| |intros; unheard]. unfold on_round_error, fail_round, dispatch_stop. unheard. }
      unfold says in *. by rewrite (Hq s1).
    + intros [pc|]; unfold round_finally; unheard.
  - apply says_silent. unfold permit_phase. unheard.
  - destruct (find_round i s) as [r|]; [|by left]. destruct (r_pc r); by left.
  - apply says_silent. unfold close. unheard.
  - apply says_silent. unheard.
Qed.
(** A step adds at most one message to the public history, and only the non-blank transcript of
    a valid round whose members are all silent, or the text of a reply whose playout was
    confirmed complete under a current permit, under that permit's turn and companion. *)
Theorem history_records_what_was_heard l s :
  let s' := snd (fire c l s) in
  s'.(c_history) = s.(c_history) \/ exists msg, s'.(c_history) = s.(c_history) ++ [msg] /\ recorded l s msg.
Proof. apply fire_says. Qed.
End Facts.

(** ** A concrete session *)

#[export] Instance sample_sdk : SdkOps := {
  check_message _ := Ok tt;
  check_candidate _ := Ok tt;
  check_context _ := Ok tt;
  check_request _ := Ok tt;
  validate_proposal rq x := match x.(dr_proposal) with
    | Some p => if forallb (fun i => existsb (fun k => bool_decide (k.(cn_companion_id) = i)) rq.(rq_candidates)) p.(pr_participants)
                then Ok tt else Err (value_error "unknown participant")
    | None => Ok tt
    end;
}.

Definition sample_member (i d : string) : Member := mkMember i d "" None i.
Definition sample_members : list Member := [sample_member "ada" "speaker-1"; sample_member "bob" "speaker-2"].
Definition sample_session : SessionConfig := mkSession "scene" "mic" sample_members "a chat" 2 1000 30000.
Definition sample_decision (i : string) : DecisionResult := mkResult "decided" (Some (mkProposal "respond" [i] "")) "p1" "m1".

(** Press, speak, wait for both receipts, let [ada] reply. *)
Definition sample_opening : list label :=
  [LPress "mic" "cap-1"; LStop 0 (sample_member "ada" "speaker-1") (Ok tt); LRelease "mic" "cap-1"; LStart 1;
   LResume 1 (GotText (Ok "hello")) "d1"; LStop 0 (sample_member "bob" "speaker-2") (Ok tt);
   LResume 1 (GotStops (Ok tt)) "d1"; LResume 1 (GotDecision (Ok (sample_decision "ada"))) "t1"].
Definition sample_speaking : CState := run_session sample_session sample_opening (session_init sample_session).
Definition sample_permit : Permit := mkPermit "t1" 1 "ada".

(** The reply is played, [bob] answers, and the budget of two replies ends the round. *)
Example sample_round :
  let s := run_session sample_session
    [LResume 1 (GotReply (Ok (mkPlayed "hi" true))) "d2"; LResume 1 (GotDecision (Ok (sample_decision "bob"))) "t2";
     LResume 1 (GotReply (Ok (mkPlayed "hey" true))) "d3"] sample_speaking in
  (s.(c_outcome), map ms_text s.(c_history), s.(c_rounds)) = ("budget_exhausted", ["hello"; "hi"; "hey"], []).
Proof. vm_compute. reflexivity. Qed.

Lemma sample_reachable ls : reachable sample_session (run_session sample_session ls (session_init sample_session)).
Proof. apply reachable_run. constructor. vm_compute. reflexivity. Qed.

Lemma speech_needs_silence_witness :
  sample_speaking.(c_failures) = [] /\
  (forall m, m ∈ sample_members -> (1, m.(mb_companion_id)) ∈ sample_speaking.(c_acks)) /\
  forall t, t ∈ sample_speaking.(c_stops) -> t.(st_epoch) < 1.
Proof.
  apply (speech_needs_silence sample_session sample_speaking sample_permit); [apply sample_reachable| |vm_compute; reflexivity].
  by_compute.
Defined.

(** A new press while [ada] speaks. *)
Lemma revoked_permits_stay_revoked_witness :
  let s := run_session sample_session [LPress "mic" "cap-2"] sample_speaking in
  permit_current sample_permit
    (run_session sample_session [LRelease "mic" "cap-2"; LStop 2 (sample_member "ada" "speaker-1") (Ok tt)] s) = false.
Proof.
  intros s. apply revoked_permits_stay_revoked; [apply reachable_run, sample_reachable| |vm_compute; reflexivity].
  by_compute.
Defined.

Lemma one_reply_at_a_time_witness : sample_permit = mkPermit "t1" 1 "ada".
Proof.
  apply (one_reply_at_a_time sample_session sample_speaking); [apply sample_reachable|by_compute|by_compute|vm_compute; reflexivity..].
Defined.

Lemma replies_within_budget_witness : (issued 1 sample_speaking <= 2)%nat.
Proof. apply (replies_within_budget sample_session sample_speaking 1). apply sample_reachable. Defined.

Lemma closed_session_is_silent_witness :
  let s := run_session sample_session [LClose] sample_speaking in
  let s' := run_session sample_session [LResume 1 (GotReply (Ok (mkPlayed "hi" true))) "d2"; LPress "mic" "cap-2"] s in
  s'.(c_closed) = true /\ s'.(c_state) = s.(c_state) /\ s'.(c_history) = s.(c_history) /\ s'.(c_permits) = s.(c_permits) /\
  forall p, permit_current p s' = false.
Proof.
  intros s. apply closed_session_is_silent; [apply reachable_run, sample_reachable|vm_compute; reflexivity].
Defined.
