(* ===== verification/TurnStore.v ===== *)
(** * [infra/persistence/agent_runtime.py], the turn half: the conversation guard, the
      turn persister and the history hydrator over the Agent's tables.

    A transaction is a function of the tables that returns the new ones, or raises and
    leaves them; the database's unique constraints are checked where rows are added. *)

From S2P Require Import Prelude CoreTypes Json TurnState TurnEngine.

(** ** Rows *)

Record SessionRow := mkSessionRow {
  sr_owner_id : string;
  sr_companion_id : string;
  sr_device_id : option string;
  sr_started_at : datetime;
  sr_metadata : list (string * pyval);
  sr_last_seen_at : datetime;
}.

Record ConversationRow := mkConversation {
  cv_id : string;
  cv_owner_id : string;
  cv_companion_id : string;
  cv_runtime_session_id : option string;
  cv_device_id : option string;
  cv_started_at : datetime;
  cv_updated_at : datetime;
  cv_metadata : list (string * pyval);
}.

Record TurnRow := mkTurnRow {
  tr_turn_id : string;
  tr_conversation_id : string;
  tr_seq : Z;
  tr_runtime_session_id : string;
  tr_device_id : option string;
  tr_trigger : string;
  tr_status : string;
  tr_started_at : datetime;
  tr_finished_at : datetime;
  tr_trace_id : option string;
  tr_trace : list (string * pyval);
  tr_metrics : list (string * pyval);
  tr_row_metadata : list (string * pyval);
}.

Record MessageRow := mkMessageRow {
  mr_id : string;
  mr_turn_id : string;
  mr_seq : Z;
  mr_role : string;
  mr_content : string;
  mr_visibility : string;
  mr_created_at : datetime;
  mr_metadata : list (string * pyval);
}.

Record RuntimeDb := mkDb {
  db_sessions : list (string * SessionRow);
  db_conversations : list ConversationRow;
  db_turns : list TurnRow;
  db_messages : list MessageRow;
}.

Definition get_conversation (db : RuntimeDb) (id : string) : option ConversationRow :=
  List.find (fun r => bool_decide (r.(cv_id) = id)) db.(db_conversations).
Definition get_turn (db : RuntimeDb) (id : string) : option TurnRow :=
  List.find (fun r => bool_decide (r.(tr_turn_id) = id)) db.(db_turns).

Definition denied (msg : string) : exn := Eidolon PermissionDeniedError msg.
Definition IntegrityError : exn := PyError "IntegrityError" "UNIQUE constraint failed".

(** [==] of a stored value with a scalar. *)
Definition py_eq (v w : pyval) : bool :=
  match v, w with
  | VNone, VNone => true
  | VBool a, VBool b => Bool.eqb a b
  | VInt a, VInt b => a =? b
  | VBool a, VInt b | VInt b, VBool a => (if a then 1 else 0) =? b
  | VStr a, VStr b => bool_decide (a = b)
  | _, _ => false
  end.

(** [metadata.get(key, default)] *)
Definition get_or (d : list (string * pyval)) (k : string) (default_ : pyval) : pyval := default default_ (dict_get d k).

Definition dict_merge (d e : list (string * pyval)) : list (string * pyval) :=
  fold_left (fun d '(k, v) => dict_set d k v) e d.

Section Store.
(** The SDK's [model_dump] of an observation. *)
Context (speaker_dump : SpeakerObservation -> pyval).

(** ** The scope of a conversation *)

(** [_runtime_session_id] *)
Definition runtime_session_id (ti : TurnInput) : res string :=
  if is_empty ti.(ti_session_id) then Err (PyError "RuntimeError" "runtime_session_id was not built at transport boundary")
  else Ok ti.(ti_session_id).

(** A room session: the transport's own session is the turn's. *)
Definition in_room (ti : TurnInput) : bool := bool_decide (ti.(ti_context).(source_session_id) = Some ti.(ti_session_id)).

Definition personal_keys : list string :=
  ["memory_realm_id"; "memory_enabled"; "provisional_memory_save"; "provisional_memory_recall"; "person_id";
   "identity_epoch"; "person_revision"].

(** [_conversation_metadata] *)
Definition conversation_metadata (ti : TurnInput) : res (list (string * pyval)) :=
  rsid ← runtime_session_id ti;
  let c := ti.(ti_context) in
  let metadata :=
    [("owner_id", VStr c.(owner_id)); ("companion_id", VStr c.(companion_id)); ("runtime_session_id", VStr rsid);
     ("memory_realm_id", VStr c.(memory_realm_id)); ("memory_enabled", VBool c.(memory_enabled));
     ("provisional_memory_save", VBool c.(provisional_memory_save));
     ("provisional_memory_recall", VBool c.(provisional_memory_recall));
     ("person_id", of_opt_str c.(person_id)); ("identity_epoch", of_opt_int c.(identity_epoch));
     ("person_revision", of_opt_int c.(person_revision)); ("genome_id", VStr c.(genome_id));
     ("genome_hash", VStr c.(genome_hash)); ("schema_version", VStr c.(schema_version));
     ("realizer_version", VStr c.(realizer_version)); ("session_id", VStr ti.(ti_session_id));
     ("source_session_id", of_opt_str c.(source_session_id))] in
  Ok (if in_room ti then fold_left dict_pop personal_keys metadata else metadata).

(** [_verify_conversation_scope] *)
Definition verify_conversation_scope (row : ConversationRow) (ti : TurnInput) : res unit :=
  let metadata := row.(cv_metadata) in
  let c := ti.(ti_context) in
  let get k := get_or metadata k VNone in
  let shared := in_room ti in
  if shared || (py_eq (get "source_session_id") (get "session_id") && negb (py_eq (get "source_session_id") VNone)) then
    if negb shared || negb (bool_decide (row.(cv_owner_id) = c.(owner_id)) && bool_decide (row.(cv_companion_id) = c.(companion_id))
         && bool_decide (row.(cv_device_id) = c.(device_id))
         && py_eq (get "source_session_id") (of_opt_str c.(source_session_id))
         && py_eq (get "session_id") (VStr ti.(ti_session_id)))
    then Err (denied "conversation belongs to another room session")
    else Ok tt
  else if negb (bool_decide (row.(cv_owner_id) = c.(owner_id)) && bool_decide (row.(cv_companion_id) = c.(companion_id))
       && py_eq (get "memory_realm_id") (VStr c.(memory_realm_id)))
  then Err (denied "conversation belongs to another runtime scope")
  else if negb (py_eq (get_or metadata "provisional_memory_save" (VBool false)) (VBool c.(provisional_memory_save)))
       || negb (py_eq (get_or metadata "provisional_memory_recall" (VBool false)) (VBool c.(provisional_memory_recall)))
  then Err (denied "conversation provisional policy changed")
  else if negb (py_eq (get_or metadata "memory_enabled" (VBool true)) (VBool c.(memory_enabled)))
  then Err (denied "conversation memory policy changed")
  else if negb (py_eq (get "person_id") (of_opt_str c.(person_id)))
  then Err (denied "conversation belongs to another person")
  else if ((if c.(person_id) is Some _ then true else false) || negb c.(memory_enabled)) &&
       negb (py_eq (get "identity_epoch") (of_opt_int c.(identity_epoch))
             && py_eq (get "person_revision") (of_opt_int c.(person_revision))
             && py_eq (get "session_id") (VStr ti.(ti_session_id)) && bool_decide (row.(cv_device_id) = c.(device_id)))
  then Err (denied "personal identity change requires a new conversation")
  else Ok tt.

(** [_verify_existing_turn_scope] *)
Definition verify_existing_turn_scope (row : TurnRow) (ti : TurnInput) : res unit :=
  let metadata := row.(tr_row_metadata) in
  let c := ti.(ti_context) in
  if negb (bool_decide (row.(tr_conversation_id) = ti.(ti_conversation_id))) then Err (denied "turn belongs to another conversation")
  else if negb (py_eq (get_or metadata "provisional_memory_save" (VBool false)) (VBool c.(provisional_memory_save)))
       || negb (py_eq (get_or metadata "provisional_memory_recall" (VBool false)) (VBool c.(provisional_memory_recall)))
  then Err (denied "turn provisional policy changed")
  else if forallb (fun '(k, v) => py_eq (get_or metadata k VNone) v)
       [("person_id", of_opt_str c.(person_id)); ("person_revision", of_opt_int c.(person_revision));
        ("identity_epoch", of_opt_int c.(identity_epoch)); ("memory_realm_id", VStr c.(memory_realm_id))]
  then Ok tt
  else Err (denied "turn belongs to another memory scope").

(** ** Transactions *)

(** [_insert_ignore] of a conversation *)
Definition claim_conversation (row : ConversationRow) (db : RuntimeDb) : RuntimeDb :=
  match get_conversation db row.(cv_id) with
  | Some _ => db
  | None => mkDb db.(db_sessions) (db.(db_conversations) ++ [row]) db.(db_turns) db.(db_messages)
  end.

Definition verify_turn (db : RuntimeDb) (ti : TurnInput) : res unit :=
  match get_turn db ti.(ti_turn_id) with
  | Some row => verify_existing_turn_scope row ti
  | None => Ok tt
  end.

(** [build_agent_conversation_guard]; [now] is the default of both timestamps. *)
Definition conversation_guard (now : datetime) (ti : TurnInput) (db : RuntimeDb) : res RuntimeDb :=
  metadata ← conversation_metadata ti;
  let c := ti.(ti_context) in
  let db := claim_conversation (mkConversation ti.(ti_conversation_id) c.(owner_id) c.(companion_id) None c.(device_id) now now metadata) db in
  match get_conversation db ti.(ti_conversation_id) with
  | None => Err (PyError "RuntimeError" "conversation claim failed")
  | Some row =>
      _ ← verify_conversation_scope row ti;
      _ ← verify_turn db ti;
      Ok db
  end.

(** [_upsert_runtime_session] *)
Definition upsert_runtime_session (now : datetime) (ti : TurnInput) (rsid : string) (db : RuntimeDb) : RuntimeDb :=
  let c := ti.(ti_context) in
  let started := match dict_get db.(db_sessions) rsid with Some r => r.(sr_started_at) | None => now end in
  mkDb (dict_set db.(db_sessions) rsid
          (mkSessionRow c.(owner_id) c.(companion_id) c.(device_id) started
             [("input_modality", VStr ti.(ti_input_modality)); ("conversation_id", VStr ti.(ti_conversation_id));
              ("trace_id", VStr c.(trace_id)); ("request_id", VStr c.(request_id))] now))
    db.(db_conversations) db.(db_turns) db.(db_messages).

(** [_turn_metadata_json] *)
Definition turn_metadata_json (ti : TurnInput) (triage : TriageKind) (timings : list (string * pyval)) (rsid : string)
  : list (string * pyval) :=
  let c := ti.(ti_context) in
  dict_merge
    (dict_merge [("speaker_observation", match c.(speaker_observation) with Some o => speaker_dump o | None => VNone end)] timings)
    [("owner_id", VStr c.(owner_id)); ("companion_id", VStr c.(companion_id)); ("runtime_session_id", VStr rsid);
     ("memory_realm_id", VStr c.(memory_realm_id)); ("memory_enabled", VBool c.(memory_enabled));
     ("provisional_memory_save", VBool c.(provisional_memory_save));
     ("provisional_memory_recall", VBool c.(provisional_memory_recall));
     ("person_id", of_opt_str c.(person_id)); ("identity_epoch", of_opt_int c.(identity_epoch));
     ("person_revision", of_opt_int c.(person_revision)); ("genome_id", VStr c.(genome_id));
     ("genome_hash", VStr c.(genome_hash)); ("schema_version", VStr c.(schema_version));
     ("realizer_version", VStr c.(realizer_version)); ("session_id", VStr ti.(ti_session_id));
     ("source_session_id", of_opt_str c.(source_session_id)); ("input_modality", VStr ti.(ti_input_modality));
     ("device_id", of_opt_str c.(device_id)); ("triage_kind", VStr (triage_value triage));
     ("trace_id", VStr c.(trace_id)); ("request_id", VStr c.(request_id))].

(** [_trace_json] *)
Definition trace_json (timings : list (string * pyval)) : res (list (string * pyval)) :=
  match dict_get timings "turn_trace" with
  | Some (VDict d) => Ok d
  | Some v => if truthy v then Err (PyError "TypeError" "") else Ok []
  | None => Ok []
  end.

(** The six metrics a finished turn rewrites. *)
Definition turn_metrics (a : PersistArgs) (model : option string) : list (string * pyval) :=
  [("latency_first_delta_ms", of_opt_int a.(pa_first_delta_ms)); ("total_latency_ms", VInt a.(pa_total_ms));
   ("tokens_in", VInt a.(pa_usage_in)); ("tokens_out", VInt a.(pa_usage_out)); ("model", of_opt_str model);
   ("error_code", of_opt_str a.(pa_error_code))].

(** [_turn_metrics_json] of the result [_persist_once] builds *)
Definition turn_metrics_json (ti : TurnInput) (a : PersistArgs) (model : option string) : list (string * pyval) :=
  [("latency_first_delta_ms", of_opt_int a.(pa_first_delta_ms)); ("total_latency_ms", VInt a.(pa_total_ms));
   ("tokens_in", VInt a.(pa_usage_in)); ("tokens_out", VInt a.(pa_usage_out)); ("cost_usd_micro", VInt 0);
   ("model", of_opt_str model); ("error_code", of_opt_str a.(pa_error_code));
   ("device_id", of_opt_str ti.(ti_context).(device_id)); ("input_modality", VStr ti.(ti_input_modality));
   ("triage_kind", VStr (triage_value a.(pa_triage)))].

(** [_message_metadata] *)
Definition message_metadata (turn_id : string) (seq : Z) (is_private : bool) (o : option SpeakerObservation) : list (string * pyval) :=
  [("turn_id", VStr turn_id); ("seq_in_turn", VInt seq)] ++
  (if seq =? 0 then [("speaker_source", speaker_source o)] else []) ++
  (if is_private then [("is_private", VBool true)] else []).

(** [_message_to_row] of a message with [tokens] and [model] *)
Definition message_to_row (turn_id : string) (m : ChatMessage) (tokens : option Z) (model : option string) (seq : Z) : MessageRow :=
  let metadata := match dict_get m.(m_metadata) "turn_id" with Some _ => m.(m_metadata) | None => m.(m_metadata) ++ [("turn_id", VStr turn_id)] end in
  let metadata := match tokens with Some t => dict_set metadata "tokens" (VInt t) | None => metadata end in
  let metadata := match model with Some x => dict_set metadata "model" (VStr x) | None => metadata end in
  let metadata := match m.(m_tool_call_id) with Some x => dict_set metadata "tool_call_id" (VStr x) | None => metadata end in
  let metadata := match m.(m_tool_name) with Some x => dict_set metadata "tool_name" (VStr x) | None => metadata end in
  mkMessageRow m.(m_id) turn_id seq (role_value m.(m_role)) m.(m_content)
    (if get_truthy (dict_get metadata "is_private") then "private" else "normal") m.(m_created_at) metadata.

(** [_upsert_message_row] *)
Definition same_place (row x : MessageRow) : bool :=
  bool_decide (x.(mr_turn_id) = row.(mr_turn_id)) && (x.(mr_seq) =? row.(mr_seq)).
Definition rewrite_message (row x : MessageRow) : MessageRow :=
  mkMessageRow x.(mr_id) x.(mr_turn_id) x.(mr_seq) row.(mr_role) row.(mr_content) row.(mr_visibility) row.(mr_created_at) row.(mr_metadata).
Definition upsert_message_row (row : MessageRow) (messages : list MessageRow) : res (list MessageRow) :=
  if existsb (same_place row) messages then
    Ok (map (fun x => if same_place row x then rewrite_message row x else x) messages)
  else if existsb (fun x => bool_decide (x.(mr_id) = row.(mr_id))) messages then Err IntegrityError
  else Ok (messages ++ [row]).

(** [_next_turn_seq] *)
Definition next_turn_seq (db : RuntimeDb) (conversation_id : string) : Z :=
  Z.of_nat (length (List.filter (fun t => bool_decide (t.(tr_conversation_id) = conversation_id)) db.(db_turns))).

(** The messages of the turn, [md] being [ti.metadata]. *)
Definition persisted_messages (ti : TurnInput) (md : list (string * pyval)) (a : PersistArgs) (model : option string) : list MessageRow :=
  let o := ti.(ti_context).(speaker_observation) in
  (if is_empty a.(pa_user_text) then [] else
     [message_to_row ti.(ti_turn_id)
        (plain_message (turn_message_id ti.(ti_turn_id) 0) USER a.(pa_user_text) a.(pa_started_at)
           (message_metadata ti.(ti_turn_id) 0 a.(pa_is_private) o)) None None 0]) ++
  (if is_empty a.(pa_assistant_text) then [] else
     [message_to_row ti.(ti_turn_id)
        (plain_message (turn_message_id ti.(ti_turn_id) 1) ASSISTANT a.(pa_assistant_text) a.(pa_finished_at)
           (message_metadata ti.(ti_turn_id) 1 a.(pa_is_private) None ++
            match dict_get md "capability_references" with
            | Some v => if truthy v then [("capability_references", v); ("reference_session_id", VStr ti.(ti_session_id))] else []
            | None => []
            end))
        (if a.(pa_usage_out) =? 0 then None else Some a.(pa_usage_out)) model 1]).

Fixpoint upsert_all (rows : list MessageRow) (messages : list MessageRow) : res (list MessageRow) :=
  match rows with
  | [] => Ok messages
  | r :: rows => messages ← upsert_message_row r messages; upsert_all rows messages
  end.

Definition update_conversation (id : string) (f : ConversationRow -> ConversationRow) (db : RuntimeDb) : RuntimeDb :=
  mkDb db.(db_sessions) (map (fun r => if bool_decide (r.(cv_id) = id) then f r else r) db.(db_conversations)) db.(db_turns) db.(db_messages).

(** The turn row: added with the next number, or rewritten in place. [seen] is the
    table the number was counted in. *)
Definition upsert_turn (ti : TurnInput) (a : PersistArgs) (model : option string) (rsid : string) (seen db : RuntimeDb) : res RuntimeDb :=
  let c := ti.(ti_context) in
  trace ← trace_json a.(pa_timings);
  let metadata := turn_metadata_json ti a.(pa_triage) a.(pa_timings) rsid in
  let trace_id := if is_empty c.(trace_id) then None else Some c.(trace_id) in
  match get_turn db ti.(ti_turn_id) with
  | None =>
      let seq := next_turn_seq seen ti.(ti_conversation_id) in
      let row := mkTurnRow ti.(ti_turn_id) ti.(ti_conversation_id) seq rsid c.(device_id) (trigger_value ti.(ti_trigger))
        (TurnStatus.value a.(pa_status)) a.(pa_started_at) a.(pa_finished_at) trace_id trace (turn_metrics_json ti a model) metadata in
      if existsb (fun x => bool_decide (x.(tr_conversation_id) = ti.(ti_conversation_id)) && (x.(tr_seq) =? seq)) db.(db_turns)
      then Err IntegrityError
      else Ok (mkDb db.(db_sessions) db.(db_conversations) (db.(db_turns) ++ [row]) db.(db_messages))
  | Some _ =>
      let rewrite (x : TurnRow) :=
        mkTurnRow x.(tr_turn_id) x.(tr_conversation_id) x.(tr_seq) rsid c.(device_id) (trigger_value ti.(ti_trigger))
          (TurnStatus.value a.(pa_status)) a.(pa_started_at) a.(pa_finished_at) trace_id trace
          (dict_merge x.(tr_metrics) (turn_metrics a model)) metadata in
      Ok (mkDb db.(db_sessions) db.(db_conversations)
            (map (fun x => if bool_decide (x.(tr_turn_id) = ti.(ti_turn_id)) then rewrite x else x) db.(db_turns)) db.(db_messages))
  end.

(** [_persist_once]: one transaction at [now] on [db]; [md] is [ti.metadata] then. *)
Definition persist_once (model : option string) (now : datetime) (ti : TurnInput) (md : list (string * pyval)) (a : PersistArgs) (seen db : RuntimeDb) : res RuntimeDb :=
  let c := ti.(ti_context) in
  rsid ← runtime_session_id ti;
  metadata ← conversation_metadata ti;
  let db := upsert_runtime_session now ti rsid db in
  let db := claim_conversation (mkConversation ti.(ti_conversation_id) c.(owner_id) c.(companion_id) (Some rsid) c.(device_id)
                                  a.(pa_started_at) a.(pa_finished_at) metadata) db in
  match get_conversation db ti.(ti_conversation_id) with
  | None => Err (PyError "RuntimeError" ("conversation insert failed: " +:+ ti.(ti_conversation_id)))
  | Some row =>
      _ ← verify_conversation_scope row ti;
      let db := update_conversation ti.(ti_conversation_id)
        (fun r => mkConversation r.(cv_id) r.(cv_owner_id) r.(cv_companion_id) (Some rsid) c.(device_id) r.(cv_started_at) a.(pa_finished_at) r.(cv_metadata)) db in
      _ ← verify_turn db ti;
      db ← upsert_turn ti a model rsid seen db;
      messages ← upsert_all (persisted_messages ti md a model) db.(db_messages);
      Ok (mkDb db.(db_sessions) db.(db_conversations) db.(db_turns) messages)
  end.

(** [_persist]: up to five attempts; [world n] are the tables the [n]-th attempt counts
    in and commits to, which other processes write in between. *)
Fixpoint persist_from (left_ n : nat) (model : option string) (now : datetime) (ti : TurnInput) (md : list (string * pyval)) (a : PersistArgs)
    (world : nat -> RuntimeDb * RuntimeDb) : nat * res RuntimeDb :=
  match persist_once model now ti md a (world n).1 (world n).2 with
  | Err e =>
      if bool_decide (e = IntegrityError) then
        match left_ with
        | O => (n, Err e)
        | S left_ => persist_from left_ (S n) model now ti md a world
        end
      else (n, Err e)
  | Ok db => (n, Ok db)
  end.

Definition persist := persist_from 4 0.

(** [_row_to_message] *)
Definition row_to_message (isoformat : datetime -> string) (row : MessageRow) (turn_status : string) (turn_started_at : datetime)
  : option ChatMessage :=
  let metadata := dict_set (dict_set row.(mr_metadata) "turn_status" (VStr turn_status)) "turn_started_at" (VStr (isoformat turn_started_at)) in
  let metadata := if bool_decide (row.(mr_visibility) = "private") then dict_set metadata "is_private" (VBool true) else metadata in
  let str k := match dict_get metadata k with Some (VStr s) => Some s | _ => None end in
  role ← List.find (fun r => bool_decide (role_value r = row.(mr_role))) [USER; ASSISTANT; SYSTEM; TOOL; PROACTIVE_ROLE];
  Some (mkMessage row.(mr_id) role row.(mr_content) row.(mr_created_at) (str "tool_call_id") (str "tool_name") [] metadata).

(** [build_agent_history_hydrator]: by conversation time, the newest [window]. *)
Definition row_time (d : datetime) : Z := match d.(dt_tz) with None => d.(dt_us) | Some off => d.(dt_us) - off end.
Definition newer_leb (a b : MessageRow * TurnRow) : bool :=
  let key x := (row_time x.2.(tr_started_at), x.2.(tr_turn_id), x.1.(mr_seq)) in
  let '(t, i, n) := key a in let '(t', i', n') := key b in
  if t' <? t then true else if t <? t' then false
  else if bool_decide (i = i') then n' <=? n else str_leb i' i.

Definition hydrate (isoformat : datetime -> string) (db : RuntimeDb) (conversation_id : string) (window : nat) : list ChatMessage :=
  let pairs := List.flat_map (fun m => match get_turn db m.(mr_turn_id) with
      | Some t => if bool_decide (t.(tr_conversation_id) = conversation_id) then [(m, t)] else []
      | None => []
      end) db.(db_messages) in
  omap (fun p => row_to_message isoformat p.1 p.2.(tr_status) p.2.(tr_started_at)) (rev (firstn window (py_sorted newer_leb pairs))).
End Store.
