(* ===== verification/TurnStoreFacts.v ===== *)
(** * The theorems on persisted turns: scopes never mix, numbers are unique, and
      repeating a persist changes nothing. *)

From S2P Require Import Prelude CoreTypes Guards Presentation Effects Json TurnState TurnEngine Samples History TurnStore.

(** ** The scope of a turn input *)

(** Two inputs that may share a conversation. *)
Record SameScope (a b : TurnInput) : Prop := {
  sc_owner : a.(ti_context).(owner_id) = b.(ti_context).(owner_id);
  sc_companion : a.(ti_context).(companion_id) = b.(ti_context).(companion_id);
  sc_room : in_room a = in_room b;
  sc_session : in_room a = true -> a.(ti_session_id) = b.(ti_session_id);
  sc_personal : in_room a = false ->
    a.(ti_context).(memory_realm_id) = b.(ti_context).(memory_realm_id) /\
    a.(ti_context).(person_id) = b.(ti_context).(person_id) /\
    a.(ti_context).(memory_enabled) = b.(ti_context).(memory_enabled) /\
    a.(ti_context).(provisional_memory_save) = b.(ti_context).(provisional_memory_save) /\
    a.(ti_context).(provisional_memory_recall) = b.(ti_context).(provisional_memory_recall);
}.

#[global] Instance SameScope_equiv : Equivalence SameScope.
Proof.
  split.
  - intros a. by constructor.
  - intros a b [H1 H2 H3 H4 H5]. constructor; try congruence.
    + intros Hb. symmetry. apply H4. congruence.
    + intros Hb. destruct H5 as (?&?&?&?&?); [congruence|]. by split_and!.
  - intros a b d [H1 H2 H3 H4 H5] [G1 G2 G3 G4 G5]. constructor; try congruence.
    + intros Ha. rewrite H4 by done. apply G4. congruence.
    + intros Ha. destruct H5 as (?&?&?&?&?); [done|]. destruct G5 as (?&?&?&?&?); [congruence|]. split_and!; congruence.
Qed.

(** The conversation row was made for the input [ti]. *)
Definition Born (row : ConversationRow) (ti : TurnInput) : Prop :=
  conversation_metadata ti = Ok row.(cv_metadata) /\
  row.(cv_owner_id) = ti.(ti_context).(owner_id) /\ row.(cv_companion_id) = ti.(ti_context).(companion_id).

Lemma py_eq_str a b : py_eq (VStr a) (VStr b) = true <-> a = b.
Proof. apply bool_decide_eq_true. Qed.
Lemma py_eq_opt_str a b : py_eq (of_opt_str a) (of_opt_str b) = true <-> a = b.
Proof. destruct a, b; simpl; rewrite ?bool_decide_eq_true; naive_solver. Qed.
Lemma py_eq_bool a b : py_eq (VBool a) (VBool b) = true <-> a = b.
Proof. apply Bool.eqb_true_iff. Qed.

Lemma in_room_spec ti : in_room ti = true <-> ti.(ti_context).(source_session_id) = Some ti.(ti_session_id).
Proof. apply bool_decide_eq_true. Qed.

(** What its metadata say. *)
Lemma born_get row ti : Born row ti ->
  (forall d, get_or row.(cv_metadata) "source_session_id" d = of_opt_str ti.(ti_context).(source_session_id)) /\
  (forall d, get_or row.(cv_metadata) "session_id" d = VStr ti.(ti_session_id)) /\
  if in_room ti then forall k d, k ∈ personal_keys -> get_or row.(cv_metadata) k d = d
  else forall d, get_or row.(cv_metadata) "memory_realm_id" d = VStr ti.(ti_context).(memory_realm_id) /\
    get_or row.(cv_metadata) "person_id" d = of_opt_str ti.(ti_context).(person_id) /\
    get_or row.(cv_metadata) "memory_enabled" d = VBool ti.(ti_context).(memory_enabled) /\
    get_or row.(cv_metadata) "provisional_memory_save" d = VBool ti.(ti_context).(provisional_memory_save) /\
    get_or row.(cv_metadata) "provisional_memory_recall" d = VBool ti.(ti_context).(provisional_memory_recall) /\
    get_or row.(cv_metadata) "identity_epoch" d = of_opt_int ti.(ti_context).(identity_epoch) /\
    get_or row.(cv_metadata) "person_revision" d = of_opt_int ti.(ti_context).(person_revision).
Proof.
  intros (Hm & _). unfold conversation_metadata, runtime_session_id in Hm.
  destruct (is_empty (ti_session_id ti)); [done|]. cbn [mbind res_bind] in Hm. injection Hm as <-.
  destruct (in_room ti).
  - split; [done|split; [done|]]. intros k d Hk. repeat (apply elem_of_cons in Hk as [->|Hk]; [reflexivity|]). by apply elem_of_nil in Hk.
  - split; [done|split; [done|]]. intros d. by split_and!.
Qed.

(** The scope of a conversation is the one of the input it was made for. *)
Lemma scope_sound row ti0 ti : Born row ti0 -> verify_conversation_scope row ti = Ok tt -> SameScope ti0 ti.
Proof.
  intros HB Hv. destruct (born_get row ti0 HB) as (Hsrc & Hsid & Hpers). destruct HB as (_ & Ho & Hc).
  unfold verify_conversation_scope in Hv. rewrite Hsrc, Hsid, Ho, Hc in Hv.
  destruct (in_room ti) eqn:E; simpl orb in Hv; cbn iota in Hv.
  - cbn [negb orb] in Hv. destruct (negb _) eqn:Eg in Hv; [done|].
    apply negb_false_iff in Eg. rewrite !andb_true_iff, !bool_decide_eq_true, py_eq_opt_str, ?py_eq_str in Eg.
    destruct Eg as [[[[? ?] ?] Hss] Hsess]. apply in_room_spec in E as Er.
    assert (in_room ti0 = true) as E0 by (apply in_room_spec; congruence).
    constructor; congruence.
  - destruct (py_eq (of_opt_str _) (VStr _) && negb _) eqn:Er; [done|].
    assert (in_room ti0 = false) as E0.
    { apply not_true_iff_false. intros Hr%in_room_spec. rewrite Hr in Er. simpl in Er. by rewrite bool_decide_eq_true_2 in Er. }
    rewrite E0 in Hpers.
    destruct (Hpers VNone) as (H1 & H2 & _). destruct (Hpers (VBool true)) as (_ & _ & H3 & _).
    destruct (Hpers (VBool false)) as (_ & _ & _ & H4 & H5 & _).
    rewrite H1, H2, H3, H4, H5 in Hv. clear Er.
    destruct (negb (bool_decide _ && _ && _)) eqn:G1; [done|]. destruct (negb _ || negb _) eqn:G2; [done|].
    destruct (negb (py_eq (VBool (memory_enabled _)) _)) eqn:G3; [done|]. destruct (negb (py_eq (of_opt_str _) _)) eqn:G4; [done|].
    apply negb_false_iff in G1, G3, G4. apply orb_false_iff in G2 as [G2%negb_false_iff G2'%negb_false_iff].
    rewrite !andb_true_iff, !bool_decide_eq_true, ?py_eq_str in G1. rewrite py_eq_bool in G2, G2', G3. apply py_eq_opt_str in G4.
    destruct G1 as [[? ?] ?]. constructor; try congruence. intros _. by split_and!.
Qed.

Lemma of_opt_str_inj a b : of_opt_str a = of_opt_str b -> a = b.
Proof. destruct a, b; simpl; congruence. Qed.

Lemma born_same row a b : Born row a -> Born row b -> SameScope a b.
Proof.
  intros Ha Hb. destruct (born_get row a Ha) as (Sa & Ia & Pa), (born_get row b Hb) as (Sb & Ib & Pb).
  assert (ti_session_id a = ti_session_id b) as Hs by (specialize (Ia VNone); rewrite (Ib VNone) in Ia; congruence).
  assert (source_session_id (ti_context a) = source_session_id (ti_context b)) as Hsrc
    by (apply of_opt_str_inj; specialize (Sa VNone); by rewrite (Sb VNone) in Sa).
  assert (in_room a = in_room b) as Hr by (unfold in_room; by rewrite Hs, Hsrc).
  destruct Ha as (_ & ? & ?), Hb as (_ & ? & ?). constructor; try congruence. intros Er. rewrite Er in Pa. rewrite Hr in Er. rewrite Er in Pb.
  destruct (Pa VNone) as (A1 & A2 & A3 & A4 & A5 & _), (Pb VNone) as (B1 & B2 & B3 & B4 & B5 & _).
  rewrite B1 in A1. rewrite B2 in A2. rewrite B3 in A3. rewrite B4 in A4. rewrite B5 in A5.
  apply of_opt_str_inj in A2. split_and!; congruence.
Qed.

(** ** Merged dicts *)

Lemma dict_get_merge d e k : NoDup e.*1 -> dict_get (dict_merge d e) k = match dict_get e k with Some v => Some v | None => dict_get d k end.
Proof.
  unfold dict_merge. revert d. induction e as [|[k1 v1] e IH]; intros d; simpl; [done|]. intros [Hk He]%NoDup_cons.
  rewrite IH by done. case_decide as Hkk.
  - subst. rewrite (proj2 (dict_get_none e k1)) by done. by rewrite dict_get_set_eq.
  - destruct (dict_get e k); [done|]. by rewrite dict_get_set_ne.
Qed.

(** Setting what is set already. *)
Lemma dict_set_present {V} (d : list (string * V)) k v : dict_get d k = Some v -> dict_set d k v = d.
Proof.
  induction d as [|[k1 v1] d IH]; simpl; [done|]. case_decide; simplify_eq/=; [congruence|]. intros Hg. by rewrite IH.
Qed.

Lemma dict_merge_present d e : NoDup e.*1 -> (forall k v, (k, v) ∈ e -> dict_get d k = Some v) -> dict_merge d e = d.
Proof.
  unfold dict_merge. revert d. induction e as [|[k v] e IH]; intros d; simpl; [done|]. intros [_ He]%NoDup_cons H.
  rewrite dict_set_present by (apply H; by left). apply IH; [done|]. intros k1 v1 Hin. apply H. by right.
Qed.

Lemma dict_get_nodup {V} (e : list (string * V)) k v : NoDup e.*1 -> (k, v) ∈ e -> dict_get e k = Some v.
Proof.
  induction e as [|[k1 v1] e IH]; simpl; [by intros _ ?%elem_of_nil|]. intros [Hk He]%NoDup_cons [[= -> ->]|Hin]%elem_of_cons; [by rewrite decide_True|].
  case_decide; subst; [|by apply IH]. destruct Hk. by apply (list_elem_of_fmap_2 fst) in Hin.
Qed.

Lemma dict_merge_twice d e : NoDup e.*1 -> dict_merge (dict_merge d e) e = dict_merge d e.
Proof.
  intros He. apply dict_merge_present; [done|]. intros k v Hin. rewrite dict_get_merge by done. by rewrite (dict_get_nodup e k v).
Qed.

Lemma find_map {A} (p : A -> bool) (g : A -> A) l : (forall x, p (g x) = p x) -> List.find p (map g l) = g <$> List.find p l.
Proof. intros H. induction l as [|x l IH]; simpl; [done|]. rewrite H. by destruct (p x). Qed.

Lemma find_app {A} (p : A -> bool) l1 l2 : List.find p (l1 ++ l2) = match List.find p l1 with Some x => Some x | None => List.find p l2 end.
Proof. induction l1 as [|x l1 IH]; simpl; [done|]. by destruct (p x). Qed.

Section Facts.
Context (speaker_dump : SpeakerObservation -> pyval).
Notation turn_metadata_json := (turn_metadata_json speaker_dump).
Notation persist_once := (persist_once speaker_dump).
Notation upsert_turn := (upsert_turn speaker_dump).

Lemma turn_metadata_get ti k t s d :
  let m := turn_metadata_json ti k t s in
  get_or m "owner_id" d = VStr ti.(ti_context).(owner_id) /\
  get_or m "companion_id" d = VStr ti.(ti_context).(companion_id) /\
  get_or m "memory_realm_id" d = VStr ti.(ti_context).(memory_realm_id) /\
  get_or m "memory_enabled" d = VBool ti.(ti_context).(memory_enabled) /\
  get_or m "person_id" d = of_opt_str ti.(ti_context).(person_id) /\
  get_or m "provisional_memory_save" d = VBool ti.(ti_context).(provisional_memory_save) /\
  get_or m "provisional_memory_recall" d = VBool ti.(ti_context).(provisional_memory_recall) /\
  get_or m "identity_epoch" d = of_opt_int ti.(ti_context).(identity_epoch) /\
  get_or m "person_revision" d = of_opt_int ti.(ti_context).(person_revision) /\
  get_or m "session_id" d = VStr ti.(ti_session_id) /\
  get_or m "source_session_id" d = of_opt_str ti.(ti_context).(source_session_id).
Proof.
  assert (forall b e key v, NoDup e.*1 -> dict_get e key = Some v -> get_or (dict_merge b e) key d = v) as H.
  { intros b e key v He Hk. unfold get_or. by rewrite dict_get_merge, Hk by done. }
  unfold turn_metadata_json. cbv zeta. split_and!; (apply H; [by_compute|reflexivity]).
Qed.

(** ** The tables' invariant *)

Definition TurnOf (t : TurnRow) (ti : TurnInput) : Prop :=
  exists triage timings rsid, t.(tr_row_metadata) = turn_metadata_json ti triage timings rsid.

Record StoreInv (db : RuntimeDb) : Prop := {
  si_conversations : NoDup (map cv_id db.(db_conversations));
  si_turns : NoDup (map tr_turn_id db.(db_turns));
  si_numbers : NoDup (map (fun t => (t.(tr_conversation_id), t.(tr_seq))) db.(db_turns));
  si_messages : NoDup (map (fun m => (m.(mr_turn_id), m.(mr_seq))) db.(db_messages));
  si_born row : row ∈ db.(db_conversations) -> exists ti, Born row ti;
  si_scope t : t ∈ db.(db_turns) -> exists row ti0 ti, row ∈ db.(db_conversations) /\ row.(cv_id) = t.(tr_conversation_id) /\
    Born row ti0 /\ TurnOf t ti /\ SameScope ti0 ti;
}.

Lemma get_conversation_spec db id row : get_conversation db id = Some row -> row ∈ db.(db_conversations) /\ row.(cv_id) = id.
Proof. intros [? ?%bool_decide_eq_true]%find_some. split; [by apply list_elem_of_In|done]. Qed.
Lemma get_conversation_none db id : get_conversation db id = None -> id ∉ map cv_id db.(db_conversations).
Proof.
  intros H (row & -> & Hr)%list_elem_of_fmap. apply list_elem_of_In in Hr.
  pose proof (find_none _ _ H row Hr) as Hn. simpl in Hn. by rewrite bool_decide_eq_true_2 in Hn.
Qed.
Lemma get_turn_spec db id t : get_turn db id = Some t -> t ∈ db.(db_turns) /\ t.(tr_turn_id) = id.
Proof. intros [? ?%bool_decide_eq_true]%find_some. split; [by apply list_elem_of_In|done]. Qed.
Lemma get_turn_none db id : get_turn db id = None -> id ∉ map tr_turn_id db.(db_turns).
Proof.
  intros H (t & -> & Ht)%list_elem_of_fmap. apply list_elem_of_In in Ht.
  pose proof (find_none _ _ H t Ht) as Hn. simpl in Hn. by rewrite bool_decide_eq_true_2 in Hn.
Qed.

Lemma NoDup_map_snoc {A B} (f : A -> B) l x : NoDup (map f l) -> f x ∉ map f l -> NoDup (map f (l ++ [x])).
Proof.
  intros Hl Hx. rewrite map_app. apply NoDup_app. split_and!; [done| |apply NoDup_singleton].
  intros y Hy Hy'%list_elem_of_singleton. by subst.
Qed.

Lemma claim_inv row ti db : Born row ti -> StoreInv db -> StoreInv (claim_conversation row db).
Proof.
  intros HB [Hc Ht Hn Hm Hb Hs]. unfold claim_conversation. destruct (get_conversation db (cv_id row)) eqn:E; [done|].
  constructor; simpl; try done.
  - apply NoDup_map_snoc; [done|]. by apply get_conversation_none.
  - intros r [Hr| ->%list_elem_of_singleton]%elem_of_app; [by apply Hb|by exists ti].
  - intros t Htt. destruct (Hs t Htt) as (r & ti0 & ti1 & Hr & ?). exists r, ti0, ti1. split; [apply elem_of_app; by left|done].
Qed.

Lemma claim_turns row db : db_turns (claim_conversation row db) = db_turns db /\ db_messages (claim_conversation row db) = db_messages db.
Proof. unfold claim_conversation. by destruct (get_conversation db (cv_id row)). Qed.

(** Rewriting what is not the scope of a conversation. *)
Lemma update_inv id f db : (forall r, cv_id (f r) = cv_id r /\ cv_owner_id (f r) = cv_owner_id r /\
    cv_companion_id (f r) = cv_companion_id r /\ cv_metadata (f r) = cv_metadata r) ->
  StoreInv db -> StoreInv (update_conversation id f db).
Proof.
  intros Hf [Hc Ht Hn Hm Hb Hs].
  set (g := fun r => if bool_decide (r.(cv_id) = id) then f r else r).
  assert (forall r ti, Born r ti -> Born (g r) ti) as Hg.
  { intros r ti (H1 & H2 & H3). unfold g. case_bool_decide; [|done]. destruct (Hf r) as (_ & E1 & E2 & E3). split_and!; congruence. }
  assert (forall r, cv_id (g r) = cv_id r) as Hid. { intros r. unfold g. case_bool_decide; [|done]. by destruct (Hf r). }
  constructor; simpl; fold g; try done.
  - rewrite map_map. by erewrite map_ext; [exact Hc|].
  - intros r' (r & -> & Hr)%list_elem_of_fmap. destruct (Hb r Hr) as [ti ?]. exists ti. by apply Hg.
  - intros t Htt. destruct (Hs t Htt) as (r & ti0 & ti1 & Hr & Hi & HB & ? & ?). exists (g r), ti0, ti1.
    split_and!; [by apply list_elem_of_fmap_2|by rewrite Hid|by apply Hg|done..].
Qed.

Lemma map_update_ids {A B} (f : A -> B) (p : A -> bool) (g : A -> A) l : (forall x, f (g x) = f x) ->
  map f (map (fun x => if p x then g x else x) l) = map f l.
Proof. intros H. rewrite map_map. apply map_ext. intros x. by destruct (p x). Qed.

Lemma upsert_turn_inv ti a model rsid seen db db' row ti0 :
  row ∈ db.(db_conversations) -> row.(cv_id) = ti.(ti_conversation_id) -> Born row ti0 -> SameScope ti0 ti ->
  verify_turn db ti = Ok tt -> upsert_turn ti a model rsid seen db = Ok db' -> StoreInv db -> StoreInv db'.
Proof.
  intros Hrow Hid HB Hsc Hv Hu [Hc Ht Hn Hm Hb Hs]. unfold upsert_turn in Hu.
  destruct (trace_json (pa_timings a)) as [trace|]; [|done]. cbn [mbind res_bind] in Hu. unfold verify_turn in Hv.
  destruct (get_turn db (ti_turn_id ti)) as [old|] eqn:Eo.
  - injection Hu as <-. apply get_turn_spec in Eo as [Ho Hoid]. constructor; simpl; try done.
    + by rewrite map_update_ids.
    + by rewrite map_update_ids.
    + intros t' (x & -> & Hx)%list_elem_of_fmap. case_bool_decide as Ex; [|by apply Hs].
      assert (x = old) as ->. { eapply NoDup_map_elem; [exact Ht|done|done|congruence]. }
      exists row, ti0, ti. simpl. split_and!; [done| |done|by repeat eexists|done].
      unfold verify_existing_turn_scope in Hv. destruct (negb (bool_decide _)) eqn:Ec in Hv; [done|].
      apply negb_false_iff, bool_decide_eq_true in Ec. congruence.
  - destruct (existsb _ _) eqn:Ex; [done|]. injection Hu as <-. constructor; simpl; try done.
    + apply NoDup_map_snoc; [done|]. by apply get_turn_none.
    + apply NoDup_map_snoc; [done|]. simpl. intros (x & Ex' & Hx)%list_elem_of_fmap. apply not_true_iff_false in Ex. apply Ex.
      apply existsb_exists. exists x. split; [by apply list_elem_of_In|]. injection Ex' as -> ->.
      by rewrite bool_decide_eq_true_2, Z.eqb_refl.
    + intros t' [Ht'| ->%list_elem_of_singleton]%elem_of_app; [by apply Hs|].
      exists row, ti0, ti. split_and!; [done..|by repeat eexists|done].
Qed.

Lemma same_place_spec row x : same_place row x = true <-> (x.(mr_turn_id), x.(mr_seq)) = (row.(mr_turn_id), row.(mr_seq)).
Proof. unfold same_place. rewrite andb_true_iff, bool_decide_eq_true, Z.eqb_eq. split; [by intros [-> ->]|by intros [= -> ->]]. Qed.

Lemma upsert_message_inv row l l' : upsert_message_row row l = Ok l' ->
  NoDup (map (fun m => (m.(mr_turn_id), m.(mr_seq))) l) -> NoDup (map (fun m => (m.(mr_turn_id), m.(mr_seq))) l').
Proof.
  unfold upsert_message_row. destruct (existsb (same_place row) l) eqn:E1.
  - intros [= <-] Hl. by rewrite map_update_ids.
  - destruct (existsb (fun x => bool_decide (mr_id x = _)) l); [done|]. intros [= <-] Hl. apply NoDup_map_snoc; [done|].
    intros (x & Ex & Hx)%list_elem_of_fmap. apply not_true_iff_false in E1. apply E1, existsb_exists.
    exists x. split; [by apply list_elem_of_In|by apply same_place_spec].
Qed.

Lemma upsert_all_inv rows l l' : upsert_all rows l = Ok l' ->
  NoDup (map (fun m => (m.(mr_turn_id), m.(mr_seq))) l) -> NoDup (map (fun m => (m.(mr_turn_id), m.(mr_seq))) l').
Proof.
  revert l. induction rows as [|r rows IH]; intros l; simpl; [by intros [= <-]|].
  destruct (upsert_message_row r l) as [l1|] eqn:E; [|done]. cbn [mbind res_bind]. intros H Hl. eapply IH; [exact H|].
  by eapply upsert_message_inv.
Qed.

(** The steps of a successful [_persist_once]. *)
Lemma persist_steps model now ti md a seen db db' : persist_once model now ti md a seen db = Ok db' ->
  exists rsid metadata row db1 messages,
    runtime_session_id ti = Ok rsid /\ conversation_metadata ti = Ok metadata /\
    let c := ti.(ti_context) in
    let claim := mkConversation ti.(ti_conversation_id) c.(owner_id) c.(companion_id) (Some rsid) c.(device_id) a.(pa_started_at) a.(pa_finished_at) metadata in
    let claimed := claim_conversation claim (upsert_runtime_session now ti rsid db) in
    let updated := update_conversation ti.(ti_conversation_id)
      (fun r => mkConversation r.(cv_id) r.(cv_owner_id) r.(cv_companion_id) (Some rsid) c.(device_id) r.(cv_started_at) a.(pa_finished_at) r.(cv_metadata)) claimed in
    get_conversation claimed ti.(ti_conversation_id) = Some row /\ verify_conversation_scope row ti = Ok tt /\
    verify_turn updated ti = Ok tt /\ upsert_turn ti a model rsid seen updated = Ok db1 /\
    upsert_all (persisted_messages ti md a model) db1.(db_messages) = Ok messages /\
    db' = mkDb db1.(db_sessions) db1.(db_conversations) db1.(db_turns) messages.
Proof.
  unfold TurnStore.persist_once. destruct (runtime_session_id ti) as [rsid|]; [|done]. cbn [mbind res_bind].
  destruct (conversation_metadata ti) as [metadata|]; [|done]. cbn [mbind res_bind]. cbv zeta.
  destruct (get_conversation _ _) as [row|] eqn:Er; [|done].
  destruct (verify_conversation_scope row ti) as [[]|] eqn:Ev; [|done]. cbn [mbind res_bind].
  destruct (verify_turn _ ti) as [[]|] eqn:Et; [|done]. cbn [mbind res_bind].
  destruct (TurnStore.upsert_turn _ _ _ _ _ _ _) as [db1|] eqn:Eu; [|done]. cbn [mbind res_bind].
  destruct (upsert_all _ _) as [messages|] eqn:Em; [|done]. cbn [mbind res_bind]. intros [= <-].
  exists rsid, metadata, row, db1, messages. by split_and!.
Qed.

Lemma persist_inv model now ti md a seen db db' : persist_once model now ti md a seen db = Ok db' -> StoreInv db -> StoreInv db'.
Proof.
  intros (rsid & metadata & row & db1 & messages & _ & Hmd & Hrow & Hv & Ht & Hu & Hm & ->)%persist_steps Hinv.
  set (claim := mkConversation _ _ _ _ _ _ _ _) in *.
  assert (StoreInv (upsert_runtime_session now ti rsid db)) as H0 by (destruct Hinv; by constructor).
  pose proof (claim_inv claim ti _ (conj Hmd (conj eq_refl eq_refl)) H0) as H1.
  set (claimed := claim_conversation claim _) in *. apply get_conversation_spec in Hrow as [Hin Hid].
  destruct (si_born _ H1 row Hin) as [ti0 HB]. pose proof (scope_sound row ti0 ti HB Hv) as Hsc.
  match type of Hu with upsert_turn _ _ _ _ _ (update_conversation _ ?f _) = _ => set (g := f) in * end.
  assert (StoreInv db1) as [].
  { eapply (upsert_turn_inv _ _ _ _ _ _ _ (g row) ti0); [| | |exact Hsc|exact Ht|exact Hu|by apply update_inv].
    - simpl. apply list_elem_of_fmap. exists row. by rewrite Hid, bool_decide_eq_true_2.
    - exact Hid.
    - by destruct HB as (? & ? & ?). }
  constructor; simpl; try done. by eapply upsert_all_inv.
Qed.

Lemma guard_inv now ti db db' : conversation_guard now ti db = Ok db' -> StoreInv db -> StoreInv db'.
Proof.
  unfold conversation_guard. destruct (conversation_metadata ti) as [metadata|] eqn:Em; [|done]. cbn [mbind res_bind].
  destruct (get_conversation _ _) as [row|]; [|done]. destruct (verify_conversation_scope row ti); [|done]. cbn [mbind res_bind].
  destruct (verify_turn _ ti); [|done]. cbn [mbind res_bind]. intros [= <-] Hinv. by apply (claim_inv _ ti).
Qed.

(** The tables that guarded and persisted turns leave; a persist may count its
    number in any older table [seen]. *)
Inductive stored_tables : RuntimeDb -> Prop :=
  | tables_empty : stored_tables (mkDb [] [] [] [])
  | tables_guard now ti db db' : stored_tables db -> conversation_guard now ti db = Ok db' -> stored_tables db'
  | tables_persist model now ti md a seen db db' : stored_tables db -> persist_once model now ti md a seen db = Ok db' -> stored_tables db'.

Lemma stored_inv db : stored_tables db -> StoreInv db.
Proof.
  induction 1; [|by eapply guard_inv|by eapply persist_inv].
  constructor; simpl; try apply NoDup_nil_2; by intros ? ?%elem_of_nil.
Qed.

Definition at_room (t : TurnRow) (session : string) : Prop :=
  get_or t.(tr_row_metadata) "source_session_id" VNone = VStr session /\ get_or t.(tr_row_metadata) "session_id" VNone = VStr session.

(** C13: In the tables that any sequence of guarded and persisted turns leaves, two turns of one
    conversation have the same owner and companion, and either belong to the same room session
    or have the same memory realm, person and memory policies. *)
Theorem conversations_serve_one_scope db t1 t2 :
  stored_tables db -> t1 ∈ db.(db_turns) -> t2 ∈ db.(db_turns) -> t1.(tr_conversation_id) = t2.(tr_conversation_id) ->
  let same k := get_or t1.(tr_row_metadata) k VNone = get_or t2.(tr_row_metadata) k VNone in
  same "owner_id" /\ same "companion_id" /\
  ((exists session, at_room t1 session /\ at_room t2 session) \/
   (same "memory_realm_id" /\ same "person_id" /\ same "memory_enabled" /\
    same "provisional_memory_save" /\ same "provisional_memory_recall")).
Proof.
  intros Hdb%stored_inv H1 H2 Hc same.
  destruct (si_scope _ Hdb t1 H1) as (r1 & a1 & b1 & Hr1 & Hi1 & HB1 & (k1 & tm1 & s1 & E1) & S1).
  destruct (si_scope _ Hdb t2 H2) as (r2 & a2 & b2 & Hr2 & Hi2 & HB2 & (k2 & tm2 & s2 & E2) & S2).
  assert (r1 = r2) as <- by (eapply NoDup_map_elem; [apply (si_conversations _ Hdb)|done|done|congruence]).
  assert (SameScope b1 b2) as [Ho Hcm Hroom Hses Hp].
  { transitivity a1; [by symmetry|]. transitivity a2; [by eapply born_same|done]. }
  subst same. unfold at_room. rewrite E1, E2.
  destruct (turn_metadata_get b1 k1 tm1 s1 VNone) as (-> & -> & -> & -> & -> & -> & -> & _ & _ & -> & ->).
  destruct (turn_metadata_get b2 k2 tm2 s2 VNone) as (-> & -> & -> & -> & -> & -> & -> & _ & _ & -> & ->).
  split; [congruence|]. split; [congruence|]. destruct (in_room b1) eqn:Er.
  - left. exists (ti_session_id b1). pose proof (proj1 (in_room_spec b1) Er) as ->. symmetry in Hroom.
    pose proof (proj1 (in_room_spec b2) Hroom) as ->. rewrite Hses by done. by split.
  - right. destruct Hp as (-> & -> & -> & -> & ->); [done|]. by split_and!.
Qed.

(** In the tables that any sequence of persists leaves, a turn is determined by its id and by
    its conversation and number, also when a persist counted its number in an older table. *)
Theorem turn_numbers_are_unique db t1 t2 :
  stored_tables db -> t1 ∈ db.(db_turns) -> t2 ∈ db.(db_turns) ->
  (t1.(tr_turn_id) = t2.(tr_turn_id) \/ (t1.(tr_conversation_id) = t2.(tr_conversation_id) /\ t1.(tr_seq) = t2.(tr_seq))) -> t1 = t2.
Proof.
  intros Hdb%stored_inv H1 H2 [Hid|[Hc Hq]].
  - by eapply NoDup_map_elem; [apply (si_turns _ Hdb)|..].
  - eapply NoDup_map_elem; [apply (si_numbers _ Hdb)|done|done|congruence].
Qed.

(** *** Repeating a persist *)

(** [row] is stored at its place. *)
Definition holds (row : MessageRow) (l : list MessageRow) : Prop :=
  (exists x, x ∈ l /\ same_place row x = true) /\ forall x, x ∈ l -> same_place row x = true -> rewrite_message row x = x.

Lemma holds_stable row l : holds row l -> upsert_message_row row l = Ok l.
Proof.
  intros [(y & Hy & Hs) Hx]. unfold upsert_message_row.
  assert (existsb (same_place row) l = true) as -> by (apply existsb_exists; exists y; split; [by apply list_elem_of_In|done]).
  f_equal. rewrite <- (map_id l) at 2. apply map_ext_in. intros x Hin%list_elem_of_In. destruct (same_place row x) eqn:E; [|done]. by apply Hx.
Qed.

Lemma upsert_elem row l l' x : upsert_message_row row l = Ok l' -> x ∈ l' ->
  (same_place row x = true /\ rewrite_message row x = x) \/ (same_place row x = false /\ x ∈ l).
Proof.
  unfold upsert_message_row. destruct (existsb (same_place row) l) eqn:E1.
  - intros [= <-] (y & -> & Hy)%list_elem_of_fmap. destruct (same_place row y) eqn:Es; [by left|by right].
  - destruct (existsb (fun x => bool_decide (mr_id x = _)) l); [done|]. intros [= <-] [Hx| ->%list_elem_of_singleton]%elem_of_app.
    + right. split; [|done]. apply not_true_iff_false. intros Es. apply not_true_iff_false in E1. apply E1, existsb_exists.
      exists x. by rewrite <- list_elem_of_In.
    + left. split; [by apply same_place_spec|by destruct row].
Qed.

Lemma upsert_stores row l l' : upsert_message_row row l = Ok l' -> exists x, x ∈ l' /\ same_place row x = true.
Proof.
  unfold upsert_message_row. destruct (existsb (same_place row) l) eqn:E1.
  - intros [= <-]. apply existsb_exists in E1 as (y & Hy & Es). exists (rewrite_message row y). split; [|exact Es].
    apply list_elem_of_fmap. exists y. rewrite Es. split; [done|by apply list_elem_of_In].
  - destruct (existsb (fun x => bool_decide (mr_id x = _)) l); [done|]. intros [= <-]. exists row.
    split; [apply elem_of_app; right; by left|by apply same_place_spec].
Qed.

Lemma upsert_holds row l l' : upsert_message_row row l = Ok l' -> holds row l'.
Proof.
  intros Hu. split; [by eapply upsert_stores|]. intros x Hx Hs. destruct (upsert_elem _ _ _ _ Hu Hx) as [[_ ?]|[? _]]; [done|congruence].
Qed.

Lemma upsert_keeps_elem row l l' x : upsert_message_row row l = Ok l' -> same_place row x = false -> x ∈ l -> x ∈ l'.
Proof.
  unfold upsert_message_row. destruct (existsb (same_place row) l).
  - intros [= <-] Hs Hx. apply list_elem_of_fmap. exists x. by rewrite Hs.
  - destruct (existsb _ l); [done|]. intros [= <-] _ Hx. apply elem_of_app. by left.
Qed.

(** A message of another place does not disturb it. *)
Lemma upsert_keeps r row l l' : (mr_turn_id r, mr_seq r) <> (mr_turn_id row, mr_seq row) ->
  upsert_message_row r l = Ok l' -> holds row l -> holds row l'.
Proof.
  intros Hne Hu [(y & Hy & Hs) Hx].
  assert (forall x, same_place row x = true -> same_place r x = false) as Hdis.
  { intros x H1%same_place_spec. apply not_true_iff_false. intros H2%same_place_spec. congruence. }
  split.
  - exists y. split; [|done]. eapply upsert_keeps_elem; [exact Hu|by apply Hdis|done].
  - intros x Hin Hsx. destruct (upsert_elem _ _ _ _ Hu Hin) as [[H1 _]|[_ ?]]; [by rewrite Hdis in H1|by apply Hx].
Qed.

Lemma persisted_places ti md a model : NoDup (map (fun m => (m.(mr_turn_id), m.(mr_seq))) (persisted_messages ti md a model)).
Proof.
  unfold persisted_messages. destruct (is_empty _), (is_empty _); simpl; repeat (apply NoDup_cons; split); try apply NoDup_nil_2;
    try apply not_elem_of_nil. by intros ?%list_elem_of_singleton.
Qed.

Lemma upsert_all_holds rows l l' : NoDup (map (fun m => (m.(mr_turn_id), m.(mr_seq))) rows) -> upsert_all rows l = Ok l' ->
  (forall r, r ∈ rows -> holds r l') /\ forall row, (mr_turn_id row, mr_seq row) ∉ map (fun m => (m.(mr_turn_id), m.(mr_seq))) rows -> holds row l -> holds row l'.
Proof.
  revert l. induction rows as [|r rows IH]; intros l; simpl; [intros _ [= <-]; split; [by intros ? ?%elem_of_nil|done]|].
  intros [Hr Hn]%NoDup_cons. destruct (upsert_message_row r l) as [l1|] eqn:E; [|done]. cbn [mbind res_bind]. intros Hu.
  destruct (IH l1 Hn Hu) as [H1 H2]. split.
  - intros x [->|Hx]%elem_of_cons; [|by apply H1]. apply H2; [done|]. by eapply upsert_holds.
  - intros row [Hne Hnot]%not_elem_of_cons Hl. apply H2; [done|]. eapply upsert_keeps; [|exact E|done]. congruence.
Qed.

Lemma upsert_all_stable rows l : (forall r, r ∈ rows -> holds r l) -> upsert_all rows l = Ok l.
Proof.
  induction rows as [|r rows IH]; intros H; simpl; [done|]. rewrite (holds_stable r l) by (apply H; by left). cbn [mbind res_bind].
  apply IH. intros x Hx. apply H. by right.
Qed.

Lemma verify_again row ti rsid at_ : verify_conversation_scope row ti = Ok tt ->
  verify_conversation_scope (mkConversation row.(cv_id) row.(cv_owner_id) row.(cv_companion_id) rsid ti.(ti_context).(device_id)
    row.(cv_started_at) at_ row.(cv_metadata)) ti = Ok tt.
Proof.
  unfold verify_conversation_scope. cbn [cv_metadata cv_owner_id cv_companion_id cv_device_id].
  rewrite (bool_decide_eq_true_2 (device_id (ti_context ti) = device_id (ti_context ti))) by done. rewrite !andb_true_r.
  destruct (in_room ti || _).
  - destruct (negb (in_room ti)); [done|]. cbn [orb]. destruct (negb _) eqn:E; [done|]. intros _. apply negb_false_iff in E.
    rewrite !andb_true_iff in E. destruct E as [[[[-> ->] _] ->] ->]. done.
  - repeat (match goal with |- (if ?b then Err _ else _) = _ -> _ => destruct b eqn:?; [done|] end).
    intros _. match goal with H : _ && negb _ = false |- _ => apply andb_false_iff in H as [->|H%negb_false_iff] end; [done|].
    match goal with H : _ && bool_decide (cv_device_id _ = _) = true |- _ => apply andb_true_iff in H as [-> _] end.
    by rewrite andb_false_r.
Qed.

Lemma verify_turn_again ti triage timings rsid t : t.(tr_conversation_id) = ti.(ti_conversation_id) ->
  t.(tr_row_metadata) = turn_metadata_json ti triage timings rsid -> verify_existing_turn_scope t ti = Ok tt.
Proof.
  intros Hc Hm. unfold verify_existing_turn_scope. rewrite Hc, Hm, bool_decide_eq_true_2 by done. clear Hm.
  destruct (turn_metadata_get ti triage timings rsid VNone) as (_ & _ & H1 & _ & H2 & _ & _ & H3 & H4 & _).
  destruct (turn_metadata_get ti triage timings rsid (VBool false)) as (_ & _ & _ & _ & _ & H5 & H6 & _).
  set (m := turn_metadata_json ti triage timings rsid) in *. clearbody m.
  rewrite H5, H6. cbn [forallb]. rewrite H1, H2, H3, H4.
  assert (forall a, py_eq (of_opt_int a) (of_opt_int a) = true) as Hi by (intros [z|]; simpl; [apply Z.eqb_refl|done]).
  rewrite !Hi, (proj2 (py_eq_opt_str _ _)), !(proj2 (py_eq_bool _ _)), (proj2 (py_eq_str _ _)) by done. done.
Qed.

(** The turn row a second persist finds and leaves. *)
Lemma upsert_turn_again ti a model rsid seen seen' db db1 sessions conversations messages :
  NoDup (map tr_turn_id db.(db_turns)) -> verify_turn db ti = Ok tt -> upsert_turn ti a model rsid seen db = Ok db1 ->
  let db2 := mkDb sessions conversations db1.(db_turns) messages in
  verify_turn db2 ti = Ok tt /\ upsert_turn ti a model rsid seen' db2 = Ok db2.
Proof.
  intros Hn Hv Hu db2. unfold upsert_turn, verify_turn in *. destruct (trace_json (pa_timings a)) as [trace|]; [|done].
  cbn [mbind res_bind] in *. subst db2. destruct (get_turn db (ti_turn_id ti)) as [old|] eqn:Eo.
  - injection Hu as <-. cbn [db_turns].
    match goal with |- context [map ?f (db_turns db)] => set (g := f) end.
    assert (get_turn (mkDb sessions conversations (map g (db_turns db)) messages) (ti_turn_id ti) = Some (g old)) as ->.
    { unfold get_turn in *. cbn [db_turns]. rewrite find_map; [by rewrite Eo|]. intros x.
      assert (tr_turn_id (g x) = tr_turn_id x) as ->; [|done]. unfold g. by destruct (bool_decide (tr_turn_id x = _)). }
    apply get_turn_spec in Eo as [Ho Hid]. split.
    + unfold verify_existing_turn_scope in Hv. destruct (negb (bool_decide _)) eqn:Ec in Hv; [done|].
      apply negb_false_iff, bool_decide_eq_true in Ec. unfold g. rewrite bool_decide_eq_true_2 by done.
      by eapply verify_turn_again.
    + do 2 f_equal. cbn [db_turns]. rewrite map_map. apply map_ext. intros x. unfold g.
      destruct (bool_decide (tr_turn_id x = ti_turn_id ti)) eqn:Ex; [|by rewrite Ex].
      cbn [tr_turn_id tr_conversation_id tr_seq tr_metrics]. rewrite Ex. f_equal.
      exact (dict_merge_twice (tr_metrics x) (turn_metrics a model) ltac:(by_compute)).
  - destruct (existsb _ _); [done|]. injection Hu as <-. cbn [db_turns].
    match goal with |- context [db_turns db ++ [?r]] => set (row := r) end.
    assert (get_turn (mkDb sessions conversations (db_turns db ++ [row]) messages) (ti_turn_id ti) = Some row) as ->.
    { unfold get_turn in *. cbn [db_turns]. rewrite find_app, Eo. simpl. by rewrite bool_decide_eq_true_2. }
    split; [by eapply verify_turn_again|]. do 2 f_equal. rewrite map_app. simpl. rewrite bool_decide_eq_true_2 by done. f_equal.
    erewrite map_ext_in; [apply map_id|]. intros x Hx%list_elem_of_In. cbn beta. rewrite bool_decide_eq_false_2; [done|].
    intros Ex. apply (get_turn_none db _ Eo). rewrite <- Ex. by apply list_elem_of_fmap_2.
Qed.

Lemma upsert_turn_frame ti a model rsid seen db db1 : upsert_turn ti a model rsid seen db = Ok db1 ->
  db_sessions db1 = db_sessions db /\ db_conversations db1 = db_conversations db /\ db_messages db1 = db_messages db.
Proof.
  unfold TurnStore.upsert_turn. destruct (trace_json (pa_timings a)); [|done]. cbn [mbind res_bind].
  destruct (get_turn db (ti_turn_id ti)); [by intros [= <-]|]. destruct (existsb _ _); [done|]. by intros [= <-].
Qed.

Lemma session_again now ti rsid db conversations turns messages :
  let db2 := mkDb (db_sessions (upsert_runtime_session now ti rsid db)) conversations turns messages in
  upsert_runtime_session now ti rsid db2 = db2.
Proof.
  intros db2. subst db2. unfold upsert_runtime_session. cbn [db_sessions db_conversations db_turns db_messages].
  rewrite dict_get_set_eq, dict_set_set. done.
Qed.

Lemma update_again id f db : (forall r, cv_id (f r) = cv_id r) -> (forall r, f (f r) = f r) ->
  update_conversation id f (update_conversation id f db) = update_conversation id f db.
Proof.
  intros Hid Hf. unfold update_conversation. cbn [db_sessions db_conversations db_turns db_messages]. f_equal.
  rewrite map_map. apply map_ext. intros r. destruct (bool_decide (cv_id r = id)) eqn:E; [|by rewrite E]. by rewrite Hid, E, Hf.
Qed.

Lemma get_updated id f db row : (forall r, cv_id (f r) = cv_id r) -> get_conversation db id = Some row ->
  get_conversation (update_conversation id f db) id = Some (f row).
Proof.
  intros Hid Hg. unfold get_conversation in *. cbn [update_conversation db_conversations]. rewrite find_map.
  - rewrite Hg. simpl. pose proof (find_some _ _ Hg) as [_ E]. cbn beta in E. by rewrite E.
  - intros r. destruct (bool_decide (cv_id r = id)) eqn:E; [by rewrite Hid, E|by rewrite E].
Qed.

(** A persist that has committed can be repeated: the second run succeeds and leaves the tables
    as they are. *)
Theorem repeated_persist_changes_nothing model now ti md a seen seen' db db' :
  stored_tables db -> persist_once model now ti md a seen db = Ok db' -> persist_once model now ti md a seen' db' = Ok db'.
Proof.
  intros Hinv%stored_inv (rsid & metadata & row & db1 & messages & Hr & Hmd & Hrow & Hv & Ht & Hu & Hm & ->)%persist_steps.
  set (claim := mkConversation _ _ _ _ _ _ _ _) in *. set (claimed := claim_conversation claim _) in *.
  match type of Hu with upsert_turn _ _ _ _ _ (update_conversation _ ?f _) = _ => set (g := f) in * end.
  set (updated := update_conversation (ti_conversation_id ti) g claimed) in *.
  destruct (claim_turns claim (upsert_runtime_session now ti rsid db)) as [Hct _]. fold claimed in Hct.
  assert (NoDup (map tr_turn_id (db_turns updated))) as Hn by (change (db_turns updated) with (db_turns claimed); rewrite Hct; apply (si_turns _ Hinv)).
  destruct (upsert_turn_frame _ _ _ _ _ _ _ Hu) as (Es & Ec & _).
  destruct (upsert_turn_again ti a model rsid seen seen' updated db1 (db_sessions db1) (db_conversations db1) messages Hn Ht Hu) as [Ht2 Hu2].
  set (db2 := mkDb (db_sessions db1) (db_conversations db1) (db_turns db1) messages) in *.
  assert (upsert_runtime_session now ti rsid db2 = db2) as H1.
  { unfold db2. rewrite Es. change (db_sessions updated) with (db_sessions claimed). unfold claimed, claim_conversation.
    destruct (get_conversation _ (cv_id claim)); apply session_again. }
  assert (get_conversation db2 (ti_conversation_id ti) = Some (g row)) as H2.
  { unfold db2, get_conversation. cbn [db_conversations]. rewrite Ec. by apply get_updated. }
  assert (claim_conversation claim db2 = db2) as H3 by (unfold claim_conversation; change (cv_id claim) with (ti_conversation_id ti); by rewrite H2).
  assert (update_conversation (ti_conversation_id ti) g db2 = db2) as H4.
  { unfold db2 at 2. pose proof (update_again (ti_conversation_id ti) g claimed (fun r => eq_refl) (fun r => eq_refl)) as E.
    unfold update_conversation, db2. cbn [db_sessions db_conversations db_turns db_messages]. rewrite Ec. f_equal.
    exact (f_equal db_conversations E). }
  unfold TurnStore.persist_once. rewrite Hr. cbn [mbind res_bind]. rewrite Hmd. cbn [mbind res_bind]. cbv zeta.
  assert (verify_conversation_scope (g row) ti = Ok tt) as Hv2 by (by apply verify_again).
  rewrite H1. fold claim. rewrite H3, H2, Hv2. cbn [mbind res_bind].
  fold g. rewrite H4, Ht2. cbn [mbind res_bind]. rewrite Hu2. cbn [mbind res_bind].
  rewrite upsert_all_stable; [done|]. cbn [db2 db_messages]. by eapply upsert_all_holds; [apply persisted_places|].
Qed.

(** *** Private turns *)

Lemma private_row ti md a model row : a.(pa_is_private) = true -> row ∈ persisted_messages ti md a model -> row.(mr_visibility) = "private".
Proof.
  intros Hp Hin. unfold persisted_messages, message_metadata in Hin. rewrite Hp in Hin.
  apply elem_of_app in Hin as [Hin|Hin]; destruct (is_empty _); try (by apply elem_of_nil in Hin); apply list_elem_of_singleton in Hin as ->;
    [reflexivity|]. unfold message_to_row. destruct (pa_usage_out a =? 0), model; reflexivity.
Qed.

Lemma row_to_message_private isoformat x status at_ msg : x.(mr_visibility) = "private" ->
  row_to_message isoformat x status at_ = Some msg -> public_messages [msg] = [].
Proof.
  intros Hv. unfold row_to_message. rewrite Hv, bool_decide_eq_true_2 by done. destruct (List.find _ _) as [r|]; [|done].
  cbn [mbind option_bind]. intros [= <-]. unfold public_messages, is_private. cbn [List.filter m_metadata]. by rewrite dict_get_set_eq.
Qed.

(** What a persist stores of a private turn is in the table with its content, and is read back
    as a message that the public history leaves out. *)
Theorem private_turns_are_not_read_back model now ti md a seen db db' row x :
  persist_once model now ti md a seen db = Ok db' -> a.(pa_is_private) = true ->
  row ∈ persisted_messages ti md a model -> x ∈ db'.(db_messages) -> same_place row x = true ->
  x.(mr_content) = row.(mr_content) /\
  forall isoformat status at_ msg, row_to_message isoformat x status at_ = Some msg -> public_messages [msg] = [].
Proof.
  intros (rsid & metadata & r & db1 & messages & _ & _ & _ & _ & _ & _ & Hm & ->)%persist_steps Hp Hrow Hx Hs.
  destruct (upsert_all_holds _ _ _ (persisted_places ti md a model) Hm) as [Hh _].
  destruct (Hh row Hrow) as [_ Hk]. pose proof (Hk x Hx Hs) as E. apply (private_row _ _ _ _ _ Hp) in Hrow.
  assert (mr_visibility x = "private") as Hv by (rewrite <- E; exact Hrow). split; [by rewrite <- E|].
  intros. by eapply row_to_message_private.
Qed.
End Facts.

(** ** Concrete tables *)

Definition sample_dump (o : SpeakerObservation) : pyval := VNone.
Definition sample_turn (id : string) : TurnInput :=
  mkTurnInput id "conv-1" "session-1" sample_context "text" USER_UTTERANCE
    (mkRuntimeConfig None "0.7" [] ["shell"] false None None) (Some "hi") false false None None [].
Definition sample_persist (private : bool) : PersistArgs :=
  mkPersist TurnStatus.OK SIMPLE sample_time sample_time (Some 5) 9 3 4 None [] "hi" "hello" private.
Definition sample_step (id : string) (private : bool) (db : RuntimeDb) : res RuntimeDb :=
  persist_once sample_dump (Some "m") sample_time (sample_turn id) [] (sample_persist private) db db.
Definition sample_tables : RuntimeDb :=
  match sample_step "turn-1" false (mkDb [] [] [] []) ≫= sample_step "turn-2" true with Ok db => db | Err _ => mkDb [] [] [] [] end.

Lemma sample_tables_made : exists db1, sample_step "turn-1" false (mkDb [] [] [] []) = Ok db1 /\ sample_step "turn-2" true db1 = Ok sample_tables.
Proof. destruct (sample_step "turn-1" false (mkDb [] [] [] [])) as [db1|] eqn:E; vm_compute in E; [|discriminate]. injection E as <-. eexists. split; by vm_compute. Qed.

Lemma sample_tables_stored : stored_tables sample_dump sample_tables.
Proof.
  destruct sample_tables_made as (db1 & H1 & H2). eapply tables_persist; [|exact H2]. eapply tables_persist; [apply tables_empty|exact H1].
Qed.

Definition first_turn : TurnRow := match sample_tables.(db_turns) with t :: _ => t | [] => mkTurnRow "" "" 0 "" None "" "" sample_time sample_time None [] [] [] end.
Definition second_turn : TurnRow := match sample_tables.(db_turns) with _ :: t :: _ => t | _ => first_turn end.

Lemma sample_turns : db_turns sample_tables = [first_turn; second_turn].
Proof. by vm_compute. Qed.

Lemma conversations_serve_one_scope_witness :
  first_turn.(tr_turn_id) <> second_turn.(tr_turn_id) /\
  get_or first_turn.(tr_row_metadata) "owner_id" VNone = get_or second_turn.(tr_row_metadata) "owner_id" VNone.
Proof.
  split; [by vm_compute|].
  apply (conversations_serve_one_scope sample_dump sample_tables first_turn second_turn); [apply sample_tables_stored|..];
    [rewrite sample_turns; by left|rewrite sample_turns; right; by left|by vm_compute].
Defined.

Lemma turn_numbers_are_unique_witness : map tr_seq sample_tables.(db_turns) = [0; 1] /\ first_turn = first_turn.
Proof.
  split; [by vm_compute|].
  apply (turn_numbers_are_unique sample_dump sample_tables first_turn first_turn); [apply sample_tables_stored|..];
    [rewrite sample_turns; by left|rewrite sample_turns; by left|by left].
Defined.

Lemma repeated_persist_changes_nothing_witness :
  length sample_tables.(db_messages) = 4%nat /\ sample_step "turn-2" true sample_tables = Ok sample_tables.
Proof.
  split; [by vm_compute|].
  destruct sample_tables_made as (db1 & E1 & H).
  apply (repeated_persist_changes_nothing sample_dump (Some "m") sample_time (sample_turn "turn-2") [] (sample_persist true) db1 sample_tables db1).
  - eapply tables_persist; [apply tables_empty|exact E1].
  - exact H.
Defined.

Lemma private_turns_are_not_read_back_witness :
  exists row, row ∈ sample_tables.(db_messages) /\ row.(mr_content) = "hello" /\
  exists msg, row_to_message (fun _ => "t") row "ok" sample_time = Some msg /\ public_messages [msg] = [].
Proof.
  destruct sample_tables_made as (db1 & E1 & H).
  destruct (db_messages sample_tables) as [|m1 [|m2 [|m3 [|m4 [|]]]]] eqn:Em; try (vm_compute in Em; discriminate).
  assert (m4 ∈ db_messages sample_tables) as Hin by (rewrite Em; do 3 right; by left).
  exists m4. split; [rewrite <- Em; exact Hin|].
  assert (exists row, row ∈ persisted_messages (sample_turn "turn-2") [] (sample_persist true) (Some "m") /\ same_place row m4 = true /\
    row.(mr_content) = "hello") as (row & Hrow & Hs & Hc).
  { eexists. split; [right; left|]. vm_compute in Em. injection Em as <- <- <- <-. split; by vm_compute. }
  destruct (private_turns_are_not_read_back sample_dump (Some "m") sample_time (sample_turn "turn-2") [] (sample_persist true) db1 db1 sample_tables row m4
              H eq_refl Hrow Hin Hs) as [He Hp].
  split; [congruence|]. destruct (row_to_message (fun _ => "t") m4 "ok" sample_time) as [msg|] eqn:Er.
  - exists msg. split; [done|]. eapply Hp. exact Er.
  - vm_compute in Em. injection Em as <- <- <- <-. discriminate Er.
Defined.
