(* ===== verification/ContextBudget.v ===== *)
(** * [domain/context/types.py]: the segments of a prompt, their order by volatility,
      and the token budget that prunes them.

    Segments are told apart by their identity in the code and by their position here. *)

From S2P Require Import Prelude.

Inductive ContextSegmentKind :=
  | PERSONA | HARNESS_POLICY | RESPONSE_POLICY | PERSONA_STATE | REALTIME | MEMORY | COMMITMENT | SUMMARY | HISTORY
  | COORDINATION | CURRENT_USER.
#[global] Instance segment_kind_eq_dec : EqDecision ContextSegmentKind.
Proof. solve_decision. Defined.

Definition kind_value (k : ContextSegmentKind) : string :=
  match k with
  | PERSONA => "persona" | HARNESS_POLICY => "harness_policy" | RESPONSE_POLICY => "response_policy"
  | PERSONA_STATE => "persona_state" | REALTIME => "realtime" | MEMORY => "memory" | COMMITMENT => "commitment"
  | SUMMARY => "summary" | HISTORY => "history" | COORDINATION => "coordination" | CURRENT_USER => "current_user"
  end.

(** [segment_volatility] *)
Definition segment_volatility (k : ContextSegmentKind) : string :=
  match k with
  | PERSONA | HARNESS_POLICY => "stable"
  | HISTORY => "append_only"
  | CURRENT_USER => "current"
  | _ => "volatile"
  end.

Definition SEGMENT_ORDER : list string := ["stable"; "append_only"; "volatile"; "current"].

(** [tuple.index] *)
Fixpoint index_of (x : string) (l : list string) : nat :=
  match l with
  | [] => 0
  | y :: l => if bool_decide (x = y) then 0 else S (index_of x l)
  end.

(** [volatility_rank] *)
Definition volatility_rank (k : ContextSegmentKind) : nat := index_of (segment_volatility k) SEGMENT_ORDER.

Record ContextSegment := mkSegment {
  sg_kind : ContextSegmentKind;
  sg_source : string;
  sg_tokens : Z;
  sg_priority : Z;
  sg_droppable : bool;
  sg_metadata : list (string * pyval);
}.

Record DroppedContextSegment := mkDropped {
  ds_kind : ContextSegmentKind;
  ds_source : string;
  ds_tokens : Z;
  ds_reason : string;
}.

Record ContextLedger := mkLedger {
  lg_kept : list ContextSegment;
  lg_dropped : list DroppedContextSegment;
  lg_degraded : list string;
  lg_overflow : Z;
}.

Definition total_tokens (l : list ContextSegment) : Z := fold_right (fun s n => s.(sg_tokens) + n) 0 l.

(** [mark_degraded] *)
Definition mark_degraded (l : ContextLedger) (source : string) : ContextLedger :=
  if bool_decide (source ∈ l.(lg_degraded)) then l
  else mkLedger l.(lg_kept) l.(lg_dropped) (l.(lg_degraded) ++ [source]) l.(lg_overflow).

(** [ContextLedger.to_metadata] *)
Definition ledger_to_metadata (l : ContextLedger) : pyval :=
  VDict [("budget_overflow_tokens", VInt l.(lg_overflow));
         ("segments", VList (map (fun s => VDict
            [("kind", VStr (kind_value s.(sg_kind))); ("source", VStr s.(sg_source)); ("token_estimate", VInt s.(sg_tokens));
             ("volatility", VStr (segment_volatility s.(sg_kind))); ("metadata", VDict s.(sg_metadata))]) l.(lg_kept)));
         ("dropped_segments", VList (map (fun s => VDict
            [("kind", VStr (kind_value s.(ds_kind))); ("source", VStr s.(ds_source)); ("token_estimate", VInt s.(ds_tokens));
             ("reason", VStr s.(ds_reason))]) l.(lg_dropped)));
         ("degraded_sources", VList (map VStr l.(lg_degraded)));
         ("total_token_estimate", VInt (total_tokens l.(lg_kept)))].

(** ** [ContextBudget.prune] *)

Definition mandatory (s : ContextSegment) : bool :=
  bool_decide (s.(sg_kind) ∈ [PERSONA; HARNESS_POLICY; CURRENT_USER]) || negb s.(sg_droppable).

Notation Placed := (nat * ContextSegment)%type.

(** The key [(-priority, idx)] of the optional segments *)
Definition placed_leb (a b : Placed) : bool :=
  if b.2.(sg_priority) <? a.2.(sg_priority) then true
  else if a.2.(sg_priority) <? b.2.(sg_priority) then false
  else (a.1 <=? b.1)%nat.

(** The greedy loop: what fits, in order, and what does not. *)
Fixpoint fit (max_tokens used : Z) (optional : list Placed) : list Placed * list Placed :=
  match optional with
  | [] => ([], [])
  | x :: rest =>
      if used + x.2.(sg_tokens) <=? max_tokens
      then let r := fit max_tokens (used + x.2.(sg_tokens)) rest in (x :: r.1, r.2)
      else let r := fit max_tokens used rest in (r.1, x :: r.2)
  end.

Definition drop_segment (x : Placed) : DroppedContextSegment :=
  mkDropped x.2.(sg_kind) x.2.(sg_source) x.2.(sg_tokens) "token_budget_exceeded".

Definition place (segments : list ContextSegment) : list Placed := imap pair segments.

Record Pruned := mkPruned {
  pr_kept : list Placed;
  pr_dropped : list Placed;
  pr_overflow : Z;
}.

(** [prune] *)
Definition prune (max_tokens : Z) (segments : list ContextSegment) : Pruned :=
  let items := place segments in
  let kept := List.filter (fun x => mandatory x.2) items in
  let used := total_tokens kept.*2 in
  let optional := py_sorted placed_leb (List.filter (fun x => negb (bool_decide (x.1 ∈ kept.*1))) items) in
  let r := fit max_tokens used optional in
  let kept_ids := kept.*1 ++ r.1.*1 in
  mkPruned (List.filter (fun x => bool_decide (x.1 ∈ kept_ids)) items) r.2 (Z.max 0 (used - max_tokens)).

Definition pruned_ledger (p : Pruned) : ContextLedger :=
  mkLedger p.(pr_kept).*2 (map drop_segment p.(pr_dropped)) [] p.(pr_overflow).

(** [ContextBudget.__init__] *)
Definition context_budget (max_tokens : Z) : res Z :=
  if max_tokens <? 1 then Err (PyError "ValueError" "max_tokens must be positive") else Ok max_tokens.

(** ** Facts *)

Lemma total_tokens_app l1 l2 : total_tokens (l1 ++ l2) = total_tokens l1 + total_tokens l2.
Proof. induction l1 as [|s l1 IH]; simpl; [done|]. rewrite IH. lia. Qed.

Lemma total_tokens_perm l1 l2 : l1 ≡ₚ l2 -> total_tokens l1 = total_tokens l2.
Proof. induction 1; simpl; lia. Qed.

Lemma total_tokens_nonneg l : Forall (fun s => 0 <= s.(sg_tokens)) l -> 0 <= total_tokens l.
Proof. induction 1; simpl; lia. Qed.

Lemma fit_perm max used l : l ≡ₚ (fit max used l).1 ++ (fit max used l).2.
Proof.
  revert used. induction l as [|x l IH]; intros used; simpl; [done|]. destruct (_ <=? max); simpl.
  - by rewrite <- IH.
  - rewrite <- Permutation_middle. by rewrite <- IH.
Qed.

Notation total l := (total_tokens (snd <$> l)).

Lemma fit_app max used l1 l2 :
  let r1 := fit max used l1 in
  let r2 := fit max (used + total r1.1) l2 in
  fit max used (l1 ++ l2) = (r1.1 ++ r2.1, r1.2 ++ r2.2).
Proof.
  revert used. induction l1 as [|x l1 IH]; intros used; cbn [app fit].
  - rewrite Z.add_0_r. by destruct (fit max used l2).
  - destruct (Z.leb_spec (used + sg_tokens x.2) max); cbn [fst snd]; rewrite IH; cbn [fst snd app]; [|done].
    change (total (x :: ?l)) with (sg_tokens x.2 + total l). by rewrite Z.add_assoc.
Qed.

Lemma fit_total max used l : used <= max -> used + total (fit max used l).1 <= max.
Proof.
  revert used. induction l as [|x l IH]; intros used Hu; cbn [fit]; [simpl; lia|].
  destruct (Z.leb_spec (used + sg_tokens x.2) max); cbn [fst snd]; [|by apply IH].
  change (total (x :: ?l)) with (sg_tokens x.2 + total l). rewrite Z.add_assoc. by apply IH.
Qed.

Lemma fit_over max used l : max < used -> Forall (fun x => 0 <= sg_tokens x.2) l -> fit max used l = ([], l).
Proof.
  intros Hu. induction 1 as [|x l Hx _ IH]; simpl; [done|]. destruct (Z.leb_spec (used + sg_tokens x.2) max); [lia|]. by rewrite IH.
Qed.

Lemma fit_left max used x : x ∈ (fit max used [x]).2 -> max < used + sg_tokens x.2.
Proof. simpl. destruct (Z.leb_spec (used + sg_tokens x.2) max); simpl; [by intros ?%elem_of_nil|done]. Qed.

(** What is left out did not fit beside what was taken before it. *)
Lemma fit_greedy max used l x : x ∈ (fit max used l).2 ->
  exists before after, l = before ++ x :: after /\ (fit max used before).1 `sublist_of` (fit max used l).1 /\
    max < used + total (fit max used before).1 + sg_tokens x.2.
Proof.
  revert used. induction l as [|y l IH]; intros used; cbn [fit]; [by intros ?%elem_of_nil|].
  destruct (Z.leb_spec (used + sg_tokens y.2) max) as [Hle|Hlt]; cbn [fst snd].
  - intros (b & a & -> & Hs & Ht)%IH. exists (y :: b), a. cbn [app fit]. destruct (Z.leb_spec (used + sg_tokens y.2) max); [|lia]. cbn [fst].
    split; [done|]. split; [by apply sublist_skip|]. change (total (y :: ?l)) with (sg_tokens y.2 + total l). lia.
  - intros [->|Hx]%elem_of_cons.
    + exists [], l. split; [done|]. split; [apply sublist_nil_l|]. simpl. lia.
    + destruct (IH _ Hx) as (b & a & -> & Hs & Ht). exists (y :: b), a. cbn [app fit]. destruct (Z.leb_spec (used + sg_tokens y.2) max); [lia|].
      by split_and!.
Qed.

(** Placed segments. *)
Lemma place_fst l : (place l).*1 = seq 0 (length l).
Proof. unfold place. rewrite fmap_imap. apply list_eq. intros i. rewrite list_lookup_imap. 
  destruct (decide (i < length l)%nat) as [Hi|Hi].
  - rewrite lookup_seq_lt by done. destruct (lookup_lt_is_Some_2 l i Hi) as [x ->]. done.
  - rewrite lookup_seq_ge by lia. by rewrite lookup_ge_None_2 by lia.
Qed.
Lemma place_snd l : (place l).*2 = l.
Proof. unfold place. rewrite fmap_imap. apply list_eq. intros i. rewrite list_lookup_imap. by destruct (l !! i). Qed.
Lemma place_nodup l : NoDup (place l).*1.
Proof. rewrite place_fst. apply NoDup_seq. Qed.

Lemma filter_partition {A} (p q : A -> bool) l : (forall x, x ∈ l -> q x = negb (p x)) -> l ≡ₚ List.filter p l ++ List.filter q l.
Proof.
  induction l as [|x l IH]; intros H; simpl; [done|]. rewrite (H x) by (by left).
  assert (l ≡ₚ List.filter p l ++ List.filter q l) as Hl by (apply IH; intros y Hy; apply H; by right).
  destruct (p x); simpl; [|rewrite <- Permutation_middle]; by rewrite <- Hl.
Qed.

Lemma filter_all_in {A} (p : A -> bool) l : (forall x, x ∈ l -> p x = true) -> List.filter p l = l.
Proof. induction l as [|x l IH]; intros H; simpl; [done|]. rewrite H by (by left). rewrite IH; [done|]. intros y Hy. apply H. by right. Qed.

Lemma filter_perm {A} (p : A -> bool) l l' : l ≡ₚ l' -> List.filter p l ≡ₚ List.filter p l'.
Proof.
  induction 1 as [|x l l' _ IH|x y l|l1 l2 l3 _ IH1 _ IH2]; simpl; [done| | |by rewrite IH1].
  - destruct (p x); by rewrite IH.
  - destruct (p x), (p y); try done. apply perm_swap.
Qed.

Lemma filter_sublist {A} (p : A -> bool) (l : list A) : List.filter p l `sublist_of` l.
Proof. induction l as [|x l IH]; simpl; [done|]. destruct (p x); by constructor. Qed.

Section Prune.
Context (max_tokens : Z) (segments : list ContextSegment).
Notation items := (place segments).
Notation required := (List.filter (fun x => mandatory x.2) (place segments)).
Notation optional := (py_sorted placed_leb (List.filter (fun x => negb (bool_decide (x.1 ∈ required.*1))) (place segments))).
Notation fitted := (fit max_tokens (total required) optional).

Lemma required_iff x : x ∈ items -> x.1 ∈ required.*1 <-> mandatory x.2 = true.
Proof.
  intros Hx. split.
  - intros (y & Hy & Hin)%list_elem_of_fmap. apply elem_of_filter_list in Hin as [Hin Hm].
    rewrite (NoDup_map_elem fst items x y); [done|apply place_nodup|done|done|done].
  - intros Hm. apply (list_elem_of_fmap_2 fst). by apply elem_of_filter_list.
Qed.

Lemma items_split : items ≡ₚ (required ++ fitted.1) ++ fitted.2.
Proof.
  rewrite <- app_assoc, <- fit_perm, py_sorted_perm. apply filter_partition. intros x Hx. f_equal.
  apply Bool.eq_iff_eq_true. rewrite bool_decide_eq_true. by apply required_iff.
Qed.

Lemma kept_perm : (prune max_tokens segments).(pr_kept) ≡ₚ required ++ fitted.1.
Proof.
  unfold prune. cbn [pr_kept]. rewrite <- fmap_app.
  assert (NoDup ((required ++ fitted.1) ++ fitted.2).*1) as Hn by (rewrite <- items_split; apply place_nodup).
  rewrite fmap_app in Hn. apply NoDup_app in Hn as (_ & Hd & _).
  etrans; [apply filter_perm, items_split|]. rewrite List.filter_app.
  match goal with |- List.filter ?f ?l1 ++ List.filter ?f ?l2 ≡ₚ _ =>
    assert (List.filter f l1 = l1) as ->; [|assert (List.filter f l2 = []) as ->; [|by rewrite app_nil_r]] end.
  - apply filter_all_in. intros x Hx. apply bool_decide_eq_true. by apply (list_elem_of_fmap_2 fst).
  - apply filter_nil_iff. intros x Hx. apply bool_decide_eq_false. intros H. apply (Hd _ H). by apply (list_elem_of_fmap_2 fst).
Qed.

(** The kept positions, among them every mandatory one. *)
Lemma prune_positions : exists ids : list nat,
  (prune max_tokens segments).(pr_kept) = List.filter (fun x => bool_decide (x.1 ∈ ids)) (place segments) /\
  forall i s, segments !! i = Some s -> mandatory s = true -> i ∈ ids.
Proof.
  unfold prune. cbn [pr_kept]. eexists. split; [reflexivity|]. intros i s Hi Hm. apply elem_of_app. left.
  apply list_elem_of_fmap. exists (i, s). split; [done|]. apply elem_of_filter_list. split; [|done].
  apply elem_of_lookup_imap. by exists i, s.
Qed.

Lemma placed_leb_total x y : placed_leb x y = true \/ placed_leb y x = true.
Proof.
  unfold placed_leb. destruct (Z.ltb_spec (sg_priority y.2) (sg_priority x.2)), (Z.ltb_spec (sg_priority x.2) (sg_priority y.2)); try lia; auto.
  rewrite !Nat.leb_le. lia.
Qed.
Lemma placed_leb_trans x y z : placed_leb x y = true -> placed_leb y z = true -> placed_leb x z = true.
Proof.
  unfold placed_leb. repeat match goal with |- context [?a <? ?b] => destruct (Z.ltb_spec a b) end; try lia; try done.
  rewrite !Nat.leb_le. lia.
Qed.

Lemma sublist_total l1 l2 : Forall (fun s => 0 <= sg_tokens s) l2 -> l1 `sublist_of` l2 -> total_tokens l1 <= total_tokens l2.
Proof. intros Hf Hs. revert Hf. induction Hs; intros Hf; simpl; [lia|apply Forall_cons in Hf as [? ?]; specialize (IHHs ltac:(done)); lia..]. Qed.

Lemma filter_of_sublist {A} (p : A -> bool) (l1 l2 : list A) : l1 `sublist_of` l2 -> List.filter p l1 `sublist_of` List.filter p l2.
Proof. induction 1; simpl; [done|destruct (p x); by (done || constructor)..]. Qed.

(** The segments that had precedence over [x]. *)
Definition before (x y : Placed) : bool := mandatory y.2 || placed_leb y x.

Lemma dropped_greedy x : Forall (fun s => 0 <= sg_tokens s) segments -> x ∈ fitted.2 ->
  max_tokens < total (List.filter (before x) (prune max_tokens segments).(pr_kept)) + x.2.(sg_tokens).
Proof.
  intros Hf Hx. destruct (fit_greedy _ _ _ _ Hx) as (b & a & Hopt & Hsub & Hlt).
  pose proof (py_sorted_sorted placed_leb placed_leb_total placed_leb_trans) as Hsort.
  specialize (Hsort (List.filter (fun x => negb (bool_decide (x.1 ∈ required.*1))) items)).
  assert (forall y, y ∈ (fit max_tokens (total required) b).1 -> placed_leb y x = true) as Hb.
  { intros y Hy. assert (y ∈ b) as Hyb by (rewrite (fit_perm max_tokens (total required) b); apply elem_of_app; by left).
    rewrite Hopt in Hsort. apply list_elem_of_split in Hyb as (b1 & b2 & ->). rewrite <- app_assoc in Hsort. cbn [app] in Hsort.
    eapply (StronglySorted_suffix _ (y :: b2 ++ x :: a)) in Hsort; [|by exists b1]. apply StronglySorted_inv in Hsort as [_ Hall].
    rewrite Forall_forall in Hall. apply Hall. apply elem_of_app. right. by left. }
  assert (total (List.filter (before x) (prune max_tokens segments).(pr_kept)) =
          total required + total (List.filter (before x) fitted.1)) as ->.
  { rewrite (total_tokens_perm _ _ (fmap_Permutation snd _ _ (filter_perm (before x) _ _ kept_perm))), List.filter_app, fmap_app, total_tokens_app.
    rewrite (filter_all_in (before x) required); [done|]. intros y Hy%elem_of_filter_list. unfold before. by rewrite (proj2 Hy). }
  enough (total (fit max_tokens (total required) b).1 <= total (List.filter (before x) fitted.1)) by lia.
  apply sublist_total.
  - apply Forall_fmap, Forall_forall. intros y Hy%elem_of_filter_list. destruct Hy as [Hy _]. cbn.
    rewrite Forall_forall in Hf. apply Hf. rewrite <- (place_snd segments). apply list_elem_of_fmap_2.
    rewrite items_split. apply elem_of_app. left. apply elem_of_app. by right.
  - apply fmap_sublist. rewrite <- (filter_all_in (before x) (fit _ _ b).1); [by apply filter_of_sublist|].
    intros y Hy. unfold before. rewrite (Hb y Hy). by rewrite orb_true_r.
Qed.

Lemma filter_snd {A B} (p : B -> bool) (l : list (A * B)) : (List.filter (fun x => p x.2) l).*2 = List.filter p l.*2.
Proof. induction l as [|x l IH]; simpl; [done|]. destruct (p x.2); [|exact IH]. exact (f_equal (cons x.2) IH). Qed.

Lemma required_total : total required = total_tokens (List.filter mandatory segments).
Proof. by rewrite filter_snd, place_snd. Qed.

(** C17: prune keeps the order, splits the segments into kept and dropped, never drops a mandatory
    one, stays within the budget unless the mandatory ones alone exceed it (by exactly the
    recorded overflow), and drops a segment only when it does not fit beside the mandatory ones
    and the kept ones of higher precedence. *)
Theorem prune_spec :
  Forall (fun s => 0 <= sg_tokens s) segments ->
  let p := prune max_tokens segments in
  let needed := total_tokens (List.filter mandatory segments) in
  p.(pr_kept).*2 `sublist_of` segments /\
  segments ≡ₚ p.(pr_kept).*2 ++ p.(pr_dropped).*2 /\
  Forall (fun x => mandatory x.2 = false) p.(pr_dropped) /\
  total p.(pr_kept) <= Z.max max_tokens needed /\
  p.(pr_overflow) = Z.max 0 (needed - max_tokens) /\
  forall x, x ∈ p.(pr_dropped) -> max_tokens < total (List.filter (before x) p.(pr_kept)) + x.2.(sg_tokens).
Proof.
  intros Hf p needed. assert (pr_dropped p = fitted.2) as Hd by done. pose proof kept_perm as Hk. fold p in Hk. split_and!.
  - trans (place segments).*2; [apply fmap_sublist, filter_sublist|by rewrite place_snd].
  - trans (place segments).*2; [by rewrite place_snd|]. rewrite <- fmap_app. apply fmap_Permutation. rewrite Hk, Hd. exact items_split.
  - rewrite Hd. apply Forall_forall. intros x Hx. assert (x ∈ optional) as Ho by (rewrite (fit_perm max_tokens (total required) optional); apply elem_of_app; by right).
    rewrite py_sorted_perm in Ho. apply elem_of_filter_list in Ho as [Hi Hn]. apply negb_true_iff, bool_decide_eq_false in Hn.
    apply not_true_iff_false. by rewrite <- required_iff.
  - subst needed. rewrite <- required_total. rewrite (total_tokens_perm _ _ (fmap_Permutation snd _ _ Hk)), fmap_app, total_tokens_app.
    destruct (Z.le_gt_cases (total required) max_tokens) as [Hle|Hgt].
    + pose proof (fit_total max_tokens _ optional Hle). lia.
    + rewrite fit_over; [simpl; lia|lia|]. apply Forall_forall. intros x Hx. rewrite py_sorted_perm in Hx. apply elem_of_filter_list in Hx as [Hx _].
      rewrite Forall_forall in Hf. apply Hf. rewrite <- (place_snd segments). by apply list_elem_of_fmap_2.
  - subst needed. by rewrite <- required_total.
  - rewrite Hd. intros x Hx. by apply dropped_greedy.
Qed.
End Prune.

Definition sample_segments : list ContextSegment :=
  [mkSegment PERSONA "p" 5 100 false []; mkSegment MEMORY "m" 3 80 true []; mkSegment HISTORY "h" 1 60 true [];
   mkSegment CURRENT_USER "u" 2 100 false []].

Lemma prune_spec_witness :
  map (fun x => sg_source x.2) (prune 8 sample_segments).(pr_dropped) = ["m"] /\
  total_tokens (prune 8 sample_segments).(pr_kept).*2 <= 8.
Proof.
  split; [by vm_compute|].
  assert (Forall (fun s => 0 <= sg_tokens s) sample_segments) as H by (repeat constructor; by vm_compute).
  destruct (prune_spec 8 sample_segments H) as (_ & _ & _ & Hk & _). exact Hk.
Defined.
