(* ===== verification/ContextCompiler.v ===== *)
(** * [domain/context/compiler.py]: how the prompt of a turn is compiled.

    [compile] reads persona, memory, commitments, summary and history, renders what they
    say as segments, prunes the segments to the token budget and assembles the messages.
    The services it reads are the fields of [CompilerPorts]; [cx_reads] records every
    read, [cx_writes] every assignment to [ti.metadata]. The five reads of [gather] are
    recorded one after the other: they share no state but the metadata, which only the
    memory read writes. *)

From S2P Require Import Prelude CoreTypes Guards Presentation Effects Json TurnState TurnEngine ContextBudget ContextText.
#[local] Open Scope eff_scope.

(** ** Data *)

Record MemoryHit := mkHit { mh_id : string; mh_fields : pyval }.

Record MemoryRecallResult := mkRecall {
  mc_context : string;
  mc_hits : list MemoryHit;
  mc_degraded : bool;
  mc_degraded_reason : option string;
  mc_kg_triples : list pyval;
  mc_diagnostics : list (string * pyval);
}.

(** [recall_provisional_sources] *)
Record ProvisionalResult := mkProvisional { pv_context : string; pv_degraded : bool; pv_degraded_reason : option string }.

Record ActiveCommitment := mkCommitment { ac_commitment_id : string; ac_fields : pyval }.

Record ActiveCommitmentReadResult := mkCommitments {
  cr_commitments : list ActiveCommitment;
  cr_total : Z;
  cr_truncated : bool;
  cr_degraded : bool;
  cr_degraded_reason : option string;
}.

(** The fields of [RealizedPersona] this code reads *)
Record RealizedPersona := mkPersona {
  pe_genome_id : string;
  pe_system_prompt : string;
  pe_stable_prompt : string;
  pe_volatile_prompt : string;
  pe_spoken_phrases : list (string * pyval);
  pe_evidence_refs : list pyval;
  (** [stored]: the preference revision and the preferences *)
  pe_stored : option (Z * ConversationPreferences);
}.

(** The public side of a coordinated turn, its parts as they are dumped *)
Record CoordinatedInput := mkCoordinated { co_context_ref : string; co_trigger : pyval; co_public_context : pyval }.

(** [TurnInput] with what only the compiler reads *)
Record CompileInput := mkCompileInput {
  ci_turn : TurnInput;
  ci_realtime : option SignalDigest;
  ci_coordination : option CoordinatedInput;
}.

(** What [ContextCompiler.__init__] is given *)
Record CompilerConfig := mkCompiler {
  cc_history_window : Z;
  cc_degraded_history_window : Z;
  cc_memory_timeout_ms : Z;
  cc_memory_top_k : Z;
  cc_commitment_limit : Z;
  cc_commitment_timeout_ms : Z;
  cc_summary_timeout_ms : Z;
  cc_budget_tokens : option Z;
  cc_budget_mode : string;
  cc_message_budget_tokens : Z;
  cc_output_reserve_tokens : Z;
}.

Inductive context_read :=
  | RPersona (companion genome : string)
  | RProvisional
  | RPeek (window : Z) (exclude : string)
  | RRecall (query : string)
  | RCommitments (limit : Z)
  | RSummary
  | RHistory (window : Z) (exclude : string)
  | REvidence (hits : list MemoryHit).

Record CompilerPorts := mkCompilerPorts {
  cp_locator : string -> string -> string -> string * string;
  cp_realize : string -> string -> res RealizedPersona;
  cp_realize_commitments : list ActiveCommitment -> string;
  cp_apply_evidence : option (RealizedPersona -> list MemoryHit -> res RealizedPersona);
  (** [recent_window], within the read deadline *)
  cp_history : Z -> string -> res (list ChatMessage);
  (** the same within 25 ms *)
  cp_peek : Z -> string -> res (list ChatMessage);
  cp_has_memory : bool;
  cp_provisional : res ProvisionalResult;
  (** the [n]-th query of the turn *)
  cp_recall : nat -> string -> res MemoryRecallResult;
  (** no time is left before the [n]-th query *)
  cp_expired : nat -> bool;
  (** how many awaits of the memory read complete before the deadline; [None]: all *)
  cp_memory_awaits : option nat;
  cp_has_commitment_reader : bool;
  cp_commitments : Z -> res ActiveCommitmentReadResult;
  (** the deadline passes while the commitments are read *)
  cp_commitments_cut : bool;
  (** the value of the summary provider, if there is one *)
  cp_summary : option (res pyval);
  cp_ms : string -> Z;
  cp_uuid : nat -> string;
  cp_now : datetime;
}.

Record CCtx := mkCtx {
  cx_md : list (string * pyval);
  cx_writes : list (string * pyval);
  cx_reads : list context_read;
  cx_attempted : bool;
  cx_awaits : option nat;
}.

(** [ti.metadata[k] = v] *)
Definition put (k : string) (v : pyval) : M CCtx unit :=
  mmodify (fun s => mkCtx (dict_set s.(cx_md) k v) (s.(cx_writes) ++ [(k, v)]) s.(cx_reads) s.(cx_attempted) s.(cx_awaits)).
Definition note_read (r : context_read) : M CCtx unit :=
  mmodify (fun s => mkCtx s.(cx_md) s.(cx_writes) (s.(cx_reads) ++ [r]) s.(cx_attempted) s.(cx_awaits)).
Definition set_attempted : M CCtx unit :=
  mmodify (fun s => mkCtx s.(cx_md) s.(cx_writes) s.(cx_reads) true s.(cx_awaits)).

(** An await of the memory read: the deadline surfaces here. *)
Definition await_memory : M CCtx unit := fun s =>
  match s.(cx_awaits) with
  | None => (Ok tt, s)
  | Some (S n) => (Ok tt, mkCtx s.(cx_md) s.(cx_writes) s.(cx_reads) s.(cx_attempted) (Some n))
  | Some O => (Err Cancelled, s)
  end.

Definition timeout_error : exn := PyError "TimeoutError" "".

Section Compiler.
Context (str_repr : string -> string) (exn_details : exn -> pyval) (float_add : pyval -> pyval -> pyval).
Context (default_preferences : ConversationPreferences) (preferences_dump : ConversationPreferences -> pyval).
Context (cc : CompilerConfig) (cp : CompilerPorts) (ci : CompileInput).
Notation ti := ci.(ci_turn).

(** ** [ContextCompiler.__init__] *)

Definition degraded_history_window : Z := Z.max cc.(cc_degraded_history_window) cc.(cc_history_window).
Definition active_commitment_limit : Z := Z.max 1 (Z.min cc.(cc_commitment_limit) 10).
(** [_normalize_budget_mode] *)
Definition context_budget_mode : string := normalize_guard_mode cc.(cc_budget_mode).

Definition user_text : string := text ti.

(** [_exception_degraded_reason] *)
Definition exception_degraded_reason (e : exn) : string :=
  match exn_details e with
  | VDict d => match dict_get d "reason" with Some (VStr r) => str_or r "error" | _ => "error" end
  | _ => "error"
  end.

(** ** Memory recall *)

(** [_memory_skip_reason] *)
Definition memory_skip_reason (md : list (string * pyval)) : option string :=
  let c := ti.(ti_context) in
  if is_empty user_text then Some "no_input"
  else if negb (RuntimePolicy.memory_recall_allowed (RuntimePolicy.from_metadata md)) then Some "privacy_policy"
  else if c.(provisional_memory_recall) && negb (bool_decide (c.(source_session_id) = Some ti.(ti_session_id)))
  then Some "provisional_session_mismatch"
  else if negb c.(provisional_memory_recall) && negb c.(memory_enabled) then Some "personal_memory_disabled"
  else if negb cp.(cp_has_memory) then Some "provider_absent"
  else None.

Definition snippet (m : ChatMessage) : option string :=
  let content := py_strip m.(m_content) in
  if is_empty content then None
  else Some ((if is_user m then "用户" else "你") +:+ ": " +:+ truncate_for_query content)%string.

(** [_memory_recall_query] *)
Definition memory_recall_query : M CCtx (string * string) :=
  let text := py_strip user_text in
  md <-- mgets cx_md ;;
  if negb (RuntimePolicy.history_visible_to_context (RuntimePolicy.from_metadata md)) then mret_ (text, "current_only")
  else
    note_read (RPeek (Z.min 4 cc.(cc_history_window)) ti.(ti_turn_id)) ;;;
    await_memory ;;;
    match cp.(cp_peek) (Z.min 4 cc.(cc_history_window)) ti.(ti_turn_id) with
    | Err e => if is_exception e then mret_ (text, "current_only_history_peek_failed") else mraise e
    | Ok [] => mret_ (text, "current_only")
    | Ok recent =>
        match omap snippet (py_tail 4 recent) with
        | [] => mret_ (text, "current_only")
        | snippets => mret_ (py_join nl (snippets ++ [("当前用户: " +:+ text)%string]), "current_plus_recent_history")
        end
    end.

(** [_memory_recall_queries] *)
Definition memory_recall_queries : M CCtx (list string * string) :=
  let text := py_strip user_text in
  q <-- memory_recall_query ;;
  mret_ (if bool_decide (q.1 = text) then ([text], q.2) else ([text; q.1], "current_then_history_fallback")).

(** [_has_recall_evidence] *)
Definition has_recall_evidence (r : MemoryRecallResult) : bool :=
  negb (is_empty r.(mc_context)) && (negb (bool_decide (length r.(mc_hits) = 0%nat)) || negb (bool_decide (length r.(mc_kg_triples) = 0%nat))).

Record Recalls := mkRecalls {
  rs_recalls : list MemoryRecallResult;
  rs_trace : list (string * pyval);
  rs_reason : option string;
  rs_attempted : list string;
}.

Definition or_reason (o : option string) (r : string) : option string := if opt_truthy o then o else Some r.

(** The loop over the queries *)
Fixpoint recall_loop (n : nat) (queries : list string) (acc : Recalls) : M CCtx Recalls :=
  match queries with
  | [] => mret_ acc
  | q :: rest =>
      if cp.(cp_expired) n then mret_ (mkRecalls acc.(rs_recalls) acc.(rs_trace) (or_reason acc.(rs_reason) "timeout") acc.(rs_attempted))
      else
        set_attempted ;;; note_read (RRecall q) ;;; await_memory ;;;
        recall <-- mlift (cp.(cp_recall) n q) ;;
        let acc := mkRecalls (acc.(rs_recalls) ++ [recall])
          (fold_left (fun d '(k, v) => dict_set d k (float_add (default (VFloat "0.0") (dict_get d k)) v)) recall.(mc_diagnostics) acc.(rs_trace))
          (if recall.(mc_degraded) then or_reason acc.(rs_reason) (opt_or recall.(mc_degraded_reason) "memory_unavailable") else acc.(rs_reason))
          (acc.(rs_attempted) ++ [q]) in
        if has_recall_evidence recall then mret_ acc else recall_loop (S n) rest acc
  end.

Record MemoryPayload := mkPayload {
  mp_text : option string;
  mp_degraded : bool;
  mp_hit_ids : list string;
  mp_reason : option string;
  mp_kg_ids : list string;
  mp_hits : list MemoryHit;
  mp_trace : list (string * pyval);
}.

Definition none_if_empty (s : string) : option string := if is_empty s then None else Some s.

(** [str(triple.get("id") or "")] *)
Definition triple_id (t : pyval) : string :=
  match t with
  | VDict d => match dict_get d "id" with Some v => if truthy v then py_str str_repr v else "" | None => "" end
  | _ => ""
  end.

(** The distinct hits and triples of the selected recalls, first come first kept *)
Definition collect_hits (recalls : list MemoryRecallResult) : list MemoryHit :=
  fold_left (fun hits h => if is_empty h.(mh_id) || bool_decide (h.(mh_id) ∈ map mh_id hits) then hits else hits ++ [h])
    (List.flat_map mc_hits recalls) [].
Definition collect_triples (recalls : list MemoryRecallResult) : list string :=
  fold_left (fun ids t => if is_empty (triple_id t) || bool_decide (triple_id t ∈ ids) then ids else ids ++ [triple_id t])
    (List.flat_map mc_kg_triples recalls) [].

Definition recall_payload (r : Recalls) : MemoryPayload :=
  let evident := List.filter has_recall_evidence r.(rs_recalls) in
  let selected := if bool_decide (length evident = 0%nat) then List.filter (fun x => negb (is_empty x.(mc_context))) r.(rs_recalls) else evident in
  let contexts := List.filter (fun c => negb (is_empty c)) (map mc_context selected) in
  let degraded := opt_truthy r.(rs_reason) && bool_decide (length contexts = 0%nat) in
  mkPayload (none_if_empty (merge_memory_contexts contexts)) degraded (map mh_id (collect_hits selected))
    (if degraded then r.(rs_reason) else None) (collect_triples selected) (collect_hits selected) r.(rs_trace).

Definition recall_query_trace (queries : list string) (source : string) (attempted : list string) : pyval :=
  VDict [("source", VStr source); ("preview", VStr (py_take 160 (py_join " | " queries))); ("queries", VList (map VStr queries));
         ("query_count", VInt (Z.of_nat (length queries))); ("attempted_queries", VList (map VStr attempted))].

Definition personal_recall : M CCtx MemoryPayload :=
  qs <-- memory_recall_queries ;;
  put "memory_recall_query" (recall_query_trace qs.1 qs.2 []) ;;;
  r <-- recall_loop 0 qs.1 (mkRecalls [] [] None []) ;;
  put "memory_recall_query" (recall_query_trace qs.1 qs.2 r.(rs_attempted)) ;;;
  mret_ (recall_payload r).

Definition provisional_recall : M CCtx MemoryPayload :=
  set_attempted ;;; note_read RProvisional ;;; await_memory ;;;
  r <-- mlift cp.(cp_provisional) ;;
  mret_ (mkPayload (none_if_empty r.(pv_context)) r.(pv_degraded) [] r.(pv_degraded_reason) [] [] []).

Definition failed_payload (text : option string) (reason : string) : MemoryPayload := mkPayload text true [] (Some reason) [] [] [].

Definition on_recall_error (f : exn -> MemoryPayload) (m : M CCtx MemoryPayload) : M CCtx (option MemoryPayload) :=
  mtry (p <-- m ;; mret_ (Some p)) (fun e => if is_exception e then Some (mret_ (Some (f e))) else None).

(** [_memory_recall] *)
Definition memory_recall (skipped : option string) : M CCtx (option MemoryPayload) :=
  match skipped with
  | Some _ => mret_ None
  | None =>
      if ti.(ti_context).(provisional_memory_recall) then
        on_recall_error (fun _ => failed_payload None "provisional_sources_unavailable") provisional_recall
      else
        on_recall_error (fun e => failed_payload (Some MEMORY_DEGRADED_NOTICE) (exception_degraded_reason e)) personal_recall
  end.

(** [_active_commitments] *)
Definition active_commitments : M CCtx (option ActiveCommitmentReadResult) :=
  md <-- mgets cx_md ;;
  if negb ti.(ti_context).(memory_enabled) || negb cp.(cp_has_memory) || is_empty user_text then mret_ None
  else if negb (RuntimePolicy.memory_recall_allowed (RuntimePolicy.from_metadata md)) then mret_ None
  else if negb cp.(cp_has_commitment_reader) then mret_ None
  else
    note_read (RCommitments active_commitment_limit) ;;;
    mtry (mwhen cp.(cp_commitments_cut) (mraise Cancelled) ;;;
          r <-- mlift (cp.(cp_commitments) active_commitment_limit) ;; mret_ (Some r))
      (fun e => if is_exception e then Some (mret_ (Some (mkCommitments [] 0 false true (Some (exception_degraded_reason e))))) else None).

(** [_summary_context] and [_call_summary_provider] *)
Definition summary_context : M CCtx (option string) :=
  md <-- mgets cx_md ;;
  match cp.(cp_summary) with
  | None => mret_ None
  | Some r =>
      if negb (RuntimePolicy.history_visible_to_context (RuntimePolicy.from_metadata md)) then mret_ None
      else
        note_read RSummary ;;;
        v <-- mlift r ;;
        mret_ (if truthy v then Some (py_strip (py_str str_repr v)) else None)
  end.

(** A read of [gather]: its value and elapsed time, or what it raised; [timeout_at]
    turns the cancellation of the deadline into a [TimeoutError]. *)
Definition gathered {A} (name : string) (m : M CCtx A) : M CCtx (res A * option Z) :=
  mtry (a <-- m ;; mret_ (Ok a, Some (cp.(cp_ms) name)))
    (fun e => Some (mret_ (Err (match e with Cancelled => timeout_error | _ => e end), None))).

(** ** Segments *)

Inductive Part :=
  | PText (s : string)
  | PHistory (m : ChatMessage)
  | PBinding
  | PReceipt.

Record Item := mkItem { it_seg : ContextSegment; it_part : Part }.

Definition tags (authority status scope actionability : string) : list (string * pyval) :=
  context_tag_metadata authority status scope actionability None.
Definition instruction_tags : list (string * pyval) := tags "instruction" "active" "this_turn_only" "may_answer_from".
Definition evidence_tags (status : string) : list (string * pyval) := tags "evidence" status "this_turn_only" "may_answer_from".

(** What the reads came to *)
Record Sources := mkSources {
  so_persona : RealizedPersona;
  so_policy_prompt : string;
  so_summary : option string;
  so_memory_text : option string;
  so_memory_degraded : bool;
  so_memory_empty : bool;
  so_commitments : list ActiveCommitment;
  so_commitment_text : string;
  so_history : list ChatMessage;
  so_read_status : string;
  so_attempted : bool;
  so_skipped : option string;
}.

Definition persona_item (p : RealizedPersona) : Item :=
  let stable := str_or p.(pe_stable_prompt) p.(pe_system_prompt) in
  mkItem (mkSegment PERSONA "personas_service" (estimate_tokens stable) 100 false instruction_tags) (PText (INSTRUCTIONS_HEAD +:+ stable)%string).

Definition speaker_items : list Item :=
  let t := speaker_context ti.(ti_context).(speaker_observation) (bool_decide (ti.(ti_input_modality) = "voice")) ti.(ti_context).(memory_enabled) in
  if is_empty t then [] else
  [mkItem (mkSegment PERSONA_STATE "channel_speaker_observation" (estimate_tokens t) 100 false (evidence_tags "observed")) (PText t)].

Definition harness_item : Item :=
  mkItem (mkSegment HARNESS_POLICY HARNESS_POLICY_SOURCE (estimate_tokens realtime_harness_policy_prompt) 100 false instruction_tags)
    (PText (INSTRUCTIONS_HEAD +:+ realtime_harness_policy_prompt)%string).

Definition response_policy_item (prompt : string) : Item :=
  mkItem (mkSegment RESPONSE_POLICY RESPONSE_POLICY_VERSION (estimate_tokens prompt) 100 false []) (PText prompt).

Definition summary_items (summary : option string) : list Item :=
  match summary with
  | None => []
  | Some s =>
      [mkItem (mkSegment SUMMARY "conversation_summary" (estimate_tokens s) 70 true
         ([("chars", VInt (Z.of_nat (py_len s)))] ++ tags "background" "completed" "conversation_background" "must_not_execute"))
         (PText (SUMMARY_HEAD +:+ s)%string)]
  end.

Definition memory_status (degraded empty : bool) : string := if degraded then "failed" else if empty then "empty" else "completed".

Definition memory_items (t : option string) (degraded empty : bool) : list Item :=
  match t with
  | None => []
  | Some t =>
      if is_empty t then [] else
      [mkItem (mkSegment MEMORY "memory" (estimate_tokens t) 80 (negb (degraded || empty))
         ([("degraded", VBool degraded)] ++ tags "retrieved_memory" (memory_status degraded empty) "long_term_preference" "may_use_as_reference"))
         (PText (MEMORY_HEAD (memory_status degraded empty) +:+ t)%string)]
  end.

Definition commitment_items (t : string) (count : Z) : list Item :=
  if is_empty t then [] else
  [mkItem (mkSegment COMMITMENT "memory.commitments" (estimate_tokens t) 85 true
     ([("count", VInt count)] ++ tags "retrieved_memory" "active" "relationship_commitment" "must_not_execute"))
     (PText (COMMITMENTS_HEAD +:+ t)%string)].

Definition realtime_items : list Item :=
  match ci.(ci_realtime) with
  | None => []
  | Some d =>
      let line := realtime_line d in
      if is_empty line then [] else
      [mkItem (mkSegment REALTIME "turn_input.realtime" (estimate_tokens line) 90 true
         (tags "background" "active" "realtime_signal" "may_use_as_reference")) (PText (REALTIME_HEAD +:+ line)%string)]
  end.

Definition history_item (idx : nat) (m : ChatMessage) : Item :=
  mkItem (mkSegment HISTORY "history_manager"
    (estimate_tokens (background_context_block str_repr [m] ti.(ti_session_id) +:+ json_string_ascii m.(m_id) +:+ ", " +:+
       json_default false (VDict [("ref", VStr m.(m_id)); ("relation", VStr UNKNOWN_RELATION)]))%string)
    (60 + Z.of_nat idx) true
    ([("message_id", VStr m.(m_id)); ("role", VStr (role_value m.(m_role)))] ++ history_context_tags str_repr m)) (PHistory m).

Definition history_items (history : list ChatMessage) : list Item :=
  match history with
  | [] => []
  | _ =>
      mkItem (mkSegment PERSONA_STATE "history.source_binding" (estimate_tokens (history_binding [] None)) 100 false (evidence_tags "observed")) PBinding
      :: imap history_item history
  end.

Definition state_items (p : RealizedPersona) : list Item :=
  let t := p.(pe_volatile_prompt) in
  if is_empty t then [] else
  [mkItem (mkSegment PERSONA_STATE "personas_service.state" (estimate_tokens t) 95 true instruction_tags) (PText (STATE_HEAD +:+ t)%string)].

Definition coordination_items : list Item :=
  match ci.(ci_coordination) with
  | None => []
  | Some public =>
      let block := (COORDINATED_HEAD +:+ json_default false (VDict
        [("context_ref", VStr public.(co_context_ref)); ("trigger", public.(co_trigger)); ("public_context", public.(co_public_context))]))%string in
      [mkItem (mkSegment COORDINATION "turn_input.coordination" (estimate_tokens block) 100 false
         (tags "reference" "active" "this_turn_only" "may_answer_from")) (PText block)]
  end.

Definition current_user_items : list Item :=
  if is_empty user_text then [] else
  [mkItem (mkSegment CURRENT_USER "turn_input.text" (estimate_tokens user_text) 100 false
     (tags "current_request" "active" "this_turn_only" "may_execute")) (PText (REQUEST_HEAD +:+ user_text)%string)].

Definition receipt_items (read_status : string) (attempted : bool) (skipped : option string) : list Item :=
  if is_empty user_text then [] else
  [mkItem (mkSegment MEMORY "memory.read_status"
     (estimate_tokens (memory_read_status_block read_status attempted skipped "omitted_by_context_budget")) 100 false (evidence_tags read_status)) PReceipt].

(** The segments, in the order they are appended *)
Definition items_of (s : Sources) : list Item :=
  [persona_item s.(so_persona)] ++ speaker_items ++ [harness_item] ++ [response_policy_item s.(so_policy_prompt)] ++
  summary_items s.(so_summary) ++ memory_items s.(so_memory_text) s.(so_memory_degraded) s.(so_memory_empty) ++
  commitment_items s.(so_commitment_text) (Z.of_nat (length s.(so_commitments))) ++ realtime_items ++
  history_items s.(so_history) ++ state_items s.(so_persona) ++ coordination_items ++ current_user_items ++
  receipt_items s.(so_read_status) s.(so_attempted) s.(so_skipped).

(** ** The budget *)

Definition totals_metadata (segments : list ContextSegment) : list (string * pyval) :=
  let protected := total_tokens (List.filter mandatory segments) in
  [("protected_token_estimate", VInt protected); ("optional_token_estimate", VInt (Z.max 0 (total_tokens segments - protected)))].
Definition runtime_budget : list (string * pyval) :=
  [("message_budget_tokens", VInt cc.(cc_message_budget_tokens)); ("output_reserve_tokens", VInt cc.(cc_output_reserve_tokens))].

(** [_apply_budget]: the kept segments, the ledger and the guard *)
Definition apply_budget (segments : list ContextSegment) : res (list Placed * ContextLedger * list (string * pyval)) :=
  let unbudgeted := mkLedger segments [] [] 0 in
  match cc.(cc_budget_tokens) with
  | None =>
      Ok (place segments, unbudgeted,
        [("mode", VStr "disabled"); ("configured", VBool false); ("applied", VBool false); ("max_tokens", VNone);
         ("kept_token_estimate", VInt (total_tokens segments))] ++ runtime_budget ++ totals_metadata segments ++
        [("dropped_count", VInt 0); ("shadow_dropped_count", VInt 0); ("shadow_dropped_kinds", VList [])])
  | Some max_tokens =>
      max_tokens ← context_budget max_tokens;
      let p := prune max_tokens segments in
      let enabled := bool_decide (context_budget_mode = "enabled") in
      let guard :=
        [("mode", VStr context_budget_mode); ("configured", VBool true); ("applied", VBool enabled); ("max_tokens", VInt max_tokens);
         ("kept_token_estimate", VInt (if enabled then total_tokens p.(pr_kept).*2 else total_tokens segments))] ++
        runtime_budget ++ totals_metadata segments ++
        [("dropped_count", VInt (if enabled then Z.of_nat (length p.(pr_dropped)) else 0));
         ("shadow_dropped_count", VInt (Z.of_nat (length p.(pr_dropped))));
         ("shadow_dropped_kinds", VList (map (fun x => VStr (kind_value x.2.(sg_kind))) p.(pr_dropped)))] in
      Ok (if enabled then (p.(pr_kept), pruned_ledger p, guard) else (place segments, unbudgeted, guard))
  end.

(** ** Assembly *)

(** The text of a kept part, [kept_history] being the messages that were kept. *)
Definition part_text (kept_history : list ChatMessage) (receipt : string) (p : Part) : option string :=
  match p with
  | PText s => Some s
  | PHistory _ => None
  | PBinding => Some (history_binding kept_history ti.(ti_context).(speaker_observation))
  | PReceipt => Some receipt
  end.

Definition history_of (items : list Item) : list ChatMessage :=
  omap (fun i => match i.(it_part) with PHistory m => Some m | _ => None end) items.

Definition rank_leb (a b : nat * string) : bool := (a.1 <=? b.1)%nat.

(** The parts of the system message, by volatility *)
Definition ranked_parts (kept : list Item) (receipt : string) : list (nat * string) :=
  let kept_history := history_of kept in
  let parts := omap (fun i => match part_text kept_history receipt i.(it_part) with
                              | Some t => Some (volatility_rank i.(it_seg).(sg_kind), t)
                              | None => None
                              end) kept in
  py_sorted rank_leb
    (parts ++ match kept_history with
              | [] => []
              | _ => [(volatility_rank HISTORY, background_context_block str_repr kept_history ti.(ti_session_id))]
              end).

Definition is_current_user (i : Item) : bool := bool_decide (i.(it_seg).(sg_kind) = CURRENT_USER).

(** The messages *)
Definition assemble (kept : list Item) (receipt : string) : list ChatMessage :=
  plain_message (cp.(cp_uuid) 0) SYSTEM (py_join (nl +:+ nl)%string (ranked_parts kept receipt).*2) cp.(cp_now) [] ::
  (if existsb is_current_user kept then [plain_message (cp.(cp_uuid) 1) USER user_text cp.(cp_now) []] else []).

(** [_context_tags] *)
Definition context_tags (segments : list ContextSegment) : list pyval :=
  omap (fun s =>
    let tag := omap (fun k => match dict_get s.(sg_metadata) k with Some v => Some (k, VStr (py_str str_repr v)) | None => None end)
                 ["authority"; "status"; "scope"; "actionability"; "tool_relation"] in
    match tag with
    | [] => None
    | _ => Some (VDict (dict_set (dict_set tag "kind" (VStr (kind_value s.(sg_kind)))) "source" (VStr s.(sg_source))))
    end) segments.

Definition has_kind (source : string) (kept : list Item) : bool := existsb (fun i => bool_decide (i.(it_seg).(sg_source) = source)) kept.

(** ** [compile] *)

Definition topic_switch (md : list (string * pyval)) : bool := get_truthy (dict_get md "topic_switch").
Definition coordinated : bool := if ci.(ci_coordination) is Some _ then true else false.

(** What [gather] returns, each with its elapsed time *)
Record Gathered := mkGathered {
  ga_persona : res RealizedPersona;
  ga_memory : res (option MemoryPayload) * option Z;
  ga_commitments : res (option ActiveCommitmentReadResult) * option Z;
  ga_summary : res (option string) * option Z;
  ga_history : res (list ChatMessage);
}.

Definition gather_reads (skipped : option string) : M CCtx Gathered :=
  md <-- mgets cx_md ;;
  let c := ti.(ti_context) in
  let located := cp.(cp_locator) c.(owner_id) c.(companion_id) ti.(ti_conversation_id) in
  let fetch_window := if topic_switch md then 1 else degraded_history_window in
  let history_allowed := RuntimePolicy.history_visible_to_context (RuntimePolicy.from_metadata md) in
  persona <-- gathered "persona" (note_read (RPersona located.1 located.2) ;;; mlift (cp.(cp_realize) located.1 located.2)) ;;
  memory <-- gathered "memory" (memory_recall skipped) ;;
  commitments <-- gathered "commitments" active_commitments ;;
  summary <-- (if topic_switch md || coordinated then mret_ (Ok None, Some 0) else gathered "summary" summary_context) ;;
  history <-- (if negb history_allowed || coordinated then gathered "history" (mret_ [])
               else gathered "history" (note_read (RHistory fetch_window ti.(ti_turn_id)) ;;; mlift (cp.(cp_history) fetch_window ti.(ti_turn_id)))) ;;
  mret_ (mkGathered persona.1 memory commitments summary history.1).

Definition payload_of (r : res (option MemoryPayload)) : option MemoryPayload :=
  match r with
  | Ok p => p
  | Err e => Some (failed_payload None (exception_degraded_reason e))
  end.

Definition payload_empty (p : MemoryPayload) : bool :=
  negb p.(mp_degraded) && negb (opt_truthy p.(mp_text)) && bool_decide (p.(mp_hit_ids) = []) && bool_decide (p.(mp_kg_ids) = []).

Definition commitments_of (r : res (option ActiveCommitmentReadResult)) : ActiveCommitmentReadResult :=
  match r with
  | Ok None => mkCommitments [] 0 false false None
  | Ok (Some c) => mkCommitments c.(cr_commitments) (Z.max (Z.of_nat (length c.(cr_commitments))) c.(cr_total)) c.(cr_truncated) c.(cr_degraded) c.(cr_degraded_reason)
  | Err e => mkCommitments [] 0 false true (Some (exception_degraded_reason e))
  end.

(** The window of the history that is shown *)
Definition effective_window (degraded : bool) : Z := if degraded then degraded_history_window else cc.(cc_history_window).
Definition trim_history (switch degraded : bool) (history : list ChatMessage) : list ChatMessage :=
  if switch then history
  else if effective_window degraded <? Z.of_nat (length history) then py_tail (effective_window degraded) history else history.

Fixpoint check_statuses (l : list ChatMessage) : res unit :=
  match l with
  | [] => Ok tt
  | m :: l => _ ← history_status_check str_repr m; check_statuses l
  end.

Definition apply_evidence (p : RealizedPersona) (hits : list MemoryHit) : M CCtx RealizedPersona :=
  match cp.(cp_apply_evidence), hits with
  | Some f, _ :: _ =>
      note_read (REvidence hits) ;;;
      p <-- mlift (f p hits) ;;
      put "persona_evidence_refs" (VList p.(pe_evidence_refs)) ;;;
      mret_ p
  | _, _ => mret_ p
  end.

Definition preferences_of (p : RealizedPersona) : ConversationPreferences :=
  match p.(pe_stored) with Some s => s.2 | None => default_preferences end.

(** From the reads to the sources of the segments *)
Definition digest (g : Gathered) (skipped : option string) : M CCtx Sources :=
  persona <-- mlift g.(ga_persona) ;;
  let payload := payload_of g.(ga_memory).1 in
  let degraded := match payload with Some p => p.(mp_degraded) | None => false end in
  let empty := match payload with Some p => payload_empty p | None => false end in
  let commitments := commitments_of g.(ga_commitments).1 in
  let commitment_text := match commitments.(cr_commitments) with [] => "" | l => cp.(cp_realize_commitments) l end in
  persona <-- apply_evidence persona (match payload with Some p => p.(mp_hits) | None => [] end) ;;
  mwhen (negb (bool_decide (length persona.(pe_spoken_phrases) = 0%nat))) (put "persona_spoken_phrases" (VDict persona.(pe_spoken_phrases))) ;;;
  prompt <-- mlift (response_policy_prompt (preferences_of persona) ti.(ti_input_modality)) ;;
  put "response_policy" (VDict
    [("version", VStr RESPONSE_POLICY_VERSION); ("modality", VStr ti.(ti_input_modality));
     ("preference_revision", VInt (match persona.(pe_stored) with Some s => s.1 | None => 1 end));
     ("preferences", preferences_dump (preferences_of persona)); ("genome_id", VStr persona.(pe_genome_id));
     ("realizer_revision", VStr "persona_realizer.v2")]) ;;;
  md <-- mgets cx_md ;;
  let summary := match g.(ga_summary).1 with
                 | Ok (Some s) => none_if_empty (py_strip s)
                 | _ => None
                 end in
  let text := match payload with Some p => p.(mp_text) | None => None end in
  let text := if degraded && negb (opt_truthy text) then Some MEMORY_DEGRADED_NOTICE else text in
  let text := if empty then Some MEMORY_EMPTY_NOTICE else text in
  history <-- match g.(ga_history) with
              | Err _ => mret_ []
              | Ok [] => mret_ []
              | Ok history =>
                  mwhen (negb (topic_switch md))
                    (put "history_window_applied" (VDict [("effective", VInt (effective_window degraded));
                                                         ("expanded_for_degraded_memory", VBool degraded)])) ;;;
                  mret_ (trim_history (topic_switch md) degraded history)
              end ;;
  mlift (check_statuses history) ;;;
  attempted <-- mgets cx_attempted ;;
  let status := if skipped is Some _ then "skipped" else if degraded then "failed" else if attempted then "completed" else "not_started" in
  mret_ (mkSources persona prompt summary text degraded empty commitments.(cr_commitments) commitment_text history status attempted skipped).

Definition evidence_status (s : Sources) (memory_kept : bool) : string :=
  if s.(so_memory_degraded) then "unavailable"
  else if s.(so_memory_empty) then "no_match"
  else if opt_truthy s.(so_memory_text) && memory_kept then "provided"
  else if opt_truthy s.(so_memory_text) then "omitted_by_context_budget"
  else "not_provided".

(** [setdefault("development_guards", {})["context_budget"] = guard] *)
Definition put_guard (guard : list (string * pyval)) : M CCtx unit :=
  md <-- mgets cx_md ;;
  match dict_get md "development_guards" with
  | None => put "development_guards" (VDict [("context_budget", VDict guard)])
  | Some (VDict d) => put "development_guards" (VDict (dict_set d "context_budget" (VDict guard)))
  | Some _ => mraise (PyError "TypeError" "")
  end.

Definition memory_trace (g : Gathered) (s : Sources) (memory_kept : bool) : list (string * pyval) :=
  let p := payload_of g.(ga_memory).1 in
  let field {A} (f : MemoryPayload -> A) (d : A) := match p with Some p => f p | None => d end in
  [("attempted", VBool s.(so_attempted)); ("skipped_reason", of_opt_str s.(so_skipped)); ("read_status", VStr s.(so_read_status));
   ("evidence_status", VStr (evidence_status s memory_kept)); ("degraded", VBool s.(so_memory_degraded));
   ("degraded_reason", of_opt_str (field mp_reason None)); ("empty", VBool s.(so_memory_empty)); ("elapsed_ms", of_opt_int g.(ga_memory).2);
   ("timeout_ms", VInt cc.(cc_memory_timeout_ms)); ("hit_ids", VList (map VStr (field mp_hit_ids [])));
   ("hit_count", VInt (Z.of_nat (length (field mp_hit_ids [])))); ("kg_triple_ids", VList (map VStr (field mp_kg_ids [])));
   ("kg_triple_count", VInt (Z.of_nat (length (field mp_kg_ids [])))); ("backend_trace", VDict (field mp_trace []));
   ("context_injected", VBool memory_kept)].

Definition commitment_trace (policy : RuntimePolicy.PrivacyTrace) (g : Gathered) (kept : bool) : list (string * pyval) :=
  let c := commitments_of g.(ga_commitments).1 in
  let allowed := RuntimePolicy.memory_recall_allowed policy in
  [("attempted", VBool (cp.(cp_has_memory) && cp.(cp_has_commitment_reader) && negb (is_empty user_text) && allowed));
   ("skipped_reason", if cp.(cp_has_memory) && negb (is_empty user_text) && negb allowed then VStr "privacy_policy" else VNone);
   ("degraded", VBool c.(cr_degraded)); ("degraded_reason", of_opt_str c.(cr_degraded_reason)); ("elapsed_ms", of_opt_int g.(ga_commitments).2);
   ("timeout_ms", VInt cc.(cc_commitment_timeout_ms)); ("limit", VInt active_commitment_limit);
   ("commitment_ids", VList (map (fun r => VStr r.(ac_commitment_id)) c.(cr_commitments)));
   ("count", VInt (Z.of_nat (length c.(cr_commitments)))); ("total", VInt c.(cr_total)); ("truncated", VBool c.(cr_truncated));
   ("context_injected", VBool kept)].

(** Budget, traces and messages *)
Definition finish_prompt (policy : RuntimePolicy.PrivacyTrace) (g : Gathered) (s : Sources) : M CCtx (list ChatMessage) :=
  let items := items_of s in
  budgeted <-- mlift (apply_budget (map it_seg items)) ;;
  let '(placed, ledger, guard) := budgeted in
  let kept := omap (fun x => items !! x.1) placed in
  let summary_degraded := if g.(ga_summary).1 is Err _ then true else false in
  let ledger := if summary_degraded then mark_degraded ledger "summary" else ledger in
  let ledger := if s.(so_memory_degraded) then mark_degraded ledger "memory" else ledger in
  let memory_kept := has_kind "memory" kept in
  let summary_kept := has_kind "conversation_summary" kept in
  let history_allowed := RuntimePolicy.history_visible_to_context policy in
  put "summary_trace" (VDict
    [("attempted", VBool ((if cp.(cp_summary) is Some _ then true else false) && history_allowed)); ("degraded", VBool summary_degraded);
     ("elapsed_ms", of_opt_int g.(ga_summary).2); ("timeout_ms", VInt cc.(cc_summary_timeout_ms)); ("context_injected", VBool summary_kept)]) ;;;
  let receipt := memory_read_status_block s.(so_read_status) s.(so_attempted) s.(so_skipped) (evidence_status s memory_kept) in
  put "memory_trace" (VDict (memory_trace g s memory_kept)) ;;;
  put "commitment_context_trace" (VDict (commitment_trace policy g (has_kind "memory.commitments" kept))) ;;;
  let kept_history := history_of kept in
  let interrupted := interrupted_history_count str_repr s.(so_history) - interrupted_history_count str_repr kept_history in
  let out := assemble kept receipt in
  let user_last := match last out with
                   | Some m => is_user m && bool_decide (m.(m_content) = user_text)
                   | None => false end in
  put "context_focus" (VDict
    [("current_user_last", VBool user_last);
     ("current_user_token_estimate", VInt (if is_empty user_text then 0 else estimate_tokens user_text));
     ("summary_injected", VBool summary_kept); ("raw_history_message_count", VInt 0);
     ("background_history_message_count", VInt (Z.of_nat (length kept_history)));
     ("history_presentation", VStr "background_context")]) ;;;
  put "context_structure_version" (VStr "context_structure.v2") ;;;
  put "history_presentation" (VStr "background_context") ;;;
  put "context_tags" (VList (context_tags placed.*2)) ;;;
  put "interrupted_context_dropped_count" (VInt interrupted) ;;;
  put "context_ledger" (ledger_to_metadata ledger) ;;;
  put_guard guard ;;;
  put "harness_snapshot" (VDict
    [("kind", VStr "realtime_agent_harness");
     ("segment_kinds", VList (map (fun x => VStr (kind_value x.2.(sg_kind))) placed)); ("budget", VDict guard);
     ("memory", VDict
        [("attempted", VBool s.(so_attempted)); ("degraded", VBool s.(so_memory_degraded));
         ("degraded_reason", match payload_of g.(ga_memory).1 with Some p => of_opt_str p.(mp_reason) | None => VNone end);
         ("context_injected", VBool memory_kept);
         ("hit_count", VInt (match payload_of g.(ga_memory).1 with Some p => Z.of_nat (length p.(mp_hit_ids)) | None => 0 end));
         ("kg_triple_count", VInt (match payload_of g.(ga_memory).1 with Some p => Z.of_nat (length p.(mp_kg_ids)) | None => 0 end))]);
     ("history", VDict
        [("allowed", VBool history_allowed); ("message_count", VInt (Z.of_nat (length kept_history)));
         ("summary_injected", VBool summary_kept); ("summary_degraded", VBool summary_degraded);
         ("presentation", VStr "background_context"); ("interrupted_context_dropped_count", VInt interrupted)]);
     ("tools", VDict [("visible_names", VList [])]); ("handoffs", VList [])]) ;;;
  mret_ out.

(** [compile] *)
Definition compile : M CCtx (list ChatMessage) :=
  md <-- mgets cx_md ;;
  let policy := RuntimePolicy.from_metadata md in
  let skipped := memory_skip_reason md in
  g <-- gather_reads skipped ;;
  s <-- digest g skipped ;;
  finish_prompt policy g s.

(** A run on the metadata [md] *)
Definition run_compile (md : list (string * pyval)) : res (list ChatMessage) * CCtx :=
  compile (mkCtx md [] [] false cp.(cp_memory_awaits)).
End Compiler.
