(* ===== verification/ContextFacts.v ===== *)
(** * What the context compiler reads and what the prompt it compiles looks like. *)

From S2P Require Import Prelude CoreTypes Guards Presentation Effects Json TurnState TurnEngine TurnSafety TurnPolicy TurnFacts Samples ContextBudget ContextText ContextCompiler.
#[local] Open Scope eff_scope.

(** ** The persona service, as the compiler uses it *)

(** [PP] holds of the persona of this turn and of what evidence makes of it. *)
Class PersonaPort (cp : CompilerPorts) (ci : CompileInput) (PP : RealizedPersona -> Prop) : Prop := {
  pp_realize : forall p,
    let c := ci.(ci_turn).(ti_context) in
    let located := cp.(cp_locator) c.(owner_id) c.(companion_id) ci.(ci_turn).(ti_conversation_id) in
    cp.(cp_realize) located.1 located.2 = Ok p -> PP p;
  pp_evidence : forall f p hits p', cp.(cp_apply_evidence) = Some f -> PP p -> f p hits = Ok p' -> PP p';
}.
#[global] Instance any_persona cp ci : PersonaPort cp ci (fun _ => True).
Proof. by split. Qed.

Section Facts.
Context (str_repr : string -> string) (exn_details : exn -> pyval) (float_add : pyval -> pyval -> pyval).
Context (default_preferences : ConversationPreferences) (preferences_dump : ConversationPreferences -> pyval).
Context (cc : CompilerConfig) (cp : CompilerPorts) (ci : CompileInput) (md0 : list (string * pyval)).
Notation ti := (ci_turn ci).
Notation run := (run_compile str_repr exn_details float_add default_preferences preferences_dump cc cp ci).
Notation compile_ := (compile str_repr exn_details float_add default_preferences preferences_dump cc cp ci).

(** ** What may be read *)

Definition turn_policy : RuntimePolicy.PrivacyTrace := RuntimePolicy.from_metadata md0.
Notation recall_allowed := (RuntimePolicy.memory_recall_allowed turn_policy).
Notation history_visible := (RuntimePolicy.history_visible_to_context turn_policy).

(** The personal memory may be asked. *)
Definition personal : Prop :=
  recall_allowed = true /\ memory_enabled (ti_context ti) = true /\ provisional_memory_recall (ti_context ti) = false /\
  text ti <> "" /\ cp_has_memory cp = true.

Definition allowed_read (r : context_read) : Prop :=
  match r with
  | RPersona _ _ => True
  | RProvisional =>
      recall_allowed = true /\ provisional_memory_recall (ti_context ti) = true /\
      source_session_id (ti_context ti) = Some (ti_session_id ti) /\ text ti <> ""
  | RPeek window ex => personal /\ history_visible = true /\ window <= 4 /\ ex = ti_turn_id ti
  | RRecall _ | REvidence _ => personal
  | RCommitments limit =>
      recall_allowed = true /\ memory_enabled (ti_context ti) = true /\ text ti <> "" /\ 1 <= limit <= 10
  | RSummary => history_visible = true /\ topic_switch md0 = false /\ ci_coordination ci = None
  | RHistory window ex =>
      history_visible = true /\ ci_coordination ci = None /\ ex = ti_turn_id ti /\ (topic_switch md0 = true -> window = 1)
  end.

(** ** The invariant of a compilation *)

Definition read_keys : list string := "topic_switch" :: policy_keys.

Definition Inv (s : CCtx) : Prop :=
  (forall k, k ∈ read_keys -> dict_get (cx_md s) k = dict_get md0 k) /\ Forall allowed_read (cx_reads s) /\
  leaves policy_keys (cx_writes s) /\ cx_md s = apply_updates (cx_writes s) md0.

Definition keeps {A} (m : M CCtx A) (V : A -> Prop) : Prop := triple Inv m (fun a s => Inv s /\ V a) (fun _ => Inv).

Lemma keeps_ret {A} (a : A) (V : A -> Prop) : V a -> keeps (mret_ a) V.
Proof. intros HV s Hs. by split. Qed.
Lemma keeps_raise {A} e (V : A -> Prop) : keeps (mraise e) V.
Proof. intros s Hs. exact Hs. Qed.
Lemma keeps_lift {A} (r : res A) (V : A -> Prop) : (forall a, r = Ok a -> V a) -> keeps (mlift r) V.
Proof. intros HV s Hs. unfold mlift. destruct r; [|done]. split; [done|by apply HV]. Qed.
Lemma keeps_bind {A B} (m : M CCtx A) (k : A -> M CCtx B) U V : keeps m U -> (forall a, U a -> keeps (k a) V) -> keeps (mbind_ m k) V.
Proof. intros Hm Hk. eapply triple_bind_pure; [exact Hm|exact Hk]. Qed.
Lemma keeps_weaken {A} (m : M CCtx A) (U V : A -> Prop) : keeps m U -> (forall a, U a -> V a) -> keeps m V.
Proof. intros Hm HV. eapply triple_conseq; [|exact Hm|..]; [done|intros a s [Hs Ha]; split; auto|done]. Qed.
Lemma keeps_when b m : (b = true -> keeps m (fun _ => True)) -> keeps (mwhen b m) (fun _ => True).
Proof. destruct b; intros H; [by apply H|by apply keeps_ret]. Qed.
Lemma keeps_try {A} (m : M CCtx A) h V : keeps m V -> (forall e k, h e = Some k -> keeps k V) -> keeps (mtry m h) V.
Proof. intros Hm Hh. eapply triple_try; [exact Hm|]. intros e. destruct (h e) as [k|] eqn:E; [by eapply Hh|done]. Qed.
Lemma keeps_gets {A} (f : CCtx -> A) : keeps (mgets f) (fun _ => True).
Proof. intros s Hs. by split. Qed.

Definition same_policy (md : list (string * pyval)) : Prop :=
  RuntimePolicy.from_metadata md = turn_policy /\ topic_switch md = topic_switch md0.

Lemma keeps_md : keeps (mgets cx_md) same_policy.
Proof.
  intros s Hs. split; [done|]. destruct Hs as [Hk _]. split.
  - apply from_metadata_agrees. intros k Hin. apply Hk. by right.
  - unfold topic_switch. by rewrite Hk by by left.
Qed.

Lemma keeps_put k v : k ∉ read_keys -> keeps (put k v) (fun _ => True).
Proof.
  intros Hk s (Hm & Hr & Hw & Ha). split; [|done]. split_and!; simpl.
  - intros k' Hk'. rewrite dict_get_set_ne; [by apply Hm|]. by intros ->.
  - done.
  - apply Forall_app. split; [done|]. constructor; [|constructor]. simpl. intros Hin. apply Hk. by right.
  - unfold apply_updates in *. rewrite fold_left_app. simpl. by rewrite <- Ha.
Qed.
Lemma keeps_service_read r : allowed_read r -> keeps (note_read r) (fun _ => True).
Proof. intros Hr s (Hm & Hf & Hw & Ha). split; [|done]. split_and!; simpl; [done| |done..]. apply Forall_app. by repeat constructor. Qed.
Lemma keeps_attempted : keeps set_attempted (fun _ => True).
Proof. intros s Hs. split; [exact Hs|done]. Qed.
Lemma keeps_await : keeps await_memory (fun _ => True).
Proof. intros s Hs. unfold await_memory. destruct (cx_awaits s) as [[|n]|]; [exact Hs|split; [exact Hs|done]..]. Qed.

Ltac keep_step :=
  lazymatch goal with
  | |- keeps (mbind_ (mgets cx_md) _) _ => eapply keeps_bind; [apply keeps_md|intros ? [? ?]]
  | |- keeps (mbind_ _ _) _ => eapply (keeps_bind _ _ (fun _ => True)); [|intros ? _]
  | |- keeps (mret_ _) _ => apply keeps_ret
  | |- keeps (mraise _) _ => apply keeps_raise
  | |- keeps (mlift _) _ => apply keeps_lift; intros ? ?
  | |- keeps (mgets _) _ => apply keeps_gets
  | |- keeps (put _ _) _ => apply keeps_put; by_compute
  | |- keeps (note_read _) _ => apply keeps_service_read
  | |- keeps set_attempted _ => apply keeps_attempted
  | |- keeps await_memory _ => apply keeps_await
  | |- keeps (mwhen _ _) _ => apply keeps_when; intros ?
  | |- keeps (match ?x with _ => _ end) _ => let E := fresh "E" in destruct x eqn:E
  end.
Ltac keep := repeat (keep_step; try done).

Lemma skip_none md : same_policy md -> memory_skip_reason cp ci md = None ->
  recall_allowed = true /\ text ti <> "" /\ cp_has_memory cp = true /\
  if provisional_memory_recall (ti_context ti) then source_session_id (ti_context ti) = Some (ti_session_id ti)
  else memory_enabled (ti_context ti) = true.
Proof.
  intros [Hp _]. unfold memory_skip_reason, user_text. rewrite Hp.
  destruct (is_empty (text ti)) eqn:Et; [done|]. apply is_empty_false in Et.
  destruct recall_allowed; [|done]. cbn [negb]. destruct (provisional_memory_recall _); cbn [negb andb].
  - destruct (bool_decide _) eqn:Eb; [|done]. apply bool_decide_eq_true in Eb. cbn [negb]. by destruct (cp_has_memory cp).
  - destruct (memory_enabled _); [|done]. cbn [negb]. by destruct (cp_has_memory cp).
Qed.

Section Recall.
Context (Hpersonal : personal).

Lemma keeps_recall_query : keeps (memory_recall_query cc cp ci) (fun _ => True).
Proof.
  unfold memory_recall_query. keep_step. destruct (negb _) eqn:E; [keep|]. apply negb_false_iff in E.
  keep. simpl. split_and!; [done|congruence|lia|done].
Qed.

Lemma keeps_recall_loop n queries acc : keeps (recall_loop float_add cp n queries acc) (fun _ => True).
Proof. revert n acc. induction queries as [|q rest IH]; intros n acc; cbn [recall_loop]; keep. Qed.

Lemma keeps_personal : keeps (personal_recall str_repr float_add cc cp ci) (fun _ => True).
Proof.
  unfold personal_recall, memory_recall_queries. keep; [apply keeps_recall_query|apply keeps_recall_loop].
Qed.
End Recall.

(** Hits come of a personal recall only. *)
Definition hits_personal (p : option MemoryPayload) : Prop := forall q, p = Some q -> mp_hits q <> [] -> personal.

Lemma keeps_memory md : same_policy md ->
  keeps (memory_recall str_repr exn_details float_add cc cp ci (memory_skip_reason cp ci md)) hits_personal.
Proof.
  intros Hmd. unfold memory_recall. destruct (memory_skip_reason cp ci md) eqn:Es; [by keep|].
  destruct (skip_none md Hmd Es) as (Hr & Ht & Hm & Hc). destruct (provisional_memory_recall (ti_context ti)) eqn:Ep; unfold on_recall_error.
  - apply keeps_try.
    + eapply (keeps_bind _ _ (fun p => mp_hits p = [])).
      * unfold provisional_recall. keep.
      * intros p Hp. apply keeps_ret. intros q [= <-]. by rewrite Hp.
    + intros e k H. destruct (is_exception e); simplify_eq. keep. by intros q [= <-].
  - assert personal as Hp by (by split_and!). apply keeps_try.
    + eapply keeps_bind; [by apply keeps_personal|]. intros p _. apply keeps_ret. by intros q _ _.
    + intros e k H. destruct (is_exception e); simplify_eq. keep.
Qed.

Lemma keeps_commitments : keeps (active_commitments exn_details cc cp ci) (fun _ => True).
Proof.
  unfold active_commitments. keep_step. destruct (_ || _) eqn:E1; [keep|]. apply orb_false_iff in E1 as [[He%negb_false_iff _]%orb_false_iff Ht%is_empty_false].
  destruct (negb _) eqn:E2; [keep|]. apply negb_false_iff in E2. destruct (negb (cp_has_commitment_reader cp)); [keep|].
  keep_step; [apply keeps_service_read|].
  - simpl. split_and!; [congruence|done|done|unfold active_commitment_limit; lia..].
  - apply keeps_try; [keep|]. intros e k Hk. destruct (is_exception e); simplify_eq. keep.
Qed.

Lemma keeps_summary : topic_switch md0 = false -> ci_coordination ci = None -> keeps (summary_context str_repr cp) (fun _ => True).
Proof.
  intros Ht Hc. unfold summary_context. keep_step. destruct (cp_summary cp); [|keep]. destruct (negb _) eqn:E; [keep|]. apply negb_false_iff in E.
  keep. simpl. split_and!; [congruence|done..].
Qed.

Lemma keeps_gathered {A} name (m : M CCtx A) (V : A -> Prop) : keeps m V -> keeps (gathered cp name m) (fun r => forall a, r.1 = Ok a -> V a).
Proof.
  intros Hm. unfold gathered. apply keeps_try.
  - eapply keeps_bind; [exact Hm|]. intros a Ha. apply keeps_ret. by intros b [= <-].
  - intros e k [= <-]. by apply keeps_ret.
Qed.

Section Persona.
Context (PP : RealizedPersona -> Prop) `{!PersonaPort cp ci PP}.

Lemma keeps_gather md : same_policy md ->
  keeps (gather_reads str_repr exn_details float_add cc cp ci (memory_skip_reason cp ci md)) (fun g => hits_personal (payload_of exn_details (ga_memory g).1) /\
    (forall p, ga_persona g = Ok p -> PP p) /\
    forall h, ga_history g = Ok h -> h = [] \/ history_visible = true /\ ci_coordination ci = None /\
      exists window, cp_history cp window (ti_turn_id ti) = Ok h).
Proof.
  intros Hmd. unfold gather_reads. eapply keeps_bind; [apply keeps_md|]. intros md' [Hp' Ht']. rewrite Hp', Ht'.
  eapply keeps_bind; [eapply (keeps_gathered _ _ PP); keep; by eapply pp_realize|]. intros persona Hpersona.
  eapply keeps_bind; [by eapply keeps_gathered, keeps_memory|]. intros memory Hmem.
  eapply keeps_bind; [eapply keeps_gathered, keeps_commitments|]. intros commitments _.
  eapply (keeps_bind _ _ (fun _ => True)).
  { destruct (topic_switch md0 || coordinated ci) eqn:E; [keep|]. apply orb_false_iff in E as [Et Ec].
    eapply keeps_weaken; [eapply keeps_gathered, keeps_summary|done]; [done|]. unfold coordinated in Ec. by destruct (ci_coordination ci). }
  intros summary _.
  eapply (keeps_bind _ _ (fun r => forall a, r.1 = Ok a -> a = [] \/ history_visible = true /\ ci_coordination ci = None /\
      exists window, cp_history cp window (ti_turn_id ti) = Ok a)).
  { destruct (negb _ || coordinated ci) eqn:E.
    - eapply keeps_gathered. keep. by left.
    - apply orb_false_iff in E as [Ev%negb_false_iff Ec]. assert (ci_coordination ci = None) as Hc by (unfold coordinated in Ec; by destruct (ci_coordination ci)).
      eapply keeps_gathered. keep_step; [apply keeps_service_read|].
      + simpl. split_and!; [done..|]. by intros ->.
      + keep_step. right. split; [done|]. split; [done|]. eauto. }
  intros history Hh. apply keeps_ret. simpl. split; [|split; [exact Hpersona|exact Hh]].
  destruct memory as [[p|e] ms]; simpl in *; [by apply Hmem|]. by intros q [= <-].
Qed.

(** Where the history that is shown comes from. *)
Definition read_history (h : list ChatMessage) : Prop :=
  h = [] \/ history_visible = true /\ ci_coordination ci = None /\ exists window, cp_history cp window (ti_turn_id ti) = Ok h.

Lemma trim_suffix switch degraded h : trim_history cc switch degraded h `suffix_of` h.
Proof. unfold trim_history. destruct switch; [done|]. destruct (_ <? _); [apply py_tail_suffix|done]. Qed.

Lemma keeps_digest g skipped : hits_personal (payload_of exn_details (ga_memory g).1) -> (forall p, ga_persona g = Ok p -> PP p) ->
  keeps (digest str_repr exn_details default_preferences preferences_dump cc cp ci g skipped)
    (fun s => PP (so_persona s) /\ (so_history s = [] \/ exists h, ga_history g = Ok h /\ so_history s `suffix_of` h)).
Proof.
  intros Hhits Hpersona. unfold digest. eapply (keeps_bind _ _ PP); [by apply keeps_lift|]. intros persona0 Hp0.
  eapply (keeps_bind _ _ PP).
  { unfold apply_evidence. destruct (cp_apply_evidence cp) as [f|] eqn:Ef; [|by apply keeps_ret].
    destruct (payload_of exn_details (ga_memory g).1) as [p|] eqn:Ep; [|by apply keeps_ret].
    destruct (mp_hits p) eqn:Eh; [by apply keeps_ret|]. keep_step; [apply keeps_service_read; eapply Hhits; [done|by rewrite Eh]|].
    eapply (keeps_bind _ _ PP); [apply keeps_lift; intros; by eapply pp_evidence|]. intros p' Hp'. keep_step; [by keep|]. by apply keeps_ret. }
  intros persona Hp.
  keep_step; [keep|]. keep_step; [keep|]. keep_step; [keep|]. keep_step.
  eapply (keeps_bind _ _ (fun l => l = [] \/ exists h, ga_history g = Ok h /\ l `suffix_of` h)).
  { destruct (ga_history g) as [[|m h]|e]; [keep; by left| |keep; by left]. keep_step; [keep|]. apply keeps_ret. right.
    eexists. split; [done|]. apply trim_suffix. }
  intros history Hh. keep_step; [keep|]. keep_step; [apply keeps_gets|]. by apply keeps_ret.
Qed.
End Persona.

Lemma keeps_put_guard guard : keeps (put_guard guard) (fun _ => True).
Proof. unfold put_guard. keep. Qed.

(** ** The kept items *)

Definition kept_by (f : nat -> bool) (items : list Item) : list Item := (List.filter (fun p => f p.1) (imap pair items)).*2.

Lemma kept_lookup (f : nat -> bool) pre items :
  omap (fun x : nat * ContextSegment => (pre ++ items) !! x.1)
    (List.filter (fun x => f x.1) (imap (fun i it => ((length pre + i)%nat, it_seg it)) items)) =
  (List.filter (fun p => f p.1) (imap (fun i it => ((length pre + i)%nat, it)) items)).*2.
Proof.
  revert pre. induction items as [|it items IH]; intros pre; [done|]. cbn [imap List.filter fst].
  specialize (IH (pre ++ [it])). rewrite <- app_assoc in IH. cbn [app] in IH.
  assert (forall A (g : nat -> Item -> A), imap ((fun i x => g (length pre + i)%nat x) ∘ S) items = imap (fun i x => g (length (pre ++ [it]) + i)%nat x) items) as Ho.
  { intros A g. apply imap_ext. intros i x _. unfold compose. rewrite length_app. simpl. f_equal. lia. }
  rewrite (Ho _ (fun n x => (n, it_seg x))), (Ho _ (fun n x => (n, x))).
  destruct (f (length pre + 0)%nat); cbn [omap list_omap fst]; [|exact IH].
  rewrite list_lookup_middle by lia. cbn. by rewrite IH.
Qed.

Lemma kept_placed f items :
  omap (fun x : nat * ContextSegment => items !! x.1) (List.filter (fun x => f x.1) (place (map it_seg items))) = kept_by f items.
Proof.
  unfold place. rewrite imap_fmap. exact (kept_lookup f [] items).
Qed.

Lemma kept_sublist f items : kept_by f items `sublist_of` items.
Proof.
  unfold kept_by. trans (imap pair items).*2; [apply fmap_sublist, filter_sublist|].
  rewrite fmap_imap. assert (imap (fun i x => snd (i, x)) items = items) as H; [|unfold compose; by rewrite H].
  apply list_eq. intros i. rewrite list_lookup_imap. by destruct (items !! i).
Qed.

(** What must be kept is kept. *)
Lemma kept_filter f (p : Item -> bool) items : (forall i it, items !! i = Some it -> p it = true -> f i = true) ->
  List.filter p (kept_by f items) = List.filter p items.
Proof.
  intros H. unfold kept_by. assert (forall l, (forall i it, (i, it) ∈ l -> p it = true -> f i = true) ->
    List.filter p (List.filter (fun x => f x.1) l).*2 = List.filter p l.*2) as Hl.
  { induction l as [|[i it] l IH]; intros Hin; [done|]. cbn [List.filter fst].
    assert (List.filter p (List.filter (fun x => f x.1) l).*2 = List.filter p l.*2) as IHl by (apply IH; intros j x Hj; apply Hin; by right).
    destruct (f i) eqn:Ef; [change ((?a :: ?b).*2) with (a.2 :: b.*2)|change (((i, it) :: l).*2) with (it :: l.*2)]; cbn [List.filter snd].
    - by rewrite IHl.
    - destruct (p it) eqn:Epi; [|exact IHl]. rewrite (Hin i it) in Ef by (by left || done). done. }
  rewrite Hl.
  - f_equal. apply list_eq. intros i. rewrite list_lookup_fmap, list_lookup_imap. by destruct (items !! i).
  - intros i it Hin. apply H. apply elem_of_lookup_imap_1 in Hin as (j & x & [= -> ->] & Hx). exact Hx.
Qed.

(** The budget keeps positions, among them every mandatory one. *)
Lemma apply_budget_kept segments r : apply_budget cc segments = Ok r ->
  exists f, r.1.1 = List.filter (fun x => f x.1) (place segments) /\ forall i s, segments !! i = Some s -> mandatory s = true -> f i = true.
Proof.
  assert (forall l : list Placed, l = List.filter (fun x => true) l) as Hall by (intros l; by rewrite filter_all_in).
  unfold apply_budget. destruct (cc_budget_tokens cc) as [n|].
  - destruct (context_budget n) as [m|]; [|done]. cbn [mbind res_bind]. intros [= <-].
    destruct (bool_decide (context_budget_mode cc = "enabled")); cbn [fst].
    + destruct (prune_positions m segments) as (ids & Hk & Hids). exists (fun i => bool_decide (i ∈ ids)). split; [exact Hk|].
      intros i s Hi Hm. apply bool_decide_eq_true. by eapply Hids.
    + exists (fun _ => true). split; [apply Hall|done].
  - intros [= <-]. exists (fun _ => true). split; [apply Hall|done].
Qed.

(** ** The system message *)

Lemma rank_leb_total x y : rank_leb x y = true \/ rank_leb y x = true.
Proof. unfold rank_leb. rewrite !Nat.leb_le. lia. Qed.
Lemma rank_leb_trans x y z : rank_leb x y = true -> rank_leb y z = true -> rank_leb x z = true.
Proof. unfold rank_leb. rewrite !Nat.leb_le. lia. Qed.

(** A sorted list is split by an upward closed test. *)
Lemma sorted_split {A} (R : A -> A -> Prop) (p : A -> bool) l : StronglySorted R l -> (forall x y, R x y -> p x = true -> p y = true) ->
  l = List.filter (fun x => negb (p x)) l ++ List.filter p l.
Proof.
  intros Hs Hp. induction Hs as [|x l Hs IH Hx]; [done|]. cbn [List.filter]. destruct (p x) eqn:E; cbn [negb].
  - rewrite (proj2 (filter_nil_iff _ l)).
    + cbn [app]. rewrite filter_all_in; [done|]. intros y Hy. rewrite Forall_forall in Hx. by apply (Hp x y (Hx y Hy)).
    + intros y Hy. rewrite Forall_forall in Hx. by rewrite (Hp x y (Hx y Hy) E).
  - cbn [app]. by rewrite <- IH.
Qed.

Lemma py_sorted_least x l : (forall y, y ∈ l -> rank_leb x y = true) -> py_sorted rank_leb (x :: l) = x :: py_sorted rank_leb l.
Proof.
  intros H. cbn [py_sorted]. assert (forall y, y ∈ py_sorted rank_leb l -> rank_leb x y = true) as Hy by (intros y; rewrite py_sorted_perm; apply H).
  destruct (py_sorted rank_leb l) as [|y r]; [done|]. cbn [py_insert]. by rewrite (Hy y) by by left.
Qed.

Definition is_question (x : nat * string) : bool := (3 <=? x.1)%nat.

Lemma question_rank k : (3 <=? volatility_rank k)%nat = bool_decide (k = CURRENT_USER).
Proof. by destruct k. Qed.

Definition request_parts : list string := if is_empty (user_text ci) then [] else [(REQUEST_HEAD +:+ user_text ci)%string].
Definition stable_part (p : RealizedPersona) : string := (INSTRUCTIONS_HEAD +:+ str_or (pe_stable_prompt p) (pe_system_prompt p))%string.

Notation parts_of hist receipt := (omap (fun i => match part_text ci hist receipt (it_part i) with
  | Some t => Some (volatility_rank (sg_kind (it_seg i)), t) | None => None end)).

Lemma parts_question hist receipt kept : (forall i, i ∈ kept -> is_current_user i = true -> exists t, it_part i = PText t) ->
  List.filter is_question (parts_of hist receipt kept) =
  omap (fun i => match it_part i with PText t => Some (3%nat, t) | _ => None end) (List.filter is_current_user kept).
Proof.
  induction kept as [|i kept IH]; intros H; [done|]. cbn [omap list_omap List.filter].
  assert (is_question (volatility_rank (sg_kind (it_seg i)), "") = is_current_user i) as Hq by apply question_rank.
  specialize (IH (fun j Hj => H j (proj2 (elem_of_cons _ _ _) (or_intror Hj)))).
  destruct (is_current_user i) eqn:Ei.
  - destruct (H i) as [t Et]; [by left|done|]. rewrite Et. cbn [part_text omap list_omap List.filter]. unfold is_question in *. cbn [fst] in *.
    rewrite Hq, Et. unfold is_current_user in Ei. apply bool_decide_eq_true in Ei. rewrite Ei. f_equal. exact IH.
  - destruct (part_text ci hist receipt (it_part i)); [|exact IH]. cbn [List.filter]. unfold is_question in *. cbn [fst] in *. rewrite Hq. exact IH.
Qed.

(** The segments a compilation has, whatever it read. *)
Definition quiet (i : Item) : Prop := is_current_user i = false.

Lemma items_question src : List.filter is_current_user (items_of str_repr ci src) = current_user_items ci.
Proof.
  unfold items_of. rewrite !List.filter_app. 
  assert (forall l, Forall quiet l -> List.filter is_current_user l = []) as Hq.
  { intros l Hl. apply filter_nil_iff. by apply Forall_forall. }
  rewrite (Hq (speaker_items ci)), (Hq (summary_items _)), (Hq (memory_items _ _ _)), (Hq (commitment_items _ _)), (Hq (realtime_items ci)),
    (Hq (history_items _ _ _)), (Hq (state_items _)), (Hq (coordination_items ci)), (Hq (receipt_items _ _ _ _)).
  - cbn [app List.filter]. rewrite app_nil_r. unfold current_user_items. by destruct (is_empty (user_text ci)).
  - unfold receipt_items. destruct (is_empty _); by repeat constructor.
  - unfold coordination_items. destruct (ci_coordination ci); by repeat constructor.
  - unfold state_items. destruct (is_empty _); by repeat constructor.
  - unfold history_items. destruct (so_history src) as [|m l]; [constructor|]. constructor; [done|].
    apply Forall_forall. intros i (j & x & -> & _)%elem_of_lookup_imap_1. done.
  - unfold realtime_items. destruct (ci_realtime ci); [|constructor]. destruct (is_empty _); by repeat constructor.
  - unfold commitment_items. destruct (is_empty _); by repeat constructor.
  - unfold memory_items. destruct (so_memory_text src); [|constructor]. destruct (is_empty _); by repeat constructor.
  - unfold summary_items. destruct (so_summary src); by repeat constructor.
  - unfold speaker_items. destruct (is_empty _); by repeat constructor.
Qed.

Lemma omap_app_ {A B} (f : A -> option B) l1 l2 : omap f (l1 ++ l2) = omap f l1 ++ omap f l2.
Proof. induction l1 as [|x l1 IH]; [done|]. cbn [app omap list_omap]. destruct (f x); cbn [app]; [by f_equal|done]. Qed.

Lemma history_of_app l1 l2 : history_of (l1 ++ l2) = history_of l1 ++ history_of l2.
Proof. apply omap_app_. Qed.

Lemma items_history src : history_of (items_of str_repr ci src) = so_history src.
Proof.
  unfold items_of. rewrite !history_of_app.
  assert (history_of (history_items str_repr ci (so_history src)) = so_history src) as ->.
  { unfold history_items. destruct (so_history src) as [|m l]; [done|]. cbn [history_of omap list_omap it_part].
    generalize 0%nat. generalize (m :: l). clear. intros l. unfold history_of.
    assert (forall (g : nat -> nat), omap (fun i => match it_part i with PHistory m => Some m | _ => None end) (imap (fun n => history_item str_repr ci (g n)) l) = l) as H.
    { induction l as [|x l IH]; intros g; [done|]. cbn [imap omap list_omap history_item it_part]. f_equal. exact (IH (g ∘ S)). }
    intros _. exact (H id). }
  assert (history_of (speaker_items ci) = [] /\ history_of (summary_items (so_summary src)) = [] /\
    history_of (memory_items (so_memory_text src) (so_memory_degraded src) (so_memory_empty src)) = [] /\
    history_of (commitment_items (so_commitment_text src) (Z.of_nat (length (so_commitments src)))) = [] /\ history_of (realtime_items ci) = [] /\
    history_of (state_items (so_persona src)) = [] /\ history_of (coordination_items ci) = [] /\ history_of (current_user_items ci) = [] /\
    history_of (receipt_items ci (so_read_status src) (so_attempted src) (so_skipped src)) = []) as (-> & -> & -> & -> & -> & -> & -> & -> & ->).
  { unfold speaker_items, summary_items, memory_items, commitment_items, realtime_items, state_items, coordination_items, current_user_items, receipt_items.
    split_and!; repeat case_match; done. }
  cbn. by rewrite app_nil_r.
Qed.

(** The shape of a compiled prompt around what may vary. *)
Definition framed_by (persona : RealizedPersona) (msgs : list ChatMessage) (shown : list ChatMessage) : Prop :=
  exists middle,
    msgs = plain_message (cp_uuid cp 0) SYSTEM (py_join (nl +:+ nl)%string (stable_part persona :: middle ++ request_parts)) (cp_now cp) [] ::
           (if is_empty (text ti) then [] else [plain_message (cp_uuid cp 1) USER (text ti) (cp_now cp) []]) /\
    (shown = [] \/ background_context_block str_repr shown (ti_session_id ti) ∈ middle).
Definition framed (msgs : list ChatMessage) (shown : list ChatMessage) : Prop := exists persona, framed_by persona msgs shown.

Lemma kept_cons f x items : f 0%nat = true -> exists rest, kept_by f (x :: items) = x :: rest.
Proof. intros H. unfold kept_by. cbn [imap List.filter fst]. rewrite H. eexists. reflexivity. Qed.

Lemma mandatory_kept f items : (forall i s, map it_seg items !! i = Some s -> mandatory s = true -> f i = true) ->
  forall p : Item -> bool, (forall it, p it = true -> mandatory (it_seg it) = true) -> List.filter p (kept_by f items) = List.filter p items.
Proof.
  intros Hf p Hp. apply kept_filter. intros i it Hi Hit. apply (Hf i (it_seg it)); [|by apply Hp]. by rewrite list_lookup_fmap, Hi.
Qed.

Lemma current_user_mandatory it : is_current_user it = true -> mandatory (it_seg it) = true.
Proof. unfold is_current_user, mandatory. intros ->%bool_decide_eq_true. reflexivity. Qed.

Lemma filter_nonempty {A} (p : A -> bool) l : existsb p l = negb (bool_decide (length (List.filter p l) = 0%nat)).
Proof. induction l as [|x l IH]; [done|]. simpl. by destruct (p x). Qed.

Lemma assemble_framed f src receipt :
  (forall i s, map it_seg (items_of str_repr ci src) !! i = Some s -> mandatory s = true -> f i = true) ->
  let kept := kept_by f (items_of str_repr ci src) in
  framed_by (so_persona src) (assemble str_repr cp ci kept receipt) (history_of kept).
Proof.
  intros Hf kept. pose proof (mandatory_kept f _ Hf is_current_user current_user_mandatory) as Hq. rewrite items_question in Hq. fold kept in Hq.
  assert (f 0%nat = true) as H0 by (by eapply (Hf 0%nat)).
  destruct (kept_cons f (persona_item (so_persona src)) (drop 1 (items_of str_repr ci src)) H0) as [rest Hrest].
  change (kept_by f _) with kept in Hrest. unfold assemble.
  assert (existsb is_current_user kept = negb (is_empty (text ti))) as ->.
  { rewrite filter_nonempty, Hq. unfold current_user_items, user_text. by destruct (is_empty (text ti)). }
  set (h := history_of kept).
  set (tail := match h with [] => [] | _ => [(volatility_rank HISTORY, background_context_block str_repr h (ti_session_id ti))] end).
  set (P := parts_of h receipt rest ++ tail).
  assert (ranked_parts str_repr ci kept receipt = (0%nat, stable_part (so_persona src)) :: py_sorted rank_leb P) as Hr.
  { unfold ranked_parts. fold h. fold tail. rewrite Hrest. cbn [omap list_omap persona_item it_part part_text it_seg sg_kind app]. apply py_sorted_least.
    intros y _. done. }
  assert (List.filter is_question P = map (pair 3%nat) request_parts) as HP.
  { unfold P. rewrite List.filter_app, parts_question.
    - assert (List.filter is_current_user rest = current_user_items ci) as -> by (by rewrite Hrest in Hq).
      assert (List.filter is_question tail = []) as -> by (unfold tail; by destruct h).
      unfold current_user_items, request_parts. by destruct (is_empty (user_text ci)).
    - intros i Hi Hiq. assert (i ∈ current_user_items ci) as Hin.
      { rewrite <- Hq. apply elem_of_filter_list. split; [|done]. rewrite Hrest. by right. }
      revert Hin. unfold current_user_items. destruct (is_empty _); [by intros ?%elem_of_nil|]. intros ->%list_elem_of_singleton. by eexists. }
  exists (List.filter (fun x => negb (is_question x)) (py_sorted rank_leb P)).*2. split.
  - unfold plain_message. rewrite Hr.
    assert ((py_sorted rank_leb P).*2 = (List.filter (fun x => negb (is_question x)) (py_sorted rank_leb P)).*2 ++ request_parts) as Hs.
    { rewrite (sorted_split _ is_question (py_sorted rank_leb P) (py_sorted_sorted _ rank_leb_total rank_leb_trans P)) at 1.
      - rewrite fmap_app. f_equal. rewrite py_sorted_filter by (apply rank_leb_total || apply rank_leb_trans). rewrite HP.
        unfold request_parts. by destruct (is_empty (user_text ci)).
      - intros x y Hxy. unfold is_question, rank_leb in *. apply Nat.leb_le in Hxy. rewrite !Nat.leb_le. lia. }
    change ((?a :: ?b).*2) with (a.2 :: b.*2). rewrite Hs. by destruct (is_empty (text ti)).
  - subst tail P. destruct h as [|m l]; [by left|]. right. apply list_elem_of_fmap.
    exists (volatility_rank HISTORY, background_context_block str_repr (m :: l) (ti_session_id ti)). split; [done|].
    apply elem_of_filter_list. split; [|done]. rewrite py_sorted_perm. apply elem_of_app. right. by left.
Qed.

Lemma omap_sublist {A B} (f : A -> option B) (l1 l2 : list A) : l1 `sublist_of` l2 -> omap f l1 `sublist_of` omap f l2.
Proof. induction 1; cbn [omap list_omap]; [done|destruct (f x); by (done || constructor)..]. Qed.

Lemma keeps_finish policy g src :
  keeps (finish_prompt str_repr exn_details cc cp ci policy g src) (fun out => exists shown, framed_by (so_persona src) out shown /\ shown `sublist_of` so_history src).
Proof.
  unfold finish_prompt. eapply (keeps_bind _ _ (fun r => apply_budget cc (map it_seg (items_of str_repr ci src)) = Ok r)); [by keep|].
  intros [[placed ledger] guard] Hb. destruct (apply_budget_kept _ _ Hb) as (f & Hp & Hf). cbn [fst] in Hp. subst placed. rewrite kept_placed.
  do 9 (keep_step; [solve [keep]|]). keep_step; [apply keeps_put_guard|]. keep_step; [keep|]. apply keeps_ret. eexists. split.
  - by apply assemble_framed.
  - rewrite <- items_history. apply omap_sublist, kept_sublist.
Qed.

Lemma compile_starts : Inv (mkCtx md0 [] [] false (cp_memory_awaits cp)).
Proof. split_and!; simpl; try done; constructor. Qed.

Lemma keeps_compile PP `{!PersonaPort cp ci PP} : keeps compile_ (fun out => exists persona shown, PP persona /\ framed_by persona out shown /\
  (shown = [] \/ history_visible = true /\ ci_coordination ci = None /\
   exists window h, cp_history cp window (ti_turn_id ti) = Ok h /\ shown `sublist_of` h)).
Proof.
  unfold compile. keep_step. match goal with Hp : RuntimePolicy.from_metadata ?md = _ |- _ => assert (same_policy md) as Hmd by done end.
  eapply keeps_bind; [by apply (keeps_gather PP)|]. intros g (Hhits & Hpersona & Hhist).
  eapply keeps_bind; [by apply (keeps_digest PP)|]. intros src [HPP Hsrc].
  eapply keeps_weaken; [apply keeps_finish|]. intros out (shown & Hfr & Hsub). exists (so_persona src), shown. split; [done|]. split; [done|].
  destruct Hsrc as [E|(h & Hh & Hsuf)]; [left; rewrite E in Hsub; by apply sublist_nil_r in Hsub|].
  destruct (Hhist h Hh) as [->|(Hv & Hc & window & Hw)].
  - left. apply suffix_nil_inv in Hsuf. rewrite Hsuf in Hsub. by apply sublist_nil_r in Hsub.
  - right. split; [done|]. split; [done|]. exists window, h. split; [done|]. trans (so_history src); [done|].
    destruct Hsuf as [k ->]. by apply sublist_inserts_l.
Qed.



(** What every persona the port returns satisfies, the persona of a compiled prompt satisfies. *)
Lemma compiled_persona PP `{!PersonaPort cp ci PP} out s : run md0 = (Ok out, s) -> exists persona shown, PP persona /\ framed_by persona out shown.
Proof.
  intros Hr. pose proof (keeps_compile PP _ compile_starts) as H. unfold run_compile in Hr. rewrite Hr in H.
  destruct H as (_ & persona & shown & HP & Hf & _). eauto.
Qed.
End Facts.

(** ** The compiler as the engine's port *)

Section Port.
Context {P : PresentationOps} {D : CommittedTurn.DecisionOps}.
Context (case_table str_repr : string -> string) (int_other : pyval -> res Z) (face_profile : string).
Context (exn_details : exn -> pyval) (float_add : pyval -> pyval -> pyval).
Context (default_preferences : ConversationPreferences) (preferences_dump : ConversationPreferences -> pyval).

(** [self._compiler.compile(ti)], for services that depend on what happened before *)
Definition compiler_port (cc : CompilerConfig) (world : list effect -> CompilerPorts) (ci : CompileInput)
    (log : list effect) (md : list (string * pyval)) : res (list ChatMessage * list (string * pyval)) :=
  match run_compile str_repr exn_details float_add default_preferences preferences_dump cc (world log) ci md with
  | (Ok out, s) => Ok (out, cx_writes s)
  | (Err e, _) => Err e
  end.

Lemma port_spec cc world ci log md ms us : compiler_port cc world ci log md = Ok (ms, us) ->
  leaves policy_keys us /\
  exists s, run_compile str_repr exn_details float_add default_preferences preferences_dump cc (world log) ci md = (Ok ms, s) /\ apply_updates us md = cx_md s.
Proof.
  unfold compiler_port, run_compile.
  pose proof (keeps_compile str_repr exn_details float_add default_preferences preferences_dump cc (world log) ci md (fun _ => True) _ (compile_starts (world log) ci md)) as H.
  destruct (compile _ _ _ _ _ _ _ _ _) as [[out|e] s]; [|done]. intros [= <- <-]. destruct H as [(_ & _ & Hw & Ha) _].
  split; [exact Hw|]. exists s. by split.
Qed.

(** C16: The compiler implements the port the turn engine relies on: it never writes a key the
    policy of the turn depends on, its assignments replayed on the metadata give the metadata it
    leaves, and an engine that compiles with it permits every effect of every run. *)
Theorem compiler_refines_the_port cc world ci (cfg : Config) (pt : Ports) (ti : TurnInput) md sched :
  (forall log md, p_compile pt log md = compiler_port cc world ci log md) -> env_ok sched ->
  compiler_ok pt /\
  (forall log md ms us, p_compile pt log md = Ok (ms, us) ->
     exists s, run_compile str_repr exn_details float_add default_preferences preferences_dump cc (world log) ci md = (Ok ms, s) /\ apply_updates us md = cx_md s) /\
  Forall (permitted case_table cfg pt ti md) (w_log (snd (run_turn case_table str_repr int_other face_profile cfg pt ti md sched))).
Proof.
  intros Hp Hs.
  assert (compiler_ok pt) as Hc by (intros log md' ms us; rewrite Hp; apply port_spec). split; [done|]. split.
  - intros log md' ms us. rewrite Hp. apply port_spec.
  - by apply run_permitted.
Qed.
End Port.

(** ** A concrete compilation *)

Definition sample_persona : RealizedPersona :=
  mkPersona "genome" "system" "You are Eidolon." "" [] [] (Some (1, mkPreferences "brief" "when_asked" "when_needed")).
Definition sample_compiler : CompilerConfig := mkCompiler 20 20 200 5 5 200 100 (Some 4000) "enabled" 1800 500.
Definition sample_services : CompilerPorts := {|
  cp_locator o c _ := (c, "genome");
  cp_realize _ _ := Ok sample_persona;
  cp_realize_commitments _ := "";
  cp_apply_evidence := None;
  cp_history _ _ := Ok [plain_message "m1" USER "earlier" sample_time []];
  cp_peek _ _ := Ok [];
  cp_has_memory := true;
  cp_provisional := Err timeout_error;
  cp_recall _ _ := Ok (mkRecall "likes tea" [mkHit "h1" VNone] false None [] []);
  cp_expired _ := false;
  cp_memory_awaits := None;
  cp_has_commitment_reader := false;
  cp_commitments _ := Err timeout_error;
  cp_commitments_cut := false;
  cp_summary := None;
  cp_ms _ := 1;
  cp_uuid n := if bool_decide (n = 0%nat) then "id-0" else "id-1";
  cp_now := sample_time;
|}.
Definition sample_compile_input : CompileInput := mkCompileInput (sample_input "text" (Some "hi")) None None.
Notation sample_compile md :=
  (run_compile id (fun _ => VNone) (fun a _ => a) (mkPreferences "brief" "when_asked" "when_needed") (fun _ => VNone)
    sample_compiler sample_services sample_compile_input md).

(** The reads of an ordinary and of a temporary turn. *)
Example sample_reads :
  cx_reads (snd (sample_compile [])) = [RPersona "companion" "genome"; RPeek 4 "turn-1"; RRecall "hi"; RHistory 20 "turn-1"] /\
  cx_reads (snd (sample_compile [("temporary", VBool true)])) = [RPersona "companion" "genome"].
Proof. split; by vm_compute. Qed.

Definition sample_prompt : list ChatMessage := match fst (sample_compile []) with Ok out => out | Err _ => [] end.
Lemma sample_compiled : sample_compile [] = (Ok sample_prompt, snd (sample_compile [])).
Proof.
  assert (fst (sample_compile []) = Ok sample_prompt) as H by (vm_compute; reflexivity). revert H.
  generalize (sample_compile []). intros [r s] H. cbn in H. by rewrite H.
Qed.


(** An engine whose compiler this is. *)
Definition compiled_ports : Ports :=
  let p := sample_ports 1 in
  mkPorts p.(p_guard) p.(p_crisis)
    (compiler_port id (fun _ => VNone) (fun a _ => a) (mkPreferences "brief" "when_asked" "when_needed") (fun _ => VNone)
      sample_compiler (fun _ => sample_services) sample_compile_input)
    p.(p_list_schemas) p.(p_assemble) p.(p_stream) p.(p_dispatch) p.(p_slow) p.(p_publish_turn) p.(p_expect) p.(p_receipt)
    p.(p_taboos) p.(p_model_id) p.(p_monotonic_us) p.(p_utc) p.(p_uuid) p.(p_isoformat).
Notation compiled_run :=
  (run_turn id id (fun _ => Ok 0) "face.v1" sample_cfg compiled_ports (sample_input "text" (Some "hi")) [] []).

Lemma compiler_refines_the_port_witness :
  existsb (fun e => match e with EModel _ _ => true | _ => false end) (w_log (snd compiled_run)) = true /\
  Forall (permitted id sample_cfg compiled_ports (sample_input "text" (Some "hi")) []) (w_log (snd compiled_run)).
Proof.
  split; [vm_compute; reflexivity|].
  assert (forall log md, p_compile compiled_ports log md = compiler_port id (fun _ => VNone) (fun a _ => a)
    (mkPreferences "brief" "when_asked" "when_needed") (fun _ => VNone) sample_compiler (fun _ => sample_services) sample_compile_input log md) as Hp
    by (intros log md; unfold compiled_ports; cbn [p_compile]; reflexivity).
  destruct (compiler_refines_the_port id id (fun _ => Ok 0) "face.v1" (fun _ => VNone) (fun a _ => a) (mkPreferences "brief" "when_asked" "when_needed")
    (fun _ => VNone) sample_compiler (fun _ => sample_services) sample_compile_input sample_cfg compiled_ports (sample_input "text" (Some "hi")) [] []
    Hp sample_env_ok) as (_ & _ & H).
  exact H.
Defined.
