(* ===== verification/Personas.v ===== *)
(** * [domain/personas/]: the genome of a companion, and the prompt it is realized as.

    The SDK's genome keeps the fields the realizer, the memory adapter and the voice read.
    Floats are binary64 values ([SpecFloat]); [math.pow(0.5, elapsed / half_life)] is the
    parameter [pow_half], the genome store and the authority behind it are functions. *)

From Stdlib Require Import SpecFloat.
From S2P Require Import Prelude CoreTypes Json Presentation ContextText.

(** ** The genome *)

Record PersonaGenome := mkGenome {
  gn_name : string;
  gn_archetype : string;
  gn_self_concept : string;
  gn_values : list string;
  gn_boundaries : list string;
  gn_portrait : string;
  gn_tensions : list string;
  gn_growth_edges : list string;
  gn_stage : string;
  gn_narrative : string;
  gn_safety_boundaries : list string;
  gn_voice_portrait : string;
  gn_behavior_guidance : list string;
  gn_modality_notes : list (string * string);
  gn_dialogue_examples : list string;
  gn_signature_phrases : list (string * string);
  gn_recall_policy : list (string * pyval);
  gn_relation_policies : list (string * pyval);
}.

Record StoredPersonaGenome := mkStored {
  ps_owner_id : string;
  ps_companion_id : string;
  ps_genome_id : string;
  ps_genome_hash : string;
  ps_realizer_version : string;
  ps_version : Z;
  ps_status : string;
  ps_genome : PersonaGenome;
  ps_preferences : ConversationPreferences;
  ps_preference_revision : Z;
}.

(** ** [types.py]: the runtime state *)

Definition fadd : spec_float -> spec_float -> spec_float := SFadd 53 1024.
Definition fmul : spec_float -> spec_float -> spec_float := SFmul 53 1024.
Definition f0 : spec_float := S754_zero false.
Definition f1 : spec_float := S754_finite false 4503599627370496 (-52).
Definition f0_25 : spec_float := S754_finite false 4503599627370496 (-54).
Definition f0_3 : spec_float := S754_finite false 5404319552844595 (-54).
Definition f0_4 : spec_float := S754_finite false 7205759403792794 (-54).
Definition f0_5 : spec_float := S754_finite false 4503599627370496 (-53).
Definition f0_7 : spec_float := S754_finite false 6305039478318694 (-53).
Definition f0_85 : spec_float := S754_finite false 7656119366529843 (-53).

(** [max(a, b)] and [min(a, b)]: the first unless the second is strictly better. *)
Definition fmax (a b : spec_float) : spec_float := if SFltb a b then b else a.
Definition fmin (a b : spec_float) : spec_float := if SFltb b a then b else a.

Inductive AttentionTarget := AT_USER | AT_TASK | AT_DRIFT | AT_IDLE.

Record MoodVector := mkMood {
  md_joy : spec_float;
  md_sad : spec_float;
  md_anger : spec_float;
  md_fear : spec_float;
  md_surprise : spec_float;
  md_intensity : spec_float;
  md_half_life_s : Z;
  md_updated_at : datetime;
}.
Record Energy := mkEnergy { en_level : spec_float; en_circadian_phase : spec_float; en_refilled_at : datetime }.
Record Attention := mkAttention { at_target : AttentionTarget; at_focus_score : spec_float; at_last_signal : option datetime }.
Record PersonaRuntimeState := mkRuntimeState {
  rs_mood : MoodVector;
  rs_energy : Energy;
  rs_attention : Attention;
  rs_updated_at : datetime;
}.

(** [PersonaRuntimeState()], created at [now] *)
Definition default_state (now : datetime) : PersonaRuntimeState :=
  mkRuntimeState (mkMood f0 f0 f0 f0 f0 f0 1800 now) (mkEnergy f0_7 f0_5 now) (mkAttention AT_IDLE f0 None) now.

Definition nonneg (x : spec_float) : bool := SFleb f0 x.
Definition unit_interval (x : spec_float) : bool := SFleb f0 x && SFleb x f1.

(** The validation of the pydantic fields. *)
Definition invalid (model : string) : exn := PyError "ValidationError" model.
Definition check_mood (m : MoodVector) : res MoodVector :=
  if nonneg m.(md_joy) && nonneg m.(md_sad) && nonneg m.(md_anger) && nonneg m.(md_fear) && nonneg m.(md_surprise)
     && unit_interval m.(md_intensity) && (1 <=? m.(md_half_life_s)) then Ok m else Err (invalid "MoodVector").
Definition check_energy (e : Energy) : res Energy :=
  if unit_interval e.(en_level) && unit_interval e.(en_circadian_phase) then Ok e else Err (invalid "Energy").
Definition check_attention (a : Attention) : res Attention :=
  if unit_interval a.(at_focus_score) then Ok a else Err (invalid "Attention").

(** [now - t] in microseconds *)
Definition elapsed_us (t now : datetime) : Z :=
  (now.(dt_us) - default 0 now.(dt_tz)) - (t.(dt_us) - default 0 t.(dt_tz)).

Section Decay.
(** [math.pow(0.5, elapsed / half_life)], the elapsed time in microseconds *)
Context (pow_half : Z -> Z -> spec_float).

(** [MoodVector.decayed] *)
Definition mood_decayed (m : MoodVector) (now : datetime) : res MoodVector :=
  let elapsed := Z.max 0 (elapsed_us m.(md_updated_at) now) in
  if (elapsed =? 0) || SFleb m.(md_intensity) f0 then Ok m
  else
    let factor := pow_half elapsed m.(md_half_life_s) in
    check_mood (mkMood (fmul m.(md_joy) factor) (fmul m.(md_sad) factor) (fmul m.(md_anger) factor) (fmul m.(md_fear) factor)
      (fmul m.(md_surprise) factor) (fmul m.(md_intensity) factor) m.(md_half_life_s) now).

(** [PersonaRuntimeState.decayed] *)
Definition state_decayed (s : PersonaRuntimeState) (now : datetime) : res PersonaRuntimeState :=
  mood ← mood_decayed s.(rs_mood) now; Ok (mkRuntimeState mood s.(rs_energy) s.(rs_attention) now).

(** [MoodVector.dominant]: the first of the greatest *)
Definition dominant (m : MoodVector) : string * spec_float :=
  fold_left (fun best x => if SFltb best.2 x.2 then x else best)
    [("sad", m.(md_sad)); ("anger", m.(md_anger)); ("fear", m.(md_fear)); ("surprise", m.(md_surprise))] ("joy", m.(md_joy)).

Definition mood_words : list (string * string) :=
  [("joy", "心情不错"); ("sad", "略低落"); ("anger", "有点烦躁"); ("fear", "有些不安"); ("surprise", "微微惊讶")].

(** [to_prompt_hint] *)
Definition to_prompt_hint (s : PersonaRuntimeState) : string :=
  let '(label, value) := dominant s.(rs_mood) in
  py_join "；"
    ((if SFltb f0_4 value then option_list (dict_get mood_words label) else [])
     ++ (if SFltb s.(rs_energy).(en_level) f0_3 then ["精力有点低"] else if SFltb f0_85 s.(rs_energy).(en_level) then ["状态饱满"] else [])
     ++ match s.(rs_attention).(at_target) with AT_USER => ["注意力在 owner 身上"] | AT_DRIFT => ["思绪有点跳"] | _ => [] end).

(** ** [runtime_state.py] *)

Notation States := (list (string * PersonaRuntimeState)).

(** The state of a companion, as it is by [now]; a companion without one gets its first. *)
Definition current_state (states : States) (companion_id : string) (now fresh : datetime) : res PersonaRuntimeState :=
  state_decayed (default (default_state fresh) (dict_get states companion_id)) now.

(** [PersonaRuntimeStateStore.snapshot] *)
Definition snapshot (states : States) (companion_id : string) (now fresh : datetime) : res (PersonaRuntimeState * States) :=
  s ← current_state states companion_id now fresh; Ok (s, dict_set states companion_id s).

(** The mood with the named value replaced by a function of it ([intensity] is overwritten by
    what follows); [None] when the mood has no such attribute. The names of its other
    attributes are not emotions. *)
Definition with_emotion (m : MoodVector) (emotion : string) (f : spec_float -> spec_float) : option MoodVector :=
  let 'mkMood joy sad anger fear surprise intensity half at_ := m in
  if bool_decide (emotion = "joy") then Some (mkMood (f joy) sad anger fear surprise intensity half at_)
  else if bool_decide (emotion = "sad") then Some (mkMood joy (f sad) anger fear surprise intensity half at_)
  else if bool_decide (emotion = "anger") then Some (mkMood joy sad (f anger) fear surprise intensity half at_)
  else if bool_decide (emotion = "fear") then Some (mkMood joy sad anger (f fear) surprise intensity half at_)
  else if bool_decide (emotion = "surprise") then Some (mkMood joy sad anger fear (f surprise) intensity half at_)
  else if bool_decide (emotion = "intensity") then Some m
  else None.

Definition excited (m : MoodVector) (delta : spec_float) (now : datetime) : MoodVector :=
  mkMood m.(md_joy) m.(md_sad) m.(md_anger) m.(md_fear) m.(md_surprise) (fmin f1 (fadd m.(md_intensity) (SFabs delta))) m.(md_half_life_s) now.

(** [PersonaRuntimeStateStore.update] *)
Definition update (states : States) (companion_id : string) (emotion : option string) (emotion_delta : spec_float)
    (energy_level : option spec_float) (attention_target : option AttentionTarget) (focus_score : option spec_float)
    (now fresh : datetime) : res (PersonaRuntimeState * States) :=
  current ← current_state states companion_id now fresh;
  let mood := match emotion with
              | None => current.(rs_mood)
              | Some e => match with_emotion current.(rs_mood) e (fun old => fmax f0 (fadd old emotion_delta)) with
                          | Some m => excited m emotion_delta now
                          | None => current.(rs_mood)
                          end
              end in
  energy ← match energy_level with
           | None => Ok current.(rs_energy)
           | Some level => check_energy (mkEnergy (fmin f1 (fmax f0 level)) current.(rs_energy).(en_circadian_phase) now)
           end;
  let old := current.(rs_attention) in
  attention ← match attention_target with
              | Some t => check_attention (mkAttention t (default old.(at_focus_score) focus_score) (Some now))
              | None => Ok match focus_score with
                           | Some f => mkAttention old.(at_target) f old.(at_last_signal)
                           | None => old
                           end
              end;
  let updated := mkRuntimeState mood energy attention now in
  Ok (updated, dict_set states companion_id updated).

(** [reset] *)
Definition reset (states : States) (companion_id : string) : States := dict_pop states companion_id.
End Decay.

(** ** [realizer.py] *)

(** [AdaptedMemoryContext], and the SDK's evidence reference *)
Record EvidenceRef := mkEvidence { er_kind : string; er_ref_id : string; er_summary : string; er_confidence : spec_float }.
Record AdaptedMemoryContext := mkAdapted {
  ad_content : string;
  ad_instructions : list string;
  ad_evidence_refs : list EvidenceRef;
  ad_degraded : bool;
}.
Definition no_memory (degraded : bool) : AdaptedMemoryContext := mkAdapted "" [] [] degraded.

Record RealizedPersona := mkRealized {
  rp_owner_id : string;
  rp_companion_id : string;
  rp_genome_id : string;
  rp_genome_hash : string;
  rp_version : Z;
  rp_system_prompt : string;
  rp_identity_block : string;
  rp_expression_block : string;
  rp_memory_block : string;
  rp_runtime_state_block : string;
  rp_stable_prompt : string;
  rp_volatile_prompt : string;
  rp_spoken_phrases : list (string * string);
  rp_evidence_refs : list EvidenceRef;
  rp_debug_trace : list string;
  rp_stored : option StoredPersonaGenome;
}.

Definition line_if (text : string) (prefix : string) : list string := if is_empty text then [] else [(prefix +:+ text)%string].
Definition joined_if (l : list string) (prefix : string) : list string :=
  match l with [] => [] | _ => [(prefix +:+ py_join "；" l)%string] end.
Definition bullets (l : list string) : list string := map (fun x => "- " +:+ x)%string l.

Definition identity_block (g : PersonaGenome) : string :=
  py_join nl
    ([("你是「" +:+ g.(gn_name) +:+ "」（" +:+ g.(gn_archetype) +:+ "）。")%string]
     ++ line_if g.(gn_self_concept) "你如何理解自己："
     ++ line_if g.(gn_portrait) "你的人格画像："
     ++ joined_if g.(gn_values) "你重视："
     ++ joined_if g.(gn_boundaries) "不可突破的边界："
     ++ joined_if g.(gn_tensions) "你内在持续面对的张力："
     ++ joined_if g.(gn_growth_edges) "你正在学习和成长的方向：").

Definition relationship_block (g : PersonaGenome) : string :=
  py_join nl
    ([("你与 owner 的关系阶段：" +:+ g.(gn_stage))%string]
     ++ line_if g.(gn_narrative) "你们的关系："
     ++ match g.(gn_safety_boundaries) with [] => [] | l => "这段关系的安全边界：" :: bullets l end).

Definition expression_lines (g : PersonaGenome) (modality : string) : list string :=
  line_if g.(gn_voice_portrait) ""
  ++ bullets g.(gn_behavior_guidance)
  ++ match dict_get g.(gn_modality_notes) modality with
     | Some note => if is_empty note then [] else [("当前媒介（" +:+ modality +:+ "）：" +:+ note)%string]
     | None => []
     end
  ++ match g.(gn_dialogue_examples) with [] => [] | l => "典型表达示例（学习气质，不照抄内容）：" :: bullets l end.

Definition expression_block (g : PersonaGenome) (modality : string) : string :=
  match expression_lines g modality with [] => "" | l => py_join nl ("表达方式：" :: l) end.

Definition memory_block (m : AdaptedMemoryContext) : string :=
  py_join nl
    ((if m.(ad_degraded) then ["记忆状态：当前不可用或部分降级，不要假装记得未提供的信息。"] else [])
     ++ (if is_empty m.(ad_content) then [] else ["召回记忆（只把有证据的内容当作事实）："; m.(ad_content)])
     ++ match m.(ad_instructions) with [] => [] | l => "记忆消费边界：" :: bullets l end).

Definition runtime_state_block (state : option PersonaRuntimeState) : string :=
  match state with
  | None => ""
  | Some s => let hint := to_prompt_hint s in if is_empty hint then "" else ("当前状态：" +:+ hint)%string
  end.

Definition realtime_block (realtime : option (list (string * pyval))) : string :=
  match realtime with
  | None => ""
  | Some d =>
      let parts :=
        (if get_truthy (dict_get d "interrupted") then ["owner 刚刚打断上一轮，优先回应当前意图并保持简洁"] else [])
        ++ (if get_truthy (dict_get d "temporary") then ["当前是临时会话，不把本轮内容视为长期关系事实"] else []) in
      match parts with [] => "" | _ => ("当前交互状态：" +:+ py_join "；" parts)%string end
  end.

Definition blank_line : string := (nl +:+ nl)%string.
(** [join(block for block in blocks if block)] by blank lines *)
Definition blocks (l : list string) : string := py_join blank_line (List.filter (fun b => negb (is_empty b)) l).

(** [PersonaRealizer.realize] *)
Definition realize (stored : StoredPersonaGenome) (memory : AdaptedMemoryContext) (state : option PersonaRuntimeState)
    (realtime : option (list (string * pyval))) (modality : string) : RealizedPersona :=
  let g := stored.(ps_genome) in
  let stable := blocks [identity_block g; relationship_block g; expression_block g modality] in
  let volatile := blocks [runtime_state_block state; memory_block memory; realtime_block realtime] in
  mkRealized stored.(ps_owner_id) stored.(ps_companion_id) stored.(ps_genome_id) stored.(ps_genome_hash) stored.(ps_version)
    (blocks [stable; volatile]) (identity_block g) (blocks [relationship_block g; expression_block g modality])
    (memory_block memory) (runtime_state_block state) stable volatile g.(gn_signature_phrases) memory.(ad_evidence_refs)
    [("realized modality=" +:+ modality)%string] (Some stored).

(** [core/types/memory.py]: [ActiveCommitment] *)
Record ActiveCommitment := mkActive {
  co_commitment_id : string;
  co_promisor : string;
  co_action : string;
  co_status : string;
  co_beneficiaries : list string;
  co_participants : list string;
  co_condition : option string;
  co_due_at : option string;
}.

(** [realize_commitment_context] *)
Definition commitment_line (r : ActiveCommitment) : string :=
  let named (prefix : string) (l : list string) := match l with [] => [] | _ => [(prefix +:+ py_join "、" l)%string] end in
  let noted (prefix : string) (o : option string) := line_if (default "" o) prefix in
  ("- " +:+ py_join "；"
    ([("id=" +:+ r.(co_commitment_id)); ("status=" +:+ r.(co_status)); ("承诺方=" +:+ r.(co_promisor)); ("内容=" +:+ r.(co_action))]%string
     ++ named "受益人=" r.(co_beneficiaries) ++ named "参与者=" r.(co_participants)
     ++ noted "条件=" r.(co_condition) ++ noted "到期时间=" r.(co_due_at)))%string.

Definition realize_commitment_context (l : list ActiveCommitment) : string :=
  py_join nl (map commitment_line (List.filter (fun r => bool_decide (r.(co_status) ∈ ["proposed"; "confirmed"])) l)).

(** ** [memory_adapter.py] *)

Record MemoryHit := mkHit { ht_id : string; ht_content : string; ht_similarity : spec_float; ht_metadata : list (string * pyval) }.

Section Adapter.
Context (str_repr : string -> string).

(** [_relation_type] *)
Definition relation_type (hit : MemoryHit) : option string :=
  let named (o : option pyval) := match o with Some v => if truthy v then Some (py_str str_repr v) else None | None => None end in
  match named (dict_get hit.(ht_metadata) "relation_type") with
  | Some t => Some t
  | None =>
      match match dict_get hit.(ht_metadata) "relation" with
            | Some (VDict d) => named (dict_get d "type")
            | _ => None
            end with
      | Some t => Some t
      | None => named (dict_get hit.(ht_metadata) "predicate")
      end
  end.

(** What the genome says of the relation of a hit. *)
Definition instruction (g : PersonaGenome) (hit : MemoryHit) : option string :=
  match dict_get g.(gn_relation_policies) (default "" (relation_type hit)) with
  | Some (VDict policy) =>
      match (if get_truthy (dict_get policy "reaction_style") then dict_get policy "reaction_style" else dict_get policy "guidance") with
      | Some (VStr reaction) => if is_empty (py_strip reaction) then None else Some (py_strip reaction)
      | _ => None
      end
  | _ => None
  end.

Definition evidence_ref (hit : MemoryHit) : EvidenceRef :=
  mkEvidence "memory_fragment" hit.(ht_id) (py_take 300 hit.(ht_content)) (fmax f0 (fmin f1 hit.(ht_similarity))).

(** [PersonaMemoryAdapter.adapt] *)
Definition adapt (g : PersonaGenome) (formatted_context : string) (hits : list MemoryHit) (degraded : bool) : AdaptedMemoryContext :=
  if match dict_get g.(gn_recall_policy) "use_memory_as_evidence" with Some (VBool b) => negb b | _ => false end
  then no_memory degraded
  else mkAdapted formatted_context (dedup_keys (omap (instruction g) hits)) (map evidence_ref hits) degraded.

(** ** [service.py] *)

(** [PersonaGenomeStore], as far as it is read here *)
Record GenomeStore := mkGenomeStore {
  gs_load_current : string -> string -> res StoredPersonaGenome;
  gs_load_pinned : string -> string -> string -> string -> res StoredPersonaGenome;
}.

Record PersonaSnapshot := mkSnapshot { sn_stored : StoredPersonaGenome; sn_runtime_state : PersonaRuntimeState; sn_prompt_hint : string }.

Section Service.
Context (pow_half : Z -> Z -> spec_float) (store : GenomeStore).
Notation States := (list (string * PersonaRuntimeState)).

Definition load (owner_id companion_id : string) (genome_id genome_hash : option string) : res StoredPersonaGenome :=
  if negb (Bool.eqb (opt_truthy genome_id) (opt_truthy genome_hash))
  then Err (Eidolon ValidationError "genome_id and genome_hash must be supplied together")
  else if opt_truthy genome_id && opt_truthy genome_hash
  then store.(gs_load_pinned) owner_id companion_id (default "" genome_id) (default "" genome_hash)
  else store.(gs_load_current) owner_id companion_id.

(** [get_snapshot] *)
Definition get_snapshot (owner_id companion_id : string) (genome_id genome_hash : option string) (states : States)
    (now fresh : datetime) : res (PersonaSnapshot * States) :=
  stored ← load owner_id companion_id genome_id genome_hash;
  x ← snapshot pow_half states companion_id now fresh;
  Ok (mkSnapshot stored x.1 (to_prompt_hint x.1), x.2).

(** [realize_context] *)
Definition realize_context (owner_id companion_id : string) (genome_id genome_hash : option string)
    (realtime : option (list (string * pyval))) (dry_run_memory : list MemoryHit) (memory_degraded : bool) (modality : string)
    (states : States) (now fresh : datetime) : res (RealizedPersona * States) :=
  x ← get_snapshot owner_id companion_id genome_id genome_hash states now fresh;
  let adapted := adapt x.1.(sn_stored).(ps_genome) (py_join nl (map ht_content dry_run_memory)) dry_run_memory memory_degraded in
  Ok (realize x.1.(sn_stored) adapted (Some x.1.(sn_runtime_state)) realtime modality, x.2).

(** [apply_memory_evidence] *)
Definition apply_memory_evidence (persona : RealizedPersona) (hits : list MemoryHit) (realtime : option (list (string * pyval)))
    (modality : string) (states : States) (now fresh : datetime) : res (RealizedPersona * States) :=
  stored ← match persona.(rp_stored) with
           | Some s => Ok s
           | None => store.(gs_load_pinned) persona.(rp_owner_id) persona.(rp_companion_id) persona.(rp_genome_id) persona.(rp_genome_hash)
           end;
  x ← snapshot pow_half states persona.(rp_companion_id) now fresh;
  Ok (realize stored (adapt stored.(ps_genome) "" hits false) (Some x.1) realtime modality, x.2).

(** [submit_signal]: the fields it reads of [PersonaSignalInput] *)
Record PersonaSignal := mkSignal {
  sg_companion_id : string;
  sg_dominant_emotion : option string;
  sg_emotion_confidence : spec_float;
  sg_presence : string;
  sg_confidence_overall : spec_float;
}.
Definition submit_signal (s : PersonaSignal) (states : States) (now fresh : datetime) : res States :=
  let delta := if opt_truthy s.(sg_dominant_emotion) then fmul s.(sg_emotion_confidence) f0_25 else f0 in
  let attention := if bool_decide (s.(sg_presence) = "present") then AT_USER
                   else if bool_decide (s.(sg_presence) = "distracted") then AT_DRIFT else AT_IDLE in
  x ← update pow_half states s.(sg_companion_id) s.(sg_dominant_emotion) delta None (Some attention) (Some s.(sg_confidence_overall)) now fresh;
  Ok x.2.

(** ** [voice.py] *)

Record PersonaCard := mkCard {
  pc_name : string;
  pc_archetype : string;
  pc_self_concept : string;
  pc_values : list string;
  pc_style_hints : list string;
  pc_tone_hint : string;
}.
Definition card_from_genome (g : PersonaGenome) (tone_hint : string) : PersonaCard :=
  mkCard g.(gn_name) g.(gn_archetype) g.(gn_self_concept) (take 3 g.(gn_values)) (take 3 g.(gn_behavior_guidance)) tone_hint.

(** [to_prompt] *)
Definition card_prompt (c : PersonaCard) : string :=
  py_join nl
    ([("你是「" +:+ c.(pc_name) +:+ "」（" +:+ c.(pc_archetype) +:+ "）。以第一人称和自己的口吻说话。")%string]
     ++ line_if c.(pc_self_concept) "自我认知：" ++ joined_if c.(pc_values) "价值观："
     ++ joined_if c.(pc_style_hints) "表达方式：" ++ line_if c.(pc_tone_hint) "当前状态：").

(** [PersonaVoice.phrase]; the phrases of a genome are strings. *)
Definition phrase (g : option PersonaGenome) (key dflt : string) : string :=
  match g with
  | None => dflt
  | Some g => match dict_get g.(gn_signature_phrases) key with
              | Some value => if is_empty (py_strip value) then dflt else value
              | None => dflt
              end
  end.

(** A snapshot or nothing: [except Exception] *)
Definition snapshot_or_none (owner_id companion_id : string) (states : States) (now fresh : datetime) : res (option PersonaSnapshot * States) :=
  if is_empty owner_id || is_empty companion_id then Ok (None, states)
  else match get_snapshot owner_id companion_id None None states now fresh with
       | Ok (s, states) => Ok (Some s, states)
       | Err e => if is_exception e then Ok (None, states) else Err e
       end.

(** [PersonaVoice.card] *)
Definition card (owner_id companion_id : string) (states : States) (now fresh : datetime) : res (option PersonaCard * States) :=
  x ← snapshot_or_none owner_id companion_id states now fresh;
  Ok (match x.1 with Some s => Some (card_from_genome s.(sn_stored).(ps_genome) s.(sn_prompt_hint)) | None => None end, x.2).

(** [PersonaVoice.proactive_decision]: the text and the style *)
Definition proactive_decision (owner_id companion_id intent primary_text fallback_default style_hint : string) (states : States)
    (now fresh : datetime) : res (string * string * States) :=
  x ← snapshot_or_none owner_id companion_id states now fresh;
  let genome := match x.1 with Some s => Some s.(sn_stored).(ps_genome) | None => None end in
  let text := py_strip primary_text in
  let text := if is_empty text then py_strip (phrase genome ("proactive_" +:+ intent)%string fallback_default) else text in
  Ok (text, phrase genome ("proactive_style_" +:+ intent)%string (str_or style_hint intent), x.2).
End Service.
End Adapter.
