(* ===== verification/PersonaFacts.v ===== *)
(** * What of a genome reaches the model, and how stable it is. *)

From S2P Require Import Prelude CoreTypes Json Presentation Effects TurnState TurnEngine Samples ContextBudget ContextText Personas.
From S2P Require ContextCompiler ContextFacts.

(** ** Substrings *)

Lemma prefix_spec s t : String.prefix s t = true <-> exists u, t = (s +:+ u)%string.
Proof.
  revert t. induction s as [|a s IH]; intros t.
  - split; [intros _; by exists t|intros _; by destruct t].
  - destruct t as [|b t]; simpl; [by split; [done|intros [u [=]]]|].
    destruct (ascii_dec a b) as [->|n].
    + rewrite IH. split; intros [u Hu]; exists u; [by rewrite Hu|by injection Hu].
    + split; [done|]. by intros [u [= -> _]].
Qed.

Lemma py_contains_spec sub s : py_contains sub s = true <-> exists a b, s = (a +:+ sub +:+ b)%string.
Proof.
  induction s as [|c s IH]; cbn [py_contains]; rewrite orb_true_iff, prefix_spec.
  - split; [intros [[u ->]|]; [by exists "", u|done]|]. intros (a & b & H). left. exists b. by destruct a.
  - rewrite IH. split.
    + intros [[u ->]|(a & b & ->)]; [by exists "", u|by exists (String c a), b].
    + intros ([|d a] & b & H); [left; by exists b|right; exists a, b; by injection H].
Qed.

Lemma contains_app_r sub s t : py_contains sub t = true -> py_contains sub (s +:+ t) = true.
Proof. rewrite !py_contains_spec. intros (a & b & ->). exists (s +:+ a)%string, b. by rewrite append_assoc. Qed.
Lemma contains_app_l sub s t : py_contains sub s = true -> py_contains sub (s +:+ t) = true.
Proof. rewrite !py_contains_spec. intros (a & b & ->). exists a, (b +:+ t)%string. by rewrite !append_assoc. Qed.
Lemma contains_refl s : py_contains s s = true.
Proof. apply py_contains_spec. exists "", "". by rewrite append_empty_r. Qed.

Lemma contains_join sub sep x l : x ∈ l -> py_contains sub x = true -> py_contains sub (py_join sep l) = true.
Proof.
  intros Hx H. induction l as [|y [|z l] IH]; [by apply elem_of_nil in Hx| |].
  - apply list_elem_of_singleton in Hx as ->. exact H.
  - apply elem_of_cons in Hx as [->|Hx]; [by apply contains_app_l|]. apply contains_app_r, contains_app_r, IH, Hx.
Qed.

Lemma contains_line sub t prefix l : t ∈ l -> py_contains sub t = true -> exists x, x ∈ joined_if l prefix /\ py_contains sub x = true.
Proof.
  intros Ht H. unfold joined_if. destruct l as [|y l]; [by apply elem_of_nil in Ht|].
  eexists. split; [by left|]. apply contains_app_r. by eapply contains_join.
Qed.

Lemma contains_bullets sub t l : t ∈ l -> py_contains sub t = true -> exists x, x ∈ bullets l /\ py_contains sub x = true.
Proof. intros Ht H. exists ("- " +:+ t)%string. split; [apply list_elem_of_fmap; by exists t|by apply contains_app_r]. Qed.

Lemma blocks_cons_prefix b l : b <> "" -> String.prefix b (blocks (b :: l)) = true.
Proof.
  intros Hb%is_empty_false. apply prefix_spec. unfold blocks. cbn [List.filter]. rewrite Hb. cbn [negb].
  destruct (List.filter _ l); [exists ""; by rewrite append_empty_r|]. by eexists.
Qed.

Lemma contains_blocks sub b l : b ∈ l -> sub <> "" -> py_contains sub b = true -> py_contains sub (blocks l) = true.
Proof.
  intros Hb Hs H. eapply contains_join; [|exact H]. apply elem_of_filter_list. split; [done|].
  apply negb_true_iff, is_empty_false. intros ->. apply py_contains_spec in H as (x & y & H). destruct x; [by destruct sub|done].
Qed.

(** ** The stable prompt *)

(** What a genome forbids *)
Definition boundaries (g : PersonaGenome) : list string := g.(gn_boundaries) ++ g.(gn_safety_boundaries).

Definition stable_prompt (g : PersonaGenome) (modality : string) : string :=
  blocks [identity_block g; relationship_block g; expression_block g modality].

Lemma identity_nonempty g : identity_block g <> "".
Proof. unfold identity_block. cbn [app]. by destruct (line_if _ _ ++ _). Qed.

Lemma boundary_in_stable g modality b : b ∈ boundaries g -> b <> "" -> py_contains b (stable_prompt g modality) = true.
Proof.
  intros [Hb|Hb]%elem_of_app Hne.
  - apply (contains_blocks _ (identity_block g)); [by left|done|].
    destruct (contains_line b b "不可突破的边界：" _ Hb (contains_refl b)) as (x & Hx & Hc).
    eapply contains_join; [|exact Hc]. rewrite !elem_of_app. tauto.
  - apply (contains_blocks _ (relationship_block g)); [by right; left|done|].
    destruct (contains_bullets b b _ Hb (contains_refl b)) as (x & Hx & Hc).
    eapply contains_join; [|exact Hc]. rewrite !elem_of_app. right. right.
    destruct (gn_safety_boundaries g) as [|y l]; [by apply elem_of_nil in Hb|]. by right.
Qed.

Lemma realize_stable stored memory state realtime modality :
  rp_stored (realize stored memory state realtime modality) = Some stored /\
  rp_stable_prompt (realize stored memory state realtime modality) = stable_prompt stored.(ps_genome) modality.
Proof. done. Qed.

Lemma stable_nonempty g modality : stable_prompt g modality <> "".
Proof.
  intros H. pose proof (blocks_cons_prefix _ [relationship_block g; expression_block g modality] (identity_nonempty g)) as Hp.
  apply prefix_spec in Hp as [u Hu]. change (blocks _) with (stable_prompt g modality) in Hu. rewrite H in Hu.
  pose proof (identity_nonempty g). by destruct (identity_block g).
Qed.

(** ** The personas service as the port of the context compiler *)

Section Port.
Context (str_repr : string -> string) (pow_half : Z -> Z -> SpecFloat.spec_float) (store : GenomeStore).
Context (dump_ref : EvidenceRef -> pyval) (hit_of : ContextCompiler.MemoryHit -> MemoryHit).

(** What the compiler reads of a realized persona. *)
Definition view (p : RealizedPersona) : ContextCompiler.RealizedPersona :=
  ContextCompiler.mkPersona p.(rp_genome_id) p.(rp_system_prompt) p.(rp_stable_prompt) p.(rp_volatile_prompt)
    (map (fun x => (x.1, VStr x.2)) p.(rp_spoken_phrases)) (map dump_ref p.(rp_evidence_refs))
    (match p.(rp_stored) with Some s => Some (s.(ps_preference_revision), s.(ps_preferences)) | None => None end).

(** The runtime states and the clock at a call of the service *)
Record Moment := mkMoment { mo_states : list (string * PersonaRuntimeState); mo_now : datetime; mo_fresh : datetime }.

Definition realized (ti : TurnInput) (realtime : option (list (string * pyval))) (w : Moment) (companion genome : string) : res RealizedPersona :=
  x ← realize_context str_repr pow_half store ti.(ti_context).(owner_id) companion (Some genome) (Some ti.(ti_context).(genome_hash)) realtime []
        false ti.(ti_input_modality) w.(mo_states) w.(mo_now) w.(mo_fresh);
  Ok x.1.

Notation located cp ci := (ContextCompiler.cp_locator cp (owner_id (ti_context (ContextCompiler.ci_turn ci)))
  (companion_id (ti_context (ContextCompiler.ci_turn ci))) (ti_conversation_id (ContextCompiler.ci_turn ci))).

(** The ports of a compilation, with the personas service at the moments [w1] of the reads
    and [w2] after them. The persona the evidence is applied to is the one realized before. *)
Definition with_personas (cp : ContextCompiler.CompilerPorts) (ci : ContextCompiler.CompileInput)
    (realtime : option (list (string * pyval))) (w1 w2 : Moment) : ContextCompiler.CompilerPorts :=
  let ti := ContextCompiler.ci_turn ci in
  {| ContextCompiler.cp_locator := ContextCompiler.cp_locator cp;
     ContextCompiler.cp_realize companion genome := p ← realized ti realtime w1 companion genome; Ok (view p);
     ContextCompiler.cp_realize_commitments := ContextCompiler.cp_realize_commitments cp;
     ContextCompiler.cp_apply_evidence := Some (fun _ hits =>
       p ← realized ti realtime w1 (located cp ci).1 (located cp ci).2;
       x ← apply_memory_evidence str_repr pow_half store p (map hit_of hits) realtime ti.(ti_input_modality) w2.(mo_states) w2.(mo_now) w2.(mo_fresh);
       Ok (view x.1));
     ContextCompiler.cp_history := ContextCompiler.cp_history cp;
     ContextCompiler.cp_peek := ContextCompiler.cp_peek cp;
     ContextCompiler.cp_has_memory := ContextCompiler.cp_has_memory cp;
     ContextCompiler.cp_provisional := ContextCompiler.cp_provisional cp;
     ContextCompiler.cp_recall := ContextCompiler.cp_recall cp;
     ContextCompiler.cp_expired := ContextCompiler.cp_expired cp;
     ContextCompiler.cp_memory_awaits := ContextCompiler.cp_memory_awaits cp;
     ContextCompiler.cp_has_commitment_reader := ContextCompiler.cp_has_commitment_reader cp;
     ContextCompiler.cp_commitments := ContextCompiler.cp_commitments cp;
     ContextCompiler.cp_commitments_cut := ContextCompiler.cp_commitments_cut cp;
     ContextCompiler.cp_summary := ContextCompiler.cp_summary cp;
     ContextCompiler.cp_ms := ContextCompiler.cp_ms cp;
     ContextCompiler.cp_uuid := ContextCompiler.cp_uuid cp;
     ContextCompiler.cp_now := ContextCompiler.cp_now cp |}.

(** The genome the turn is pinned to *)
Definition turn_genome (cp : ContextCompiler.CompilerPorts) (ci : ContextCompiler.CompileInput) : res StoredPersonaGenome :=
  let c := ti_context (ContextCompiler.ci_turn ci) in
  load store c.(owner_id) (located cp ci).1 (Some (located cp ci).2) (Some c.(genome_hash)).

Definition of_genome (cp : ContextCompiler.CompilerPorts) (ci : ContextCompiler.CompileInput) (p : ContextCompiler.RealizedPersona) : Prop :=
  exists stored, turn_genome cp ci = Ok stored /\
    ContextCompiler.pe_stable_prompt p = stable_prompt stored.(ps_genome) (ti_input_modality (ContextCompiler.ci_turn ci)).

Lemma realized_spec cp ci realtime w p : realized (ContextCompiler.ci_turn ci) realtime w (located cp ci).1 (located cp ci).2 = Ok p ->
  exists stored, turn_genome cp ci = Ok stored /\ rp_stored p = Some stored /\
    rp_stable_prompt p = stable_prompt stored.(ps_genome) (ti_input_modality (ContextCompiler.ci_turn ci)).
Proof.
  intros ([p' st] & H & [= ->])%res_bind_ok. unfold realize_context, get_snapshot in H.
  apply res_bind_ok in H as ([sn st'] & (stored & Hl & Hs)%res_bind_ok & [= <- _]). apply res_bind_ok in Hs as (x & _ & [= <- _]).
  exists stored. split; [exact Hl|]. apply realize_stable.
Qed.

#[global] Instance personas_port cp ci realtime w1 w2 :
  ContextFacts.PersonaPort (with_personas cp ci realtime w1 w2) ci (of_genome cp ci).
Proof.
  split.
  - intros p c l (p' & Hp & [= <-])%res_bind_ok. apply realized_spec in Hp as (stored & Hl & _ & Hst). exists stored. by split.
  - intros f p hits p' [= <-] _ (q & Hq & (x & Hx & [= <-])%res_bind_ok)%res_bind_ok.
    apply realized_spec in Hq as (stored & Hl & Hs & _). exists stored. split; [exact Hl|].
    unfold apply_memory_evidence in Hx. rewrite Hs in Hx. apply res_bind_ok in Hx as (stored' & [= <-] & Hx).
    apply res_bind_ok in Hx as (y & _ & [= <-]). apply realize_stable.
Qed.
End Port.

Lemma join_prefix sep x l : String.prefix x (py_join sep (x :: l)) = true.
Proof. apply prefix_spec. destruct l; [exists ""; by rewrite append_empty_r|by eexists]. Qed.

(** Whatever memory, runtime state, signals and budget are: a compiled prompt opens with the
    text that depends only on the genome the turn is pinned to and on the modality, and it
    contains every boundary and safety boundary of that genome. *)
Theorem genome_frames_the_prompt str_repr exn_details float_add default_preferences preferences_dump pow_half store dump_ref hit_of
    cc cp ci realtime w1 w2 md out s :
  ContextCompiler.run_compile str_repr exn_details float_add default_preferences preferences_dump cc
    (with_personas str_repr pow_half store dump_ref hit_of cp ci realtime w1 w2) ci md = (Ok out, s) ->
  exists stored m rest, turn_genome store cp ci = Ok stored /\ out = m :: rest /\ m.(m_role) = SYSTEM /\
    String.prefix (INSTRUCTIONS_HEAD +:+ stable_prompt stored.(ps_genome) (ti_input_modality (ContextCompiler.ci_turn ci))) m.(m_content) = true /\
    forall b, b ∈ boundaries stored.(ps_genome) -> b <> "" -> py_contains b m.(m_content) = true.
Proof.
  intros Hr. apply (ContextFacts.compiled_persona _ _ _ _ _ _ _ _ _ (of_genome store cp ci)) in Hr as (p & shown & (stored & Hl & Hp) & middle & -> & _).
  exists stored. do 2 eexists. split; [exact Hl|]. split; [done|]. split; [done|]. cbn [m_content plain_message].
  unfold ContextFacts.stable_part. rewrite Hp. unfold str_or. rewrite (proj2 (is_empty_false _) (stable_nonempty _ _)).
  split; [apply join_prefix|]. intros b Hb Hne. eapply contains_join; [by left|]. by apply contains_app_r, boundary_in_stable.
Qed.

(** ** The interaction state the compiler passes on *)

(** The keys of [_realtime_dict] *)
Definition realtime_keys : list string :=
  ["dominant_emotion"; "emotion_confidence"; "speech_rate"; "presence"; "confidence_overall"; "notable_events"].

(** The realizer looks for [interrupted] and [temporary], which the compiler never passes. *)
Lemma compiler_realtime_is_not_rendered d : d.*1 = realtime_keys -> realtime_block (Some d) = "".
Proof.
  intros Hk. unfold realtime_block.
  assert (forall k, k ∉ realtime_keys -> dict_get d k = None) as H by (intros k Hn; apply dict_get_none; by rewrite Hk).
  rewrite !H by by_compute. done.
Qed.

(** ** A concrete genome *)

Definition sample_genome : PersonaGenome :=
  mkGenome "Ada" "a friend" "self" ["honesty"] ["never lie"] "portrait" [] [] "new" "" ["no pressure"] "calm" ["short"] [("voice", "be brief")]
    [] [("proactive_greet", "hi")] [] [("friend", VDict [("guidance", VStr " be warm ")])].
Definition sample_stored : StoredPersonaGenome :=
  mkStored "owner" "companion" "genome" "hash" "r1" 1 "committed" sample_genome (mkPreferences "brief" "when_asked" "when_needed") 1.
Definition sample_store : GenomeStore :=
  mkGenomeStore (fun _ _ => Ok sample_stored) (fun _ _ _ _ => Ok sample_stored).
Definition sample_moment : Moment := mkMoment [] sample_time sample_time.
Definition sample_hit (h : ContextCompiler.MemoryHit) : MemoryHit :=
  mkHit (ContextCompiler.mh_id h) "likes tea" f0_5 [("relation_type", VStr "friend")].
Notation sample_ports_of :=
  (with_personas id (fun _ _ => f0_5) sample_store (fun r => VStr r.(er_ref_id)) sample_hit ContextFacts.sample_services
     ContextFacts.sample_compile_input None sample_moment sample_moment).
Notation sample_run :=
  (ContextCompiler.run_compile id (fun _ => VNone) (fun a _ => a) (mkPreferences "brief" "when_asked" "when_needed") (fun _ => VNone)
     ContextFacts.sample_compiler sample_ports_of ContextFacts.sample_compile_input []).
Definition sample_prompt : list ChatMessage := match fst sample_run with Ok out => out | Err _ => [] end.

Lemma sample_run_ok : sample_run = (Ok sample_prompt, snd sample_run).
Proof.
  assert (fst sample_run = Ok sample_prompt) as H by (vm_compute; reflexivity). revert H.
  generalize sample_run. intros [r s] H. cbn in H. by rewrite H.
Qed.

(** The evidence of the run is applied: the hit's relation adds an instruction. *)
Example sample_evidence : ContextCompiler.cx_reads (snd sample_run) =
  [ContextCompiler.RPersona "companion" "genome"; ContextCompiler.RPeek 4 "turn-1"; ContextCompiler.RRecall "hi";
   ContextCompiler.RHistory 20 "turn-1"; ContextCompiler.REvidence [ContextCompiler.mkHit "h1" VNone]] /\
  existsb (fun m => py_contains "- be warm" m.(m_content)) sample_prompt = true.
Proof. split; vm_compute; reflexivity. Qed.

Lemma genome_frames_the_prompt_witness :
  length sample_prompt = 2%nat /\ exists m rest, sample_prompt = m :: rest /\
    py_contains "never lie" m.(m_content) = true /\ py_contains "no pressure" m.(m_content) = true.
Proof.
  split; [vm_compute; reflexivity|].
  destruct (genome_frames_the_prompt _ _ _ _ _ _ _ _ _ _ _ _ _ _ _ _ _ _ sample_run_ok) as (stored & m & rest & Hl & -> & _ & _ & Hb).
  exists m, rest. split; [done|]. cbn in Hl. injection Hl as <-. split; apply Hb; by_compute.
Defined.

Example sample_hint : to_prompt_hint (mkRuntimeState (mkMood f0 f0_5 f0 f0 f0 f0_5 1800 sample_time) (mkEnergy f0_25 f0_5 sample_time)
  (mkAttention AT_USER f1 None) sample_time) = "略低落；精力有点低；注意力在 owner 身上".
Proof. vm_compute. reflexivity. Qed.
