(* ===== verification/MemoryOutbox.v ===== *)
(** * The durable outbox of memory turns and its dispatcher:
      [infra/persistence/runtime_store.py] ([AgentMemoryTurnOutbox]) and
      [infra/persistence/memory_turn_dispatch.py].

    The table is a list of rows in the order of insertion. The dispatcher runs beside
    the turns: at each of its awaits the turns of [env] are enqueued, and a scheduled
    cancellation or database error is raised there. Every enqueue, publication and
    acknowledgement is logged. *)

From S2P Require Import Prelude CoreTypes Effects.
#[local] Open Scope eff_scope.

(** ** Rows *)

Notation Payload := (list (string * pyval)) (only parsing).

(** Times are microseconds of UTC: the column stores no other zone. *)
Record MemoryTurnOutboxRow := mkOutboxRow {
  ob_outbox_id : Z;
  ob_turn_id : string;
  ob_owner_id : string;
  ob_companion_id : string;
  ob_subject : string;
  ob_payload : Payload;
  ob_trace_id : option string;
  ob_attempt_count : Z;
  ob_next_attempt_at : Z;
  ob_last_error : string;
  ob_published_at : option Z;
}.

(** The arguments of [enqueue]. *)
Record EnqueueRequest := mkEnqueue {
  eq_turn_id : string;
  eq_owner_id : string;
  eq_companion_id : string;
  eq_subject : string;
  eq_payload : Payload;
  eq_trace_id : option string;
}.

Record PendingMemoryTurn := mkPending {
  pn_turn_id : string;
  pn_subject : string;
  pn_payload : Payload;
  pn_trace_id : option string;
  pn_attempt_count : Z;
}.

(** The fields of the published [Event]; its source is constant. *)
Record BusEvent := mkBusEvent {
  be_subject : string;
  be_payload : Payload;
  be_trace_id : option string;
  be_msg_id : string;
}.

(** ** The table's transactions *)

Definition MICROS : Z := 1000000.

(** A rowid table without AUTOINCREMENT numbers a row one past the largest id present. *)
Definition next_outbox_id (rows : list MemoryTurnOutboxRow) : Z :=
  1 + foldr (fun r m => Z.max r.(ob_outbox_id) m) 0 rows.

Definition has_turn (turn_id : string) (rows : list MemoryTurnOutboxRow) : bool :=
  existsb (fun r => bool_decide (r.(ob_turn_id) = turn_id)) rows.

Section Rows.
(** What the JSON column gives back for a stored document, and [==] on documents. *)
Context (json_column : Payload -> Payload) (payload_eqb : Payload -> Payload -> bool).

Definition new_row (rows : list MemoryTurnOutboxRow) (now : Z) (rq : EnqueueRequest) : MemoryTurnOutboxRow :=
  mkOutboxRow (next_outbox_id rows) rq.(eq_turn_id) rq.(eq_owner_id) rq.(eq_companion_id) rq.(eq_subject)
    (json_column rq.(eq_payload)) rq.(eq_trace_id) 0 now "" None.

(** [INSERT ... ON CONFLICT (turn_id) DO NOTHING] *)
Definition insert_turn (now : Z) (rq : EnqueueRequest) (rows : list MemoryTurnOutboxRow) : list MemoryTurnOutboxRow :=
  if has_turn rq.(eq_turn_id) rows then rows else rows ++ [new_row rows now rq].

(** The check of [enqueue] after its commit. *)
Definition verify_enqueued (rq : EnqueueRequest) (rows : list MemoryTurnOutboxRow) : res unit :=
  match List.find (fun r => bool_decide (r.(ob_turn_id) = rq.(eq_turn_id))) rows with
  | None => Err (PyError "RuntimeError" ("memory turn enqueue lost after commit: " +:+ rq.(eq_turn_id))%string)
  | Some r =>
      if bool_decide (r.(ob_owner_id) = rq.(eq_owner_id)) && bool_decide (r.(ob_companion_id) = rq.(eq_companion_id))
         && bool_decide (r.(ob_subject) = rq.(eq_subject)) && payload_eqb r.(ob_payload) rq.(eq_payload)
         && bool_decide (r.(ob_trace_id) = rq.(eq_trace_id))
      then Ok tt
      else Err (PyError "RuntimeError" ("memory turn identity collision: " +:+ rq.(eq_turn_id))%string)
  end.

(** [enqueue]: others may use the table between its commit and its check. *)
Definition enqueue (now : Z) (rq : EnqueueRequest) (between : list MemoryTurnOutboxRow -> list MemoryTurnOutboxRow)
  (rows : list MemoryTurnOutboxRow) : res unit * list MemoryTurnOutboxRow :=
  let rows := between (insert_turn now rq rows) in (verify_enqueued rq rows, rows).
End Rows.

(** [LIMIT n]: a negative one is no limit. *)
Definition sql_limit {A} (n : Z) (l : list A) : list A := if n <? 0 then l else take (Z.to_nat n) l.

Definition unpublished (r : MemoryTurnOutboxRow) : bool := bool_decide (r.(ob_published_at) = None).

Definition blocked_subjects (now : Z) (rows : list MemoryTurnOutboxRow) : list string :=
  map ob_subject (List.filter (fun r => unpublished r && (now <? r.(ob_next_attempt_at))) rows).

(** The rows [pending_batch] selects. *)
Definition pending_rows (now limit : Z) (rows : list MemoryTurnOutboxRow) : list MemoryTurnOutboxRow :=
  sql_limit limit (py_sorted (fun a b => a.(ob_outbox_id) <=? b.(ob_outbox_id))
    (List.filter (fun r => unpublished r && (r.(ob_next_attempt_at) <=? now)
                           && negb (bool_decide (r.(ob_subject) ∈ blocked_subjects now rows))) rows)).

Definition to_pending (r : MemoryTurnOutboxRow) : PendingMemoryTurn :=
  mkPending r.(ob_turn_id) r.(ob_subject) r.(ob_payload) r.(ob_trace_id) r.(ob_attempt_count).

Definition delete_turn (turn_id : string) (rows : list MemoryTurnOutboxRow) : list MemoryTurnOutboxRow :=
  List.filter (fun r => negb (bool_decide (r.(ob_turn_id) = turn_id))) rows.

(** The delay after the [n]-th failed attempt, in seconds. *)
Definition backoff_seconds (n : Z) : Z := Z.min (2 ^ Z.min n 6) 60.

Definition fail_row (now : Z) (error : string) (r : MemoryTurnOutboxRow) : MemoryTurnOutboxRow :=
  let n := r.(ob_attempt_count) + 1 in
  mkOutboxRow r.(ob_outbox_id) r.(ob_turn_id) r.(ob_owner_id) r.(ob_companion_id) r.(ob_subject) r.(ob_payload)
    r.(ob_trace_id) n (now + backoff_seconds n * MICROS) (py_take 2000 error) r.(ob_published_at).

Definition fail_turn (now : Z) (turn_id error : string) (rows : list MemoryTurnOutboxRow) : list MemoryTurnOutboxRow :=
  map (fun r => if bool_decide (r.(ob_turn_id) = turn_id) && unpublished r then fail_row now error r else r) rows.

Definition pending_count (rows : list MemoryTurnOutboxRow) : Z := Z.of_nat (length (List.filter unpublished rows)).

(** ** The dispatcher *)

(** [by_subject.setdefault(row.subject, []).append(row)] for every row *)
Definition group_by_subject (rows : list PendingMemoryTurn) : list (string * list PendingMemoryTurn) :=
  fold_left (fun d r => dict_set d r.(pn_subject) (default [] (dict_get d r.(pn_subject)) ++ [r])) rows [].

Inductive OutboxEvent :=
  | Accepted (subject : string) (turn_id : string) (payload : Payload) (trace_id : option string)
  | Sent (e : BusEvent) (delivered : bool)
  | Acked (subject : string) (turn_id : string).

Record World := mkWorld {
  w_rows : list MemoryTurnOutboxRow;
  w_tick : nat;
  w_log : list OutboxEvent;
}.

Record Environment := mkEnvironment {
  en_utc_now : nat -> Z;
  (** the turns enqueued while the dispatcher waits for the [n]-th time *)
  en_enqueued : nat -> list EnqueueRequest;
  (** what the [n]-th wait raises *)
  en_interrupt : nat -> option exn;
  en_publish : nat -> BusEvent -> res unit;
  en_json_column : Payload -> Payload;
}.

Definition event_of (r : PendingMemoryTurn) : BusEvent := mkBusEvent r.(pn_subject) r.(pn_payload) r.(pn_trace_id) r.(pn_turn_id).

Section Dispatcher.
Context (env : Environment) (batch_size : Z).

(** A turn enqueued by the conversation side during a wait: its default time is that of the wait's end. *)
Definition accept (rq : EnqueueRequest) (w : World) : World :=
  if has_turn rq.(eq_turn_id) w.(w_rows) then w
  else mkWorld (insert_turn env.(en_json_column) (env.(en_utc_now) (S w.(w_tick))) rq w.(w_rows)) w.(w_tick)
         (w.(w_log) ++ [Accepted rq.(eq_subject) rq.(eq_turn_id) (env.(en_json_column) rq.(eq_payload)) rq.(eq_trace_id)]).

Definition await_point : M World unit := fun w =>
  let w' := fold_left (fun w rq => accept rq w) (env.(en_enqueued) w.(w_tick)) w in
  let w' := mkWorld w'.(w_rows) (S w.(w_tick)) w'.(w_log) in
  match env.(en_interrupt) w.(w_tick) with Some e => (Err e, w') | None => (Ok tt, w') end.

Definition now_ : M World Z := mgets (fun w => env.(en_utc_now) w.(w_tick)).
Definition log_ (e : OutboxEvent) : M World unit := mmodify (fun w => mkWorld w.(w_rows) w.(w_tick) (w.(w_log) ++ [e])).
Definition update_rows (f : list MemoryTurnOutboxRow -> list MemoryTurnOutboxRow) : M World unit :=
  mmodify (fun w => mkWorld (f w.(w_rows)) w.(w_tick) w.(w_log)).

Definition pending_batch : M World (list PendingMemoryTurn) :=
  now <-- now_ ;;
  await_point ;;;
  rows <-- mgets w_rows ;;
  await_point ;;;
  mret_ (map to_pending (pending_rows now batch_size rows)).

Definition mark_published (r : PendingMemoryTurn) : M World unit :=
  await_point ;;;
  update_rows (delete_turn r.(pn_turn_id)) ;;;
  log_ (Acked r.(pn_subject) r.(pn_turn_id)) ;;;
  await_point.

Definition mark_failed (turn_id error : string) : M World unit :=
  await_point ;;;
  now <-- now_ ;;
  update_rows (fail_turn now turn_id error) ;;;
  await_point.

Definition publish (e : BusEvent) : M World unit :=
  await_point ;;;
  tick <-- mgets w_tick ;;
  let r := env.(en_publish) tick e in
  log_ (Sent e (if r is Ok _ then true else false)) ;;;
  mlift r.

(** The rows of one subject, in order, until one cannot be published: how many were. *)
Fixpoint publish_rows (rows : list PendingMemoryTurn) (published : nat) : M World nat :=
  match rows with
  | [] => mret_ published
  | r :: rest =>
      failure <-- mtry (publish (event_of r) ;;; mret_ None)
                    (fun e => if is_exception e then Some (mret_ (Some e)) else None) ;;
      match failure with
      | Some e => mark_failed r.(pn_turn_id) (exn_type e +:+ ": " +:+ exn_str e)%string ;;; mret_ published
      | None => mark_published r ;;; publish_rows rest (S published)
      end
  end.

Fixpoint publish_subjects (groups : list (list PendingMemoryTurn)) (published : nat) : M World nat :=
  match groups with
  | [] => mret_ published
  | rows :: rest => published <-- publish_rows rows published ;; publish_subjects rest published
  end.

Definition dispatch_once : M World nat :=
  rows <-- pending_batch ;;
  publish_subjects (group_by_subject rows).*2 0.

(** One iteration of [run_memory_turn_dispatcher], with the sleep after an idle or a failed one. *)
Definition dispatcher_iteration : M World unit :=
  published <-- mtry dispatch_once (fun e => if is_exception e then Some (mret_ 0%nat) else None) ;;
  mwhen (bool_decide (published = 0%nat)) await_point.

(** The first [n] iterations of its loop. *)
Fixpoint run_dispatcher (n : nat) : M World unit :=
  match n with O => mret_ tt | S n' => dispatcher_iteration ;;; run_dispatcher n' end.

(** The dispatcher of each process in turn, ended after some iterations or by what it raised;
    the table outlives them. *)
Definition restarted (runs : list nat) (w : World) : World := fold_left (fun w n => (run_dispatcher n w).2) runs w.
End Dispatcher.
