(* ===== verification/MemoryOutboxFacts.v ===== *)
(** * The outbox is a family of FIFO queues, one per subject, and it drains.

    The abstract specification knows one queue per subject and whether its head was
    handed to the bus; the table and the dispatcher refine it, whatever is enqueued, fails
    or is cancelled meanwhile. *)

From stdpp Require Import functions.
From S2P Require Import Prelude CoreTypes Effects MemoryOutbox.
#[local] Open Scope eff_scope.

(** ** The specification *)

Definition QueueItem : Type := string * Payload * option string.

Record SubjectState := mkSubject { ss_queue : list QueueItem; ss_delivered : bool }.

Notation Queues := (string -> SubjectState).

Definition empty_queues : Queues := fun _ => mkSubject [] false.

(** A turn enters at the tail, only the head is sent, and it leaves only after the bus
    took it. *)
Inductive queue_step : Queues -> OutboxEvent -> Queues -> Prop :=
  | step_accept q s t p tr :
      queue_step q (Accepted s t p tr) (<[s := mkSubject ((q s).(ss_queue) ++ [(t, p, tr)]) (q s).(ss_delivered)]> q)
  | step_send q e ok rest :
      (q e.(be_subject)).(ss_queue) = (e.(be_msg_id), e.(be_payload), e.(be_trace_id)) :: rest ->
      queue_step q (Sent e ok)
        (<[e.(be_subject) := mkSubject (q e.(be_subject)).(ss_queue) ((q e.(be_subject)).(ss_delivered) || ok)]> q)
  | step_ack q s t p tr rest :
      q s = mkSubject ((t, p, tr) :: rest) true ->
      queue_step q (Acked s t) (<[s := mkSubject rest false]> q).

Inductive queue_trace : Queues -> list OutboxEvent -> Queues -> Prop :=
  | trace_nil q : queue_trace q [] q
  | trace_snoc q q1 q2 l e : queue_trace q l q1 -> queue_step q1 e q2 -> queue_trace q (l ++ [e]) q2.

(** ** The table *)

Definition item_of (r : MemoryTurnOutboxRow) : QueueItem := (r.(ob_turn_id), r.(ob_payload), r.(ob_trace_id)).
Definition on_subject (s : string) (r : MemoryTurnOutboxRow) : bool := bool_decide (r.(ob_subject) = s).
Definition queue_of (s : string) (rows : list MemoryTurnOutboxRow) : list QueueItem := map item_of (List.filter (on_subject s) rows).

Definition id_lt (a b : MemoryTurnOutboxRow) : Prop := a.(ob_outbox_id) < b.(ob_outbox_id).

Record table_ok (rows : list MemoryTurnOutboxRow) : Prop := {
  tb_ids : StronglySorted id_lt rows;
  tb_turns : NoDup (map ob_turn_id rows);
  tb_unpublished : Forall (fun r => r.(ob_published_at) = None) rows;
}.

Lemma table_ok_nil : table_ok [].
Proof. split; constructor. Qed.

Lemma next_outbox_id_above rows r : r ∈ rows -> r.(ob_outbox_id) < next_outbox_id rows.
Proof.
  unfold next_outbox_id. induction rows as [|x rows IH]; [by intros ?%elem_of_nil|].
  intros [->|H]%elem_of_cons; simpl; [lia|]. specialize (IH H). lia.
Qed.

Lemma has_turn_false t rows : has_turn t rows = false <-> t ∉ map ob_turn_id rows.
Proof.
  unfold has_turn. rewrite <- not_true_iff_false, existsb_exists. rewrite list_elem_of_fmap.
  setoid_rewrite bool_decide_eq_true. setoid_rewrite list_elem_of_In. naive_solver.
Qed.

Lemma StronglySorted_snoc {A} (R : A -> A -> Prop) l x :
  StronglySorted R l -> (forall y, y ∈ l -> R y x) -> StronglySorted R (l ++ [x]).
Proof.
  induction 1 as [|y l Hl IH Hy]; intros Hx; simpl; [repeat constructor|]. constructor.
  - apply IH. intros z Hz. apply Hx. by right.
  - apply Forall_app. split; [done|]. constructor; [|done]. apply Hx. by left.
Qed.

Lemma StronglySorted_filter {A} (R : A -> A -> Prop) (f : A -> bool) l :
  StronglySorted R l -> StronglySorted R (List.filter f l).
Proof.
  induction 1 as [|y l Hl IH Hy]; simpl; [constructor|]. destruct (f y); [|done]. constructor; [done|].
  apply Forall_forall. intros z [Hz _]%list_elem_of_In%filter_In. rewrite Forall_forall in Hy. apply Hy. by apply list_elem_of_In.
Qed.

Lemma table_ok_filter f rows : table_ok rows -> table_ok (List.filter f rows).
Proof.
  intros [H1 H2 H3]. split; [by apply StronglySorted_filter|by apply NoDup_map_filter|].
  apply Forall_forall. intros r [Hr _]%elem_of_filter_list. rewrite Forall_forall in H3. by apply H3.
Qed.

Lemma table_ok_insert json now rq rows :
  has_turn rq.(eq_turn_id) rows = false -> table_ok rows -> table_ok (insert_turn json now rq rows).
Proof.
  intros Hn [H1 H2 H3]. unfold insert_turn. rewrite Hn. split.
  - apply StronglySorted_snoc; [done|]. intros y Hy. unfold id_lt. by apply next_outbox_id_above.
  - rewrite map_app. apply NoDup_app. split; [done|]. split; [|apply NoDup_singleton].
    intros x Hx ->%list_elem_of_singleton. by apply has_turn_false in Hn.
  - apply Forall_app. split; [done|]. by repeat constructor.
Qed.

Lemma queue_of_app s rows rows' : queue_of s (rows ++ rows') = queue_of s rows ++ queue_of s rows'.
Proof. unfold queue_of. by rewrite List.filter_app, map_app. Qed.

(** A row that is failed keeps everything but its attempts. *)
Definition same_turn (a b : MemoryTurnOutboxRow) : Prop :=
  a.(ob_outbox_id) = b.(ob_outbox_id) /\ a.(ob_subject) = b.(ob_subject) /\ item_of a = item_of b /\
  a.(ob_published_at) = b.(ob_published_at).

Lemma fail_turn_same now t err rows : Forall2 same_turn rows (fail_turn now t err rows).
Proof. unfold fail_turn. induction rows as [|r rows IH]; simpl; constructor; [|done]. by destruct (_ && _). Qed.

Lemma same_turns_queue s rows rows' : Forall2 same_turn rows rows' -> queue_of s rows' = queue_of s rows.
Proof.
  induction 1 as [|a b l l' (_ & Hs & Hi & _) H IH]; [done|]. unfold queue_of, on_subject in *. simpl. rewrite Hs.
  case_bool_decide; simpl; [by rewrite IH, Hi|done].
Qed.

Lemma same_turns_ok rows rows' : Forall2 same_turn rows rows' -> table_ok rows -> table_ok rows'.
Proof.
  intros HF. induction HF as [|a b l l' (Hid & Hs & Hi & Hp) H IH]; [done|]. intros [H1 H2 H3].
  inversion H1; inversion H2; inversion H3; subst.
  destruct IH as [I1 I2 I3]; [by split|].
  assert (Forall2 same_turn l l') as HF by done. injection Hi as Ht _ _. split.
  - constructor; [done|]. apply Forall_forall. intros y Hy.
    assert (exists x, x ∈ l /\ ob_outbox_id x = ob_outbox_id y) as (x & Hx & E).
    { clear -Hy H. induction H as [|u v k k' (Hu & _) HF' IH]; [by apply elem_of_nil in Hy|].
      apply elem_of_cons in Hy as [->|Hy]; [exists u; split; [by left|done]|].
      destruct (IH Hy) as (x & ? & ?). exists x. split; [by right|done]. }
    unfold id_lt in *. rewrite <- Hid, <- E. rewrite Forall_forall in H6. by apply H6.
  - simpl. assert (map ob_turn_id l' = map ob_turn_id l) as E.
    { clear -H. induction H as [|u v k k' (_ & _ & Hu & _) HF' IH]; [done|]. simpl. injection Hu as -> _ _. by rewrite IH. }
    constructor; [|by rewrite E]. by rewrite E, <- Ht.
  - constructor; [by rewrite <- Hp|done].
Qed.

Lemma filter_comm {A} (f g : A -> bool) l : List.filter f (List.filter g l) = List.filter g (List.filter f l).
Proof.
  induction l as [|x l IH]; simpl; [done|]. destruct (f x) eqn:Ef, (g x) eqn:Eg; simpl; rewrite ?Ef, ?Eg; by rewrite IH.
Qed.

Lemma filter_all {A} (f : A -> bool) l : (forall x, x ∈ l -> f x = true) -> List.filter f l = l.
Proof.
  induction l as [|x l IH]; simpl; [done|]. intros H. rewrite H by left. f_equal. apply IH. intros y Hy. apply H. by right.
Qed.

(** The rows of the queue's items. *)
Lemma queue_cons_inv s rows t p tr rest :
  queue_of s rows = (t, p, tr) :: rest ->
  exists r l, List.filter (on_subject s) rows = r :: l /\ r.(ob_turn_id) = t /\ r.(ob_subject) = s /\ r ∈ rows /\ map item_of l = rest.
Proof.
  unfold queue_of. destruct (List.filter (on_subject s) rows) as [|r l] eqn:E; [done|]. intros [= Ht _ _ Hl].
  assert (r ∈ List.filter (on_subject s) rows) as [Hr Hs]%elem_of_filter_list by (rewrite E; by left).
  apply bool_decide_eq_true in Hs. by exists r, l.
Qed.

Lemma queue_of_delete s rows t p tr rest :
  table_ok rows -> queue_of s rows = (t, p, tr) :: rest ->
  queue_of s (delete_turn t rows) = rest /\ (forall s', s' <> s -> queue_of s' (delete_turn t rows) = queue_of s' rows).
Proof.
  intros [_ Hnd _] (r & l & E & <- & Hs & Hr & <-)%queue_cons_inv. unfold queue_of, delete_turn. split.
  - rewrite filter_comm, E. simpl. rewrite bool_decide_eq_true_2 by done. simpl. f_equal. apply filter_all.
    intros x Hx. apply negb_true_iff, bool_decide_eq_false_2. intros Ht.
    pose proof (NoDup_map_filter ob_turn_id (on_subject s) rows Hnd) as Hnd'. rewrite E in Hnd'. simpl in Hnd'.
    apply NoDup_cons in Hnd' as [Hn _]. apply Hn. rewrite <- Ht. by apply list_elem_of_fmap_2.
  - intros s' Hne. rewrite filter_comm. f_equal. apply filter_all.
    intros x [Hx Hxs]%elem_of_filter_list. apply bool_decide_eq_true in Hxs.
    apply negb_true_iff, bool_decide_eq_false_2. intros Ht. apply Hne. rewrite <- Hxs, <- Hs. f_equal.
    by eapply NoDup_map_elem.
Qed.

(** ** The batch *)

Definition of_subject (s : string) (r : PendingMemoryTurn) : bool := bool_decide (r.(pn_subject) = s).

Lemma group_by_subject_spec l :
  NoDup (group_by_subject l).*1 /\
  forall s, dict_get (group_by_subject l) s = (if List.filter (of_subject s) l is [] then None else Some (List.filter (of_subject s) l)).
Proof.
  unfold group_by_subject. induction l as [|r l [IH1 IH2]] using rev_ind; [split; [constructor|done]|].
  rewrite fold_left_app. simpl. split; [by apply dict_set_nodup|]. intros s. rewrite List.filter_app. simpl.
  unfold of_subject at 2 4. case_bool_decide as E.
  - subst s. rewrite dict_get_set_eq, IH2. destruct (List.filter (of_subject (pn_subject r)) l); done.
  - rewrite dict_get_set_ne by done. by rewrite app_nil_r.
Qed.

Lemma group_elem l s g : (s, g) ∈ group_by_subject l -> g = List.filter (of_subject s) l.
Proof.
  destruct (group_by_subject_spec l) as [Hnd Hget]. intros H. apply dict_elem_get in H; [|done]. rewrite Hget in H.
  by destruct (List.filter (of_subject s) l); simplify_eq.
Qed.

Lemma group_of_elem l r : r ∈ l -> (pn_subject r, List.filter (of_subject (pn_subject r)) l) ∈ group_by_subject l.
Proof.
  intros Hr. destruct (group_by_subject_spec l) as [_ Hget]. apply dict_get_elem. rewrite Hget.
  destruct (List.filter (of_subject (pn_subject r)) l) eqn:E; [|done].
  rewrite filter_nil_iff in E. specialize (E r Hr). unfold of_subject in E. by rewrite bool_decide_eq_true_2 in E.
Qed.

Lemma sql_limit_prefix {A} n (l : list A) : sql_limit n l `prefix_of` l.
Proof. unfold sql_limit. destruct (n <? 0); [done|]. apply prefix_take. Qed.

Lemma filter_prefix {A} (f : A -> bool) l l' : l `prefix_of` l' -> List.filter f l `prefix_of` List.filter f l'.
Proof. intros [k ->]. rewrite List.filter_app. by eexists. Qed.

(** In an orderly table the order by id is the order of the rows. *)
Lemma ordered_by_id f rows : table_ok rows ->
  py_sorted (fun a b => a.(ob_outbox_id) <=? b.(ob_outbox_id)) (List.filter f rows) = List.filter f rows.
Proof.
  intros [H _ _]. apply py_sorted_id. apply (StronglySorted_filter _ f) in H.
  induction H as [|a l Hl IH Ha]; constructor; [done|]. eapply Forall_impl; [exact Ha|]. unfold id_lt. simpl. lia.
Qed.

(** What a batch holds of a subject is a prefix of its queue: a subject with an attempt in the future is left out. *)
Lemma pending_rows_prefix now limit rows s :
  table_ok rows -> List.filter (on_subject s) (pending_rows now limit rows) `prefix_of` List.filter (on_subject s) rows.
Proof.
  intros Hok. unfold pending_rows. rewrite ordered_by_id by done.
  set (ready := fun r : MemoryTurnOutboxRow => _).
  transitivity (List.filter (on_subject s) (List.filter ready rows)); [apply filter_prefix, sql_limit_prefix|].
  destruct (decide (s ∈ blocked_subjects now rows)) as [Hb|Hb].
  - replace (List.filter (on_subject s) (List.filter ready rows)) with (@nil MemoryTurnOutboxRow); [apply prefix_nil|].
    symmetry. apply filter_nil_iff. intros r [_ Hr]%elem_of_filter_list. unfold on_subject. apply bool_decide_eq_false_2. intros E.
    unfold ready in Hr. rewrite E, (bool_decide_eq_true_2 (s ∈ _)), andb_false_r in Hr; done.
  - rewrite filter_comm, filter_all; [done|]. intros r [Hr Hs]%elem_of_filter_list.
    unfold on_subject in Hs. apply bool_decide_eq_true in Hs. unfold ready. rewrite Hs, (bool_decide_eq_false_2 (s ∈ _)) by done.
    destruct Hok as [_ _ Hp]. rewrite Forall_forall in Hp.
    assert (unpublished r = true) as Hu by (unfold unpublished; apply bool_decide_eq_true_2; by apply Hp).
    rewrite Hu. simpl. rewrite andb_true_r. apply Z.leb_le. destruct (Z.le_gt_cases (ob_next_attempt_at r) now) as [|Hgt]; [done|].
    exfalso. apply Hb. rewrite <- Hs. unfold blocked_subjects. apply list_elem_of_fmap_2, elem_of_filter_list. split; [done|].
    rewrite Hu. simpl. lia.
Qed.

(** ** The refinement *)

Section Refinement.
Context (env : Environment) (batch_size : Z) (q0 : Queues).

Definition pending_item (r : PendingMemoryTurn) : QueueItem := (r.(pn_turn_id), r.(pn_payload), r.(pn_trace_id)).

(** What is left of a batch is a prefix of each queue. *)
Definition head_of_queue (rows : list MemoryTurnOutboxRow) (g : string * list PendingMemoryTurn) : Prop :=
  Forall (fun r => r.(pn_subject) = g.1) g.2 /\ map pending_item g.2 `prefix_of` queue_of g.1 rows.

(** The log is a run of the queues that ends where the table is, [groups] are still to be
    published, and the heads of the subjects [d] were delivered. *)
Record refined (groups : list (string * list PendingMemoryTurn)) (d : list string) (w : World) : Prop := {
  rf_queues : exists q, queue_trace q0 w.(w_log) q /\ (forall s, (q s).(ss_queue) = queue_of s w.(w_rows)) /\
                forall s, s ∈ d -> (q s).(ss_delivered) = true;
  rf_table : table_ok w.(w_rows);
  rf_subjects : NoDup groups.*1;
  rf_groups : Forall (head_of_queue w.(w_rows)) groups;
}.

Lemma refined_tick groups d rows t t' log : refined groups d (mkWorld rows t log) -> refined groups d (mkWorld rows t' log).
Proof. by intros [? ? ? ?]. Qed.

Lemma queue_of_insert json now rq rows s :
  has_turn rq.(eq_turn_id) rows = false ->
  queue_of s (insert_turn json now rq rows)
  = queue_of s rows ++ if bool_decide (rq.(eq_subject) = s) then [(rq.(eq_turn_id), json rq.(eq_payload), rq.(eq_trace_id))] else [].
Proof.
  intros Hn. unfold insert_turn. rewrite Hn, queue_of_app. f_equal. unfold queue_of, on_subject. simpl. by case_bool_decide.
Qed.

Lemma refined_accept groups d rq w : refined groups d w -> refined groups d (accept env rq w).
Proof.
  intros Hr. unfold accept. destruct (has_turn _ _) eqn:Hn; [done|].
  destruct Hr as [(q & Ht & Hq & Hd) Hok Hs Hg]. split; simpl.
  - eexists. split; [eapply trace_snoc; [done|apply step_accept]|]. split.
    + intros s. rewrite queue_of_insert by done. destruct (decide (s = eq_subject rq)) as [->|Hne].
      * rewrite fn_lookup_insert, bool_decide_eq_true_2 by done. simpl. by rewrite Hq.
      * rewrite fn_lookup_insert_ne by done. rewrite bool_decide_eq_false_2 by done. by rewrite Hq, app_nil_r.
    + intros s Hin. destruct (decide (s = eq_subject rq)) as [->|Hne].
      * rewrite fn_lookup_insert. simpl. auto.
      * rewrite fn_lookup_insert_ne by done. auto.
  - by apply table_ok_insert.
  - done.
  - eapply Forall_impl; [exact Hg|]. intros g [Hf Hp]. split; [done|]. rewrite queue_of_insert by done. by apply prefix_app_r.
Qed.

Lemma triple_await groups d : triple (refined groups d) (await_point env) (fun _ => refined groups d) (fun _ => refined groups d).
Proof.
  intros w Hw. unfold await_point. set (l := en_enqueued _ _).
  assert (forall l w, refined groups d w -> refined groups d (fold_left (fun w rq => accept env rq w) l w)) as Hl.
  { clear. induction l as [|rq l IH]; simpl; [done|]. intros w Hw. by apply IH, refined_accept. }
  specialize (Hl l w Hw). destruct (fold_left _ l w) as [rows t log]. case_goal; by apply (refined_tick _ _ _ t).
Qed.

Lemma refined_weaken groups d d' w : (forall s, s ∈ d' -> s ∈ d) -> refined groups d w -> refined groups d' w.
Proof. intros Hi [(q & Ht & Hq & Hd) ? ? ?]. split; [exists q; repeat split; auto|done..]. Qed.

Lemma refined_drop g groups d w : refined (g :: groups) d w -> refined groups d w.
Proof. intros [? ? Hs Hg]. apply NoDup_cons in Hs as [_ ?]. apply Forall_cons in Hg as [_ ?]. by split. Qed.

Lemma refined_forget groups d w : refined groups d w -> refined [] [] w.
Proof.
  intros H. apply (refined_weaken _ d); [by intros ? ?%elem_of_nil|].
  destruct H as [? ? _ _]. split; [done..|constructor|constructor].
Qed.

Lemma trace_same_groups groups d d' rows t log e q q' :
  refined groups d (mkWorld rows t log) -> queue_trace q0 log q -> queue_step q e q' ->
  (forall s, (q' s).(ss_queue) = queue_of s rows) -> (forall s, s ∈ d' -> (q' s).(ss_delivered) = true) ->
  refined groups d' (mkWorld rows t (log ++ [e])).
Proof. intros [_ ? ? ?] Ht He Hq Hd. split; [|done..]. exists q'. split; [by eapply trace_snoc|done]. Qed.

Lemma triple_publish s r rest groups d :
  triple (refined ((s, r :: rest) :: groups) d) (publish env (event_of r))
    (fun _ => refined ((s, r :: rest) :: groups) (s :: d)) (fun _ => refined ((s, r :: rest) :: groups) d).
Proof.
  unfold publish. eapply triple_bind; [apply triple_await|]. intros _ w Hw. unfold mgets, mbind_, log_, mmodify, mlift.
  destruct w as [rows t log]. pose proof Hw as [(q & Ht & Hq & Hd) _ _ Hg]. simpl in *.
  apply Forall_cons in Hg as [[Hs Hp] _]. simpl in *. apply Forall_cons in Hs as [Es _].
  destruct Hp as [k Hp]. rewrite <- Hq in Hp. simpl in Hp.
  set (ok := match en_publish env t (event_of r) with Ok _ => true | Err _ => false end).
  assert (queue_step q (Sent (event_of r) ok) (<[s := mkSubject (q s).(ss_queue) ((q s).(ss_delivered) || ok)]> q)) as He.
  { pose proof (step_send q (event_of r) ok (map pending_item rest ++ k)) as He. simpl in He. rewrite Es in He. apply He. by rewrite Hp. }
  assert (forall x, (<[s := mkSubject (q s).(ss_queue) ((q s).(ss_delivered) || ok)]> q x).(ss_queue) = queue_of x rows) as Hq'.
  { intros x. destruct (decide (x = s)) as [->|?]; [rewrite fn_lookup_insert|rewrite fn_lookup_insert_ne by done]; simpl; apply Hq. }
  assert (forall x, x ∈ d -> (<[s := mkSubject (q s).(ss_queue) ((q s).(ss_delivered) || ok)]> q x).(ss_delivered) = true) as Hd'.
  { intros x Hx. specialize (Hd x Hx). destruct (decide (x = s)) as [->|?]; [rewrite fn_lookup_insert|rewrite fn_lookup_insert_ne by done]; simpl; by rewrite ?Hd. }
  destruct (en_publish env t (event_of r)) eqn:E; eapply trace_same_groups; try done; subst ok.
  intros x [->|Hx]%elem_of_cons; [|by apply Hd']. rewrite fn_lookup_insert. simpl. apply orb_true_r.
Qed.

Lemma triple_mark_published s r rest groups :
  triple (refined ((s, r :: rest) :: groups) [s]) (mark_published env r)
    (fun _ => refined ((s, rest) :: groups) []) (fun _ => refined [] []).
Proof.
  unfold mark_published. eapply triple_bind with (Qm := fun _ => refined ((s, r :: rest) :: groups) [s]).
  { eapply triple_conseq; [done|apply triple_await|done|]. intros e w. apply refined_forget. }
  intros _. eapply triple_bind with (Qm := fun _ w => exists rows0, w.(w_rows) = delete_turn r.(pn_turn_id) rows0 /\
    refined ((s, r :: rest) :: groups) [s] (mkWorld rows0 w.(w_tick) w.(w_log))).
  { intros w Hw. exists w.(w_rows). by destruct w. }
  intros _. eapply triple_bind with (Qm := fun _ => refined ((s, rest) :: groups) []).
  - intros [rows t log] (rows0 & E & [(q & Ht & Hq & Hd) Hok Hs Hg]). simpl in *. subst rows.
    apply Forall_cons in Hg as [[Hsub [k Hp]] Hg]. simpl in *. apply Forall_cons in Hsub as [Es Hsub].
    apply NoDup_cons in Hs as [Hn Hs].
    destruct (queue_of_delete s rows0 _ _ _ _ Hok Hp) as [Hsame Hother]. split; simpl.
    + exists (<[s := mkSubject (map pending_item rest ++ k) false]> q). split.
      { eapply trace_snoc; [done|]. rewrite Es. eapply step_ack. specialize (Hd s). rewrite list_elem_of_singleton in Hd.
        specialize (Hd eq_refl). specialize (Hq s). rewrite Hp in Hq. destruct (q s). simpl in *. by subst. }
      split; [|by intros ? ?%elem_of_nil]. intros x. destruct (decide (x = s)) as [->|Hne].
      * by rewrite fn_lookup_insert, Hsame.
      * by rewrite fn_lookup_insert_ne, Hother.
    + by apply table_ok_filter.
    + by apply NoDup_cons.
    + constructor; [split; [done|]; simpl; rewrite Hsame; by eexists|]. rewrite Forall_forall in Hg |- *. intros g Hin.
      destruct (Hg g Hin) as [? ?]. split; [done|]. rewrite Hother; [done|]. intros E. apply Hn. rewrite <- E. by apply list_elem_of_fmap_2.
  - intros u. eapply triple_conseq; [done|apply triple_await|done|]. intros e w. apply refined_forget.
Qed.

Lemma triple_mark_failed groups t err :
  triple (refined groups []) (mark_failed env t err) (fun _ => refined groups []) (fun _ => refined groups []).
Proof.
  unfold mark_failed. eapply triple_bind; [apply triple_await|]. intros u. eapply triple_bind with (Qm := fun _ => refined groups []).
  { intros w Hw. done. }
  intros now. eapply triple_bind with (Qm := fun _ => refined groups []); [|intros v; apply triple_await].
  intros [rows tick log] [(q & Ht & Hq & Hd) Hok Hs Hg]. simpl in *. pose proof (fail_turn_same now t err rows) as Hf.
  split; simpl; [|by eapply same_turns_ok|done|].
  - exists q. split; [done|]. split; [|done]. intros x. by rewrite (same_turns_queue _ _ _ Hf).
  - eapply Forall_impl; [exact Hg|]. intros g [? ?]. split; [done|]. by rewrite (same_turns_queue _ _ _ Hf).
Qed.

Lemma triple_error_weaken {A} (P : World -> Prop) (m : M World A) Q groups d :
  triple P m Q (fun _ => refined groups d) -> triple P m Q (fun _ => refined [] []).
Proof. intros H w Hw. specialize (H w Hw). destruct (m w) as [[a|e] w']; [done|]. by eapply refined_forget. Qed.

Lemma triple_publish_rows s rows n groups :
  triple (refined ((s, rows) :: groups) []) (publish_rows env rows n) (fun _ => refined groups []) (fun _ => refined [] []).
Proof.
  revert n. induction rows as [|r rest IH]; intros n; simpl.
  - intros w Hw. by eapply refined_drop.
  - eapply triple_bind with (Qm := fun f => refined ((s, r :: rest) :: groups) (if f is Some _ then [] else [s])).
    + eapply triple_try.
      * eapply triple_bind; [apply triple_publish|]. intros ? w Hw. exact Hw.
      * intros e. simpl. destruct (is_exception e); intros w Hw; [exact Hw|]. by eapply refined_forget.
    + intros [e|].
      * eapply triple_bind; [eapply triple_error_weaken, triple_mark_failed|]. intros ? w Hw. by eapply refined_drop.
      * eapply triple_bind; [apply triple_mark_published|]. intros ?. apply IH.
Qed.

Lemma triple_publish_subjects groups n :
  triple (refined groups []) (publish_subjects env groups.*2 n) (fun _ => refined [] []) (fun _ => refined [] []).
Proof.
  revert n. induction groups as [|[s rows] groups IH]; intros n; simpl; [intros w Hw; exact Hw|].
  eapply triple_bind; [apply triple_publish_rows|]. intros m. apply IH.
Qed.

(** What is published is a prefix of the queues as they are when the batch is read; later
    arrivals only extend them. *)
Lemma batch_is_head now rows g :
  table_ok rows -> g ∈ group_by_subject (map to_pending (pending_rows now batch_size rows)) -> head_of_queue rows g.
Proof.
  intros Hok Hg. destruct g as [s g]. apply group_elem in Hg as ->. split; simpl.
  - apply Forall_forall. intros r [_ Hr]%elem_of_filter_list. by apply bool_decide_eq_true in Hr.
  - replace (map pending_item (List.filter (of_subject s) (map to_pending (pending_rows now batch_size rows))))
      with (map item_of (List.filter (on_subject s) (pending_rows now batch_size rows))).
    + destruct (pending_rows_prefix now batch_size rows s Hok) as [k Hk]. unfold queue_of. rewrite Hk, map_app. by eexists.
    + induction (pending_rows now batch_size rows) as [|r l IH]; [done|]. simpl. unfold of_subject, on_subject in *. simpl.
      case_bool_decide; simpl; [by rewrite IH|done].
Qed.

Lemma triple_dispatch_once :
  triple (refined [] []) (dispatch_once env batch_size) (fun _ => refined [] []) (fun _ => refined [] []).
Proof.
  unfold dispatch_once. eapply triple_bind with (Qm := fun l => refined (group_by_subject l) []); [|intros l; apply triple_publish_subjects].
  unfold pending_batch. eapply triple_bind with (Qm := fun _ => refined [] []); [intros w Hw; exact Hw|]. intros now.
  eapply triple_bind; [apply triple_await|]. intros ?.
  eapply triple_bind with (Qm := fun rows => refined (group_by_subject (map to_pending (pending_rows now batch_size rows))) []).
  - intros w Hw. simpl. pose proof Hw as [? Hok _ _]. split; [done|done| |].
    + apply group_by_subject_spec.
    + apply Forall_forall. intros g Hg. by eapply batch_is_head.
  - intros rows. eapply triple_bind; [eapply triple_error_weaken, triple_await|]. intros ? w Hw. exact Hw.
Qed.

Lemma triple_iteration :
  triple (refined [] []) (dispatcher_iteration env batch_size) (fun _ => refined [] []) (fun _ => refined [] []).
Proof.
  unfold dispatcher_iteration. eapply triple_bind with (Qm := fun _ => refined [] []).
  - eapply triple_try; [apply triple_dispatch_once|]. intros e. simpl. destruct (is_exception e); intros w Hw; exact Hw.
  - intros n. unfold mwhen. case_bool_decide; [apply triple_await|]. intros w Hw. exact Hw.
Qed.

Lemma triple_run n :
  triple (refined [] []) (run_dispatcher env batch_size n) (fun _ => refined [] []) (fun _ => refined [] []).
Proof.
  induction n as [|n IH]; simpl; [intros w Hw; exact Hw|]. eapply triple_bind; [apply triple_iteration|]. done.
Qed.
End Refinement.

Lemma refined_start t : refined empty_queues [] [] (mkWorld [] t []).
Proof. split; simpl; [|apply table_ok_nil|constructor|constructor]. exists empty_queues. repeat split; [constructor|]. by intros s ?%elem_of_nil. Qed.

Lemma refined_restarted env batch_size q0 ns w :
  refined q0 [] [] w -> refined q0 [] [] (restarted env batch_size ns w).
Proof.
  revert w. induction ns as [|n ns IH]; simpl; [done|]. intros w Hw. apply IH.
  pose proof (triple_run env batch_size q0 n w Hw) as H. by destruct (run_dispatcher env batch_size n w) as [[?|?] ?].
Qed.

(** C18: The outbox implements one FIFO queue per subject: whatever is enqueued, fails, is cancelled
    or restarted meanwhile, the log of enqueues, publications and acknowledgements is a run of
    the queues in which only the oldest turn of a subject is sent, and a turn leaves only after
    the bus took it; the table is the queues, with ids in order and one row per turn. *)
Theorem outbox_refines_queues env batch_size ns :
  let w := restarted env batch_size ns (mkWorld [] 0 []) in
  table_ok w.(w_rows) /\
  exists q, queue_trace empty_queues w.(w_log) q /\ forall s, (q s).(ss_queue) = queue_of s w.(w_rows).
Proof.
  destruct (refined_restarted env batch_size empty_queues ns _ (refined_start 0)) as [(q & ? & ? & _) ? _ _]. eauto.
Qed.

(** ** Enqueuing *)

(** A first enqueue adds the turn; a repeated one changes nothing, and raises unless it is identical. *)
Lemma enqueue_spec json eqb now rq rows :
  enqueue json eqb now rq (fun rows => rows) rows
  = (verify_enqueued eqb rq (insert_turn json now rq rows),
     if has_turn rq.(eq_turn_id) rows then rows else rows ++ [new_row json rows now rq]).
Proof. done. Qed.

(** ** Liveness *)

Lemma backoff_bounds n : 1 <= n -> 2 <= backoff_seconds n <= 60.
Proof.
  intros Hn. unfold backoff_seconds. split; [|lia]. apply Z.min_glb; [|lia].
  change 2 with (2 ^ 1) at 1. apply Z.pow_le_mono_r; lia.
Qed.

Section Liveness.
Context (env : Environment) (batch_size : Z) (T : nat).
Context (clock_monotone : forall i j, (i <= j)%nat -> env.(en_utc_now) i <= env.(en_utc_now) j).
Context (clock_unbounded : forall b, exists i, b <= env.(en_utc_now) i).
Context (quiet : forall i, (T <= i)%nat -> env.(en_enqueued) i = [] /\ env.(en_interrupt) i = None).
Context (bus_works : forall i e, (T <= i)%nat -> env.(en_publish) i e = Ok tt).
Context (batch_positive : 0 < batch_size).

(** The turns [rs] left the table and were acknowledged, and nothing else changed. *)
Record drained (rs : list PendingMemoryTurn) (w w' : World) : Prop := {
  dr_rows : w'.(w_rows) = List.filter (fun r => negb (bool_decide (r.(ob_turn_id) ∈ map pn_turn_id rs))) w.(w_rows);
  dr_tick : (w.(w_tick) <= w'.(w_tick))%nat;
  dr_log : exists l, w'.(w_log) = w.(w_log) ++ l /\ forall r, r ∈ rs -> Acked r.(pn_subject) r.(pn_turn_id) ∈ l;
}.

Lemma drained_none w rows t log : w = mkWorld rows t log -> forall t', (t <= t')%nat -> drained [] w (mkWorld rows t' log).
Proof.
  intros -> t' Ht. split; simpl; [by rewrite filter_all|done|].
  exists []. split; [by rewrite app_nil_r|]. by intros r ?%elem_of_nil.
Qed.

Lemma drained_app rs1 rs2 w w1 w2 : drained rs1 w w1 -> drained rs2 w1 w2 -> drained (rs1 ++ rs2) w w2.
Proof.
  intros [E1 T1 (l1 & L1 & A1)] [E2 T2 (l2 & L2 & A2)]. split; [|lia|].
  - rewrite E2, E1. clear. induction (w_rows w) as [|r rows IH]; [done|]. simpl. rewrite map_app.
    rewrite (bool_decide_ext (ob_turn_id r ∈ _ ++ _) _ (elem_of_app _ _ _)), bool_decide_or.
    case_bool_decide; simpl; [by rewrite map_app in IH|]. case_bool_decide; simpl; rewrite map_app in IH; by rewrite IH.
  - exists (l1 ++ l2). split; [by rewrite L2, L1, app_assoc|]. intros r [Hr|Hr]%elem_of_app; apply elem_of_app; auto.
Qed.

Lemma drained_same rs rs' w w' : (forall r, r ∈ rs <-> r ∈ rs') -> drained rs w w' -> drained rs' w w'.
Proof.
  intros Hrs [E Ht (l & L & A)]. split; [|done|].
  - rewrite E. clear E. assert (forall t, t ∈ map pn_turn_id rs <-> t ∈ map pn_turn_id rs') as H.
    { intros t. rewrite !list_elem_of_fmap. by setoid_rewrite Hrs. }
    induction (w_rows w) as [|r rows IH]; [done|]. simpl. rewrite (bool_decide_ext (ob_turn_id r ∈ map pn_turn_id rs) (ob_turn_id r ∈ map pn_turn_id rs') (H _)).
    by rewrite IH.
  - exists l. split; [done|]. intros r Hr. by apply A, Hrs.
Qed.

Lemma quiet_await rows t log : (T <= t)%nat -> await_point env (mkWorld rows t log) = (Ok tt, mkWorld rows (S t) log).
Proof. intros Ht. unfold await_point. simpl. destruct (quiet t Ht) as [-> ->]. done. Qed.

Lemma quiet_publish_rows rs : forall n w, (T <= w.(w_tick))%nat ->
  exists m w', publish_rows env rs n w = (Ok m, w') /\ drained rs w w'.
Proof.
  induction rs as [|r rs IH]; intros n [rows t log] Ht; simpl in *.
  - exists n. eexists. split; [done|]. by eapply drained_none.
  - unfold publish, mark_published, mtry, mbind_, mgets, log_, mmodify, mlift, mret_, update_rows.
    rewrite quiet_await by done. simpl. rewrite bus_works by lia. simpl.
    rewrite quiet_await by lia. simpl. rewrite quiet_await by lia. simpl.
    destruct (IH (S n) (mkWorld (delete_turn (pn_turn_id r) rows) (S (S (S t)))
                ((log ++ [Sent (event_of r) true]) ++ [Acked (pn_subject r) (pn_turn_id r)]))) as (m & w' & E & Hd); [simpl; lia|].
    exists m, w'. split; [exact E|]. apply (drained_app [r] rs) with (2 := Hd). split; simpl; [|lia|].
    + unfold delete_turn. clear. induction rows as [|x rows IH']; [done|]. simpl.
      rewrite (bool_decide_ext (ob_turn_id x ∈ [pn_turn_id r]) (ob_turn_id x = pn_turn_id r)) by apply list_elem_of_singleton.
      by rewrite IH'.
    + eexists. split; [by rewrite <- app_assoc|]. intros x ->%list_elem_of_singleton. set_solver.
Qed.

Lemma quiet_publish_subjects gs : forall n w, (T <= w.(w_tick))%nat ->
  exists m w', publish_subjects env gs n w = (Ok m, w') /\ drained (List.concat gs) w w'.
Proof.
  induction gs as [|g gs IH]; intros n [rows t log] Ht; simpl in *.
  - exists n. eexists. split; [done|]. by eapply drained_none.
  - destruct (quiet_publish_rows g n (mkWorld rows t log) Ht) as (m & w1 & E1 & D1). unfold mbind_. rewrite E1.
    destruct (IH m w1) as (m' & w2 & E2 & D2); [destruct D1; simpl in *; lia|].
    exists m', w2. split; [done|]. by eapply drained_app.
Qed.

Lemma group_concat_elem l r : r ∈ List.concat (group_by_subject l).*2 <-> r ∈ l.
Proof.
  rewrite list_elem_of_In, in_concat. setoid_rewrite <- list_elem_of_In. split.
  - intros (g & Hg & Hr). apply list_elem_of_fmap in Hg as ([s g'] & -> & Hg). apply group_elem in Hg. simpl in Hr.
    rewrite Hg in Hr. by apply elem_of_filter_list in Hr as [? _].
  - intros Hr. exists (List.filter (of_subject (pn_subject r)) l). split.
    + pose proof (group_of_elem _ _ Hr) as H. by apply (list_elem_of_fmap_2 snd) in H.
    + apply elem_of_filter_list. split; [done|]. unfold of_subject. by apply bool_decide_eq_true_2.
Qed.

Definition batch_at (w : World) : list PendingMemoryTurn :=
  map to_pending (pending_rows (env.(en_utc_now) w.(w_tick)) batch_size w.(w_rows)).

Lemma quiet_iteration w : (T <= w.(w_tick))%nat ->
  exists w', dispatcher_iteration env batch_size w = (Ok tt, w') /\ drained (batch_at w) w w' /\ (w.(w_tick) < w'.(w_tick))%nat.
Proof.
  destruct w as [rows t log]. simpl. intros Ht. unfold dispatcher_iteration, dispatch_once, pending_batch, now_.
  unfold mtry, mbind_, mgets, mret_. simpl. rewrite quiet_await by done. simpl. rewrite quiet_await by lia. simpl.
  set (batch := map to_pending (pending_rows (en_utc_now env t) batch_size rows)).
  destruct (quiet_publish_subjects (group_by_subject batch).*2 0 (mkWorld rows (S (S t)) log)) as (m & w' & E & D); [simpl; lia|].
  rewrite E. apply (drained_same _ batch) in D; [|intros r; apply group_concat_elem].
  assert (drained batch (mkWorld rows t log) w') as D' by (destruct D as [? ? ?]; split; simpl in *; [done|lia|done]).
  destruct D as [_ Ht' _]. simpl in Ht'. unfold mwhen. case_bool_decide; [|exists w'; repeat split; [apply D'..|lia]].
  destruct w' as [rows' t' log']. rewrite quiet_await by (simpl in *; lia). eexists. split; [done|]. simpl in *. split; [|lia].
  destruct D' as [? ? ?]. split; simpl in *; [done|lia|done].
Qed.

(** What a quiet run may do: rows only leave, acknowledged. *)
Record progress (w w' : World) : Prop := {
  pg_tick : (w.(w_tick) <= w'.(w_tick))%nat;
  pg_ok : table_ok w'.(w_rows);
  pg_sub : forall r, r ∈ w'.(w_rows) -> r ∈ w.(w_rows);
  pg_log : exists l, w'.(w_log) = w.(w_log) ++ l /\
    forall r, r ∈ w.(w_rows) -> r ∈ w'.(w_rows) \/ Acked r.(ob_subject) r.(ob_turn_id) ∈ l;
}.

Lemma progress_refl w : table_ok w.(w_rows) -> progress w w.
Proof. intros Hok. split; [done..|]. exists []. split; [by rewrite app_nil_r|]. auto. Qed.

Lemma progress_trans w1 w2 w3 : progress w1 w2 -> progress w2 w3 -> progress w1 w3.
Proof.
  intros [T1 _ S1 (l1 & L1 & A1)] [T2 O2 S2 (l2 & L2 & A2)]. split; [lia|done|auto|].
  exists (l1 ++ l2). split; [by rewrite L2, L1, app_assoc|]. intros r Hr. rewrite elem_of_app.
  destruct (A1 r Hr) as [H|H]; [|auto]. destruct (A2 r H); auto.
Qed.

Lemma pending_rows_elem now limit rows r : r ∈ pending_rows now limit rows -> r ∈ rows.
Proof.
  unfold pending_rows. intros H. destruct (sql_limit_prefix limit (py_sorted (fun a b => a.(ob_outbox_id) <=? b.(ob_outbox_id))
    (List.filter (fun r => unpublished r && (r.(ob_next_attempt_at) <=? now) && negb (bool_decide (r.(ob_subject) ∈ blocked_subjects now rows))) rows))) as [k Hk].
  assert (r ∈ py_sorted (fun a b => a.(ob_outbox_id) <=? b.(ob_outbox_id)) (List.filter (fun r => unpublished r && (r.(ob_next_attempt_at) <=? now)
    && negb (bool_decide (r.(ob_subject) ∈ blocked_subjects now rows))) rows)) as H' by (rewrite Hk; apply elem_of_app; by left).
  rewrite py_sorted_perm in H'. by apply elem_of_filter_list in H' as [? _].
Qed.

Lemma drained_progress w w' : table_ok w.(w_rows) -> drained (batch_at w) w w' -> progress w w'.
Proof.
  intros Hok [E Ht (l & L & A)]. split; [done| | |].
  - rewrite E. by apply table_ok_filter.
  - intros r. rewrite E. by intros [? _]%elem_of_filter_list.
  - exists l. split; [done|]. intros r Hr. rewrite E.
    destruct (decide (ob_turn_id r ∈ map pn_turn_id (batch_at w))) as [Hin|Hn].
    + right. unfold batch_at in Hin. rewrite map_map in Hin. apply list_elem_of_fmap in Hin as (x & Ex & Hx). simpl in Ex.
      assert (r = x) as ->; [|apply (A (to_pending x)); by apply list_elem_of_fmap_2].
      apply pending_rows_elem in Hx. destruct Hok as [_ Hnd _]. by eapply NoDup_map_elem.
    + left. apply elem_of_filter_list. split; [done|]. by rewrite bool_decide_eq_false_2.
Qed.

Lemma run_dispatcher_app a b w w1 :
  run_dispatcher env batch_size a w = (Ok tt, w1) -> run_dispatcher env batch_size (a + b) w = run_dispatcher env batch_size b w1.
Proof.
  revert w. induction a as [|a IH]; intros w; simpl; [by intros [= ->]|]. unfold mbind_.
  destruct (dispatcher_iteration env batch_size w) as [[[]|e] w2]; [|done]. apply IH.
Qed.

(** Waiting: any number of iterations goes through and moves the clock. *)
Lemma quiet_run k : forall w, (T <= w.(w_tick))%nat -> table_ok w.(w_rows) ->
  exists w', run_dispatcher env batch_size k w = (Ok tt, w') /\ progress w w' /\ (w.(w_tick) + k <= w'.(w_tick))%nat.
Proof.
  induction k as [|k IH]; intros w Ht Hok; simpl.
  - exists w. split; [done|]. split; [by apply progress_refl|lia].
  - destruct (quiet_iteration w Ht) as (w1 & E1 & D1 & H1). apply drained_progress in D1; [|done].
    destruct (IH w1) as (w2 & E2 & P2 & H2); [lia|apply D1|]. exists w2. unfold mbind_. rewrite E1. split; [done|].
    split; [by eapply progress_trans|lia].
Qed.

Definition ready (w : World) : Prop := Forall (fun r => r.(ob_next_attempt_at) <= env.(en_utc_now) w.(w_tick)) w.(w_rows).

Lemma ready_progress w w' : progress w w' -> ready w -> ready w'.
Proof.
  intros [Ht _ Hs _] Hr. unfold ready in *. rewrite Forall_forall in Hr |- *. intros r Hin.
  specialize (Hr r (Hs r Hin)). specialize (clock_monotone _ _ Ht). lia.
Qed.

(** Once every attempt is due, the oldest turn is in the batch. *)
Lemma ready_head now r rest : table_ok (r :: rest) -> Forall (fun r => r.(ob_next_attempt_at) <= now) (r :: rest) ->
  r ∈ pending_rows now batch_size (r :: rest).
Proof.
  intros Hok Hr. unfold pending_rows. rewrite ordered_by_id by done. rewrite filter_all.
  - unfold sql_limit. destruct (Z.ltb_spec batch_size 0); [lia|]. destruct (Z.to_nat batch_size) eqn:E; [lia|]. by left.
  - intros x Hx. destruct Hok as [_ _ Hp]. rewrite Forall_forall in Hp, Hr. apply andb_true_iff. split; [apply andb_true_iff; split|].
    + unfold unpublished. by apply bool_decide_eq_true_2, Hp.
    + apply Z.leb_le. by apply Hr.
    + apply negb_true_iff, bool_decide_eq_false_2. unfold blocked_subjects. intros (y & _ & [Hy Hl]%elem_of_filter_list)%list_elem_of_fmap.
      apply andb_true_iff in Hl as [_ Hl]. specialize (Hr y Hy). simpl in Hr. lia.
Qed.

Lemma ready_run : forall n w, length w.(w_rows) = n -> (T <= w.(w_tick))%nat -> table_ok w.(w_rows) -> ready w ->
  exists k w', run_dispatcher env batch_size k w = (Ok tt, w') /\ progress w w' /\ w'.(w_rows) = [].
Proof.
  intros n. induction (lt_wf n) as [n _ IH]. intros w Hn Ht Hok Hr. destruct (w_rows w) as [|r rest] eqn:Er.
  - exists 0%nat, w. split; [done|]. split; [apply progress_refl; by rewrite Er|done].
  - destruct (quiet_iteration w Ht) as (w1 & E1 & D1 & H1). rewrite <- Er in Hok.
    pose proof (drained_progress _ _ Hok D1) as P1.
    assert (length (w_rows w1) < n)%nat as Hlt.
    { destruct D1 as [-> _ _]. unfold batch_at. rewrite Er in Hok |- *. unfold ready in Hr. rewrite Er in Hr.
      pose proof (ready_head _ _ _ Hok Hr) as Hh. apply (list_elem_of_fmap_2 to_pending) in Hh.
      apply (list_elem_of_fmap_2 pn_turn_id) in Hh. simpl List.filter. simpl in Hh. rewrite bool_decide_eq_true_2 by exact Hh.
      simpl. subst n. simpl. apply le_n_S, List.filter_length_le. }
    destruct (IH _ Hlt w1 eq_refl) as (k & w2 & E2 & P2 & Hnil); [destruct P1; lia|apply P1|by eapply ready_progress|].
    exists (S k), w2. simpl. unfold mbind_. rewrite E1. split; [done|]. split; [by eapply progress_trans|done].
Qed.

Lemma drains w : (T <= w.(w_tick))%nat -> table_ok w.(w_rows) ->
  exists k w', run_dispatcher env batch_size k w = (Ok tt, w') /\ progress w w' /\ w'.(w_rows) = [].
Proof.
  intros Ht Hok. destruct (clock_unbounded (foldr (fun r m => Z.max r.(ob_next_attempt_at) m) 0 w.(w_rows))) as [i Hi].
  destruct (quiet_run i w Ht Hok) as (w1 & E1 & P1 & H1).
  destruct (ready_run _ w1 eq_refl) as (k & w2 & E2 & P2 & Hnil); [destruct P1; lia|apply P1| |].
  - apply Forall_forall. intros r Hr. apply (pg_sub _ _ P1) in Hr.
    assert (ob_next_attempt_at r <= foldr (fun r m => Z.max r.(ob_next_attempt_at) m) 0 w.(w_rows)) as Hle.
    { clear -Hr. induction (w_rows w) as [|x l IH]; [by apply elem_of_nil in Hr|]. simpl.
      apply elem_of_cons in Hr as [->|Hr]; [lia|]. specialize (IH Hr). lia. }
    assert (en_utc_now env i <= en_utc_now env (w_tick w1)) by (apply clock_monotone; lia). lia.
  - exists (i + k)%nat, w2. rewrite (run_dispatcher_app _ _ _ _ E1). split; [done|]. split; [by eapply progress_trans|done].
Qed.
End Liveness.

(** C19: Once the bus works again, nothing is raised and no turn arrives any more, the dispatcher
    empties the table in finitely many iterations, whatever failed and was cancelled before, and
    acknowledges every turn that was pending; the clock only has to be monotone and unbounded. *)
Theorem every_turn_is_delivered env batch_size T ns :
  (forall i j, (i <= j)%nat -> env.(en_utc_now) i <= env.(en_utc_now) j) ->
  (forall b, exists i, b <= env.(en_utc_now) i) ->
  (forall i, (T <= i)%nat -> env.(en_enqueued) i = [] /\ env.(en_interrupt) i = None) ->
  (forall i e, (T <= i)%nat -> env.(en_publish) i e = Ok tt) ->
  0 < batch_size ->
  let w := restarted env batch_size ns (mkWorld [] 0 []) in
  (T <= w.(w_tick))%nat ->
  exists n w', run_dispatcher env batch_size n w = (Ok tt, w') /\ w'.(w_rows) = [] /\
    exists l, w'.(w_log) = w.(w_log) ++ l /\ forall r, r ∈ w.(w_rows) -> Acked r.(ob_subject) r.(ob_turn_id) ∈ l.
Proof.
  intros Hm Hu Hq Hb Hp w Ht.
  pose proof (rf_table _ _ _ _ (refined_restarted env batch_size empty_queues ns _ (refined_start 0))) as Hok.
  destruct (drains env batch_size T Hm Hu Hq Hb Hp w Ht Hok) as (k & w' & E & [_ _ _ (l & L & A)] & Hnil).
  exists k, w'. split; [done|]. split; [done|]. exists l. split; [done|]. intros r Hr.
  destruct (A r Hr) as [Hin|?]; [|done]. rewrite Hnil in Hin. by apply elem_of_nil in Hin.
Qed.

(** Three turns of two conversations arrive; the bus is down at first. *)
Definition sample_request (subject t : string) : EnqueueRequest := mkEnqueue t "owner" "companion" subject [("turn_id", VStr t)] (Some t).
Definition sample_environment : Environment :=
  mkEnvironment (fun n => Z.of_nat n * MICROS)
    (fun n => if bool_decide (n = 0%nat) then [sample_request "a" "t1"; sample_request "a" "t2"; sample_request "b" "t3"] else [])
    (fun n => if bool_decide (n = 4%nat) then Some Cancelled else None)
    (fun n _ => if bool_decide (n < 10)%nat then Err (PyError "ConnectionError" "down") else Ok tt) (fun p => p).

(** The first process is idle, the second cancelled while it waits, the third finds the bus down. *)
Example sample_backlog :
  let w := restarted sample_environment 2 [1; 1; 1]%nat (mkWorld [] 0 []) in
  map (fun r => (r.(ob_turn_id), r.(ob_attempt_count))) w.(w_rows) = [("t1", 1); ("t2", 0); ("t3", 0)] /\ (10 <= w.(w_tick))%nat.
Proof. split; [vm_compute; reflexivity|]. apply Nat.leb_le. vm_compute. reflexivity. Qed.

Lemma every_turn_is_delivered_witness :
  let w := restarted sample_environment 2 [1; 1; 1]%nat (mkWorld [] 0 []) in
  exists n w', run_dispatcher sample_environment 2 n w = (Ok tt, w') /\ w'.(w_rows) = [] /\
    exists l, w'.(w_log) = w.(w_log) ++ l /\ forall r, r ∈ w.(w_rows) -> Acked r.(ob_subject) r.(ob_turn_id) ∈ l.
Proof.
  apply (every_turn_is_delivered sample_environment 2 10 [1; 1; 1]%nat).
  - intros i j H. unfold sample_environment, MICROS. cbn [en_utc_now]. lia.
  - intros b. exists (Z.to_nat b). unfold sample_environment, MICROS. cbn [en_utc_now]. lia.
  - intros i H. unfold sample_environment. cbn [en_enqueued en_interrupt]. rewrite !bool_decide_eq_false_2 by lia. done.
  - intros i e H. unfold sample_environment. cbn [en_publish]. rewrite bool_decide_eq_false_2 by lia. done.
  - lia.
  - apply Nat.leb_le. vm_compute. reflexivity.
Defined.

(** A dispatcher that publishes between the commit and the check of [enqueue] makes it raise
    for a turn that was delivered. *)
Example delivered_before_the_check :
  let rq := sample_request "a" "t1" in
  (enqueue (fun p => p) (fun _ _ => true) 0 rq (delete_turn "t1") []).1
  = Err (PyError "RuntimeError" "memory turn enqueue lost after commit: t1").
Proof. reflexivity. Qed.
