(* ===== verification/AuditOutbox.v ===== *)
(** * The audit outbox: [AgentAuditOutbox] of [infra/persistence/runtime_store.py] and
      [infra/persistence/audit_dispatch.py].

    Rows are written in the transaction of the change they report; the dispatcher hands
    batches of them to the SDK's publisher and marks what was acknowledged. *)

From S2P Require Import Prelude CoreTypes Effects.
#[local] Open Scope eff_scope.

(** Times are microseconds of UTC. *)
Record AgentAuditOutboxRow := mkAuditRow {
  au_outbox_id : Z;
  au_event_id : string;
  au_category : string;
  au_owner_id : option string;
  au_subject_type : string;
  au_subject_id : string;
  au_action : string;
  au_outcome : string;
  au_severity : string;
  au_reason : option string;
  au_trace_id : option string;
  au_payload : list (string * pyval);
  au_occurred_at : Z;
  au_attempt_count : Z;
  au_next_attempt_at : Z;
  au_last_error : string;
  au_published_at : option Z;
}.

(** A row as [build_row] makes it; the table numbers it. *)
Record AuditEvent := mkAuditEvent {
  ae_event_id : string;
  ae_category : string;
  ae_owner_id : option string;
  ae_subject_type : string;
  ae_subject_id : string;
  ae_action : string;
  ae_outcome : string;
  ae_severity : string;
  ae_reason : option string;
  ae_trace_id : option string;
  ae_payload : list (string * pyval);
  ae_occurred_at : Z;
}.

(** [build_row]: [fresh] is the hexadecimal of a new UUID, [now] the clock. *)
Definition build_row (fresh : string) (now : Z) (category subject_type subject_id action : string) (owner_id : option string)
  (outcome severity : string) (reason trace_id : option string) (payload : option (list (string * pyval)))
  (occurred_at : option Z) (event_id : option string) : AuditEvent :=
  mkAuditEvent (opt_or event_id ("audit-" +:+ fresh)%string) category owner_id subject_type subject_id action outcome severity
    reason trace_id (default [] payload) (default now occurred_at).

Definition next_audit_id (rows : list AgentAuditOutboxRow) : Z := 1 + foldr (fun r m => Z.max r.(au_outbox_id) m) 0 rows.

(** [session.add(row)]; [None] is the violation of the unique event id. *)
Definition add_audit (now : Z) (e : AuditEvent) (rows : list AgentAuditOutboxRow) : option (list AgentAuditOutboxRow) :=
  if existsb (fun r => bool_decide (r.(au_event_id) = e.(ae_event_id))) rows then None
  else Some (rows ++ [mkAuditRow (next_audit_id rows) e.(ae_event_id) e.(ae_category) e.(ae_owner_id) e.(ae_subject_type)
         e.(ae_subject_id) e.(ae_action) e.(ae_outcome) e.(ae_severity) e.(ae_reason) e.(ae_trace_id) e.(ae_payload)
         e.(ae_occurred_at) 0 now "" None]).

(** [_audit_envelope]; the producer, its schema and the classification are constants. *)
Record AuditEnvelope := mkEnvelope { av_producer_seq : Z; av_event : AuditEvent }.
Definition audit_envelope (r : AgentAuditOutboxRow) : AuditEnvelope :=
  mkEnvelope r.(au_outbox_id)
    (mkAuditEvent r.(au_event_id) r.(au_category) r.(au_owner_id) r.(au_subject_type) r.(au_subject_id) r.(au_action)
       r.(au_outcome) r.(au_severity) r.(au_reason) r.(au_trace_id) r.(au_payload) r.(au_occurred_at)).

Record PendingAuditBatch := mkAuditBatch { ab_events : list AuditEnvelope; ab_max_attempt_count : Z }.

Definition audit_unpublished (r : AgentAuditOutboxRow) : bool := bool_decide (r.(au_published_at) = None).

Definition audit_pending (now : Z) (limit : nat) (rows : list AgentAuditOutboxRow) : list AgentAuditOutboxRow :=
  take limit (py_sorted (fun a b => a.(au_outbox_id) <=? b.(au_outbox_id))
    (List.filter (fun r => audit_unpublished r && (r.(au_next_attempt_at) <=? now)) rows)).

(** [max((...), default=0)] *)
Definition max_or_zero (l : list Z) : Z := match l with [] => 0 | x :: l' => fold_left Z.max l' x end.

Definition audit_batch (now : Z) (limit : nat) (rows : list AgentAuditOutboxRow) : PendingAuditBatch :=
  let rows := audit_pending now limit rows in
  mkAuditBatch (map audit_envelope rows) (max_or_zero (map au_attempt_count rows)).

Definition set_published (at_ : Z) (r : AgentAuditOutboxRow) : AgentAuditOutboxRow :=
  mkAuditRow r.(au_outbox_id) r.(au_event_id) r.(au_category) r.(au_owner_id) r.(au_subject_type) r.(au_subject_id)
    r.(au_action) r.(au_outcome) r.(au_severity) r.(au_reason) r.(au_trace_id) r.(au_payload) r.(au_occurred_at)
    r.(au_attempt_count) r.(au_next_attempt_at) "" (Some at_).

Definition set_attempt (next : Z) (error : string) (r : AgentAuditOutboxRow) : AgentAuditOutboxRow :=
  mkAuditRow r.(au_outbox_id) r.(au_event_id) r.(au_category) r.(au_owner_id) r.(au_subject_type) r.(au_subject_id)
    r.(au_action) r.(au_outcome) r.(au_severity) r.(au_reason) r.(au_trace_id) r.(au_payload) r.(au_occurred_at)
    (r.(au_attempt_count) + 1) next (py_take 2000 error) r.(au_published_at).

(** [UPDATE ... WHERE event_id IN ids AND published_at IS NULL] and its row count *)
Definition update_where (ids : gset string) (f : AgentAuditOutboxRow -> AgentAuditOutboxRow) (rows : list AgentAuditOutboxRow)
  : Z * list AgentAuditOutboxRow :=
  let hit r := bool_decide (r.(au_event_id) ∈ ids) && audit_unpublished r in
  (Z.of_nat (length (List.filter hit rows)), map (fun r => if hit r then f r else r) rows).

Definition audit_mark_published (ids : gset string) (now : Z) (rows : list AgentAuditOutboxRow) : Z * list AgentAuditOutboxRow :=
  if bool_decide (ids = ∅) then (0, rows) else update_where ids (set_published now) rows.

Definition audit_mark_failed (ids : gset string) (error : string) (retry_after now : Z) (rows : list AgentAuditOutboxRow)
  : Z * list AgentAuditOutboxRow :=
  if bool_decide (ids = ∅) then (0, rows) else update_where ids (set_attempt (now + retry_after) error) rows.

Definition purge_published (before : Z) (rows : list AgentAuditOutboxRow) : Z * list AgentAuditOutboxRow :=
  let old r := match r.(au_published_at) with Some t => t <? before | None => false end in
  (Z.of_nat (length (List.filter old rows)), List.filter (fun r => negb (old r)) rows).

(** ** The dispatcher *)

Record AuditWorld := mkAuditWorld { aw_rows : list AgentAuditOutboxRow; aw_tick : nat }.

Record AuditEnvironment := mkAuditEnvironment {
  an_utc_now : nat -> Z;
  (** the events other transactions add during the [n]-th wait *)
  an_added : nat -> list AuditEvent;
  (** the ids the SDK's publisher acknowledges *)
  an_publish_many : nat -> list AuditEnvelope -> res (gset string);
}.

Section AuditDispatcher.
Context (env : AuditEnvironment) (batch_size : nat).

Definition audit_wait : M AuditWorld unit := mmodify (fun w =>
  mkAuditWorld (fold_left (fun rows e => default rows (add_audit (env.(an_utc_now) (S w.(aw_tick))) e rows)) (env.(an_added) w.(aw_tick)) w.(aw_rows))
    (S w.(aw_tick))).
Definition audit_now : M AuditWorld Z := mgets (fun w => env.(an_utc_now) w.(aw_tick)).
Definition audit_update (f : list AgentAuditOutboxRow -> Z * list AgentAuditOutboxRow) : M AuditWorld unit :=
  mmodify (fun w => mkAuditWorld (f w.(aw_rows)).2 w.(aw_tick)).

Definition audit_second : Z := 1000000.
Definition retry_after_of (max_attempts : Z) : Z := Z.min (2 ^ Z.min (Z.max max_attempts 0) 16) 60 * audit_second.

(** [dispatch_once] *)
Definition audit_dispatch_once : M AuditWorld Z :=
  now <-- audit_now ;;
  audit_wait ;;;
  batch <-- mgets (fun w => audit_batch now batch_size w.(aw_rows)) ;;
  match batch.(ab_events) with
  | [] => mret_ 0
  | _ =>
      let event_ids : gset string := list_to_set (map (fun e => e.(av_event).(ae_event_id)) batch.(ab_events)) in
      let retry_after := retry_after_of batch.(ab_max_attempt_count) in
      tick <-- mgets aw_tick ;;
      audit_wait ;;;
      match env.(an_publish_many) tick batch.(ab_events) with
      | Err e =>
          if is_exception e then
            now <-- audit_now ;;
            audit_update (audit_mark_failed event_ids (exn_type e +:+ ": " +:+ exn_str e)%string retry_after now) ;;;
            mret_ 0
          else mraise e
      | Ok acknowledged =>
          let acknowledged := acknowledged ∩ event_ids in
          now <-- audit_now ;;
          audit_update (audit_mark_published acknowledged now) ;;;
          audit_wait ;;;
          let missing := event_ids ∖ acknowledged in
          now <-- audit_now ;;
          audit_update (audit_mark_failed missing "transport did not acknowledge event" retry_after now) ;;;
          mret_ (Z.of_nat (size acknowledged))
      end
  end.

Definition PUBLISHED_RETENTION : Z := 24 * 60 * 60 * audit_second.
Definition PURGE_INTERVAL : Z := 60 * 60 * audit_second.

(** One iteration of [run_agent_audit_dispatcher]: the next purge, and whether it sleeps.
    Its monotonic clock is the parameter. *)
Definition audit_iteration (monotonic : nat -> Z) (next_purge : Z) : M AuditWorld (Z * bool) :=
  mtry
    (published <-- audit_dispatch_once ;;
     now <-- mgets (fun w => monotonic w.(aw_tick)) ;;
     next <-- (if next_purge <=? now then
                 wall <-- audit_now ;;
                 audit_update (purge_published (wall - PUBLISHED_RETENTION)) ;;;
                 mret_ (now + PURGE_INTERVAL)
               else mret_ next_purge) ;;
     mret_ (next, bool_decide (published = 0)))
    (fun e => if is_exception e then Some (mret_ (next_purge, true)) else None).
End AuditDispatcher.

(** ** No event is lost *)

Section AuditFacts.
Context (env : AuditEnvironment) (batch_size : nat).

Definition acknowledged (id : string) : Prop :=
  exists tick events ids, env.(an_publish_many) tick events = Ok ids /\ id ∈ ids.

(** An event stays what it is, and becomes published only when the transport acknowledged it. *)
Definition kept (w w' : AuditWorld) : Prop :=
  forall r, r ∈ w.(aw_rows) -> exists r', r' ∈ w'.(aw_rows) /\ audit_envelope r' = audit_envelope r /\
    (au_published_at r' = au_published_at r \/ acknowledged (au_event_id r)).

#[global] Instance kept_preorder : PreOrder kept.
Proof.
  split; [intros w r Hr; eauto|]. intros w1 w2 w3 H1 H2 r Hr.
  destruct (H1 r Hr) as (r2 & Hr2 & E2 & P2). destruct (H2 r2 Hr2) as (r3 & Hr3 & E3 & P3).
  exists r3. split; [done|]. split; [congruence|].
  assert (au_event_id r = au_event_id r2) as E by (unfold audit_envelope in E2; congruence). rewrite E in *.
  destruct P3 as [P3|]; [|by right]. destruct P2 as [P2|]; [left; congruence|by right].
Qed.

Lemma kept_update ids f tick rows :
  (forall r, audit_envelope (f r) = audit_envelope r) ->
  (forall r, au_published_at (f r) = au_published_at r \/ (au_event_id r ∈ ids -> acknowledged (au_event_id r))) ->
  kept (mkAuditWorld rows tick) (mkAuditWorld (update_where ids f rows).2 tick).
Proof.
  intros He Hp r Hr. simpl in *. eexists. split; [by apply list_elem_of_fmap_2|]. simpl. case_bool_decide; simpl; [|by eauto].
  destruct (audit_unpublished r); [|by eauto]. split; [apply He|]. destruct (Hp r); auto.
Qed.

Lemma kept_published ids now : (forall id, id ∈ ids -> acknowledged id) -> preserves kept (audit_update (audit_mark_published ids now)).
Proof.
  intros Ha [rows tick]. unfold audit_update, audit_mark_published. simpl. case_bool_decide; [simpl; reflexivity|].
  apply kept_update; [done|]. intros r. right. apply Ha.
Qed.

Lemma kept_failed ids error retry now : preserves kept (audit_update (audit_mark_failed ids error retry now)).
Proof.
  intros [rows tick]. unfold audit_update, audit_mark_failed. simpl. case_bool_decide; [simpl; reflexivity|].
  apply kept_update; [done|]. intros r. by left.
Qed.

Lemma kept_wait : preserves kept (audit_wait env).
Proof.
  intros [rows tick]. simpl. generalize (an_added env tick) as l. intros l.
  intros r Hr. simpl in *. exists r. split; [|eauto]. revert rows Hr.
  induction l as [|e l IH]; simpl; [done|]. intros rows Hr. apply IH. unfold add_audit.
  destruct (existsb _ _); simpl; [done|]. apply elem_of_app. by left.
Qed.

(** A dispatch loses no event, changes none, and publishes only what was acknowledged. *)
Lemma audit_dispatch_keeps : preserves kept (audit_dispatch_once env batch_size).
Proof.
  pose proof kept_wait. pose proof kept_failed. unfold audit_dispatch_once, audit_now. preserve; auto.
  apply kept_published. intros id [Hid _]%elem_of_intersection. by repeat eexists.
Qed.

Lemma audit_retry_bounds n : 0 <= n -> 1 * audit_second <= retry_after_of n <= 60 * audit_second.
Proof.
  intros Hn. unfold retry_after_of, audit_second. assert (1 <= 2 ^ Z.min (Z.max n 0) 16); [|lia].
  change 1 with (2 ^ 0). apply Z.pow_le_mono_r; lia.
Qed.
End AuditFacts.
