(* ===== verification/LongTasks.v ===== *)
(** * Long-running tasks: [core/types/long_task.py] and the long-task half of
      [infra/persistence/agent_runtime.py].

    A task is a record kept twice in its row: whole, as a JSON document, and in the columns
    that queries use. Every change of the store reads the row, maps the record, writes both
    back and reports a change into a terminal status, in one transaction. *)

From coqutil Require Export Datatypes.RecordSetters.
Export DoubleBraceUpdate.
From S2P Require Import Prelude CoreTypes AuditOutbox.

(** ** Statuses *)

Inductive LongTaskStatus :=
  | LT_ACCEPTED | LT_CREATED | LT_QUEUED | LT_SUBMITTED | LT_RUNNING | LT_SUCCEEDED | LT_FAILED | LT_CANCELLED
  | LT_TIMED_OUT.
#[global] Instance LongTaskStatus_eq_dec : EqDecision LongTaskStatus.
Proof. solve_decision. Defined.

Definition long_task_statuses : list LongTaskStatus :=
  [LT_ACCEPTED; LT_CREATED; LT_QUEUED; LT_SUBMITTED; LT_RUNNING; LT_SUCCEEDED; LT_FAILED; LT_CANCELLED; LT_TIMED_OUT].
Definition status_value (s : LongTaskStatus) : string :=
  match s with
  | LT_ACCEPTED => "accepted" | LT_CREATED => "created" | LT_QUEUED => "queued" | LT_SUBMITTED => "submitted"
  | LT_RUNNING => "running" | LT_SUCCEEDED => "succeeded" | LT_FAILED => "failed" | LT_CANCELLED => "cancelled"
  | LT_TIMED_OUT => "timed_out"
  end.
Definition TERMINAL_LONG_TASK_STATUSES : list LongTaskStatus := [LT_SUCCEEDED; LT_FAILED; LT_CANCELLED; LT_TIMED_OUT].
Definition RETRYABLE_LONG_TASK_STATUSES : list LongTaskStatus := [LT_FAILED; LT_CANCELLED; LT_TIMED_OUT].

Inductive CallbackStatus := CB_PENDING | CB_DELIVERED | CB_FAILED.
#[global] Instance CallbackStatus_eq_dec : EqDecision CallbackStatus.
Proof. solve_decision. Defined.
Definition callback_statuses : list CallbackStatus := [CB_PENDING; CB_DELIVERED; CB_FAILED].
Definition callback_value (s : CallbackStatus) : string :=
  match s with CB_PENDING => "pending" | CB_DELIVERED => "delivered" | CB_FAILED => "failed" end.

(** ** The record *)

Record LongTaskRecord := mkLongTask {
  lt_id : string;
  lt_provider : string;
  lt_status : LongTaskStatus;
  lt_owner_id : string;
  lt_companion_id : string;
  lt_conversation_id : option string;
  lt_turn_id : string;
  lt_session_id : option string;
  lt_trace_id : option string;
  lt_session_key : string;
  lt_task_date : string;
  lt_task_key : string;
  lt_task : string;
  lt_user_text : string;
  lt_memory_realm_id : option string;
  lt_genome_id : option string;
  lt_device_id : option string;
  lt_tool_call_id : option string;
  lt_task_type : string;
  lt_urgency : string;
  lt_expected_output : string;
  lt_context_summary : string;
  lt_tool_budget : Z;
  lt_expected_duration_hint : string;
  lt_attachments : list pyval;
  lt_request_payload : list (string * pyval);
  lt_mementos_session_id : option string;
  lt_mementos_conversation_id : option string;
  lt_mementos_run_id : option string;
  lt_mementos_latest_seq : option Z;
  lt_mementos_workspace_dir : option string;
  lt_progress_summary : option string;
  lt_progress_events : list pyval;
  lt_result_text : option string;
  lt_result_tts_summary : option string;
  lt_result_payload : option (list (string * pyval));
  lt_artifact_paths : list string;
  lt_error_code : option string;
  lt_error_message : option string;
  lt_error_payload : option (list (string * pyval));
  lt_callback_subject : option string;
  lt_callback_status : CallbackStatus;
  lt_callback_attempts : Z;
  lt_callback_last_error : option string;
  lt_callback_delivered_at : option datetime;
  lt_worker_id : option string;
  lt_lease_until : option datetime;
  lt_attempt_count : Z;
  lt_next_retry_at : option datetime;
  lt_external_status : option string;
  lt_created_at : option datetime;
  lt_updated_at : option datetime;
  lt_started_at : option datetime;
  lt_submitted_at : option datetime;
  lt_last_progress_at : option datetime;
  lt_last_polled_at : option datetime;
  lt_completed_at : option datetime;
}.

(** [replace(record, field=value, ...)] is [record {{ field := value; ... }}]. *)

(** ** JSON *)

Section Json.
Context (isoformat : datetime -> string) (fromisoformat : string -> option datetime).

Definition TypeError : exn := PyError "TypeError" "".
Definition enc_str (s : string) : pyval := VStr s.
Definition enc_ostr (s : option string) : pyval := of_opt_str s.
Definition enc_int (z : Z) : pyval := VInt z.
Definition enc_oint (z : option Z) : pyval := of_opt_int z.
Definition enc_dict (d : list (string * pyval)) : pyval := VDict d.
Definition enc_odict (d : option (list (string * pyval))) : pyval := if d is Some d then VDict d else VNone.
Definition enc_list (l : list pyval) : pyval := VList l.
Definition enc_strs (l : list string) : pyval := VList (map VStr l).
Definition enc_status (s : LongTaskStatus) : pyval := VStr (status_value s).
Definition enc_cb (s : CallbackStatus) : pyval := VStr (callback_value s).
(** [_dt_to_json] *)
Definition enc_dt (d : option datetime) : pyval := if d is Some d then VStr (isoformat d) else VNone.

(** Python keeps a value of another type in the field; the model stops there. *)
Definition dec_str (v : pyval) : res string := if v is VStr s then Ok s else Err TypeError.
Definition dec_ostr (v : pyval) : res (option string) :=
  match v with VNone => Ok None | VStr s => Ok (Some s) | _ => Err TypeError end.
Definition dec_int (v : pyval) : res Z := if v is VInt z then Ok z else Err TypeError.
Definition dec_oint (v : pyval) : res (option Z) := match v with VNone => Ok None | VInt z => Ok (Some z) | _ => Err TypeError end.
Definition dec_dict (v : pyval) : res (list (string * pyval)) := if v is VDict d then Ok d else Err TypeError.
Definition dec_odict (v : pyval) : res (option (list (string * pyval))) :=
  match v with VNone => Ok None | VDict d => Ok (Some d) | _ => Err TypeError end.
Definition dec_list (v : pyval) : res (list pyval) := if v is VList l then Ok l else Err TypeError.
Fixpoint dec_strings (l : list pyval) : res (list string) :=
  match l with
  | [] => Ok []
  | v :: l => s ← dec_str v; l ← dec_strings l; Ok (s :: l)
  end.
Definition dec_strs (v : pyval) : res (list string) := l ← dec_list v; dec_strings l.

(** [Enum(values.get(key) or default)] *)
Definition dec_enum {A} (all : list A) (value : A -> string) (dflt : A) (o : option pyval) : res A :=
  if get_truthy o then
    match o with
    | Some (VStr s) =>
        match List.find (fun a => bool_decide (value a = s)) all with
        | Some a => Ok a
        | None => Err (PyError "ValueError" s)
        end
    | _ => Err (PyError "ValueError" "")
    end
  else Ok dflt.

(** [_dt_from_json] *)
Definition dt_from_json (o : option pyval) : res (option datetime) :=
  match o with
  | None | Some VNone => Ok None
  | Some (VStr s) => match fromisoformat s with Some d => Ok (Some d) | None => Err (PyError "ValueError" s) end
  | Some _ => Err TypeError
  end.

(** A field of the constructor without, and with, a default. *)
Definition required_field {A} (d : list (string * pyval)) (k : string) (dec : pyval -> res A) : res A :=
  match dict_get d k with Some v => dec v | None => Err TypeError end.
Definition optional_field {A} (d : list (string * pyval)) (k : string) (dflt : A) (dec : pyval -> res A) : res A :=
  match dict_get d k with Some v => dec v | None => Ok dflt end.

(** [_record_to_json] *)
Definition record_to_json (r : LongTaskRecord) : list (string * pyval) :=
  [("id", enc_str r.(lt_id)); ("provider", enc_str r.(lt_provider)); ("status", enc_status r.(lt_status));
  ("owner_id", enc_str r.(lt_owner_id)); ("companion_id", enc_str r.(lt_companion_id));
  ("conversation_id", enc_ostr r.(lt_conversation_id)); ("turn_id", enc_str r.(lt_turn_id));
  ("session_id", enc_ostr r.(lt_session_id)); ("trace_id", enc_ostr r.(lt_trace_id));
  ("session_key", enc_str r.(lt_session_key)); ("task_date", enc_str r.(lt_task_date));
  ("task_key", enc_str r.(lt_task_key)); ("task", enc_str r.(lt_task)); ("user_text", enc_str r.(lt_user_text));
  ("memory_realm_id", enc_ostr r.(lt_memory_realm_id)); ("genome_id", enc_ostr r.(lt_genome_id));
  ("device_id", enc_ostr r.(lt_device_id)); ("tool_call_id", enc_ostr r.(lt_tool_call_id));
  ("task_type", enc_str r.(lt_task_type)); ("urgency", enc_str r.(lt_urgency));
  ("expected_output", enc_str r.(lt_expected_output)); ("context_summary", enc_str r.(lt_context_summary));
  ("tool_budget", enc_int r.(lt_tool_budget)); ("expected_duration_hint", enc_str r.(lt_expected_duration_hint));
  ("attachments", enc_list r.(lt_attachments)); ("request_payload", enc_dict r.(lt_request_payload));
  ("mementos_session_id", enc_ostr r.(lt_mementos_session_id));
  ("mementos_conversation_id", enc_ostr r.(lt_mementos_conversation_id));
  ("mementos_run_id", enc_ostr r.(lt_mementos_run_id));
  ("mementos_latest_seq", enc_oint r.(lt_mementos_latest_seq));
  ("mementos_workspace_dir", enc_ostr r.(lt_mementos_workspace_dir));
  ("progress_summary", enc_ostr r.(lt_progress_summary)); ("progress_events", enc_list r.(lt_progress_events));
  ("result_text", enc_ostr r.(lt_result_text)); ("result_tts_summary", enc_ostr r.(lt_result_tts_summary));
  ("result_payload", enc_odict r.(lt_result_payload)); ("artifact_paths", enc_strs r.(lt_artifact_paths));
  ("error_code", enc_ostr r.(lt_error_code)); ("error_message", enc_ostr r.(lt_error_message));
  ("error_payload", enc_odict r.(lt_error_payload)); ("callback_subject", enc_ostr r.(lt_callback_subject));
  ("callback_status", enc_cb r.(lt_callback_status)); ("callback_attempts", enc_int r.(lt_callback_attempts));
  ("callback_last_error", enc_ostr r.(lt_callback_last_error));
  ("callback_delivered_at", enc_dt r.(lt_callback_delivered_at)); ("worker_id", enc_ostr r.(lt_worker_id));
  ("lease_until", enc_dt r.(lt_lease_until)); ("attempt_count", enc_int r.(lt_attempt_count));
  ("next_retry_at", enc_dt r.(lt_next_retry_at)); ("external_status", enc_ostr r.(lt_external_status));
  ("created_at", enc_dt r.(lt_created_at)); ("updated_at", enc_dt r.(lt_updated_at));
  ("started_at", enc_dt r.(lt_started_at)); ("submitted_at", enc_dt r.(lt_submitted_at));
  ("last_progress_at", enc_dt r.(lt_last_progress_at)); ("last_polled_at", enc_dt r.(lt_last_polled_at));
  ("completed_at", enc_dt r.(lt_completed_at))].

Definition LONG_TASK_FIELDS : list string :=
  ["id"; "provider"; "status"; "owner_id"; "companion_id"; "conversation_id"; "turn_id"; "session_id"; "trace_id";
  "session_key"; "task_date"; "task_key"; "task"; "user_text"; "memory_realm_id"; "genome_id"; "device_id";
  "tool_call_id"; "task_type"; "urgency"; "expected_output"; "context_summary"; "tool_budget";
  "expected_duration_hint"; "attachments"; "request_payload"; "mementos_session_id"; "mementos_conversation_id";
  "mementos_run_id"; "mementos_latest_seq"; "mementos_workspace_dir"; "progress_summary"; "progress_events";
  "result_text"; "result_tts_summary"; "result_payload"; "artifact_paths"; "error_code"; "error_message";
  "error_payload"; "callback_subject"; "callback_status"; "callback_attempts"; "callback_last_error";
  "callback_delivered_at"; "worker_id"; "lease_until"; "attempt_count"; "next_retry_at"; "external_status";
  "created_at"; "updated_at"; "started_at"; "submitted_at"; "last_progress_at"; "last_polled_at"; "completed_at"].

(** [_record_from_json] *)
Definition record_from_json (d : list (string * pyval)) : res LongTaskRecord :=
  v_status ← dec_enum long_task_statuses status_value LT_ACCEPTED (dict_get d "status");
  v_callback_status ← dec_enum callback_statuses callback_value CB_PENDING (dict_get d "callback_status");
  if negb (forallb (fun k => bool_decide (k ∈ LONG_TASK_FIELDS)) d.*1) then Err TypeError else
  v_id ← required_field d "id" dec_str;
  v_provider ← required_field d "provider" dec_str;
  v_owner_id ← required_field d "owner_id" dec_str;
  v_companion_id ← required_field d "companion_id" dec_str;
  v_conversation_id ← required_field d "conversation_id" dec_ostr;
  v_turn_id ← required_field d "turn_id" dec_str;
  v_session_id ← required_field d "session_id" dec_ostr;
  v_trace_id ← required_field d "trace_id" dec_ostr;
  v_session_key ← optional_field d "session_key" "" dec_str;
  v_task_date ← optional_field d "task_date" "" dec_str;
  v_task_key ← optional_field d "task_key" "" dec_str;
  v_task ← optional_field d "task" "" dec_str;
  v_user_text ← optional_field d "user_text" "" dec_str;
  v_memory_realm_id ← optional_field d "memory_realm_id" None dec_ostr;
  v_genome_id ← optional_field d "genome_id" None dec_ostr;
  v_device_id ← optional_field d "device_id" None dec_ostr;
  v_tool_call_id ← optional_field d "tool_call_id" None dec_ostr;
  v_task_type ← optional_field d "task_type" "other" dec_str;
  v_urgency ← optional_field d "urgency" "normal" dec_str;
  v_expected_output ← optional_field d "expected_output" "" dec_str;
  v_context_summary ← optional_field d "context_summary" "" dec_str;
  v_tool_budget ← optional_field d "tool_budget" 0 dec_int;
  v_expected_duration_hint ← optional_field d "expected_duration_hint" "" dec_str;
  v_attachments ← optional_field d "attachments" [] dec_list;
  v_request_payload ← optional_field d "request_payload" [] dec_dict;
  v_mementos_session_id ← optional_field d "mementos_session_id" None dec_ostr;
  v_mementos_conversation_id ← optional_field d "mementos_conversation_id" None dec_ostr;
  v_mementos_run_id ← optional_field d "mementos_run_id" None dec_ostr;
  v_mementos_latest_seq ← optional_field d "mementos_latest_seq" None dec_oint;
  v_mementos_workspace_dir ← optional_field d "mementos_workspace_dir" None dec_ostr;
  v_progress_summary ← optional_field d "progress_summary" None dec_ostr;
  v_progress_events ← optional_field d "progress_events" [] dec_list;
  v_result_text ← optional_field d "result_text" None dec_ostr;
  v_result_tts_summary ← optional_field d "result_tts_summary" None dec_ostr;
  v_result_payload ← optional_field d "result_payload" None dec_odict;
  v_artifact_paths ← optional_field d "artifact_paths" [] dec_strs;
  v_error_code ← optional_field d "error_code" None dec_ostr;
  v_error_message ← optional_field d "error_message" None dec_ostr;
  v_error_payload ← optional_field d "error_payload" None dec_odict;
  v_callback_subject ← optional_field d "callback_subject" None dec_ostr;
  v_callback_attempts ← optional_field d "callback_attempts" 0 dec_int;
  v_callback_last_error ← optional_field d "callback_last_error" None dec_ostr;
  v_callback_delivered_at ← dt_from_json (dict_get d "callback_delivered_at");
  v_worker_id ← optional_field d "worker_id" None dec_ostr;
  v_lease_until ← dt_from_json (dict_get d "lease_until");
  v_attempt_count ← optional_field d "attempt_count" 0 dec_int;
  v_next_retry_at ← dt_from_json (dict_get d "next_retry_at");
  v_external_status ← optional_field d "external_status" None dec_ostr;
  v_created_at ← dt_from_json (dict_get d "created_at");
  v_updated_at ← dt_from_json (dict_get d "updated_at");
  v_started_at ← dt_from_json (dict_get d "started_at");
  v_submitted_at ← dt_from_json (dict_get d "submitted_at");
  v_last_progress_at ← dt_from_json (dict_get d "last_progress_at");
  v_last_polled_at ← dt_from_json (dict_get d "last_polled_at");
  v_completed_at ← dt_from_json (dict_get d "completed_at");
  Ok (mkLongTask v_id v_provider v_status v_owner_id v_companion_id v_conversation_id v_turn_id v_session_id
  v_trace_id v_session_key v_task_date v_task_key v_task v_user_text v_memory_realm_id v_genome_id v_device_id
  v_tool_call_id v_task_type v_urgency v_expected_output v_context_summary v_tool_budget v_expected_duration_hint
  v_attachments v_request_payload v_mementos_session_id v_mementos_conversation_id v_mementos_run_id
  v_mementos_latest_seq v_mementos_workspace_dir v_progress_summary v_progress_events v_result_text
  v_result_tts_summary v_result_payload v_artifact_paths v_error_code v_error_message v_error_payload
  v_callback_subject v_callback_status v_callback_attempts v_callback_last_error v_callback_delivered_at v_worker_id
  v_lease_until v_attempt_count v_next_retry_at v_external_status v_created_at v_updated_at v_started_at
  v_submitted_at v_last_progress_at v_last_polled_at v_completed_at).
(** ** Rows *)

Record JobRow := mkJobRow {
  jr_job_id : string;
  jr_owner_id : string;
  jr_companion_id : option string;
  jr_conversation_id : option string;
  jr_turn_id : option string;
  jr_provider : string;
  jr_kind : string;
  jr_status : string;
  jr_input : list (string * pyval);
  jr_provider_ref : list (string * pyval);
  jr_progress : list (string * pyval);
  jr_result : list (string * pyval);
  jr_error : list (string * pyval);
  jr_created_at : datetime;
  jr_updated_at : datetime;
  jr_completed_at : option datetime;
}.

Definition LONG_TASK_PAYLOAD_KEY : string := "eidolon_agent_long_task".

(** A [DateTime] column of SQLite keeps the wall clock and forgets the zone. *)
Definition column (d : datetime) : datetime := mkDatetime d.(dt_us) None.

Definition provider_ref_json (r : LongTaskRecord) : list (string * pyval) :=
  [("mementos_session_id", enc_ostr r.(lt_mementos_session_id));
   ("mementos_conversation_id", enc_ostr r.(lt_mementos_conversation_id));
   ("mementos_run_id", enc_ostr r.(lt_mementos_run_id)); ("mementos_latest_seq", enc_oint r.(lt_mementos_latest_seq));
   ("mementos_workspace_dir", enc_ostr r.(lt_mementos_workspace_dir)); ("worker_id", enc_ostr r.(lt_worker_id));
   ("lease_until", enc_dt r.(lt_lease_until)); ("attempt_count", enc_int r.(lt_attempt_count));
   ("next_retry_at", enc_dt r.(lt_next_retry_at)); ("external_status", enc_ostr r.(lt_external_status))].
Definition progress_json (r : LongTaskRecord) : list (string * pyval) :=
  [("progress_summary", enc_ostr r.(lt_progress_summary)); ("progress_events", enc_list r.(lt_progress_events));
   ("last_progress_at", enc_dt r.(lt_last_progress_at)); ("last_polled_at", enc_dt r.(lt_last_polled_at))].
Definition result_json (r : LongTaskRecord) : list (string * pyval) :=
  [("result_text", enc_ostr r.(lt_result_text)); ("result_tts_summary", enc_ostr r.(lt_result_tts_summary));
   ("result_payload", enc_odict r.(lt_result_payload)); ("artifact_paths", enc_strs r.(lt_artifact_paths));
   ("callback_subject", enc_ostr r.(lt_callback_subject)); ("callback_status", enc_cb r.(lt_callback_status));
   ("callback_attempts", enc_int r.(lt_callback_attempts)); ("callback_last_error", enc_ostr r.(lt_callback_last_error));
   ("callback_delivered_at", enc_dt r.(lt_callback_delivered_at))].
Definition error_json (r : LongTaskRecord) : list (string * pyval) :=
  [("error_code", enc_ostr r.(lt_error_code)); ("error_message", enc_ostr r.(lt_error_message));
   ("error_payload", enc_odict r.(lt_error_payload))].

(** [_record_to_job_row] *)
Definition record_to_job_row (now : datetime) (r : LongTaskRecord) : JobRow :=
  mkJobRow r.(lt_id) r.(lt_owner_id) (Some r.(lt_companion_id)) r.(lt_conversation_id) (Some r.(lt_turn_id)) r.(lt_provider)
    r.(lt_task_type) (status_value r.(lt_status)) [(LONG_TASK_PAYLOAD_KEY, VDict (record_to_json r))] (provider_ref_json r)
    (progress_json r) (result_json r) (error_json r) (column (default now r.(lt_created_at)))
    (column (default now r.(lt_updated_at))) (column <$> r.(lt_completed_at)).

(** [_apply_record_to_job_row]: the key and the creation time of the row stay. *)
Definition apply_record_to_job_row (now : datetime) (row : JobRow) (r : LongTaskRecord) : JobRow :=
  mkJobRow row.(jr_job_id) r.(lt_owner_id) (Some r.(lt_companion_id)) r.(lt_conversation_id) (Some r.(lt_turn_id))
    r.(lt_provider) r.(lt_task_type) (status_value r.(lt_status)) [(LONG_TASK_PAYLOAD_KEY, VDict (record_to_json r))]
    (provider_ref_json r) (progress_json r) (result_json r) (error_json r) row.(jr_created_at)
    (column (default now r.(lt_updated_at))) (column <$> r.(lt_completed_at)).

(** [payload[key] = payload.get(key) or _dt_to_json(column)] *)
Definition fill_time (k : string) (t : option datetime) (d : list (string * pyval)) : list (string * pyval) :=
  dict_set d k (if get_truthy (dict_get d k) then default VNone (dict_get d k) else enc_dt t).

(** [_job_row_to_record] *)
Definition job_row_to_record (row : JobRow) : res LongTaskRecord :=
  payload ← match dict_get row.(jr_input) LONG_TASK_PAYLOAD_KEY with
            | Some v => if truthy v then dec_dict v else Ok []
            | None => Ok []
            end;
  let payload := dict_set payload "id" (VStr row.(jr_job_id)) in
  let payload := dict_set payload "provider" (VStr row.(jr_provider)) in
  let payload := dict_set payload "status" (VStr row.(jr_status)) in
  let payload := dict_set payload "owner_id" (VStr row.(jr_owner_id)) in
  let payload := dict_set payload "companion_id" (of_opt_str row.(jr_companion_id)) in
  let payload := dict_set payload "conversation_id" (of_opt_str row.(jr_conversation_id)) in
  let payload := dict_set payload "turn_id" (of_opt_str row.(jr_turn_id)) in
  let payload := dict_set payload "task_type" (VStr row.(jr_kind)) in
  let payload := fill_time "created_at" (Some row.(jr_created_at)) payload in
  let payload := fill_time "updated_at" (Some row.(jr_updated_at)) payload in
  let payload := fill_time "completed_at" row.(jr_completed_at) payload in
  record_from_json payload.
End Json.

(** ** The store *)

Record JobDb := mkJobDb { jb_rows : list (string * JobRow); jb_audit : list AgentAuditOutboxRow }.

(** [_JOB_STATUS_EVENT] *)
Definition job_status_event (s : LongTaskStatus) : option string :=
  match s with
  | LT_SUCCEEDED => Some "job.succeeded"
  | LT_FAILED => Some "job.failed"
  | LT_CANCELLED => Some "job.cancelled"
  | LT_TIMED_OUT => Some "job.timed_out"
  | _ => None
  end.

Definition new_or_old (new old : option string) : option string := if opt_truthy new then new else old.
Definition some_or_old {A} (new old : option A) : option A := if new is Some _ then new else old.

(** [_emit_job_transition]: the receipt, if there is one. *)
Definition job_transition (fresh : string) (now : Z) (before : LongTaskStatus) (after : LongTaskRecord) : option AuditEvent :=
  match job_status_event after.(lt_status) with
  | None => None
  | Some event_type =>
      if bool_decide (after.(lt_status) = before) then None
      else
        let payload := [("provider", VStr after.(lt_provider)); ("kind", VStr after.(lt_task_type));
                        ("status", VStr (status_value after.(lt_status)))] in
        let payload := if opt_truthy after.(lt_error_code)
                       then dict_set payload "error_code" (of_opt_str after.(lt_error_code)) else payload in
        Some (build_row fresh now "receipt" "job" after.(lt_id) event_type (Some after.(lt_owner_id))
                (if bool_decide (after.(lt_status) ∈ [LT_FAILED; LT_CANCELLED; LT_TIMED_OUT]) then "failure" else "success") "info"
                after.(lt_error_code) after.(lt_trace_id) (Some payload) None None)
  end.

Section Store.
Context (isoformat : datetime -> string) (fromisoformat : string -> option datetime).

(** [accept] and [create] *)
Definition accept_task (now : datetime) (r : LongTaskRecord) (db : JobDb) : JobDb :=
  let r := r {{ lt_created_at := Some (default now r.(lt_created_at)); lt_updated_at := Some (default now r.(lt_updated_at)) }} in
  let row := match dict_get db.(jb_rows) r.(lt_id) with
             | None => record_to_job_row isoformat now r
             | Some row => apply_record_to_job_row isoformat now row r
             end in
  mkJobDb (dict_set db.(jb_rows) r.(lt_id) row) db.(jb_audit).

(** [get] *)
Definition get_task (task_id : string) (db : JobDb) : res (option LongTaskRecord) :=
  match dict_get db.(jb_rows) task_id with
  | None => Ok None
  | Some row => r ← job_row_to_record isoformat fromisoformat row; Ok (Some r)
  end.

Fixpoint decode_rows (rows : list JobRow) : res (list LongTaskRecord) :=
  match rows with
  | [] => Ok []
  | row :: rest => r ← job_row_to_record isoformat fromisoformat row; l ← decode_rows rest; Ok (r :: l)
  end.

(** [ORDER BY created_at DESC]; the database may order equal times otherwise. *)
Definition newest_first (rows : list JobRow) : list JobRow :=
  py_sorted (fun a b => b.(jr_created_at).(dt_us) <=? a.(jr_created_at).(dt_us)) rows.

(** [list_for_admin] *)
Definition list_for_admin (owner_id companion_id status provider task_type : option string) (limit : nat)
  (before : option datetime) (db : JobDb) : res (list LongTaskRecord) :=
  let matches (filter_ : option string) (value : option string) :=
    negb (opt_truthy filter_) || bool_decide (filter_ = value) in
  decode_rows (take limit (newest_first (List.filter (fun row =>
    matches owner_id (Some row.(jr_owner_id)) && matches companion_id row.(jr_companion_id) && matches status (Some row.(jr_status))
    && matches provider (Some row.(jr_provider)) && matches task_type (Some row.(jr_kind))
    && match before with Some d => row.(jr_created_at).(dt_us) <? d.(dt_us) | None => true end) db.(jb_rows).*2))).

(** [find_mementos_session_id] *)
Fixpoint find_session (session_key : string) (rows : list JobRow) : res (option string) :=
  match rows with
  | [] => Ok None
  | row :: rest =>
      r ← job_row_to_record isoformat fromisoformat row;
      if bool_decide (r.(lt_session_key) = session_key) && opt_truthy r.(lt_mementos_session_id)
      then Ok r.(lt_mementos_session_id) else find_session session_key rest
  end.
Definition find_mementos_session_id (session_key : string) (db : JobDb) : res (option string) :=
  find_session session_key (newest_first (List.filter (fun row => bool_decide (row.(jr_provider) = "mementos")) db.(jb_rows).*2)).

(** [_update]: [now] is the clock, [fresh] the UUID of a receipt. *)
Definition update_task (now : datetime) (fresh : string) (task_id : string) (mutator : LongTaskRecord -> datetime -> LongTaskRecord)
  (db : JobDb) : res (option LongTaskRecord * JobDb) :=
  match dict_get db.(jb_rows) task_id with
  | None => Ok (None, db)
  | Some row =>
      record ← job_row_to_record isoformat fromisoformat row;
      let updated := mutator record now in
      let rows := dict_set db.(jb_rows) task_id (apply_record_to_job_row isoformat now row updated) in
      match job_transition fresh now.(dt_us) record.(lt_status) updated with
      | None => Ok (Some updated, mkJobDb rows db.(jb_audit))
      | Some e =>
          match add_audit now.(dt_us) e db.(jb_audit) with
          | Some audit => Ok (Some updated, mkJobDb rows audit)
          | None => Err (PyError "IntegrityError" "UNIQUE constraint failed")
          end
      end
  end.

(** The changes, as functions of the record and the time. *)
Definition queued (worker_id : string) (lease_until : option datetime) (r : LongTaskRecord) (now : datetime) : LongTaskRecord :=
  r {{ lt_status := LT_QUEUED; lt_worker_id := Some worker_id; lt_lease_until := lease_until;
       lt_attempt_count := r.(lt_attempt_count) + 1; lt_submitted_at := Some (default now r.(lt_submitted_at));
       lt_updated_at := Some now }}.

Definition submitted (r : LongTaskRecord) (now : datetime) : LongTaskRecord :=
  r {{ lt_status := LT_SUBMITTED; lt_submitted_at := Some (default now r.(lt_submitted_at)); lt_updated_at := Some now }}.

Definition run_attached (session_id conversation_id run_id : option string) (latest_seq : option Z)
  (workspace_dir external_status : option string) (r : LongTaskRecord) (now : datetime) : LongTaskRecord :=
  r {{ lt_status := LT_RUNNING; lt_started_at := Some (default now r.(lt_started_at)); lt_last_progress_at := Some now;
       lt_updated_at := Some now; lt_mementos_session_id := new_or_old session_id r.(lt_mementos_session_id);
       lt_mementos_conversation_id := new_or_old conversation_id r.(lt_mementos_conversation_id);
       lt_mementos_run_id := new_or_old run_id r.(lt_mementos_run_id);
       lt_mementos_latest_seq := some_or_old latest_seq r.(lt_mementos_latest_seq);
       lt_mementos_workspace_dir := new_or_old workspace_dir r.(lt_mementos_workspace_dir);
       lt_external_status := new_or_old external_status r.(lt_external_status) }}.

Definition progressed (event : list (string * pyval)) (summary : option string) (latest_seq : option Z)
  (r : LongTaskRecord) (now : datetime) : LongTaskRecord :=
  r {{ lt_status := LT_RUNNING; lt_started_at := Some (default now r.(lt_started_at)); lt_last_progress_at := Some now;
       lt_last_polled_at := Some now; lt_updated_at := Some now;
       lt_progress_events := r.(lt_progress_events) ++ [VDict event];
       lt_progress_summary := some_or_old summary r.(lt_progress_summary);
       lt_mementos_latest_seq := some_or_old latest_seq r.(lt_mementos_latest_seq) }}.

Definition polled (latest_seq : option Z) (external_status : option string) (r : LongTaskRecord) (now : datetime) : LongTaskRecord :=
  r {{ lt_last_polled_at := Some now; lt_updated_at := Some now;
       lt_mementos_latest_seq := some_or_old latest_seq r.(lt_mementos_latest_seq);
       lt_external_status := new_or_old external_status r.(lt_external_status) }}.

Definition completed (result_text : option string) (result_payload : option (list (string * pyval)))
  (artifact_paths : option (list string)) (r : LongTaskRecord) (now : datetime) : LongTaskRecord :=
  r {{ lt_status := LT_SUCCEEDED; lt_external_status := Some (status_value LT_SUCCEEDED); lt_result_text := result_text;
       lt_result_payload := result_payload; lt_artifact_paths := default [] artifact_paths; lt_completed_at := Some now;
       lt_last_polled_at := Some now; lt_updated_at := Some now }}.

Definition tts_summarized (summary : string) (r : LongTaskRecord) (now : datetime) : LongTaskRecord :=
  r {{ lt_result_tts_summary := Some summary; lt_updated_at := Some now }}.

Definition failed (error_code error_message : string) (error_payload : option (list (string * pyval))) (status : LongTaskStatus)
  (r : LongTaskRecord) (now : datetime) : LongTaskRecord :=
  r {{ lt_status := status; lt_error_code := Some error_code; lt_error_message := Some error_message;
       lt_error_payload := error_payload;
       lt_completed_at := if r.(lt_completed_at) is Some d then Some d
                          else if bool_decide (status ∈ [LT_FAILED; LT_CANCELLED; LT_TIMED_OUT]) then Some now else None;
       lt_updated_at := Some now }}.

Definition retried (r : LongTaskRecord) (now : datetime) : LongTaskRecord :=
  r {{ lt_status := LT_ACCEPTED; lt_external_status := None; lt_progress_summary := None; lt_progress_events := [];
       lt_result_text := None; lt_result_tts_summary := None; lt_result_payload := None; lt_artifact_paths := [];
       lt_error_code := None; lt_error_message := None; lt_error_payload := None; lt_worker_id := None;
       lt_lease_until := None; lt_next_retry_at := None; lt_completed_at := None; lt_updated_at := Some now }}.

Definition callback_claimed (subject : string) (r : LongTaskRecord) (now : datetime) : LongTaskRecord :=
  r {{ lt_callback_status := CB_DELIVERED; lt_callback_subject := Some subject;
       lt_callback_attempts := r.(lt_callback_attempts) + 1; lt_callback_delivered_at := Some now; lt_updated_at := Some now }}.

(** [claim_callback_delivery] *)
Definition claim_callback_delivery (now : datetime) (task_id subject : string) (db : JobDb) : res (bool * JobDb) :=
  match dict_get db.(jb_rows) task_id with
  | None => Ok (false, db)
  | Some row =>
      record ← job_row_to_record isoformat fromisoformat row;
      if negb (bool_decide (record.(lt_callback_status) = CB_PENDING)) then Ok (false, db)
      else Ok (true, mkJobDb (dict_set db.(jb_rows) task_id
                       (apply_record_to_job_row isoformat now row (callback_claimed subject record now))) db.(jb_audit))
  end.
End Store.
