(* ===== verification/LongTaskFacts.v ===== *)
(** * The long-task store: what is written is read back, a terminal status is reported once,
      a callback is claimed once. *)

From S2P Require Import Prelude CoreTypes AuditOutbox LongTasks.

(** ** JSON *)

Lemma dict_set_same {V} (d : list (string * V)) k v : dict_get d k = Some v -> dict_set d k v = d.
Proof.
  induction d as [|[k' v'] d IH]; simpl; [done|]. case_decide; [by intros [= ->]; subst|]. intros Hd. by rewrite IH.
Qed.

Lemma bind_step {A B} (m : res A) (f : A -> res B) a z : m = Ok a -> f a = z -> (m ≫= f) = z.
Proof. by intros -> <-. Qed.

Lemma required_hit {A} (d : list (string * pyval)) k (dec : pyval -> res A) v a :
  dict_get d k = Some v -> dec v = Ok a -> required_field d k dec = Ok a.
Proof. unfold required_field. by intros ->. Qed.
Lemma optional_hit {A} (d : list (string * pyval)) k dflt (dec : pyval -> res A) v a :
  dict_get d k = Some v -> dec v = Ok a -> optional_field d k dflt dec = Ok a.
Proof. unfold optional_field. by intros ->. Qed.

Section RoundTrip.
Context (isoformat : datetime -> string) (fromisoformat : string -> option datetime).
Context (iso_inverse : forall d, fromisoformat (isoformat d) = Some d).
Context (iso_nonempty : forall d, isoformat d <> "").

Lemma dt_round_trip o (d : list (string * pyval)) k : dict_get d k = Some (enc_dt isoformat o) -> dt_from_json fromisoformat (dict_get d k) = Ok o.
Proof. intros ->. destruct o as [t|]; simpl; [by rewrite iso_inverse|done]. Qed.

Lemma status_round_trip s : dec_enum long_task_statuses status_value LT_ACCEPTED (Some (enc_status s)) = Ok s.
Proof. by destruct s. Qed.
Lemma callback_round_trip s : dec_enum callback_statuses callback_value CB_PENDING (Some (enc_cb s)) = Ok s.
Proof. by destruct s. Qed.
Lemma ostr_round_trip o : dec_ostr (enc_ostr o) = Ok o.
Proof. by destruct o. Qed.
Lemma oint_round_trip o : dec_oint (enc_oint o) = Ok o.
Proof. by destruct o. Qed.
Lemma odict_round_trip o : dec_odict (enc_odict o) = Ok o.
Proof. by destruct o. Qed.
Lemma strs_round_trip l : dec_strs (enc_strs l) = Ok l.
Proof. unfold dec_strs. simpl. induction l as [|s l IH]; simpl; [done|]. by rewrite IH. Qed.

Create HintDb json_trip.
#[local] Hint Resolve ostr_round_trip oint_round_trip odict_round_trip strs_round_trip : json_trip.

(** Reads one field of a document that was written whole. *)
Ltac read_field :=
  eapply bind_step;
  [ lazymatch goal with
    | |- required_field _ _ _ = _ => eapply required_hit; [reflexivity|first [reflexivity|solve [auto with json_trip nocore]]]
    | |- optional_field _ _ _ _ = _ => eapply optional_hit; [reflexivity|first [reflexivity|solve [auto with json_trip nocore]]]
    | |- dt_from_json _ _ = _ => eapply dt_round_trip; reflexivity
    end | ].

Lemma record_round_trip r : record_from_json fromisoformat (record_to_json isoformat r) = Ok r.
Proof.
  unfold record_from_json.
  eapply bind_step; [exact (status_round_trip (lt_status r))|].
  eapply bind_step; [exact (callback_round_trip (lt_callback_status r))|].
  assert (forallb (fun k => bool_decide (k ∈ LONG_TASK_FIELDS)) (record_to_json isoformat r).*1 = true) as -> by (vm_compute; reflexivity).
  cbn [negb].
  repeat read_field. by destruct r.
Qed.

(** ** Rows *)

Lemma fill_time_same k t (d : list (string * pyval)) o :
  dict_get d k = Some (enc_dt isoformat o) -> (o = None -> t = None) -> fill_time isoformat k t d = d.
Proof.
  intros Hd Ht. unfold fill_time. rewrite Hd. apply dict_set_same. rewrite Hd. destruct o as [c|]; simpl.
  - destruct (is_empty (isoformat c)) eqn:E; [apply is_empty_spec in E; by destruct (iso_nonempty c)|done].
  - by rewrite Ht.
Qed.

(** A row written from a record. *)
Definition holds (row : JobRow) (r : LongTaskRecord) : Prop :=
  row.(jr_job_id) = r.(lt_id) /\ row.(jr_provider) = r.(lt_provider) /\ row.(jr_status) = status_value r.(lt_status) /\
  row.(jr_owner_id) = r.(lt_owner_id) /\ row.(jr_companion_id) = Some r.(lt_companion_id) /\
  row.(jr_conversation_id) = r.(lt_conversation_id) /\ row.(jr_turn_id) = Some r.(lt_turn_id) /\
  row.(jr_kind) = r.(lt_task_type) /\ row.(jr_input) = [(LONG_TASK_PAYLOAD_KEY, VDict (record_to_json isoformat r))] /\
  (r.(lt_completed_at) = None -> row.(jr_completed_at) = None).

Lemma holds_reads row r :
  holds row r -> lt_created_at r <> None -> lt_updated_at r <> None -> job_row_to_record isoformat fromisoformat row = Ok r.
Proof.
  intros (Hid & Hp & Hs & Ho & Hc & Hv & Ht & Hk & Hi & Hd) Hcr Hup. unfold job_row_to_record.
  rewrite Hi, Hid, Hp, Hs, Ho, Hc, Hv, Ht, Hk.
  eapply bind_step; [reflexivity|].
  do 8 (erewrite dict_set_same; [|reflexivity]).
  erewrite fill_time_same; [|reflexivity|done]. erewrite fill_time_same; [|reflexivity|done].
  erewrite fill_time_same; [|reflexivity|done]. apply record_round_trip.
Qed.
End RoundTrip.

(** ** The store *)

(** What the operations do to a record. *)
Inductive store_change : (LongTaskRecord -> datetime -> LongTaskRecord) -> Prop :=
  | ch_queued w l : store_change (queued w l)
  | ch_submitted : store_change submitted
  | ch_attached s c r l w e : store_change (run_attached s c r l w e)
  | ch_progressed e s l : store_change (progressed e s l)
  | ch_polled l e : store_change (polled l e)
  | ch_completed t p a : store_change (completed t p a)
  | ch_summarized s : store_change (tts_summarized s)
  | ch_failed c m p s : store_change (failed c m p s)
  | ch_retried : store_change retried.

Lemma store_change_keeps f r now : store_change f ->
  lt_id (f r now) = lt_id r /\ lt_created_at (f r now) = lt_created_at r /\ lt_updated_at (f r now) = Some now /\
  lt_callback_status (f r now) = lt_callback_status r /\ lt_owner_id (f r now) = lt_owner_id r.
Proof. by destruct 1. Qed.

Definition keyed (db : JobDb) : Prop := forall id row, dict_get db.(jb_rows) id = Some row -> row.(jr_job_id) = id.

Lemma keyed_set db id row audit : keyed db -> row.(jr_job_id) = id -> keyed (mkJobDb (dict_set db.(jb_rows) id row) audit).
Proof.
  intros Hk Hrow id' row'. simpl. destruct (decide (id = id')) as [->|Hne].
  - rewrite dict_get_set_eq. by intros [= <-].
  - rewrite dict_get_set_ne by done. apply Hk.
Qed.

Section Store.
Context (isoformat : datetime -> string) (fromisoformat : string -> option datetime).

Lemma decoded_fields d r : record_from_json fromisoformat d = Ok r ->
  required_field d "id" dec_str = Ok r.(lt_id) /\ dt_from_json fromisoformat (dict_get d "created_at") = Ok r.(lt_created_at).
Proof.
  unfold record_from_json. intros H. apply res_bind_ok in H as (? & _ & H). apply res_bind_ok in H as (? & _ & H).
  destruct (negb _); [done|]. repeat (apply res_bind_ok in H as (? & ? & H)). by injection H as <-.
Qed.

Lemma fill_time_not_none k t (d : list (string * pyval)) :
  exists v, dict_get (fill_time isoformat k (Some t) d) k = Some v /\ v <> VNone.
Proof.
  unfold fill_time. rewrite dict_get_set_eq. eexists. split; [done|].
  destruct (dict_get d k) as [v|]; simpl; [|done]. destruct (truthy v) eqn:Ev; simpl; [by intros ->|done].
Qed.

Lemma decoded_row row r : job_row_to_record isoformat fromisoformat row = Ok r ->
  r.(lt_id) = row.(jr_job_id) /\ r.(lt_created_at) <> None.
Proof.
  unfold job_row_to_record. intros (p & _ & H)%res_bind_ok. apply decoded_fields in H as [Hid Hcr]. unfold required_field in Hid. split.
  - unfold fill_time in Hid. repeat (rewrite dict_get_set_ne in Hid by done). rewrite dict_get_set_eq in Hid. by injection Hid.
  - unfold fill_time at 1 2 in Hcr. rewrite !dict_get_set_ne in Hcr by done.
    match type of Hcr with context [fill_time _ _ _ ?d] => destruct (fill_time_not_none "created_at" (jr_created_at row) d) as (v & E & Hv) end.
    rewrite E in Hcr. destruct v; try done. simpl in Hcr. destruct (fromisoformat s); [|done]. injection Hcr as <-. done.
Qed.

Context (iso_inverse : forall d, fromisoformat (isoformat d) = Some d).
Context (iso_nonempty : forall d, isoformat d <> "").

Lemma apply_reads now row r : row.(jr_job_id) = r.(lt_id) -> lt_created_at r <> None -> lt_updated_at r <> None ->
  job_row_to_record isoformat fromisoformat (apply_record_to_job_row isoformat now row r) = Ok r.
Proof.
  intros Hid Hc Hu. apply (holds_reads isoformat fromisoformat iso_inverse iso_nonempty); [|done..].
  repeat split; simpl; try done. by intros ->.
Qed.

Lemma get_of_row id row r db : dict_get db.(jb_rows) id = Some row ->
  job_row_to_record isoformat fromisoformat row = Ok r -> get_task isoformat fromisoformat id db = Ok (Some r).
Proof. unfold get_task. by intros -> ->. Qed.

Definition stamped (now : datetime) (r : LongTaskRecord) : LongTaskRecord :=
  r {{ lt_created_at := Some (default now r.(lt_created_at)); lt_updated_at := Some (default now r.(lt_updated_at)) }}.

Lemma accepted_reads now r db : keyed db -> let db' := accept_task isoformat now r db in
  keyed db' /\ get_task isoformat fromisoformat r.(lt_id) db' = Ok (Some (stamped now r)).
Proof.
  intros Hk. unfold accept_task. fold (stamped now r). change (lt_id (stamped now r)) with (lt_id r).
  assert (forall row, jr_job_id row = lt_id r -> job_row_to_record isoformat fromisoformat (apply_record_to_job_row isoformat now row (stamped now r)) = Ok (stamped now r)) as Ha
    by (intros row Hrow; by apply apply_reads).
  destruct (dict_get (jb_rows db) (lt_id r)) as [row|] eqn:E.
  - specialize (Hk _ _ E) as Hrow. split; [by apply keyed_set|]. eapply get_of_row; [apply dict_get_set_eq|]. by apply Ha.
  - split; [by apply keyed_set|]. eapply get_of_row; [apply dict_get_set_eq|].
    apply (holds_reads isoformat fromisoformat iso_inverse iso_nonempty); [|done..]. repeat split; simpl; try done. by intros ->.
Qed.

Lemma updated_inv now fresh id f db r db' : update_task isoformat fromisoformat now fresh id f db = Ok (Some r, db') ->
  exists row r0, dict_get db.(jb_rows) id = Some row /\ job_row_to_record isoformat fromisoformat row = Ok r0 /\ r = f r0 now /\
    db'.(jb_rows) = dict_set db.(jb_rows) id (apply_record_to_job_row isoformat now row r) /\
    match job_transition fresh now.(dt_us) r0.(lt_status) r with
    | None => db'.(jb_audit) = db.(jb_audit)
    | Some e => add_audit now.(dt_us) e db.(jb_audit) = Some db'.(jb_audit)
    end.
Proof.
  unfold update_task. destruct (dict_get (jb_rows db) id) as [row|]; [|done]. intros (r0 & E & H)%res_bind_ok.
  exists row, r0. destruct (job_transition _ _ _ _) as [e|] eqn:Et.
  - destruct (add_audit _ _ _) as [audit|] eqn:Ea; [|done]. injection H as <- <-. by rewrite Et.
  - injection H as <- <-. by rewrite Et.
Qed.

Lemma updated_reads now fresh id f db r db' : keyed db -> store_change f ->
  update_task isoformat fromisoformat now fresh id f db = Ok (Some r, db') ->
  keyed db' /\ get_task isoformat fromisoformat id db' = Ok (Some r) /\
  forall id', id' <> id -> get_task isoformat fromisoformat id' db' = get_task isoformat fromisoformat id' db.
Proof.
  intros Hk Hf (row & r0 & Erow & E0 & -> & Erows & _)%updated_inv. destruct db' as [rows audit]. simpl in *. subst rows.
  destruct (store_change_keeps f r0 now Hf) as (Kid & Kc & Ku & _ & _). destruct (decoded_row _ _ E0) as [Did Dc].
  specialize (Hk _ _ Erow) as Hrow.
  split; [by apply keyed_set|]. split.
  - eapply get_of_row; [apply dict_get_set_eq|]. apply apply_reads; congruence.
  - intros id' Hne. unfold get_task. simpl. by rewrite dict_get_set_ne.
Qed.

(** A receipt is written exactly when the task changes into a terminal status. *)
Lemma receipt_on_transition now fresh id f db r db' :
  update_task isoformat fromisoformat now fresh id f db = Ok (Some r, db') ->
  exists r0, get_task isoformat fromisoformat id db = Ok (Some r0) /\
    if bool_decide (lt_status r ∈ TERMINAL_LONG_TASK_STATUSES) && negb (bool_decide (lt_status r = lt_status r0))
    then exists row, db'.(jb_audit) = db.(jb_audit) ++ [row] /\ au_subject_id row = lt_id r /\ au_category row = "receipt" /\
           au_published_at row = None
    else db'.(jb_audit) = db.(jb_audit).
Proof.
  intros (row & r0 & Erow & E0 & -> & _ & Ha)%updated_inv. exists r0. split; [by eapply get_of_row|].
  set (r := f r0 now) in *. clearbody r. unfold job_transition in Ha. unfold TERMINAL_LONG_TASK_STATUSES.
  destruct (lt_status r) eqn:Es; simpl in *; try exact Ha;
    (case_bool_decide as Eb; simpl; [exact Ha|]; unfold add_audit in Ha; destruct (existsb _ _); [done|]; injection Ha as <-; eauto).
Qed.

(** ** Callbacks *)

(** What the worker and the administrator do to the tasks. *)
Inductive store_step : JobDb -> JobDb -> Prop :=
  | st_update now fresh id f db r db' : store_change f ->
      update_task isoformat fromisoformat now fresh id f db = Ok (Some r, db') -> store_step db db'
  | st_claim now id subject db b db' :
      claim_callback_delivery isoformat fromisoformat now id subject db = Ok (b, db') -> store_step db db'.

Lemma callback_claim_inv now id subject db b db' : claim_callback_delivery isoformat fromisoformat now id subject db = Ok (b, db') ->
  if b then exists row r, dict_get db.(jb_rows) id = Some row /\ job_row_to_record isoformat fromisoformat row = Ok r /\
              lt_callback_status r = CB_PENDING /\
              db' = mkJobDb (dict_set db.(jb_rows) id (apply_record_to_job_row isoformat now row (callback_claimed subject r now))) db.(jb_audit)
  else db' = db.
Proof.
  unfold claim_callback_delivery. destruct (dict_get (jb_rows db) id) as [row|]; [|by intros [= <- <-]].
  intros (r & E & H)%res_bind_ok. case_bool_decide as Ec; simpl in H; injection H as <- <-; [|done]. by exists row, r.
Qed.

Lemma claimed_reads now id subject db db' : keyed db ->
  claim_callback_delivery isoformat fromisoformat now id subject db = Ok (true, db') ->
  keyed db' /\ (exists r, get_task isoformat fromisoformat id db' = Ok (Some r) /\ lt_callback_status r = CB_DELIVERED) /\
  forall id', id' <> id -> get_task isoformat fromisoformat id' db' = get_task isoformat fromisoformat id' db.
Proof.
  intros Hk (row & r & Erow & E & _ & ->)%callback_claim_inv. destruct (decoded_row _ _ E) as [Did Dc]. specialize (Hk _ _ Erow) as Hrow.
  split; [by apply keyed_set|]. split.
  - exists (callback_claimed subject r now). split; [|done]. eapply get_of_row; [apply dict_get_set_eq|].
    apply apply_reads; [by rewrite <- Did|done|done].
  - intros id' Hne. unfold get_task. simpl. by rewrite dict_get_set_ne.
Qed.

Definition delivered (id : string) (db : JobDb) : Prop :=
  keyed db /\ exists r, get_task isoformat fromisoformat id db = Ok (Some r) /\ lt_callback_status r = CB_DELIVERED.

Lemma delivered_step id db db' : store_step db db' -> delivered id db -> delivered id db'.
Proof.
  intros Hs [Hk (r & Hr & Hd)]. destruct Hs as [now fresh id' f db r' db' Hf E|now id' subject db [|] db' E].
  - pose proof (updated_reads _ _ _ _ _ _ _ Hk Hf E) as (Hk' & Hg & Ho). split; [done|].
    destruct (decide (id = id')) as [->|Hne]; [|exists r; by rewrite Ho].
    exists r'. split; [done|]. apply updated_inv in E as (row & r0 & Erow & E0 & -> & _).
    rewrite (get_of_row _ _ _ _ Erow E0) in Hr. injection Hr as ->.
    destruct (store_change_keeps f r now Hf) as (_ & _ & _ & -> & _). done.
  - pose proof (claimed_reads _ _ _ _ _ Hk E) as (Hk' & Hg & Ho). split; [done|].
    destruct (decide (id = id')) as [->|Hne]; [done|exists r; by rewrite Ho].
  - apply callback_claim_inv in E as ->. split; eauto.
Qed.

(** Once claimed, the callback of a task is not claimed again, whatever happens to the tasks meanwhile. *)
Lemma callback_claimed_once now id subject db db1 db2 now' subject' b db3 :
  keyed db -> claim_callback_delivery isoformat fromisoformat now id subject db = Ok (true, db1) -> rtc store_step db1 db2 ->
  claim_callback_delivery isoformat fromisoformat now' id subject' db2 = Ok (b, db3) -> b = false /\ db3 = db2.
Proof.
  intros Hk E1 Hs E2. assert (delivered id db1) as H1.
  { destruct (claimed_reads _ _ _ _ _ Hk E1) as (? & ? & _). by split. }
  assert (delivered id db2) as [_ (r & Hr & Hd)].
  { clear E1 E2. induction Hs; [done|]. eauto using delivered_step. }
  pose proof (callback_claim_inv _ _ _ _ _ _ E2) as H. destruct b; [|done]. destruct H as (row & r' & Erow & E & Hp & _).
  rewrite (get_of_row _ _ _ _ Erow E) in Hr. injection Hr as ->. congruence.
Qed.
End Store.

(** C20: A long task is read back from the jobs table exactly as it was accepted (with its times
    stamped) and, after every change of the store, exactly as the change returned it, all other
    tasks untouched: the row and its JSON document lose no field of the record. *)
Theorem stored_tasks_read_back isoformat fromisoformat :
  (forall d, fromisoformat (isoformat d) = Some d) -> (forall d, isoformat d <> "") ->
  forall db, keyed db ->
  (forall now r, let db' := accept_task isoformat now r db in
     keyed db' /\ get_task isoformat fromisoformat r.(lt_id) db' = Ok (Some (stamped now r))) /\
  (forall now fresh id f r db', store_change f -> update_task isoformat fromisoformat now fresh id f db = Ok (Some r, db') ->
     keyed db' /\ get_task isoformat fromisoformat id db' = Ok (Some r) /\
     forall id', id' <> id -> get_task isoformat fromisoformat id' db' = get_task isoformat fromisoformat id' db).
Proof.
  intros Hi Hn db Hk. split.
  - intros now r. by apply accepted_reads.
  - intros now fresh id f r db' Hf E. by eapply updated_reads.
Qed.

(** A clock format with an inverse: the digits of the datetime's code. *)
Fixpoint digits_of (p : positive) : string :=
  match p with xH => "." | xO p => String "0" (digits_of p) | xI p => String "1" (digits_of p) end.
Fixpoint of_digits (s : string) : option positive :=
  match s with
  | String "0" s => xO <$> of_digits s
  | String "1" s => xI <$> of_digits s
  | String "." EmptyString => Some xH
  | _ => None
  end.
Definition sample_iso (d : datetime) : string := digits_of (encode (d.(dt_us), d.(dt_tz))).
Definition sample_of_iso (s : string) : option datetime :=
  p ← of_digits s; '(us, tz) ← decode (A := Z * option Z) p; Some (mkDatetime us tz).

Lemma sample_iso_inverse d : sample_of_iso (sample_iso d) = Some d.
Proof.
  unfold sample_of_iso, sample_iso.
  assert (forall p, of_digits (digits_of p) = Some p) as -> by (intros p; induction p as [p IH|p IH|]; simpl; by rewrite ?IH).
  cbn [mbind option_bind]. rewrite decode_encode. by destruct d.
Qed.

Lemma sample_iso_nonempty d : sample_iso d <> "".
Proof. unfold sample_iso. by destruct (encode _). Qed.

Lemma no_tasks_keyed : keyed (mkJobDb [] []).
Proof. done. Qed.

Definition sample_task : LongTaskRecord :=
  mkLongTask "t1" "mementos" LT_ACCEPTED "owner" "companion" (Some "c1") "turn1" None None "key" "2024-01-01" "task-key" "write a report"
    "" None None None None "other" "normal" "" "" 0 "" [] [] None None None None None None [] None None None ["a.txt"] None None None
    None CB_PENDING 0 None None None None 0 None None None None None None None None None.
Definition sample_now : datetime := mkDatetime 1700000000000000 (Some 0).

Definition sample_updated : res (option LongTaskRecord * JobDb) :=
  update_task sample_iso sample_of_iso sample_now "0" "t1" (failed "queue_full" "full" None LT_FAILED)
    (accept_task sample_iso sample_now sample_task (mkJobDb [] [])).
Lemma sample_update : match sample_updated with Ok (Some r, _) => bool_decide (lt_status r = LT_FAILED) | _ => false end = true.
Proof. vm_compute. reflexivity. Qed.

Lemma stored_tasks_read_back_witness :
  let db := accept_task sample_iso sample_now sample_task (mkJobDb [] []) in
  get_task sample_iso sample_of_iso "t1" db = Ok (Some (stamped sample_now sample_task)) /\
  exists r db', update_task sample_iso sample_of_iso sample_now "0" "t1" (failed "queue_full" "full" None LT_FAILED) db = Ok (Some r, db') /\
    lt_status r = LT_FAILED /\ get_task sample_iso sample_of_iso "t1" db' = Ok (Some r).
Proof.
  pose proof sample_iso_nonempty as Hn. pose proof no_tasks_keyed as Hk.
  destruct (proj1 (stored_tasks_read_back sample_iso sample_of_iso sample_iso_inverse Hn _ Hk) sample_now sample_task) as [Hk1 Hg].
  split; [exact Hg|].
  pose proof sample_update as H. unfold sample_updated in H.
  destruct (update_task _ _ _ _ _ _ _) as [[[r|] db']|e] eqn:E; [|discriminate H..].
  apply bool_decide_eq_true in H. exists r, db'. split; [reflexivity|]. split; [exact H|].
  apply (proj2 (stored_tasks_read_back sample_iso sample_of_iso sample_iso_inverse Hn _ Hk1) sample_now "0" "t1" _ r db' (ch_failed _ _ _ _) E).
Defined.
