(* ===== verification/MementosWorker.v ===== *)
(** * The long-task worker, [infra/long_tasks/mementos.py], and the routes that cancel and
      retry a task, [app/admin/routers/long_tasks.py].

    The sidecar's HTTP API, the summarizer, the persona voice and the bus are parameters.
    At each wait other tasks may change the jobs table, and a scheduled exception (the
    worker being stopped, a database error) is raised. *)

From S2P Require Import Prelude CoreTypes Json Effects AuditOutbox LongTasks.
#[local] Open Scope eff_scope.

(** ** Events of the sidecar *)

Notation Dict := (list (string * pyval)) (only parsing).

Definition TERMINAL_SUCCESS : list string := ["RUN_END"; "RUN_FINISHED"].
Definition TERMINAL_FAILURE : list string := ["RUN_FAILED"; "RUN_CANCELLED"; "ERROR"].

(** [str.split(":")] *)
Fixpoint split_colon (s : string) : list string :=
  match s with
  | "" => [""]
  | String a s' =>
      if bool_decide (a = ":"%char) then "" :: split_colon s'
      else match split_colon s' with c :: cs => String a c :: cs | [] => [String a ""] end
  end.

(** [_device_id_from_conversation_id] *)
Definition device_id_from_conversation_id (conversation_id : option string) : option string :=
  if negb (opt_truthy conversation_id) then None
  else
    let parts := split_colon (default "" conversation_id) in
    if bool_decide (length parts < 3)%nat then None
    else
      let device_id := py_strip (py_join ":" (take (length parts - 2) (drop 1 parts))) in
      if is_empty device_id then None else Some device_id.

(** [_prompt_for_record] *)
Definition prompt_for_record (r : LongTaskRecord) : string :=
  (r.(lt_task)
   +:+ (if is_empty r.(lt_expected_output) then "" else String "010" "期望输出：" +:+ r.(lt_expected_output))
   +:+ (if is_empty r.(lt_context_summary) then "" else String "010" "上下文摘要：" +:+ r.(lt_context_summary)))%string.

Definition python_type (v : pyval) : string :=
  match v with
  | VNone => "NoneType" | VBool _ => "bool" | VInt _ => "int" | VFloat _ => "float" | VStr _ => "str" | VList _ => "list"
  | VDict _ => "dict"
  end.
Definition no_get (v : pyval) : exn := PyError "AttributeError" ("'" +:+ python_type v +:+ "' object has no attribute 'get'")%string.

Fixpoint as_dicts (l : list pyval) : res (list (list (string * pyval))) :=
  match l with
  | [] => Ok []
  | VDict d :: l' => ds ← as_dicts l'; Ok (d :: ds)
  | v :: _ => Err (no_get v)
  end.

Section Events.
(** [repr] of a string, and [int] of a string and of a float. *)
Context (str_repr : string -> string) (int_of_str int_of_float : string -> option Z).

(** [str(d.get(k) or d.get(k') or "")] *)
Definition event_type (d : Dict) : string :=
  let v := default VNone (dict_get d "event_type") in
  let v := if truthy v then v else default VNone (dict_get d "type") in
  if truthy v then py_str str_repr v else "".

(** [_int_or_none] *)
Definition int_or_none (o : option pyval) : option Z :=
  match o with
  | Some (VInt z) => Some z
  | Some (VBool b) => Some (if b then 1 else 0)
  | Some (VStr s) => int_of_str s
  | Some (VFloat r) => int_of_float r
  | _ => None
  end.

(** [_latest_seq] *)
Definition latest_seq (events : list Dict) : option Z :=
  match omap (fun d => int_or_none (dict_get d "_sse_id")) events ++ omap (fun d => int_or_none (dict_get d "seq")) events with
  | [] => None
  | z :: l => Some (fold_left Z.max l z)
  end.

(** [_terminal_event] *)
Definition terminal_event (events : list Dict) : option Dict :=
  List.find (fun d => bool_decide (event_type d ∈ TERMINAL_SUCCESS) || bool_decide (event_type d ∈ TERMINAL_FAILURE)) (rev events).

(** [list(messages.get("messages") or [])], whose elements the code reads as dicts. *)
Definition messages_of (d : Dict) : res (list Dict) :=
  match dict_get d "messages" with
  | None => Ok []
  | Some v => if truthy v then match v with VList l => as_dicts l | _ => Err TypeError end else Ok []
  end.

(** [x.get(k)] read as a string, [str(x.get(k) or "")]. *)
Definition str_field (d : Dict) (k : string) : string :=
  let v := default VNone (dict_get d k) in if truthy v then py_str str_repr v else "".

(** [str((session.get("session") or {}).get("id") or "")] *)
Definition session_id_of (d : Dict) : res string :=
  match dict_get d "session" with
  | None => Ok ""
  | Some v => if truthy v then match v with VDict s => Ok (str_field s "id") | _ => Err (no_get v) end else Ok ""
  end.

(** The [content] of a terminal event. *)
Definition content_of (terminal : Dict) : string :=
  match dict_get terminal "payload" with Some (VDict p) => str_field p "content" | _ => "" end.
End Events.

(** ** The HTTP client *)

(** [_request_json] from the attempt [attempt] on, with [retries] to go: the result and the
    pauses it made, in milliseconds. [http_error] is [_should_retry] on the errors of httpx that
    are caught, [None] on any other exception. *)
Fixpoint request_json (request : nat -> res Dict) (http_error : exn -> option bool) (attempt retries : nat) : res Dict * list Z :=
  match request attempt with
  | Ok d => (Ok d, [])
  | Err e =>
      match http_error e, retries with
      | Some true, S retries =>
          let '(r, pauses) := request_json request http_error (S attempt) retries in
          (r, Z.min 2000 (200 * 2 ^ Z.of_nat attempt) :: pauses)
      | _, _ => (Err e, [])
      end
  end.

(** [_should_retry] on a transport error ([None]) or a status error. *)
Definition should_retry (status : option Z) : bool := match status with None => true | Some s => 500 <=? s end.

(** ** The worker *)

Record MementosWorkerConfig := mkWorkerConfig {
  mw_queue_size : Z;
  (** microseconds *)
  mw_task_timeout : Z;
  mw_lease : Z;
}.

(** A published report and the task it is about. *)
Record Report := mkReport { rp_task_id : string; rp_subject : string; rp_payload : Dict; rp_trace_id : option string }.

Record WorkerWorld := mkWorkerWorld {
  ww_db : JobDb;
  ww_tick : nat;
  ww_queue : list LongTaskRecord;
  ww_reports : list Report;
}.

Record WorkerPorts := mkWorkerPorts {
  wp_now : nat -> datetime;
  wp_loop_time : nat -> Z;
  wp_uuid : nat -> string;
  wp_others : nat -> JobDb -> JobDb;
  wp_interrupt : nat -> option exn;
  wp_create_session : nat -> string -> res Dict;
  wp_post_message : nat -> string -> string -> res Dict;
  wp_get_messages : nat -> string -> res Dict;
  wp_summarize : option (nat -> LongTaskRecord -> string -> res (option string));
  (** owner, companion, intent, text, fallback and style: text, intent and style *)
  wp_persona_voice : option (nat -> string -> string -> string -> string -> string -> string -> res (string * string * string));
  wp_has_bus : bool;
  wp_publish : nat -> Report -> res unit;
  wp_isoformat : datetime -> string;
  wp_fromisoformat : string -> option datetime;
  wp_str_repr : string -> string;
  wp_int_of_str : string -> option Z;
  wp_int_of_float : string -> option Z;
}.

Section Worker.
Context (cfg : MementosWorkerConfig) (wp : WorkerPorts) (worker_id : string).

Definition wait : M WorkerWorld unit := fun w =>
  let w' := mkWorkerWorld (wp.(wp_others) w.(ww_tick) w.(ww_db)) (S w.(ww_tick)) w.(ww_queue) w.(ww_reports) in
  match wp.(wp_interrupt) w.(ww_tick) with Some e => (Err e, w') | None => (Ok tt, w') end.

Definition set_db (db : JobDb) : M WorkerWorld unit :=
  mmodify (fun w => mkWorkerWorld db w.(ww_tick) w.(ww_queue) w.(ww_reports)).

(** An awaited call of a service. *)
Definition call {A} (f : nat -> res A) : M WorkerWorld A :=
  tick <-- mgets ww_tick ;; wait ;;; mlift (f tick).

(** One change of the store, in its transaction. *)
Definition store_update (task_id : string) (f : LongTaskRecord -> datetime -> LongTaskRecord) : M WorkerWorld (option LongTaskRecord) :=
  wait ;;;
  w <-- mget ;;
  r <-- mlift (update_task wp.(wp_isoformat) wp.(wp_fromisoformat) (wp.(wp_now) w.(ww_tick)) (wp.(wp_uuid) w.(ww_tick)) task_id f w.(ww_db)) ;;
  set_db r.2 ;;;
  wait ;;;
  mret_ r.1.

Definition store_accept (r : LongTaskRecord) : M WorkerWorld unit :=
  wait ;;;
  w <-- mget ;;
  set_db (accept_task wp.(wp_isoformat) (wp.(wp_now) w.(ww_tick)) r w.(ww_db)) ;;;
  wait.

Definition store_claim (task_id subject : string) : M WorkerWorld bool :=
  wait ;;;
  w <-- mget ;;
  r <-- mlift (claim_callback_delivery wp.(wp_isoformat) wp.(wp_fromisoformat) (wp.(wp_now) w.(ww_tick)) task_id subject w.(ww_db)) ;;
  set_db r.2 ;;;
  wait ;;;
  mret_ r.1.

Definition store_find_session (session_key : string) : M WorkerWorld (option string) :=
  wait ;;;
  w <-- mget ;;
  r <-- mlift (find_mementos_session_id wp.(wp_isoformat) wp.(wp_fromisoformat) session_key w.(ww_db)) ;;
  wait ;;;
  mret_ r.

(** [except Exception] *)
Definition catching {A} (m : M WorkerWorld A) (h : exn -> M WorkerWorld A) : M WorkerWorld A :=
  mtry m (fun e => if is_exception e then Some (h e) else None).

(** [_summarize_result_for_tts] *)
Definition summarize_result_for_tts (record : LongTaskRecord) (result_text : string) : M WorkerWorld (option string) :=
  match wp.(wp_summarize) with
  | None => mret_ None
  | Some summarize =>
      if is_empty (py_strip result_text) then mret_ None
      else
        outcome <-- catching (s <-- call (fun n => summarize n record result_text) ;; mret_ (Some s)) (fun _ => mret_ None) ;;
        match outcome with
        | None => mret_ None
        | Some summary =>
            mwhen (opt_truthy summary) (store_update record.(lt_id) (tts_summarized (default "" summary)) ;;; mret_ tt) ;;;
            mret_ (if opt_truthy summary then summary else None)
        end
  end.

Definition FALLBACK_LINE : string := "我把刚才交代的那件事处理好了，细节你可以随时问我。".

(** [Topics.proactive_triggered] *)
Definition proactive_triggered (instance_id : string) : string := ("agent.proactive.triggered." +:+ instance_id)%string.

Definition report_of (record : LongTaskRecord) (intent text style_hint : string) : Report :=
  let device_id := if opt_truthy record.(lt_device_id) then record.(lt_device_id)
                   else device_id_from_conversation_id record.(lt_conversation_id) in
  mkReport record.(lt_id) (proactive_triggered record.(lt_companion_id))
    [("instance_id", VStr record.(lt_companion_id)); ("device_id", of_opt_str device_id); ("intent", VStr intent);
     ("text", VStr text); ("style_hint", VStr style_hint)] record.(lt_trace_id).

Definition publish_report (r : Report) : M WorkerWorld unit :=
  mmodify (fun w => mkWorkerWorld w.(ww_db) w.(ww_tick) w.(ww_queue) (w.(ww_reports) ++ [r])) ;;;
  call (fun n => wp.(wp_publish) n r).

(** [_publish_proactive_report]; every attempt to publish is recorded. *)
Definition publish_proactive_report (record : LongTaskRecord) (summary : option string) : M WorkerWorld unit :=
  if negb wp.(wp_has_bus) || is_empty record.(lt_companion_id) then mret_ tt
  else
    decision <-- match wp.(wp_persona_voice) with
                 | Some decide =>
                     d <-- call (fun n => decide n record.(lt_owner_id) record.(lt_companion_id) "long_task_done" (default "" summary)
                                            FALLBACK_LINE "report") ;;
                     mret_ (py_strip d.1.1, d.1.2, d.2)
                 | None => mret_ (py_strip (opt_or summary FALLBACK_LINE), "long_task_done", "report")
                 end ;;
    let '(report_text, intent, style_hint) := decision in
    if is_empty report_text then mret_ tt
    else
      claimed <-- catching (store_claim record.(lt_id) (proactive_triggered record.(lt_companion_id))) (fun _ => mret_ false) ;;
      mwhen claimed (catching (publish_report (report_of record intent report_text style_hint)) (fun _ => mret_ tt)).

(** What one look at the messages of the session decides; [true] ends the polling. *)
Definition poll_once (record : LongTaskRecord) (session_id : string) (last_seq : option Z) : M WorkerWorld (bool * option Z) :=
  messages <-- call (fun n => wp.(wp_get_messages) n session_id) ;;
  events <-- mlift (messages_of messages) ;;
  let last_seq := some_or_old (latest_seq wp.(wp_int_of_str) wp.(wp_int_of_float) events) last_seq in
  match terminal_event wp.(wp_str_repr) events with
  | Some terminal =>
      let kind := event_type wp.(wp_str_repr) terminal in
      let content := content_of wp.(wp_str_repr) terminal in
      (if bool_decide (kind ∈ TERMINAL_SUCCESS) then
         store_update record.(lt_id) (completed (Some content) (Some terminal) None) ;;;
         summary <-- summarize_result_for_tts record content ;;
         publish_proactive_report record summary
       else
         store_update record.(lt_id) (failed "mementos_run_failed" (str_or content kind) (Some terminal) LT_FAILED) ;;;
         mret_ tt) ;;;
      mret_ (true, last_seq)
  | None =>
      store_update record.(lt_id) (polled last_seq (Some (status_value LT_RUNNING))) ;;;
      wait ;;;
      mret_ (false, last_seq)
  end.

(** [_poll_until_done]: [None] when the fuel is used up before the deadline. *)
Fixpoint poll_until (fuel : nat) (deadline : Z) (record : LongTaskRecord) (session_id : string) (last_seq : option Z)
  : M WorkerWorld (option unit) :=
  match fuel with
  | O => mret_ None
  | S fuel =>
      time <-- mgets (fun w => wp.(wp_loop_time) w.(ww_tick)) ;;
      if time <? deadline then
        r <-- poll_once record session_id last_seq ;;
        if r.1 : bool then mret_ (Some tt) else poll_until fuel deadline record session_id r.2
      else
        store_update record.(lt_id) (failed "mementos_timeout" "mementos task timed out" None LT_TIMED_OUT) ;;;
        mret_ (Some tt)
  end.

Definition poll_until_done (fuel : nat) (record : LongTaskRecord) (session_id : string) : M WorkerWorld (option unit) :=
  start <-- mgets (fun w => wp.(wp_loop_time) w.(ww_tick)) ;;
  poll_until fuel (start + cfg.(mw_task_timeout)) record session_id None.

(** The body of the [try] of [_handle]. *)
Definition execute (fuel : nat) (record : LongTaskRecord) : M WorkerWorld (option unit) :=
  known <-- store_find_session record.(lt_session_key) ;;
  session_id <-- match known with
                 | Some s => mret_ s
                 | None => d <-- call (fun n => wp.(wp_create_session) n record.(lt_session_key)) ;; mlift (session_id_of wp.(wp_str_repr) d)
                 end ;;
  if is_empty session_id then mraise (PyError "RuntimeError" "mementos session id missing")
  else
    posted <-- call (fun n => wp.(wp_post_message) n session_id (prompt_for_record record)) ;;
    let conversation_id := str_field wp.(wp_str_repr) posted "conversation_id" in
    let conversation_id := if is_empty conversation_id then None else Some conversation_id in
    store_update record.(lt_id) (run_attached (Some session_id) conversation_id conversation_id
      (int_or_none wp.(wp_int_of_str) wp.(wp_int_of_float) (dict_get posted "latest_seq")) None (Some (status_value LT_RUNNING))) ;;;
    poll_until_done fuel record session_id.

Definition plus_us (d : datetime) (us : Z) : datetime := mkDatetime (d.(dt_us) + us) d.(dt_tz).

(** [_handle] *)
Definition handle (fuel : nat) (record : LongTaskRecord) : M WorkerWorld (option unit) :=
  now <-- mgets (fun w => wp.(wp_now) w.(ww_tick)) ;;
  store_update record.(lt_id) (queued worker_id (Some (plus_us now cfg.(mw_lease)))) ;;;
  catching (execute fuel record)
    (fun e => store_update record.(lt_id) (failed "mementos_worker_error" (exn_str e)
                (Some [("exception_type", VStr (exn_type e))]) LT_FAILED) ;;; mret_ (Some tt)).

Definition queue_full : exn := PyError "LongTaskQueueFullError" "local long-task queue is full".

(** [submit] *)
Definition submit (record : LongTaskRecord) : M WorkerWorld unit :=
  store_accept record ;;;
  w <-- mget ;;
  if (0 <? cfg.(mw_queue_size)) && (cfg.(mw_queue_size) <=? Z.of_nat (length w.(ww_queue))) then
    store_update record.(lt_id) (failed "queue_full" "local long-task queue is full" None LT_FAILED) ;;;
    mraise queue_full
  else mmodify (fun w => mkWorkerWorld w.(ww_db) w.(ww_tick) (w.(ww_queue) ++ [record]) w.(ww_reports)).

(** [drain_once] *)
Definition drain_once (fuel : nat) : M WorkerWorld bool :=
  w <-- mget ;;
  match w.(ww_queue) with
  | [] => mret_ false
  | record :: rest =>
      mmodify (fun w => mkWorkerWorld w.(ww_db) w.(ww_tick) rest w.(ww_reports)) ;;;
      handle fuel record ;;;
      mret_ true
  end.

(** Workers, one after the other and whatever ends them, take tasks from the queue. *)
Definition work (fuels : list nat) (w : WorkerWorld) : WorkerWorld := fold_left (fun w fuel => (drain_once fuel w).2) fuels w.

(** ** The administrator's routes *)

Inductive response := Reply (r : LongTaskRecord) | Refused (status : Z) (detail : string).

Definition store_get (task_id : string) : M WorkerWorld (option LongTaskRecord) :=
  wait ;;;
  w <-- mget ;;
  r <-- mlift (get_task wp.(wp_isoformat) wp.(wp_fromisoformat) task_id w.(ww_db)) ;;
  wait ;;;
  mret_ r.

Definition not_found : response := Refused 404 "long task not found".

(** [cancel_long_task] *)
Definition cancel_long_task (task_id owner_id : string) : M WorkerWorld response :=
  current <-- store_get task_id ;;
  match current with
  | None => mret_ not_found
  | Some current =>
      if negb (bool_decide (current.(lt_owner_id) = owner_id)) then mret_ not_found
      else if bool_decide (current.(lt_status) = LT_CANCELLED) then mret_ (Reply current)
      else if bool_decide (current.(lt_status) ∈ TERMINAL_LONG_TASK_STATUSES)
      then mret_ (Refused 409 ("long task already finished as " +:+ status_value current.(lt_status))%string)
      else
        record <-- store_update task_id (failed "admin_cancelled" "Cancelled by Admin" None LT_CANCELLED) ;;
        mret_ (if record is Some r then Reply r else not_found)
  end.

(** [retry_long_task]; [has_worker] says whether the Host has a worker. *)
Definition retry_long_task (has_worker : bool) (task_id owner_id : string) : M WorkerWorld response :=
  current <-- store_get task_id ;;
  match current with
  | None => mret_ not_found
  | Some current =>
      if negb (bool_decide (current.(lt_owner_id) = owner_id)) then mret_ not_found
      else if negb (bool_decide (current.(lt_status) ∈ RETRYABLE_LONG_TASK_STATUSES))
      then mret_ (Refused 409 ("long task cannot be retried from " +:+ status_value current.(lt_status))%string)
      else if negb has_worker then mret_ (Refused 503 "this Host has no long-task worker, so a retry would never run")
      else
        record <-- store_update task_id retried ;;
        match record with
        | None => mret_ not_found
        | Some record =>
            refused <-- mtry (submit record ;;; mret_ false) (fun e => if bool_decide (e = queue_full) then Some (mret_ true) else None) ;;
            if refused : bool then mret_ (Refused 503 "long-task queue is full; try again shortly")
            else
              refreshed <-- store_get task_id ;;
              mret_ (Reply (default record refreshed))
        end
  end.
End Worker.

(** ** The long-task worker: a result is announced at most once, a handled task has ended. *)
From S2P Require Import LongTaskFacts.

#[local] Open Scope eff_scope.

(** A request is retried at most [n] times, and every pause is between 0.2 and 2 seconds. *)
Lemma request_json_bounded request http_error n : forall attempt,
  let '(r, pauses) := request_json request http_error attempt n in
  (length pauses <= n)%nat /\ Forall (fun p => 200 <= p <= 2000) pauses /\ r = request (attempt + length pauses)%nat.
Proof.
  assert (forall attempt, (length (@nil Z) <= n)%nat /\ Forall (fun p => 200 <= p <= 2000) [] /\ request attempt = request (attempt + length (@nil Z))%nat)
    as Hstop by (intros a; simpl; rewrite Nat.add_0_r; split; [lia|by split]).
  induction n as [|n IH]; intros attempt; simpl; specialize (Hstop attempt);
    destruct (request attempt) as [d|err] eqn:E; simpl in *; try done; destruct (http_error err) as [[|]|]; try done.
  assert (forall a, (length (@nil Z) <= n)%nat /\ Forall (fun p => 200 <= p <= 2000) [] /\ request a = request (a + length (@nil Z))%nat) as Hn
    by (intros a; simpl; rewrite Nat.add_0_r; split; [lia|by split]).
  specialize (IH Hn (S attempt)). destruct (request_json request http_error (S attempt) n) as [r pauses].
  destruct IH as (H1 & H2 & H3). simpl. split; [lia|]. split; [|by rewrite H3, Nat.add_succ_r].
  constructor; [|done]. assert (1 <= 2 ^ Z.of_nat attempt); [|lia]. change 1 with (2 ^ 0). apply Z.pow_le_mono_r; lia.
Qed.

Section Facts.
Context (cfg : MementosWorkerConfig) (wp : WorkerPorts) (worker_id : string).
Notation iso := (wp_isoformat wp).
Notation of_iso := (wp_fromisoformat wp).
Context (iso_inverse : forall d, of_iso (iso d) = Some d) (iso_nonempty : forall d, iso d <> "").

(** ** Announcements *)

(** Everybody else uses the store. *)
Context (others_step : forall n db, rtc (store_step iso of_iso) db (wp_others wp n db)).

Definition reports_on (id : string) (w : WorkerWorld) : list Report :=
  List.filter (fun r => bool_decide (r.(rp_task_id) = id)) w.(ww_reports).

(** A task that was announced has its callback delivered; [claimed] is one that was claimed
    and is not yet announced. *)
Record announced (claimed : option string) (w : WorkerWorld) : Prop := {
  an_keyed : keyed w.(ww_db);
  an_once : forall id, (length (reports_on id w) <= 1)%nat;
  an_delivered : forall id, reports_on id w <> [] -> delivered iso of_iso id w.(ww_db);
  an_claimed : forall id, claimed = Some id -> reports_on id w = [] /\ delivered iso of_iso id w.(ww_db);
}.

Lemma keyed_step db db' : store_step iso of_iso db db' -> keyed db -> keyed db'.
Proof.
  intros Hs Hk. destruct Hs as [now fresh id f db r db' Hf E|now id subject db [|] db' E].
  - by apply (updated_reads iso of_iso iso_inverse iso_nonempty _ _ _ _ _ _ _ Hk Hf E).
  - by apply (claimed_reads iso of_iso iso_inverse iso_nonempty _ _ _ _ _ Hk E).
  - by apply callback_claim_inv in E as ->.
Qed.

Lemma announced_steps c w db : rtc (store_step iso of_iso) w.(ww_db) db -> announced c w ->
  forall t, announced c (mkWorkerWorld db t w.(ww_queue) w.(ww_reports)).
Proof.
  intros Hs [Hk Ho Hd Hc] t.
  assert (keyed db) as Hk' by (clear Ho Hd Hc; induction Hs; eauto using keyed_step).
  assert (forall id, delivered iso of_iso id w.(ww_db) -> delivered iso of_iso id db) as Hdel.
  { intros id. clear -Hs iso_inverse iso_nonempty. induction Hs; eauto using delivered_step. }
  split; [done|exact Ho|intros id H; by apply Hdel, Hd|]. intros id H. destruct (Hc id H). split; [done|by apply Hdel].
Qed.

Notation keeps m := (forall c, triple (announced c) m (fun _ => announced c) (fun _ => announced c)).

Lemma keeps_wait : keeps (wait wp).
Proof.
  intros c w Hw. unfold wait. pose proof (announced_steps c w _ (others_step (ww_tick w) (ww_db w)) Hw (S (ww_tick w))).
  by destruct (wp_interrupt wp (ww_tick w)).
Qed.

Lemma keeps_call {A} (f : nat -> res A) : keeps (call wp f).
Proof.
  intros c. unfold call. eapply triple_bind with (Qm := fun _ => announced c); [by intros w Hw|]. intros tick.
  eapply triple_bind; [apply keeps_wait|]. intros u w Hw. unfold mlift. by destruct (f tick).
Qed.

Lemma keeps_update id f : store_change f -> keeps (store_update wp id f).
Proof.
  intros Hf c. unfold store_update. eapply triple_bind; [apply keeps_wait|]. intros u.
  intros w Hw. unfold mget, mbind_, mlift, set_db, mmodify.
  destruct (update_task _ _ _ _ _ _ _) as [[r db']|e] eqn:E; [|done]. simpl.
  assert (rtc (store_step iso of_iso) (ww_db w) db') as Hs.
  { destruct r as [r|]; [eapply rtc_once, st_update; done|]. unfold update_task in E.
    destruct (dict_get _ _); [|by injection E as <-]. apply res_bind_ok in E as (r0 & _ & E).
    destruct (job_transition _ _ _ _); [destruct (add_audit _ _ _)|]; done. }
  pose proof (keeps_wait c _ (announced_steps c w db' Hs Hw (ww_tick w))) as H.
  unfold mret_. by destruct (wait wp _) as [[?|?] ?].
Qed.

Lemma keeps_ret_ {A} (a : A) : keeps (@mret_ WorkerWorld A a).
Proof. by intros c w Hw. Qed.
Lemma keeps_raise_ {A} e : keeps (@mraise WorkerWorld A e).
Proof. by intros c w Hw. Qed.
Lemma keeps_lift_ {A} (r : res A) : keeps (@mlift WorkerWorld A r).
Proof. intros c w Hw. unfold mlift. by destruct r. Qed.
Lemma keeps_gets_ {A} (f : WorkerWorld -> A) : keeps (mgets f).
Proof. by intros c w Hw. Qed.
Lemma keeps_get_ : keeps (@mget WorkerWorld).
Proof. by intros c w Hw. Qed.
Lemma keeps_bind_ {A B} (m : M WorkerWorld A) (k : A -> M WorkerWorld B) : keeps m -> (forall a, keeps (k a)) -> keeps (mbind_ m k).
Proof. intros Hm Hk c. eapply triple_bind; [apply Hm|]. intros a. apply Hk. Qed.
Lemma keeps_when_ b (m : M WorkerWorld unit) : keeps m -> keeps (mwhen b m).
Proof. intros Hm c. destruct b; [apply Hm|apply keeps_ret_]. Qed.
Lemma keeps_catching {A} (m : M WorkerWorld A) h : keeps m -> (forall e, keeps (h e)) -> keeps (catching m h).
Proof.
  intros Hm Hh c. unfold catching. eapply triple_try; [apply Hm|]. intros e. simpl. destruct (is_exception e); [apply Hh|done].
Qed.

Lemma keeps_find key : keeps (store_find_session wp key).
Proof.
  apply keeps_bind_; [apply keeps_wait|]. intros u. apply keeps_bind_; [apply keeps_get_|]. intros w.
  apply keeps_bind_; [apply keeps_lift_|]. intros r. apply keeps_bind_; [apply keeps_wait|]. intros v. apply keeps_ret_.
Qed.

(** A claim that succeeds leaves the task claimed: nobody had announced it. *)
Lemma claim_announced id subject :
  triple (announced None) (store_claim wp id subject) (fun b => announced (if b then Some id else None)) (fun _ => announced None).
Proof.
  unfold store_claim. eapply triple_bind; [apply keeps_wait|]. intros u w Hw. unfold mget, mbind_, mlift, set_db, mmodify.
  destruct (claim_callback_delivery _ _ _ _ _ _) as [[b db']|e] eqn:E; [|done]. simpl.
  assert (announced (if b then Some id else None) (mkWorkerWorld db' (ww_tick w) (ww_queue w) (ww_reports w))) as Hw'.
  { pose proof (announced_steps None w db' (rtc_once _ _ (st_claim _ _ _ _ _ _ _ _ E)) Hw (ww_tick w)) as [Hk Ho Hd _].
    split; [done..|]. destruct b; [|done]. intros id' [= <-].
    destruct (claimed_reads iso of_iso iso_inverse iso_nonempty _ _ _ _ _ (an_keyed _ _ Hw) E) as (Hk' & Hdel & _).
    split; [|by split]. destruct (reports_on id w) as [|r1 l1] eqn:Er; [done|].
    destruct (an_delivered _ _ Hw id) as [_ (r0 & Hr0 & Hd0)]; [by rewrite Er|].
    apply callback_claim_inv in E as (row & r & Erow & Edec & Hp & _). rewrite (get_of_row _ _ _ _ _ _ Erow Edec) in Hr0. congruence. }
  pose proof (keeps_wait _ _ Hw') as H. unfold mret_. destruct (wait wp _) as [[?|?] ?]; [done|].
  destruct H. split; [done..|]. by intros ? ?.
Qed.

Lemma publish_announced r : r.(rp_task_id) = r.(rp_task_id) ->
  triple (announced (Some r.(rp_task_id))) (publish_report wp r) (fun _ => announced None) (fun _ => announced None).
Proof.
  intros _. unfold publish_report. eapply triple_bind with (Qm := fun _ => announced None); [|intros u; apply keeps_call].
  intros [db t q reports] [Hk Ho Hd Hc]. simpl. destruct (Hc _ eq_refl) as [Hn Hdel]. unfold reports_on in *. simpl in *.
  split; simpl; [done| | |done]; intros id; unfold reports_on; simpl; rewrite List.filter_app; simpl; case_bool_decide as E.
  - subst id. by rewrite Hn.
  - rewrite app_nil_r. apply Ho.
  - by subst id.
  - rewrite app_nil_r. apply Hd.
Qed.

Lemma report_announced record summary : triple (announced None) (publish_proactive_report wp record summary) (fun _ => announced None) (fun _ => announced None).
Proof.
  unfold publish_proactive_report. destruct (_ || _); [apply keeps_ret_|].
  eapply triple_bind with (Qm := fun _ => announced None).
  { destruct (wp_persona_voice wp); [|apply keeps_ret_]. apply keeps_bind_; [apply keeps_call|]. intros d. apply keeps_ret_. }
  intros [[text intent] style]. destruct (is_empty text); [apply keeps_ret_|].
  eapply triple_bind with (Qm := fun b : bool => announced (if b then Some (lt_id record) else None)).
  - unfold catching. eapply triple_try; [apply claim_announced|]. intros e. simpl. destruct (is_exception e); [|done].
    intros w Hw. exact Hw.
  - intros [|]; [|apply keeps_ret_]. simpl. unfold catching. eapply triple_try; [by apply (publish_announced (report_of record intent text style))|].
    intros e. simpl. destruct (is_exception e); [|done]. intros w Hw. exact Hw.
Qed.

Notation keeps_unclaimed m := (triple (announced None) m (fun _ => announced None) (fun _ => announced None)).
Lemma unclaimed {A} (m : M WorkerWorld A) : keeps m -> keeps_unclaimed m.
Proof. intros H. apply H. Qed.
Lemma unclaimed_bind {A B} (m : M WorkerWorld A) (k : A -> M WorkerWorld B) :
  keeps_unclaimed m -> (forall a, keeps_unclaimed (k a)) -> keeps_unclaimed (mbind_ m k).
Proof. intros Hm Hk. eapply triple_bind; [apply Hm|]. intros a. apply Hk. Qed.

Lemma summary_announced record text : keeps_unclaimed (summarize_result_for_tts wp record text).
Proof.
  unfold summarize_result_for_tts. destruct (wp_summarize wp) as [f|]; [|apply keeps_ret_]. destruct (is_empty _); [apply keeps_ret_|].
  apply unclaimed, keeps_bind_.
  - apply keeps_catching; [|intros e; apply keeps_ret_]. apply keeps_bind_; [apply keeps_call|]. intros s. apply keeps_ret_.
  - intros [s|]; [|apply keeps_ret_]. apply keeps_bind_; [|intros u; apply keeps_ret_]. apply keeps_when_.
    apply keeps_bind_; [apply keeps_update; constructor|]. intros u. apply keeps_ret_.
Qed.

Lemma poll_once_announced record sid last : keeps_unclaimed (poll_once wp record sid last).
Proof.
  unfold poll_once. apply unclaimed_bind; [apply keeps_call|]. intros d. apply unclaimed_bind; [apply keeps_lift_|]. intros evs.
  destruct (terminal_event _ _) as [t|].
  - apply unclaimed_bind; [|intros u; apply keeps_ret_]. destruct (bool_decide _).
    + apply unclaimed_bind; [apply keeps_update; constructor|]. intros u. apply unclaimed_bind; [apply summary_announced|].
      intros s. apply report_announced.
    + apply unclaimed_bind; [apply keeps_update; constructor|]. intros u. apply keeps_ret_.
  - apply unclaimed, keeps_bind_; [apply keeps_update; constructor|]. intros u. apply keeps_bind_; [apply keeps_wait|]. intros v. apply keeps_ret_.
Qed.

Lemma poll_announced fuel deadline record sid : forall last, keeps_unclaimed (poll_until wp fuel deadline record sid last).
Proof.
  induction fuel as [|fuel IH]; intros last; simpl; [apply keeps_ret_|]. apply unclaimed_bind; [apply keeps_gets_|]. intros t.
  destruct (t <? deadline).
  - apply unclaimed_bind; [apply poll_once_announced|]. intros [[|] l]; simpl; [apply keeps_ret_|apply IH].
  - apply unclaimed, keeps_bind_; [apply keeps_update; constructor|]. intros u. apply keeps_ret_.
Qed.

Lemma handle_announced fuel record : keeps_unclaimed (handle cfg wp worker_id fuel record).
Proof.
  unfold handle. apply unclaimed_bind; [apply keeps_gets_|]. intros now. apply unclaimed_bind; [apply keeps_update; constructor|]. intros u.
  unfold catching. eapply triple_try with (Em := fun _ => announced None).
  - unfold execute. apply unclaimed_bind; [apply keeps_find|]. intros known. apply unclaimed_bind.
    { destruct known; [apply keeps_ret_|]. apply unclaimed, keeps_bind_; [apply keeps_call|]. intros d. apply keeps_lift_. }
    intros sid. destruct (is_empty sid); [apply keeps_raise_|]. apply unclaimed_bind; [apply keeps_call|]. intros posted.
    apply unclaimed_bind; [apply keeps_update; constructor|]. intros v. unfold poll_until_done.
    apply unclaimed_bind; [apply keeps_gets_|]. intros start. apply poll_announced.
  - intros e. simpl. destruct (is_exception e); [|done]. apply unclaimed, keeps_bind_; [apply keeps_update; constructor|]. intros v. apply keeps_ret_.
Qed.

Lemma drain_announced fuel : keeps_unclaimed (drain_once cfg wp worker_id fuel).
Proof.
  unfold drain_once. apply unclaimed_bind; [apply keeps_get_|]. intros w. destruct (ww_queue w) as [|record rest]; [apply keeps_ret_|].
  apply unclaimed_bind.
  { intros w' [? ? ? ?]. by split. }
  intros u. apply unclaimed_bind; [apply handle_announced|]. intros v. apply keeps_ret_.
Qed.
Lemma work_announced fuels : forall w, announced None w -> announced None (work cfg wp worker_id fuels w).
Proof.
  induction fuels as [|fuel fuels IH]; simpl; [done|]. intros w Hw. apply IH.
  pose proof (drain_announced fuel w Hw) as H. by destruct (drain_once cfg wp worker_id fuel w) as [[?|?] ?].
Qed.
End Facts.


(** ** Samples *)

Definition run_end (content : string) : pyval :=
  VDict [("event_type", VStr "RUN_END"); ("payload", VDict [("content", VStr content)])].

(** A sidecar that keeps all messages of its session; [before] are those of earlier tasks. *)
Definition sample_ports (before : list pyval) : WorkerPorts :=
  mkWorkerPorts (fun n => mkDatetime (Z.of_nat n) (Some 0)) Z.of_nat (fun n => digits_of (Pos.of_succ_nat n)) (fun _ db => db)
    (fun _ => None) (fun _ _ => Ok [("session", VDict [("id", VStr "s1")])]) (fun _ _ _ => Ok [])
    (fun _ _ => Ok [("messages", VList before)]) None None true (fun _ _ => Ok tt) sample_iso sample_of_iso (fun s => s)
    (fun _ => None) (fun _ => None).
Definition sample_worker : MementosWorkerConfig := mkWorkerConfig 256 1000 0.
Definition sample_start : WorkerWorld :=
  mkWorkerWorld (accept_task sample_iso sample_now sample_task (mkJobDb [] [])) 0 [sample_task; sample_task] [].
Notation sample_worked := (work sample_worker (sample_ports [run_end "done"]) "agent-1" [3; 3]%nat sample_start).

Lemma sample_reports : length (reports_on "t1" sample_worked) = 1%nat.
Proof. vm_compute. reflexivity. Qed.


(** The sessions of a key are reused, and the newest terminal event of the session ends the
    polling: a task in a session with an earlier run completes at once with that run's result. *)
Example stale_result_is_reported :
  match (handle sample_worker (sample_ports [run_end "the previous result"]) "agent-1" 1 sample_task sample_start) with
  | (Ok (Some _), w) =>
      match get_task sample_iso sample_of_iso "t1" w.(ww_db) with
      | Ok (Some r) => bool_decide (lt_status r = LT_SUCCEEDED) && bool_decide (lt_result_text r = Some "the previous result")
      | _ => false
      end
  | _ => false
  end = true.
Proof. vm_compute. reflexivity. Qed.

(** A task cancelled while it waits in the queue is executed, and succeeds with the error of its cancellation. *)
Example cancelled_task_is_executed :
  let ports := sample_ports [run_end "done"] in
  let cancelled := (cancel_long_task ports "t1" "owner" sample_start).2 in
  match (drain_once sample_worker ports "agent-1" 3 cancelled) with
  | (Ok true, w) =>
      match get_task sample_iso sample_of_iso "t1" w.(ww_db) with
      | Ok (Some r) => bool_decide (lt_status r = LT_SUCCEEDED) && bool_decide (lt_error_code r = Some "admin_cancelled")
      | _ => false
      end
  | _ => false
  end = true.
Proof. vm_compute. reflexivity. Qed.
