(* ===== verification/Fanout.v ===== *)
(** * [domain/history/fanout.py]: a completed turn leaves for the memory, through the outbox
      or the bus, and for the emotion service.

    The memory contract's types are the SDK's: the envelope they make of a turn is a
    parameter, as are the bus, the outbox and the status sink. Effects are logged in order. *)

From S2P Require Import Prelude CoreTypes Effects.
#[local] Open Scope eff_scope.

Notation FDict := (list (string * pyval)) (only parsing).

(** The arguments of [publish_turn]. *)
Record FanoutTurn := mkFanoutTurn {
  fo_owner_id : string;
  fo_companion_id : string;
  fo_memory_realm_id : string;
  fo_device_id : option string;
  fo_session_id : option string;
  fo_turn_id : string;
  fo_user_text : string;
  fo_assistant_text : string;
  fo_timestamp_iso : string;
  fo_person_id : option string;
  fo_identity_epoch : option Z;
  fo_trace_id : option string;
  fo_emotion_payload : FDict;
  fo_metadata : FDict;
}.

(** The status without its wall-clock stamp. *)
Record MemoryFanoutStatus := mkFanoutStatus {
  fs_turn_id : string;
  fs_owner_id : string;
  fs_companion_id : string;
  fs_memory_realm_id : string;
  fs_memory_space_id : string;
  fs_subject : option string;
  fs_state : string;
  fs_error : option string;
  fs_trace_id : string;
}.

Inductive FanoutEffect :=
  | FEnqueue (turn_id owner_id companion_id subject : string) (payload : FDict) (trace_id : string)
  | FPublish (subject : string) (payload : FDict) (msg_id : string)
  | FStatus (s : MemoryFanoutStatus).

(** What the turn is to the memory contract: the space, the envelope for a trace and the plain dump. *)
Record TurnPayload := mkTurnPayload { tp_space_id : string; tp_envelope : string -> FDict; tp_dump : FDict }.

Record FanoutPorts := mkFanoutPorts {
  fp_bus : option (nat -> string -> res unit);
  fp_outbox : option (nat -> res unit);
  (** the routing table, and the SDK's default subject of a space *)
  fp_routes : option (string -> res string);
  fp_default_subject : string -> string;
  fp_status_sink : option (nat -> res unit);
  fp_turn_payload : FanoutTurn -> FDict -> res TurnPayload;
}.

Definition FState : Type := list FanoutEffect.

Section Fanout.
Context (fp : FanoutPorts).

Definition is_durable : bool := if fp.(fp_outbox) is Some _ then true else false.

Definition effect (e : FanoutEffect) : M FState unit := mmodify (fun log => log ++ [e]).
Definition answer_of (f : nat -> res unit) : M FState unit := n <-- mgets (fun log : FState => length log) ;; mlift (f n).

(** [except Exception] around a best-effort call *)
Definition best_effort (m : M FState unit) : M FState unit :=
  mtry m (fun e => if is_exception e then Some (mret_ tt) else None).

(** [_record_status] *)
Definition record_status (s : MemoryFanoutStatus) : M FState unit :=
  match fp.(fp_status_sink) with
  | None => mret_ tt
  | Some sink => best_effort (effect (FStatus s) ;;; answer_of sink)
  end.

(** [_status] *)
Definition status_of (t : FanoutTurn) (space : string) (subject : option string) (state : string) (error : option string) : MemoryFanoutStatus :=
  mkFanoutStatus t.(fo_turn_id) t.(fo_owner_id) t.(fo_companion_id) t.(fo_memory_realm_id) space subject state error
    (opt_or t.(fo_trace_id) t.(fo_turn_id)).

Definition payload_metadata (t : FanoutTurn) : FDict :=
  fold_left (fun d '(k, v) => dict_set d k v) t.(fo_metadata)
    [("source", VStr "eidolon-agent"); ("source_project", VStr "eidolon_agent"); ("source_component", VStr "history.fanout");
     ("source_turn_id", VStr t.(fo_turn_id)); ("owner_id", VStr t.(fo_owner_id)); ("companion_id", VStr t.(fo_companion_id));
     ("memory_realm_id", VStr t.(fo_memory_realm_id))].

(** [self._bus.publish(...)]; without a bus this is an attribute error. *)
Definition bus_publish (subject : string) (payload : FDict) (msg_id : string) : M FState unit :=
  match fp.(fp_bus) with
  | None => mraise (PyError "AttributeError" "'NoneType' object has no attribute 'publish'")
  | Some publish => effect (FPublish subject payload msg_id) ;;; answer_of (fun n => publish n subject)
  end.

(** The subject of the memory turn. *)
Definition render_subject (space : string) : res string :=
  match fp.(fp_routes) with Some render => render space | None => Ok (fp.(fp_default_subject) space) end.

(** The delivery to the memory, under its handler. *)
Definition deliver (t : FanoutTurn) (p : TurnPayload) : M FState MemoryFanoutStatus :=
  let trace := opt_or t.(fo_trace_id) t.(fo_turn_id) in
  let payload := p.(tp_envelope) trace in
  match render_subject p.(tp_space_id) with
  | Err e =>
      if is_exception e then mret_ (status_of t p.(tp_space_id) None "delivery_failed" (Some (exn_str e))) else mraise e
  | Ok subject =>
      mtry
        (state <-- match fp.(fp_outbox) with
                   | Some enqueue =>
                       effect (FEnqueue t.(fo_turn_id) t.(fo_owner_id) t.(fo_companion_id) subject payload trace) ;;;
                       answer_of enqueue ;;; mret_ "queued"
                   | None => bus_publish subject payload t.(fo_turn_id) ;;; mret_ "published"
                   end ;;
         mret_ (status_of t p.(tp_space_id) (Some subject) state None))
        (fun e => if is_exception e
                  then Some (mret_ (status_of t p.(tp_space_id) (Some subject) "delivery_failed" (Some (exn_str e)))) else None)
  end.

(** [publish_turn] *)
Definition publish_turn (t : FanoutTurn) : M FState MemoryFanoutStatus :=
  match fp.(fp_bus), fp.(fp_outbox) with
  | None, None =>
      let status := status_of t t.(fo_memory_realm_id) None "skipped_no_bus" None in
      record_status status ;;; mret_ status
  | _, _ =>
      p <-- mlift (fp.(fp_turn_payload) t (payload_metadata t)) ;;
      status <-- deliver t p ;;
      record_status status ;;;
      mwhen (negb (bool_decide (length t.(fo_emotion_payload) = 0%nat)) && bool_decide (t.(fo_person_id) = None))
        (best_effort (bus_publish ("agent.emotion.turn." +:+ t.(fo_owner_id))%string
                        (dict_set p.(tp_dump) "emotion" (VDict t.(fo_emotion_payload))) t.(fo_turn_id))) ;;;
      mret_ status
  end.

(** ** Facts *)

Definition is_delivery (e : FanoutEffect) : bool := match e with FEnqueue _ _ _ _ _ _ => true | _ => false end.

(** With an outbox the memory turn is only enqueued, in the scope of the turn; the bus gets at
    most the emotion, and nothing of a turn of a known person. *)
Definition durable_effect (t : FanoutTurn) (e : FanoutEffect) : Prop :=
  match e with
  | FEnqueue turn_id owner companion _ _ trace =>
      turn_id = t.(fo_turn_id) /\ owner = t.(fo_owner_id) /\ companion = t.(fo_companion_id) /\ trace = opt_or t.(fo_trace_id) t.(fo_turn_id)
  | FPublish subject _ _ => subject = ("agent.emotion.turn." +:+ t.(fo_owner_id))%string /\ t.(fo_person_id) = None
  | FStatus s => s.(fs_turn_id) = t.(fo_turn_id) /\ s.(fs_owner_id) = t.(fo_owner_id)
  end.

Definition extends (Q : FanoutEffect -> Prop) (s s' : FState) : Prop := exists l, s' = s ++ l /\ Forall Q l.

#[local] Instance extends_preorder Q : PreOrder (extends Q).
Proof.
  split; [intros s; exists []; by rewrite app_nil_r|]. intros s1 s2 s3 (l1 & -> & H1) (l2 & -> & H2).
  exists (l1 ++ l2). rewrite app_assoc. split; [done|]. by apply Forall_app.
Qed.

Lemma extends_effect Q e : Q e -> preserves (extends Q) (effect e).
Proof. intros H s. simpl. exists [e]. split; [done|]. by constructor. Qed.
Lemma extends_outcome Q f : preserves (extends Q) (answer_of f).
Proof. intros s. unfold answer_of. simpl. reflexivity. Qed.

Lemma extends_bus Q subject payload msg : Q (FPublish subject payload msg) -> preserves (extends Q) (bus_publish subject payload msg).
Proof.
  intros H. unfold bus_publish. destruct (fp_bus fp); [|apply preserves_raise; typeclasses eauto].
  apply preserves_bind; [typeclasses eauto|by apply extends_effect|]. intros ?. apply extends_outcome.
Qed.

Lemma extends_best Q m : preserves (extends Q) m -> preserves (extends Q) (best_effort m).
Proof.
  intros H. apply preserves_try; [typeclasses eauto|done|]. intros e k. destruct (is_exception e); [|done]. intros [= <-].
  apply preserves_ret; typeclasses eauto.
Qed.

Lemma extends_status Q s : Q (FStatus s) -> preserves (extends Q) (record_status s).
Proof.
  intros H. unfold record_status. destruct (fp_status_sink fp); [|apply preserves_ret; typeclasses eauto].
  apply extends_best, preserves_bind; [typeclasses eauto|by apply extends_effect|]. intros ?. apply extends_outcome.
Qed.

Definition of_turn (t : FanoutTurn) (s : MemoryFanoutStatus) : Prop := s.(fs_turn_id) = t.(fo_turn_id) /\ s.(fs_owner_id) = t.(fo_owner_id).

Lemma deliver_returns t p : returns (deliver t p) (of_turn t).
Proof.
  unfold deliver. destruct (render_subject _) as [subject|e].
  - intros s a s'. unfold mtry. match goal with |- context [mbind_ ?m ?k s] =>
      assert (returns (mbind_ m k) (of_turn t)) as H by (apply returns_bind; intros ?; by apply returns_ret);
      specialize (H s); destruct (mbind_ m k s) as [[v|e] s1] end.
    + intros [= <- <-]. by eapply H.
    + destruct (is_exception e); [|done]. by intros [= <- <-].
  - destruct (is_exception e); [by apply returns_ret|apply returns_raise].
Qed.

Lemma deliver_durable t p enqueue : fp.(fp_outbox) = Some enqueue -> preserves (extends (durable_effect t)) (deliver t p).
Proof.
  intros Ho. unfold deliver. destruct (render_subject _) as [subject|e].
  - rewrite Ho. apply preserves_try; [typeclasses eauto| |].
    + apply preserves_bind; [typeclasses eauto| |intros ?; apply preserves_ret; typeclasses eauto].
      apply preserves_bind; [typeclasses eauto|by apply extends_effect|]. intros ?.
      apply preserves_bind; [typeclasses eauto|apply extends_outcome|]. intros ?. apply preserves_ret; typeclasses eauto.
    + intros e k. destruct (is_exception e); [|done]. intros [= <-]. apply preserves_ret; typeclasses eauto.
  - destruct (is_exception e); [apply preserves_ret|apply preserves_raise]; typeclasses eauto.
Qed.

Lemma durable_fanout t enqueue : fp.(fp_outbox) = Some enqueue -> preserves (extends (durable_effect t)) (publish_turn t).
Proof.
  intros Ho. unfold publish_turn. rewrite Ho.
  assert (preserves (extends (durable_effect t))
    (p <-- mlift (fp.(fp_turn_payload) t (payload_metadata t)) ;; status <-- deliver t p ;; record_status status ;;;
     mwhen (negb (bool_decide (length t.(fo_emotion_payload) = 0%nat)) && bool_decide (t.(fo_person_id) = None))
        (best_effort (bus_publish ("agent.emotion.turn." +:+ t.(fo_owner_id))%string
                        (dict_set p.(tp_dump) "emotion" (VDict t.(fo_emotion_payload))) t.(fo_turn_id))) ;;; mret_ status)) as H; [|by destruct (fp_bus fp)].
  apply preserves_bind; [typeclasses eauto|apply preserves_lift; typeclasses eauto|]. intros p.
  eapply preserves_bind_with; [typeclasses eauto|by eapply deliver_durable|apply deliver_returns|]. intros s [Hs1 Hs2].
  apply preserves_bind; [typeclasses eauto|by apply extends_status|]. intros ?.
  apply preserves_bind; [typeclasses eauto| |intros ?; apply preserves_ret; typeclasses eauto].
  apply preserves_when; [typeclasses eauto|]. intros [_ Hp%bool_decide_eq_true]%andb_true_iff.
  by apply extends_best, extends_bus.
Qed.
End Fanout.
