(* ===== verification/Registry.v ===== *)
(** * [domain/agent/registry.py]: the registry of companion runtimes.

    [resolve_runtime] looks the runtime up, and otherwise creates it under a lock, looking
    again first. Its calls are tasks of a step relation whose steps are the stretches
    between awaits: the look-up, the acquisition of the lock with the second look-up, and
    the return of the factory. *)

From S2P Require Import Prelude.

Record AgentInstance := mkInstance {
  ai_owner_id : string;
  ai_companion_id : string;
  ai_genome_id : string;
  ai_created_at : Z;
  ai_last_active_at : option Z;
  (** the agent the factory made *)
  ai_agent : nat;
}.

Record Binding := mkBinding { bd_owner_id : string; bd_companion_id : string; bd_genome_id : option string }.

(** [(genome_id or "").strip()] *)
Definition resolved_genome (b : Binding) : string := py_strip (default "" b.(bd_genome_id)).

Definition registry_key (b : Binding) : string :=
  (b.(bd_owner_id) +:+ ":" +:+ b.(bd_companion_id) +:+ ":" +:+ resolved_genome b)%string.

Definition no_genome : exn := Eidolon NotFoundError "runtime binding does not pin a persona genome".

Definition touch (now : Z) (i : AgentInstance) : AgentInstance :=
  mkInstance i.(ai_owner_id) i.(ai_companion_id) i.(ai_genome_id) i.(ai_created_at) (Some now) i.(ai_agent).

Definition new_instance (now : Z) (b : Binding) (agent : nat) : AgentInstance :=
  mkInstance b.(bd_owner_id) b.(bd_companion_id) (resolved_genome b) now (Some now) agent.

(** Where a call stands. *)
Inductive Call :=
  | Waiting (b : Binding)
  | Creating (b : Binding) (created_at : Z)
  | Returned (b : Binding) (agent : nat)
  | Raised (b : Binding) (e : exn).

Record AgentRegistry := mkRegistry {
  rg_instances : list (string * AgentInstance);
  rg_locked : bool;
  rg_calls : list Call;
  (** agents made so far *)
  rg_made : nat;
}.

Definition empty_registry : AgentRegistry := mkRegistry [] false [] 0.

Definition with_call (n : nat) (c : Call) (r : AgentRegistry) : AgentRegistry :=
  mkRegistry r.(rg_instances) r.(rg_locked) (<[n := c]> r.(rg_calls)) r.(rg_made).
Definition with_lock (b : bool) (r : AgentRegistry) : AgentRegistry :=
  mkRegistry r.(rg_instances) b r.(rg_calls) r.(rg_made).

(** The look-up, which marks the runtime as used. *)
Definition look_up (now : Z) (b : Binding) (r : AgentRegistry) : option (nat * AgentRegistry) :=
  match dict_get r.(rg_instances) (registry_key b) with
  | None => None
  | Some i => Some (i.(ai_agent), mkRegistry (dict_set r.(rg_instances) (registry_key b) (touch now i)) r.(rg_locked) r.(rg_calls) r.(rg_made))
  end.

(** A new call, up to its first wait. *)
Definition resolve_start (now : Z) (b : Binding) (r : AgentRegistry) : AgentRegistry :=
  let add c r := mkRegistry r.(rg_instances) r.(rg_locked) (r.(rg_calls) ++ [c]) r.(rg_made) in
  if is_empty (resolved_genome b) then add (Raised b no_genome) r
  else match look_up now b r with
       | Some (agent, r) => add (Returned b agent) r
       | None => add (Waiting b) r
       end.

(** The call holds the lock: it looks again, and calls the factory or returns and releases. *)
Definition resolve_locked (now : Z) (n : nat) (b : Binding) (r : AgentRegistry) : AgentRegistry :=
  match look_up now b r with
  | Some (agent, r) => with_call n (Returned b agent) r
  | None => with_lock true (with_call n (Creating b now) r)
  end.

(** The factory returned a new agent, or raised. *)
Definition resolve_created (n : nat) (b : Binding) (created_at : Z) (made : res unit) (r : AgentRegistry) : AgentRegistry :=
  match made with
  | Ok _ =>
      let agent := r.(rg_made) in
      mkRegistry (dict_set r.(rg_instances) (registry_key b) (new_instance created_at b agent)) false
        (<[n := Returned b agent]> r.(rg_calls)) (S agent)
  | Err e => with_lock false (with_call n (Raised b e) r)
  end.

(** The tasks interleave freely; a waiting call may be cancelled. *)
Inductive registry_step : AgentRegistry -> AgentRegistry -> Prop :=
  | rs_start now b r : registry_step r (resolve_start now b r)
  | rs_lock now n b r : r.(rg_calls) !! n = Some (Waiting b) -> r.(rg_locked) = false -> registry_step r (resolve_locked now n b r)
  | rs_created n b at_ made r : r.(rg_calls) !! n = Some (Creating b at_) -> registry_step r (resolve_created n b at_ made r)
  | rs_cancel n b r : r.(rg_calls) !! n = Some (Waiting b) -> registry_step r (with_call n (Raised b Cancelled) r).

(** [list_instances] and [for_owner] *)
Definition list_instances (r : AgentRegistry) : list AgentInstance := r.(rg_instances).*2.
Definition last_use (i : AgentInstance) : Z := default i.(ai_created_at) i.(ai_last_active_at).
Definition for_owner (owner_id : string) (r : AgentRegistry) : list AgentInstance :=
  py_sorted (fun a b => last_use b <=? last_use a) (List.filter (fun i => bool_decide (i.(ai_owner_id) = owner_id)) (list_instances r)).

(** ** One runtime per key *)

Definition is_creating (c : Call) : bool := if c is Creating _ _ then true else false.

Record registry_ok (r : AgentRegistry) : Prop := {
  ro_keys : NoDup r.(rg_instances).*1;
  ro_lock : forall n b at_, r.(rg_calls) !! n = Some (Creating b at_) ->
              r.(rg_locked) = true /\ dict_get r.(rg_instances) (registry_key b) = None;
  ro_one : forall n m b b' t t', r.(rg_calls) !! n = Some (Creating b t) -> r.(rg_calls) !! m = Some (Creating b' t') -> n = m;
  ro_returned : forall n b agent, r.(rg_calls) !! n = Some (Returned b agent) ->
              exists i, dict_get r.(rg_instances) (registry_key b) = Some i /\ i.(ai_agent) = agent;
}.

Lemma look_up_some now b r agent r' : look_up now b r = Some (agent, r') ->
  exists i, dict_get r.(rg_instances) (registry_key b) = Some i /\ i.(ai_agent) = agent /\
    r' = mkRegistry (dict_set r.(rg_instances) (registry_key b) (touch now i)) r.(rg_locked) r.(rg_calls) r.(rg_made).
Proof. unfold look_up. destruct (dict_get _ _) as [i|]; [|done]. intros [= <- <-]. by exists i. Qed.

Lemma look_up_none now b r : look_up now b r = None -> dict_get r.(rg_instances) (registry_key b) = None.
Proof. unfold look_up. by destruct (dict_get _ _). Qed.

(** The agents of the stored runtimes, by key. *)
Definition agent_at (r : AgentRegistry) (k : string) : option nat := ai_agent <$> dict_get r.(rg_instances) k.

Lemma ok_touch now b r i : registry_ok r -> dict_get r.(rg_instances) (registry_key b) = Some i ->
  registry_ok (mkRegistry (dict_set r.(rg_instances) (registry_key b) (touch now i)) r.(rg_locked) r.(rg_calls) r.(rg_made)).
Proof.
  intros [Hk Hl H1 Hr] Hi. split; simpl.
  - by apply dict_set_nodup.
  - intros n b' t Hc. destruct (Hl n b' t Hc) as [? Hn]. split; [done|].
    destruct (decide (registry_key b = registry_key b')) as [E|Hne]; [congruence|by rewrite dict_get_set_ne].
  - exact H1.
  - intros n b' agent Hc. destruct (Hr n b' agent Hc) as (i' & Hi' & Ha).
    destruct (decide (registry_key b = registry_key b')) as [E|Hne].
    + rewrite <- E in *. rewrite dict_get_set_eq. eexists. split; [done|]. simpl. congruence.
    + rewrite dict_get_set_ne by done. eauto.
Qed.

(** A call becomes one that is not creating. *)
Lemma ok_call r n c : registry_ok r -> is_creating c = false ->
  (forall b agent, c = Returned b agent -> exists i, dict_get r.(rg_instances) (registry_key b) = Some i /\ i.(ai_agent) = agent) ->
  registry_ok (with_call n c r).
Proof.
  intros [Hk Hl H1 Hr] Hc Hret. split; simpl; [done|..].
  - intros m b t Hm. apply list_lookup_insert_Some in Hm as [(-> & -> & _)|[_ Hm]]; [done|by eapply Hl].
  - intros m m' b b' t t' Hm Hm'.
    apply list_lookup_insert_Some in Hm as [(-> & -> & _)|[_ Hm]]; [done|].
    apply list_lookup_insert_Some in Hm' as [(-> & -> & _)|[_ Hm']]; [done|]. by eapply H1.
  - intros m b agent Hm. apply list_lookup_insert_Some in Hm as [(-> & -> & _)|[_ Hm]]; [by apply Hret|by eapply Hr].
Qed.

Lemma ok_add r c : registry_ok r -> is_creating c = false ->
  (forall b agent, c = Returned b agent -> exists i, dict_get r.(rg_instances) (registry_key b) = Some i /\ i.(ai_agent) = agent) ->
  registry_ok (mkRegistry r.(rg_instances) r.(rg_locked) (r.(rg_calls) ++ [c]) r.(rg_made)).
Proof.
  intros [Hk Hl H1 Hr] Hc Hret.
  assert (forall m c', (r.(rg_calls) ++ [c]) !! m = Some c' -> r.(rg_calls) !! m = Some c' \/ c' = c) as Hin.
  { intros m c' [Hm|[Hlen Hm]]%lookup_app_Some; [by left|]. apply list_lookup_singleton_Some in Hm as [_ <-]. by right. }
  split; simpl; [done|..].
  - intros m b t [Hm|<-]%Hin; [by eapply Hl|done].
  - intros m m' b b' t t' [Hm|<-]%Hin; [|done]. intros [Hm'|<-]%Hin; [|done]. by eapply H1.
  - intros m b agent [Hm|Hm]%Hin; [by eapply Hr|by apply Hret].
Qed.

Lemma registry_step_ok r r' : registry_step r r' -> registry_ok r -> registry_ok r'.
Proof.
  intros Hs Hok. destruct Hs as [now b r|now n b r Hn Hl|n b t made r Hn|n b r Hn].
  - unfold resolve_start. destruct (is_empty _); [by apply ok_add|]. destruct (look_up now b r) as [[agent r']|] eqn:E; [|by apply ok_add].
    apply look_up_some in E as (i & Hi & <- & ->). apply (ok_add (mkRegistry _ _ _ _)); [by apply ok_touch|done|].
    intros b' agent [= <- <-]. simpl. rewrite dict_get_set_eq. eauto.
  - unfold resolve_locked. destruct (look_up now b r) as [[agent r']|] eqn:E.
    + apply look_up_some in E as (i & Hi & <- & ->). apply ok_call; [by apply ok_touch|done|].
      intros b' agent [= <- <-]. simpl. rewrite dict_get_set_eq. eauto.
    + apply look_up_none in E. destruct Hok as [Hk Hlk H1 Hr]. split; simpl; [done|..].
      * intros m b' t Hm. apply list_lookup_insert_Some in Hm as [(_ & [= <- <-] & _)|[_ Hm]]; [done|].
        destruct (Hlk _ _ _ Hm). congruence.
      * intros m m' b1 b2 t1 t2 Hm Hm'.
        apply list_lookup_insert_Some in Hm as [(<- & _ & _)|[_ Hm]]; [|destruct (Hlk _ _ _ Hm); congruence].
        apply list_lookup_insert_Some in Hm' as [(<- & _ & _)|[_ Hm']]; [done|destruct (Hlk _ _ _ Hm'); congruence].
      * intros m b' agent Hm. apply list_lookup_insert_Some in Hm as [(_ & ? & _)|[_ Hm]]; [done|by eapply Hr].
  - destruct made as [[]|e]; simpl.
    + destruct Hok as [Hk Hlk H1 Hr]. destruct (Hlk _ _ _ Hn) as [_ Hnone].
      assert (forall m b' t', (<[n := Returned b r.(rg_made)]> r.(rg_calls)) !! m = Some (Creating b' t') -> False) as Hno.
      { intros m b' t' Hm. apply list_lookup_insert_Some in Hm as [(_ & ? & _)|[Hne Hm]]; [done|]. apply Hne. by eapply H1. }
      split; simpl; [by apply dict_set_nodup|by intros ? ? ? ?%Hno|by intros ? ? ? ? ? ? ?%Hno|].
      intros m b' agent Hm. apply list_lookup_insert_Some in Hm as [(_ & [= <- <-] & _)|[Hne Hm]].
      * rewrite dict_get_set_eq. eauto.
      * destruct (Hr _ _ _ Hm) as (i & Hi & Ha). rewrite dict_get_set_ne by congruence. eauto.
    + assert (registry_ok (with_call n (Raised b e) r)) as [Hk Hlk H1 Hr] by (by apply ok_call).
      split; simpl in *; [done| |done|done]. intros m b' t' Hm.
      pose proof Hm as Hm0. apply list_lookup_insert_Some in Hm0 as [(_ & ? & _)|[Hne Hm0]]; [done|].
      destruct Hne. by eapply (ro_one _ Hok).
  - by apply ok_call.
Qed.

Lemma empty_registry_ok : registry_ok empty_registry.
Proof. split; simpl; [constructor|by intros ? ? ? ?..]. Qed.

Lemma reachable_registry r : rtc registry_step empty_registry r -> registry_ok r.
Proof.
  intros H. assert (forall r0, registry_ok r0 -> rtc registry_step r0 r -> registry_ok r) as Hr; [|by apply (Hr empty_registry), H; apply empty_registry_ok].
  clear H. intros r0 H0 H. induction H; eauto using registry_step_ok.
Qed.

(** However calls interleave, at most one creates a runtime at a time, and all calls that
    returned for a key returned the same agent, the one in the registry. *)
Lemma one_runtime_per_key r n m b b' agent agent' : rtc registry_step empty_registry r ->
  r.(rg_calls) !! n = Some (Returned b agent) -> r.(rg_calls) !! m = Some (Returned b' agent') ->
  registry_key b = registry_key b' -> agent = agent'.
Proof.
  intros H%reachable_registry Hn Hm E. destruct (ro_returned _ H _ _ _ Hn) as (i & Hi & <-).
  destruct (ro_returned _ H _ _ _ Hm) as (i' & Hi' & <-). congruence.
Qed.

(** The key joins the ids with colons, so ids that contain one can share a runtime. *)
Example colon_ids_share_a_runtime :
  let b1 := mkBinding "alice" "x:y" (Some "g") in
  let b2 := mkBinding "alice:x" "y" (Some "g") in
  let r := resolve_created 0 b1 0 (Ok tt) (resolve_locked 0 0 b1 (resolve_start 0 b1 empty_registry)) in
  (resolve_start 1 b2 r).(rg_calls) = [Returned b1 0; Returned b2 0].
Proof. reflexivity. Qed.
