(* ===== verification/RuntimeSession.v ===== *)
(** * [domain/runtime_session.py], [core/types/companion_runtime.py] and
      [infra/persistence/eidolon_data_persona.py]: the authority facts of one authenticated
      session and the genomes read from them.

    The System Data authority and the SDK's validation of conversation preferences are
    parameters. *)

From S2P Require Import Prelude CoreTypes Json ContextText Personas.

(** ** The runtime configuration *)

Notation RDict := (list (string * pyval)) (only parsing).

Definition config_error (msg : string) : exn := PyError "ValueError" msg.

Fixpoint identifiers (field_name : string) (l : list pyval) : res (list string) :=
  match l with
  | [] => Ok []
  | VStr s :: l' =>
      if is_empty (py_strip s) then Err (config_error ("runtime_config." +:+ field_name +:+ " entries must be non-empty strings")%string)
      else ids ← identifiers field_name l'; Ok (py_strip s :: ids)
  | _ :: _ => Err (config_error ("runtime_config." +:+ field_name +:+ " entries must be non-empty strings")%string)
  end.

(** [_identifier_set]; the document is JSON, so an array is a list. *)
Definition identifier_set (field_name : string) (value : option pyval) : res (list string) :=
  match value with
  | None | Some VNone => Ok []
  | Some (VList l) => ids ← identifiers field_name l; Ok (remove_dups ids)
  | Some _ => Err (config_error ("runtime_config." +:+ field_name +:+ " must be an array")%string)
  end.

(** A positive integer or nothing. *)
Definition positive_or_none (message : string) (value : option pyval) : res (option Z) :=
  match value with
  | None | Some VNone => Ok None
  | Some (VInt z) => if 0 <? z then Ok (Some z) else Err (config_error message)
  | Some _ => Err (config_error message)
  end.

Section Config.
(** [repr(float(n))] of an integer, which raises when no float is near it. *)
Context (float_of_int : Z -> res string).

(** [CompanionRuntimeConfig.from_authority] *)
Definition from_authority (raw : pyval) : res CompanionRuntimeConfig :=
  match raw with
  | VDict d =>
      model ← match dict_get d "model" with
              | None | Some VNone => Ok None
              | Some (VStr s) => Ok (if is_empty (py_strip s) then None else Some (py_strip s))
              | Some _ => Err (config_error "runtime_config.model must be a string")
              end;
      temperature ← match dict_get d "temperature" with
                    | None => Ok "0.7"
                    | Some (VInt z) => float_of_int z
                    | Some (VFloat r) => Ok r
                    | Some _ => Err (config_error "runtime_config.temperature must be numeric")
                    end;
      tools ← match dict_get d "tools" with
              | None => Ok []
              | Some (VDict t) => Ok t
              | Some _ => Err (config_error "runtime_config.tools must be an object")
              end;
      tool_allow ← identifier_set "tools.allow" (dict_get tools "allow");
      tool_deny ← identifier_set "tools.deny" (dict_get tools "deny");
      body ← match dict_get tools "allow_body_control" with
             | None => Ok true
             | Some (VBool b) => Ok b
             | Some _ => Err (config_error "runtime_config.tools.allow_body_control must be boolean")
             end;
      iters ← positive_or_none "runtime_config.max_tool_iters must be a positive integer" (dict_get d "max_tool_iters");
      output ← positive_or_none "runtime_config.max_output_tokens must be a positive integer" (dict_get d "max_output_tokens");
      Ok (mkRuntimeConfig model temperature tool_allow tool_deny body iters output)
  | _ => Err (config_error "runtime_config must be an object")
  end.

(** ** The authority *)

Record CompanionRuntimeFacts := mkFacts {
  cf_owner_id : string;
  cf_companion_id : string;
  cf_memory_realm_id : string;
  cf_genome_id : string;
  cf_genome_version : Z;
  cf_schema_version : string;
  cf_genome_hash : string;
  cf_realizer_version : string;
  cf_genome : PersonaGenome;
  cf_runtime_config : pyval;
}.

(** The SDK's snapshot of a provisional memory access. *)
Record ProvisionalAccess := mkProvisional {
  pv_owner_id : string;
  pv_person_id : string;
  pv_person_revision : Z;
  pv_session_id : string;
  pv_save_allowed : bool;
  pv_session_recall_allowed : bool;
  pv_realm_id : string;
}.

Record CompanionRuntimeAuthority := mkAuthority {
  (** with the genome it is asked for, if any *)
  at_resolve : string -> string -> option string -> res CompanionRuntimeFacts;
  at_resolve_person_memory : string -> string -> Z -> res string;
  at_resolve_provisional_memory : string -> string -> Z -> string -> res ProvisionalAccess;
}.

(** The claims of a credential. *)
Record Credential := mkCredential {
  cr_owner_id : string;
  cr_companion_id : string;
  cr_device_id : option string;
  cr_session_id : option string;
  cr_person_id : option string;
  cr_identity_epoch : option Z;
  cr_person_revision : option Z;
  cr_source_session_id : option string;
  cr_memory_mode : string;
}.

Record AuthorizedRuntimeSession := mkAuthorized {
  as_runtime : CompanionRuntimeFacts;
  as_device_id : option string;
  as_session_id : string;
  as_config : CompanionRuntimeConfig;
  as_person_id : option string;
  as_source_session_id : option string;
  as_person_revision : option Z;
  as_identity_epoch : option Z;
  as_memory_mode : string;
  as_provisional_memory_save : bool;
  as_provisional_memory_recall : bool;
}.

Definition as_owner_id (s : AuthorizedRuntimeSession) : string := s.(as_runtime).(cf_owner_id).
Definition as_companion_id (s : AuthorizedRuntimeSession) : string := s.(as_runtime).(cf_companion_id).

Definition refused (msg : string) : exn := Eidolon PermissionDeniedError msg.

(** [replace(runtime, memory_realm_id=...)] *)
Definition with_realm (realm : string) (f : CompanionRuntimeFacts) : CompanionRuntimeFacts :=
  mkFacts f.(cf_owner_id) f.(cf_companion_id) realm f.(cf_genome_id) f.(cf_genome_version) f.(cf_schema_version)
    f.(cf_genome_hash) f.(cf_realizer_version) f.(cf_genome) f.(cf_runtime_config).

Definition EMIT_EVENT_TOOL : string := "emit_event".

(** [replace(config, tool_deny=config.tool_deny | {...})] *)
Definition without_side_channels (c : CompanionRuntimeConfig) : CompanionRuntimeConfig :=
  mkRuntimeConfig c.(rc_model) c.(rc_temperature) c.(rc_tool_allow)
    (remove_dups (c.(rc_tool_deny) ++ [DELEGATE_TO_COWORKER_TOOL; EMIT_EVENT_TOOL])) c.(rc_allow_body_control)
    c.(rc_max_tool_iters) c.(rc_max_output_tokens).

(** The checks of the claims alone: the session id they name. *)
Definition check_claims (c : Credential) : res string :=
  if negb (Bool.eqb (bool_decide (c.(cr_person_id) = None)) (bool_decide (c.(cr_identity_epoch) = None)))
  then Err (refused "incomplete personal runtime binding")
  else if match c.(cr_person_id), c.(cr_identity_epoch) with
          | Some p, Some e => is_empty (py_strip p) || (e <? 0)
          | _, _ => false
          end
  then Err (refused "invalid personal runtime binding")
  else if match c.(cr_person_id) with
          | Some _ => match c.(cr_person_revision) with Some r => r <? 1 | None => true end
          | None => false
          end
  then Err (refused "personal runtime requires person revision")
  else if match c.(cr_person_id), c.(cr_person_revision) with None, Some _ => true | _, _ => false end
  then Err (refused "person revision requires personal binding")
  else
    let session_id := py_strip (default "" c.(cr_session_id)) in
    if is_empty session_id then Err (refused "runtime token is not bound to a session")
    else if negb (bool_decide (c.(cr_memory_mode) ∈ ["personal"; "provisional"])) then Err (refused "unsupported runtime memory mode")
    else if bool_decide (c.(cr_memory_mode) = "provisional")
            && (bool_decide (c.(cr_person_id) = None) || negb (bool_decide (c.(cr_source_session_id) = Some session_id)))
    then Err (refused "provisional runtime requires the current source session")
    else Ok session_id.

(** The facts with the memory realm of this person and mode, and the provisional permissions. *)
Definition bind_memory (at_ : CompanionRuntimeAuthority) (c : Credential) (session_id : string) (runtime : CompanionRuntimeFacts)
  : res (CompanionRuntimeFacts * bool * bool) :=
  match c.(cr_person_id), c.(cr_person_revision) with
  | Some person, Some revision =>
      if bool_decide (c.(cr_memory_mode) = "provisional") then
        binding ← at_.(at_resolve_provisional_memory) c.(cr_owner_id) person revision session_id;
        if negb (bool_decide (binding.(pv_owner_id) = c.(cr_owner_id)) && bool_decide (binding.(pv_person_id) = person)
                 && (binding.(pv_person_revision) =? revision) && bool_decide (binding.(pv_session_id) = session_id))
        then Err (refused "provisional authority outside token scope")
        else if negb (binding.(pv_save_allowed) || binding.(pv_session_recall_allowed))
        then Err (refused "provisional save is not permitted")
        else Ok (with_realm binding.(pv_realm_id) runtime, binding.(pv_save_allowed), binding.(pv_session_recall_allowed))
      else
        realm ← at_.(at_resolve_person_memory) c.(cr_owner_id) person revision;
        if is_empty realm then Err (refused "personal runtime has no memory realm") else Ok (with_realm realm runtime, false, false)
  | _, _ => Ok (runtime, false, false)
  end.

Definition is_value_error (e : exn) : bool := match e with PyError cls _ => bool_decide (cls = "ValueError") | _ => false end.

(** [RuntimeSessionAuthorizer.authorize] *)
Definition authorize (at_ : CompanionRuntimeAuthority) (c : Credential) : res AuthorizedRuntimeSession :=
  session_id ← check_claims c;
  runtime ← at_.(at_resolve) c.(cr_owner_id) c.(cr_companion_id) None;
  if negb (bool_decide (runtime.(cf_owner_id) = c.(cr_owner_id)) && bool_decide (runtime.(cf_companion_id) = c.(cr_companion_id)))
  then Err (refused "runtime authority returned facts outside token scope")
  else
    bound ← bind_memory at_ c session_id runtime;
    let '(runtime, save, recall) := bound in
    config ← match from_authority runtime.(cf_runtime_config) with
             | Err e => if is_value_error e then Err (Eidolon ValidationError ("invalid Companion runtime config: " +:+ exn_str e)%string)
                        else Err e
             | Ok config => Ok config
             end;
    let device_id := py_strip (default "" c.(cr_device_id)) in
    Ok (mkAuthorized runtime (if is_empty device_id then None else Some device_id) session_id (without_side_channels config)
          c.(cr_person_id) c.(cr_source_session_id) c.(cr_person_revision) c.(cr_identity_epoch) c.(cr_memory_mode) save recall).

(** ** What a session is *)

(** The memory realm a session may use. *)
Inductive realm_of (at_ : CompanionRuntimeAuthority) (facts : CompanionRuntimeFacts) (s : AuthorizedRuntimeSession) : Prop :=
  | realm_unknown :
      s.(as_person_id) = None -> s.(as_memory_mode) = "personal" -> s.(as_runtime) = facts ->
      s.(as_provisional_memory_save) = false -> s.(as_provisional_memory_recall) = false -> realm_of at_ facts s
  | realm_person person revision realm :
      s.(as_person_id) = Some person -> s.(as_person_revision) = Some revision -> s.(as_memory_mode) = "personal" ->
      at_.(at_resolve_person_memory) s.(as_runtime).(cf_owner_id) person revision = Ok realm -> realm <> "" ->
      s.(as_runtime) = with_realm realm facts ->
      s.(as_provisional_memory_save) = false -> s.(as_provisional_memory_recall) = false -> realm_of at_ facts s
  | realm_provisional person revision b :
      s.(as_person_id) = Some person -> s.(as_person_revision) = Some revision -> s.(as_memory_mode) = "provisional" ->
      s.(as_source_session_id) = Some s.(as_session_id) ->
      at_.(at_resolve_provisional_memory) s.(as_runtime).(cf_owner_id) person revision s.(as_session_id) = Ok b ->
      b.(pv_owner_id) = s.(as_runtime).(cf_owner_id) -> b.(pv_person_id) = person -> b.(pv_person_revision) = revision ->
      b.(pv_session_id) = s.(as_session_id) ->
      s.(as_runtime) = with_realm b.(pv_realm_id) facts ->
      s.(as_provisional_memory_save) = b.(pv_save_allowed) -> s.(as_provisional_memory_recall) = b.(pv_session_recall_allowed) ->
      (b.(pv_save_allowed) = true \/ b.(pv_session_recall_allowed) = true) -> realm_of at_ facts s.

(** A session within the scope of its credential. *)
Record scoped (at_ : CompanionRuntimeAuthority) (c : Credential) (s : AuthorizedRuntimeSession) : Prop := {
  so_facts : exists facts, at_.(at_resolve) c.(cr_owner_id) c.(cr_companion_id) None = Ok facts /\ realm_of at_ facts s;
  so_owner : as_owner_id s = c.(cr_owner_id);
  so_companion : as_companion_id s = c.(cr_companion_id);
  so_session : s.(as_session_id) = py_strip (default "" c.(cr_session_id)) /\ s.(as_session_id) <> "";
  so_person : s.(as_person_id) = c.(cr_person_id) /\ s.(as_person_revision) = c.(cr_person_revision) /\
              s.(as_identity_epoch) = c.(cr_identity_epoch) /\ s.(as_memory_mode) = c.(cr_memory_mode) /\
              s.(as_source_session_id) = c.(cr_source_session_id);
  so_identity : match s.(as_person_id) with
                | None => s.(as_identity_epoch) = None /\ s.(as_person_revision) = None
                | Some p => py_strip p <> "" /\ (exists e, s.(as_identity_epoch) = Some e /\ 0 <= e) /\
                            (exists r, s.(as_person_revision) = Some r /\ 1 <= r)
                end;
  so_device : s.(as_device_id) = (let d := py_strip (default "" c.(cr_device_id)) in if is_empty d then None else Some d);
  so_config : exists config, from_authority s.(as_runtime).(cf_runtime_config) = Ok config /\ s.(as_config) = without_side_channels config;
}.
End Config.

(** ** [RuntimeAuthorityPersonaGenomeStore] *)

Section GenomeStore.
Context (parse_preferences : option pyval -> res ConversationPreferences) (parse_revision : option pyval -> res Z).

(** [_stored] *)
Definition stored_of (facts : CompanionRuntimeFacts) : res StoredPersonaGenome :=
  match facts.(cf_runtime_config) with
  | VDict d =>
      preferences ← parse_preferences (dict_get d "conversation_preferences");
      revision ← parse_revision (dict_get d "preference_revision");
      if facts.(cf_genome_version) <? 1 then Err (invalid "StoredPersonaGenome")
      else Ok (mkStored facts.(cf_owner_id) facts.(cf_companion_id) facts.(cf_genome_id) facts.(cf_genome_hash) facts.(cf_realizer_version)
                 facts.(cf_genome_version) "committed" facts.(cf_genome) preferences revision)
  | _ => Err (PyError "AttributeError" "get")
  end.

Definition load_current (at_ : CompanionRuntimeAuthority) (owner_id companion_id : string) : res StoredPersonaGenome :=
  facts ← at_.(at_resolve) owner_id companion_id None; stored_of facts.

Definition load_pinned (at_ : CompanionRuntimeAuthority) (owner_id companion_id genome_id genome_hash : string) : res StoredPersonaGenome :=
  facts ← at_.(at_resolve) owner_id companion_id (Some genome_id);
  if negb (bool_decide (facts.(cf_genome_hash) = genome_hash))
  then Err (Eidolon ValidationError ("runtime persona pin does not resolve: " +:+ genome_id +:+ "/" +:+ genome_hash)%string)
  else stored_of facts.

Definition authority_store (at_ : CompanionRuntimeAuthority) : GenomeStore := mkGenomeStore (load_current at_) (load_pinned at_).
End GenomeStore.

(** ** An authorized session is exactly one within the scope of its credential. *)

(** What the claims must satisfy on their own. *)
Record claims_ok (c : Credential) : Prop := {
  cl_person : match c.(cr_person_id) with
              | None => c.(cr_identity_epoch) = None /\ c.(cr_person_revision) = None
              | Some p => py_strip p <> "" /\ (exists e, c.(cr_identity_epoch) = Some e /\ 0 <= e) /\
                          (exists r, c.(cr_person_revision) = Some r /\ 1 <= r)
              end;
  cl_session : py_strip (default "" c.(cr_session_id)) <> "";
  cl_mode : c.(cr_memory_mode) = "personal" \/
            c.(cr_memory_mode) = "provisional" /\ c.(cr_person_id) <> None /\
            c.(cr_source_session_id) = Some (py_strip (default "" c.(cr_session_id)));
}.

(** The tests on the session and the mode. *)
Definition mode_ok (c : Credential) : bool :=
  negb (is_empty (py_strip (default "" c.(cr_session_id)))) && bool_decide (c.(cr_memory_mode) ∈ ["personal"; "provisional"])
  && negb (bool_decide (c.(cr_memory_mode) = "provisional")
           && (bool_decide (c.(cr_person_id) = None) || negb (bool_decide (c.(cr_source_session_id) = Some (py_strip (default "" c.(cr_session_id))))))).

(** The tests on the person. *)
Definition person_ok (c : Credential) : bool :=
  match c.(cr_person_id), c.(cr_identity_epoch), c.(cr_person_revision) with
  | None, None, None => true
  | Some p, Some e, Some r => negb (is_empty (py_strip p)) && negb (e <? 0) && negb (r <? 1)
  | _, _, _ => false
  end.

Lemma check_claims_bool c :
  if person_ok c && mode_ok c then check_claims c = Ok (py_strip (default "" c.(cr_session_id)))
  else exists msg, check_claims c = Err (refused msg).
Proof.
  unfold person_ok, mode_ok, check_claims. destruct c as [owner companion device session person epoch revision source mode]. simpl.
  generalize (py_strip (default "" session)) as sid. intros sid.
  destruct person as [p|], epoch as [e|], revision as [r|]; simpl; try (by eexists);
    repeat match goal with
    | |- context [is_empty ?x] => destruct (is_empty x)
    | |- context [?x <? ?y] => destruct (x <? y)
    | |- context [bool_decide ?P] => destruct (bool_decide P)
    end; simpl; try done; by eexists.
Qed.

Lemma person_ok_spec c : person_ok c = true <->
  match c.(cr_person_id) with
  | None => c.(cr_identity_epoch) = None /\ c.(cr_person_revision) = None
  | Some p => py_strip p <> "" /\ (exists e, c.(cr_identity_epoch) = Some e /\ 0 <= e) /\
              (exists r, c.(cr_person_revision) = Some r /\ 1 <= r)
  end.
Proof.
  unfold person_ok. destruct (cr_person_id c) as [p|], (cr_identity_epoch c) as [e|], (cr_person_revision c) as [r|]; try naive_solver.
  rewrite !andb_true_iff, !negb_true_iff, is_empty_false, !Z.ltb_ge. naive_solver.
Qed.

Lemma check_claims_spec c sid : check_claims c = Ok sid <-> claims_ok c /\ sid = py_strip (default "" c.(cr_session_id)).
Proof.
  assert (person_ok c && mode_ok c = true <-> claims_ok c) as Hc.
  { rewrite andb_true_iff, person_ok_spec. unfold mode_ok. split.
    - intros [Hp [[Hs%negb_true_iff%is_empty_false Hm%bool_decide_eq_true]%andb_true_iff Hv%negb_true_iff]%andb_true_iff].
      split; [done|done|]. apply elem_of_cons in Hm as [->|Hm%list_elem_of_singleton]; [by left|right]. split; [done|].
      apply andb_false_iff in Hv as [Hv%bool_decide_eq_false|[Hv1%bool_decide_eq_false Hv2]%orb_false_iff]; [done|].
      split; [done|]. by apply negb_false_iff, bool_decide_eq_true in Hv2.
    - intros [Hp Hs Hm]. split; [done|]. apply is_empty_false in Hs. rewrite Hs. simpl.
      destruct Hm as [->|(-> & Hn & Hv)]; simpl; [done|]. rewrite (bool_decide_eq_false_2 _ Hn), (bool_decide_eq_true_2 _ Hv). done. }
  pose proof (check_claims_bool c) as H. destruct (person_ok c && mode_ok c) eqn:E.
  - rewrite H. split; [intros [= <-]; split; [by apply Hc|done]|by intros [_ ->]].
  - destruct H as [msg H]. rewrite H. split; [done|]. intros [Hok _]. apply Hc in Hok. congruence.
Qed.

Section Facts.
Context (float_of_int : Z -> res string) (at_ : CompanionRuntimeAuthority).
Notation authorize := (authorize float_of_int).
Notation scoped := (scoped float_of_int at_).

Lemma bind_sound c facts runtime save recall device config : claims_ok c ->
  let sid := py_strip (default "" c.(cr_session_id)) in
  facts.(cf_owner_id) = c.(cr_owner_id) -> bind_memory at_ c sid facts = Ok (runtime, save, recall) ->
  realm_of at_ facts (mkAuthorized runtime device sid config c.(cr_person_id) c.(cr_source_session_id) c.(cr_person_revision)
                        c.(cr_identity_epoch) c.(cr_memory_mode) save recall).
Proof.
  intros [Hp Hs Hm] sid Ho. unfold bind_memory. destruct (cr_person_id c) as [p|] eqn:Ep.
  - destruct Hp as (Hp & _ & (r & Er & _)). rewrite Er. case_bool_decide as Emode.
    + intros (b & Eb & H)%res_bind_ok.
      destruct (_ && _ && _ && _) eqn:Hb in H; simpl in H; [|done]. destruct (_ || _) eqn:Ha in H; simpl in H; [|done]. injection H as <- <- <-.
      apply andb_true_iff in Hb as [[[Hb1%bool_decide_eq_true Hb2%bool_decide_eq_true]%andb_true_iff Hb3%Z.eqb_eq]%andb_true_iff Hb4%bool_decide_eq_true].
      apply orb_true_iff in Ha. destruct Hm as [Hm|(_ & _ & Hsrc)]; [congruence|].
      eapply (realm_provisional _ _ _ p r b); simpl; try done; congruence.
    + intros (realm & Eb & H)%res_bind_ok. destruct (is_empty realm) eqn:Er'; [done|]. injection H as <- <- <-.
      apply is_empty_false in Er'. destruct Hm as [Hm|(Hm & _)]; [|done].
      eapply (realm_person _ _ _ p r realm); simpl; try done; congruence.
  - intros [= <- <- <-]. destruct Hm as [Hm|(_ & Hm & _)]; [|done]. by apply realm_unknown.
Qed.

Lemma bind_complete c facts s : claims_ok c -> realm_of at_ facts s ->
  s.(as_runtime).(cf_owner_id) = c.(cr_owner_id) -> s.(as_session_id) = py_strip (default "" c.(cr_session_id)) ->
  s.(as_person_id) = c.(cr_person_id) -> s.(as_person_revision) = c.(cr_person_revision) -> s.(as_memory_mode) = c.(cr_memory_mode) ->
  bind_memory at_ c s.(as_session_id) facts = Ok (s.(as_runtime), s.(as_provisional_memory_save), s.(as_provisional_memory_recall)).
Proof.
  intros Hok Hr Ho Hs Hp Hv Hm. unfold bind_memory. rewrite <- Hp, <- Hv, <- Hm, <- Ho.
  destruct Hr as [H1 H2 -> -> ->|p r realm H1 H2 H3 H4 H5 H6 -> ->|p r b H1 H2 H3 H4 H5 H6 H7 H8 H9 H10 -> -> H11].
  - by rewrite H1.
  - rewrite H1, H2, H3. simpl. rewrite H4. simpl. apply is_empty_false in H5. by rewrite H5, H6.
  - rewrite H1, H2, H3. simpl. rewrite H5. simpl. rewrite !bool_decide_eq_true_2, H8, Z.eqb_refl by done. simpl.
    apply orb_true_iff in H11. rewrite H11. simpl. by rewrite H10.
Qed.

Lemma realm_scope facts s : realm_of at_ facts s ->
  cf_owner_id (as_runtime s) = cf_owner_id facts /\ cf_companion_id (as_runtime s) = cf_companion_id facts /\
  cf_runtime_config (as_runtime s) = cf_runtime_config facts.
Proof. by destruct 1 as [_ _ ->|? ? ? _ _ _ _ _ ->|? ? ? _ _ _ _ _ _ _ _ _ ->]. Qed.

Lemma scoped_claims c s : scoped c s -> claims_ok c.
Proof.
  intros [(facts & _ & Hr) _ _ [Hs Hne] (Hp & Hv & He & Hm & Hsrc) Hid _ _].
  split; [|congruence|].
  - rewrite <- Hp, <- Hv, <- He. destruct (as_person_id s); [exact Hid|]. by destruct Hid.
  - rewrite <- Hm, <- Hsrc, <- Hp, <- Hs. destruct Hr; [by left|by left|right]. repeat split; congruence.
Qed.
Lemma authorize_scoped c s : authorize at_ c = Ok s -> scoped c s.
Proof.
  unfold RuntimeSession.authorize.
  intros (sid & [Hok ->]%check_claims_spec & H)%res_bind_ok. apply res_bind_ok in H as (facts & Ef & H).
  destruct (_ && _) eqn:E in H; simpl in H; [|done]. apply andb_true_iff in E as [Eo%bool_decide_eq_true Ec%bool_decide_eq_true].
  apply res_bind_ok in H as ([[runtime save] recall] & Eb & H). apply res_bind_ok in H as (config & Econf & H). injection H as <-.
  pose proof (bind_sound c facts runtime save recall
                (let d := py_strip (default "" (cr_device_id c)) in if is_empty d then None else Some d)
                (without_side_channels config) Hok Eo Eb) as Hr.
  destruct (realm_scope _ _ Hr) as (R1 & R2 & R3). simpl in *.
  assert (from_authority float_of_int (cf_runtime_config runtime) = Ok config) as Hc.
  { destruct (from_authority _ _) as [config'|e]; [by injection Econf as ->|]. by destruct (is_value_error e). }
  split; simpl.
  + by eauto.
  + unfold as_owner_id. simpl. congruence.
  + unfold as_companion_id. simpl. congruence.
  + split; [done|]. apply Hok.
  + done.
  + destruct Hok as [Hp _ _]. by destruct (cr_person_id c).
  + done.
  + by eauto.
Qed.

Lemma scoped_authorize c s : scoped c s -> authorize at_ c = Ok s.
Proof.
  intros Hs. unfold RuntimeSession.authorize. pose proof (scoped_claims _ _ Hs) as Hok. destruct Hs as [(facts & Ef & Hr) Ho Hc [Hsid _] (Hp & Hv & He & Hm & Hsrc) _ Hd (config & Econf & Hconf)].
  rewrite (proj2 (check_claims_spec c _) (conj Hok eq_refl)). simpl. rewrite Ef. simpl.
  destruct (realm_scope _ _ Hr) as (R1 & R2 & R3). unfold as_owner_id, as_companion_id in *.
  rewrite !bool_decide_eq_true_2 by congruence. simpl. rewrite <- Hsid.
  rewrite (bind_complete c facts s Hok Hr Ho Hsid Hp Hv Hm). simpl. rewrite Econf. simpl.
  f_equal. destruct s. simpl in *. by subst.
Qed.
End Facts.

(** C22: authorize returns a session exactly when it is within the scope of the credential: facts of
    the named owner and companion, the memory realm the authority grants this person, revision,
    mode and session, complete identity claims, the validated configuration with the side-
    channel tools denied; every other case is an error. *)
Theorem authorized_sessions_are_scoped float_of_int at_ c s : authorize float_of_int at_ c = Ok s <-> scoped float_of_int at_ c s.
Proof. split; [apply authorize_scoped|apply scoped_authorize]. Qed.

(** ** Concrete sessions *)

Definition sample_genome : PersonaGenome :=
  mkGenome "Ada" "a friend" "self" ["honesty"] ["never lie"] "portrait" [] [] "new" "" ["no pressure"] "calm" [] [] [] [] [] [].

Definition sample_facts : CompanionRuntimeFacts :=
  mkFacts "owner" "companion" "" "genome" 1 "v1" "hash" "r1" sample_genome
    (VDict [("model", VStr " m "); ("tools", VDict [("allow", VList [VStr " look "; VStr "look"])]); ("max_tool_iters", VInt 3)]).

Definition sample_authority : CompanionRuntimeAuthority :=
  mkAuthority (fun _ _ _ => Ok sample_facts) (fun _ person _ => Ok ("realm-" +:+ person)%string)
    (fun owner person revision session => Ok (mkProvisional owner person revision session true false "scratch")).

Definition sample_float (z : Z) : res string := Ok "1.0".

Definition sample_credential (mode : string) : Credential :=
  mkCredential "owner" "companion" (Some " ") (Some " s1 ") (Some "p1") (Some 0) (Some 1) (Some "s1") mode.

Definition summary_of (r : res AuthorizedRuntimeSession) : res (string * string * list string * list string * bool) :=
  s ← r; Ok (s.(as_session_id), s.(as_runtime).(cf_memory_realm_id), s.(as_config).(rc_tool_allow), s.(as_config).(rc_tool_deny),
             s.(as_provisional_memory_save)).

Example personal_session : summary_of (authorize sample_float sample_authority (sample_credential "personal")) =
  Ok ("s1", "realm-p1", ["look"], ["delegate_to_coworker"; "emit_event"], false).
Proof. vm_compute. reflexivity. Qed.

Example provisional_session : summary_of (authorize sample_float sample_authority (sample_credential "provisional")) =
  Ok ("s1", "scratch", ["look"], ["delegate_to_coworker"; "emit_event"], true).
Proof. vm_compute. reflexivity. Qed.

Example other_mode : summary_of (authorize sample_float sample_authority (sample_credential "shared")) =
  Err (refused "unsupported runtime memory mode").
Proof. vm_compute. reflexivity. Qed.
