(* ===== verification/RoleReplyFacts.v ===== *)
(** * A reply counts as played only when the whole of a normally finished stream was. *)

From S2P Require Import Prelude CoreTypes Json Effects ContextText Personas RuntimeSession Coordination RoleReply.
#[local] Open Scope eff_scope.

(** ** Streams that finish normally *)

(** The texts of a stream *)
Definition texts (ds : list LLMDelta) : list string :=
  omap (fun d => match d.(ld_text_delta) with Some t => if is_empty t then None else Some t | None => None end) ds.

(** A stream without tool calls that finishes once, normally, after some text and without
    any after it. *)
Definition well_spoken (ds : list LLMDelta) : Prop :=
  exists before fin after, ds = before ++ fin :: after /\ fin.(ld_finish) = Some STOP /\
    (forall d, d ∈ before ++ after -> d.(ld_finish) = None) /\ (forall d, d ∈ ds -> d.(ld_tool_call) = None) /\
    texts (fin :: after) = [] /\ exists t, t ∈ texts before /\ py_strip t <> "".

(** The two flags of [run] after these deltas; [None] where it raises. *)
Fixpoint scan (ds : list LLMDelta) (nonempty finished : bool) : option (bool * bool) :=
  match ds with
  | [] => Some (nonempty, finished)
  | d :: rest =>
      if d.(ld_tool_call) is Some _ then None
      else if match d.(ld_finish) with Some f => negb (bool_decide (f = STOP)) || finished | None => false end then None
      else
        let finished := match d.(ld_finish) with Some _ => true | None => finished end in
        match d.(ld_text_delta) with
        | Some t => if is_empty t then scan rest nonempty finished
                    else if finished then None else scan rest (nonempty || negb (is_empty (py_strip t))) finished
        | None => scan rest nonempty finished
        end
  end.

Lemma scan_app ds1 ds2 n f : scan (ds1 ++ ds2) n f = match scan ds1 n f with Some x => scan ds2 x.1 x.2 | None => None end.
Proof.
  revert n f. induction ds1 as [|d ds1 IH]; intros n f; [done|]. cbn [app scan].
  destruct (ld_tool_call d); [done|]. destruct (match ld_finish d with Some _ => _ | None => _ end); [done|].
  destruct (ld_text_delta d) as [t|]; [|apply IH]. destruct (is_empty t); [apply IH|].
  destruct (match ld_finish d with Some _ => _ | None => _ end); [done|apply IH].
Qed.

Lemma scan_finished ds n x : scan ds n true = Some x ->
  x = (n, true) /\ (forall d, d ∈ ds -> d.(ld_finish) = None /\ d.(ld_tool_call) = None) /\ texts ds = [].
Proof.
  revert n x. induction ds as [|d ds IH]; intros n x; cbn [scan].
  - intros [= <-]. split; [done|]. split; [|done]. intros d Hd. by apply elem_of_nil in Hd.
  - destruct (ld_tool_call d) eqn:Et; [done|]. destruct (ld_finish d) as [f|] eqn:Ef; [by rewrite orb_true_r|].
    unfold texts. cbn [omap list_omap].
    assert (scan ds n true = Some x -> x = (n, true) /\ (forall d0, d0 ∈ d :: ds -> ld_finish d0 = None /\ ld_tool_call d0 = None) /\ texts ds = []) as H.
    { intros (-> & Hd & Ht)%IH. split; [done|]. split; [|done]. intros d0 [->|Hin]%elem_of_cons; [done|by apply Hd]. }
    destruct (ld_text_delta d) as [t|]; [|exact H]. by destruct (is_empty t).
Qed.

Lemma scan_unfinished ds n n' : scan ds n false = Some (n', false) ->
  (forall d, d ∈ ds -> d.(ld_finish) = None /\ d.(ld_tool_call) = None) /\ (n' = true -> n = true \/ exists t, t ∈ texts ds /\ py_strip t <> "").
Proof.
  revert n. induction ds as [|d ds IH]; intros n; cbn [scan].
  - intros [= ->]. split; [|by left]. intros d Hd. by apply elem_of_nil in Hd.
  - destruct (ld_tool_call d) eqn:Et; [done|]. destruct (ld_finish d) as [f|] eqn:Ef.
    { destruct (negb _ || _) eqn:Eb; [done|]. destruct (ld_text_delta d) as [t|]; [|by intros [? _]%scan_finished].
      destruct (is_empty t); [by intros [? _]%scan_finished|done]. }
    unfold texts at 1. cbn [omap list_omap].
    assert (forall m, scan ds m false = Some (n', false) -> (forall d0, d0 ∈ d :: ds -> ld_finish d0 = None /\ ld_tool_call d0 = None) /\
      (n' = true -> m = true \/ exists t, t ∈ texts ds /\ py_strip t <> "")) as H.
    { intros m [Hd Ht]%IH. split; [|exact Ht]. intros d0 [->|Hin]%elem_of_cons; [done|by apply Hd]. }
    destruct (ld_text_delta d) as [t|]; [|apply H]. destruct (is_empty t) eqn:Ee; [apply H|].
    intros [Hd Ht]%H. split; [exact Hd|]. intros [Hn|(u & Hu & Hne)]%Ht.
    + apply orb_true_iff in Hn as [->|Hs%negb_true_iff%is_empty_false]; [by left|]. right. exists t. split; [by left|done].
    + right. exists u. split; [by right|done].
Qed.

Lemma scan_well_spoken ds n : scan ds n false = Some (true, true) ->
  exists before fin after, ds = before ++ fin :: after /\ fin.(ld_finish) = Some STOP /\
    (forall d, d ∈ before ++ after -> d.(ld_finish) = None) /\ (forall d, d ∈ ds -> d.(ld_tool_call) = None) /\
    texts (fin :: after) = [] /\ (n = true \/ exists t, t ∈ texts before /\ py_strip t <> "").
Proof.
  revert n. induction ds as [|d ds IH]; intros n; cbn [scan]; [done|].
  destruct (ld_tool_call d) eqn:Et; [done|]. destruct (ld_finish d) as [f|] eqn:Ef.
  - destruct (negb _ || _) eqn:Eb; [done|]. apply orb_false_iff in Eb as [Eb%negb_false_iff%bool_decide_eq_true _]. subst f.
    assert (scan ds n true = Some (true, true) -> texts [d] = [] -> exists before fin after, d :: ds = before ++ fin :: after /\ ld_finish fin = Some STOP /\
      (forall d0, d0 ∈ before ++ after -> ld_finish d0 = None) /\ (forall d0, d0 ∈ d :: ds -> ld_tool_call d0 = None) /\
      texts (fin :: after) = [] /\ (n = true \/ exists t, t ∈ texts before /\ py_strip t <> "")) as H.
    { intros ([= <-] & Hd & Ht)%scan_finished Hx. exists [], d, ds. split_and!; try done.
      - intros d0 Hd0. by apply Hd.
      - intros d0 [->|Hin]%elem_of_cons; [done|by apply Hd].
      - unfold texts in *. cbn [omap list_omap] in *. destruct (match ld_text_delta d with Some _ => _ | None => _ end); [done|exact Ht].
      - by left. }
    destruct (ld_text_delta d) as [t|] eqn:Ed; [|intros Hs; apply H; [done|unfold texts; cbn; by rewrite Ed]].
    destruct (is_empty t) eqn:Ee; [|done]. intros Hs. apply H; [done|]. unfold texts. cbn. by rewrite Ed, Ee.
  - assert (forall m, scan ds m false = Some (true, true) -> exists before fin after, d :: ds = (d :: before) ++ fin :: after /\ ld_finish fin = Some STOP /\
      (forall d0, d0 ∈ (d :: before) ++ after -> ld_finish d0 = None) /\ (forall d0, d0 ∈ d :: ds -> ld_tool_call d0 = None) /\
      texts (fin :: after) = [] /\ (m = true \/ exists t, t ∈ texts before /\ py_strip t <> "")) as H.
    { intros m (b & fin & a & -> & Hf & Hn & Htc & Htx & Hm)%IH. exists b, fin, a. split_and!; try done.
      - intros d0 [->|Hin]%elem_of_cons; [done|by apply Hn].
      - intros d0 [->|Hin]%elem_of_cons; [done|by apply Htc]. }
    destruct (ld_text_delta d) as [t|] eqn:Ed; [destruct (is_empty t) eqn:Ee|].
    1,3: intros (b & fin & a & Heq & Hf & Hn & Htc & Htx & Hm)%H; exists (d :: b), fin, a; split_and!; try done;
      unfold texts; cbn [omap list_omap]; rewrite Ed, ?Ee; exact Hm.
    intros (b & fin & a & Heq & Hf & Hn & Htc & Htx & Hm)%H. exists (d :: b), fin, a. split_and!; try done.
    unfold texts. cbn [omap list_omap]. rewrite Ed, Ee. destruct Hm as [Hm|(u & Hu & Hs)].
    + apply orb_true_iff in Hm as [->|Hs%negb_true_iff%is_empty_false]; [by left|]. right. exists t. split; [by left|done].
    + right. exists u. split; [by right|done].
Qed.

Lemma well_spoken_scan ds : scan ds false false = Some (true, true) -> well_spoken ds.
Proof.
  intros (b & fin & a & -> & Hf & Hn & Htc & Htx & [|Ht])%scan_well_spoken; [done|]. exists b, fin, a. by split_and!.
Qed.

(** ** The generators *)

Section Reply.
Context (dump_role : SceneRole -> pyval) (dump_message : Message -> pyval) (dump_context : list Message -> pyval).
Context (llm : RoleModel) (now : datetime) (current : nat -> bool) (r : RoleReplyRequest).
Notation build := (build dump_role dump_message dump_context).
Notation stream := (stream_of dump_role dump_message dump_context llm now r).
Notation events_pull := (events_pull dump_role dump_message dump_context llm now current r).
Notation run_loop := (run_loop llm).

Lemma run_raise_run {A} e s : exists e', @run_raise llm A e s = (Err e', close_stream s).
Proof. unfold run_raise, mfinally, close_llm, mraise, mbind_, mmodify, mlift. destruct (ml_close llm); by eexists. Qed.

Lemma texts_app l1 l2 : texts (l1 ++ l2) = texts l1 ++ texts l2.
Proof. unfold texts. induction l1 as [|d l1 IH]; [done|]. cbn [app omap list_omap]. case_match; [|done]. cbn [app]. by f_equal. Qed.

(** What a pull of [run] delivers: the next text, the end, or an exception that closes the stream. *)
Inductive looped (end_ : option exn) (deltas : list LLMDelta) (n f : bool) (seq : Z) (s : ReplyState)
  : res (option ReplyEvent * RunPc) * ReplyState -> Prop :=
  | looped_text before rest t n' f' : deltas = before ++ rest -> scan before n f = Some (n', f') -> texts before = [t] ->
      looped end_ deltas n f seq s (Ok (Some (mkReplyEvent r.(rr_turn_id) (event_delta seq t None)), RunAt rest (seq + 1) n' f'), s)
  | looped_done : end_ = None -> scan deltas n f = Some (true, true) -> texts deltas = [] ->
      looped end_ deltas n f seq s (Ok (Some (mkReplyEvent r.(rr_turn_id) (event_done seq TurnStatus.OK [])), RunAfterDone), s)
  | looped_raise e : (end_ = None -> scan deltas n f <> Some (true, true)) -> looped end_ deltas n f seq s (Err e, close_stream s).

Lemma run_loop_spec end_ deltas seq n f s : looped end_ deltas n f seq s (run_loop r.(rr_turn_id) deltas end_ seq n f s).
Proof.
  revert n f. induction deltas as [|d ds IH]; intros n f; cbn [RoleReply.run_loop].
  - assert (forall e : exn, (end_ = None -> Some (n, f) <> Some (true, true)) -> looped end_ [] n f seq s (@run_raise llm (option ReplyEvent * RunPc) e s)) as Hraise.
    { intros e He. destruct (@run_raise_run (option ReplyEvent * RunPc) e s) as [e' ->]. by constructor. }
    destruct end_ as [e|]; [by apply Hraise|]. destruct (negb f || negb n) eqn:Eb.
    + apply Hraise. intros _ [= -> ->]. done.
    + apply orb_false_iff in Eb as [->%negb_false_iff ->%negb_false_iff]. by apply looped_done.
  - assert (forall e : exn, scan (d :: ds) n f = None -> looped end_ (d :: ds) n f seq s (@run_raise llm (option ReplyEvent * RunPc) e s)) as Hraise.
    { intros e He. destruct (@run_raise_run (option ReplyEvent * RunPc) e s) as [e' ->]. constructor. by rewrite He. }
    destruct (ld_tool_call d) eqn:Et; [apply Hraise; cbn [scan]; by rewrite Et|].
    destruct (match ld_finish d with Some _ => _ | None => _ end) eqn:Ef; [apply Hraise; cbn [scan]; by rewrite Et, Ef|].
    set (f1 := match ld_finish d with Some _ => true | None => f end).
    assert (texts [d] = [] -> (forall m, scan (d :: m) n f = scan m n f1) -> looped end_ (d :: ds) n f seq s (run_loop (rr_turn_id r) ds end_ seq n f1 s)) as Hskip.
    { intros Hd Hs. destruct (IH n f1) as [before rest t n' f' -> Hsc Htx|Hend Hsc Htx|e He].
      - apply (looped_text _ _ _ _ _ _ (d :: before)); [done|by rewrite Hs|]. change (d :: before) with ([d] ++ before). by rewrite texts_app, Hd.
      - apply looped_done; [done|by rewrite Hs|]. change (d :: ds) with ([d] ++ ds). by rewrite texts_app, Hd.
      - constructor. by rewrite Hs. }
    destruct (ld_text_delta d) as [t|] eqn:Ed; [destruct (is_empty t) eqn:Ee|].
    + apply Hskip; [unfold texts; cbn; by rewrite Ed, Ee|]. intros m. cbn [scan]. by rewrite Et, Ef, Ed, Ee.
    + destruct f1 eqn:Ef1; [apply Hraise; cbn [scan]; fold f1; by rewrite Et, Ef, Ed, Ee, Ef1|]. apply (looped_text _ _ _ _ _ _ [d] ds); [done| |unfold texts; cbn; by rewrite Ed, Ee].
      cbn [scan]. fold f1. by rewrite Et, Ef, Ed, Ee, Ef1.
    + apply Hskip; [unfold texts; cbn; by rewrite Ed|]. intros m. cbn [scan]. by rewrite Et, Ef, Ed.
Qed.

(** ** The invariant of a reply *)

(** Every check so far found the permit current. *)
Definition checked (s : ReplyState) : Prop := forall n, (n < s.(ry_checks))%nat -> current n = true.

(** The whole of a normally finished stream was delivered. *)
Definition delivered (s : ReplyState) : Prop :=
  stream.2 = None /\ scan stream.1 false false = Some (true, true) /\ s.(ry_fragments) = texts stream.1 /\ checked s.

Definition open_once (s : ReplyState) (closed : nat) : Prop :=
  (exists messages, build r now = Ok messages /\ s.(ry_opened) = [messages]) /\ s.(ry_closed) = closed.

Definition Inv (s : ReplyState) : Prop :=
  match s.(ry_pc) with
  | EventsNew => s.(ry_opened) = [] /\ s.(ry_closed) = 0%nat /\ s.(ry_fragments) = [] /\ s.(ry_completed) = false /\ s.(ry_exhausted) = false /\ checked s
  | EventsAt (RunAt rest seq n f) =>
      open_once s 0 /\ s.(ry_completed) = false /\ s.(ry_exhausted) = false /\ checked s /\
      exists before, stream.1 = before ++ rest /\ scan before false false = Some (n, f) /\ s.(ry_fragments) = texts before
  | EventsAt RunAfterDone => open_once s 0 /\ s.(ry_exhausted) = false /\ delivered s
  | EventsAt _ => False
  | EventsOver =>
      (s.(ry_opened) = [] /\ s.(ry_closed) = 0%nat \/ open_once s 1) /\
      (s.(ry_completed) = true -> s.(ry_exhausted) = true -> delivered s /\ open_once s 1)
  end.

(** A reply whose events are over without having been exhausted *)
Lemma inv_over s : s.(ry_pc) = EventsOver -> (s.(ry_opened) = [] /\ s.(ry_closed) = 0%nat \/ open_once s 1) -> s.(ry_exhausted) = false -> Inv s.
Proof. intros Hp Ho He. unfold Inv. rewrite Hp. split; [exact Ho|]. intros _. by rewrite He. Qed.
Notation take_event := (take_event current r.(rr_turn_id)).
Notation closing := (@closing llm unit).

Lemma take_text seq t s : take_event (mkReplyEvent r.(rr_turn_id) (event_delta seq t None)) s =
  if current s.(ry_checks) then (Ok tt, add_fragment t (count_check s)) else (Err Cancelled, count_check s).
Proof.
  unfold RoleReply.take_event, permit_check, mbind_, mgets, mmodify, mret_, mraise. cbn [re_turn_id].
  destruct (current (ry_checks s)); [|done]. by rewrite bool_decide_eq_true_2.
Qed.

Lemma take_done seq s : take_event (mkReplyEvent r.(rr_turn_id) (event_done seq TurnStatus.OK [])) s =
  if current s.(ry_checks) then (Ok tt, set_completed true (count_check s)) else (Err Cancelled, count_check s).
Proof.
  unfold RoleReply.take_event, permit_check, mbind_, mgets, mmodify, mret_, mraise. cbn [re_turn_id].
  destruct (current (ry_checks s)); [|done]. by rewrite bool_decide_eq_true_2.
Qed.

Lemma closing_run pc (m : M ReplyState unit) s : closing pc m s =
  match m s with (Ok a, s') => (Ok a, s') | (Err e, s') => (run_close llm pc ;;; mraise e) s' end.
Proof. unfold RoleReply.closing, mtry. by destruct (m s) as [[?|?] ?]. Qed.

Lemma close_after pc e s : match pc with RunAt _ _ _ _ | RunAfterDone => True | _ => False end ->
  exists e', (run_close llm pc ;;; @mraise ReplyState unit e) s = (Err e', close_stream s).
Proof. intros H. destruct pc; try done; unfold run_close, close_llm, mbind_, mmodify, mlift, mraise; destruct (ml_close llm); by eexists. Qed.

Lemma checked_count s : checked s -> current s.(ry_checks) = true -> checked (count_check s).
Proof. intros H Hc n Hn. cbn in Hn. destruct (decide (n = ry_checks s)) as [->|]; [done|]. apply H. lia. Qed.

(** What [events] does with what [run] delivered *)
Notation deliver x :=
  (match x with
   | (None, _) => mmodify set_exhausted ;;; mret_ None
   | (Some ev, pc') => closing pc' (take_event ev) ;;; mmodify (set_pc (EventsAt pc')) ;;; mret_ (Some ev)
   end).

Record started (before : list LLMDelta) (s : ReplyState) : Prop := {
  sd_open : open_once s 0;
  sd_pc : s.(ry_pc) = EventsOver;
  sd_completed : s.(ry_completed) = false;
  sd_exhausted : s.(ry_exhausted) = false;
  sd_checked : checked s;
  sd_fragments : s.(ry_fragments) = texts before;
}.

Lemma open_close s : open_once s 0 -> open_once (close_stream s) 1.
Proof. intros [Ho Hc]. split; [exact Ho|]. cbn. by rewrite Hc. Qed.

Lemma closed_inv before s : started before s -> Inv (close_stream s) /\ Inv (close_stream (count_check s)).
Proof. intros []. split; apply inv_over; try done; right; by apply open_close. Qed.

Lemma loop_inv before rest seq n f s : started before s -> stream.1 = before ++ rest -> scan before false false = Some (n, f) ->
  Inv (snd ((x <-- run_loop r.(rr_turn_id) rest stream.2 seq n f ;; deliver x) s)).
Proof.
  intros Hs Hst Hsc. pose proof (closed_inv _ _ Hs) as [Hc1 Hc2]. destruct Hs as [Ho Hp Hcm Hex Hck Hfr].
  unfold mbind_ at 1. destruct (run_loop_spec stream.2 rest seq n f s) as [b1 r1 t n' f' -> Hs1 Htx|Hend Hs1 Htx|e]; [| |exact Hc1].
  - unfold mbind_ at 1. rewrite closing_run, take_text. destruct (current (ry_checks s)) eqn:Ec.
    + cbn. split; [exact Ho|]. split; [exact Hcm|]. split; [exact Hex|]. split; [by apply (checked_count s)|].
      exists (before ++ b1). split; [by rewrite <- app_assoc|]. split; [by rewrite scan_app, Hsc|]. by rewrite texts_app, Htx, Hfr.
    + destruct (close_after (RunAt r1 (seq + 1) n' f') Cancelled (count_check s) I) as [e' ->]. exact Hc2.
  - unfold mbind_ at 1. rewrite closing_run, take_done. destruct (current (ry_checks s)) eqn:Ec.
    + cbn. split; [exact Ho|]. split; [exact Hex|]. split; [exact Hend|]. split; [by rewrite Hst, scan_app, Hsc|].
      split; [cbn; by rewrite Hst, texts_app, Htx, app_nil_r|by apply (checked_count s)].
    + destruct (close_after RunAfterDone Cancelled (count_check s) I) as [e' ->]. exact Hc2.
Qed.

Lemma pull_inv s : Inv s -> Inv (snd (events_pull s)).
Proof.
  intros Hi. unfold RoleReply.events_pull. unfold mbind_ at 1. unfold mgets. unfold Inv in Hi.
  destruct (ry_pc s) as [|[|rest seq n f| |]|] eqn:Ep; try done; [|destruct Hi as (Ho & Hc & Hx & Hk & b & Hst & Hsc & Hf)|destruct Hi as (Ho & Hx & Hd)|].
  - destruct Hi as (Ho & Hcl & Hf & Hc & Hx & Hk). unfold events_resume, run_pull. unfold mbind_ at 1, mmodify at 1.
    unfold mbind_ at 1. unfold mbind_ at 1. unfold mlift. destruct (build r now) as [messages|e] eqn:Eb.
    + unfold mbind_ at 1, mmodify at 1. apply (loop_inv []); [|done|done]. split; try done; cbn.
      split; [exists messages; split; [exact Eb|]; cbn; by rewrite Ho|exact Hcl].
    + apply inv_over; [done|by left|done].
  - unfold events_resume, run_pull. unfold mbind_ at 1, mmodify at 1. by apply (loop_inv b).
  - unfold events_resume, run_pull, close_llm, mbind_, mmodify, mlift, mret_. destruct (ml_close llm).
    + cbn. split; [right; by apply open_close|]. intros _ _. split; [exact Hd|by apply open_close].
    + apply inv_over; [done|right; by apply open_close|done].
  - cbn. unfold Inv. by rewrite Ep.
Qed.

Lemma present_inv p s : Inv s -> Inv (snd (present dump_role dump_message dump_context llm now current r p s)).
Proof.
  revert s. induction p as [b|e|k IH]; intros s Hi; [done|done|]. cbn [present].
  pose proof (pull_inv s Hi) as H. destruct (events_pull s) as [x s']. by apply IH.
Qed.

(** The streams opened are closed, or will be by closing the events. *)
Definition balanced (s : ReplyState) : Prop :=
  s.(ry_opened) = [] /\ s.(ry_closed) = 0%nat \/ open_once s 1.
Definition closable (s : ReplyState) : Prop :=
  match s.(ry_pc) with
  | EventsNew => s.(ry_opened) = [] /\ s.(ry_closed) = 0%nat
  | EventsAt (RunAt _ _ _ _) | EventsAt RunAfterDone => open_once s 0
  | EventsAt _ => False
  | EventsOver => balanced s
  end.

Lemma inv_closable s : Inv s -> closable s.
Proof. unfold Inv, closable. destruct (ry_pc s) as [|[|rest seq n f| |]|]; try done; naive_solver. Qed.

Lemma close_balanced s : closable s -> balanced (snd (events_close llm s)).
Proof.
  intros Hi. unfold events_close, mbind_, mgets, mmodify, mret_. unfold closable in Hi.
  destruct (ry_pc s) as [|[|rest seq n f| |]|] eqn:Ep; try done; unfold run_close, close_llm, mbind_, mmodify, mlift.
  - by left.
  - right. destruct (ml_close llm); by apply open_close.
  - right. destruct (ml_close llm); by apply open_close.
Qed.

Notation present_ := (present dump_role dump_message dump_context llm now current r).
Notation perform_ := (perform dump_role dump_message dump_context llm now current).

(** What follows the presentation *)
Definition after_present (played : bool) (s : ReplyState) : res PlayedReply * ReplyState :=
  let s' := count_check (set_played played s) in
  if current s.(ry_checks) then
    let completed := played && s.(ry_completed) && s.(ry_exhausted) in
    (Ok (mkPlayed (cat s.(ry_fragments)) completed), set_outcome_ (if completed then "completed" else "unconfirmed") s')
  else (Err Cancelled, set_outcome_ (exn_type Cancelled) s').

Lemma perform_run m task permit p s : perform_ m task permit r p s =
  let y := match present_ p s with (Ok played, s1) => after_present played s1 | (Err e, s1) => (Err e, set_outcome_ (exn_type e) s1) end in
  let z := events_close llm y.2 in
  (match z.1 with Ok _ => y.1 | Err e => Err e end, log_reply (reply_terminal m task permit z.2) z.2).
Proof.
  unfold perform, mfinally, mtry, permit_check, mbind_, mmodify, mgets, mret_, mraise. destruct (present_ p s) as [[played|e] s1].
  - unfold after_present. cbn [ry_checks set_played ry_completed ry_exhausted ry_fragments count_check].
    destruct (current (ry_checks s1)); cbn [snd fst]; by destruct (events_close llm _) as [[?|?] ?].
  - cbn [snd fst]. by destruct (events_close llm _) as [[?|?] ?].
Qed.

Lemma after_present_closable played s : closable s -> closable (after_present played s).2.
Proof. unfold after_present. by destruct (current (ry_checks s)). Qed.

(** Whatever the presenter does and however the reply ends, the model's stream is closed. *)
Lemma perform_balanced m task permit p s : Inv s -> balanced (perform_ m task permit r p s).2.
Proof.
  intros Hi. rewrite perform_run. cbn [snd]. pose proof (inv_closable _ (present_inv p s Hi)) as Hp.
  destruct (present_ p s) as [[played|e] s1]; cbn [snd] in *.
  - exact (close_balanced _ (after_present_closable played s1 Hp)).
  - exact (close_balanced (set_outcome_ (exn_type e) s1) Hp).
Qed.

Lemma perform_completed m task permit p s text s' : Inv s -> perform_ m task permit r p s = (Ok (mkPlayed text true), s') ->
  stream.2 = None /\ well_spoken stream.1 /\ text = cat (texts stream.1) /\ checked s' /\ open_once s' 1 /\ fst (present_ p s) = Ok true.
Proof.
  intros Hi. rewrite perform_run. pose proof (present_inv p s Hi) as Hp.
  destruct (present_ p s) as [[played|e] s1]; cbn [snd fst] in *; [|by destruct (events_close llm _) as [[?|?] ?]].
  unfold after_present. destruct (current (ry_checks s1)) eqn:Ec; [|by destruct (events_close llm _) as [[?|?] ?]].
  cbn [snd fst]. set (s2 := set_outcome_ _ _).
  destruct (events_close llm s2) as [[[]|e] s3] eqn:Es; cbn [fst snd]; [|done]. intros H. injection H as <- H <-.
  apply andb_true_iff in H as [[-> Hc]%andb_true_iff Hx].
  assert (ry_pc s1 = EventsOver) as Hpc by (unfold Inv in Hp; destruct (ry_pc s1) as [|[|rest seq n f| |]|]; naive_solver congruence).
  unfold Inv in Hp. rewrite Hpc in Hp. destruct Hp as [_ Hd]. destruct (Hd Hc Hx) as [(He & Hsc & Hf & Hk) Ho].
  assert (s3 = set_pc EventsOver s2) as ->.
  { revert Es. unfold events_close, mbind_, mgets, mmodify, mret_. unfold s2. cbn [ry_pc set_outcome_ count_check set_played]. rewrite Hpc. by intros [= <-]. }
  split; [exact He|]. split; [by apply well_spoken_scan|]. split; [by rewrite Hf|].
  split; [exact (checked_count s1 Hk Ec)|]. split; [exact Ho|done].
Qed.

(** ** A presenter that pulls the whole stream *)

Fixpoint drain (fuel : nat) : Presenter :=
  match fuel with
  | O => PReturn false
  | S fuel => PPull (fun x => match x with Ok (Some _) => drain fuel | Ok None => PReturn true | Err e => PRaise e end)
  end.

Context (Hcurrent : forall n, current n = true) (Hclose : ml_close llm = Ok tt).

Lemma drain_done s fuel : s.(ry_pc) = EventsAt RunAfterDone -> present_ (drain (S fuel)) s = (Ok true, set_exhausted (close_stream (set_pc EventsOver s))).
Proof.
  intros Hp. cbn [drain present]. unfold RoleReply.events_pull, mbind_ at 1, mgets. rewrite Hp.
  unfold events_resume, run_pull, close_llm, mbind_, mmodify, mlift. by rewrite Hclose.
Qed.

(** The rest of a stream that finishes normally, from a pull of [run] on *)
Lemma drain_loop fuel rest seq n f s : scan rest n f = Some (true, true) -> stream.2 = None -> (length rest + 2 <= fuel)%nat ->
  exists s',
  (let '(x, s1) := (x <-- run_loop r.(rr_turn_id) rest stream.2 seq n f ;; deliver x) s in
   present_ (match x with Ok (Some _) => drain fuel | Ok None => PReturn true | Err e => PRaise e end) s1) = (Ok true, s') /\
  s'.(ry_fragments) = s.(ry_fragments) ++ texts rest /\ s'.(ry_completed) = true /\ s'.(ry_exhausted) = true /\ s'.(ry_pc) = EventsOver.
Proof.
  revert rest seq n f s. induction fuel as [|fuel IH]; intros rest seq n f s Hsc Hend Hfuel; [lia|].
  unfold mbind_ at 1. destruct (run_loop_spec stream.2 rest seq n f s) as [b1 r1 t n' f' -> Hs1 Htx|_ Hs1 Htx|e He].
  - unfold mbind_ at 1. rewrite closing_run, take_text, Hcurrent. rewrite scan_app, Hs1 in Hsc. cbn [fst snd] in Hsc.
    assert (length r1 + 2 <= fuel)%nat as Hf by (rewrite length_app in Hfuel; destruct b1; [done|simpl in *; lia]).
    unfold mbind_ at 1, mmodify, mret_. cbn [drain present].
    destruct (IH r1 (seq + 1) n' f' (set_pc EventsOver (set_pc (EventsAt (RunAt r1 (seq + 1) n' f')) (add_fragment t (count_check s)))) Hsc Hend Hf)
      as (s' & Hp & Hfr & Hrest).
    exists s'. split; [exact Hp|]. split; [|exact Hrest]. rewrite Hfr, texts_app, Htx. cbn. by rewrite <- app_assoc.
  - unfold mbind_ at 1. rewrite closing_run, take_done, Hcurrent. unfold mbind_ at 1, mmodify, mret_.
    rewrite drain_done by done. eexists. split; [done|]. cbn. by rewrite Htx, app_nil_r.
  - exfalso. by apply He.
Qed.

Lemma drain_run fuel messages s : build r now = Ok messages -> scan stream.1 false false = Some (true, true) -> stream.2 = None ->
  (length stream.1 + 2 <= fuel)%nat -> s.(ry_pc) = EventsNew -> exists s', present_ (drain (S fuel)) s = (Ok true, s') /\
  s'.(ry_fragments) = s.(ry_fragments) ++ texts stream.1 /\ s'.(ry_completed) = true /\ s'.(ry_exhausted) = true /\ s'.(ry_pc) = EventsOver.
Proof.
  intros Hb Hsc Hend Hfuel Hp. cbn [drain present]. unfold RoleReply.events_pull, mbind_ at 1, mgets. rewrite Hp.
  unfold events_resume, run_pull. unfold mbind_ at 1, mmodify at 1. unfold mbind_ at 1. unfold mbind_ at 1. unfold mlift at 1. rewrite Hb.
  unfold mbind_ at 1, mmodify at 1.
  exact (drain_loop fuel stream.1 0 false false (open_stream messages (set_pc EventsOver s)) Hsc Hend Hfuel).
Qed.

(** Such a presenter plays a normally finished stream to its end. *)
Lemma drain_completes m task permit fuel messages s : build r now = Ok messages -> scan stream.1 false false = Some (true, true) -> stream.2 = None ->
  (length stream.1 + 2 <= fuel)%nat -> s.(ry_pc) = EventsNew -> s.(ry_fragments) = [] ->
  exists s', perform_ m task permit r (drain (S fuel)) s = (Ok (mkPlayed (cat (texts stream.1)) true), s').
Proof.
  intros Hb Hsc Hend Hfuel Hp Hf. rewrite perform_run. destruct (drain_run fuel messages s Hb Hsc Hend Hfuel Hp) as (s' & -> & Hfr & Hc & Hx & Hpc).
  unfold after_present. rewrite Hcurrent. cbn [snd fst]. rewrite Hc, Hx, Hfr, Hf. cbn [andb app].
  unfold events_close, mbind_, mgets, mmodify, mret_. cbn [ry_pc set_outcome_ count_check set_played]. rewrite Hpc. by eexists.
Qed.
End Reply.

Lemma scan_quiet ds n f : (forall d, d ∈ ds -> d.(ld_finish) = None /\ d.(ld_tool_call) = None) -> texts ds = [] -> scan ds n f = Some (n, f).
Proof.
  induction ds as [|d ds IH]; intros Hd Ht; [done|]. cbn [scan]. destruct (Hd d) as [Hf Hc]; [by left|]. rewrite Hc, Hf.
  unfold texts in Ht. cbn [omap list_omap] in Ht.
  destruct (ld_text_delta d) as [t|]; [destruct (is_empty t); [|done]|]; (apply IH; [intros; apply Hd; by right|done]).
Qed.

Lemma scan_speaking ds n : (forall d, d ∈ ds -> d.(ld_finish) = None /\ d.(ld_tool_call) = None) ->
  scan ds n false = Some (n || existsb (fun t => negb (is_empty (py_strip t))) (texts ds), false).
Proof.
  revert n. induction ds as [|d ds IH]; intros n Hd; [by rewrite orb_false_r|]. cbn [scan]. destruct (Hd d) as [Hf Hc]; [by left|].
  rewrite Hc, Hf. unfold texts. cbn [omap list_omap]. assert (forall d, d ∈ ds -> d.(ld_finish) = None /\ d.(ld_tool_call) = None) as Hds by (intros; apply Hd; by right).
  destruct (ld_text_delta d) as [t|]; [destruct (is_empty t)|]; rewrite IH by done; [done| |done]. cbn [existsb]. by rewrite orb_assoc.
Qed.

Lemma scan_spec ds : scan ds false false = Some (true, true) <-> well_spoken ds.
Proof.
  split; [apply well_spoken_scan|]. intros (b & fin & a & -> & Hf & Hn & Htc & Htx & t & Ht & Hs). rewrite scan_app.
  rewrite scan_speaking by (intros d Hd; split; [apply Hn|apply Htc]; apply elem_of_app; by left). cbn [fst snd orb].
  assert (existsb (fun t => negb (is_empty (py_strip t))) (texts b) = true) as ->.
  { apply existsb_exists. exists t. split; [by apply list_elem_of_In|]. by apply negb_true_iff, is_empty_false. }
  cbn [scan]. rewrite (Htc fin), Hf by (apply elem_of_app; right; by left). rewrite bool_decide_eq_true_2 by done. cbn [negb orb].
  unfold texts in Htx. cbn [omap list_omap] in Htx.
  assert (forall d, d ∈ a -> d.(ld_finish) = None /\ d.(ld_tool_call) = None) as Ha
    by (intros d Hd; split; [apply Hn|apply Htc]; apply elem_of_app; right; [done|by right]).
  destruct (ld_text_delta fin) as [u|]; [destruct (is_empty u); [|done]|]; by apply scan_quiet.
Qed.

(** ** The reply of a prepared binding *)

Record authorized (ctx input : string) (bindings : list ReplyBinding) (m : Member) (task : ReplyTask) (permit : Permit) (r : RoleReplyRequest) : Prop := {
  ar_binding : exists b, binding_of bindings m.(mb_companion_id) = Some b /\ b.(bd_member) = m /\ r = role_request ctx bindings b task permit;
  ar_context : task.(rt_context_ref) = ctx;
  ar_source : recognized input bindings task.(rt_trigger) = true;
  ar_check : request_check r = Ok tt;
}.

Lemma authorize_spec current ctx input bindings m task permit r s :
  authorize_reply current ctx input bindings m task permit reply_init = (Ok r, s) ->
  authorized ctx input bindings m task permit r /\ s = count_check (count_check reply_init) /\ current 0%nat = true /\ current 1%nat = true.
Proof.
  unfold authorize_reply, permit_check, mbind_, mgets, mmodify, mret_, mraise, mlift. cbn [ry_checks reply_init].
  destruct (current 0%nat) eqn:E0; [|done]. destruct (binding_of _ _) as [b|] eqn:Eb; [|done].
  destruct (_ || _) eqn:Em; [done|]. apply orb_false_iff in Em as [Em%negb_false_iff%bool_decide_eq_true Ec%negb_false_iff%bool_decide_eq_true].
  destruct (recognized _ _ _) eqn:Er; cbn [negb]; [|done]. destruct (request_check _) as [[]|e] eqn:Eq; [|done]. cbn [ry_checks count_check reply_init].
  destruct (current 1%nat) eqn:E1; [|done]. intros [= <- <-]. split; [|done]. split; [by exists b|done..].
Qed.

Lemma authorize_complete current ctx input bindings m task permit r : authorized ctx input bindings m task permit r ->
  current 0%nat = true -> current 1%nat = true ->
  authorize_reply current ctx input bindings m task permit reply_init = (Ok r, count_check (count_check reply_init)).
Proof.
  intros [(b & Hb & <- & Hr) Hc Hs Hq] H0 H1. unfold authorize_reply, permit_check, mbind_, mgets, mmodify, mret_, mraise, mlift. cbn [ry_checks reply_init].
  rewrite H0, Hb, Hc, Hs, !bool_decide_eq_true_2 by done. cbn [negb orb]. rewrite <- Hr, Hq. cbn [ry_checks count_check reply_init]. by rewrite H1.
Qed.

Section Main.
Context (dump_role : SceneRole -> pyval) (dump_message : Message -> pyval) (dump_context : list Message -> pyval).
Context (llm : RoleModel) (now : datetime) (current : nat -> bool).
Context (ctx input : string) (bindings : list ReplyBinding) (m : Member) (task : ReplyTask) (permit : Permit).
Notation build := (build dump_role dump_message dump_context).
Notation reply := (reply dump_role dump_message dump_context llm now current ctx input bindings m task permit).

Lemma authorized_inv r : current 0%nat = true -> current 1%nat = true ->
  Inv dump_role dump_message dump_context llm now current r (count_check (count_check reply_init)).
Proof. intros H0 H1. split_and!; try done. intros [|[|n]] Hn; [done|done|]. cbn in Hn. lia. Qed.

(** The model is asked at most once, and its stream is closed, whatever happens. *)
Lemma reply_closes_the_stream p : let s := snd (reply p reply_init) in
  (length s.(ry_opened) = s.(ry_closed) /\ s.(ry_closed) <= 1)%nat.
Proof.
  unfold RoleReply.reply, mbind_. destruct (authorize_reply _ _ _ _ _ _ _ _) as [[r|e] s] eqn:Ea.
  - apply authorize_spec in Ea as (_ & -> & H0 & H1).
    destruct (perform_balanced dump_role dump_message dump_context llm now current r m task permit p _ (authorized_inv r H0 H1)) as [[-> ->]|[(messages & _ & ->) ->]];
      split; simpl; lia.
  - revert Ea. unfold authorize_reply, permit_check, mbind_, mgets, mmodify, mret_, mraise, mlift.
    repeat case_match; intros; simplify_eq; split; simpl; lia.
Qed.

(** A presenter that pulls every event plays a normally finished stream. *)
Lemma drained_reply_is_played r messages ds fuel : authorized ctx input bindings m task permit r ->
  build r now = Ok messages -> llm.(ml_stream) messages = (ds, None) -> well_spoken ds ->
  (forall n, current n = true) -> llm.(ml_close) = Ok tt -> (length ds + 3 <= fuel)%nat ->
  fst (reply (drain fuel) reply_init) = Ok (mkPlayed (cat (texts ds)) true).
Proof.
  intros Ha Hb Hl Hw Hcur Hcl Hf. unfold RoleReply.reply, mbind_. rewrite (authorize_complete _ _ _ _ _ _ _ _ Ha) by done.
  destruct fuel as [|fuel]; [lia|].
  assert (stream_of dump_role dump_message dump_context llm now r = (ds, None)) as Hst by (unfold stream_of; by rewrite Hb).
  destruct (drain_completes dump_role dump_message dump_context llm now current r Hcur Hcl m task permit fuel messages (count_check (count_check reply_init)))
    as [s' ->]; rewrite ?Hst; try done; [by apply scan_spec|simpl; lia].
Qed.
End Main.

(** C23: However the presenter pulls and however often the permit is revoked and restored: a reply
    counts as played only when it was authorized, every check found the permit current, and the
    text is exactly that of one model stream that finished normally, without tool calls, and was
    pulled to its end and closed. *)
Theorem played_reply_is_the_stream dump_role dump_message dump_context llm now current ctx input bindings m task permit p text s :
  reply dump_role dump_message dump_context llm now current ctx input bindings m task permit p reply_init = (Ok (mkPlayed text true), s) ->
  exists r messages ds, authorized ctx input bindings m task permit r /\
    build dump_role dump_message dump_context r now = Ok messages /\ llm.(ml_stream) messages = (ds, None) /\
    well_spoken ds /\ text = cat (texts ds) /\ (forall n, (n < s.(ry_checks))%nat -> current n = true) /\
    s.(ry_opened) = [messages] /\ s.(ry_closed) = 1%nat.
Proof.
  unfold reply, mbind_. destruct (authorize_reply _ _ _ _ _ _ _ _) as [[r|e] s0] eqn:Ea; [|done].
  apply authorize_spec in Ea as (Ha & -> & H0 & H1). intros H.
  apply perform_completed in H as (Hend & Hw & -> & Hck & [(messages & Hb & Ho) Hc] & _); [|by apply authorized_inv].
  exists r, messages, (stream_of dump_role dump_message dump_context llm now r).1. split; [exact Ha|]. split; [exact Hb|].
  unfold stream_of in *. rewrite Hb in *. split; [by destruct (ml_stream llm messages) as [? ?]; cbn in *; subst|]. by split_and!.
Qed.
