(* ===== verification/TeamFacts.v ===== *)
(** * From the authorized selection to the reply: what a prepared session may do. *)

From S2P Require Import Prelude CoreTypes Json Effects Samples ContextText Personas RuntimeSession Coordination CoordinationFacts RoleReply RoleReplyFacts.
#[local] Open Scope eff_scope.

(** ** The messages a session answers *)

Section Rounds.
Context `{SdkOps} (c : SessionConfig).

Definition is_member (companion : string) : Prop := exists m, m ∈ c.(sc_members) /\ m.(mb_companion_id) = companion.

(** A message of the input device or of a member *)
Definition own_source (msg : Message) : Prop :=
  (msg.(ms_author_kind) = "user" /\ msg.(ms_author_id) = c.(sc_input_device_id)) \/
  (msg.(ms_author_kind) = "companion" /\ is_member msg.(ms_author_id)).

(** What a suspended round is going to ask of the adapters *)
Definition own_pc (pc : RoundPc) : Prop :=
  match pc with
  | RDeciding trigger _ _ _ => own_source trigger
  | RReplying _ _ _ permit task =>
      own_source task.(rt_trigger) /\ task.(rt_context_ref) = c.(sc_session_id) /\ is_member permit.(pm_companion)
  | _ => True
  end.
Definition own_rounds (s : CState) : Prop := forall r, r ∈ s.(c_rounds) -> own_pc r.(r_pc).
Definition own (pc : option RoundPc) : Prop := forall pc', pc = Some pc' -> own_pc pc'.

Ltac owns := repeat
  lazymatch goal with
  | |- returns (mret_ _) _ => apply returns_ret; (discriminate || done || by intros ? [= <-])
  | |- returns (mraise _) _ => apply returns_raise
  | |- returns (mbind_ _ _) _ => apply returns_bind; intros ?
  | |- returns (match ?x with _ => _ end) _ => let E := fresh "E" in destruct x eqn:E
  end.

Lemma own_done e n : returns (round_done e n) own.
Proof. unfold round_done. owns. Qed.

Lemma own_ask e trigger user n uuid : own_source trigger -> returns (ask_decision c e trigger user n uuid) own.
Proof. intros Ht. destruct n; simpl; [apply returns_bind; intros _; apply own_done|]. owns. Qed.

Lemma own_stops e capture text uuid : returns (after_stops c e capture text uuid) own.
Proof. unfold after_stops. owns. apply own_ask. by left. Qed.

Lemma own_transcript e capture stops text uuid : returns (after_transcript c e capture stops text uuid) own.
Proof. unfold after_transcript. owns. apply own_stops. Qed.

Lemma own_decision e trigger user n request result uuid : own_source trigger ->
  returns (after_decision c e trigger user n request result uuid) own.
Proof.
  intros Ht. unfold after_decision. owns; try apply own_done.
  match goal with E : List.find _ _ = Some ?m |- _ => apply find_some in E as [Hin%list_elem_of_In Hm%bool_decide_eq_true] end.
  apply returns_ret. intros pc' [= <-]. split; [done|]. split; [done|]. by eexists.
Qed.

Lemma own_reply e user n p permit task played uuid : is_member permit.(pm_companion) ->
  returns (after_reply c e user n p permit task played uuid) own.
Proof. intros Hm. unfold after_reply. owns; [apply own_done|]. apply own_ask. by right. Qed.

Lemma own_segment r d uuid m : own_pc r.(r_pc) -> round_segment c r d uuid = Some m -> returns (segment c r.(r_epoch) m) own.
Proof.
  intros Hp Hm. assert (returns m own) as Ho.
  { unfold round_segment in Hm. destruct (r_pc r) as [| |text|trigger user n request|user n p permit task], d as [v|v|v|v]; simplify_eq;
      (destruct v as [v|x]; [|apply returns_raise]); cbn [or_raise].
    - apply own_transcript.
    - apply own_stops.
    - by apply own_decision.
    - apply own_reply, Hp. }
  unfold segment. apply (returns_bind_with _ _ own); [|intros [pc|] Hpc; owns].
  intros s a s'. unfold mtry. destruct (m s) as [[b|x] s1] eqn:E; [intros [= <- <-]; by eapply Ho|].
  unfold mbind_. destruct (on_round_error _ _ _ _) as [[?|?] ?]; [|done]. by intros [= <- <-].
Qed.

(** ** Only [release] and [put_round] change the rounds. *)

Notation steady m := (preserves (fun s s' : CState => s'.(c_rounds) = s.(c_rounds)) m).
#[local] Instance rounds_preorder : PreOrder (fun s s' : CState => s'.(c_rounds) = s.(c_rounds)).
Proof. split; [done|]. intros s1 s2 s3 H1 H2. congruence. Qed.

Ltac steady := repeat first
  [ preserve_step
  | match goal with |- preserves _ (mmodify _) => apply preserves_modify; intros ?; unfold put_stop; repeat case_match; done
                  | |- preserves _ (event _ _) => by apply preserves_modify end ].

Lemma steady_ask e t u n uuid : steady (ask_decision c e t u n uuid).
Proof. destruct n; simpl; unfold round_done, check, set_outcome; steady. Qed.
Lemma steady_fail reason stop : steady (fail_round c reason stop).
Proof. unfold fail_round, dispatch_stop. steady. Qed.
Lemma steady_stops e capture text uuid : steady (after_stops c e capture text uuid).
Proof. unfold after_stops, check. steady; (apply steady_ask || apply steady_fail). Qed.

Lemma steady_segment r d uuid m : round_segment c r d uuid = Some m -> steady (segment c r.(r_epoch) m).
Proof.
  intros Hm. assert (steady m) as Hs.
  { unfold round_segment in Hm. destruct (r_pc r) as [| |text|trigger user n request|user n p permit task], d as [v|v|v|v]; simplify_eq;
      (destruct v as [v|x]; [|apply preserves_raise; typeclasses eauto]); cbn [or_raise].
    - unfold after_transcript, check. steady. apply steady_stops.
    - apply steady_stops.
    - unfold after_decision, round_done, check, set_outcome. steady.
    - unfold after_reply, round_done, check, set_outcome. steady. apply steady_ask. }
  unfold segment, on_round_error, round_finally. steady; try exact Hs; try apply steady_fail.
  match goal with E : Some _ = Some _ |- _ => injection E as <- end. steady; apply steady_fail.
Qed.

Lemma own_put r pc s : own_rounds s -> own pc -> own_rounds (snd (put_round r pc s)).
Proof.
  intros Hs Hpc x. unfold put_round, mmodify. cbn [snd c_rounds set_c_rounds]. destruct pc as [pc|].
  - intros (y & -> & Hy)%list_elem_of_fmap. case_bool_decide; [by apply Hpc|by apply Hs].
  - intros [Hx _]%elem_of_filter_list. by apply Hs.
Qed.

Lemma own_steady {A} (m : M CState A) s : steady m -> own_rounds s -> own_rounds (snd (m s)).
Proof. intros Hm Hs r. rewrite (Hm s). apply Hs. Qed.

Lemma fire_own l s : own_rounds s -> own_rounds (snd (fire c l s)).
Proof.
  intros Hs. destruct l as [dev cap|dev cap|i m r|i|i d uuid|p phase|i| |];
    unfold fire; unfold mbind_ at 1; unfold mget at 1; cbn beta iota.
  - apply own_steady; [|done]. unfold press, dispatch_stop. steady.
  - unfold release. unfold mbind_ at 1 2, mget at 1. destruct (_ || _); [done|]. destruct (_ || _); [done|].
    intros r. cbn. intros [Hr|[->|[]%elem_of_nil]%elem_of_cons]%elem_of_app; [by apply Hs|done].
  - destruct (find_stop i s) as [t|]; [|done]. destruct (_ && _); [|done]. apply own_steady; [|done]. unfold stop_done. steady.
  - destruct (find_round i s) as [r|]; [|done]. destruct (r_pc r); try done. apply own_put; [done|]. by intros ? [= <-].
  - destruct (find_round i s) as [r|] eqn:Er; [|done]. destruct (deliverable _ _ _ _); [|done].
    destruct (round_segment c r d uuid) as [m|] eqn:Em; [|done].
    apply find_some in Er as [Hin%list_elem_of_In _]. pose proof (own_segment r d uuid m (Hs r Hin) Em s) as Ho.
    pose proof (own_steady _ s (steady_segment r d uuid m Em) Hs) as Hr. unfold mbind_.
    destruct (segment c (r_epoch r) m s) as [[pc|e] s'] eqn:E; [|exact Hr]. apply own_put; [exact Hr|]. by eapply Ho.
  - apply own_steady; [|done]. unfold permit_phase. steady.
  - destruct (find_round i s) as [r|]; [|done]. destruct (r_pc r); try done. by apply own_put.
  - apply own_steady; [|done]. unfold close. steady.
  - apply own_steady; [|done]. steady.
Qed.

Lemma reachable_own s : reachable c s -> own_rounds s.
Proof. induction 1; [intros r Hr; by apply elem_of_nil in Hr|by apply fire_own]. Qed.
End Rounds.

(** ** A prepared session *)

Section Prepared.
Context (float_of_int : Z -> res string) (at_ : CompanionRuntimeAuthority) (check_role : SceneRole -> res unit) (stop_ms stage_ms : Z).
Context (owner : string) (sel : Selection).
Notation prepare := (prepare_session float_of_int at_ check_role stop_ms stage_ms owner sel).
Notation scoped := (scoped float_of_int at_).

Lemma bind_member_spec selected b : bind_member float_of_int at_ owner sel selected = Ok b ->
  b.(bd_member).(mb_companion_id) = selected.1 /\ b.(bd_member).(mb_device_id) = selected.2 /\
  scoped (member_credential owner sel selected.1) b.(bd_scope).
Proof.
  intros (scope & Ha & [= <-])%res_bind_ok. split; [done|]. split; [done|].
  by apply authorize_scoped.
Qed.

Lemma bind_members_spec l bs : bind_members float_of_int at_ owner sel l = Ok bs ->
  Forall2 (fun x b => bind_member float_of_int at_ owner sel x = Ok b) l bs.
Proof.
  revert bs. induction l as [|x l IH]; intros bs; simpl; [intros [= <-]; constructor|].
  intros (b & Hb & (bs' & Hbs & [= <-])%res_bind_ok)%res_bind_ok. constructor; [done|by apply IH].
Qed.

Lemma check_bindings_spec input seen rest : check_bindings input seen rest = Ok tt ->
  forall b, b ∈ rest -> b.(bd_scope).(as_device_id) = Some input /\ b.(bd_member).(mb_device_id) <> input /\
    b.(bd_member).(mb_companion_id) = as_companion_id b.(bd_scope).
Proof.
  revert seen. induction rest as [|x rest IH]; intros seen H b Hb; [by apply elem_of_nil in Hb|]. simpl in H.
  destruct (inconsistent input seen x) eqn:Ei; [done|]. apply elem_of_cons in Hb as [->|Hb]; [|by eapply IH].
  unfold inconsistent in Ei. apply orb_false_iff in Ei as [[[[Ec%negb_false_iff%bool_decide_eq_true
    Ed%negb_false_iff%bool_decide_eq_true]%orb_false_iff En%bool_decide_eq_false]%orb_false_iff _]%orb_false_iff _]. by split_and!.
Qed.

Lemma prepared_spec config bindings : prepare = Ok (config, bindings) ->
  session_check config = Ok tt /\ config.(sc_session_id) = sel.(sl_session_id) /\ config.(sc_input_device_id) = sel.(sl_input_device) /\
  config.(sc_members) = map bd_member bindings /\ Forall2 (fun x b => bind_member float_of_int at_ owner sel x = Ok b) sel.(sl_members) bindings /\
  check_bindings sel.(sl_input_device) [] bindings = Ok tt.
Proof.
  unfold prepare_session. destruct (is_empty _); [done|]. intros (bs & Hb & H)%res_bind_ok. apply res_bind_ok in H as ([] & Hr & H).
  apply res_bind_ok in H as ([] & Hs & [= <- <-]). split; [exact Hs|]. split; [done|]. split; [done|]. split; [done|]. split; [by apply bind_members_spec|].
  unfold replies_check in Hr. destruct (_ || _); [done|]. destruct (negb _); [done|]. by apply res_bind_ok in Hr as ([] & Hc & _).
Qed.

Lemma session_check_nodup config : session_check config = Ok tt ->
  NoDup (map mb_companion_id config.(sc_members)) /\ config.(sc_input_device_id) ∉ map mb_device_id config.(sc_members).
Proof.
  unfold session_check. destruct (is_empty _ || is_empty _ || _); [done|]. destruct (bool_decide (16 < _)%nat || _) eqn:E1; [done|].
  destruct (bool_decide (_ ∈ _) || _) eqn:E2; [done|]. intros _.
  apply orb_false_iff in E1 as [_ E1%negb_false_iff%bool_decide_eq_true]. by apply orb_false_iff in E2 as [E2%bool_decide_eq_false _].
Qed.

Lemma binding_found bindings b : NoDup (map (fun b => b.(bd_member).(mb_companion_id)) bindings) -> b ∈ bindings ->
  binding_of bindings b.(bd_member).(mb_companion_id) = Some b.
Proof.
  induction bindings as [|x l IH]; intros Hn Hb; [by apply elem_of_nil in Hb|]. unfold binding_of. simpl.
  simpl in Hn. apply NoDup_cons in Hn as [Hx Hn]. apply elem_of_cons in Hb as [->|Hb]; [by rewrite bool_decide_eq_true_2|].
  rewrite bool_decide_eq_false_2; [by apply IH|]. intros Heq. apply Hx. apply list_elem_of_fmap. by exists b.
Qed.

(** The action of a task is one a role reply accepts. *)
Definition speakable (task : ReplyTask) : Prop :=
  task.(rt_action) ∈ ["respond"; "clarify"] /\ (task.(rt_action) = "clarify" -> py_strip task.(rt_instruction) <> "").

Context `{SdkOps}.

Lemma pending_reply_authorized config bindings s rd user n p permit task :
  prepare = Ok (config, bindings) -> py_strip sel.(sl_session_id) = sel.(sl_session_id) ->
  reachable config s -> rd ∈ s.(c_rounds) -> rd.(r_pc) = RReplying user n p permit task ->
  permit.(pm_turn_id) <> "" -> speakable task ->
  exists m r, m ∈ config.(sc_members) /\ m.(mb_companion_id) = permit.(pm_companion) /\
    authorized sel.(sl_session_id) sel.(sl_input_device) bindings m task permit r /\
    scoped (member_credential owner sel permit.(pm_companion)) r.(rr_scope).
Proof.
  intros (Hck & Hsid & Hin & Hmem & Hbs & Hbind)%prepared_spec Hstrip Hreach Hrd Hpc Hturn [Hact Hinstr].
  pose proof (reachable_own config s Hreach rd Hrd) as Hown. rewrite Hpc in Hown. destruct Hown as (Hsrc & Hctx & m & Hm & Hcomp).
  destruct (session_check_nodup _ Hck) as [Hnd _]. rewrite Hmem, map_map in Hnd.
  assert (forall x, x ∈ sc_members config -> exists b, b ∈ bindings /\ bd_member b = x /\ binding_of bindings (mb_companion_id x) = Some b) as Hfind.
  { intros x Hx. rewrite Hmem in Hx. apply list_elem_of_fmap in Hx as (b & -> & Hb). exists b. split_and!; [done..|]. by apply binding_found. }
  destruct (Hfind m Hm) as (b & Hb & Hbm & Hbo).
  assert (scoped (member_credential owner sel (pm_companion permit)) (bd_scope b)) as Hscope.
  { apply list_elem_of_lookup in Hb as [i Hi]. destruct (Forall2_lookup_r _ _ _ _ _ Hbs Hi) as (x & Hx & Hbx).
    apply bind_member_spec in Hbx as (Hc & _ & Hs). rewrite <- Hcomp, <- Hbm, Hc. exact Hs. }
  exists m, (role_request (sl_session_id sel) bindings b task permit). split; [done|]. split; [done|]. split; [|exact Hscope].
  split; [by exists b|by rewrite Hctx| |].
  - unfold recognized. destruct Hsrc as [[-> ->]|[-> (x & Hx & <-)]].
    + by rewrite Hin, (bool_decide_eq_true_2 (sl_input_device sel = _)) by done.
    + destruct (Hfind x Hx) as (b' & _ & _ & ->). done.
  - unfold request_check. cbn [role_request rr_action rr_instruction rr_scope rr_context_ref rr_turn_id rr_assignment_revision rr_members].
    rewrite (bool_decide_eq_true_2 _ Hact). destruct Hscope as [_ _ Hsc [Hss _] _ _ _ _].
    assert (as_session_id (bd_scope b) = sl_session_id sel) as -> by (rewrite Hss; exact Hstrip).
    assert (bool_decide (rt_action task = "clarify") && is_empty (py_strip (rt_instruction task)) = false) as ->.
    { case_bool_decide; [|done]. by apply is_empty_false, Hinstr. }
    apply is_empty_false in Hturn. rewrite Hturn, (bool_decide_eq_true_2 (_ = _)) by done. cbn [negb orb].
    assert (map rm_companion_id (role_members bindings) = map (fun b => mb_companion_id (bd_member b)) bindings) as ->
      by (unfold role_members; by rewrite map_map).
    rewrite (bool_decide_eq_true_2 _ Hnd), bool_decide_eq_true_2; [done|]. rewrite Hsc. cbn.
    apply list_elem_of_fmap. exists b. split; [|done]. by rewrite Hbm.
Qed.
End Prepared.

(** In every reachable state of a session prepared from an authorized selection, the pending
    reply is bound to a member whose scope the authority granted this owner, passes every check
    of the adapter, and is played in full when the model finishes normally under a current
    permit. *)
Theorem prepared_members_can_speak `{SdkOps} float_of_int at_ check_role stop_ms stage_ms owner sel config bindings s rd user n p permit task :
  prepare_session float_of_int at_ check_role stop_ms stage_ms owner sel = Ok (config, bindings) ->
  py_strip sel.(sl_session_id) = sel.(sl_session_id) ->
  reachable config s -> rd ∈ s.(c_rounds) -> rd.(r_pc) = RReplying user n p permit task ->
  permit.(pm_turn_id) <> "" -> speakable task ->
  exists m r, m ∈ config.(sc_members) /\ m.(mb_companion_id) = permit.(pm_companion) /\
    scoped float_of_int at_ (member_credential owner sel permit.(pm_companion)) r.(rr_scope) /\
    forall dump_role dump_message dump_context llm now current messages ds fuel,
      build dump_role dump_message dump_context r now = Ok messages -> llm.(ml_stream) messages = (ds, None) -> well_spoken ds ->
      (forall i, current i = true) -> llm.(ml_close) = Ok tt -> (length ds + 3 <= fuel)%nat ->
      fst (reply dump_role dump_message dump_context llm now current sel.(sl_session_id) sel.(sl_input_device) bindings m task permit
             (drain fuel) reply_init) = Ok (mkPlayed (cat (texts ds)) true).
Proof.
  intros Hprep Hstrip Hreach Hrd Hpc Hturn Hsp.
  destruct (pending_reply_authorized _ _ _ _ _ _ _ _ _ _ _ _ _ _ _ _ Hprep Hstrip Hreach Hrd Hpc Hturn Hsp) as (m & r & Hm & Hc & Ha & Hs).
  exists m, r. split; [exact Hm|]. split; [exact Hc|]. split; [exact Hs|]. intros. by eapply drained_reply_is_played.
Qed.

(** ** A concrete scene *)

Definition team_authority : CompanionRuntimeAuthority :=
  mkAuthority
    (fun owner companion _ => Ok (mkFacts owner companion "" "genome" 1 "v1" "hash" "r1" sample_genome (VDict [])))
    (fun _ _ _ => Err (PyError "LookupError" "")) (fun _ _ _ _ => Err (PyError "LookupError" "")).
Definition team_selection : Selection := mkSelection "scene" "mic" [("ada", "speaker-1"); ("bob", "speaker-2")] "a chat" 2.
Notation team_prepared := (prepare_session (fun _ => Ok "1.0") team_authority (fun _ => Ok tt) 1000 30000 "owner" team_selection).
Definition team : SessionConfig * list ReplyBinding :=
  match team_prepared with Ok x => x | Err _ => (mkSession "" "" [] "" 0 0 0, []) end.
Lemma team_is_prepared : team_prepared = Ok team.
Proof. vm_compute. reflexivity. Qed.

Definition team_member (i : nat) : Member := nth i team.1.(sc_members) (sample_member "" "").
(** Press, speak, wait for both receipts, let [ada] reply. *)
Definition team_speaking : CState := run_session team.1
  [LPress "mic" "cap-1"; LStop 0 (team_member 0) (Ok tt); LRelease "mic" "cap-1"; LStart 1; LResume 1 (GotText (Ok "hello")) "d1";
   LStop 0 (team_member 1) (Ok tt); LResume 1 (GotStops (Ok tt)) "d1"; LResume 1 (GotDecision (Ok (sample_decision "ada"))) "t1"]
  (session_init team.1).
Definition team_round : Round := nth 0 team_speaking.(c_rounds) (mkRound 0 0 "" [] RCreated).

Definition team_stream : list LLMDelta :=
  [mkDelta (Some "Hi") None None None None; mkDelta None (Some REASONING) None None None; mkDelta (Some " all.") None None None None;
   mkDelta None None None (Some STOP) None].
Definition team_llm : RoleModel := mkRoleModel (fun _ => (team_stream, None)) (Ok tt).
Definition team_task : ReplyTask := match team_round.(r_pc) with RReplying _ _ _ _ t => t | _ => mkReplyTask "" "" (Coordination.mkMessage "" "" "" "") [] "" "" (Coordination.mkMessage "" "" "" "") "" end.
Notation team_reply := (reply (fun r => VStr r.(sr_name)) (fun x => VStr x.(ms_text)) (fun l => VList (map (fun x => VStr x.(ms_text)) l))
  team_llm sample_time (fun _ => true) "scene" "mic" team.2 (team_member 0) team_task (mkPermit "t1" 1 "ada")).

(** The presenter that stops after the first event does not count as played. *)
Example unfinished_reply :
  fst (team_reply (drain 8) reply_init) = Ok (mkPlayed "Hi all." true) /\
  fst (team_reply (PPull (fun _ => PReturn true)) reply_init) = Ok (mkPlayed "Hi" false).
Proof. split; vm_compute; reflexivity. Qed.

Lemma played_reply_is_the_stream_witness : exists ds, well_spoken ds /\ cat (texts ds) = "Hi all.".
Proof.
  assert (team_reply (drain 8) reply_init = (Ok (mkPlayed "Hi all." true), snd (team_reply (drain 8) reply_init))) as H by (vm_compute; reflexivity).
  destruct (played_reply_is_the_stream _ _ _ _ _ _ _ _ _ _ _ _ _ _ _ H) as (r & messages & ds & _ & _ & _ & Hw & Ht & _). exists ds. split; [exact Hw|]. symmetry. exact Ht.
Defined.

Lemma team_reachable : reachable team.1 team_speaking.
Proof. apply reachable_run. constructor. vm_compute. reflexivity. Qed.

Lemma prepared_members_can_speak_witness : exists m r, m ∈ team.1.(sc_members) /\ m.(mb_companion_id) = "ada" /\
  as_owner_id r.(rr_scope) = "owner".
Proof.
  assert (team_round ∈ team_speaking.(c_rounds)) as Hr by (assert (team_speaking.(c_rounds) = [team_round]) as -> by (vm_compute; reflexivity); by left).
  destruct (prepared_members_can_speak (fun _ => Ok "1.0") team_authority (fun _ => Ok tt) 1000 30000 "owner" team_selection team.1 team.2
    team_speaking team_round (Coordination.mkMessage "cap-1" "user" "mic" "hello") 2 (mkProposal "respond" ["ada"] "") (mkPermit "t1" 1 "ada") team_task)
    as (m & r & Hm & Hc & Hs & _); [|vm_compute; reflexivity|apply team_reachable|exact Hr|vm_compute; reflexivity|done|split; [by_compute|intros E; vm_compute in E; discriminate E]|].
  - rewrite team_is_prepared. by destruct team.
  - exists m, r. split; [exact Hm|]. split; [exact Hc|]. exact (so_owner _ _ _ _ Hs).
Defined.
