(* ===== verification/TeamStream.v ===== *)
(** * [app/transport/coordination.py], [app/admin/routers/role_groups.py]: a team session
      behind the socket of its devices.

    [CoordinationStream] is the [Ports] of a [Coordination] session: it turns the session's
    stops and replies into frames for the devices, and their receipts into what the session
    waits for. The state is the session's with the stream's, and the calls that run in it; a
    label is a frame that arrives, a frame that leaves, or what the event loop resumes. The
    SDK's frames have the fields the code names. *)

From S2P Require Import Prelude CoreTypes Effects Coordination RoleReply.
#[local] Open Scope eff_scope.

(** ** Frames *)

(** The SDK's [CLIENT_FRAME]. *)
Record Receipt := mkReceipt {
  rc_request_id : string;
  rc_device_id : string;
  rc_result : string;
  rc_completion_basis : string;
  rc_error_code : string;
}.
#[global] Instance receipt_eq_dec : EqDecision Receipt.
Proof. solve_decision. Defined.

Inductive ClientFrame :=
  | FReceipt (r : Receipt)
  | FSpeaking (turn_id device_id : string)
  | FClose
  | FPress (capture_id : string)
  | FRelease (capture_id : string)
  | FTranscript (capture_id text : string).

(** What [emit] sends, by ["type"]; [fr_session_id] is common to all. *)
Inductive FramePayload :=
  | Prepared (policy : string)
  | Capturing (capture_id : string) (epoch : Z)
  | StopRequest (request_id device_id : string) (epoch : Z) (capture_id : option string)
  | ReplyStart (request_id companion_id device_id turn_id : string) (epoch : Z)
  | ReplyDelta (request_id turn_id : string) (epoch : Z) (device_id text : string)
  | ReplyEnd (request_id turn_id : string) (epoch : Z) (device_id : string)
  | StateReport (capture_id state : string) (members : list (string * string)) (epoch : Z) (outcome error_code : string).

Record Frame := mkFrame { fr_stream_id : string; fr_session_id : string; fr_payload : FramePayload }.

(** An element of [outbound]: the tuple the priority queue orders. *)
Record Entry := mkEntry {
  en_priority : Z;
  en_sequence : Z;
  en_permit : option Permit;
  en_frame : Frame;
  en_reply_slot : bool;
}.

(** ** The state *)

(** An [asyncio.Future]. *)
Inductive Future (A : Type) := FutPending | FutDone (a : A) | FutCancelled.
Arguments FutPending {A}.
Arguments FutDone {A} a.
Arguments FutCancelled {A}.
Definition fut_done {A} (f : Future A) : bool := if f is FutPending then false else true.
Definition fut_cancel {A} (f : Future A) : Future A := if f is FutPending then FutCancelled else f.

Record PendingReceipt := mkPending {
  pd_device_id : string;
  pd_future : Future bool;
  pd_permit : option Permit;
  pd_completion_allowed : bool;
  pd_error_code : string;
}.
Definition pd_resolve (ok : bool) (code : string) (p : PendingReceipt) : PendingReceipt :=
  mkPending p.(pd_device_id) (FutDone ok) p.(pd_permit) p.(pd_completion_allowed) code.
Definition pd_cancel (p : PendingReceipt) : PendingReceipt :=
  mkPending p.(pd_device_id) (fut_cancel p.(pd_future)) p.(pd_permit) p.(pd_completion_allowed) p.(pd_error_code).
Definition pd_allow (p : PendingReceipt) : PendingReceipt :=
  mkPending p.(pd_device_id) p.(pd_future) p.(pd_permit) true p.(pd_error_code).

(** A running [stop], called by the member's part of the session's stop task. *)
Record StopCall := mkStopCall { sp_task : nat; sp_member : Member; sp_epoch : Z; sp_request_id : string }.

(** Where a running [present] is suspended: for a slot with the frame it will emit_frame, for the
    next event, or for the receipt. *)
Inductive PresentPc := PSlot (next : FramePayload) (final : bool) | PEvents | PReceipt.
Record PresentCall := mkPresent { ps_round : nat; ps_member : Member; ps_permit : Permit; ps_pc : PresentPc }.

(** Whether [close] was scheduled by the device, runs, or is over. *)
Inductive ClosePhase := NotClosing | CloseScheduled | CloseRuns | CloseOver.
#[global] Instance close_phase_eq_dec : EqDecision ClosePhase.
Proof. solve_decision. Defined.

(** What the stream asked, accepted and sent; the log only records, newest first. *)
Inductive Fact :=
  | Asked (request_id device_id : string) (epoch : Z)
  | Accepted (r : Receipt)
  | Heard (capture_id text : string)
  | Sent (f : Frame).

(** [t_gone] after the router left its tasks, [t_failed] when its reader did. [t_waits] pairs a round
    with the transcript it awaits, [t_callbacks] a round with the capture of its release;
    [t_played] are the turns [present] returned from. *)
Record SceneState := mkScene {
  t_session : CState;
  t_outbound : list Entry;
  t_slots : Z;
  t_sequence : Z;
  t_pending : list (string * PendingReceipt);
  t_capture_id : option string;
  t_capture_epochs : list (Z * string);
  t_futures : list (Future string);
  t_transcript : option nat;
  t_released : bool;
  t_connected : bool;
  t_closing : ClosePhase;
  t_closed : bool;
  t_gone : bool;
  t_failed : option exn;
  t_stops : list StopCall;
  t_presents : list PresentCall;
  t_waits : list (nat * nat);
  t_callbacks : list (nat * string);
  t_played : list string;
  t_log : list Fact;
}.

Definition set_t_session (v : CState) (s : SceneState) : SceneState :=
  mkScene v s.(t_outbound) s.(t_slots) s.(t_sequence) s.(t_pending) s.(t_capture_id) s.(t_capture_epochs) s.(t_futures) s.(t_transcript) s.(t_released) s.(t_connected) s.(t_closing) s.(t_closed) s.(t_gone) s.(t_failed) s.(t_stops) s.(t_presents) s.(t_waits) s.(t_callbacks) s.(t_played) s.(t_log).
Definition set_t_outbound (v : list Entry) (s : SceneState) : SceneState :=
  mkScene s.(t_session) v s.(t_slots) s.(t_sequence) s.(t_pending) s.(t_capture_id) s.(t_capture_epochs) s.(t_futures) s.(t_transcript) s.(t_released) s.(t_connected) s.(t_closing) s.(t_closed) s.(t_gone) s.(t_failed) s.(t_stops) s.(t_presents) s.(t_waits) s.(t_callbacks) s.(t_played) s.(t_log).
Definition set_t_slots (v : Z) (s : SceneState) : SceneState :=
  mkScene s.(t_session) s.(t_outbound) v s.(t_sequence) s.(t_pending) s.(t_capture_id) s.(t_capture_epochs) s.(t_futures) s.(t_transcript) s.(t_released) s.(t_connected) s.(t_closing) s.(t_closed) s.(t_gone) s.(t_failed) s.(t_stops) s.(t_presents) s.(t_waits) s.(t_callbacks) s.(t_played) s.(t_log).
Definition set_t_sequence (v : Z) (s : SceneState) : SceneState :=
  mkScene s.(t_session) s.(t_outbound) s.(t_slots) v s.(t_pending) s.(t_capture_id) s.(t_capture_epochs) s.(t_futures) s.(t_transcript) s.(t_released) s.(t_connected) s.(t_closing) s.(t_closed) s.(t_gone) s.(t_failed) s.(t_stops) s.(t_presents) s.(t_waits) s.(t_callbacks) s.(t_played) s.(t_log).
Definition set_t_pending (v : list (string * PendingReceipt)) (s : SceneState) : SceneState :=
  mkScene s.(t_session) s.(t_outbound) s.(t_slots) s.(t_sequence) v s.(t_capture_id) s.(t_capture_epochs) s.(t_futures) s.(t_transcript) s.(t_released) s.(t_connected) s.(t_closing) s.(t_closed) s.(t_gone) s.(t_failed) s.(t_stops) s.(t_presents) s.(t_waits) s.(t_callbacks) s.(t_played) s.(t_log).
Definition set_t_capture_id (v : option string) (s : SceneState) : SceneState :=
  mkScene s.(t_session) s.(t_outbound) s.(t_slots) s.(t_sequence) s.(t_pending) v s.(t_capture_epochs) s.(t_futures) s.(t_transcript) s.(t_released) s.(t_connected) s.(t_closing) s.(t_closed) s.(t_gone) s.(t_failed) s.(t_stops) s.(t_presents) s.(t_waits) s.(t_callbacks) s.(t_played) s.(t_log).
Definition set_t_capture_epochs (v : list (Z * string)) (s : SceneState) : SceneState :=
  mkScene s.(t_session) s.(t_outbound) s.(t_slots) s.(t_sequence) s.(t_pending) s.(t_capture_id) v s.(t_futures) s.(t_transcript) s.(t_released) s.(t_connected) s.(t_closing) s.(t_closed) s.(t_gone) s.(t_failed) s.(t_stops) s.(t_presents) s.(t_waits) s.(t_callbacks) s.(t_played) s.(t_log).
Definition set_t_futures (v : list (Future string)) (s : SceneState) : SceneState :=
  mkScene s.(t_session) s.(t_outbound) s.(t_slots) s.(t_sequence) s.(t_pending) s.(t_capture_id) s.(t_capture_epochs) v s.(t_transcript) s.(t_released) s.(t_connected) s.(t_closing) s.(t_closed) s.(t_gone) s.(t_failed) s.(t_stops) s.(t_presents) s.(t_waits) s.(t_callbacks) s.(t_played) s.(t_log).
Definition set_t_transcript (v : option nat) (s : SceneState) : SceneState :=
  mkScene s.(t_session) s.(t_outbound) s.(t_slots) s.(t_sequence) s.(t_pending) s.(t_capture_id) s.(t_capture_epochs) s.(t_futures) v s.(t_released) s.(t_connected) s.(t_closing) s.(t_closed) s.(t_gone) s.(t_failed) s.(t_stops) s.(t_presents) s.(t_waits) s.(t_callbacks) s.(t_played) s.(t_log).
Definition set_t_released (v : bool) (s : SceneState) : SceneState :=
  mkScene s.(t_session) s.(t_outbound) s.(t_slots) s.(t_sequence) s.(t_pending) s.(t_capture_id) s.(t_capture_epochs) s.(t_futures) s.(t_transcript) v s.(t_connected) s.(t_closing) s.(t_closed) s.(t_gone) s.(t_failed) s.(t_stops) s.(t_presents) s.(t_waits) s.(t_callbacks) s.(t_played) s.(t_log).
Definition set_t_connected (v : bool) (s : SceneState) : SceneState :=
  mkScene s.(t_session) s.(t_outbound) s.(t_slots) s.(t_sequence) s.(t_pending) s.(t_capture_id) s.(t_capture_epochs) s.(t_futures) s.(t_transcript) s.(t_released) v s.(t_closing) s.(t_closed) s.(t_gone) s.(t_failed) s.(t_stops) s.(t_presents) s.(t_waits) s.(t_callbacks) s.(t_played) s.(t_log).
Definition set_t_closing (v : ClosePhase) (s : SceneState) : SceneState :=
  mkScene s.(t_session) s.(t_outbound) s.(t_slots) s.(t_sequence) s.(t_pending) s.(t_capture_id) s.(t_capture_epochs) s.(t_futures) s.(t_transcript) s.(t_released) s.(t_connected) v s.(t_closed) s.(t_gone) s.(t_failed) s.(t_stops) s.(t_presents) s.(t_waits) s.(t_callbacks) s.(t_played) s.(t_log).
Definition set_t_closed (v : bool) (s : SceneState) : SceneState :=
  mkScene s.(t_session) s.(t_outbound) s.(t_slots) s.(t_sequence) s.(t_pending) s.(t_capture_id) s.(t_capture_epochs) s.(t_futures) s.(t_transcript) s.(t_released) s.(t_connected) s.(t_closing) v s.(t_gone) s.(t_failed) s.(t_stops) s.(t_presents) s.(t_waits) s.(t_callbacks) s.(t_played) s.(t_log).
Definition set_t_gone (v : bool) (s : SceneState) : SceneState :=
  mkScene s.(t_session) s.(t_outbound) s.(t_slots) s.(t_sequence) s.(t_pending) s.(t_capture_id) s.(t_capture_epochs) s.(t_futures) s.(t_transcript) s.(t_released) s.(t_connected) s.(t_closing) s.(t_closed) v s.(t_failed) s.(t_stops) s.(t_presents) s.(t_waits) s.(t_callbacks) s.(t_played) s.(t_log).
Definition set_t_failed (v : option exn) (s : SceneState) : SceneState :=
  mkScene s.(t_session) s.(t_outbound) s.(t_slots) s.(t_sequence) s.(t_pending) s.(t_capture_id) s.(t_capture_epochs) s.(t_futures) s.(t_transcript) s.(t_released) s.(t_connected) s.(t_closing) s.(t_closed) s.(t_gone) v s.(t_stops) s.(t_presents) s.(t_waits) s.(t_callbacks) s.(t_played) s.(t_log).
Definition set_t_stops (v : list StopCall) (s : SceneState) : SceneState :=
  mkScene s.(t_session) s.(t_outbound) s.(t_slots) s.(t_sequence) s.(t_pending) s.(t_capture_id) s.(t_capture_epochs) s.(t_futures) s.(t_transcript) s.(t_released) s.(t_connected) s.(t_closing) s.(t_closed) s.(t_gone) s.(t_failed) v s.(t_presents) s.(t_waits) s.(t_callbacks) s.(t_played) s.(t_log).
Definition set_t_presents (v : list PresentCall) (s : SceneState) : SceneState :=
  mkScene s.(t_session) s.(t_outbound) s.(t_slots) s.(t_sequence) s.(t_pending) s.(t_capture_id) s.(t_capture_epochs) s.(t_futures) s.(t_transcript) s.(t_released) s.(t_connected) s.(t_closing) s.(t_closed) s.(t_gone) s.(t_failed) s.(t_stops) v s.(t_waits) s.(t_callbacks) s.(t_played) s.(t_log).
Definition set_t_waits (v : list (nat * nat)) (s : SceneState) : SceneState :=
  mkScene s.(t_session) s.(t_outbound) s.(t_slots) s.(t_sequence) s.(t_pending) s.(t_capture_id) s.(t_capture_epochs) s.(t_futures) s.(t_transcript) s.(t_released) s.(t_connected) s.(t_closing) s.(t_closed) s.(t_gone) s.(t_failed) s.(t_stops) s.(t_presents) v s.(t_callbacks) s.(t_played) s.(t_log).
Definition set_t_callbacks (v : list (nat * string)) (s : SceneState) : SceneState :=
  mkScene s.(t_session) s.(t_outbound) s.(t_slots) s.(t_sequence) s.(t_pending) s.(t_capture_id) s.(t_capture_epochs) s.(t_futures) s.(t_transcript) s.(t_released) s.(t_connected) s.(t_closing) s.(t_closed) s.(t_gone) s.(t_failed) s.(t_stops) s.(t_presents) s.(t_waits) v s.(t_played) s.(t_log).
Definition set_t_played (v : list string) (s : SceneState) : SceneState :=
  mkScene s.(t_session) s.(t_outbound) s.(t_slots) s.(t_sequence) s.(t_pending) s.(t_capture_id) s.(t_capture_epochs) s.(t_futures) s.(t_transcript) s.(t_released) s.(t_connected) s.(t_closing) s.(t_closed) s.(t_gone) s.(t_failed) s.(t_stops) s.(t_presents) s.(t_waits) s.(t_callbacks) v s.(t_log).
Definition set_t_log (v : list Fact) (s : SceneState) : SceneState :=
  mkScene s.(t_session) s.(t_outbound) s.(t_slots) s.(t_sequence) s.(t_pending) s.(t_capture_id) s.(t_capture_epochs) s.(t_futures) s.(t_transcript) s.(t_released) s.(t_connected) s.(t_closing) s.(t_closed) s.(t_gone) s.(t_failed) s.(t_stops) s.(t_presents) s.(t_waits) s.(t_callbacks) s.(t_played) v.

Definition log (f : Fact) (s : SceneState) : SceneState := set_t_log (f :: s.(t_log)) s.
Definition update_pending (rid : string) (f : PendingReceipt -> PendingReceipt) (s : SceneState) : SceneState :=
  match dict_get s.(t_pending) rid with
  | Some p => set_t_pending (dict_set s.(t_pending) rid (f p)) s
  | None => s
  end.
Definition pop_pending (rid : string) (s : SceneState) : SceneState := set_t_pending (dict_pop s.(t_pending) rid) s.

(** The transcript the stream expects. *)
Definition transcript (s : SceneState) : option (Future string) := s.(t_transcript) ≫= fun i => s.(t_futures) !! i.
Definition set_future (i : nat) (f : Future string) (s : SceneState) : SceneState := set_t_futures (<[i := f]> s.(t_futures)) s.
Definition cancel_future (i : nat) (s : SceneState) : SceneState :=
  match s.(t_futures) !! i with Some f => set_future i (fut_cancel f) s | None => s end.
Definition cancel_transcript (s : SceneState) : SceneState :=
  match s.(t_transcript) with Some i => cancel_future i s | None => s end.

(** [put_nowait] keeps the queue in the order of its tuples: by priority, then by sequence. *)
Definition entry_before (a b : Entry) : bool :=
  (a.(en_priority) <? b.(en_priority)) || ((a.(en_priority) =? b.(en_priority)) && (a.(en_sequence) <? b.(en_sequence))).
Fixpoint put_nowait (e : Entry) (q : list Entry) : list Entry :=
  match q with
  | [] => [e]
  | x :: q' => if entry_before e x then e :: x :: q' else x :: put_nowait e q'
  end.

Definition slots_max : Z := 64.
Definition outbound_max : nat := 128.

Section Stream.
Context `{SdkOps} (c : SessionConfig) (stream_id : string).

Definition session_do {A} (m : M CState A) : M SceneState A := fun s =>
  let '(r, x) := m s.(t_session) in (r, set_t_session x s).

(** [emit] *)
Definition emit_frame (payload : FramePayload) (permit : option Permit) (urgent reply_slot : bool) : M SceneState unit :=
  connected <-- mgets t_connected ;;
  if negb connected then mraise (PyError "ConnectionError" "role-group stream disconnected") else
  mmodify (fun s => set_t_sequence (s.(t_sequence) + 1) s) ;;;
  full <-- mgets (fun s => bool_decide (outbound_max <= length s.(t_outbound))%nat) ;;
  if (full : bool) then mraise (PyError "QueueFull" "") else
  mmodify (fun s => set_t_outbound (put_nowait (mkEntry (if urgent then 0 else 1) s.(t_sequence) permit
    (mkFrame stream_id c.(sc_session_id) payload) reply_slot) s.(t_outbound)) s).

(** [__init__] and [prepare], whose [application] is [RoleReply.prepare_session]. *)
Definition scene_blank : SceneState :=
  mkScene (session_init c) [] slots_max 0 [] None [] [] None false true NotClosing false false None [] [] [] [] [] [].
Definition scene_init (policy : string) : SceneState := snd (emit_frame (Prepared policy) None true false scene_blank).

(** *** [accept] *)

Definition accept_receipt (r : Receipt) : M SceneState unit :=
  s <-- mget ;;
  match dict_get s.(t_pending) r.(rc_request_id) with
  | None => mret_ tt
  | Some p =>
      if bool_decide (p.(pd_permit) = None) && negb (bool_decide (r.(rc_completion_basis) = "device_ack"))
      then mraise (value_error "stop requires device acknowledgement")
      else if negb (bool_decide (p.(pd_device_id) = r.(rc_device_id)))
      then mraise (value_error "receipt endpoint mismatch")
      else if bool_decide (r.(rc_result) = "completed") && negb p.(pd_completion_allowed)
      then mraise (value_error "playback completion arrived before reply end")
      else if (if p.(pd_permit) is Some q then negb (permit_current q s.(t_session)) else false)
      then mret_ tt
      else mwhen (negb (fut_done p.(pd_future)))
        (mmodify (fun s => log (Accepted r)
          (update_pending r.(rc_request_id) (pd_resolve (bool_decide (r.(rc_result) = "completed")) r.(rc_error_code)) s)))
  end.

Definition accept_speaking (turn_id device_id : string) : M SceneState unit :=
  s <-- mget ;;
  match dict_get s.(t_pending) turn_id with
  | Some p =>
      match p.(pd_permit) with
      | Some q =>
          if negb (bool_decide (p.(pd_device_id) = device_id)) then mraise (value_error "speaking endpoint mismatch")
          else mwhen (permit_current q s.(t_session)) (session_do (permit_phase q "speaking"))
      | None => mret_ tt
      end
  | None => mret_ tt
  end.

Definition accept_press (capture : string) : M SceneState unit :=
  s <-- mget ;;
  if negb (bool_decide (s.(t_capture_id) = Some capture)) then
    session_do (press c c.(sc_input_device_id) capture) ;;;
    mmodify cancel_transcript ;;;
    epoch <-- mgets (fun s => s.(t_session).(c_epoch)) ;;
    mmodify (fun s => set_t_released false (set_t_capture_id (Some capture)
      (set_t_capture_epochs (dict_set s.(t_capture_epochs) epoch capture) s))) ;;;
    emit_frame (Capturing capture epoch) None true false ;;;
    mmodify (fun s => set_t_transcript (Some (length s.(t_futures))) (set_t_futures (s.(t_futures) ++ [FutPending]) s))
  else if s.(t_released) then mraise (value_error "capture id replayed after release")
  else mret_ tt.

Definition accept_release (capture : string) : M SceneState unit :=
  s <-- mget ;;
  if bool_decide (s.(t_capture_id) = Some capture) && negb s.(t_released) then
    mmodify (set_t_released true) ;;;
    task <-- session_do (release c c.(sc_input_device_id) capture) ;;
    match task with
    | Some i => mmodify (fun s => set_t_callbacks (s.(t_callbacks) ++ [(i, capture)]) s)
    | None => mret_ tt
    end
  else mret_ tt.

Definition accept_transcript (capture text : string) : M SceneState unit :=
  s <-- mget ;;
  if negb (bool_decide (s.(t_capture_id) = Some capture)) then mret_ tt
  else if negb s.(t_released) then mraise (value_error "final transcript preceded release")
  else match s.(t_transcript), transcript s with
    | Some i, Some FutPending => mmodify (fun s => log (Heard capture text) (set_future i (FutDone text) s))
    | Some _, Some (FutDone t) => if bool_decide (t = text) then mret_ tt else mraise (value_error "capture transcript cannot change")
    | Some _, Some FutCancelled => mraise (value_error "capture transcript cannot change")
    | _, _ => mraise (PyError "AttributeError" "'NoneType' object has no attribute 'done'")
    end.

Definition accept_frame (f : ClientFrame) : M SceneState unit :=
  s <-- mget ;;
  match f with
  | FReceipt r => accept_receipt r
  | FSpeaking turn_id device_id => accept_speaking turn_id device_id
  | FClose => mwhen (bool_decide (s.(t_closing) = NotClosing)) (mmodify (set_t_closing CloseScheduled))
  | FPress _ | FRelease _ | FTranscript _ _ =>
      if negb (bool_decide (s.(t_closing) = NotClosing)) then mraise (value_error "scene is closing") else
      match f with
      | FPress capture => accept_press capture
      | FRelease capture => accept_release capture
      | FTranscript capture text => accept_transcript capture text
      | _ => mret_ tt
      end
  end.

(** *** [write_to], one frame *)

Definition entry_current (e : Entry) (s : SceneState) : bool :=
  if e.(en_permit) is Some p then permit_current p s.(t_session) else true.

Definition write_one : M SceneState unit :=
  s <-- mget ;;
  match s.(t_outbound) with
  | [] => mret_ tt
  | e :: rest =>
      mmodify (set_t_outbound rest) ;;;
      mwhen e.(en_reply_slot) (mmodify (fun s => set_t_slots (s.(t_slots) + 1) s)) ;;;
      if negb (entry_current e s) then mret_ tt else
      mmodify (if e.(en_frame).(fr_payload) is ReplyEnd rid _ _ _ then update_pending rid pd_allow else id) ;;;
      mmodify (log (Sent e.(en_frame)))
  end.

(** *** [stop] *)

Definition stop_call (rid : string) (s : SceneState) : option StopCall :=
  List.find (fun k => bool_decide (k.(sp_request_id) = rid)) s.(t_stops).
Definition stopping (task : nat) (m : Member) (s : SceneState) : bool :=
  existsb (fun k => bool_decide (k.(sp_task) = task /\ k.(sp_member) = m)) s.(t_stops).

(** Up to the await of the receipt; [rid] is a new uuid. *)
Definition stop_begin (task : nat) (t : StopTask) (m : Member) (rid : string) : M SceneState unit :=
  mmodify (fun s => set_t_pending (dict_set s.(t_pending) rid (mkPending m.(mb_device_id) FutPending None true "")) s) ;;;
  captured <-- mgets (fun s => dict_get s.(t_capture_epochs) t.(st_epoch)) ;;
  mtry
    (emit_frame (StopRequest rid m.(mb_device_id) t.(st_epoch) captured) None true false ;;;
     mmodify (fun s => log (Asked rid m.(mb_device_id) t.(st_epoch))
       (set_t_stops (s.(t_stops) ++ [mkStopCall task m t.(st_epoch) rid]) s)))
    (fun e => Some (mmodify (pop_pending rid) ;;; session_do (fire c (LStop task m (Err e))))).

Definition error_of (code dflt : string) : string := if is_empty code then dflt else code.

Definition stop_result (p : PendingReceipt) : option (res unit) :=
  match p.(pd_future) with
  | FutPending => None
  | FutDone true => Some (Ok tt)
  | FutDone false => Some (Err (runtime_error (error_of p.(pd_error_code) "TEAM_STOP_UNCONFIRMED")))
  | FutCancelled => Some (Err Cancelled)
  end.

(** The [finally], and the member's part of [_stop_all] after it. *)
Definition stop_leave (k : StopCall) (r : res unit) : M SceneState unit :=
  mmodify (fun s => set_t_stops (List.filter (fun x => negb (bool_decide (x.(sp_request_id) = k.(sp_request_id)))) s.(t_stops))
    (pop_pending k.(sp_request_id) s)) ;;;
  session_do (fire c (LStop k.(sp_task) k.(sp_member) r)).

(** *** Rounds: [transcribe], and the callback of [release] *)

(** A round's first step runs [transcribe] up to the future it awaits. *)
Definition round_start (i : nat) (uuid : string) : M SceneState unit :=
  s <-- mget ;;
  match find_round i s.(t_session) with
  | Some r =>
      session_do (fire c (LStart i)) ;;;
      match s.(t_transcript) with
      | Some f =>
          if bool_decide (s.(t_capture_id) = Some r.(r_capture)) then mmodify (fun s => set_t_waits (s.(t_waits) ++ [(i, f)]) s)
          else session_do (fire c (LResume i (GotText (Err (value_error "capture no longer current"))) uuid))
      | None => session_do (fire c (LResume i (GotText (Err (value_error "capture no longer current"))) uuid))
      end
  | None => mret_ tt
  end.

Definition leave_wait (i : nat) : SceneState -> SceneState := fun s =>
  set_t_waits (List.filter (fun '(j, _) => negb (bool_decide (j = i))) s.(t_waits)) s.

(** The transcript arrived or was cancelled. *)
Definition round_text (i : nat) (uuid : string) : M SceneState unit :=
  s <-- mget ;;
  match dict_get s.(t_waits) i ≫= fun f => s.(t_futures) !! f with
  | Some (FutDone text) => mmodify (leave_wait i) ;;; session_do (fire c (LResume i (GotText (Ok text)) uuid))
  | Some FutCancelled => mmodify (leave_wait i) ;;; session_do (fire c (LResume i (GotText (Err Cancelled)) uuid))
  | _ => mret_ tt
  end.

(** The round is cancelled, or its stage timed out, at the await: the future it awaits is cancelled. *)
Definition round_interrupt (i : nat) (uuid : string) (timeout : bool) : M SceneState unit :=
  s <-- mget ;;
  match dict_get s.(t_waits) i with
  | Some f =>
      mmodify (cancel_future f) ;;; mmodify (leave_wait i) ;;;
      session_do (fire c (LResume i (GotText (Err (if timeout then PyError "TimeoutError" "" else Cancelled))) uuid))
  | None => mret_ tt
  end.

(** [_round_done] *)
Definition round_finished (i : nat) (capture : string) (cancelled : bool) : M SceneState unit :=
  mmodify (fun s => set_t_callbacks (List.filter (fun '(j, _) => negb (bool_decide (j = i))) s.(t_callbacks)) s) ;;;
  report <-- mgets (fun s => s.(t_connected) && bool_decide (s.(t_capture_id) = Some capture) && negb cancelled) ;;
  mwhen report
    (s <-- mgets t_session ;;
     mtry (emit_frame (StateReport capture s.(c_state) s.(c_member_states) s.(c_epoch) s.(c_outcome) s.(c_error)) None false false)
       (fun e => if bool_decide (exn_type e ∈ ["ConnectionError"; "QueueFull"])
                 then Some (mmodify (fun s => set_t_closed true (set_t_connected false s))) else None)).

(** *** [present] *)

Definition rid_of (k : PresentCall) : string := k.(ps_permit).(pm_turn_id).
Definition present_call (rid : string) (s : SceneState) : option PresentCall :=
  List.find (fun k => bool_decide (rid_of k = rid)) s.(t_presents).
Definition put_present (k : PresentCall) (pc : PresentPc) (s : SceneState) : SceneState :=
  set_t_presents (map (fun x => if bool_decide (rid_of x = rid_of k) then mkPresent k.(ps_round) k.(ps_member) k.(ps_permit) pc else x) s.(t_presents)) s.

Definition start_frame (m : Member) (p : Permit) : FramePayload :=
  ReplyStart p.(pm_turn_id) m.(mb_companion_id) m.(mb_device_id) p.(pm_turn_id) p.(pm_epoch).
Definition delta_frame (m : Member) (p : Permit) (text : string) : FramePayload :=
  ReplyDelta p.(pm_turn_id) p.(pm_turn_id) p.(pm_epoch) m.(mb_device_id) text.
Definition end_frame (m : Member) (p : Permit) : FramePayload :=
  ReplyEnd p.(pm_turn_id) p.(pm_turn_id) p.(pm_epoch) m.(mb_device_id).

Definition present_begin (i : nat) (m : Member) (p : Permit) : M SceneState unit :=
  mmodify (fun s => set_t_presents (s.(t_presents) ++ [mkPresent i m p (PSlot (start_frame m p) false)])
    (set_t_pending (dict_set s.(t_pending) p.(pm_turn_id) (mkPending m.(mb_device_id) FutPending (Some p) false "")) s)).

(** The [finally]; a turn that was played is recorded. *)
Definition present_leave (k : PresentCall) (played : bool) : M SceneState unit :=
  mmodify (fun s => set_t_presents (List.filter (fun x => negb (bool_decide (rid_of x = rid_of k))) s.(t_presents))
    (pop_pending (rid_of k) s)) ;;;
  mwhen played (mmodify (fun s => set_t_played (rid_of k :: s.(t_played)) s)).

Definition present_check (k : PresentCall) : M SceneState unit :=
  current <-- mgets (fun s => permit_current k.(ps_permit) s.(t_session)) ;;
  if (current : bool) then mret_ tt else mraise Cancelled.

(** [emit_reply] once it has its slot *)
Definition present_slot (k : PresentCall) (payload : FramePayload) (final : bool) : M SceneState unit :=
  mmodify (fun s => set_t_slots (s.(t_slots) - 1) s) ;;;
  mtry
    (present_check k ;;; emit_frame payload (Some k.(ps_permit)) false true ;;;
     mmodify (put_present k (if final then PReceipt else PEvents)))
    (fun e => Some (mmodify (fun s => set_t_slots (s.(t_slots) + 1) s) ;;; present_leave k false)).

(** The body of [async for], and what follows the loop *)
Definition present_event (k : PresentCall) (x : res (option TurnEvent)) : M SceneState unit :=
  mtry
    (ev <-- mlift x ;;
     present_check k ;;;
     match ev with
     | None => mmodify (put_present k (PSlot (end_frame k.(ps_member) k.(ps_permit)) true))
     | Some ev =>
         pending <-- mgets (fun s => dict_get s.(t_pending) (rid_of k)) ;;
         match pending ≫= fun p => Some p.(pd_future) with
         | Some (FutDone false) => mraise (PyError "CoordinationFailure" "TEAM_PLAYBACK_UNCONFIRMED")
         | Some FutCancelled => mraise Cancelled
         | _ =>
             if bool_decide (ev.(ev_kind) = EventKind.DELTA) && bool_decide (data_str ev "role" "answer" = "answer")
             then mmodify (put_present k (PSlot (delta_frame k.(ps_member) k.(ps_permit) (data_str ev "text" "")) false))
             else mret_ tt
         end
     end)
    (fun e => Some (present_leave k false)).

(** After the await of the receipt *)
Definition present_receipt (k : PresentCall) : M SceneState unit :=
  s <-- mget ;;
  match dict_get s.(t_pending) (rid_of k) with
  | Some p =>
      match p.(pd_future) with
      | FutPending => mret_ tt
      | FutDone played => present_leave k played
      | FutCancelled => present_leave k false
      end
  | None => mret_ tt
  end.

(** *** [close], [disconnect] *)

(** The session's [close] cancels its tasks, and so what each of them awaits. *)
Definition cancel_tasks (s : SceneState) : SceneState :=
  let awaited := map sp_request_id s.(t_stops) ++ map rid_of (List.filter (fun k => if k.(ps_pc) is PReceipt then true else false) s.(t_presents)) in
  set_t_pending (map (fun '(k, p) => if bool_decide (k ∈ awaited) then (k, pd_cancel p) else (k, p)) s.(t_pending))
    (foldr cancel_future s s.(t_waits).*2).

Definition close_begin : M SceneState unit :=
  session_do (fire c LClose) ;;;
  mmodify cancel_tasks ;;;
  mmodify (set_t_closing CloseRuns).

Definition close_end : M SceneState unit :=
  session_do (fire c LClosed) ;;;
  mmodify cancel_transcript ;;;
  mmodify (fun s => set_t_closing CloseOver (set_t_closed true s)).

Definition pd_disconnect (p : PendingReceipt) : PendingReceipt :=
  if fut_done p.(pd_future) then p else pd_resolve false "TEAM_CONTROL_DISCONNECTED" p.

(** [t_gone]: the router left its reader and its writer before. *)
Definition disconnect : M SceneState unit :=
  mmodify (fun s => set_t_gone true (set_t_connected false
    (set_t_pending (map (fun '(k, p) => (k, pd_disconnect p)) s.(t_pending)) s))) ;;;
  s <-- mget ;;
  mwhen (bool_decide (s.(t_closing) = NotClosing)) close_begin.

(** ** The transition system *)

Inductive stream_label :=
  | SFrame (f : ClientFrame)
  | SWrite
  | SStopBegin (task : nat) (m : Member) (rid : string)
  | SStopEnd (rid : string)
  | SStopTimeout (rid : string)
  (** cancelled before its first step *)
  | SStopDrop (task : nat) (m : Member)
  | SRoundStart (i : nat) (uuid : string)
  | SRoundDrop (i : nat)
  | SRoundText (i : nat) (uuid : string)
  | SRoundInterrupt (i : nat) (uuid : string) (timeout : bool)
  | SRound (i : nat) (d : resume) (uuid : string)
  | SRoundFinished (i : nat) (cancelled : bool)
  | SPresent (i : nat)
  | SSlot (rid : string)
  | SEvent (rid : string) (x : res (option TurnEvent))
  | SPlayed (rid : string)
  | SPresentCancel (rid : string)
  | SCloseBegin
  | SCloseEnd
  | SDisconnect.

Definition reading (s : SceneState) : bool := negb s.(t_gone) && bool_decide (s.(t_failed) = None).

(** A round resumes here from the barrier, a decision or a reply; that a reply counts as
    played only when [present] returned so is what [RoleReply.perform] does. *)
Definition round_resumes (r : Round) (d : resume) (s : SceneState) : bool :=
  match d with
  | GotText _ => false
  | GotStops _ | GotDecision _ => true
  | GotReply x =>
      negb (existsb (fun k => bool_decide (k.(ps_round) = r.(r_id))) s.(t_presents)) &&
      match r.(r_pc), x with
      | RReplying _ _ _ p _, Ok played => negb played.(pl_completed) || bool_decide (p.(pm_turn_id) ∈ s.(t_played))
      | _, _ => true
      end
  end.

Definition with_ {A} (o : option A) (f : A -> M SceneState unit) : M SceneState unit :=
  match o with Some a => f a | None => mret_ tt end.

Definition stream_step (l : stream_label) : M SceneState unit :=
  s <-- mget ;;
  match l with
  | SFrame f => mwhen (reading s) (mtry (accept_frame f) (fun e => Some (mmodify (set_t_failed (Some e)))))
  | SWrite => mwhen (negb s.(t_gone)) write_one
  | SStopBegin task m rid =>
      with_ (find_stop task s.(t_session)) (fun t =>
        mwhen (bool_decide (m ∈ c.(sc_members)) && bool_decide (m ∈ t.(st_pending)) && negb (stopping task m s) &&
               negb (dict_has s.(t_pending) rid))
          (stop_begin task t m rid))
  | SStopEnd rid =>
      with_ (stop_call rid s) (fun k => with_ (dict_get s.(t_pending) rid ≫= stop_result) (stop_leave k))
  | SStopTimeout rid => with_ (stop_call rid s) (fun k => stop_leave k (Err (PyError "TimeoutError" "")))
  | SStopDrop task m =>
      mwhen (s.(t_session).(c_closed) && negb (stopping task m s)) (session_do (fire c (LStop task m (Err Cancelled))))
  | SRoundStart i uuid =>
      with_ (find_round i s.(t_session)) (fun r => mwhen (if r.(r_pc) is RCreated then true else false) (round_start i uuid))
  | SRoundDrop i => session_do (fire c (LDrop i))
  | SRoundText i uuid => round_text i uuid
  | SRoundInterrupt i uuid timeout => round_interrupt i uuid timeout
  | SRound i d uuid =>
      with_ (find_round i s.(t_session)) (fun r => mwhen (round_resumes r d s) (session_do (fire c (LResume i d uuid))))
  | SRoundFinished i cancelled =>
      with_ (dict_get s.(t_callbacks) i) (fun capture =>
        mwhen (if find_round i s.(t_session) is None then true else false) (round_finished i capture cancelled))
  | SPresent i =>
      with_ (find_round i s.(t_session)) (fun r =>
        match r.(r_pc) with
        | RReplying _ _ _ p _ =>
            with_ (List.find (fun m => bool_decide (m.(mb_companion_id) = p.(pm_companion))) c.(sc_members)) (fun m =>
              mwhen (negb (dict_has s.(t_pending) p.(pm_turn_id))) (present_begin i m p))
        | _ => mret_ tt
        end)
  | SSlot rid =>
      with_ (present_call rid s) (fun k =>
        match k.(ps_pc) with PSlot payload final => mwhen (0 <? s.(t_slots)) (present_slot k payload final) | _ => mret_ tt end)
  | SEvent rid x =>
      with_ (present_call rid s) (fun k => match k.(ps_pc) with PEvents => present_event k x | _ => mret_ tt end)
  | SPlayed rid => with_ (present_call rid s) (fun k => match k.(ps_pc) with PReceipt => present_receipt k | _ => mret_ tt end)
  | SPresentCancel rid => with_ (present_call rid s) (fun k => present_leave k false)
  | SCloseBegin => mwhen (bool_decide (s.(t_closing) = CloseScheduled)) close_begin
  | SCloseEnd =>
      mwhen (bool_decide (s.(t_closing) = CloseRuns) && forallb st_listed s.(t_session).(c_stops)) close_end
  | SDisconnect => mwhen (negb s.(t_gone)) disconnect
  end.

Inductive scene_reachable (policy : string) : SceneState -> Prop :=
  | scene_prepared : session_check c = Ok tt -> scene_reachable policy (scene_init policy)
  | scene_step l s : scene_reachable policy s -> scene_reachable policy (snd (stream_step l s)).
End Stream.

(** ** [SceneConnections] *)

Record SceneKey := mkKey { sk_owner_id : string; sk_session_id : string }.
#[global] Instance scene_key_eq_dec : EqDecision SceneKey.
Proof. solve_decision. Defined.

(** The facts of [OpenScene] the table reads. *)
Record Opened := mkOpened { op_key : SceneKey; op_devices : list string }.
Record Connections := mkConnections { cx_active : list SceneKey; cx_devices : gset string }.
Definition no_connections : Connections := mkConnections [] ∅.

Definition reserve (o : Opened) : M Connections unit :=
  s <-- mget ;;
  if bool_decide (64 <= length s.(cx_active))%nat || bool_decide (o.(op_key) ∈ s.(cx_active))
     || existsb (fun d => bool_decide (d ∈ s.(cx_devices))) o.(op_devices)
  then mraise (value_error "role-group stream or device is already in use")
  else mmodify (fun s => mkConnections (s.(cx_active) ++ [o.(op_key)]) (s.(cx_devices) ∪ list_to_set o.(op_devices))).

Definition release_scene (o : Opened) : M Connections unit :=
  mmodify (fun s => mkConnections (List.filter (fun k => negb (bool_decide (k = o.(op_key)))) s.(cx_active))
    (s.(cx_devices) ∖ list_to_set o.(op_devices))).

(** A scene that could reserve runs and then releases: [opens] reserve, [leaves] end the first scene with the key. *)
Inductive connection_step := Opens (o : Opened) | Leaves (o : Opened).

(** The table with the scenes that hold it. *)
Definition connection_run (x : connection_step) (s : Connections * list Opened) : Connections * list Opened :=
  let '(t, held) := s in
  match x with
  | Opens o => match reserve o t with (Ok _, t') => (t', o :: held) | (Err _, t') => (t', held) end
  | Leaves o =>
      match List.find (fun h => bool_decide (h.(op_key) = o.(op_key))) held with
      | Some h => (snd (release_scene h t), List.filter (fun x => negb (bool_decide (x.(op_key) = o.(op_key)))) held)
      | None => s
      end
  end.
