(* ===== verification/SceneSteps.v ===== *)
(** * What one label of a coordination session can change, as the stream around it sees it.

    [grows]: permits stay, and a stop task keeps its epoch. [fire_acks]: only a delivered stop
    adds a receipt. [reply_history]: what a resumed reply adds to the public history. *)

From S2P Require Import Prelude CoreTypes Effects Coordination CoordinationSafety CoordinationFacts.
#[local] Open Scope eff_scope.

Record Grows (s s' : CState) : Prop := {
  gr_next : (s.(c_next_task) <= s'.(c_next_task))%nat;
  gr_permits p : p ∈ s.(c_permits) -> p ∈ s'.(c_permits);
  gr_stops t' : t' ∈ s'.(c_stops) ->
    (exists t, t ∈ s.(c_stops) /\ t.(st_id) = t'.(st_id) /\ t.(st_epoch) = t'.(st_epoch)) \/ (s.(c_next_task) <= t'.(st_id))%nat;
  gr_rounds r' : r' ∈ s'.(c_rounds) ->
    (exists r, r ∈ s.(c_rounds) /\ r.(r_id) = r'.(r_id) /\ r.(r_capture) = r'.(r_capture)) \/ (s.(c_next_task) <= r'.(r_id))%nat;
}.

#[global] Instance Grows_preorder : PreOrder Grows.
Proof.
  split.
  - intros s. constructor; eauto.
  - intros s1 s2 s3 [n1 p1 t1 r1] [n2 p2 t2 r2]. constructor; [lia|auto| |].
    + intros t' Ht. destruct (t2 t' Ht) as [(t & Ht2 & E1 & E2)|?]; [|right; lia].
      destruct (t1 t Ht2) as [(t0 & ? & ? & ?)|?]; [left; exists t0; split_and!; congruence|right; lia].
    + intros r' Hr. destruct (r2 r' Hr) as [(r & Hr2 & E1 & E2)|?]; [|right; lia].
      destruct (r1 r Hr2) as [(r0 & ? & ? & ?)|?]; [left; exists r0; split_and!; congruence|right; lia].
Qed.

(** A statement that touches neither tasks nor permits. *)
Lemma grows_same s s' : s'.(c_next_task) = s.(c_next_task) -> s'.(c_permits) = s.(c_permits) ->
  s'.(c_stops) = s.(c_stops) -> s'.(c_rounds) = s.(c_rounds) -> Grows s s'.
Proof. intros E1 E2 E3 E4. constructor; rewrite ?E1, ?E2, ?E3, ?E4; eauto. Qed.

Notation growing m := (preserves Grows m).

Ltac growing := repeat first
  [ preserve_step
  | match goal with |- preserves _ (mmodify _) => apply preserves_modify; intros ?; repeat case_match; by apply grows_same
                  | |- preserves _ (event _ _) => apply preserves_modify; intros ?; by apply grows_same
                  | |- preserves _ (set_outcome _) => apply preserves_modify; intros ?; by apply grows_same end ].

Section Steps.
Context `{SdkOps} (c : SessionConfig).

Lemma growing_dispatch : growing (dispatch_stop c).
Proof.
  apply preserves_modify. intros s. constructor; simpl; [lia|done| |eauto].
  intros t' [Ht| ->%list_elem_of_singleton]%elem_of_app; [eauto|by right].
Qed.

Lemma growing_fail reason stop : growing (fail_round c reason stop).
Proof. unfold fail_round. growing. apply growing_dispatch. Qed.

Lemma growing_ask e t u n uuid : growing (ask_decision c e t u n uuid).
Proof. destruct n; simpl; unfold round_done, check; growing. Qed.

Lemma growing_stops e cap text uuid : growing (after_stops c e cap text uuid).
Proof. unfold after_stops, check. growing; auto using growing_fail, growing_ask. Qed.

Lemma growing_decision e t u n rq res uuid : growing (after_decision c e t u n rq res uuid).
Proof.
  unfold after_decision, round_done, check. growing.
  apply preserves_modify. intros x. constructor; simpl; [lia| |eauto..]. intros q Hq. by right.
Qed.

Lemma growing_reply e u n p permit task played uuid : growing (after_reply c e u n p permit task played uuid).
Proof. unfold after_reply, round_done, check. growing; auto using growing_ask. Qed.

Lemma growing_segment r d uuid m : round_segment c r d uuid = Some m -> growing (segment c r.(r_epoch) m).
Proof.
  intros Hm. assert (growing m) as Hg.
  { unfold round_segment in Hm. destruct (r_pc r), d as [v|v|v|v]; simplify_eq; destruct v; simpl;
      unfold after_transcript, check; growing; auto using growing_stops, growing_decision, growing_reply. }
  unfold segment, on_round_error, round_finally. growing; auto using growing_fail.
  simplify_eq. growing; auto using growing_fail.
Qed.

(** A round keeps its id and its capture when its next program counter is put. *)
Lemma grows_put_round r pc s : r ∈ s.(c_rounds) -> Grows s (snd (put_round r pc s)).
Proof.
  intros Hr. unfold put_round, mmodify. constructor; simpl; [lia|done|eauto|]. intros r' Hr'. left. destruct pc.
  - apply list_elem_of_fmap in Hr' as (x & -> & Hx). case_bool_decide; [by exists r|by exists x].
  - apply elem_of_filter_list in Hr' as [Hr' _]. by exists r'.
Qed.

Lemma segment_rounds r d uuid m s : round_segment c r d uuid = Some m ->
  c_rounds (snd (segment c r.(r_epoch) m s)) = c_rounds s.
Proof.
  intros Hm. enough (preserves (fun s s' => c_rounds s' = c_rounds s) (segment c r.(r_epoch) m)) as Hp by apply Hp.
  assert (PreOrder (fun s s' => c_rounds s' = c_rounds s)) by (split; [done|]; intros x y z E1 E2; congruence).
  assert (forall e' t u n u', preserves (fun s s' => c_rounds s' = c_rounds s) (ask_decision c e' t u n u')) as Hask.
  { intros e' t u n u'. destruct n; simpl; unfold round_done, check, set_outcome, event; preserve; by apply preserves_modify. }
  assert (preserves (fun s s' => c_rounds s' = c_rounds s) m) as Hg.
  { unfold round_segment in Hm. destruct (r_pc r), d as [v|v|v|v]; simplify_eq; destruct v; simpl;
      unfold after_transcript, after_stops, after_decision, after_reply, fail_round, dispatch_stop, round_done, check, set_outcome, event;
      preserve; auto; by apply preserves_modify. }
  unfold segment, on_round_error, round_finally, fail_round, dispatch_stop, event. preserve; simplify_eq; auto; preserve;
    apply preserves_modify; intros ?; by repeat case_match.
Qed.

Lemma fire_grows l s : Inv c s -> Grows s (snd (fire c l s)).
Proof.
  intros [Hb _]. unfold fire, mget. unfold mbind_ at 1. cbn beta iota. destruct l as [dev cap|dev cap|i m r|i|i d uuid|p ph|i| |].
  - match goal with |- Grows s (snd (?m s)) => enough (growing m) by auto end. unfold press. growing. apply growing_dispatch.
  - match goal with |- Grows s (snd (?m s)) => enough (growing m) by auto end. unfold release. growing.
    apply preserves_modify. intros x. constructor; simpl; [lia|done|eauto|].
    intros r' [Hr| ->%list_elem_of_singleton]%elem_of_app; [eauto|by right].
  - destruct (find_stop i s) as [t|] eqn:Ef; [|reflexivity]. destruct (_ && _); [|reflexivity].
    apply find_some in Ef as [Ht%list_elem_of_In _].
    destruct (stop_done_run t.(st_epoch) m r s) as (s1 & E1 & Hc). rewrite (mbind_ok _ _ _ _ _ E1).
    pose proof (receipt_same t.(st_epoch) m r s) as (_ & Hst & Hp & _ & _ & Hn & _ & Hr & _).
    change (Grows s (put_stop t m s1)).
    assert (c_next_task s1 = c_next_task s /\ c_permits s1 = c_permits s /\ c_stops s1 = c_stops s /\ c_rounds s1 = c_rounds s) as (N1 & P1 & T1 & R1).
    { rewrite <- Hst, <- Hp, <- Hn, <- Hr. change (c_next_task (core s1) = c_next_task (core (receipt t.(st_epoch) m r s)) /\
        c_permits (core s1) = c_permits (core (receipt t.(st_epoch) m r s)) /\ c_stops (core s1) = c_stops (core (receipt t.(st_epoch) m r s)) /\
        c_rounds (core s1) = c_rounds (core (receipt t.(st_epoch) m r s))). by rewrite Hc. }
    constructor; unfold put_stop at 1; simpl; rewrite ?N1, ?P1, ?R1; [lia|done| |eauto].
    intros t' (t0 & Ht0 & E2 & E3 & _)%put_stop_old; [|by rewrite T1]. rewrite T1 in Ht0. left. by exists t0.
  - destruct (find_round i s) as [r|] eqn:Ef; [|reflexivity]. apply find_round_spec in Ef.
    destruct (r_pc r); try reflexivity. by apply grows_put_round.
  - destruct (find_round i s) as [r|] eqn:Ef; [|reflexivity]. apply find_round_spec in Ef.
    destruct (deliverable r d uuid s); [|reflexivity]. destruct (round_segment c r d uuid) as [m|] eqn:Em; [|reflexivity].
    pose proof (growing_segment r d uuid m Em s) as Hg. pose proof (segment_rounds r d uuid m s Em) as Hr.
    unfold mbind_. destruct (segment c (r_epoch r) m s) as [[pc|e] s1]; simpl in *; [|done].
    etransitivity; [exact Hg|]. apply grows_put_round. by rewrite Hr.
  - match goal with |- Grows s (snd (?m s)) => enough (growing m) by auto end. unfold permit_phase. growing.
  - destruct (find_round i s) as [r|] eqn:Ef; [|reflexivity]. apply find_round_spec in Ef.
    destruct (r_pc r); try reflexivity. by apply grows_put_round.
  - match goal with |- Grows s (snd (?m s)) => enough (growing m) by auto end. unfold close. growing.
    apply preserves_modify. intros x. constructor; simpl; [lia|done| |eauto].
    intros t' [Ht| ->%list_elem_of_singleton]%elem_of_app; [eauto|by right].
  - match goal with |- Grows s (snd (?m s)) => enough (growing m) by auto end. growing.
Qed.

(** ** Receipts *)

Notation unacked m := (preserves (fun s s' : CState => s'.(c_acks) = s.(c_acks)) m).
#[local] Instance acks_preorder : PreOrder (fun s s' : CState => s'.(c_acks) = s.(c_acks)).
Proof. split; [done|]. intros s1 s2 s3 E1 E2. congruence. Qed.

Ltac unacked := repeat first
  [ preserve_step
  | match goal with |- preserves _ (mmodify _) => apply preserves_modify; intros ?; repeat case_match; done
                  | |- preserves _ (event _ _) => by apply preserves_modify end ].

Lemma unacked_ask e t u n uuid : unacked (ask_decision c e t u n uuid).
Proof. destruct n; simpl; unfold round_done, check, set_outcome; unacked. Qed.

Lemma unacked_segment r d uuid m : round_segment c r d uuid = Some m -> unacked (segment c r.(r_epoch) m).
Proof.
  intros Hm. assert (unacked m) as Hg.
  { unfold round_segment in Hm. destruct (r_pc r), d as [v|v|v|v]; simplify_eq; destruct v; simpl;
      unfold after_transcript, after_stops, after_decision, after_reply, fail_round, dispatch_stop, round_done, check, set_outcome;
      unacked; apply unacked_ask. }
  unfold segment, on_round_error, round_finally, fail_round, dispatch_stop. unacked; simplify_eq; unacked; done.
Qed.

(** Only a stop that was confirmed adds a receipt, of its own epoch. *)
Lemma fire_acks l s a : a ∈ (snd (fire c l s)).(c_acks) ->
  a ∈ s.(c_acks) \/ exists i m t, l = LStop i m (Ok tt) /\ find_stop i s = Some t /\ a = (t.(st_epoch), m.(mb_companion_id)).
Proof.
  unfold fire, mget. unfold mbind_ at 1. cbn beta iota. destruct l as [dev cap|dev cap|i m r|i|i d uuid|p ph|i| |].
  - match goal with |- context [snd (?m s)] => enough (unacked m) as Hm by (rewrite (Hm s); auto) end. unfold press, dispatch_stop. unacked.
  - match goal with |- context [snd (?m s)] => enough (unacked m) as Hm by (rewrite (Hm s); auto) end. unfold release. unacked.
  - destruct (find_stop i s) as [t|] eqn:Ef; [|by left]. destruct (_ && _); [|by left].
    destruct (stop_done_run t.(st_epoch) m r s) as (s1 & E1 & Hc). rewrite (mbind_ok _ _ _ _ _ E1).
    assert (c_acks s1 = c_acks (receipt t.(st_epoch) m r s)) as Ea.
    { change (c_acks (core s1) = c_acks (core (receipt t.(st_epoch) m r s))). by rewrite Hc. }
    cbn [snd mmodify put_stop set_c_stops c_acks]. rewrite Ea. unfold receipt. destruct r as [[]|e].
    + simpl. intros [->|Ha]%elem_of_cons; [right; by exists i, m, t|by left].
    + destruct (_ && _); by left.
  - destruct (find_round i s) as [r|]; [|by left]. destruct (r_pc r); by left.
  - destruct (find_round i s) as [r|]; [|by left]. destruct (deliverable r d uuid s); [|by left].
    destruct (round_segment c r d uuid) as [m|] eqn:Em; [|by left].
    match goal with |- context [snd (?m s)] => enough (unacked m) as Hm by (rewrite (Hm s); auto) end.
    apply preserves_bind; [typeclasses eauto|by eapply unacked_segment|]. intros pc. unfold put_round. unacked.
  - match goal with |- context [snd (?m s)] => enough (unacked m) as Hm by (rewrite (Hm s); auto) end. unfold permit_phase. unacked.
  - destruct (find_round i s) as [r|]; [|by left]. destruct (r_pc r); by left.
  - match goal with |- context [snd (?m s)] => enough (unacked m) as Hm by (rewrite (Hm s); auto) end. unfold close. unacked.
  - match goal with |- context [snd (?m s)] => enough (unacked m) as Hm by (rewrite (Hm s); auto) end. unacked.
Qed.

(** ** The permit a round waits on was issued *)

Definition pc_permit (pc : RoundPc) : option Permit := match pc with RReplying _ _ _ p _ => Some p | _ => None end.
Definition Permitted (s : CState) : Prop := forall r p, r ∈ s.(c_rounds) -> pc_permit r.(r_pc) = Some p -> p ∈ s.(c_permits).

Definition next_permitted (pc : option RoundPc) (s : CState) : Prop :=
  forall x p, pc = Some x -> pc_permit x = Some p -> p ∈ s.(c_permits).

Definition unpermitted (pc : option RoundPc) : Prop := forall x, pc = Some x -> pc_permit x = None.

Lemma unpermitted_next pc s : unpermitted pc -> next_permitted pc s.
Proof. intros Hu x p -> E. by rewrite (Hu x eq_refl) in E. Qed.

Notation quiet m := (returns m unpermitted).

Ltac quiet := repeat first
  [ match goal with
    | |- returns (mbind_ _ _) _ => apply returns_bind; intros ?
    | |- returns (mret_ _) _ => apply returns_ret; intros ? ?; by simplify_eq
    | |- returns (mraise _) _ => apply returns_raise
    | |- returns (match ?x with _ => _ end) _ => destruct x
    end ].

Lemma quiet_ask e t u n uuid : quiet (ask_decision c e t u n uuid).
Proof. destruct n; simpl; unfold round_done; quiet. Qed.

Lemma decision_permits e t u n rq res uuid s pc s' : after_decision c e t u n rq res uuid s = (Ok pc, s') -> next_permitted pc s'.
Proof.
  unfold after_decision. unfold mbind_ at 1. rewrite check_run. destruct (valid e s); [|done].
  rewrite mlift_bind. destruct (validate_proposal rq res); [|done]. destruct (dr_proposal res) as [p|].
  2:{ intros E. apply unpermitted_next. revert E. match goal with |- ?m ?x = _ -> _ => enough (quiet m) as Hq by apply Hq end. unfold round_done. quiet. }
  unfold mbind_ at 1. unfold event at 1, mmodify at 1. cbn beta iota. case_match.
  { intros E. apply unpermitted_next. revert E. match goal with |- ?m ?x = _ -> _ => enough (quiet m) as Hq by apply Hq end. unfold round_done. quiet. }
  destruct (pr_participants p) as [|companion l]; [done|]. unfold mbind_ at 1. rewrite check_run. destruct (valid e _); [|done].
  unfold mbind_ at 1, mgets at 1. cbn beta iota. case_match; [done|]. case_match; [|done].
  unfold event. unfold mbind_ at 1, mmodify at 1. cbn beta iota. unfold mbind_ at 1, mmodify at 1. cbn beta iota.
  unfold mbind_ at 1, mgets at 1. cbn beta iota. rewrite mlift_bind.
  match goal with |- context [check_context ?x] => destruct (check_context x) end; [|done]. intros [= <- <-] x q [= <-] [= <-]. apply elem_of_cons. by left.
Qed.

Lemma segment_permits r d uuid m s pc s' : round_segment c r d uuid = Some m ->
  segment c r.(r_epoch) m s = (Ok pc, s') -> next_permitted pc s'.
Proof.
  intros Hm. unfold segment, mbind_, mtry. destruct (m s) as [[a|e] s1] eqn:E1.
  - destruct a as [x|]; [intros [= <- <-]|].
    2:{ destruct (round_finally (r_epoch r) s1) as [[[]|] ?]; [|done]. intros [= <- <-]. by intros y q ?. }
    unfold round_segment in Hm. destruct (r_pc r), d as [v|v|v|v]; simplify_eq; destruct v; simpl in E1; try done;
      try (by eapply decision_permits); apply unpermitted_next; revert E1;
      match goal with |- ?m ?x = _ -> _ => enough (quiet m) as Hq by apply Hq end;
      unfold after_transcript, after_stops, after_reply, round_done; quiet; apply quiet_ask.
  - destruct (on_round_error c (r_epoch r) e s1) as [[[]|] s2]; [|done]. unfold mret_.
    destruct (round_finally (r_epoch r) s2) as [[[]|] ?]; [|done]. intros [= <- <-]. by intros y q ?.
Qed.

(** What a label does to the rounds. *)
Definition round_change (s s' : CState) : Prop :=
  s'.(c_rounds) = s.(c_rounds) \/
  (exists r, r.(r_pc) = RCreated /\ s'.(c_rounds) = s.(c_rounds) ++ [r]) \/
  exists r pc s1, r ∈ s.(c_rounds) /\ s1.(c_rounds) = s.(c_rounds) /\ s' = snd (put_round r pc s1) /\ next_permitted pc s1.

Lemma fire_round l s : round_change s (snd (fire c l s)).
Proof.
  destruct l as [dev cap|dev cap|i m r|i|i d uuid|p ph|i| |];
    [|unfold fire, release, mget; unfold mbind_ at 1 2 3; cbn beta iota|unfold fire, mget; unfold mbind_ at 1; cbn beta iota..].
  - left. unfold fire, mget. unfold mbind_. rewrite press_run. destruct (press_accepted c dev cap s); [done|]. by destruct (_ && _).
  - destruct (negb _ || c_closed s); [by left|]. destruct (negb _ || negb (c_held s)); [by left|].
    right; left. by eexists (mkRound _ _ _ _ RCreated).
  - left. destruct (find_stop i s) as [t|]; [|done]. destruct (_ && _); [|done].
    destruct (stop_done_run t.(st_epoch) m r s) as (s1 & E1 & Hc). rewrite (mbind_ok _ _ _ _ _ E1).
    pose proof (receipt_same t.(st_epoch) m r s) as (_ & _ & _ & _ & _ & _ & _ & <- & _).
    change (c_rounds (core s1) = c_rounds (core (receipt t.(st_epoch) m r s))). by rewrite Hc.
  - destruct (find_round i s) as [r|] eqn:Ef; [|by left]. apply find_round_spec in Ef. destruct (r_pc r); try by left.
    right; right. exists r, (Some RTranscribing), s. split_and!; try done. by intros x q [= <-].
  - destruct (find_round i s) as [r|] eqn:Ef; [|by left]. apply find_round_spec in Ef.
    destruct (deliverable r d uuid s); [|by left]. destruct (round_segment c r d uuid) as [m|] eqn:Em; [|by left].
    pose proof (segment_rounds r d uuid m s Em) as Hr. unfold mbind_.
    destruct (segment c (r_epoch r) m s) as [[pc|e] s1] eqn:Es; simpl in Hr; [|by left].
    right; right. exists r, pc, s1. split_and!; try done. by eapply segment_permits.
  - left. unfold permit_phase, mgets. unfold mbind_ at 1. destruct (permit_current p s); [|done]. cbn [negb]. by destruct (negb (busy ph)).
  - destruct (find_round i s) as [r|] eqn:Ef; [|by left]. apply find_round_spec in Ef. destruct (r_pc r); try by left.
    right; right. exists r, None, s. by split_and!.
  - left. unfold close, mget. unfold mbind_ at 1. by destruct (c_closed s).
  - left. by destruct (c_closed s).
Qed.

(** In a reachable state the permit a round's reply runs under is one the session issued. *)
Lemma reachable_permitted s : reachable c s -> Permitted s.
Proof.
  induction 1 as [|l s Hs IH]; [by intros r p ?%elem_of_nil|].
  pose proof (gr_permits _ _ (fire_grows l s (reachable_inv c s Hs))) as Hg. intros r p Hr Hp.
  destruct (fire_round l s) as [E|[(r0 & Hc & E)|(r0 & pc & s1 & Hr0 & E1 & E & Hn)]].
  - rewrite E in Hr. apply Hg. by eapply IH.
  - rewrite E in Hr. apply elem_of_app in Hr as [Hr| ->%list_elem_of_singleton]; [|by rewrite Hc in Hp].
    apply Hg. by eapply IH.
  - rewrite E in Hr |- *. rewrite E in Hg. unfold put_round, mmodify in *. simpl in *. rewrite E1 in Hr. destruct pc as [pc|].
    + apply list_elem_of_fmap in Hr as (x & Ex & Hx). case_bool_decide; subst r; simpl in Hp.
      * by eapply Hn.
      * apply Hg. exact (IH _ _ Hx Hp).
    + apply elem_of_filter_list in Hr as [Hr _]. apply Hg. exact (IH _ _ Hr Hp).
Qed.

(** ** What a resumed reply says *)

Notation unheard m := (preserves (fun s s' : CState => s'.(c_history) = s.(c_history)) m).
#[local] Instance heard_preorder : PreOrder (fun s s' : CState => s'.(c_history) = s.(c_history)).
Proof. split; [done|]. intros s1 s2 s3 H1 H2. congruence. Qed.

Ltac unheard := repeat first
  [ preserve_step
  | match goal with |- preserves _ (mmodify _) => apply preserves_modify; intros ?; repeat case_match; done
                  | |- preserves _ (event _ _) => by apply preserves_modify end ].

Lemma reply_history i x uuid s : let s' := snd (fire c (LResume i (GotReply x) uuid) s) in
  says s (fun msg => exists r user n p permit task text, find_round i s = Some r /\
    r.(r_pc) = RReplying user n p permit task /\ x = Ok (mkPlayed text true) /\
    msg = mkMessage permit.(pm_turn_id) "companion" permit.(pm_companion) text) s'.
Proof.
  unfold fire, mget. unfold mbind_ at 1. cbn beta iota zeta.
  destruct (find_round i s) as [r|] eqn:Ef; [|by left]. cbn [deliverable].
  destruct (round_segment c r (GotReply x) uuid) as [m|] eqn:Em; [|by left].
  unfold round_segment in Em. destruct (r_pc r) as [| | | |user n p permit task] eqn:Epc; try done. injection Em as <-.
  apply says_then; [|intros pc; unfold put_round; unheard]. unfold segment. apply says_then; [|intros [pc|]; unfold round_finally; unheard].
  unfold mtry. destruct x as [played|e]; cbn [or_raise].
  - destruct (says_reply c (r_epoch r) user n p permit task played uuid s) as [Hh|(msg & Hh & -> & _ & Hc)];
      destruct (after_reply _ _ _ _ _ _ _ _ _ s) as [[a|e] s1]; simpl in *.
    + by left.
    + left. rewrite <- Hh. match goal with |- c_history (snd (?f s1)) = _ => enough (unheard f) as Hm by apply Hm end.
      unfold on_round_error, fail_round, dispatch_stop. unheard.
    + right. eexists. split; [exact Hh|]. destruct played as [text b]; simpl in *; subst b. by exists r, user, n, p, permit, task, text.
    + right. eexists. split.
      * rewrite <- Hh. match goal with |- c_history (snd (?f s1)) = _ => enough (unheard f) as Hm by apply Hm end.
        unfold on_round_error, fail_round, dispatch_stop. unheard.
      * destruct played as [text b]; simpl in *; subst b. by exists r, user, n, p, permit, task, text.
  - left. simpl. match goal with |- c_history (snd (?f s)) = _ => enough (unheard f) as Hm by apply Hm end.
    unfold on_round_error, fail_round, dispatch_stop. unheard.
Qed.

(** Another label says at most the user's words. *)
Lemma fire_history l s : (forall i x uuid, l <> LResume i (GotReply x) uuid) ->
  says s (fun msg => msg.(ms_author_kind) = "user") (snd (fire c l s)).
Proof.
  intros Hl. destruct (fire_says c l s) as [E|(m & E & Hm)]; [by left|right]. exists m. split; [done|].
  destruct Hm as [(r & text & _ & -> & _)|(i & uuid & text & p & -> & _)]; [done|]. by destruct (Hl i (Ok (mkPlayed text true)) uuid).
Qed.
End Steps.
