(* ===== verification/StreamSafety.v ===== *)
(** * The invariant of a team session behind its stream.

    [Inv] relates the session, the frames on their way, the receipts awaited and the log of what was
    asked, accepted and sent. Every statement of the stream [keeps] it. *)

From S2P Require Import Prelude CoreTypes Effects Coordination CoordinationSafety CoordinationFacts SceneSteps TeamStream.
#[local] Open Scope eff_scope.

(** [r] was accepted after [f] was logged. *)
Definition answered (lg : list Fact) (f : Fact) (r : Receipt) : Prop := exists l1 l2, lg = l1 ++ Accepted r :: l2 /\ f ∈ l2.

Lemma answered_app l lg f r : answered lg f r -> answered (l ++ lg) f r.
Proof. intros (l1 & l2 & -> & Hf). exists (l ++ l1), l2. by rewrite app_assoc. Qed.
Lemma answered_cons x lg f r : answered lg f r -> answered (x :: lg) f r.
Proof. apply (answered_app [x]). Qed.
Lemma answered_now lg f r : f ∈ lg -> answered (Accepted r :: lg) f r.
Proof. intros Hf. by exists [], lg. Qed.

(** The device of [m] confirmed a stop of epoch [e]. *)
Definition confirmed (lg : list Fact) (e : Z) (m : Member) : Prop :=
  exists r, answered lg (Asked r.(rc_request_id) m.(mb_device_id) e) r /\ r.(rc_device_id) = m.(mb_device_id) /\
    r.(rc_result) = "completed" /\ r.(rc_completion_basis) = "device_ack".

(** The device of [m] was sent the end of the reply under [p] and then reported it played. *)
Definition played_out (stream_id session_id : string) (lg : list Fact) (m : Member) (p : Permit) : Prop :=
  exists r, answered lg (Sent (mkFrame stream_id session_id (end_frame m p))) r /\ r.(rc_request_id) = p.(pm_turn_id) /\
    r.(rc_device_id) = m.(mb_device_id) /\ r.(rc_result) = "completed".

Definition reply_epoch (x : FramePayload) : option Z :=
  match x with ReplyStart _ _ _ _ e | ReplyDelta _ _ e _ _ | ReplyEnd _ _ e _ => Some e | _ => None end.

(** A frame of the reply of [m] under [p]. *)
Definition reply_frame (m : Member) (p : Permit) (x : FramePayload) : Prop :=
  x = start_frame m p \/ (exists text, x = delta_frame m p text) \/ x = end_frame m p.

Lemma reply_frame_epoch m p x : reply_frame m p x -> reply_epoch x = Some p.(pm_epoch).
Proof. by intros [->|[[t ->]| ->]]. Qed.

Section Invariant.
Context `{SdkOps} (c : SessionConfig) (stream_id : string).
Notation members := c.(sc_members).
Notation frame x := (mkFrame stream_id c.(sc_session_id) x).
Notation played_out := (played_out stream_id c.(sc_session_id)).

(** The reply of [m] under a permit of the session. *)
Definition speaker (x : CState) (m : Member) (p : Permit) : Prop :=
  m ∈ members /\ m.(mb_companion_id) = p.(pm_companion) /\ p ∈ x.(c_permits).

Definition stop_pending (lg : list Fact) (k : StopCall) (pd : PendingReceipt) : Prop :=
  pd.(pd_permit) = None /\ pd.(pd_device_id) = k.(sp_member).(mb_device_id) /\
  (pd.(pd_future) = FutDone true -> confirmed lg k.(sp_epoch) k.(sp_member)).

Definition stop_ok (x : CState) (pend : list (string * PendingReceipt)) (lg : list Fact) (k : StopCall) : Prop :=
  k.(sp_member) ∈ members /\ (k.(sp_task) < x.(c_next_task))%nat /\
  (forall t, t ∈ x.(c_stops) -> t.(st_id) = k.(sp_task) -> t.(st_epoch) = k.(sp_epoch)) /\
  Asked k.(sp_request_id) k.(sp_member).(mb_device_id) k.(sp_epoch) ∈ lg /\
  exists pd, dict_get pend k.(sp_request_id) = Some pd /\ stop_pending lg k pd.

Definition present_pending (lg : list Fact) (k : PresentCall) (pd : PendingReceipt) : Prop :=
  pd.(pd_permit) = Some k.(ps_permit) /\ pd.(pd_device_id) = k.(ps_member).(mb_device_id) /\
  (pd.(pd_completion_allowed) = true -> Sent (frame (end_frame k.(ps_member) k.(ps_permit))) ∈ lg) /\
  (pd.(pd_future) = FutDone true -> played_out lg k.(ps_member) k.(ps_permit)).

Definition present_ok (x : CState) (pend : list (string * PendingReceipt)) (lg : list Fact) (k : PresentCall) : Prop :=
  speaker x k.(ps_member) k.(ps_permit) /\
  (forall payload final, k.(ps_pc) = PSlot payload final -> reply_frame k.(ps_member) k.(ps_permit) payload) /\
  exists pd, dict_get pend (rid_of k) = Some pd /\ present_pending lg k pd.

Definition entry_ok (x : CState) (en : Entry) : Prop :=
  exists payload, en.(en_frame) = frame payload /\
  (reply_epoch payload <> None -> exists m p, en.(en_permit) = Some p /\ speaker x m p /\ reply_frame m p payload).

(** A reply frame leaves for its speaker's device, after every member confirmed the stop of its epoch. *)
Definition sent_ok (x : CState) (f : Frame) (before : list Fact) : Prop :=
  forall e, reply_epoch f.(fr_payload) = Some e ->
    (exists m p, speaker x m p /\ reply_frame m p f.(fr_payload)) /\ forall m, m ∈ members -> confirmed before e m.

(** A companion's message is a reply that was played out. *)
Definition message_ok (x : CState) (lg : list Fact) (msg : Message) : Prop :=
  msg.(ms_author_kind) = "companion" ->
  exists m p, speaker x m p /\ played_out lg m p /\ msg.(ms_id) = p.(pm_turn_id) /\ msg.(ms_author_id) = p.(pm_companion).

Record Facts (x : CState) (q : list Entry) (pend : list (string * PendingReceipt)) (ks : list StopCall) (ps : list PresentCall)
    (pl : list string) (lg : list Fact) : Prop := {
  f_reach : reachable c x;
  f_acks e i : (e, i) ∈ x.(c_acks) -> exists m, m ∈ members /\ m.(mb_companion_id) = i /\ confirmed lg e m;
  f_stops k : k ∈ ks -> stop_ok x pend lg k;
  f_stop_ids : NoDup (map sp_request_id ks);
  f_presents k : k ∈ ps -> present_ok x pend lg k;
  f_present_ids : NoDup (map rid_of ps);
  f_queue en : en ∈ q -> entry_ok x en;
  f_keys : NoDup pend.*1;
  f_played i : i ∈ pl -> exists m p, speaker x m p /\ p.(pm_turn_id) = i /\ played_out lg m p;
  f_history msg : msg ∈ x.(c_history) -> message_ok x lg msg;
  f_sent l1 f l2 : lg = l1 ++ Sent f :: l2 -> sent_ok x f l2;
}.

Definition Inv (s : SceneState) : Prop :=
  Facts s.(t_session) s.(t_outbound) s.(t_pending) s.(t_stops) s.(t_presents) s.(t_played) s.(t_log).

(** *** The log grows *)

Lemma confirmed_cons x lg e m : confirmed lg e m -> confirmed (x :: lg) e m.
Proof. intros (r & Ha & ?). exists r. split; [by apply answered_cons|done]. Qed.
Lemma played_cons x lg m p : played_out lg m p -> played_out (x :: lg) m p.
Proof. intros (r & Ha & ?). exists r. split; [by apply answered_cons|done]. Qed.

Lemma stop_pending_cons x lg k pd : stop_pending lg k pd -> stop_pending (x :: lg) k pd.
Proof. intros (? & ? & Hf). split_and!; [done..|]. intros E. by apply confirmed_cons, Hf. Qed.
Lemma present_pending_cons x lg k pd : present_pending lg k pd -> present_pending (x :: lg) k pd.
Proof.
  intros (? & ? & Ha & Hf). split_and!; [done..| |].
  - intros E. apply elem_of_cons. right. by apply Ha.
  - intros E. by apply played_cons, Hf.
Qed.

Lemma facts_log f x q pend ks ps pl lg : Facts x q pend ks ps pl lg -> (forall fr, f = Sent fr -> sent_ok x fr lg) ->
  Facts x q pend ks ps pl (f :: lg).
Proof.
  intros [] Hs. constructor; try done.
  - intros e i (m & ? & ? & ?)%f_acks0. exists m. split_and!; auto using confirmed_cons.
  - intros k (? & ? & ? & ? & pd & ? & ?)%f_stops0. unfold stop_ok. split_and!; [done..|by right|]. exists pd. auto using stop_pending_cons.
  - intros k (? & ? & pd & ? & ?)%f_presents0. split_and!; [done..|]. exists pd. auto using present_pending_cons.
  - intros i (m & p & ? & ? & ?)%f_played0. exists m, p. auto using played_cons.
  - intros msg Hm Hk. destruct (f_history0 msg Hm Hk) as (m & p & ? & ? & ? & ?). exists m, p. split_and!; auto using played_cons.
  - intros [|y l1] fr l2 E; injection E as -> E; [subst l2; by apply Hs|by eapply f_sent0].
Qed.

(** *** The session moves *)

(** What the stream lets a label of the session do. *)
Record Moves (x x' : CState) (lg : list Fact) : Prop := {
  mv_reach : reachable c x';
  mv_grows : Grows x x';
  mv_acks e i : (e, i) ∈ x'.(c_acks) -> (e, i) ∈ x.(c_acks) \/ exists m, m ∈ members /\ m.(mb_companion_id) = i /\ confirmed lg e m;
  mv_history msg : msg ∈ x'.(c_history) -> msg ∈ x.(c_history) \/ message_ok x' lg msg;
}.

Lemma speaker_grows x x' m p : Grows x x' -> speaker x m p -> speaker x' m p.
Proof. intros Hg (? & ? & Hp). split_and!; [done..|]. by apply (gr_permits _ _ Hg). Qed.

Lemma facts_session x x' q pend ks ps pl lg : Facts x q pend ks ps pl lg -> Moves x x' lg -> Facts x' q pend ks ps pl lg.
Proof.
  intros [] [Hr Hg Ha Hh]. constructor; try done.
  - intros e i [?|?]%Ha; auto.
  - intros k (? & Hlt & He & ? & pd & ? & ?)%f_stops0. unfold stop_ok. split_and!; [done| | |done|by exists pd].
    + pose proof (gr_next _ _ Hg). lia.
    + intros t' Ht' E. destruct (gr_stops _ _ Hg t' Ht') as [(t & Ht & E1 & <-)|?]; [|lia]. apply He; [done|congruence].
  - intros k (? & ? & pd & ? & ?)%f_presents0. split_and!; [by eapply speaker_grows|done|by exists pd].
  - intros en (pl0 & ? & Hen)%f_queue0. exists pl0. split; [done|]. intros (m & p & ? & ? & ?)%Hen. exists m, p. split_and!; [done| |done]. by eapply speaker_grows.
  - intros i (m & p & ? & ? & ?)%f_played0. exists m, p. split_and!; [|done..]. by eapply speaker_grows.
  - intros msg [Hm|?]%Hh; [|done]. intros Hk. destruct (f_history0 msg Hm Hk) as (m & p & ? & ? & ? & ?).
    exists m, p. split_and!; [|done..]. by eapply speaker_grows.
  - intros l1 f l2 E e He. destruct (f_sent0 _ _ _ E e He) as [(m & p & ? & ?) ?]. split; [|done].
    exists m, p. split; [|done]. by eapply speaker_grows.
Qed.

(** *** Receipts awaited *)

Lemma facts_pending x q pend pend' ks ps pl lg : Facts x q pend ks ps pl lg -> NoDup pend'.*1 ->
  (forall k pd, k ∈ ks -> dict_get pend k.(sp_request_id) = Some pd -> stop_pending lg k pd ->
    exists pd', dict_get pend' k.(sp_request_id) = Some pd' /\ stop_pending lg k pd') ->
  (forall k pd, k ∈ ps -> dict_get pend (rid_of k) = Some pd -> present_pending lg k pd ->
    exists pd', dict_get pend' (rid_of k) = Some pd' /\ present_pending lg k pd') ->
  Facts x q pend' ks ps pl lg.
Proof.
  intros [] Hn Hs Hp. constructor; try done.
  - intros k Hk. destruct (f_stops0 k Hk) as (? & ? & ? & ? & pd & ? & ?). unfold stop_ok. split_and!; eauto.
  - intros k Hk. destruct (f_presents0 k Hk) as (? & ? & pd & ? & ?). split_and!; eauto.
Qed.

(** A change of the receipt of [rid] only. *)
Lemma facts_update rid g x q pend pd ks ps pl lg : Facts x q pend ks ps pl lg -> dict_get pend rid = Some pd ->
  (forall k, k ∈ ks -> k.(sp_request_id) = rid -> stop_pending lg k pd -> stop_pending lg k (g pd)) ->
  (forall k, k ∈ ps -> rid_of k = rid -> present_pending lg k pd -> present_pending lg k (g pd)) ->
  Facts x q (dict_set pend rid (g pd)) ks ps pl lg.
Proof.
  intros HF Hg Hs Hp. eapply facts_pending; [done| | |].
  - apply dict_set_nodup. by destruct HF.
  - intros k pd' Hk E Hpd. destruct (decide (sp_request_id k = rid)) as [<-|Hne].
    + rewrite Hg in E. injection E as <-. exists (g pd). rewrite dict_get_set_eq. auto.
    + exists pd'. rewrite dict_get_set_ne by done. done.
  - intros k pd' Hk E Hpd. destruct (decide (rid_of k = rid)) as [<-|Hne].
    + rewrite Hg in E. injection E as <-. exists (g pd). rewrite dict_get_set_eq. auto.
    + exists pd'. rewrite dict_get_set_ne by done. done.
Qed.

(** A change of every receipt. *)
Lemma dict_get_map {V W} (g : string -> V -> W) d k : dict_get (map (fun '(k, v) => (k, g k v)) d) k = g k <$> dict_get d k.
Proof. induction d as [|[k' v] d IH]; [done|]. simpl. case_decide; [by subst|done]. Qed.

Lemma facts_map g x q pend ks ps pl lg : Facts x q pend ks ps pl lg ->
  (forall k rid pd, stop_pending lg k pd -> stop_pending lg k (g rid pd)) ->
  (forall k rid pd, present_pending lg k pd -> present_pending lg k (g rid pd)) ->
  Facts x q (map (fun '(k, v) => (k, g k v)) pend) ks ps pl lg.
Proof.
  intros HF Hs Hp. eapply facts_pending; [done| | |].
  - destruct HF. rewrite map_map. erewrite map_ext; [exact f_keys0|]. by intros [].
  - intros k pd _ E Hpd. exists (g k.(sp_request_id) pd). rewrite dict_get_map, E. auto.
  - intros k pd _ E Hpd. exists (g (rid_of k) pd). rewrite dict_get_map, E. auto.
Qed.

(** A stop and a reply never await the same receipt. *)
Lemma facts_disjoint x q pend ks ps pl lg k1 k2 : Facts x q pend ks ps pl lg -> k1 ∈ ks -> k2 ∈ ps -> sp_request_id k1 <> rid_of k2.
Proof.
  intros HF H1 H2 E. destruct (f_stops _ _ _ _ _ _ _ HF k1 H1) as (_ & _ & _ & _ & pd & E1 & Hp & _).
  destruct (f_presents _ _ _ _ _ _ _ HF k2 H2) as (_ & _ & pd' & E2 & Hp' & _). rewrite E, E2 in E1. congruence.
Qed.

(** *** Calls that leave *)

Lemma facts_leave_stop x q pend ks ps pl lg k : Facts x q pend ks ps pl lg -> k ∈ ks ->
  Facts x q (dict_pop pend k.(sp_request_id)) (List.filter (fun y => negb (bool_decide (y.(sp_request_id) = k.(sp_request_id)))) ks) ps pl lg.
Proof.
  intros HF Hk. pose proof (fun k' => facts_disjoint _ _ _ _ _ _ _ k k' HF Hk) as Hd. destruct HF. constructor; try done.
  - intros k' [Hk' Hne%negb_true_iff%bool_decide_eq_false]%elem_of_filter_list.
    destruct (f_stops0 k' Hk') as (? & ? & ? & ? & pd & ? & ?). unfold stop_ok. split_and!; [done..|].
    exists pd. by rewrite dict_pop_get_ne by congruence.
  - by apply NoDup_map_filter.
  - intros k' Hk'. destruct (f_presents0 k' Hk') as (? & ? & pd & ? & ?). split_and!; [done..|]. exists pd.
    rewrite dict_pop_get_ne by (by apply Hd). done.
  - by apply dict_pop_nodup.
Qed.

Lemma facts_leave_present x q pend ks ps pl lg k : Facts x q pend ks ps pl lg -> k ∈ ps ->
  Facts x q (dict_pop pend (rid_of k)) ks (List.filter (fun y => negb (bool_decide (rid_of y = rid_of k))) ps) pl lg.
Proof.
  intros HF Hk. pose proof (fun k' Hk' => facts_disjoint _ _ _ _ _ _ _ k' k HF Hk' Hk) as Hd. destruct HF. constructor; try done.
  - intros k' Hk'. destruct (f_stops0 k' Hk') as (? & ? & ? & ? & pd & ? & ?). unfold stop_ok. split_and!; [done..|].
    exists pd. rewrite dict_pop_get_ne by (by apply not_eq_sym, Hd). done.
  - intros k' [Hk' Hne%negb_true_iff%bool_decide_eq_false]%elem_of_filter_list.
    destruct (f_presents0 k' Hk') as (? & ? & pd & ? & ?). split_and!; [done..|].
    exists pd. by rewrite dict_pop_get_ne by congruence.
  - by apply NoDup_map_filter.
  - by apply dict_pop_nodup.
Qed.

(** *** A label of the session *)

(** No confirmed stop and no reply. *)
Definition plain (l : label) : Prop :=
  match l with LStop _ _ (Ok _) => False | LResume _ (GotReply _) _ => False | _ => True end.

Lemma moves_fire l x lg : reachable c x ->
  (forall i m t, l = LStop i m (Ok tt) -> find_stop i x = Some t -> m ∈ members /\ confirmed lg t.(st_epoch) m) ->
  (forall i y uuid r user n p permit task text, l = LResume i (GotReply y) uuid -> find_round i x = Some r ->
    r.(r_pc) = RReplying user n p permit task -> y = Ok (mkPlayed text true) -> exists m, speaker x m permit /\ played_out lg m permit) ->
  Moves x (snd (fire c l x)) lg.
Proof.
  intros Hr Hstop Hreply. pose proof (fire_grows c l x (reachable_inv c x Hr)) as Hg. constructor; [by constructor|done| |].
  - intros e i [?|(j & m & t & -> & Hf & [= -> ->])]%fire_acks; [by left|right]. destruct (Hstop j m t eq_refl Hf). by exists m.
  - intros msg Hin. destruct l as [| | | |j [y|y|y|y] uuid| | | |];
      try (match type of Hin with _ ∈ c_history (snd (fire c ?l x)) =>
        destruct (fire_history c l x) as [E|(w & E & Hw)]; [congruence|left; by rewrite <- E|] end;
        rewrite E in Hin; apply elem_of_app in Hin as [?| ->%list_elem_of_singleton]; [by left|right]; intros Hk; congruence).
    destruct (reply_history c j y uuid x) as [E|(m & E & r & user & n & p & permit & task & text & Hf & Hpc & Hy & ->)]; [left; by rewrite <- E|].
    rewrite E in Hin. apply elem_of_app in Hin as [?| ->%list_elem_of_singleton]; [by left|right]. intros _.
    destruct (Hreply j y uuid r user n p permit task text eq_refl Hf Hpc Hy) as (m & Hs & Hp).
    exists m, permit. split_and!; [by eapply speaker_grows|done..].
Qed.

Lemma moves_plain l x lg : plain l -> reachable c x -> Moves x (snd (fire c l x)) lg.
Proof. intros Hl Hr. apply moves_fire; [done|by intros i m t ->|by intros i y uuid r user n p permit task text ->]. Qed.

(** ** Statements that keep the invariant *)

#[local] Instance inv_preorder : PreOrder (fun s s' : SceneState => Inv s -> Inv s').
Proof. split; [by intros s|]. intros s1 s2 s3 H1 H2 Hs. auto. Qed.
Notation keeps m := (preserves (fun s s' : SceneState => Inv s -> Inv s') m).

Lemma keeps_session {A} (m : M CState A) l : (forall x, snd (m x) = snd (fire c l x)) -> plain l -> keeps (session_do m).
Proof.
  intros E Hl s Hs. unfold session_do. specialize (E s.(t_session)). destruct (m s.(t_session)) as [r x]. simpl in *. subst x.
  unfold Inv. simpl. eapply facts_session; [exact Hs|]. apply moves_plain; [done|]. by destruct Hs.
Qed.

Lemma keeps_fire l : plain l -> keeps (session_do (fire c l)).
Proof. by apply keeps_session. Qed.

Lemma enqueue_elem_of e en q : en ∈ put_nowait e q -> en = e \/ en ∈ q.
Proof.
  induction q as [|y q IH]; simpl; [by intros ->%list_elem_of_singleton; left|].
  destruct (entry_before e y); intros [->|Hen]%elem_of_cons; [by left|by right|right; by left|].
  destruct (IH Hen); [by left|right; by right].
Qed.

Lemma enqueue_elem e en q : en ∈ put_nowait e q -> en ∈ q \/ (en.(en_permit) = e.(en_permit) /\ en.(en_frame) = e.(en_frame)).
Proof. intros [->|?]%enqueue_elem_of; auto. Qed.

Lemma emit_run payload permit urgent slot s : exists r q n,
  emit_frame c stream_id payload permit urgent slot s = (r, set_t_outbound q (set_t_sequence n s)) /\
  forall en, en ∈ q -> en ∈ s.(t_outbound) \/ (en.(en_permit) = permit /\ en.(en_frame) = frame payload).
Proof.
  assert (forall n, set_t_sequence n s = set_t_outbound s.(t_outbound) (set_t_sequence n s)) as Eq by (intros n; by destruct s).
  unfold emit_frame, mgets, mmodify. unfold mbind_ at 1. destruct (t_connected s); cbn [negb]; cbn beta iota.
  - unfold mbind_. case_bool_decide; [exists (Err (PyError "QueueFull" "")), s.(t_outbound), (s.(t_sequence) + 1)|do 3 eexists].
    { split; [by rewrite <- Eq|by left]. }
    split; [reflexivity|]. intros en. simpl. apply enqueue_elem.
  - exists (Err (PyError "ConnectionError" "role-group stream disconnected")), s.(t_outbound), s.(t_sequence). split; [by destruct s|by left].
Qed.

Lemma emit_inv payload permit urgent slot s : Inv s ->
  (reply_epoch payload <> None -> exists m p, permit = Some p /\ speaker s.(t_session) m p /\ reply_frame m p payload) ->
  Inv (snd (emit_frame c stream_id payload permit urgent slot s)).
Proof.
  intros Hs Hp. destruct (emit_run payload permit urgent slot s) as (r & q & n & -> & Hq). unfold Inv. simpl. destruct Hs. constructor; try done.
  intros en [Hen|[E1 E2]]%Hq; [auto|]. exists payload. split; [done|]. rewrite E1. done.
Qed.

Lemma keeps_emit_frame payload permit urgent slot : reply_epoch payload = None -> keeps (emit_frame c stream_id payload permit urgent slot).
Proof. intros E s Hs. apply emit_inv; [done|]. by rewrite E. Qed.

Lemma keeps_same g : (forall s, Inv s -> Inv (g s)) -> keeps (mmodify g).
Proof. intros Hg s. apply Hg. Qed.

Ltac keeps := repeat first
  [ preserve_step
  | match goal with
    | |- keeps (mmodify _) => apply keeps_same; intros ? ?; first [done | unfold cancel_transcript, cancel_future, set_future; repeat case_match; done]
    | |- keeps (emit_frame _ _ _ _ _ _) => by apply keeps_emit_frame
    | |- keeps (session_do (fire _ _)) => by apply keeps_fire
    end ].

(** *** Frames from the device *)

Lemma receipt_keeps r : keeps (accept_receipt r).
Proof.
  intros s Hs. unfold accept_receipt, mget. unfold mbind_ at 1. cbn beta iota.
  destruct (dict_get (t_pending s) (rc_request_id r)) as [pd|] eqn:Eg; [|done].
  destruct (_ && negb (bool_decide (rc_completion_basis r = _))) eqn:E1; [done|].
  destruct (negb (bool_decide (pd_device_id pd = rc_device_id r))) eqn:E2; [done|]. destruct (bool_decide (rc_result r = "completed") && _) eqn:E3; [done|].
  match goal with |- context [if ?b then mret_ tt else _] => destruct b end; [done|]. unfold mwhen. destruct (negb (fut_done (pd_future pd))); [|done].
  apply negb_false_iff, bool_decide_eq_true in E2. unfold mmodify, log, update_pending. cbn [snd]. rewrite Eg. unfold Inv. simpl.
  eapply (facts_update r.(rc_request_id) (pd_resolve (bool_decide (rc_result r = "completed")) (rc_error_code r)));
    [eapply facts_log; [exact Hs|done]|exact Eg| |].
  - intros k Hk Ek (Hp & Hd & _). split_and!; [done..|]. simpl. intros [= Hres%bool_decide_eq_true].
    destruct (f_stops _ _ _ _ _ _ _ Hs k Hk) as (_ & _ & _ & Hask & _).
    rewrite Hp, bool_decide_eq_true_2 in E1 by done. apply negb_false_iff, bool_decide_eq_true in E1.
    exists r. split_and!; [|congruence|done..]. apply answered_now. by rewrite <- Ek.
  - intros k Hk Ek (Hp & Hd & Ha & _). split_and!; [done..| |].
    + intros Hal. by apply Ha.
    + simpl. intros [= Hres%bool_decide_eq_true]. rewrite Hres, bool_decide_eq_true_2 in E3 by done. apply negb_false_iff in E3.
      specialize (Ha E3). apply elem_of_cons in Ha as [Ha|Ha]; [discriminate|]. exists r. split_and!; [by apply answered_now|done|congruence|done].
Qed.

Lemma speaking_keeps t d : keeps (accept_speaking t d).
Proof.
  unfold accept_speaking. keeps. by apply (keeps_session _ (LPhase p0 "speaking")).
Qed.

Lemma press_keeps cap : keeps (accept_press c stream_id cap).
Proof.
  unfold accept_press. keeps. apply (keeps_session _ (LPress c.(sc_input_device_id) cap)); [|done].
  intros x. unfold fire, mget. unfold mbind_ at 1. cbn beta iota. unfold mbind_. by destruct (press c _ cap x) as [[?|?] ?].
Qed.

Lemma release_keeps cap : keeps (accept_release c cap).
Proof.
  unfold accept_release. keeps. apply (keeps_session _ (LRelease c.(sc_input_device_id) cap)); [|done].
  intros x. unfold fire, mget. unfold mbind_ at 1. cbn beta iota. unfold mbind_. by destruct (release c _ cap x) as [[?|?] ?].
Qed.

Lemma transcript_keeps cap text : keeps (accept_transcript cap text).
Proof. unfold accept_transcript. keeps. apply keeps_same. intros s Hs. by apply facts_log. Qed.

Lemma accept_keeps f : keeps (accept_frame c stream_id f).
Proof.
  unfold accept_frame. keeps; auto using receipt_keeps, speaking_keeps, press_keeps, release_keeps, transcript_keeps.
Qed.

(** *** Frames to the devices *)

Lemma reachable_check x : reachable c x -> session_check c = Ok tt.
Proof. by induction 1. Qed.

Lemma members_once m1 m2 x : reachable c x -> m1 ∈ members -> m2 ∈ members -> m1.(mb_companion_id) = m2.(mb_companion_id) -> m1 = m2.
Proof.
  intros Hr%reachable_check H1 H2 E. unfold session_check in Hr.
  destruct (is_empty _ || _ || _); [done|]. destruct (_ || negb (bool_decide (NoDup (map mb_companion_id members)))) eqn:En; [done|].
  apply orb_false_iff in En as [_ Hn%negb_false_iff%bool_decide_eq_true]. by eapply NoDup_map_elem.
Qed.

Lemma current_confirmed s p m : Inv s -> p ∈ s.(t_session).(c_permits) -> permit_current p s.(t_session) = true -> m ∈ members ->
  confirmed s.(t_log) p.(pm_epoch) m.
Proof.
  intros Hs Hp Hc Hm. destruct (speech_needs_silence c s.(t_session) p) as (_ & Ha & _); [by destruct Hs|done|done|].
  destruct (f_acks _ _ _ _ _ _ _ Hs _ _ (Ha m Hm)) as (m' & Hm' & E & Hconf).
  by rewrite (members_once m m' s.(t_session)) by (try done; by destruct Hs).
Qed.

Lemma write_keeps : keeps write_one.
Proof.
  intros s Hs. unfold write_one, mget. unfold mbind_ at 1. cbn beta iota. destruct (t_outbound s) as [|e rest] eqn:Eq; [done|].
  assert (entry_ok s.(t_session) e) as (payload & Ef & Hen). { apply (f_queue _ _ _ _ _ _ _ Hs). rewrite Eq. by left. }
  assert (Inv (set_t_outbound rest s)) as Hs1.
  { destruct Hs. constructor; try done. intros en Hin. apply f_queue0. rewrite Eq. by right. }
  unfold mbind_ at 1, mmodify at 1. cbn beta iota. set (s1 := set_t_outbound rest s) in *.
  assert (exists s2, mwhen (en_reply_slot e) (mmodify (fun s => set_t_slots (t_slots s + 1) s)) s1 = (Ok tt, s2) /\ Inv s2 /\
    t_session s2 = t_session s /\ t_log s2 = t_log s) as (s2 & E2 & Hs2 & Es2 & El2) by (destruct (en_reply_slot e); eexists; split; done).
  rewrite (mbind_ok _ _ _ _ _ E2). destruct (entry_current e s) eqn:Hcur; cbn [negb]; cbn beta iota; [|done].
  assert (sent_ok s2.(t_session) e.(en_frame) s2.(t_log)) as Hsent.
  { rewrite Es2, El2. intros ep Hep. rewrite Ef in Hep |- *. simpl in Hep |- *. destruct Hen as (m & p & Ep & Hsp & Hrf); [congruence|].
    split; [by exists m, p|]. rewrite (reply_frame_epoch m p) in Hep by done. injection Hep as <-. intros m' Hm'.
    apply current_confirmed; [done|apply Hsp| |done]. unfold entry_current in Hcur. by rewrite Ep in Hcur. }
  assert (forall l, e.(en_frame) = frame l -> Inv (log (Sent (frame l)) s2)) as Hlog.
  { intros l El. eapply facts_log; [exact Hs2|]. intros fr [= <-]. by rewrite <- El. }
  unfold mbind_, mmodify. cbn beta iota. rewrite Ef. destruct payload as [| | | | |rid turn ep dev|]; try (by apply Hlog). simpl.
  unfold update_pending. destruct (dict_get (t_pending s2) rid) as [pd|] eqn:Eg; [|by apply Hlog].
  apply (facts_update rid pd_allow _ _ (t_pending s2) pd); [by apply Hlog|done| |].
  - intros k _ _ (? & ? & ?). by split_and!.
  - intros k Hk Er (? & ? & _ & ?). split_and!; [done..| |done]. intros _. apply elem_of_cons. left. do 2 f_equal.
    destruct Hen as (m & p & _ & Hsp & [[=]|[[t [=]]|Hend]]); [simpl; congruence|]. rewrite Hend.
    destruct (f_presents _ _ _ _ _ _ _ Hs2 k Hk) as ((Hkm & Hkc & Hkp) & _). rewrite Es2 in Hkp. destruct Hsp as (Hm & Hc & Hp).
    assert (ps_permit k = p) as Epp.
    { apply (NoDup_map_elem pm_turn_id s.(t_session).(c_permits)); [|done..|].
      - apply (b_turns c). apply reachable_inv. by destruct Hs.
      - injection Hend as -> _ _ _. exact Er. }
    rewrite Epp in *. f_equal. symmetry. eapply members_once; [|done..|congruence]. by destruct Hs.
Qed.

(** *** Stops *)

Lemma stop_call_in rid s k : stop_call rid s = Some k -> k ∈ s.(t_stops) /\ k.(sp_request_id) = rid.
Proof. intros [Hk%list_elem_of_In E%bool_decide_eq_true]%find_some. done. Qed.
Lemma present_call_in rid s k : present_call rid s = Some k -> k ∈ s.(t_presents) /\ rid_of k = rid.
Proof. intros [Hk%list_elem_of_In E%bool_decide_eq_true]%find_some. done. Qed.
Lemma find_stop_in i x t : find_stop i x = Some t -> t ∈ x.(c_stops) /\ t.(st_id) = i.
Proof. intros [Hk%list_elem_of_In E%bool_decide_eq_true]%find_some. done. Qed.

Lemma stop_leave_inv k r s : Inv s -> k ∈ s.(t_stops) -> (r = Ok tt -> confirmed s.(t_log) k.(sp_epoch) k.(sp_member)) ->
  Inv (snd (stop_leave c k r s)).
Proof.
  intros Hs Hk Hr. destruct (f_stops _ _ _ _ _ _ _ Hs k Hk) as (Hm & _ & Hep & _).
  unfold stop_leave, mbind_, mmodify, session_do. cbn beta iota. destruct (fire c _ _) as [x' x] eqn:Ef. unfold Inv. simpl.
  apply (f_equal snd) in Ef. simpl in Ef. subst x. eapply facts_session; [by eapply facts_leave_stop|].
  apply moves_fire; [by destruct Hs| |done]. intros i m t [= <- <- ->] [Ht Ei]%find_stop_in. split; [done|].
  rewrite (Hep t Ht Ei). by apply Hr.
Qed.

Lemma dict_has_false {V} (d : list (string * V)) k : dict_has d k = false -> dict_get d k = None.
Proof. unfold dict_has. by destruct (dict_get d k). Qed.

Lemma facts_put_pending x q pend ks ps pl lg rid pd : Facts x q pend ks ps pl lg -> dict_get pend rid = None ->
  Facts x q (dict_set pend rid pd) ks ps pl lg.
Proof.
  intros HF Hn. assert (forall i pd', dict_get pend i = Some pd' -> rid <> i) as Hne by (intros i pd' E ->; congruence).
  eapply facts_pending; [done|apply dict_set_nodup; by destruct HF| |];
    intros k pd' _ E Hpd; exists pd'; rewrite dict_get_set_ne by (by eapply Hne); done.
Qed.

Lemma facts_pop_pending x q pend (pend' : list (string * PendingReceipt)) ks ps pl lg rid : Facts x q pend ks ps pl lg -> dict_get pend' rid = None ->
  (forall k, k ∈ ks -> exists pd, dict_get pend' k.(sp_request_id) = Some pd) -> (forall k, k ∈ ps -> exists pd, dict_get pend' (rid_of k) = Some pd) ->
  Facts x q (dict_pop pend rid) ks ps pl lg.
Proof.
  intros HF Hn H1 H2. eapply facts_pending; [done|apply dict_pop_nodup; by destruct HF| |].
  - intros k pd Hk E Hpd. exists pd. destruct (H1 k Hk) as [pd' E']. rewrite dict_pop_get_ne by (intros Heq; congruence). done.
  - intros k pd Hk E Hpd. exists pd. destruct (H2 k Hk) as [pd' E']. rewrite dict_pop_get_ne by (intros Heq; congruence). done.
Qed.

Lemma calls_pending s : Inv s -> (forall k, k ∈ s.(t_stops) -> exists pd, dict_get s.(t_pending) k.(sp_request_id) = Some pd) /\
  (forall k, k ∈ s.(t_presents) -> exists pd, dict_get s.(t_pending) (rid_of k) = Some pd).
Proof.
  intros Hs. split; intros k Hk.
  - destruct (f_stops _ _ _ _ _ _ _ Hs k Hk) as (_ & _ & _ & _ & pd & ? & _). by exists pd.
  - destruct (f_presents _ _ _ _ _ _ _ Hs k Hk) as (_ & _ & pd & ? & _). by exists pd.
Qed.

Lemma stop_begin_inv task t m rid s : Inv s -> find_stop task s.(t_session) = Some t -> m ∈ members -> dict_get s.(t_pending) rid = None ->
  Inv (snd (stop_begin c stream_id task t m rid s)).
Proof.
  intros Hs [Ht Et]%find_stop_in Hm Hn. destruct (calls_pending s Hs) as [Hks Hps].
  set (pd := mkPending m.(mb_device_id) FutPending None true "").
  set (s1 := set_t_pending (dict_set s.(t_pending) rid pd) s).
  assert (Inv s1) as Hs1 by (by apply facts_put_pending).
  unfold stop_begin. unfold mbind_ at 1, mmodify at 1. cbn beta iota. fold pd. fold s1. unfold mbind_ at 1, mgets at 1. cbn beta iota.
  unfold mtry. match goal with |- context [emit_frame c stream_id ?p None true false] => set (payload := p) end.
  pose proof (emit_inv payload None true false s1 Hs1) as Hs2. destruct (emit_run payload None true false s1) as (r & q & n & E & _).
  rewrite E in Hs2. unfold mbind_ at 1. rewrite E. specialize (Hs2 (fun Hx => False_ind _ (Hx eq_refl))). destruct r as [u|e].
  - unfold mmodify, Inv. simpl. apply facts_log with (f := Asked rid m.(mb_device_id) t.(st_epoch)) in Hs2; [|done].
    destruct Hs2. constructor; try done.
    + intros k [Hk|Hk%list_elem_of_singleton]%elem_of_app; [auto|]. subst k. unfold stop_ok. simpl.
      assert (Base c s.(t_session)) as Hb by (apply reachable_inv; by destruct Hs). split_and!; [done| | |by left|].
      * destruct (b_stop_epochs c _ Hb t Ht). lia.
      * intros t' Ht' Et'. by rewrite (NoDup_map_elem _ _ _ _ (b_stop_ids c _ Hb) Ht' Ht) by congruence.
      * exists pd. rewrite dict_get_set_eq. split; [done|]. by split_and!.
    + rewrite map_app. apply NoDup_app. split_and!; [done| |apply NoDup_singleton].
      intros i (k & -> & Hk)%list_elem_of_fmap Hi%list_elem_of_singleton. destruct (Hks k Hk) as [pd' Ek]. simpl in Hi. congruence.
  - unfold mbind_, mmodify, session_do. cbn beta iota. destruct (fire c _ _) as [x' x] eqn:Ef. unfold Inv. simpl.
    apply (f_equal snd) in Ef. simpl in Ef. subst x. eapply facts_session; [by eapply facts_pop_pending|]. apply moves_plain; [done|by destruct Hs].
Qed.

(** *** Rounds *)

Lemma round_start_keeps i uuid : keeps (round_start c i uuid).
Proof. unfold round_start. keeps. Qed.
Lemma round_text_keeps i uuid : keeps (round_text c i uuid).
Proof. unfold round_text. keeps. Qed.
Lemma round_interrupt_keeps i uuid b : keeps (round_interrupt c i uuid b).
Proof. unfold round_interrupt. keeps. Qed.
Lemma round_finished_keeps i cap b : keeps (round_finished c stream_id i cap b).
Proof.
  unfold round_finished. keeps. case_match; [|done]. simplify_eq. keeps.
Qed.

(** A reply that counts as played was presented to the end. *)
Lemma round_resume_inv i r d uuid s : Inv s -> find_round i s.(t_session) = Some r -> round_resumes r d s = true ->
  Inv (snd (session_do (fire c (LResume i d uuid)) s)).
Proof.
  intros Hs Hf Hg. destruct d as [y|y|y|y]; [done|by apply keeps_fire..|].
  unfold session_do. destruct (fire c _ _) as [x' x] eqn:Ef. unfold Inv. simpl. apply (f_equal snd) in Ef. simpl in Ef. subst x.
  eapply facts_session; [exact Hs|]. apply moves_fire; [by destruct Hs|done|].
  intros i' y' uuid' r' user n p permit task text [= <- <- <-] Hf' Hpc ->. rewrite Hf in Hf'. injection Hf' as <-.
  simpl in Hg. rewrite Hpc in Hg. simpl in Hg. apply andb_true_iff in Hg as [_ Hin%bool_decide_eq_true].
  destruct (f_played _ _ _ _ _ _ _ Hs _ Hin) as (m & p' & Hsp & Et & Hpl).
  assert (permit ∈ s.(t_session).(c_permits)) as Hp.
  { apply (reachable_permitted c s.(t_session)) with (r := r); [by destruct Hs| |by rewrite Hpc].
    apply find_some in Hf as [Hf _]. by apply list_elem_of_In. }
  assert (permit = p') as ->; [|by exists m].
  eapply (NoDup_map_elem pm_turn_id); [|exact Hp|apply Hsp|done]. apply (b_turns c). apply reachable_inv. by destruct Hs.
Qed.

(** *** Replies *)

Lemma present_leave_inv k played s : Inv s -> k ∈ s.(t_presents) ->
  (played = true -> played_out s.(t_log) k.(ps_member) k.(ps_permit)) -> Inv (snd (present_leave k played s)).
Proof.
  intros Hs Hk Hp. destruct (f_presents _ _ _ _ _ _ _ Hs k Hk) as (Hsp & _).
  pose proof (facts_leave_present _ _ _ _ _ _ _ k Hs Hk) as HF. unfold present_leave, mbind_, mmodify, mwhen. destruct played; [|exact HF].
  destruct HF. constructor; try done. intros i [->|Hi]%elem_of_cons; [|auto]. exists k.(ps_member), k.(ps_permit). auto.
Qed.

Lemma put_present_inv k pc s : Inv s -> k ∈ s.(t_presents) ->
  (forall payload final, pc = PSlot payload final -> reply_frame k.(ps_member) k.(ps_permit) payload) -> Inv (put_present k pc s).
Proof.
  intros Hs Hk Hpc. destruct (f_presents _ _ _ _ _ _ _ Hs k Hk) as (Hsp & _ & pd & Epd & Hpd). destruct Hs. constructor; try done; simpl.
  - intros k' (y & -> & Hy)%list_elem_of_fmap. case_bool_decide; [|auto]. split_and!; [done|exact Hpc|]. by exists pd.
  - rewrite map_map. erewrite map_ext; [exact f_present_ids0|]. intros y. simpl. by case_bool_decide.
Qed.

Lemma present_begin_inv i m p s : Inv s -> speaker s.(t_session) m p -> dict_get s.(t_pending) p.(pm_turn_id) = None ->
  Inv (snd (present_begin i m p s)).
Proof.
  intros Hs Hsp Hn. destruct (calls_pending s Hs) as [_ Hps]. unfold present_begin, mmodify. cbn [snd].
  set (pd := mkPending m.(mb_device_id) FutPending (Some p) false "").
  pose proof (facts_put_pending _ _ _ _ _ _ _ p.(pm_turn_id) pd Hs Hn) as HF. destruct HF. constructor; try done.
  - intros k [Hk|Hk%list_elem_of_singleton]%elem_of_app; [auto|]. subst k. split_and!; [done| |].
    + intros payload final [= <- _]. by left.
    + exists pd. unfold rid_of. simpl. rewrite dict_get_set_eq. split; [done|]. by split_and!.
  - simpl. rewrite map_app. apply NoDup_app. split_and!; [done| |apply NoDup_singleton].
    intros t (k & -> & Hk)%list_elem_of_fmap Hi%list_elem_of_singleton. destruct (Hps k Hk) as [pd' Ek].
    unfold rid_of in Hi at 2. simpl in Hi. congruence.
Qed.

Lemma present_slot_inv k payload final s : Inv s -> k ∈ s.(t_presents) -> k.(ps_pc) = PSlot payload final ->
  Inv (snd (present_slot c stream_id k payload final s)).
Proof.
  intros Hs Hk Hpc. destruct (f_presents _ _ _ _ _ _ _ Hs k Hk) as (Hsp & Hfr & _). specialize (Hfr _ _ Hpc).
  unfold present_slot. unfold mbind_ at 1, mmodify at 1. cbn beta iota. set (s1 := set_t_slots (t_slots s - 1) s).
  assert (Inv s1) as Hs1 by exact Hs. unfold mtry, present_check. unfold mbind_ at 1 2, mgets at 1. cbn beta iota.
  destruct (permit_current _ _); cbn beta iota.
  - unfold mret_ at 1. cbn beta iota. pose proof (emit_inv payload (Some k.(ps_permit)) false true s1 Hs1) as Hs2.
    destruct (emit_run payload (Some k.(ps_permit)) false true s1) as (r & q & n & E & _).
    rewrite E in Hs2. unfold mbind_ at 1. rewrite E. specialize (Hs2 (fun _ => ex_intro _ _ (ex_intro _ _ (conj eq_refl (conj Hsp Hfr))))).
    destruct r as [u|e]; unfold mmodify.
    + apply put_present_inv; [done|exact Hk|]. by destruct final.
    + unfold mbind_. cbn beta iota. apply present_leave_inv; [exact Hs2|exact Hk|done].
  - unfold mbind_, mmodify, mraise. cbn beta iota. apply present_leave_inv; [exact Hs|exact Hk|done].
Qed.

Lemma present_event_inv k x s : Inv s -> k ∈ s.(t_presents) -> Inv (snd (present_event k x s)).
Proof.
  intros Hs Hk. assert (Inv (snd (present_leave k false s))) as Hleave by (by apply present_leave_inv).
  unfold present_event, mtry. destruct x as [ev|e]; [|exact Hleave]. unfold present_check, mlift, mgets.
  unfold mbind_ at 1 2 3. cbn beta iota. destruct (permit_current _ _); cbn beta iota; [|exact Hleave]. unfold mret_ at 1. cbn beta iota.
  destruct ev as [ev|].
  - unfold mbind_. cbn beta iota.
    destruct (dict_get _ _ ≫= _) as [[|[|]|]|]; try exact Hleave;
      (destruct (_ && _); [|exact Hs]; apply put_present_inv; [done|exact Hk|]; intros payload final [= <- _]; right; left; by eexists).
  - apply put_present_inv; [done|exact Hk|]. intros payload final [= <- _]. by right; right.
Qed.

Lemma present_receipt_inv k s : Inv s -> k ∈ s.(t_presents) -> Inv (snd (present_receipt k s)).
Proof.
  intros Hs Hk. unfold present_receipt, mget. unfold mbind_ at 1. cbn beta iota.
  destruct (f_presents _ _ _ _ _ _ _ Hs k Hk) as (_ & _ & pd & -> & _ & _ & _ & Hf).
  destruct (pd_future pd) as [|[|]|]; [exact Hs|apply present_leave_inv; auto; done..].
Qed.

(** *** The end *)

Lemma cancel_futures_same s l : Inv s -> Inv (foldr cancel_future s l) /\
  (foldr cancel_future s l).(t_pending) = s.(t_pending).
Proof.
  intros Hs. induction l as [|i l [IH1 IH2]]; [done|]. simpl. unfold cancel_future at 1 3. destruct (_ !! _); [|done].
  unfold set_future. simpl. done.
Qed.

Lemma close_keeps : keeps (close_begin c).
Proof.
  unfold close_begin. keeps. apply keeps_same. intros s Hs.
  destruct (cancel_futures_same s s.(t_waits).*2 Hs) as [HF E]. unfold cancel_tasks. cbv zeta.
  set (aw := map sp_request_id (t_stops s) ++ _).
  assert (map (fun '(k, p) => if bool_decide (k ∈ aw) then (k, pd_cancel p) else (k, p)) s.(t_pending) =
    map (fun '(k, p) => (k, if bool_decide (k ∈ aw) then pd_cancel p else p)) s.(t_pending)) as ->.
  { apply map_ext. intros [k p]. by case_bool_decide. }
  rewrite <- E. apply (facts_map (fun k p => if bool_decide (k ∈ aw) then pd_cancel p else p)); [exact HF| |].
  - intros k rid pd (? & ? & Hd). case_bool_decide; [|done]. split_and!; [done..|]. simpl. intros Ef. apply Hd. by destruct (pd_future pd).
  - intros k rid pd (? & ? & ? & Hd). case_bool_decide; [|done]. split_and!; [done..|]. simpl. intros Ef. apply Hd. by destruct (pd_future pd).
Qed.

Lemma close_end_keeps : keeps (close_end c).
Proof. unfold close_end. keeps. Qed.

Lemma disconnect_keeps : keeps (disconnect c).
Proof.
  unfold disconnect. keeps; [|apply close_keeps]. apply keeps_same. intros s Hs.
  apply (facts_map (fun _ => pd_disconnect)); [exact Hs| |].
  - intros k rid pd (? & ? & Hd). unfold pd_disconnect. destruct (fut_done _); by split_and!.
  - intros k rid pd (? & ? & ? & Hd). unfold pd_disconnect. destruct (fut_done _); by split_and!.
Qed.

(** ** Every label keeps it *)

Lemma step_inv l s : Inv s -> Inv (snd (stream_step c stream_id l s)).
Proof.
  intros Hs. unfold stream_step, mget. unfold mbind_ at 1. cbn beta iota. unfold with_, mwhen.
  destruct l as [f| |task m rid|rid|rid|task m|i uuid|i|i uuid|i uuid b|i d uuid|i b|i|rid|rid x|rid|rid| | |].
  - destruct (reading s); [|done]. revert s Hs. change (keeps (mtry (accept_frame c stream_id f) (fun e => Some (mmodify (set_t_failed (Some e)))))).
    keeps; [apply accept_keeps|]. simplify_eq. keeps.
  - destruct (negb _); [by apply write_keeps|done].
  - destruct (find_stop task (t_session s)) as [t|] eqn:Ef; [|done]. destruct (_ && _) eqn:Eb; [|done].
    rewrite !andb_true_iff, !negb_true_iff, bool_decide_eq_true in Eb. destruct Eb as [[[Hm _] _] Hn]. apply stop_begin_inv; auto using dict_has_false.
  - destruct (stop_call rid s) as [k|] eqn:Ek; [|done]. apply stop_call_in in Ek as [Hk <-].
    destruct (f_stops _ _ _ _ _ _ _ Hs k Hk) as (_ & _ & _ & _ & pd & -> & _ & _ & Hf). simpl.
    destruct (stop_result pd) as [r|] eqn:Er; [|done]. apply stop_leave_inv; [done..|]. intros ->. apply Hf.
    unfold stop_result in Er. by destruct (pd_future pd) as [|[|]|].
  - destruct (stop_call rid s) as [k|] eqn:Ek; [|done]. apply stop_call_in in Ek as [Hk <-]. by apply stop_leave_inv.
  - destruct (_ && _); [|done]. by apply keeps_fire.
  - destruct (find_round i _) as [r|]; [|done]. destruct (r_pc r); try done. by apply round_start_keeps.
  - by apply keeps_fire.
  - by apply round_text_keeps.
  - by apply round_interrupt_keeps.
  - destruct (find_round i _) as [r|] eqn:Ef; [|done]. destruct (round_resumes r d s) eqn:Er; [|done]. by eapply round_resume_inv.
  - destruct (dict_get _ _); [|done]. destruct (find_round i _); [done|]. by apply round_finished_keeps.
  - destruct (find_round i _) as [r|] eqn:Ef; [|done]. destruct (r_pc r) as [| | | |user n pr p task] eqn:Epc; try done.
    destruct (List.find _ members) as [m|] eqn:Em; [|done]. destruct (negb _) eqn:En; [|done]. apply negb_true_iff in En.
    apply find_some in Em as [Hm%list_elem_of_In Ec%bool_decide_eq_true]. apply find_some in Ef as [Hr%list_elem_of_In _].
    apply present_begin_inv; [done| |by apply dict_has_false]. split_and!; [done..|].
    apply (reachable_permitted c s.(t_session)) with (r := r); [by destruct Hs|done|by rewrite Epc].
  - destruct (present_call rid s) as [k|] eqn:Ek; [|done]. apply present_call_in in Ek as [Hk <-].
    destruct (ps_pc k) eqn:Epc; try done. destruct (0 <? _); [|done]. by apply present_slot_inv.
  - destruct (present_call rid s) as [k|] eqn:Ek; [|done]. apply present_call_in in Ek as [Hk <-]. destruct (ps_pc k); try done. by apply present_event_inv.
  - destruct (present_call rid s) as [k|] eqn:Ek; [|done]. apply present_call_in in Ek as [Hk <-]. destruct (ps_pc k); try done. by apply present_receipt_inv.
  - destruct (present_call rid s) as [k|] eqn:Ek; [|done]. apply present_call_in in Ek as [Hk <-]. by apply present_leave_inv.
  - destruct (bool_decide _); [|done]. by apply close_keeps.
  - destruct (_ && _); [|done]. by apply close_end_keeps.
  - destruct (negb _); [|done]. by apply disconnect_keeps.
Qed.

Lemma scene_init_inv policy : session_check c = Ok tt -> Inv (scene_init c stream_id policy).
Proof.
  intros Hc. apply emit_inv; [|done].
  constructor; simpl; try (by intros ? ?%elem_of_nil); try (by apply NoDup_nil_2); [by constructor|by intros e i ?%elem_of_nil|].
  by intros [|? ?].
Qed.

Lemma scene_reachable_inv policy s : scene_reachable c stream_id policy s -> Inv s.
Proof. induction 1; [by apply scene_init_inv|by apply step_inv]. Qed.
End Invariant.
