(* ===== verification/StreamFacts.v ===== *)
(** * The theorems on team streams: no reply leaves before every device confirmed silence, the
      public history is what devices reported played, replies leave room for control frames, and
      scenes never share a device. *)

From S2P Require Import Prelude CoreTypes Effects Coordination CoordinationSafety CoordinationFacts TeamStream StreamSafety.
#[local] Open Scope eff_scope.

Section Facts.
Context `{SdkOps} (c : SessionConfig) (stream_id : string).
Notation members := c.(sc_members).

(** C26: In every reachable state of a team stream, a reply frame that was sent belongs to a permit
    the session issued and to the device of its companion, and before it was sent the device of
    every member had acknowledged, completed, a stop request of the same epoch that the stream
    had put to that device. *)
Theorem reply_frames_follow_silence policy s l1 f l2 e :
  scene_reachable c stream_id policy s -> s.(t_log) = l1 ++ Sent f :: l2 -> reply_epoch f.(fr_payload) = Some e ->
  (exists m p, m ∈ members /\ m.(mb_companion_id) = p.(pm_companion) /\ p ∈ s.(t_session).(c_permits) /\ reply_frame m p f.(fr_payload)) /\
  forall m, m ∈ members -> exists r,
    answered l2 (Asked r.(rc_request_id) m.(mb_device_id) e) r /\ r.(rc_device_id) = m.(mb_device_id) /\
    r.(rc_result) = "completed" /\ r.(rc_completion_basis) = "device_ack".
Proof.
  intros Hs%scene_reachable_inv El He. destruct (f_sent _ _ _ _ _ _ _ _ _ Hs _ _ _ El e He) as [(m & p & (? & ? & ?) & ?) Hc].
  split; [by exists m, p|exact Hc].
Qed.

(** C27: In every reachable state of a team stream, a companion message in the public history is the
    turn of a permit the session issued, the end of that reply was sent to the device of the
    companion, and afterwards that device reported the playback completed. *)
Theorem companions_said_what_was_played policy s msg :
  scene_reachable c stream_id policy s -> msg ∈ s.(t_session).(c_history) -> msg.(ms_author_kind) = "companion" ->
  exists m p r, m ∈ members /\ p ∈ s.(t_session).(c_permits) /\ msg.(ms_id) = p.(pm_turn_id) /\
    msg.(ms_author_id) = m.(mb_companion_id) /\
    answered s.(t_log) (Sent (mkFrame stream_id c.(sc_session_id) (ReplyEnd msg.(ms_id) msg.(ms_id) p.(pm_epoch) m.(mb_device_id)))) r /\
    r.(rc_request_id) = msg.(ms_id) /\ r.(rc_device_id) = m.(mb_device_id) /\ r.(rc_result) = "completed".
Proof.
  intros Hs%scene_reachable_inv Hm Hk.
  destruct (f_history _ _ _ _ _ _ _ _ _ Hs _ Hm Hk) as (m & p & (? & Ec & ?) & (r & Ha & ? & ? & ?) & -> & ->).
  exists m, p, r. by split_and!.
Qed.
End Facts.

(** ** The queue to the devices *)

Definition slots_of (q : list Entry) : Z := Z.of_nat (length (List.filter en_reply_slot q)).

(** The queue in the order of its tuples, none of them newer than the counter, and what the semaphore counts. *)
Record Queue (q : list Entry) (slots sequence : Z) : Prop := {
  q_sorted : StronglySorted entry_before q;
  q_sequence e : e ∈ q -> e.(en_sequence) <= sequence;
  q_slots : slots_of q + slots = slots_max;
  q_free : 0 <= slots;
  q_length : (length q <= outbound_max)%nat;
}.

Definition QueueOk (s : SceneState) : Prop := Queue s.(t_outbound) s.(t_slots) s.(t_sequence).

Lemma enqueue_length e q : length (put_nowait e q) = S (length q).
Proof. induction q as [|x q IH]; [done|]. simpl. destruct (entry_before e x); simpl; congruence. Qed.

Lemma enqueue_slots e q : slots_of (put_nowait e q) = slots_of q + (if e.(en_reply_slot) then 1 else 0).
Proof.
  unfold slots_of. induction q as [|x q IH]; simpl; [destruct (en_reply_slot e); simpl; lia|].
  destruct (entry_before e x); simpl; destruct (en_reply_slot e), (en_reply_slot x); simpl in *; lia.
Qed.

Lemma entry_before_trans a b d : entry_before a b -> entry_before b d -> entry_before a d.
Proof. unfold entry_before. rewrite !Is_true_true, !orb_true_iff, !andb_true_iff, !Z.ltb_lt, !Z.eqb_eq. lia. Qed.

Lemma entry_before_total a b : a.(en_sequence) <> b.(en_sequence) -> entry_before a b = false -> entry_before b a.
Proof.
  unfold entry_before. rewrite Is_true_true, orb_false_iff, andb_false_iff, orb_true_iff, andb_true_iff, !Z.ltb_ge, !Z.ltb_lt, !Z.eqb_eq, !Z.eqb_neq. lia.
Qed.

Lemma enqueue_sorted e q : StronglySorted entry_before q -> (forall x, x ∈ q -> x.(en_sequence) < e.(en_sequence)) ->
  StronglySorted entry_before (put_nowait e q).
Proof.
  induction 1 as [|x q Hq IH Hx]; intros He; simpl; [repeat constructor|].
  destruct (entry_before e x) eqn:Eb.
  - assert (entry_before e x) as Eb' by by rewrite Eb. constructor; [by constructor|]. constructor; [done|].
    eapply Forall_impl; [exact Hx|]. intros y Hy. by eapply entry_before_trans.
  - assert (entry_before x e) as Eb'.
    { apply entry_before_total; [|done]. specialize (He x (list_elem_of_here _ _)). lia. }
    constructor.
    + apply IH. intros y Hy. apply He. by right.
    + apply Forall_forall. intros y [->|Hy]%StreamSafety.enqueue_elem_of; [done|]. by apply (proj1 (Forall_forall _ _) Hx).
Qed.

Section Slots.
Context `{SdkOps} (c : SessionConfig) (stream_id : string).

#[local] Instance queue_preorder : PreOrder (fun s s' : SceneState => QueueOk s -> QueueOk s').
Proof. split; [by intros s|]. intros s1 s2 s3 H1 H2 Hs. auto. Qed.
Notation within m := (preserves (fun s s' : SceneState => QueueOk s -> QueueOk s') m).

(** [emit]: the slot it was given is taken from the semaphore before. *)
Lemma emit_queue payload permit urgent slot s :
  Queue s.(t_outbound) (s.(t_slots) + Z.b2z slot) s.(t_sequence) -> 0 <= s.(t_slots) ->
  match emit_frame c stream_id payload permit urgent slot s with
  | (Ok _, s') => QueueOk s'
  | (Err _, s') => Queue s'.(t_outbound) (s'.(t_slots) + Z.b2z slot) s'.(t_sequence)
  end.
Proof.
  intros [] Hpos. unfold emit_frame, mgets, mmodify. unfold mbind_ at 1. destruct (t_connected s); cbn [negb]; cbn beta iota; [|done].
  unfold mbind_. case_bool_decide as Hl; [constructor; simpl; try done; intros e He; specialize (q_sequence0 e He); lia|].
  constructor; simpl.
  - apply enqueue_sorted; [done|]. intros x Hx. specialize (q_sequence0 x Hx). simpl. lia.
  - intros e [->|He]%StreamSafety.enqueue_elem_of; [simpl; lia|]. specialize (q_sequence0 e He). lia.
  - rewrite enqueue_slots. simpl. destruct slot; simpl in *; lia.
  - done.
  - rewrite enqueue_length. simpl in Hl. lia.
Qed.

Lemma bounded_emit payload permit urgent : within (emit_frame c stream_id payload permit urgent false).
Proof.
  intros s Hs. pose proof (emit_queue payload permit urgent false s) as He. change (Z.b2z false) with 0 in He. rewrite Z.add_0_r in He.
  specialize (He Hs (q_free _ _ _ Hs)). destruct (emit_frame _ _ _ _ _ _ s) as [[u|e] s']; [exact He|]. by rewrite Z.add_0_r in He.
Qed.

Lemma bounded_session {A} (m : M CState A) : within (session_do m).
Proof. intros s Hs. unfold session_do. by destruct (m (t_session s)). Qed.

Lemma bounded_modify g : (forall s, t_outbound (g s) = t_outbound s /\ t_slots (g s) = t_slots s /\ t_sequence (g s) = t_sequence s) -> within (mmodify g).
Proof. intros Hg s Hs. destruct (Hg s) as (E1 & E2 & E3). unfold QueueOk. simpl. by rewrite E1, E2, E3. Qed.

Ltac within := repeat first
  [ preserve_step
  | match goal with
    | |- within (emit_frame _ _ _ _ _ false) => apply bounded_emit
    | |- within (session_do _) => apply bounded_session
    | |- within (mmodify _) =>
        apply bounded_modify; intros ?; unfold cancel_transcript, cancel_future, set_future, log, update_pending, id; repeat case_match; done
    end ].

Lemma bounded_accept f : within (accept_frame c stream_id f).
Proof.
  unfold accept_frame, accept_receipt, accept_speaking, accept_press, accept_release, accept_transcript. within.
Qed.

Lemma bounded_write : within write_one.
Proof.
  intros s Hs. unfold write_one, mget. unfold mbind_ at 1. cbn beta iota. destruct (t_outbound s) as [|e rest] eqn:Eq; [done|].
  assert (QueueOk (snd (mwhen (en_reply_slot e) (mmodify (fun s => set_t_slots (t_slots s + 1) s)) (set_t_outbound rest s)))) as Hr.
  { destruct Hs. rewrite Eq in *. apply StronglySorted_inv in q_sorted0 as [? _]. unfold slots_of in *. simpl in *.
    assert (forall x, x ∈ rest -> en_sequence x <= t_sequence s) by (intros x Hx; apply q_sequence0; by right).
    destruct (en_reply_slot e); constructor; simpl in *; try done; unfold slots_of in *; lia. }
  unfold mbind_ at 1, mmodify at 1. cbn beta iota. revert Hr. set (s1 := set_t_outbound rest s). clearbody s1. intros Hr.
  assert (within (if negb (entry_current e s) then mret_ tt else
      mmodify (if e.(en_frame).(fr_payload) is ReplyEnd rid _ _ _ then update_pending rid pd_allow else id) ;;;
      mmodify (log (Sent e.(en_frame))))) as Hk by within.
  unfold mbind_ at 1. unfold mwhen in *. destruct (en_reply_slot e); by apply Hk.
Qed.

Lemma bounded_leave k b : within (present_leave k b).
Proof. unfold present_leave. within. Qed.

Lemma bounded_slot k payload final s : QueueOk s -> 0 < s.(t_slots) -> QueueOk (snd (present_slot c stream_id k payload final s)).
Proof.
  intros Hs Hpos. unfold present_slot. unfold mbind_ at 1, mmodify at 1. cbn beta iota. unfold mtry, present_check.
  unfold mbind_ at 1 2, mgets at 1. cbn beta iota.
  set (s1 := set_t_slots (t_slots s - 1) s).
  assert (Queue (t_outbound s1) (t_slots s1 + 1) (t_sequence s1) /\ 0 <= t_slots s1) as [Hs1 Hz].
  { simpl. split; [|lia]. replace (t_slots s - 1 + 1) with (t_slots s) by lia. exact Hs. }
  assert (forall s', Queue (t_outbound s') (t_slots s' + 1) (t_sequence s') ->
    QueueOk (snd ((mmodify (fun s => set_t_slots (t_slots s + 1) s) ;;; present_leave k false) s'))) as Hback.
  { intros s' Hs'. unfold mbind_, mmodify. cbn beta iota. by apply bounded_leave. }
  destruct (permit_current _ _); cbn beta iota; [|by apply Hback].
  unfold mret_ at 1. cbn beta iota. unfold mbind_ at 1.
  pose proof (emit_queue payload (Some k.(ps_permit)) false true s1 Hs1 Hz) as He.
  destruct (emit_frame c stream_id payload (Some k.(ps_permit)) false true s1) as [[u|e] s2]; [exact He|by apply Hback].
Qed.

Lemma cancel_futures_queue s l : t_outbound (foldr cancel_future s l) = t_outbound s /\
  t_slots (foldr cancel_future s l) = t_slots s /\ t_sequence (foldr cancel_future s l) = t_sequence s.
Proof. induction l as [|i l IH]; [done|]. simpl. unfold cancel_future at 1 3 5, set_future. by destruct (_ !! _). Qed.

Lemma bounded_close : within (close_begin c).
Proof. unfold close_begin. within. apply bounded_modify. intros s. apply cancel_futures_queue. Qed.

Lemma bounded_step l : within (stream_step c stream_id l).
Proof.
  intros s Hs. unfold stream_step, mget. unfold mbind_ at 1. cbn beta iota. unfold with_.
  destruct l as [f| |task m rid|rid|rid|task m|i uuid|i|i uuid|i uuid b|i d uuid|i b|i|rid|rid x|rid|rid| | |];
    try (match goal with |- QueueOk (snd (?m s)) => enough (within m) as Hm by by apply Hm end;
      unfold stop_begin, stop_leave, round_start, round_text, round_interrupt, round_finished, present_begin, present_event, present_check,
        present_receipt, close_end, disconnect; within; simplify_eq; within;
      auto using bounded_accept, bounded_write, bounded_leave, bounded_close; fail).
  - destruct (dict_get _ _); [|done]. destruct (find_round _ _); [done|]. simpl. unfold round_finished.
    match goal with |- QueueOk (snd (?m s)) => enough (within m) as Hm by by apply Hm end.
    within. case_bool_decide; simplify_eq. within.
  - destruct (present_call rid s) as [k|]; [|done]. destruct (ps_pc k); try done. unfold mwhen. destruct (0 <? _) eqn:Ez; [|done].
    apply bounded_slot; [done|]. by apply Z.ltb_lt.
Qed.

(** In every reachable state of a team stream the queue holds at most 128 frames in the order
    of priority and sequence, its reply frames and the free slots are 64 together, so fewer than
    64 control frames always leave room for another: a stop or a press is never refused because
    of replies. *)
Theorem replies_leave_room policy s : scene_reachable c stream_id policy s ->
  slots_of s.(t_outbound) + s.(t_slots) = slots_max /\ 0 <= s.(t_slots) /\ (length s.(t_outbound) <= outbound_max)%nat /\
  StronglySorted entry_before s.(t_outbound) /\
  forall payload permit, s.(t_connected) = true -> (length (List.filter (fun e => negb e.(en_reply_slot)) s.(t_outbound)) < 64)%nat ->
    fst (emit_frame c stream_id payload permit true false s) = Ok tt.
Proof.
  intros Hs. assert (QueueOk s) as [].
  { induction Hs as [_|l s _ IH]; [|by apply bounded_step]. apply bounded_emit. constructor; simpl; try done; [constructor|by intros e ?%elem_of_nil|unfold outbound_max; lia]. }
  split_and!; [done..|]. intros payload permit Hc Hn. unfold emit_frame, mgets, mmodify. unfold mbind_ at 1. rewrite Hc. cbn [negb]. cbn beta iota.
  unfold mbind_. simpl. rewrite bool_decide_eq_false_2; [done|].
  assert (length s.(t_outbound) = (length (List.filter en_reply_slot s.(t_outbound)) + length (List.filter (fun e => negb e.(en_reply_slot)) s.(t_outbound)))%nat) as ->.
  { clear. induction (t_outbound s) as [|e q IH]; [done|]. simpl. destruct (en_reply_slot e); simpl; lia. }
  unfold slots_of, slots_max, outbound_max in *. lia.
Qed.
End Slots.

(** ** Scenes and their devices *)

(** What the table and the scenes that hold it agree on. *)
Record Exclusive (t : Connections) (held : list Opened) : Prop := {
  ex_active : t.(cx_active) = reverse (map op_key held);
  ex_keys : NoDup (map op_key held);
  ex_devices d : d ∈ t.(cx_devices) <-> exists o, o ∈ held /\ d ∈ o.(op_devices);
  ex_disjoint o1 o2 d : o1 ∈ held -> o2 ∈ held -> d ∈ o1.(op_devices) -> d ∈ o2.(op_devices) -> o1 = o2;
  ex_bound : (length held <= 64)%nat;
}.

Definition connections_run (xs : list connection_step) : Connections * list Opened :=
  fold_left (fun s x => connection_run x s) xs (no_connections, []).

Lemma connection_step_exclusive x t held : Exclusive t held -> Exclusive (fst (connection_run x (t, held))) (snd (connection_run x (t, held))).
Proof.
  intros [Ha Hk Hd Hj Hb]. destruct x as [o|o]; simpl.
  - destruct (reserve o t) as [r t'] eqn:Er. revert Er. unfold reserve, mget. unfold mbind_ at 1. cbn beta iota.
    destruct (bool_decide (64 <= _)%nat || _ || _) eqn:E; intros [= <- <-]; [by constructor|].
    rewrite !orb_false_iff, !bool_decide_eq_false in E. destruct E as [[El Ek] Ed].
    rewrite Ha, length_reverse, length_map in El. rewrite Ha, elem_of_reverse in Ek.
    assert (forall d, d ∈ o.(op_devices) -> d ∉ t.(cx_devices)) as Hfresh.
    { intros d Hdo Hdt. apply not_true_iff_false in Ed. apply Ed, existsb_exists. exists d. split; [by apply list_elem_of_In|by apply bool_decide_eq_true]. }
    simpl. constructor; simpl.
    + by rewrite Ha, reverse_cons.
    + by constructor.
    + intros d. rewrite elem_of_union, Hd, elem_of_list_to_set. split.
      * intros [(o' & ? & ?)|?]; [exists o'; split; [by right|done]|exists o; split; [by left|done]].
      * intros (o' & [->|?]%elem_of_cons & ?); [by right|left; by exists o'].
    + intros o1 o2 d [->|H1]%elem_of_cons [->|H2]%elem_of_cons D1 D2; [done|..|by eapply Hj].
      * destruct (Hfresh d D1). apply Hd. by exists o2.
      * destruct (Hfresh d D2). apply Hd. by exists o1.
    + lia.
  - destruct (List.find _ held) as [h|] eqn:Ef; [|by constructor]. apply find_some in Ef as [Hh%list_elem_of_In Eh%bool_decide_eq_true].
    simpl. constructor; simpl.
    + rewrite Ha, Eh. clear. induction held as [|x held IH]; [done|]. simpl. rewrite reverse_cons, List.filter_app, IH. simpl.
      destruct (bool_decide (op_key x = op_key o)); simpl; [by rewrite app_nil_r|by rewrite reverse_cons].
    + by apply NoDup_map_filter.
    + intros d. rewrite elem_of_difference, Hd, elem_of_list_to_set. split.
      * intros [(o' & Ho' & Hdo) Hn]. exists o'. split; [|done]. apply elem_of_filter_list. split; [done|].
        apply negb_true_iff, bool_decide_eq_false. intros E. apply Hn. rewrite <- (NoDup_map_elem op_key held o' h Hk Ho' Hh) by congruence. done.
      * intros (o' & [Ho' Hne%negb_true_iff%bool_decide_eq_false]%elem_of_filter_list & Hdo). split; [by exists o'|].
        intros Hdh. apply Hne. rewrite (Hj o' h d Ho' Hh Hdo Hdh). done.
    + intros o1 o2 d [H1 _]%elem_of_filter_list [H2 _]%elem_of_filter_list. by apply Hj.
    + etransitivity; [apply filter_length_le|done].
Qed.

Lemma connections_exclusive xs : Exclusive (fst (connections_run xs)) (snd (connections_run xs)).
Proof.
  unfold connections_run. assert (Exclusive (fst (no_connections, @nil Opened)) (snd (no_connections, []))) as H0.
  { constructor; simpl; try done; [constructor| |by intros o1 o2 d ?%elem_of_nil|lia]. intros d. split; [by intros ?%elem_of_empty|by intros (o & ?%elem_of_nil & _)]. }
  revert H0. generalize (no_connections, @nil Opened). induction xs as [|x xs IH]; intros [t held] H0; [done|]. simpl. apply IH.
  by apply connection_step_exclusive.
Qed.

(** Scenes held at one time share neither their session nor a device. *)
Theorem scenes_share_no_device xs o1 o2 d :
  let held := snd (connections_run xs) in
  o1 ∈ held -> o2 ∈ held -> (o1.(op_key) = o2.(op_key) \/ (d ∈ o1.(op_devices) /\ d ∈ o2.(op_devices))) -> o1 = o2.
Proof.
  intros held H1 H2. destruct (connections_exclusive xs) as [_ Hk _ Hj _]. intros [E|[D1 D2]]; [by eapply NoDup_map_elem|by eapply Hj].
Qed.

(** ** A concrete scene *)

Definition scene_run (ls : list stream_label) (s : SceneState) : SceneState := fold_left (fun s l => snd (stream_step sample_session "st" l s)) ls s.
Notation scene_start := (scene_init sample_session "st" "policy-1").

Lemma scene_run_reachable ls : scene_reachable sample_session "st" "policy-1" (scene_run ls scene_start).
Proof.
  assert (forall s, scene_reachable sample_session "st" "policy-1" s -> scene_reachable sample_session "st" "policy-1" (scene_run ls s)) as Hrun.
  { induction ls as [|l ls IH]; intros s Hs; [done|]. apply IH. by constructor. }
  apply Hrun. constructor. vm_compute. reflexivity.
Qed.

Notation ada := (sample_member "ada" "speaker-1").
Notation bob := (sample_member "bob" "speaker-2").
Definition stopped (rid device : string) : stream_label := SFrame (FReceipt (mkReceipt rid device "completed" "device_ack" "")).

(** Both devices confirm the stop, [ada] is chosen, and her reply leaves for her device. *)
Definition scene_reply : list stream_label :=
  [SFrame (FPress "cap-1"); SStopBegin 0 ada "r1"; SStopBegin 0 bob "r2"; SWrite; SWrite; SWrite; SWrite;
   stopped "r1" "speaker-1"; stopped "r2" "speaker-2"; SFrame (FRelease "cap-1"); SRoundStart 1 "u0"; SStopEnd "r1"; SStopEnd "r2";
   SFrame (FTranscript "cap-1" "hello"); SRoundText 1 "u1"; SRound 1 (GotStops (Ok tt)) "d1";
   SRound 1 (GotDecision (Ok (sample_decision "ada"))) "t1";
   SPresent 1; SSlot "t1"; SWrite; SEvent "t1" (Ok (Some (event_delta 1 "hi" None))); SSlot "t1"; SWrite;
   SEvent "t1" (Ok None); SSlot "t1"; SWrite].
Definition scene_played : list stream_label :=
  [SFrame (FReceipt (mkReceipt "t1" "speaker-1" "completed" "playback" "")); SPlayed "t1"; SRound 1 (GotReply (Ok (mkPlayed "hi" true))) "d2"].

Notation scene_replied := (scene_run scene_reply scene_start).
Notation scene_heard := (scene_run (scene_reply ++ scene_played) scene_start).

Example scene_outcome : map ms_text scene_heard.(t_session).(c_history) = ["hello"; "hi"] /\ length scene_heard.(t_log) = 13%nat /\
  scene_heard.(t_failed) = None.
Proof. vm_compute. split_and!; reflexivity. Qed.

(** A receipt of the playback before the end of the reply was sent ends the stream. *)
Example playback_too_early :
  (scene_run [SFrame (FReceipt (mkReceipt "t1" "speaker-1" "completed" "playback" ""))] (scene_run (take 19 scene_reply) scene_start)).(t_failed)
  = Some (value_error "playback completion arrived before reply end").
Proof. vm_compute. reflexivity. Qed.

(** A transcript that comes after the stage's deadline ends the stream as well: the deadline cancelled
    the future, which then refuses the text. *)
Example late_transcript :
  (scene_run [SRoundInterrupt 1 "u1" true; SFrame (FTranscript "cap-1" "hello")] (scene_run (take 11 scene_reply) scene_start)).(t_failed)
  = Some (value_error "capture transcript cannot change").
Proof. vm_compute. reflexivity. Qed.

Definition scene_end : Frame := mkFrame "st" "scene" (end_frame ada sample_permit).

Lemma scene_end_sent : scene_replied.(t_log) = [] ++ Sent scene_end :: tl scene_replied.(t_log).
Proof. vm_compute. reflexivity. Qed.

Lemma reply_frames_follow_silence_witness :
  exists r, answered (tl scene_replied.(t_log)) (Asked r.(rc_request_id) "speaker-2" 1) r /\ r.(rc_device_id) = "speaker-2" /\
    r.(rc_result) = "completed" /\ r.(rc_completion_basis) = "device_ack".
Proof.
  apply (reply_frames_follow_silence sample_session "st" "policy-1" scene_replied [] scene_end (tl scene_replied.(t_log)) 1)
    with (m := bob); [apply scene_run_reachable|exact scene_end_sent|reflexivity|by_compute].
Defined.

Lemma companions_said_what_was_played_witness :
  exists m p r, m ∈ sample_members /\ p ∈ scene_heard.(t_session).(c_permits) /\ "t1" = p.(pm_turn_id) /\ "ada" = m.(mb_companion_id) /\
    answered scene_heard.(t_log) (Sent (mkFrame "st" "scene" (ReplyEnd "t1" "t1" p.(pm_epoch) m.(mb_device_id)))) r /\
    r.(rc_request_id) = "t1" /\ r.(rc_device_id) = m.(mb_device_id) /\ r.(rc_result) = "completed".
Proof.
  apply (companions_said_what_was_played sample_session "st" "policy-1" scene_heard (mkMessage "t1" "companion" "ada" "hi"));
    [apply scene_run_reachable| |reflexivity].
  assert (c_history (t_session scene_heard) = [mkMessage "cap-1" "user" "mic" "hello"; mkMessage "t1" "companion" "ada" "hi"]) as ->
    by (vm_compute; reflexivity).
  right. left.
Defined.

Lemma replies_leave_room_witness :
  let s := scene_run (take 3 scene_reply) scene_start in
  slots_of s.(t_outbound) + s.(t_slots) = slots_max /\ 0 <= s.(t_slots) /\ (length s.(t_outbound) <= outbound_max)%nat /\
  StronglySorted entry_before s.(t_outbound) /\
  forall payload permit, s.(t_connected) = true -> (length (List.filter (fun e => negb e.(en_reply_slot)) s.(t_outbound)) < 64)%nat ->
    fst (emit_frame sample_session "st" payload permit true false s) = Ok tt.
Proof. intros s. apply (replies_leave_room sample_session "st" "policy-1" s). apply scene_run_reachable. Defined.

(** A second scene that wants a device of the first is refused. *)
Notation scene_a := (mkOpened (mkKey "owner" "s1") ["speaker-1"; "speaker-2"]).
Notation scene_b := (mkOpened (mkKey "owner" "s2") ["speaker-2"]).

Example second_scene_refused : snd (connections_run [Opens scene_a; Opens scene_b]) = [scene_a] /\
  snd (connections_run [Opens scene_a; Leaves scene_a; Opens scene_b]) = [scene_b].
Proof. split; vm_compute; reflexivity. Qed.

Lemma scenes_share_no_device_witness : scene_a = scene_a.
Proof.
  apply (scenes_share_no_device [Opens scene_a; Opens scene_b] scene_a scene_a "speaker-2"); [rewrite (proj1 second_scene_refused); by left..|by left].
Defined.
