(* ===== verification/BodyControl.v ===== *)
(** * [domain/body_control/]: the devices a companion may control, and the commands it sends them.

    The SDK's device keeps the fields this code reads; its [capability] lookup and the
    validation of arguments, the device directory and the command port are parameters, and so
    are the Unicode tables behind [lower] and [casefold] and the [repr] of a string. *)

From S2P Require Import Prelude CoreTypes Json Effects.
#[local] Open Scope eff_scope.

(** ** Devices *)

Record Capability := mkCapability {
  cap_name : string;
  cap_version : Z;
  cap_description : string;
  cap_input_schema : list (string * pyval);
  cap_result_schema : pyval;
}.
Record BodyDevice := mkDevice {
  dv_device_id : string;
  dv_name : string;
  dv_aliases : list string;
  dv_is_current : bool;
  dv_status : string;
  dv_capabilities : list Capability;
  dv_companion_id : string;
  dv_companion_name : string;
}.

(** [errors.py] *)
Definition body_error (cls msg : string) : exn := PyError cls msg.
Definition not_found_error : string -> exn := body_error "BodyDeviceNotFound".
Definition rejected : string -> exn := body_error "BodyCommandRejected".

Section Body.
Context (case_table casefold str_repr : string -> string).

Definition ambiguous_device (target : string) (matches : list string) : exn :=
  body_error "BodyDeviceAmbiguous" ("ambiguous body device target " +:+ str_repr target +:+ ": " +:+ py_join ", " matches)%string.
Definition ambiguous_companion (target : string) (matches : list string) : exn :=
  body_error "BodyCompanionAmbiguous" ("ambiguous companion target " +:+ str_repr target +:+ ": " +:+ py_join ", " matches)%string.

(** ** [resolver.py] *)

Definition CURRENT_DEVICE_ALIASES : list string :=
  [""; "this"; "this device"; "current"; "current device"; "这个设备"; "当前设备"; "本机"].

(** [_normalize] *)
Definition normalize (value : string) : string := py_join " " (py_split (py_lower case_table (py_strip value))).

(** [_device_keys] *)
Definition device_keys (d : BodyDevice) : list string :=
  map normalize (List.filter (fun v => negb (is_empty v)) (d.(dv_device_id) :: d.(dv_name) :: d.(dv_aliases))).

(** [_matches_partial] *)
Definition matches_partial (key : string) (d : BodyDevice) : bool :=
  negb (is_empty key) && existsb (fun c => py_contains key c) (device_keys d).

Definition is_source (source : option string) (d : BodyDevice) : bool :=
  d.(dv_is_current) || match source with Some s => negb (is_empty s) && bool_decide (d.(dv_device_id) = s) | None => false end.

(** [resolve_body_device] *)
Definition resolve_body_device (devices : list BodyDevice) (target : string) (source : option string) : res BodyDevice :=
  let key := normalize target in
  if bool_decide (key ∈ CURRENT_DEVICE_ALIASES) then
    match List.find (is_source source) devices with
    | Some d => Ok d
    | None => Err (not_found_error "current body device is unknown")
    end
  else
    match List.filter (fun d => bool_decide (key ∈ device_keys d)) devices with
    | [d] => Ok d
    | _ :: _ as exact => Err (ambiguous_device target (map dv_device_id exact))
    | [] =>
        match List.filter (matches_partial key) devices with
        | [d] => Ok d
        | _ :: _ as partial => Err (ambiguous_device target (map dv_device_id partial))
        | [] => Err (not_found_error ("body device not found: " +:+ target)%string)
        end
    end.

(** ** [service.py] *)

(** A command as the port is asked to send it *)
Record BodyCommand := mkCommand {
  bc_owner_id : string;
  bc_companion_id : string;
  bc_device_id : string;
  bc_source_device_id : option string;
  bc_op : string;
  bc_capability_version : Z;
  bc_payload : pyval;
  bc_qos : string;
  bc_ttl_ms : Z;
  bc_priority : string;
  bc_idempotency_key : option string;
}.
Record CommandRequest := mkCommandRequest {
  cq_owner_id : string;
  cq_companion_id : string;
  cq_source_device_id : option string;
  cq_target : string;
  cq_op : string;
  cq_payload : pyval;
  cq_capability_version : option Z;
  cq_qos : string;
  cq_ttl_ms : Z;
  cq_priority : string;
  cq_idempotency_key : option string;
}.
(** The SDK's [BodyCommandResult], with the device it names *)
Record BodyCommandResult := mkCommandResult {
  cx_command_id : string;
  cx_device_id : string;
  cx_status : string;
  cx_capability_version : Z;
  cx_result : pyval;
  cx_error : option string;
  cx_message : option string;
}.

(** What was sent; the number of directory reads so far *)
Record BodyState := mkBodyState { bs_sent : list BodyCommand; bs_reads : nat }.

Record BodyPorts := mkBodyPorts {
  (** the [n]-th read of the directory *)
  bp_devices : nat -> string -> string -> option string -> res (list BodyDevice);
  bp_send : BodyCommand -> res BodyCommandResult;
  bp_status : string -> string -> string -> res BodyCommandResult;
  (** [device.capability(op, version)] *)
  bp_capability : BodyDevice -> string -> option Z -> option Capability;
  (** [validate_capability_arguments]: an error message or nothing *)
  bp_arguments : list (string * pyval) -> pyval -> option string;
}.
Context (bp : BodyPorts).

(** [list_devices] *)
Definition list_devices (owner companion : string) (source : option string) (include_offline : bool) : M BodyState (list BodyDevice) :=
  n <-- mgets bs_reads ;;
  mmodify (fun s => mkBodyState s.(bs_sent) (S s.(bs_reads))) ;;;
  devices <-- mlift (bp.(bp_devices) n owner companion source) ;;
  mret_ (if include_offline then devices else List.filter (fun d => negb (bool_decide (d.(dv_status) = "offline"))) devices).

(** [_validate_choice]; the allowed values are given in their order. *)
Definition validate_choice (value : string) (allowed : list string) (field : string) : res string :=
  let normalized := py_strip value in
  if bool_decide (normalized ∈ allowed) then Ok normalized
  else Err (rejected (field +:+ " must be one of: " +:+ py_join ", " allowed)%string).

Definition QOS : list string := ["ack"; "fire_and_forget"; "result"].
Definition PRIORITIES : list string := ["high"; "low"; "normal"; "urgent"].
Definition device_label (d : BodyDevice) : string := str_or d.(dv_name) d.(dv_device_id).
Definition contract (op : string) (version : option Z) : string :=
  match version with Some v => (op +:+ ".v" +:+ int_str v)%string | None => op end.

(** The checks of [send_command] on the devices: the device and its capability *)
Definition select_device (devices : list BodyDevice) (q : CommandRequest) : res (BodyDevice * Capability) :=
  device ← resolve_body_device devices q.(cq_target) q.(cq_source_device_id);
  match bp.(bp_capability) device q.(cq_op) q.(cq_capability_version) with
  | None => Err (body_error "BodyCapabilityUnsupported"
                   (device_label device +:+ " does not support " +:+ contract q.(cq_op) q.(cq_capability_version))%string)
  | Some capability =>
      if bool_decide (device.(dv_status) ∈ ["offline"; "unknown"])
      then Err (body_error "BodyDeviceOffline" (device_label device +:+ " is not online")%string)
      else match bp.(bp_arguments) capability.(cap_input_schema) q.(cq_payload) with
           | Some e => if is_empty e then Ok (device, capability) else Err (rejected e)
           | None => Ok (device, capability)
           end
  end.

(** [send_command] *)
Definition send_command (q : CommandRequest) : M BodyState BodyCommandResult :=
  devices <-- list_devices q.(cq_owner_id) q.(cq_companion_id) q.(cq_source_device_id) true ;;
  qos <-- mlift (validate_choice q.(cq_qos) QOS "qos") ;;
  priority <-- mlift (validate_choice q.(cq_priority) PRIORITIES "priority") ;;
  if (q.(cq_ttl_ms) <? 1000) || (600000 <? q.(cq_ttl_ms)) then mraise (rejected "ttl_ms must be between 1000 and 600000")
  else
    selected <-- mlift (select_device devices q) ;;
    let command := mkCommand q.(cq_owner_id) q.(cq_companion_id) selected.1.(dv_device_id) q.(cq_source_device_id) q.(cq_op)
                     selected.2.(cap_version) q.(cq_payload) qos q.(cq_ttl_ms) priority q.(cq_idempotency_key) in
    mmodify (fun s => mkBodyState (s.(bs_sent) ++ [command]) s.(bs_reads)) ;;;
    mlift (bp.(bp_send) command).

(** [_normalize_companion_name] *)
Definition normalize_companion_name (value : string) : string := py_join " " (py_split (casefold (py_strip value))).

(** The one device that provides a capability of the named companion *)
Definition provider_of (devices : list BodyDevice) (target_companion capability_name : string) (version : Z) : res BodyDevice :=
  let key := normalize_companion_name target_companion in
  let companion_devices := List.filter (fun d => bool_decide (normalize_companion_name d.(dv_companion_name) = key)) devices in
  match companion_devices with
  | [] => Err (body_error "BodyCompanionNotFound" ("companion not found in the current runtime blackboard: " +:+ target_companion)%string)
  | _ =>
      let companion_ids := py_sorted str_leb (remove_dups (map dv_companion_id companion_devices)) in
      if negb (bool_decide (length companion_ids = 1%nat)) then Err (ambiguous_companion target_companion companion_ids)
      else
        match List.filter (fun d => existsb (fun c => bool_decide (c.(cap_name) = capability_name) && (c.(cap_version) =? version)) d.(dv_capabilities))
                companion_devices with
        | [] => Err (body_error "BodyCapabilityUnsupported"
                       (target_companion +:+ " does not currently provide " +:+ capability_name +:+ ".v" +:+ int_str version)%string)
        | [d] => Ok d
        | providers => Err (ambiguous_device target_companion (map dv_device_id providers))
        end
  end.

(** [send_companion_capability] *)
Definition send_companion_capability (q : CommandRequest) (target_companion : string) (version : Z) : M BodyState BodyCommandResult :=
  devices <-- list_devices q.(cq_owner_id) q.(cq_companion_id) q.(cq_source_device_id) false ;;
  provider <-- mlift (provider_of devices target_companion q.(cq_op) version) ;;
  send_command (mkCommandRequest q.(cq_owner_id) q.(cq_companion_id) q.(cq_source_device_id) provider.(dv_device_id) q.(cq_op) q.(cq_payload)
                  (Some version) q.(cq_qos) q.(cq_ttl_ms) q.(cq_priority) q.(cq_idempotency_key)).

(** [get_command_status] *)
Definition get_command_status (owner companion command_id : string) : M BodyState BodyCommandResult :=
  result <-- mlift (bp.(bp_status) owner companion command_id) ;;
  devices <-- list_devices owner companion None true ;;
  if bool_decide (result.(cx_device_id) ∈ map dv_device_id devices) then mret_ result
  else mraise (rejected "command does not belong to a visible body device").
End Body.

(** ** [directory.py]: the cache of the directory *)

Record CacheEntry := mkEntry { ce_expires_at : Z; ce_devices : list BodyDevice }.
Notation CacheKey := (string * string * string)%type.
Notation Cache := (list (CacheKey * CacheEntry)).

Section Directory.
Context (ttl_us max_entries : Z).
Definition ttl : Z := Z.max 0 ttl_us.
Definition capacity : Z := Z.max 1 max_entries.

Definition cache_key (owner companion : string) (source : option string) : CacheKey := (owner, companion, default "" source).

(** The first locked section of [list_devices] *)
Definition cached (now : Z) (key : CacheKey) (c : Cache) : option (list BodyDevice) :=
  match dict_get c key with
  | Some e => if now <? e.(ce_expires_at) then Some e.(ce_devices) else None
  | None => None
  end.

(** The second one, after the directory was read *)
Definition store_entry (now : Z) (key : CacheKey) (devices : list BodyDevice) (c : Cache) : Cache :=
  let c := if (capacity <=? Z.of_nat (length c)) && negb (dict_has c key) then drop 1 c else c in
  dict_set c key (mkEntry (now + ttl) devices).

(** [invalidate] *)
Definition invalidated (owner companion device : option string) (x : CacheKey * CacheEntry) : bool :=
  let '((key_owner, key_companion, _), e) := x in
  negb (match owner with Some o => negb (bool_decide (key_owner = o)) | None => false end)
  && negb (match companion with Some c => negb (bool_decide (key_companion = c)) | None => false end)
  && negb (match device with Some d => forallb (fun x => negb (bool_decide (x.(dv_device_id) = d))) e.(ce_devices) | None => false end).
Definition invalidate (owner companion device : option string) (c : Cache) : Cache :=
  match owner, companion, device with
  | None, None, None => []
  | _, _, _ => List.filter (fun x => negb (invalidated owner companion device x)) c
  end.

(** The directory with its callers: reads of the wrapped store that are under way. *)
Record Directory := mkDirectory { dr_cache : Cache; dr_reading : list (CacheKey * res (list BodyDevice)) }.

Inductive directory_step : Directory -> Directory -> Prop :=
  (** a caller that finds an entry *)
  | step_hit d now key devices : 0 < ttl -> cached now key d.(dr_cache) = Some devices -> directory_step d d
  (** a caller that does not, and asks the wrapped store *)
  | step_miss d now key r : 0 < ttl -> cached now key d.(dr_cache) = None ->
      directory_step d (mkDirectory d.(dr_cache) ((key, r) :: d.(dr_reading)))
  (** its answer *)
  | step_stored c now key devices before after :
      directory_step (mkDirectory c (before ++ (key, Ok devices) :: after)) (mkDirectory (store_entry now key devices c) (before ++ after))
  (** its failure, or the cancellation of the caller *)
  | step_lost c key r before after : directory_step (mkDirectory c (before ++ (key, r) :: after)) (mkDirectory c (before ++ after))
  | step_invalidate d owner companion device :
      directory_step d (mkDirectory (invalidate owner companion device d.(dr_cache)) d.(dr_reading)).
End Directory.

(** ** A command reaches only a device it names, that is visible, online and able. *)
From Stdlib Require Import Relations.

#[local] Open Scope eff_scope.

Section Body.
Context (case_table casefold str_repr : string -> string).
Notation normalize := (normalize case_table).
Notation device_keys := (device_keys case_table).
Notation matches_partial := (matches_partial case_table).
Notation resolve := (resolve_body_device case_table str_repr).

(** [d] is the only device of the list with the property. *)
Definition only {A} (f : A -> bool) (l : list A) (d : A) : Prop :=
  exists before after, l = before ++ d :: after /\ f d = true /\ forall x, x ∈ before ++ after -> f x = false.

(** What a target designates. *)
Definition designates (devices : list BodyDevice) (target : string) (source : option string) (d : BodyDevice) : Prop :=
  let key := normalize target in
  if bool_decide (key ∈ CURRENT_DEVICE_ALIASES)
  then exists before after, devices = before ++ d :: after /\ is_source source d = true /\ forall x, x ∈ before -> is_source source x = false
  else only (fun x => bool_decide (key ∈ device_keys x)) devices d \/
       (forall x, x ∈ devices -> key ∉ device_keys x) /\ only (matches_partial key) devices d.

Lemma filter_only {A} (f : A -> bool) l d : List.filter f l = [d] <-> only f l d.
Proof.
  split.
  - induction l as [|x l IH]; simpl; [done|]. destruct (f x) eqn:E.
    + intros [= -> H]. exists [], l. split; [done|]. split; [done|]. intros y Hy. by apply (proj1 (filter_nil_iff f l) H).
    + intros (b & a & -> & Hd & Hx)%IH. exists (x :: b), a. split; [done|]. split; [done|]. intros y [->|Hy]%elem_of_cons; [done|by apply Hx].
  - intros (b & a & -> & Hd & Hx). rewrite List.filter_app. simpl. rewrite Hd.
    rewrite (proj2 (filter_nil_iff f b)), (proj2 (filter_nil_iff f a)); [done|intros y Hy; apply Hx, elem_of_app; tauto..].
Qed.

Lemma find_first {A} (f : A -> bool) l d : List.find f l = Some d <->
  exists before after, l = before ++ d :: after /\ f d = true /\ forall x, x ∈ before -> f x = false.
Proof.
  split.
  - induction l as [|x l IH]; simpl; [done|]. destruct (f x) eqn:E.
    + intros [= ->]. exists [], l. split; [done|]. split; [done|]. intros y Hy. by apply elem_of_nil in Hy.
    + intros (b & a & -> & Hd & Hx)%IH. exists (x :: b), a. split; [done|]. split; [done|]. intros y [->|Hy]%elem_of_cons; [done|by apply Hx].
  - intros (b & a & -> & Hd & Hx). induction b as [|y b IH]; simpl; [by rewrite Hd|]. rewrite (Hx y) by by left. apply IH. intros z Hz. apply Hx. by right.
Qed.

(** The resolver returns exactly the device a target designates, and refuses every other. *)
Lemma resolve_decides devices target source d : resolve devices target source = Ok d <-> designates devices target source d.
Proof.
  unfold resolve_body_device, designates. destruct (bool_decide (_ ∈ CURRENT_DEVICE_ALIASES)).
  - rewrite <- find_first. destruct (List.find _ _); [|by split]. by split; intros [= ->].
  - assert (List.filter (fun x => bool_decide (normalize target ∈ device_keys x)) devices = [] <-> forall x, x ∈ devices -> normalize target ∉ device_keys x) as Hn.
    { rewrite filter_nil_iff. split; intros H x Hx; specialize (H x Hx); [by apply bool_decide_eq_false in H|by apply bool_decide_eq_false]. }
    rewrite <- (filter_only _ devices d), <- (filter_only (matches_partial _) devices d), <- Hn.
    destruct (List.filter _ devices) as [|x [|y l]].
    + destruct (List.filter (matches_partial _) devices) as [|x [|y l]]; split; try done; try (intros [?|[_ ?]]; done).
      * intros [= ->]. by right.
      * by intros [[=]|[_ [= ->]]].
    + split; [intros [= ->]; by left|by intros [[= ->]|[[=] _]]].
    + split; [done|by intros [[=]|[[=] _]]].
Qed.


Context (bp : BodyPorts).
Notation send_command := (send_command case_table str_repr bp).

(** What may be sent for a request, given the devices it saw. *)
Record sendable (q : CommandRequest) (devices : list BodyDevice) (cmd : BodyCommand) : Prop := {
  se_device : exists d c, designates devices q.(cq_target) q.(cq_source_device_id) d /\ cmd.(bc_device_id) = d.(dv_device_id) /\
    d.(dv_status) <> "offline" /\ d.(dv_status) <> "unknown" /\
    bp.(bp_capability) d q.(cq_op) q.(cq_capability_version) = Some c /\ cmd.(bc_capability_version) = c.(cap_version) /\
    default "" (bp.(bp_arguments) c.(cap_input_schema) q.(cq_payload)) = "";
  se_scope : cmd.(bc_owner_id) = q.(cq_owner_id) /\ cmd.(bc_companion_id) = q.(cq_companion_id);
  se_body : cmd.(bc_op) = q.(cq_op) /\ cmd.(bc_payload) = q.(cq_payload);
  se_qos : cmd.(bc_qos) ∈ QOS /\ cmd.(bc_priority) ∈ PRIORITIES /\ 1000 <= cmd.(bc_ttl_ms) <= 600000;
}.

Lemma select_device_spec devices q d c : select_device case_table str_repr bp devices q = Ok (d, c) ->
  designates devices q.(cq_target) q.(cq_source_device_id) d /\ d.(dv_status) <> "offline" /\ d.(dv_status) <> "unknown" /\
  bp.(bp_capability) d q.(cq_op) q.(cq_capability_version) = Some c /\ default "" (bp.(bp_arguments) c.(cap_input_schema) q.(cq_payload)) = "".
Proof.
  unfold select_device. intros (x & Hx%resolve_decides & H)%res_bind_ok. destruct (bp_capability bp x _ _) as [c'|] eqn:Ec; [|done].
  case_bool_decide as Hs; [done|]. assert (Ok (x, c') = Ok (d, c) -> default "" (bp_arguments bp (cap_input_schema c') (cq_payload q)) = "" ->
    designates devices q.(cq_target) q.(cq_source_device_id) d /\ d.(dv_status) <> "offline" /\ d.(dv_status) <> "unknown" /\
    bp.(bp_capability) d q.(cq_op) q.(cq_capability_version) = Some c /\ default "" (bp.(bp_arguments) c.(cap_input_schema) q.(cq_payload)) = "") as Hok.
  { intros [= -> ->] Ha. split; [exact Hx|]. split; [intros E; apply Hs; rewrite E; by_compute|]. split; [intros E; apply Hs; rewrite E; by_compute|]. by split. }
  destruct (bp_arguments bp _ _) as [e|] eqn:Ea; [|by apply Hok]. destruct (is_empty e) eqn:Ee; [|done]. apply Hok; [done|]. by apply is_empty_spec.
Qed.

Lemma validate_choice_spec value allowed field v : validate_choice value allowed field = Ok v -> v ∈ allowed.
Proof. unfold validate_choice. case_bool_decide; [|done]. by intros [= <-]. Qed.

(** A call sends nothing, or one command that the devices it saw allow. *)
Lemma send_command_spec q s : exists r s', send_command q s = (r, s') /\
  (s'.(bs_sent) = s.(bs_sent) /\ (forall x, r <> Ok x) \/
   exists devices cmd, bp.(bp_devices) s.(bs_reads) q.(cq_owner_id) q.(cq_companion_id) q.(cq_source_device_id) = Ok devices /\
     sendable q devices cmd /\ s'.(bs_sent) = s.(bs_sent) ++ [cmd] /\ r = bp.(bp_send) cmd).
Proof.
  unfold BodyControl.send_command, list_devices, mbind_, mgets, mmodify, mlift, mret_, mraise.
  destruct (bp_devices bp _ _ _ _) as [devices|e] eqn:Ed; [|do 2 eexists; split; [done|by left]].
  destruct (validate_choice _ QOS _) as [qos|e] eqn:Eq; [|do 2 eexists; split; [done|by left]].
  destruct (validate_choice _ PRIORITIES _) as [priority|e] eqn:Ep; [|do 2 eexists; split; [done|by left]].
  destruct (_ || _) eqn:Et; [do 2 eexists; split; [done|by left]|]. apply orb_false_iff in Et as [E1%Z.ltb_ge E2%Z.ltb_ge].
  destruct (select_device _ _ _ _ _) as [[d c]|e] eqn:Es; [|do 2 eexists; split; [done|by left]].
  apply select_device_spec in Es as (Hd & Ho & Hu & Hc & Ha). apply validate_choice_spec in Eq, Ep.
  do 2 eexists. split; [done|]. right. exists devices. eexists. split; [done|]. split; [|split; done].
  split; cbn; [exists d, c; by split_and!|done|done|by split_and!].
Qed.

(** ** Any sequence of calls *)

Inductive body_call :=
  | CallSend (q : CommandRequest)
  | CallCompanion (q : CommandRequest) (target_companion : string) (version : Z)
  | CallList (owner companion : string) (source : option string) (include_offline : bool)
  | CallStatus (owner companion command_id : string).

Definition perform_call (x : body_call) (s : BodyState) : BodyState :=
  match x with
  | CallSend q => snd (send_command q s)
  | CallCompanion q target version => snd (send_companion_capability case_table casefold str_repr bp q target version s)
  | CallList o c src b => snd (list_devices bp o c src b s)
  | CallStatus o c i => snd (get_command_status bp o c i s)
  end.

(** Every command sent was allowed by a read of the directory for its request. *)
Definition all_allowed (s : BodyState) : Prop := forall cmd, cmd ∈ s.(bs_sent) -> exists q n devices,
  bp.(bp_devices) n q.(cq_owner_id) q.(cq_companion_id) q.(cq_source_device_id) = Ok devices /\ sendable q devices cmd.

Lemma send_allowed q s : all_allowed s -> all_allowed (snd (send_command q s)).
Proof.
  intros Hs. destruct (send_command_spec q s) as (r & s' & -> & [[Hk _]|(devices & cmd & Hd & Hok & Hk & _)]); intros x; cbn; rewrite Hk; [apply Hs|].
  intros [Hx|Hx%list_elem_of_singleton]%elem_of_app; [by apply Hs|]. subst x. by exists q, (bs_reads s), devices.
Qed.

Lemma list_sent o c src b s : bs_sent (snd (list_devices bp o c src b s)) = bs_sent s.
Proof. unfold list_devices, mbind_, mgets, mmodify, mlift, mret_. by destruct (bp_devices bp _ _ _ _). Qed.

Lemma call_allowed x s : all_allowed s -> all_allowed (perform_call x s).
Proof.
  intros Hs. destruct x as [q|q target version|o c src b|o c i]; cbn [perform_call].
  - by apply send_allowed.
  - unfold send_companion_capability, mbind_. pose proof (list_sent (cq_owner_id q) (cq_companion_id q) (cq_source_device_id q) false s) as Hl.
    destruct (list_devices _ _ _ _ _ _) as [[devices|e] s1]; [|intros x; cbn; cbn in Hl; rewrite Hl; apply Hs].
    assert (all_allowed s1) as H1 by (intros x; cbn in Hl; rewrite Hl; apply Hs). unfold mlift.
    destruct (provider_of _ _ _ _ _ _) as [d|e]; [by apply send_allowed|exact H1].
  - intros x. rewrite list_sent. apply Hs.
  - unfold get_command_status, mbind_, mlift. destruct (bp_status bp o c i) as [r|e]; [|exact Hs].
    pose proof (list_sent o c None true s) as Hl. destruct (list_devices _ _ _ _ _ _) as [[devices|e] s1]; cbn in Hl.
    + intros x. destruct (bool_decide _); cbn; rewrite Hl; apply Hs.
    + intros x. cbn. rewrite Hl. apply Hs.
Qed.
End Body.


(** ** The directory cache *)

Section Directory.
Context (ttl_us max_entries : Z).

(** The cache is bounded and holds one entry per key. *)
Definition cache_bounded (d : Directory) : Prop :=
  Z.of_nat (length d.(dr_cache)) <= capacity max_entries /\ NoDup d.(dr_cache).*1.

Lemma directory_bounded d d' : directory_step ttl_us max_entries d d' -> cache_bounded d -> cache_bounded d'.
Proof.
  intros Hs [Hl Hn]. destruct Hs as [d now key devices Hp Hc|d now key r Hp Hc|c now key devices b a|c key r b a|d o c dv]; try done; unfold cache_bounded; cbn in *.
  - unfold store_entry. destruct (_ && _) eqn:E.
    + apply andb_true_iff in E as [E1%Z.leb_le E2].
      assert (length (dict_set (drop 1 c) key (mkEntry (now + ttl ttl_us) devices)) <= S (length (drop 1 c)))%nat as Hd by apply dict_set_length.
      rewrite length_drop in Hd. unfold capacity in *. split; [lia|]. apply dict_set_nodup. rewrite fmap_drop. by apply (sublist_NoDup _ _ Hn), sublist_drop.
    + split; [|by apply dict_set_nodup]. apply andb_false_iff in E as [E%Z.leb_gt|E%negb_false_iff].
      * pose proof (dict_set_length c key (mkEntry (now + ttl ttl_us) devices)). lia.
      * assert (key ∈ c.*1) as Hk.
        { unfold dict_has in E. destruct (dict_get c key) eqn:Ek; [|done]. apply dict_get_elem in Ek. apply list_elem_of_fmap. by exists (key, c0). }
        rewrite <- (length_fmap fst), dict_set_keys_in, length_fmap by done. exact Hl.
  - unfold invalidate. destruct o as [o|]; [|destruct c as [c|]; [|destruct dv as [dv|]]].
    4: split; [unfold capacity; simpl; lia|constructor].
    all: split; [etransitivity; [|exact Hl]; apply inj_le, filter_length_le|].
    all: by apply NoDup_map_filter.
Qed.
End Directory.

Lemma directory_stays_bounded ttl_us max_entries d : rtc (directory_step ttl_us max_entries) (mkDirectory [] []) d -> cache_bounded max_entries d.
Proof.
  intros H. assert (cache_bounded max_entries (mkDirectory [] [])) as H0 by (split; [unfold capacity; simpl; lia|constructor]).
  induction H as [|d1 d2 d3 Hs Hr IH]; [done|]. apply IH. by eapply directory_bounded.
Qed.

(** ** Concrete devices *)

Definition sample_device (i companion : string) (status : string) : BodyDevice :=
  mkDevice i ("lamp of " +:+ companion)%string [] false status [mkCapability "light" 1 "" [] VNone] companion companion.
Definition sample_lookup (d : BodyDevice) (op : string) (v : option Z) : option Capability :=
  List.find (fun c => bool_decide (c.(cap_name) = op) && match v with Some v => c.(cap_version) =? v | None => true end) d.(dv_capabilities).
Definition sample_body (reads : nat -> list BodyDevice) : BodyPorts :=
  mkBodyPorts (fun n _ _ _ => Ok (reads n)) (fun c => Ok (mkCommandResult "c1" c.(bc_device_id) "sent" c.(bc_capability_version) VNone None None))
    (fun _ _ i => Ok (mkCommandResult i "dev-1" "done" 1 VNone None None)) sample_lookup (fun _ _ => None).
Definition sample_request (target : string) : CommandRequest :=
  mkCommandRequest "owner" "ada" None target "light" (VDict []) None " ack " 30000 "normal" None.
Notation sample_call reads x := (perform_call id id id (sample_body reads) x (mkBodyState [] 0)).


(** Two lamps of one name are refused; an offline one is found and refused. *)
Example ambiguous_and_offline :
  (bs_sent (sample_call (fun _ => [sample_device "dev-1" "bob" "online"; sample_device "dev-2" "bob" "online"]) (CallSend (sample_request "lamp of bob"))),
   bs_sent (sample_call (fun _ => [sample_device "dev-1" "bob" "offline"]) (CallSend (sample_request "dev-1")))) = ([], []).
Proof. vm_compute. reflexivity. Qed.

(** The provider of [bob] is chosen in one read and resolved again, by its id, in the next:
    when it is gone by then, the device of another companion whose id contains it gets the
    command. *)
Example companion_command_strays :
  map bc_device_id (bs_sent (sample_call
    (fun n => match n with
              | O => [sample_device "dev-1" "bob" "online"; sample_device "dev-10" "eve" "online"]
              | _ => [sample_device "dev-10" "eve" "online"]
              end) (CallCompanion (sample_request "") "bob" 1))) = ["dev-10"].
Proof. vm_compute. reflexivity. Qed.

(** A read that was under way when the cache was invalidated stores what it read before. *)
Example invalidated_entry_returns :
  let key := cache_key "owner" "ada" None in
  let old := [sample_device "dev-1" "bob" "online"] in
  rtc (directory_step 3000000 256) (mkDirectory [] []) (mkDirectory [(key, mkEntry 3000010 old)] []) /\
  directory_step 3000000 256 (mkDirectory [] [(key, Ok old)]) (mkDirectory (invalidate (Some "owner") None None []) [(key, Ok old)]) /\
  directory_step 3000000 256 (mkDirectory (invalidate (Some "owner") None None []) [(key, Ok old)])
    (mkDirectory [(key, mkEntry 3000010 old)] []).
Proof.
  intros key old.
  assert (directory_step 3000000 256 (mkDirectory [] [(key, Ok old)]) (mkDirectory (invalidate (Some "owner") None None []) [(key, Ok old)])) as Hi
    by exact (step_invalidate 3000000 256 (mkDirectory [] [(key, Ok old)]) (Some "owner") None None).
  assert (directory_step 3000000 256 (mkDirectory [] [(key, Ok old)]) (mkDirectory [(key, mkEntry 3000010 old)] [])) as Hs
    by exact (step_stored 3000000 256 [] 10 key old [] []).
  split; [|split; [exact Hi|exact Hs]].
  eapply rtc_l; [exact (step_miss 3000000 256 (mkDirectory [] []) 0 key (Ok old) eq_refl eq_refl)|].
  eapply rtc_l; [exact Hi|]. by apply rtc_once.
Qed.
