(* ===== verification/Participation.v ===== *)
(** * [app/interaction/coordination/decision.py] and [application.py]: the decision port of a
      team with its fallback, and the application that prepares a scene with it.

    A decision model is a function of the request and of the time it is asked at; it answers
    after some time or raises. Time is in microseconds; what happens exactly at a deadline
    counts as too late. *)

From S2P Require Import Prelude CoreTypes Effects RuntimeSession Coordination RoleReply.
#[local] Open Scope eff_scope.

(** ** [FallbackParticipationDecision] *)

Record Answer := mkAnswer { an_us : Z; an_result : res DecisionResult }.
Definition Model : Type := DecisionRequest -> Z -> Answer.

Inductive route := Primary | Fallback.
#[global] Instance route_eq_dec : EqDecision route.
Proof. solve_decision. Defined.

(** The clock and the calls made: which model, within how many milliseconds, from when *)
Record DecideState := mkDecide { de_now : Z; de_calls : list (route * Z * Z) }.

Definition RECOVERABLE : list string :=
  ["DECISION_TIMEOUT"; "DECISION_TRANSPORT_ERROR"; "DECISION_HTTP_429"; "DECISION_HTTP_502"; "DECISION_HTTP_503"; "DECISION_HTTP_504"].
Definition unavailable (code : string) : exn := PyError "DecisionUnavailable" code.
Definition is_error (cls : string) (e : exn) : bool := match e with PyError c _ => bool_decide (c = cls) | _ => false end.

(** [request.model_copy(update={"timeout_ms": ...})] *)
Definition with_timeout (ms : Z) (r : DecisionRequest) : DecisionRequest :=
  mkRequest r.(rq_decision_id) r.(rq_context_ref) r.(rq_context_version) r.(rq_membership_revision) r.(rq_cancellation_epoch)
    r.(rq_trigger) r.(rq_user_request) r.(rq_scene_goal) r.(rq_recent) r.(rq_candidates) r.(rq_remaining_replies) ms.

Section Decision.
Context `{SdkOps} (primary fallback : Model) (primary_timeout_ms : Z).
(** what [await asyncio.sleep(0)] takes *)
Context (yield_us : Z).

(** A call under a deadline *)
Definition ask (r : route) (request : DecisionRequest) (deadline : Z) : M DecideState DecisionResult := fun s =>
  let a := (match r with Primary => primary | Fallback => fallback end) request s.(de_now) in
  let calls := s.(de_calls) ++ [(r, request.(rq_timeout_ms), s.(de_now))] in
  if s.(de_now) + a.(an_us) <? deadline then (a.(an_result), mkDecide (s.(de_now) + a.(an_us)) calls)
  else (Err (PyError "TimeoutError" ""), mkDecide (Z.max s.(de_now) deadline) calls).

(** [_validate] *)
Definition validate (request : DecisionRequest) (result : DecisionResult) : res unit :=
  match validate_proposal request result with
  | Err e => if is_error "ValueError" e then Err (unavailable "DECISION_INVALID_RESULT") else Err e
  | Ok _ => Ok tt
  end.

(** What the primary leaves: its decision, or why the fallback is asked. *)
Definition first_attempt (request : DecisionRequest) (deadline : Z) : M DecideState (DecisionResult + string) :=
  start <-- mgets de_now ;;
  let budget := Z.min request.(rq_timeout_ms) primary_timeout_ms in
  mtry
    (result <-- ask Primary (with_timeout budget request) (Z.min deadline (start + budget * 1000)) ;;
     mlift (validate request result) ;;;
     mret_ (if bool_decide (result.(dr_status) = "decided") then inl result else inr "abstained"))
    (fun e =>
       if is_error "TimeoutError" e then Some (mret_ (inr "DECISION_TIMEOUT"))
       else match e with
            | PyError cls code =>
                if bool_decide (cls = "DecisionUnavailable") && bool_decide (code ∈ RECOVERABLE) then Some (mret_ (inr code)) else None
            | _ => None
            end).

Definition second_attempt (request : DecisionRequest) (deadline : Z) : M DecideState DecisionResult :=
  mmodify (fun s => mkDecide (s.(de_now) + yield_us) s.(de_calls)) ;;;
  now <-- mgets de_now ;;
  let remaining_ms := (deadline - now) / 1000 in
  if remaining_ms <? 1 then mraise (unavailable "DECISION_TIMEOUT")
  else
    result <-- ask Fallback (with_timeout remaining_ms request) deadline ;;
    mlift (validate request result) ;;;
    mret_ result.

(** [__call__]; the constructor refuses a timeout that is not positive. *)
Definition decide_with_fallback (request : DecisionRequest) : M DecideState DecisionResult :=
  start <-- mgets de_now ;;
  let deadline := start + request.(rq_timeout_ms) * 1000 in
  mtry
    (first <-- first_attempt request deadline ;;
     match first with
     | inl result => mret_ result
     | inr _ => second_attempt request deadline
     end)
    (fun e => if is_error "TimeoutError" e then Some (mraise (unavailable "DECISION_TIMEOUT")) else None).

(** ** Its contract *)

(** The calls of a decision: the primary first, the fallback at most once and only when the
    primary did not decide, each within what is left of the budget. *)
Definition within_budget (start timeout_ms : Z) (calls : list (route * Z * Z)) : Prop :=
  (exists b, calls = [(Primary, b, start)] /\ b <= timeout_ms) \/
  (exists b b' t, calls = [(Primary, b, start); (Fallback, b', t)] /\ b <= timeout_ms /\ 1 <= b' /\ t + b' * 1000 <= start + timeout_ms * 1000).

Definition answers_in_time (m : Model) : Prop := forall r t, 0 <= (m r t).(an_us).

Lemma ask_time r request deadline s : answers_in_time primary -> answers_in_time fallback -> s.(de_now) <= deadline ->
  let s' := (ask r request deadline s).2 in
  s.(de_now) <= s'.(de_now) <= deadline /\ s'.(de_calls) = s.(de_calls) ++ [(r, request.(rq_timeout_ms), s.(de_now))].
Proof.
  intros Hp Hf Hd. unfold ask. assert (0 <= an_us ((match r with Primary => primary | Fallback => fallback end) request (de_now s))) as Ha by (destruct r; [apply Hp|apply Hf]).
  destruct (Z.ltb_spec (de_now s + an_us ((match r with Primary => primary | Fallback => fallback end) request (de_now s))) deadline); cbn; split; (done || lia).
Qed.

Lemma validate_ok request result u : validate request result = Ok u -> validate_proposal request result = Ok tt.
Proof. unfold validate. destruct (validate_proposal request result) as [[]|e]; [done|]. by destruct (is_error _ e). Qed.

(** The primary: at most its share of the time; a decision it makes is valid. *)
Lemma first_attempt_spec request deadline s : answers_in_time primary -> answers_in_time fallback ->
  0 < primary_timeout_ms -> 0 <= request.(rq_timeout_ms) -> deadline = s.(de_now) + request.(rq_timeout_ms) * 1000 ->
  let '(r, s') := first_attempt request deadline s in
  s.(de_now) <= s'.(de_now) <= deadline /\
  s'.(de_calls) = s.(de_calls) ++ [(Primary, Z.min request.(rq_timeout_ms) primary_timeout_ms, s.(de_now))] /\
  (forall result, r = Ok (inl result) -> validate_proposal request result = Ok tt /\ result.(dr_status) = "decided").
Proof.
  intros Hp Hf Hb Ht ->. unfold first_attempt, mtry. unfold mbind_ at 1, mgets. unfold mbind_ at 1.
  match goal with |- context [ask Primary ?q ?d s] => pose proof (ask_time Primary q d s Hp Hf) as Ha; destruct (ask Primary q d s) as [[result|e] s'] end;
    cbn [snd] in Ha; (destruct Ha as [Hn Hc]; [lia|]); cbn [with_timeout rq_timeout_ms] in Hc.
  - unfold mlift. unfold mbind_ at 1. destruct (validate request result) as [[]|e] eqn:Ev.
    + unfold mret_. split; [lia|]. split; [exact Hc|]. intros res. case_bool_decide; [|done]. intros [= <-]. split; [by eapply validate_ok|done].
    + unfold mret_; repeat case_match; simplify_eq; (split; [lia|split; [exact Hc|done]]).
  - unfold mret_; repeat case_match; simplify_eq; (split; [lia|split; [exact Hc|done]]).
Qed.

Lemma second_attempt_spec request deadline s : answers_in_time primary -> answers_in_time fallback -> 0 <= yield_us -> s.(de_now) <= deadline ->
  let '(r, s') := second_attempt request deadline s in
  s'.(de_now) <= Z.max deadline (s.(de_now) + yield_us) /\
  (s'.(de_calls) = s.(de_calls) /\ (exists e, r = Err e) \/
   exists b t, s'.(de_calls) = s.(de_calls) ++ [(Fallback, b, t)] /\ 1 <= b /\ t + b * 1000 <= deadline) /\
  (forall result, r = Ok result -> validate_proposal request result = Ok tt).
Proof.
  intros Hp Hf Hy Hd. unfold second_attempt. unfold mbind_ at 1, mmodify. unfold mbind_ at 1, mgets. cbn [de_now].
  destruct (Z.ltb_spec ((deadline - (de_now s + yield_us)) / 1000) 1) as [Hr|Hr].
  - unfold mraise. cbn. split; [lia|]. split; [left; by eauto|done].
  - assert (de_now s + yield_us + (deadline - (de_now s + yield_us)) / 1000 * 1000 <= deadline) as Hb
      by (pose proof (Z.mul_div_le (deadline - (de_now s + yield_us)) 1000); lia).
    unfold mbind_ at 1. match goal with |- context [ask Fallback ?q ?d ?x] => pose proof (ask_time Fallback q d x Hp Hf) as Ha; destruct (ask Fallback q d x) as [[result|e] s'] end;
      cbn [snd de_now de_calls] in Ha; (destruct Ha as [Hn Hc]; [cbn; lia|]); cbn [with_timeout rq_timeout_ms de_now de_calls] in *.
    + unfold mlift, mret_, mbind_. destruct (validate request result) as [[]|e] eqn:Ev; (split; [lia|]; split; [right; do 2 eexists; split; [exact Hc|lia]|]); [|done].
      intros x [= <-]. by eapply validate_ok.
    + split; [lia|]. split; [right; do 2 eexists; split; [exact Hc|lia]|done].
Qed.

(** A decision ends within the time its request gives (and what one yield takes), asks each
    model at most once and the fallback only without a decision of the primary, and what it
    returns is valid. *)
Theorem decision_contract request s : answers_in_time primary -> answers_in_time fallback ->
  0 < primary_timeout_ms -> 0 <= request.(rq_timeout_ms) -> 0 <= yield_us -> s.(de_calls) = [] ->
  let '(r, s') := decide_with_fallback request s in
  s'.(de_now) <= s.(de_now) + request.(rq_timeout_ms) * 1000 + yield_us /\
  within_budget s.(de_now) request.(rq_timeout_ms) s'.(de_calls) /\
  (forall result, r = Ok result -> validate_proposal request result = Ok tt).
Proof.
  intros Hp Hf Hb Ht Hy Hc. unfold decide_with_fallback. unfold mbind_ at 1, mgets.
  pose proof (first_attempt_spec request _ s Hp Hf Hb Ht eq_refl) as H1. unfold mtry. unfold mbind_ at 1.
  destruct (first_attempt request _ s) as [[[result|why]|e] s1]; destruct H1 as (Hn & Hk & Hv); rewrite Hc in Hk; cbn [app] in Hk.
  - unfold mret_. split; [lia|]. split; [left; eexists; split; [exact Hk|lia]|]. intros x [= <-]. by apply Hv.
  - pose proof (second_attempt_spec request (de_now s + rq_timeout_ms request * 1000) s1 Hp Hf Hy (proj2 Hn)) as H2.
    destruct (second_attempt request _ s1) as [[result|e] s2]; destruct H2 as (Hn2 & Hk2 & Hv2).
    + split; [lia|]. split; [|exact Hv2]. destruct Hk2 as [[_ [e He]]|(b & t & Hk2 & Hb1 & Hb2)]; [done|].
      right. do 3 eexists. rewrite Hk2, Hk. split; [done|]. lia.
    + assert (within_budget (de_now s) (rq_timeout_ms request) (de_calls s2)) as Hw.
      { destruct Hk2 as [[Hk2 _]|(b & t & Hk2 & Hb1 & Hb2)].
        - left. rewrite Hk2, Hk. eexists. split; [done|]. lia.
        - right. do 3 eexists. rewrite Hk2, Hk. split; [done|]. lia. }
      unfold mraise. destruct (is_error _ e); (split; [lia|]; by split).
  - unfold mraise. destruct (is_error _ e); (split; [lia|]; split; [left; eexists; split; [exact Hk|lia]|done]).
Qed.
End Decision.

(** ** [IpTeamApplication.prepare] *)

Definition POLICY_VERSION : string := "semantic-step-v2".

(** [check_ready] is the readiness check of the decision port, when it has one. *)
Definition prepare_team (float_of_int : Z -> res string) (at_ : CompanionRuntimeAuthority) (check_role : SceneRole -> res unit)
    (stop_ms stage_ms : Z) (has_decision : bool) (check_ready : option (nat -> res unit)) (owner : string) (sel : Selection)
  : res (SessionConfig * list ReplyBinding * string) :=
  if negb has_decision then Err (value_error "TEAM_DECISION_NOT_CONFIGURED")
  else
    _ ← match check_ready with Some check => check (length sel.(sl_members)) | None => Ok tt end;
    session ← prepare_session float_of_int at_ check_role stop_ms stage_ms owner sel;
    Ok (session, POLICY_VERSION).

(** ** Concrete decisions *)

Definition sample_request : DecisionRequest :=
  mkRequest "d1" "scene" 0 1 1 (Coordination.mkMessage "m" "user" "mic" "hi") (Coordination.mkMessage "m" "user" "mic" "hi") "" [] [] 2 1000.
Definition wait_decision : DecisionResult := mkResult "decided" (Some (mkProposal "wait" [] "")) "p1" "m1".
Definition abstention : DecisionResult := mkResult "abstained" None "p1" "m1".
Notation sample_decide primary fallback :=
  (@decide_with_fallback {| check_message _ := Ok tt; check_candidate _ := Ok tt; check_context _ := Ok tt; check_request _ := Ok tt;
                            validate_proposal _ _ := Ok tt |} primary fallback 400 0 sample_request (mkDecide 0 [])).

(** A primary that decides to wait is final; one that abstains, is late or unreachable is
    followed by the fallback with the time that is left. *)
Example sample_decisions :
  sample_decide (fun _ _ => mkAnswer 100 (Ok wait_decision)) (fun _ _ => mkAnswer 100 (Ok abstention)) =
    (Ok wait_decision, mkDecide 100 [(Primary, 400, 0)]) /\
  sample_decide (fun _ _ => mkAnswer 100000 (Ok abstention)) (fun _ _ => mkAnswer 100000 (Ok wait_decision)) =
    (Ok wait_decision, mkDecide 200000 [(Primary, 400, 0); (Fallback, 900, 100000)]) /\
  sample_decide (fun _ _ => mkAnswer 9000000 (Ok wait_decision)) (fun _ _ => mkAnswer 100000 (Ok wait_decision)) =
    (Ok wait_decision, mkDecide 500000 [(Primary, 400, 0); (Fallback, 600, 400000)]) /\
  sample_decide (fun _ _ => mkAnswer 5 (Err (unavailable "DECISION_HTTP_400"))) (fun _ _ => mkAnswer 100000 (Ok wait_decision)) =
    (Err (unavailable "DECISION_HTTP_400"), mkDecide 5 [(Primary, 400, 0)]).
Proof. split_and!; vm_compute; reflexivity. Qed.
