(* ===== verification/HomePlanning.v ===== *)
(** * The smart home's plans: [domain/smarthome/planning.py], [addressing.py] and the data of
      [context.py] and [ports.py].

    The SDK's [biz.smarthome] and [biz.interpretation] keep the fields this code reads; their
    tables, codes, lookups and validators are the class [HomeSdk]. A number in a state or an
    action is an [int], a [bool] or a float given by its [repr], whose value is [float_of]. *)

From Stdlib Require Import SpecFloat.
From S2P Require Import Prelude CoreTypes Json Effects Presentation.
#[local] Open Scope eff_scope.

(** ** [biz.interpretation] *)

Record Slot := mkSlot { sl_name : string; sl_value : pyval; sl_unit : option string; sl_raw_span : option string }.
Record Action := mkAction { ac_trait : string; ac_command : string; ac_slots : list Slot }.
Record Proposal := mkHomeProposal {
  pp_intent : string;
  pp_target_status : string;
  pp_targets : list string;
  pp_action : option Action;
  pp_mention : option string;
}.
Record HomeCandidate := mkHomeCandidate {
  cd_ref : string; cd_name : string; cd_aliases : list string; cd_kind : string; cd_area_id : option string }.
Record HomeArea := mkHomeArea { ha_area_id : string; ha_name : string }.
Record InterpretationRequest := mkInterpretation {
  ir_interpretation_id : string;
  ir_domain : string;
  ir_utterance : string;
  ir_device_ref : option string;
  ir_area_id : option string;
  ir_candidates : list HomeCandidate;
  ir_areas : list HomeArea;
  ir_timeout_ms : Z;
  ir_context : option (list (string * pyval));
}.
Record InterpretationResult := mkInterpretationResult {
  is_interpretation_id : string;
  is_status : string;
  is_proposal : option Proposal;
  is_policy_version : string;
  is_model_version : string;
  is_diagnostics : list (string * pyval);
}.

(** ** [biz.smarthome] *)

Record Command := mkHomeCommand { cm_device_id : string; cm_trait : string; cm_command : string; cm_params : list (string * pyval) }.
Record Device := mkHomeDevice {
  hd_device_id : string; hd_name : string; hd_aliases : list string; hd_type : string; hd_area_id : option string }.
Record Scene := mkScene { sc_scene_id : string; sc_name : string; sc_actions : list Command }.
Record Registry := mkRegistry { rg_areas : list HomeArea; rg_devices : list Device; rg_scenes : list Scene; rg_placements : list (string * string) }.
Record CommandResult := mkHomeResult {
  cr_device_id : string;
  cr_status : string;
  cr_code : option string;
  cr_state : option (list (string * pyval));
  cr_platform_answer : option string;
}.
Record ExecuteOrigin := mkOrigin { xo_kind : string; xo_device_ref : option string; xo_turn_id : option string }.
Record ExecuteRequest := mkExecute {
  xr_request_id : string;
  xr_commands : list Command;
  xr_scene_id : option string;
  xr_origin : ExecuteOrigin;
  xr_deadline_ms : Z;
}.
Record ExecuteResult := mkExecuted { xs_request_id : string; xs_error : option string; xs_results : list CommandResult }.
Record VoiceResult := mkVoice {
  vr_turn_id : string;
  vr_utterance : string;
  vr_outcome : string;
  vr_message : string;
  vr_candidates : list (string * string);
  vr_command : option (string * string * list (string * pyval));
}.

(** A device type: its traits, the range of its thermostat, its modes. *)
Record TypeSpec := mkTypeSpec { ty_traits : list string; ty_target_c : option (pyval * pyval); ty_modes : list string }.
(** The bounds of a parameter *)
Notation ParamSpec := (option pyval * option pyval)%type.

Class HomeSdk := {
  DEVICE_TYPES : list (string * TypeSpec);
  TRAIT_COMMANDS : list (string * list (string * list (string * ParamSpec)));
  MAX_COMMANDS : Z;
  SCENE_TRAIT : string;
  SCENE_COMMAND : string;
  SCENE_KIND : string;
  ERROR_UNKNOWN_DEVICE : string;
  ERROR_UNSUPPORTED_COMMAND : string;
  ERROR_OUT_OF_RANGE : string;
  ERROR_INVALID_PARAMS : string;
  ERROR_DEVICE_OFFLINE : string;
  ERROR_DEADLINE_EXCEEDED : string;
  ERROR_UNKNOWN_SCENE : string;
  ERROR_TIMEOUT : string;
  ERROR_INVALID_PROPOSAL : string;
  ERROR_INVALID_REQUEST : string;
  ERROR_UNAVAILABLE : string;
  (** [Registry.device], [scene], [area_of] *)
  registry_device : Registry -> string -> option Device;
  registry_scene : Registry -> string -> option Scene;
  registry_area_of : Registry -> string -> option string;
  (** The pydantic validators of the constructors *)
  check_command : Command -> res unit;
  check_action : Action -> res unit;
  check_proposal : Proposal -> res unit;
  check_interpretation : InterpretationRequest -> res unit;
  check_result : InterpretationResult -> res unit;
  check_execute : ExecuteRequest -> res unit;
  check_voice : VoiceResult -> res unit;
  (** [validate_command] raises a [SmartHomeError], the other two a [ValueError]. *)
  validate_command : string -> Command -> res unit;
  validate_execute_result : list Command -> ExecuteResult -> res unit;
  validate_interpretation : InterpretationRequest -> InterpretationResult -> res unit;
}.

(** [except C] for a class without subclasses here; pydantic's [ValidationError] is a [ValueError]. *)
Definition raised (cls : string) (e : exn) : bool := bool_decide (exn_type e = cls).
Definition is_value_error (e : exn) : bool := raised "ValueError" e || raised "ValidationError" e.
Definition smart_home_error (code : string) : exn := PyError "SmartHomeError" code.

(** ** Numbers *)

Inductive num := NInt (z : Z) | NFloat (f : spec_float).

(** A finite float [m * 2 ^ e] as [(m, e)] *)
Definition finite (x : num) : option (Z * Z) :=
  match x with
  | NInt z => Some (z, 0)
  | NFloat (S754_zero _) => Some (0, 0)
  | NFloat (S754_finite s m e) => Some (if s then Z.neg m else Z.pos m, e)
  | NFloat _ => None
  end.
(** The value of [x - y] up to a positive factor, for finite numbers *)
Definition scaled_diff (x y : Z * Z) : Z :=
  let e := Z.min x.2 y.2 in x.1 * 2 ^ (x.2 - e) - y.1 * 2 ^ (y.2 - e).

Definition num_leb (x y : num) : bool :=
  match finite x, finite y with
  | Some a, Some b => scaled_diff a b <=? 0
  | _, _ =>
      match x, y with
      | NFloat S754_nan, _ | _, NFloat S754_nan => false
      | NFloat (S754_infinity true), _ | _, NFloat (S754_infinity false) => true
      | _, _ => false
      end
  end.
Definition num_eqb (x y : num) : bool := num_leb x y && num_leb y x.
Definition num_ltb (x y : num) : bool := num_leb x y && negb (num_leb y x).

(** [int(f)] if [f.is_integer()] *)
Definition integral (f : spec_float) : option Z :=
  match finite (NFloat f) with
  | Some (m, e) => if 0 <=? e then Some (m * 2 ^ e) else if m mod 2 ^ (- e) =? 0 then Some (m / 2 ^ (- e)) else None
  | None => None
  end.

Example num_ex :
  let half := S754_finite false 4503599627370496 (-53) in
  let two := S754_finite false 4503599627370496 (-51) in
  (num_leb (NInt 0) (NFloat half), num_leb (NInt 1) (NFloat half), num_leb (NFloat S754_nan) (NInt 1), integral half, integral two) =
    (true, false, false, None, Some 2).
Proof. reflexivity. Qed.

Section Numbers.
Context (float_of : string -> spec_float).

(** [isinstance(v, int | float)] and its value; a [bool] is an [int]. *)
Definition as_num (v : pyval) : option num :=
  match v with
  | VBool b => Some (NInt (if b then 1 else 0))
  | VInt z => Some (NInt z)
  | VFloat r => Some (NFloat (float_of r))
  | _ => None
  end.
Definition is_number (v : pyval) : bool := if as_num v is Some _ then true else false.

(** [v == n] for an [int] [n]; [v > 0] of a number *)
Definition equals_int (v : pyval) (n : Z) : bool := if as_num v is Some x then num_eqb x (NInt n) else false.
Definition is_positive (v : pyval) : bool := if as_num v is Some x then num_ltb (NInt 0) x else false.

(** [v == w] on scalars *)
Definition scalar_eqb (v w : pyval) : bool :=
  match v, w with
  | VNone, VNone => true
  | VStr a, VStr b => bool_decide (a = b)
  | _, _ => match as_num v, as_num w with Some a, Some b => num_eqb a b | _, _ => false end
  end.
(** [d == e] on dicts of scalars, whatever the order *)
Definition params_eqb (d e : list (string * pyval)) : bool :=
  (length d =? length e)%nat && forallb (fun '(k, v) => match dict_get e k with Some w => scalar_eqb v w | None => false end) d.
End Numbers.

(** ** [planning.py] *)

Definition TOO_MANY_COMMANDS : string := "TOO_MANY_COMMANDS".

Record PlannedTarget := mkPlannedTarget {
  pt_device_id : string;
  pt_name : string;
  pt_kind : string;
  pt_commands : list Command;
  pt_rejected : option string;
}.
Record CommandPlan := mkPlan {
  pl_targets : list PlannedTarget;
  pl_commands : list Command;
  pl_scene : option Scene;
  pl_known : list (string * PlannedTarget);
}.
Record DeviceOutcome := mkOutcome {
  do_status : string;
  do_code : option string;
  do_state : option (list (string * pyval));
  do_answer : option string;
}.
Definition UNKNOWN : DeviceOutcome := mkOutcome "unknown" None None None.
Record Execution := mkExecution { ex_outcomes : list (string * DeviceOutcome); ex_error : option string }.

Section Planning.
Context `{HomeSdk}.

(** [find_target]: whether it finds one *)
Definition find_target (registry : Registry) (ref : string) : bool :=
  match registry_device registry ref with
  | Some _ => true
  | None => if registry_scene registry ref is Some _ then true else false
  end.

(** [{slot.name: slot.value for slot in slots if keep slot.name}] *)
Definition slot_values (keep : string -> bool) (slots : list Slot) : list (string * pyval) :=
  fold_left (fun d s => if keep s.(sl_name) then dict_set d s.(sl_name) s.(sl_value) else d) slots [].

Definition command_params (action : Action) : option (list (string * ParamSpec)) :=
  match dict_get TRAIT_COMMANDS action.(ac_trait) with Some commands => dict_get commands action.(ac_command) | None => None end.

(** [device_command] *)
Definition device_command (device : Device) (action : Action) : res Command :=
  match command_params action with
  | None => Err (smart_home_error ERROR_UNSUPPORTED_COMMAND)
  | Some params_spec =>
      let command := mkHomeCommand device.(hd_device_id) action.(ac_trait) action.(ac_command)
                       (slot_values (dict_has params_spec) action.(ac_slots)) in
      _ ← match check_command command with
          | Err e => if raised "ValidationError" e then Err (smart_home_error ERROR_UNSUPPORTED_COMMAND) else Err e
          | Ok _ => Ok tt
          end;
      _ ← validate_command device.(hd_type) command;
      Ok command
  end.

(** [_bounded] *)
Definition bounded_plan (plan : CommandPlan) : CommandPlan :=
  if Z.of_nat (length plan.(pl_commands)) <=? MAX_COMMANDS then plan
  else
    mkPlan (map (fun t => mkPlannedTarget t.(pt_device_id) t.(pt_name) t.(pt_kind) []
                            (Some (opt_or t.(pt_rejected) TOO_MANY_COMMANDS))) plan.(pl_targets)) [] None [].

(** One device of [plan_devices] *)
Definition planned (choose : Device -> res (option Action)) (device : Device) : res PlannedTarget :=
  let target := mkPlannedTarget device.(hd_device_id) device.(hd_name) device.(hd_type) in
  action ← choose device;
  match action with
  | None => Ok (target [] (Some ERROR_UNSUPPORTED_COMMAND))
  | Some action =>
      match device_command device action with
      | Ok command => Ok (target [command] None)
      | Err e => if raised "SmartHomeError" e then Ok (target [] (Some (exn_str e))) else Err e
      end
  end.

(** [plan_devices] *)
Definition plan_devices (devices : list Device) (choose : Device -> res (option Action)) : res CommandPlan :=
  targets ← mapM (planned choose) devices;
  Ok (bounded_plan (mkPlan targets (concat (map pt_commands targets)) None [])).

(** [plan_scene] *)
Definition known_targets (registry : Registry) : list (string * PlannedTarget) :=
  fold_left (fun d x => dict_set d x.(hd_device_id) (mkPlannedTarget x.(hd_device_id) x.(hd_name) x.(hd_type) [] None)) registry.(rg_devices) [].
Definition plan_scene (registry : Registry) (scene : Scene) : CommandPlan :=
  let known := known_targets registry in
  let stored := dedup_keys (List.filter (dict_has known) (map cm_device_id scene.(sc_actions))) in
  mkPlan (omap (dict_get known) stored) [] (Some scene) known.

(** [plan_action] *)
Definition plan_action (registry : Registry) (refs : list string) (action : Action) : res CommandPlan :=
  if bool_decide (action.(ac_trait) = SCENE_TRAIT) then
    match refs with
    | [ref] =>
        match registry_scene registry ref with
        | Some scene =>
            if bool_decide (action.(ac_command) = SCENE_COMMAND) then Ok (plan_scene registry scene)
            else Err (smart_home_error ERROR_UNSUPPORTED_COMMAND)
        | None => Err (smart_home_error ERROR_UNSUPPORTED_COMMAND)
        end
    | _ => Err (smart_home_error ERROR_UNSUPPORTED_COMMAND)
    end
  else
    match mapM (registry_device registry) refs with
    | None => Err (smart_home_error ERROR_UNKNOWN_DEVICE)
    | Some devices => plan_devices devices (fun _ => Ok (Some action))
    end.

(** [_REQUEST_ID.match]: [$] also matches before a last newline. *)
Definition id_char (c : string) : bool :=
  match c with
  | String a "" =>
      let n := N_of_ascii a in
      ((65 <=? n) && (n <=? 90) || (97 <=? n) && (n <=? 122) || (48 <=? n) && (n <=? 57))%N || bool_decide (c ∈ ["."; "_"; ":"; "-"])
  | _ => false
  end.
Definition request_id_match (s : string) : bool :=
  let cs := chars s in
  let cs := if bool_decide (last cs = Some nl) then take (length cs - 1) cs else cs in
  (1 <=? length cs)%nat && (length cs <=? 128)%nat && forallb id_char cs.

(** [identifier] *)
Definition identifier (value : option string) : option string :=
  match value with Some v => if request_id_match v then Some v else None | None => None end.

(** [request_id]; [digest] is the hash of the parts, its first 40 digits. *)
Definition request_id (digest : list string -> string) (prefix : string) (parts : list string) : string :=
  let raw := py_join ":" (prefix :: parts) in
  if request_id_match raw then raw else (prefix +:+ ":" +:+ digest parts)%string.

(** [_outcome] *)
Definition outcome_of_results (results : list CommandResult) : DeviceOutcome :=
  let last_state := default None (cr_state <$> last results) in
  match List.find (fun r => bool_decide (r.(cr_status) = "failed")) results with
  | Some failed => mkOutcome "failed" failed.(cr_code) last_state None
  | None =>
      if bool_decide (results = []) || existsb (fun r => bool_decide (r.(cr_status) = "unknown")) results then UNKNOWN
      else
        match last (List.filter (fun r => bool_decide (r.(cr_status) = "delegated")) results) with
        | Some r => mkOutcome "delegated" None None r.(cr_platform_answer)
        | None => mkOutcome "succeeded" None last_state None
        end
  end.

(** [reported]: the results per device *)
Definition group_results (results : list CommandResult) : list (string * list CommandResult) :=
  fold_left (fun d r => dict_set d r.(cr_device_id) (default [] (dict_get d r.(cr_device_id)) ++ [r])) results [].

(** [HomeActuator.execute] after the reply *)
Definition read_result (plan : CommandPlan) (request_id : string) (result : ExecuteResult) : res Execution :=
  let expected := map pt_device_id (List.filter (fun t => if t.(pt_rejected) is Some _ then false else true) plan.(pl_targets)) in
  let unconfirmed := mkExecution (map (fun d => (d, UNKNOWN)) (dedup_keys expected)) None in
  if negb (bool_decide (result.(xs_request_id) = request_id)) then Ok unconfirmed
  else
    match result.(xs_error) with
    | Some e => Ok (mkExecution [] (Some e))
    | None =>
        let reported := group_results result.(xs_results) in
        if plan.(pl_scene) is Some _ then Ok (mkExecution (map (fun '(d, items) => (d, outcome_of_results items)) reported) None)
        else
          match validate_execute_result plan.(pl_commands) result with
          | Err e => if is_value_error e then Ok unconfirmed else Err e
          | Ok _ =>
              Ok (mkExecution (map (fun d => (d, outcome_of_results (default [] (dict_get reported d)))) (dedup_keys expected)) None)
          end
    end.
Definition unconfirmed (plan : CommandPlan) : Execution :=
  let expected := map pt_device_id (List.filter (fun t => if t.(pt_rejected) is Some _ then false else true) plan.(pl_targets)) in
  mkExecution (map (fun d => (d, UNKNOWN)) (dedup_keys expected)) None.
End Planning.
