(* ===== verification/HomeMessages.v ===== *)
(** * What the smart home says: [domain/smarthome/messages.py], and the addressing of devices
      by name, area and type, [addressing.py]. *)

From Stdlib Require Import SpecFloat.
From S2P Require Import Prelude CoreTypes Json Effects Presentation HomePlanning.

Definition MAX_MESSAGE : nat := 120.
Definition NOT_UNDERSTOOD : string := "没听明白，换个说法试试".
Definition UNRELATED : string := "这里只处理家里的设备".
Definition UNAVAILABLE : string := "暂时连不上家居服务".
Definition NO_SUCH_DEVICE : string := "家里没有这个设备".
Definition MODE_LABELS : list (string * string) := [("cool", "制冷"); ("heat", "制热"); ("auto", "自动"); ("fan", "送风"); ("dry", "除湿")].
Definition RUN_STATES : list (string * string) := [("idle", "待机"); ("running", "运行中"); ("paused", "已暂停"); ("docked", "在充电座上")].

Definition clip (text : string) : string :=
  if (py_len text <=? MAX_MESSAGE)%nat then text else (py_take (MAX_MESSAGE - 1) text +:+ "…")%string.
Definition names (items : list string) : string := py_join "、" items.
Definition not_found (mention : option string) : string :=
  if opt_truthy mention then clip ("家里没有" +:+ default "" mention)%string else NO_SUCH_DEVICE.
Definition choose_one (candidate_names : list string) : string := clip (names candidate_names +:+ "，要哪一个？")%string.

Lemma py_len_cons a s : py_len (String a s) = (py_len s + match s with String b _ => if continuation_byte b then 0 else 1 | "" => 1 end)%nat.
Proof.
  unfold py_len. assert (forall s, s <> "" -> exists b c cs, chars s = String b c :: cs /\ exists s', s = String b s') as Hc.
  { clear. intros [|b s] Hs; [done|]. simpl. destruct (chars s) as [|[|b' c'] cs]; eauto 6. destruct (continuation_byte b'); eauto 6. }
  destruct s as [|b s]; [done|]. destruct (Hc (String b s)) as (b' & c & cs & E & s' & [= -> ->]); [done|].
  change (chars (String a (String b' s'))) with (match chars (String b' s') with
    | String b c :: cs => if continuation_byte b then String a (String b c) :: cs else String a "" :: String b c :: cs
    | cs => String a "" :: cs end). rewrite E. destruct (continuation_byte b'); simpl; lia.
Qed.

Lemma py_len_app s t : (py_len (s +:+ t) <= py_len s + py_len t)%nat.
Proof.
  induction s as [|a s IH]; [change (py_len t <= 0 + py_len t)%nat; lia|]. change (String a s +:+ t)%string with (String a (s +:+ t)).
  rewrite !py_len_cons. destruct s as [|b s].
  - change ("" +:+ t)%string with t. change (py_len "") with 0%nat. destruct t as [|b t]; [simpl; lia|]. destruct (continuation_byte b); lia.
  - change ((String b s +:+ t)%string) with (String b (s +:+ t)) in *. cbn iota. destruct (continuation_byte b); lia.
Qed.

Lemma chars_one s c : c ∈ chars s -> (py_len c <= 1)%nat.
Proof.
  revert c. induction s as [|a s IH]; intros c; simpl; [by intros ?%elem_of_nil|].
  destruct (chars s) as [|[|b c'] cs].
  - intros ->%list_elem_of_singleton. vm_compute. done.
  - intros [->|Hc]%elem_of_cons; [by vm_compute|by apply IH].
  - destruct (continuation_byte b) eqn:Eb; intros [->|Hc]%elem_of_cons.
    + rewrite py_len_cons, Eb. specialize (IH (String b c')). rewrite Nat.add_0_r. apply IH. by left.
    + apply IH. by right.
    + vm_compute. done.
    + by apply IH.
Qed.

Lemma py_len_cat l : Forall (fun c => py_len c <= 1)%nat l -> (py_len (cat l) <= length l)%nat.
Proof. induction 1 as [|c l Hc Hl IH]; simpl; [done|]. pose proof (py_len_app c (cat l)). lia. Qed.

(** A message fits the panel. *)
Lemma clip_fits text : (py_len (clip text) <= MAX_MESSAGE)%nat.
Proof.
  unfold clip. destruct (Nat.leb_spec (py_len text) MAX_MESSAGE) as [Hl|Hl]; [done|].
  etransitivity; [apply py_len_app|]. replace (py_len "…") with 1%nat by (vm_compute; reflexivity).
  assert (py_len (py_take (MAX_MESSAGE - 1) text) <= MAX_MESSAGE - 1)%nat; [|unfold MAX_MESSAGE in *; lia].
  unfold py_take. etransitivity; [apply py_len_cat|rewrite length_take; lia].
  apply Forall_forall. intros c Hc. apply (chars_one text). by apply (elem_of_take) in Hc as (i & Hi%list_elem_of_lookup_2 & _).
Qed.

(** [s.endswith(suffix)] *)
Definition py_endswith (suffix s : string) : bool :=
  let cs := chars s in bool_decide (cat (drop (length cs - py_len suffix) cs) = suffix).
(** [s.lstrip(c)] for one character *)
Fixpoint lstrip_chars (c : string) (l : list string) : list string :=
  match l with x :: l' => if bool_decide (x = c) then lstrip_chars c l' else l | [] => [] end.
Definition py_lstrip (c s : string) : string := cat (lstrip_chars c (chars s)).

Record DeviceStatus := mkStatus { ds_online : bool; ds_state : list (string * pyval) }.

(** ** Addressing *)

Record Address := mkAddress { ad_name : option string; ad_area : option string; ad_device_type : option string; ad_all : bool }.
Definition address_empty (a : Address) : bool := negb (opt_truthy a.(ad_name) || opt_truthy a.(ad_area) || opt_truthy a.(ad_device_type)).
Inductive Resolution := Resolved (devices : list Device) | Ambiguous (devices : list Device) | NotFound.

Section Addressing.
Context (casefold : string -> string).

(** [_key] *)
Definition address_key (value : string) : string := casefold (cat (py_split value)).
Definition named (key : string) (d : Device) : bool :=
  bool_decide (key = address_key d.(hd_device_id)) || bool_decide (key = address_key d.(hd_name))
  || bool_decide (key ∈ map address_key d.(hd_aliases)).
Definition in_area (area_id : string) (d : Device) : bool := bool_decide (d.(hd_area_id) = Some area_id).

(** The devices an address leaves, [None] for an unknown area *)
Definition address_pool (registry : Registry) (a : Address) : option (list Device) :=
  let pool := registry.(rg_devices) in
  let pool := if opt_truthy a.(ad_name) then List.filter (named (address_key (default "" a.(ad_name)))) pool else pool in
  pool ← (if opt_truthy a.(ad_area) then
            let key := address_key (default "" a.(ad_area)) in
            area ← List.find (fun x => bool_decide (key = x.(ha_area_id)) || bool_decide (key = address_key x.(ha_name))) registry.(rg_areas);
            Some (List.filter (in_area area.(ha_area_id)) pool)
          else Some pool);
  Some (if opt_truthy a.(ad_device_type) then List.filter (fun d => bool_decide (Some d.(hd_type) = a.(ad_device_type))) pool else pool).

(** [resolve_address] *)
Definition resolve_address (registry : Registry) (a : Address) (origin_area : option string) : Resolution :=
  match address_pool registry a with
  | None => NotFound
  | Some pool =>
      if address_empty a || bool_decide (length pool = 0%nat) then NotFound
      else if bool_decide (length pool = 1%nat) || a.(ad_all) then Resolved pool
      else
        match origin_area with
        | Some area_id =>
            if opt_truthy a.(ad_area) then Ambiguous pool
            else
              match List.filter (in_area area_id) pool with
              | [d] => Resolved [d]
              | [] => Ambiguous pool
              | local => Ambiguous local
              end
        | None => Ambiguous pool
        end
  end.
End Addressing.

Section Messages.
Context `{HomeSdk} (float_of : string -> spec_float) (str_repr : string -> string).
Notation str := (py_str str_repr).

(** [_num] *)
Definition num_text (value : pyval) : string :=
  match value with
  | VFloat r => match integral (float_of r) with Some z => int_str z | None => r end
  | _ => str value
  end.

(** [state.get(k)] that is not [None] *)
Definition state_get (k : string) (state : list (string * pyval)) : option pyval :=
  match dict_get state k with Some VNone | None => None | Some v => Some v end.
(** [d[k]] *)
Definition item (d : list (string * pyval)) (k : string) : res pyval :=
  match dict_get d k with Some v => Ok v | None => Err (PyError "KeyError" k) end.

(** [_positive]; [params] as a dict *)
Definition positive (params : list (string * pyval)) : bool :=
  match dict_get params "delta" with Some d => is_number float_of d && is_positive float_of d | None => false end.

(** [not low <= v <= high] *)
Definition outside (v low high : pyval) : bool :=
  match as_num float_of v, as_num float_of low, as_num float_of high with
  | Some x, Some l, Some h => negb (num_leb l x && num_leb x h)
  | _, _, _ => false
  end.

(** The limits of one parameter, and their unit *)
Definition limits (kind : string) (action : Action) (name : string) (spec : ParamSpec) : res (ParamSpec * string) :=
  if bool_decide ((action.(ac_trait), action.(ac_command), name) = ("thermostat", "set_target", "celsius")) then
    match dict_get DEVICE_TYPES kind with
    | None => Err (PyError "KeyError" kind)
    | Some t =>
        Ok (match t.(ty_target_c) with Some (low, high) => (Some low, Some high, "°C") | None => (spec, "") end)
    end
  else Ok (spec, "").

(** [value_question] *)
Fixpoint value_question_slots (name kind : string) (action : Action) (params : list (string * ParamSpec)) (slots : list Slot) : res string :=
  match slots with
  | [] => Ok (clip (name +:+ "不支持这个数值，请换一个数值")%string)
  | slot :: rest =>
      match dict_get params slot.(sl_name) with
      | None => value_question_slots name kind action params rest
      | Some spec =>
          if negb (is_number float_of slot.(sl_value)) then value_question_slots name kind action params rest
          else
            bounds ← limits kind action slot.(sl_name) spec;
            match bounds with
            | ((Some low, Some high), unit_) =>
                if outside slot.(sl_value) low high
                then Ok (clip (name +:+ "只能设在 " +:+ num_text low +:+ "–" +:+ num_text high +:+ unit_ +:+ "，要设为多少？")%string)
                else value_question_slots name kind action params rest
            | _ => value_question_slots name kind action params rest
            end
      end
  end.
Definition value_question (name kind : string) (action : Action) : res string :=
  value_question_slots name kind action (default [] (command_params action)) action.(ac_slots).

(** *** States *)

Definition dict_has_value (state : list (string * pyval)) (k : string) : bool := if state_get k state is Some _ then true else false.
Definition suffixed (prefix : string) (v : pyval) (suffix : string) : string := (prefix +:+ str v +:+ suffix)%string.

(** What [state_text] adds to [开着] *)
Definition on_detail (kind : string) (state : list (string * pyval)) : string :=
  if bool_decide (kind = "light") && dict_has_value state "level" then suffixed "亮度 " (default VNone (state_get "level" state)) "%"
  else if bool_decide (kind = "climate") then
    let mode := default "" (dict_get MODE_LABELS (str (default VNone (dict_get state "mode")))) in
    let target := match state_get "target_c" state with Some v => (num_text v +:+ "°C")%string | None => "" end in
    let detail := py_strip (mode +:+ " " +:+ target)%string in
    match state_get "current_c" state with
    | Some v => py_lstrip "，" (detail +:+ "，室温 " +:+ num_text v +:+ "°C")%string
    | None => detail
    end
  else if bool_decide (kind = "water_heater") && dict_has_value state "target_c" then (num_text (default VNone (state_get "target_c" state)) +:+ "°C")%string
  else if bool_decide (kind = "fan") && dict_has_value state "speed" then suffixed "风速 " (default VNone (state_get "speed" state)) "%"
  else if bool_decide (kind = "media") && dict_has_value state "volume" then
    (suffixed "音量 " (default VNone (state_get "volume" state)) "" +:+ (if get_truthy (dict_get state "muted") then "，已静音" else ""))%string
  else "".

(** [state_text] *)
Definition state_text (kind : string) (state : list (string * pyval)) : string :=
  if bool_decide (kind = "sensor") then
    let parts :=
      match state_get "temp_c" state with Some v => [(num_text v +:+ "°C")%string] | None => [] end
      ++ match state_get "humidity" state with Some v => [("湿度 " +:+ num_text v +:+ "%")%string] | None => [] end in
    str_or (py_join "，" parts) "暂无读数"
  else if bool_decide (kind = "cover") then
    match state_get "position" state with
    | None => ""
    | Some v => if equals_int float_of v 0 then "关着" else if equals_int float_of v 100 then "全开" else suffixed "开了 " v "%"
    end
  else if bool_decide (kind = "appliance") then default "" (dict_get RUN_STATES (str (default VNone (dict_get state "run_state"))))
  else if bool_decide (kind = "lock") then
    match state_get "locked" state with None => "" | Some v => if truthy v then "已上锁" else "没锁" end
  else
    match state_get "on" state with
    | None => ""
    | Some v =>
        if negb (truthy v) then "关着"
        else
          let detail := on_detail kind state in
          if is_empty detail then "开着" else ("开着，" +:+ detail)%string
    end.

(** [describe] *)
Definition describe (device : Device) (status : option DeviceStatus) : string :=
  match status with
  | None => (device.(hd_name) +:+ " 状态未知")%string
  | Some st =>
      let text := state_text device.(hd_type) st.(ds_state) in
      if negb st.(ds_online) then
        (if is_empty text then device.(hd_name) +:+ " 离线" else device.(hd_name) +:+ " 离线（上次：" +:+ text +:+ "）")%string
      else (if is_empty text then device.(hd_name) +:+ " 在线" else device.(hd_name) +:+ " " +:+ text)%string
  end.

(** *** Executions *)

(** [failure] *)
Definition failure (name : string) (code : option string) (kind : string) : string :=
  let is_code c := bool_decide (code = Some c) in
  if is_code ERROR_DEVICE_OFFLINE then (name +:+ " 离线，没有执行")%string
  else if is_code ERROR_OUT_OF_RANGE then
    match dict_get DEVICE_TYPES kind with
    | Some spec =>
        match spec.(ty_target_c) with
        | Some (low, high) => (name +:+ " 只能设在 " +:+ num_text low +:+ "–" +:+ num_text high +:+ "°C")%string
        | None => (name +:+ " 不支持这个数值")%string
        end
    | None => (name +:+ " 不支持这个数值")%string
    end
  else if is_code ERROR_UNSUPPORTED_COMMAND || is_code ERROR_INVALID_PARAMS then (name +:+ " 不支持这个操作")%string
  else if is_code ERROR_UNKNOWN_DEVICE then (name +:+ " 已不在家居列表里")%string
  else if is_code ERROR_DEADLINE_EXCEEDED then (name +:+ " 超时，没有执行")%string
  else if is_code TOO_MANY_COMMANDS then "一次要控制的设备太多了"
  else (name +:+ " 没有执行")%string.

(** [_scene_label] *)
Definition scene_label (name : string) : string :=
  if py_endswith "模式" name || py_endswith "场景" name then name else (name +:+ "模式")%string.

(** [_refused] *)
Definition refused (plan : CommandPlan) (code : string) : string :=
  let subject :=
    match plan.(pl_scene) with
    | Some s => scene_label s.(sc_name)
    | None => names (map pt_name (List.filter (fun t => if t.(pt_rejected) is Some _ then false else true) plan.(pl_targets)))
    end in
  if bool_decide (code = ERROR_UNKNOWN_SCENE) then (subject +:+ " 已不存在，没有执行")%string else failure subject (Some code) "".

(** [done_phrase]: what it takes from the parameters may be missing. *)
Definition stepped (subject key what up down unit_ : string) (params state : list (string * pyval)) (num_ : bool) : string :=
  match state_get key state with
  | Some v => (subject +:+ " " +:+ what +:+ "已调到 " +:+ (if num_ then num_text v else str v) +:+ unit_)%string
  | None => ("已调" +:+ (if positive params then up else down) +:+ subject +:+ what)%string
  end.
Definition simple_phrases (subject : string) : list (string * string * string) :=
  [("lock", "lock", (subject +:+ " 已上锁")%string); ("lock", "unlock", (subject +:+ " 已开锁")%string);
   ("operational", "start", (subject +:+ " 已启动")%string); ("operational", "pause", (subject +:+ " 已暂停")%string);
   ("operational", "stop", (subject +:+ " 已停止")%string); ("operational", "dock", (subject +:+ " 正在回充")%string);
   ("position", "stop", (subject +:+ " 已停止")%string)].
Definition done_phrase (subject : string) (command : Command) (state : option (list (string * pyval))) : res string :=
  let key := (command.(cm_trait), command.(cm_command)) in
  let params := command.(cm_params) in
  let state := default [] state in
  let is_key (l : list (string * string)) := bool_decide (key ∈ l) in
  if is_key [("on_off", "on"); ("position", "open")] then Ok ("已打开" +:+ subject)%string
  else if is_key [("on_off", "off"); ("position", "close")] then Ok ("已关闭" +:+ subject)%string
  else if is_key [("on_off", "toggle")] then Ok ("已切换" +:+ subject)%string
  else if is_key [("level", "set"); ("position", "set")] then v ← item params "value"; Ok (subject +:+ " 已调到 " +:+ str v +:+ "%")%string
  else if is_key [("level", "step")] then Ok (stepped subject "level" "" "亮" "暗" "%" params state false)
  else if is_key [("thermostat", "set_target")] then v ← item params "celsius"; Ok (subject +:+ " 已设为 " +:+ num_text v +:+ "°C")%string
  else if is_key [("thermostat", "step")] then
    Ok (match state_get "target_c" state with
        | Some v => (subject +:+ " 已调到 " +:+ num_text v +:+ "°C")%string
        | None => ("已调" +:+ (if positive params then "高" else "低") +:+ subject +:+ "温度")%string
        end)
  else if is_key [("thermostat", "set_mode")] then
    v ← item params "mode";
    Ok (subject +:+ " 已切换到" +:+ default (str v) (dict_get MODE_LABELS (str v)))%string
  else if is_key [("fan_speed", "step")] then Ok (stepped subject "speed" "风速" "大" "小" "%" params state false)
  else if is_key [("fan_speed", "set")] then v ← item params "value"; Ok (subject +:+ " 风速已调到 " +:+ str v +:+ "%")%string
  else if is_key [("volume", "set")] then v ← item params "value"; Ok (subject +:+ " 音量已调到 " +:+ str v)%string
  else if is_key [("volume", "step")] then Ok (stepped subject "volume" "音量" "大" "小" "" params state false)
  else if is_key [("volume", "mute")] then Ok (subject +:+ (if get_truthy (dict_get params "muted") then " 已静音" else " 已取消静音"))%string
  else
    Ok (match List.find (fun x => bool_decide (x.1 = key)) (simple_phrases subject) with
        | Some x => x.2
        | None => (subject +:+ " 已执行")%string
        end).

(** [_done_message]: a device that did something has a last command. *)
Definition last_command (t : PlannedTarget) : res Command :=
  match last t.(pt_commands) with Some c => Ok c | None => Err (PyError "IndexError" "tuple index out of range") end.
Definition same_command (c d : Command) : bool :=
  bool_decide (c.(cm_trait) = d.(cm_trait)) && bool_decide (c.(cm_command) = d.(cm_command)) && params_eqb float_of c.(cm_params) d.(cm_params).
Definition done_message (done : list PlannedTarget) (outcomes : list (string * DeviceOutcome)) : res string :=
  commands ← mapM last_command done;
  match commands with
  | [] => Err (PyError "IndexError" "list index out of range")
  | first :: _ =>
      if forallb (fun c => same_command c first) commands && negb (bool_decide (first.(cm_command) = "step"))
      then done_phrase (names (map pt_name done)) first None
      else
        phrases ← mapM (fun t => c ← last_command t;
                                 done_phrase t.(pt_name) c (default None (do_state <$> dict_get outcomes t.(pt_device_id)))) done;
        Ok (py_join "；" phrases)
  end.

(** [_delegated_message] *)
Definition delegated_message (delegated : list PlannedTarget) (outcomes : list (string * DeviceOutcome)) : string :=
  let answers := omap (fun t => match dict_get outcomes t.(pt_device_id) with
                                | Some o => if opt_truthy o.(do_answer) then o.(do_answer) else None
                                | None => None
                                end) delegated in
  let subject := names (map pt_name delegated) in
  match answers with
  | a :: rest =>
      if forallb (fun b => bool_decide (b = a)) rest then (subject +:+ " 已交给平台，平台回复：" +:+ a)%string
      else (subject +:+ " 已交给平台处理")%string
  | [] => (subject +:+ " 已交给平台处理")%string
  end.

(** [_scene_message] *)
Definition scene_message (scene : Scene) (done unknown : list PlannedTarget) (problems : list string) : string :=
  let label := scene_label scene.(sc_name) in
  if negb (bool_decide (done = [])) && bool_decide (unknown = []) && bool_decide (problems = []) then ("已执行" +:+ label)%string
  else if bool_decide (done = []) && bool_decide (problems = []) then ("没收到确认，" +:+ label +:+ "可能没有执行")%string
  else
    let parts :=
      (if bool_decide (done = []) then [] else [(label +:+ "：完成 " +:+ int_str (Z.of_nat (length done)) +:+ " 项")%string])
      ++ dedup_keys problems
      ++ (if bool_decide (unknown = []) then [] else [(names (map pt_name unknown) +:+ " 没收到确认")%string]) in
    (if bool_decide (done = []) then label +:+ "：" +:+ py_join "，" parts else py_join "，" parts)%string.

(** The loop of [summarize]: who did it, was given it, did not confirm, and what went wrong *)
Record Tally := mkTally { ta_done : list PlannedTarget; ta_delegated : list PlannedTarget; ta_unknown : list PlannedTarget; ta_problems : list string }.
Definition tally_one (outcomes : list (string * DeviceOutcome)) (a : Tally) (t : PlannedTarget) : Tally :=
  match t.(pt_rejected) with
  | Some code => mkTally a.(ta_done) a.(ta_delegated) a.(ta_unknown) (a.(ta_problems) ++ [failure t.(pt_name) (Some code) t.(pt_kind)])
  | None =>
      let outcome := default UNKNOWN (dict_get outcomes t.(pt_device_id)) in
      if bool_decide (outcome.(do_status) = "succeeded") then mkTally (a.(ta_done) ++ [t]) a.(ta_delegated) a.(ta_unknown) a.(ta_problems)
      else if bool_decide (outcome.(do_status) = "delegated") then mkTally a.(ta_done) (a.(ta_delegated) ++ [t]) a.(ta_unknown) a.(ta_problems)
      else if bool_decide (outcome.(do_status) = "failed") then
        mkTally a.(ta_done) a.(ta_delegated) a.(ta_unknown) (a.(ta_problems) ++ [failure t.(pt_name) outcome.(do_code) t.(pt_kind)])
      else mkTally a.(ta_done) a.(ta_delegated) (a.(ta_unknown) ++ [t]) a.(ta_problems)
  end.
Definition summarized_targets (plan : CommandPlan) (execution : Execution) : list PlannedTarget :=
  match plan.(pl_scene) with
  | Some _ =>
      match map (fun '(d, _) => default (mkPlannedTarget d d "" [] None) (dict_get plan.(pl_known) d)) execution.(ex_outcomes) with
      | [] => plan.(pl_targets)
      | reported => reported
      end
  | None => plan.(pl_targets)
  end.
Definition tally (plan : CommandPlan) (execution : Execution) : Tally :=
  fold_left (tally_one execution.(ex_outcomes)) (summarized_targets plan execution) (mkTally [] [] [] []).
Definition completion_of (a : Tally) : string :=
  if bool_decide (a.(ta_done) = []) && bool_decide (a.(ta_delegated) = []) then "none"
  else if bool_decide (a.(ta_unknown) = []) && bool_decide (a.(ta_problems) = []) then "complete" else "partial".

(** [summarize] *)
Definition summarize (plan : CommandPlan) (execution : Execution) : res (string * string) :=
  match execution.(ex_error) with
  | Some code => Ok ("none", clip (refused plan code))
  | None =>
      let a := tally plan execution in
      match plan.(pl_scene) with
      | Some scene => Ok (completion_of a, clip (scene_message scene (a.(ta_done) ++ a.(ta_delegated)) a.(ta_unknown) a.(ta_problems)))
      | None =>
          done ← (if bool_decide (a.(ta_done) = []) then Ok [] else m ← done_message a.(ta_done) execution.(ex_outcomes); Ok [m]);
          let parts :=
            done
            ++ (if bool_decide (a.(ta_delegated) = []) then [] else [delegated_message a.(ta_delegated) execution.(ex_outcomes)])
            ++ dedup_keys a.(ta_problems)
            ++ (if bool_decide (a.(ta_unknown) = []) then [] else [("没收到确认，" +:+ names (map pt_name a.(ta_unknown)) +:+ "可能没有执行")%string]) in
          Ok (completion_of a, clip (str_or (py_join "；" parts) NOT_UNDERSTOOD))
      end
  end.

(** [action_phrase] *)
Definition action_phrase (action : Action) : string :=
  let key := (action.(ac_trait), action.(ac_command)) in
  let params := slot_values (fun _ => true) action.(ac_slots) in
  let simple := [("on_off", "on", "打开"); ("on_off", "off", "关闭"); ("position", "open", "打开"); ("position", "close", "关上");
                 ("operational", "start", "启动"); ("operational", "stop", "停止"); ("operational", "pause", "暂停")] in
  match List.find (fun x => bool_decide (x.1 = key)) simple with
  | Some x => x.2
  | None =>
      if bool_decide (action.(ac_command) = "step") && match dict_get params "delta" with Some d => is_number float_of d | None => false end then
        let up := positive params in
        default "" (dict_get [("level", if up then "调亮" else "调暗"); ("thermostat", if up then "调高温度" else "调低温度");
                              ("volume", if up then "调大音量" else "调小音量")] action.(ac_trait))
      else
        match bool_decide (key = ("thermostat", "set_target")), dict_get params "celsius" with
        | true, Some v => ("设为" +:+ num_text v +:+ "°C")%string
        | _, _ =>
            match bool_decide (key = ("thermostat", "set_mode")), dict_get params "mode" with
            | true, Some (VStr m) => match dict_get MODE_LABELS m with Some l => ("切换到" +:+ l +:+ "模式")%string | None => "" end
            | _, _ =>
                match bool_decide (action.(ac_command) = "set"), dict_get params "value" with
                | true, Some v =>
                    match dict_get [("level", "亮度调到"); ("position", "开到"); ("fan_speed", "风速调到"); ("volume", "音量调到")] action.(ac_trait) with
                    | Some prefix => (prefix +:+ num_text v +:+ (if bool_decide (action.(ac_trait) = "volume") then "" else "%"))%string
                    | None => ""
                    end
                | _, _ => ""
                end
            end
        end
  end.
End Messages.
