(* ===== verification/HomeCommand.v ===== *)
(** * One spoken home command: [domain/smarthome/context.py], [command.py] and the execution of
      [planning.py], with the sessions of [app/smarthome/].

    The directory, the interpreter, the language model behind the fallback and the executor
    answer at numbered awaits. An await takes time, and meanwhile others may change the home
    context of the session ([hw_interfere]): close it, or start a newer input. Time is the
    monotonic clock in microseconds. *)

From Stdlib Require Import SpecFloat.
From S2P Require Import Prelude CoreTypes Json Effects Presentation HomePlanning HomeMessages.
#[local] Open Scope eff_scope.

(** ** [context.py] *)

Record HomeClarification := mkClarification { hc_question : string; hc_targets : list string; hc_action : option Action }.
Inductive HomeUnderstanding :=
  | UnderstoodProposal (p : Proposal)
  | UnderstoodClarification (c : HomeClarification)
  | UnderstoodCancellation
  | NotUnderstood.

Record HomeContext := mkHomeContext {
  hx_history_limit : Z;
  hx_history : list pyval;
  hx_outcome : string;
  hx_utterance : string;
  hx_proposal : option Proposal;
  hx_question : option string;
  hx_clarification : option HomeClarification;
  hx_response : string;
  hx_pending_action : string;
  hx_pending : bool;
  hx_expires_at : Z;
  hx_active : bool;
  hx_revision : Z;
}.

(** [HomeContext(history_limit=...)]; [__post_init__] checks the limit. *)
Definition new_context (history_limit : Z) : HomeContext := mkHomeContext history_limit [] "" "" None None None "" "" false 0 true 0.
Definition context_check (history_limit : Z) : res unit :=
  if (1 <=? history_limit) && (history_limit <=? 5) then Ok tt else Err (PyError "ValueError" "history_limit must be 1..5").

(** [clear] *)
Definition clear (preserve_history : bool) (c : HomeContext) : HomeContext :=
  mkHomeContext c.(hx_history_limit) (if preserve_history then c.(hx_history) else []) "" "" None None None "" "" false 0
    c.(hx_active) c.(hx_revision).

Definition CONTEXT_TTL_US : Z := 30000000.

(** The arguments of [remember] *)
Record Memo := mkMemo {
  mo_proposal : option Proposal;
  mo_question : option string;
  mo_clarification : option HomeClarification;
  mo_response : string;
  mo_pending_action : string;
  mo_outcome : string;
}.

Section Context.
(** [model_dump(mode="json")] *)
Context (dump_proposal : Proposal -> pyval) (dump_action : Action -> pyval).

Definition memo_outcome (m : Memo) : string := str_or m.(mo_outcome) (if m.(mo_question) is Some _ then "clarification" else "answered").

(** [remember] *)
Definition remember (now : Z) (utterance : string) (m : Memo) (c : HomeContext) : HomeContext :=
  let entry :=
    VDict [("utterance", VStr (py_take 512 utterance));
           ("response", VStr (str_or (py_take 512 m.(mo_response)) (py_take 512 (default "" m.(mo_question)))));
           ("outcome", VStr (memo_outcome m));
           ("proposal", if m.(mo_proposal) is Some p then dump_proposal p else VNone)] in
  mkHomeContext c.(hx_history_limit) (py_tail c.(hx_history_limit) (c.(hx_history) ++ [entry])) (memo_outcome m) utterance m.(mo_proposal)
    m.(mo_question) m.(mo_clarification) m.(mo_response) m.(mo_pending_action) (if m.(mo_question) is Some _ then true else false)
    (now + CONTEXT_TTL_US) c.(hx_active) c.(hx_revision).

(** [snapshot]: what it returns, and the context it leaves *)
Definition context_snapshot (now : Z) (c : HomeContext) : option (list (string * pyval)) * HomeContext :=
  if negb c.(hx_active) || (c.(hx_expires_at) <=? now) then (None, clear false c)
  else
    (Some [("history", VList c.(hx_history));
           ("outcome", VStr c.(hx_outcome));
           ("previous_utterance", VStr c.(hx_utterance));
           ("proposal", if c.(hx_proposal) is Some p then dump_proposal p else VNone);
           ("pending", VBool c.(hx_pending));
           ("question", of_opt_str c.(hx_question));
           ("response", VStr c.(hx_response));
           ("pending_action", VStr c.(hx_pending_action));
           ("known_targets", VList (match c.(hx_clarification) with Some q => map VStr q.(hc_targets) | None => [] end));
           ("known_action", match c.(hx_clarification) with
                            | Some q => if q.(hc_action) is Some a then dump_action a else VNone
                            | None => VNone
                            end)], c).
End Context.

(** ** The world of a command *)

Record HomeSnapshot := mkHomeSnapshot { hs_registry : Registry; hs_status : list (string * DeviceStatus) }.

Record HomeWorld := mkHomeWorld {
  hw_snapshot : nat -> string -> res HomeSnapshot;
  hw_interpret : nat -> InterpretationRequest -> res InterpretationResult;
  hw_fallback : option (nat -> InterpretationRequest -> option (list (string * pyval)) -> res HomeUnderstanding);
  hw_execute : nat -> string -> ExecuteRequest -> res ExecuteResult;
  (** what an await takes, and what happens meanwhile *)
  hw_elapsed_us : nat -> Z;
  hw_interfere : nat -> HomeContext -> HomeContext;
  (** [time.time() * 1000] *)
  hw_wall_ms : nat -> Z;
}.

(** What a command did to the outside *)
Inductive home_act :=
  | HaSnapshot (home : HomeSnapshot)
  | HaInterpreted (request : InterpretationRequest) (result : InterpretationResult)
  | HaSuggested (request : InterpretationRequest) (suggested : HomeUnderstanding)
  (** a submitted request, with the context of the session at that moment *)
  | HaExecute (owner_id : string) (request : ExecuteRequest) (context : HomeContext)
  | HaReply (result : ExecuteResult).

Record HState := mkHState { hh_context : HomeContext; hh_now : Z; hh_awaits : nat; hh_log : list home_act }.
Notation HM := (M HState).

Definition on_context (f : HomeContext -> HomeContext) : HM unit :=
  mmodify (fun s => mkHState (f s.(hh_context)) s.(hh_now) s.(hh_awaits) s.(hh_log)).
Definition act (a : home_act) : HM unit := mmodify (fun s => mkHState s.(hh_context) s.(hh_now) s.(hh_awaits) (s.(hh_log) ++ [a])).

Definition MAX_CANDIDATES : nat := 8.
Definition MAX_UTTERANCE : nat := 512.
Definition MAX_SHOWN : nat := 200.

(** [interpretation_request] *)
Definition device_candidate (d : Device) : HomeCandidate :=
  mkHomeCandidate d.(hd_device_id) d.(hd_name) d.(hd_aliases) d.(hd_type) d.(hd_area_id).

Section Command.
Context `{HomeSdk} (float_of : string -> spec_float) (str_repr : string -> string) (digest : list string -> string).
Context (dump_proposal : Proposal -> pyval) (dump_action : Action -> pyval).
Context (w : HomeWorld).
(** The constructor's arguments *)
Context (interpretation_timeout_ms execute_deadline_ms fallback_timeout_us : Z) (min_confidence : num).

Definition interpretation_request (registry : Registry) (interpretation_id utterance : string) (device_ref : option string) (timeout_ms : Z)
  : res InterpretationRequest :=
  let request :=
    mkInterpretation interpretation_id "smarthome" (py_take MAX_UTTERANCE utterance) device_ref
      (if opt_truthy device_ref then registry_area_of registry (default "" device_ref) else None)
      (map device_candidate registry.(rg_devices) ++ map (fun s => mkHomeCandidate s.(sc_scene_id) s.(sc_name) [] SCENE_KIND None) registry.(rg_scenes))
      registry.(rg_areas) timeout_ms None in
  _ ← check_interpretation request;
  Ok request.

(** An await, and an await under [asyncio.timeout] *)
Definition passes (n : nat) (us : Z) : HM unit :=
  mmodify (fun s => mkHState (w.(hw_interfere) n s.(hh_context)) (s.(hh_now) + us) (S n) s.(hh_log)).
Definition awaiting {A} (f : nat -> res A) : HM A :=
  n <-- mgets hh_awaits ;;
  passes n (w.(hw_elapsed_us) n) ;;;
  mlift (f n).
Definition awaiting_within {A} (limit_us : Z) (f : nat -> res A) : HM A :=
  n <-- mgets hh_awaits ;;
  if w.(hw_elapsed_us) n <? limit_us then passes n (w.(hw_elapsed_us) n) ;;; mlift (f n)
  else passes n (Z.max 0 limit_us) ;;; mraise (PyError "TimeoutError" "").

Definition read_home (owner_id : string) : HM HomeSnapshot :=
  home <-- awaiting (fun n => w.(hw_snapshot) n owner_id) ;;
  act (HaSnapshot home) ;;;
  mret_ home.

(** ** The execution, [HomeActuator.execute] *)

Definition actuate (owner_id : string) (plan : CommandPlan) (rid : string) (origin : ExecuteOrigin) : HM Execution :=
  if (if plan.(pl_scene) is Some _ then false else true) && bool_decide (length plan.(pl_commands) = 0%nat) then mret_ (mkExecution [] None)
  else
    n <-- mgets hh_awaits ;;
    let request := mkExecute rid plan.(pl_commands) (sc_scene_id <$> plan.(pl_scene)) origin (w.(hw_wall_ms) n + execute_deadline_ms) in
    mlift (check_execute request) ;;;
    result <--
      mtry (context <-- mgets hh_context ;;
            act (HaExecute owner_id request context) ;;;
            result <-- awaiting_within (execute_deadline_ms * 1000 + 500000) (fun n => w.(hw_execute) n owner_id request) ;;
            mret_ (Some result))
        (fun e => if raised "TimeoutError" e then Some (mret_ None) else None) ;;
    match result with
    | Some result => act (HaReply result) ;;; mlift (read_result plan rid result)
    | None => mret_ (unconfirmed plan)
    end.

(** ** Understanding *)

(** [_accepted] *)
Definition accepted (request : InterpretationRequest) (result : InterpretationResult) : res (option Proposal) :=
  match result.(is_proposal) with
  | Some p =>
      if negb (bool_decide (result.(is_status) = "decided")) then Ok None
      else match validate_interpretation request result with
           | Ok _ => Ok (Some p)
           | Err e => if is_value_error e then Ok None else Err e
           end
  | None => Ok None
  end.

(** [_confident]; .95 and .99 as binary64 *)
Definition f_0_95 : num := NFloat (S754_finite false 8556839292003942 (-53)).
Definition f_0_99 : num := NFloat (S754_finite false 8917127262193582 (-53)).
Definition num_max (a b : num) : num := if num_ltb a b then b else a.
Definition diagnostic (result : InterpretationResult) (k : string) : option pyval := dict_get result.(is_diagnostics) k.
Definition minimum (result : InterpretationResult) : num :=
  if bool_decide (result.(is_policy_version) = "laya-smarthome-context-v2")
  then num_max min_confidence
         (match diagnostic result "resolution" with
          | Some (VStr r) => if bool_decide (r ∈ ["pick"; "follow"]) then f_0_95 else f_0_99
          | _ => f_0_99
          end)
  else min_confidence.
Definition confidence_keys (p : Proposal) : list string :=
  "intent_p" :: (if bool_decide (p.(pp_intent) = "unrelated") then []
                 else "device_p" :: (if bool_decide (p.(pp_intent) = "control") then ["action_p"] else [])).
Definition confident_value (low : num) (v : option pyval) : bool :=
  match v with
  | Some (VBool _) | None => false
  | Some v => match as_num float_of v with Some x => num_leb low x && num_leb x (NInt 1) | None => false end
  end.
Definition confident (result : InterpretationResult) : bool :=
  match result.(is_proposal) with
  | None => true
  | Some p =>
      let low := minimum result in
      num_eqb low (NInt 0) || forallb (fun k => confident_value low (diagnostic result k)) (confidence_keys p)
  end.

Definition with_context (context : option (list (string * pyval))) (r : InterpretationRequest) : InterpretationRequest :=
  mkInterpretation r.(ir_interpretation_id) r.(ir_domain) r.(ir_utterance) r.(ir_device_ref) r.(ir_area_id) r.(ir_candidates) r.(ir_areas)
    r.(ir_timeout_ms) context.
(** An [InterpretationError] is known by its code. *)
Definition interpretation_error (code : string) : exn := PyError "InterpretationError" code.

(** [_validate_understanding] *)
Definition fallback_result (request : InterpretationRequest) (p : Proposal) : InterpretationResult :=
  mkInterpretationResult request.(ir_interpretation_id) "decided" (Some p) "fallback" "fallback" [].
Definition selection_of (targets : list string) (action : Action) : Proposal := mkHomeProposal "control" "ambiguous" targets (Some action) None.
Definition validate_understanding (request : InterpretationRequest) (suggested : HomeUnderstanding) : res HomeUnderstanding :=
  match suggested with
  | UnderstoodClarification c =>
      let known := map cd_ref request.(ir_candidates) in
      if negb (bool_decide (NoDup c.(hc_targets))) || negb (forallb (fun r => bool_decide (r ∈ known)) c.(hc_targets))
      then Err (interpretation_error ERROR_INVALID_PROPOSAL)
      else
        match c.(hc_action) with
        | Some action =>
            if (2 <=? length c.(hc_targets))%nat then
              let selection := selection_of c.(hc_targets) action in
              _ ← check_proposal selection;
              _ ← check_result (fallback_result request selection);
              ok ← accepted request (fallback_result request selection);
              match ok with
              | None => Err (interpretation_error ERROR_INVALID_PROPOSAL)
              | Some _ => Ok suggested
              end
            else Ok suggested
        | None => Ok suggested
        end
  | UnderstoodProposal p =>
      _ ← check_result (fallback_result request p);
      ok ← accepted request (fallback_result request p);
      match ok with
      | None => Err (interpretation_error ERROR_INVALID_PROPOSAL)
      | Some p => Ok (UnderstoodProposal p)
      end
  | _ => Ok suggested
  end.

(** [_fallback_proposal] *)
Definition fallback_proposal (f : nat -> InterpretationRequest -> option (list (string * pyval)) -> res HomeUnderstanding)
    (request : InterpretationRequest) (context : option (list (string * pyval))) : HM HomeUnderstanding :=
  suggested <--
    mtry (awaiting_within fallback_timeout_us (fun n => f n request context))
      (fun e => if raised "TimeoutError" e then Some (mraise (interpretation_error ERROR_TIMEOUT)) else None) ;;
  act (HaSuggested request suggested) ;;;
  mlift (validate_understanding request suggested).

Definition has_fallback : bool := if w.(hw_fallback) is Some _ then true else false.

(** The [handoff] after an answer of the primary *)
Definition handoff_of (result : InterpretationResult) (expired : bool) : list (string * pyval) :=
  [("model", VStr result.(is_model_version)); ("status", VStr result.(is_status));
   ("proposal", if result.(is_proposal) is Some p then dump_proposal p else VNone);
   ("diagnostics", VDict result.(is_diagnostics));
   ("reason", if expired then VStr "context_expired"
              else if negb (confident result) then VStr "low_confidence"
              else default (VStr "not_accepted") (diagnostic result "reason"))].

(** The primary's turn: what it understood, or what is handed to the fallback *)
Definition ask_primary (request : InterpretationRequest) (context : option (list (string * pyval))) (context_deadline : Z)
  : HM (HomeUnderstanding + list (string * pyval)) :=
  mtry
    (result <-- awaiting_within (request.(ir_timeout_ms) * 1000) (fun n => w.(hw_interpret) n request) ;;
     act (HaInterpreted request result) ;;;
     now <-- mgets hh_now ;;
     let expired := (if context is Some _ then true else false) && (context_deadline <=? now) in
     proposal <-- (if confident result && negb expired then mlift (accepted request result) else mret_ None) ;;
     mret_ (match proposal with
            | Some p =>
                inl (if match diagnostic result "home_decision" with Some (VStr d) => bool_decide (d = "cancelled") | _ => false end then UnderstoodCancellation
                     else UnderstoodProposal p)
            | None => inr (handoff_of result expired)
            end))
    (fun e =>
       if raised "InterpretationError" e then
         (if has_fallback then Some (mret_ (inr [("reason", VStr (exn_str e))])) else None)
       else if raised "TimeoutError" e then
         (if has_fallback then Some (mret_ (inr [("reason", VStr ERROR_TIMEOUT)]))
          else Some (mraise (interpretation_error ERROR_TIMEOUT)))
       else None).

Definition CONTEXT_EXPIRED : HomeClarification := mkClarification "上一轮上下文已过期，请重新说明设备和操作" [] None.

(** [_understand] *)
Definition understand (request : InterpretationRequest) (context : option (list (string * pyval))) (context_deadline : Z) : HM HomeUnderstanding :=
  now <-- mgets hh_now ;;
  let live (now : Z) (context : option (list (string * pyval))) := if context_deadline <=? now then None else context in
  let context := live now context in
  let request := with_context context request in
  primary <-- ask_primary request context context_deadline ;;
  match primary with
  | inl understood => mret_ understood
  | inr handoff =>
      match w.(hw_fallback) with
      | None => mret_ NotUnderstood
      | Some f =>
          now <-- mgets hh_now ;;
          let lost := (if context is Some _ then true else false) && (context_deadline <=? now) in
          let handoff := if lost then [("reason", VStr "context_expired")] else handoff in
          let request := if lost then with_context None request else request in
          let context := live now context in
          understood <-- fallback_proposal f request (Some (dict_set (default [] context) "laya_handoff" (VDict handoff))) ;;
          now <-- mgets hh_now ;;
          mret_ (if (if context is Some _ then true else false) && (context_deadline <=? now) then UnderstoodClarification CONTEXT_EXPIRED
                 else understood)
      end
  end.

(** ** The panel's results *)

Definition SUPERSEDED : string := "本轮已被新的输入替代或会话已结束".
Definition NOT_AVAILABLE : string := "家居指令理解服务暂不可用，请稍后重试".

(** [_Card] *)
Definition card (turn_id utterance outcome message : string) : res VoiceResult :=
  let r := mkVoice turn_id utterance outcome message [] None in
  _ ← check_voice r;
  Ok r.

(** [_answer] *)
Definition answer (turn_id shown : string) (home : HomeSnapshot) (proposal : Proposal) : res VoiceResult :=
  match omap (registry_device home.(hs_registry)) proposal.(pp_targets) with
  | [] => card turn_id shown "failed" NOT_UNDERSTOOD
  | devices =>
      card turn_id shown "answered"
        (clip (py_join "；" (map (fun d => describe float_of str_repr d (dict_get home.(hs_status) d.(hd_device_id))) devices)))
  end.

(** The loop of [_resolve_ambiguity]: who can do it, and who cannot *)
Fixpoint sort_out (registry : Registry) (action : Action) (refs : list string)
  : res (list (Device * Command) * list (Device * string)) :=
  match refs with
  | [] => Ok ([], [])
  | ref :: rest =>
      match registry_device registry ref with
      | None => sort_out registry action rest
      | Some device =>
          match device_command device action with
          | Ok command => later ← sort_out registry action rest; Ok ((device, command) :: later.1, later.2)
          | Err e =>
              if raised "SmartHomeError" e then later ← sort_out registry action rest; Ok (later.1, (device, exn_str e) :: later.2)
              else Err e
          end
      end
  end.

(** [_resolve_ambiguity] *)
Definition resolve_ambiguity (turn_id shown : string) (registry : Registry) (proposal : Proposal) (clarification : option string)
  : res (VoiceResult + Proposal) :=
  match proposal.(pp_action) with
  | None => Err (PyError "AssertionError" "")
  | Some action =>
      sorted ← sort_out registry action proposal.(pp_targets);
      let '(capable, failed) := sorted in
      let say outcome message := r ← card turn_id shown outcome message; Ok (inl r) in
      match (if (length capable <? 2)%nat then clarification else None) with
      | Some question => say "clarification" question
      | None =>
          match capable with
          | [] =>
              match failed with
              | (device, code) :: _ => say "failed" (failure float_of str_repr device.(hd_name) (Some code) device.(hd_type))
              | [] => say "failed" NOT_UNDERSTOOD
              end
          | [(device, _)] =>
              Ok (inr (mkHomeProposal proposal.(pp_intent) "resolved" [device.(hd_device_id)] proposal.(pp_action) proposal.(pp_mention)))
          | (_, command) :: _ =>
              if (MAX_CANDIDATES <? length capable)%nat then say "failed" "符合的设备太多，请说出具体名称"
              else
                let r := mkVoice turn_id shown "ambiguous" (choose_one (map (fun x => x.1.(hd_name)) capable))
                           (map (fun x => (x.1.(hd_device_id), x.1.(hd_name))) capable)
                           (Some (command.(cm_trait), command.(cm_command), command.(cm_params))) in
                _ ← check_voice r;
                Ok (inl r)
          end
      end
  end.

(** [_run] *)
Definition voice_outcome (completion : string) : string :=
  default "" (dict_get [("complete", "executed"); ("partial", "partial"); ("none", "failed")] completion).
Definition run_plan (owner_id : string) (device_ref : option string) (turn_id shown : string) (plan : CommandPlan) : HM VoiceResult :=
  execution <--
    mtry (e <-- actuate owner_id plan (request_id digest "voice" [turn_id]) (mkOrigin "voice" device_ref (Some turn_id)) ;; mret_ (Some e))
      (fun e => if raised "SmartHomeUnavailable" e then Some (mret_ None) else None) ;;
  match execution with
  | None => mlift (card turn_id shown "unavailable" UNAVAILABLE)
  | Some execution =>
      summary <-- mlift (summarize float_of str_repr plan execution) ;;
      mlift (card turn_id shown (voice_outcome summary.1) summary.2)
  end.

(** ** [SmartHomeCommand.handle] *)

Definition is_current (revision : Z) : HM bool :=
  mgets (fun s => s.(hh_context).(hx_active) && (s.(hh_context).(hx_revision) =? revision)).
Definition remembering (utterance : string) (m : Memo) : HM unit :=
  mmodify (fun s => mkHState (remember dump_proposal s.(hh_now) utterance m s.(hh_context)) s.(hh_now) s.(hh_awaits) s.(hh_log)).
(** [snapshot] of a context that is current *)
Definition take_snapshot : HM (option (list (string * pyval))) :=
  s <-- mget ;;
  let '(previous, context) := context_snapshot dump_proposal dump_action s.(hh_now) s.(hh_context) in
  on_context (fun _ => context) ;;;
  mret_ previous.

(** [_remember_selection] *)
Definition remember_selection (heard : string) (proposal : Proposal) (result : VoiceResult) : HM unit :=
  let selection := mkHomeProposal proposal.(pp_intent) proposal.(pp_target_status) (map fst result.(vr_candidates)) proposal.(pp_action)
                     proposal.(pp_mention) in
  match proposal.(pp_action) with
  | None => mraise (PyError "AttributeError" "")
  | Some action =>
      remembering heard (mkMemo (Some selection) (Some result.(vr_message)) None "" (action_phrase float_of str_repr action) "")
  end.

Definition cancelled_message (previous : option (list (string * pyval))) : string :=
  match previous with
  | None => "本次没有执行设备操作"
  | Some p =>
      if get_truthy (dict_get p "pending") then "已取消待确认的请求，本次没有执行设备操作"
      else match dict_get p "outcome" with
           | Some (VStr o) =>
               if bool_decide (o = "executed")
               then ("上次结果：" +:+ py_str str_repr (default VNone (dict_get p "response")) +:+ "。本次没有新操作，未撤销上次操作")%string
               else "本次没有执行设备操作"
           | _ => "本次没有执行设备操作"
           end
  end.

Section Turn.
Context (owner_id : string) (device_ref : option string) (turn_id heard : string) (revision : Z).
Let shown : string := py_take MAX_SHOWN heard.
Definition say (outcome message : string) : HM VoiceResult := mlift (card turn_id shown outcome message).

(** A read of the directory that may be unavailable *)
Definition try_home : HM (option HomeSnapshot) :=
  mtry (home <-- read_home owner_id ;; mret_ (Some home))
    (fun e => if raised "SmartHomeUnavailable" e then Some (mret_ None) else None).

(** [isinstance(proposal, HomeClarification)] *)
Definition on_clarification (c : HomeClarification) : HM VoiceResult :=
  let plain :=
    remembering heard (mkMemo None (Some c.(hc_question)) (Some c) "" "" "") ;;;
    say "clarification" c.(hc_question) in
  match c.(hc_action) with
  | Some action =>
      if (2 <=? length c.(hc_targets))%nat then
        home <-- try_home ;;
        match home with
        | None => say "unavailable" UNAVAILABLE
        | Some current =>
            ok <-- is_current revision ;;
            if negb ok then say "unavailable" SUPERSEDED
            else
              let selection := selection_of c.(hc_targets) action in
              mlift (check_proposal selection) ;;;
              result <-- mlift (resolve_ambiguity turn_id shown current.(hs_registry) selection (Some c.(hc_question))) ;;
              match result with
              | inl r =>
                  if bool_decide (r.(vr_outcome) = "ambiguous") then remember_selection heard selection r ;;; mret_ r else plain
              | inr _ => plain
              end
        end
      else plain
  | None => plain
  end.

(** The execution of a plan, and its memory *)
Definition execute_current (proposal : Proposal) (plan : CommandPlan) : HM VoiceResult :=
  ok <-- is_current revision ;;
  if negb ok then say "unavailable" SUPERSEDED
  else
    result <-- run_plan owner_id device_ref turn_id shown plan ;;
    ok <-- is_current revision ;;
    mwhen (ok && bool_decide (result.(vr_outcome) = "executed"))
      (remembering heard (mkMemo (Some proposal) None None result.(vr_message) "" result.(vr_outcome))) ;;;
    mret_ result.

(** A rejection that is asked about *)
Definition refused_target (plan : CommandPlan) : option PlannedTarget :=
  match List.find (fun t => opt_truthy t.(pt_rejected)) plan.(pl_targets) with
  | Some t => if (1 <? length plan.(pl_targets))%nat || bool_decide (t.(pt_rejected) = Some ERROR_OUT_OF_RANGE) then Some t else None
  | None => None
  end.

(** A control proposal on targets that are there *)
Definition on_control (proposal : Proposal) (action : Action) (home : HomeSnapshot) : HM VoiceResult :=
  plan <-- mlift (match plan_action home.(hs_registry) proposal.(pp_targets) action with
                  | Ok plan => Ok (Some plan)
                  | Err e => if raised "SmartHomeError" e then Ok None else Err e
                  end) ;;
  match plan with
  | None => say "failed" NOT_UNDERSTOOD
  | Some plan =>
      match refused_target plan with
      | Some t =>
          question <--
            (if bool_decide (t.(pt_rejected) = Some ERROR_OUT_OF_RANGE)
             then mlift (value_question float_of str_repr t.(pt_name) t.(pt_kind) action)
             else mret_ "这些设备不能执行同一个操作，请分别说明每台设备要做什么") ;;
          remembering heard (mkMemo None (Some question) (Some (mkClarification question proposal.(pp_targets) None)) "" "" "") ;;;
          say "clarification" question
      | None => execute_current proposal plan
      end
  end.

(** A proposal, once it was understood *)
Definition on_proposal (proposal : Proposal) : HM VoiceResult :=
  if bool_decide (proposal.(pp_intent) = "unrelated") then
    result <-- say "unrelated" UNRELATED ;;
    remembering heard (mkMemo None None None result.(vr_message) "" result.(vr_outcome)) ;;;
    mret_ result
  else if bool_decide (proposal.(pp_target_status) = "none") then say "not_found" (not_found proposal.(pp_mention))
  else
    home <-- try_home ;;
    match home with
    | None => say "unavailable" UNAVAILABLE
    | Some home =>
        if negb (forallb (find_target home.(hs_registry)) proposal.(pp_targets)) then say "not_found" NO_SUCH_DEVICE
        else
          ok <-- is_current revision ;;
          if negb ok then say "unavailable" SUPERSEDED
          else if bool_decide (proposal.(pp_intent) = "query") then
            result <-- mlift (answer turn_id shown home proposal) ;;
            mwhen (bool_decide (result.(vr_outcome) = "answered"))
              (remembering heard (mkMemo (Some proposal) None None result.(vr_message) "" result.(vr_outcome))) ;;;
            mret_ result
          else
            match proposal.(pp_action) with
            | None => mraise (PyError "AssertionError" "")
            | Some action =>
                if bool_decide (proposal.(pp_target_status) = "ambiguous") then
                  resolution <-- mlift (resolve_ambiguity turn_id shown home.(hs_registry) proposal None) ;;
                  match resolution with
                  | inl r =>
                      mwhen (bool_decide (r.(vr_outcome) = "ambiguous")) (remember_selection heard proposal r) ;;;
                      mret_ r
                  | inr resolved => on_control resolved action home
                  end
                else on_control proposal action home
            end
    end.

(** Whatever was understood *)
Definition on_understood (previous : option (list (string * pyval))) (understood : HomeUnderstanding) : HM VoiceResult :=
  match understood with
  | UnderstoodCancellation =>
      let message := cancelled_message previous in
      on_context (clear true) ;;;
      remembering heard (mkMemo None None None message "" "cancelled") ;;;
      say "answered" message
  | UnderstoodClarification c => on_clarification c
  | NotUnderstood => on_context (clear true) ;;; say "failed" NOT_UNDERSTOOD
  | UnderstoodProposal p => on_context (clear true) ;;; on_proposal p
  end.

(** A current turn that was heard *)
Definition handle_heard (previous : option (list (string * pyval))) : HM VoiceResult :=
  home <-- try_home ;;
  ok <-- is_current revision ;;
  match home with
  | None => mwhen ok (on_context (clear false)) ;;; say "unavailable" UNAVAILABLE
  | Some home =>
      if negb ok then say "unavailable" SUPERSEDED
      else
        request <-- mlift (interpretation_request home.(hs_registry) turn_id heard device_ref interpretation_timeout_ms) ;;
        deadline <-- mgets (fun s => s.(hh_context).(hx_expires_at)) ;;
        understood <--
          mtry (u <-- understand request previous deadline ;; mret_ (Some u))
            (fun e => if raised "InterpretationError" e then Some (mret_ None) else None) ;;
        ok <-- is_current revision ;;
        match understood with
        | None => mwhen ok (on_context (clear false)) ;;; say "unavailable" NOT_AVAILABLE
        | Some understood => if negb ok then say "unavailable" SUPERSEDED else on_understood previous understood
        end
  end.

Definition handle_turn : HM VoiceResult :=
  ok <-- is_current revision ;;
  previous <-- (if ok then take_snapshot else mret_ None) ;;
  ok <-- is_current revision ;;
  if negb ok then say "unavailable" SUPERSEDED
  else if is_empty heard then say "failed" NOT_UNDERSTOOD
  else handle_heard previous.
End Turn.

(** [handle]; without a revision the current one is taken. *)
Definition handle (owner_id : string) (device_ref : option string) (turn_id utterance : string) (revision : option Z) : HM VoiceResult :=
  current <-- mgets (fun s => s.(hh_context).(hx_revision)) ;;
  handle_turn owner_id device_ref turn_id (py_join " " (py_split utterance)) (default current revision).
End Command.

(** ** The sessions, [app/smarthome/] *)

Record HomeScope := mkHomeScope { ho_owner_id : string; ho_companion_id : string; ho_device_ref : string; ho_session_id : string }.
#[global] Instance home_scope_eq_dec : EqDecision HomeScope.
Proof. solve_decision. Defined.
Record HomeSession := mkHomeSession { se_scope : HomeScope; se_context : HomeContext; se_locked : bool; se_touched : Z }.
Notation SessionKey := (string * string * string)%type.
Notation Sessions := (list (SessionKey * HomeSession)).
Definition session_key (scope : HomeScope) : SessionKey := (scope.(ho_owner_id), scope.(ho_device_ref), scope.(ho_session_id)).
Definition unavailable_session (msg : string) : exn := PyError "HomeSessionUnavailable" msg.

Definition deactivate (c : HomeContext) : HomeContext :=
  mkHomeContext c.(hx_history_limit) c.(hx_history) c.(hx_outcome) c.(hx_utterance) c.(hx_proposal) c.(hx_question) c.(hx_clarification)
    c.(hx_response) c.(hx_pending_action) c.(hx_pending) c.(hx_expires_at) false c.(hx_revision).
Definition next_revision (c : HomeContext) : HomeContext :=
  mkHomeContext c.(hx_history_limit) c.(hx_history) c.(hx_outcome) c.(hx_utterance) c.(hx_proposal) c.(hx_question) c.(hx_clarification)
    c.(hx_response) c.(hx_pending_action) c.(hx_pending) c.(hx_expires_at) c.(hx_active) (c.(hx_revision) + 1).

(** What a close does to the context of a command under way *)
Definition closed_context (c : HomeContext) : HomeContext := clear false (deactivate c).

Section Sessions.
Context (ttl_us capacity context_turns : Z).

(** The sessions [get] drops: nobody holds their lock, and they were not touched for long. *)
Definition expired (now : Z) (s : HomeSession) : bool := negb s.(se_locked) && (ttl_us <=? now - s.(se_touched)).

(** [HomeSessions.get]: the session it touches, or why not; what it dropped stays dropped. *)
Definition get_session (now : Z) (scope : HomeScope) (items : Sessions) : res HomeSession * Sessions :=
  let items := List.filter (fun x => negb (expired now x.2)) items in
  let key := session_key scope in
  let found :=
    match dict_get items key with
    | Some s => Ok (s, items)
    | None =>
        if capacity <=? Z.of_nat (length items) then Err (unavailable_session "home session capacity reached")
        else
          _ ← context_check context_turns;
          let s := mkHomeSession scope (new_context context_turns) false now in
          Ok (s, dict_set items key s)
    end in
  match found with
  | Err e => (Err e, items)
  | Ok (s, items) =>
      if negb (bool_decide (s.(se_scope) = scope)) then (Err (unavailable_session "changing a Companion requires a new home session"), items)
      else
        let s := mkHomeSession s.(se_scope) s.(se_context) s.(se_locked) now in
        let items := dict_set items key s in
        if negb s.(se_context).(hx_active) then (Err (unavailable_session "home session is closed"), items) else (Ok s, items)
  end.

(** [HomeSessions.close] and [clear] *)
Definition close_session (now : Z) (scope : HomeScope) (items : Sessions) : res unit * Sessions :=
  match dict_get items (session_key scope) with
  | None => (Ok tt, items)
  | Some s =>
      if negb (bool_decide (s.(se_scope) = scope)) then (Err (unavailable_session "home session Companion does not match"), items)
      else (Ok tt, dict_set items (session_key scope) (mkHomeSession s.(se_scope) (closed_context s.(se_context)) s.(se_locked) now))
  end.
(** the contexts it leaves to the commands under way, and no session *)
Definition clear_sessions (items : Sessions) : list HomeContext * Sessions := (map (fun x => closed_context x.2.(se_context)) items, []).
End Sessions.


Section Application.
Context `{HomeSdk} (float_of : string -> spec_float) (str_repr : string -> string) (digest : list string -> string).
Context (dump_proposal : Proposal -> pyval) (dump_action : Action -> pyval) (w : HomeWorld).
Context (interpretation_timeout_ms execute_deadline_ms fallback_timeout_us : Z) (min_confidence : num).
(** [RuntimeSessionAuthorizer.authorize] *)
Context (authorize : nat -> HomeScope -> res unit).

(** [SmartHomeApplication.handle], once it has the lock of its session *)
Definition application_turn (scope : HomeScope) (turn_id utterance : string) : HM VoiceResult :=
  active <-- mgets (fun s => s.(hh_context).(hx_active)) ;;
  if negb active then mraise (unavailable_session "home session is closed")
  else
    on_context next_revision ;;;
    revision <-- mgets (fun s => s.(hh_context).(hx_revision)) ;;
    awaiting w (fun n => authorize n scope) ;;;
    handle float_of str_repr digest dump_proposal dump_action w interpretation_timeout_ms execute_deadline_ms fallback_timeout_us min_confidence
      scope.(ho_owner_id) (Some scope.(ho_device_ref)) turn_id utterance (Some revision).
End Application.
