(* ===== verification/HomeFacts.v ===== *)
(** * A home command acts only on what was understood, on what is there, and says no more than
      was confirmed. *)

From Stdlib Require Import SpecFloat.
From S2P Require Import Prelude CoreTypes Json Effects Presentation HomePlanning HomeMessages HomeCommand.
#[local] Open Scope eff_scope.

(** ** Plans *)

Section Plans.
Context `{HomeSdk}.

(** The codes of the SDK are not empty, and pydantic raises its own error. *)
Definition coded : Prop :=
  ERROR_UNSUPPORTED_COMMAND <> "" /\ (forall c e, check_command c = Err e -> raised "ValidationError" e = true) /\
  forall kind c e, validate_command kind c = Err e -> raised "SmartHomeError" e = true -> exn_str e <> "".

Lemma mapM_ok {A B} (f : A -> res B) l l' : mapM f l = Ok l' <-> Forall2 (fun x y => f x = Ok y) l l'.
Proof.
  split.
  - revert l'. induction l as [|x l IH]; intros l'; cbn [mapM]; [intros [= <-]; constructor|].
    intros (y & Hy & (ys & Hys & [= <-])%res_bind_ok)%res_bind_ok. constructor; [done|by apply IH].
  - induction 1 as [|x y l l' Hx Hl IH]; cbn [mapM]; [done|]. rewrite Hx. cbn. by rewrite IH.
Qed.

(** What a device's plan is: its command, or a refusal. *)
Lemma planned_spec action d t : planned (fun _ => Ok (Some action)) d = Ok t ->
  t.(pt_device_id) = d.(hd_device_id) /\
  ((exists c, device_command d action = Ok c /\ t.(pt_commands) = [c] /\ t.(pt_rejected) = None) \/
   (exists e, device_command d action = Err e /\ raised "SmartHomeError" e = true /\ t.(pt_commands) = [] /\ t.(pt_rejected) = Some (exn_str e))).
Proof.
  unfold planned. cbn. destruct (device_command d action) as [c|e] eqn:Ed.
  - intros [= <-]. split; [done|]. left. by exists c.
  - destruct (raised _ e) eqn:Ee; [|done]. intros [= <-]. split; [done|]. right. by exists e.
Qed.

Lemma device_command_fields d action c : device_command d action = Ok c ->
  c.(cm_device_id) = d.(hd_device_id) /\ c.(cm_trait) = action.(ac_trait) /\ c.(cm_command) = action.(ac_command) /\
  validate_command d.(hd_type) c = Ok tt /\ check_command c = Ok tt.
Proof.
  unfold device_command. destruct (command_params action) as [spec|]; [|done].
  intros ([] & Hc & ([] & Hv & [= <-])%res_bind_ok)%res_bind_ok. cbn. split_and!; try done.
  destruct (check_command _) as [[]|e]; [done|]. by destruct (raised _ e).
Qed.

Lemma device_command_coded d action e : coded -> device_command d action = Err e -> raised "SmartHomeError" e = true -> exn_str e <> "".
Proof.
  intros (Hu & Hc & Hv). unfold device_command. destruct (command_params action) as [spec|]; [|by intros [= <-] _].
  intros [He|(? & _ & [He|(? & _ & ?)]%res_bind_err)]%res_bind_err Hr; [|by eapply Hv|done].
  destruct (check_command _) as [[]|e'] eqn:E; [done|]. rewrite (Hc _ _ E) in He. by injection He as <-.
Qed.

Lemma mapM_some {A B} (f : A -> option B) l l' : mapM f l = Some l' -> Forall2 (fun x y => f x = Some y) l l'.
Proof. apply mapM_Some_1. Qed.

(** A request that is executed covers every device it was asked for. *)
Record executes (registry : Registry) (refs : list string) (action : Action) (commands : list Command) (scene : option Scene) : Prop := {
  ex_scene : match scene with
             | Some sc => commands = [] /\ exists ref, refs = [ref] /\ registry_scene registry ref = Some sc
             | None => commands <> [] /\ Z.of_nat (length commands) <= MAX_COMMANDS /\
                 Forall2 (fun ref c => exists d, registry_device registry ref = Some d /\ device_command d action = Ok c) refs commands
             end;
}.

Lemma plan_action_executes registry refs action plan : coded -> plan_action registry refs action = Ok plan -> refused_target plan = None ->
  plan.(pl_scene) = None /\ plan.(pl_commands) = [] \/
  executes registry refs action plan.(pl_commands) plan.(pl_scene) /\
    (plan.(pl_scene) = None -> map pt_device_id plan.(pl_targets) = map cm_device_id plan.(pl_commands) /\
                                Forall (fun t => t.(pt_rejected) = None) plan.(pl_targets)).
Proof.
  intros Hcoded. unfold plan_action. case_bool_decide as Hs.
  { destruct refs as [|ref [|]]; [done| |done]. destruct (registry_scene registry ref) as [sc|] eqn:E; [|done].
    case_bool_decide; [|done]. intros [= <-] _. right. split; [|done]. constructor. split; [done|by exists ref]. }
  destruct (mapM (registry_device registry) refs) as [devices|] eqn:Ed; [|done]. apply mapM_some in Ed.
  intros (targets & Ht%mapM_ok & [= <-])%res_bind_ok. unfold bounded_plan. cbn [pl_commands].
  destruct (Z.leb_spec (Z.of_nat (length (concat (map pt_commands targets)))) MAX_COMMANDS) as [Hl|Hl]; cbn [pl_commands pl_scene pl_targets]; [|intros _; by left].
  intros Hr. destruct (decide (Forall (fun t => t.(pt_rejected) = None) targets)) as [Hok|Hno].
  - assert (Forall2 (fun d c => device_command d action = Ok c) devices (concat (map pt_commands targets)) /\
      map pt_device_id targets = map cm_device_id (concat (map pt_commands targets))) as [Hc Hi].
    { clear Ed Hr Hl. induction Ht as [|d t devices targets Hd Ht IH]; [by split; [constructor|]|]. apply Forall_cons in Hok as [Hn Hok].
      specialize (IH Hok) as [IH1 IH2]. apply planned_spec in Hd as [Hi [(c & Hc & Ec & _)|(e & _ & _ & _ & E)]]; [|congruence].
      simpl. rewrite Ec. split; [by constructor|]. cbn. f_equal; [|done]. apply device_command_fields in Hc as (-> & _). done. }
    destruct (concat (map pt_commands targets)) as [|c cs] eqn:Ecs; [by left|]. right. split; [|done]. constructor. split; [done|]. split; [done|].
    clear -Ed Hc. revert Hc. generalize (c :: cs). induction Ed as [|ref d refs ds Hd Ed IH]; intros cs' Hc; inversion Hc; subst; constructor; [by exists d|by apply IH].
  - left. split; [done|]. apply not_Forall_Exists in Hno; [|intros t; apply _]. apply Exists_exists in Hno as (t & Hin & Hrej). cbn in Hrej.
    assert (opt_truthy t.(pt_rejected) = true) as Htr.
    { apply list_elem_of_lookup in Hin as [i Hi]. destruct (Forall2_lookup_r _ _ _ _ _ Ht Hi) as (d & _ & Hd).
      apply planned_spec in Hd as [_ [(c & _ & _ & E)|(e & He & Hre & _ & ->)]]; [by rewrite E in Hrej|]. cbn. rewrite (proj2 (is_empty_false _)); [done|].
      by eapply device_command_coded. }
    unfold refused_target in Hr. cbn in Hr. destruct (List.find _ targets) as [t'|] eqn:Ef.
    + destruct targets as [|t1 [|t2 ts]]; [done| |done]. apply list_elem_of_singleton in Hin. subst t1.
      inversion Ht as [|d ? ? ? Hd ?]; subst. apply planned_spec in Hd as [_ [(c & _ & _ & E)|(e & _ & _ & E & _)]]; [by rewrite E in Hrej|].
      simpl. by rewrite E.
    + apply list_elem_of_In in Hin. apply (List.find_none _ _ Ef) in Hin. congruence.
Qed.
End Plans.

(** ** What counts as executed *)

Definition took (r : CommandResult) : Prop := r.(cr_status) <> "failed" /\ r.(cr_status) <> "unknown".

(** The reply confirms every command of the request, or every step of the scene. *)
Record confirmed `{HomeSdk} (rid : string) (commands : list Command) (scene : option Scene) (result : ExecuteResult) : Prop := {
  cf_reply : result.(xs_request_id) = rid /\ result.(xs_error) = None;
  cf_results : match scene with
               | Some _ => result.(xs_results) <> [] /\ forall r, r ∈ result.(xs_results) -> took r
               | None => validate_execute_result commands result = Ok tt /\ forall c, c ∈ commands ->
                   (exists r, r ∈ result.(xs_results) /\ r.(cr_device_id) = c.(cm_device_id)) /\
                   forall r, r ∈ result.(xs_results) -> r.(cr_device_id) = c.(cm_device_id) -> took r
               end;
}.

Section Confirmed.
Context `{HomeSdk} (float_of : string -> spec_float) (str_repr : string -> string).
Notation tally_one := (tally_one float_of str_repr).
Notation summarize := (summarize float_of str_repr).

Definition of_device (d : string) (r : CommandResult) : bool := bool_decide (r.(cr_device_id) = d).
Definition some_results (l : list CommandResult) : option (list CommandResult) := match l with [] => None | _ => Some l end.

Lemma group_results_get rs d : dict_get (group_results rs) d = some_results (List.filter (of_device d) rs).
Proof.
  unfold group_results. assert (forall acc, dict_get (fold_left (fun d r => dict_set d (cr_device_id r) (default [] (dict_get d (cr_device_id r)) ++ [r])) rs acc) d =
    match List.filter (of_device d) rs with [] => dict_get acc d | l => Some (default [] (dict_get acc d) ++ l) end) as Hg.
  { induction rs as [|r rs IH]; intros acc; [done|]. cbn [fold_left List.filter]. rewrite IH. unfold of_device at 2. case_bool_decide as E.
    - rewrite E, dict_get_set_eq. destruct (List.filter _ rs); [done|]. simpl. by rewrite <- app_assoc.
    - by rewrite dict_get_set_ne. }
  rewrite (Hg []). by destruct (List.filter _ rs).
Qed.

Lemma group_results_keys rs k l : (k, l) ∈ group_results rs -> NoDup (group_results rs).*1 -> l <> [] /\ l = List.filter (of_device k) rs.
Proof. intros Hin Hn. apply dict_elem_get in Hin; [|done]. rewrite group_results_get in Hin. unfold some_results in Hin. by destruct (List.filter _ rs); simplify_eq. Qed.

Lemma group_results_nodup rs : NoDup (group_results rs).*1.
Proof.
  unfold group_results. assert (forall acc : list (string * list CommandResult), NoDup acc.*1 ->
    NoDup (fold_left (fun d r => dict_set d (cr_device_id r) (default [] (dict_get d (cr_device_id r)) ++ [r])) rs acc).*1) as Hg; [|by apply Hg, NoDup_nil].
  induction rs as [|r rs IH]; intros acc Ha; [done|]. apply IH. by apply dict_set_nodup.
Qed.

Definition good (o : DeviceOutcome) : Prop := o.(do_status) = "succeeded" \/ o.(do_status) = "delegated".

Lemma outcome_good rs : good (outcome_of_results rs) -> rs <> [] /\ forall r, r ∈ rs -> took r.
Proof.
  unfold outcome_of_results, good. destruct (List.find _ rs) as [f|] eqn:Ef; [by intros [|]|].
  destruct (bool_decide (rs = [])) eqn:Er; [by intros [|]|]. apply bool_decide_eq_false in Er. cbn [orb].
  destruct (existsb _ rs) eqn:Eu; [by intros [|]|]. intros _. split; [done|]. intros r Hr. split.
  - intros E. apply list_elem_of_In in Hr. apply (List.find_none _ _ Ef) in Hr. by rewrite E in Hr.
  - intros E. assert (existsb (fun r => bool_decide (cr_status r = "unknown")) rs = true) as Hx; [|congruence].
    apply existsb_exists. exists r. split; [by apply list_elem_of_In|by apply bool_decide_eq_true].
Qed.

(** Complete means that every target did it or was given it. *)
Lemma tally_clean outcomes targets a :
  let b := fold_left (tally_one outcomes) targets a in
  b.(ta_unknown) = [] -> b.(ta_problems) = [] ->
  a.(ta_unknown) = [] /\ a.(ta_problems) = [] /\
  Forall (fun t => t.(pt_rejected) = None /\ good (default UNKNOWN (dict_get outcomes t.(pt_device_id)))) targets.
Proof.
  revert a. induction targets as [|t targets IH]; intros a; cbn [fold_left]; [intros; split_and!; [done..|constructor]|].
  intros Hu Hp. destruct (IH _ Hu Hp) as (Hu1 & Hp1 & Ht). revert Hu1 Hp1. unfold HomeMessages.tally_one, good. destruct (pt_rejected t) eqn:Er.
  - cbn. intros _ E. apply app_nil in E as [_ E]. done.
  - repeat case_bool_decide; cbn; intros Hu1 Hp1;
      first [by apply app_nil in Hu1 as [_ ?]|by apply app_nil in Hp1 as [_ ?]|(split_and!; [done..|constructor; [split; [done|auto]|done]])].
Qed.

Lemma tally_some outcomes targets a :
  let b := fold_left (tally_one outcomes) targets a in
  ~ (b.(ta_done) = [] /\ b.(ta_delegated) = []) -> targets <> [] \/ ~ (a.(ta_done) = [] /\ a.(ta_delegated) = []).
Proof. destruct targets; [by right|by left]. Qed.

Lemma complete_tally plan execution : completion_of (tally float_of str_repr plan execution) = "complete" ->
  summarized_targets plan execution <> [] /\
  Forall (fun t => t.(pt_rejected) = None /\ good (default UNKNOWN (dict_get execution.(ex_outcomes) t.(pt_device_id)))) (summarized_targets plan execution).
Proof.
  unfold completion_of, tally. destruct (_ && _) eqn:E1; [done|]. destruct (bool_decide (ta_unknown _ = []) && _) eqn:E2; [|done]. intros _.
  apply andb_true_iff in E2 as [Hu%bool_decide_eq_true Hp%bool_decide_eq_true]. destruct (tally_clean _ _ _ Hu Hp) as (_ & _ & Ht). split; [|done].
  intros E. rewrite E in E1. done.
Qed.

Lemma summarize_complete plan execution m : summarize plan execution = Ok ("complete", m) ->
  execution.(ex_error) = None /\ completion_of (tally float_of str_repr plan execution) = "complete".
Proof.
  unfold HomeMessages.summarize. destruct (ex_error execution); [done|]. destruct (pl_scene plan); [by intros [= -> _]|].
  intros (done_ & _ & [= -> _])%res_bind_ok. done.
Qed.

Lemma all_unknown (l : list string) d : default UNKNOWN (dict_get (map (fun d => (d, UNKNOWN)) l) d) = UNKNOWN.
Proof. induction l as [|x l IH]; simpl; [done|]. by case_decide. Qed.

Lemma unknown_bad : ~ good UNKNOWN.
Proof. by intros [|]. Qed.

(** Without a reply nothing is complete. *)
Lemma unconfirmed_incomplete plan execution :
  (forall d, default UNKNOWN (dict_get execution.(ex_outcomes) d) = UNKNOWN) ->
  completion_of (tally float_of str_repr plan execution) <> "complete".
Proof.
  intros Hu Hc. apply complete_tally in Hc as [Hn Hf]. destruct (summarized_targets plan execution) as [|t l]; [done|].
  apply Forall_cons in Hf as [[_ Hg] _]. rewrite Hu in Hg. by apply unknown_bad in Hg.
Qed.

Lemma known_targets_spec registry d t : dict_get (known_targets registry) d = Some t -> t.(pt_device_id) = d.
Proof.
  unfold known_targets. assert (forall ds acc, (forall d t, dict_get acc d = Some t -> t.(pt_device_id) = d) ->
    forall d t, dict_get (fold_left (fun d x => dict_set d x.(hd_device_id) (mkPlannedTarget x.(hd_device_id) x.(hd_name) x.(hd_type) [] None)) ds acc) d = Some t ->
    t.(pt_device_id) = d) as Hg; [|by apply Hg].
  clear. induction ds as [|x ds IH]; intros acc Ha d t; [apply Ha|]. apply IH. clear d t. intros d t.
  destruct (decide (d = hd_device_id x)) as [->|Hne]; [rewrite dict_get_set_eq; by intros [= <-]|rewrite dict_get_set_ne by done; apply Ha].
Qed.

(** What the completeness of an explicit request and of a scene says about the reply *)
Lemma explicit_confirmed plan rid result execution :
  plan.(pl_scene) = None -> map pt_device_id plan.(pl_targets) = map cm_device_id plan.(pl_commands) ->
  read_result plan rid result = Ok execution -> execution.(ex_error) = None ->
  completion_of (tally float_of str_repr plan execution) = "complete" -> confirmed rid plan.(pl_commands) plan.(pl_scene) result.
Proof.
  intros Hs Hi. unfold read_result. case_bool_decide as Hr; cbn [negb]; [|intros [= <-] _ Hc; exfalso; revert Hc; apply unconfirmed_incomplete, all_unknown].
  destruct (xs_error result) eqn:Ee; [by intros [= <-]|]. rewrite Hs. destruct (validate_execute_result _ _) as [[]|e] eqn:Ev; cycle 1.
  { destruct (is_value_error e); [|done]. intros [= <-] _ Hc. exfalso. revert Hc. apply unconfirmed_incomplete, all_unknown. }
  intros [= <-] _ Hc. constructor; [done|]. split; [done|]. apply complete_tally in Hc as [_ Hf]. unfold summarized_targets in Hf. rewrite Hs in Hf. cbn in Hf.
  intros c Hc. assert (cm_device_id c ∈ map pt_device_id (pl_targets plan)) as Hin by (rewrite Hi; by apply list_elem_of_fmap_2).
  apply list_elem_of_fmap in Hin as (t & Et & Ht). rewrite Forall_forall in Hf. destruct (Hf t Ht) as [_ Hg]. rewrite <- Et in Hg.
  set (expected := dedup_keys _) in Hg.
  assert (good (outcome_of_results (default [] (dict_get (group_results (xs_results result)) (cm_device_id c))))) as Hgood.
  { revert Hg. generalize expected. clear. induction expected as [|x l IH]; cbn; [intros Hu; by apply unknown_bad in Hu|]. case_decide as E; [by subst|]. exact IH. }
  apply outcome_good in Hgood as [Hn Hok]. rewrite group_results_get in Hn, Hok.
  destruct (List.filter (of_device (cm_device_id c)) (xs_results result)) as [|r l] eqn:Ef; [by destruct Hn|]. cbn in Hok.
  split.
  - exists r. assert (r ∈ r :: l) as Hr1 by by left. rewrite <- Ef in Hr1. apply elem_of_filter_list in Hr1 as [Hr1 Hr2]. by apply bool_decide_eq_true in Hr2.
  - intros r' Hr' Er. apply Hok. rewrite <- Ef. apply elem_of_filter_list. split; [done|]. by apply bool_decide_eq_true.
Qed.

Lemma scene_confirmed plan rid result execution sc :
  plan.(pl_scene) = Some sc -> (forall d t, dict_get plan.(pl_known) d = Some t -> t.(pt_device_id) = d) ->
  read_result plan rid result = Ok execution -> execution.(ex_error) = None ->
  completion_of (tally float_of str_repr plan execution) = "complete" -> confirmed rid plan.(pl_commands) plan.(pl_scene) result.
Proof.
  intros Hs Hk. unfold read_result. case_bool_decide as Hr; cbn [negb]; [|intros [= <-] _ Hc; exfalso; revert Hc; apply unconfirmed_incomplete, all_unknown].
  destruct (xs_error result) eqn:Ee; [by intros [= <-]|]. rewrite Hs. intros [= <-] _ Hc. constructor; [done|].
  pose proof (group_results_nodup (xs_results result)) as Hnd. pose proof (fun d => group_results_get (xs_results result) d) as Hget.
  set (outcomes := map (fun '(d, items) => (d, outcome_of_results items)) (group_results (xs_results result))) in Hc.
  assert (forall d, dict_get outcomes d = outcome_of_results <$> dict_get (group_results (xs_results result)) d) as Ho.
  { intros d. unfold outcomes. generalize (group_results (xs_results result)). intros g. induction g as [|[k l] g IH]; [done|]. cbn. by case_decide. }
  destruct (decide (xs_results result = [])) as [He|Hne].
  { exfalso. revert Hc. apply unconfirmed_incomplete. intros d. unfold outcomes. by rewrite He. }
  split; [done|]. intros r Hin. apply complete_tally in Hc as [_ Hf].
  assert (of_device (cr_device_id r) r = true) as Hd by by apply bool_decide_eq_true.
  assert (r ∈ List.filter (of_device (cr_device_id r)) (xs_results result)) as Hrf by by apply elem_of_filter_list.
  specialize (Hget (cr_device_id r)). destruct (List.filter _ _) as [|r1 l] eqn:Ef; [by apply elem_of_nil in Hrf|]. cbn in Hget.
  assert (good (default UNKNOWN (dict_get outcomes (cr_device_id r)))) as Hg.
  { unfold summarized_targets in Hf. rewrite Hs in Hf. cbn [ex_outcomes] in Hf.
    assert ((cr_device_id r, outcome_of_results (r1 :: l)) ∈ outcomes) as Hx by (apply dict_get_elem; by rewrite Ho, Hget).
    destruct (map _ outcomes) as [|t0 ts] eqn:Em; [by destruct outcomes; [apply elem_of_nil in Hx|]|]. rewrite <- Em in Hf. rewrite Forall_forall in Hf.
    destruct (Hf (default (mkPlannedTarget (cr_device_id r) (cr_device_id r) "" [] None) (dict_get plan.(pl_known) (cr_device_id r)))) as [_ Hg].
    { apply list_elem_of_fmap. by exists (cr_device_id r, outcome_of_results (r1 :: l)). }
    destruct (dict_get (pl_known plan) (cr_device_id r)) as [t|] eqn:Et; [|exact Hg]. cbn in Hg. by rewrite (Hk _ _ Et) in Hg. }
  rewrite Ho, Hget in Hg. cbn in Hg. apply outcome_good in Hg as [_ Hok]. by apply Hok.
Qed.
End Confirmed.

(** ** A turn *)

Section Turn.
Context `{HomeSdk} (float_of : string -> spec_float) (str_repr : string -> string) (digest : list string -> string).
Context (dump_proposal : Proposal -> pyval) (dump_action : Action -> pyval) (w : HomeWorld).
Context (interpretation_timeout_ms execute_deadline_ms fallback_timeout_us : Z) (min_confidence : num).
Context (owner_id : string) (device_ref : option string) (turn_id heard : string) (revision : Z).
Hypothesis Hcoded : coded.
(** What was logged before the turn *)
Context (L : list home_act).

Notation confident := (confident float_of min_confidence).
Notation say := (say turn_id heard).
Notation is_current := (is_current revision).
Notation understand := (understand float_of dump_proposal w fallback_timeout_us min_confidence).
Notation ask_primary := (ask_primary float_of dump_proposal w min_confidence).
Notation execute_current := (execute_current float_of str_repr digest dump_proposal w execute_deadline_ms owner_id device_ref turn_id heard revision).

(** A request about the home that was read *)
Definition asks (home : HomeSnapshot) (req : InterpretationRequest) : Prop := exists base context,
  interpretation_request home.(hs_registry) turn_id heard device_ref interpretation_timeout_ms = Ok base /\ req = with_context context base.

(** A proposal the interpreter was sure of, or one of the fallback; either passed the validator. *)
Definition understood (home : HomeSnapshot) (answers : list home_act) (p : Proposal) : Prop :=
  (exists req result, answers = [HaInterpreted req result] /\ asks home req /\ confident result = true /\ accepted req result = Ok (Some p)) \/
  (exists req before, answers = before ++ [HaSuggested req (UnderstoodProposal p)] /\ asks home req /\
     accepted req (fallback_result req p) = Ok (Some p) /\ (before = [] \/ exists req' result, before = [HaInterpreted req' result])).

(** The targets a proposal comes down to: its own, or the only one that can do it. *)
Definition comes_to (registry : Registry) (p : Proposal) (action : Action) (targets : list string) : Prop :=
  p.(pp_target_status) <> "ambiguous" /\ targets = p.(pp_targets) \/
  p.(pp_target_status) = "ambiguous" /\ exists d c refused, sort_out registry action p.(pp_targets) = Ok ([(d, c)], refused) /\ targets = [d.(hd_device_id)].

Definition no_execute (acts : list home_act) : Prop := forall o r c, HaExecute o r c ∉ acts.

(** The one request of a turn, with what it rests on. *)
Definition submitted (acts : list home_act) (request : ExecuteRequest) (scene : option Scene) (reply : option ExecuteResult) : Prop :=
  exists home0 answers home p action targets context,
    acts = HaSnapshot home0 :: answers ++ [HaSnapshot home; HaExecute owner_id request context] ++ (if reply is Some r then [HaReply r] else []) /\
    no_execute answers /\ understood home0 answers p /\ p.(pp_action) = Some action /\ p.(pp_intent) <> "unrelated" /\ p.(pp_intent) <> "query" /\
    comes_to home.(hs_registry) p action targets /\
    executes home.(hs_registry) targets action request.(xr_commands) scene /\
    request.(xr_scene_id) = sc_scene_id <$> scene /\ request.(xr_request_id) = request_id digest "voice" [turn_id] /\
    request.(xr_origin) = mkOrigin "voice" device_ref (Some turn_id) /\
    context.(hx_active) = true /\ context.(hx_revision) = revision.

Definition allowed_acts (acts : list home_act) : Prop := no_execute acts \/ exists request scene reply, submitted acts request scene reply.
Definition executed_acts (acts : list home_act) : Prop := exists request scene result,
  submitted acts request scene (Some result) /\ confirmed request.(xr_request_id) request.(xr_commands) scene result.

Definition at_log (acts : list home_act) (s : HState) : Prop := s.(hh_log) = L ++ acts.
Definition post (r : VoiceResult) (s : HState) : Prop := exists acts, at_log acts s /\ allowed_acts acts /\
  (r.(vr_outcome) = "executed" -> executed_acts acts).
Definition post_error (e : exn) (s : HState) : Prop := exists acts, at_log acts s /\ allowed_acts acts.

(** Statements that log nothing *)
Definition silent {A} (m : HM A) : Prop := forall s, hh_log (snd (m s)) = hh_log s.
Lemma silent_bind {A B} acts (m : HM A) (f : A -> HM B) Q (E : exn -> HState -> Prop) :
  silent m -> (forall e s, at_log acts s -> E e s) -> (forall a, triple (at_log acts) (f a) Q E) -> triple (at_log acts) (mbind_ m f) Q E.
Proof.
  intros Hm He Hf s Hs. unfold mbind_. specialize (Hm s). destruct (m s) as [[a|e] s']; cbn in Hm; [apply Hf|apply He]; unfold at_log in *; congruence.
Qed.
Lemma silent_gets {A} (f : HState -> A) : silent (mgets f). Proof. done. Qed.
Lemma silent_lift {A} (r : res A) : silent (mlift r). Proof. done. Qed.
Lemma silent_ret {A} (a : A) : silent (mret_ a). Proof. done. Qed.
Lemma silent_context f : silent (on_context f). Proof. done. Qed.
Lemma silent_remembering u m : silent (remembering dump_proposal u m). Proof. done. Qed.
Lemma silent_when b m : silent m -> silent (mwhen b m). Proof. by destruct b. Qed.
Lemma silent_seq {A B} (m : HM A) (f : A -> HM B) : silent m -> (forall a, silent (f a)) -> silent (mbind_ m f).
Proof. intros Hm Hf s. unfold mbind_. specialize (Hm s). destruct (m s) as [[a|e] s']; cbn in *; [by rewrite Hf|done]. Qed.
Lemma silent_selection heard' p r : silent (remember_selection float_of str_repr dump_proposal heard' p r).
Proof. intros s. unfold remember_selection. by destruct (pp_action p). Qed.
Lemma silent_passes n us : silent (passes w n us). Proof. done. Qed.
Lemma silent_awaiting {A} (f : nat -> res A) : silent (awaiting w f). Proof. done. Qed.
Lemma silent_awaiting_within {A} limit (f : nat -> res A) : silent (awaiting_within w limit f).
Proof. intros s. unfold awaiting_within, mbind_, mgets. by destruct (_ <? _). Qed.

Lemma no_execute_post acts r s : at_log acts s -> no_execute acts -> r.(vr_outcome) <> "executed" -> post r s.
Proof. intros Hs Hn Ho. exists acts. split; [done|]. split; [by left|done]. Qed.
Lemma no_execute_error acts e s : no_execute acts -> at_log acts s -> post_error e s.
Proof. intros Hn Hs. exists acts. split; [done|by left]. Qed.

Lemma card_outcome shown o m r : card turn_id shown o m = Ok r -> r.(vr_outcome) = o.
Proof. unfold card. by intros (? & _ & [= <-])%res_bind_ok. Qed.

Lemma post_say acts o m : no_execute acts -> o <> "executed" -> triple (at_log acts) (say o m) post post_error.
Proof.
  intros Hn Ho s Hs. unfold HomeCommand.say, mlift. destruct (card _ _ _ _) as [r|e] eqn:E; [|by eapply no_execute_error].
  eapply no_execute_post; [done..|]. by rewrite (card_outcome _ _ _ _ E).
Qed.

Lemma post_ret acts r : no_execute acts -> r.(vr_outcome) <> "executed" -> triple (at_log acts) (mret_ r) post post_error.
Proof. intros Hn Ho s Hs. by eapply no_execute_post. Qed.

Lemma no_execute_snoc acts a : no_execute acts -> (forall o r c, a <> HaExecute o r c) -> no_execute (acts ++ [a]).
Proof. intros Hn Ha o r c [Hx|Hx%list_elem_of_singleton]%elem_of_app; [by apply Hn in Hx|by apply (Ha o r c)]. Qed.

(** A read of the directory *)
Lemma home_triple acts : no_execute acts -> triple (at_log acts) (try_home w owner_id)
  (fun o s => match o with Some home => at_log (acts ++ [HaSnapshot home]) s | None => at_log acts s end) post_error.
Proof.
  intros Hn s Hs. unfold try_home, mtry, read_home, awaiting, act, passes, mbind_, mgets, mmodify, mlift, mret_. cbn.
  destruct (hw_snapshot w _ _) as [home|e]; cbn.
  - unfold at_log in *. cbn. by rewrite Hs, app_assoc.
  - destruct (raised _ e); [done|]. by eapply no_execute_error.
Qed.

(** *** The execution *)

Lemma allowed_say o m : o <> "executed" -> triple (fun s => exists acts, at_log acts s /\ allowed_acts acts) (say o m) post post_error.
Proof.
  intros Ho s (acts & Hs & Ha). unfold HomeCommand.say, mlift. destruct (card _ _ _ _) as [r|e] eqn:E; [|by exists acts].
  exists acts. split; [done|]. split; [done|]. by rewrite (card_outcome _ _ _ _ E).
Qed.

(** The ground of a plan that may be executed *)
Record grounds (acts : list home_act) (plan : CommandPlan) : Prop := {
  gr_quiet : no_execute acts;
  gr_known : forall d t, dict_get plan.(pl_known) d = Some t -> t.(pt_device_id) = d;
  gr_plan : plan.(pl_scene) = None /\ plan.(pl_commands) = [] \/
    (plan.(pl_scene) = None -> map pt_device_id plan.(pl_targets) = map cm_device_id plan.(pl_commands)) /\
    forall request context reply,
      request.(xr_commands) = plan.(pl_commands) -> request.(xr_scene_id) = sc_scene_id <$> plan.(pl_scene) ->
      request.(xr_request_id) = request_id digest "voice" [turn_id] -> request.(xr_origin) = mkOrigin "voice" device_ref (Some turn_id) ->
      context.(hx_active) = true -> context.(hx_revision) = revision ->
      submitted (acts ++ HaExecute owner_id request context :: (if reply is Some r then [HaReply r] else [])) request plan.(pl_scene) reply;
}.

Definition current (s : HState) : Prop := s.(hh_context).(hx_active) = true /\ s.(hh_context).(hx_revision) = revision.
Notation completion plan execution := (completion_of (tally float_of str_repr plan execution)).

Lemma grounds_confirmed acts plan rid result execution : grounds acts plan -> read_result plan rid result = Ok execution ->
  plan.(pl_scene) <> None \/ plan.(pl_commands) <> [] ->
  execution.(ex_error) = None -> completion plan execution = "complete" -> confirmed rid plan.(pl_commands) plan.(pl_scene) result.
Proof.
  intros Hg Hr Hne He Hc. destruct (pl_scene plan) as [sc|] eqn:Es.
  - rewrite <- Es. by eapply scene_confirmed; [exact Es|apply (gr_known _ _ Hg)|..].
  - destruct (gr_plan _ _ Hg) as [[_ E]|[Ht _]]; [by destruct Hne|]. rewrite <- Es. eapply explicit_confirmed; eauto.
Qed.

Definition rid : string := request_id digest "voice" [turn_id].
Notation actuate := (actuate w execute_deadline_ms owner_id).
Definition ran (plan : CommandPlan) (execution : Execution) (s : HState) : Prop := exists acts, at_log acts s /\ allowed_acts acts /\
  (execution.(ex_error) = None -> completion plan execution = "complete" -> executed_acts acts).

Lemma actuate_triple acts plan : grounds acts plan ->
  triple (fun s => at_log acts s /\ current s) (actuate plan rid (mkOrigin "voice" device_ref (Some turn_id))) (ran plan) post_error.
Proof.
  intros Hg s [Hs [Ha Hr]]. unfold HomeCommand.actuate. destruct (_ && _) eqn:E.
  { cbn. exists acts. split; [done|]. split; [left; apply (gr_quiet _ _ Hg)|]. intros _ Hc. by apply unconfirmed_incomplete in Hc. }
  assert (plan.(pl_scene) <> None \/ plan.(pl_commands) <> []) as Hne.
  { apply andb_false_iff in E as [E|E%bool_decide_eq_false]; [left; by destruct (pl_scene plan)|right; intros Hz; by rewrite Hz in E]. }
  unfold mbind_ at 1, mgets at 1. set (request := mkExecute _ _ _ _ _). unfold mbind_ at 1, mlift at 1.
  destruct (check_execute request) as [[]|e]; [|eapply no_execute_error; [apply (gr_quiet _ _ Hg)|done]].
  destruct (gr_plan _ _ Hg) as [[E1 E2]|[_ Hsub]]; [by destruct Hne|].
  assert (forall reply, submitted (acts ++ HaExecute owner_id request (hh_context s) :: (if reply is Some r then [HaReply r] else [])) request (pl_scene plan) reply) as Hsub'
    by (intros reply; by apply Hsub).
  unfold mtry, mbind_, mgets, act, mmodify, awaiting_within, passes, mraise, mlift, mret_. cbn.
  assert (forall s1, hh_log s1 = hh_log s ++ [HaExecute owner_id request (hh_context s)] -> ran plan (unconfirmed plan) s1) as Hlost.
  { intros s1 Hs1. exists (acts ++ [HaExecute owner_id request (hh_context s)]). split; [unfold at_log in *; by rewrite Hs1, Hs, app_assoc|].
    split; [right; by exists request, (pl_scene plan), None; apply (Hsub' None)|]. intros _ Hc. exfalso. revert Hc. apply unconfirmed_incomplete, all_unknown. }
  destruct (_ <? _) eqn:Et; cbn; [|by apply Hlost].
  destruct (hw_execute w _ _ _) as [result|e] eqn:Ex; cbn; cycle 1.
  { destruct (raised "TimeoutError" e); cbn; [by apply Hlost|]. exists (acts ++ [HaExecute owner_id request (hh_context s)]).
    split; [unfold at_log in *; cbn; by rewrite Hs, app_assoc|]. right. by exists request, (pl_scene plan), None; apply (Hsub' None). }
  set (acts' := acts ++ [HaExecute owner_id request (hh_context s); HaReply result]).
  assert (submitted acts' request (pl_scene plan) (Some result)) as Hok by apply (Hsub' (Some result)).
  destruct (read_result plan rid result) as [execution|e] eqn:Er.
  - exists acts'. split; [unfold at_log in *; cbn; unfold acts'; by rewrite Hs, <- !app_assoc|]. split; [right; by exists request, (pl_scene plan), (Some result)|].
    intros He Hc. exists request, (pl_scene plan), result. split; [done|]. change (xr_request_id request) with rid. change (xr_commands request) with (pl_commands plan).
    by eapply grounds_confirmed.
  - exists acts'. split; [unfold at_log in *; cbn; unfold acts'; by rewrite Hs, <- !app_assoc|]. right. by exists request, (pl_scene plan), (Some result).
Qed.

Lemma voice_executed c : voice_outcome c = "executed" -> c = "complete".
Proof. unfold voice_outcome. cbn. by repeat case_decide. Qed.

Lemma run_triple acts plan : grounds acts plan ->
  triple (fun s => at_log acts s /\ current s)
    (run_plan float_of str_repr digest w execute_deadline_ms owner_id device_ref turn_id (py_take MAX_SHOWN heard) plan) post post_error.
Proof.
  intros Hg. unfold run_plan. eapply triple_bind.
  - eapply (triple_try _ _ _ (fun o s => match o with Some e => ran plan e s | None => exists acts, at_log acts s /\ allowed_acts acts end) post_error).
    + eapply triple_bind; [by apply actuate_triple|]. intros e s Hs. exact Hs.
    + intros e. destruct (raised _ e); [|done]. intros s Hs. exact Hs.
  - intros [execution|].
    + intros s (acts' & Hs & Ha & Hx). unfold mbind_, mlift. destruct (summarize float_of str_repr plan execution) as [[c m]|e] eqn:Es; [|by exists acts'].
      cbn. destruct (card _ _ _ _) as [r|e] eqn:Ec; [|by exists acts']. exists acts'. split; [done|]. split; [done|]. intros Ho.
      rewrite (card_outcome _ _ _ _ Ec) in Ho. apply voice_executed in Ho as ->. apply summarize_complete in Es as [He Hc]. by apply Hx.
    + apply (allowed_say "unavailable" UNAVAILABLE). done.
Qed.

Lemma execute_triple acts plan p : grounds acts plan -> triple (at_log acts) (execute_current p plan) post post_error.
Proof.
  intros Hg s Hs. unfold HomeCommand.execute_current. unfold mbind_ at 1, HomeCommand.is_current at 1, mgets at 1.
  destruct (_ && _) eqn:Ec; cbn [negb]; [|apply (post_say acts); [apply (gr_quiet _ _ Hg)|done|done]].
  apply andb_true_iff in Ec as [Ea Er%Z.eqb_eq]. pose proof (run_triple acts plan Hg s (conj Hs (conj Ea Er))) as Hrun.
  unfold mbind_ at 1. destruct (run_plan _ _ _ _ _ _ _ _ _ _ s) as [[r|e] s']; [|exact Hrun].
  destruct Hrun as (acts' & Hs' & Ha & Hx). unfold mbind_, HomeCommand.is_current, mgets, mret_.
  pose proof (silent_when ((hx_active (hh_context s') && (hx_revision (hh_context s') =? revision)) && bool_decide (vr_outcome r = "executed"))
    (remembering dump_proposal heard (mkMemo (Some p) None None (vr_message r) "" (vr_outcome r))) (silent_remembering _ _) s') as Hk.
  destruct (mwhen _ _ s') as [[[]|e] s'']; cbn in Hk; exists acts'; unfold at_log in *; (split; [congruence|]); by try split.
Qed.

(** *** The understanding *)

Definition answered (home : HomeSnapshot) (answers : list home_act) : Prop :=
  no_execute answers /\ (answers = [] \/ exists req result, answers = [HaInterpreted req result]).
Definition heard_as (home : HomeSnapshot) (u : HomeUnderstanding) (s : HState) : Prop := exists answers,
  at_log (HaSnapshot home :: answers) s /\ no_execute answers /\ match u with UnderstoodProposal p => understood home answers p | _ => True end.
Definition heard_error (home : HomeSnapshot) (e : exn) (s : HState) : Prop := exists answers, at_log (HaSnapshot home :: answers) s /\ no_execute answers.

Lemma no_execute_nil : no_execute []. Proof. intros o r c Hx. by apply elem_of_nil in Hx. Qed.
Lemma no_execute_one a : (forall o r c, a <> HaExecute o r c) -> no_execute [a].
Proof. intros Ha. apply (no_execute_snoc []); [apply no_execute_nil|done]. Qed.
Lemma no_execute_cons a acts : (forall o r c, a <> HaExecute o r c) -> no_execute acts -> no_execute (a :: acts).
Proof. intros Ha Hn o r c [Hx|Hx]%elem_of_cons; [by apply (Ha o r c)|by apply Hn in Hx]. Qed.

Lemma primary_triple home req context deadline : asks home req ->
  triple (at_log [HaSnapshot home]) (ask_primary req context deadline)
    (fun r s => exists answers, at_log (HaSnapshot home :: answers) s /\ answered home answers /\
                  match r with inl (UnderstoodProposal p) => understood home answers p | inl _ | inr _ => True end)
    (heard_error home).
Proof.
  intros Hreq s Hs. unfold HomeCommand.ask_primary, mtry. unfold mbind_ at 1.
  pose proof (silent_awaiting_within (ir_timeout_ms req * 1000) (fun n => hw_interpret w n req) s) as Hk.
  assert (forall e s', hh_log s' = hh_log s -> heard_error home e s') as Herr.
  { intros e s' E. exists []. split; [unfold at_log in *; congruence|apply no_execute_nil]. }
  assert (forall (r : list (string * pyval)) s', hh_log s' = hh_log s -> exists answers, at_log (HaSnapshot home :: answers) s' /\ answered home answers /\ True) as Hnone.
  { intros r s' E. exists []. split; [unfold at_log in *; congruence|]. split; [|done]. split; [apply no_execute_nil|by left]. }
  destruct (awaiting_within _ _ _ s) as [[result|e] s1]; cbn [snd] in Hk; cycle 1.
  { unfold mret_, mraise. repeat case_match; simplify_eq; first [by apply Herr|by apply (Hnone [])]. }
  unfold act, mbind_, mmodify, mgets. cbn [hh_now].
  set (s2 := mkHState _ _ _ (hh_log s1 ++ _)). assert (at_log (HaSnapshot home :: [HaInterpreted req result]) s2) as Hs2 by (unfold at_log in *; cbn; by rewrite Hk, Hs, <- app_assoc).
  assert (answered home [HaInterpreted req result]) as Han by (split; [by apply no_execute_one|right; by eauto]).
  set (live := confident result && _). unfold mret_, mlift.
  destruct live eqn:El; cbn; [|by exists [HaInterpreted req result]]. unfold live in El. apply andb_true_iff in El as [Hc _].
  destruct (accepted req result) as [[p|]|e] eqn:Ea; cbn.
  - exists [HaInterpreted req result]. split; [done|]. split; [done|]. destruct (match diagnostic result "home_decision" with Some _ => _ | None => _ end); [done|].
    left. by exists req, result.
  - by exists [HaInterpreted req result].
  - unfold mret_, mraise. repeat case_match; simplify_eq; first [by exists [HaInterpreted req result]|exists [HaInterpreted req result]; split; [exact Hs2|by destruct Han]].
Qed.

Lemma accepted_same req result p : accepted req result = Ok (Some p) -> result.(is_proposal) = Some p.
Proof. unfold accepted. destruct (is_proposal result); [|done]. case_match; [done|]. destruct (validate_interpretation _ _) as [|e]; [by intros [= ->]|]. by destruct (is_value_error e). Qed.

Lemma validated_proposal req suggested p : validate_understanding req suggested = Ok (UnderstoodProposal p) ->
  suggested = UnderstoodProposal p /\ accepted req (fallback_result req p) = Ok (Some p).
Proof.
  destruct suggested as [q|c| |]; cbn [validate_understanding]; [| |done..].
  - intros (? & _ & ([q'|] & Ha & E)%res_bind_ok)%res_bind_ok; [|done]. injection E as <-. pose proof (accepted_same _ _ _ Ha) as Es. cbn in Es. injection Es as ->. by split.
  - destruct (_ || _); [done|]. destruct (hc_action c); [|done]. destruct (2 <=? _)%nat; [|done].
    by intros (? & _ & (? & _ & ([|] & _ & ?)%res_bind_ok)%res_bind_ok)%res_bind_ok.
Qed.

Lemma fallback_triple home f req context answers : asks home req -> answered home answers ->
  triple (at_log (HaSnapshot home :: answers)) (fallback_proposal w fallback_timeout_us f req context) (heard_as home) (heard_error home).
Proof.
  intros Hreq [Hn Ha] s Hs. unfold fallback_proposal, mtry. unfold mbind_ at 1.
  pose proof (silent_awaiting_within fallback_timeout_us (fun n => f n req context) s) as Hk.
  destruct (awaiting_within _ _ _ s) as [[suggested|e] s1]; cbn [snd] in Hk; cycle 1.
  { unfold mraise. assert (heard_error home e s1) as He by (exists answers; split; [unfold at_log in *; congruence|done]).
    by destruct (raised _ e). }
  unfold act, mbind_, mmodify, mlift. cbn. set (s2 := mkHState _ _ _ _).
  assert (at_log (HaSnapshot home :: answers ++ [HaSuggested req suggested]) s2) as Hs2 by (unfold at_log in *; cbn; by rewrite Hk, Hs, <- app_assoc).
  assert (no_execute (answers ++ [HaSuggested req suggested])) as Hn2 by by apply no_execute_snoc.
  destruct (validate_understanding req suggested) as [u|e] eqn:Ev; exists (answers ++ [HaSuggested req suggested]); [|done].
  split; [done|]. split; [done|]. destruct u as [p| | |]; [|done..]. apply validated_proposal in Ev as [-> Hacc]. right. by exists req, answers.
Qed.

Lemma asks_context home req context : asks home req -> asks home (with_context context req).
Proof. intros (base & c & Hb & ->). by exists base, context. Qed.

Lemma understand_triple home req context deadline : asks home req ->
  triple (at_log [HaSnapshot home]) (understand req context deadline) (heard_as home) (heard_error home).
Proof.
  intros Hreq s Hs. unfold HomeCommand.understand. unfold mbind_ at 1, mgets at 1. set (context1 := if deadline <=? hh_now s then None else context).
  pose proof (primary_triple home (with_context context1 req) context1 deadline (asks_context _ _ _ Hreq) s Hs) as Hp.
  unfold mbind_ at 1. destruct (ask_primary _ _ _ s) as [[[u|handoff]|e] s1]; [| |exact Hp].
  - destruct Hp as (answers & Hs1 & [Hn _] & Hu). exists answers. split; [done|]. split; [done|]. by destruct u.
  - destruct Hp as (answers & Hs1 & Han & _). destruct (hw_fallback w) as [f|]; [|exists answers; by destruct Han].
    unfold mbind_ at 1, mgets at 1. cbv zeta. unfold mbind_ at 1.
    match goal with |- context [fallback_proposal w fallback_timeout_us f ?r ?c s1] =>
      pose proof (fallback_triple home f r c answers ltac:(case_match; repeat apply asks_context; exact Hreq) Han s1 Hs1) as Hf;
      destruct (fallback_proposal w fallback_timeout_us f r c s1) as [[u|e] s2]; [|exact Hf] end.
    unfold mbind_, mgets, mret_. destruct (_ && _); [|exact Hf]. destruct Hf as (answers' & Hs2 & Hn & _). by exists answers'.
Qed.

(** *** What is done about it *)

Lemma plan_known registry refs action plan : plan_action registry refs action = Ok plan ->
  forall d t, dict_get plan.(pl_known) d = Some t -> t.(pt_device_id) = d.
Proof.
  unfold plan_action. case_bool_decide.
  - destruct refs as [|ref [|]]; [done| |done]. destruct (registry_scene registry ref) as [sc|]; [|done]. case_bool_decide; [|done].
    intros [= <-]. cbn. apply known_targets_spec.
  - destruct (mapM _ refs) as [ds|]; [|done]. intros (ts & _ & [= <-])%res_bind_ok. unfold bounded_plan. by destruct (_ <=? _).
Qed.

Notation on_control := (on_control float_of str_repr digest dump_proposal w execute_deadline_ms owner_id device_ref turn_id heard revision).
Notation on_proposal := (on_proposal float_of str_repr digest dump_proposal w execute_deadline_ms owner_id device_ref turn_id heard revision).
Notation on_clarification := (on_clarification float_of str_repr dump_proposal w owner_id turn_id heard revision).
Notation resolve_ambiguity := (resolve_ambiguity float_of str_repr turn_id (py_take MAX_SHOWN heard)).

(** A proposal that was understood, and what it comes down to in the home as it is now *)
Record acting (home0 home : HomeSnapshot) (answers : list home_act) (p : Proposal) (action : Action) (targets : list string) : Prop := {
  ac_quiet : no_execute answers;
  ac_understood : understood home0 answers p;
  ac_action : p.(pp_action) = Some action;
  ac_intent : p.(pp_intent) <> "unrelated" /\ p.(pp_intent) <> "query";
  ac_targets : comes_to home.(hs_registry) p action targets;
}.

Lemma acting_grounds home0 home answers p action targets plan : acting home0 home answers p action targets ->
  plan_action home.(hs_registry) targets action = Ok plan -> refused_target plan = None ->
  grounds (HaSnapshot home0 :: answers ++ [HaSnapshot home]) plan.
Proof.
  intros Ha Hp Hr. constructor.
  - apply no_execute_cons; [done|]. apply no_execute_snoc; [apply (ac_quiet _ _ _ _ _ _ Ha)|done].
  - by eapply plan_known.
  - destruct (plan_action_executes _ _ _ _ Hcoded Hp Hr) as [|[Hx Ht]]; [by left|]. right. split; [intros Hs; by apply Ht|].
    intros request context reply Hc Hs Hi Ho Hact Hrev. exists home0, answers, home, p, action, targets, context.
    split; [cbn; by rewrite <- app_assoc|]. destruct Ha as [Hq Hu He [Hi1 Hi2] Htg]. rewrite Hc. by split_and!.
Qed.

Ltac silently := repeat first
  [ apply silent_gets | apply silent_lift | apply silent_ret | apply silent_context | apply silent_remembering | apply silent_selection
  | apply silent_when | apply silent_seq; [|intros ?] | match goal with |- silent (if ?b then _ else _) => destruct b end ].
(** Passes over a statement that logs nothing. *)
Ltac quiet_step Hn := eapply silent_bind; [silently|intros ? ?; by apply no_execute_error|intros ?].

Lemma control_triple home0 home answers p p' action : acting home0 home answers p action p'.(pp_targets) ->
  triple (at_log (HaSnapshot home0 :: answers ++ [HaSnapshot home])) (on_control p' action home) post post_error.
Proof.
  intros Ha. assert (no_execute (HaSnapshot home0 :: answers ++ [HaSnapshot home])) as Hn
    by (apply no_execute_cons; [done|]; apply no_execute_snoc; [apply (ac_quiet _ _ _ _ _ _ Ha)|done]).
  unfold HomeCommand.on_control. intros s Hs. unfold mbind_ at 1, mlift at 1.
  destruct (plan_action _ _ _) as [plan|e] eqn:Ep; cycle 1.
  { destruct (raised _ e); [by apply (post_say _ _ _ Hn)|by eapply no_execute_error]. }
  destruct (refused_target plan) as [t|] eqn:Er; [|by apply (execute_triple _ _ _ (acting_grounds _ _ _ _ _ _ _ Ha Ep Er))].
  revert s Hs. change (triple (at_log (HaSnapshot home0 :: answers ++ [HaSnapshot home]))
    (question <-- (if bool_decide (t.(pt_rejected) = Some ERROR_OUT_OF_RANGE) then mlift (value_question float_of str_repr t.(pt_name) t.(pt_kind) action)
                   else mret_ "这些设备不能执行同一个操作，请分别说明每台设备要做什么") ;;
     remembering dump_proposal heard (mkMemo None (Some question) (Some (mkClarification question p'.(pp_targets) None)) "" "" "") ;;;
     say "clarification" question) post post_error).
  quiet_step Hn. quiet_step Hn. by apply post_say.
Qed.

Lemma resolve_outcome registry p q r : resolve_ambiguity registry p q = Ok (inl r) -> r.(vr_outcome) <> "executed".
Proof.
  unfold HomeCommand.resolve_ambiguity. destruct (pp_action p) as [action|]; [|done]. intros ([capable failed] & _ & E)%res_bind_ok.
  assert (forall o m, (r0 ← card turn_id (py_take MAX_SHOWN heard) o m; Ok (@inl VoiceResult Proposal r0)) = Ok (inl r) -> o <> "executed" -> r.(vr_outcome) <> "executed") as Hc.
  { intros o m (r0 & Hr0 & [= ->])%res_bind_ok Ho. by rewrite (card_outcome _ _ _ _ Hr0). }
  destruct (if (length capable <? 2)%nat then q else None); [by apply Hc in E|].
  destruct capable as [|[d c] [|x capable]]; [destruct failed as [|[d c] failed]; by apply Hc in E|done|].
  destruct (MAX_CANDIDATES <? _)%nat; [by apply Hc in E|]. by apply res_bind_ok in E as (? & _ & [= <-]).
Qed.

Lemma resolve_only registry p p' : resolve_ambiguity registry p None = Ok (inr p') -> exists action, p.(pp_action) = Some action /\ p'.(pp_action) = Some action /\
  exists d c refused, sort_out registry action p.(pp_targets) = Ok ([(d, c)], refused) /\ p'.(pp_targets) = [d.(hd_device_id)].
Proof.
  unfold HomeCommand.resolve_ambiguity. destruct (pp_action p) as [action|] eqn:Ea; [|done]. intros ([capable failed] & Hs & E)%res_bind_ok.
  exists action. split; [done|]. destruct (length capable <? 2)%nat eqn:El; (destruct capable as [|[d c] [|x capable]];
    [destruct failed as [|[d c] failed]; by apply res_bind_ok in E as (? & _ & [=])| |]).
  - injection E as <-. split; [done|]. by exists d, c, failed.
  - destruct (MAX_CANDIDATES <? _)%nat; by apply res_bind_ok in E as (? & _ & [=]).
  - injection E as <-. split; [done|]. by exists d, c, failed.
  - destruct (MAX_CANDIDATES <? _)%nat; by apply res_bind_ok in E as (? & _ & [=]).
Qed.

Lemma answer_outcome shown home p r : answer float_of str_repr turn_id shown home p = Ok r -> r.(vr_outcome) <> "executed".
Proof. unfold answer. destruct (omap _ _); intros E; by rewrite (card_outcome _ _ _ _ E). Qed.

(** The result of a statement that logs nothing and does not execute *)
Lemma quiet_result acts (m : HM VoiceResult) : no_execute acts -> silent m ->
  (forall s r s', m s = (Ok r, s') -> r.(vr_outcome) <> "executed") -> triple (at_log acts) m post post_error.
Proof.
  intros Hn Hm Ho s Hs. specialize (Hm s). destruct (m s) as [[r|e] s'] eqn:E; cbn in Hm.
  - eapply no_execute_post; [unfold at_log in *; rewrite Hm; exact Hs|exact Hn|]. by eapply Ho.
  - eapply no_execute_error; [exact Hn|]. unfold at_log in *. by rewrite Hm.
Qed.

Lemma say_result o m s r s' : say o m s = (Ok r, s') -> r.(vr_outcome) = o.
Proof. unfold HomeCommand.say, mlift. intros [= E _]. by eapply card_outcome. Qed.

Lemma clarification_triple acts c : no_execute acts -> triple (at_log acts) (on_clarification c) post post_error.
Proof.
  intros Hn. unfold HomeCommand.on_clarification.
  assert (forall acts', no_execute acts' -> triple (at_log acts')
    (remembering dump_proposal heard (mkMemo None (Some c.(hc_question)) (Some c) "" "" "") ;;; say "clarification" c.(hc_question)) post post_error) as Hplain.
  { intros acts' Hn'. quiet_step Hn'. by apply post_say. }
  destruct (hc_action c) as [action|]; [|by apply Hplain]. destruct (2 <=? _)%nat; [|by apply Hplain].
  eapply triple_bind; [by apply home_triple|]. intros [home|]; [|by apply post_say].
  assert (no_execute (acts ++ [HaSnapshot home])) as Hn2 by by apply no_execute_snoc.
  eapply silent_bind; [done|intros ? ?; by apply no_execute_error|]. intros ok. destruct (negb ok); [by apply post_say|].
  eapply silent_bind; [done|intros ? ?; by apply no_execute_error|]. intros _. intros s Hs. unfold mbind_ at 1, mlift at 1.
  destruct (resolve_ambiguity _ _ _) as [[r|p]|e] eqn:Er; [|exact (Hplain _ Hn2 s Hs)|by eapply no_execute_error].
  case_bool_decide; [|exact (Hplain _ Hn2 s Hs)]. revert s Hs.
  eapply silent_bind; [apply silent_selection|intros ? ?; by apply no_execute_error|]. intros _. apply post_ret; [done|]. by eapply resolve_outcome.
Qed.

Lemma proposal_triple home0 answers p : no_execute answers -> understood home0 answers p ->
  triple (at_log (HaSnapshot home0 :: answers)) (on_proposal p) post post_error.
Proof.
  intros Hq Hu. assert (no_execute (HaSnapshot home0 :: answers)) as Hn by by apply no_execute_cons. unfold HomeCommand.on_proposal.
  case_bool_decide as Hi1.
  { apply (quiet_result _ _ Hn).
    - silently.
    - intros s r s'. unfold mbind_ at 1. destruct (say _ _ s) as [[r0|e] s0] eqn:Es; [|done]. apply say_result in Es.
      unfold mbind_, remembering, mmodify, mret_. intros [= <- _]. by rewrite Es. }
  case_bool_decide as Hi2; [by apply post_say|].
  eapply triple_bind; [by apply home_triple|]. intros [home|]; [|by apply post_say].
  assert (no_execute ((HaSnapshot home0 :: answers) ++ [HaSnapshot home])) as Hn2 by by apply no_execute_snoc.
  destruct (negb (forallb _ _)); [by apply post_say|].
  eapply silent_bind; [done|intros ? ?; by apply no_execute_error|]. intros ok. destruct (negb ok); [by apply post_say|].
  case_bool_decide as Hi3.
  { apply (quiet_result _ _ Hn2).
    - silently.
    - intros s r s'. unfold mbind_ at 1, mlift. destruct (answer _ _ _ _ _ _) as [r0|e] eqn:Ea; [|done]. apply answer_outcome in Ea.
      unfold mbind_. destruct (mwhen _ _ s) as [[?|e] s1]; [|done]. unfold mret_. by intros [= <- _]. }
  destruct (pp_action p) as [action|] eqn:Ea; [|intros s Hs; by eapply no_execute_error].
  case_bool_decide as Hst.
  - intros s Hs. unfold mbind_ at 1, mlift at 1. destruct (resolve_ambiguity _ _ _) as [[r|p']|e] eqn:Er; [| |by eapply no_execute_error].
    + revert s Hs. apply (quiet_result _ _ Hn2); [silently|]. intros s r' s'. unfold mbind_. destruct (mwhen _ _ s) as [[?|e] s1]; [|done].
      unfold mret_. intros [= <- _]. by eapply resolve_outcome.
    + apply resolve_only in Er as (a & E1 & E2 & d & c & refused & Hs1 & Ht). rewrite Ea in E1. injection E1 as <-.
      eapply (control_triple home0 home answers p p' action); [|exact Hs]. constructor; try done. right. split; [done|]. by exists d, c, refused.
  - apply (control_triple home0 home answers p p action). constructor; try done. by left.
Qed.

Lemma understood_triple home0 answers previous u : no_execute answers -> (match u with UnderstoodProposal p => understood home0 answers p | _ => True end) ->
  triple (at_log (HaSnapshot home0 :: answers))
    (on_understood float_of str_repr digest dump_proposal w execute_deadline_ms owner_id device_ref turn_id heard revision previous u) post post_error.
Proof.
  intros Hq Hu. assert (no_execute (HaSnapshot home0 :: answers)) as Hn by by apply no_execute_cons. destruct u as [p|c| |]; cbn [on_understood].
  - quiet_step Hn. by apply proposal_triple.
  - by apply clarification_triple.
  - quiet_step Hn. quiet_step Hn. by apply post_say.
  - quiet_step Hn. by apply post_say.
Qed.

Lemma turn_triple :
  triple (at_log [])
    (handle_turn float_of str_repr digest dump_proposal dump_action w interpretation_timeout_ms execute_deadline_ms fallback_timeout_us min_confidence
       owner_id device_ref turn_id heard revision) post post_error.
Proof.
  pose proof no_execute_nil as Hn. unfold handle_turn. eapply silent_bind; [done|intros ? ?; by apply no_execute_error|]. intros ok.
  eapply silent_bind; [|intros ? ?; by apply no_execute_error|].
  { destruct ok; [|done]. intros s. unfold take_snapshot, mbind_, mget. by destruct (context_snapshot _ _ _ _). }
  intros previous. eapply silent_bind; [done|intros ? ?; by apply no_execute_error|]. intros ok'. destruct (negb ok'); [by apply post_say|].
  destruct (is_empty heard); [by apply post_say|]. unfold handle_heard.
  eapply triple_bind; [by apply home_triple|]. intros home.
  eapply (triple_conseq _ (at_log (match home with Some h => [HaSnapshot h] | None => [] end))); [by destruct home| |by intros ? ?|by intros ? ?].
  assert (no_execute (match home with Some h => [HaSnapshot h] | None => [] end)) as Hn1 by (destruct home; [by apply no_execute_one|done]).
  eapply silent_bind; [done|intros ? ?; by apply no_execute_error|]. intros ok2. destruct home as [home|]; [|quiet_step Hn1; by apply post_say].
  destruct (negb ok2); [by apply post_say|]. intros s Hs. unfold mbind_ at 1, mlift at 1.
  destruct (interpretation_request _ _ _ _ _) as [req|e] eqn:Eq; [|by eapply no_execute_error]. revert s Hs.
  eapply silent_bind; [done|intros ? ?; by apply no_execute_error|]. intros deadline.
  assert (asks home req) as Hreq by (exists req, (ir_context req); split; [done|by destruct req]).
  eapply (triple_bind _ _ _ (fun o s => match o with Some u => heard_as home u s | None => heard_error home Cancelled s end)).
  - intros s Hs. unfold mtry, mbind_, mret_. pose proof (understand_triple home req previous deadline Hreq s Hs) as Hu.
    destruct (understand _ _ _ s) as [[u|e] s1]; [exact Hu|]. destruct Hu as (answers & Hs1 & Hq). destruct (raised _ e); [by exists answers|].
    eapply no_execute_error; [|done]. by apply no_execute_cons.
  - intros [u|] s (answers & Hs & Hq); [destruct Hq as [Hq Hu]|].
    + assert (no_execute (HaSnapshot home :: answers)) as Hn2 by by apply no_execute_cons. revert s Hs.
      eapply silent_bind; [done|intros ? ?; by apply no_execute_error|]. intros ok3. destruct (negb ok3); [by apply post_say|]. by apply understood_triple.
    + assert (no_execute (HaSnapshot home :: answers)) as Hn2 by by apply no_execute_cons. revert s Hs.
      eapply silent_bind; [done|intros ? ?; by apply no_execute_error|]. intros ok3. quiet_step Hn2. by apply post_say.
Qed.
End Turn.

(** ** The theorems *)

Section Theorems.
Context `{HomeSdk} (float_of : string -> spec_float) (str_repr : string -> string) (digest : list string -> string).
Context (dump_proposal : Proposal -> pyval) (dump_action : Action -> pyval) (w : HomeWorld).
Context (interpretation_timeout_ms execute_deadline_ms fallback_timeout_us : Z) (min_confidence : num).
Notation handle := (handle float_of str_repr digest dump_proposal dump_action w interpretation_timeout_ms execute_deadline_ms
                      fallback_timeout_us min_confidence).
(** The acts of a turn that heard [utterance] at the revision it was given *)
Notation submitted_by utterance rev :=
  (fun owner_id device_ref turn_id => submitted float_of digest interpretation_timeout_ms min_confidence owner_id device_ref turn_id
                                        (py_join " " (py_split utterance)) rev).

Lemma handle_post owner_id device_ref turn_id utterance revision s : coded ->
  let rev := default s.(hh_context).(hx_revision) revision in
  let heard := py_join " " (py_split utterance) in
  match handle owner_id device_ref turn_id utterance revision s with
  | (Ok r, s') => post float_of digest interpretation_timeout_ms min_confidence owner_id device_ref turn_id heard rev s.(hh_log) r s'
  | (Err e, s') => post_error float_of digest interpretation_timeout_ms min_confidence owner_id device_ref turn_id heard rev s.(hh_log) e s'
  end.
Proof.
  intros Hc. unfold HomeCommand.handle. unfold mbind_ at 1, mgets at 1. cbv zeta. apply turn_triple; [done|]. unfold at_log. by rewrite app_nil_r.
Qed.

(** C25: Whatever the directory, the interpreter, the fallback and the executor answer and whatever
    happens to the session meanwhile: a spoken command submits at most one request, for a
    proposal that passed the validator about the home read before, on all its targets as they
    are in the registry read after, under the key of its turn and in a session still current;
    and it is reported as executed only if the reply confirms every command. *)
Theorem home_commands_are_grounded owner_id device_ref turn_id utterance revision s : coded ->
  let rev := default s.(hh_context).(hx_revision) revision in
  exists acts, (snd (handle owner_id device_ref turn_id utterance revision s)).(hh_log) = s.(hh_log) ++ acts /\
    (no_execute acts \/ exists request scene reply, submitted_by utterance rev owner_id device_ref turn_id acts request scene reply) /\
    forall r, fst (handle owner_id device_ref turn_id utterance revision s) = Ok r -> r.(vr_outcome) = "executed" ->
      exists request scene result, submitted_by utterance rev owner_id device_ref turn_id acts request scene (Some result) /\
        confirmed request.(xr_request_id) request.(xr_commands) scene result.
Proof.
  intros Hc. pose proof (handle_post owner_id device_ref turn_id utterance revision s Hc) as Hp. cbv zeta in *.
  destruct (handle _ _ _ _ _ s) as [[r|e] s']; [destruct Hp as (acts & Hl & Ha & Hx)|destruct Hp as (acts & Hl & Ha)]; exists acts; split_and!; try done.
  by intros ? [= <-].
Qed.
End Theorems.

(** ** The sessions *)

Section SessionFacts.
Context (ttl_us capacity context_turns : Z).

(** One session per key, of that key, and no more than the capacity *)
Record sessions_ok (items : Sessions) : Prop := {
  so_keys : NoDup items.*1;
  so_scopes : forall k s, (k, s) ∈ items -> session_key s.(se_scope) = k;
  so_bound : Z.of_nat (length items) <= Z.max 0 capacity;
}.

Lemma sessions_ok_set items k s : sessions_ok items -> session_key s.(se_scope) = k ->
  k ∈ items.*1 \/ Z.of_nat (length items) < capacity -> sessions_ok (dict_set items k s).
Proof.
  intros [Hn Hs Hb] Hk Hin. constructor; [by apply dict_set_nodup| |].
  - intros k' s' [[-> ->]|Hx]%dict_set_elem; [done|by eapply Hs].
  - destruct Hin as [Hin|Hlt].
    + rewrite <- (length_fmap fst), dict_set_keys_in, length_fmap by done. exact Hb.
    + pose proof (dict_set_length items k s). lia.
Qed.

Lemma sessions_ok_filter items f : sessions_ok items -> sessions_ok (List.filter f items).
Proof.
  intros [Hn Hs Hb]. constructor; [by apply NoDup_map_filter| |].
  - intros k s [Hx _]%elem_of_filter_list. by eapply Hs.
  - etransitivity; [|exact Hb]. apply inj_le, filter_length_le.
Qed.

Lemma found_key (items : Sessions) k (s : HomeSession) : dict_get items k = Some s -> k ∈ items.*1.
Proof. intros Hg%dict_get_elem. apply list_elem_of_fmap. by exists (k, s). Qed.

(** A session that is handed out is active, of exactly the scope asked for, and kept. *)
Lemma get_session_ok now scope items : sessions_ok items ->
  let '(r, items') := get_session ttl_us capacity context_turns now scope items in
  sessions_ok items' /\ forall s, r = Ok s -> s.(se_scope) = scope /\ s.(se_context).(hx_active) = true /\ dict_get items' (session_key scope) = Some s.
Proof.
  intros Hok. unfold get_session. set (kept := List.filter _ items). assert (sessions_ok kept) as Hk by by apply sessions_ok_filter.
  assert (forall s items', sessions_ok items' -> dict_get items' (session_key scope) = Some s ->
    let '(r, items'') := (if negb (bool_decide (s.(se_scope) = scope)) then (Err (unavailable_session "changing a Companion requires a new home session"), items')
      else
        let s := mkHomeSession s.(se_scope) s.(se_context) s.(se_locked) now in
        let items := dict_set items' (session_key scope) s in
        if negb s.(se_context).(hx_active) then (Err (unavailable_session "home session is closed"), items) else (Ok s, items)) in
    sessions_ok items'' /\ forall s, r = Ok s -> s.(se_scope) = scope /\ s.(se_context).(hx_active) = true /\ dict_get items'' (session_key scope) = Some s) as Hfound.
  { intros s items' Hi Hg. case_bool_decide as Hs; cbn [negb]; [|by split]. cbv zeta. cbn [se_context].
    assert (sessions_ok (dict_set items' (session_key scope) (mkHomeSession s.(se_scope) s.(se_context) s.(se_locked) now))) as Hset
      by (apply sessions_ok_set; [done|by rewrite <- Hs|left; by eapply found_key]).
    destruct (hx_active (se_context s)) eqn:Ea; cbn [negb]; [|by split]. split; [done|]. intros s' [= <-]. split; [done|]. split; [done|]. apply dict_get_set_eq. }
  destruct (dict_get kept (session_key scope)) as [s|] eqn:Eg; [by apply Hfound|].
  destruct (Z.leb_spec capacity (Z.of_nat (length kept))) as [Hc|Hc]; [by split|].
  destruct (context_check context_turns) as [[]|e]; cbn; [|by split].
  apply (Hfound (mkHomeSession scope (new_context context_turns) false now)); [apply sessions_ok_set; [done..|by right]|apply dict_get_set_eq].
Qed.

Lemma close_session_ok now scope items : sessions_ok items ->
  let '(r, items') := close_session now scope items in
  sessions_ok items' /\ (r = Ok tt -> forall s, dict_get items' (session_key scope) = Some s -> s.(se_context).(hx_active) = false).
Proof.
  intros Hok. unfold close_session. destruct (dict_get items (session_key scope)) as [s|] eqn:Eg; [|split; [done|]; intros _ s; by rewrite Eg].
  case_bool_decide as Hs; cbn [negb]; [|by split]. split.
  - apply sessions_ok_set; [done|by rewrite Hs|left; by eapply found_key].
  - intros _ s'. rewrite dict_get_set_eq. by intros [= <-].
Qed.
End SessionFacts.

(** ** A concrete home *)

Definition sample_home_sdk : HomeSdk := {|
  DEVICE_TYPES := [("light", mkTypeSpec ["on_off"; "level"] None []); ("climate", mkTypeSpec ["on_off"; "thermostat"] (Some (VInt 16, VInt 30)) ["cool"])];
  TRAIT_COMMANDS := [("on_off", [("on", []); ("off", [])]); ("thermostat", [("set_target", [("celsius", (Some (VInt 5), Some (VInt 40)))])])];
  MAX_COMMANDS := 16;
  SCENE_TRAIT := "scene"; SCENE_COMMAND := "activate"; SCENE_KIND := "scene";
  ERROR_UNKNOWN_DEVICE := "UNKNOWN_DEVICE"; ERROR_UNSUPPORTED_COMMAND := "UNSUPPORTED_COMMAND"; ERROR_OUT_OF_RANGE := "OUT_OF_RANGE";
  ERROR_INVALID_PARAMS := "INVALID_PARAMS"; ERROR_DEVICE_OFFLINE := "DEVICE_OFFLINE"; ERROR_DEADLINE_EXCEEDED := "DEADLINE_EXCEEDED";
  ERROR_UNKNOWN_SCENE := "UNKNOWN_SCENE"; ERROR_TIMEOUT := "TIMEOUT"; ERROR_INVALID_PROPOSAL := "INVALID_PROPOSAL"; ERROR_INVALID_REQUEST := "INVALID_REQUEST"; ERROR_UNAVAILABLE := "UNAVAILABLE";
  registry_device r i := List.find (fun d => bool_decide (d.(hd_device_id) = i)) r.(rg_devices);
  registry_scene r i := List.find (fun s => bool_decide (s.(sc_scene_id) = i)) r.(rg_scenes);
  registry_area_of r i := dict_get r.(rg_placements) i;
  check_command _ := Ok tt; check_action _ := Ok tt; check_proposal _ := Ok tt; check_interpretation _ := Ok tt; check_result _ := Ok tt;
  check_execute _ := Ok tt; check_voice _ := Ok tt;
  validate_command kind c :=
    if bool_decide (c.(cm_trait) = "thermostat") && bool_decide (kind = "light") then Err (smart_home_error "UNSUPPORTED_COMMAND") else Ok tt;
  validate_execute_result commands result :=
    if bool_decide (map cm_device_id commands = map cr_device_id result.(xs_results)) then Ok tt else Err (PyError "ValueError" "results");
  validate_interpretation req result :=
    match result.(is_proposal) with
    | Some p => if forallb (fun r => bool_decide (r ∈ map cd_ref req.(ir_candidates))) p.(pp_targets) then Ok tt else Err (PyError "ValueError" "target")
    | None => Err (PyError "ValueError" "proposal")
    end;
|}.

Lemma sample_coded : @coded sample_home_sdk.
Proof.
  split; [done|]. split; [done|]. intros kind c e. cbn. destruct (_ && _); [|done]. intros [= <-] _. done.
Qed.

Definition sample_registry : Registry :=
  mkRegistry [mkHomeArea "living" "客厅"] [mkHomeDevice "lamp-1" "客厅灯" [] "light" (Some "living"); mkHomeDevice "ac-1" "空调" [] "climate" (Some "living")]
    [] [("panel", "living")].
Definition sample_on : Action := mkAction "on_off" "on" [].
Definition sample_home_world (p : Proposal) (interfere : nat -> HomeContext -> HomeContext) : HomeWorld :=
  mkHomeWorld (fun _ _ => Ok (mkHomeSnapshot sample_registry [])) (fun _ req => Ok (mkInterpretationResult req.(ir_interpretation_id) "decided" (Some p) "rules" "v1" []))
    None (fun _ _ req => Ok (mkExecuted req.(xr_request_id) None (map (fun c => mkHomeResult c.(cm_device_id) "succeeded" None None None) req.(xr_commands))))
    (fun _ => 1000) interfere (fun _ => 5000).
Notation sample_handle p interfere :=
  (@handle sample_home_sdk (fun _ => S754_nan) id (fun _ => "") (fun _ => VNone) (fun _ => VNone) (sample_home_world p interfere) 1000 3000 8000000 (NInt 0)
     "owner" (Some "panel") "turn-1" " 打开  客厅灯 " None (mkHState (new_context 3) 0 0 [])).
Definition sample_lamp : Proposal := mkHomeProposal "control" "resolved" ["lamp-1"] (Some sample_on) None.

Lemma sample_lamp_on : let '(r, s) := sample_handle sample_lamp (fun _ c => c) in
  r = Ok (mkVoice "turn-1" "打开 客厅灯" "executed" "已打开客厅灯" [] None) /\ s.(hh_context).(hx_response) = "已打开客厅灯".
Proof. vm_compute. by split. Qed.

Notation sample_submitted :=
  (@submitted sample_home_sdk (fun _ => S754_nan) (fun _ => "") 1000 (NInt 0) "owner" (Some "panel") "turn-1" (py_join " " (py_split " 打开  客厅灯 ")) 0).
Lemma home_commands_are_grounded_witness : exists acts,
  (snd (sample_handle sample_lamp (fun _ c => c))).(hh_log) = [] ++ acts /\
  (no_execute acts \/ exists request scene reply, sample_submitted acts request scene reply) /\
  forall r, fst (sample_handle sample_lamp (fun _ c => c)) = Ok r -> r.(vr_outcome) = "executed" ->
    exists request scene result, sample_submitted acts request scene (Some result) /\
      @confirmed sample_home_sdk request.(xr_request_id) request.(xr_commands) scene result.
Proof. exact (@home_commands_are_grounded sample_home_sdk _ _ _ _ _ _ _ _ _ _ _ _ _ _ None (mkHState (new_context 3) 0 0 []) sample_coded). Defined.

(** A session closed while its command is being interpreted executes nothing; two devices of
    which one cannot do it are asked about, not half switched. *)
Example closed_while_interpreting :
  (sample_handle sample_lamp (fun n c => if (n =? 1)%nat then closed_context c else c)).1 =
    Ok (mkVoice "turn-1" "打开 客厅灯" "unavailable" SUPERSEDED [] None).
Proof. vm_compute. reflexivity. Qed.
Example mixed_targets_are_asked_about :
  (sample_handle (mkHomeProposal "control" "resolved" ["ac-1"; "lamp-1"] (Some (mkAction "thermostat" "set_target" [mkSlot "celsius" (VInt 26) None None])) None)
     (fun _ c => c)).1 = Ok (mkVoice "turn-1" "打开 客厅灯" "clarification" "这些设备不能执行同一个操作，请分别说明每台设备要做什么" [] None).
Proof. vm_compute. reflexivity. Qed.
