(* ===== verification/Ingress.v ===== *)
(** * [app/interaction/__init__.py], [core/types/conversation.py], [core/types/coordination.py]: from a
      request inside an authorized session to the turn the engine runs.

    [prepare] is [AcceptReply.prepare]. The registry and the SDK's verification of a speaker
    attestation are parameters; the executors are known by the tools they offer. *)

From S2P Require Import Prelude CoreTypes Json ContextText Coordination RuntimeSession TurnEngine.

(** ** [validate_conversation_id] *)

Definition CONVERSATION_ID_MAX_LENGTH : nat := 512.

Definition validate_conversation_id (value : string) : res string :=
  if is_empty value || is_empty (py_strip value) then Err (value_error "conversation_id must not be empty")
  else if bool_decide (CONVERSATION_ID_MAX_LENGTH < py_len value)%nat
  then Err (value_error ("conversation_id exceeds " +:+ int_str (Z.of_nat CONVERSATION_ID_MAX_LENGTH) +:+ " characters")%string)
  else Ok value.

(** ** [CoordinatedInput] *)

Record CoordinatedInput := mkCoordinated { ci_context_ref : string; ci_trigger : Message; ci_public_context : list Message }.
Definition user_text (c : CoordinatedInput) : string :=
  if bool_decide (c.(ci_trigger).(ms_author_kind) = "user") then c.(ci_trigger).(ms_text) else "".

(** ** [ReplyRequest], [PreparedReply] *)

Record ReplyRequest := mkReplyRequest {
  rq_conversation_id : string;
  rq_text : string;
  rq_input_modality : string;
  rq_turn_id : string;
  rq_trace_id : string;
  rq_request_id : string;
  rq_speculative : bool;
  rq_realtime : option SignalDigest;
  rq_metadata : list (string * pyval);
  rq_coordination : option CoordinatedInput;
  rq_channel_tools : option (list ToolSchema);
  rq_channel_capabilities : list string;
}.

(** The SDK's observation with the fields it is bound by. *)
Record Attested := mkAttested {
  at_observation : SpeakerObservation;
  at_person_revision : option Z;
  at_confidence : pyval;
  at_turn_id : string;
}.

(** What the registry returns: the runtime and its agent. *)
Record RuntimeInstance := mkRuntimeInstance {
  in_owner_id : string;
  in_companion_id : string;
  in_genome_id : string;
  in_agent : option nat;
}.

(** The turn with the metadata [TurnEngine] keeps in its state. *)
Record PreparedReply := mkPrepared {
  pp_agent : nat;
  pp_turn : TurnInput;
  pp_metadata : list (string * pyval);
  pp_realtime : option SignalDigest;
  pp_coordination : option CoordinatedInput;
}.

Section Prepare.
(** [resolve_runtime] by owner, companion and genome; [verify] by token, owner, session, turn and text; [uuid]s for the
    turn, the trace and the request. *)
Context (lower : string -> string) (resolve : string -> string -> string -> res RuntimeInstance).
Context (verify : pyval -> string -> string -> string -> string -> res Attested).

(** The modality, stripped and in lower case. *)
Definition modality_of (raw : string) : res string :=
  let modality := py_lower lower (py_strip raw) in
  if bool_decide (modality ∈ ["voice"; "text"]) then Ok modality else Err (value_error "input_modality must be 'voice' or 'text'").

Definition resolve_scope (scope : AuthorizedRuntimeSession) : res nat :=
  let runtime := scope.(as_runtime) in
  match resolve (as_owner_id scope) (as_companion_id scope) runtime.(cf_genome_id) with
  | Err e => Err e
  | Ok i =>
      if negb (bool_decide ((i.(in_owner_id), i.(in_companion_id), i.(in_genome_id)) =
                            (as_owner_id scope, as_companion_id scope, runtime.(cf_genome_id))))
      then Err (refused "registry returned runtime outside authorized scope")
      else match i.(in_agent) with
           | None => Err (Eidolon NotFoundError "authorized Companion runtime has no agent")
           | Some agent => Ok agent
           end
  end.

Definition opt_nonempty (a : option string) (b : string) : string := match a with Some s => if is_empty s then b else s | None => b end.

(** The verified speaker of the utterance, and the metadata without what the client claimed. *)
Definition speaker_of (scope : AuthorizedRuntimeSession) (rq : ReplyRequest) (modality : string)
    : res (option Attested * list (string * pyval)) :=
  let md := dict_pop rq.(rq_metadata) "speaker_observation" in
  let attestation := dict_get md "speaker_observation_token" in
  let md := dict_pop md "speaker_observation_token" in
  match attestation with
  | Some token =>
      if bool_decide (modality = "voice") && negb rq.(rq_speculative) && truthy token then
        match verify token (as_owner_id scope) (opt_nonempty scope.(as_source_session_id) scope.(as_session_id)) rq.(rq_trace_id) rq.(rq_text) with
        | Ok speaker => Ok (Some speaker, md)
        | Err e => if is_value_error e then Ok (None, dict_set md "speaker_observation_rejected" (VBool true)) else Err e
        end
      else Ok (None, md)
  | None => Ok (None, md)
  end.

Definition observation_json (a : Attested) : pyval :=
  let o := a.(at_observation) in
  VDict [("status", VStr o.(sp_status)); ("reason", VStr o.(sp_reason)); ("person_id", of_opt_str o.(sp_person_id));
         ("person_revision", of_opt_int a.(at_person_revision)); ("confidence", a.(at_confidence)); ("turn_id", VStr a.(at_turn_id))].

(** The person whose memory the turn may use. *)
Definition bound_person (scope : AuthorizedRuntimeSession) (speaker : option Attested) : option string * option Z * option Z :=
  let identified := match speaker with
    | Some a => bool_decide (a.(at_observation).(sp_status) = "identified") &&
        bool_decide ((a.(at_observation).(sp_person_id), a.(at_person_revision)) = (scope.(as_person_id), scope.(as_person_revision)))
    | None => false end in
  if bool_decide (scope.(as_source_session_id) = Some scope.(as_session_id)) && negb identified then (None, None, None)
  else (scope.(as_person_id), scope.(as_person_revision), scope.(as_identity_epoch)).

Definition has_some {A} (o : option A) : bool := if o is Some _ then true else false.

Definition turn_context (scope : AuthorizedRuntimeSession) (rq : ReplyRequest) (speaker : option Attested) (trace_uuid request_uuid : string) : TurnContext :=
  let '(person, revision, epoch) := bound_person scope speaker in
  let runtime := scope.(as_runtime) in
  mkTurnContext (as_owner_id scope) (as_companion_id scope) scope.(as_device_id) runtime.(cf_memory_realm_id) runtime.(cf_genome_id)
    (if is_empty rq.(rq_trace_id) then trace_uuid else rq.(rq_trace_id)) (if is_empty rq.(rq_request_id) then request_uuid else rq.(rq_request_id))
    person epoch revision runtime.(cf_schema_version) runtime.(cf_genome_hash) runtime.(cf_realizer_version) "zh-CN"
    (has_some person && bool_decide (scope.(as_memory_mode) = "personal")) (at_observation <$> speaker) scope.(as_source_session_id)
    (has_some person && scope.(as_provisional_memory_save)) (has_some person && scope.(as_provisional_memory_recall)).

(** [prepare]; the order of the refusals is the code's. *)
Definition prepare (scope : AuthorizedRuntimeSession) (rq : ReplyRequest) (turn_uuid trace_uuid request_uuid : string) : res PreparedReply :=
  match validate_conversation_id rq.(rq_conversation_id) with Err e => Err e | Ok conversation =>
  match modality_of rq.(rq_input_modality) with Err e => Err e | Ok modality =>
  match resolve_scope scope with Err e => Err e | Ok agent =>
  match speaker_of scope rq modality with Err e => Err e | Ok (speaker, md) =>
    let md := match speaker with Some a => dict_set md "speaker_observation" (observation_json a) | None => md end in
    let md := if rq.(rq_speculative) then dict_set md "speculative" (VBool true) else md in
    let ctx := turn_context scope rq speaker trace_uuid request_uuid in
    if negb (turn_context_valid ctx) then Err (value_error "provisional save requires an isolated, bound Person session")
    else if match rq.(rq_coordination) with Some c => negb (bool_decide (rq.(rq_text) = user_text c)) | None => false end
    then Err (value_error "coordinated user text must match the attributed source")
    else
      let trigger := match rq.(rq_coordination) with
        | Some c => if bool_decide (c.(ci_trigger).(ms_author_kind) = "user") then USER_UTTERANCE else COORDINATED_REPLY
        | None => USER_UTTERANCE end in
      Ok (mkPrepared agent
        (mkTurnInput (if is_empty rq.(rq_turn_id) then turn_uuid else rq.(rq_turn_id)) conversation scope.(as_session_id) ctx modality trigger
           scope.(as_config) (Some rq.(rq_text)) true (has_some rq.(rq_coordination)) None rq.(rq_channel_tools) rq.(rq_channel_capabilities))
        md rq.(rq_realtime) rq.(rq_coordination))
  end end end end.

(** ** What a prepared turn may use *)

Lemma speaker_of_spec scope rq modality speaker md : speaker_of scope rq modality = Ok (speaker, md) ->
  (forall a, speaker = Some a -> modality = "voice" /\ rq.(rq_speculative) = false /\
     exists token, dict_get rq.(rq_metadata) "speaker_observation_token" = Some token /\
       verify token (as_owner_id scope) (opt_nonempty scope.(as_source_session_id) scope.(as_session_id)) rq.(rq_trace_id) rq.(rq_text) = Ok a) /\
  (NoDup rq.(rq_metadata).*1 -> dict_get md "speaker_observation" = None /\ dict_get md "speaker_observation_token" = None).
Proof.
  unfold speaker_of. rewrite dict_pop_get_ne by done.
  set (md1 := dict_pop (dict_pop (rq_metadata rq) "speaker_observation") "speaker_observation_token").
  assert (NoDup (rq_metadata rq).*1 -> dict_get md1 "speaker_observation" = None /\ dict_get md1 "speaker_observation_token" = None) as Hmd.
  { intros Hn. unfold md1. split.
    - rewrite dict_pop_get_ne by done. by apply dict_pop_get_eq.
    - apply dict_pop_get_eq. by apply dict_pop_nodup. }
  destruct (dict_get (rq_metadata rq) "speaker_observation_token") as [token|] eqn:Et; [|by intros [= <- <-]].
  destruct (_ && _) eqn:Eb; [|by intros [= <- <-]].
  rewrite !andb_true_iff, negb_true_iff, bool_decide_eq_true in Eb. destruct Eb as [[Em Es] _].
  destruct (verify token _ _ _ _) as [a|e] eqn:Ev.
  - intros [= <- <-]. split; [|done]. intros a' [= <-]. split_and!; [done..|]. by exists token.
  - destruct (is_value_error e); [|done]. intros [= <- <-]. split; [done|]. intros Hn. rewrite !dict_get_set_ne by done. by apply Hmd.
Qed.

(** Whatever a request contains: a prepared turn runs the agent the registry has for the
    authorized owner, companion and genome, carries the ids of the authorized scope and no
    person but its person; it may write or recall memory only for a person, in a shared session
    only for the one whose verified attestation of exactly this utterance says so; and a client
    cannot supply a recognition result. *)
Theorem prepared_turn_is_scoped scope rq turn_uuid trace_uuid request_uuid p :
  prepare scope rq turn_uuid trace_uuid request_uuid = Ok p -> NoDup rq.(rq_metadata).*1 ->
  let ctx := p.(pp_turn).(ti_context) in
  (exists i, resolve ctx.(owner_id) ctx.(companion_id) ctx.(genome_id) = Ok i /\ i.(in_agent) = Some p.(pp_agent) /\
     (i.(in_owner_id), i.(in_companion_id), i.(in_genome_id)) = (ctx.(owner_id), ctx.(companion_id), ctx.(genome_id))) /\
  ctx.(owner_id) = as_owner_id scope /\ ctx.(companion_id) = as_companion_id scope /\ ctx.(device_id) = scope.(as_device_id) /\
  ctx.(memory_realm_id) = scope.(as_runtime).(cf_memory_realm_id) /\ p.(pp_turn).(ti_session_id) = scope.(as_session_id) /\
  (ctx.(person_id) = None \/ (ctx.(person_id), ctx.(person_revision), ctx.(identity_epoch)) =
     (scope.(as_person_id), scope.(as_person_revision), scope.(as_identity_epoch))) /\
  (memory_write_enabled ctx || ctx.(provisional_memory_recall) = true ->
     ctx.(person_id) <> None /\
     (scope.(as_source_session_id) = Some scope.(as_session_id) ->
        exists token a, dict_get rq.(rq_metadata) "speaker_observation_token" = Some token /\
          verify token ctx.(owner_id) (opt_nonempty scope.(as_source_session_id) scope.(as_session_id)) rq.(rq_trace_id) rq.(rq_text) = Ok a /\
          a.(at_observation).(sp_status) = "identified" /\
          (a.(at_observation).(sp_person_id), a.(at_person_revision)) = (ctx.(person_id), ctx.(person_revision)) /\
          p.(pp_turn).(ti_input_modality) = "voice" /\ rq.(rq_speculative) = false)) /\
  (ctx.(speaker_observation) = None -> dict_get p.(pp_metadata) "speaker_observation" = None).
Proof.
  unfold prepare. destruct (validate_conversation_id _) as [conversation|]; [|done]. destruct (modality_of _) as [modality|]; [|done].
  destruct (resolve_scope scope) as [agent|] eqn:Er; [|done]. destruct (speaker_of scope rq modality) as [[speaker md]|] eqn:Es; [|done].
  apply speaker_of_spec in Es as [Hsp Hmd]. destruct (negb _); [done|]. destruct (match rq_coordination rq with Some _ => _ | None => _ end); [done|].
  intros [= <-] Hn. destruct (Hmd Hn) as [Hm _]. simpl.
  unfold turn_context. destruct (bound_person scope speaker) as [[person revision] epoch] eqn:Eb. simpl.
  assert (exists i, resolve (as_owner_id scope) (as_companion_id scope) (cf_genome_id (as_runtime scope)) = Ok i /\ in_agent i = Some agent /\
    (in_owner_id i, in_companion_id i, in_genome_id i) = (as_owner_id scope, as_companion_id scope, cf_genome_id (as_runtime scope))) as Hi.
  { unfold resolve_scope in Er. destruct (resolve _ _ _) as [i|]; [|done]. destruct (negb _) eqn:En; [done|].
    apply negb_false_iff, bool_decide_eq_true in En. destruct (in_agent i) as [a|] eqn:Ea; [|done]. injection Er as ->. by exists i. }
  split_and!; [done..| | |].
  - unfold bound_person in Eb. destruct (_ && negb _); injection Eb as <- <- <-; auto.
  - intros Hw. unfold memory_write_enabled in Hw. simpl in Hw. destruct person as [x|]; [|done]. split; [done|]. intros Hsrc.
    unfold bound_person in Eb. rewrite bool_decide_eq_true_2 in Eb by done. destruct speaker as [a|]; [|done].
    destruct (Hsp a eq_refl) as (-> & Hspec & token & Et & Ev).
    destruct (bool_decide (sp_status (at_observation a) = "identified") && _) eqn:Ei; [|done]. simpl in Eb.
    apply andb_true_iff in Ei as [Est%bool_decide_eq_true Epr%bool_decide_eq_true]. injection Eb as Ep Erv Eep.
    exists token, a. split_and!; try done. rewrite <- Ep, <- Erv. done.
  - intros Hno. destruct speaker as [a|]; [done|]. destruct (rq_speculative rq); [by rewrite dict_get_set_ne|done].
Qed.
End Prepare.

(** ** A concrete request *)

Definition ingress_scope : AuthorizedRuntimeSession :=
  mkAuthorized sample_facts (Some "desk") "s1" (mkRuntimeConfig None "1.0" [] [] false None None) (Some "p1") (Some "s1") (Some 1) (Some 0)
    "personal" false false.
Definition ingress_registry (owner companion genome : string) : res RuntimeInstance := Ok (mkRuntimeInstance owner companion genome (Some 7%nat)).
(** The token names the speaker. *)
Definition ingress_verify (token : pyval) (owner session turn text : string) : res Attested :=
  match token with
  | VStr person => Ok (mkAttested (mkSpeaker "identified" "" (Some person) None None) (Some 1) (VInt 1) turn)
  | _ => Err (value_error "attestation")
  end.
Definition ingress_request (token : pyval) : ReplyRequest :=
  mkReplyRequest "c1" "hello" " Voice " "t1" "trace" "" false None
    [("speaker_observation", VStr "p1"); ("speaker_observation_token", token); ("lang", VStr "zh")] None None [].
Notation ingress_prepare token := (prepare id ingress_registry ingress_verify ingress_scope (ingress_request token) "u1" "u2" "u3").

(** Only the attested person's voice may use the memory of the shared session. *)
Example speakers_and_memory :
  map (fun token => match ingress_prepare token with
                    | Ok p => Some (p.(pp_turn).(ti_context).(memory_enabled), p.(pp_turn).(ti_context).(person_id), p.(pp_metadata).*1)
                    | Err _ => None end) [VStr "p1"; VStr "p2"; VInt 0; VInt 1] =
  [Some (true, Some "p1", ["lang"; "speaker_observation"]); Some (false, None, ["lang"; "speaker_observation"]);
   Some (false, None, ["lang"]); Some (false, None, ["lang"; "speaker_observation_rejected"])].
Proof. vm_compute. reflexivity. Qed.

Lemma prepared_turn_is_scoped_witness :
  match ingress_prepare (VStr "p1") with
  | Ok p => exists token a, dict_get (ingress_request (VStr "p1")).(rq_metadata) "speaker_observation_token" = Some token /\
      ingress_verify token "owner" "s1" "trace" "hello" = Ok a /\ a.(at_observation).(sp_status) = "identified" /\
      (a.(at_observation).(sp_person_id), a.(at_person_revision)) = (p.(pp_turn).(ti_context).(person_id), p.(pp_turn).(ti_context).(person_revision)) /\
      p.(pp_turn).(ti_input_modality) = "voice" /\ false = false
  | Err _ => False
  end.
Proof.
  destruct (ingress_prepare (VStr "p1")) as [p|] eqn:Ep; [|by vm_compute in Ep].
  assert (NoDup (ingress_request (VStr "p1")).(rq_metadata).*1) as Hn by by_compute.
  assert (p.(pp_turn).(ti_context).(memory_enabled) = true /\ p.(pp_turn).(ti_context).(owner_id) = "owner") as [Hm Ho].
  { vm_compute in Ep. injection Ep as <-. split; reflexivity. }
  pose proof (prepared_turn_is_scoped _ _ _ _ _ _ _ _ _ Ep Hn) as (_ & _ & _ & _ & _ & _ & _ & Hmem & _).
  rewrite <- Ho. apply Hmem; [|reflexivity]. unfold memory_write_enabled. by rewrite Hm.
Defined.
