(* ===== verification/ChatStream.v ===== *)
(** * [app/transport/grpc/chat_servicer.py]: the [Chat] stream of a companion.

    The reader takes frames one at a time; every accepted [StartTurn] is a task that runs the
    engine and writes its events under a lock. A step is the code between two awaits. What a
    task's engine does (an event, an error, its end, what it makes of a cancellation) and what
    the reader's awaits deliver are labels. A turn's preparation is [Ingress.prepare]. *)

From S2P Require Import Prelude CoreTypes Effects ContextText RuntimeSession TurnEngine Ingress.
#[local] Open Scope eff_scope.

(** The fields of [StartTurn] this code reads. *)
Record StartTurn := mkStart {
  st_turn_id : string;
  st_conversation_id : string;
  st_text : string;
  st_input_modality : string;
  st_speculative : bool;
  st_realtime : option SignalDigest;
  st_trace_id : string;
  st_metadata : list (string * pyval);
  st_capabilities : list string;
}.

Inductive ChatFrame :=
  | CancelTurn (turn_id : string) (played_chars : option Z) (played_ms : option string)
  | Start (st : StartTurn)
  (** feedback, tool results and signals go to the turn's exchanges or to the bus *)
  | Forward.

(** Where [_emit_turn] is suspended: in the engine, at the lock with an event, in [context.write];
    [last] when the event is the error that ends it. A task that is done waits for its callback;
    [closed]: it left its engine at a [yield], to be closed by the loop. *)
Inductive TaskPc := InEngine | AtLock (ev : TurnEvent) (last : bool) | Writing (last : bool) | TaskDone (closed : bool).

(** [tk_cancel]: a cancellation that is not delivered yet. *)
Record TurnTask := mkTask {
  tk_id : nat;
  tk_turn : string;
  tk_conversation : string;
  tk_generation : Z;
  tk_metadata : list (string * pyval);
  tk_cancel : bool;
  tk_pc : TaskPc;
}.

(** Where the reader is: for a frame, for the end of a cancelled task (with the others to cancel),
    at the lock with an ACK, in the write of it, and at the awaits of [StartTurn]. *)
Inductive ReaderPc :=
  | ReadFrame
  | CancelGather (turn : string) (chars : option Z) (ms : option string) (task : nat) (todo : list nat)
  | AckLock (turn : string) (already_done : bool)
  | AckWriting
  | Reauthenticate (n : nat) (st : StartTurn)
  | StartGather (n : nat) (st : StartTurn) (conversation : string) (generation : Z) (previous : nat)
  | Preparing (n : nat) (st : StartTurn) (conversation : string) (generation : Z)
  | ReadEnded (failed : bool).

(** What happened, newest first: a new generation of a conversation, a written event of a turn, an ACK, a renewed authorization
    for the [n]th start, and the turn it started. *)
Inductive ChatFact :=
  | Bumped (conversation : string) (generation : Z)
  | Wrote (conversation : string) (generation : Z) (turn : string) (ev : TurnEvent)
  | Acked (turn : string) (already_done : bool)
  | Renewed (n : nat) (fresh : AuthorizedRuntimeSession)
  | Started (n : nat) (st : StartTurn) (turn : string) (context : TurnContext).

(** [ch_tasks] are the active turns with [input_by_turn]; [ch_next] and [ch_starts] count tasks and starts. *)
Record ChatState := mkChat {
  ch_tasks : list TurnTask;
  ch_active : list (string * nat);
  ch_conversations : list (string * string);
  ch_generation : list (string * Z);
  ch_accepted : list (string * string);
  ch_lock : bool;
  ch_reader : ReaderPc;
  ch_next : nat;
  ch_starts : nat;
  ch_log : list ChatFact;
}.

Definition set_ch_tasks (v : list TurnTask) (s : ChatState) : ChatState :=
  mkChat v s.(ch_active) s.(ch_conversations) s.(ch_generation) s.(ch_accepted) s.(ch_lock) s.(ch_reader) s.(ch_next) s.(ch_starts) s.(ch_log).
Definition set_ch_active (v : list (string * nat)) (s : ChatState) : ChatState :=
  mkChat s.(ch_tasks) v s.(ch_conversations) s.(ch_generation) s.(ch_accepted) s.(ch_lock) s.(ch_reader) s.(ch_next) s.(ch_starts) s.(ch_log).
Definition set_ch_conversations (v : list (string * string)) (s : ChatState) : ChatState :=
  mkChat s.(ch_tasks) s.(ch_active) v s.(ch_generation) s.(ch_accepted) s.(ch_lock) s.(ch_reader) s.(ch_next) s.(ch_starts) s.(ch_log).
Definition set_ch_generation (v : list (string * Z)) (s : ChatState) : ChatState :=
  mkChat s.(ch_tasks) s.(ch_active) s.(ch_conversations) v s.(ch_accepted) s.(ch_lock) s.(ch_reader) s.(ch_next) s.(ch_starts) s.(ch_log).
Definition set_ch_accepted (v : list (string * string)) (s : ChatState) : ChatState :=
  mkChat s.(ch_tasks) s.(ch_active) s.(ch_conversations) s.(ch_generation) v s.(ch_lock) s.(ch_reader) s.(ch_next) s.(ch_starts) s.(ch_log).
Definition set_ch_lock (v : bool) (s : ChatState) : ChatState :=
  mkChat s.(ch_tasks) s.(ch_active) s.(ch_conversations) s.(ch_generation) s.(ch_accepted) v s.(ch_reader) s.(ch_next) s.(ch_starts) s.(ch_log).
Definition set_ch_reader (v : ReaderPc) (s : ChatState) : ChatState :=
  mkChat s.(ch_tasks) s.(ch_active) s.(ch_conversations) s.(ch_generation) s.(ch_accepted) s.(ch_lock) v s.(ch_next) s.(ch_starts) s.(ch_log).
Definition set_ch_next (v : nat) (s : ChatState) : ChatState :=
  mkChat s.(ch_tasks) s.(ch_active) s.(ch_conversations) s.(ch_generation) s.(ch_accepted) s.(ch_lock) s.(ch_reader) v s.(ch_starts) s.(ch_log).
Definition set_ch_starts (v : nat) (s : ChatState) : ChatState :=
  mkChat s.(ch_tasks) s.(ch_active) s.(ch_conversations) s.(ch_generation) s.(ch_accepted) s.(ch_lock) s.(ch_reader) s.(ch_next) v s.(ch_log).
Definition set_ch_log (v : list ChatFact) (s : ChatState) : ChatState :=
  mkChat s.(ch_tasks) s.(ch_active) s.(ch_conversations) s.(ch_generation) s.(ch_accepted) s.(ch_lock) s.(ch_reader) s.(ch_next) s.(ch_starts) v.

Definition note (f : ChatFact) (s : ChatState) : ChatState := set_ch_log (f :: s.(ch_log)) s.

Definition task_done (t : TurnTask) : bool := if t.(tk_pc) is TaskDone _ then true else false.
Definition find_task (i : nat) (s : ChatState) : option TurnTask := List.find (fun t => bool_decide (t.(tk_id) = i)) s.(ch_tasks).
Definition put_task (t : TurnTask) (s : ChatState) : ChatState :=
  set_ch_tasks (map (fun x => if bool_decide (x.(tk_id) = t.(tk_id)) then t else x) s.(ch_tasks)) s.
Definition with_pc (pc : TaskPc) (t : TurnTask) : TurnTask :=
  mkTask t.(tk_id) t.(tk_turn) t.(tk_conversation) t.(tk_generation) t.(tk_metadata) t.(tk_cancel) pc.
Definition with_cancel (b : bool) (t : TurnTask) : TurnTask :=
  mkTask t.(tk_id) t.(tk_turn) t.(tk_conversation) t.(tk_generation) t.(tk_metadata) b t.(tk_pc).
Definition with_metadata (md : list (string * pyval)) (t : TurnTask) : TurnTask :=
  mkTask t.(tk_id) t.(tk_turn) t.(tk_conversation) t.(tk_generation) md t.(tk_cancel) t.(tk_pc).

(** [task.cancel()] of a task that is not done *)
Definition cancel_task (t : TurnTask) : TurnTask := if task_done t then t else with_cancel true t.
Definition cancel_all (s : ChatState) : ChatState := set_ch_tasks (map cancel_task s.(ch_tasks)) s.

Definition generation_of (conversation : string) (s : ChatState) : Z := default 0 (dict_get s.(ch_generation) conversation).
Definition bump (conversation : string) (s : ChatState) : ChatState :=
  let g := generation_of conversation s + 1 in
  note (Bumped conversation g) (set_ch_generation (dict_set s.(ch_generation) conversation g) s).

(** [except BaseException]: the output of every turn is revoked. *)
Definition abort_stream (s : ChatState) : ChatState := set_ch_reader (ReadEnded true) (cancel_all (set_ch_generation [] s)).

Definition has_chat_id (s : string) : bool := negb (is_empty s).

Section Chat.
(** [digest] is the hash of a serialized [StartTurn]. *)
Context (lower : string -> string) (verify : pyval -> string -> string -> string -> string -> res Attested).
Context (digest : StartTurn -> string) (scope : AuthorizedRuntimeSession).

(** *** [CancelTurn] *)

(** The keys that tell the engine where the playback was cut. *)
Definition mark_cancelled (chars : option Z) (ms : option string) (t : TurnTask) : TurnTask :=
  let md := dict_set t.(tk_metadata) "termination_cause" (VStr "client_cancel") in
  let md := match chars with Some n => dict_set md "cancel_played_chars" (VInt n) | None => md end in
  let md := match ms with Some x => dict_set md "cancel_played_ms" (VFloat x) | None => md end in
  with_metadata md t.

(** The loop over the snapshot of the active turns; it waits for each task it cancels. *)
Fixpoint cancel_next (turn : string) (chars : option Z) (ms : option string) (live : bool) (todo : list nat) (s : ChatState) : ChatState :=
  match todo with
  | [] => set_ch_reader (AckLock turn (negb live)) s
  | i :: rest =>
      match find_task i s with
      | Some t =>
          if task_done t then cancel_next turn chars ms live rest s
          else
            let s := match dict_get s.(ch_conversations) turn with
              | Some conversation => if is_empty conversation then s else bump conversation s
              | None => s end in
            set_ch_reader (CancelGather turn chars ms i rest) (put_task (cancel_task (mark_cancelled chars ms t)) s)
      | None => cancel_next turn chars ms live rest s
      end
  end.

Definition cancel_targets (turn : string) (s : ChatState) : list nat :=
  map tk_id (List.filter (fun t => negb (task_done t) && bool_decide (t.(tk_turn) = turn)) s.(ch_tasks)).

(** *** [StartTurn] *)

(** The binding that must not change within a stream. *)
Definition binding (a : AuthorizedRuntimeSession) :=
  (as_owner_id a, as_companion_id a, a.(as_device_id), a.(as_session_id), a.(as_person_id), a.(as_identity_epoch),
   (a.(as_person_revision), a.(as_runtime).(cf_memory_realm_id), a.(as_memory_mode), a.(as_provisional_memory_save), a.(as_provisional_memory_recall))).

(** From the check of the turn id to the wait for the previous turn. *)
Definition begin_start (n : nat) (st : StartTurn) (s : ChatState) : ChatState :=
  match (if has_chat_id st.(st_turn_id) then dict_get s.(ch_accepted) st.(st_turn_id) else None) with
  | Some d => if bool_decide (d = digest st) then set_ch_reader ReadFrame s else abort_stream s
  | None =>
      match validate_conversation_id st.(st_conversation_id) with
      | Err _ => abort_stream s
      | Ok conversation =>
          let previous := dict_get s.(ch_active) conversation ≫= fun i => find_task i s in
          let s := bump conversation s in
          let generation := generation_of conversation s in
          match previous with
          | Some t =>
              if task_done t then set_ch_reader (Preparing n st conversation generation) s
              else set_ch_reader (StartGather n st conversation generation t.(tk_id)) (put_task (cancel_task t) s)
          | None => set_ch_reader (Preparing n st conversation generation) s
          end
      end
  end.

Definition CHANNEL_CAPABILITIES : list string := ["music.search"; "music.play"; "music.stop"; "music.status"].

(** The request for the ingress; [tools] are those of the stream's tool exchange, [trace] of its metadata. *)
Definition reply_request (st : StartTurn) (conversation modality trace request : string) (tools : list ToolSchema) (fused : option SignalDigest) : ReplyRequest :=
  mkReplyRequest conversation st.(st_text) modality st.(st_turn_id) trace request st.(st_speculative)
    (match st.(st_realtime) with Some d => Some d | None => fused end) st.(st_metadata) None (Some tools)
    (List.filter (fun c => bool_decide (c ∈ CHANNEL_CAPABILITIES) && has_some scope.(as_device_id) && bool_decide (modality = "voice") && negb st.(st_speculative)) st.(st_capabilities)).

(** What the awaits of the preparation deliver: the digest of the recent signals, the runtime, and ids. *)
Record Delivered := mkDelivered {
  dl_fused : option SignalDigest;
  dl_instance : res RuntimeInstance;
  dl_tools : list ToolSchema;
  dl_trace : string;
  dl_request : string;
  dl_turn_uuid : string;
  dl_request_uuid : string;
}.

Definition prepared (st : StartTurn) (conversation : string) (d : Delivered) : res PreparedReply :=
  match modality_of lower st.(st_input_modality) with
  | Err e => Err e
  | Ok modality =>
      let trace := py_strip st.(st_trace_id) in
      prepare lower (fun _ _ _ => d.(dl_instance)) verify scope
        (reply_request st conversation modality (if is_empty trace then d.(dl_trace) else trace) d.(dl_request) d.(dl_tools) d.(dl_fused))
        d.(dl_turn_uuid) "" d.(dl_request_uuid)
  end.

(** The turn becomes a task. *)
Definition start_task (n : nat) (st : StartTurn) (conversation : string) (generation : Z) (p : PreparedReply) (s : ChatState) : ChatState :=
  let turn := p.(pp_turn).(ti_turn_id) in
  let t := mkTask s.(ch_next) turn conversation generation p.(pp_metadata) false InEngine in
  note (Started n st turn p.(pp_turn).(ti_context))
  (set_ch_reader ReadFrame
  (set_ch_next (S s.(ch_next))
  (set_ch_accepted (if has_chat_id st.(st_turn_id) then dict_set s.(ch_accepted) st.(st_turn_id) (digest st) else s.(ch_accepted))
  (set_ch_conversations (dict_set s.(ch_conversations) turn conversation)
  (set_ch_active (dict_set s.(ch_active) conversation s.(ch_next))
  (set_ch_tasks (s.(ch_tasks) ++ [t]) s)))))).

Definition finish_start (n : nat) (st : StartTurn) (conversation : string) (generation : Z) (d : Delivered) (s : ChatState) : ChatState :=
  match prepared st conversation d with
  | Ok p => start_task n st conversation generation p s
  | Err _ => abort_stream s
  end.

(** *** [_emit_turn] *)

Definition current_generation (t : TurnTask) (s : ChatState) : bool := bool_decide (dict_get s.(ch_generation) t.(tk_conversation) = Some t.(tk_generation)).

(** An event of the engine *)
Definition engine_yields (t : TurnTask) (ev : TurnEvent) (s : ChatState) : ChatState :=
  if current_generation t s then put_task (with_pc (AtLock ev false) t) s
  else
    let dropped := match dict_get t.(tk_metadata) "stale_generation_dropped" with Some (VInt z) => z | _ => 0 end in
    put_task (with_metadata (dict_set t.(tk_metadata) "stale_generation_dropped" (VInt (dropped + 1))) t) s.

(** An [EidolonError] of the engine *)
Definition engine_fails (t : TurnTask) (code message : string) (s : ChatState) : ChatState :=
  if current_generation t s then put_task (with_pc (AtLock (event_error 0 code message) true) t) s
  else put_task (with_pc (TaskDone false) t) s.

Definition write_event (t : TurnTask) (ev : TurnEvent) (last : bool) (s : ChatState) : ChatState :=
  note (Wrote t.(tk_conversation) t.(tk_generation) t.(tk_turn) ev) (set_ch_lock true (put_task (with_pc (Writing last) t) s)).
Definition event_written (t : TurnTask) (last : bool) (s : ChatState) : ChatState :=
  set_ch_lock false (put_task (with_pc (if last then TaskDone false else InEngine) t) s).

(** The cancellation reaches the task: the engine may go on, the write is left. *)
Definition deliver_cancel (t : TurnTask) (goes_on : bool) (s : ChatState) : ChatState :=
  let t := with_cancel false t in
  match t.(tk_pc) with
  | InEngine => put_task (if goes_on then t else with_pc (TaskDone false) t) s
  | AtLock _ last => put_task (with_pc (TaskDone (negb last)) t) s
  | Writing last => set_ch_lock false (put_task (with_pc (TaskDone (negb last)) t) s)
  | TaskDone _ => s
  end.

(** [_discard_done] *)
Definition discard (t : TurnTask) (s : ChatState) : ChatState :=
  let s := set_ch_conversations (dict_pop s.(ch_conversations) t.(tk_turn))
    (set_ch_tasks (List.filter (fun x => negb (bool_decide (x.(tk_id) = t.(tk_id)))) s.(ch_tasks)) s) in
  if current_generation t s && bool_decide (dict_get s.(ch_active) t.(tk_conversation) = Some t.(tk_id))
  then set_ch_active (dict_pop s.(ch_active) t.(tk_conversation)) s else s.

(** ** The transition system *)

Inductive chat_label :=
  | CFrame (f : ChatFrame)
  (** the awaited task is gone *)
  | CGathered
  | CAckWrite
  | CAckWritten
  | CRenewed (r : res AuthorizedRuntimeSession)
  | CPrepared (d : Delivered)
  | CReaderFails
  | CReaderEnds
  | CRpcCancelled
  | CYield (task : nat) (ev : TurnEvent)
  | CFail (task : nat) (code message : string)
  | CFinish (task : nat)
  | CWrite (task : nat)
  | CWritten (task : nat)
  | CDeliver (task : nat) (goes_on : bool)
  | CDiscard (task : nat).

Definition chat_frame (f : ChatFrame) (s : ChatState) : ChatState :=
  match f with
  | CancelTurn turn chars ms => cancel_next turn chars ms false (cancel_targets turn s) s
  | Start st =>
      let n := s.(ch_starts) in
      let s := set_ch_starts (S n) s in
      if has_some scope.(as_person_id) then set_ch_reader (Reauthenticate n st) s else begin_start n st s
  | Forward => s
  end.

Definition gathered (s : ChatState) : ChatState :=
  match s.(ch_reader) with
  | CancelGather turn chars ms i todo => if find_task i s is None then cancel_next turn chars ms true todo s else s
  | StartGather n st conversation generation i =>
      if find_task i s is None then set_ch_reader (Preparing n st conversation generation) s else s
  | _ => s
  end.

(** A step of a task whose cancellation, if any, was delivered. *)
Definition on_task (i : nat) (s : ChatState) (f : TurnTask -> ChatState) : ChatState :=
  match find_task i s with Some t => if t.(tk_cancel) then s else f t | None => s end.

Definition chat_step (l : chat_label) (s : ChatState) : ChatState :=
  match l with
  | CFrame f => if s.(ch_reader) is ReadFrame then chat_frame f s else s
  | CGathered => gathered s
  | CAckWrite =>
      match s.(ch_reader) with
      | AckLock turn already => if s.(ch_lock) then s else note (Acked turn already) (set_ch_lock true (set_ch_reader AckWriting s))
      | _ => s
      end
  | CAckWritten => if s.(ch_reader) is AckWriting then set_ch_lock false (set_ch_reader ReadFrame s) else s
  | CRenewed r =>
      match s.(ch_reader) with
      | Reauthenticate n st =>
          match r with
          | Ok fresh => if bool_decide (binding fresh = binding scope) then begin_start n st (note (Renewed n fresh) s) else abort_stream s
          | Err _ => abort_stream s
          end
      | _ => s
      end
  | CPrepared d => match s.(ch_reader) with Preparing n st conversation generation => finish_start n st conversation generation d s | _ => s end
  | CReaderFails =>
      match s.(ch_reader) with
      | ReadEnded _ => s
      | AckWriting => abort_stream (set_ch_lock false s)
      | _ => abort_stream s
      end
  | CReaderEnds => if s.(ch_reader) is ReadFrame then set_ch_reader (ReadEnded false) s else s
  | CRpcCancelled => cancel_all s
  | CYield i ev => on_task i s (fun t => if t.(tk_pc) is InEngine then engine_yields t ev s else s)
  | CFail i code message => on_task i s (fun t => if t.(tk_pc) is InEngine then engine_fails t code message s else s)
  | CFinish i => on_task i s (fun t => if t.(tk_pc) is InEngine then put_task (with_pc (TaskDone false) t) s else s)
  | CWrite i => on_task i s (fun t => match t.(tk_pc) with AtLock ev last => if s.(ch_lock) then s else write_event t ev last s | _ => s end)
  | CWritten i => on_task i s (fun t => match t.(tk_pc) with Writing last => event_written t last s | _ => s end)
  | CDeliver i goes_on => match find_task i s with Some t => if t.(tk_cancel) then deliver_cancel t goes_on s else s | None => s end
  | CDiscard i => match find_task i s with Some t => if task_done t then discard t s else s | None => s end
  end.

Definition chat_init : ChatState := mkChat [] [] [] [] [] false ReadFrame 0 0 [].

(** The ids of the turns that were started; those the server made. *)
Definition turn_ids (log : list ChatFact) : list string :=
  flat_map (fun f => match f with Started _ _ turn _ => [turn] | _ => [] end) log.
Definition server_ids (log : list ChatFact) : list string :=
  flat_map (fun f => match f with Started _ st turn _ => if has_chat_id st.(st_turn_id) then [] else [turn] | _ => [] end) log.

(** The uuid the server makes for a turn is not another turn's id. *)
Definition fresh_turn (l : chat_label) (s : ChatState) : Prop :=
  match l, s.(ch_reader) with
  | CPrepared d, Preparing _ st _ _ =>
      if has_chat_id st.(st_turn_id) then st.(st_turn_id) ∉ server_ids s.(ch_log) else d.(dl_turn_uuid) ∉ turn_ids s.(ch_log)
  | _, _ => True
  end.

Inductive chat_reachable : ChatState -> Prop :=
  | chat_opened : chat_reachable chat_init
  | chat_stepped l s : chat_reachable s -> fresh_turn l s -> chat_reachable (chat_step l s).
End Chat.
