(* ===== verification/ChatFacts.v ===== *)
(** * The theorems on [Chat]: only the current turn of a conversation is heard, and a start is
      accepted once, under the binding the stream was opened with.

    [CInv] is the invariant: outside of the wait for a cancelled turn, every turn that runs is the
    current one of its conversation. *)

From S2P Require Import Prelude CoreTypes Effects ContextText RuntimeSession TurnState TurnEngine Samples Ingress ChatStream.

Notation running t := (task_done t = false).

Definition task_current (gens : list (string * Z)) (t : TurnTask) : Prop := dict_get gens t.(tk_conversation) = Some t.(tk_generation).

(** The task the reader waits for. *)
Definition awaits (r : ReaderPc) (i : nat) : Prop :=
  match r with CancelGather _ _ _ j _ | StartGather _ _ _ _ j => i = j | ReadEnded true => True | _ => False end.

(** A task that is not current is about to be stopped: it cannot write. *)
Definition stopping (r : ReaderPc) (t : TurnTask) : Prop :=
  awaits r t.(tk_id) /\ forall ev last, t.(tk_pc) = AtLock ev last -> t.(tk_cancel) = true.

(** Every turn of the conversation came before generation [g]. *)
Definition below (tasks : list TurnTask) (log : list ChatFact) (conversation : string) (g : Z) : Prop :=
  (forall t, t ∈ tasks -> t.(tk_conversation) = conversation -> t.(tk_generation) < g) /\
  forall g' turn ev, Wrote conversation g' turn ev ∈ log -> g' < g.

Section Facts.
Context (lower : string -> string) (verify : pyval -> string -> string -> string -> string -> res Attested).
Context (digest : StartTurn -> string) (scope : AuthorizedRuntimeSession).

Definition renewed (n : nat) (log : list ChatFact) : Prop :=
  has_some scope.(as_person_id) = true -> exists fresh, Renewed n fresh ∈ log /\ binding fresh = binding scope.

Definition reader_ok (tasks : list TurnTask) (gens : list (string * Z)) (accepted : list (string * string)) (log : list ChatFact) (r : ReaderPc) : Prop :=
  match r with
  | CancelGather _ _ _ _ todo => todo = []
  | StartGather n st conversation g _ | Preparing n st conversation g =>
      dict_get gens conversation = Some g /\ below tasks log conversation g /\ conversation <> "" /\
      (has_chat_id st.(st_turn_id) = true -> dict_get accepted st.(st_turn_id) = None) /\ renewed n log
  | ReadEnded true => gens = []
  | _ => True
  end.

(** The ids clients gave to the turns that were started. *)
Definition started_id (f : ChatFact) : list string :=
  match f with Started _ st _ _ => if has_chat_id st.(st_turn_id) then [st.(st_turn_id)] else [] | _ => [] end.
Definition started_ids (log : list ChatFact) : list string := flat_map started_id log.

Record CInv (tasks : list TurnTask) (active : list (string * nat)) (convs : list (string * string)) (gens : list (string * Z))
    (accepted : list (string * string)) (r : ReaderPc) (next : nat) (log : list ChatFact) : Prop := {
  v_ids : NoDup (map tk_id tasks);
  v_next t : t ∈ tasks -> (t.(tk_id) < next)%nat;
  v_turns : NoDup (map tk_turn tasks);
  v_conv t : t ∈ tasks -> dict_get convs t.(tk_turn) = Some t.(tk_conversation) /\ t.(tk_conversation) <> "";
  v_gen t : r <> ReadEnded true -> t ∈ tasks -> exists g, dict_get gens t.(tk_conversation) = Some g /\ t.(tk_generation) <= g;
  v_pair t1 t2 : t1 ∈ tasks -> t2 ∈ tasks -> t1.(tk_conversation) = t2.(tk_conversation) -> t1.(tk_generation) = t2.(tk_generation) -> t1 = t2;
  v_active t : t ∈ tasks -> running t -> task_current gens t -> dict_get active t.(tk_conversation) = Some t.(tk_id);
  v_keys : NoDup active.*1;
  v_known c i : dict_get active c = Some i -> (i < next)%nat;
  v_home c i t : dict_get active c = Some i -> t ∈ tasks -> t.(tk_id) = i -> t.(tk_conversation) = c;
  v_live t : t ∈ tasks -> running t -> task_current gens t \/ stopping r t;
  v_reader : reader_ok tasks gens accepted log r;
  v_bumps conversation g : r <> ReadEnded true -> Bumped conversation g ∈ log -> exists g0, dict_get gens conversation = Some g0 /\ g <= g0;
  v_wrote conversation g turn ev : r <> ReadEnded true -> Wrote conversation g turn ev ∈ log -> exists g0, dict_get gens conversation = Some g0 /\ g <= g0;
  v_voice t turn ev : t ∈ tasks -> Wrote t.(tk_conversation) t.(tk_generation) turn ev ∈ log -> turn = t.(tk_turn);
  v_once conversation g turn1 ev1 turn2 ev2 : Wrote conversation g turn1 ev1 ∈ log -> Wrote conversation g turn2 ev2 ∈ log -> turn1 = turn2;
  v_order l1 conversation g turn ev l2 g' : log = l1 ++ Wrote conversation g turn ev :: l2 -> Bumped conversation g' ∈ l2 -> g' <= g;
  v_started : NoDup (started_ids log);
  v_accepted i : i ∈ started_ids log -> dict_get accepted i <> None;
  v_named n st turn ctx : Started n st turn ctx ∈ log -> has_chat_id st.(st_turn_id) = true -> turn = st.(st_turn_id);
  v_renewed n st turn ctx : Started n st turn ctx ∈ log -> renewed n log;
}.

Definition Inv (s : ChatState) : Prop :=
  CInv s.(ch_tasks) s.(ch_active) s.(ch_conversations) s.(ch_generation) s.(ch_accepted) s.(ch_reader) s.(ch_next) s.(ch_log).

Lemma chat_init_inv : Inv chat_init.
Proof.
  constructor; simpl; try done; try (by constructor);
    try (intros; repeat match goal with H : _ ∈ [] |- _ => by apply elem_of_nil in H end).
  by destruct l1.
Qed.

(** *** One task changes *)

Definition same_task (t t' : TurnTask) : Prop :=
  t'.(tk_id) = t.(tk_id) /\ t'.(tk_turn) = t.(tk_turn) /\ t'.(tk_conversation) = t.(tk_conversation) /\ t'.(tk_generation) = t.(tk_generation).

(** Each task is replaced by one with the same key, which runs only if it did; the stream may fail. *)
Lemma inv_tasks (f : TurnTask -> TurnTask) tasks active convs gens gens' accepted r r' next log :
  CInv tasks active convs gens accepted r next log -> (gens' = gens /\ r' = r) \/ (gens' = [] /\ r' = ReadEnded true) ->
  (forall t, t ∈ tasks -> same_task t (f t) /\ (running (f t) -> running t)) ->
  (forall t, t ∈ tasks -> running (f t) -> task_current gens' t \/ stopping r' (f t)) ->
  CInv (map f tasks) active convs gens' accepted r' next log.
Proof.
  intros [] Hr Hf Hl.
  assert (forall (g : TurnTask -> string), (forall t, t ∈ tasks -> g (f t) = g t) -> map g (map f tasks) = map g tasks) as Hmap.
  { intros g Hg. rewrite map_map. apply map_ext_in. intros t Ht. apply Hg. by apply list_elem_of_In. }
  constructor; try done.
  - replace (map tk_id (map f tasks)) with (map tk_id tasks); [done|]. rewrite map_map. apply map_ext_in. intros t Ht%list_elem_of_In.
    destruct (Hf t Ht) as [(E & _) _]. by rewrite E.
  - intros t (x & -> & Hx)%list_elem_of_fmap. destruct (Hf x Hx) as [(-> & _) _]. auto.
  - rewrite Hmap; [done|]. intros t Ht. by destruct (Hf t Ht) as [(_ & -> & _) _].
  - intros t (x & -> & Hx)%list_elem_of_fmap. destruct (Hf x Hx) as [(_ & -> & -> & _) _]. auto.
  - intros t Hne (x & -> & Hx)%list_elem_of_fmap. destruct (Hf x Hx) as [(_ & _ & -> & ->) _]. destruct Hr as [[-> ->]|[_ ->]]; [auto|done].
  - intros t1 t2 (x1 & -> & H1)%list_elem_of_fmap (x2 & -> & H2)%list_elem_of_fmap.
    destruct (Hf x1 H1) as [(_ & _ & -> & ->) _], (Hf x2 H2) as [(_ & _ & -> & ->) _]. intros E1 E2. by rewrite (v_pair0 x1 x2).
  - intros t (x & -> & Hx)%list_elem_of_fmap. destruct (Hf x Hx) as [(E1 & _ & E3 & E4) Hrun]. unfold task_current. rewrite E1, E3, E4.
    destruct Hr as [[-> ->]|[-> _]]; [auto|done].
  - intros c i t Hc (x & -> & Hx)%list_elem_of_fmap. destruct (Hf x Hx) as [(-> & _ & -> & _) _]. eauto.
  - intros t (x & -> & Hx)%list_elem_of_fmap Hrun. destruct (Hf x Hx) as [(_ & _ & E3 & E4) _]. unfold task_current. rewrite E3, E4. exact (Hl x Hx Hrun).
  - assert (forall conversation g, below tasks log conversation g -> below (map f tasks) log conversation g) as Hb.
    { intros conversation g [Hb1 Hb2]. split; [|done]. intros t (x & -> & Hx)%list_elem_of_fmap. destruct (Hf x Hx) as [(_ & _ & -> & ->) _]. auto. }
    destruct Hr as [[-> ->]|[-> ->]]; [|done]. destruct r; try done; destruct v_reader0 as (? & ? & ? & ? & ?); split_and!; auto.
  - intros conversation g Hne. destruct Hr as [[-> ->]|[_ ->]]; [eauto|done].
  - intros conversation g turn ev Hne. destruct Hr as [[-> ->]|[_ ->]]; [eauto|done].
  - intros t turn ev (x & -> & Hx)%list_elem_of_fmap. destruct (Hf x Hx) as [(_ & -> & -> & ->) _]. eauto.
Qed.

Lemma find_task_in i s t : find_task i s = Some t -> t ∈ s.(ch_tasks) /\ t.(tk_id) = i.
Proof. intros [Ht%list_elem_of_In E%bool_decide_eq_true]%find_some. done. Qed.

(** The task [t] is replaced by [t']. *)
Lemma inv_put t t' s : Inv s -> t ∈ s.(ch_tasks) -> same_task t t' -> (running t' -> running t) ->
  (running t' -> task_current s.(ch_generation) t \/ stopping s.(ch_reader) t') -> Inv (put_task t' s).
Proof.
  intros Hs Ht Hsame Hrun Hl. eapply inv_tasks; [exact Hs|by left| |].
  - intros x Hx. case_bool_decide as E; [|by split; [split_and!|]].
    destruct Hsame as (E1 & ?). rewrite E1 in E. rewrite (NoDup_map_elem _ _ _ _ (v_ids _ _ _ _ _ _ _ _ Hs) Hx Ht E). by split.
  - intros x Hx. case_bool_decide as E; [|by apply (v_live _ _ _ _ _ _ _ _ Hs)].
    destruct Hsame as (E1 & _). rewrite E1 in E. by rewrite (NoDup_map_elem _ _ _ _ (v_ids _ _ _ _ _ _ _ _ Hs) Hx Ht E).
Qed.

(** *** Cancellations *)

Lemma cancel_task_same t : same_task t (cancel_task t).
Proof. unfold cancel_task. by destruct (task_done t). Qed.
Lemma cancel_task_running t : task_done (cancel_task t) = task_done t.
Proof. unfold cancel_task. by destruct (task_done t) eqn:E. Qed.
Lemma cancel_task_stops r t : running t -> awaits r t.(tk_id) -> stopping r (cancel_task t).
Proof. intros Hr Ha. unfold cancel_task. rewrite Hr. by split. Qed.

Lemma cancel_all_inv s : Inv s -> Inv (cancel_all s).
Proof.
  intros Hs. eapply inv_tasks; [exact Hs|by left| |].
  - intros t _. split; [apply cancel_task_same|]. by rewrite cancel_task_running.
  - intros t Ht. rewrite cancel_task_running. intros Hr. destruct (v_live _ _ _ _ _ _ _ _ Hs t Ht Hr) as [?|[Ha _]]; [by left|right].
    by apply cancel_task_stops.
Qed.

Lemma abort_inv s : Inv s -> Inv (abort_stream s).
Proof.
  intros Hs. unfold abort_stream, cancel_all, Inv. simpl. eapply inv_tasks; [exact Hs|by right| |].
  - intros t _. split; [apply cancel_task_same|]. by rewrite cancel_task_running.
  - intros t _. rewrite cancel_task_running. intros Hr. right. by apply cancel_task_stops.
Qed.

(** *** The log, the reader *)

Lemma renewed_cons f n log : renewed n log -> renewed n (f :: log).
Proof. intros Hr Hp. destruct (Hr Hp) as (fresh & ? & ?). exists fresh. split; [by right|done]. Qed.

Definition quiet_fact (f : ChatFact) : Prop := match f with Acked _ _ | Renewed _ _ => True | _ => False end.

Lemma below_cons f tasks log conversation g : (forall c g' turn ev, f = Wrote c g' turn ev -> c = conversation -> g' < g) ->
  below tasks log conversation g -> below tasks (f :: log) conversation g.
Proof.
  intros Hf [Hb1 Hb2]. split; [done|]. intros g' turn ev [<-|Hin]%elem_of_cons; [by eapply Hf|by eapply Hb2].
Qed.

Lemma reader_cons f tasks gens accepted log r : (forall c g turn ev, f = Wrote c g turn ev -> forall g', dict_get gens c = Some g' -> (exists t, t ∈ tasks /\ t.(tk_conversation) = c /\ t.(tk_generation) = g)) ->
  reader_ok tasks gens accepted log r -> reader_ok tasks gens accepted (f :: log) r.
Proof.
  intros Hf. assert (forall c g, dict_get gens c = Some g -> below tasks log c g -> below tasks (f :: log) c g) as Hb.
  { intros c g Hg [Hb1 Hb2]. apply below_cons; [|done]. intros c' g' turn ev -> ->. destruct (Hf _ _ _ _ eq_refl _ Hg) as (t & Ht & Ec & <-). by apply Hb1. }
  destruct r; try done; intros (? & ? & ? & ? & ?); split_and!; auto using renewed_cons.
Qed.

Lemma inv_note f s : quiet_fact f -> Inv s -> Inv (note f s).
Proof.
  intros Hq []. unfold Inv, note. simpl. assert (forall f', f' ∈ f :: ch_log s -> f' = f \/ f' ∈ ch_log s) as Hc by (by intros f' ?%elem_of_cons).
  assert (started_ids (f :: ch_log s) = started_ids (ch_log s)) as Hst by by destruct f.
  constructor; rewrite ?Hst; try done.
  - apply reader_cons; [|done]. by intros c g turn ev ->.
  - intros c g Hr [<-|?]%Hc; [done|by eapply v_bumps0].
  - intros c g turn ev Hr [<-|?]%Hc; [done|by eapply v_wrote0].
  - intros t turn ev Ht [<-|?]%Hc; [done|by eapply v_voice0].
  - intros c g t1 e1 t2 e2 [<-|?]%Hc [E|?]%Hc; try done; [by rewrite <- E in Hq|by eapply v_once0].
  - intros [|x l1] c g turn ev l2 g' E; injection E as -> E; [done|by eapply v_order0].
  - intros n st turn ctx [<-|?]%Hc; [done|by eapply v_named0].
  - intros n st turn ctx [<-|?]%Hc; [done|]. apply renewed_cons. by eapply v_renewed0.
Qed.

(** The reader moves on: the turns it waited for are over. *)
Lemma inv_reader r s : Inv s -> (r = ReadEnded true -> s.(ch_reader) = ReadEnded true) -> s.(ch_reader) <> ReadEnded true ->
  (forall t, t ∈ s.(ch_tasks) -> running t -> stopping s.(ch_reader) t -> stopping r t) ->
  reader_ok s.(ch_tasks) s.(ch_generation) s.(ch_accepted) s.(ch_log) r -> Inv (set_ch_reader r s).
Proof.
  intros [] Hr Hn Hst Hok. unfold Inv. simpl. constructor; try done; eauto.
  intros t Ht Hrun. destruct (v_live0 t Ht Hrun); auto.
Qed.

(** *** A new generation *)

Lemma inv_bump (f : TurnTask -> TurnTask) conversation r' s (g := generation_of conversation s + 1)
    (log' := Bumped conversation g :: s.(ch_log)) (gens' := dict_set s.(ch_generation) conversation g) :
  Inv s -> s.(ch_reader) <> ReadEnded true -> r' <> ReadEnded true ->
  (forall t, t ∈ s.(ch_tasks) -> running t -> task_current s.(ch_generation) t) ->
  (forall t, t ∈ s.(ch_tasks) -> same_task t (f t) /\ task_done (f t) = task_done t) ->
  (forall t, t ∈ s.(ch_tasks) -> running t -> t.(tk_conversation) = conversation -> stopping r' (f t)) ->
  (forall t, t ∈ s.(ch_tasks) -> t.(tk_conversation) <> conversation -> f t = t) ->
  (below s.(ch_tasks) s.(ch_log) conversation g -> below (map f s.(ch_tasks)) log' conversation g -> reader_ok (map f s.(ch_tasks)) gens' s.(ch_accepted) log' r') ->
  CInv (map f s.(ch_tasks)) s.(ch_active) s.(ch_conversations) gens' s.(ch_accepted) r' s.(ch_next) log'.
Proof.
  intros Hs Hr Hr' Hcur Hf Hstop Hkeep Hok.
  assert (below s.(ch_tasks) s.(ch_log) conversation g) as Hbelow.
  { unfold g, generation_of. split.
    - intros t Ht <-. destruct (v_gen _ _ _ _ _ _ _ _ Hs t Hr Ht) as (g0 & -> & ?). simpl. lia.
    - intros g' turn ev Hin. destruct (v_wrote _ _ _ _ _ _ _ _ Hs _ _ _ _ Hr Hin) as (g0 & -> & ?). simpl. lia. }
  assert (forall g', Bumped conversation g' ∈ s.(ch_log) -> g' < g) as Hbump.
  { intros g' Hin. unfold g, generation_of. destruct (v_bumps _ _ _ _ _ _ _ _ Hs _ _ Hr Hin) as (g0 & -> & ?). simpl. lia. }
  assert (forall t, t ∈ s.(ch_tasks) -> t.(tk_conversation) <> conversation -> dict_get gens' t.(tk_conversation) = dict_get s.(ch_generation) t.(tk_conversation)) as Hother.
  { intros t Ht Hne. unfold gens'. by rewrite dict_get_set_ne. }
  assert (forall c g0, dict_get s.(ch_generation) c = Some g0 -> exists g1, dict_get gens' c = Some g1 /\ g0 <= g1) as Hgrow.
  { intros c g0 Hg. unfold gens'. destruct (decide (conversation = c)) as [->|Hne]; [|rewrite dict_get_set_ne by done; by exists g0].
    exists g. rewrite dict_get_set_eq. split; [done|]. unfold g, generation_of. rewrite Hg. simpl. lia. }
  assert (below (map f s.(ch_tasks)) log' conversation g) as Hbelow'.
  { apply below_cons; [done|]. destruct Hbelow as [Hb1 Hb2]. split; [|done]. intros t (x & -> & Hx)%list_elem_of_fmap.
    destruct (Hf x Hx) as [(_ & _ & -> & ->) _]. auto. }
  specialize (Hok Hbelow Hbelow').
  assert (forall f', f' ∈ log' -> f' = Bumped conversation g \/ f' ∈ s.(ch_log)) as Hc by (by intros f' ?%elem_of_cons).
  assert (started_ids log' = started_ids s.(ch_log)) as Hst by done.
  destruct Hs. constructor; rewrite ?Hst; try done.
  - replace (map tk_id (map f (ch_tasks s))) with (map tk_id (ch_tasks s)); [done|]. rewrite map_map. apply map_ext_in. intros t Ht%list_elem_of_In. by destruct (Hf t Ht) as [[-> _] _].
  - intros t (x & -> & Hx)%list_elem_of_fmap. destruct (Hf x Hx) as [(-> & _) _]. auto.
  - replace (map tk_turn (map f (ch_tasks s))) with (map tk_turn (ch_tasks s)); [done|]. rewrite map_map. apply map_ext_in. intros t Ht%list_elem_of_In. by destruct (Hf t Ht) as [(_ & -> & _) _].
  - intros t (x & -> & Hx)%list_elem_of_fmap. destruct (Hf x Hx) as [(_ & -> & -> & _) _]. auto.
  - intros t _ (x & -> & Hx)%list_elem_of_fmap. destruct (Hf x Hx) as [(_ & _ & -> & ->) _].
    destruct (v_gen0 x Hr Hx) as (g0 & Hg & ?). destruct (Hgrow _ _ Hg) as (g1 & ? & ?). exists g1. split; [done|lia].
  - intros t1 t2 (x1 & -> & H1)%list_elem_of_fmap (x2 & -> & H2)%list_elem_of_fmap.
    destruct (Hf x1 H1) as [(_ & _ & -> & ->) _], (Hf x2 H2) as [(_ & _ & -> & ->) _]. intros E1 E2. by rewrite (v_pair0 x1 x2).
  - intros t (x & -> & Hx)%list_elem_of_fmap. destruct (Hf x Hx) as [(E1 & _ & E3 & E4) ->]. unfold task_current. rewrite E1, E3, E4.
    intros Hrun Ht. destruct (decide (tk_conversation x = conversation)) as [E|Hne]; [|rewrite Hother in Ht by done; by apply v_active0].
    unfold gens' in Ht. rewrite E, dict_get_set_eq in Ht. injection Ht as Ht. destruct Hbelow as [Hb _]. specialize (Hb x Hx E). lia.
  - intros c i t Hci (x & -> & Hx)%list_elem_of_fmap. destruct (Hf x Hx) as [(-> & _ & -> & _) _]. eauto.
  - intros t (x & -> & Hx)%list_elem_of_fmap. destruct (Hf x Hx) as [(E1 & _ & E3 & E4) ->]. intros Hrun.
    destruct (decide (tk_conversation x = conversation)) as [E|Hne]; [right; auto|left]. unfold task_current. rewrite E3, E4, Hother by done. by apply Hcur.
  - intros c g' _ [[= -> ->]|Hin]%Hc; [exists g; unfold gens'; rewrite dict_get_set_eq; split; [done|lia]|].
    destruct (v_bumps0 c g' Hr Hin) as (g0 & Hg & ?). destruct (Hgrow _ _ Hg) as (g1 & ? & ?). exists g1. split; [done|lia].
  - intros c g' turn ev _ [?|Hin]%Hc; [done|].
    destruct (v_wrote0 c g' turn ev Hr Hin) as (g0 & Hg & ?). destruct (Hgrow _ _ Hg) as (g1 & ? & ?). exists g1. split; [done|lia].
  - intros t turn ev (x & -> & Hx)%list_elem_of_fmap. destruct (Hf x Hx) as [(_ & -> & -> & ->) _]. intros [?|?]%Hc; [done|eauto].
  - intros c g' t1 e1 t2 e2 [?|?]%Hc [?|?]%Hc; try done. by eapply v_once0.
  - unfold log'. intros [|x l1] c g' turn ev l2 g2 E; [done|]. injection E as <- E. by eapply v_order0.
  - intros n st turn ctx [?|?]%Hc; [done|by eapply v_named0].
  - intros n st turn ctx [?|?]%Hc; [done|]. apply renewed_cons. by eapply v_renewed0.
Qed.

(** The reader takes no frame while it waits for a turn. *)
Definition attentive (r : ReaderPc) : Prop := r <> ReadEnded true /\ forall i, ~ awaits r i.

Lemma attentive_current s : Inv s -> attentive s.(ch_reader) -> forall t, t ∈ s.(ch_tasks) -> running t -> task_current s.(ch_generation) t.
Proof. intros Hs [_ Ha] t Ht Hr. destruct (v_live _ _ _ _ _ _ _ _ Hs t Ht Hr) as [?|[Hst _]]; [done|]. by destruct (Ha (tk_id t)). Qed.

(** The new generation of a conversation whose turn [t] is cancelled. *)
Lemma inv_bump_cancel t t' conversation r' s : Inv s -> attentive s.(ch_reader) -> t ∈ s.(ch_tasks) -> running t -> t.(tk_conversation) = conversation ->
  same_task t t' -> running t' -> t'.(tk_cancel) = true -> awaits r' t.(tk_id) -> r' <> ReadEnded true ->
  (forall s', s'.(ch_accepted) = s.(ch_accepted) -> s'.(ch_log) = Bumped conversation (generation_of conversation s + 1) :: s.(ch_log) ->
     s'.(ch_generation) = dict_set s.(ch_generation) conversation (generation_of conversation s + 1) ->
     below s'.(ch_tasks) s'.(ch_log) conversation (generation_of conversation s + 1) -> reader_ok s'.(ch_tasks) s'.(ch_generation) s'.(ch_accepted) s'.(ch_log) r') ->
  Inv (set_ch_reader r' (put_task t' (bump conversation s))).
Proof.
  intros Hs Hat Ht Hrun Hc Hsame Hrun' Hcan Haw Hr' Hok. pose proof (attentive_current s Hs Hat) as Hcur. destruct Hat as [Hne _].
  assert (forall x, x ∈ s.(ch_tasks) -> x.(tk_id) = t'.(tk_id) -> x = t) as Huniq.
  { intros x Hx E. destruct Hsame as (E1 & _). rewrite E1 in E. by apply (NoDup_map_elem _ _ _ _ (v_ids _ _ _ _ _ _ _ _ Hs) Hx Ht). }
  unfold Inv, put_task, bump, note. simpl.
  apply (inv_bump (fun x => if bool_decide (x.(tk_id) = t'.(tk_id)) then t' else x)); try done.
  - intros x Hx. case_bool_decide as E; [|by split; [split_and!|]]. rewrite (Huniq x Hx E). split; [done|]. by rewrite Hrun, Hrun'.
  - intros x Hx Hxr Hxc. assert (x = t) as ->.
    { pose proof (v_active _ _ _ _ _ _ _ _ Hs x Hx Hxr (Hcur x Hx Hxr)) as Ex. pose proof (v_active _ _ _ _ _ _ _ _ Hs t Ht Hrun (Hcur t Ht Hrun)) as Et.
      rewrite Hxc in Ex. rewrite Hc in Et. rewrite Ex in Et. injection Et as Et. by apply (NoDup_map_elem _ _ _ _ (v_ids _ _ _ _ _ _ _ _ Hs) Hx Ht). }
    destruct Hsame as (E1 & _). rewrite bool_decide_eq_true_2 by done. split; [by rewrite E1|done].
  - intros x Hx Hxc. case_bool_decide as E; [|done]. rewrite (Huniq x Hx E) in Hxc. done.
  - intros _ Hb. by apply (Hok (put_task t' (bump conversation s))).
Qed.

(** The new generation of a conversation where no turn runs. *)
Lemma inv_bump_idle conversation r' s : Inv s -> attentive s.(ch_reader) ->
  (forall t, t ∈ s.(ch_tasks) -> running t -> t.(tk_conversation) <> conversation) -> r' <> ReadEnded true ->
  (forall s', s'.(ch_accepted) = s.(ch_accepted) -> s'.(ch_log) = Bumped conversation (generation_of conversation s + 1) :: s.(ch_log) ->
     s'.(ch_generation) = dict_set s.(ch_generation) conversation (generation_of conversation s + 1) ->
     below s'.(ch_tasks) s'.(ch_log) conversation (generation_of conversation s + 1) -> reader_ok s'.(ch_tasks) s'.(ch_generation) s'.(ch_accepted) s'.(ch_log) r') ->
  Inv (set_ch_reader r' (bump conversation s)).
Proof.
  intros Hs Hat Hno Hr' Hok. pose proof (attentive_current s Hs Hat) as Hcur. destruct Hat as [Hne _].
  unfold Inv, bump, note. simpl. rewrite <- (map_id s.(ch_tasks)). apply (inv_bump (fun x => x)); try done.
  - intros x Hx Hxr Hxc. by destruct (Hno x Hx Hxr).
  - intros Hb Hb'. rewrite map_id in *. by apply (Hok (bump conversation s)).
Qed.

(** *** [CancelTurn] *)

Lemma mark_cancelled_same chars ms t : same_task t (mark_cancelled chars ms t) /\ task_done (mark_cancelled chars ms t) = task_done t.
Proof. by split; [split_and!|]. Qed.

(** One active turn at most has the id. *)
Lemma cancel_targets_one turn s : Inv s -> cancel_targets turn s = [] \/
  exists t, t ∈ s.(ch_tasks) /\ t.(tk_turn) = turn /\ running t /\ cancel_targets turn s = [t.(tk_id)].
Proof.
  intros Hs. pose proof (v_turns _ _ _ _ _ _ _ _ Hs) as Hn. unfold cancel_targets. induction (ch_tasks s) as [|t l IH]; [by left|].
  apply NoDup_cons in Hn as [Hnt Hn]. destruct (IH Hn) as [E|(x & Hx & Ex & Hr & E)]; simpl.
  - destruct (negb (task_done t) && _) eqn:Eb; simpl; rewrite E; [|by left]. right. exists t.
    apply andb_true_iff in Eb as [?%negb_true_iff ?%bool_decide_eq_true]. split_and!; try done. by left.
  - right. exists x. destruct (negb (task_done t) && _) eqn:Eb; simpl; [|split_and!; try done; by right].
    apply andb_true_iff in Eb as [_ Et%bool_decide_eq_true]. destruct Hnt. rewrite Et, <- Ex. by apply list_elem_of_fmap_2.
Qed.

Lemma inv_ack turn already s : Inv s -> s.(ch_reader) <> ReadEnded true ->
  (forall t, t ∈ s.(ch_tasks) -> running t -> ~ stopping s.(ch_reader) t) -> Inv (set_ch_reader (AckLock turn already) s).
Proof. intros Hs Hr Hno. apply inv_reader; try done. intros t Ht Hrun Hst. by destruct (Hno t Ht Hrun Hst). Qed.

Lemma find_task_of t s : Inv s -> t ∈ s.(ch_tasks) -> find_task t.(tk_id) s = Some t.
Proof.
  intros Hs Ht. destruct (find_task t.(tk_id) s) as [x|] eqn:E.
  - apply find_task_in in E as [Hx E]. f_equal. by apply (NoDup_map_elem _ _ _ _ (v_ids _ _ _ _ _ _ _ _ Hs) Hx Ht).
  - pose proof (find_none _ _ E t (proj1 (list_elem_of_In _ _) Ht)) as Hn. simpl in Hn. by rewrite bool_decide_eq_true_2 in Hn.
Qed.

Lemma cancel_frame_inv turn chars ms s : Inv s -> s.(ch_reader) = ReadFrame ->
  Inv (cancel_next turn chars ms false (cancel_targets turn s) s).
Proof.
  intros Hs Hr. assert (attentive s.(ch_reader)) as Hat by (rewrite Hr; split; [done|by intros i []]).
  destruct (cancel_targets_one turn s Hs) as [->|(t & Ht & Et & Hrun & ->)]; simpl.
  - apply inv_ack; [done|by rewrite Hr|]. rewrite Hr. intros t _ _ [[] _].
  - rewrite (find_task_of t s Hs Ht), Hrun. destruct (v_conv _ _ _ _ _ _ _ _ Hs t Ht) as [Ec Hne]. rewrite Et in Ec. rewrite Ec.
    destruct (is_empty (tk_conversation t)) eqn:Ee; [by apply is_empty_spec in Ee|].
    assert (cancel_task (mark_cancelled chars ms t) = with_cancel true (mark_cancelled chars ms t)) as ->.
    { unfold cancel_task. by rewrite (proj2 (mark_cancelled_same chars ms t)), Hrun. }
    by apply (inv_bump_cancel t).
Qed.

Lemma gathered_inv s : Inv s -> Inv (gathered s).
Proof.
  intros Hs. unfold gathered. destruct (ch_reader s) as [|turn chars ms i todo| | | |n st conversation g i| |] eqn:Er; try done.
  - destruct (find_task i s) eqn:Ef; [done|]. pose proof (v_reader _ _ _ _ _ _ _ _ Hs) as Hok. rewrite Er in Hok. simpl in Hok. subst todo. simpl.
    apply inv_ack; [done|by rewrite Er|]. rewrite Er. intros t Ht _ [Ha _]. simpl in Ha. subst i. by rewrite (find_task_of t s Hs Ht) in Ef.
  - destruct (find_task i s) eqn:Ef; [done|]. apply inv_reader; rewrite ?Er; try done.
    + intros t Ht _ [Ha _]. simpl in Ha. subst i. by rewrite (find_task_of t s Hs Ht) in Ef.
    + pose proof (v_reader _ _ _ _ _ _ _ _ Hs) as Hok. by rewrite Er in Hok.
Qed.

(** *** [StartTurn] *)

Lemma begin_start_inv n st s : Inv s -> attentive s.(ch_reader) -> renewed n s.(ch_log) -> Inv (begin_start digest n st s).
Proof.
  intros Hs Hat Hren. unfold begin_start.
  destruct (if has_chat_id (st_turn_id st) then _ else _) as [d|] eqn:Eacc.
  { case_bool_decide; [|by apply abort_inv]. destruct Hat as [Hne Ha]. apply inv_reader; try done. intros t _ _ [Hw _]. by destruct (Ha (tk_id t)). }
  destruct (validate_conversation_id (st_conversation_id st)) as [conversation|] eqn:Ev; [|by apply abort_inv].
  assert (conversation <> "") as Hce.
  { unfold validate_conversation_id in Ev. destruct (is_empty (st_conversation_id st)) eqn:Ee; [done|]. simpl in Ev.
    destruct (is_empty (py_strip _)); [discriminate Ev|]. case_bool_decide; [discriminate Ev|]. injection Ev as <-. intros E. by rewrite E in Ee. }
  set (g := generation_of conversation (bump conversation s)).
  assert (g = generation_of conversation s + 1) as Eg.
  { unfold g, generation_of at 1. unfold bump, note. simpl. by rewrite dict_get_set_eq. }
  assert (forall s', s'.(ch_accepted) = s.(ch_accepted) -> s'.(ch_log) = Bumped conversation (generation_of conversation s + 1) :: s.(ch_log) ->
     s'.(ch_generation) = dict_set s.(ch_generation) conversation (generation_of conversation s + 1) ->
     below s'.(ch_tasks) s'.(ch_log) conversation (generation_of conversation s + 1) ->
     reader_ok s'.(ch_tasks) s'.(ch_generation) s'.(ch_accepted) s'.(ch_log) (Preparing n st conversation g)) as Hok.
  { intros s' Ea El Egen Hb. simpl. rewrite Ea, Eg. split_and!; [by rewrite Egen, dict_get_set_eq|done|done| |].
    - intros Hid. by rewrite Hid in Eacc.
    - rewrite El. by apply renewed_cons. }
  destruct (dict_get (ch_active s) conversation ≫= (fun i => find_task i s)) as [t|] eqn:Ep.
  - apply bind_Some in Ep as (i & Ei & Hf). apply find_task_in in Hf as [Ht Eid].
    destruct (task_done t) eqn:Ed.
    + apply inv_bump_idle; try done. intros x Hx Hxr Hxc. pose proof (v_active _ _ _ _ _ _ _ _ Hs x Hx Hxr (attentive_current s Hs Hat x Hx Hxr)) as Ex.
      rewrite Hxc, Ei in Ex. injection Ex as Ex. rewrite (NoDup_map_elem _ _ _ _ (v_ids _ _ _ _ _ _ _ _ Hs) Hx Ht) in Hxr by congruence. congruence.
    + assert (cancel_task t = with_cancel true t) as -> by (unfold cancel_task; by rewrite Ed). apply (inv_bump_cancel t); try done.
      by apply (v_home _ _ _ _ _ _ _ _ Hs conversation i).
  - apply inv_bump_idle; try done. intros x Hx Hxr Hxc. pose proof (v_active _ _ _ _ _ _ _ _ Hs x Hx Hxr (attentive_current s Hs Hat x Hx Hxr)) as Ex.
    rewrite Hxc in Ex. rewrite Ex in Ep. simpl in Ep. by rewrite (find_task_of x s Hs Hx) in Ep.
Qed.

Lemma prepared_turn_id st conversation d p : prepared lower verify scope st conversation d = Ok p ->
  p.(pp_turn).(ti_turn_id) = if has_chat_id st.(st_turn_id) then st.(st_turn_id) else d.(dl_turn_uuid).
Proof.
  unfold prepared. destruct (modality_of lower _) as [modality|]; [|done]. unfold prepare.
  destruct (validate_conversation_id _); [|done]. destruct (modality_of lower _); [|done]. destruct (resolve_scope _ _); [|done].
  destruct (speaker_of _ _ _ _) as [[? ?]|]; [|done]. destruct (negb _); [done|]. destruct (match rq_coordination _ with Some _ => _ | None => _ end); [done|].
  intros [= <-]. simpl. unfold has_chat_id. by destruct (is_empty _).
Qed.

Lemma start_task_inv n st conversation g p s : Inv s -> s.(ch_reader) = Preparing n st conversation g ->
  p.(pp_turn).(ti_turn_id) ∉ map tk_turn s.(ch_tasks) -> (has_chat_id st.(st_turn_id) = true -> p.(pp_turn).(ti_turn_id) = st.(st_turn_id)) ->
  Inv (start_task digest n st conversation g p s).
Proof.
  intros [] Hr Hfresh Hid. rewrite Hr in *. destruct v_reader0 as (Hg & [Hb1 Hb2] & Hce & Hacc & Hren).
  assert (forall t, t ∈ s.(ch_tasks) -> t.(tk_conversation) = conversation -> ~ task_current s.(ch_generation) t) as Hold.
  { intros t Ht E Hc. unfold task_current in Hc. rewrite E, Hg in Hc. injection Hc as Hc. specialize (Hb1 t Ht E). lia. }
  unfold Inv, start_task. simpl. set (t0 := mkTask _ _ _ _ _ _ _).
  assert (forall t, t ∈ s.(ch_tasks) ++ [t0] -> t ∈ s.(ch_tasks) \/ t = t0) as Hin.
  { intros t [?|?%list_elem_of_singleton]%elem_of_app; auto. }
  assert (forall f, f ∈ Started n st p.(pp_turn).(ti_turn_id) p.(pp_turn).(ti_context) :: s.(ch_log) ->
    f = Started n st p.(pp_turn).(ti_turn_id) p.(pp_turn).(ti_context) \/ f ∈ s.(ch_log)) as Hc by (by intros f ?%elem_of_cons).
  constructor; try done.
  - rewrite map_app. apply NoDup_app. split_and!; [done| |by apply NoDup_singleton].
    intros i (t & -> & Ht)%list_elem_of_fmap E%list_elem_of_singleton. specialize (v_next0 t Ht). simpl in E. lia.
  - intros t [Ht| ->]%Hin; [specialize (v_next0 t Ht)|simpl]; lia.
  - rewrite map_app. apply NoDup_app. split_and!; [done| |by apply NoDup_singleton]. intros i Hi ->%list_elem_of_singleton. done.
  - intros t [Ht| ->]%Hin; [|simpl; by rewrite dict_get_set_eq]. rewrite dict_get_set_ne; [by apply v_conv0|].
    intros E. rewrite E in Hfresh. by apply Hfresh, list_elem_of_fmap_2.
  - intros t _ [Ht| ->]%Hin; [by apply v_gen0|exists g; split; [done|simpl; lia]].
  - intros t1 t2 [H1| ->]%Hin [H2| ->]%Hin; [by apply v_pair0| | |done]; simpl; intros E1 E2; [specialize (Hb1 t1 H1 E1)|specialize (Hb1 t2 H2 (eq_sym E1))]; lia.
  - intros t [Ht| ->]%Hin Hrun Hcur; [|simpl; by rewrite dict_get_set_eq]. rewrite dict_get_set_ne; [by apply v_active0|]. intros E. by apply (Hold t Ht).
  - by apply dict_set_nodup.
  - intros c i. destruct (decide (conversation = c)) as [<-|Hne]; [rewrite dict_get_set_eq; intros [= <-]; lia|rewrite dict_get_set_ne by done].
    intros Hi. specialize (v_known0 c i Hi). lia.
  - intros c i t. destruct (decide (conversation = c)) as [<-|Hne]; [rewrite dict_get_set_eq; intros [= <-]|rewrite dict_get_set_ne by done; intros Hi].
    + intros [Ht| ->]%Hin; [|done]. specialize (v_next0 t Ht). lia.
    + intros [Ht| ->]%Hin; [by apply (v_home0 c i)|]. specialize (v_known0 c i Hi). simpl. lia.
  - intros t [Ht| ->]%Hin Hrun; [|by left]. destruct (v_live0 t Ht Hrun) as [?|[[] _]]. by left.
  - intros c g' _ [?|?]%Hc; [done|by apply v_bumps0].
  - intros c g' turn ev _ [?|?]%Hc; [done|by eapply v_wrote0].
  - intros t turn ev [Ht| ->]%Hin [?|Hw]%Hc; [done|by eapply v_voice0|done|]. specialize (Hb2 _ _ _ Hw). simpl in Hb2. lia.
  - intros c g' t1 e1 t2 e2 [?|?]%Hc [?|?]%Hc; try done. by eapply v_once0.
  - intros [|x l1] c g' turn ev l2 g2 E; [done|]. injection E as <- E. by eapply v_order0.
  - simpl. destruct (has_chat_id (st_turn_id st)) eqn:Eh; [|done]. simpl. apply NoDup_cons. split; [|done]. intros Hs%v_accepted0. by apply Hs, Hacc.
  - simpl. destruct (has_chat_id (st_turn_id st)) eqn:Eh; [|done]. simpl. intros i [->|Hi]%elem_of_cons; [by rewrite dict_get_set_eq|].
    destruct (decide (st_turn_id st = i)) as [->|?]; [by rewrite dict_get_set_eq|rewrite dict_get_set_ne by done; auto].
  - intros n' st' turn ctx [[= -> -> -> _]|?]%Hc; [done|by eapply v_named0].
  - intros n' st' turn ctx [[= -> _ _ _]|?]%Hc; apply renewed_cons; [done|by eapply v_renewed0].
Qed.

(** *** [_emit_turn] *)

(** A task that does not wait for a cancellation at the lock is current. *)
Lemma writer_current t s ev last : Inv s -> t ∈ s.(ch_tasks) -> t.(tk_cancel) = false -> t.(tk_pc) = AtLock ev last -> task_current s.(ch_generation) t.
Proof.
  intros Hs Ht Hc Hpc. assert (running t) as Hrun by (unfold task_done; by rewrite Hpc).
  destruct (v_live _ _ _ _ _ _ _ _ Hs t Ht Hrun) as [?|[_ Hst]]; [done|]. rewrite (Hst _ _ Hpc) in Hc. done.
Qed.

(** A task that is told by none to stop keeps its claim. *)
Lemma inv_put_live t t' s : Inv s -> t ∈ s.(ch_tasks) -> same_task t t' -> running t ->
  (forall ev last, t'.(tk_pc) = AtLock ev last -> task_current s.(ch_generation) t) -> Inv (put_task t' s).
Proof.
  intros Hs Ht Hsame Hrun Hw. apply (inv_put t); try done. intros Hr.
  destruct (v_live _ _ _ _ _ _ _ _ Hs t Ht Hrun) as [?|[Ha _]]; [by left|].
  destruct (tk_pc t') as [|ev last| |] eqn:Ep; try (right; split; [destruct Hsame as (-> & _); done|by rewrite Ep]). left. by eapply Hw.
Qed.

Lemma inv_wrote t ev s : Inv s -> t ∈ s.(ch_tasks) -> task_current s.(ch_generation) t ->
  Inv (note (Wrote t.(tk_conversation) t.(tk_generation) t.(tk_turn) ev) s).
Proof.
  intros [] Ht Hcur. unfold Inv, note. simpl. set (f := Wrote _ _ _ _).
  assert (forall f', f' ∈ f :: ch_log s -> f' = f \/ f' ∈ ch_log s) as Hc by (by intros f' ?%elem_of_cons).
  assert (ch_reader s <> ReadEnded true) as Hne.
  { intros E. rewrite E in v_reader0. simpl in v_reader0. unfold task_current in Hcur. by rewrite v_reader0 in Hcur. }
  constructor; try done.
  - apply reader_cons; [|done]. intros c g turn e [= <- <- <- <-] g' _. by exists t.
  - intros c g Hr [?|?]%Hc; [done|by eapply v_bumps0].
  - intros c g turn e Hr [[= -> -> -> ->]|?]%Hc; [|by eapply v_wrote0]. exists (tk_generation t). split; [done|lia].
  - intros x turn e Hx [[= Ec Eg -> ->]|?]%Hc; [|by eapply v_voice0]. by rewrite (v_pair0 x t Hx Ht Ec Eg).
  - intros c g t1 e1 t2 e2 [[= -> -> -> ->]|H1]%Hc [E|H2]%Hc.
    + by injection E as ->.
    + symmetry. by apply (v_voice0 t t2 e2).
    + injection E as -> -> -> ->. by apply (v_voice0 t t1 e1).
    + by eapply v_once0.
  - intros [|x l1] c g turn e l2 g' E Hb; [|injection E as _ E; by eapply v_order0]. injection E as Ec Eg _ _ El. subst c g l2.
    destruct (v_bumps0 _ _ Hne Hb) as (g0 & Hg & ?). unfold task_current in Hcur. rewrite Hcur in Hg. by injection Hg as <-.
  - intros n st turn ctx [?|?]%Hc; [done|by eapply v_named0].
  - intros n st turn ctx [?|?]%Hc; [done|]. apply renewed_cons. by eapply v_renewed0.
Qed.

(** *** [_discard_done] *)

Lemma discard_inv t s : Inv s -> t ∈ s.(ch_tasks) -> task_done t = true -> Inv (discard t s).
Proof.
  intros Hs Ht Hdone. pose proof Hs as []. unfold discard.
  set (keep := List.filter (fun x => negb (bool_decide (x.(tk_id) = t.(tk_id)))) s.(ch_tasks)).
  assert (forall x, x ∈ keep -> x ∈ s.(ch_tasks) /\ x <> t) as Hk.
  { intros x [Hx Hne%negb_true_iff%bool_decide_eq_false]%elem_of_filter_list. split; [done|]. by intros ->. }
  assert (forall (A : Type) (f : TurnTask -> A), NoDup (map f s.(ch_tasks)) -> NoDup (map f keep)) as Hnd.
  { intros A f. apply NoDup_map_filter. }
  assert (forall active', NoDup active'.*1 -> (forall c i, dict_get active' c = Some i -> dict_get s.(ch_active) c = Some i) ->
    (forall x, x ∈ keep -> running x -> task_current s.(ch_generation) x -> dict_get active' x.(tk_conversation) = Some x.(tk_id)) ->
    CInv keep active' (dict_pop s.(ch_conversations) t.(tk_turn)) s.(ch_generation) s.(ch_accepted) s.(ch_reader) s.(ch_next) s.(ch_log)) as Hgoal.
  { intros active' Hn1 Hn2 Hn3. constructor; auto; try (intros; repeat match goal with H : _ ∈ keep |- _ => apply Hk in H as [? ?] end; by eauto).
    - intros x Hx. destruct (Hk x Hx) as [Hx' Hne]. rewrite dict_pop_get_ne; [by apply v_conv0|]. intros E. apply Hne.
      by apply (NoDup_map_elem tk_turn _ _ _ v_turns0).
    - destruct (ch_reader s); try done; destruct v_reader0 as (? & [Hb1 Hb2] & ? & ? & ?); split_and!; try done; split; try done;
        intros x Hx; destruct (Hk x Hx); auto. }
  unfold current_generation. simpl. destruct (bool_decide (dict_get s.(ch_generation) _ = _) && _) eqn:Eb; unfold Inv; simpl; apply Hgoal; try done.
  - by apply dict_pop_nodup.
  - intros c i. destruct (decide (t.(tk_conversation) = c)) as [<-|Hne]; [by rewrite dict_pop_get_eq|by rewrite dict_pop_get_ne].
  - apply andb_true_iff in Eb as [_ Ea%bool_decide_eq_true]. intros x Hx Hr Hcur. destruct (Hk x Hx) as [Hx' Hne].
    rewrite dict_pop_get_ne; [by apply v_active0|]. intros E. pose proof (v_active0 x Hx' Hr Hcur) as Ex. rewrite <- E, Ea in Ex. injection Ex as Ex.
    apply Hne. symmetry. by apply (NoDup_map_elem tk_id _ _ _ v_ids0).
  - intros x Hx. destruct (Hk x Hx). auto.
Qed.

(** *** A step *)

Lemma attentive_pcs r : match r with ReadFrame | Reauthenticate _ _ => True | _ => False end -> attentive r.
Proof. intros. split; destruct r; try done; by intros i []. Qed.

Lemma inv_idle_reader r s : Inv s -> (forall i, ~ awaits s.(ch_reader) i) -> r <> ReadEnded true ->
  reader_ok s.(ch_tasks) s.(ch_generation) s.(ch_accepted) s.(ch_log) r -> Inv (set_ch_reader r s).
Proof. intros Hs Ha Hr Hok. apply inv_reader; try done; [intros E; by destruct (Ha 0%nat); rewrite E|]. intros t _ _ [Hw _]. by destruct (Ha (tk_id t)). Qed.

Lemma task_step_inv t l s : Inv s -> t ∈ s.(ch_tasks) -> t.(tk_cancel) = false ->
  match l with
  | CYield _ ev => t.(tk_pc) = InEngine -> Inv (engine_yields t ev s)
  | CFail _ code message => t.(tk_pc) = InEngine -> Inv (engine_fails t code message s)
  | CFinish _ => t.(tk_pc) = InEngine -> Inv (put_task (with_pc (TaskDone false) t) s)
  | CWrite _ => forall ev last, t.(tk_pc) = AtLock ev last -> Inv (write_event t ev last s)
  | CWritten _ => forall last, t.(tk_pc) = Writing last -> Inv (event_written t last s)
  | _ => True
  end.
Proof.
  intros Hs Ht Hc. assert (forall pc, t.(tk_pc) = pc -> (if pc is TaskDone _ then False else True) -> running t) as Hrun.
  { intros pc E. unfold task_done. rewrite E. by destruct pc. }
  destruct l; try done.
  - intros E. unfold engine_yields. unfold current_generation. case_bool_decide as Ec; apply (inv_put_live t); try done; try by apply (Hrun InEngine).
    simpl. by rewrite E.
  - intros E. unfold engine_fails. unfold current_generation. case_bool_decide as Ec; [apply (inv_put_live t); try done; by apply (Hrun InEngine)|].
    by apply (inv_put t).
  - intros E. by apply (inv_put t).
  - intros ev last E. unfold write_event. pose proof (writer_current t s ev last Hs Ht Hc E) as Hcur.
    assert (Inv (put_task (with_pc (Writing last) t) s)) as Hp by (apply (inv_put_live t); try done; by apply (Hrun (AtLock ev last))).
    assert (with_pc (Writing last) t ∈ (put_task (with_pc (Writing last) t) s).(ch_tasks)) as Hin.
    { simpl. apply list_elem_of_fmap. exists t. by rewrite bool_decide_eq_true_2. }
    exact (inv_wrote (with_pc (Writing last) t) ev _ Hp Hin Hcur).
  - intros last E. unfold event_written. assert (running t) by by apply (Hrun (Writing last)). destruct last; apply (inv_put_live t _ s); done.
Qed.

Notation step := (chat_step lower verify digest scope).

Lemma on_task_inv i s f : Inv s -> (forall t, t ∈ s.(ch_tasks) -> t.(tk_cancel) = false -> Inv (f t)) -> Inv (on_task i s f).
Proof.
  intros Hs Hf. unfold on_task. destruct (find_task i s) as [t|] eqn:Ef; [|done]. apply find_task_in in Ef as [Ht _].
  destruct (tk_cancel t) eqn:Ec; [done|]. by apply Hf.
Qed.

Lemma deliver_inv t goes_on s : Inv s -> t ∈ s.(ch_tasks) -> Inv (deliver_cancel t goes_on s).
Proof.
  intros Hs Ht. unfold deliver_cancel. simpl. destruct (tk_pc t) eqn:Ep; try done.
  - destruct goes_on; [|by apply (inv_put t)]. apply (inv_put_live t); try done; simpl; [unfold task_done|]; by rewrite Ep.
  - by apply (inv_put t).
  - by apply (inv_put t _ (set_ch_lock false s)).
Qed.

(** *** A turn that was cancelled *)

(** Every task's turn was started; the turn whose cancellation is acknowledged has no task left, and
    wrote what it wrote before. *)
Record QInv (tasks : list TurnTask) (r : ReaderPc) (log : list ChatFact) : Prop := {
  q_started t : t ∈ tasks -> t.(tk_turn) ∈ turn_ids log;
  q_reader : match r with
    | CancelGather turn _ _ i _ => turn ∈ turn_ids log /\ forall t, t ∈ tasks -> t.(tk_turn) = turn -> t.(tk_id) = i
    | AckLock turn false => turn ∈ turn_ids log /\ forall t, t ∈ tasks -> t.(tk_turn) <> turn
    | _ => True end;
  q_acked turn : Acked turn false ∈ log -> turn ∈ turn_ids log /\ forall t, t ∈ tasks -> t.(tk_turn) <> turn;
  q_silent l1 conversation g turn ev l2 : log = l1 ++ Wrote conversation g turn ev :: l2 -> Acked turn false ∉ l2;
}.
Definition Quiet (s : ChatState) : Prop := QInv s.(ch_tasks) s.(ch_reader) s.(ch_log).

Definition fewer (tasks' tasks : list TurnTask) : Prop :=
  forall t', t' ∈ tasks' -> exists t, t ∈ tasks /\ t.(tk_id) = t'.(tk_id) /\ t.(tk_turn) = t'.(tk_turn).
Definition calm (f : ChatFact) : Prop := match f with Bumped _ _ | Renewed _ _ | Acked _ true => True | _ => False end.
Definition plain (r : ReaderPc) : Prop := match r with CancelGather _ _ _ _ _ | AckLock _ false => False | _ => True end.

Lemma quiet_calm tasks r f log : QInv tasks r log -> calm f -> QInv tasks r (f :: log).
Proof.
  intros [] Hf. assert (turn_ids (f :: log) = turn_ids log) as E by by destruct f. constructor; rewrite ?E; try done.
  - intros turn [<-|?]%elem_of_cons; [done|auto].
  - intros [|x l1] c g turn ev l2 El; injection El as -> El; [done|eauto].
Qed.

Lemma quiet_tasks tasks tasks' r r' log : QInv tasks r log -> fewer tasks' tasks -> r' = r \/ plain r' -> QInv tasks' r' log.
Proof.
  intros [] Hsub Hr. constructor; try done.
  - intros t' Ht'. destruct (Hsub t' Ht') as (t & Ht & _ & <-). auto.
  - destruct Hr as [->|Hr]; [|destruct r' as [| |? []| | | | |]; done]. destruct r as [|turn ? ? i ?|turn []| | | | |]; try done; destruct q_reader0 as [? Hq]; split; try done;
      intros t' Ht'; destruct (Hsub t' Ht') as (t & Ht & E1 & E2); rewrite <- ?E1, <- ?E2; auto.
  - intros turn Ha. destruct (q_acked0 turn Ha) as [? Hq]. split; [done|]. intros t' Ht'. destruct (Hsub t' Ht') as (t & Ht & _ & <-). auto.
Qed.

Lemma fewer_refl tasks : fewer tasks tasks.
Proof. intros t Ht. by exists t. Qed.
Lemma fewer_map f tasks : (forall t, same_task t (f t)) -> fewer (map f tasks) tasks.
Proof. intros Hf t' (t & -> & Ht)%list_elem_of_fmap. exists t. by destruct (Hf t) as (-> & -> & _). Qed.
Lemma fewer_put t t' s : t ∈ s.(ch_tasks) -> same_task t t' -> fewer (put_task t' s).(ch_tasks) s.(ch_tasks).
Proof.
  intros Ht (E1 & E2 & _) x' (x & -> & Hx)%list_elem_of_fmap. case_bool_decide; [exists t|exists x]; by rewrite ?E1, ?E2.
Qed.

(** A turn that starts is new. *)
Lemma start_is_new n st conversation g d p s : Inv s -> Quiet s -> s.(ch_reader) = Preparing n st conversation g -> fresh_turn (CPrepared d) s ->
  prepared lower verify scope st conversation d = Ok p ->
  p.(pp_turn).(ti_turn_id) ∉ turn_ids s.(ch_log) /\ p.(pp_turn).(ti_turn_id) ∉ map tk_turn s.(ch_tasks) /\
  (has_chat_id st.(st_turn_id) = true -> p.(pp_turn).(ti_turn_id) = st.(st_turn_id)).
Proof.
  intros Hs Hq Er Hfresh ->%prepared_turn_id. unfold fresh_turn in Hfresh. rewrite Er in Hfresh.
  assert ((if has_chat_id (st_turn_id st) then st_turn_id st else dl_turn_uuid d) ∉ turn_ids s.(ch_log)) as Hnew.
  { destruct (has_chat_id (st_turn_id st)) eqn:Eh; [|done]. intros Hin. pose proof (v_reader _ _ _ _ _ _ _ _ Hs) as Hok. rewrite Er in Hok.
    destruct Hok as (_ & _ & _ & Hacc & _). unfold turn_ids in Hin. apply list_elem_of_In, in_flat_map in Hin as ([] & Hf & Hin); try done.
    destruct Hin as [Hin|[]]. pose proof (proj2 (list_elem_of_In _ _) Hf) as Hf'. destruct (has_chat_id (st_turn_id st0)) eqn:E0.
    - apply (v_accepted _ _ _ _ _ _ _ _ Hs (st_turn_id st)); [|by apply Hacc]. apply list_elem_of_In, in_flat_map. eexists. split; [exact Hf|]. simpl. rewrite E0.
      left. rewrite <- Hin. symmetry. by apply (v_named _ _ _ _ _ _ _ _ Hs n0 st0 turn context).
    - apply Hfresh. apply list_elem_of_In, in_flat_map. eexists. split; [exact Hf|]. simpl. rewrite E0. by left. }
  split_and!; [done| |by intros ->]. intros (t & E & Ht)%list_elem_of_fmap. apply Hnew. rewrite E. by apply (q_started _ _ _ Hq).
Qed.

Lemma chat_step_inv l s : fresh_turn l s -> Inv s -> Quiet s -> Inv (step l s).
Proof.
  intros Hfresh Hs Hq. destruct l; simpl.
  - destruct (ch_reader s) eqn:Er; try done. assert (attentive (ch_reader s)) as Hat by (apply attentive_pcs; by rewrite Er).
    destruct f as [turn chars ms|st|]; simpl; [by apply cancel_frame_inv| |done].
    assert (Inv (set_ch_starts (S (ch_starts s)) s)) as Hs' by done.
    destruct (has_some (as_person_id scope)) eqn:Ep; [|apply begin_start_inv; try done; by unfold renewed; rewrite Ep].
    apply inv_idle_reader; try done. simpl. rewrite Er. by intros i [].
  - by apply gathered_inv.
  - destruct (ch_reader s) as [| |turn already| | | | |] eqn:Er; try done. destruct (ch_lock s); [done|].
    apply inv_note; [done|]. apply (inv_idle_reader AckWriting s); try done. rewrite Er. by intros i [].
  - destruct (ch_reader s) eqn:Er; try done. apply (inv_idle_reader ReadFrame s); try done. rewrite Er. by intros i [].
  - destruct (ch_reader s) as [| | | |n st| | |] eqn:Er; try done. destruct r as [fresh|]; [|by apply abort_inv].
    case_bool_decide as Eb; [|by apply abort_inv]. apply begin_start_inv; [by apply inv_note|apply attentive_pcs; simpl; by rewrite Er|].
    intros _. exists fresh. split; [by left|done].
  - destruct (ch_reader s) as [| | | | | |n st conversation g|] eqn:Er; try done. unfold finish_start.
    destruct (prepared _ _ _ _ _ _) as [p|] eqn:Ep; [|by apply abort_inv]. destruct (start_is_new _ _ _ _ _ _ _ Hs Hq Er Hfresh Ep) as (_ & ? & ?).
    by apply start_task_inv.
  - destruct (ch_reader s) eqn:Er; try done; by apply (abort_inv s).
  - destruct (ch_reader s) eqn:Er; try done. apply (inv_idle_reader (ReadEnded false) s); try done. rewrite Er. by intros i [].
  - by apply cancel_all_inv.
  - apply on_task_inv; [done|]. intros t Ht Hc. destruct (tk_pc t) eqn:Ep; try done. by apply (task_step_inv t (CYield 0 ev)).
  - apply on_task_inv; [done|]. intros t Ht Hc. destruct (tk_pc t) eqn:Ep; try done. by apply (task_step_inv t (CFail 0 code message)).
  - apply on_task_inv; [done|]. intros t Ht Hc. destruct (tk_pc t) eqn:Ep; try done. by apply (task_step_inv t (CFinish 0)).
  - apply on_task_inv; [done|]. intros t Ht Hc. destruct (tk_pc t) as [|ev last| |] eqn:Ep; try done. destruct (ch_lock s); [done|].
    by apply (task_step_inv t (CWrite 0)).
  - apply on_task_inv; [done|]. intros t Ht Hc. destruct (tk_pc t) as [| |last|] eqn:Ep; try done. by apply (task_step_inv t (CWritten 0)).
  - destruct (find_task task s) as [t|] eqn:Ef; [|done]. apply find_task_in in Ef as [Ht _]. destruct (tk_cancel t); [|done]. by apply deliver_inv.
  - destruct (find_task task s) as [t|] eqn:Ef; [|done]. apply find_task_in in Ef as [Ht _]. destruct (task_done t) eqn:Ed; [|done]. by apply discard_inv.
Qed.


(** A step that neither starts, writes nor acknowledges *)
Lemma quiet_move s s' : Quiet s -> fewer s'.(ch_tasks) s.(ch_tasks) -> s'.(ch_reader) = s.(ch_reader) \/ plain s'.(ch_reader) ->
  s'.(ch_log) = s.(ch_log) \/ (exists f, calm f /\ s'.(ch_log) = f :: s.(ch_log)) -> Quiet s'.
Proof.
  intros Hq Hf Hr Hl. unfold Quiet. apply (quiet_tasks s.(ch_tasks) _ s.(ch_reader)); [|done..].
  destruct Hl as [->|(f & Hc & ->)]; [done|by apply quiet_calm].
Qed.

Lemma same_refl t : same_task t t.
Proof. done. Qed.
#[local] Hint Resolve fewer_refl fewer_map fewer_put cancel_task_same same_refl : core.

Lemma quiet_abort s : Quiet s -> Quiet (abort_stream s).
Proof. intros Hq. apply (quiet_move s); simpl; auto. Qed.

Lemma quiet_put t t' s : Quiet s -> t ∈ s.(ch_tasks) -> same_task t t' -> Quiet (put_task t' s).
Proof. intros Hq Ht Hs. apply (quiet_move s); [done|by apply (fewer_put t)|by left..]. Qed.

Lemma quiet_begin n st s : Quiet s -> Quiet (begin_start digest n st s).
Proof.
  intros Hq. unfold begin_start. destruct (if has_chat_id _ then _ else _) as [d|].
  { case_bool_decide; [|by apply quiet_abort]. apply (quiet_move s); simpl; auto. }
  destruct (validate_conversation_id _) as [conversation|]; [|by apply quiet_abort].
  assert (forall g, calm (Bumped conversation g)) as Hcalm by done.
  destruct (dict_get (ch_active s) conversation ≫= _) as [t|] eqn:Ep; [|apply (quiet_move s); simpl; eauto].
  apply bind_Some in Ep as (i & _ & Hf). apply find_task_in in Hf as [Ht _].
  destruct (task_done t); apply (quiet_move s); simpl; eauto. by apply (fewer_put t); [|apply cancel_task_same].
Qed.

Lemma quiet_write t ev s : Quiet s -> t ∈ s.(ch_tasks) -> Quiet (note (Wrote t.(tk_conversation) t.(tk_generation) t.(tk_turn) ev) s).
Proof.
  intros [] Ht. unfold Quiet, note. simpl. constructor; try done.
  - intros turn [?|?]%elem_of_cons; [done|by apply q_acked0].
  - intros [|x l1] c g turn e l2 E; [|injection E as _ E; eauto]. injection E as _ _ E _ El. subst turn l2. intros Ha.
    destruct (q_acked0 _ Ha) as [_ Hno]. by apply (Hno t Ht).
Qed.

Lemma quiet_cancel turn chars ms s : Inv s -> Quiet s -> s.(ch_reader) = ReadFrame ->
  Quiet (cancel_next turn chars ms false (cancel_targets turn s) s).
Proof.
  intros Hs Hq Hr. destruct (cancel_targets_one turn s Hs) as [->|(t & Ht & Et & Hrun & ->)]; simpl.
  - apply (quiet_move s); simpl; auto.
  - rewrite (find_task_of t s Hs Ht), Hrun. destruct (v_conv _ _ _ _ _ _ _ _ Hs t Ht) as [Ec Hne]. rewrite Et in Ec. rewrite Ec.
    destruct (is_empty (tk_conversation t)) eqn:Ee; [by apply is_empty_spec in Ee|].
    set (t' := cancel_task (mark_cancelled chars ms t)).
    assert (same_task t t') as Hsame by exact (cancel_task_same (mark_cancelled chars ms t)).
    assert (Quiet (put_task t' (bump (tk_conversation t) s))) as Hb.
    { apply (quiet_put t); try done. apply (quiet_move s); simpl; [done|done|by left|right]. eexists. by split; [|reflexivity]. }
    destruct Hb. unfold Quiet in *. simpl in *. constructor; try done. split.
    + pose proof (q_started _ _ _ Hq t Ht) as Hin. by rewrite Et in Hin.
    + intros x Hx Ex. apply (fewer_put t t' s Ht Hsame) in Hx as (y & Hy & <- & Ey).
      f_equal. apply (NoDup_map_elem tk_turn _ _ _ (v_turns _ _ _ _ _ _ _ _ Hs) Hy Ht). congruence.
Qed.

Lemma quiet_task t l s : Quiet s -> t ∈ s.(ch_tasks) ->
  match l with
  | CYield _ ev => Quiet (engine_yields t ev s)
  | CFail _ code message => Quiet (engine_fails t code message s)
  | CFinish _ => Quiet (put_task (with_pc (TaskDone false) t) s)
  | CWrite _ => forall ev last, Quiet (write_event t ev last s)
  | CWritten _ => forall last, Quiet (event_written t last s)
  | CDeliver _ goes_on => Quiet (deliver_cancel t goes_on s)
  | CDiscard _ => Quiet (discard t s)
  | _ => True
  end.
Proof.
  intros Hq Ht. destruct l; try done.
  - unfold engine_yields. destruct (current_generation t s); by apply (quiet_put t).
  - unfold engine_fails. destruct (current_generation t s); by apply (quiet_put t).
  - by apply (quiet_put t).
  - intros ev last. assert (Quiet (put_task (with_pc (Writing last) t) s)) as Hp by by apply (quiet_put t).
    apply (quiet_write (with_pc (Writing last) t) ev (set_ch_lock true (put_task (with_pc (Writing last) t) s)) Hp). simpl.
    apply list_elem_of_fmap. exists t. by rewrite bool_decide_eq_true_2.
  - intros last. by apply (quiet_put t).
  - unfold deliver_cancel. simpl. destruct (tk_pc t); try done; [destruct goes_on| |]; by apply (quiet_put t).
  - unfold discard. destruct (_ && _); apply (quiet_move s); simpl; auto; intros x [Hx _]%elem_of_filter_list; by exists x.
Qed.

Lemma quiet_init : Quiet chat_init.
Proof. constructor; simpl; try done; try (by intros ? ?%elem_of_nil). by intros []. Qed.

Lemma on_task_quiet i s f : Quiet s -> (forall t, t ∈ s.(ch_tasks) -> Quiet (f t)) -> Quiet (on_task i s f).
Proof.
  intros Hq Hf. unfold on_task. destruct (find_task i s) as [t|] eqn:Ef; [|done]. apply find_task_in in Ef as [Ht _].
  destruct (tk_cancel t); [done|auto].
Qed.

Lemma quiet_start n st conversation g p s : Quiet s -> p.(pp_turn).(ti_turn_id) ∉ turn_ids s.(ch_log) -> Quiet (start_task digest n st conversation g p s).
Proof.
  intros [] Hnew. unfold Quiet, start_task. simpl. constructor; try done.
  - simpl. intros t [?| ->%list_elem_of_singleton]%elem_of_app; [right; auto|by left].
  - simpl. intros turn [?|Ha]%elem_of_cons; [done|]. destruct (q_acked0 turn Ha) as [Hin Hno]. split; [by right|].
    intros t [?| ->%list_elem_of_singleton]%elem_of_app; [auto|]. simpl. by intros <-.
  - intros [|x l1] c g' turn ev l2 E; [done|]. injection E as _ E. eauto.
Qed.

Lemma quiet_gathered s : Inv s -> Quiet s -> Quiet (gathered s).
Proof.
  intros Hs Hq. unfold gathered. destruct (ch_reader s) as [|turn chars ms i todo| | | |n st conversation g i| |] eqn:Er; try done.
  - destruct (find_task i s) eqn:Ef; [done|]. pose proof (v_reader _ _ _ _ _ _ _ _ Hs) as Hok. rewrite Er in Hok. simpl in Hok. subst todo. simpl.
    destruct Hq. unfold Quiet. simpl. rewrite Er in q_reader0. destruct q_reader0 as [Hin Hid]. constructor; try done. split; [done|].
    intros t Ht Et. rewrite <- (Hid t Ht Et), (find_task_of t s Hs Ht) in Ef. done.
  - destruct (find_task i s); [done|]. apply (quiet_move s); simpl; auto.
Qed.

Lemma quiet_chat_step l s : fresh_turn l s -> Inv s -> Quiet s -> Quiet (step l s).
Proof.
  intros Hfresh Hs Hq. destruct l; simpl.
  - destruct (ch_reader s) eqn:Er; try done. destruct f as [turn chars ms|st|]; simpl; [by apply quiet_cancel| |done].
    assert (Quiet (set_ch_starts (S (ch_starts s)) s)) as Hq' by done.
    destruct (has_some (as_person_id scope)); [apply (quiet_move s); simpl; auto|by apply quiet_begin].
  - by apply quiet_gathered.
  - destruct (ch_reader s) as [| |turn already| | | | |] eqn:Er; try done. destruct (ch_lock s); [done|].
    unfold Quiet. simpl. destruct Hq. rewrite Er in q_reader0. constructor; try done; simpl.
    + intros t [E|Ha]%elem_of_cons; [injection E as <- <-; done|by apply q_acked0].
    + intros [|x l1] c g tn ev l2 E; [done|]. injection E as _ E. eauto.
  - destruct (ch_reader s) eqn:Er; try done. apply (quiet_move s); simpl; auto.
  - destruct (ch_reader s) as [| | | |n st| | |] eqn:Er; try done. destruct r as [fresh|]; [|by apply quiet_abort].
    case_bool_decide; [|by apply quiet_abort]. apply quiet_begin, (quiet_move s); simpl; auto. right. eexists. by split; [|reflexivity].
  - destruct (ch_reader s) as [| | | | | |n st conversation g|] eqn:Er; try done. unfold finish_start.
    destruct (prepared _ _ _ _ _ _) as [p|] eqn:Ep; [|by apply quiet_abort]. apply quiet_start; [done|].
    by destruct (start_is_new _ _ _ _ _ _ _ Hs Hq Er Hfresh Ep).
  - destruct (ch_reader s) eqn:Er; try done; by apply (quiet_abort s).
  - destruct (ch_reader s) eqn:Er; try done. apply (quiet_move s); simpl; auto.
  - apply (quiet_move s); simpl; auto.
  - apply on_task_quiet; [done|]. intros t Ht. destruct (tk_pc t); try done. by apply (quiet_task t (CYield 0 ev)).
  - apply on_task_quiet; [done|]. intros t Ht. destruct (tk_pc t); try done. by apply (quiet_task t (CFail 0 code message)).
  - apply on_task_quiet; [done|]. intros t Ht. destruct (tk_pc t); try done. by apply (quiet_task t (CFinish 0)).
  - apply on_task_quiet; [done|]. intros t Ht. destruct (tk_pc t); try done. destruct (ch_lock s); [done|]. by apply (quiet_task t (CWrite 0)).
  - apply on_task_quiet; [done|]. intros t Ht. destruct (tk_pc t); try done. by apply (quiet_task t (CWritten 0)).
  - destruct (find_task task s) as [t|] eqn:Ef; [|done]. apply find_task_in in Ef as [Ht _]. destruct (tk_cancel t); [|done]. by apply (quiet_task t (CDeliver 0 goes_on)).
  - destruct (find_task task s) as [t|] eqn:Ef; [|done]. apply find_task_in in Ef as [Ht _]. destruct (task_done t); [|done]. by apply (quiet_task t (CDiscard 0)).
Qed.

Lemma chat_reachable_inv s : chat_reachable lower verify digest scope s -> Inv s /\ Quiet s.
Proof. induction 1 as [|l s _ [IH Hq] Hf]; [split; [apply chat_init_inv|apply quiet_init]|split; [by apply chat_step_inv|by apply quiet_chat_step]]. Qed.

(** ** The properties *)

(** C28: In every reachable state of a Chat stream an event of a turn was written before any newer
    generation of its conversation began, a generation of a conversation is the voice of one
    turn only, and a turn whose cancellation was acknowledged as live has written nothing since:
    late words of a superseded or cancelled turn are never sent. *)
Theorem only_the_current_turn_speaks s later conversation g turn ev earlier : chat_reachable lower verify digest scope s ->
  s.(ch_log) = later ++ Wrote conversation g turn ev :: earlier ->
  (forall g', Bumped conversation g' ∈ earlier -> g' <= g) /\
  (forall turn' ev', Wrote conversation g turn' ev' ∈ s.(ch_log) -> turn' = turn) /\
  Acked turn false ∉ earlier.
Proof.
  intros [Hs Hq]%chat_reachable_inv El. split_and!.
  - intros g'. by apply (v_order _ _ _ _ _ _ _ _ Hs later conversation g turn ev).
  - intros turn' ev' Hin. apply (v_once _ _ _ _ _ _ _ _ Hs conversation g turn' ev' turn ev); [done|]. rewrite El. apply elem_of_app. right. by left.
  - by apply (q_silent _ _ _ Hq later conversation g turn ev).
Qed.

(** In every reachable state of a Chat stream a turn id chosen by the client has started one
    turn at most, however often and with whatever content the start is repeated; and when the
    session has a person, every start was preceded by a renewed authorization of the same
    binding. *)
Theorem a_start_runs_once s : chat_reachable lower verify digest scope s ->
  NoDup (started_ids s.(ch_log)) /\
  (forall n st turn ctx, Started n st turn ctx ∈ s.(ch_log) -> has_some scope.(as_person_id) = true ->
     exists fresh, Renewed n fresh ∈ s.(ch_log) /\ binding fresh = binding scope).
Proof.
  intros [Hs _]%chat_reachable_inv. split; [exact (v_started _ _ _ _ _ _ _ _ Hs)|].
  intros n st turn ctx Hin Hp. exact (v_renewed _ _ _ _ _ _ _ _ Hs n st turn ctx Hin Hp).
Qed.
End Facts.

(** ** A stream *)

Definition chat_start (turn text : string) : StartTurn := mkStart turn "c1" text "text" false None "" [] [].
Definition chat_delivered (n : Z) : Delivered :=
  mkDelivered None (Ok (mkRuntimeInstance "owner" "companion" "genome" (Some 7%nat))) [] "trace" "" ("u" +:+ Json.int_str n)%string "r".
Definition chat_run (labels : list chat_label) : ChatState :=
  fold_left (fun s l => chat_step id ingress_verify st_text ingress_scope l s) labels chat_init.

Notation chat_opens turn text n :=
  [CFrame (Start (chat_start turn text)); CRenewed (Ok ingress_scope); CPrepared (chat_delivered n)].
Notation chat_speaks task ev := [CYield task ev; CWrite task; CWritten task].
(** A turn speaks; the next word waits for the lock when the client cancels. *)
Notation chat_sample :=
  (chat_opens "t1" "hello" 1 ++ chat_speaks 0%nat (event_delta 1 "hi" None) ++
   [CYield 0 (event_delta 2 "there" None); CFrame (CancelTurn "t1" (Some 2) None); CWrite 0; CDeliver 0 false; CDiscard 0; CGathered; CAckWrite; CAckWritten]).

(** What the log says of the turns *)
Definition fact_line (f : ChatFact) : string :=
  match f with
  | Bumped c g => "generation " +:+ Json.int_str g
  | Wrote _ g turn ev => turn +:+ " wrote"
  | Acked turn false => turn +:+ " cancelled"
  | Acked turn true => turn +:+ " was done"
  | Renewed _ _ => "renewed"
  | Started _ _ turn _ => turn +:+ " started"
  end.

(** The cancelled word is not written; a second cancellation, a retry of the start, a start with other words. *)
Example a_cancelled_turn :
  (fact_line <$> rev (chat_run (chat_sample ++ [CFrame (CancelTurn "t1" None None); CAckWrite; CAckWritten] ++ chat_opens "t1" "hello" 2 ++ chat_opens "" "more" 3)).(ch_log)) =
  ["renewed"; "generation 1"; "t1 started"; "t1 wrote"; "generation 2"; "t1 cancelled"; "t1 was done"; "renewed"; "renewed"; "generation 3"; "u3 started"] /\
  (chat_run (chat_sample ++ chat_opens "t1" "other" 2)).(ch_reader) = ReadEnded true.
Proof. vm_compute. split; reflexivity. Qed.

(** A new start supersedes the turn of its conversation, whose words are dropped while it ends. *)
Example a_superseded_turn :
  let s := chat_run (chat_opens "t1" "hello" 1 ++ firstn 2 (chat_opens "t2" "stop" 2) ++ [CDeliver 0 true; CYield 0 (event_delta 1 "hi" None); CFinish 0; CDiscard 0; CGathered; CPrepared (chat_delivered 2)]
    ++ chat_speaks 1%nat (event_delta 1 "ok" None)) in
  (fact_line <$> rev s.(ch_log)) = ["renewed"; "generation 1"; "t1 started"; "renewed"; "generation 2"; "t2 started"; "t2 wrote"] /\
  map tk_turn s.(ch_tasks) = ["t2"].
Proof. vm_compute. split; reflexivity. Qed.

(** The cancellation that finds the word at the lock leaves the engine at its [yield]: the loop closes it. The words of
    the turn are then lost, where a cancellation in the engine keeps what was heard. *)
Example closed_engine_forgets :
  map tk_pc (chat_run (firstn 10 chat_sample)).(ch_tasks) = [TaskDone true] /\
  let persisted i := flat_map (fun e => match e with EPersist a => [(pa_status a, pa_assistant_text a)] | _ => [] end)
    (w_log (snd (sample_run 0 "text" "hi" [] (repeat (mkSlot [] None) 7 ++
       [mkSlot [("termination_cause", VStr "client_cancel"); ("cancel_played_chars", VInt 3)] (Some i)])))) in
  persisted Cancel = [(TurnStatus.CANCELLED, "hel")] /\ persisted Close = [(TurnStatus.OK, "")].
Proof. vm_compute. split_and!; reflexivity. Qed.

(** ** The theorems apply to it *)

Definition fresh_ok (l : chat_label) (s : ChatState) : bool :=
  match l, s.(ch_reader) with
  | CPrepared d, Preparing _ st _ _ =>
      if has_chat_id st.(st_turn_id) then bool_decide (st.(st_turn_id) ∉ server_ids s.(ch_log)) else bool_decide (d.(dl_turn_uuid) ∉ turn_ids s.(ch_log))
  | _, _ => true
  end.

Fixpoint fresh_along (labels : list chat_label) (s : ChatState) : bool :=
  match labels with
  | [] => true
  | l :: rest => fresh_ok l s && fresh_along rest (chat_step id ingress_verify st_text ingress_scope l s)
  end.

Lemma chat_run_reachable labels : fresh_along labels chat_init = true -> chat_reachable id ingress_verify st_text ingress_scope (chat_run labels).
Proof.
  unfold chat_run. assert (chat_reachable id ingress_verify st_text ingress_scope chat_init) as Hr by constructor. revert Hr.
  generalize chat_init. induction labels as [|l rest IH]; simpl; intros s Hr; [done|]. intros [Hf Hrest]%andb_true_iff. apply IH; [|done]. constructor; [done|].
  unfold fresh_ok in Hf. unfold fresh_turn. destruct l; try done. destruct (ch_reader s); try done.
  destruct (has_chat_id _); by apply bool_decide_eq_true in Hf.
Qed.

Notation two_turns := (chat_sample ++ chat_opens "t2" "again" 2 ++ chat_speaks 1%nat (event_delta 1 "yes" None)).
Lemma two_turns_reachable : chat_reachable id ingress_verify st_text ingress_scope (chat_run two_turns).
Proof. apply chat_run_reachable. vm_compute. reflexivity. Qed.

Lemma only_the_current_turn_speaks_witness :
  Acked "t2" false ∉ tail (ch_log (chat_run two_turns)) /\ forall g', Bumped "c1" g' ∈ ch_log (chat_run two_turns) -> g' <= 3.
Proof.
  assert (exists earlier, ch_log (chat_run two_turns) = Wrote "c1" 3 "t2" (event_delta 1 "yes" None) :: earlier) as [earlier El].
  { eexists. vm_compute. reflexivity. }
  pose proof (only_the_current_turn_speaks id ingress_verify st_text ingress_scope _ [] _ _ _ _ _ two_turns_reachable El) as (Hb & _ & Ha).
  rewrite El. simpl. split; [exact Ha|]. intros g' [?|Hin]%elem_of_cons; [done|by apply Hb].
Defined.

Lemma a_start_runs_once_witness : NoDup (started_ids (chat_run two_turns).(ch_log)) /\ started_ids (chat_run two_turns).(ch_log) = ["t2"; "t1"].
Proof. split; [exact (proj1 (a_start_runs_once id ingress_verify st_text ingress_scope _ two_turns_reachable))|vm_compute; reflexivity]. Defined.
