(* ===== verification/DeviceTools.v ===== *)
(** * [app/transport/grpc/motion.py], [core/types/presentation.py], [domain/tools/channel_music.py],
      [domain/tools/stackchan_head.py]: motions, evidence of a presentation, and the tools that use the device.

    The SDK's schema and validation of a head action are parameters. *)

From S2P Require Import Prelude CoreTypes Json Presentation ToolArguments Exchanges.

(** ** [MotionExchange] *)

Record MotionRequest := mkMotion { mq_turn_id : string; mq_command_id : string; mq_action : list (string * pyval) }.
Record MotionReceipt := mkReceipt { mr_command_id : string; mr_status : string; mr_reason : option string; mr_completion_basis : pyval }.

Inductive MFut := MPending | MResult (r : MotionReceipt) | MCancelled.
Inductive MPc := MSending | MWaiting.
Inductive MFact := MSent (q : MotionRequest) | MAnswered (q : MotionRequest) (r : MotionReceipt) | MRaised (q : MotionRequest) (e : exn).

(** [mo_pending] holds the call that waits, with its request and the future. *)
Record Motions := mkMotions {
  mo_pending : gmap string (MotionRequest * MPc * MFut);
  mo_completed : gmap string MotionReceipt;
  mo_log : list MFact;
}.
Definition mo_init : Motions := mkMotions ∅ ∅ [].
Definition mo_note (f : MFact) (s : Motions) : Motions := mkMotions s.(mo_pending) s.(mo_completed) (f :: s.(mo_log)).

(** [execute], to its first await *)
Definition motion_execute (q : MotionRequest) (s : Motions) : Motions :=
  match s.(mo_completed) !! q.(mq_command_id) with
  | Some r => mo_note (MAnswered q r) s
  | None =>
      match s.(mo_pending) !! q.(mq_command_id) with
      | Some _ => mo_note (MAnswered q (mkReceipt q.(mq_command_id) "rejected" (Some "BUSY") VNone)) s
      | None => mo_note (MSent q) (mkMotions (<[q.(mq_command_id) := (q, MSending, MPending)]> s.(mo_pending)) s.(mo_completed) s.(mo_log))
      end
  end.

Definition motion_timeout (q : MotionRequest) : MotionReceipt := mkReceipt q.(mq_command_id) "failed" (Some "MOTION_TIMEOUT") VNone.
Definition motion_done (q : MotionRequest) (r : MotionReceipt) (s : Motions) : Motions :=
  mo_note (MAnswered q r) (mkMotions (delete q.(mq_command_id) s.(mo_pending)) (<[q.(mq_command_id) := r]> s.(mo_completed)) s.(mo_log)).
Definition motion_fails (q : MotionRequest) (e : exn) (s : Motions) : Motions :=
  if is_timeout e then motion_done q (motion_timeout q) s
  else mo_note (MRaised q e) (mkMotions (delete q.(mq_command_id) s.(mo_pending)) s.(mo_completed) s.(mo_log)).

(** [accept] *)
Definition motion_accept (r : MotionReceipt) (s : Motions) : Motions * bool :=
  match s.(mo_pending) !! r.(mr_command_id) with
  | Some (q, pc, MPending) => (mkMotions (<[r.(mr_command_id) := (q, pc, MResult r)]> s.(mo_pending)) s.(mo_completed) s.(mo_log), true)
  | _ => (s, false)
  end.

Inductive m_label := MExecute (q : MotionRequest) | MSendOk (c : string) | MFails (c : string) (e : exn) | MResume (c : string) | MAccept (r : MotionReceipt).

(** A failure is that of the send, the timer, or a cancellation. *)
Definition m_step (l : m_label) (s : Motions) : Motions :=
  match l with
  | MExecute q => motion_execute q s
  | MSendOk c =>
      match s.(mo_pending) !! c with
      | Some (q, MSending, f) => mkMotions (<[c := (q, MWaiting, f)]> s.(mo_pending)) s.(mo_completed) s.(mo_log)
      | _ => s
      end
  | MFails c e => match s.(mo_pending) !! c with Some (q, _, _) => motion_fails q e s | None => s end
  | MResume c =>
      match s.(mo_pending) !! c with
      | Some (q, MWaiting, MResult r) => motion_done q r s
      | _ => s
      end
  | MAccept r => fst (motion_accept r s)
  end.

(** ** [PresentationFeedback] *)

Record PresentationReceipt := mkPReceipt { pr_presentation_id : string; pr_response_id : string; pr_status : string }.
(** [None] in [fb_future] while there is no future; else the receipt it holds. *)
Record PresentationFeedback := mkFeedback { fb_intent : option ResponseIntent; fb_future : option (option PresentationReceipt) }.
Definition feedback_init : PresentationFeedback := mkFeedback None None.

Definition feedback_expect (i : ResponseIntent) (s : PresentationFeedback) : res PresentationFeedback :=
  match s.(fb_intent) with
  | Some _ => Err (PyError "ValueError" "ONE_FINAL_RESPONSE_PER_TURN")
  | None => Ok (mkFeedback (Some i) (Some None))
  end.

Definition feedback_accept (r : PresentationReceipt) (s : PresentationFeedback) : PresentationFeedback * bool :=
  match s.(fb_intent), s.(fb_future) with
  | Some i, Some None =>
      if negb (bool_decide (r.(pr_response_id) = i.(ri_response_id)))
         || negb (bool_decide (r.(pr_presentation_id) ∈ ["face:" +:+ i.(ri_turn_id); "head:" +:+ i.(ri_turn_id)]%string)) then (s, false)
      else if negb (bool_decide (r.(pr_status) ∈ ["completed"; "cancelled"; "failed"; "rejected"])) then (s, false)
      else (mkFeedback s.(fb_intent) (Some (Some r)), true)
  | _, _ => (s, false)
  end.

(** [wait]: at once without a future or with its receipt; [timed_out] is the timer, [None] goes on waiting. *)
Definition feedback_wait (timed_out : bool) (s : PresentationFeedback) : option (option PresentationReceipt) :=
  match s.(fb_future) with
  | None => Some None
  | Some (Some r) => Some (Some r)
  | Some None => if timed_out then Some None else None
  end.

(** ** [ChannelMusicTool] *)

Definition music_tool (name llm_name description : string) (json_schema : list (string * pyval)) (side_effect : bool) (timeout_s : string) : ToolSchema :=
  mkToolSchema name description json_schema [SYSTEM_PERM] timeout_s side_effect
    (if side_effect then Some "${turn_id}:${arguments_json}" else None) (Some llm_name).

Definition text_schema (min_length : bool) : pyval :=
  VDict ([("type", VStr "string")] ++ if min_length then [("minLength", VInt 1)] else []).
Definition object_schema (properties : list (string * pyval)) (more : list (string * pyval)) : list (string * pyval) :=
  [("type", VStr "object"); ("properties", VDict properties)] ++ more ++ [("additionalProperties", VBool false)].

Definition music_search : ToolSchema := music_tool "music.search" "music_search"
  ("Search authorized online music. Provide title and artist separately when known; " +:+
   "the capability performs bounded query fallback. Results are non-exhaustive; " +:+
   "unverified candidates are not confirmed matches. Return candidate provider song ids. " +:+
   "Use the selected song_id with music_play without repeating search. " +:+
   "Do not substitute a different song without user agreement. " +:+
   "Use keyword 'random' for recommendations.")%string
  (object_schema [("keyword", text_schema true); ("title", text_schema true); ("artist", text_schema true); ("version", text_schema false); ("language", text_schema false)]
     [("anyOf", VList (map (fun k => VDict [("required", VList [VStr k])]) ["keyword"; "title"; "artist"]))])
  false "15.0".
Definition music_play : ToolSchema := music_tool "music.play" "music_play"
  ("Start a new playback of a selected authorized song by its provider song id, " +:+
   "including replaying a stopped or completed song from the beginning. " +:+
   "Acceptance does not mean audio has started. Use music_status for playback state; " +:+
   "do not claim audible playback from acceptance alone.")%string
  (object_schema [("song_id", text_schema true)] [("required", VList [VStr "song_id"])]) true "60.0".
Definition music_stop : ToolSchema := music_tool "music.stop" "music_stop" "Stop the current online music playback."
  (object_schema [("playback_ref", text_schema true)] []) true "10.0".
Definition music_status : ToolSchema := music_tool "music.status" "music_status" "Read the current online music playback status."
  (object_schema [] []) false "5.0".
Definition build_channel_music_tools : list ToolSchema := [music_search; music_play; music_stop; music_status].

(** [invoke]: the request for the exchange *)
Definition music_invoke (schema : ToolSchema) (turn_id : string) (call : ToolCall) : ChannelToolRequest :=
  mkCtRequest turn_id call.(tc_id) schema.(ts_name) call.(tc_arguments).

(** ** [StackChanHeadTool] *)

Section Head.
(** The SDK's name and JSON schema of a head action, its validation and the JSON of a receipt; SHA-256 in hex digits. *)
Context (STACKCHAN_HEAD_TOOL : string) (action_schema : list (string * pyval)).
Context (validate_action : list (string * pyval) -> option (list (string * pyval))) (dump_receipt : MotionReceipt -> pyval) (sha256 : string -> string).

Definition head_schema : ToolSchema :=
  mkToolSchema STACKCHAN_HEAD_TOOL
    ("Execute an explicitly requested head action on the current StackChan. " +:+
     "点头=nod; 摇头=shake (not decline); 左看/右看=look_left/look_right; " +:+
     "抬头/低头=look_up/look_down; 回正=home; 停止=stop. " +:+
     "Left/right refer to the robot, clarify ambiguous directions. " +:+
     "Only repeat nod/shake 1-3 times. For a short combination call sequentially, " +:+
     "stopping on failure. Never execute negated, quoted or hypothetical actions. " +:+
     "There are no supported leg, base-lift or light actions. " +:+
     "Wait for this result before claiming execution; software_sequence is NOT " +:+
     "measured physical arrival. Do not add a second head gesture as confirmation.")%string
    action_schema [SYSTEM_PERM] "12" true None None.

(** The request, or the refusal. *)
Definition head_request (session_id turn_id : string) (call : ToolCall) : MotionRequest + ToolResult :=
  match validate_action call.(tc_arguments) with
  | None => inr (mkToolResult call.(tc_id) STACKCHAN_HEAD_TOOL false VNone (Some "INVALID_ARGUMENT") None 0 [])
  | Some action =>
      let digest := py_take 32 (sha256 (session_id +:+ ":" +:+ turn_id +:+ ":" +:+ call.(tc_id))) in
      inl (mkMotion turn_id ("motion:" +:+ digest) action)
  end.

Definition head_result (call : ToolCall) (r : MotionReceipt) : ToolResult :=
  let completed := bool_decide (r.(mr_status) = "completed") in
  let reason := match r.(mr_reason) with Some x => if is_empty x then r.(mr_status) else x | None => r.(mr_status) end in
  mkToolResult call.(tc_id) STACKCHAN_HEAD_TOOL completed (dump_receipt r) (if completed then None else Some reason) None 0
    [("external_action", VBool true); ("explicit_motion", VBool true);
     ("outcome_state", VStr (if completed then "completed" else r.(mr_status))); ("completion_basis", r.(mr_completion_basis))].
End Head.

(** ** What these components promise *)

(** The commands that wait have no answer yet. *)
Definition motions_ok (s : Motions) : Prop :=
  forall c q pc f, s.(mo_pending) !! c = Some (q, pc, f) -> q.(mq_command_id) = c /\ s.(mo_completed) !! c = None.

(** What the step adds to the log about the command [c] that was answered [r]: the same answer. *)
Definition only_kept (c : string) (r : MotionReceipt) (f : MFact) : Prop :=
  match f with
  | MSent q | MRaised q _ => q.(mq_command_id) <> c
  | MAnswered q r' => q.(mq_command_id) = c -> r' = r
  end.
Definition keeps (c : string) (r : MotionReceipt) (s s' : Motions) : Prop :=
  motions_ok s' /\ (s.(mo_completed) !! c = Some r -> s'.(mo_completed) !! c = Some r /\
    exists new, s'.(mo_log) = new ++ s.(mo_log) /\ Forall (only_kept c r) new).

Lemma motions_unchanged c r s s' : motions_ok s' -> s'.(mo_completed) = s.(mo_completed) -> s'.(mo_log) = s.(mo_log) -> keeps c r s s'.
Proof. intros Hok Ec El. split; [done|]. rewrite Ec, El. intros Hc. split; [done|]. by exists []. Qed.

Lemma keeps_done c r q r' s : motions_ok s -> s.(mo_completed) !! q.(mq_command_id) = None -> keeps c r s (motion_done q r' s).
Proof.
  intros Hok Hnone. split.
  - intros c' q' pc f Hp. simpl in Hp. apply lookup_delete_Some in Hp as [Hne Hp]. destruct (Hok c' q' pc f Hp) as [? ?]. split; [done|]. simpl. by rewrite lookup_insert_ne.
  - intros Hc. assert (mq_command_id q <> c) as Hne by (intros E; by rewrite E, Hc in Hnone). split; [simpl; by rewrite lookup_insert_ne|].
    exists [MAnswered q r']. split; [done|]. apply Forall_singleton. intros E. by destruct Hne.
Qed.

Lemma m_step_keeps c r l s : motions_ok s -> keeps c r s (m_step l s).
Proof.
  intros Hok. destruct l as [q|c'|c' e|c'|r']; simpl.
  - unfold motion_execute. destruct (mo_completed s !! mq_command_id q) as [r'|] eqn:Ec.
    { split; [done|]. intros Hc. split; [done|]. exists [MAnswered q r']. split; [done|]. apply Forall_singleton. simpl. intros E. rewrite E, Hc in Ec. by injection Ec. }
    destruct (mo_pending s !! mq_command_id q) as [x|] eqn:Ep.
    + split; [done|]. intros Hc. split; [done|]. eexists [_]. split; [done|]. apply Forall_singleton. simpl. intros E. by rewrite E, Hc in Ec.
    + split.
      * intros c' q' pc f Hp. simpl in Hp. apply lookup_insert_Some in Hp as [[<- [= <- _ _]]|[_ Hp]]; [done|by eapply Hok].
      * intros Hc. split; [done|]. exists [MSent q]. split; [done|]. apply Forall_singleton. simpl. intros E. by rewrite E, Hc in Ec.
  - destruct (mo_pending s !! c') as [[[q []] f]|] eqn:Ep; apply motions_unchanged; try done.
    intros c1 q' pc f' Hp; simpl in Hp; apply lookup_insert_Some in Hp as [[<- [= <- _ _]]|[_ Hp]]; by eapply Hok.
  - destruct (mo_pending s !! c') as [[[q pc] f]|] eqn:Ep; [|by apply motions_unchanged]. destruct (Hok _ _ _ _ Ep) as [Eq Hnone].
    unfold motion_fails. destruct (is_timeout e); [apply keeps_done; [done|by rewrite Eq]|]. split.
    + intros c1 q' pc' f' Hp. simpl in Hp. apply lookup_delete_Some in Hp as [_ Hp]. by eapply Hok.
    + intros Hc. split; [done|]. exists [MRaised q e]. split; [done|]. apply Forall_singleton. simpl. intros E. rewrite <- Eq, E, Hc in Hnone. done.
  - destruct (mo_pending s !! c') as [[[q []] []]|] eqn:Ep; try by apply motions_unchanged. destruct (Hok _ _ _ _ Ep) as [Eq Hnone].
    apply keeps_done; [done|by rewrite Eq].
  - unfold motion_accept. destruct (mo_pending s !! mr_command_id r') as [[[q pc] []]|] eqn:Ep; try by apply motions_unchanged.
    apply motions_unchanged; try done. intros c1 q' pc' f' Hp. simpl in Hp. apply lookup_insert_Some in Hp as [[<- [= <- _ _]]|[_ Hp]]; by eapply Hok.
Qed.

(** A motion that was answered is never sent again, whatever follows, and every repetition has the same answer. *)
Theorem answered_motions_are_not_repeated labels s c r : motions_ok s -> keeps c r s (fold_left (fun s l => m_step l s) labels s).
Proof.
  revert s. induction labels as [|l rest IH]; simpl; intros s Hok; [by apply motions_unchanged|].
  destruct (m_step_keeps c r l s Hok) as [Hok1 H1]. destruct (IH _ Hok1) as [Hok2 H2]. split; [done|]. intros Hc.
  destruct (H1 Hc) as (Hc1 & new1 & E1 & F1). destruct (H2 Hc1) as (Hc2 & new2 & E2 & F2). split; [done|].
  exists (new2 ++ new1). rewrite E2, E1, app_assoc. split; [done|]. by apply Forall_app.
Qed.

(** The receipt a turn waits for is one of the response it announced. *)
Definition feedback_ok (s : PresentationFeedback) : Prop :=
  forall r, s.(fb_future) = Some (Some r) -> exists i, s.(fb_intent) = Some i /\ r.(pr_response_id) = i.(ri_response_id) /\
    r.(pr_presentation_id) ∈ ["face:" +:+ i.(ri_turn_id); "head:" +:+ i.(ri_turn_id)]%string /\ r.(pr_status) ∈ ["completed"; "cancelled"; "failed"; "rejected"].

Lemma feedback_accept_ok r s : feedback_ok s -> feedback_ok (fst (feedback_accept r s)).
Proof.
  intros Hs. unfold feedback_accept. destruct (fb_intent s) as [i|] eqn:Ei; [|done]. destruct (fb_future s) as [[]|]; try done.
  destruct (_ || _) eqn:Eb; [done|]. destruct (negb (bool_decide (pr_status r ∈ _))) eqn:Es; [done|]. intros r' [= <-]. exists i.
  apply orb_false_iff in Eb as [E1%negb_false_iff%bool_decide_eq_true E2%negb_false_iff%bool_decide_eq_true]. by apply negb_false_iff, bool_decide_eq_true in Es.
Qed.

Lemma feedback_expect_ok i s s' : feedback_expect i s = Ok s' -> feedback_ok s' /\ s'.(fb_intent) = Some i /\ s.(fb_intent) = None.
Proof. unfold feedback_expect. destruct (fb_intent s) eqn:E; [done|]. by intros [= <-]. Qed.

(** A head motion succeeded exactly when its receipt says so. *)
Lemma head_result_ok tool dump call r : tr_ok (head_result tool dump call r) = true <-> r.(mr_status) = "completed".
Proof. simpl. by rewrite bool_decide_eq_true. Qed.

(** *** The arguments the dispatcher lets through *)

(** A song is required, and no unknown argument passes. *)
Example music_arguments :
  map (fun d => validate_json_schema (VDict music_play.(ts_json_schema)) (VDict d) "$")
    [[]; [("song_id", VInt 1)]; [("song_id", VStr "s"); ("volume", VInt 3)]; [("song_id", VStr "s")]] =
  [Ok (Some "$ missing required: song_id"); Ok (Some "$.song_id expected string"); Ok (Some "$ unexpected properties: volume"); Ok None].
Proof. vm_compute. reflexivity. Qed.

(** The [anyOf] and the [minLength] of the music schemas are not checked. *)
Example music_search_without_terms :
  validate_json_schema (VDict music_search.(ts_json_schema)) (VDict []) "$" = Ok None /\
  validate_json_schema (VDict music_play.(ts_json_schema)) (VDict [("song_id", VStr "")]) "$" = Ok None.
Proof. vm_compute. split; reflexivity. Qed.

Definition nod (c : string) : MotionRequest := mkMotion "t1" c [("action", VStr "nod"); ("times", VInt 1)].
(** A second call while the head moves is refused; after the receipt it has that. *)
Example motions :
  rev (fold_left (fun s l => m_step l s) [MExecute (nod "m"); MSendOk "m"; MExecute (nod "m"); MAccept (mkReceipt "m" "completed" None VNone); MResume "m"; MExecute (nod "m")] mo_init).(mo_log) =
  [MSent (nod "m"); MAnswered (nod "m") (mkReceipt "m" "rejected" (Some "BUSY") VNone);
   MAnswered (nod "m") (mkReceipt "m" "completed" None VNone); MAnswered (nod "m") (mkReceipt "m" "completed" None VNone)].
Proof. vm_compute. reflexivity. Qed.
