(* ===== verification/Signals.v ===== *)
(** * [core/types/signal.py], [domain/signals/]: samples of a caller's signals and what a turn sees of them.

    Floats are the binary64 of [SpecFloat]; times are microseconds. *)

From S2P Require Import Prelude CoreTypes.
From Stdlib Require Import SpecFloat.

(** ** binary64 *)

Definition float64 := spec_float.
Definition f_add : float64 -> float64 -> float64 := SFadd 53 1024.
Definition f_sub : float64 -> float64 -> float64 := SFsub 53 1024.
Definition f_div : float64 -> float64 -> float64 := SFdiv 53 1024.
Definition f_of_Z (z : Z) : float64 := binary_normalize 53 1024 z 0 false.
(** [0.6], the nearest binary64 *)
Definition f_0_6 : float64 := f_div (f_of_Z 6) (f_of_Z 10).
Definition f_zero : float64 := f_of_Z 0.
Definition f_one : float64 := f_of_Z 1.
Definition f_is_finite (f : float64) : bool := match f with S754_infinity _ | S754_nan => false | _ => true end.
Definition f_is_zero (f : float64) : bool := match f with S754_zero _ => true | _ => false end.

(** [sum] of floats from the integer [0]: after the first addition a Neumaier sum with its compensation. *)
Fixpoint py_fsum_from (total comp : float64) (l : list float64) : float64 :=
  match l with
  | [] => if negb (f_is_zero comp) && f_is_finite comp then f_add total comp else total
  | x :: rest =>
      let t := f_add total x in
      let comp := f_add comp (if SFleb (SFabs x) (SFabs total) then f_add (f_sub total t) x else f_add (f_sub x t) total) in
      py_fsum_from t comp rest
  end.
Definition py_fsum (l : list float64) : float64 :=
  match l with [] => f_zero | x :: rest => py_fsum_from (f_add f_zero x) f_zero rest end.

(** ** The samples *)

Inductive SignalModality := ASR | PROSODY | FACE | GAZE | AMBIENT | TEXT_SENTIMENT.
#[global] Instance signal_modality_eq_dec : EqDecision SignalModality.
Proof. solve_decision. Defined.

Record RealtimeSignal := mkSignal { rs_ts : Z; rs_modality : SignalModality; rs_label : string; rs_confidence : float64 }.

Record FusedDigest := mkFused {
  fd_window_ms : Z;
  fd_dominant_emotion : option string;
  fd_emotion_confidence : float64;
  fd_speech_rate : option string;
  fd_presence : string;
  fd_confidence_overall : float64;
  fd_notable_events : list string;
}.

(** [to_prompt_line] *)
Definition to_prompt_line (threshold : float64) (d : FusedDigest) : string :=
  if SFltb d.(fd_confidence_overall) threshold then ""
  else
    let emotion := match d.(fd_dominant_emotion) with
      | Some e => if negb (is_empty e) && SFleb threshold d.(fd_emotion_confidence) then [("用户当前情绪偏 " +:+ e)%string] else []
      | None => [] end in
    let rate := match d.(fd_speech_rate) with
      | Some r => if negb (is_empty r) && negb (bool_decide (r = "normal")) then [if bool_decide (r = "slow") then "语速偏慢" else "语速偏快"] else []
      | None => [] end in
    let presence := if bool_decide (d.(fd_presence) = "present") then [] else [if bool_decide (d.(fd_presence) = "away") then "用户注意力不在场" else "用户分神"] in
    let events := match d.(fd_notable_events) with [] => [] | _ => [("信号: " +:+ py_join "," d.(fd_notable_events))%string] end in
    py_join "；" (emotion ++ rate ++ presence ++ events).

(** ** [SignalBus] *)

Definition capacity_per_session : nat := 256.
Definition SignalBus := list (string * list RealtimeSignal).

(** A [deque] with [maxlen] *)
Definition deque_append {A} (maxlen : nat) (q : list A) (x : A) : list A :=
  let q := q ++ [x] in skipn (length q - maxlen) q.

Definition publish_signal (session_id : string) (s : RealtimeSignal) (b : SignalBus) : SignalBus :=
  dict_set b session_id (deque_append capacity_per_session (default [] (dict_get b session_id)) s).

Definition recent_signals (session_id : string) (window_ms now : Z) (b : SignalBus) : list RealtimeSignal :=
  List.filter (fun s => now - window_ms * 1000 <=? s.(rs_ts)) (default [] (dict_get b session_id)).

(** ** [SignalFuser] *)

Definition WINDOW_MS : Z := 3000.

Definition is_fresh (now : Z) (s : RealtimeSignal) : bool :=
  (now - WINDOW_MS * 1000 <=? s.(rs_ts)) && SFleb f_0_6 s.(rs_confidence).

(** What the loop collects *)
Record Votes := mkVotes { vo_emotions : list (string * float64); vo_notable : list string; vo_rate : option string; vo_presence : string }.

Definition vote (v : Votes) (s : RealtimeSignal) : Votes :=
  let label := s.(rs_label) in
  let notable := mkVotes v.(vo_emotions) (v.(vo_notable) ++ [label]) v.(vo_rate) v.(vo_presence) in
  match s.(rs_modality) with
  | PROSODY | FACE | TEXT_SENTIMENT =>
      mkVotes (dict_set v.(vo_emotions) label (f_add (default f_zero (dict_get v.(vo_emotions) label)) s.(rs_confidence))) v.(vo_notable) v.(vo_rate) v.(vo_presence)
  | ASR => if bool_decide (label ∈ ["slow"; "normal"; "fast"]) then mkVotes v.(vo_emotions) v.(vo_notable) (Some label) v.(vo_presence) else notable
  | GAZE | AMBIENT => if bool_decide (label ∈ ["away"; "distracted"]) then mkVotes v.(vo_emotions) v.(vo_notable) v.(vo_rate) label else notable
  end.

(** [most_common(1)]: the first of the largest *)
Fixpoint first_max (best : string * float64) (l : list (string * float64)) : string * float64 :=
  match l with
  | [] => best
  | x :: rest => first_max (if SFltb best.2 x.2 then x else best) rest
  end.

Definition fuse (now : Z) (signals : list RealtimeSignal) : option FusedDigest :=
  match List.filter (is_fresh now) signals with
  | [] => None
  | fresh =>
      let v := fold_left vote fresh (mkVotes [] [] None "present") in
      let dominant := match v.(vo_emotions) with
        | [] => (None, f_zero)
        | x :: rest => let '(label, total) := first_max x rest in (Some label, if SFltb total f_one then total else f_one) end in
      Some (mkFused WINDOW_MS dominant.1 dominant.2 v.(vo_rate) v.(vo_presence)
              (f_div (py_fsum (map rs_confidence fresh)) (f_of_Z (Z.of_nat (length fresh)))) v.(vo_notable))
  end.

(** What the chat stream digests of a session *)
Definition session_digest (session_id : string) (now_read now_fuse : Z) (b : SignalBus) : option FusedDigest :=
  fuse now_fuse (recent_signals session_id WINDOW_MS now_read b).

(** ** The bus *)

Lemma deque_append_length {A} maxlen (q : list A) x : (length (deque_append maxlen q x) <= maxlen)%nat.
Proof. unfold deque_append. rewrite length_skipn. lia. Qed.

Definition last_n {A} (n : nat) (l : list A) : list A := skipn (length l - n) l.

(** A deque holds the last samples that were appended. *)
Lemma deque_append_last {A} n (l : list A) x : deque_append n (last_n n l) x = last_n n (l ++ [x]).
Proof.
  unfold deque_append, last_n. assert (skipn (length l - n) l ++ [x] = skipn (length l - n) (l ++ [x])) as ->.
  { rewrite skipn_app. replace (length l - n - length l)%nat with 0%nat by lia. done. }
  rewrite length_skipn, length_app, skipn_skipn. simpl. f_equal. lia.
Qed.

(** The samples of a session, in the order they were published. *)
Definition samples_of (session_id : string) (pushed : list (string * RealtimeSignal)) : list RealtimeSignal :=
  map snd (List.filter (fun x => bool_decide (x.1 = session_id)) pushed).
Definition publish_all (pushed : list (string * RealtimeSignal)) : SignalBus := fold_left (fun b x => publish_signal x.1 x.2 b) pushed [].

Lemma publish_all_get session_id pushed :
  default [] (dict_get (publish_all pushed) session_id) = last_n capacity_per_session (samples_of session_id pushed).
Proof.
  unfold publish_all. induction pushed as [|[i x] pushed IH] using rev_ind; [done|]. rewrite fold_left_app. simpl.
  unfold samples_of. rewrite List.filter_app, map_app. simpl. unfold publish_signal. case_bool_decide as E.
  - subst i. rewrite dict_get_set_eq. change (map snd [(session_id, x)]) with [x]. rewrite <- deque_append_last. unfold samples_of in IH. rewrite <- IH. reflexivity.
  - rewrite dict_get_set_ne by done. by rewrite app_nil_r.
Qed.

(** ** The fuser *)

Definition emotional (m : SignalModality) : Prop := m = PROSODY \/ m = FACE \/ m = TEXT_SENTIMENT.

(** Where the labels of a digest come from. *)
Record votes_from (l : list RealtimeSignal) (v : Votes) : Prop := {
  vf_emotions e : e ∈ v.(vo_emotions).*1 -> exists s, s ∈ l /\ emotional s.(rs_modality) /\ s.(rs_label) = e;
  vf_notable e : e ∈ v.(vo_notable) -> exists s, s ∈ l /\ s.(rs_label) = e;
  vf_rate r : v.(vo_rate) = Some r -> r ∈ ["slow"; "normal"; "fast"] /\ exists s, s ∈ l /\ s.(rs_modality) = ASR /\ s.(rs_label) = r;
  vf_presence : v.(vo_presence) = "present" \/ v.(vo_presence) ∈ ["away"; "distracted"] /\
    exists s, s ∈ l /\ (s.(rs_modality) = GAZE \/ s.(rs_modality) = AMBIENT) /\ s.(rs_label) = v.(vo_presence);
}.

Lemma dict_set_keys {V} (d : list (string * V)) k v x : x ∈ (dict_set d k v).*1 -> x = k \/ x ∈ d.*1.
Proof.
  induction d as [|[k' v'] d IH]; simpl; [by intros ?%list_elem_of_singleton; left|].
  case_decide; simpl; rewrite !elem_of_cons; naive_solver.
Qed.

Lemma vote_from l v s : votes_from l v -> votes_from (l ++ [s]) (vote v s).
Proof.
  intros [He Hn Hr Hp]. assert (s ∈ l ++ [s]) as Hs by (apply elem_of_app; right; by left).
  assert (forall x, x ∈ l -> x ∈ l ++ [s]) as Hl by (intros; apply elem_of_app; by left).
  assert (forall e, e ∈ v.(vo_emotions).*1 -> exists x, x ∈ l ++ [s] /\ emotional (rs_modality x) /\ rs_label x = e) as He'.
  { intros e ?. destruct (He e) as (x & ? & ?); eauto. }
  assert (forall e, e ∈ vo_notable v -> exists x, x ∈ l ++ [s] /\ rs_label x = e) as Hn'.
  { intros e ?. destruct (Hn e) as (x & ? & ?); eauto. }
  assert (forall r, vo_rate v = Some r -> r ∈ ["slow"; "normal"; "fast"] /\ exists x, x ∈ l ++ [s] /\ rs_modality x = ASR /\ rs_label x = r) as Hr'.
  { intros r ?. destruct (Hr r) as (? & x & ? & ?); eauto. }
  assert (forall p, p = vo_presence v -> p = "present" \/ p ∈ ["away"; "distracted"] /\
    exists x, x ∈ l ++ [s] /\ (rs_modality x = GAZE \/ rs_modality x = AMBIENT) /\ rs_label x = p) as Hp'.
  { intros p ->. destruct Hp as [?|(? & x & ? & ?)]; [by left|right]. split; [done|]. exists x. auto. }
  assert (forall e, e ∈ vo_notable v ++ [rs_label s] -> exists x, x ∈ l ++ [s] /\ rs_label x = e) as Hn2.
  { intros e [?| ->%list_elem_of_singleton]%elem_of_app; eauto. }
  unfold vote. destruct (rs_modality s) eqn:Em; try case_bool_decide; constructor; simpl; auto.
  - intros r [= <-]. eauto.
  - intros e [->|?]%dict_set_keys; [exists s; unfold emotional; rewrite Em; auto|auto].
  - intros e [->|?]%dict_set_keys; [exists s; unfold emotional; rewrite Em; auto|auto].
  - right. split; [done|]. exists s. auto.
  - right. split; [done|]. exists s. auto.
  - intros e [->|?]%dict_set_keys; [exists s; unfold emotional; rewrite Em; auto|auto].
Qed.

Lemma votes_of l : votes_from l (fold_left vote l (mkVotes [] [] None "present")).
Proof.
  induction l as [|x l IH] using rev_ind; [|rewrite fold_left_app; by apply vote_from].
  constructor; simpl; try done; try (by intros ? ?%elem_of_nil). by left.
Qed.

Lemma first_max_in best l : first_max best l ∈ best :: l.
Proof.
  revert best. induction l as [|x l IH]; intros best; simpl; [by left|]. destruct (SFltb best.2 x.2).
  - right. apply IH.
  - specialize (IH best). apply elem_of_cons in IH as [->|?]; [by left|right; by right].
Qed.

Lemma f_ltb_leb x y : SFltb x y = true -> SFleb x y = true.
Proof. unfold SFltb, SFleb. by destruct (SFcompare x y) as [[]|]. Qed.

(** A digest is made of the session's samples of the last three seconds that are sure enough: its labels are theirs, its
    confidence in an emotion is at most 1, and without such a sample there is none. *)
Theorem digest_is_of_fresh_samples session_id pushed now_read now_fuse :
  let seen := List.filter (is_fresh now_fuse) (recent_signals session_id WINDOW_MS now_read (publish_all pushed)) in
  (forall s, s ∈ seen -> (session_id, s) ∈ pushed /\ now_fuse - s.(rs_ts) <= 3000 * 1000 /\ SFleb f_0_6 s.(rs_confidence) = true) /\
  (session_digest session_id now_read now_fuse (publish_all pushed) = None <-> seen = []) /\
  forall d, session_digest session_id now_read now_fuse (publish_all pushed) = Some d ->
    SFleb d.(fd_emotion_confidence) f_one = true /\
    (forall e, d.(fd_dominant_emotion) = Some e -> exists s, s ∈ seen /\ emotional s.(rs_modality) /\ s.(rs_label) = e) /\
    (forall e, e ∈ d.(fd_notable_events) -> exists s, s ∈ seen /\ s.(rs_label) = e) /\
    (forall r, d.(fd_speech_rate) = Some r -> exists s, s ∈ seen /\ s.(rs_modality) = ASR /\ s.(rs_label) = r) /\
    (d.(fd_presence) <> "present" -> exists s, s ∈ seen /\ (s.(rs_modality) = GAZE \/ s.(rs_modality) = AMBIENT) /\ s.(rs_label) = d.(fd_presence)).
Proof.
  intros seen. split_and!.
  - intros s [Hs Hf]%elem_of_filter_list. unfold recent_signals in Hs. apply elem_of_filter_list in Hs as [Hs _]. rewrite publish_all_get in Hs.
    unfold is_fresh, WINDOW_MS in Hf. apply andb_true_iff in Hf as [?%Z.leb_le ?]. split_and!; [|lia|done].
    assert (s ∈ samples_of session_id pushed) as Hin.
    { unfold last_n in Hs. rewrite <- (firstn_skipn (length (samples_of session_id pushed) - capacity_per_session) (samples_of session_id pushed)).
      apply elem_of_app. by right. }
    apply list_elem_of_fmap in Hin as ([i x] & -> & [Hx E%bool_decide_eq_true]%elem_of_filter_list). simpl in *. by subst i.
  - unfold session_digest, fuse. fold seen. by destruct seen.
  - unfold session_digest, fuse. fold seen. pose proof (votes_of seen) as [He Hn Hr Hp]. destruct seen as [|x rest] eqn:Es; [done|].
    set (v := fold_left vote (x :: rest) (mkVotes [] [] None "present")) in *. intros d [= <-]. simpl.
    split_and!; try done.
    + destruct (vo_emotions v) as [|y l]; [done|]. destruct (first_max y l) as [label total]. simpl. destruct (SFltb total f_one) eqn:E; [by apply f_ltb_leb|done].
    + destruct (vo_emotions v) as [|y l]; [done|]. pose proof (first_max_in y l) as Hin. destruct (first_max y l) as [label total]. simpl. intros e [= <-].
      apply He. apply (list_elem_of_fmap_2 fst) in Hin. exact Hin.
    + intros r Hr'. by apply Hr.
    + intros Hne. by destruct Hp as [?|[_ ?]].
Qed.

(** ** Samples *)

Definition confidence (tenths : Z) : float64 := f_div (f_of_Z tenths) (f_of_Z 10).
Definition sample_signals : list (string * RealtimeSignal) :=
  [("s1", mkSignal 0 FACE "sad" (confidence 9)); ("s1", mkSignal 5000000 FACE "smile" (confidence 7)); ("s1", mkSignal 5100000 PROSODY "calm" (confidence 8));
   ("s1", mkSignal 5200000 TEXT_SENTIMENT "smile" (confidence 6)); ("s1", mkSignal 5200000 GAZE "away" (confidence 5)); ("s2", mkSignal 5200000 FACE "angry" (confidence 9));
   ("s1", mkSignal 5300000 AMBIENT "door" (confidence 10)); ("s1", mkSignal 5300000 ASR "slow" (confidence 10))].

(** The old, the unsure and the other session's samples leave no trace. *)
Example a_digest :
  (fun d => (d.(fd_dominant_emotion), d.(fd_speech_rate), d.(fd_presence), d.(fd_notable_events), SFeqb d.(fd_emotion_confidence) f_one, to_prompt_line f_0_6 d))
    <$> session_digest "s1" 6000000 6000000 (publish_all sample_signals) =
  Some (Some "smile", Some "slow", "present", ["door"], true, "用户当前情绪偏 smile；语速偏慢；信号: door").
Proof. vm_compute. reflexivity. Qed.
