(* ===== verification/InMemory.v ===== *)
(** * [infra/events/adapters/inmem.py]: the in-process event bus and key-value store.

    The dispatcher's idempotency store is such a store when no server is configured. A step is an
    operation under the store's lock; times are integers. *)

From S2P Require Import Prelude CoreTypes Json.

(** ** [fnmatch.fnmatchcase] *)

(** An item of a pattern; a set is a list of ranges. *)
Inductive glob := GAny | GOne | GSet (negated : bool) (ranges : list (string * string)) | GChar (c : string).

(** The characters of a set: [a-z] is a range, a hyphen at an end is itself, an empty range is dropped. *)
Fixpoint set_ranges (l : list string) : list (string * string) :=
  match l with
  | [] => []
  | a :: rest =>
      match rest with
      | h :: b :: rest' =>
          if bool_decide (h = "-") then (if str_leb a b then [(a, b)] else []) ++ set_ranges rest' else (a, a) :: set_ranges rest
      | _ => (a, a) :: set_ranges rest
      end
  end.

(** The characters up to the closing bracket; a bracket in the first place is a character. *)
Fixpoint until_bracket (l : list string) : option (list string * list string) :=
  match l with
  | [] => None
  | c :: rest => if bool_decide (c = "]") then Some ([], rest) else (fun '(a, b) => (c :: a, b)) <$> until_bracket rest
  end.
Definition read_set (l : list string) : option (bool * list string * list string) :=
  let '(negated, l) := match l with c :: rest => if bool_decide (c = "!") then (true, rest) else (false, l) | [] => (false, l) end in
  let '(first, l) := match l with c :: rest => if bool_decide (c = "]") then ([c], rest) else ([], l) | [] => ([], l) end in
  (fun '(a, b) => (negated, first ++ a, b)) <$> until_bracket l.

Fixpoint parse_glob (fuel : nat) (l : list string) : list glob :=
  match fuel, l with
  | S fuel, c :: rest =>
      if bool_decide (c = "*") then GAny :: parse_glob fuel rest
      else if bool_decide (c = "?") then GOne :: parse_glob fuel rest
      else if bool_decide (c = "[") then
        match read_set rest with
        | Some (negated, items, rest) => GSet negated (set_ranges items) :: parse_glob fuel rest
        | None => GChar c :: parse_glob fuel rest
        end
      else GChar c :: parse_glob fuel rest
  | _, _ => []
  end.

Definition glob_one (g : glob) (c : string) : bool :=
  match g with
  | GChar d => bool_decide (c = d)
  | GSet negated ranges => xorb negated (existsb (fun '(a, b) => str_leb a c && str_leb c b) ranges)
  | _ => true
  end.

Fixpoint glob_match (p : list glob) (l : list string) : bool :=
  match p with
  | [] => match l with [] => true | _ => false end
  | GAny :: p' => (fix any l := glob_match p' l || match l with [] => false | _ :: l' => any l' end) l
  | g :: p' => match l with [] => false | c :: l' => glob_one g c && glob_match p' l' end
  end.

Definition fnmatchcase (name pattern : string) : bool :=
  let p := chars pattern in glob_match (parse_glob (length p) p) (chars name).

(** [_matches] *)
Definition matches (pattern subject : string) : bool :=
  if bool_decide (last (chars pattern) = Some ">") then String.prefix (py_take (py_len pattern - 1) pattern) subject else fnmatchcase subject pattern.

(** ** [InMemoryEventBus] *)

(** Handlers are known by a number. *)
Record Subscription := mkSub { sb_pattern : string; sb_handler : nat; sb_queue_group : option string }.
#[global] Instance subscription_eq_dec : EqDecision Subscription.
Proof. solve_decision. Defined.

Fixpoint publish_targets (subject : string) (seen : list string) (subs : list Subscription) : list Subscription :=
  match subs with
  | [] => []
  | s :: rest =>
      if negb (matches s.(sb_pattern) subject) then publish_targets subject seen rest
      else match s.(sb_queue_group) with
           | Some g => if bool_decide (g ∈ seen) then publish_targets subject seen rest else s :: publish_targets subject (g :: seen) rest
           | None => s :: publish_targets subject seen rest
           end
  end.
Definition subscribe (s : Subscription) (subs : list Subscription) : list Subscription := subs ++ [s].
(** [list.remove] of the first equal one *)
Fixpoint unsubscribe (s : Subscription) (subs : list Subscription) : list Subscription :=
  match subs with [] => [] | x :: rest => if bool_decide (x = s) then rest else x :: unsubscribe s rest end.

(** [request]: the responder of exactly this subject *)
Definition bus_request {A} (responders : list (string * (A -> res A))) (subject : string) (payload : A) : res A :=
  match dict_get responders subject with
  | None => Err (PyError "TimeoutError" ("no responder for " +:+ subject))
  | Some handler => handler payload
  end.

(** ** [InMemoryKVStore] *)

Record KVEntry := mkEntry { kv_value : string; kv_revision : Z; kv_expires_at : option Z }.
(** A change: the new value, [None] for a removal, and the revision. *)
Record Change := mkChange { cg_key : string; cg_value : option string; cg_revision : Z }.
Record Watcher := mkWatcher { wt_id : nat; wt_pattern : string; wt_queue : list Change }.
Record KV := mkKV { kv_store : list (string * KVEntry); kv_watchers : list Watcher }.

Definition entry_expired (now : Z) (e : KVEntry) : bool := match e.(kv_expires_at) with Some t => t <=? now | None => false end.

(** [_notify] *)
Definition notify (c : Change) (s : KV) : KV :=
  mkKV s.(kv_store) (map (fun w => if matches w.(wt_pattern) c.(cg_key) then mkWatcher w.(wt_id) w.(wt_pattern) (w.(wt_queue) ++ [c]) else w) s.(kv_watchers)).

Definition kv_get (now : Z) (key : string) (s : KV) : KV * option string :=
  match dict_get s.(kv_store) key with
  | Some e => if entry_expired now e then (mkKV (dict_pop s.(kv_store) key) s.(kv_watchers), None) else (s, Some e.(kv_value))
  | None => (s, None)
  end.

Definition kv_clear (s : KV) : KV := fold_left (fun s k => notify (mkChange k None (-1)) s) s.(kv_store).*1 (mkKV [] s.(kv_watchers)).

Definition kv_put (now : Z) (key value : string) (ttl_s : option Z) (s : KV) : KV * Z :=
  let rev := match dict_get s.(kv_store) key with Some e => e.(kv_revision) + 1 | None => 1 end in
  let expires := match ttl_s with Some t => if t =? 0 then None else Some (now + t) | None => None end in
  (notify (mkChange key (Some value) rev) (mkKV (dict_set s.(kv_store) key (mkEntry value rev expires)) s.(kv_watchers)), rev).

Definition kv_delete (key : string) (s : KV) : KV := notify (mkChange key None (-1)) (mkKV (dict_pop s.(kv_store) key) s.(kv_watchers)).

Definition kv_cas (key value : string) (expected : Z) (s : KV) : KV * res Z :=
  let current := match dict_get s.(kv_store) key with Some e => e.(kv_revision) | None => 0 end in
  if negb (current =? expected) then (s, Err (Eidolon ConflictError ("cas mismatch on " +:+ key +:+ ": expected rev " +:+ int_str expected +:+ ", found " +:+ int_str current)%string))
  else
    let rev := current + 1 in
    (notify (mkChange key (Some value) rev) (mkKV (dict_set s.(kv_store) key (mkEntry value rev None)) s.(kv_watchers)), Ok rev).

Definition kv_keys (now : Z) (prefix : string) (s : KV) : list string :=
  map fst (List.filter (fun x => String.prefix prefix x.1 && negb (entry_expired now x.2)) s.(kv_store)).

(** [watch], registered and closed; [watch_take] is a change the watcher takes. *)
Definition watch (i : nat) (pattern : string) (s : KV) : KV := mkKV s.(kv_store) (s.(kv_watchers) ++ [mkWatcher i pattern []]).
Definition unwatch (i : nat) (s : KV) : KV := mkKV s.(kv_store) (List.filter (fun w => negb (bool_decide (w.(wt_id) = i))) s.(kv_watchers)).

Inductive kv_op :=
  | KGet (key : string) | KPut (key value : string) (ttl_s : option Z) | KDelete (key : string)
  | KCas (key value : string) (expected : Z) | KClear | KWatch (i : nat) (pattern : string) | KUnwatch (i : nat).

Definition kv_step (now : Z) (o : kv_op) (s : KV) : KV :=
  match o with
  | KGet k => fst (kv_get now k s)
  | KPut k v ttl => fst (kv_put now k v ttl s)
  | KDelete k => kv_delete k s
  | KCas k v n => fst (kv_cas k v n s)
  | KClear => kv_clear s
  | KWatch i p => watch i p s
  | KUnwatch i => unwatch i s
  end.
Definition kv_init : KV := mkKV [] [].

(** *** Subjects *)

(** A star is any text, dots too: two tokens match a pattern of one. *)
Example subjects :
  (fun '(p, s) => matches p s) <$> [("a.*.c", "a.b.c"); ("a.*", "a.b.c"); ("a.>", "a.b.c"); ("a.>", "a"); ("[!a-c]?", "xy"); ("[!a-c]?", "by"); ("[]-]", "-"); ("[x", "[x")] =
  [true; true; true; false; true; false; true; true].
Proof. vm_compute. reflexivity. Qed.

(** ** The bus delivers to every subscription, once per queue group. *)

Lemma publish_targets_spec subject seen subs :
  publish_targets subject seen subs `sublist_of` subs /\
  (forall s, s ∈ publish_targets subject seen subs -> matches s.(sb_pattern) subject = true /\ forall g, s.(sb_queue_group) = Some g -> g ∉ seen) /\
  (forall s, s ∈ subs -> matches s.(sb_pattern) subject = true -> s.(sb_queue_group) = None -> s ∈ publish_targets subject seen subs) /\
  (forall g, g ∉ seen -> (exists s, s ∈ subs /\ matches s.(sb_pattern) subject = true /\ s.(sb_queue_group) = Some g) ->
     length (List.filter (fun s => bool_decide (s.(sb_queue_group) = Some g)) (publish_targets subject seen subs)) = 1%nat) /\
  (forall g, g ∈ seen -> List.filter (fun s => bool_decide (s.(sb_queue_group) = Some g)) (publish_targets subject seen subs) = []).
Proof.
  revert seen. induction subs as [|x subs IH]; intros seen; simpl.
  { split_and!; try done; try (by intros ? ?%elem_of_nil). intros g _ (s & Hs & _). by apply elem_of_nil in Hs. }
  destruct (matches (sb_pattern x) subject) eqn:Em; simpl.
  - destruct (sb_queue_group x) as [g|] eqn:Eg.
    + case_bool_decide as Hg.
      * destruct (IH seen) as (H1 & H2 & H3 & H4 & H5). split_and!; [by apply sublist_cons|done| | |done].
        -- intros s [->|?]%elem_of_cons; [by rewrite Eg|auto].
        -- intros g' Hg' (s & [->|Hs]%elem_of_cons & Hm & E); [congruence|]. apply H4; [done|]. by exists s.
      * destruct (IH (g :: seen)) as (H1 & H2 & H3 & H4 & H5). split_and!; [by apply sublist_skip| | | |].
        -- intros s [->|Hs]%elem_of_cons; [rewrite Eg; split; [done|]; by intros g' [= <-]|].
           destruct (H2 s Hs) as [? Hn]. split; [done|]. intros g' E. specialize (Hn g' E). intros Hin. apply Hn. by right.
        -- intros s [->|?]%elem_of_cons Hm Hq; [by left|right; auto].
        -- intros g' Hg' (s & Hs & Hm & E). simpl. rewrite Eg. case_bool_decide as Eq.
           ++ injection Eq as <-. simpl. f_equal. rewrite H5; [done|by left].
           ++ apply H4; [rewrite not_elem_of_cons; split; [congruence|done]|]. apply elem_of_cons in Hs as [->|Hs]; [by rewrite Eg in E; congruence|by exists s].
        -- intros g' Hg'. simpl. rewrite Eg. rewrite bool_decide_eq_false_2 by congruence. apply H5. by right.
    + destruct (IH seen) as (H1 & H2 & H3 & H4 & H5). split_and!; [by apply sublist_skip| | | |].
      * intros s [->|Hs]%elem_of_cons; [by rewrite Eg|auto].
      * intros s [->|?]%elem_of_cons Hm Hq; [by left|right; auto].
      * intros g' Hg' (s & [->|Hs]%elem_of_cons & Hm & E); [by rewrite Eg in E|]. simpl. rewrite Eg. apply H4; [done|]. by exists s.
      * intros g' Hg'. simpl. rewrite Eg. by apply H5.
  - destruct (IH seen) as (H1 & H2 & H3 & H4 & H5). split_and!; [by apply sublist_cons|done| | |done].
    + intros s [->|?]%elem_of_cons; [by rewrite Em|auto].
    + intros g' Hg' (s & [->|Hs]%elem_of_cons & Hm & E); [by rewrite Em in Hm|]. apply H4; [done|]. by exists s.
Qed.

(** ** The store is a map *)

Definition kv_live (now : Z) (store : list (string * KVEntry)) (k : string) : option string :=
  match dict_get store k with Some e => if entry_expired now e then None else Some e.(kv_value) | None => None end.

(** What a client sees at a time. *)
Definition kv_view (now : Z) (s : KV) : gmap string string :=
  list_to_map (map (fun x => (x.1, x.2.(kv_value))) (List.filter (fun x => negb (entry_expired now x.2)) s.(kv_store))).

Definition kv_ok (s : KV) : Prop := NoDup s.(kv_store).*1.

Lemma kv_view_lookup now s k : kv_ok s -> kv_view now s !! k = kv_live now s.(kv_store) k.
Proof.
  unfold kv_ok, kv_view, kv_live. induction (kv_store s) as [|[k' e] l IH]; [done|]. simpl. rewrite NoDup_cons. intros [Hk Hl]. specialize (IH Hl).
  destruct (entry_expired now e) eqn:Ee; simpl; case_decide as E; subst; try rewrite Ee; try rewrite lookup_insert_eq; try rewrite lookup_insert_ne by done; try done.
  rewrite IH. apply dict_get_none in Hk. by rewrite Hk.
Qed.

(** The operations of the map; [None] refuses. *)
Definition spec_put (key value : string) (ttl_s : option Z) (m : gmap string string) : gmap string string :=
  if match ttl_s with Some t => t <? 0 | None => false end then delete key m else <[key := value]> m.

Lemma notify_store c s : kv_store (notify c s) = kv_store s.
Proof. done. Qed.
Lemma clear_store l s : kv_store (fold_left (fun s k => notify (mkChange k None (-1)) s) l s) = kv_store s.
Proof. revert s. induction l as [|k l IH]; simpl; intros s; [done|]. by rewrite IH. Qed.

Lemma kv_step_ok now o s : kv_ok s -> kv_ok (kv_step now o s).
Proof.
  unfold kv_ok. intros Hs. destruct o; simpl; auto using dict_set_nodup, dict_pop_nodup.
  - unfold kv_get. destruct (dict_get _ _) as [e|]; [|done]. destruct (entry_expired now e); [by apply dict_pop_nodup|done].
  - unfold kv_cas. destruct (negb _); [done|by apply dict_set_nodup].
  - unfold kv_clear. rewrite clear_store. constructor.
Qed.

Lemma live_set now store k e k' : kv_live now (dict_set store k e) k' = if decide (k = k') then if entry_expired now e then None else Some e.(kv_value) else kv_live now store k'.
Proof. unfold kv_live. case_decide as E; [subst; by rewrite dict_get_set_eq|by rewrite dict_get_set_ne]. Qed.
Lemma live_pop now store k k' : NoDup store.*1 -> kv_live now (dict_pop store k) k' = if decide (k = k') then None else kv_live now store k'.
Proof. intros Hn. unfold kv_live. case_decide as E; [subst; by rewrite dict_pop_get_eq|by rewrite dict_pop_get_ne]. Qed.

(** The store at any time is the map of its live entries, and each operation is that of the map. *)
Lemma kv_operations now o s : kv_ok s -> let s' := kv_step now o s in
  match o with
  | KGet k => snd (kv_get now k s) = kv_view now s !! k /\ kv_view now s' = kv_view now s
  | KPut k v ttl => kv_view now s' = spec_put k v ttl (kv_view now s)
  | KDelete k => kv_view now s' = delete k (kv_view now s)
  | KCas k v n =>
      match snd (kv_cas k v n s) with
      | Ok m => m = n + 1 /\ kv_view now s' = <[k := v]> (kv_view now s)
      | Err e => (exists m, e = Eidolon ConflictError m) /\ s' = s
      end
  | KClear => kv_view now s' = ∅
  | KWatch _ _ | KUnwatch _ => kv_view now s' = kv_view now s
  end.
Proof.
  intros Hs s'. pose proof (kv_step_ok now o s Hs) as Hs'. destruct o; simpl in *; try done.
  - unfold s', kv_get in *. rewrite kv_view_lookup by done. unfold kv_live. destruct (dict_get _ _) as [e|] eqn:Ed; [|done].
    destruct (entry_expired now e) eqn:Ee; [|done]. split; [done|]. apply map_eq. intros k. rewrite !kv_view_lookup by done. simpl. rewrite live_pop by done.
    case_decide as E; [|done]. subst. unfold kv_live. by rewrite Ed, Ee.
  - apply map_eq. intros k'. rewrite kv_view_lookup by done. simpl. rewrite live_set. unfold spec_put, entry_expired. simpl.
    destruct ttl_s as [t|]; [destruct (Z.eqb_spec t 0) as [->|]; [|destruct (Z.ltb_spec t 0)]|].
    + change (0 <? 0) with false. simpl. case_decide; [subst; by rewrite lookup_insert_eq|rewrite lookup_insert_ne by done; by rewrite kv_view_lookup].
    + rewrite (proj2 (Z.leb_le (now + t) now)) by lia. case_decide; [subst; by rewrite lookup_delete_eq|rewrite lookup_delete_ne by done; by rewrite kv_view_lookup].
    + rewrite (proj2 (Z.leb_gt (now + t) now)) by lia. case_decide; [subst; by rewrite lookup_insert_eq|rewrite lookup_insert_ne by done; by rewrite kv_view_lookup].
    + case_decide; [subst; by rewrite lookup_insert_eq|rewrite lookup_insert_ne by done; by rewrite kv_view_lookup].
  - apply map_eq. intros k'. rewrite kv_view_lookup by done. simpl. rewrite live_pop by done.
    case_decide; [subst; by rewrite lookup_delete_eq|rewrite lookup_delete_ne by done; by rewrite kv_view_lookup].
  - unfold s', kv_cas in *. destruct (negb (_ =? _)) eqn:En; [split; [by eexists|done]|]. simpl in *. apply negb_false_iff, Z.eqb_eq in En. split; [by rewrite En|].
    apply map_eq. intros k'. rewrite kv_view_lookup by done. simpl. rewrite live_set. simpl.
    case_decide; [subst; by rewrite lookup_insert_eq|rewrite lookup_insert_ne by done; by rewrite kv_view_lookup].
  - unfold s', kv_clear, kv_view. by rewrite clear_store.
Qed.

Definition kv_run (ops : list (Z * kv_op)) (s : KV) : KV := fold_left (fun s x => kv_step x.1 x.2 s) ops s.
Lemma kv_run_ok ops s : kv_ok s -> kv_ok (kv_run ops s).
Proof. revert s. induction ops as [|x ops IH]; simpl; intros s Hs; [done|]. by apply IH, kv_step_ok. Qed.

(** At any time after any run the store is the map of its live entries: each operation is that of the map, [keys] lists it,
    and time only takes entries away. *)
Theorem kv_refines_map ops now o : let s := kv_run ops kv_init in let s' := kv_step now o s in
  match o with
  | KGet k => snd (kv_get now k s) = kv_view now s !! k /\ kv_view now s' = kv_view now s
  | KPut k v ttl => kv_view now s' = spec_put k v ttl (kv_view now s)
  | KDelete k => kv_view now s' = delete k (kv_view now s)
  | KCas k v n =>
      match snd (kv_cas k v n s) with
      | Ok m => m = n + 1 /\ kv_view now s' = <[k := v]> (kv_view now s)
      | Err e => (exists m, e = Eidolon ConflictError m) /\ s' = s
      end
  | KClear => kv_view now s' = ∅
  | KWatch _ _ | KUnwatch _ => kv_view now s' = kv_view now s
  end /\
  (forall prefix k, k ∈ kv_keys now prefix s <-> String.prefix prefix k = true /\ is_Some (kv_view now s !! k)) /\
  (forall later, now <= later -> kv_view later s ⊆ kv_view now s).
Proof.
  intros s s'. assert (kv_ok s) as Hs by by (apply kv_run_ok; constructor). split_and!; [by apply kv_operations| |].
  - intros prefix k. rewrite kv_view_lookup by done. unfold kv_keys, kv_live. rewrite list_elem_of_fmap. split.
    + intros ([k' e] & -> & [Hin [Hp He%negb_true_iff]%andb_true_iff]%elem_of_filter_list). simpl in *. split; [done|].
      apply dict_elem_get in Hin; [|done]. rewrite Hin, He. by eexists.
    + intros [Hp Hv]. destruct (dict_get (kv_store s) k) as [e|] eqn:Ed; [|by destruct Hv]. destruct (entry_expired now e) eqn:Ee; [by destruct Hv|].
      exists (k, e). split; [done|]. apply elem_of_filter_list. split; [by apply dict_get_elem|]. simpl. by rewrite Hp, Ee.
  - intros later Hl. apply map_subseteq_spec. intros k v. rewrite !kv_view_lookup by done. unfold kv_live.
    destruct (dict_get (kv_store s) k) as [e|]; [|done]. unfold entry_expired. destruct (kv_expires_at e) as [t|]; [|done].
    destruct (Z.leb_spec t later), (Z.leb_spec t now); try done; lia.
Qed.

(** ** A watcher sees every change *)

(** The changes of a step, in order. *)
Definition changes (now : Z) (o : kv_op) (s : KV) : list Change :=
  match o with
  | KPut k v ttl => [mkChange k (Some v) (snd (kv_put now k v ttl s))]
  | KDelete k => [mkChange k None (-1)]
  | KCas k v n => match snd (kv_cas k v n s) with Ok m => [mkChange k (Some v) m] | Err _ => [] end
  | KClear => map (fun k => mkChange k None (-1)) s.(kv_store).*1
  | _ => []
  end.

(** What the changes say of a key. *)
Definition replay (k : string) (v : option string) (cs : list Change) : option string :=
  fold_left (fun v c => if decide (c.(cg_key) = k) then c.(cg_value) else v) cs v.

Definition kv_value_of (k : string) (s : KV) : option string := kv_value <$> dict_get s.(kv_store) k.
Definition timeless (s : KV) : Prop := forall k e, (k, e) ∈ s.(kv_store) -> e.(kv_expires_at) = None.
Definition no_ttl (o : kv_op) : Prop := match o with KPut _ _ ttl => ttl = None \/ ttl = Some 0 | _ => True end.

Lemma replay_app k v l1 l2 : replay k v (l1 ++ l2) = replay k (replay k v l1) l2.
Proof. apply fold_left_app. Qed.

Lemma replay_filter f k v cs : f k = true -> replay k v (List.filter (fun c => f c.(cg_key)) cs) = replay k v cs.
Proof.
  intros Hf. revert v. induction cs as [|c cs IH]; intros v; simpl; [done|]. destruct (f (cg_key c)) eqn:E; simpl; [apply IH|].
  rewrite IH. rewrite decide_False; [done|]. intros <-. congruence.
Qed.

Lemma replay_removals k v l : replay k v (map (fun k => mkChange k None (-1)) l) = if decide (k ∈ l) then None else v.
Proof.
  revert v. induction l as [|x l IH]; intros v; simpl; [done|]. rewrite IH.
  repeat case_decide; subst; rewrite elem_of_cons in *; naive_solver.
Qed.

Lemma kv_step_changes now o s k : kv_ok s -> timeless s -> no_ttl o ->
  kv_value_of k (kv_step now o s) = replay k (kv_value_of k s) (changes now o s) /\ timeless (kv_step now o s).
Proof.
  intros Hs Ht Ho. assert (forall k' v rev, kv_value_of k (mkKV (dict_set s.(kv_store) k' (mkEntry v rev None)) s.(kv_watchers)) =
    (if decide (k' = k) then Some v else kv_value_of k s) /\ timeless (mkKV (dict_set s.(kv_store) k' (mkEntry v rev None)) s.(kv_watchers))) as Hset.
  { intros k' v rev. unfold kv_value_of. simpl. split; [case_decide; [subst; by rewrite dict_get_set_eq|by rewrite dict_get_set_ne]|].
    intros k1 e [[-> ->]|Hin]%dict_set_elem; [done|by eapply Ht]. }
  destruct o; simpl; try done.
  - unfold kv_get. destruct (dict_get (kv_store s) key) as [e|] eqn:Ed; [|done]. unfold entry_expired. rewrite (Ht key e); [done|by apply dict_get_elem].
  - destruct Ho as [->| ->]; apply Hset.
  - split; [unfold kv_value_of; simpl; case_decide; [subst; by rewrite dict_pop_get_eq|by rewrite dict_pop_get_ne]|].
    intros k1 e Hin. apply (Ht k1). simpl in Hin. eapply elem_of_sublist; [exact Hin|]. clear. induction (kv_store s) as [|[k2 e2] l IH]; simpl; [done|].
    case_decide; [by apply sublist_cons|by apply sublist_skip].
  - unfold kv_cas. destruct (negb _); [done|]. apply Hset.
  - unfold kv_clear, kv_value_of, timeless. rewrite clear_store. simpl. rewrite replay_removals. split; [|by intros ? ? ?%elem_of_nil].
    case_decide as E; [done|]. apply dict_get_none in E. by rewrite E.
Qed.

Definition told (w : Watcher) (cs : list Change) : Watcher :=
  mkWatcher w.(wt_id) w.(wt_pattern) (w.(wt_queue) ++ List.filter (fun c => matches w.(wt_pattern) c.(cg_key)) cs).

Lemma told_in c w (s : KV) : w ∈ s.(kv_watchers) -> told w [c] ∈ (notify c s).(kv_watchers).
Proof.
  intros Hw. simpl. apply list_elem_of_fmap. exists w. split; [|done]. unfold told. simpl. destruct (matches _ _); [done|]. rewrite app_nil_r. by destruct w.
Qed.

Lemma told_app w cs1 cs2 : told (told w cs1) cs2 = told w (cs1 ++ cs2).
Proof. unfold told. simpl. by rewrite List.filter_app, app_assoc. Qed.
Lemma told_nil w : told w [] = w.
Proof. unfold told. simpl. rewrite app_nil_r. by destruct w. Qed.

Lemma clear_tells l w s : w ∈ s.(kv_watchers) ->
  told w (map (fun k => mkChange k None (-1)) l) ∈ (fold_left (fun s k => notify (mkChange k None (-1)) s) l s).(kv_watchers).
Proof.
  revert w s. induction l as [|k l IH]; simpl; intros w s Hw; [by rewrite told_nil|].
  change (mkChange k None (-1) :: ?cs) with ([mkChange k None (-1)] ++ cs). rewrite <- told_app. by apply IH, told_in.
Qed.

Lemma kv_step_tells now o w s : w ∈ s.(kv_watchers) -> o <> KUnwatch w.(wt_id) -> told w (changes now o s) ∈ (kv_step now o s).(kv_watchers).
Proof.
  intros Hw Ho. destruct o; simpl; rewrite ?told_nil; auto.
  - unfold kv_get. destruct (dict_get _ _) as [e|]; [|done]. by destruct (entry_expired now e).
  - exact (told_in (mkChange _ _ _) w (mkKV [] s.(kv_watchers)) Hw).
  - exact (told_in (mkChange _ _ _) w (mkKV [] s.(kv_watchers)) Hw).
  - unfold kv_cas. destruct (negb _); simpl; [by rewrite told_nil|]. exact (told_in (mkChange _ _ _) w (mkKV [] s.(kv_watchers)) Hw).
  - by apply clear_tells.
  - apply elem_of_app. by left.
  - apply elem_of_filter_list. split; [done|]. rewrite bool_decide_eq_false_2 by congruence. done.
Qed.

Lemma kv_run_tells ops w s : kv_ok s -> timeless s -> w ∈ s.(kv_watchers) ->
  Forall (fun x => no_ttl x.2 /\ x.2 <> KUnwatch w.(wt_id)) ops ->
  exists cs, told w cs ∈ (kv_run ops s).(kv_watchers) /\ forall k, kv_value_of k (kv_run ops s) = replay k (kv_value_of k s) cs.
Proof.
  revert w s. induction ops as [|[now o] ops IH]; simpl; intros w s Hs Ht Hw Hops; [exists []; by rewrite told_nil|].
  apply Forall_cons in Hops as [[Hno Hun] Hops]. simpl in *.
  destruct (IH (told w (changes now o s)) (kv_step now o s)) as (cs & Hin & Hv); [by apply kv_step_ok|by apply (kv_step_changes now o s "")|by apply kv_step_tells|done|].
  rewrite told_app in Hin. exists (changes now o s ++ cs). split; [done|]. intros k. rewrite Hv, replay_app.
  by rewrite (proj1 (kv_step_changes now o s k Hs Ht Hno)).
Qed.

Lemma kv_run_timeless ops s : kv_ok s -> timeless s -> Forall (fun x => no_ttl x.2) ops -> timeless (kv_run ops s).
Proof.
  revert s. induction ops as [|[now o] ops IH]; simpl; intros s Hs Ht Hops; [done|]. apply Forall_cons in Hops as [Hno Hops].
  apply IH; [by apply kv_step_ok|by apply (kv_step_changes now o s "")|done].
Qed.

(** Without times to live, a watcher that applies what it was told to what it read when it began has the values of every
    key of its pattern. *)
Theorem watchers_see_every_change before now i pattern after :
  Forall (fun x => no_ttl x.2) before -> Forall (fun x => no_ttl x.2 /\ x.2 <> KUnwatch i) after ->
  let s0 := kv_run before kv_init in let s := kv_run after (kv_step now (KWatch i pattern) s0) in
  exists q, mkWatcher i pattern q ∈ s.(kv_watchers) /\ (forall c, c ∈ q -> matches pattern c.(cg_key) = true) /\
    forall k, matches pattern k = true -> kv_value_of k s = replay k (kv_value_of k s0) q.
Proof.
  intros Hb Ha s0 s. assert (kv_ok s0) as Hs0 by (apply kv_run_ok; constructor).
  assert (timeless s0) as Ht0 by (apply kv_run_timeless; [constructor|by intros ? ? ?%elem_of_nil|done]).
  destruct (kv_run_tells after (mkWatcher i pattern []) (kv_step now (KWatch i pattern) s0)) as (cs & Hin & Hv); try done.
  { simpl. apply elem_of_app. right. by left. }
  exists (List.filter (fun c => matches pattern c.(cg_key)) cs). split_and!; [exact Hin|by intros c [_ ?]%elem_of_filter_list|].
  intros k Hk. rewrite (replay_filter (matches pattern)) by done. apply Hv.
Qed.

(** ** Runs *)

(** A deleted key starts again at revision 1: a swap against the revision of the old value goes through. *)
Example old_revision_is_accepted :
  let s := kv_run [(0, KPut "k" "a" None); (1, KDelete "k"); (2, KPut "k" "b" None)] kv_init in
  snd (kv_cas "k" "c" 1 s) = Ok 2 /\ kv_view 3 (kv_step 3 (KCas "k" "c" 1) s) !! "k" = Some "c".
Proof. vm_compute. split; reflexivity. Qed.

(** An expired key is gone for a reader and still there for a swap. *)
Example expired_key_refuses_a_swap :
  let s := kv_run [(0, KPut "k" "a" (Some 5))] kv_init in
  snd (kv_get 9 "k" s) = None /\ snd (kv_cas "k" "b" 0 s) = Err (Eidolon ConflictError "cas mismatch on k: expected rev 0, found 1").
Proof. vm_compute. split; reflexivity. Qed.

Example a_watcher :
  (fun w => (fun c => (c.(cg_key), c.(cg_value), c.(cg_revision))) <$> w.(wt_queue)) <$>
    (kv_run [(0, KWatch 1 "a.>"); (1, KPut "a.x" "1" None); (2, KPut "b" "2" None); (3, KCas "a.x" "3" 1); (4, KCas "a.x" "4" 1); (5, KClear)] kv_init).(kv_watchers) =
  [[("a.x", Some "1", 1); ("a.x", Some "3", 2); ("a.x", None, -1)]].
Proof. vm_compute. reflexivity. Qed.
