(* ===== verification/Lexicon.v ===== *)
(** * [infra/interpretation/adapters/lexicon.py]: the words of a Chinese smart-home command.

    A text is the list of its characters. The regular expressions of the module are matchers here: an
    alternation of literals tries them in order at each place; [NUMBER] takes all it can, which no
    shorter number could improve, since what may follow it is no part of a number. [nfkc_lower] is
    NFKC and [lower], [decimal] the value of a character of class [\d], [float_repr] what a
    float literal prints as. *)

From S2P Require Import Prelude CoreTypes Json HomePlanning.

(** ** Searching *)

Fixpoint starts (p l : list string) : bool :=
  match p, l with
  | [], _ => true
  | a :: p', b :: l' => bool_decide (a = b) && starts p' l'
  | _, [] => false
  end.

Fixpoint has_phrase (p l : list string) : bool :=
  starts p l || match l with [] => false | _ :: l' => has_phrase p l' end.
Definition has_any (phrases : list string) (l : list string) : bool := existsb (fun p => has_phrase (chars p) l) phrases.

Definition ends_in (p l : list string) : bool := starts (rev p) (rev l).

Definition BLANK : string := "#".

Record Hit (T : Type) := mkHit { ht_start : nat; ht_end : nat; ht_text : string; ht_value : T }.
Arguments mkHit {T}. Arguments ht_start {T}. Arguments ht_end {T}. Arguments ht_text {T}. Arguments ht_value {T}.

(** The occurrences of a phrase from left to right, blanked; [skip] characters belong to the last one. *)
Fixpoint take_phrase (phrase : list string) (skip pos : nat) (l : list string) : list string * list nat :=
  match l with
  | [] => ([], [])
  | c :: rest =>
      match skip with
      | S k => let '(t, hs) := take_phrase phrase k (S pos) rest in (BLANK :: t, hs)
      | O =>
          if starts phrase l then let '(t, hs) := take_phrase phrase (length phrase - 1) (S pos) rest in (BLANK :: t, pos :: hs)
          else let '(t, hs) := take_phrase phrase 0 (S pos) rest in (c :: t, hs)
      end
  end.

(** [sorted(table, key=len, reverse=True)] *)
Definition longest_first {T} (table : list (string * T)) : list (string * T) := py_sorted (fun a b => (py_len b.1 <=? py_len a.1)%nat) table.
Definition by_start {T} (hits : list (Hit T)) : list (Hit T) := py_sorted (fun a b => (a.(ht_start) <=? b.(ht_start))%nat) hits.

Definition take_entry {T} (acc : list string * list (Hit T)) (x : string * T) : list string * list (Hit T) :=
  let p := chars x.1 in
  match p with
  | [] => acc
  | _ => let '(t, starts) := take_phrase p 0 0 acc.1 in (t, acc.2 ++ map (fun i => mkHit i (i + length p) x.1 x.2) starts)
  end.
Definition take {T} (text : list string) (table : list (string * T)) : list string * list (Hit T) :=
  let '(t, hits) := fold_left take_entry (longest_first table) (text, []) in (t, by_start hits).

(** [take_pattern]: a matcher gives the length of its match and what it captures. *)
Fixpoint take_matches {T} (m : list string -> option (nat * T)) (skip : nat) (l : list string) : list string * list (string * T) :=
  match l with
  | [] => ([], [])
  | c :: rest =>
      match skip with
      | S k => let '(t, ms) := take_matches m k rest in (BLANK :: t, ms)
      | O =>
          match m l with
          | Some (S n, v) => let '(t, ms) := take_matches m n rest in (BLANK :: t, (cat (firstn (S n) l), v) :: ms)
          | _ => let '(t, ms) := take_matches m 0 rest in (c :: t, ms)
          end
      end
  end.
Definition take_pattern {T} (text : list string) (m : list string -> option (nat * T)) : list string * list (string * T) := take_matches m 0 text.

(** An alternation of literals *)
Fixpoint literal_match (alts : list string) (l : list string) : option (nat * string) :=
  match alts with
  | [] => None
  | a :: rest => if starts (chars a) l then Some (py_len a, a) else literal_match rest l
  end.

(** ** Words *)

Record DeviceWord := mkWord { dw_word : string; dw_kinds : list string; dw_keywords : list string }.
#[global] Instance device_word_eq_dec : EqDecision DeviceWord.
Proof. solve_decision. Defined.

Section Sdk.
Context `{HomeSdk}.

(** [DeviceWord.matches] *)
Definition word_matches (w : DeviceWord) (c : HomeCandidate) : bool :=
  if bool_decide (c.(cd_kind) = SCENE_KIND) then false
  else
    let names := c.(cd_name) :: c.(cd_aliases) in
    if existsb (py_contains w.(dw_word)) names then true
    else if negb (bool_decide (c.(cd_kind) ∈ w.(dw_kinds))) then false
    else (if w.(dw_keywords) is [] then true else false) || existsb (fun key => existsb (py_contains key) names) w.(dw_keywords).
End Sdk.

Definition LOCK : DeviceWord := mkWord "门锁" ["lock"] [].

Definition UNTYPED_DEVICE_WORDS : list string :=
  ["投影仪"; "投影"; "冰箱"; "洗碗机"; "烤箱"; "微波炉"; "油烟机"; "浴霸"; "地暖";
   "新风"; "车库门"; "门铃"; "充电桩"; "喂食器"; "空气炸锅"; "咖啡机"; "饮水机"; "暖气";
   "电暖器"; "除湿机"; "电热毯"; "路由器"; "电脑"; "净水器"; "洗地机"].

Definition DEVICE_WORDS : list (string * DeviceWord) :=
  map (fun w => (w.(dw_word), w))
    ([mkWord "灯" ["light"] []; mkWord "灯光" ["light"] []; mkWord "台灯" ["light"] ["台灯"];
      mkWord "开关" ["switch"] []; mkWord "插座" ["switch"] ["插座"]; mkWord "空调" ["climate"] [];
      mkWord "窗帘" ["cover"] ["帘"]; mkWord "晾衣架" ["cover"] ["晾衣"; "衣架"];
      mkWord "净化器" ["fan"] ["净化"]; mkWord "加湿器" ["fan"] ["加湿"]; mkWord "风扇" ["fan"] ["扇"]; mkWord "电扇" ["fan"] ["扇"];
      mkWord "电视" ["media"] ["电视"]; mkWord "音箱" ["media"] ["音箱"; "音响"]; mkWord "音响" ["media"] ["音箱"; "音响"];
      mkWord "扫地机" ["appliance"] ["扫地"; "扫拖"]; mkWord "扫地" ["appliance"] ["扫地"; "扫拖"]; mkWord "洗衣机" ["appliance"] ["洗衣"];
      mkWord "电饭煲" ["appliance"] ["电饭"; "饭煲"]; mkWord "电饭锅" ["appliance"] ["电饭"; "饭锅"]; mkWord "热水器" ["water_heater"] [];
      LOCK; mkWord "门" ["lock"] []; mkWord "摄像头" ["camera"] []; mkWord "监控" ["camera"] [];
      mkWord "温湿度计" ["sensor"] []; mkWord "温湿度" ["sensor"] []; mkWord "温度计" ["sensor"] []; mkWord "湿度计" ["sensor"] []; mkWord "传感器" ["sensor"] []]
     ++ map (fun w => mkWord w [] []) UNTYPED_DEVICE_WORDS).
Definition device_word (w : string) : DeviceWord := default (mkWord w [] []) (dict_get DEVICE_WORDS w).

Definition IMPLIED_BY_DIMENSION : list (string * DeviceWord) := [("brightness", device_word "灯"); ("temperature", device_word "空调")].

Definition SENSOR_QUERY : list string := ["温度"; "湿度"; "多少度"; "几度"; "室温"].
Definition SENSOR_WORD : DeviceWord := mkWord "温湿度" ["sensor"] [].

Definition ROOM_WORDS : list string :=
  ["客厅"; "卧室"; "主卧"; "次卧"; "书房"; "餐厅"; "厨房"; "卫生间"; "洗手间"; "浴室";
   "厕所"; "阳台"; "玄关"; "车库"; "儿童房"; "客房"; "走廊"; "过道"; "门口"; "花园";
   "院子"; "地下室"; "阁楼"; "衣帽间"; "楼上"; "楼下"].
Definition QUANTIFIERS : list string := ["全部"; "所有"; "全屋"; "整屋"; "全家"; "全都"; "都"].
Definition SCENE_SUFFIXES : list string := ["模式"; "场景"].
Definition SCENE_VERBS : list string := ["打开"; "开启"; "启动"; "执行"; "切换到"; "切到"; "进入"; "激活"; "开"].

(** ** Verbs *)

Record Verb := mkVerb { vb_op : string; vb_dimension : option string }.
#[global] Instance verb_eq_dec : EqDecision Verb.
Proof. solve_decision. Defined.
Definition verb (op : string) : Verb := mkVerb op None.

Definition LOCK_COMPOUNDS : list (string * (Verb * DeviceWord)) :=
  [("门锁上", (verb "lock", LOCK)); ("门锁好", (verb "lock", LOCK)); ("锁门", (verb "lock", LOCK)); ("开门", (verb "unlock", LOCK))].

Definition VERBS : list (string * Verb) :=
  flat_map (fun '(phrases, v) => map (fun p => (p, v)) phrases)
    [(["调到"; "调成"; "调为"; "调至"; "设置为"; "设置成"; "设置到"; "设为"; "设成"; "设到"; "定到"; "开到"; "开成"; "升到"; "降到";
       "调高到"; "调低到"; "切换到"; "切到"], verb "set");
     (["静音"], verb "mute");
     (["上锁"; "锁上"; "锁好"; "反锁"], verb "lock");
     (["开锁"; "解锁"], verb "unlock");
     (["回充"; "回去充电"; "去充电"; "充电"; "回座"], verb "dock");
     (["暂停"], verb "pause");
     (["停止"; "停下"; "停掉"; "停一下"], verb "stop");
     (["调亮"; "亮一点"; "亮一些"; "亮点"], mkVerb "up" (Some "brightness"));
     (["调暗"; "暗一点"; "暗一些"; "暗点"], mkVerb "down" (Some "brightness"));
     (["升温"], mkVerb "up" (Some "temperature"));
     (["降温"], mkVerb "down" (Some "temperature"));
     (["大声"], mkVerb "up" (Some "volume"));
     (["小声"], mkVerb "down" (Some "volume"));
     (["调高"; "调大"; "升高"; "加大"; "高一点"; "大一点"; "高一些"; "大一些"; "高点"; "大点"], verb "up");
     (["调低"; "调小"; "降低"; "减小"; "低一点"; "小一点"; "低一些"; "小一些"; "低点"; "小点"], verb "down");
     (["拉开"; "打开"; "开启"; "启动"; "开始"; "运行"; "开"], verb "on");
     (["拉上"; "合上"; "关闭"; "关掉"; "关上"; "关"], verb "off")].

Definition NOISE : list string :=
  ["开心"; "开玩笑"; "开会"; "开车"; "开学"; "开饭"; "开发"; "开放"; "开水"; "开销";
   "开口"; "离开"; "公开"; "关心"; "关系"; "关于"; "关注"; "关键"; "电视剧"; "电视台";
   "电视节目"; "特别"; "区别"; "分别"; "识别"; "别人"; "别的"; "告别"].

(** The searches; [不(?=[开关调打启锁拉])] is [不] before one of these characters. *)
Definition products (a b : list string) : list string := flat_map (fun x => map (fun y => (x +:+ y)%string) b) a.
Definition NEGATION : list string :=
  ["别"; "不要"; "不用"; "不必"; "甭"; "无需"; "不需要"; "没必要"] ++ products ["不"] ["开"; "关"; "调"; "打"; "启"; "锁"; "拉"].
Definition IMPLICIT : list string :=
  products ["有点"; "有些"; "太"; "好"; "真"; "很"; "特别"; "挺"; "这么"; "怎么这么"] ["热"; "冷"; "暗"; "亮"; "吵"; "闷"; "干"; "燥"; "潮"; "黑"; "晒"; "刺眼"; "凉"]
  ++ products ["热"; "冷"; "暗"; "吵"; "闷"; "干"] ["死了"] ++ ["看不清"; "睡不着"].
Definition QUERY : list string :=
  flat_map (fun c => products [c] ["着"; ("没" +:+ c)%string; "了吗"; "了没有"; "了没"; "的吗"]) ["开"; "关"; "亮"; "锁"]
  ++ products ["有没有"; "是不是"] ["开"; "关"; "锁"; "亮"] ++ ["多少"; "几度"; "几档"; "状态"; "怎么样"; "什么模式"].
Definition QUERY_TAIL : list string := ["了吗"; "了没有"; "了没"].
Definition WEATHER : list string := ["天气"; "气温"; "外面"; "室外"; "下雨"; "下雪"; "今天"; "明天"; "后天"].

Definition MODES : list (string * string) :=
  [("制冷", "cool"); ("冷风", "cool"); ("制热", "heat"); ("暖风", "heat"); ("热风", "heat"); ("除湿", "dry"); ("抽湿", "dry");
   ("送风", "fan"); ("通风", "fan"); ("自动", "auto")].

(** ** Numbers *)

(** An [int], or a [float] by its sign and literal. *)
Inductive Amount := AInt (z : Z) | AFloat (negative : bool) (literal : string).
#[global] Instance amount_eq_dec : EqDecision Amount.
Proof. solve_decision. Defined.
Definition signed (sign : Z) (a : Amount) : Amount := match a with AInt z => AInt (sign * z) | AFloat n l => AFloat (if sign <? 0 then negb n else n) l end.
Definition is_int (a : Amount) : bool := if a is AInt _ then true else false.

Record Quantity := mkQuantity { qt_value : Amount; qt_unit : option string; qt_raw_span : string }.
Record Values := mkValues { vl_quantity : option Quantity; vl_mode : option string; vl_dimension : option string; vl_problem : option string }.

Definition CN_DIGITS : list (string * Z) :=
  [("零", 0); ("一", 1); ("二", 2); ("三", 3); ("四", 4); ("五", 5); ("六", 6); ("七", 7); ("八", 8); ("九", 9); ("〇", 0); ("两", 2)].
Definition CN : list string := map fst CN_DIGITS.

(** The loop of [_parse_cn_int]: the total, the digit before a unit, whether a digit came last. *)
Fixpoint parse_cn_from (total current : Z) (last_digit : bool) (l : list string) : option Z :=
  match l with
  | [] => Some (total + current)
  | ch :: rest =>
      if bool_decide (ch ∈ ["零"; "〇"]) then if last_digit then None else parse_cn_from total 0 last_digit rest
      else match dict_get CN_DIGITS ch with
           | Some d => if last_digit then None else parse_cn_from total d true rest
           | None =>
               if bool_decide (ch = "十") then parse_cn_from (total + (if current =? 0 then 1 else current) * 10) 0 false rest
               else if bool_decide (ch = "百") then parse_cn_from (total + (if current =? 0 then 1 else current) * 100) 0 false rest
               else None
           end
  end.
Definition parse_cn_int (text : list string) : option Z := match text with [] => None | _ => parse_cn_from 0 0 false text end.

(** [str.partition] at a character *)
Fixpoint partition_at (sep : string) (l : list string) : list string * list string :=
  match l with
  | [] => ([], [])
  | c :: rest => if bool_decide (c = sep) then ([], rest) else let '(a, b) := partition_at sep rest in (c :: a, b)
  end.

Fixpoint all_some {A B} (f : A -> option B) (l : list A) : option (list B) :=
  match l with
  | [] => Some []
  | x :: rest => match f x, all_some f rest with Some y, Some ys => Some (y :: ys) | _, _ => None end
  end.

Section Text.
Context (nfkc_lower : string -> string) (decimal : string -> option Z) (float_repr : string -> string).

Definition is_digit (c : string) : bool := if decimal c is Some _ then true else false.

(** *** [normalize] *)

Definition PUNCT : list string :=
  ["，"; "。"; "！"; "？"; "、"; "；"; "："; ","; "!"; "?"; ";"; ":"; "~"; "～"; "…"; String "034" ""; "'"; "“"; "”"; "‘"; "’"; "（"; "）"; "("; ")";
   "【"; "】"; "["; "]"; "<"; ">"; "《"; "》"; "·"].
Definition is_punct (c : string) : bool := py_isspace c || bool_decide (c ∈ PUNCT).

(** A dot stays between two digits. *)
Fixpoint drop_stray_dots (before : bool) (l : list string) : list string :=
  match l with
  | [] => []
  | c :: rest =>
      let after := match rest with d :: _ => is_digit d | [] => false end in
      if bool_decide (c = ".") && negb (before && after) then drop_stray_dots (is_digit c) rest else c :: drop_stray_dots (is_digit c) rest
  end.
Definition normalize_text (text : string) : list string := drop_stray_dots false (List.filter (fun c => negb (is_punct c)) (chars (nfkc_lower text))).

(** *** [NUMBER] and the quantities *)

Fixpoint span_length (f : string -> bool) (l : list string) : nat :=
  match l with c :: rest => if f c then S (span_length f rest) else 0 | [] => 0 end.
Definition is_cn (c : string) : bool := bool_decide (c ∈ CN).
Definition is_cn_number (c : string) : bool := bool_decide (c ∈ CN ++ ["十"; "百"]).

(** The digits, with a fraction when one follows *)
Definition munch (whole : string -> bool) (point : string) (fraction : string -> bool) (l : list string) : nat :=
  let n := span_length whole l in
  match n, skipn n l with
  | S _, p :: rest => if bool_decide (p = point) then match span_length fraction rest with O => n | m => (n + 1 + m)%nat end else n
  | _, _ => n
  end.
Definition number_length (l : list string) : nat :=
  match munch is_digit "." is_digit l with
  | O => munch is_cn_number "点" is_cn l
  | n => n
  end.

(** A literal of [before], a number, a literal of [after]; an empty list of literals demands none. *)
Fixpoint first_some {A B} (f : A -> option B) (l : list A) : option B :=
  match l with [] => None | x :: rest => match f x with Some y => Some y | None => first_some f rest end end.
Definition number_match (before after : list string) (l : list string) : option (nat * string) :=
  first_some (fun p =>
    if negb (starts (chars p) l) then None
    else
      let rest := skipn (py_len p) l in
      match number_length rest with
      | O => None
      | n => first_some (fun q => if starts (chars q) (skipn n rest) then Some ((py_len p + n + py_len q)%nat, cat (firstn n rest)) else None) after
      end) before.

Definition DIMENSION_WORDS : list (string * string) :=
  [("亮度", "brightness"); ("音量", "volume"); ("声音", "volume"); ("风速", "speed"); ("风量", "speed"); ("温度", "temperature");
   ("开合度", "position"); ("位置", "position"); ("色温", "color_temperature")].
Definition SET_WORDS : list string := ["调到"; "调成"; "调为"; "调至"; "设置为"; "设置到"; "设为"; "设到"; "设成"; "开到"; "定到"; "升到"; "降到"].

Definition QUANTITY_PATTERNS : list ((list string -> option (nat * string)) * option string) :=
  [(number_match ["百分之"] [""], Some "percent");
   (number_match [""] ["%"], Some "percent");
   (number_match [""] ["度"; "°c"; "°"], Some "celsius");
   (literal_match ["一半"], Some "percent");
   (number_match (products (map fst DIMENSION_WORDS) (SET_WORDS ++ ["到"; "为"; "是"; ""])) [""], None);
   (number_match SET_WORDS [""], None)].

(** [int] of decimal digits *)
Definition int_of_digits (l : list string) : Z := fold_left (fun z c => z * 10 + default 0 (decimal c)) l 0.

Definition parse_number (token : string) : option Amount :=
  let l := chars token in
  if bool_decide (token = "一半") then Some (AInt 50)
  else if bool_decide (munch is_digit "." is_digit l = length l) && negb (is_empty token) then
    Some (if bool_decide ("." ∈ l) then AFloat false token else AInt (int_of_digits l))
  else
    let '(whole, fraction) := partition_at "点" l in
    match parse_cn_int whole with
    | None => None
    | Some value =>
        match fraction with
        | [] => Some (AInt value)
        | _ =>
            match all_some (dict_get CN_DIGITS) fraction with
            | Some ds => Some (AFloat false (int_str value +:+ "." +:+ cat (map int_str ds)))
            | None => None
            end
        end
    end.

(** One pattern: the quantities it finds, or an unreadable number. *)
Fixpoint read_matches (unit : option string) (ms : list (string * string)) : option (list Quantity) :=
  match ms with
  | [] => Some []
  | (whole, token) :: rest =>
      match parse_number token, read_matches unit rest with
      | Some v, Some qs => Some (mkQuantity v unit (py_take 64 whole) :: qs)
      | _, _ => None
      end
  end.
Fixpoint read_quantities (patterns : list ((list string -> option (nat * string)) * option string)) (text : list string) (found : list Quantity)
    : list string * option (list Quantity) :=
  match patterns with
  | [] => (text, Some found)
  | (m, unit) :: rest =>
      let '(text, ms) := take_pattern text m in
      match read_matches unit ms with
      | Some qs => read_quantities rest text (found ++ qs)
      | None => (text, None)
      end
  end.

(** *** [read_values] *)

Definition read_dimension (text : list string) : option string :=
  match remove_dups (map snd (List.filter (fun x => has_phrase (chars x.1) text) DIMENSION_WORDS)) with [d] => Some d | _ => None end.

Definition read_values (text : list string) : list string * Values :=
  let dimension := read_dimension text in
  let '(text, modes) := take text MODES in
  let mode_ids := remove_dups (map ht_value modes) in
  match mode_ids with
  | _ :: _ :: _ => (text, mkValues None None dimension (Some "multiple_modes"))
  | _ =>
      match read_quantities QUANTITY_PATTERNS text [] with
      | (text, None) => (text, mkValues None None dimension (Some "unreadable_number"))
      | (text, Some found) =>
          if bool_decide (1 < length found)%nat || existsb is_digit text then (text, mkValues None None dimension (Some "multiple_values"))
          else
            let quantity := match found with
              | q :: _ => Some (if bool_decide (q.(qt_unit) = None) && bool_decide (dimension = Some "temperature")
                                then mkQuantity q.(qt_value) (Some "celsius") q.(qt_raw_span) else q)
              | [] => None end in
            (text, mkValues quantity (hd_error mode_ids) dimension None)
      end
  end.

(** [utterance_values] *)
Definition utterance_values (request : InterpretationRequest) : Values :=
  let names := flat_map (fun c => map (fun n => cat (normalize_text n)) (c.(cd_name) :: c.(cd_aliases))) request.(ir_candidates) in
  let '(text, _) := take (normalize_text request.(ir_utterance)) (fold_left (fun d n => dict_set d n tt) names []) in
  snd (read_values text).

(** ** From a verb to a trait command *)

Definition SIMPLE : list (string * list (string * string)) :=
  [("on", [("on_off", "on"); ("position", "open"); ("operational", "start")]);
   ("off", [("on_off", "off"); ("position", "close"); ("operational", "stop")]);
   ("stop", [("position", "stop"); ("operational", "stop"); ("on_off", "off")]);
   ("pause", [("operational", "pause")]);
   ("dock", [("operational", "dock")]);
   ("lock", [("lock", "lock")]);
   ("unlock", [("lock", "unlock")]);
   ("mute", [("volume", "mute")])].

(** A trait, the dimensions it answers to, its default step, the units an amount may carry. *)
Definition STEPS : list (string * list string * Z * list (option string)) :=
  [("level", ["brightness"], 10, [Some "percent"; None]);
   ("thermostat", ["temperature"], 1, [Some "celsius"; None]);
   ("volume", ["volume"], 10, [Some "percent"; None]);
   ("fan_speed", ["speed"], 10, [Some "percent"; None])].
Definition SET_BY_DIMENSION : list (string * string) := [("brightness", "level"); ("volume", "volume"); ("speed", "fan_speed"); ("position", "position")].
Definition PERCENT_TRAITS : list string := ["level"; "position"; "fan_speed"; "volume"].

Definition amount_value (a : Amount) : pyval :=
  match a with AInt z => VInt z | AFloat n l => VFloat (float_repr (if n then "-" +:+ l else l)%string) end.

(** [_valued] *)
Definition valued (trait command name : string) (value : Amount) (unit : option string) (quantity : option Quantity) : Action :=
  mkAction trait command [mkSlot name (amount_value value) unit (qt_raw_span <$> quantity)].

(** [_set] *)
Definition set_command (traits : list string) (modes : option (list string)) (dimension : option string) (quantity : option Quantity) (mode : option string) : option Action :=
  match mode with
  | Some m =>
      if (if quantity is Some _ then true else false) || negb (bool_decide ("thermostat" ∈ traits)) then None
      else if match modes with Some ms => negb (bool_decide (m ∈ ms)) | None => false end then None
      else Some (mkAction "thermostat" "set_mode" [mkSlot "mode" (VStr m) None None])
  | None =>
      match quantity with
      | None => None
      | Some q =>
          let target := Some (valued "thermostat" "set_target" "celsius" q.(qt_value) (Some "°C") (Some q)) in
          if bool_decide (q.(qt_unit) = Some "celsius") || bool_decide (dimension = Some "temperature") then
            if negb (bool_decide ("thermostat" ∈ traits)) || bool_decide (q.(qt_unit) = Some "percent") then None else target
          else
            let chosen := match dimension with
              | Some d =>
                  match dict_get SET_BY_DIMENSION d with
                  | Some t => Some (if bool_decide (t ∈ traits) then Some t else None)
                  | None => None
                  end
              | None => Some (List.find (fun t => bool_decide (t ∈ traits)) PERCENT_TRAITS) end in
            match chosen with
            | None => None
            | Some None => if bool_decide (q.(qt_unit) = None) && bool_decide (dimension = None) && bool_decide ("thermostat" ∈ traits) then target else None
            | Some (Some trait) =>
                if negb (is_int q.(qt_value)) then None
                else Some (valued trait "set" "value" q.(qt_value) (if bool_decide (q.(qt_unit) = Some "percent") then Some "%" else None) (Some q))
            end
      end
  end.

(** [_step] *)
Fixpoint step_command (steps : list (string * list string * Z * list (option string))) (traits : list string) (dimension : option string)
    (quantity : option Quantity) (sign : Z) : option Action :=
  match steps with
  | [] => None
  | (trait, dimensions, default_step, units) :: rest =>
      if negb (bool_decide (trait ∈ traits)) || match dimension with Some d => negb (bool_decide (d ∈ dimensions)) | None => false end
      then step_command rest traits dimension quantity sign
      else
        let amount := match quantity with
          | None => Some (AInt default_step)
          | Some q => if bool_decide (q.(qt_unit) ∈ units) then Some q.(qt_value) else None end in
        match amount with
        | None => None
        | Some a =>
            if negb (bool_decide (trait = "thermostat")) && negb (is_int a) then None
            else
              let unit := if bool_decide (trait = "thermostat") then Some "°C" else if bool_decide (trait = "level") then Some "%" else None in
              Some (valued trait "step" "delta" (signed sign a) unit quantity)
        end
  end.

(** [_command] *)
Definition trait_command (traits : list string) (modes : option (list string)) (v : Verb) (values : Values) : option Action :=
  match values.(vl_problem) with
  | Some _ => None
  | None =>
      let dimension := match v.(vb_dimension) with Some d => if is_empty d then values.(vl_dimension) else Some d | None => values.(vl_dimension) end in
      let given := (if values.(vl_quantity) is Some _ then true else false) || (if values.(vl_mode) is Some _ then true else false) in
      let op := if bool_decide (v.(vb_op) = "on") && given then "set" else v.(vb_op) in
      if bool_decide (op = "set") then set_command traits modes dimension values.(vl_quantity) values.(vl_mode)
      else if (if values.(vl_mode) is Some _ then true else false) then None
      else if bool_decide (op ∈ ["up"; "down"]) then step_command STEPS traits dimension values.(vl_quantity) (if bool_decide (op = "up") then 1 else -1)
      else if (if values.(vl_quantity) is Some _ then true else false) then None
      else
        match List.find (fun x => bool_decide (x.1 ∈ traits)) (default [] (dict_get SIMPLE op)) with
        | Some (trait, command) => Some (mkAction trait command (if bool_decide (command = "mute") then [mkSlot "muted" (VBool true) None None] else []))
        | None => None
        end
  end.

Context `{HomeSdk}.

Definition command_for (kind : string) (v : Verb) (values : Values) : option Action :=
  if bool_decide (kind = SCENE_KIND) then
    if (if values.(vl_quantity) is Some _ then true else false) || (if values.(vl_mode) is Some _ then true else false)
       || negb (bool_decide (v.(vb_op) ∈ ["on"; "set"])) then None
    else Some (mkAction SCENE_TRAIT SCENE_COMMAND [])
  else
    match dict_get DEVICE_TYPES kind with
    | None => None
    | Some spec => trait_command spec.(ty_traits) (Some spec.(ty_modes)) v values
    end.
Definition generic_command (v : Verb) (values : Values) : option Action := trait_command (map fst TRAIT_COMMANDS) None v values.
End Text.
