(* ===== verification/Rules.v ===== *)
(** * [infra/interpretation/adapters/rules.py]: the deterministic interpreter of smart-home utterances.

    [read] gives a proposal or the reason to abstain; the constructors of the SDK may refuse. Where the
    code takes any element of a set of several verbs, the first is taken here: such a reading abstains. *)

From S2P Require Import Prelude CoreTypes Json HomePlanning Lexicon.

#[global] Instance home_candidate_eq_dec : EqDecision HomeCandidate.
Proof. solve_decision. Defined.

Definition RULES_POLICY_VERSION : string := "rules-zh-v1".
Definition RULES_MODEL_VERSION : string := "rules-zh-v1".
Definition MAX_TARGETS : nat := 64.
Definition MAX_MENTION : nat := 32.

Inductive Reading := Proposed (p : Proposal) | Abstained (reason : string).
Definition UNRELATED_READING : Reading := Proposed (mkHomeProposal "unrelated" "none" [] None None).

(** What a phrase of the one longest-first pass is. *)
Inductive Span := SpanLock (v : Verb) (w : DeviceWord) | SpanName (cs : list HomeCandidate) | SpanNoise | SpanWord (w : DeviceWord).

Definition set_default {V} (d : list (string * V)) (k : string) (v : V) : list (string * V) := if dict_has d k then d else d ++ [(k, v)].
Definition set_defaults {X V} (key : X -> string) (value : X -> V) (l : list X) (d : list (string * V)) : list (string * V) :=
  fold_left (fun d x => set_default d (key x) (value x)) l d.

Section Rules.
Context `{HomeSdk} (nfkc_lower : string -> string) (decimal : string -> option Z) (float_repr : string -> string).
(** A field of the request whose default is the SDK's *)
Context (allowed_intents : InterpretationRequest -> list string).
Notation norm := (normalize_text nfkc_lower decimal).

Definition is_scene (c : HomeCandidate) : bool := bool_decide (c.(cd_kind) = SCENE_KIND).
Definition names_of (c : HomeCandidate) : list string := c.(cd_name) :: c.(cd_aliases).

(** [_spans_table] *)
Definition with_names (cs : list HomeCandidate) : list (HomeCandidate * string) := flat_map (fun c => map (fun n => (c, n)) (names_of c)) cs.
Definition owner_name (names : list (string * list HomeCandidate)) (x : HomeCandidate * string) : list (string * list HomeCandidate) :=
  let key := cat (norm x.2) in
  let known := default [] (dict_get names key) in
  if is_empty key || bool_decide (x.1 ∈ known) then names else dict_set names key (known ++ [x.1]).
Definition owner_names (devices : list HomeCandidate) : list (string * list HomeCandidate) := fold_left owner_name (with_names devices) [].
Definition spans_table (devices : list HomeCandidate) : list (string * Span) :=
  set_defaults fst (fun x => SpanWord x.2) DEVICE_WORDS
    (set_defaults id (fun _ => SpanNoise) NOISE
      (set_defaults fst (fun x => SpanName x.2) (owner_names devices)
        (map (fun x => (x.1, SpanLock x.2.1 x.2.2)) LOCK_COMPOUNDS))).

(** [_take_scenes] *)
Fixpoint scene_starts (key : list string) (skip pos : nat) (l : list string) : list nat :=
  match l with
  | [] => []
  | _ :: rest =>
      match skip with
      | S k => scene_starts key k (S pos) rest
      | O =>
          match List.find (fun v => starts (chars v ++ key) l) SCENE_VERBS with
          | Some v => (pos + py_len v)%nat :: scene_starts key (py_len v + length key - 1) (S pos) rest
          | None => scene_starts key 0 (S pos) rest
          end
      end
  end.
Definition blank_at (text : list string) (start n : nat) : list string := firstn start text ++ repeat BLANK n ++ skipn (start + n) text.

(** The tables with and without a suffix *)
Definition scene_name (acc : list (string * HomeCandidate) * list (string * HomeCandidate)) (x : HomeCandidate * string)
    : list (string * HomeCandidate) * list (string * HomeCandidate) :=
  match norm x.2 with
  | [] => acc
  | key =>
      let suffixed := if existsb (fun s => ends_in (chars s) key) SCENE_SUFFIXES then dict_set acc.1 (cat key) x.1 else acc.1 in
      (fold_left (fun d s => dict_set d (cat key +:+ s)%string x.1) SCENE_SUFFIXES suffixed, dict_set acc.2 (cat key) x.1)
  end.
Definition scene_names (scenes : list HomeCandidate) : list (string * HomeCandidate) * list (string * HomeCandidate) :=
  fold_left scene_name (with_names scenes) ([], []).

Definition take_bare_scene (acc : list string * list (Hit HomeCandidate)) (x : string * HomeCandidate) : list string * list (Hit HomeCandidate) :=
  let key := chars x.1 in
  let found := scene_starts key 0 0 acc.1 in
  (fold_left (fun t i => blank_at t i (length key)) found acc.1, acc.2 ++ map (fun i => mkHit i (i + length key) x.1 x.2) found).
Definition take_scenes (text : list string) (scenes : list HomeCandidate) : list string * list (Hit HomeCandidate) :=
  let '(suffixed, bare) := scene_names scenes in
  fold_left take_bare_scene (longest_first bare) (take text suffixed).

(** The constructors of the SDK *)
Definition propose (intent status : string) (targets : list string) (action : option Action) (mention : option string) : res Reading :=
  match action with Some a => check_action a | None => Ok tt end ≫= fun _ =>
  let p := mkHomeProposal intent status targets action mention in
  check_proposal p ≫= fun _ => Ok (Proposed p).

(** [_scene] *)
Definition read_scene (hits : list (Hit HomeCandidate)) (other_targets asked : bool) (v : Verb) (values : Values) : res Reading :=
  if bool_decide (1 < length (remove_dups (map (fun h => h.(ht_value).(cd_ref)) hits)))%nat || other_targets then Ok (Abstained "multiple_targets")
  else if asked then Ok (Abstained "scene_query")
  else
    match command_for float_repr SCENE_KIND v values with
    | None => Ok (Abstained "unsupported_command")
    | Some action => propose "control" "resolved" (match hits with h :: _ => [h.(ht_value).(cd_ref)] | [] => [] end) (Some action) None
    end.

(** [_narrow] *)
Definition narrow (pool : list HomeCandidate) (origin : option string) : string * list HomeCandidate * option string :=
  match pool with
  | [_] => ("resolved", pool, None)
  | _ =>
      let local := List.filter (fun c => match origin with Some o => bool_decide (c.(cd_area_id) = Some o) | None => false end) pool in
      match local with
      | [_] => ("resolved", local, None)
      | _ => ("ambiguous", (if bool_decide (1 < length local)%nat then local else pool), None)
      end
  end.

Definition in_area_of (area : HomeArea) (pool : list HomeCandidate) : list HomeCandidate := List.filter (fun c => bool_decide (c.(cd_area_id) = Some area.(ha_area_id))) pool.

(** [_resolve]; [inr] is the reason to abstain. *)
Definition resolve_targets (origin : option string) (devices : list HomeCandidate) (named : list (list HomeCandidate)) (words : list DeviceWord)
    (quantified : bool) (area : option HomeArea) : (string * list HomeCandidate * option string) + string :=
  match named with
  | pool :: _ =>
      if bool_decide (1 < length (remove_dups named))%nat then inr "multiple_targets"
      else if existsb (fun w => negb (existsb (word_matches w) pool)) words then inr "multiple_targets"
      else
        match area with
        | Some a => match in_area_of a pool with [] => inr "area_conflict" | pool => inl (narrow pool origin) end
        | None => inl (narrow pool origin)
        end
  | [] =>
      match remove_dups (map (fun w => List.filter (word_matches w) devices) words), words with
      | _ :: _ :: _, _ => inr "multiple_targets"
      | pool :: _, w :: _ =>
          match area with
          | Some a =>
              match in_area_of a pool with
              | [] => inl ("none", [], Some (a.(ha_name) +:+ "的" +:+ w.(dw_word))%string)
              | pool =>
                  if quantified then inl ("resolved", pool, None)
                  else inl (if bool_decide (length pool = 1)%nat then "resolved" else "ambiguous", pool, None)
              end
          | None =>
              match pool with
              | [] => inl ("none", [], Some w.(dw_word))
              | _ => if quantified then inl ("resolved", pool, None) else inl (narrow pool origin)
              end
          end
      | _, _ => inr "multiple_targets"
      end
  end.

(** Equality of what slots hold here *)
Definition same_value (v w : pyval) : bool :=
  match v, w with
  | VInt a, VInt b => a =? b
  | VFloat a, VFloat b | VStr a, VStr b => bool_decide (a = b)
  | VBool a, VBool b => Bool.eqb a b
  | _, _ => false
  end.
Fixpoint same_slots (a b : list Slot) : bool :=
  match a, b with
  | [], [] => true
  | x :: a', y :: b' => bool_decide ((x.(sl_name), x.(sl_unit), x.(sl_raw_span)) = (y.(sl_name), y.(sl_unit), y.(sl_raw_span)))
      && same_value x.(sl_value) y.(sl_value) && same_slots a' b'
  | _, _ => false
  end.
Definition same_action (a b : option Action) : bool :=
  match a, b with
  | Some a, Some b => bool_decide ((a.(ac_trait), a.(ac_command)) = (b.(ac_trait), b.(ac_command))) && same_slots a.(ac_slots) b.(ac_slots)
  | None, None => true
  | _, _ => false
  end.

(** [_action]: the one command of all targets *)
Definition common_action (targets : list HomeCandidate) (v : Verb) (values : Values) : option Action :=
  match targets with
  | [] => generic_command float_repr v values
  | c :: rest =>
      let a := command_for float_repr c.(cd_kind) v values in
      if forallb (fun d => same_action a (command_for float_repr d.(cd_kind) v values)) rest then a else None
  end.

(** *** [read] *)

(** What the passes over the text leave and find *)
Record Scan := mkScan {
  sn_text : list string;
  sn_scenes : list (Hit HomeCandidate);
  sn_spans : list (Hit Span);
  sn_negated : bool;
  sn_quantified : bool;
  sn_areas : list HomeArea;
  sn_rooms : bool;
  sn_explicit_verbs : list Verb;
  sn_values : Values;
  sn_asked : bool;
  sn_verb_hits : list (Hit Verb);
}.

Definition nonempty {A} (l : list A) : bool := if l is [] then false else true.

Definition area_table (areas : list HomeArea) : list (string * HomeArea) := fold_left (fun d a => dict_set d (cat (norm a.(ha_name))) a) areas [].
Definition scan_text (original : list string) (request : InterpretationRequest) : Scan :=
  let devices := List.filter (fun c => negb (is_scene c)) request.(ir_candidates) in
  let scenes := List.filter is_scene request.(ir_candidates) in
  let '(text, scene_hits) := take_scenes original scenes in
  let '(text, spans) := take text (spans_table devices) in
  let negated := has_any NEGATION text in
  let '(text, quantified) := take text (map (fun q => (q, tt)) QUANTIFIERS) in
  let '(text, area_hits) := take text (area_table request.(ir_areas)) in
  let '(text, rooms) := take text (map (fun r => (r, tt)) ROOM_WORDS) in
  let explicit_verbs := map ht_value (snd (take text VERBS)) in
  let '(text, values) := read_values decimal text in
  let '(text, queries) := take_pattern text (literal_match QUERY) in
  let asked := nonempty queries || existsb (fun p => ends_in (chars p) text) QUERY_TAIL in
  let '(text, verb_hits) := take text VERBS in
  mkScan text scene_hits spans negated (nonempty quantified)
    (map snd (fold_left (fun d h => dict_set d h.(ht_value).(ha_area_id) h.(ht_value)) area_hits [])) (nonempty rooms) explicit_verbs values asked verb_hits.

Definition named_pools (spans : list (Hit Span)) : list (list HomeCandidate) := flat_map (fun h => match h.(ht_value) with SpanName cs => [cs] | _ => [] end) spans.
Definition span_words (spans : list (Hit Span)) : list DeviceWord := flat_map (fun h => match h.(ht_value) with SpanWord w | SpanLock _ w => [w] | _ => [] end) spans.
Definition span_verbs (spans : list (Hit Span)) : list Verb := flat_map (fun h => match h.(ht_value) with SpanLock v _ => [v] | _ => [] end) spans.

(** The device word a verb or a dimension implies *)
Definition implied_word (verbs : list Verb) (values : Values) : option DeviceWord :=
  let implied d := dict_get IMPLIED_BY_DIMENSION (default "" d) in
  match implied (default (verb "set") (hd_error verbs)).(vb_dimension) with Some w => Some w | None => implied values.(vl_dimension) end.

Definition read (require_complete : bool) (request : InterpretationRequest) : res Reading :=
  let original := norm request.(ir_utterance) in
  match original with
  | [] => Ok UNRELATED_READING
  | _ =>
  if has_any IMPLICIT original then Ok (Abstained "implicit")
  else
    let s := scan_text original request in
    if require_complete && (existsb (fun c => negb (bool_decide (c = BLANK))) s.(sn_text)
         || existsb (fun h => match h.(ht_value) with SpanNoise => true | _ => false end) s.(sn_spans)
         || bool_decide (1 < length s.(sn_verb_hits))%nat) then Ok (Abstained "incomplete_reading")
    else
      let named := named_pools s.(sn_spans) in
      let words := span_words s.(sn_spans) in
      let verbs := remove_dups (map ht_value s.(sn_verb_hits) ++ span_verbs s.(sn_spans)) in
      let values := s.(sn_values) in
      let commanded := nonempty verbs || (if values.(vl_quantity) is Some _ then true else false) || (if values.(vl_mode) is Some _ then true else false) in
      let explicit := nonempty named || nonempty words || nonempty s.(sn_scenes) in
      if require_complete && negb explicit then Ok (Abstained "no_explicit_target")
      else
        let words := if negb explicit && commanded && negb s.(sn_asked) then match implied_word verbs values with Some w => [w] | None => [] end else words in
        let mentioned := nonempty named || nonempty words || nonempty s.(sn_scenes) in
        if s.(sn_negated) then Ok (if mentioned || commanded then Abstained "negation" else UNRELATED_READING)
        else if bool_decide (1 < length (remove_dups (verbs ++ s.(sn_explicit_verbs))))%nat then Ok (Abstained "multiple_commands")
        else if s.(sn_rooms) then Ok (Abstained "unknown_area")
        else if bool_decide (1 < length s.(sn_areas))%nat then Ok (Abstained "multiple_areas")
        else
          match values.(vl_problem) with
          | Some problem => Ok (Abstained problem)
          | None =>
              let area := hd_error s.(sn_areas) in
              let v := default (verb "set") (hd_error verbs) in
              if nonempty s.(sn_scenes) then read_scene s.(sn_scenes) (nonempty named || nonempty words) s.(sn_asked) v values
              else
                let words :=
                  if mentioned then Some words
                  else if s.(sn_asked) && has_any SENSOR_QUERY original && ((if area is Some _ then true else false) || negb (has_any WEATHER original))
                  then Some [SENSOR_WORD] else None in
                match words with
                | None => Ok (if commanded then Abstained "no_target" else UNRELATED_READING)
                | Some words =>
                    let devices := List.filter (fun c => negb (is_scene c)) request.(ir_candidates) in
                    match resolve_targets request.(ir_area_id) devices named words s.(sn_quantified) area with
                    | inr reason => Ok (Abstained reason)
                    | inl (status, targets, mention) =>
                        if bool_decide (MAX_TARGETS < length targets)%nat then Ok (Abstained "too_many_targets")
                        else
                          let refs := map cd_ref targets in
                          let mention := match mention with Some m => if is_empty m then None else Some (py_take MAX_MENTION m) | None => None end in
                          if s.(sn_asked) then propose "query" status refs None mention
                          else if negb commanded then Ok (Abstained "no_command")
                          else
                            match common_action targets v values with
                            | None => Ok (Abstained "unsupported_command")
                            | Some action => propose "control" status refs (Some action) mention
                            end
                    end
                end
          end
  end.

(** ** [RulesInterpreter.interpret] *)

Definition rules_interpret (require_complete : bool) (request : InterpretationRequest) : res InterpretationResult :=
  if negb (bool_decide (request.(ir_domain) = "smarthome")) then Err (PyError "InterpretationError" ERROR_INVALID_REQUEST)
  else
    reading ← read require_complete request;
    let reading := match reading with
      | Proposed p => if bool_decide (p.(pp_intent) ∈ allowed_intents request) then reading else Abstained "intent_not_allowed"
      | _ => reading end in
    let result := match reading with
      | Abstained reason => mkInterpretationResult request.(ir_interpretation_id) "abstained" None RULES_POLICY_VERSION RULES_MODEL_VERSION [("reason", VStr reason)]
      | Proposed p => mkInterpretationResult request.(ir_interpretation_id) "decided" (Some p) RULES_POLICY_VERSION RULES_MODEL_VERSION []
      end in
    check_result result ≫= fun _ => Ok result.

(** ** [has_explicit_reference], [exact_named_target] *)

Definition has_explicit_reference (include_areas : bool) (request : InterpretationRequest) : bool :=
  let devices := List.filter (fun c => negb (is_scene c)) request.(ir_candidates) in
  let '(text, scene_hits) := take_scenes (norm request.(ir_utterance)) (List.filter is_scene request.(ir_candidates)) in
  let '(text, spans) := take text (spans_table devices) in
  if nonempty scene_hits || existsb (fun h => match h.(ht_value) with SpanNoise => false | _ => true end) spans then true
  else if negb include_areas then false
  else
    let '(text, areas) := take text (area_table request.(ir_areas)) in
    let '(_, rooms) := take text (map (fun r => (r, tt)) ROOM_WORDS) in
    nonempty areas || nonempty rooms.

Definition exact_named_target (request : InterpretationRequest) : option HomeCandidate :=
  match dict_get (spans_table (List.filter (fun c => negb (is_scene c)) request.(ir_candidates))) (cat (norm request.(ir_utterance))) with
  | Some (SpanName [c]) => Some c
  | _ => None
  end.
End Rules.

(** ** The theorems on the rules interpreter: it proposes what an owner's home has and the utterance says,
      one target unless a quantifier was said, one command its types support; and it reads Chinese numbers. *)

(** ** Numbers *)

(** The numeral of a number below a thousand. *)
Definition cn_digit (n : Z) : string := default "" (hd_error (List.filter (fun c => bool_decide (dict_get CN_DIGITS c = Some n)) CN)).
Definition cn_numeral (n : Z) : list string :=
  let h := n / 100 in let t := n / 10 mod 10 in let o := n mod 10 in
  if n =? 0 then ["零"]
  else
    (if h =? 0 then [] else [cn_digit h; "百"]) ++
    (if t =? 0 then (if negb (h =? 0) && negb (o =? 0) then ["零"] else []) else if (t =? 1) && (h =? 0) then ["十"] else [cn_digit t; "十"]) ++
    (if o =? 0 then [] else [cn_digit o]).

Fixpoint numbers_below (n : nat) : list Z := match n with O => [] | S m => Z.of_nat m :: numbers_below m end.
Lemma numbers_below_in n z : 0 <= z < Z.of_nat n -> z ∈ numbers_below n.
Proof.
  induction n as [|n IH]; [lia|]. intros Hz. simpl. destruct (decide (z = Z.of_nat n)) as [->|]; [by left|right; apply IH; lia].
Qed.

Lemma cn_numerals_table : forallb (fun n => bool_decide (parse_cn_int (cn_numeral n) = Some n)) (numbers_below 1000) = true.
Proof. vm_compute. reflexivity. Qed.

(** Every Chinese numeral below a thousand is read as its number. *)
Theorem chinese_numbers_are_read n : 0 <= n < 1000 -> parse_cn_int (cn_numeral n) = Some n.
Proof.
  intros Hn. pose proof cn_numerals_table as H. rewrite forallb_forall in H.
  apply (bool_decide_eq_true (parse_cn_int (cn_numeral n) = Some n)), H, list_elem_of_In, numbers_below_in. simpl. lia.
Qed.

Lemma chinese_numbers_are_read_witness : cn_numeral 205 = ["二"; "百"; "零"; "五"] /\ parse_cn_int (cn_numeral 205) = Some 205.
Proof. split; [vm_compute; reflexivity|apply (chinese_numbers_are_read 205); lia]. Defined.

(** ** The passes *)

Lemma py_sorted_in {A} (leb : A -> A -> bool) (l : list A) x : x ∈ py_sorted leb l <-> x ∈ l.
Proof. by rewrite (py_sorted_perm leb l). Qed.

Lemma take_entry_hits {T} (acc : list string * list (Hit T)) x h : h ∈ (take_entry acc x).2 -> h ∈ acc.2 \/ h.(ht_value) = x.2.
Proof.
  unfold take_entry. destruct (chars x.1) as [|c p]; [by left|]. destruct (take_phrase _ _ _ _) as [t starts]. simpl.
  intros [?|(i & -> & _)%list_elem_of_fmap]%elem_of_app; [by left|by right].
Qed.

(** A hit is an entry of the table. *)
Lemma take_hits {T} text (table : list (string * T)) h : h ∈ (take text table).2 -> exists k, (k, h.(ht_value)) ∈ table.
Proof.
  unfold take. assert (forall h, h ∈ (fold_left take_entry (longest_first table) (text, [])).2 -> exists k, (k, h.(ht_value)) ∈ table) as Hall.
  { apply (fold_left_inv (fun acc : list string * list (Hit T) => forall h, h ∈ acc.2 -> exists k, (k, ht_value h) ∈ table)); [by intros ? ?%elem_of_nil|].
    intros acc x Hx Hacc h' [?|E]%take_entry_hits; [auto|]. unfold longest_first in Hx. apply py_sorted_in in Hx. exists x.1. rewrite E. by destruct x. }
  destruct (fold_left take_entry _ _) as [t hits]. simpl in *. unfold by_start. rewrite py_sorted_in. apply Hall.
Qed.

Lemma setdefault_in {V} (d : list (string * V)) k v x : x ∈ set_default d k v -> x ∈ d \/ x = (k, v).
Proof. unfold set_default. destruct (dict_has d k); [by left|]. intros [?|?%list_elem_of_singleton]%elem_of_app; auto. Qed.

Section Rules.
Context `{HomeSdk} (nfkc_lower : string -> string) (decimal : string -> option Z) (float_repr : string -> string).

Lemma with_names_in cs x : x ∈ with_names cs -> x.1 ∈ cs.
Proof.
  intros Hin%list_elem_of_In%in_flat_map. destruct Hin as (d & Hd & Hin). apply in_map_iff in Hin as (m & <- & _). by apply list_elem_of_In.
Qed.

(** Names are those of the devices. *)
Lemma owner_names_in devices k cs : (k, cs) ∈ owner_names nfkc_lower decimal devices -> cs <> [] /\ forall c, c ∈ cs -> c ∈ devices.
Proof.
  revert k cs. unfold owner_names.
  apply (fold_left_inv (fun names => forall k cs, (k, cs) ∈ names -> cs <> [] /\ forall c, c ∈ cs -> c ∈ devices)); [by intros ? ? ?%elem_of_nil|].
  intros names x Hx%with_names_in Hn k cs. unfold owner_name. destruct (_ || _); [apply Hn|].
  intros [[-> ->]|?]%dict_set_elem; [|by eapply Hn]. split; [by destruct (default [] _)|].
  intros c [Hc| ->%list_elem_of_singleton]%elem_of_app; [|done].
  destruct (dict_get names _) as [known|] eqn:Eg; [|by apply elem_of_nil in Hc]. apply dict_get_elem in Eg. by apply (Hn _ _ Eg).
Qed.

Lemma set_defaults_in {X V} (k : X -> string) (v : X -> V) l t x : x ∈ set_defaults k v l t -> x ∈ t \/ exists y, y ∈ l /\ x = (k y, v y).
Proof.
  revert x. unfold set_defaults. apply (fold_left_inv (fun t' => forall x, x ∈ t' -> x ∈ t \/ exists y, y ∈ l /\ x = (k y, v y))); [by left|].
  intros t' y Hy Ht x [?| ->]%setdefault_in; [auto|right; by exists y].
Qed.

Definition span_names (x : Span) : option (list HomeCandidate) := if x is SpanName cs then Some cs else None.
Lemma set_defaults_named {X} (k : X -> string) (v : X -> Span) l t key x cs :
  (forall y, span_names (v y) = None) -> (key, x) ∈ set_defaults k v l t -> span_names x = Some cs -> (key, x) ∈ t.
Proof. intros Hv [?|(y & _ & [= -> ->])]%set_defaults_in E; [done|by rewrite Hv in E]. Qed.

(** Only the names of the devices give names to the table, whatever the tables of words. *)
Lemma spans_named {X Y Z'} (words : list X) kw (w : X -> Span) (noise : list Y) kn (n : Y -> Span) (locks : list Z') kl (l : Z' -> Span) devices key x cs :
  (forall y, span_names (w y) = None) -> (forall y, span_names (n y) = None) -> (forall y, span_names (l y) = None) ->
  (key, x) ∈ set_defaults kw w words (set_defaults kn n noise
    (set_defaults fst (fun x => SpanName x.2) (owner_names nfkc_lower decimal devices) (map (fun z => (kl z, l z)) locks))) ->
  span_names x = Some cs -> cs <> [] /\ forall c, c ∈ cs -> c ∈ devices.
Proof.
  intros Hw Hn Hl Hin E. eapply set_defaults_named in Hin; [|done..]. eapply set_defaults_named in Hin; [|done..].
  apply set_defaults_in in Hin as [Hin|(y & Hy & [= -> ->])].
  - apply list_elem_of_fmap in Hin as (z & [= -> ->] & _). by rewrite Hl in E.
  - injection E as <-. apply (owner_names_in devices y.1 y.2). by destruct y.
Qed.

#[local] Strategy 1000 [set_defaults].
Lemma spans_names devices k x cs : (k, x) ∈ spans_table nfkc_lower decimal devices -> span_names x = Some cs -> cs <> [] /\ forall c, c ∈ cs -> c ∈ devices.
Proof.
  exact (spans_named DEVICE_WORDS fst (fun x => SpanWord x.2) NOISE id (fun _ => SpanNoise) LOCK_COMPOUNDS fst (fun x => SpanLock x.2.1 x.2.2) devices k x cs
           (fun _ => eq_refl) (fun _ => eq_refl) (fun _ => eq_refl)).
Qed.

(** Scenes are those of the home. *)
Definition all_in (scenes : list HomeCandidate) (d : list (string * HomeCandidate)) : Prop := forall k c, (k, c) ∈ d -> c ∈ scenes.
Lemma all_in_set scenes d k c : all_in scenes d -> c ∈ scenes -> all_in scenes (dict_set d k c).
Proof. intros Hd Hc k' c' [[-> ->]|?]%dict_set_elem; [done|by eapply Hd]. Qed.

Lemma scene_names_in scenes : all_in scenes (scene_names nfkc_lower decimal scenes).1 /\ all_in scenes (scene_names nfkc_lower decimal scenes).2.
Proof.
  unfold scene_names. apply (fold_left_inv (fun acc => all_in scenes acc.1 /\ all_in scenes acc.2)); [split; by intros ? ? ?%elem_of_nil|].
  intros [suffixed bare] x Hx%with_names_in [H1 H2]. unfold scene_name. destruct (normalize_text nfkc_lower decimal x.2) as [|y key]; [done|].
  split; [|by apply all_in_set]. apply (fold_left_inv (all_in scenes)); [destruct (existsb _ _); [by apply all_in_set|done]|]. intros. by apply all_in_set.
Qed.

Lemma take_scenes_hits text scenes h : h ∈ (take_scenes nfkc_lower decimal text scenes).2 -> h.(ht_value) ∈ scenes.
Proof.
  revert h. unfold take_scenes. destruct (scene_names nfkc_lower decimal scenes) as [suffixed bare] eqn:Es.
  pose proof (scene_names_in scenes) as [H1 H2]. rewrite Es in H1, H2.
  apply (fold_left_inv (fun acc : list string * list (Hit HomeCandidate) => forall h, h ∈ acc.2 -> ht_value h ∈ scenes)); [by intros h (k & Hk%H1)%take_hits|].
  intros acc [k c] Hx Hacc h [?|(i & -> & _)%list_elem_of_fmap]%elem_of_app; [by apply Hacc|]. unfold longest_first in Hx. apply py_sorted_in in Hx. by apply (H2 k).
Qed.

Lemma named_pools_in text devices pool : pool ∈ named_pools (take text (spans_table nfkc_lower decimal devices)).2 -> pool <> [] /\ forall c, c ∈ pool -> c ∈ devices.
Proof.
  intros Hin. apply list_elem_of_In, in_flat_map in Hin as (h & Hh & Hin). apply list_elem_of_In, take_hits in Hh as [k Hk].
  destruct (ht_value h) eqn:Ev; try done. destruct Hin as [<-|[]]. by eapply spans_names; [exact Hk|].
Qed.

(** ** Targets *)

Definition one_or (quantified : bool) (status : string) (targets : list HomeCandidate) : Prop :=
  (status = "resolved" /\ targets <> [] /\ (length targets = 1%nat \/ quantified = true)) \/ (status = "ambiguous" /\ length targets <> 1%nat) \/ (status = "none" /\ targets = []).

Lemma narrow_spec pool origin : forall status targets mention, narrow pool origin = (status, targets, mention) ->
  (forall c, c ∈ targets -> c ∈ pool) /\ forall q, one_or q status targets.
Proof.
  intros status targets mention. unfold narrow. destruct pool as [|c [|d pool]].
  - simpl. intros [= <- <- <-]. split; [done|]. intros q. right. by left.
  - intros [= <- <- <-]. split; [done|]. intros q. left. split_and!; auto.
  - set (local := List.filter _ _). assert (forall c, c ∈ local -> c ∈ c :: d :: pool \/ True) as _ by auto.
    assert (forall x, x ∈ local -> x ∈ c :: d :: pool) as Hl by (by intros x [? _]%elem_of_filter_list).
    destruct local as [|e [|f l]]; intros [= <- <- <-]; (split; [done|intros q]); [right; by left|left; split_and!; auto|right; by left].
Qed.

Lemma resolve_targets_spec origin devices named words quantified area status targets mention :
  resolve_targets origin devices named words quantified area = inl (status, targets, mention) ->
  (forall pool, pool ∈ named -> forall c, c ∈ pool -> c ∈ devices) ->
  (forall c, c ∈ targets -> c ∈ devices) /\ one_or quantified status targets.
Proof.
  assert (forall a pool c, c ∈ in_area_of a pool -> c ∈ pool) as Ha by (by intros a pool c [? _]%elem_of_filter_list).
  intros Hres Hn. unfold resolve_targets in Hres. destruct named as [|pool named].
  - set (pools := remove_dups _) in Hres. assert (forall p, p ∈ pools -> forall c, c ∈ p -> c ∈ devices) as Hp.
    { intros p Hp c Hc. unfold pools in Hp. apply elem_of_remove_dups, list_elem_of_fmap in Hp as (w & -> & _). by apply elem_of_filter_list in Hc as [? _]. }
    destruct pools as [|pool [|]]; [by destruct words| |done]. destruct words as [|w words]; [done|].
    assert (forall c, c ∈ pool -> c ∈ devices) as Hpool by (apply Hp; by left).
    destruct area as [a|].
    + assert (forall c, c ∈ in_area_of a pool -> c ∈ devices) as Hin by eauto.
      destruct (in_area_of a pool) as [|x l]; [injection Hres as <- <- <-; split; [by intros ? ?%elem_of_nil|right; by right]|].
      destruct quantified; injection Hres as <- <- <-; (split; [done|]); [left; split_and!; auto|].
      case_bool_decide as E; [left; split_and!; auto|right; left; auto].
    + destruct pool as [|x l]; [injection Hres as <- <- <-; split; [done|right; by right]|].
      destruct quantified; [injection Hres as <- <- <-; split; [done|left; split_and!; auto]|]. apply (inj inl) in Hres.
      destruct (narrow_spec _ _ _ _ _ Hres) as [Hsub Ho]. split; [auto|apply Ho].
  - case_bool_decide; [done|]. destruct (existsb _ words); [done|]. assert (forall c, c ∈ pool -> c ∈ devices) as Hpool by (apply Hn; by left).
    destruct area as [a|].
    + assert (forall c, c ∈ in_area_of a pool -> c ∈ devices) as Hin by eauto.
      destruct (in_area_of a pool) as [|x l]; [done|]. apply (inj inl) in Hres. destruct (narrow_spec _ _ _ _ _ Hres) as [Hsub Ho]. split; [auto|apply Ho].
    + apply (inj inl) in Hres. destruct (narrow_spec _ _ _ _ _ Hres) as [Hsub Ho]. split; [auto|apply Ho].
Qed.
End Rules.

(** ** Commands *)

Section Commands.
Context `{HomeSdk} (float_repr : string -> string).

(** What a slot holds was said: the quantity up to the direction, the mode, or nothing but the verb. *)
Definition was_said (values : Values) (s : Slot) : Prop :=
  (exists q, values.(vl_quantity) = Some q /\ s.(sl_raw_span) = Some q.(qt_raw_span) /\
     exists sign, (sign = 1 \/ sign = -1) /\ s.(sl_value) = amount_value float_repr (signed sign q.(qt_value))) \/
  (exists m, values.(vl_mode) = Some m /\ s.(sl_value) = VStr m) \/
  (values.(vl_quantity) = None /\ values.(vl_mode) = None /\ s.(sl_raw_span) = None /\ s.(sl_value) ∈ [VInt 10; VInt 1; VInt (-10); VInt (-1); VBool true]).

Record Supported (traits : list string) (modes : option (list string)) (values : Values) (a : Action) : Prop := {
  sup_trait : a.(ac_trait) ∈ traits;
  sup_mode : a.(ac_command) = "set_mode" -> exists m, values.(vl_mode) = Some m /\ a.(ac_slots) = [mkSlot "mode" (VStr m) None None] /\ forall ms, modes = Some ms -> m ∈ ms;
  sup_said : forall s, s ∈ a.(ac_slots) -> was_said values s;
}.

Lemma signed_one a : signed 1 a = a.
Proof. by destruct a as [[]|]. Qed.

Lemma valued_supported traits modes values q trait command name unit : values.(vl_quantity) = Some q -> command <> "set_mode" -> trait ∈ traits ->
  Supported traits modes values (valued float_repr trait command name q.(qt_value) unit (Some q)).
Proof.
  intros Hq Hc Ht. split; [done|done|]. intros s ->%list_elem_of_singleton. left. exists q. split_and!; [done..|]. exists 1. by rewrite signed_one; auto.
Qed.

Lemma set_command_supported traits modes dimension values a :
  set_command float_repr traits modes dimension values.(vl_quantity) values.(vl_mode) = Some a -> Supported traits modes values a.
Proof.
  unfold set_command. destruct (vl_mode values) as [m|] eqn:Em.
  - destruct (vl_quantity values) eqn:Eq; [done|]. simpl. case_bool_decide as Ht; simpl; [|done]. intros Ha.
    assert (a = mkAction "thermostat" "set_mode" [mkSlot "mode" (VStr m) None None] /\ forall ms, modes = Some ms -> m ∈ ms) as [-> Hm].
    { destruct modes as [ms|]; [|by injection Ha as <-]. case_bool_decide; [|done]. injection Ha as <-. split; [done|]. by intros ? [= <-]. }
    split; [done|intros _; by exists m|]. intros s ->%list_elem_of_singleton. right. left. by exists m.
  - destruct (vl_quantity values) as [q|] eqn:Eq; [|done]. case_match eqn:E1.
    { case_match eqn:E2; [done|]. intros [= <-]. apply orb_false_iff in E2 as [E2 _]. apply negb_false_iff, bool_decide_eq_true in E2.
      by apply valued_supported. }
    lazymatch goal with |- match ?c with Some _ => _ | None => _ end = _ -> _ => destruct c as [[trait|]|] eqn:E2; [| |done] end.
    + destruct (is_int _); simpl; [|done]. intros [= <-]. apply valued_supported; [done..|].
      destruct dimension as [d|]; [destruct (dict_get _ d) as [t|]; [|done]; case_bool_decide; [|done]; by injection E2 as <-|].
      apply (inj Some), find_some in E2 as [_ E2]. by apply bool_decide_eq_true in E2.
    + lazymatch goal with |- (if ?c then _ else _) = _ -> _ => destruct c eqn:E4; [|done] end. intros [= <-].
      apply andb_prop in E4 as [_ E4%bool_decide_eq_true]. by apply valued_supported.
Qed.

Lemma step_command_supported modes values sign a : sign = 1 \/ sign = -1 -> forall steps traits dimension,
  (forall x, x ∈ steps -> x.1.2 ∈ [10; 1]) -> values.(vl_mode) = None ->
  step_command float_repr steps traits dimension values.(vl_quantity) sign = Some a -> Supported traits modes values a.
Proof.
  intros Hsign steps traits dimension Hsteps Hm. induction steps as [|[[[trait dims] default_step] units] steps IH]; [done|]. simpl.
  case_bool_decide as Ht; simpl; [|intros; apply IH; [intros; apply Hsteps; by right|done]].
  destruct (match dimension with Some d => _ | None => false end); [intros; apply IH; [intros; apply Hsteps; by right|done]|].
  assert (default_step ∈ [10; 1]) as Hd by (apply (Hsteps (trait, dims, default_step, units)); by left).
  destruct (match values.(vl_quantity) with Some q => _ | None => _ end) as [v|] eqn:Ev; [|done]. destruct (_ && _); [done|]. intros [= <-].
  split; [done|done|]. intros s ->%list_elem_of_singleton. destruct (vl_quantity values) as [q|] eqn:Eq.
  - case_bool_decide; [|done]. injection Ev as <-. left. exists q. split_and!; [done..|]. by exists sign.
  - injection Ev as <-. right. right. split_and!; [done..|]. simpl. rewrite !elem_of_cons in Hd. destruct Hd as [->|[->|[]%not_elem_of_nil]], Hsign as [->| ->]; simpl; set_solver.
Qed.

(** A command is one of the type's traits, its mode one of the type's, its values what was said. *)
Lemma trait_command_supported traits modes v values a : trait_command float_repr traits modes v values = Some a ->
  values.(vl_problem) = None /\ Supported traits modes values a.
Proof.
  unfold trait_command. destruct (vl_problem values); [done|]. intros Ha. split; [done|]. revert Ha.
  match goal with |- context [set_command _ _ _ ?d] => generalize d; intros dimension end.
  match goal with |- context [bool_decide (?o = "set")] => generalize o; intros op end.
  case_bool_decide; [apply set_command_supported|]. destruct (vl_mode values) eqn:Em; [done|].
  case_bool_decide; [apply step_command_supported; [case_bool_decide; auto| |done]|].
  - apply Forall_forall. apply (bool_decide_unpack _). vm_compute. exact I.
  - destruct (vl_quantity values) eqn:Eq; [done|]. destruct (List.find _ _) as [[trait command]|] eqn:Ef; [|done]. intros [= <-].
    apply find_some in Ef as [Hin Ht%bool_decide_eq_true]. split; [done| |].
    + simpl. intros ->. exfalso. revert Hin. destruct (dict_get SIMPLE op) as [l|] eqn:El; [|done]. apply dict_get_elem in El. simpl.
      unfold SIMPLE in El. repeat (apply elem_of_cons in El as [[= -> ->]|El]; [simpl; intuition congruence|]). by apply elem_of_nil in El.
    + simpl. case_bool_decide; [|by intros s ?%elem_of_nil]. intros s ->%list_elem_of_singleton. right. right. split_and!; [done..|]. simpl. set_solver.
Qed.

(** What a target of the type may be told *)
Lemma command_for_supported kind v values a : command_for float_repr kind v values = Some a ->
  (kind = SCENE_KIND /\ a = mkAction SCENE_TRAIT SCENE_COMMAND [] /\ values.(vl_quantity) = None /\ values.(vl_mode) = None) \/
  exists spec, dict_get DEVICE_TYPES kind = Some spec /\ values.(vl_problem) = None /\ Supported spec.(ty_traits) (Some spec.(ty_modes)) values a.
Proof.
  unfold command_for. case_bool_decide.
  - destruct (vl_quantity values), (vl_mode values); try done. simpl. case_bool_decide; [|done]. intros [= <-]. left. auto.
  - destruct (dict_get DEVICE_TYPES kind) as [spec|]; [|done]. intros Ha%trait_command_supported. right. exists spec. tauto.
Qed.

(** A command of a device is one its type supports and says what was said; a scene is only activated. *)
Theorem commands_say_what_was_said kind v values a : command_for float_repr kind v values = Some a ->
  (kind = SCENE_KIND /\ a = mkAction SCENE_TRAIT SCENE_COMMAND [] /\ values.(vl_quantity) = None /\ values.(vl_mode) = None) \/
  exists spec, dict_get DEVICE_TYPES kind = Some spec /\ values.(vl_problem) = None /\ Supported spec.(ty_traits) (Some spec.(ty_modes)) values a.
Proof. apply command_for_supported. Qed.
End Commands.

(** ** Readings *)

Section Readings.
Context `{HomeSdk} (nfkc_lower : string -> string) (decimal : string -> option Z) (float_repr : string -> string).

Lemma same_value_eq v w : same_value v w = true -> v = w.
Proof. destruct v, w; try done; simpl; [intros ->%Bool.eqb_prop|intros ->%Z.eqb_eq|intros ->%bool_decide_eq_true|intros ->%bool_decide_eq_true]; done. Qed.
Lemma same_slots_eq a b : same_slots a b = true -> a = b.
Proof.
  revert b. induction a as [|x a IH]; intros [|y b]; try done. simpl. intros [[Hf%bool_decide_eq_true Hv%same_value_eq]%andb_prop ->%IH]%andb_prop.
  destruct x, y. simpl in *. congruence.
Qed.
Lemma same_action_eq a b : same_action a b = true -> a = b.
Proof.
  destruct a as [a|], b as [b|]; try done. simpl. intros [Hf%bool_decide_eq_true Hs%same_slots_eq]%andb_prop. destruct a, b. simpl in *. congruence.
Qed.

Lemma common_action_spec targets v values a : common_action float_repr targets v values = Some a ->
  forall c, c ∈ targets -> command_for float_repr c.(cd_kind) v values = Some a.
Proof.
  destruct targets as [|c rest]; [by intros _ ? ?%elem_of_nil|]. cbn [common_action]. destruct (forallb _ rest) eqn:Ef; [|done]. intros Ha d [->|Hd]%elem_of_cons; [done|].
  rewrite forallb_forall in Ef. apply list_elem_of_In, Ef, same_action_eq in Hd. congruence.
Qed.

Lemma propose_spec intent status targets action mention r : propose intent status targets action mention = Ok r ->
  r = Proposed (mkHomeProposal intent status targets action mention).
Proof.
  unfold propose. destruct (match action with Some a => check_action a | None => Ok tt end); [|done]. simpl. destruct (check_proposal _); [|done]. by intros [= <-].
Qed.

(** The verbs of an utterance *)
Definition said_verbs (s : Scan) : list Verb := remove_dups (map ht_value s.(sn_verb_hits) ++ span_verbs s.(sn_spans)).

(** What a proposal stands on *)
Record Grounded (request : InterpretationRequest) (s : Scan) (p : Proposal) : Prop := {
  gr_explicit : has_any IMPLICIT (normalize_text nfkc_lower decimal request.(ir_utterance)) = false;
  gr_affirmed : s.(sn_negated) = false;
  gr_one_verb : (length (remove_dups (said_verbs s ++ s.(sn_explicit_verbs))) <= 1)%nat;
  gr_one_area : (length s.(sn_areas) <= 1)%nat /\ s.(sn_rooms) = false;
  gr_readable : s.(sn_values).(vl_problem) = None;
  gr_targets : exists targets, p.(pp_targets) = map cd_ref targets /\ (forall c, c ∈ targets -> c ∈ request.(ir_candidates)) /\
    one_or s.(sn_quantified) p.(pp_target_status) targets /\
    ((p.(pp_intent) = "query" /\ p.(pp_action) = None) \/
     (p.(pp_intent) = "control" /\ exists a, p.(pp_action) = Some a /\
        forall c, c ∈ targets -> command_for float_repr c.(cd_kind) (default (verb "set") (hd_error (said_verbs s))) s.(sn_values) = Some a));
}.

Lemma read_scene_spec (scenes : list HomeCandidate) hits other asked v values r : read_scene float_repr hits other asked v values = Ok r ->
  hits <> [] -> (forall h, h ∈ hits -> h.(ht_value) ∈ scenes) -> (forall c, c ∈ scenes -> is_scene c = true) ->
  (exists reason, r = Abstained reason) \/
  exists c a, c ∈ scenes /\ r = Proposed (mkHomeProposal "control" "resolved" [c.(cd_ref)] (Some a) None) /\ command_for float_repr c.(cd_kind) v values = Some a.
Proof.
  unfold read_scene. intros Hr Hne Hin Hs. destruct (_ || _); [injection Hr as <-; eauto|]. destruct asked; [injection Hr as <-; eauto|].
  destruct (command_for float_repr SCENE_KIND v values) as [a|] eqn:Ea; [|injection Hr as <-; eauto]. apply propose_spec in Hr as ->.
  destruct hits as [|h hits]; [done|]. right. exists (ht_value h), a. assert (ht_value h ∈ scenes) as Hc by (apply Hin; by left). split_and!; [done..|].
  apply Hs in Hc. apply bool_decide_eq_true in Hc. by rewrite Hc.
Qed.

Lemma scan_hits text request :
  (forall h, h ∈ (scan_text nfkc_lower decimal text request).(sn_scenes) -> h.(ht_value) ∈ List.filter is_scene request.(ir_candidates)) /\
  exists t, (scan_text nfkc_lower decimal text request).(sn_spans) = (take t (spans_table nfkc_lower decimal (List.filter (fun c => negb (is_scene c)) request.(ir_candidates)))).2.
Proof.
  pose proof (take_scenes_hits nfkc_lower decimal text (List.filter is_scene request.(ir_candidates))) as Hs. unfold scan_text.
  destruct (take_scenes _ _ _ _) as [t1 scenes]. generalize (spans_table nfkc_lower decimal (List.filter (fun c => negb (is_scene c)) request.(ir_candidates))). intros table.
  destruct (take t1 table) as [t2 spans] eqn:E2. destruct (take t2 _) as [t3 q]. destruct (take t3 _) as [t4 areas]. destruct (take t4 _) as [t5 rooms].
  destruct (read_values _ t5) as [t6 vs]. destruct (take_pattern t6 _) as [t7 qs]. destruct (take t7 _) as [t8 verbs]. cbn [sn_scenes sn_spans].
  split; [exact Hs|]. exists t1. by rewrite E2.
Qed.

Lemma in_devices_or_scenes f (request : InterpretationRequest) c : c ∈ List.filter f request.(ir_candidates) -> c ∈ request.(ir_candidates).
Proof. by intros [? _]%elem_of_filter_list. Qed.

Lemma one_said {A} (l : list A) : bool_decide (1 < length l)%nat = false -> (length l <= 1)%nat.
Proof. intros E%bool_decide_eq_false. lia. Qed.

Lemma read_grounded require_complete request p : read nfkc_lower decimal float_repr require_complete request = Ok (Proposed p) ->
  Proposed p = UNRELATED_READING \/ Grounded request (scan_text nfkc_lower decimal (normalize_text nfkc_lower decimal request.(ir_utterance)) request) p.
Proof.
  unfold read. cbv zeta. destruct (normalize_text nfkc_lower decimal request.(ir_utterance)) as [|ch text] eqn:Eo; [by intros [= <-]; left|]. rewrite <- Eo.
  destruct (has_any IMPLICIT _) eqn:Eimp; [done|].
  pose proof (scan_hits (normalize_text nfkc_lower decimal (ir_utterance request)) request) as [Hscenes [t Hspans]].
  generalize dependent (scan_text nfkc_lower decimal (normalize_text nfkc_lower decimal (ir_utterance request)) request). intros s Hscenes Hspans.
  fold (said_verbs s). destruct (require_complete && _); [done|]. destruct (require_complete && _); [done|].
  destruct (sn_negated s) eqn:En; [by destruct (_ || _); intros [= <-]; left|].
  destruct (bool_decide _) eqn:Ev; [done|]. apply one_said in Ev. destruct (sn_rooms s) eqn:Er; [done|].
  destruct (bool_decide _) eqn:Ea; [done|]. apply one_said in Ea. destruct (vl_problem _) eqn:Ep; [done|].
  destruct (nonempty (sn_scenes s)) eqn:Es.
  - intros [[reason Hr]|(c & a & Hc & [= ->] & Ha)]%(read_scene_spec (List.filter is_scene request.(ir_candidates))); [done| | |done|].
    + right. split; try done. exists [c]. split_and!; [done| |left; split_and!; auto|].
      * intros d ->%list_elem_of_singleton. by eapply in_devices_or_scenes.
      * right. split; [done|]. exists a. split; [done|]. by intros d ->%list_elem_of_singleton.
    + by intros E; rewrite E in Es.
    + by intros d [_ ?]%elem_of_filter_list.
  - match goal with |- match ?w with Some _ => _ | None => _ end = _ -> _ => destruct w as [words|] end; [|by destruct (_ || _); intros [= <-]; left].
    destruct (resolve_targets _ _ _ _ _ _) as [[[status targets] mention]|] eqn:Et; [|done].
    apply resolve_targets_spec in Et as [Hin Hone]; [|rewrite Hspans; intros pool Hpool; by apply named_pools_in in Hpool as [_ ?]].
    destruct (bool_decide _); [done|]. assert (forall c, c ∈ targets -> c ∈ request.(ir_candidates)) as Hcand by (intros; by eapply in_devices_or_scenes, Hin).
    destruct (sn_asked s).
    + intros [= ->]%propose_spec. right. split; try done. exists targets. split_and!; auto.
    + destruct (negb _); [done|]. destruct (common_action _ _ _ _) as [a|] eqn:Eca; [|done]. intros [= ->]%propose_spec. right. split; try done.
      exists targets. split_and!; auto. right. split; [done|]. exists a. split; [done|]. by apply common_action_spec.
Qed.

Context (allowed_intents : InterpretationRequest -> list string).

Lemma interpret_reads require_complete request r p : rules_interpret nfkc_lower decimal float_repr allowed_intents require_complete request = Ok r ->
  r.(is_proposal) = Some p -> read nfkc_lower decimal float_repr require_complete request = Ok (Proposed p) /\ p.(pp_intent) ∈ allowed_intents request.
Proof.
  unfold rules_interpret. destruct (negb _); [done|]. destruct (read _ _ _ _ _) as [[q|reason]|]; [| |done]; simpl.
  - case_bool_decide as Hi; destruct (check_result _); simpl; [|done| |done]; intros [= <-]; [by intros [= <-]|done].
  - destruct (check_result _); simpl; [|done]. by intros [= <-].
Qed.

(** C30: Whatever the home and the utterance are: a proposal of the rules interpreter has an allowed
    intent and is either that the utterance is unrelated or grounded: nothing implicit or
    negated was said, one verb and one area at most, a readable amount; its targets are devices
    or scenes of the request, a single one or several by a quantifier when they count as
    resolved, and a control carries the one command that the verb and the values mean for the
    type of every target. *)
Theorem rules_never_guess require_complete request r p : rules_interpret nfkc_lower decimal float_repr allowed_intents require_complete request = Ok r ->
  r.(is_proposal) = Some p ->
  p.(pp_intent) ∈ allowed_intents request /\
  (Proposed p = UNRELATED_READING \/ Grounded request (scan_text nfkc_lower decimal (normalize_text nfkc_lower decimal request.(ir_utterance)) request) p).
Proof. intros Hr [Hread ?]%(interpret_reads _ _ _ _ Hr). split; [done|]. by apply read_grounded in Hread. Qed.
End Readings.

(** ** A home *)

Definition rules_sdk : HomeSdk := {|
  DEVICE_TYPES :=
    [("light", mkTypeSpec ["on_off"; "level"] None []); ("switch", mkTypeSpec ["on_off"] None []); ("climate", mkTypeSpec ["on_off"; "thermostat"] None ["cool"; "heat"; "auto"]);
     ("cover", mkTypeSpec ["position"] None []); ("fan", mkTypeSpec ["on_off"; "fan_speed"] None []); ("media", mkTypeSpec ["on_off"; "volume"] None []);
     ("lock", mkTypeSpec ["lock"] None []); ("sensor", mkTypeSpec ["measurement"] None [])];
  TRAIT_COMMANDS := map (fun t => (t, [])) ["on_off"; "level"; "thermostat"; "position"; "volume"; "fan_speed"; "operational"; "lock"];
  MAX_COMMANDS := 16; SCENE_TRAIT := "scene"; SCENE_COMMAND := "activate"; SCENE_KIND := "scene";
  ERROR_UNKNOWN_DEVICE := ""; ERROR_UNSUPPORTED_COMMAND := ""; ERROR_OUT_OF_RANGE := ""; ERROR_INVALID_PARAMS := ""; ERROR_DEVICE_OFFLINE := "";
  ERROR_DEADLINE_EXCEEDED := ""; ERROR_UNKNOWN_SCENE := ""; ERROR_TIMEOUT := ""; ERROR_INVALID_PROPOSAL := ""; ERROR_INVALID_REQUEST := ""; ERROR_UNAVAILABLE := "";
  registry_device _ _ := None; registry_scene _ _ := None; registry_area_of _ _ := None;
  check_command _ := Ok tt; check_action _ := Ok tt; check_proposal _ := Ok tt; check_interpretation _ := Ok tt; check_result _ := Ok tt;
  check_execute _ := Ok tt; check_voice _ := Ok tt; validate_command _ _ := Ok tt; validate_execute_result _ _ := Ok tt; validate_interpretation _ _ := Ok tt |}.
Definition ascii_digit (c : string) : option Z :=
  dict_get [("0", 0); ("1", 1); ("2", 2); ("3", 3); ("4", 4); ("5", 5); ("6", 6); ("7", 7); ("8", 8); ("9", 9)] c.
Definition flat : list HomeCandidate :=
  [mkHomeCandidate "living.main_light" "主灯" ["大灯"] "light" (Some "living"); mkHomeCandidate "living.ac" "空调" [] "climate" (Some "living");
   mkHomeCandidate "living.tv" "电视" [] "media" (Some "living"); mkHomeCandidate "living.curtain" "窗帘" [] "cover" (Some "living");
   mkHomeCandidate "living.thermo" "温湿度计" [] "sensor" (Some "living"); mkHomeCandidate "master.light" "吸顶灯" [] "light" (Some "master");
   mkHomeCandidate "master.bedside" "床头灯" ["台灯"] "light" (Some "master"); mkHomeCandidate "master.ac" "空调" [] "climate" (Some "master");
   mkHomeCandidate "entry.lock" "门锁" [] "lock" (Some "entry"); mkHomeCandidate "scene.home" "回家" [] "scene" None;
   mkHomeCandidate "scene.movie" "观影模式" [] "scene" None].
Definition utterance (text : string) (room : option string) : InterpretationRequest :=
  mkInterpretation "t1" "smarthome" text None room flat [mkHomeArea "living" "客厅"; mkHomeArea "master" "主卧"; mkHomeArea "kitchen" "厨房"] 500 None.
Notation reading text room := (@read rules_sdk id ascii_digit id false (utterance text room)).
Notation proposed intent status targets action := (Ok (Proposed (mkHomeProposal intent status targets action None))).

Example one_degree_more : reading "主卧空调调到25.5度" None =
  proposed "control" "resolved" ["master.ac"] (Some (mkAction "thermostat" "set_target" [mkSlot "celsius" (VFloat "25.5") (Some "°C") (Some "25.5度")])).
Proof. vm_compute. reflexivity. Qed.
Example all_the_lights : reading "把灯都关了" (Some "living") =
  proposed "control" "resolved" ["living.main_light"; "master.light"; "master.bedside"] (Some (mkAction "on_off" "off" [])).
Proof. vm_compute. reflexivity. Qed.
Example two_lights_are_ambiguous : reading "开灯" (Some "master") =
  proposed "control" "ambiguous" ["master.light"; "master.bedside"] (Some (mkAction "on_off" "on" [])).
Proof. vm_compute. reflexivity. Qed.
Example a_scene_by_name : reading "回家模式" None = proposed "control" "resolved" ["scene.home"] (Some (mkAction "scene" "activate" [])).
Proof. vm_compute. reflexivity. Qed.
Example is_the_door_locked : reading "门锁了吗" None = proposed "query" "resolved" ["entry.lock"] None.
Proof. vm_compute. reflexivity. Qed.
Example do_not_switch_it_on : reading "别开空调" None = Ok (Abstained "negation").
Proof. vm_compute. reflexivity. Qed.
Example it_is_hot : reading "有点热" None = Ok (Abstained "implicit").
Proof. vm_compute. reflexivity. Qed.
Example two_commands : reading "打开空调然后关掉电视" None = Ok (Abstained "multiple_commands").
Proof. vm_compute. reflexivity. Qed.
Example small_talk : reading "电视剧真好看" None = Ok UNRELATED_READING.
Proof. vm_compute. reflexivity. Qed.

(** ** Witnesses *)

Notation warm_room := (mkHomeProposal "control" "resolved" ["living.ac"] (Some (mkAction "thermostat" "set_target" [mkSlot "celsius" (VInt 26) (Some "°C") (Some "二十六度")])) None).
Notation interpreted := (@rules_interpret rules_sdk id ascii_digit id (fun _ => ["control"; "query"]) false (utterance "把客厅空调调到二十六度" None)).
Lemma warm_room_read : interpreted = Ok (mkInterpretationResult "t1" "decided" (Some warm_room) RULES_POLICY_VERSION RULES_MODEL_VERSION []).
Proof. vm_compute. reflexivity. Qed.

Lemma rules_never_guess_witness : warm_room.(pp_intent) ∈ ["control"; "query"] /\
  (Proposed warm_room = UNRELATED_READING \/
   @Grounded rules_sdk id ascii_digit id (utterance "把客厅空调调到二十六度" None)
     (@scan_text rules_sdk id ascii_digit (normalize_text id ascii_digit "把客厅空调调到二十六度") (utterance "把客厅空调调到二十六度" None)) warm_room).
Proof.
  exact (@rules_never_guess rules_sdk id ascii_digit id (fun _ => ["control"; "query"]) false (utterance "把客厅空调调到二十六度" None) _ _ warm_room_read eq_refl).
Defined.

Definition half : Values := mkValues (Some (mkQuantity (AInt 50) (Some "percent") "百分之五十")) None None None.
Lemma commands_say_what_was_said_witness :
  (("cover" : string) = "scene" /\ mkAction "position" "set" [mkSlot "value" (VInt 50) (Some "%") (Some "百分之五十")] = mkAction "scene" "activate" [] /\
     half.(vl_quantity) = None /\ half.(vl_mode) = None) \/
  exists spec, dict_get (@DEVICE_TYPES rules_sdk) "cover" = Some spec /\ half.(vl_problem) = None /\
    Supported id spec.(ty_traits) (Some spec.(ty_modes)) half (mkAction "position" "set" [mkSlot "value" (VInt 50) (Some "%") (Some "百分之五十")]).
Proof. exact (@commands_say_what_was_said rules_sdk id "cover" (verb "set") half _ eq_refl). Defined.
