(* ===== verification/Interpretation.v ===== *)
(** * [domain/interpretation/service.py], [core/types/interpretation.py], [infra/interpretation/recording.py]:
      one interpreter answers, others watch, and what all of them said is kept for replay.

    A step of the service is the code between two awaits; shadows and record tasks run on their own.
    The clock is read in milliseconds. *)

From S2P Require Import Prelude CoreTypes Json HomePlanning.

(** ** [core/types/interpretation.py] *)

Definition RUN_EXCEPTION : string := "EXCEPTION".
Definition RUN_CANCELLED : string := "CANCELLED".

Inductive AdapterRole := RolePrimary | RoleShadow.
Definition role_name (r : AdapterRole) : string := match r with RolePrimary => "primary" | RoleShadow => "shadow" end.

Record AdapterRun := mkRun {
  ar_adapter : string;
  ar_role : AdapterRole;
  ar_latency_ms : Z;
  ar_result : option InterpretationResult;
  ar_error : option string;
  ar_detail : option string;
  ar_rejected : option string;
}.
Record InterpretationRecord := mkRecord {
  ic_recorded_at : string;
  ic_request : InterpretationRequest;
  ic_primary : AdapterRun;
  ic_shadows : list AdapterRun;
}.

Section Json.
(** [round(_, 3)], and [model_dump] of the SDK's classes *)
Context (round3 : Z -> pyval) (dump_result : InterpretationResult -> pyval) (dump_request : InterpretationRequest -> pyval).

Definition run_to_json (r : AdapterRun) : pyval :=
  VDict [("adapter", VStr r.(ar_adapter)); ("role", VStr (role_name r.(ar_role))); ("latency_ms", round3 r.(ar_latency_ms));
         ("result", match r.(ar_result) with None => VNone | Some x => dump_result x end); ("error", of_opt_str r.(ar_error));
         ("detail", of_opt_str r.(ar_detail)); ("rejected", of_opt_str r.(ar_rejected))].
Definition interpretation_to_json (r : InterpretationRecord) : pyval :=
  VDict [("recorded_at", VStr r.(ic_recorded_at)); ("request", dump_request r.(ic_request)); ("primary", run_to_json r.(ic_primary));
         ("shadows", VList (map run_to_json r.(ic_shadows)))].
End Json.

(** ** [InterpretationService] *)

Record InterpretationConfig := mkInterpretationConfig { if_primary : string; if_shadows : list string; if_shadow_timeout_ms : Z }.

(** The constructor's checks *)
Definition check_interpreters (adapters : list string) (cfg : InterpretationConfig) : res unit :=
  let names := cfg.(if_primary) :: cfg.(if_shadows) in
  match List.filter (fun n => negb (bool_decide (n ∈ adapters))) names with
  | (_ :: _) as unknown => Err (PyError "ValueError" ("interpretation adapters not registered: " +:+ String.concat ", " unknown))
  | [] =>
      if negb (bool_decide (length (remove_dups names) = length names)) then Err (PyError "ValueError" "an interpretation adapter is listed twice in the config")
      else if cfg.(if_shadow_timeout_ms) <=? 0 then Err (PyError "ValueError" "shadow_timeout_s must be positive")
      else Ok tt
  end.

(** How the await of an adapter ends: an object, the deadline or a [TimeoutError], an
    [InterpretationError] by its code and text, another [Exception] by its [repr], a cancellation. *)
Inductive AnswerObject := AoResult (r : InterpretationResult) | AoOther (type_name : string).
Inductive AdapterAnswer := AaReturned (o : AnswerObject) | AaTimeout | AaError (code text : string) | AaException (repr : string) | AaCancelled.

(** What the caller gets: a result, or an [InterpretationError] by its code and text *)
Definition CallerAnswer : Type := InterpretationResult + (string * string).

Section Service.
Context `{HomeSdk}.

Definition failed_run (name : string) (role : AdapterRole) (start now : Z) (error detail : string) : AdapterRun :=
  mkRun name role (now - start) None (Some error) (Some (py_take 500 detail)) None.

Definition abstained_result (request : InterpretationRequest) (result : InterpretationResult) (reason : string) : InterpretationResult :=
  mkInterpretationResult request.(ir_interpretation_id) "abstained" None result.(is_policy_version) result.(is_model_version)
    [("rejected", VStr (py_take 120 reason))].

(** [_checked]; another exception of the validator propagates. *)
Definition checked_answer (name : string) (role : AdapterRole) (start now : Z) (request : InterpretationRequest) (o : AnswerObject) : res (AdapterRun * CallerAnswer) :=
  match o with
  | AoOther t =>
      let detail := ("returned " +:+ t)%string in
      Ok (mkRun name role (now - start) None (Some ERROR_INVALID_PROPOSAL) (Some detail) None, inr (ERROR_INVALID_PROPOSAL, (name +:+ " " +:+ detail)%string))
  | AoResult result =>
      match validate_interpretation request result with
      | Ok _ => Ok (mkRun name role (now - start) (Some result) None None None, inl result)
      | Err e =>
          if is_value_error e then
            let reason := if is_empty (exn_str e) then ERROR_INVALID_PROPOSAL else exn_str e in
            abstained ← check_result (abstained_result request result reason) ≫= (fun _ => Ok (abstained_result request result reason));
            Ok (mkRun name role (now - start) (Some result) None None (Some reason), inl abstained)
          else Err e
      end
  end.

(** [_run_primary]; a cancellation raises. *)
Definition run_primary (name : string) (start now : Z) (request : InterpretationRequest) (a : AdapterAnswer) : res (AdapterRun * CallerAnswer) :=
  match a with
  | AaReturned o => checked_answer name RolePrimary start now request o
  | AaTimeout => Ok (failed_run name RolePrimary start now ERROR_TIMEOUT "deadline", inr (ERROR_TIMEOUT, (name +:+ " exceeded deadline")%string))
  | AaError code text => Ok (failed_run name RolePrimary start now code text, inr (code, text))
  | AaException repr => Ok (failed_run name RolePrimary start now RUN_EXCEPTION repr, inr (ERROR_UNAVAILABLE, (name +:+ " failed")%string))
  | AaCancelled => Err Cancelled
  end.

(** [_run_shadow] *)
Definition run_shadow (name : string) (start now : Z) (request : InterpretationRequest) (a : AdapterAnswer) : res AdapterRun :=
  match a with
  | AaReturned o => fst <$> checked_answer name RoleShadow start now request o
  | AaTimeout => Ok (failed_run name RoleShadow start now ERROR_TIMEOUT "shadow deadline")
  | AaError code text => Ok (failed_run name RoleShadow start now code text)
  | AaException repr => Ok (failed_run name RoleShadow start now RUN_EXCEPTION repr)
  | AaCancelled => Err Cancelled
  end.

(** *** The tasks of a call *)

Inductive ShadowTask := ShCreated | ShRunning (start : Z) | ShDone (r : res AdapterRun).
(** [PcAwaiting]: the caller waits for the primary; [PcRecording]: the record task is pending. *)
Inductive CallStage := StAwaiting (start : Z) | StRecording (primary : AdapterRun) | StOver.
Record InterpretCall := mkInterpretCall { iv_request : InterpretationRequest; iv_stage : CallStage; iv_shadows : list (string * ShadowTask) }.

Inductive IvFact :=
  | IvAnswered (n : nat) (request : InterpretationRequest) (a : CallerAnswer)
  | IvRaised (n : nat) (e : exn)
  | IvRecorded (n : nat) (r : InterpretationRecord)
  | IvDropped (n : nat) (e : exn).

Record Interpretations := mkInterpretations { iv_calls : gmap nat InterpretCall; iv_next : nat; iv_log : list IvFact }.
Definition iv_init : Interpretations := mkInterpretations ∅ 0 [].
Definition iv_put (n : nat) (c : InterpretCall) (facts : list IvFact) (s : Interpretations) : Interpretations :=
  mkInterpretations (<[n := c]> s.(iv_calls)) s.(iv_next) (facts ++ s.(iv_log)).

Context (cfg : InterpretationConfig) (has_recorder : bool).

(** [interpret] to its await *)
Definition interpret_start (request : InterpretationRequest) (now : Z) (s : Interpretations) : Interpretations :=
  mkInterpretations (<[s.(iv_next) := mkInterpretCall request (StAwaiting now) (map (fun name => (name, ShCreated)) cfg.(if_shadows))]> s.(iv_calls))
    (S s.(iv_next)) s.(iv_log).

(** [_finish]: the stage after it *)
Definition finish_call (primary : AdapterRun) : CallStage :=
  if negb has_recorder && (if cfg.(if_shadows) is [] then true else false) then StOver else StRecording primary.

(** The end of the primary *)
Definition primary_ends (n : nat) (c : InterpretCall) (a : AdapterAnswer) (now : Z) (s : Interpretations) : Interpretations :=
  match c.(iv_stage) with
  | StAwaiting start =>
      let stage st := mkInterpretCall c.(iv_request) st c.(iv_shadows) in
      match run_primary cfg.(if_primary) start now c.(iv_request) a with
      | Ok (run, answer) => iv_put n (stage (finish_call run)) [IvAnswered n c.(iv_request) answer] s
      | Err Cancelled => iv_put n (stage (finish_call (mkRun cfg.(if_primary) RolePrimary 0 None (Some RUN_CANCELLED) None None))) [IvRaised n Cancelled] s
      | Err e => iv_put n (stage StOver) [IvRaised n e] s
      end
  | _ => s
  end.

Definition set_shadow (n : nat) (c : InterpretCall) (i : nat) (name : string) (t : ShadowTask) (s : Interpretations) : Interpretations :=
  iv_put n (mkInterpretCall c.(iv_request) c.(iv_stage) (<[i := (name, t)]> c.(iv_shadows))) [] s.

Definition shadow_starts (n : nat) (c : InterpretCall) (i : nat) (now : Z) (s : Interpretations) : Interpretations :=
  match c.(iv_shadows) !! i with Some (name, ShCreated) => set_shadow n c i name (ShRunning now) s | _ => s end.
Definition shadow_ends (n : nat) (c : InterpretCall) (i : nat) (a : AdapterAnswer) (now : Z) (s : Interpretations) : Interpretations :=
  match c.(iv_shadows) !! i with
  | Some (name, ShRunning start) => set_shadow n c i name (ShDone (run_shadow name start now c.(iv_request) a)) s
  | _ => s
  end.

(** [gather]: the runs when all shadows are done, or the first failure *)
Definition shadow_failure (l : list (string * ShadowTask)) : option exn :=
  match List.find (fun x => match x.2 with ShDone (Err _) => true | _ => false end) l with Some (_, ShDone (Err e)) => Some e | _ => None end.
Fixpoint shadow_runs (l : list (string * ShadowTask)) : option (list AdapterRun) :=
  match l with
  | [] => Some []
  | (_, ShDone (Ok r)) :: rest => match shadow_runs rest with Some rs => Some (r :: rs) | None => None end
  | _ => None
  end.

(** [_record], once what it waits for is there; [kept] is the end of the recorder's [record]. *)
Definition record_ends (n : nat) (c : InterpretCall) (at_ : string) (kept : res unit) (s : Interpretations) : Interpretations :=
  match c.(iv_stage) with
  | StRecording primary =>
      let over := mkInterpretCall c.(iv_request) StOver c.(iv_shadows) in
      match shadow_failure c.(iv_shadows), shadow_runs c.(iv_shadows) with
      | Some e, _ => iv_put n over [IvDropped n e] s
      | None, Some shadows =>
          if negb has_recorder then iv_put n over [] s
          else
            match kept with
            | Ok _ => iv_put n over [IvRecorded n (mkRecord at_ c.(iv_request) primary shadows)] s
            | Err e => iv_put n over [IvDropped n e] s
            end
      | None, None => s
      end
  | _ => s
  end.

Inductive iv_label :=
  | VInterpret (request : InterpretationRequest) (now : Z)
  | VPrimary (n : nat) (a : AdapterAnswer) (now : Z)
  | VShadowStarts (n i : nat) (now : Z)
  | VShadowEnds (n i : nat) (a : AdapterAnswer) (now : Z)
  | VRecord (n : nat) (at_ : string) (kept : res unit).

Definition on_interpret (n : nat) (s : Interpretations) (f : InterpretCall -> Interpretations) : Interpretations :=
  match s.(iv_calls) !! n with Some c => f c | None => s end.
Definition iv_step (l : iv_label) (s : Interpretations) : Interpretations :=
  match l with
  | VInterpret request now => interpret_start request now s
  | VPrimary n a now => on_interpret n s (fun c => primary_ends n c a now s)
  | VShadowStarts n i now => on_interpret n s (fun c => shadow_starts n c i now s)
  | VShadowEnds n i a now => on_interpret n s (fun c => shadow_ends n c i a now s)
  | VRecord n at_ kept => on_interpret n s (fun c => record_ends n c at_ kept s)
  end.
Definition iv_run (ls : list iv_label) : Interpretations := fold_left (fun s l => iv_step l s) ls iv_init.
End Service.

(** ** [infra/interpretation/recording.py] *)

Definition remember_record (max_records : nat) (records : list InterpretationRecord) (r : InterpretationRecord) : list InterpretationRecord :=
  let l := records ++ [r] in skipn (length l - Nat.max 1 max_records) l.

(** The replay files: 0 is the path itself, [n] the path with the suffix [.n]; a file is its lines. *)
Notation ReplayFiles := (gmap nat (list string)).
Definition line_bytes (line : string) : Z := Z.of_nat (String.length line) + 1.
Definition file_bytes (lines : list string) : Z := foldr (fun l z => line_bytes l + z) 0 lines.

(** [src.replace(dst)] for [n] from [backups] down to 1 *)
Definition move_file (fs : ReplayFiles) (src dst : nat) : ReplayFiles := match fs !! src with Some x => <[dst := x]> (delete src fs) | None => fs end.
Fixpoint rotate (n : nat) (fs : ReplayFiles) : ReplayFiles := match n with O => fs | S m => rotate m (move_file fs m n) end.

(** [_append] *)
Definition append_line (max_bytes : Z) (backups : nat) (line : string) (fs : ReplayFiles) : res ReplayFiles :=
  if max_bytes <? line_bytes line then Err (PyError "ValueError" "interpretation record exceeds replay file limit")
  else
    let fs := match fs !! 0%nat with
      | Some lines => if max_bytes <? file_bytes lines + line_bytes line then let fs := rotate backups fs in if bool_decide (backups = 0)%nat then delete 0%nat fs else fs else fs
      | None => fs end in
    Ok (<[0%nat := default [] (fs !! 0%nat) ++ [line]]> fs).

(** [replay_requests] *)
Definition replay_lines (lines : list string) : list string := List.filter (fun l => negb (is_empty (py_strip l))) lines.

(** ** The theorems on the interpretation service: what a caller gets is what it would get from the primary
      alone, a record holds what every interpreter said, and the replay files keep the latest of them. *)

Section Service.
Context `{HomeSdk} (cfg : InterpretationConfig) (has_recorder : bool).

(** ** Shadows change nothing *)

(** The same service without shadows and recorder *)
Definition alone : InterpretationConfig := mkInterpretationConfig cfg.(if_primary) [] cfg.(if_shadow_timeout_ms).
Definition is_callers (l : iv_label) : bool := match l with VInterpret _ _ | VPrimary _ _ _ => true | _ => false end.
Definition is_answer (f : IvFact) : bool := match f with IvAnswered _ _ _ | IvRaised _ _ => true | _ => false end.

Definition same_stage (a b : CallStage) : Prop := match a, b with StAwaiting x, StAwaiting y => x = y | StAwaiting _, _ | _, StAwaiting _ => False | _, _ => True end.
Definition same_call (a b : option InterpretCall) : Prop :=
  match a, b with
  | Some c, Some d => c.(iv_request) = d.(iv_request) /\ same_stage c.(iv_stage) d.(iv_stage)
  | None, None => True
  | _, _ => False
  end.
Record Same (s t : Interpretations) : Prop := {
  sm_next : s.(iv_next) = t.(iv_next);
  sm_log : List.filter is_answer s.(iv_log) = List.filter is_answer t.(iv_log);
  sm_calls n : same_call (s.(iv_calls) !! n) (t.(iv_calls) !! n);
}.

(** A step of a shadow or of a record task. *)
Lemma same_put n c st shadows facts s t : Same s t -> s.(iv_calls) !! n = Some c -> same_stage st c.(iv_stage) -> List.filter is_answer facts = [] ->
  Same (iv_put n (mkInterpretCall c.(iv_request) st shadows) facts s) t.
Proof.
  intros [Hn Hl Hc] Hs Hst Hf. constructor; simpl; [done|by rewrite List.filter_app, Hf|]. intros m. destruct (decide (m = n)) as [->|]; [|by rewrite lookup_insert_ne].
  rewrite lookup_insert_eq. specialize (Hc n). rewrite Hs in Hc. destruct (iv_calls t !! n) as [d|]; [|done]. destruct Hc as [? Hd]. split; [done|]. simpl.
  destruct st, (iv_stage c), (iv_stage d); simpl in *; try done; congruence.
Qed.

(** A step of the caller and its primary. *)
Lemma same_put_both n request st st' shadows shadows' facts s t : Same s t -> same_stage st st' ->
  Same (iv_put n (mkInterpretCall request st shadows) facts s) (iv_put n (mkInterpretCall request st' shadows') facts t).
Proof.
  intros [Hn Hl Hc] Hst. constructor; simpl; [done|by rewrite !List.filter_app, Hl|]. intros m. destruct (decide (m = n)) as [->|]; [|by rewrite !lookup_insert_ne].
  by rewrite !lookup_insert_eq.
Qed.
Lemma finished_alike r1 r2 : same_stage (finish_call cfg has_recorder r1) (finish_call alone false r2).
Proof. unfold finish_call. simpl. by destruct (_ && _). Qed.

Lemma same_step_callers l s t : is_callers l = true -> Same s t -> Same (iv_step cfg has_recorder l s) (iv_step alone false l t).
Proof.
  intros Hl HS. pose proof HS as [Hn Hlog Hc]. destruct l as [request now|n a now| | |]; try done; simpl.
  - unfold interpret_start. rewrite Hn. constructor; simpl; [done|done|]. intros m. destruct (decide (m = iv_next t)) as [->|]; [|by rewrite !lookup_insert_ne]. by rewrite !lookup_insert_eq.
  - unfold on_interpret. pose proof (Hc n) as Hcn. destruct (iv_calls s !! n) as [c|], (iv_calls t !! n) as [d|]; try done. destruct Hcn as [Hr Hst].
    unfold primary_ends. rewrite <- Hr. destruct (iv_stage c) as [start| |], (iv_stage d) as [start'| |]; try done. simpl in Hst. subst start'.
    change (if_primary alone) with (if_primary cfg). by destruct (run_primary _ _ _ _ _) as [[run answer]|[]]; (apply same_put_both; [done|]); try apply finished_alike.
Qed.

Lemma same_step_others l s t : is_callers l = false -> Same s t -> Same (iv_step cfg has_recorder l s) t.
Proof.
  intros Hl HS. destruct l as [| |n i now|n i a now|n at_ kept]; try done; simpl; unfold on_interpret; destruct (iv_calls s !! n) as [c|] eqn:Ec; try done.
  - unfold shadow_starts. destruct (iv_shadows c !! i) as [[name []]|]; try done. by apply same_put; [..|destruct (iv_stage c)|].
  - unfold shadow_ends. destruct (iv_shadows c !! i) as [[name []]|]; try done. by apply same_put; [..|destruct (iv_stage c)|].
  - unfold record_ends. destruct (iv_stage c) as [|primary|] eqn:Est; try done.
    destruct (shadow_failure _); [by apply same_put; [..|rewrite Est|]|]. destruct (shadow_runs _); [|done].
    destruct (negb has_recorder); [by apply same_put; [..|rewrite Est|]|]. destruct kept; by apply same_put; [..|rewrite Est|].
Qed.

Lemma same_fold ls : forall s t, Same s t ->
  Same (fold_left (fun s l => iv_step cfg has_recorder l s) ls s) (fold_left (fun s l => iv_step alone false l s) (List.filter is_callers ls) t).
Proof.
  induction ls as [|l ls IH]; intros s t HS; [done|]. simpl. destruct (is_callers l) eqn:E; apply IH; [by apply same_step_callers|by apply same_step_others].
Qed.
Lemma same_run ls : Same (iv_run cfg has_recorder ls) (iv_run alone false (List.filter is_callers ls)).
Proof. apply same_fold. constructor; [done|done|]. intros n. simpl. by rewrite lookup_empty. Qed.

(** C31: However calls, shadows and record tasks interleave and whatever shadows and the recorder
    do: what every caller gets, in order, is what it gets from a service with the same primary
    and no shadows and no recorder. *)
Theorem shadows_change_nothing ls :
  List.filter is_answer (iv_run cfg has_recorder ls).(iv_log) = List.filter is_answer (iv_run alone false (List.filter is_callers ls)).(iv_log).
Proof. apply (sm_log _ _ (same_run ls)). Qed.

(** ** Records *)

(** What the caller got agrees with the run. *)
Definition agrees (request : InterpretationRequest) (run : AdapterRun) (a : CallerAnswer) : Prop :=
  match run.(ar_result) with
  | Some result =>
      (validate_interpretation request result = Ok tt /\ run.(ar_rejected) = None /\ a = inl result) \/
      exists reason, run.(ar_rejected) = Some reason /\ validate_interpretation request result <> Ok tt /\ a = inl (abstained_result request result reason)
  | None => exists code text, a = inr (code, text)
  end.

Lemma checked_agrees name role start now request o run a : checked_answer name role start now request o = Ok (run, a) -> ar_adapter run = name /\ agrees request run a.
Proof.
  unfold checked_answer. destruct o as [result|t]; [|intros [= <- <-]; split; [done|by eexists _, _]].
  destruct (validate_interpretation request result) as [[]|e] eqn:Ev; [intros [= <- <-]; split; [done|by left]|]. destruct (is_value_error e); [|done].
  destruct (check_result _); simpl; [|done]. intros [= <- <-]. split; [done|]. right. eexists. split_and!; [done|congruence|done].
Qed.
Lemma run_primary_agrees name start now request o run a : run_primary name start now request o = Ok (run, a) -> ar_adapter run = name /\ agrees request run a.
Proof. destruct o; simpl; [apply checked_agrees|..]; try (intros [= <- <-]; split; [done|by eexists _, _]). done. Qed.
Lemma run_shadow_named name start now request o run : run_shadow name start now request o = Ok run -> ar_adapter run = name.
Proof.
  destruct o; simpl; try (by intros [= <-]). destruct (checked_answer _ _ _ _ _ _) as [[r a]|] eqn:Ec; [|done]. intros [= <-]. by apply checked_agrees in Ec as [-> _].
Qed.

(** The run of the primary tells what the caller of [n] got. *)
Definition told (log : list IvFact) (n : nat) (request : InterpretationRequest) (run : AdapterRun) : Prop :=
  ar_adapter run = cfg.(if_primary) /\
  ((exists a, IvAnswered n request a ∈ log /\ agrees request run a) \/ (IvRaised n Cancelled ∈ log /\ run = mkRun cfg.(if_primary) RolePrimary 0 None (Some RUN_CANCELLED) None None)).
Definition is_over (c : InterpretCall) : Prop := c.(iv_stage) = StOver.

Definition records (n : nat) (f : IvFact) : bool := match f with IvRecorded m _ => bool_decide (m = n) | _ => false end.

Record IvInv (calls : gmap nat InterpretCall) (next : nat) (log : list IvFact) : Prop := {
  iv_bound n c : calls !! n = Some c -> (n < next)%nat;
  iv_names n c : calls !! n = Some c -> map fst c.(iv_shadows) = cfg.(if_shadows) /\ forall name run, (name, ShDone (Ok run)) ∈ c.(iv_shadows) -> ar_adapter run = name;
  iv_told n c run : calls !! n = Some c -> c.(iv_stage) = StRecording run -> told log n c.(iv_request) run;
  iv_recorded n r : IvRecorded n r ∈ log -> (exists c, calls !! n = Some c /\ is_over c /\ r.(ic_request) = c.(iv_request)) /\
    told log n r.(ic_request) r.(ic_primary) /\ map ar_adapter r.(ic_shadows) = cfg.(if_shadows);
  iv_single n : (length (List.filter (records n) log) <= 1)%nat;
}.

Lemma told_more facts log n request run : told log n request run -> told (facts ++ log) n request run.
Proof. intros [? [(a & ? & ?)|[? ?]]]; (split; [done|]); [left; exists a|right]; (split; [apply elem_of_app; by right|done]). Qed.

(** A step of a call: it may add facts of its own, and its stage does not come back from the end. *)
Lemma iv_inv_put s n c c' facts : IvInv s.(iv_calls) s.(iv_next) s.(iv_log) -> s.(iv_calls) !! n = Some c -> c'.(iv_request) = c.(iv_request) ->
  (is_over c -> is_over c') -> map fst c'.(iv_shadows) = cfg.(if_shadows) -> (forall name run, (name, ShDone (Ok run)) ∈ c'.(iv_shadows) -> ar_adapter run = name) ->
  (forall run, c'.(iv_stage) = StRecording run -> told (facts ++ s.(iv_log)) n c.(iv_request) run) ->
  (length facts <= 1)%nat ->
  (forall m r, IvRecorded m r ∈ facts -> m = n /\ ~ is_over c /\ is_over c' /\ r.(ic_request) = c.(iv_request) /\
     told s.(iv_log) n c.(iv_request) r.(ic_primary) /\ map ar_adapter r.(ic_shadows) = cfg.(if_shadows)) ->
  let s' := iv_put n c' facts s in IvInv s'.(iv_calls) s'.(iv_next) s'.(iv_log).
Proof.
  intros [Hb Hnm Ht Hr Hs] Hc Hreq Hover Hnames Hruns Htold Hlen Hrec. cbn. constructor.
  - intros m d. destruct (decide (m = n)) as [->|]; [intros _; eauto|rewrite lookup_insert_ne by done; eauto].
  - intros m d. destruct (decide (m = n)) as [->|]; [rewrite lookup_insert_eq; by intros [= <-]|rewrite lookup_insert_ne by done; eauto].
  - intros m d run. destruct (decide (m = n)) as [->|]; [rewrite lookup_insert_eq; intros [= <-]; rewrite Hreq; auto|].
    rewrite lookup_insert_ne by done. eauto using told_more.
  - intros m r [Hin|Hin]%elem_of_app.
    + destruct (Hrec m r Hin) as (-> & Hno & Ho & Hq & Hp & Hm). rewrite lookup_insert_eq. split_and!; [exists c'; split_and!; congruence| |done].
      rewrite Hq. by apply told_more.
    + destruct (Hr m r Hin) as ((d & Hd & Ho & Hq) & Hp & Hm). split_and!; [|by apply told_more|done]. destruct (decide (m = n)) as [->|].
      * rewrite lookup_insert_eq. exists c'. rewrite Hc in Hd. injection Hd as <-. split_and!; [done|auto|congruence].
      * rewrite lookup_insert_ne by done. by exists d.
  - intros m. rewrite List.filter_app, length_app. assert (length (List.filter (records m) facts) <= length facts)%nat by apply List.filter_length_le.
    destruct (List.filter (records m) facts) as [|f l] eqn:Ef; [apply Hs|].
    assert (f ∈ List.filter (records m) facts) as [Hin Hf]%elem_of_filter_list by (rewrite Ef; by left).
    destruct f as [| |k r|]; try done. simpl in Hf. apply bool_decide_eq_true in Hf as ->. destruct (Hrec m r Hin) as (-> & Hno & _).
    destruct (List.filter (records n) (iv_log s)) as [|g l'] eqn:Eg; [simpl in *; lia|].
    assert (g ∈ List.filter (records n) (iv_log s)) as [Hg Hgn]%elem_of_filter_list by (rewrite Eg; by left).
    destruct g as [| |k r'|]; try done. simpl in Hgn. apply bool_decide_eq_true in Hgn as ->. destruct (Hr n r' Hg) as ((d & Hd & Ho & _) & _). congruence.
Qed.

Definition Inv (s : Interpretations) : Prop := IvInv s.(iv_calls) s.(iv_next) s.(iv_log).
(** A step without records *)
Lemma inv_quiet s n c st shadows facts : Inv s -> s.(iv_calls) !! n = Some c -> (is_over c -> st = StOver) -> map fst shadows = cfg.(if_shadows) ->
  (forall name run, (name, ShDone (Ok run)) ∈ shadows -> ar_adapter run = name) -> (forall run, st = StRecording run -> told (facts ++ s.(iv_log)) n c.(iv_request) run) ->
  (length facts <= 1)%nat -> (forall m r, IvRecorded m r ∉ facts) -> Inv (iv_put n (mkInterpretCall c.(iv_request) st shadows) facts s).
Proof. intros HI Hc Ho Hn Hr Ht Hl Hf. apply (iv_inv_put s n c (mkInterpretCall c.(iv_request) st shadows)); try done. intros m r Hin. by apply Hf in Hin. Qed.

Lemma inv_init : Inv iv_init.
Proof. constructor; simpl; [intros; simplify_map_eq|intros; simplify_map_eq|intros; simplify_map_eq|by intros ? ? ?%elem_of_nil|intros n; cbn; lia]. Qed.

Lemma inv_start request now s : Inv s -> Inv (interpret_start cfg request now s).
Proof.
  intros [Hb Hnm Ht Hr Hs]. unfold Inv, interpret_start. cbn. constructor; auto.
  - intros n c. destruct (decide (n = iv_next s)) as [->|]; [lia|]. rewrite lookup_insert_ne by done. intros ?%Hb. lia.
  - intros n c. destruct (decide (n = iv_next s)) as [->|]; [|rewrite lookup_insert_ne by done; apply Hnm]. rewrite lookup_insert_eq. intros [= <-]. simpl.
    split; [rewrite map_map; apply map_id|]. by intros name run (x & [=] & _)%list_elem_of_fmap.
  - intros n c run. destruct (decide (n = iv_next s)) as [->|]; [|rewrite lookup_insert_ne by done; apply Ht]. rewrite lookup_insert_eq. by intros [= <-].
  - intros n r Hin. destruct (Hr n r Hin) as ((c & Hc & ?) & ?). split; [|done]. exists c. split; [|done]. rewrite lookup_insert_ne; [done|]. apply Hb in Hc. lia.
Qed.

Lemma inv_primary n a now s : Inv s -> Inv (on_interpret n s (fun c => primary_ends cfg has_recorder n c a now s)).
Proof.
  intros HI. unfold on_interpret, primary_ends. destruct (iv_calls s !! n) as [c|] eqn:Ec; [|done]. destruct (iv_stage c) as [start| |] eqn:Est; try done.
  destruct (iv_names _ _ _ HI n c Ec) as [Hn Hr]. assert (is_over c -> False) as Hno by (unfold is_over; congruence).
  destruct (run_primary _ _ _ _ _) as [[run answer]|e] eqn:Er.
  - apply run_primary_agrees in Er as [Hname Hag]. apply (inv_quiet s n c); [done|done|by intros []%Hno|done|done| |simpl; lia|by intros m r ?%list_elem_of_singleton].
    unfold finish_call. destruct (_ && _); [done|]. intros run' [= <-]. split; [done|]. left. exists answer. split; [by left|done].
  - assert (forall e', Inv (iv_put n (mkInterpretCall (iv_request c) StOver (iv_shadows c)) [IvRaised n e'] s)) as Hover
      by (intros e'; apply (inv_quiet s n c); [done..|simpl; lia|by intros m r ?%list_elem_of_singleton]).
    destruct e; try apply Hover. apply (inv_quiet s n c); [done|done|by intros []%Hno|done|done| |simpl; lia|by intros m r ?%list_elem_of_singleton].
    unfold finish_call. destruct (_ && _); [done|]. intros run' [= <-]. split; [done|]. right. split; [by left|done].
Qed.

Lemma inv_shadow s n i c name task t : Inv s -> s.(iv_calls) !! n = Some c -> c.(iv_shadows) !! i = Some (name, task) ->
  (forall run, t = ShDone (Ok run) -> ar_adapter run = name) -> Inv (set_shadow n c i name t s).
Proof.
  intros HI Hc Hi Ht. destruct (iv_names _ _ _ HI n c Hc) as [Hn Hr]. apply (inv_quiet s n c); try done.
  - rewrite list_fmap_insert. simpl. rewrite list_insert_id; [done|]. by rewrite list_lookup_fmap, Hi.
  - intros name' run (j & Hj)%list_elem_of_lookup. destruct (decide (j = i)) as [->|].
    + rewrite list_lookup_insert_eq in Hj by (by eapply lookup_lt_Some). injection Hj as -> Hj. by apply Ht.
    + rewrite list_lookup_insert_ne in Hj by done. apply Hr. by eapply list_elem_of_lookup_2.
  - intros run. by apply (iv_told _ _ _ HI n c).
  - simpl. lia.
  - by intros m r ?%elem_of_nil.
Qed.

Lemma shadow_runs_named l rs : shadow_runs l = Some rs -> (forall name run, (name, ShDone (Ok run)) ∈ l -> ar_adapter run = name) -> map ar_adapter rs = map fst l.
Proof.
  revert rs. induction l as [|[name t] l IH]; intros rs; simpl; [by intros [= <-]|]. destruct t as [| |[run|]]; try done.
  destruct (shadow_runs l) as [rs'|]; [|done]. intros [= <-] Hr. simpl. rewrite (Hr name run) by left. f_equal. apply IH; [done|]. intros name' run' Hin. apply Hr. by right.
Qed.

Lemma inv_record n at_ kept s : Inv s -> Inv (on_interpret n s (fun c => record_ends has_recorder n c at_ kept s)).
Proof.
  intros HI. unfold on_interpret, record_ends. destruct (iv_calls s !! n) as [c|] eqn:Ec; [|done]. destruct (iv_stage c) as [|primary|] eqn:Est; try done.
  destruct (iv_names _ _ _ HI n c Ec) as [Hn Hr]. pose proof (iv_told _ _ _ HI n c primary Ec Est) as Ht.
  assert (forall e', Inv (iv_put n (mkInterpretCall (iv_request c) StOver (iv_shadows c)) [IvDropped n e'] s)) as Hdrop
    by (intros e'; apply (inv_quiet s n c); [done..|simpl; lia|by intros m r ?%list_elem_of_singleton]).
  destruct (shadow_failure _); [apply Hdrop|]. destruct (shadow_runs _) as [shadows|] eqn:Esh; [|done]. apply shadow_runs_named in Esh; [|done].
  destruct (negb has_recorder); [apply (inv_quiet s n c); [done..|simpl; lia|by intros m r ?%elem_of_nil]|]. destruct kept; [|apply Hdrop].
  apply (iv_inv_put s n c (mkInterpretCall (iv_request c) StOver (iv_shadows c))); try done. intros m r [= -> ->]%list_elem_of_singleton.
  split_and!; try done; simpl; [unfold is_over; congruence|congruence].
Qed.

Lemma inv_run ls : Inv (iv_run cfg has_recorder ls).
Proof.
  unfold iv_run. apply (fold_left_inv Inv); [apply inv_init|]. intros s l _ HI. destruct l as [request now|n a now|n i now|n i a now|n at_ kept]; simpl.
  - by apply inv_start.
  - by apply inv_primary.
  - unfold on_interpret, shadow_starts. destruct (iv_calls s !! n) as [c|] eqn:Ec; [|done]. destruct (iv_shadows c !! i) as [[name []]|] eqn:Ei; try done. by eapply inv_shadow.
  - unfold on_interpret, shadow_ends. destruct (iv_calls s !! n) as [c|] eqn:Ec; [|done]. destruct (iv_shadows c !! i) as [[name [|start|]]|] eqn:Ei; try done.
    eapply inv_shadow; [done..|]. intros run [= E]. by apply run_shadow_named in E.
  - by apply inv_record.
Qed.

(** A record holds the run the caller's answer came from and one run of each shadow, in their order; a call has one at most. *)
Theorem records_say_what_was_answered ls n r : IvRecorded n r ∈ (iv_run cfg has_recorder ls).(iv_log) ->
  told (iv_run cfg has_recorder ls).(iv_log) n r.(ic_request) r.(ic_primary) /\ map ar_adapter r.(ic_shadows) = cfg.(if_shadows) /\
  (length (List.filter (records n) (iv_run cfg has_recorder ls).(iv_log)) <= 1)%nat.
Proof. intros Hin. pose proof (inv_run ls) as HI. destruct (iv_recorded _ _ _ HI n r Hin) as (_ & ? & ?). split_and!; [done|done|apply (iv_single _ _ _ HI)]. Qed.
End Service.

(** ** The replay files *)

(** The lines kept, oldest first *)
Definition file_of (fs : ReplayFiles) (n : nat) : list string := default [] (fs !! n).
Fixpoint kept_lines (n : nat) (fs : ReplayFiles) : list string := match n with O => file_of fs 0 | S m => file_of fs n ++ kept_lines m fs end.

Lemma file_bytes_app a b : file_bytes (a ++ b) = file_bytes a + file_bytes b.
Proof. induction a as [|l a IH]; simpl; [done|]. rewrite IH. lia. Qed.

Lemma kept_local n fs gs : (forall k, (k <= n)%nat -> fs !! k = gs !! k) -> kept_lines n fs = kept_lines n gs.
Proof. induction n as [|n IH]; intros E; cbn [kept_lines]; unfold file_of; rewrite (E _ (le_n _)); [done|]. f_equal. apply IH. intros k Hk. apply E. lia. Qed.
Lemma file_kept fs k n : fs !! k = None -> file_of fs k ++ n = n.
Proof. intros E. unfold file_of. by rewrite E. Qed.

Lemma rotate_above n fs k : (n < k)%nat -> rotate n fs !! k = fs !! k.
Proof.
  revert fs. induction n as [|n IH]; intros fs Hk; [done|]. cbn [rotate]. rewrite IH by lia. unfold move_file. destruct (fs !! n); [|done].
  by rewrite lookup_insert_ne, lookup_delete_ne by lia.
Qed.
Lemma rotate_empties n fs : (0 < n)%nat -> rotate n fs !! 0%nat = None.
Proof.
  revert fs. induction n as [|[|n] IH]; intros fs Hn; [lia| |cbn [rotate]; apply IH; lia]. cbn. unfold move_file. destruct (fs !! 0%nat) eqn:E; [|done].
  by rewrite lookup_insert_ne, lookup_delete_eq by done.
Qed.

(** Rotation loses nothing when the last place is free, *)
Lemma rotate_keeps n fs : fs !! n = None -> kept_lines n (rotate n fs) = kept_lines n fs.
Proof.
  revert fs. induction n as [|n IH]; intros fs Hn; [done|]. cbn [rotate kept_lines]. unfold move_file. destruct (fs !! n) as [x|] eqn:Ex.
  - rewrite IH by (by rewrite lookup_insert_ne, lookup_delete_eq by lia). unfold file_of at 1. rewrite rotate_above, lookup_insert_eq by lia. simpl.
    rewrite (file_kept fs (S n)) by done. destruct n as [|n]; cbn [kept_lines]; unfold file_of.
    + by rewrite lookup_insert_ne, lookup_delete_eq, Ex, app_nil_r by done.
    + rewrite lookup_insert_ne, lookup_delete_eq, Ex by lia. simpl. f_equal. apply kept_local. intros k Hk. by rewrite lookup_insert_ne, lookup_delete_ne by lia.
  - rewrite IH by done. by rewrite !file_kept by (try rewrite rotate_above by lia; done).
Qed.
(** and the oldest file otherwise. *)
Lemma rotate_drops n fs : exists old, kept_lines (S n) fs = old ++ kept_lines (S n) (rotate (S n) fs).
Proof.
  destruct (fs !! n) as [x|] eqn:Ex.
  - assert (rotate (S n) (delete (S n) fs) = rotate (S n) fs) as <-.
    { cbn [rotate]. unfold move_file. rewrite lookup_delete_ne, Ex by lia. f_equal. apply map_eq. intros k.
      destruct (decide (k = S n)) as [->|]; [by rewrite !lookup_insert_eq|]. rewrite !lookup_insert_ne by done.
      destruct (decide (k = n)) as [->|]; [by rewrite !lookup_delete_eq|]. by rewrite !lookup_delete_ne by done. }
    exists (file_of fs (S n)). rewrite rotate_keeps by (by rewrite lookup_delete_eq). cbn [kept_lines]. f_equal. rewrite file_kept by (by rewrite lookup_delete_eq).
    apply kept_local. intros k Hk. by rewrite lookup_delete_ne by lia.
  - exists []. cbn [rotate]. unfold move_file. rewrite Ex. simpl. rewrite rotate_keeps by done. unfold file_of. by rewrite rotate_above by lia.
Qed.

(** Files keep their size, and no new ones come up. *)
Definition files_bounded (max_bytes : Z) (backups : nat) (fs : ReplayFiles) : Prop := forall n x, fs !! n = Some x -> (n <= backups)%nat /\ file_bytes x <= max_bytes.
Lemma rotate_bounded max_bytes backups n fs : (n <= backups)%nat -> files_bounded max_bytes backups fs -> files_bounded max_bytes backups (rotate n fs).
Proof.
  revert fs. induction n as [|n IH]; intros fs Hn Hf; [done|]. cbn [rotate]. apply IH; [lia|]. unfold move_file. destruct (fs !! n) as [x|] eqn:Ex; [|done].
  intros k y. destruct (decide (k = S n)) as [->|]; [rewrite lookup_insert_eq; intros [= <-]; split; [done|by eapply Hf]|].
  rewrite lookup_insert_ne by done. intros [_ ?]%lookup_delete_Some. by apply Hf.
Qed.

(** The files and the lines written so far. *)
Definition append_lines (max_bytes : Z) (backups : nat) (lines : list string) : ReplayFiles * list string :=
  fold_left (fun acc line => match append_line max_bytes backups line acc.1 with Ok fs => (fs, acc.2 ++ [line]) | Err _ => acc end) lines (∅, []).

Record Kept (max_bytes : Z) (backups : nat) (fs : ReplayFiles) (log : list string) : Prop := {
  kp_suffix : exists old, log = old ++ kept_lines backups fs;
  kp_bounded : files_bounded max_bytes backups fs;
  kp_latest line : last log = Some line -> last (file_of fs 0) = Some line;
}.

Lemma kept_append n fs line : kept_lines n (<[0%nat := file_of fs 0 ++ [line]]> fs) = kept_lines n fs ++ [line].
Proof.
  induction n as [|n IH]; cbn [kept_lines]; [unfold file_of at 1; by rewrite lookup_insert_eq|]. rewrite IH. unfold file_of at 1. by rewrite lookup_insert_ne, app_assoc by done.
Qed.

Lemma append_kept max_bytes backups line fs log fs' : Kept max_bytes backups fs log -> append_line max_bytes backups line fs = Ok fs' ->
  Kept max_bytes backups fs' (log ++ [line]).
Proof.
  intros [[old Ho] Hb _]. unfold append_line. destruct (max_bytes <? line_bytes line) eqn:El; [done|]. apply Z.ltb_ge in El.
  set (gs := match fs !! 0%nat with Some lines => _ | None => fs end).
  assert ((exists old', log = old' ++ kept_lines backups gs) /\ files_bounded max_bytes backups gs /\ file_bytes (file_of gs 0) + line_bytes line <= max_bytes) as (Hs & Hg & Hl).
  { unfold gs. destruct (fs !! 0%nat) as [lines|] eqn:E0; [|split_and!; [eauto|done|unfold file_of; rewrite E0; simpl; lia]].
    destruct (max_bytes <? file_bytes lines + line_bytes line) eqn:Eb; [|apply Z.ltb_ge in Eb; split_and!; [eauto|done|unfold file_of; by rewrite E0]].
    destruct backups as [|b]; simpl bool_decide; cbv iota.
    - split_and!; [exists log; cbn [kept_lines]; unfold file_of; rewrite lookup_delete_eq; simpl; by rewrite app_nil_r| |].
      + intros k x [_ ?]%lookup_delete_Some. by apply Hb.
      + unfold file_of. rewrite lookup_delete_eq. simpl. lia.
    - destruct (rotate_drops b fs) as [old' Hd]. split_and!; [exists (old ++ old'); by rewrite <- app_assoc, <- Hd|by apply rotate_bounded|].
      unfold file_of. rewrite rotate_empties by lia. simpl. lia. }
  clearbody gs. intros [= <-]. constructor.
  - destruct Hs as [old' ->]. exists old'. fold (file_of gs 0). by rewrite kept_append, app_assoc.
  - intros k x. destruct (decide (k = 0%nat)) as [->|]; [rewrite lookup_insert_eq; intros [= <-]|rewrite lookup_insert_ne by done; apply Hg].
    split; [lia|]. fold (file_of gs 0). rewrite file_bytes_app. simpl. lia.
  - intros line'. rewrite last_snoc. intros [= <-]. unfold file_of. rewrite lookup_insert_eq. simpl. by rewrite last_snoc.
Qed.

(** Whatever lines are appended and whatever the bounds are: the replay files, oldest first,
    hold the latest of the lines accepted without a gap and end with the last one, there are at
    most the backups and the path itself, and none is larger than the limit. *)
Theorem replay_keeps_the_latest max_bytes backups lines :
  let '(fs, log) := append_lines max_bytes backups lines in Kept max_bytes backups fs log.
Proof.
  destruct (append_lines max_bytes backups lines) as [fs log] eqn:E. change fs with (fs, log).1. change log with (fs, log).2 at 2. rewrite <- E. unfold append_lines.
  apply (fold_left_inv (fun acc => Kept max_bytes backups acc.1 acc.2)).
  - constructor; simpl; [|by intros n x; rewrite lookup_empty|done]. exists []. simpl. clear E. induction backups as [|b IH]; [done|]. cbn [kept_lines]. by rewrite file_kept.
  - intros [gs log'] line _ HK. simpl in *. destruct (append_line _ _ _ _) eqn:Ea; [|done]. by eapply append_kept.
Qed.

(** ** A replay *)

Example three_files : let '(fs, log) := append_lines 5 2 ["aa"; "bb"; "cc"; "dd"; "toolong"] in
  map (fun n => (n, fs !! n)) [0; 1; 2]%nat = [(0%nat, Some ["dd"]); (1%nat, Some ["cc"]); (2%nat, Some ["bb"])] /\ log = ["aa"; "bb"; "cc"; "dd"].
Proof. vm_compute. split; reflexivity. Qed.
