(* ===== verification/LanguageModels.v ===== *)
(** * [infra/llm/router.py], [infra/llm/providers/litellm_provider.py]: the stream of a language model.

    What LiteLLM sends is a list of chunks with the attributes the provider reads; an attribute that is
    missing is [None]. A consumer may close a generator at any of its yields. The SDK's rendering and
    checking of a transcript, [json.loads] and LiteLLM are parameters. *)

From S2P Require Import Prelude CoreTypes Json.

(** ** [core/types/llm.py] *)

(** A tool call whose arguments are whatever [json.loads] gave. *)
Record ModelCall := mkModelCall { mc_id : string; mc_name : string; mc_arguments : pyval }.
Record ModelUsage := mkModelUsage { mu_tokens_in : Z; mu_tokens_out : Z; mu_cached_tokens_in : Z }.

Inductive ModelDelta :=
  | MText (text : string)
  | MActivity (k : LLMActivityKind)
  | MCall (c : ModelCall)
  | MFinish (r : LLMFinishReason)
  | MUsage (u : ModelUsage).

(** ** [LLMRouter] *)

Definition llm_unavailable (msg : string) : exn := Eidolon LLMUnavailableError msg.
Definition is_llm_unavailable (e : exn) : bool := match e with Eidolon LLMUnavailableError _ => true | _ => false end.

Record Router := mkRouter { ro_providers : list string; ro_default : string; ro_fallbacks : list string }.

(** [LLMRouter.__init__]; [shown] is the text of the refused default. *)
Definition new_router (providers : list string) (default_model : string) (fallback_models : list string) (shown : string) : res Router :=
  if negb (bool_decide (default_model ∈ providers)) then Err (PyError "ValueError" shown)
  else Ok (mkRouter providers default_model (List.filter (fun m => bool_decide (m ∈ providers) && negb (bool_decide (m = default_model))) fallback_models)).

Definition candidates_of (r : Router) (model : option string) : list string :=
  let key := match model with Some m => if negb (is_empty m) && bool_decide (m ∈ r.(ro_providers)) then m else r.(ro_default) | None => r.(ro_default) end in
  key :: List.filter (fun m => negb (bool_decide (m = key))) r.(ro_fallbacks).

Inductive RouterFact := ROpened (candidate : string) | RYielded (candidate model_id : string) (d : ModelDelta) | RClosed (candidate : string).
(** The end of a stream: it returned, raised, or its consumer closed it at a yield. *)
Inductive StreamEnd := EndReturned | EndRaised (e : exn) | EndAbandoned.

Section Router.
(** What the stream of a provider does: its deltas, and the exception it ends with. *)
Context (streams : string -> list ModelDelta * option exn).
Context (model_id_of : string -> option string).

(** The consumer closes the stream at its yield number [stop]. *)
Definition abandons (stop : option nat) (deltas : list ModelDelta) : option nat :=
  match stop with Some k => if bool_decide (0 < k <= length deltas)%nat then Some k else None | None => None end.

Definition yields_of (candidate : string) (deltas : list ModelDelta) : list RouterFact :=
  map (RYielded candidate (default candidate (model_id_of candidate))) deltas.

Fixpoint try_candidates (stop : option nat) (candidates : list string) (last_error : option exn) : list RouterFact * StreamEnd :=
  match candidates with
  | [] => ([], EndRaised (default (llm_unavailable "no LLM providers configured") last_error))
  | c :: rest =>
      let '(deltas, end_) := streams c in
      match abandons stop deltas with
      | Some k => (ROpened c :: yields_of c (firstn k deltas) ++ [RClosed c], EndAbandoned)
      | None =>
          let facts := ROpened c :: yields_of c deltas ++ [RClosed c] in
          let emitted := match deltas with [] => false | _ => true end in
          match end_ with
          | None => (facts, EndReturned)
          | Some e =>
              if negb (is_exception e) then (facts, EndRaised e)
              else
                let error := if is_llm_unavailable e then e else llm_unavailable ("provider " +:+ c +:+ " failed: " +:+ exn_str e) in
                if emitted then (facts, EndRaised error)
                else let '(later, out) := try_candidates stop rest (Some error) in (facts ++ later, out)
          end
      end
  end.

Definition router_stream (r : Router) (model : option string) (stop : option nat) : list RouterFact * StreamEnd := try_candidates stop (candidates_of r model) None.
End Router.

(** [close]: one provider object may have several names. *)
Fixpoint close_providers (seen : list nat) (l : list (nat * bool)) : list nat :=
  match l with
  | [] => []
  | (id, closable) :: rest => if negb closable || bool_decide (id ∈ seen) then close_providers seen rest else id :: close_providers (id :: seen) rest
  end.

(** ** [LiteLLMProvider] *)

(** *** What a chunk carries *)

Record ToolDelta := mkToolDelta { td_index : Z; td_id : option string; td_function : option (option string * option string) }.
(** [reasoning]: the attribute, then the two dictionaries it may be in *)
Record ChoiceDelta := mkChoiceDelta { cd_content : option string; cd_reasoning : option string; cd_extras : list (option (list (string * pyval))); cd_tool_calls : list ToolDelta }.
Record Choice := mkChoice { co_delta : option ChoiceDelta; co_finish_reason : option string }.
Record UsageFields := mkUsageFields { uf_prompt : option Z; uf_completion : option Z; uf_cached_details : option Z; uf_cache_hit : option Z }.
(** Two readings of the clock, in seconds, go with a chunk. *)
Record Chunk := mkChunk { ck_usage : option UsageFields; ck_choices : list Choice; ck_reasoning_at : Z; ck_tool_at : Z }.

Definition some_text (o : option string) : option string := match o with Some s => if is_empty s then None else Some s | None => None end.

(** [_reasoning_content] of an object *)
Definition reasoning_in (extra : list (string * pyval)) : option string :=
  let v := match dict_get extra "reasoning_content" with Some v => if truthy v then v else default VNone (dict_get extra "reasoning") | None => default VNone (dict_get extra "reasoning") end in
  match v with VStr s => some_text (Some s) | _ => None end.
Fixpoint reasoning_in_extras (l : list (option (list (string * pyval)))) : option string :=
  match l with
  | [] => None
  | Some extra :: rest => match reasoning_in extra with Some s => Some s | None => reasoning_in_extras rest end
  | None :: rest => reasoning_in_extras rest
  end.
Definition reasoning_content (d : option ChoiceDelta) : option string :=
  match d with
  | None => None
  | Some d => match some_text d.(cd_reasoning) with Some s => Some s | None => reasoning_in_extras d.(cd_extras) end
  end.

Definition map_finish (r : string) : LLMFinishReason :=
  if bool_decide (r = "length") then LENGTH else if bool_decide (r = "tool_calls") then TOOL_CALLS else if bool_decide (r = "content_filter") then CONTENT_FILTER else STOP.

(** *** The buffer of tool calls, in the order of their first fragments *)

Record ToolBuffer := mkBuffer { bf_id : option string; bf_name : option string; bf_args : string }.
Notation ToolBuffers := (list (Z * ToolBuffer)).
Definition empty_buffer : ToolBuffer := mkBuffer None None "".
Definition merge_fragment (b : ToolBuffer) (t : ToolDelta) : ToolBuffer :=
  let name := match t.(td_function) with Some (n, _) => some_text n | None => None end in
  let args := match t.(td_function) with Some (_, Some a) => a | _ => "" end in
  mkBuffer (match some_text t.(td_id) with Some i => Some i | None => b.(bf_id) end) (match name with Some n => Some n | None => b.(bf_name) end) (b.(bf_args) +:+ args)%string.
Fixpoint buffer_fragment (bufs : ToolBuffers) (t : ToolDelta) : ToolBuffers :=
  match bufs with
  | [] => [(t.(td_index), merge_fragment empty_buffer t)]
  | (i, b) :: rest => if i =? t.(td_index) then (i, merge_fragment b t) :: rest else (i, b) :: buffer_fragment rest t
  end.

Definition is_fragment (t : ToolDelta) : bool :=
  match some_text t.(td_id) with
  | Some _ => true
  | None => match t.(td_function) with Some (n, a) => match some_text n, some_text a with None, None => false | _, _ => true end | None => false end
  end.

Section Provider.
Context (json_loads : string -> res pyval).
(** [provider_to_internal_name] *)
Context (internal_names : list (string * string)).

Definition ACTIVITY_HEARTBEAT_S : Z := 1.
Definition due (now : Z) (last : option Z) : bool := match last with None => true | Some t => ACTIVITY_HEARTBEAT_S <=? now - t end.

Definition parse_arguments (args : string) : res pyval :=
  match json_loads (if is_empty args then "{}" else args) with
  | Ok v => Ok v
  | Err e => if bool_decide (exn_type e = "JSONDecodeError") then Ok (VDict [("_raw", VStr args)]) else Err e
  end.

(** The calls at a finish: those given before an exception, and the exception. *)
Fixpoint finished_calls (bufs : ToolBuffers) : list ModelDelta * res unit :=
  match bufs with
  | [] => ([], Ok tt)
  | (_, b) :: rest =>
      match some_text b.(bf_name) with
      | None => finished_calls rest
      | Some name =>
          match parse_arguments b.(bf_args) with
          | Err e => ([], Err e)
          | Ok v => let '(ds, r) := finished_calls rest in (MCall (mkModelCall (default "" b.(bf_id)) (default name (dict_get internal_names name)) v) :: ds, r)
          end
      end
  end.

Record ProviderState := mkProviderState { ps_buffers : ToolBuffers; ps_last_activity : option Z }.
Definition provider_init : ProviderState := mkProviderState [] None.

(** One round of [async for chunk in response] *)
Definition usage_deltas (c : Chunk) : list ModelDelta :=
  match c.(ck_usage) with
  | None => []
  | Some u =>
      let cached := match u.(uf_cached_details) with Some n => Some n | None => u.(uf_cache_hit) end in
      [MUsage (mkModelUsage (default 0 u.(uf_prompt)) (default 0 u.(uf_completion)) (default 0 cached))]
  end.
(** What a chunk gives before it is asked whether it finishes *)
Definition chunk_progress (st : ProviderState) (c : Chunk) (choice : Choice) : list ModelDelta * ProviderState :=
  let d := choice.(co_delta) in
  let beat_r := match reasoning_content d with Some _ => due c.(ck_reasoning_at) st.(ps_last_activity) | None => false end in
  let last := if beat_r then Some c.(ck_reasoning_at) else st.(ps_last_activity) in
  let text := match d with Some d => some_text d.(cd_content) | None => None end in
  let tools := match d with Some d => d.(cd_tool_calls) | None => [] end in
  let beat_t := existsb is_fragment tools && due c.(ck_tool_at) last in
  (usage_deltas c ++ (if beat_r then [MActivity REASONING] else []) ++ match text with Some t => [MText t] | None => [] end
     ++ (if beat_t then [MActivity TOOL_CALL_ACTIVITY] else []),
   mkProviderState (fold_left buffer_fragment tools st.(ps_buffers)) (if beat_t then Some c.(ck_tool_at) else last)).
Definition provider_chunk (st : ProviderState) (c : Chunk) : list ModelDelta * res ProviderState :=
  match c.(ck_choices) with
  | [] => (usage_deltas c, Ok st)
  | choice :: _ =>
      let '(before, st') := chunk_progress st c choice in
      match some_text choice.(co_finish_reason) with
      | None => (before, Ok st')
      | Some reason =>
          match finished_calls st'.(ps_buffers) with
          | (calls, Ok _) => (before ++ calls ++ [MFinish (map_finish reason)], Ok st')
          | (calls, Err e) => (before ++ calls, Err e)
          end
      end
  end.

(** An [Exception] in the loop becomes an [LLMUnavailableError]; a cancellation does not. *)
Definition stream_error (e : exn) : exn := if is_exception e then llm_unavailable ("litellm stream error: " +:+ exn_str e) else e.
Fixpoint provider_chunks (st : ProviderState) (chunks : list Chunk) (end_ : option exn) : list ModelDelta * option exn :=
  match chunks with
  | [] => ([], stream_error <$> end_)
  | c :: rest =>
      match provider_chunk st c with
      | (ds, Ok st') => let '(ds', e) := provider_chunks st' rest end_ in (ds ++ ds', e)
      | (ds, Err e) => (ds, Some (stream_error e))
      end
  end.
End Provider.

(** *** The request *)

Record ProviderConfig := mkProvider {
  lp_model : string; lp_api_key : option string; lp_api_base : option string; lp_timeout : string; lp_max_retries : Z; lp_thinking : string }.

Section Request.
(** [render_openai_tool_calls], [validate_openai_tool_transcript] and [litellm.acompletion]: the chunks it
    sends and the exception the stream ends with *)
Context (render_tool_calls : list ToolCall -> pyval) (validate_transcript : list pyval -> res unit).
Context (acompletion : list (string * pyval) -> res (list Chunk * option exn)) (json_loads : string -> res pyval).

Definition wire_role (r : MessageRole) : string :=
  match r with SYSTEM => "system" | USER => "user" | ASSISTANT => "assistant" | TOOL => "tool" | PROACTIVE_ROLE => "user" end.

Definition wire_name (names : list (string * string)) (n : string) : string := default n (dict_get names n).
Definition to_msg (names : list (string * string)) (m : ChatMessage) : pyval :=
  let calls := map (fun c => mkToolCall c.(tc_id) (wire_name names c.(tc_name)) c.(tc_arguments)) m.(m_tool_calls) in
  VDict ([("role", VStr (wire_role m.(m_role))); ("content", VStr m.(m_content))]
    ++ (if bool_decide (m.(m_role) = ASSISTANT) && (if m.(m_tool_calls) is [] then false else true) then [("tool_calls", render_tool_calls calls)] else [])
    ++ (if bool_decide (m.(m_role) = TOOL)
        then [("tool_call_id", of_opt_str m.(m_tool_call_id));
              ("name", match m.(m_tool_name) with Some n => VStr (if is_empty n then n else wire_name names n) | None => VNone end)]
        else [])).

Definition completion_kwargs (p : ProviderConfig) (messages : list ChatMessage) (model : option string) (temperature : pyval) (stream : bool) (timeout : string)
    : res (list (string * pyval)) :=
  let msgs := map (to_msg []) messages in
  validate_transcript msgs ≫= fun _ =>
  Ok ([("model", VStr (opt_or model p.(lp_model))); ("messages", VList msgs); ("temperature", temperature); ("stream", VBool stream); ("timeout", VFloat timeout);
       ("max_retries", VInt p.(lp_max_retries))]
      ++ (match some_text p.(lp_api_key) with Some k => [("api_key", VStr k)] | None => [] end)
      ++ (match some_text p.(lp_api_base) with Some b => [("api_base", VStr b)] | None => [] end)
      ++ (if bool_decide (p.(lp_thinking) = "default") then [] else [("extra_body", VDict [("thinking", VDict [("type", VStr p.(lp_thinking))])])])).

(** The names the provider knows tools by, and back *)
Definition provider_names (tools : list ToolSchema) : list (string * string) :=
  fold_left (fun d t => match t.(ts_llm_name) with Some n => dict_set d n t.(ts_name) | None => d end) tools [].
Definition internal_to_provider (tools : list ToolSchema) : list (string * string) :=
  fold_left (fun d x => dict_set d x.2 x.1) (provider_names tools) [].

Inductive ProviderFact := POpened (kwargs : list (string * pyval)) | PClosed.

(** [stream]: what it does and gives, and how it ends; without a response there is nothing to close. *)
Definition provider_stream (p : ProviderConfig) (messages : list ChatMessage) (tools : list ToolSchema) (model : option string) (temperature : pyval) (max_tokens : option Z)
    : list ProviderFact * list ModelDelta * option exn :=
  match completion_kwargs p messages model temperature true p.(lp_timeout) with
  | Err e => ([], [], Some e)
  | Ok kwargs =>
      let kwargs := match max_tokens with Some n => dict_set kwargs "max_tokens" (VInt n) | None => kwargs end in
      let msgs := map (to_msg (internal_to_provider tools)) messages in
      match validate_transcript msgs with
      | Err e => ([], [], Some e)
      | Ok _ =>
          let kwargs := dict_set kwargs "messages" (VList msgs) in
          let kwargs := match tools with [] => kwargs | _ => dict_set kwargs "tools" (VList (map to_openai_function tools)) end in
          let kwargs := dict_set kwargs "stream_options" (VDict [("include_usage", VBool true)]) in
          match acompletion kwargs with
          | Err e => ([POpened kwargs], [], Some (if is_exception e then llm_unavailable ("litellm call failed: " +:+ exn_str e) else e))
          | Ok (chunks, end_) => let '(ds, e) := provider_chunks json_loads (provider_names tools) provider_init chunks end_ in ([POpened kwargs; PClosed], ds, e)
          end
      end
  end.

(** [warmup] *)
Definition provider_warmup (p : ProviderConfig) (warm : ChatMessage) (timeout : string) : res bool :=
  kwargs ← completion_kwargs p [warm] None (VInt 0) false timeout;
  match acompletion (dict_set kwargs "max_tokens" (VInt 1)) with Ok _ => Ok true | Err e => if is_exception e then Ok false else Err e end.

(** [count_tokens]; [counter] is LiteLLM's. *)
Definition count_tokens (counter : string -> list pyval -> res Z) (p : ProviderConfig) (messages : list ChatMessage) : res Z :=
  match counter p.(lp_model) (map (to_msg []) messages) with
  | Ok n => Ok n
  | Err e => if is_exception e then Ok (foldr (fun m n => Z.max 1 (Z.of_nat (py_len m.(m_content)) / 3) + n) 0 messages) else Err e
  end.
End Request.

(** ** The theorems on the language models: a reply is that of one provider, and a tool call is what its
      fragments spell, however they are cut into chunks. *)

(** ** The router *)

Section Router.
Context (streams : string -> list ModelDelta * option exn) (model_id_of : string -> option string).

Definition failed_silently (c : string) : Prop := exists e, streams c = ([], Some e) /\ is_exception e = true.
Definition attempt (c : string) : list RouterFact := [ROpened c; RClosed c].

(** How the stream of a provider and that of the router end. *)
Definition ends_as (stop : option nat) (c : string) (shown : list ModelDelta) (out : StreamEnd) : Prop :=
  let '(deltas, end_) := streams c in
  match out with
  | EndAbandoned => exists k, stop = Some k /\ shown = firstn k deltas
  | EndReturned => shown = deltas /\ end_ = None
  | EndRaised e => shown = deltas /\ exists e', end_ = Some e' /\ (if is_exception e' then is_llm_unavailable e = true /\ deltas <> [] else e = e')
  end.

Lemma candidates_tried stop candidates last_error facts out : try_candidates streams model_id_of stop candidates last_error = (facts, out) ->
  exists failed, Forall failed_silently failed /\
    ((failed = candidates /\ facts = flat_map attempt failed /\ exists e, out = EndRaised e /\ (is_llm_unavailable e = true \/ (failed = [] /\ last_error = Some e))) \/
     exists c rest shown, candidates = failed ++ c :: rest /\ facts = flat_map attempt failed ++ ROpened c :: yields_of model_id_of c shown ++ [RClosed c] /\
       ends_as stop c shown out).
Proof.
  revert last_error facts out. induction candidates as [|c rest IH]; intros last_error facts out; simpl.
  { intros [= <- <-]. exists []. split; [constructor|]. left. split_and!; [done|done|]. destruct last_error as [e|]; simpl; [exists e; auto|by eexists; split; [done|left]]. }
  destruct (streams c) as [deltas end_] eqn:Es. destruct (abandons stop deltas) as [k|] eqn:Ea.
  { intros [= <- <-]. exists []. split; [constructor|]. right. exists c, rest, (firstn k deltas). split_and!; [done|done|]. unfold ends_as. rewrite Es. exists k.
    unfold abandons in Ea. destruct stop; [|done]. case_bool_decide; [|done]. by injection Ea as ->. }
  assert (forall out', ends_as stop c deltas out' -> exists failed, Forall failed_silently failed /\
    ((failed = c :: rest /\ ROpened c :: yields_of model_id_of c deltas ++ [RClosed c] = flat_map attempt failed /\
      exists e, out' = EndRaised e /\ (is_llm_unavailable e = true \/ (failed = [] /\ last_error = Some e))) \/
     exists c' rest' shown, c :: rest = failed ++ c' :: rest' /\
       ROpened c :: yields_of model_id_of c deltas ++ [RClosed c] = flat_map attempt failed ++ ROpened c' :: yields_of model_id_of c' shown ++ [RClosed c'] /\
       ends_as stop c' shown out')) as Hlast.
  { intros out' Ho. exists []. split; [constructor|]. right. by exists c, rest, deltas. }
  destruct end_ as [e|]; [|intros [= <- <-]; apply Hlast; unfold ends_as; by rewrite Es].
  destruct (is_exception e) eqn:Ee; simpl; [|intros [= <- <-]; apply Hlast; unfold ends_as; rewrite Es; split; [done|]; exists e; by rewrite Ee].
  set (error := if is_llm_unavailable e then _ else _). assert (is_llm_unavailable error = true) as Herr by (unfold error; by destruct (is_llm_unavailable e) eqn:E).
  destruct deltas as [|d deltas]; [|intros [= <- <-]; apply Hlast; unfold ends_as; rewrite Es; split; [done|]; exists e; by rewrite Ee].
  destruct (try_candidates _ _ stop rest _) as [later out0] eqn:Et. intros [= <- <-]. destruct (IH _ _ _ Et) as (failed & Hf & Hcase).
  exists (c :: failed). split; [constructor; [by exists e|done]|]. destruct Hcase as [(-> & -> & e' & -> & Hl)|(c' & rest' & shown & -> & -> & Ho)].
  - left. split_and!; [done|done|]. exists e'. split; [done|]. left. destruct Hl as [?|[_ [= ->]]]; done.
  - right. by exists c', rest', shown.
Qed.

(** Whatever the providers do and wherever the consumer stops: every provider the router opens
    is closed before the next is opened, a provider is given up for the next only when it raised
    before its first delta, everything that is yielded comes from one provider and is a prefix
    of its stream, the whole of it unless the consumer stopped, and an exception after a delta
    is reported as an unavailable model. *)
Theorem replies_come_from_one_provider r model stop facts out : router_stream streams model_id_of r model stop = (facts, out) ->
  exists failed, Forall failed_silently failed /\
    ((failed = candidates_of r model /\ facts = flat_map attempt failed /\ exists e, out = EndRaised e /\ is_llm_unavailable e = true) \/
     exists c rest shown, candidates_of r model = failed ++ c :: rest /\
       facts = flat_map attempt failed ++ ROpened c :: yields_of model_id_of c shown ++ [RClosed c] /\ ends_as stop c shown out).
Proof.
  intros (failed & Hf & Hcase)%candidates_tried. exists failed. split; [done|]. destruct Hcase as [(? & ? & e & -> & [?|[_ [=]]])|?]; [left|by right]. eauto 6.
Qed.
End Router.

Definition two_providers (c : string) : list ModelDelta * option exn :=
  if bool_decide (c = "fast") then ([], Some (PyError "ConnectError" "refused")) else ([MText "hi"; MFinish STOP], None).
Lemma replies_come_from_one_provider_witness :
  exists failed, Forall (failed_silently two_providers) failed /\
    ((failed = ["fast"; "slow"] /\ [ROpened "fast"; RClosed "fast"; ROpened "slow"; RYielded "slow" "slow" (MText "hi"); RYielded "slow" "slow" (MFinish STOP); RClosed "slow"] = flat_map attempt failed /\
      exists e, EndReturned = EndRaised e /\ is_llm_unavailable e = true) \/
     exists c rest shown, ["fast"; "slow"] = failed ++ c :: rest /\
       [ROpened "fast"; RClosed "fast"; ROpened "slow"; RYielded "slow" "slow" (MText "hi"); RYielded "slow" "slow" (MFinish STOP); RClosed "slow"]
         = flat_map attempt failed ++ ROpened c :: yields_of (fun _ => None) c shown ++ [RClosed c] /\ ends_as two_providers None c shown EndReturned).
Proof. exact (replies_come_from_one_provider two_providers (fun _ => None) (mkRouter ["fast"; "slow"] "fast" ["slow"]) None None _ _ eq_refl). Defined.

(** ** Assembling tool calls *)

(** What the fragments of an index spell *)
Definition last_some {A B} (f : A -> option B) (l : list A) : option B := fold_left (fun o x => match f x with Some y => Some y | None => o end) l None.
Definition fragment_name (t : ToolDelta) : option string := match t.(td_function) with Some (n, _) => some_text n | None => None end.
Definition fragment_args (t : ToolDelta) : string := match t.(td_function) with Some (_, Some a) => a | _ => "" end.
Definition spelled (frs : list ToolDelta) : ToolBuffer :=
  mkBuffer (last_some (fun t => some_text t.(td_id)) frs) (last_some fragment_name frs) (cat (map fragment_args frs)).
Definition of_index (i : Z) (frs : list ToolDelta) : list ToolDelta := List.filter (fun t => t.(td_index) =? i) frs.
(** The indices in the order of their first fragments *)
Definition first_indices (frs : list ToolDelta) : list Z := fold_left (fun l t => if bool_decide (t.(td_index) ∈ l) then l else l ++ [t.(td_index)]) frs [].
Definition assembled (frs : list ToolDelta) : ToolBuffers := map (fun i => (i, spelled (of_index i frs))) (first_indices frs).

Lemma spelled_snoc frs t : spelled (frs ++ [t]) = merge_fragment (spelled frs) t.
Proof.
  unfold spelled, merge_fragment, last_some. rewrite !fold_left_app, map_app, cat_app. simpl. rewrite append_empty_r. f_equal.
Qed.
Lemma of_index_snoc i frs t : of_index i (frs ++ [t]) = of_index i frs ++ (if t.(td_index) =? i then [t] else []).
Proof. unfold of_index. rewrite List.filter_app. simpl. by destruct (_ =? _). Qed.
Lemma first_indices_snoc frs t : first_indices (frs ++ [t]) = if bool_decide (t.(td_index) ∈ first_indices frs) then first_indices frs else first_indices frs ++ [t.(td_index)].
Proof. unfold first_indices. by rewrite fold_left_app. Qed.
Lemma first_indices_complete frs t : t ∈ frs -> t.(td_index) ∈ first_indices frs.
Proof.
  induction frs as [|x frs IH] using rev_ind; [by intros ?%elem_of_nil|]. rewrite first_indices_snoc, elem_of_app, list_elem_of_singleton.
  intros Ht. case_bool_decide; [destruct Ht as [?| ->]; auto|]. rewrite elem_of_app, list_elem_of_singleton. destruct Ht as [?| ->]; auto.
Qed.

Lemma first_indices_sound i frs : i ∈ first_indices frs -> exists t, t ∈ frs /\ t.(td_index) = i.
Proof.
  induction frs as [|x frs IH] using rev_ind; [by intros ?%elem_of_nil|]. rewrite first_indices_snoc.
  case_bool_decide; [|rewrite elem_of_app, list_elem_of_singleton]; intros Hi.
  - destruct (IH Hi) as (t & ? & ?). exists t. split; [apply elem_of_app; by left|done].
  - destruct Hi as [Hi| ->]; [destruct (IH Hi) as (t & ? & ?); exists t; split; [apply elem_of_app; by left|done]|].
    exists x. split; [apply elem_of_app; right; by left|done].
Qed.
Lemma of_index_none i frs : i ∉ first_indices frs -> of_index i frs = [].
Proof.
  intros Hi. unfold of_index. destruct (List.filter _ frs) as [|t l] eqn:E; [done|]. exfalso. apply Hi.
  assert (t ∈ List.filter (fun t => td_index t =? i) frs) as [Ht E']%elem_of_filter_list by (rewrite E; by left). apply Z.eqb_eq in E' as <-. by apply first_indices_complete.
Qed.
Lemma first_indices_nodup frs : NoDup (first_indices frs).
Proof.
  induction frs as [|x frs IH] using rev_ind; [constructor|]. rewrite first_indices_snoc. case_bool_decide; [done|].
  apply NoDup_app. split_and!; [done|by intros y Hy ->%list_elem_of_singleton|apply NoDup_singleton].
Qed.

(** Adding a fragment where the indices are distinct *)
Lemma buffer_fragment_map l g t : NoDup l ->
  buffer_fragment (map (fun i => (i, g i)) l) t =
    if bool_decide (t.(td_index) ∈ l) then map (fun i => (i, if t.(td_index) =? i then merge_fragment (g i) t else g i)) l
    else map (fun i => (i, g i)) l ++ [(t.(td_index), merge_fragment empty_buffer t)].
Proof.
  induction l as [|i l IH]; intros Hnd; [done|]. apply NoDup_cons in Hnd as [Hi Hnd]. simpl. rewrite Z.eqb_sym. destruct (Z.eqb_spec (td_index t) i) as [->|Hne].
  - rewrite bool_decide_eq_true_2 by (by left). f_equal. apply map_ext_in. intros j Hj%list_elem_of_In. destruct (Z.eqb_spec i j) as [->|]; [done|done].
  - rewrite IH by done. rewrite (bool_decide_ext (td_index t ∈ i :: l) (td_index t ∈ l)) by (rewrite elem_of_cons; naive_solver). by case_bool_decide.
Qed.

Lemma fragments_assemble frs : fold_left buffer_fragment frs [] = assembled frs.
Proof.
  induction frs as [|t frs IH] using rev_ind; [done|]. rewrite fold_left_app. simpl. rewrite IH. unfold assembled.
  rewrite buffer_fragment_map by apply first_indices_nodup. rewrite first_indices_snoc. case_bool_decide as Ht.
  - apply map_ext. intros i. rewrite of_index_snoc. destruct (_ =? i); [by rewrite spelled_snoc|by rewrite app_nil_r].
  - rewrite map_app. simpl. f_equal.
    + apply map_ext_in. intros i Hi%list_elem_of_In. rewrite of_index_snoc. destruct (Z.eqb_spec (td_index t) i) as [<-|]; [done|by rewrite app_nil_r].
    + by rewrite of_index_snoc, Z.eqb_refl, of_index_none, spelled_snoc.
Qed.

(** ** A stream *)

Section Stream.
Context (json_loads : string -> res pyval) (internal_names : list (string * string)).

(** What the chunks carry *)
Definition first_choice (c : Chunk) : option Choice := hd_error c.(ck_choices).
Definition chunk_delta (c : Chunk) : option ChoiceDelta := match first_choice c with Some ch => ch.(co_delta) | None => None end.
Definition chunk_text (c : Chunk) : string := match chunk_delta c with Some d => default "" d.(cd_content) | None => "" end.
Definition chunk_tools (c : Chunk) : list ToolDelta := match chunk_delta c with Some d => d.(cd_tool_calls) | None => [] end.
Definition chunk_finish (c : Chunk) : option string := match first_choice c with Some ch => some_text ch.(co_finish_reason) | None => None end.

(** What the deltas carry *)
Definition text_of (ds : list ModelDelta) : string := cat (map (fun d => match d with MText t => t | _ => "" end) ds).
Definition calls_of (ds : list ModelDelta) : list ModelCall := flat_map (fun d => match d with MCall c => [c] | _ => [] end) ds.
Lemma text_of_app a b : text_of (a ++ b) = (text_of a +:+ text_of b)%string.
Proof. unfold text_of. by rewrite map_app, cat_app. Qed.
Lemma calls_of_app a b : calls_of (a ++ b) = calls_of a ++ calls_of b.
Proof. apply flat_map_app. Qed.

Lemma finished_calls_only bufs : text_of (finished_calls json_loads internal_names bufs).1 = "".
Proof.
  induction bufs as [|[i b] bufs IH]; simpl; [done|]. destruct (some_text (bf_name b)); [|done]. destruct (parse_arguments _ _); [|done]. by destruct (finished_calls _ _ _).
Qed.

Lemma some_text_default o : default "" (some_text o) = default "" o.
Proof. by destruct o as [[|a s]|]. Qed.

Lemma progress_spec st c ch : text_of (chunk_progress st c ch).1 = match ch.(co_delta) with Some d => default "" d.(cd_content) | None => "" end /\
  calls_of (chunk_progress st c ch).1 = [] /\
  (chunk_progress st c ch).2.(ps_buffers) = fold_left buffer_fragment (match ch.(co_delta) with Some d => d.(cd_tool_calls) | None => [] end) st.(ps_buffers).
Proof.
  unfold chunk_progress, usage_deltas. simpl. split_and!; [| |done].
  - rewrite !text_of_app. destruct (ck_usage c); simpl; destruct (match reasoning_content _ with Some _ => _ | None => false end), (_ && _); simpl;
      rewrite ?append_empty_r; (destruct (co_delta ch) as [d|]; [|done]); rewrite <- some_text_default; destruct (some_text (cd_content d)); unfold text_of; simpl; by rewrite ?append_empty_r.
  - rewrite !calls_of_app. destruct (ck_usage c); simpl; destruct (match reasoning_content _ with Some _ => _ | None => false end), (_ && _); simpl;
      by destruct (match co_delta ch with Some d => some_text _ | None => None end).
Qed.

(** A chunk that does not finish *)
Lemma chunk_unfinished st c : chunk_finish c = None ->
  exists ds st', provider_chunk json_loads internal_names st c = (ds, Ok st') /\ st'.(ps_buffers) = fold_left buffer_fragment (chunk_tools c) st.(ps_buffers) /\
    text_of ds = chunk_text c /\ calls_of ds = [].
Proof.
  unfold chunk_finish, chunk_text, chunk_tools, chunk_delta, first_choice, provider_chunk. destruct (ck_choices c) as [|ch rest]; cbn [hd_error].
  - intros _. exists (usage_deltas c), st. unfold usage_deltas. by destruct (ck_usage c).
  - intros ->. destruct (progress_spec st c ch) as (Ht & Hc & Hb). destruct (chunk_progress st c ch) as [ds st']. simpl in *. exists ds, st'. by split_and!.
Qed.
Lemma chunks_unfinished pre rest end_ : forall st, Forall (fun c => chunk_finish c = None) pre ->
  exists ds st', provider_chunks json_loads internal_names st (pre ++ rest) end_ =
      (let '(ds', e) := provider_chunks json_loads internal_names st' rest end_ in (ds ++ ds', e)) /\
    st'.(ps_buffers) = fold_left buffer_fragment (flat_map chunk_tools pre) st.(ps_buffers) /\ text_of ds = cat (map chunk_text pre) /\ calls_of ds = [].
Proof.
  induction pre as [|c pre IH]; intros st Hpre; [exists [], st; split_and!; [simpl; by destruct (provider_chunks _ _ _ _ _)|done..]|].
  apply Forall_cons in Hpre as [Hc Hpre]. destruct (chunk_unfinished st c Hc) as (ds & st1 & E & Hb & Ht & Hn). destruct (IH st1 Hpre) as (ds' & st' & E' & Hb' & Ht' & Hn').
  exists (ds ++ ds'), st'. simpl. rewrite E, E', fold_left_app, <- Hb, text_of_app, calls_of_app, Ht, Ht', Hn, Hn'. split_and!; [|done..].
  destruct (provider_chunks _ _ st' rest end_). by rewrite app_assoc.
Qed.

(** The chunk that finishes *)
Lemma chunk_finished st c reason rest end_ : chunk_finish c = Some reason ->
  exists ds more e, provider_chunks json_loads internal_names st (c :: rest) end_ = (ds ++ more, e) /\ text_of ds = chunk_text c /\
    calls_of ds = calls_of (finished_calls json_loads internal_names (fold_left buffer_fragment (chunk_tools c) st.(ps_buffers))).1.
Proof.
  unfold chunk_finish, chunk_text, chunk_tools, chunk_delta, first_choice. cbn [provider_chunks]. unfold provider_chunk. destruct (ck_choices c) as [|ch choices]; cbn [hd_error]; [done|]. intros ->.
  destruct (progress_spec st c ch) as (Ht & Hc & Hb). destruct (chunk_progress st c ch) as [before st']. simpl in *. rewrite <- Hb.
  pose proof (finished_calls_only (ps_buffers st')) as Hf. destruct (finished_calls _ _ _) as [calls [[]|e]]; simpl in *.
  - destruct (provider_chunks _ _ st' rest end_) as [more e]. exists (before ++ calls ++ [MFinish (map_finish reason)]), more, e.
    rewrite !text_of_app, !calls_of_app, Ht, Hc, Hf. split_and!; [done|by rewrite append_empty_r|by rewrite app_nil_r].
  - exists (before ++ calls), [], (Some (stream_error e)). rewrite app_nil_r, text_of_app, calls_of_app, Ht, Hc, Hf. by rewrite append_empty_r.
Qed.

End Stream.

(** *** A call in three chunks *)

Definition sample_loads (s : string) : res pyval :=
  if bool_decide (s = "{}") then Ok (VDict []) else if bool_decide (s = "[1,2]") then Ok (VList [VInt 1; VInt 2]) else Err (PyError "JSONDecodeError" "Expecting value").
Definition tool_chunk (t : ToolDelta) : Chunk := mkChunk None [mkChoice (Some (mkChoiceDelta None None [] [t])) None] 0 0.
Definition opening : Chunk := tool_chunk (mkToolDelta 0 (Some "c1") (Some (Some "lamp", Some "[1,"))).
Definition more_of_it : Chunk := tool_chunk (mkToolDelta 0 None (Some (None, Some "2]"))).
Definition finish_chunk : Chunk := mkChunk None [mkChoice (Some (mkChoiceDelta (Some "ok") None [] [mkToolDelta 1 None (Some (Some "clock", None))])) (Some "tool_calls")] 0 0.


Example lamp_and_clock : calls_of (provider_chunks sample_loads [("lamp", "home.lamp")] provider_init [opening; more_of_it; finish_chunk] None).1 =
  [mkModelCall "c1" "home.lamp" (VList [VInt 1; VInt 2]); mkModelCall "" "clock" (VDict [])].
Proof. vm_compute. reflexivity. Qed.

(** The buffers outlive a finish: a second chunk that carries a finish reason gives the calls again, *)
Example a_second_finish_repeats_the_calls :
  calls_of (provider_chunks sample_loads [] provider_init [opening; more_of_it; finish_chunk; mkChunk None [mkChoice None (Some "tool_calls")] 0 0] None).1 =
  let calls := [mkModelCall "c1" "lamp" (VList [VInt 1; VInt 2]); mkModelCall "" "clock" (VDict [])] in calls ++ calls.
Proof. vm_compute. reflexivity. Qed.
(** and a stream that ends without one gives none. *)
Example without_a_finish_no_calls : provider_chunks sample_loads [] provider_init [opening; more_of_it] None = ([MActivity TOOL_CALL_ACTIVITY], None).
Proof. vm_compute. reflexivity. Qed.
