(* ===== verification/MemoryClients.v ===== *)
(** * [infra/memory/discovery.py], [infra/memory/mcp_client.py]: where the memory of a Realm is, and the
      sessions to it.

    The environment, the subject token and the formatting of a template are parameters. A worker of a
    pool is suspended in [queue.get], in an operation of its session, or it has ended; a cancellation
    that was asked for is what its next step meets. *)

From S2P Require Import Prelude CoreTypes Json MemoryPort.

(** ** Routes *)

Record MemoryRoute := mkRoute {
  mr_memory_space_id : string;
  mr_mcp_url : string;
  mr_ops_mcp_url : option string;
  mr_bearer_token : option string;
  mr_enabled : bool;
  mr_reachable : bool;
}.
Record NatsRoute := mkNatsRoute { nr_url : string; nr_stream : string; nr_turn_template : string; nr_cmd_template : string }.
Record DiscoveryRealm := mkRealm {
  di_memory_space_id : string;
  di_enabled : bool;
  di_mcp_http_url : string;
  di_ops_mcp_http_url : string;
  (** the type and the variable of [mcp_auth] *)
  di_auth : option (string * option string);
  di_agent_reachable : bool;
}.
Record Discovery := mkDiscovery { di_nats : NatsRoute; di_realms : list DiscoveryRealm }.
Record Endpoint := mkEndpoint { ep_memory_space_id : string; ep_mcp_url : string; ep_ops_mcp_url : option string; ep_bearer_token : option string }.

Record RoutingTable := mkTable { rt_nats : NatsRoute; rt_routes : list (string * MemoryRoute); rt_source : string }.
Definition TURN_TEMPLATE : string := "eidolon.memory.turn.{memory_space_token}".
Definition CMD_TEMPLATE : string := "eidolon.memory.cmd.{memory_space_token}".

(** [from_static] *)
Definition static_routes (endpoints : list Endpoint) (nats_url : string) : RoutingTable :=
  mkTable (mkNatsRoute nats_url "" TURN_TEMPLATE CMD_TEMPLATE)
    (fold_left (fun d e => dict_set d e.(ep_memory_space_id)
       (mkRoute e.(ep_memory_space_id) e.(ep_mcp_url) (Some (opt_or e.(ep_ops_mcp_url) e.(ep_mcp_url))) e.(ep_bearer_token) true true)) endpoints []) "static".

Section Discovery.
Context (environ : string -> option string) (lower : string -> string).

Definition realm_token (r : DiscoveryRealm) : option string :=
  match r.(di_auth) with
  | Some (kind, Some var) =>
      if bool_decide (lower kind = "bearer") && negb (is_empty var) then let t := py_strip (default "" (environ var)) in if is_empty t then None else Some t else None
  | _ => None
  end.
Definition realm_route (r : DiscoveryRealm) : MemoryRoute :=
  mkRoute r.(di_memory_space_id) r.(di_mcp_http_url) (Some r.(di_ops_mcp_http_url)) (realm_token r) r.(di_enabled) r.(di_agent_reachable).
(** [replace_from_discovery] *)
Definition discovered_routes (d : Discovery) : RoutingTable :=
  mkTable d.(di_nats) (fold_left (fun t r => dict_set t r.(di_memory_space_id) (realm_route r)) d.(di_realms) []) "discovery".

(** [refresh_once] on what [fetch] gives; [build_initial_memory_routes] without a cancellation *)
Definition refresh_once (fetched : res Discovery) (t : RoutingTable) : RoutingTable * bool :=
  match fetched with Ok d => (discovered_routes d, true) | Err _ => (t, false) end.
Definition initial_routes (endpoints : list Endpoint) (nats_url : string) (discovery : option (res Discovery)) : RoutingTable * string :=
  let static := static_routes endpoints nats_url in
  match discovery with
  | Some (Ok d) => (discovered_routes d, d.(di_nats).(nr_url))
  | _ => (static, nats_url)
  end.
End Discovery.

Definition route_status_for (t : RoutingTable) (space : string) : MemoryRoute + string :=
  match dict_get t.(rt_routes) space with
  | None => inr "no_memory_route"
  | Some r => if r.(mr_enabled) then inl r else inr "memory_route_disabled"
  end.
Definition live_routes (t : RoutingTable) : list (string * MemoryRoute) := List.filter (fun x => x.2.(mr_enabled) && x.2.(mr_reachable)) t.(rt_routes).
Definition endpoint_count (t : RoutingTable) : nat := length (live_routes t).
Definition memory_space_ids (t : RoutingTable) : list string := map fst (live_routes t).

(** [_render_subject] *)
Definition routed_subject (token : string -> string) (format : string -> list (string * string) -> res string) (template space fallback : string) : res string :=
  let names := [("memory_space_id", token space); ("memory_space_token", token space); ("raw_memory_space_id", space)] in
  match format template names with
  | Ok s => if is_empty s then format fallback [("memory_space_id", token space); ("memory_space_token", token space)] else Ok s
  | Err e => if is_exception e then format fallback [("memory_space_id", token space); ("memory_space_token", token space)] else Err e
  end.

(** ** [McpClientPool] *)

(** A session object: its number, its address *)
Record Session := mkSession { se_id : nat; se_url : string; se_token : option string }.
Record ClientPool := mkClientPool { cp_read : list (string * Session); cp_write : list (string * Session); cp_closed : list nat; cp_made : nat }.
Definition client_pool_init : ClientPool := mkClientPool [] [] [] 0.
Definition cached_sessions (write : bool) (p : ClientPool) : list (string * Session) := if write then p.(cp_write) else p.(cp_read).
Definition with_cached (write : bool) (l : list (string * Session)) (closed : list nat) (made : nat) (p : ClientPool) : ClientPool :=
  if write then mkClientPool p.(cp_read) l (p.(cp_closed) ++ closed) made else mkClientPool l p.(cp_write) (p.(cp_closed) ++ closed) made.

(** [_drop_from]; with a session only that very object goes. *)
Definition drop_from (write : bool) (space : string) (session : option nat) (p : ClientPool) : ClientPool * bool :=
  match dict_get (cached_sessions write p) space with
  | None => (p, false)
  | Some s =>
      if match session with Some i => negb (bool_decide (s.(se_id) = i)) | None => false end then (p, false)
      else (with_cached write (dict_pop (cached_sessions write p) space) [s.(se_id)] p.(cp_made) p, true)
  end.

(** [_session_for] *)
Definition session_for_space (routes : RoutingTable) (write : bool) (space : string) (p : ClientPool) : ClientPool * (Session + list (string * pyval)) :=
  match route_status_for routes space with
  | inr reason => (fst (drop_from write space None p), inr [("memory_space_id", VStr space); ("reason", VStr reason)])
  | inl route =>
      let url := if write then opt_or route.(mr_ops_mcp_url) route.(mr_mcp_url) else route.(mr_mcp_url) in
      let fresh closed :=
        let s := mkSession p.(cp_made) url route.(mr_bearer_token) in
        (with_cached write (dict_set (cached_sessions write p) space s) closed (S p.(cp_made)) p, inl s) in
      match dict_get (cached_sessions write p) space with
      | Some s => if bool_decide (s.(se_url) = url) && bool_decide (s.(se_token) = route.(mr_bearer_token)) then (p, inl s) else fresh [s.(se_id)]
      | None => fresh []
      end
  end.

(** [close_all] *)
Definition close_all (p : ClientPool) : ClientPool :=
  mkClientPool [] [] (p.(cp_closed) ++ map (fun x => x.2.(se_id)) (p.(cp_read) ++ p.(cp_write))) p.(cp_made).

Inductive client_label := KSession (routes : RoutingTable) (write : bool) (space : string) | KDrop (write : bool) (space : string) (session : option nat) | KCloseAll.
Definition client_step (l : client_label) (p : ClientPool) : ClientPool :=
  match l with
  | KSession routes write space => fst (session_for_space routes write space p)
  | KDrop write space session => fst (drop_from write space session p)
  | KCloseAll => close_all p
  end.
Definition client_run (ls : list client_label) : ClientPool := fold_left (fun p l => client_step l p) ls client_pool_init.

(** ** [_decode_call_tool_result] *)

Record ContentBlock := mkBlock { cb_type : string; cb_text : option string }.
Record ToolAnswer := mkAnswer { ta_is_error : bool; ta_structured : option pyval; ta_content : list ContentBlock }.

Definition unwrap_result (v : pyval) : pyval := match v with VDict [(k, w)] => if bool_decide (k = "result") then w else v | _ => v end.
Definition decode_answer (json_loads : string -> res pyval) (a : ToolAnswer) : res pyval :=
  if a.(ta_is_error) then
    let parts := flat_map (fun b => match b.(cb_text) with Some t => if is_empty t then [] else [t] | None => [] end) a.(ta_content) in
    Err (Eidolon MemoryUnavailableError ("MCP tool error: " +:+ str_or (py_join " | " parts) "unknown"))
  else
    match a.(ta_structured) with
    | Some v => Ok (unwrap_result v)
    | None =>
        match List.find (fun b => bool_decide (b.(cb_type) = "text")) a.(ta_content) with
        | Some b =>
            let text := default "" b.(cb_text) in
            match json_loads text with
            | Ok v => Ok (unwrap_result v)
            | Err e => if bool_decide (exn_type e ∈ ["JSONDecodeError"; "TypeError"]) then Ok (VDict [("raw", VStr text)]) else Err e
            end
        | None => Ok (VDict [])
        end
    end.
(** [McpUserSession.call_tool]: its answer is always an object. *)
Definition session_answer (json_loads : string -> res pyval) (name : string) (called : res ToolAnswer) : res (list (string * pyval)) :=
  match called with
  | Err (Eidolon MemoryUnavailableError m) => Err (Eidolon MemoryUnavailableError m)
  | Err e => if is_exception e then Err (Eidolon MemoryUnavailableError ("MCP call " +:+ name +:+ " failed: " +:+ exn_str e)) else Err e
  | Ok a => v ← decode_answer json_loads a; Ok (match v with VDict d => d | VList l => [("records", VList l)] | _ => [("result", v)] end)
  end.

(** ** [McpReadSessionPool] *)

Inductive PoolOp := OpCall (name : string) (arguments : list (string * pyval)) | OpProbe.
Inductive PoolFuture := FuPending | FuResult (v : pyval) | FuError (e : exn) | FuCancelled.
Inductive WorkerPc := WWaiting | WServing (future : nat) (op : PoolOp) | WEnded.
Record Worker := mkWorker { wk_pc : WorkerPc; wk_cancelled : bool }.

Record ReadPool := mkReadPool {
  rp_queue : list (nat * PoolOp);
  rp_futures : gmap nat PoolFuture;
  rp_workers : list Worker;
  rp_closed : bool;
  rp_next : nat;
}.
Definition read_pool_init : ReadPool := mkReadPool [] ∅ [] false 0.
Definition pool_closed_error : exn := Eidolon MemoryUnavailableError "MCP read session pool is closed".

Section ReadPool.
Context (size : nat).
Definition pool_size : nat := Nat.max 1 size.

(** [_submit] to its await; [None] when it is refused *)
Definition submit_op (op : PoolOp) (p : ReadPool) : ReadPool :=
  if p.(rp_closed) then p
  else mkReadPool (p.(rp_queue) ++ [(p.(rp_next), op)]) (<[p.(rp_next) := FuPending]> p.(rp_futures))
         (match p.(rp_workers) with [] => repeat (mkWorker WWaiting false) pool_size | ws => ws end) p.(rp_closed) (S p.(rp_next)).

(** [future.set_result], [set_exception] and [cancel] of one that is not done *)
Definition settle (f : nat) (v : PoolFuture) (p : ReadPool) : ReadPool :=
  match p.(rp_futures) !! f with
  | Some FuPending => mkReadPool p.(rp_queue) (<[f := v]> p.(rp_futures)) p.(rp_workers) p.(rp_closed) p.(rp_next)
  | _ => p
  end.
Definition put_worker (w : nat) (k : Worker) (p : ReadPool) : ReadPool :=
  mkReadPool p.(rp_queue) p.(rp_futures) (<[w := k]> p.(rp_workers)) p.(rp_closed) p.(rp_next).

Definition worker_takes (w : nat) (p : ReadPool) : ReadPool :=
  match p.(rp_workers) !! w, p.(rp_queue) with
  | Some (mkWorker WWaiting false), (f, op) :: rest =>
      put_worker w (mkWorker (WServing f op) false) (mkReadPool rest p.(rp_futures) p.(rp_workers) p.(rp_closed) p.(rp_next))
  | _, _ => p
  end.
(** The operation of the session ends; a probe gives [None] on any exception. *)
Definition worker_serves (w : nat) (r : res pyval) (p : ReadPool) : ReadPool :=
  match p.(rp_workers) !! w with
  | Some (mkWorker (WServing f op) false) =>
      let v := match r, op with Ok v, _ => FuResult v | Err _, OpProbe => FuResult VNone | Err e, OpCall _ _ => FuError e end in
      put_worker w (mkWorker WWaiting false) (settle f v p)
  | _ => p
  end.
(** The [CancelledError] a cancelled worker meets: [queue.get] and [call_tool] let it through; the probe
    of [McpUserSession.tool_names] catches it as a [BaseException] and answers [None]. *)
Definition worker_cancelled (w : nat) (p : ReadPool) : ReadPool :=
  match p.(rp_workers) !! w with
  | Some (mkWorker WWaiting true) => put_worker w (mkWorker WEnded false) p
  | Some (mkWorker (WServing f (OpCall _ _)) true) => put_worker w (mkWorker WEnded false) (settle f (FuError pool_closed_error) p)
  | Some (mkWorker (WServing f OpProbe) true) => put_worker w (mkWorker WWaiting false) (settle f (FuResult VNone) p)
  | _ => p
  end.

Definition cancel_worker (k : Worker) : Worker := match k.(wk_pc) with WEnded => k | _ => mkWorker k.(wk_pc) true end.
(** [close] to its [gather]; the workers are forgotten, so a second [close] finds none. *)
Definition close_pool (p : ReadPool) : ReadPool :=
  let p := fold_left (fun p x => settle x.1 (FuError pool_closed_error) p) p.(rp_queue) p in
  mkReadPool [] p.(rp_futures) (if p.(rp_closed) then p.(rp_workers) else map cancel_worker p.(rp_workers)) true p.(rp_next).

Inductive pool_label :=
  | LSubmit (op : PoolOp)
  | LCallerCancelled (f : nat)
  | LTakes (w : nat)
  | LServes (w : nat) (r : res pyval)
  | LCancelled (w : nat)
  | LClose.
Definition pool_step (l : pool_label) (p : ReadPool) : ReadPool :=
  match l with
  | LSubmit op => submit_op op p
  | LCallerCancelled f => settle f FuCancelled p
  | LTakes w => worker_takes w p
  | LServes w r => worker_serves w r p
  | LCancelled w => worker_cancelled w p
  | LClose => close_pool p
  end.
Definition pool_run (ls : list pool_label) : ReadPool := fold_left (fun p l => pool_step l p) ls read_pool_init.
(** [gather] of the workers returns. *)
Definition close_returns (p : ReadPool) : Prop := Forall (fun k => k.(wk_pc) = WEnded) p.(rp_workers).
End ReadPool.

(** ** The theorems on the memory clients: no session is leaked, no request to a pool is forgotten, and a
      probe that is under way when the pool is closed keeps it open. *)

(** ** Sessions *)

Definition ids (l : list (string * Session)) : list nat := map (fun x => x.2.(se_id)) l.
(** Every session that was made is cached once, or was closed. *)
Definition Accounted (p : ClientPool) : Prop := ids p.(cp_read) ++ ids p.(cp_write) ++ p.(cp_closed) ≡ₚ seq 0 p.(cp_made).

Lemma ids_pop l k s : dict_get l k = Some s -> ids l ≡ₚ s.(se_id) :: ids (dict_pop l k).
Proof.
  induction l as [|[k' s'] l IH]; simpl; [done|]. destruct (decide (k = k')) as [->|]; [by intros [= ->]|].
  intros Hg. simpl. rewrite (IH Hg). apply Permutation_swap.
Qed.
Lemma ids_set l k s s' : dict_get l k = Some s -> s.(se_id) :: ids (dict_set l k s') ≡ₚ s'.(se_id) :: ids l.
Proof.
  induction l as [|[k' t] l IH]; simpl; [done|]. destruct (decide (k = k')) as [->|]; simpl; [intros [= ->]; apply Permutation_swap|].
  intros Hg. rewrite Permutation_swap, (IH Hg). apply Permutation_swap.
Qed.
Lemma ids_set_new l k s' : dict_get l k = None -> ids (dict_set l k s') ≡ₚ s'.(se_id) :: ids l.
Proof.
  induction l as [|[k' t] l IH]; simpl; [done|]. destruct (decide (k = k')) as [->|]; simpl; [done|]. intros Hg. rewrite (IH Hg). apply Permutation_swap.
Qed.

(** The ids of the two tables and the closed ones, the changed table first *)
Lemma accounted_table write p : Accounted p <-> ids (cached_sessions write p) ++ ids (cached_sessions (negb write) p) ++ p.(cp_closed) ≡ₚ seq 0 p.(cp_made).
Proof. unfold Accounted. destruct write; [|done]. simpl. by rewrite !app_assoc, (Permutation_app_comm (ids (cp_read p))). Qed.
Lemma with_cached_accounted write l closed made p :
  ids l ++ ids (cached_sessions (negb write) p) ++ p.(cp_closed) ++ closed ≡ₚ seq 0 made -> Accounted (with_cached write l closed made p).
Proof. intros E. apply (accounted_table write). by destruct write. Qed.

Lemma drop_accounted write space session p : Accounted p -> Accounted (drop_from write space session p).1.
Proof.
  intros HA. unfold drop_from. destruct (dict_get (cached_sessions write p) space) as [s|] eqn:Eg; [|done]. destruct (match session with Some _ => _ | None => false end); [done|].
  simpl. apply with_cached_accounted. apply (accounted_table write) in HA. rewrite <- HA, (ids_pop _ _ _ Eg). simpl.
  rewrite !app_assoc, (Permutation_app_comm _ [se_id s]). done.
Qed.
Lemma seq_snoc n : seq 0 (S n) = seq 0 n ++ [n].
Proof. by rewrite seq_S. Qed.
Lemma session_accounted routes write space p : Accounted p -> Accounted (session_for_space routes write space p).1.
Proof.
  intros HA. unfold session_for_space. destruct (route_status_for routes space) as [route|reason]; [|by apply drop_accounted].
  set (url := if write then _ else _). set (s' := mkSession (cp_made p) url (mr_bearer_token route)).
  destruct (dict_get (cached_sessions write p) space) as [s|] eqn:Eg.
  - destruct (_ && _); [done|]. simpl. apply with_cached_accounted. apply (accounted_table write) in HA. rewrite seq_snoc, <- HA.
    rewrite !app_assoc, (Permutation_app_comm _ [se_id s]). simpl. rewrite <- !app_assoc, app_comm_cons, (ids_set _ _ _ s' Eg). simpl.
    rewrite (Permutation_cons_append _ (cp_made p)). by rewrite !app_assoc.
  - simpl. apply with_cached_accounted. apply (accounted_table write) in HA. rewrite seq_snoc, <- HA, app_nil_r, (ids_set_new _ _ s' Eg). simpl.
    rewrite (Permutation_cons_append _ (cp_made p)). by rewrite !app_assoc.
Qed.
Lemma close_all_accounted p : Accounted p -> Accounted (close_all p).
Proof. unfold Accounted, close_all. simpl. intros <-. rewrite map_app. fold (ids (cp_read p)) (ids (cp_write p)). by rewrite Permutation_app_comm, app_assoc. Qed.

Theorem no_session_is_leaked ls : Accounted (client_run ls).
Proof.
  unfold client_run. apply (fold_left_inv Accounted); [unfold Accounted; simpl; constructor|]. intros p [routes write space|write space session|] _ HA; simpl;
    [by apply session_accounted|by apply drop_accounted|by apply close_all_accounted].
Qed.

(** A session goes to the address of the route. *)
Lemma session_of_the_route routes write space p s : (session_for_space routes write space p).2 = inl s ->
  exists route, route_status_for routes space = inl route /\ s.(se_token) = route.(mr_bearer_token) /\
    s.(se_url) = (if write then opt_or route.(mr_ops_mcp_url) route.(mr_mcp_url) else route.(mr_mcp_url)) /\
    dict_get (cached_sessions write (session_for_space routes write space p).1) space = Some s.
Proof.
  unfold session_for_space. destruct (route_status_for routes space) as [route|]; [|done]. intros Hs. exists route. split; [done|].
  assert (forall l closed made, cached_sessions write (with_cached write l closed made p) = l) as Hc by (by destruct write).
  destruct (dict_get (cached_sessions write p) space) as [t|] eqn:Eg.
  - destruct (bool_decide (se_url t = _) && _) eqn:Em; simpl in *.
    + injection Hs as <-. apply andb_prop in Em as [Eu%bool_decide_eq_true Et%bool_decide_eq_true]. done.
    + injection Hs as <-. simpl. by rewrite Hc, dict_get_set_eq.
  - simpl in *. injection Hs as <-. simpl. by rewrite Hc, dict_get_set_eq.
Qed.

(** ** The read pool *)

Section Pool.
Context (size : nat).

Definition served (p : ReadPool) (f : nat) : Prop := exists w op c, p.(rp_workers) !! w = Some (mkWorker (WServing f op) c).
(** Every request that was accepted is answered, in the queue, or with a worker. *)
Record PoolInv (p : ReadPool) : Prop := {
  pi_futures f : (f < p.(rp_next))%nat -> exists v, p.(rp_futures) !! f = Some v;
  pi_pending f : p.(rp_futures) !! f = Some FuPending -> (exists op, (f, op) ∈ p.(rp_queue)) \/ served p f;
  pi_closed : p.(rp_closed) = true -> p.(rp_queue) = [];
}.

Lemma served_put p w k f : served p f -> (forall op c, p.(rp_workers) !! w <> Some (mkWorker (WServing f op) c)) -> served (put_worker w k p) f.
Proof.
  intros (w' & op & c & Hw) Hne. exists w', op, c. simpl. destruct (decide (w' = w)) as [->|]; [by destruct (Hne op c)|]. by rewrite list_lookup_insert_ne.
Qed.

Lemma settle_fields f v p : (settle f v p).(rp_queue) = p.(rp_queue) /\ (settle f v p).(rp_workers) = p.(rp_workers) /\ (settle f v p).(rp_closed) = p.(rp_closed) /\
  (settle f v p).(rp_next) = p.(rp_next).
Proof. unfold settle. by destruct (rp_futures p !! f) as [[]|]. Qed.
Lemma settle_pending f v p g : v <> FuPending -> (settle f v p).(rp_futures) !! g = Some FuPending -> p.(rp_futures) !! g = Some FuPending /\ g <> f.
Proof.
  intros Hv. unfold settle. destruct (rp_futures p !! f) as [[]|] eqn:Ef; simpl; try (intros Hg; split; [done|congruence]).
  destruct (decide (g = f)) as [->|]; [rewrite lookup_insert_eq; congruence|by rewrite lookup_insert_ne].
Qed.
Lemma settle_some f v p g : (exists u, p.(rp_futures) !! g = Some u) -> exists u, (settle f v p).(rp_futures) !! g = Some u.
Proof.
  intros [u Hu]. unfold settle. destruct (rp_futures p !! f) as [[]|]; simpl; eauto. destruct (decide (g = f)) as [->|]; [rewrite lookup_insert_eq|rewrite lookup_insert_ne by done]; eauto.
Qed.

Lemma settle_inv f v p : v <> FuPending -> PoolInv p -> PoolInv (settle f v p).
Proof.
  intros Hv [Hf Hp Hc]. destruct (settle_fields f v p) as (Eq & Ew & Ec & En). constructor.
  - intros g. rewrite En. intros Hg. by apply settle_some, Hf.
  - intros g [Hg _]%settle_pending; [|done]. destruct (Hp g Hg) as [?|(w & op & c & Hw)]; [left; by rewrite Eq|right]. exists w, op, c. by rewrite Ew.
  - by rewrite Ec, Eq.
Qed.

(** A worker that leaves its request has settled it. *)
Lemma put_inv p w k : PoolInv p -> (forall f op c, p.(rp_workers) !! w = Some (mkWorker (WServing f op) c) -> p.(rp_futures) !! f <> Some FuPending) -> PoolInv (put_worker w k p).
Proof.
  intros [Hf Hp Hc] Hs. constructor; [done| |done]. intros f Hpf. destruct (Hp f Hpf) as [?|Hserved]; [by left|right]. apply served_put; [done|]. intros op c Hw.
  by apply (Hs f op c).
Qed.
Lemma settled f v p : v <> FuPending -> (settle f v p).(rp_futures) !! f <> Some FuPending.
Proof. intros Hv [_ Hne]%settle_pending; done. Qed.

Lemma settle_put_inv p w k f op c v : PoolInv p -> p.(rp_workers) !! w = Some (mkWorker (WServing f op) c) -> v <> FuPending -> PoolInv (put_worker w k (settle f v p)).
Proof.
  intros HI Hw Hv. apply put_inv; [by apply settle_inv|]. destruct (settle_fields f v p) as (_ & -> & _). intros f' op' c' E. rewrite Hw in E. injection E as <- <- <-. by apply settled.
Qed.

Lemma submit_inv op p : PoolInv p -> PoolInv (submit_op size op p).
Proof.
  intros HI. pose proof HI as [Hf Hp Hc]. unfold submit_op. destruct (rp_closed p) eqn:Ec; [done|]. constructor; simpl; [| |done].
  - intros f Hlt. destruct (decide (f = rp_next p)) as [->|]; [rewrite lookup_insert_eq; eauto|]. rewrite lookup_insert_ne by done. apply Hf. lia.
  - intros f Hpf. destruct (decide (f = rp_next p)) as [->|]; [left; exists op; apply elem_of_app; right; by left|]. rewrite lookup_insert_ne in Hpf by done.
    destruct (Hp f Hpf) as [[op' ?]|(w & op' & c & Hw)]; [left; exists op'; apply elem_of_app; by left|right]. exists w, op', c. simpl. by destruct (rp_workers p).
Qed.

Lemma takes_inv w p : PoolInv p -> PoolInv (worker_takes w p).
Proof.
  intros HI. pose proof HI as [Hf Hp Hc]. unfold worker_takes. destruct (rp_workers p !! w) as [[[| |] []]|] eqn:Ew; try done. destruct (rp_queue p) as [|[f op] rest] eqn:Eq; [done|].
  assert (w < length (rp_workers p))%nat as Hlt by (by eapply lookup_lt_Some). constructor; simpl; [done| |by intros E%Hc].
  intros g Hg. destruct (Hp g Hg) as [[op' Hin]|Hs].
  - apply elem_of_cons in Hin as [[= -> ->]|Hin]; [right|left; by exists op']. exists w, op, false. simpl. by rewrite list_lookup_insert_eq.
  - right. destruct Hs as (w' & op' & c & Hw'). exists w', op', c. simpl. destruct (decide (w' = w)) as [->|]; [congruence|]. by rewrite list_lookup_insert_ne.
Qed.

Lemma serves_inv w r p : PoolInv p -> PoolInv (worker_serves w r p).
Proof.
  intros HI. unfold worker_serves. destruct (rp_workers p !! w) as [[[|f op|] []]|] eqn:Ew; try done. eapply settle_put_inv; [done..|]. by destruct r, op.
Qed.
Lemma cancelled_inv w p : PoolInv p -> PoolInv (worker_cancelled w p).
Proof.
  intros HI. unfold worker_cancelled. destruct (rp_workers p !! w) as [[[|f []|] []]|] eqn:Ew; try done.
  - apply put_inv; [done|]. congruence.
  - by eapply settle_put_inv.
  - by eapply settle_put_inv.
Qed.

(** What [close] leaves pending was not in the queue. *)
Lemma drain_pending (l : list (nat * PoolOp)) (p : ReadPool) : let p' := fold_left (fun p (x : nat * PoolOp) => settle x.1 (FuError pool_closed_error) p) l p in
  p'.(rp_workers) = p.(rp_workers) /\ p'.(rp_closed) = p.(rp_closed) /\ p'.(rp_next) = p.(rp_next) /\
  (forall f, (exists u, p.(rp_futures) !! f = Some u) -> exists u, p'.(rp_futures) !! f = Some u) /\
  forall f, p'.(rp_futures) !! f = Some FuPending -> p.(rp_futures) !! f = Some FuPending /\ forall op, (f, op) ∉ l.
Proof.
  revert p. induction l as [|[g op] l IH]; intros p; simpl; [split_and!; try done; intros f ?; split; [done|]; by intros op ?%elem_of_nil|].
  destruct (IH (settle g (FuError pool_closed_error) p)) as (Hw & Hc & Hn & Hs & Hp). destruct (settle_fields g (FuError pool_closed_error) p) as (_ & Ew & Ec & En).
  rewrite Hw, Hc, Hn, Ew, Ec, En. split_and!; try done; [intros f ?; by apply Hs, settle_some|].
  intros f Hf. destruct (Hp f Hf) as [Hf' Hnot]. apply settle_pending in Hf' as [? Hne]; [|done]. split; [done|]. intros op' [[= ->]|?]%elem_of_cons; [done|by eapply Hnot].
Qed.

Lemma close_inv p : PoolInv p -> PoolInv (close_pool p).
Proof.
  intros [Hf Hp Hc]. unfold close_pool. destruct (drain_pending (rp_queue p) p) as (Hw & Hcl & Hn & Hs & Hq). set (p' := fold_left _ _ _) in *. constructor; simpl; [| |done].
  - intros f. rewrite Hn. intros Hlt. by apply Hs, Hf.
  - intros f [Hpf Hnot]%Hq. destruct (Hp f Hpf) as [[op Hin]|(w & op & c & Ew)]; [by destruct (Hnot op)|right]. rewrite Hcl, Hw.
    destruct (rp_closed p); [by exists w, op, c|]. exists w, op, true. simpl. by rewrite list_lookup_fmap, Ew.
Qed.

Lemma pool_run_inv ls : PoolInv (pool_run size ls).
Proof.
  unfold pool_run. apply (fold_left_inv PoolInv).
  - constructor; simpl; [lia|by intros f|done].
  - intros p l _ HI. destruct l; simpl; [by apply submit_inv|by apply settle_inv|by apply takes_inv|by apply serves_inv|by apply cancelled_inv|by apply close_inv].
Qed.

(** Every accepted request is answered, in the queue, or with a worker. *)
Theorem pool_forgets_no_request ls f : (f < (pool_run size ls).(rp_next))%nat ->
  (exists v, (pool_run size ls).(rp_futures) !! f = Some v /\ v <> FuPending) \/ (exists op, (f, op) ∈ (pool_run size ls).(rp_queue)) \/ served (pool_run size ls) f.
Proof.
  intros Hf. pose proof (pool_run_inv ls) as [Hs Hp _]. destruct (Hs f Hf) as [v Hv]. destruct v; [right; by apply Hp|left; by eexists..].
Qed.

(** Once a closed pool has no workers left, nobody waits. *)
Theorem closed_pool_answers_everyone ls f : (pool_run size ls).(rp_closed) = true -> close_returns (pool_run size ls) -> (pool_run size ls).(rp_futures) !! f <> Some FuPending.
Proof.
  intros Hc Hr Hf. pose proof (pool_run_inv ls) as [_ Hp Hq]. destruct (Hp f Hf) as [[op Hin]|(w & op & c & Hw)].
  - rewrite (Hq Hc) in Hin. by apply elem_of_nil in Hin.
  - apply list_elem_of_lookup_2 in Hw. unfold close_returns in Hr. rewrite Forall_forall in Hr. by apply Hr in Hw.
Qed.

(** Whatever is submitted, taken, served, cancelled and closed, in whatever order: every
    request the read pool accepted is answered, still queued, or with a worker; and once the
    pool is closed and its workers have ended, every one of them is answered. *)
Theorem pool_requests_are_answered ls f : (f < (pool_run size ls).(rp_next))%nat ->
  ((exists v, (pool_run size ls).(rp_futures) !! f = Some v /\ v <> FuPending) \/
   (exists op, (f, op) ∈ (pool_run size ls).(rp_queue)) \/ served (pool_run size ls) f) /\
  ((pool_run size ls).(rp_closed) = true -> close_returns (pool_run size ls) ->
   exists v, (pool_run size ls).(rp_futures) !! f = Some v /\ v <> FuPending).
Proof.
  intros Hf. split; [by apply pool_forgets_no_request|]. intros Hc Hr. destruct (pi_futures _ (pool_run_inv ls) f Hf) as [v Hv]. exists v. split; [done|].
  intros ->. by apply (closed_pool_answers_everyone ls f Hc Hr).
Qed.

(** *** A probe under way when the pool is closed *)

(** The worker that swallowed its cancellation waits for requests that can no longer come. *)
Definition left_behind (p : ReadPool) : Prop := p.(rp_closed) = true /\ p.(rp_queue) = [] /\ exists w, p.(rp_workers) !! w = Some (mkWorker WWaiting false).
Lemma left_behind_stays l p : left_behind p -> left_behind (pool_step size l p).
Proof.
  intros (Hc & Hq & w & Hw). destruct l as [op|f|v|v r|v|]; simpl.
  - unfold submit_op. rewrite Hc. by split_and!; [| |exists w].
  - destruct (settle_fields f FuCancelled p) as (Eq & Ew & Ec & _). split_and!; [congruence|congruence|]. exists w. by rewrite Ew.
  - unfold worker_takes. rewrite Hq. destruct (rp_workers p !! v) as [[[] []]|]; by split_and!; [| |exists w].
  - unfold worker_serves. destruct (rp_workers p !! v) as [[[|f op|] []]|] eqn:Ev; try (by split_and!; [| |exists w]).
    match goal with |- context [settle f ?x p] => destruct (settle_fields f x p) as (Eq & Ew & Ec & _) end. split_and!; simpl; [congruence|congruence|].
    exists w. rewrite Ew. destruct (decide (v = w)) as [->|]; [congruence|]. by rewrite list_lookup_insert_ne.
  - unfold worker_cancelled. destruct (rp_workers p !! v) as [[[|f []|] []]|] eqn:Ev; try (by split_and!; [| |exists w]).
    + split_and!; simpl; [done..|]. exists w. destruct (decide (v = w)) as [->|]; [congruence|]. by rewrite list_lookup_insert_ne.
    + destruct (settle_fields f (FuError pool_closed_error) p) as (Eq & Ew & Ec & _). split_and!; simpl; [congruence|congruence|].
      exists w. rewrite Ew. destruct (decide (v = w)) as [->|]; [congruence|]. by rewrite list_lookup_insert_ne.
    + destruct (settle_fields f (FuResult VNone) p) as (Eq & Ew & Ec & _). split_and!; simpl; [congruence|congruence|].
      exists w. rewrite Ew. destruct (decide (v = w)) as [->|]; [congruence|]. by rewrite list_lookup_insert_ne.
  - unfold close_pool. rewrite Hq. simpl. rewrite Hc. by split_and!; [| |exists w].
Qed.

Lemma left_behind_forever ls p : left_behind p -> ~ close_returns (fold_left (fun p l => pool_step size l p) ls p).
Proof.
  intros Hp. assert (left_behind (fold_left (fun p l => pool_step size l p) ls p)) as (_ & _ & w & Hw) by (apply (fold_left_inv left_behind); [done|]; intros; by apply left_behind_stays).
  unfold close_returns. rewrite Forall_forall. intros Hr. apply list_elem_of_lookup_2, Hr in Hw. done.
Qed.
End Pool.

Definition closing_while_probing : list pool_label := [LSubmit OpProbe; LTakes 0; LClose; LCancelled 0].
Theorem close_never_returns_after_a_probe ls : ~ close_returns (fold_left (fun p l => pool_step 1 l p) ls (pool_run 1 closing_while_probing)).
Proof. apply left_behind_forever. vm_compute. split_and!; [done|done|by exists 0%nat]. Qed.

(** ** A concrete run: two requests, one answered, one cancelled by the close *)

Notation sample_pool := (pool_run 1 [LSubmit (OpCall "recall" []); LSubmit (OpCall "recall" []); LTakes 0; LServes 0 (Ok VNone); LTakes 0; LClose; LCancelled 0]).
Lemma pool_requests_are_answered_witness : exists v, sample_pool.(rp_futures) !! 1%nat = Some v /\ v <> FuPending.
Proof.
  apply (pool_requests_are_answered 1 [LSubmit (OpCall "recall" []); LSubmit (OpCall "recall" []); LTakes 0; LServes 0 (Ok VNone); LTakes 0; LClose; LCancelled 0] 1);
    [vm_compute; lia|vm_compute; reflexivity|].
  unfold close_returns. vm_compute. repeat constructor.
Defined.
