(* ===== verification/HomeTools.v ===== *)
(** * The smart-home tools of the language model: [domain/smarthome/tools.py].

    Six fixed tools read the directory anew, resolve an address or a scene, and go through the
    planning and the execution of a spoken command. The constructor of the SDK's [Slot], which
    validates and may refuse a value, is a parameter. *)

From Stdlib Require Import SpecFloat.
From S2P Require Import Prelude CoreTypes Json Effects Presentation HomePlanning HomeMessages HomeCommand.
#[local] Open Scope eff_scope.

(** What a tool reads of its [ToolInvocationContext] *)
Record HomeToolContext := mkHomeToolContext { hc_turn : TurnContext; hc_turn_id : string; hc_input_modality : string }.

Inductive HomeTool := HomeTurnTool (on : bool) | HomeSetTool | HomeAdjustTool | HomeGetStateTool | HomeActivateSceneTool.
#[global] Instance home_tool_eq_dec : EqDecision HomeTool.
Proof. solve_decision. Defined.

(** ** The schemas *)

Definition HOME_PERMISSIONS : list Permission := [SYSTEM_PERM; USER_DATA].
Definition HOME_IDEMPOTENCY : string := "smarthome:${tool_name}:${owner_id}:${trace_id}:${arguments_json}".
Definition typed (t : string) : pyval := VDict [("type", VStr t)].
Definition choice (values : list string) : pyval := VDict [("type", VStr "string"); ("enum", VList (map VStr values))].

(** [_TURN]: the trait and the command of a device that is turned on or off *)
Definition TURN (on : bool) : list (string * string) :=
  if on then [("on_off", "on"); ("position", "open"); ("operational", "start")]
  else [("on_off", "off"); ("position", "close"); ("operational", "stop")].
(** [_SETTINGS]: the trait, the command and the parameter of a setting *)
Definition SETTINGS : list (string * (string * string * string)) :=
  [("brightness", ("level", "set", "value")); ("temperature", ("thermostat", "set_target", "celsius")); ("mode", ("thermostat", "set_mode", "mode"));
   ("fan_speed", ("fan_speed", "set", "value")); ("position", ("position", "set", "value")); ("volume", ("volume", "set", "value"));
   ("muted", ("volume", "mute", "muted"))].
(** [_STEPS]: the trait and the default step *)
Definition HOME_STEPS : list (string * (string * Z)) :=
  [("brightness", ("level", 10)); ("temperature", ("thermostat", 1)); ("volume", ("volume", 10)); ("fan_speed", ("fan_speed", 10))].
Definition sorted_names (l : list string) : list string := py_sorted str_leb l.

Section Schemas.
Context `{HomeSdk} (timeout_s : string).

(** [_ADDRESS] *)
Definition ADDRESS : list (string * pyval) :=
  [("name", VDict [("type", VStr "string"); ("description", VStr "Device name or alias exactly as the Owner calls it, e.g. 客厅主灯.")]);
   ("area", VDict [("type", VStr "string"); ("description", VStr "Room name, e.g. 客厅. Omit to mean the room the speaker is in.")]);
   ("device_type", VDict [("type", VStr "string"); ("enum", VList (map VStr (sorted_names (map fst DEVICE_TYPES))));
                          ("description", VStr "Device type, used with or instead of a name.")]);
   ("all", VDict [("type", VStr "boolean");
                  ("description", VStr "True to act on every matching device (所有灯). Otherwise several matches are ambiguous.")])].
(** [_MODES] *)
Definition HOME_MODES : list string := sorted_names (dedup_keys (concat (map (fun x => x.2.(ty_modes)) DEVICE_TYPES))).

(** [_actuating_schema] *)
Definition actuating_schema (name description : string) (properties : list (string * pyval)) (required : list string) : ToolSchema :=
  mkToolSchema name
    (description +:+ " Do not claim the home changed unless this tool returns " +:+ "completed=true; relay its message otherwise.")%string
    [("type", VStr "object"); ("properties", VDict properties); ("required", VList (map VStr required)); ("additionalProperties", VBool false)]
    HOME_PERMISSIONS timeout_s true (Some HOME_IDEMPOTENCY) None.

(** The schema of each tool *)
Definition home_turn_schema (on : bool) : ToolSchema :=
  actuating_schema ("home_turn_" +:+ (if on then "on" else "off"))
    ((if on then "Turn on / open / start" else "Turn off / close / stop") +:+ " smart-home devices, addressed by name, area and/or device_type.")
    ADDRESS [].
Definition home_set_schema : ToolSchema :=
  actuating_schema "home_set"
    ("Set exactly one value on smart-home devices: brightness 0-100, temperature " +:+
     "in °C, climate mode, fan_speed 0-100, curtain position 0-100, volume 0-100, " +:+ "or muted.")
    (ADDRESS ++ [("brightness", typed "integer"); ("temperature", typed "number"); ("mode", choice HOME_MODES); ("fan_speed", typed "integer");
                 ("position", typed "integer"); ("volume", typed "integer"); ("muted", typed "boolean")]) [].
Definition home_adjust_schema : ToolSchema :=
  actuating_schema "home_adjust"
    ("Raise or lower brightness (percent points), temperature (°C) or volume by an " +:+ "amount; without an amount use a small default step.")
    (ADDRESS ++ [("setting", choice (sorted_names (map fst HOME_STEPS))); ("direction", choice ["up"; "down"]); ("amount", typed "number")])
    ["setting"; "direction"].
Definition home_get_state_schema : ToolSchema :=
  mkToolSchema "home_get_state"
    ("Read the current state of smart-home devices, addressed by name, area " +:+ "and/or device_type; with no arguments, list every device and scene.")%string
    [("type", VStr "object"); ("properties", VDict ADDRESS); ("required", VList []); ("additionalProperties", VBool false)]
    [USER_DATA] timeout_s false None None.
Definition home_scene_schema : ToolSchema :=
  actuating_schema "home_activate_scene" "Activate one of the Owner's scenes (e.g. 回家, 观影); each step is reported."
    [("scene", VDict [("type", VStr "string"); ("description", VStr "Scene name, e.g. 回家 or 回家模式.")])] ["scene"].

(** [self.schema] *)
Definition home_schema (tool : HomeTool) : ToolSchema :=
  match tool with
  | HomeTurnTool on => home_turn_schema on
  | HomeSetTool => home_set_schema
  | HomeAdjustTool => home_adjust_schema
  | HomeGetStateTool => home_get_state_schema
  | HomeActivateSceneTool => home_scene_schema
  end.

(** [smart_home_tools] *)
Definition smart_home_tools : list HomeTool :=
  [HomeTurnTool true; HomeTurnTool false; HomeSetTool; HomeAdjustTool; HomeGetStateTool; HomeActivateSceneTool].
End Schemas.

(** ** Arguments *)

(** [_text] *)
Definition text_argument (v : option pyval) : option string :=
  match v with
  | Some (VStr s) => let t := py_strip s in if is_empty t then None else Some t
  | _ => None
  end.

(** [abs] and [-abs] of a float by its [repr] *)
Definition float_abs (r : string) : string := match r with String "-" r' => r' | _ => r end.
Definition float_negative (r : string) : string := if bool_decide (float_abs r = "nan") then "nan" else ("-" +:+ float_abs r)%string.

(** [s.removesuffix(suffix)] *)
Definition removesuffix (suffix s : string) : string :=
  if py_endswith suffix s then cat (take (py_len s - py_len suffix) (chars s)) else s.
Definition scene_key (s : string) : string := removesuffix "场景" (removesuffix "模式" s).

(** [_find_scene] *)
Definition find_scene (scenes : list Scene) (wanted : string) : option Scene :=
  let key := scene_key (cat (py_split wanted)) in
  List.find (fun s => negb (is_empty key) && (bool_decide (key = s.(sc_scene_id)) || bool_decide (key = scene_key s.(sc_name)))) scenes.

Example find_scene_ex :
  let home := mkScene "s1" "回家模式" [] in
  (find_scene [home] " 回家 场景", find_scene [home] "模式", find_scene [home] "离家") = (Some home, None, None).
Proof. vm_compute. reflexivity. Qed.

Section HomeTools.
Context `{HomeSdk} (float_of : string -> spec_float) (str_repr : string -> string) (digest : list string -> string) (casefold : string -> string).
Context (timeout_s : string).
(** [Slot(name=..., value=...)] *)
Context (make_slot : string -> pyval -> res Slot).
Context (w : HomeWorld) (execute_deadline_ms : Z).
Notation schema tool := (home_schema timeout_s tool).

(** [_number] *)
Definition nonzero_number (v : pyval) : bool :=
  match v with
  | VBool _ => false
  | _ => is_number float_of v && negb (equals_int float_of v 0)
  end.

(** [_error] *)
Definition home_error (tool : HomeTool) (call : ToolCall) (code message : string) (content : pyval) : ToolResult :=
  mkToolResult call.(tc_id) (schema tool).(ts_name) false content (Some code) (Some message) 0
    [("external_action", VBool (schema tool).(ts_side_effect)); ("completed", VBool false)].

(** [_brief] *)
Definition brief (home : HomeSnapshot) (device : Device) : pyval :=
  let status := dict_get home.(hs_status) device.(hd_device_id) in
  let area := List.find (fun a => bool_decide (Some a.(ha_area_id) = device.(hd_area_id))) home.(hs_registry).(rg_areas) in
  VDict [("device_id", VStr device.(hd_device_id)); ("name", VStr device.(hd_name)); ("area", of_opt_str (ha_name <$> area));
         ("type", VStr device.(hd_type)); ("online", match status with Some st => VBool st.(ds_online) | None => VNone end);
         ("state", match status with Some st => VDict st.(ds_state) | None => VNone end);
         ("summary", VStr (describe float_of str_repr device status))].

(** The address in the arguments *)
Definition address_of (arguments : list (string * pyval)) (every : bool) : Address :=
  mkAddress (text_argument (dict_get arguments "name")) (text_argument (dict_get arguments "area")) (text_argument (dict_get arguments "device_type"))
    (every || match dict_get arguments "all" with Some (VBool true) => true | _ => false end).
Definition origin_area (home : HomeSnapshot) (ctx : HomeToolContext) : option string :=
  let device_ref := CoreTypes.device_id ctx.(hc_turn) in
  if opt_truthy device_ref then registry_area_of home.(hs_registry) (default "" device_ref) else None.

(** [_targets] *)
Definition home_targets (tool : HomeTool) (home : HomeSnapshot) (call : ToolCall) (ctx : HomeToolContext) (every : bool) : list Device + ToolResult :=
  let address := address_of call.(tc_arguments) every in
  if address_empty address then inr (home_error tool call "invalid_arguments" "name, area or device_type is required" VNone)
  else
    match resolve_address casefold home.(hs_registry) address (origin_area home ctx) with
    | NotFound => inr (home_error tool call "not_found" NO_SUCH_DEVICE VNone)
    | Ambiguous devices =>
        inr (home_error tool call "ambiguous" (choose_one (map hd_name devices)) (VDict [("candidates", VList (map (brief home) devices))]))
    | Resolved devices => inl devices
    end.

(** ** The execution *)

(** [_receipt_devices] *)
Definition receipt_target (outcomes : list (string * DeviceOutcome)) (t : PlannedTarget) : pyval :=
  let outcome := default UNKNOWN (dict_get outcomes t.(pt_device_id)) in
  VDict [("device_id", VStr t.(pt_device_id)); ("name", VStr t.(pt_name));
         ("status", VStr (if opt_truthy t.(pt_rejected) then "rejected" else outcome.(do_status)));
         ("code", if opt_truthy t.(pt_rejected) then of_opt_str t.(pt_rejected) else of_opt_str outcome.(do_code));
         ("state", VDict (default [] outcome.(do_state)))].
Definition receipt_devices (plan : CommandPlan) (execution : Execution) : list pyval :=
  match execution.(ex_error) with
  | Some _ => []
  | None =>
      let outcomes := execution.(ex_outcomes) in
      let targets :=
        if (if plan.(pl_scene) is Some _ then true else false) && negb (bool_decide (length outcomes = 0%nat))
        then map (fun '(d, _) => default (mkPlannedTarget d d "" [] None) (dict_get plan.(pl_known) d)) outcomes
        else plan.(pl_targets) in
      map (receipt_target outcomes) targets
  end.

(** One logical action per turn and arguments, whatever call id was used *)
Definition home_request_id (tool : HomeTool) (ctx : HomeToolContext) (arguments : list (string * pyval)) : string :=
  request_id digest "llm" [str_or (CoreTypes.trace_id ctx.(hc_turn)) ctx.(hc_turn_id); (schema tool).(ts_name); json_default true (VDict arguments)].
Definition home_origin (ctx : HomeToolContext) : ExecuteOrigin :=
  mkOrigin (if bool_decide (ctx.(hc_input_modality) = "voice") then "voice" else "text")
    (identifier (CoreTypes.device_id ctx.(hc_turn))) (identifier (Some ctx.(hc_turn_id))).

(** The result of an execution *)
Definition home_result (tool : HomeTool) (call : ToolCall) (plan : CommandPlan) (execution : Execution) (summary : string * string) : ToolResult :=
  let '(completion, message) := summary in
  let complete := bool_decide (completion = "complete") in
  mkToolResult call.(tc_id) (schema tool).(ts_name) complete
    (VDict [("kind", VStr "external_action_receipt"); ("completed", VBool complete); ("completion", VStr completion); ("message", VStr message);
            ("error", of_opt_str execution.(ex_error)); ("devices", VList (receipt_devices plan execution))])
    (if complete then None else Some (completion +:+ "_completed")%string) (if complete then None else Some message) 0
    [("external_action", VBool true); ("completed", VBool complete)].

(** [_actuate] *)
Definition actuate_tool (tool : HomeTool) (call : ToolCall) (ctx : HomeToolContext) (plan : CommandPlan) : HM ToolResult :=
  execution <-- actuate w execute_deadline_ms (CoreTypes.owner_id ctx.(hc_turn)) plan (home_request_id tool ctx call.(tc_arguments)) (home_origin ctx) ;;
  summary <-- mlift (summarize float_of str_repr plan execution) ;;
  mret_ (home_result tool call plan execution summary).

(** A tool on the devices of its address; [choose] is the action of each *)
Definition on_targets (tool : HomeTool) (home : HomeSnapshot) (call : ToolCall) (ctx : HomeToolContext) (choose : Device -> res (option Action))
  : HM ToolResult :=
  match home_targets tool home call ctx false with
  | inr refusal => mret_ refusal
  | inl devices => plan <-- mlift (plan_devices devices choose) ;; actuate_tool tool call ctx plan
  end.

(** ** The tools *)

Definition make_action (trait command : string) (slots : list Slot) : res Action :=
  let action := mkAction trait command slots in
  _ ← check_action action;
  Ok action.

(** [HomeTurnTool._action] *)
Definition turn_action (on : bool) (device : Device) : res (option Action) :=
  match dict_get DEVICE_TYPES device.(hd_type) with
  | None => Err (PyError "KeyError" device.(hd_type))
  | Some spec =>
      match List.find (fun x => bool_decide (x.1 ∈ spec.(ty_traits))) (TURN on) with
      | Some (trait, command) => action ← make_action trait command []; Ok (Some action)
      | None => Ok None
      end
  end.

(** [HomeSetTool._call] *)
Definition set_action (arguments : list (string * pyval)) : option (res Action) :=
  match List.filter (fun x => dict_has arguments x.1) SETTINGS with
  | [(key, (trait, command, param))] =>
      Some (slot ← make_slot param (default VNone (dict_get arguments key)); make_action trait command [slot])
  | _ => None
  end.

(** [HomeAdjustTool._call]: the change of a step *)
Definition adjust_delta (up : bool) (amount : pyval) : pyval :=
  let signed z := VInt (if up then Z.abs z else - Z.abs z) in
  match amount with
  | VFloat r => match integral (float_of r) with Some z => signed z | None => VFloat (if up then float_abs r else float_negative r) end
  | VInt z => signed z
  | v => v
  end.
Definition adjust_action (arguments : list (string * pyval)) : option (res Action) :=
  match dict_get HOME_STEPS (py_str str_repr (default VNone (dict_get arguments "setting"))), dict_get arguments "direction" with
  | Some (trait, step), Some (VStr direction) =>
      let amount := default (VInt step) (dict_get arguments "amount") in
      if negb (bool_decide (direction ∈ ["up"; "down"])) || negb (nonzero_number amount) then None
      else Some (slot ← make_slot "delta" (adjust_delta (bool_decide (direction = "up")) amount); make_action trait "step" [slot])
  | _, _ => None
  end.

(** [HomeGetStateTool._call] *)
Definition get_state (home : HomeSnapshot) (call : ToolCall) (ctx : HomeToolContext) : ToolResult :=
  let found devices scenes :=
    mkToolResult call.(tc_id) (schema HomeGetStateTool).(ts_name) true
      (VDict [("devices", VList (map (brief home) devices)); ("scenes", VList (map VStr scenes))]) None None 0 [] in
  if forallb (fun k => negb (opt_truthy (text_argument (dict_get call.(tc_arguments) k)))) ["name"; "area"; "device_type"]
  then found home.(hs_registry).(rg_devices) (map sc_name home.(hs_registry).(rg_scenes))
  else match home_targets HomeGetStateTool home call ctx true with inr refusal => refusal | inl devices => found devices [] end.

(** [HomeActivateSceneTool._call] *)
Definition activate_scene (home : HomeSnapshot) (call : ToolCall) (ctx : HomeToolContext) : HM ToolResult :=
  let scenes := home.(hs_registry).(rg_scenes) in
  match find_scene scenes (default "" (text_argument (dict_get call.(tc_arguments) "scene"))) with
  | None =>
      mret_ (home_error HomeActivateSceneTool call "not_found" "没有这个场景" (VDict [("scenes", VList (map (fun s => VStr s.(sc_name)) scenes))]))
  | Some scene => actuate_tool HomeActivateSceneTool call ctx (plan_scene home.(hs_registry) scene)
  end.

(** One action for every device, once it was built *)
Definition with_action (tool : HomeTool) (home : HomeSnapshot) (call : ToolCall) (ctx : HomeToolContext) (action : option (res Action)) (refusal : string)
  : HM ToolResult :=
  match action with
  | None => mret_ (home_error tool call "invalid_arguments" refusal VNone)
  | Some action => action <-- mlift action ;; on_targets tool home call ctx (fun _ => Ok (Some action))
  end.

Definition home_call (tool : HomeTool) (home : HomeSnapshot) (call : ToolCall) (ctx : HomeToolContext) : HM ToolResult :=
  match tool with
  | HomeTurnTool on => on_targets tool home call ctx (turn_action on)
  | HomeSetTool => with_action tool home call ctx (set_action call.(tc_arguments)) "give exactly one setting"
  | HomeAdjustTool => with_action tool home call ctx (adjust_action call.(tc_arguments)) "setting, direction or amount invalid"
  | HomeGetStateTool => mret_ (get_state home call ctx)
  | HomeActivateSceneTool => activate_scene home call ctx
  end.

(** [_HomeTool.invoke] *)
Definition home_invoke (tool : HomeTool) (call : ToolCall) (ctx : HomeToolContext) : HM ToolResult :=
  mtry (home <-- read_home w (CoreTypes.owner_id ctx.(hc_turn)) ;; home_call tool home call ctx)
    (fun e => if raised "SmartHomeUnavailable" e then Some (mret_ (home_error tool call "smarthome_unavailable" UNAVAILABLE VNone)) else None).
End HomeTools.

(** ** A smart-home tool claims no more than the home confirmed, and acts on no device it was not
      asked for. *)
From S2P Require Import HomeFacts.

#[local] Open Scope eff_scope.

(** ** The address *)

Section Addresses.
Context (casefold : string -> string).

Lemma address_pool_sub registry a pool : address_pool casefold registry a = Some pool -> forall d, d ∈ pool -> d ∈ registry.(rg_devices).
Proof.
  unfold address_pool. set (named_pool := if opt_truthy (ad_name a) then _ else _).
  assert (forall d, d ∈ named_pool -> d ∈ rg_devices registry) as Hn.
  { intros d. unfold named_pool. destruct (opt_truthy _); [|done]. by intros [? _]%elem_of_filter_list. }
  intros (pool1 & H1 & [= <-])%bind_Some d Hd.
  assert (d ∈ pool1) as Hd1 by (destruct (opt_truthy (ad_device_type a)); [by apply elem_of_filter_list in Hd as [? _]|done]).
  destruct (opt_truthy (ad_area a)); [|simplify_eq; by apply Hn].
  apply bind_Some in H1 as (area & _ & [= <-]). apply elem_of_filter_list in Hd1 as [Hd1 _]. by apply Hn.
Qed.

(** What an address comes down to is there, and without [all] it is one device. *)
Lemma resolved_devices registry a origin devices : resolve_address casefold registry a origin = Resolved devices ->
  (forall d, d ∈ devices -> d ∈ registry.(rg_devices)) /\ (a.(ad_all) = false -> exists d, devices = [d]).
Proof.
  unfold resolve_address. destruct (address_pool _ _ _) as [pool|] eqn:Ep; [|done]. pose proof (address_pool_sub _ _ _ Ep) as Hsub.
  destruct (_ || _); [done|]. destruct (bool_decide (length pool = 1%nat)) eqn:E1; cbn [orb].
  { intros [= <-]. split; [done|]. intros _. apply bool_decide_eq_true in E1. destruct pool as [|d [|]]; try done. by exists d. }
  destruct (ad_all a); [by intros [= <-]|]. destruct origin as [area|]; [|done]. destruct (opt_truthy _); [done|].
  destruct (List.filter (in_area area) pool) as [|d [|]] eqn:Ef; [done| |done]. intros [= <-]. split; [|by exists d].
  intros d' ->%list_elem_of_singleton. apply Hsub. assert (d ∈ [d]) as Hd by by left. rewrite <- Ef in Hd. by apply elem_of_filter_list in Hd as [? _].
Qed.
End Addresses.

(** ** The plan *)

Section PlanFacts.
Context `{HomeSdk}.

Lemma planned_chosen choose d t : planned choose d = Ok t ->
  t.(pt_device_id) = d.(hd_device_id) /\
  (t.(pt_rejected) = None -> exists action c, choose d = Ok (Some action) /\ device_command d action = Ok c /\ t.(pt_commands) = [c]).
Proof.
  unfold planned. destruct (choose d) as [[action|]|e]; cbn; [|by intros [= <-]|done].
  destruct (device_command d action) as [c|e] eqn:Ec; [intros [= <-]; split; [done|]; by exists action, c|]. (destruct (raised _ e); [by intros [= <-]|done]).
Qed.

(** A plan none of whose targets was rejected has one command of each device. *)
Lemma plan_devices_commands devices choose plan : plan_devices devices choose = Ok plan ->
  plan.(pl_scene) = None /\
  (Forall (fun t => t.(pt_rejected) = None) plan.(pl_targets) ->
    map pt_device_id plan.(pl_targets) = map cm_device_id plan.(pl_commands) /\
    Forall2 (fun d c => exists action, choose d = Ok (Some action) /\ device_command d action = Ok c) devices plan.(pl_commands)).
Proof.
  unfold plan_devices. intros (targets & Ht%mapM_ok & [= <-])%res_bind_ok. unfold bounded_plan. cbn [pl_commands].
  destruct (_ <=? _); cbn [pl_scene pl_targets pl_commands]; (split; [done|]); intros Hr.
  - induction Ht as [|d t devices targets Hd Ht IH]; [by split; [|constructor]|]. apply Forall_cons in Hr as [Hr Hrs]. destruct (IH Hrs) as [IH1 IH2].
    apply planned_chosen in Hd as [Hi Hc]. destruct (Hc Hr) as (action & c & Ha & Hdc & Ec). cbn. rewrite Ec. cbn. split; [|constructor; [by exists action|done]].
    f_equal; [|done]. rewrite Hi. by apply device_command_fields in Hdc as (-> & _).
  - destruct Ht as [|d t devices targets Hd Ht]; [by split; [|constructor]|]. by apply Forall_cons in Hr as [? _].
Qed.
End PlanFacts.

(** ** What a tool did *)

Section Tools.
Context `{HomeSdk} (float_of : string -> spec_float) (str_repr : string -> string) (digest : list string -> string) (casefold : string -> string).
Context (timeout_s : string) (make_slot : string -> pyval -> res Slot) (w : HomeWorld) (execute_deadline_ms : Z).
Notation home_request_id := (home_request_id digest timeout_s).
Notation home_targets := (home_targets float_of str_repr casefold timeout_s).
Notation home_call := (home_call float_of str_repr digest casefold timeout_s make_slot w execute_deadline_ms).
Notation home_invoke := (home_invoke float_of str_repr digest casefold timeout_s make_slot w execute_deadline_ms).
Notation actuate_tool := (actuate_tool float_of str_repr digest timeout_s w execute_deadline_ms).
Notation completion plan execution := (completion_of (tally float_of str_repr plan execution)).

(** The action of a tool for a device *)
Definition tool_action (tool : HomeTool) (arguments : list (string * pyval)) (choose : Device -> res (option Action)) : Prop :=
  match tool with
  | HomeTurnTool on => choose = turn_action on
  | HomeSetTool => exists action, set_action make_slot arguments = Some (Ok action) /\ choose = fun _ => Ok (Some action)
  | HomeAdjustTool => exists action, adjust_action float_of str_repr make_slot arguments = Some (Ok action) /\ choose = fun _ => Ok (Some action)
  | _ => False
  end.

(** The plan of a call in the home that was read *)
Definition tool_plan (tool : HomeTool) (home : HomeSnapshot) (call : ToolCall) (ctx : HomeToolContext) (plan : CommandPlan) : Prop :=
  (exists scene, tool = HomeActivateSceneTool /\
     find_scene home.(hs_registry).(rg_scenes) (default "" (text_argument (dict_get call.(tc_arguments) "scene"))) = Some scene /\
     plan = plan_scene home.(hs_registry) scene) \/
  (exists choose devices, tool_action tool call.(tc_arguments) choose /\
     resolve_address casefold home.(hs_registry) (address_of call.(tc_arguments) false) (origin_area home ctx) = Resolved devices /\
     (forall d, d ∈ devices -> d ∈ home.(hs_registry).(rg_devices)) /\
     (dict_get call.(tc_arguments) "all" <> Some (VBool true) -> exists d, devices = [d]) /\
     plan_devices devices choose = Ok plan).

(** The request of a call: its plan, under the key of its turn, tool and arguments *)
Record requested (tool : HomeTool) (call : ToolCall) (ctx : HomeToolContext) (plan : CommandPlan) (request : ExecuteRequest) : Prop := {
  rq_commands : request.(xr_commands) = plan.(pl_commands);
  rq_scene : request.(xr_scene_id) = sc_scene_id <$> plan.(pl_scene);
  rq_id : request.(xr_request_id) = home_request_id tool ctx call.(tc_arguments);
  rq_origin : request.(xr_origin) = home_origin ctx;
}.

(** The executor's part: nothing, a request without a reply, or a request with its reply *)
Lemma actuate_acts owner plan rid origin s :
  let '(r, s') := actuate w execute_deadline_ms owner plan rid origin s in
  (s'.(hh_log) = s.(hh_log) /\ forall x, r = Ok x -> x = mkExecution [] None) \/
  exists deadline context, let request := mkExecute rid plan.(pl_commands) (sc_scene_id <$> plan.(pl_scene)) origin deadline in
    (s'.(hh_log) = s.(hh_log) ++ [HaExecute owner request context] /\ forall x, r = Ok x -> x = unconfirmed plan) \/
    exists result, s'.(hh_log) = s.(hh_log) ++ [HaExecute owner request context; HaReply result] /\ r = read_result plan rid result.
Proof.
  unfold actuate. destruct (_ && _); [left; split; [done|]; by intros x [= <-]|].
  unfold mbind_ at 1, mgets at 1. set (deadline := (hw_wall_ms w _ + _)%Z). set (request := mkExecute _ _ _ _ _). unfold mbind_ at 1, mlift at 1.
  destruct (check_execute request) as [[]|e]; [|by left].
  unfold awaiting_within, passes, act. unfold mtry, mbind_, mgets, mmodify, mraise, mlift, mret_. cbn [hh_awaits hh_log hh_context hh_now fst snd].
  destruct (hw_elapsed_us w (hh_awaits s) <? execute_deadline_ms * 1000 + 500000); cbn [hh_log]; [destruct (hw_execute w (hh_awaits s) owner request) as [result|e]; [|destruct (raised "TimeoutError" e)]|]; cbn;
    right; exists deadline, (hh_context s).
  - right. exists result. by rewrite <- app_assoc.
  - left. split; [done|]. by intros x [= <-].
  - by left.
  - left. split; [done|]. by intros x [= <-].
Qed.

Lemma tool_plan_confirmed tool home call ctx plan rid result execution : tool_plan tool home call ctx plan ->
  read_result plan rid result = Ok execution -> execution.(ex_error) = None -> completion plan execution = "complete" ->
  confirmed rid plan.(pl_commands) plan.(pl_scene) result /\ (plan.(pl_scene) = None -> Forall (fun t => t.(pt_rejected) = None) plan.(pl_targets)).
Proof.
  intros [(scene & _ & _ & ->)|(choose & devices & _ & _ & _ & _ & Hp)] Hr He Hc.
  - split; [|done]. eapply scene_confirmed; [done| |done..]. cbn. apply known_targets_spec.
  - apply plan_devices_commands in Hp as [Hs Hp]. assert (Forall (fun t => t.(pt_rejected) = None) plan.(pl_targets)) as Hok.
    { apply complete_tally in Hc as [_ Hf]. unfold summarized_targets in Hf. rewrite Hs in Hf. eapply Forall_impl; [exact Hf|]. by intros t [? _]. }
    split; [|done]. destruct (Hp Hok). by eapply explicit_confirmed.
Qed.

(** What a call logs and answers, from the moment it read the home *)
Definition tool_told (tool : HomeTool) (home : HomeSnapshot) (call : ToolCall) (ctx : HomeToolContext) (acts : list home_act) (r : res ToolResult) : Prop :=
  (acts = [] \/ exists plan request context reply, acts = HaExecute (CoreTypes.owner_id ctx.(hc_turn)) request context :: (if reply is Some x then [HaReply x] else []) /\
     tool_plan tool home call ctx plan /\ requested tool call ctx plan request) /\
  (forall t, r = Ok t -> t.(tr_ok) = true -> tool <> HomeGetStateTool -> exists plan request context result,
     acts = [HaExecute (CoreTypes.owner_id ctx.(hc_turn)) request context; HaReply result] /\ tool_plan tool home call ctx plan /\
     requested tool call ctx plan request /\ (plan.(pl_scene) = None -> Forall (fun t => t.(pt_rejected) = None) plan.(pl_targets)) /\
     confirmed request.(xr_request_id) request.(xr_commands) plan.(pl_scene) result).

Lemma told_nothing tool home call ctx r : (forall t, r = Ok t -> t.(tr_ok) = true -> tool = HomeGetStateTool) -> tool_told tool home call ctx [] r.
Proof. intros Hr. split; [by left|]. intros t Ht Hok Hne. by destruct Hne, (Hr t). Qed.

Lemma actuate_tool_told tool home call ctx plan s : tool_plan tool home call ctx plan ->
  let '(r, s') := actuate_tool tool call ctx plan s in exists acts, s'.(hh_log) = s.(hh_log) ++ acts /\ tool_told tool home call ctx acts r.
Proof.
  intros Hp.
  pose proof (actuate_acts (CoreTypes.owner_id (hc_turn ctx)) plan (home_request_id tool ctx (tc_arguments call)) (home_origin ctx) s) as Ha.
  set (k := fun execution => mbind_ (mlift (summarize float_of str_repr plan execution)) (fun summary => mret_ (St := HState) (home_result timeout_s tool call plan execution summary))).
  change (actuate_tool tool call ctx plan s) with
    (let '(r, s1) := actuate w execute_deadline_ms (CoreTypes.owner_id (hc_turn ctx)) plan (home_request_id tool ctx (tc_arguments call)) (home_origin ctx) s in
     match r with Ok x => k x s1 | Err e => (Err e, s1) end).
  destruct (actuate _ _ _ _ _ _ s) as [r s1].
  assert (forall execution s2, let '(r, s3) := k execution s2 in s3.(hh_log) = s2.(hh_log) /\
    forall t, r = Ok t -> t.(tr_ok) = true -> execution.(ex_error) = None /\ completion plan execution = "complete") as Hk.
  { intros execution s2. unfold k, mbind_, mlift, mret_. destruct (summarize _ _ plan execution) as [[c m]|e] eqn:Es; [|done]. split; [done|].
    intros t [= <-] Hok. cbn in Hok. apply bool_decide_eq_true in Hok. subst c. by eapply summarize_complete. }
  clearbody k. destruct Ha as [[Hl Hx]|(deadline & context & [[Hl Hx]|(result & Hl & Hr)])].
  - destruct r as [x|e]; [|cbn iota beta; exists []; rewrite app_nil_r; split; [done|by apply told_nothing]]. specialize (Hk x s1). destruct (k x s1) as [r s3]. destruct Hk as [Hl3 Hk].
    exists []. rewrite app_nil_r, Hl3. split; [done|]. apply told_nothing. intros t Ht Hok. destruct (Hk t Ht Hok) as [_ Hc]. rewrite (Hx x) in Hc by done.
    exfalso. by apply unconfirmed_incomplete in Hc.
  - set (request := mkExecute _ _ _ _ _) in Hl. assert (requested tool call ctx plan request) as Hreq by by constructor.
    assert (forall r', (forall t, r' = Ok t -> t.(tr_ok) = true -> False) -> tool_told tool home call ctx [HaExecute (CoreTypes.owner_id (hc_turn ctx)) request context] r') as Hno.
    { intros r' Hn. split; [right; by exists plan, request, context, None|]. intros t Ht Hok. by destruct (Hn t). }
    destruct r as [x|e]; [|cbn iota beta; exists [HaExecute (CoreTypes.owner_id (hc_turn ctx)) request context]; split; [done|by apply Hno]].
    specialize (Hk x s1). destruct (k x s1) as [r s3]. destruct Hk as [Hl3 Hk]. exists [HaExecute (CoreTypes.owner_id (hc_turn ctx)) request context].
    rewrite Hl3. split; [done|]. apply Hno. intros t Ht Hok. destruct (Hk t Ht Hok) as [_ Hc]. rewrite (Hx x) in Hc by done.
    revert Hc. apply unconfirmed_incomplete, all_unknown.
  - set (request := mkExecute _ _ _ _ _) in Hl. assert (requested tool call ctx plan request) as Hreq by by constructor.
    assert (exists r3 s3, match r with Ok x => k x s1 | Err e => (Err e, s1) end = (r3, s3) /\ s3.(hh_log) = s1.(hh_log) /\
      forall t, r3 = Ok t -> t.(tr_ok) = true -> exists x, r = Ok x /\ x.(ex_error) = None /\ completion plan x = "complete") as (r3 & s3 & E & Hl3 & Hk3).
    { destruct r as [x|e]; [|by exists (Err e), s1]. specialize (Hk x s1). destruct (k x s1) as [r3 s3]. exists r3, s3. destruct Hk as [? Hk]. split_and!; try done.
      intros t Ht Hok. exists x. split; [done|]. by apply (Hk t). }
    rewrite E. exists [HaExecute (CoreTypes.owner_id (hc_turn ctx)) request context; HaReply result]. rewrite Hl3. split; [done|]. split.
    + right. by exists plan, request, context, (Some result).
    + intros t Ht Hok _. destruct (Hk3 t Ht Hok) as (x & Ex & Herr & Hc). rewrite Hr in Ex. exists plan, request, context, result.
      destruct (tool_plan_confirmed _ _ _ _ _ _ _ _ Hp Ex Herr Hc) as [Hcf Hrej]. split_and!; done.
Qed.

Lemma targets_refused tool home call ctx every t : home_targets tool home call ctx every = inr t -> t.(tr_ok) = false.
Proof. unfold HomeTools.home_targets. destruct (address_empty _); [by intros [= <-]|]. by destruct (resolve_address _ _ _ _); [|intros [= <-]..]. Qed.

Lemma on_targets_told tool home call ctx choose s : tool_action tool call.(tc_arguments) choose ->
  let '(r, s') := on_targets float_of str_repr digest casefold timeout_s w execute_deadline_ms tool home call ctx choose s in
  exists acts, s'.(hh_log) = s.(hh_log) ++ acts /\ tool_told tool home call ctx acts r.
Proof.
  intros Ha. unfold on_targets. destruct (home_targets tool home call ctx false) as [devices|t] eqn:Et.
  - unfold mbind_ at 1, mlift at 1. destruct (plan_devices devices choose) as [plan|e] eqn:Ep; cycle 1.
    { exists []. rewrite app_nil_r. split; [done|by apply told_nothing]. }
    apply actuate_tool_told. right. exists choose, devices. assert (resolve_address casefold (hs_registry home) (address_of (tc_arguments call) false) (origin_area home ctx) = Resolved devices) as Er.
    { revert Et. unfold HomeTools.home_targets. destruct (address_empty _); [done|]. destruct (resolve_address _ _ _ _); [by intros [= <-]|done..]. }
    destruct (resolved_devices _ _ _ _ _ Er) as [Hin Hone]. split_and!; try done. intros Hall. apply Hone. cbn.
    destruct (dict_get (tc_arguments call) "all") as [[| [] | | | | | ]|]; done.
  - exists []. rewrite app_nil_r. split; [done|]. apply told_nothing. intros t' [= <-] Hok. by rewrite (targets_refused _ _ _ _ _ _ Et) in Hok.
Qed.

Lemma with_action_told tool home call ctx action refusal s : (forall a, action = Some (Ok a) -> tool_action tool call.(tc_arguments) (fun _ => Ok (Some a))) ->
  let '(r, s') := with_action float_of str_repr digest casefold timeout_s w execute_deadline_ms tool home call ctx action refusal s in
  exists acts, s'.(hh_log) = s.(hh_log) ++ acts /\ tool_told tool home call ctx acts r.
Proof.
  intros Ha. unfold with_action. destruct action as [[a|e]|].
  - apply on_targets_told. by apply Ha.
  - exists []. rewrite app_nil_r. split; [done|by apply told_nothing].
  - exists []. rewrite app_nil_r. split; [done|apply told_nothing]. by intros t [= <-].
Qed.

Lemma home_call_told tool home call ctx s :
  let '(r, s') := home_call tool home call ctx s in exists acts, s'.(hh_log) = s.(hh_log) ++ acts /\ tool_told tool home call ctx acts r.
Proof.
  destruct tool as [on| | | |]; cbn [HomeTools.home_call].
  - by apply on_targets_told.
  - apply with_action_told. intros a Ha. by exists a.
  - apply with_action_told. intros a Ha. by exists a.
  - exists []. rewrite app_nil_r. split; [done|by apply told_nothing].
  - unfold activate_scene. destruct (find_scene _ _) as [scene|] eqn:Es; [|exists []; rewrite app_nil_r; split; [done|apply told_nothing; by intros t [= <-]]].
    apply actuate_tool_told. left. by exists scene.
Qed.

Lemma read_home_acts owner s :
  (exists home s1, read_home w owner s = (Ok home, s1) /\ s1.(hh_log) = s.(hh_log) ++ [HaSnapshot home]) \/
  exists e s1, read_home w owner s = (Err e, s1) /\ s1.(hh_log) = s.(hh_log).
Proof.
  unfold read_home, awaiting, passes, act. unfold mbind_, mgets, mmodify, mlift, mret_. cbn.
  destruct (hw_snapshot w _ _) as [home|e]; [left; by eexists _, _|right; by eexists _, _].
Qed.

(** C34: Whatever the directory and the executor answer and when: a call of a smart-home tool
    submits at most one request, that of the devices its address resolves to in the home it just
    read, one unless all were asked for, or of the scene it names, under the key of its turn,
    tool and arguments; a read submits none; and a call that reports success has a reply that
    confirms every command, with no device left out. *)
Theorem home_tools_claim_what_was_confirmed tool call ctx s :
  exists acts, (home_invoke tool call ctx s).2.(hh_log) = s.(hh_log) ++ acts /\
    match acts with
    | [] => forall t, (home_invoke tool call ctx s).1 = Ok t -> t.(tr_ok) = false
    | HaSnapshot home :: rest => tool_told tool home call ctx rest (home_invoke tool call ctx s).1
    | _ => False
    end.
Proof.
  unfold HomeTools.home_invoke, mtry. unfold mbind_ at 1 2 3.
  destruct (read_home_acts (CoreTypes.owner_id (hc_turn ctx)) s) as [(home & s1 & -> & Hl)|(e & s1 & -> & Hl)]; cycle 1.
  { exists []. rewrite app_nil_r. destruct (raised _ e); cbn; (split; [done|]); [by intros t [= <-]|by intros t [=]]. }
  pose proof (home_call_told tool home call ctx s1) as Ht. destruct (home_call tool home call ctx s1) as [r s2]. destruct Ht as (acts & Hl2 & Ht).
  exists (HaSnapshot home :: acts). assert (s2.(hh_log) = s.(hh_log) ++ HaSnapshot home :: acts) as E by by rewrite Hl2, Hl, <- app_assoc.
  destruct r as [t|e]; [by split|]. destruct (raised _ e); cbn; [|by split]. split; [done|]. destruct Ht as [Ht _]. split; [done|]. by intros t [= <-].
Qed.
End Tools.

(** ** One key per turn, tool and arguments *)

Lemma sort_keys_unique {A} (d e : list (string * A)) : NoDup d.*1 -> d ≡ₚ e -> sort_keys d = sort_keys e.
Proof.
  intros Hn Hp. assert (forall x y : string * A, str_leb x.1 y.1 = true \/ str_leb y.1 x.1 = true) as Htot by (intros; apply str_leb_total).
  assert (forall x y z : string * A, str_leb x.1 y.1 = true -> str_leb y.1 z.1 = true -> str_leb x.1 z.1 = true) as Htr by (intros ? ? ?; apply str_leb_trans).
  unfold sort_keys. apply (StronglySorted_unique_strong (fun x y => str_leb x.1 y.1 = true)).
  - intros [k v] [k' v']. rewrite !py_sorted_perm. cbn. intros Hx Hy H1 H2. pose proof (str_leb_antisym _ _ H1 H2) as <-.
    rewrite <- Hp in Hy. apply dict_elem_get in Hx, Hy; [|done..]. congruence.
  - by apply py_sorted_sorted.
  - by apply py_sorted_sorted.
  - by rewrite !py_sorted_perm.
Qed.

(** The order of the arguments does not matter, the call id neither. *)
Lemma same_call_same_key digest timeout_s `{HomeSdk} tool ctx arguments arguments' : NoDup arguments.*1 -> arguments ≡ₚ arguments' ->
  home_request_id digest timeout_s tool ctx arguments = home_request_id digest timeout_s tool ctx arguments'.
Proof.
  intros Hn Hp. unfold home_request_id, json_default. cbn [json_dumps]. set (pair := fun '((k, v) : string * pyval) => (k, json_dumps true ", " ": " v)).
  assert (sort_keys (map pair arguments) = sort_keys (map pair arguments')) as ->; [|done].
  apply sort_keys_unique; [|by apply fmap_Permutation].
  rewrite <- list_fmap_compose. erewrite list_fmap_ext; [exact Hn|]. by intros ? [].
Qed.

(** ** Concrete calls *)

Definition sample_tool_turn : TurnContext := mkTurnContext "owner" "companion" (Some "panel") "realm" "genome" "trace" "request" None None None "1" "" "" "zh" true None None false false.
Definition sample_tool_world (execute : nat -> string -> ExecuteRequest -> res ExecuteResult) : HomeWorld :=
  mkHomeWorld (fun _ _ => Ok (mkHomeSnapshot sample_registry [])) (fun _ _ => Err Cancelled) None execute (fun _ => 1000) (fun _ c => c) (fun _ => 5000).
Definition confirms (_ : nat) (_ : string) (req : ExecuteRequest) : res ExecuteResult :=
  Ok (mkExecuted req.(xr_request_id) None (map (fun c => mkHomeResult c.(cm_device_id) "succeeded" None None None) req.(xr_commands))).
Definition sample_invoke (execute : nat -> string -> ExecuteRequest -> res ExecuteResult) (tool : HomeTool) (arguments : list (string * pyval)) : res ToolResult * HState :=
  @home_invoke sample_home_sdk (fun _ => S754_nan) id (fun _ => "digest") id "6.0" (fun k v => Ok (mkSlot k v None None)) (sample_tool_world execute) 3000
    tool (mkToolCall "call-1" "" arguments) (mkHomeToolContext sample_tool_turn "turn-1" "text") (mkHState (new_context 3) 0 0 []).
Definition tool_answer (r : res ToolResult) : option (bool * option string * option string) :=
  match r with Ok t => Some (t.(tr_ok), t.(tr_error_code), t.(tr_error_message)) | Err _ => None end.
Definition submissions (s : HState) : list (list string) :=
  omap (fun a => match a with HaExecute _ r _ => Some (r.(xr_request_id) :: map cm_command r.(xr_commands)) | _ => None end) s.(hh_log).
Notation name_is s := [("name", VStr s)].

Example a_lamp_is_turned_on : let '(r, s) := sample_invoke confirms (HomeTurnTool true) (name_is " 客厅灯 ") in
  (tool_answer r, submissions s) = (Some (true, None, None), [["llm:digest"; "on"]]).
Proof. vm_compute. reflexivity. Qed.
(** A lost reply, an unknown name, two devices of a room, a heating of a lamp *)
Example unconfirmed_calls :
  map (fun x => let '(r, s) := sample_invoke x.1.1 x.1.2 x.2 in (tool_answer r, length (submissions s)))
    [(fun _ _ _ => Err (PyError "TimeoutError" ""), HomeTurnTool true, name_is "客厅灯");
     (confirms, HomeTurnTool true, name_is "台灯");
     (confirms, HomeTurnTool false, [("area", VStr "客厅")]);
     (confirms, HomeSetTool, [("area", VStr "客厅"); ("all", VBool true); ("temperature", VInt 26)]);
     (confirms, HomeAdjustTool, [("setting", VStr "brightness"); ("direction", VStr "up"); ("amount", VInt 0)])] =
    [(Some (false, Some "none_completed", Some "没收到确认，客厅灯可能没有执行"), 1%nat);
     (Some (false, Some "not_found", Some NO_SUCH_DEVICE), 0%nat);
     (Some (false, Some "ambiguous", Some "客厅灯、空调，要哪一个？"), 0%nat);
     (Some (false, Some "partial_completed", Some "空调 已设为 26°C；客厅灯 不支持这个操作"), 1%nat);
     (Some (false, Some "invalid_arguments", Some "setting, direction or amount invalid"), 0%nat)].
Proof. vm_compute. reflexivity. Qed.
