(* ===== verification/TaskTools.v ===== *)
(** * The remaining built-in tools and what is said of a long task: [domain/tools/builtin/], [domain/tools/visibility.py]
      and [domain/long_tasks/result_summary.py].

    The SDK's session keys and progress subjects, the queue behind [LongTaskSubmitter], clocks, time zones, the
    weather service, the event bus and the language model are parameters; [int(s)] of a text and the [repr] of a
    string are functions of the interpreter's Unicode tables. *)

From Stdlib Require Import SpecFloat.
From S2P Require Import Prelude CoreTypes Json Effects HomePlanning Personas LongTasks.
#[local] Open Scope eff_scope.

(** What these tools read of their [ToolInvocationContext] *)
Record TaskContext := mkTaskContext {
  tk_turn : TurnContext;
  tk_turn_id : string;
  tk_conversation_id : option string;
  tk_session_id : option string;
  tk_user_text : option string;
}.

Definition described (t description : string) : pyval := VDict [("type", VStr t); ("description", VStr description)].
Definition closed_object (properties : list (string * pyval)) (required : list string) : list (string * pyval) :=
  [("type", VStr "object"); ("properties", VDict properties); ("required", VList (map VStr required)); ("additionalProperties", VBool false)].
Definition tool_refusal (call : ToolCall) (s : ToolSchema) (code message : string) : ToolResult := tool_failure call.(tc_id) s.(ts_name) code message.
Definition success (call : ToolCall) (s : ToolSchema) (content : pyval) : ToolResult := mkToolResult call.(tc_id) s.(ts_name) true content None None 0 [].

(** ** [visibility.py] *)

Definition visible_tools (allow deny : list string) (schemas : list ToolSchema) : list ToolSchema :=
  List.filter (fun s => negb (bool_decide (s.(ts_name) ∈ deny)) && (bool_decide (allow = []) || bool_decide (s.(ts_name) ∈ allow))) schemas.

(** ** [submit_long_task.py] *)

(** [_delegate_schema] *)
Definition delegate_schema : ToolSchema :=
  mkToolSchema DELEGATE_TO_COWORKER_TOOL
    ("Delegate work to a background coworker when the realtime agent should not " +:+
     "complete it inside the current response. Use this for complex, multi-step, " +:+
     "slow, external, or follow-up work such as research, booking, scheduling, " +:+
     "document preparation, automation, or anything whose final result should " +:+
     "arrive later. Do not use it for ordinary conversation, quick answers, or " +:+
     "tasks the realtime agent can finish now. After calling it, only tell the " +:+
     "user the coworker has started; do not invent the final result.")%string
    (closed_object
       [("instruction", described "string"
           ("The complete instruction for the background coworker. Include " +:+ "the concrete objective and any constraints needed to do the work.")%string);
        ("title", described "string"
           ("A short user-facing title for tracking this delegated task, " +:+ "for example '整理项目资料' or '查询上海航班'.")%string);
        ("task_type", described "string" ("Short category: research, booking, scheduling, document_work, " +:+ "automation, or other.")%string);
        ("urgency", described "string" "Urgency label: low, normal, high, or urgent. Defaults to normal.");
        ("expected_result", described "string"
           ("What the user should receive when the coworker finishes, such as " +:+ "a summary, options, a document, or completion status.")%string);
        ("context", described "string"
           ("Brief relevant conversation context the coworker needs. Include " +:+ "only necessary details; omit unrelated private information.")%string);
        ("tool_budget", described "integer"
           ("Rough ceiling on how many steps/tool calls the coworker should " +:+ "spend until_separator reporting back. Omit or 0 to let the coworker " +:+
            "decide. Use a small number for quick lookups, larger for " +:+ "multi-step research.")%string);
        ("expected_duration_hint", described "string"
           ("Rough expected duration to set the user's expectation, e.g. " +:+ "'几分钟', '大约一小时', '今天之内'.")%string)]
       ["instruction"])
    [SYSTEM_PERM] "1.0" true None None.

(** [_localized_now]: the time zone of a locale *)
Definition task_timezone (locale : string) : string :=
  default "UTC" (dict_get [("zh-CN", "Asia/Shanghai"); ("zh-HK", "Asia/Hong_Kong"); ("zh-TW", "Asia/Taipei"); ("ja-JP", "Asia/Tokyo");
                           ("en-US", "America/Los_Angeles")] locale).

Section Arguments.
Context (float_of : string -> spec_float) (str_repr : string -> string) (int_of_str : string -> option Z).

(** [str(arguments.get(k) or default).strip()] *)
Definition text_argument_of (arguments : list (string * pyval)) (k dflt : string) : string :=
  let v := default VNone (dict_get arguments k) in
  py_strip (if truthy v then py_str str_repr v else dflt).

(** [int(value)] *)
Definition truncated (f : spec_float) : res Z :=
  match finite (NFloat f) with
  | Some (m, e) => Ok (if 0 <=? e then m * 2 ^ e else Z.quot m (2 ^ (- e)))
  | None => match f with
            | S754_nan => Err (PyError "ValueError" "cannot convert float NaN to integer")
            | _ => Err (PyError "OverflowError" "cannot convert float infinity to integer")
            end
  end.
Definition int_of_value (v : pyval) : res Z :=
  match v with
  | VInt z => Ok z
  | VBool b => Ok (if b then 1 else 0)
  | VFloat r => truncated (float_of r)
  | VStr s => match int_of_str s with Some z => Ok z | None => Err (PyError "ValueError" s) end
  | _ => Err (PyError "TypeError" "int() argument")
  end.

(** [_coerce_tool_budget] *)
Definition coerce_tool_budget (value : option pyval) : res Z :=
  match int_of_value (default VNone value) with
  | Ok budget => Ok (if 0 <? budget then budget else 0)
  | Err e => if raised "TypeError" e || raised "ValueError" e then Ok 0 else Err e
  end.

(** [_normalize_arguments] *)
Record TaskArguments := mkTaskArguments {
  ta_instruction : string;
  ta_title : string;
  ta_task_type : string;
  ta_urgency : string;
  ta_expected_result : string;
  ta_context : string;
  ta_tool_budget : Z;
  ta_expected_duration_hint : string;
}.
Definition normalize_arguments (arguments : list (string * pyval)) : res TaskArguments :=
  let text := text_argument_of arguments in
  let instruction := text "instruction" "" in
  budget ← coerce_tool_budget (dict_get arguments "tool_budget");
  Ok (mkTaskArguments instruction (str_or (text "title" "") (py_take 48 instruction)) (str_or (text "task_type" "other") "other")
        (str_or (text "urgency" "normal") "normal") (text "expected_result" "") (text "context" "") budget (text "expected_duration_hint" "")).
End Arguments.

Section Submit.
Context (float_of : string -> spec_float) (str_repr : string -> string) (int_of_str : string -> option Z).
(** The SDK's keys; a fresh id; today in a time zone, in ISO format *)
Context (progress_subject_for : string -> string) (session_key_for task_key_for : string -> string -> string).
Context (fresh_id : string) (today : string -> string).

(** [request_payload] *)
Definition task_payload (a : TaskArguments) (call : ToolCall) (ctx : TaskContext) (task_date session_key task_key progress_subject : string)
  : list (string * pyval) :=
  let t := ctx.(tk_turn) in
  [("task_id", VStr fresh_id); ("owner_id", VStr (CoreTypes.owner_id t)); ("companion_id", VStr (CoreTypes.companion_id t));
   ("memory_realm_id", VStr (CoreTypes.memory_realm_id t)); ("genome_id", VStr (CoreTypes.genome_id t));
   ("conversation_id", of_opt_str ctx.(tk_conversation_id)); ("session_id", of_opt_str ctx.(tk_session_id)); ("turn_id", VStr ctx.(tk_turn_id));
   ("trace_id", VStr (CoreTypes.trace_id t)); ("tool_call_id", VStr call.(tc_id)); ("session_key", VStr session_key); ("task_key", VStr task_key);
   ("task_date", VStr task_date); ("mementos_session_id", VStr session_key); ("title", VStr a.(ta_title)); ("instruction", VStr a.(ta_instruction));
   ("natural_language", VStr a.(ta_instruction)); ("source_user_text", VStr (opt_or ctx.(tk_user_text) "")); ("task_type", VStr a.(ta_task_type));
   ("urgency", VStr a.(ta_urgency)); ("expected_result", VStr a.(ta_expected_result)); ("expected_output", VStr a.(ta_expected_result));
   ("context", VStr a.(ta_context)); ("context_summary", VStr a.(ta_context)); ("tool_budget", VInt a.(ta_tool_budget));
   ("expected_duration_hint", VStr a.(ta_expected_duration_hint)); ("progress_subject", VStr progress_subject)].

Definition task_date_of (ctx : TaskContext) : string := today (task_timezone (CoreTypes.locale ctx.(tk_turn))).
Definition session_key_of (ctx : TaskContext) : string := session_key_for (CoreTypes.owner_id ctx.(tk_turn)) (task_date_of ctx).

(** The record of a delegated task *)
Definition task_record (a : TaskArguments) (call : ToolCall) (ctx : TaskContext) : LongTaskRecord :=
  let t := ctx.(tk_turn) in
  let task_date := task_date_of ctx in
  let session_key := session_key_of ctx in
  let task_key := task_key_for session_key fresh_id in
  let progress_subject := progress_subject_for fresh_id in
  {| lt_id := fresh_id; lt_provider := "mementos"; lt_status := LT_ACCEPTED; lt_owner_id := CoreTypes.owner_id t;
     lt_companion_id := CoreTypes.companion_id t; lt_conversation_id := ctx.(tk_conversation_id); lt_turn_id := ctx.(tk_turn_id);
     lt_session_id := ctx.(tk_session_id); lt_trace_id := Some (CoreTypes.trace_id t); lt_session_key := session_key; lt_task_date := task_date;
     lt_task_key := task_key; lt_task := a.(ta_instruction); lt_user_text := opt_or ctx.(tk_user_text) "";
     lt_memory_realm_id := Some (CoreTypes.memory_realm_id t); lt_genome_id := Some (CoreTypes.genome_id t); lt_device_id := CoreTypes.device_id t;
     lt_tool_call_id := Some call.(tc_id); lt_task_type := a.(ta_task_type); lt_urgency := a.(ta_urgency);
     lt_expected_output := a.(ta_expected_result); lt_context_summary := a.(ta_context); lt_tool_budget := a.(ta_tool_budget);
     lt_expected_duration_hint := a.(ta_expected_duration_hint); lt_attachments := [];
     lt_request_payload := task_payload a call ctx task_date session_key task_key progress_subject;
     lt_mementos_session_id := None; lt_mementos_conversation_id := None; lt_mementos_run_id := None; lt_mementos_latest_seq := None;
     lt_mementos_workspace_dir := None; lt_progress_summary := None; lt_progress_events := []; lt_result_text := None;
     lt_result_tts_summary := None; lt_result_payload := None; lt_artifact_paths := []; lt_error_code := None; lt_error_message := None;
     lt_error_payload := None; lt_callback_subject := Some progress_subject; lt_callback_status := CB_PENDING; lt_callback_attempts := 0;
     lt_callback_last_error := None; lt_callback_delivered_at := None; lt_worker_id := None; lt_lease_until := None; lt_attempt_count := 0;
     lt_next_retry_at := None; lt_external_status := None; lt_created_at := None; lt_updated_at := None; lt_started_at := None;
     lt_submitted_at := None; lt_last_progress_at := None; lt_last_polled_at := None; lt_completed_at := None |}.

Definition accepted_task (r : LongTaskRecord) : pyval :=
  VDict [("accepted", VBool true); ("task_id", VStr r.(lt_id)); ("progress_subject", of_opt_str r.(lt_callback_subject));
         ("session_key", VStr r.(lt_session_key)); ("task_key", VStr r.(lt_task_key)); ("task_date", VStr r.(lt_task_date))].

(** [SubmitLongTaskTool.invoke]; the submitter works on a state of its own. *)
Definition delegate {W} (submitter : option (LongTaskRecord -> M W unit)) (call : ToolCall) (ctx : TaskContext) : M W ToolResult :=
  match submitter with
  | None => mret_ (tool_refusal call delegate_schema "long_task_submitter_unavailable" "Long task submitter not wired")
  | Some submit =>
      args <-- mlift (normalize_arguments float_of str_repr int_of_str call.(tc_arguments)) ;;
      if is_empty args.(ta_instruction) then mret_ (tool_refusal call delegate_schema "invalid_long_task" "instruction is required")
      else
        let record := task_record args call ctx in
        mtry (submit record ;;; mret_ (success call delegate_schema (accepted_task record)))
          (fun e => if raised "LongTaskQueueFullError" e then Some (mret_ (tool_refusal call delegate_schema "long_task_queue_full" (exn_str e)))
                    else if is_exception e then Some (mret_ (tool_refusal call delegate_schema "long_task_submit_failed" (exn_str e)))
                    else None)
  end.
End Submit.

(** ** [date_time.py] *)

Definition LOCALE_TIMEZONES : list (string * string) :=
  [("zh-CN", "Asia/Shanghai"); ("zh-HK", "Asia/Hong_Kong"); ("zh-TW", "Asia/Taipei"); ("ja-JP", "Asia/Tokyo"); ("ko-KR", "Asia/Seoul");
   ("en-US", "America/Los_Angeles")].
Definition WEEKDAYS_ZH : list string := ["星期一"; "星期二"; "星期三"; "星期四"; "星期五"; "星期六"; "星期日"].
Definition get_time_schema : ToolSchema :=
  mkToolSchema "get_time"
    ("Get the current local date/time context. Use when the user asks about " +:+ "the current time, date, weekday, timezone, or relative day context.")%string
    (closed_object [("timezone", described "string"
       ("Optional IANA timezone, for example Asia/Shanghai or " +:+ "America/Los_Angeles. Defaults from the caller locale.")%string)] [])
    [] "0.05" false None None.

(** The local time as the library prints it *)
Record LocalTime := mkLocalTime { lo_iso : string; lo_date : string; lo_time : string; lo_weekday_name : string; lo_weekday : nat; lo_offset : string }.

(** [GetTimeTool.invoke]; [zone_time] is [datetime.now(ZoneInfo(timezone))]. *)
Definition requested_zone (str_repr : string -> string) (call : ToolCall) (locale : string) : string :=
  let timezone := text_argument_of str_repr call.(tc_arguments) "timezone" "" in
  if is_empty timezone then default "UTC" (dict_get LOCALE_TIMEZONES locale) else timezone.
Definition get_time (str_repr : string -> string) (zone_time : string -> res LocalTime) (call : ToolCall) (locale : string) : res ToolResult :=
  let timezone := requested_zone str_repr call locale in
  match zone_time timezone with
  | Err e => if raised "ZoneInfoNotFoundError" e then Ok (tool_refusal call get_time_schema "invalid_timezone" ("unknown timezone: " +:+ timezone)%string) else Err e
  | Ok now =>
      Ok (success call get_time_schema
            (VDict [("iso_datetime", VStr now.(lo_iso)); ("date", VStr now.(lo_date)); ("time", VStr now.(lo_time));
                    ("weekday", VStr now.(lo_weekday_name)); ("weekday_zh", VStr (default "" (WEEKDAYS_ZH !! now.(lo_weekday))));
                    ("timezone", VStr timezone); ("utc_offset", VStr now.(lo_offset)); ("locale", VStr locale)]))
  end.

(** ** [emit_event.py] *)

Definition emit_event_schema : ToolSchema :=
  mkToolSchema "emit_event"
    ("Publish a side-effectful event to the internal agent bus. Use only when an " +:+
     "internal system action, notification, or follow-up event must be emitted. " +:+
     "Requires a concrete subject and optional JSON payload; do not use for ordinary " +:+ "conversation or external long-running work.")%string
    (closed_object
       [("subject", described "string" "Internal event subject to publish, for example 'agent.test.example'.");
        ("payload", described "object" "JSON object payload for subscribers. Defaults to an empty object.")] ["subject"])
    [SYSTEM_PERM] "0.2" true None None.

(** The event: subject, payload, trace id and source *)
Record EmittedEvent := mkEmitted { ee_subject : pyval; ee_payload : pyval; ee_trace_id : string; ee_source : string }.
Definition emit_event {W} (publish : option (EmittedEvent -> M W unit)) (call : ToolCall) (trace_id : string) : M W ToolResult :=
  match publish with
  | None => mret_ (tool_refusal call emit_event_schema "event_bus_unavailable" "EventBus not wired")
  | Some publish =>
      match dict_get call.(tc_arguments) "subject" with
      | None => mraise (PyError "KeyError" "subject")
      | Some subject =>
          let payload := default VNone (dict_get call.(tc_arguments) "payload") in
          publish (mkEmitted subject (if truthy payload then payload else VDict []) trace_id "tool.emit_event") ;;;
          mret_ (success call emit_event_schema (VDict [("subject", subject)]))
      end
  end.

(** ** [weather.py] *)

Definition weather_schema (timeout_s : string) : ToolSchema :=
  mkToolSchema "get_weather"
    ("Get current weather and a short forecast for a location. Use when the " +:+
     "user asks about weather, temperature, rain, wind, or forecast. If the " +:+ "user does not name a location, use the configured default location.")%string
    (closed_object
       [("location", described "string" "City or place name, for example 上海, 杭州, Tokyo, or Paris.");
        ("lang", described "string" "Language code for place lookup. Defaults from caller locale.")] [])
    [NETWORK] timeout_s false None None.

(** [_weather_lang] *)
Fixpoint until_separator (sep : string) (l : list string) : list string :=
  match l with c :: l' => if bool_decide (c = sep) then [] else c :: until_separator sep l' | [] => [] end.
Definition weather_lang (case_table : string -> string) (locale : string) : string :=
  str_or (py_lower case_table (cat (until_separator "-" (chars locale)))) "en".

(** [_at] *)
Definition at_index (values : option pyval) (i : nat) : pyval := match values with Some (VList l) => default VNone (l !! i) | _ => VNone end.

Section OpenMeteo.
(** A [GET] with its status raised and its body decoded *)
Context (get_json : string -> list (string * pyval) -> res pyval).

(** [v.get(k)] and [v[k]] of a decoded object *)
Definition get_of (v : pyval) (k : string) : res (option pyval) :=
  match v with VDict d => Ok (dict_get d k) | _ => Err (PyError "AttributeError" "get") end.
Definition object_item (v : pyval) (k : string) : res pyval :=
  match v with
  | VDict d => match dict_get d k with Some x => Ok x | None => Err (PyError "KeyError" k) end
  | _ => Err (PyError "TypeError" "")
  end.
(** [v.get(k) or {}] *)
Definition object_of (v : pyval) (k : string) : res pyval := x ← get_of v k; Ok (if get_truthy x then default VNone x else VDict []).
Definition value_of (v : pyval) (k : string) : res pyval := x ← get_of v k; Ok (default VNone x).

(** [matches[0]] of a non-empty answer *)
Definition first_match (matches : pyval) : res pyval :=
  match matches with
  | VList (place :: _) => Ok place
  | VStr s => Ok (VStr (py_take 1 s))
  | VDict _ => Err (PyError "KeyError" "0")
  | _ => Err (PyError "TypeError" "not subscriptable")
  end.
(** What [enumerate] goes over *)
Definition iterated (v : pyval) : res (list pyval) :=
  match v with
  | VList l => Ok l
  | VStr s => Ok (map VStr (chars s))
  | VDict d => Ok (map (fun x => VStr x.1) d)
  | _ => Err (PyError "TypeError" "not iterable")
  end.

Definition forecast_day (maxima minima rain : option pyval) (i : nat) (date : pyval) : pyval :=
  VDict [("date", date); ("temperature_max", at_index maxima i); ("temperature_min", at_index minima i);
         ("precipitation_probability_max", at_index rain i)].

(** [_fetch_open_meteo] *)
Definition fetch_open_meteo (location lang : string) : res pyval :=
  geo ← get_json "https://geocoding-api.open-meteo.com/v1/search"
          [("name", VStr location); ("count", VInt 1); ("language", VStr lang); ("format", VStr "json")];
  matches ← get_of geo "results";
  if negb (get_truthy matches) then Err (PyError "ValueError" ("location not found: " +:+ location)%string)
  else
    place ← first_match (default VNone matches);
    latitude ← object_item place "latitude";
    longitude ← object_item place "longitude";
    forecast ← get_json "https://api.open-meteo.com/v1/forecast"
                 [("latitude", latitude); ("longitude", longitude);
                  ("current", VStr "temperature_2m,relative_humidity_2m,precipitation,wind_speed_10m");
                  ("daily", VStr "temperature_2m_max,temperature_2m_min,precipitation_probability_max"); ("timezone", VStr "auto"); ("forecast_days", VInt 3)];
    current ← object_of forecast "current";
    units ← object_of forecast "current_units";
    daily ← object_of forecast "daily";
    name ← get_of place "name";
    country ← value_of place "country"; admin1 ← value_of place "admin1";
    latitude ← value_of place "latitude"; longitude ← value_of place "longitude";
    timezone ← value_of forecast "timezone";
    temperature ← value_of current "temperature_2m"; temperature_unit ← value_of units "temperature_2m";
    humidity ← value_of current "relative_humidity_2m"; humidity_unit ← value_of units "relative_humidity_2m";
    precipitation ← value_of current "precipitation"; precipitation_unit ← value_of units "precipitation";
    wind ← value_of current "wind_speed_10m"; wind_unit ← value_of units "wind_speed_10m";
    time ← value_of current "time";
    days ← get_of daily "time";
    dates ← (if get_truthy days then iterated (default VNone days) else Ok []);
    maxima ← get_of daily "temperature_2m_max"; minima ← get_of daily "temperature_2m_min"; rain ← get_of daily "precipitation_probability_max";
    Ok (VDict
          [("location", VDict [("name", if get_truthy name then default VNone name else VStr location); ("country", country); ("admin1", admin1);
                               ("latitude", latitude); ("longitude", longitude); ("timezone", timezone)]);
           ("current", VDict [("temperature", temperature); ("temperature_unit", temperature_unit); ("humidity", humidity);
                              ("humidity_unit", humidity_unit); ("precipitation", precipitation); ("precipitation_unit", precipitation_unit);
                              ("wind_speed", wind); ("wind_speed_unit", wind_unit); ("time", time)]);
           ("forecast_days", VList (imap (forecast_day maxima minima rain) dates)); ("source", VStr "open-meteo")]).
End OpenMeteo.

(** [GetWeatherTool.invoke] *)
Definition get_weather (str_repr case_table : string -> string) (fetch : string -> string -> res pyval) (default_location timeout_s : string)
    (call : ToolCall) (locale : string) : res ToolResult :=
  let schema := weather_schema timeout_s in
  let location := str_or (text_argument_of str_repr call.(tc_arguments) "location" "") default_location in
  let lang := str_or (text_argument_of str_repr call.(tc_arguments) "lang" "") (weather_lang case_table locale) in
  match fetch location lang with
  | Ok data => Ok (success call schema data)
  | Err e => if is_exception e then Ok (tool_refusal call schema "weather_lookup_failed" (exn_str e)) else Err e
  end.

(** ** [result_summary.py] *)

Definition MAX_SOURCE_CHARS : nat := 12000.
Definition MAX_SUMMARY_CHARS : nat := 120.

(** [s.strip(set)] and [s.rstrip(set)] on characters *)
Fixpoint drop_set (set : list string) (l : list string) : list string :=
  match l with c :: l' => if bool_decide (c ∈ set) then drop_set set l' else l | [] => [] end.
Definition rstrip_set (set l : list string) : list string := rev (drop_set set (rev l)).
Definition strip_set (set l : list string) : list string := rstrip_set set (drop_set set l).
Definition QUOTES : list string := [String "034" ""; "'"; "“"; "”"; "‘"; "’"].
Definition TRAILING : list string := [" "; "，"; ","; "。"; "；"; ";"; "、"].

(** [re.sub(r"^\s*[-*]\s+", "", s)] *)
Definition drop_bullet (l : list string) : list string :=
  match drop_space l with
  | mark :: (space :: _ as rest) => if bool_decide (mark ∈ ["-"; "*"]) && py_isspace space then drop_space rest else l
  | _ => l
  end.

(** [_truncate_source] *)
Definition truncate_source (text : string) (max_chars : nat) : string :=
  if (py_len text <=? max_chars)%nat then text
  else (py_take max_chars text +:+ nl +:+ nl +:+ "[已截断 " +:+ int_str (Z.of_nat (py_len text - max_chars)) +:+ " 个字符]")%string.

(** [_clean_summary] *)
Definition clean_summary (text : string) (max_chars : nat) : option string :=
  let summary := strip_set QUOTES (chars (py_strip text)) in
  let summary := py_join " " (py_split (cat (drop_bullet summary))) in
  if is_empty summary then None
  else if (py_len summary <=? max_chars)%nat then Some summary
  else Some (cat (rstrip_set TRAILING (take max_chars (chars summary))) +:+ "。")%string.

(** [_messages_for_summary] *)
Definition messages_for_summary (uuid : nat -> string) (now : datetime) (record : LongTaskRecord) (result_text : string) (persona : option PersonaCard)
  : list ChatMessage :=
  let preamble := match persona with Some card => (card_prompt card +:+ nl +:+ nl)%string | None => "" end in
  let system :=
    (preamble +:+ "现在你要把一个刚完成的后台长任务的结果，用你自己的口吻，" +:+ "提取成一句适合 TTS 播放的中文短句主动汇报给用户。" +:+
     "要求：只输出最终播报句；保持你的人格语气；" +:+ "不使用 Markdown、编号、链接、括号说明或多段文本；" +:+
     "不要编造原始结果没有的信息；尽量控制在 60 个汉字以内。")%string in
  let user :=
    ("原始任务：" +:+ record.(lt_task) +:+ nl +:+ "期望输出：" +:+ str_or record.(lt_expected_output) "未提供" +:+ nl +:+
     "上下文摘要：" +:+ str_or record.(lt_context_summary) "未提供" +:+ nl +:+ "完整结果：" +:+ nl +:+ result_text)%string in
  [plain_message (uuid 0%nat) SYSTEM system now []; plain_message (uuid 1%nat) USER user now []].

(** The texts of a stream, to its finish or its end; a stream may end with an error. *)
Fixpoint stream_texts (deltas : list LLMDelta) (failure : option exn) : res (list string) :=
  match deltas with
  | [] => match failure with Some e => Err e | None => Ok [] end
  | d :: deltas =>
      let texts := match d.(ld_text_delta) with Some t => if is_empty t then [] else [t] | None => [] end in
      match d.(ld_finish) with
      | Some _ => Ok texts
      | None => rest ← stream_texts deltas failure; Ok (texts ++ rest)
      end
  end.

(** [LongTaskResultSummarizer.summarize] *)
Definition summarize_result (uuid : nat -> string) (now : datetime) (persona_voice : option (string -> string -> res (option PersonaCard)))
    (llm : list ChatMessage -> list LLMDelta * option exn) (max_source max_summary : nat) (record : LongTaskRecord) (result_text : string)
  : res (option string) :=
  let source := py_strip result_text in
  if is_empty source then Ok None
  else
    card ← match persona_voice with Some voice => voice record.(lt_owner_id) record.(lt_companion_id) | None => Ok None end;
    let '(deltas, failure) := llm (messages_for_summary uuid now record (truncate_source source max_source) card) in
    texts ← stream_texts deltas failure;
    Ok (clean_summary (cat texts) max_summary).

(** ** A delegation that is accepted is queued, one that is refused is not; what is said of a result is short. *)
From S2P Require Import HomeMessages AuditOutbox LongTaskFacts MementosWorker.

#[local] Open Scope eff_scope.

(** ** Arguments *)

Section Arguments.
Context (float_of : string -> spec_float) (str_repr : string -> string) (int_of_str : string -> option Z).

(** A budget is not negative, and only an infinite one makes the tool raise. *)
Lemma budget_spec v :
  match coerce_tool_budget float_of int_of_str v with
  | Ok n => 0 <= n
  | Err e => exists r s, v = Some (VFloat r) /\ float_of r = S754_infinity s /\ e = PyError "OverflowError" "cannot convert float infinity to integer"
  end.
Proof.
  assert (forall z, 0 <= if 0 <? z then z else 0) as Hz by (intros z; destruct (Z.ltb_spec 0 z); lia).
  unfold coerce_tool_budget. destruct v as [[|b|z|r|s|l|d]|]; cbn; try apply Hz; try (vm_compute; congruence).
  - unfold truncated. destruct (float_of r) as [s|s| |s m e] eqn:E; cbn; try apply Hz; try (vm_compute; congruence). by exists r, s.
  - destruct (int_of_str s); cbn; [apply Hz|vm_compute; congruence].
Qed.
End Arguments.

(** An infinite budget, [1e999] in JSON, is malformed and fails the delegation. *)
Example infinite_budget : normalize_arguments (fun _ => S754_infinity false) id (fun _ => None) [("instruction", VStr "x"); ("tool_budget", VFloat "inf")] =
  Err (PyError "OverflowError" "cannot convert float infinity to integer").
Proof. reflexivity. Qed.

(** A Korean caller is told the date of Seoul and its task is dated in UTC. *)
Example korean_dates : (dict_get LOCALE_TIMEZONES "ko-KR", task_timezone "ko-KR") = (Some "Asia/Seoul", "UTC").
Proof. reflexivity. Qed.

(** A time zone the library refuses for its form, an absolute path say, is not a refusal of the tool. *)
Example malformed_zone : get_time id (fun _ => Err (PyError "ValueError" "ZoneInfo keys may not be absolute paths")) (mkToolCall "c" "get_time" [("timezone", VStr "/etc")]) "zh-CN" =
  Err (PyError "ValueError" "ZoneInfo keys may not be absolute paths").
Proof. vm_compute. reflexivity. Qed.

(** ** Delegations *)

Section Delegations.
Context (float_of : string -> spec_float) (str_repr : string -> string) (int_of_str : string -> option Z).
Context (progress_subject_for : string -> string) (session_key_for task_key_for : string -> string -> string) (fresh_id : string) (today : string -> string).
Context (cfg : MementosWorkerConfig) (wp : WorkerPorts).
Notation iso := (wp_isoformat wp).
Notation of_iso := (wp_fromisoformat wp).
Notation delegate := (delegate float_of str_repr int_of_str progress_subject_for session_key_for task_key_for fresh_id today).
Notation task_record := (task_record progress_subject_for session_key_for task_key_for fresh_id today).
Notation submit := (MementosWorker.submit cfg wp).
Definition store_steps : JobDb -> JobDb -> Prop := rtc (store_step iso of_iso).

(** The store moved on from where the record was accepted. *)
Definition record_stored (record : LongTaskRecord) (w : WorkerWorld) : Prop := exists now db, store_steps (accept_task iso now record db) w.(ww_db).

(** Statements that leave the queue *)
Definition same_queue (w w' : WorkerWorld) : Prop := w'.(ww_queue) = w.(ww_queue).
#[local] Instance same_queue_preorder : PreOrder same_queue.
Proof. split; [by intros w|]. intros w1 w2 w3 H12 H23. unfold same_queue in *. congruence. Qed.

Lemma wait_queue : preserves same_queue (wait wp).
Proof. intros w. unfold wait. by destruct (wp_interrupt wp _). Qed.
#[local] Hint Resolve wait_queue : effects.
Lemma set_db_queue db : preserves same_queue (set_db db).
Proof. by intros w. Qed.
#[local] Hint Resolve set_db_queue : effects.
Lemma update_queue id f : preserves same_queue (store_update wp id f).
Proof. unfold store_update. preserve. Qed.
Lemma accept_queue r : preserves same_queue (store_accept wp r).
Proof. unfold store_accept. preserve. Qed.

Hypothesis others_step : forall n db, store_steps db (wp_others wp n db).

Lemma wait_steps w : store_steps w.(ww_db) (wait wp w).2.(ww_db).
Proof. unfold wait. by destruct (wp_interrupt wp _); apply others_step. Qed.

Lemma accept_stored record w w' : store_accept wp record w = (Ok tt, w') -> record_stored record w'.
Proof.
  unfold store_accept. unfold mbind_ at 1. destruct (wait wp w) as [[[]|e] w1] eqn:E1; [|done]. unfold mbind_ at 1, mget. unfold mbind_ at 1. cbn. intros E.
  pose proof (wait_steps (mkWorkerWorld (accept_task iso (wp_now wp (ww_tick w1)) record (ww_db w1)) (ww_tick w1) (ww_queue w1) (ww_reports w1))) as Hs.
  unfold set_db, mmodify in E. rewrite E in Hs. by exists (wp_now wp (ww_tick w1)), (ww_db w1).
Qed.

(** The worker's end of a delegation *)
Lemma submit_spec record w :
  match submit record w with
  | (Ok _, w') => w'.(ww_queue) = w.(ww_queue) ++ [record] /\ record_stored record w' /\
      (0 < cfg.(mw_queue_size) -> Z.of_nat (length w'.(ww_queue)) <= cfg.(mw_queue_size))
  | (Err e, w') => w'.(ww_queue) = w.(ww_queue)
  end.
Proof.
  unfold MementosWorker.submit. unfold mbind_ at 1. pose proof (accept_queue record w) as Hq. destruct (store_accept wp record w) as [[[]|e] w1] eqn:E; [|exact Hq].
  cbn in Hq. unfold mbind_ at 1, mget. destruct (_ && _) eqn:Ef.
  - unfold mbind_ at 1. pose proof (update_queue (lt_id record) (failed "queue_full" "local long-task queue is full" None LT_FAILED) w1) as Hu.
    destruct (store_update wp _ _ w1) as [[x|e] w2]; cbn in *; unfold same_queue in *; congruence.
  - cbn. unfold same_queue in Hq. rewrite Hq. split; [done|]. split; [exact (accept_stored _ _ _ E)|]. intros Hpos. rewrite length_app. cbn.
    apply andb_false_iff in Ef as [Ef|Ef]; [lia|]. rewrite Hq in Ef. lia.
Qed.

(** Whatever a call asks for and whatever happens to the store meanwhile: a delegation is
    reported as accepted exactly when its record, of the caller's scope and the asked
    instruction, was stored and is the last of the worker's queue, which keeps its bound;
    otherwise the queue is as before. *)
Theorem accepted_delegations_are_queued call ctx w :
  let '(r, w') := delegate (Some submit) call ctx w in
  match r with
  | Ok t =>
      (t.(tr_ok) = true /\ exists args, normalize_arguments float_of str_repr int_of_str call.(tc_arguments) = Ok args /\ args.(ta_instruction) <> "" /\
         let record := task_record args call ctx in
         w'.(ww_queue) = w.(ww_queue) ++ [record] /\ record_stored record w' /\ t.(tr_content) = accepted_task record /\
         record.(lt_owner_id) = CoreTypes.owner_id ctx.(tk_turn) /\ record.(lt_companion_id) = CoreTypes.companion_id ctx.(tk_turn) /\
         (0 < cfg.(mw_queue_size) -> Z.of_nat (length w'.(ww_queue)) <= cfg.(mw_queue_size))) \/
      (t.(tr_ok) = false /\ w'.(ww_queue) = w.(ww_queue))
  | Err e => w'.(ww_queue) = w.(ww_queue)
  end.
Proof.
  unfold TaskTools.delegate. unfold mbind_ at 1, mlift. destruct (normalize_arguments _ _ _ _) as [args|e] eqn:Ea; [|done].
  destruct (is_empty (ta_instruction args)) eqn:Ei; [by right|]. unfold mtry, mbind_. pose proof (submit_spec (task_record args call ctx) w) as Hs.
  destruct (submit _ w) as [[[]|e] w'].
  - cbn. left. split; [done|]. exists args. split; [done|]. split; [by apply is_empty_false|]. destruct Hs as (? & ? & ?). by split_and!.
  - destruct (raised _ e); cbn; [by right|]. destruct (is_exception e); cbn; [by right|done].
Qed.
End Delegations.

(** ** What is said of a result *)

Lemma drop_set_length set l : (length (drop_set set l) <= length l)%nat.
Proof. induction l as [|c l IH]; cbn; [done|]. case_bool_decide; cbn; lia. Qed.

Lemma drop_set_sub set l c : c ∈ drop_set set l -> c ∈ l.
Proof. induction l as [|x l IH]; cbn; [done|]. case_bool_decide; [|done]. intros Hc. right. by apply IH. Qed.

Lemma py_len_chars_sub l s : (forall c, c ∈ l -> c ∈ chars s) -> (py_len (cat l) <= length l)%nat.
Proof. intros Hl. apply py_len_cat. apply Forall_forall. intros c Hc. apply (chars_one s). by apply Hl. Qed.

(** A summary is never empty and at most one character longer than it should be. *)
Theorem summary_fits text n s : clean_summary text n = Some s -> s <> "" /\ (py_len s <= S n)%nat.
Proof.
  unfold clean_summary. set (summary := py_join " " _). destruct (is_empty summary) eqn:Ee; [done|].
  destruct (Nat.leb_spec (py_len summary) n) as [Hl|Hl].
  - intros [= <-]. split; [by apply is_empty_false|lia].
  - intros [= <-]. split; [by generalize (cat (rstrip_set TRAILING (take n (chars summary)))); intros [|]|]. etransitivity; [apply py_len_app|]. replace (py_len "。") with 1%nat by (vm_compute; reflexivity).
    assert (py_len (cat (rstrip_set TRAILING (take n (chars summary)))) <= n)%nat; [|lia]. etransitivity; [apply (py_len_chars_sub _ summary)|].
    + intros c. unfold rstrip_set. rewrite list_elem_of_In, <- in_rev, <- list_elem_of_In. intros Hc%drop_set_sub. rewrite list_elem_of_In, <- in_rev, <- list_elem_of_In in Hc.
      by apply (elem_of_take) in Hc as (i & Hi%list_elem_of_lookup_2 & _).
    + unfold rstrip_set. rewrite length_rev. etransitivity; [apply drop_set_length|]. rewrite length_rev, length_take. lia.
Qed.

(** The limit is passed when nothing is stripped: the full stop comes after [n] characters. *)
Example summary_exceeds : py_len <$> clean_summary "一二三四五六" 5 = Some 6%nat.
Proof. vm_compute. reflexivity. Qed.
Example summary_ex : clean_summary (" - 机票已经订好了，  周五" +:+ nl +:+ "出发。") 9 = Some "机票已经订好了。".
Proof. vm_compute. reflexivity. Qed.

(** What comes after the finish of the stream is not read, its error neither. *)
Lemma finished_stream deltas d rest failure : Forall (fun d => d.(ld_finish) = None) deltas -> d.(ld_finish) <> None ->
  stream_texts (deltas ++ d :: rest) failure = stream_texts (deltas ++ [d]) None.
Proof.
  intros Hd Hf. induction Hd as [|d' deltas Hd' Hd IH]; cbn; [by destruct (ld_finish d)|]. by rewrite Hd', IH.
Qed.

(** ** A concrete delegation *)

Definition sample_task_turn : TurnContext := mkTurnContext "owner" "companion" (Some "device") "realm" "genome" "trace" "request" None None None "1" "" "" "zh-CN" true None None false false.
Notation sample_delegate size arguments := (delegate (fun _ => S754_nan) id (fun _ => None) (fun i => "progress." +:+ i)%string (fun o d => o +:+ "/" +:+ d)%string
  (fun s i => s +:+ "/" +:+ i)%string "task-1" (fun _ => "2026-01-02") (Some (MementosWorker.submit (mkWorkerConfig size 1000 0) (sample_ports [])))
  (mkToolCall "call-1" DELEGATE_TO_COWORKER_TOOL arguments) (mkTaskContext sample_task_turn "turn-1" None (Some "session") (Some "订票"))
  (mkWorkerWorld (mkJobDb [] []) 0 [sample_task] [])).
Example sample_delegations :
  map (fun x : res ToolResult * WorkerWorld => (match x.1 with Ok t => (t.(tr_ok), t.(tr_error_code)) | Err _ => (false, None) end, map lt_id x.2.(ww_queue)))
    [sample_delegate 2 [("instruction", VStr " 订周五的票 ")]; sample_delegate 1 [("instruction", VStr "订周五的票")]; sample_delegate 2 [("instruction", VStr " ")]] =
  [((true, None), ["t1"; "task-1"]); ((false, Some "long_task_queue_full"), ["t1"]); ((false, Some "invalid_long_task"), ["t1"])].
Proof. vm_compute. reflexivity. Qed.

Lemma accepted_delegations_are_queued_witness :
  let '(r, w') := sample_delegate 2 [("instruction", VStr " 订周五的票 ")] in
  match r with
  | Ok t => t.(tr_ok) = true -> map lt_id w'.(ww_queue) = ["t1"; "task-1"]
  | Err e => False
  end.
Proof.
  pose proof (accepted_delegations_are_queued (fun _ => S754_nan) id (fun _ => None) (fun i => "progress." +:+ i)%string (fun o d => o +:+ "/" +:+ d)%string
    (fun s i => s +:+ "/" +:+ i)%string "task-1" (fun _ => "2026-01-02") (mkWorkerConfig 2 1000 0) (sample_ports []) (fun n db => rtc_refl _ db)
    (mkToolCall "call-1" DELEGATE_TO_COWORKER_TOOL [("instruction", VStr " 订周五的票 ")]) (mkTaskContext sample_task_turn "turn-1" None (Some "session") (Some "订票"))
    (mkWorkerWorld (mkJobDb [] []) 0 [sample_task] [])) as Ht.
  destruct (sample_delegate 2 [("instruction", VStr " 订周五的票 ")]) as [[t|e] w'] eqn:E.
  - intros Hok. destruct Ht as [(_ & args & _ & _ & Hq & _)|[Hno _]]; [by rewrite Hq|congruence].
  - vm_compute in E. discriminate E.
Defined.
