(* ===== verification/CapabilityTools.v ===== *)
(** * The tools of the devices that are online: [domain/tools/body_capability_provider.py].

    A contract, a capability with its version, that every device offering it declares alike
    becomes one tool; its targets are the companions of these devices. SHA-256 in hex digits,
    [casefold] and the order a set of strings is iterated in are parameters. *)

From S2P Require Import Prelude CoreTypes Json Effects BodyControl TaskTools.
#[local] Open Scope eff_scope.

Definition TARGET_FIELD : string := "target_companion".
Definition TOOL_NAME_LIMIT : nat := 64.
Definition CAPABILITY_PERMISSIONS : list Permission := [SYSTEM_PERM; USER_DATA].

(** The class attribute [code] of a [BodyControlError] *)
Definition BODY_ERROR_CODES : list (string * string) :=
  [("BodyControlError", "body_control_error"); ("BodyControlUnavailable", "body_control_unavailable"); ("BodyDeviceNotFound", "body_device_not_found");
   ("BodyDeviceAmbiguous", "body_device_ambiguous"); ("BodyCompanionNotFound", "body_companion_not_found");
   ("BodyCompanionAmbiguous", "body_companion_ambiguous"); ("BodyDeviceOffline", "body_device_offline");
   ("BodyCapabilityUnsupported", "body_capability_unsupported"); ("BodyCommandRejected", "body_command_rejected")].

Section Capabilities.
Context (sha256 : string -> string) (casefold str_repr case_table : string -> string) (set_order : list string -> list string).

Definition compact : pyval -> string := json_dumps true "," ":".

(** [_schema_fingerprint] *)
Definition schema_fingerprint (c : Capability) : string :=
  sha256 (compact (VDict [("input_schema", VDict c.(cap_input_schema)); ("result_schema", c.(cap_result_schema))])).

(** [_contract_tool_name] *)
Definition name_char (c : string) : bool :=
  match c with
  | String a "" =>
      let n := N_of_ascii a in
      ((97 <=? n) && (n <=? 122) || (65 <=? n) && (n <=? 90) || (48 <=? n) && (n <=? 57))%N || bool_decide (c ∈ ["_"; "-"])
  | _ => false
  end.
Definition name_chars (raw : string) : list string := map (fun c => if name_char c then c else "_") (chars raw).
Definition raw_name (c : Capability) : string :=
  ("cap_" +:+ cat (map (fun x => if bool_decide (x = ".") then "_" else x) (chars c.(cap_name))) +:+ "_v" +:+ int_str c.(cap_version))%string.
Definition contract_tool_name (c : Capability) : string :=
  let raw := raw_name c in
  let normalized := name_chars raw in
  if (length normalized <=? TOOL_NAME_LIMIT)%nat then cat normalized
  else (cat (take (TOOL_NAME_LIMIT - 11) normalized) +:+ "_" +:+ py_take 10 (sha256 raw))%string.

(** [_tool_input_schema]; the names of required arguments are strings. *)
Definition tool_input_schema (c : Capability) (providers : list string) : res (list (string * pyval)) :=
  let schema := c.(cap_input_schema) in
  properties ← as_dict_or_empty (dict_get schema "properties");
  let properties :=
    dict_set properties TARGET_FIELD
      (VDict [("type", VStr "string"); ("enum", VList (map VStr providers));
              ("description", VStr "Exact name of the online Companion that should perform the action.")]) in
  required ← (if get_truthy (dict_get schema "required") then l ← iterated (default VNone (dict_get schema "required")); LongTasks.dec_strings l else Ok []);
  let schema := dict_set schema "type" (VStr "object") in
  let schema := dict_set schema "properties" (VDict properties) in
  Ok (dict_set schema "required" (VList (map VStr (Presentation.dedup_keys (required ++ [TARGET_FIELD]))))).

(** [_RuntimeCapabilityContractTool] *)
Record ContractTool := mkContractTool { ct_capability : Capability; ct_schema : ToolSchema }.
Definition contract_tool (c : Capability) (providers : list string) : res ContractTool :=
  let tool_name := contract_tool_name c in
  json_schema ← tool_input_schema c providers;
  Ok (mkContractTool c
        (mkToolSchema tool_name
           (py_strip (py_strip c.(cap_description) +:+ " " +:+ "Execute this capability on one currently online Companion. " +:+
                      "The target is a Companion name, not a device id. Do not claim that " +:+
                      "the external action succeeded unless this tool returns a completed receipt."))%string
           json_schema CAPABILITY_PERMISSIONS "6.0" true
           (Some ("runtime-capability:" +:+ tool_name +:+ ":${owner_id}:${trace_id}:${arguments_json}")%string) None)).

(** [_runtime_idempotency_key] *)
Definition runtime_idempotency_key (owner logical_trace : string) (c : Capability) (arguments : list (string * pyval)) : string :=
  ("runtime-capability:" +:+
   sha256 (compact (VDict [("owner_id", VStr owner); ("logical_trace_id", VStr logical_trace); ("contract", VStr c.(cap_name));
                           ("contract_version", VInt c.(cap_version)); ("arguments", VDict arguments)])))%string.

(** ** [_compatible_contracts] *)

Notation ContractKey := (string * Z)%type.
Definition key_leb (x y : ContractKey) : bool := if bool_decide (x.1 = y.1) then x.2 <=? y.2 else str_leb x.1 y.1.
Definition key_of (c : Capability) : ContractKey := (c.(cap_name), c.(cap_version)).
Definition named_device (d : BodyDevice) : bool := negb (is_empty (py_strip d.(dv_companion_name))).

(** What the devices offer, and the groups by contract *)
Definition offers (devices : list BodyDevice) : list (Capability * BodyDevice) :=
  concat (map (fun d => map (fun c => (c, d)) d.(dv_capabilities)) (List.filter named_device devices)).
Definition group_offers (l : list (Capability * BodyDevice)) : list (ContractKey * list (Capability * BodyDevice)) :=
  fold_left (fun g x => dict_set g (key_of x.1) (default [] (dict_get g (key_of x.1)) ++ [x])) l [].

(** [x in (v or {})] *)
Definition contains_name (name : string) (o : option pyval) : res bool :=
  if negb (get_truthy o) then Ok false
  else
    match o with
    | Some (VDict d) => Ok (dict_has d name)
    | Some (VList l) => Ok (existsb (fun v => match v with VStr s => bool_decide (s = name) | _ => false end) l)
    | Some (VStr s) => Ok (py_contains name s)
    | _ => Err (PyError "TypeError" "not iterable")
    end.

Definition target_names (bindings : list (Capability * BodyDevice)) : list string :=
  py_sorted (fun a b => str_leb (casefold a) (casefold b))
    (set_order (Presentation.dedup_keys (List.filter (fun n => negb (is_empty n)) (map (fun x => py_strip x.2.(dv_companion_name)) bindings)))).

(** One group: its contract, or nothing *)
Definition compatible (bindings : list (Capability * BodyDevice)) : res (option (Capability * list string)) :=
  match bindings with
  | [] => Ok None
  | (capability, _) :: _ =>
      if negb (bool_decide (length (Presentation.dedup_keys (map (fun x => schema_fingerprint x.1) bindings)) = 1%nat)) then Ok None
      else
        reserved ← contains_name TARGET_FIELD (dict_get capability.(cap_input_schema) "properties");
        let providers := target_names bindings in
        Ok (if reserved : bool then None else if bool_decide (providers = []) then None else Some (capability, providers))
  end.
Definition compatible_contracts (devices : list BodyDevice) : res (list (Capability * list string)) :=
  let grouped := group_offers (offers devices) in
  contracts ← mapM (fun k => compatible (default [] (dict_get grouped k))) (py_sorted key_leb (map fst grouped));
  Ok (omap id contracts).

(** ** [RuntimeCapabilityToolProvider.assemble] *)

Fixpoint keep_first (tools : list ContractTool) (seen : list string) : list ContractTool :=
  match tools with
  | [] => []
  | t :: tools =>
      let name := t.(ct_schema).(ts_name) in
      if bool_decide (name ∈ seen) then keep_first tools seen else t :: keep_first tools (name :: seen)
  end.
(** The schemas of the result are those of its tools, and the ports have their names. *)
Definition assemble_tools (bp : option BodyPorts) (context : TurnContext) : M BodyState (list ContractTool) :=
  match bp with
  | None => mret_ []
  | Some bp =>
      if is_empty (CoreTypes.owner_id context) || is_empty (CoreTypes.companion_id context) then mret_ []
      else
        devices <-- mtry (l <-- list_devices bp (CoreTypes.owner_id context) (CoreTypes.companion_id context) (CoreTypes.device_id context) false ;; mret_ (Some l))
                      (fun e => if is_exception e then Some (mret_ None) else None) ;;
        match devices with
        | None => mret_ []
        | Some devices =>
            contracts <-- mlift (compatible_contracts devices) ;;
            tools <-- mlift (mapM (fun x => contract_tool x.1 x.2) contracts) ;;
            mret_ (keep_first tools [])
        end
  end.

(** ** [_RuntimeCapabilityContractTool.invoke] *)

Definition capability_metadata (completed : bool) : list (string * pyval) := [("external_action", VBool true); ("completed", VBool completed)].
Definition capability_failure (tool : ContractTool) (call : ToolCall) (content : pyval) (code message : string) : ToolResult :=
  mkToolResult call.(tc_id) tool.(ct_schema).(ts_name) false content (Some code) (Some message) 0 (capability_metadata false).
Definition some_message (r : BodyCommandResult) : option string := if opt_truthy r.(cx_error) then r.(cx_error) else r.(cx_message).

(** The result of a command *)
Definition capability_result (tool : ContractTool) (call : ToolCall) (target : string) (r : BodyCommandResult) : ToolResult :=
  let c := tool.(ct_capability) in
  let completed := bool_decide (r.(cx_status) = "done") in
  if completed && negb (r.(cx_capability_version) =? c.(cap_version)) then
    capability_failure tool call VNone "body_contract_version_mismatch"
      ("Hub completed a different capability contract version: " +:+
       "expected v" +:+ int_str c.(cap_version) +:+ ", got v" +:+ int_str r.(cx_capability_version))%string
  else
    let receipt :=
      VDict [("kind", VStr "external_action_receipt"); ("contract", VStr c.(cap_name)); ("contract_version", VInt c.(cap_version));
             ("target_companion", VStr target); ("resolved_device_id", VStr r.(cx_device_id)); ("command_id", VStr r.(cx_command_id));
             ("status", VStr r.(cx_status)); ("completed", VBool completed); ("result", r.(cx_result)); ("error", of_opt_str (some_message r))] in
    if completed then mkToolResult call.(tc_id) tool.(ct_schema).(ts_name) true receipt None None 0 (capability_metadata true)
    else capability_failure tool call receipt r.(cx_status) (opt_or (some_message r) r.(cx_status)).

Definition capability_request (tool : ContractTool) (call : ToolCall) (context : TurnContext) (turn_id : string) : CommandRequest :=
  mkCommandRequest (CoreTypes.owner_id context) (CoreTypes.companion_id context) (CoreTypes.device_id context) ""
    tool.(ct_capability).(cap_name) (VDict (List.filter (fun x => negb (bool_decide (x.1 = TARGET_FIELD))) call.(tc_arguments)))
    None "result" 30000 "normal"
    (Some (runtime_idempotency_key (CoreTypes.owner_id context) (str_or (CoreTypes.trace_id context) turn_id) tool.(ct_capability) call.(tc_arguments))).
Definition capability_invoke (bp : BodyPorts) (tool : ContractTool) (call : ToolCall) (context : TurnContext) (turn_id : string) : M BodyState ToolResult :=
  let target := text_argument_of str_repr call.(tc_arguments) TARGET_FIELD "" in
  mtry
    (r <-- send_companion_capability case_table casefold str_repr bp (capability_request tool call context turn_id) target tool.(ct_capability).(cap_version) ;;
     mret_ (capability_result tool call target r))
    (fun e => match dict_get BODY_ERROR_CODES (exn_type e) with
              | Some code => Some (mret_ (capability_failure tool call VNone code (exn_str e)))
              | None => None
              end).
End Capabilities.

(** ** The tools of the online devices say what every one of them offers, and report what was done. *)
From S2P Require Import Presentation BodyControl.

#[local] Open Scope eff_scope.

(** ** Lists of names *)

Lemma fold_keys {A} (key : A -> string) l (d : list (string * unit)) :
  NoDup d.*1 -> NoDup (fold_left (fun d x => dict_set d (key x) tt) l d).*1 /\
  forall k, k ∈ (fold_left (fun d x => dict_set d (key x) tt) l d).*1 <-> k ∈ d.*1 \/ k ∈ map key l.
Proof.
  revert d. induction l as [|x l IH]; intros d Hd; cbn [fold_left map]; [split; [done|]; intros k; set_solver|].
  destruct (IH (dict_set d (key x) tt)) as [Hn Hk]; [by apply dict_set_nodup|]. split; [done|]. intros k. rewrite Hk, elem_of_cons, !list_elem_of_fmap.
  assert ((exists y : string * unit, k = y.1 /\ y ∈ dict_set d (key x) tt) <-> k = key x \/ exists y : string * unit, k = y.1 /\ y ∈ d) as ->; [|naive_solver].
  split.
  - intros ([k' []] & -> & Hy). apply dict_set_elem in Hy as [[-> _]|Hy]; [by left|right; by exists (k', ())].
  - intros Hy. destruct (decide (k = key x)) as [->|Hne]; [exists (key x, ()); split; [done|]; apply dict_get_elem, dict_get_set_eq|].
    destruct Hy as [?|([k' []] & -> & Hy)]; [done|]. exists (k', ()). split; [done|]. apply dict_get_elem. cbn in Hne. rewrite dict_get_set_ne by done. by apply dict_elem_get.
Qed.

Lemma dedup_keys_spec l : NoDup (dedup_keys l) /\ forall k, k ∈ dedup_keys l <-> k ∈ l.
Proof.
  destruct (fold_keys id l [] NoDup_nil_2) as [Hn Hk]. split; [exact Hn|]. intros k. unfold dedup_keys. rewrite Hk. replace (map id l) with l by by rewrite List.map_id. set_solver.
Qed.

(** One name is left when all are the same. *)
Lemma dedup_one l : length (dedup_keys l) = 1%nat -> forall x y, x ∈ l -> y ∈ l -> x = y.
Proof.
  destruct (dedup_keys_spec l) as [_ Hk]. destruct (dedup_keys l) as [|k [|]]; try done. intros _ x y. rewrite <- !Hk. by intros ->%list_elem_of_singleton ->%list_elem_of_singleton.
Qed.

(** ** Names of tools *)

Section Names.
Context (sha256 : string -> string).

Definition ascii_char (c : string) : bool := match c with String a "" => (N_of_ascii a <? 128)%N | _ => false end.

Lemma chars_cat l : Forall (fun c => ascii_char c = true) l -> chars (cat l) = l.
Proof.
  induction 1 as [|c l Hc Hl IH]; [done|]. destruct c as [|a [|]]; try done. cbn in Hc. apply N.ltb_lt in Hc. cbn [cat].
  change (String a "" +:+ cat l)%string with (String a (cat l)). cbn [chars]. rewrite IH. destruct Hl as [|c l Hb Hl]; [done|]. destruct c as [|b [|]]; try done.
  cbn in Hb. apply N.ltb_lt in Hb. unfold continuation_byte. destruct (N.leb_spec 128 (N_of_ascii b)); [lia|done].
Qed.

Lemma name_char_ascii c : name_char c = true -> ascii_char c = true.
Proof.
  destruct c as [|a [|]]; try done. unfold name_char, ascii_char. intros H. apply N.ltb_lt. apply orb_true_iff in H as [H|H]; [rewrite !orb_true_iff, !andb_true_iff, !N.leb_le in H; lia|].
  apply bool_decide_eq_true in H. rewrite !elem_of_cons in H. destruct H as [[= ->]|[[= ->]|[]%elem_of_nil]]; vm_compute; done.
Qed.

Lemma names_of l : Forall (fun c => name_char c = true) l -> chars (cat l) = l.
Proof. intros Hl. apply chars_cat. eapply Forall_impl; [exact Hl|]. exact name_char_ascii. Qed.

Lemma name_chars_ok raw : Forall (fun c => name_char c = true) (name_chars raw).
Proof. unfold name_chars. apply Forall_fmap, Forall_forall. intros c _. cbn. by destruct (name_char c) eqn:E. Qed.

(** Whatever a capability is called and whatever its version, its tool has a name of at most 64
    characters, letters, digits, underscores and hyphens only. *)
Theorem tool_names_are_valid c : (forall s, Forall (fun x => name_char x = true) (chars (sha256 s))) ->
  (py_len (contract_tool_name sha256 c) <= TOOL_NAME_LIMIT)%nat /\ Forall (fun x => name_char x = true) (chars (contract_tool_name sha256 c)).
Proof.
  intros Hsha. unfold contract_tool_name. pose proof (name_chars_ok (raw_name c)) as Hn. set (normalized := name_chars (raw_name c)) in *.
  destruct (Nat.leb_spec (length normalized) TOOL_NAME_LIMIT) as [Hl|Hl].
  - unfold py_len. by rewrite names_of.
  - assert (cat (take (TOOL_NAME_LIMIT - 11) normalized) +:+ "_" +:+ py_take 10 (sha256 (raw_name c)) =
      cat (take (TOOL_NAME_LIMIT - 11) normalized ++ "_" :: take 10 (chars (sha256 (raw_name c)))))%string as -> by by rewrite cat_app.
    assert (Forall (fun x => name_char x = true) (take (TOOL_NAME_LIMIT - 11) normalized ++ "_" :: take 10 (chars (sha256 (raw_name c))))) as Hall.
    { apply Forall_app. split; [by apply Forall_take|]. constructor; [by vm_compute|]. by apply Forall_take. }
    unfold py_len. rewrite (names_of _ Hall). split; [|done]. rewrite length_app, length_take. cbn [length]. rewrite length_take. unfold TOOL_NAME_LIMIT. lia.
Qed.
End Names.

(** ** Contracts *)

Section Contracts.
Context (sha256 casefold : string -> string) (set_order : list string -> list string).
Notation compatible_contracts := (compatible_contracts sha256 casefold set_order).
Notation compatible := (compatible sha256 casefold set_order).
Notation target_names := (target_names casefold set_order).

Lemma offers_elem devices c d : (c, d) ∈ offers devices <-> d ∈ devices /\ named_device d = true /\ c ∈ d.(dv_capabilities).
Proof.
  unfold offers. rewrite list_elem_of_In, in_concat. split.
  - intros (l & Hl & Hc). apply in_map_iff in Hl as (d' & <- & Hd). apply in_map_iff in Hc as (c' & [= <- <-] & Hc). apply filter_In in Hd as [? ?].
    split_and!; [by apply list_elem_of_In|done|by apply list_elem_of_In].
  - intros (Hd & Hn & Hc). exists (map (fun c => (c, d)) d.(dv_capabilities)). split.
    + apply in_map_iff. exists d. split; [done|]. apply filter_In. split; [by apply list_elem_of_In|done].
    + apply in_map_iff. exists c. split; [done|by apply list_elem_of_In].
Qed.

Definition of_key (k : string * Z) (x : Capability * BodyDevice) : bool := bool_decide (key_of x.1 = k).

Lemma group_offers_spec l : NoDup (group_offers l).*1 /\ forall k, default [] (dict_get (group_offers l) k) = List.filter (of_key k) l.
Proof.
  unfold group_offers. set (step := fun g x => dict_set g (key_of x.1) (default [] (dict_get g (key_of x.1)) ++ [x])).
  assert (forall g : list (string * Z * list (Capability * BodyDevice)), NoDup g.*1 -> NoDup (fold_left step l g).*1 /\
    forall k, default [] (dict_get (fold_left step l g) k) = default [] (dict_get g k) ++ List.filter (of_key k) l) as Hg; [|destruct (Hg [] NoDup_nil_2) as [? Hk]; split; [done|exact Hk]].
  induction l as [|x l IH]; intros g Hn; cbn [fold_left List.filter]; [split; [done|]; intros k; by rewrite app_nil_r|].
  destruct (IH (step g x)) as [Hn' Hk]; [by apply dict_set_nodup|]. split; [done|]. intros k. rewrite Hk. unfold step. replace (of_key k x) with (bool_decide (key_of x.1 = k)) by done. destruct (bool_decide (key_of x.1 = k)) eqn:E; [apply bool_decide_eq_true in E|apply bool_decide_eq_false in E].
  - rewrite E, dict_get_set_eq. cbn. by rewrite <- app_assoc.
  - by rewrite dict_get_set_ne.
Qed.

(** One contract as the devices offer it *)
Record contract_offered (devices : list BodyDevice) (c : Capability) (names : list string) : Prop := {
  of_some : exists d, (c, d) ∈ offers devices;
  of_alike : forall c' d, (c', d) ∈ offers devices -> key_of c' = key_of c -> schema_fingerprint sha256 c' = schema_fingerprint sha256 c;
  of_names : names <> [] /\ forall n, n ∈ names <-> n <> "" /\ exists c' d, (c', d) ∈ offers devices /\ key_of c' = key_of c /\ py_strip d.(dv_companion_name) = n;
  of_free : contains_name TARGET_FIELD (dict_get c.(cap_input_schema) "properties") = Ok false;
}.

Hypothesis set_perm : forall l, set_order l ≡ₚ l.

Lemma target_names_spec bindings n : n ∈ target_names bindings <-> n <> "" /\ exists c d, (c, d) ∈ bindings /\ py_strip d.(dv_companion_name) = n.
Proof.
  unfold CapabilityTools.target_names. rewrite py_sorted_perm, set_perm, (proj2 (dedup_keys_spec _)), elem_of_filter_list, negb_true_iff, is_empty_false, list_elem_of_fmap.
  split; [intros [([c d] & -> & Hx) Hn]; split; [done|]; by exists c, d|]. intros (Hn & c & d & Hx & E). split; [|done]. by exists (c, d).
Qed.

Lemma compatible_offered devices k c names : compatible (List.filter (of_key k) (offers devices)) = Ok (Some (c, names)) -> key_of c = k /\ contract_offered devices c names.
Proof.
  unfold CapabilityTools.compatible. destruct (List.filter _ _) as [|[c0 d0] bindings] eqn:Ef; [done|].
  assert (forall c' d, (c', d) ∈ (c0, d0) :: bindings <-> (c', d) ∈ offers devices /\ key_of c' = k) as Hb.
  { intros c' d. rewrite <- Ef, elem_of_filter_list. unfold of_key. cbn. by rewrite bool_decide_eq_true. }
  case_bool_decide as E1; cbn [negb]; [|done]. intros (reserved & Hr & E2)%res_bind_ok. destruct reserved; [done|]. case_bool_decide as E3; [done|].
  injection E2 as <- <-. destruct (proj1 (Hb c0 d0)) as [H0 Hk]; [by left|]. split; [done|]. constructor.
  - by exists d0.
  - intros c' d Hc Ek. apply (dedup_one _ E1); apply list_elem_of_fmap; [exists (c', d)|exists (c0, d0)]; (split; [done|]); [apply Hb; by rewrite Ek|by left].
  - split; [done|]. intros n. rewrite target_names_spec. split; intros (Hn & c' & d & Hd & E); (split; [done|]); exists c', d.
    + apply Hb in Hd as [? ?]. by rewrite Hk.
    + destruct E as [Ek E]. split; [|done]. apply Hb. by rewrite Ek.
  - done.
Qed.

(** The contracts are pairwise distinct and each is one all its devices agree on. *)
Lemma contracts_offered devices contracts : compatible_contracts devices = Ok contracts ->
  NoDup (map (fun x => key_of x.1) contracts) /\ forall c names, (c, names) ∈ contracts -> contract_offered devices c names.
Proof.
  unfold CapabilityTools.compatible_contracts. destruct (group_offers_spec (offers devices)) as [Hn Hg].
  intros (found & Hf & [= <-])%res_bind_ok. assert (NoDup (py_sorted key_leb (map fst (group_offers (offers devices))))) as Hs by by rewrite py_sorted_perm.
  revert found Hf Hs. generalize (py_sorted key_leb (map fst (group_offers (offers devices)))). intros keys.
  assert (forall found, mapM (fun k => compatible (default [] (dict_get (group_offers (offers devices)) k))) keys = Ok found -> NoDup keys ->
    (NoDup (map (fun x => key_of x.1) (omap id found)) /\ forall c names, (c, names) ∈ omap id found -> key_of c ∈ keys /\ contract_offered devices c names)) as Hall.
  { induction keys as [|k keys IH]; intros found; cbn [mapM].
    { intros [= <-] _. split; [apply NoDup_nil_2|]. by intros ? ? ?%elem_of_nil. }
    intros (x & Hx & (rest & Hrest & [= <-])%res_bind_ok)%res_bind_ok [Hk Hks]%NoDup_cons. destruct (IH _ Hrest Hks) as [IH1 IH2].
    rewrite Hg in Hx. destruct x as [[c names]|]; cbn [omap list_omap id].
    - apply compatible_offered in Hx as [<- Ho]. split.
      + cbn. apply NoDup_cons. split; [|done]. intros Hin. apply list_elem_of_fmap in Hin as ([c' n'] & E & Hin). apply IH2 in Hin as [Hin _]. cbn in E. by rewrite <- E in Hin.
      + intros c' n' [[= -> ->]|Hin]%elem_of_cons; [split; [by left|done]|]. destruct (IH2 _ _ Hin). split; [by right|done].
    - split; [done|]. intros c' n' Hin. destruct (IH2 _ _ Hin). split; [by right|done]. }
  intros found Hf Hs. destruct (Hall found Hf Hs) as [H1 H2]. split; [done|]. intros c names Hin. by apply H2.
Qed.
End Contracts.

(** ** The tools of a turn *)

Section Tools.
Context (sha256 casefold str_repr case_table : string -> string) (set_order : list string -> list string).
Notation assemble_tools := (assemble_tools sha256 casefold set_order).
Notation contract_tool := (contract_tool sha256).
Notation invoke := (capability_invoke sha256 casefold str_repr case_table).

Lemma contract_tool_fields c names t : contract_tool c names = Ok t ->
  t.(ct_capability) = c /\ t.(ct_schema).(ts_name) = contract_tool_name sha256 c /\ tool_input_schema c names = Ok t.(ct_schema).(ts_json_schema).
Proof. unfold CapabilityTools.contract_tool. by intros (json & Hj & [= <-])%res_bind_ok. Qed.

Lemma keep_first_spec tools seen :
  (forall t, t ∈ keep_first tools seen -> t ∈ tools /\ t.(ct_schema).(ts_name) ∉ seen) /\ NoDup (map (fun t => t.(ct_schema).(ts_name)) (keep_first tools seen)).
Proof.
  revert seen. induction tools as [|t tools IH]; intros seen; cbn [keep_first]; [split; [by intros t ?%elem_of_nil|apply NoDup_nil_2]|].
  case_bool_decide as Hs.
  - destruct (IH seen) as [H1 H2]. split; [|done]. intros t' Ht'. destruct (H1 t' Ht'). split; [by right|done].
  - destruct (IH (ts_name (ct_schema t) :: seen)) as [H1 H2]. split.
    + intros t' [->|Ht']%elem_of_cons; [split; [by left|done]|]. destruct (H1 t' Ht'). split; [by right|set_solver].
    + cbn. apply NoDup_cons. split; [|done]. intros Hin. apply list_elem_of_fmap in Hin as (t' & E & Ht'). destruct (H1 t' Ht') as [_ Hno]. apply Hno. rewrite E. by left.
Qed.

(** Whatever the devices declare: the tools of a turn have distinct names, and each is that of
    a contract of a device that is not offline, that all devices offering it under its name and
    version declare alike, with exactly the names of their companions as its targets. *)
Theorem offered_tools_are_agreed bp context s tools : (forall l, set_order l ≡ₚ l) ->
  (assemble_tools (Some bp) context s).1 = Ok tools -> tools <> [] ->
  NoDup (map (fun t => t.(ct_schema).(ts_name)) tools) /\
  exists devices, bp.(bp_devices) s.(bs_reads) (CoreTypes.owner_id context) (CoreTypes.companion_id context) (CoreTypes.device_id context) = Ok devices /\
    let online := List.filter (fun d => negb (bool_decide (d.(dv_status) = "offline"))) devices in
    forall t, t ∈ tools -> exists names, contract_tool t.(ct_capability) names = Ok t /\ contract_offered sha256 online t.(ct_capability) names.
Proof.
  intros Hperm. unfold CapabilityTools.assemble_tools. destruct (_ || _); [by intros [= <-]|].
  unfold mtry, list_devices, mbind_, mgets, mmodify, mlift, mret_. destruct (bp_devices bp _ _ _ _) as [devices|e] eqn:Ed; cycle 1.
  { destruct (is_exception e); cbn; [by intros [= <-]|done]. }
  cbn [fst]. destruct (compatible_contracts _ _ _ _) as [contracts|e] eqn:Ec; [|done]. destruct (mapM _ contracts) as [built|e] eqn:Eb; [|done]. cbn [fst].
  intros [= <-] _. destruct (keep_first_spec built []) as [Hk Hn]. split; [done|]. exists devices. split; [done|]. intros t Ht. destruct (Hk t Ht) as [Hb _].
  destruct (contracts_offered _ _ _ Hperm _ _ Ec) as [_ Ho].
  assert (exists c names, (c, names) ∈ contracts /\ contract_tool c names = Ok t) as (c & names & Hin & Hct).
  { clear -Eb Hb. revert built Eb Hb. induction contracts as [|[c names] contracts IH]; intros built; cbn [mapM]; [by intros [= <-] ?%elem_of_nil|].
    intros (t' & Ht' & (rest & Hr & [= <-])%res_bind_ok)%res_bind_ok. intros [->|Hin]%elem_of_cons; [exists c, names; split; [by left|done]|].
    destruct (IH _ Hr Hin) as (c' & n' & H1 & H2). exists c', n'. split; [by right|done]. }
  destruct (contract_tool_fields _ _ _ Hct) as (E & _). exists names. rewrite E. split; [done|]. by apply Ho.
Qed.

(** ** A call *)

Lemma capability_result_ok tool call target r : (capability_result tool call target r).(tr_ok) = true ->
  r.(cx_status) = "done" /\ r.(cx_capability_version) = tool.(ct_capability).(cap_version).
Proof.
  unfold capability_result. case_bool_decide as Hd; cbn [andb]; [|done]. destruct (Z.eqb_spec (cx_capability_version r) (cap_version (ct_capability tool))); [done|by cbn].
Qed.

(** An exception before anything was sent: a refusal or the exception *)
Ltac refused_call e H :=
  destruct (dict_get BODY_ERROR_CODES (exn_type e)); cbn iota beta; left; (split; [exact H|]); intros ? [=]; by subst.

(** A call of such a tool sends at most one command, for the contract and the caller; it
    reports success only if the hub says that this command is done in the tool's version. *)
Theorem capability_calls_report_what_was_done bp tool call context turn_id s :
  let '(r, s') := invoke bp tool call context turn_id s in
  (s'.(bs_sent) = s.(bs_sent) /\ (forall t, r = Ok t -> t.(tr_ok) = false)) \/
  exists cmd, s'.(bs_sent) = s.(bs_sent) ++ [cmd] /\ cmd.(bc_op) = tool.(ct_capability).(cap_name) /\
    cmd.(bc_owner_id) = CoreTypes.owner_id context /\ cmd.(bc_companion_id) = CoreTypes.companion_id context /\
    (forall t, r = Ok t -> t.(tr_ok) = true -> exists x, bp.(bp_send) cmd = Ok x /\ x.(cx_status) = "done" /\
       x.(cx_capability_version) = tool.(ct_capability).(cap_version)).
Proof.
  unfold capability_invoke. set (q := capability_request _ _ _ _ _). set (target := text_argument_of _ _ _ _). unfold mtry. unfold mbind_ at 1. unfold send_companion_capability. unfold mbind_ at 1.
  pose proof (list_sent bp (cq_owner_id q) (cq_companion_id q) (cq_source_device_id q) false s) as Hl.
  destruct (list_devices _ _ _ _ _ _) as [[devices|e] s1]; cbn in Hl; [|refused_call e Hl].
  unfold mbind_ at 1, mlift at 1. destruct (provider_of _ _ _ _ _ _) as [d|e]; [|refused_call e Hl].
  match goal with |- context [send_command _ _ _ ?q' s1] => set (q1 := q'); destruct (send_command_spec case_table str_repr bp q' s1) as (r & s2 & E & Hs) end.
  fold q1 in E. rewrite E. destruct Hs as [[Hs Hr]|(devs & cmd & _ & Hok & Hs & ->)].
  - destruct r as [x|e]; [by destruct (Hr x)|]. assert (s2.(bs_sent) = s.(bs_sent)) as H2 by congruence.
    refused_call e H2.
  - assert (s2.(bs_sent) = s.(bs_sent) ++ [cmd]) as H2 by congruence. destruct Hok as [_ [Ho Hc] [Hop _] _].
    destruct (bp_send bp cmd) as [x|e] eqn:Ex; cbn iota beta.
    + right. exists cmd. split_and!; try done. intros t [= <-] Hok. exists x. split; [done|]. by eapply capability_result_ok.
    + destruct (dict_get BODY_ERROR_CODES (exn_type e)); cbn iota beta; right; exists cmd; split_and!; try done. by intros t [= <-].
Qed.
End Tools.

(** ** Concrete devices *)

Definition sample_capability (name : string) (field : string) : Capability :=
  mkCapability name 1 " Light. " [("type", VStr "object"); ("properties", VDict [(field, VDict [("type", VStr "integer")])])] VNone.
Definition sample_provider (i companion : string) (capabilities : list Capability) : BodyDevice := mkDevice i i [] false "online" capabilities companion companion.
(** Both lamps dim alike; they blink differently; one has a field of the reserved name. *)
Definition sample_lamps : list BodyDevice :=
  [sample_provider "dev-1" "Bob" [sample_capability "lamp.dim" "level"; sample_capability "lamp.blink" "times"];
   sample_provider "dev-2" "Eve" [sample_capability "lamp.dim" "level"; sample_capability "lamp.blink" "rate"; sample_capability "lamp.aim" TARGET_FIELD]].
Definition sample_lamp_ports : BodyPorts :=
  mkBodyPorts (fun _ _ _ _ => Ok sample_lamps) (fun c => Ok (mkCommandResult "c1" c.(bc_device_id) "done" c.(bc_capability_version) VNone None None))
    (fun _ _ i => Err (PyError "BodyControlUnavailable" i)) sample_lookup (fun _ _ => None).
Definition sample_lamp_turn : TurnContext := mkTurnContext "owner" "ada" None "realm" "genome" "trace" "request" None None None "1" "" "" "zh-CN" true None None false false.
Notation sample_tools := ((assemble_tools id id id (Some sample_lamp_ports) sample_lamp_turn (mkBodyState [] 0)).1).

(** The only tool, by its name, and its targets *)
Definition tool_targets (t : ContractTool) : string * option pyval :=
  (t.(ct_schema).(ts_name), match dict_get t.(ct_schema).(ts_json_schema) "properties" with
                            | Some (VDict d) => match dict_get d TARGET_FIELD with Some (VDict e) => dict_get e "enum" | _ => None end
                            | _ => None
                            end).
Lemma sample_offer : match sample_tools with Ok tools => map tool_targets tools | Err _ => [] end = [("cap_lamp_dim_v1", Some (VList [VStr "Bob"; VStr "Eve"]))].
Proof. vm_compute. reflexivity. Qed.

Lemma offered_tools_are_agreed_witness : exists tools, sample_tools = Ok tools /\ NoDup (map (fun t => t.(ct_schema).(ts_name)) tools).
Proof.
  destruct sample_tools as [tools|e] eqn:E; [|pose proof sample_offer as H; rewrite E in H; discriminate H].
  exists tools. split; [reflexivity|]. apply (offered_tools_are_agreed id id id sample_lamp_ports sample_lamp_turn (mkBodyState [] 0) tools); [reflexivity|exact E|].
  intros ->. pose proof sample_offer as H. rewrite E in H. discriminate H.
Defined.

Lemma tool_names_are_valid_witness : (py_len (contract_tool_name (fun _ => "0a1b2c3d4e5f") (sample_capability "灯.dim" "level")) <= TOOL_NAME_LIMIT)%nat.
Proof.
  apply (tool_names_are_valid (fun _ => "0a1b2c3d4e5f") (sample_capability "灯.dim" "level")). intros s. vm_compute. repeat constructor.
Defined.

Example sample_invocation :
  match sample_tools with
  | Ok [t] => let '(r, s) := capability_invoke id id id id sample_lamp_ports t (mkToolCall "c" "" [("level", VInt 3); (TARGET_FIELD, VStr " eve ")]) sample_lamp_turn "turn-1" (mkBodyState [] 0) in
      (match r with Ok x => (x.(tr_ok), x.(tr_error_code)) | Err _ => (false, None) end, map (fun c => (c.(bc_device_id), c.(bc_payload))) s.(bs_sent))
  | _ => ((false, None), [])
  end = ((false, Some "body_companion_not_found"), []).
Proof. vm_compute. reflexivity. Qed.
