(* ===== verification/Laya.v ===== *)
(** * [infra/interpretation/adapters/laya.py] and [infra/smarthome/laya_continuation.py]: the adapter of the
      trained interpreter, and the same model asked about a request in progress.

    The model answers choice questions with probabilities; what is done with its answers is here. The HTTP
    client, [json.loads], the SDK's [model_validate], the labels of the device types and the floats of integers
    are parameters. An [InterpretationError] is its code. A probability is a number of the reply: a float by its
    [repr], whose value is [float_of]. *)

From Stdlib Require Import SpecFloat.
From S2P Require Import Prelude CoreTypes Json HomePlanning HomeCommand Lexicon Rules.

(** ** Dynamic values *)

Definition is_str (s : string) (v : pyval) : bool := match v with VStr t => bool_decide (s = t) | _ => false end.
(** [s in v] for a string, [v in d] for a dict with these keys *)
Definition str_in (s : string) (v : pyval) : res bool :=
  match v with VList l => Ok (existsb (is_str s) l) | VDict d => Ok (dict_has d s) | VStr t => Ok (py_contains s t) | _ => Err type_error end.
Definition in_keys {V} (v : pyval) (d : list (string * V)) : res bool :=
  match v with VStr s => Ok (dict_has d s) | VList _ | VDict _ => Err type_error | _ => Ok false end.
Definition ctx_get (context : list (string * pyval)) (k : string) (d : pyval) : pyval := default d (dict_get context k).

(** ** The questions *)

Definition LAYA_POLICY_VERSION : string := "laya-smarthome-context-v2".
Definition LAYA_MODEL_VERSION : string := "laya".
Definition MULTIPLE : string := "多个设备或整屋".
Definition NO_DEVICE : string := "没有对应的设备".
Definition DEVICE_EXITS : list (string * string) :=
  [(MULTIPLE, "同时涉及多台设备，或整屋的场景模式"); (NO_DEVICE, "家里没有能满足这个要求的设备")].
Definition DEVICE_INSTRUCTIONS : string := "`utterance` 说的是家里的哪台设备？".

Definition label_texts (l : list (string * string)) : pyval := VDict (map (fun x => (x.1, VStr x.2)) l).
Definition choice_question (instructions : string) (criteria : list (string * string)) (state : list (string * pyval)) : pyval :=
  VDict ([("type", VStr "choice"); ("instructions", VStr instructions); ("criteria", label_texts criteria)] ++ state).

Definition INTENT_QUESTION : pyval :=
  choice_question "`utterance` 是在让智能家居做什么？"
    [("控制", "要求改变家里设备的状态：打开、关闭、调节、设定、启动、暂停、上锁"); ("查询", "询问家里设备的状态或读数，不改变任何设备");
     ("无关", "与控制或查询家里的设备无关：闲聊、常识、陈述、购物")] [].
Definition ACTION_CRITERIA : list (string * string) :=
  [("打开或启动", "开启、启动、开始运行"); ("关闭或停止", "关掉、停止、断电、收起"); ("调高或增大", "调亮、升温、调大音量或档位");
   ("调低或减小", "调暗、降温、调小、降下"); ("设为指定的数值或模式", "设到具体的温度、档位、百分比或模式"); ("暂停", "暂时停下，之后再继续");
   ("上锁", "锁门、上锁")].
Definition ACTION_QUESTION : pyval := choice_question "`utterance` 要对设备做什么操作？" ACTION_CRITERIA [].
Definition INTENTS : list (string * string) := [("控制", "control"); ("查询", "query"); ("无关", "unrelated")].
Definition ACTIONS : list (string * Verb) :=
  [("打开或启动", verb "on"); ("关闭或停止", verb "off"); ("调高或增大", verb "up"); ("调低或减小", verb "down"); ("设为指定的数值或模式", verb "set");
   ("暂停", verb "pause"); ("上锁", verb "lock")].

Definition PICK_INSTRUCTIONS : string := "Agent 刚问用户要对哪台设备执行 `context.待执行`。`utterance` 是否明确选了其中一台，且没有改动作？".
Definition FOLLOW_INSTRUCTIONS : string := "`context.设备` 刚被操作或查询过。`utterance` 是否是对这些设备的一个明确操作？".
Definition CANCEL_LABEL : string := "取消".
Definition REINTERPRET : string := "重新理解".
Definition PICK_EXITS : list (string * string) :=
  [(CANCEL_LABEL, "用户明确不要执行这次待确认的操作，也没有提出别的要求");
   (REINTERPRET, "改了动作或数值、要多台或候选之外的设备、没说清是哪台、提问、闲聊或提出新要求")].
Definition FOLLOW_EXIT : string := "换了或增加设备、只针对其中一部分、撤销刚才的操作、保持不动、提问、闲聊或其他新要求".

Notation Options := (list (string * (string * HomeCandidate))).
(** [{**a, **b}] *)
Definition merge {V} (a b : list (string * V)) : list (string * V) := fold_left (fun d x => dict_set d x.1 x.2) b a.
Definition option_texts (options : Options) : list (string * string) := map (fun x => (x.1, x.2.1)) options.
Definition option_ref (x : string * (string * HomeCandidate)) : string := x.2.2.(cd_ref).

Section Laya.
Context `{HomeSdk} (nfkc_lower : string -> string) (decimal : string -> option Z) (float_repr : string -> string).
Context (float_of : string -> spec_float) (float_of_int : Z -> res string) (type_label : string -> string).
Context (json_loads : string -> res pyval) (read_action : pyval -> res Action) (read_proposal : pyval -> res Proposal).
Context (is_httpx_timeout is_httpx_transport : exn -> bool) (ERROR_CONTEXT_TOO_LARGE : string).
Notation values_of := (utterance_values nfkc_lower decimal).


(** [device_options]: a label, the text of its room and type, the candidate *)
Definition room_names (areas : list HomeArea) : list (string * string) := fold_left (fun d a => dict_set d a.(ha_area_id) a.(ha_name)) areas [].
Definition device_option (rooms : list (string * string)) (options : Options) (c : HomeCandidate) : Options :=
  if bool_decide (c.(cd_kind) = SCENE_KIND) then options
  else
    let kind := if dict_has DEVICE_TYPES c.(cd_kind) then type_label c.(cd_kind) else c.(cd_kind) in
    let room := default "" (dict_get rooms (default "" c.(cd_area_id))) in
    let text := if is_empty room then kind else (room +:+ "·" +:+ kind)%string in
    let label := c.(cd_name) in
    let label := if dict_has options label || dict_has DEVICE_EXITS label then (c.(cd_name) +:+ "（" +:+ str_or room c.(cd_ref) +:+ "）")%string else label in
    let label := if dict_has options label then (c.(cd_name) +:+ "（" +:+ c.(cd_ref) +:+ "）")%string else label in
    dict_set options label (text, c).
Definition device_options (request : InterpretationRequest) : Options := fold_left (device_option (room_names request.(ir_areas))) request.(ir_candidates) [].

(** [_model_context] *)
Definition model_turn (h : pyval) : res pyval :=
  utterance ← py_item h "utterance";
  response ← py_item h "response";
  Ok (VDict [("用户", utterance); ("助手", response)]).
Definition last_turns (v : pyval) : res (list pyval) :=
  match v with VList l => Ok (py_tail 5 l) | VStr s => Ok (map VStr (py_tail 5 (chars s))) | _ => Err type_error end.
Definition known_name (names : list (string * string)) (r : pyval) : res (list pyval) :=
  known ← in_keys r names;
  Ok (if known : bool then match r with VStr s => [VStr (default "" (dict_get names s))] | _ => [] end else []).
Definition model_context (request : InterpretationRequest) : res (list (string * pyval)) :=
  let context := default [] request.(ir_context) in
  let names := fold_left (fun d c => dict_set d c.(cd_ref) c.(cd_name)) request.(ir_candidates) [] in
  let proposal := or_empty (ctx_get context "proposal" VNone) in
  refs ← py_get proposal "targets" (ctx_get context "known_targets" (VList []));
  turns ← last_turns (ctx_get context "history" (VList []));
  turns ← mapM model_turn turns;
  refs ← py_list refs;
  named ← mapM (known_name names) refs;
  let question := ctx_get context "question" VNone in
  Ok [("最近对话", VList turns); ("上一句", ctx_get context "previous_utterance" (VStr ""));
      ("Agent", if truthy question then question else ctx_get context "response" (VStr ""));
      ("设备", VList (concat named));
      ("待执行", if truthy (ctx_get context "pending" VNone) then ctx_get context "pending_action" (VStr "") else VStr "无，上一轮已结束")].

(** [_context_questions] *)
Definition question_state (request : InterpretationRequest) (context : list (string * pyval)) : list (string * pyval) :=
  [("state", VDict [("utterance", VStr request.(ir_utterance)); ("context", VDict context)])].
Definition context_questions (request : InterpretationRequest) (options : Options) : res (list (string * pyval)) :=
  match default [] request.(ir_context) with
  | [] => Ok []
  | context =>
      shown ← model_context request;
      let asked := [("context_device", choice_question DEVICE_INSTRUCTIONS (merge (option_texts options) DEVICE_EXITS) (question_state request shown))] in
      let previous := or_empty (ctx_get context "proposal" VNone) in
      refs ← py_get previous "targets" (VList []);
      let immediate := dict_pop shown "最近对话" in
      status ← py_get previous "target_status" VNone;
      action ← py_get previous "action" VNone;
      if truthy (ctx_get context "pending" VNone) && is_str "ambiguous" status && truthy action then
        chosen ← mapM (fun x => b ← str_in (option_ref x) refs; Ok (if b : bool then [x] else [])) options;
        let criteria := option_texts (concat chosen) in
        Ok (if bool_decide (2 <= length criteria <= 8)%nat
            then asked ++ [("pick", choice_question PICK_INSTRUCTIONS (merge criteria PICK_EXITS) (question_state request (dict_pop immediate "设备")))]
            else asked)
      else if is_str "resolved" status then
        n ← py_length refs;
        Ok (if bool_decide (n = 1)%nat
            then asked ++ [("follow", choice_question FOLLOW_INSTRUCTIONS (merge ACTION_CRITERIA [(REINTERPRET, FOLLOW_EXIT)])
                                        (question_state request (dict_pop immediate "待执行")))]
            else asked)
      else Ok asked
  end.

(** The body of the one request *)
Definition laya_body (request : InterpretationRequest) (options : Options) (context_questions : list (string * pyval)) : pyval :=
  VDict [("state", VDict [("utterance", VStr request.(ir_utterance))]);
         ("questions", VDict (merge [("intent", INTENT_QUESTION);
                                     ("device", choice_question DEVICE_INSTRUCTIONS (merge (option_texts options) DEVICE_EXITS) []);
                                     ("action", ACTION_QUESTION)] context_questions))].

(** *** [predict]: what the connection gives, and how it ends *)

Record LayaReply := mkLayaReply { lr_chunks : list string; lr_end : option exn; lr_status : Z }.
Context (transport : pyval -> Z -> LayaReply).

Definition MAX_REPLY_BYTES : Z := 256 * 1024.
Fixpoint read_chunks (content : string) (chunks : list string) : res string :=
  match chunks with
  | [] => Ok content
  | c :: rest =>
      let content := (content +:+ c)%string in
      if MAX_REPLY_BYTES <? Z.of_nat (String.length content) then Err (interpretation_error ERROR_INVALID_PROPOSAL) else read_chunks content rest
  end.
(** [_status_error] *)
Definition status_error (status : Z) : exn :=
  interpretation_error (if status =? 400 then ERROR_INVALID_REQUEST else if status =? 413 then ERROR_CONTEXT_TOO_LARGE else ERROR_UNAVAILABLE).
Definition transport_error (e : exn) : exn :=
  if raised "TimeoutError" e || is_httpx_timeout e then interpretation_error ERROR_TIMEOUT
  else if is_httpx_transport e then interpretation_error ERROR_UNAVAILABLE
  else e.
Definition is_decode_error (e : exn) : bool := is_value_error e || raised "JSONDecodeError" e || raised "UnicodeDecodeError" e.
Definition predict (body : pyval) (timeout_ms : Z) : res (list (string * pyval)) :=
  let reply := transport body timeout_ms in
  content ← read_chunks "" reply.(lr_chunks);
  match reply.(lr_end) with
  | Some e => Err (transport_error e)
  | None =>
      if negb (reply.(lr_status) =? 200) then Err (status_error reply.(lr_status))
      else
        match json_loads content with
        | Ok (VDict payload) => Ok payload
        | Ok _ => Err (interpretation_error ERROR_INVALID_PROPOSAL)
        | Err e => Err (if is_decode_error e then interpretation_error ERROR_INVALID_PROPOSAL else e)
        end
  end.

(** ** Probabilities *)

(** [math.isfinite] of an [int] that no float holds raises. *)
Definition FLOAT_OVERFLOW : Z := 2 ^ 1024 - 2 ^ 970.
Definition probability (v : pyval) : res (option pyval) :=
  match v with
  | VInt z =>
      if FLOAT_OVERFLOW <=? Z.abs z then Err (PyError "OverflowError" "")
      else Ok (if z =? 0 then Some (VFloat "0.0") else if z =? 1 then Some (VFloat "1.0") else None)
  | VFloat r =>
      let f := NFloat (float_of r) in
      Ok (if finite f is Some _ then if num_leb (NInt 0) f && num_leb f (NInt 1) then Some v else None else None)
  | _ => Ok None
  end.
(** [d.get(v)] *)
Definition dict_find (d : list (string * pyval)) (v : pyval) : res pyval :=
  match v with VStr s => Ok (default VNone (dict_get d s)) | VList _ | VDict _ => Err type_error | _ => Ok VNone end.
Definition at_least (threshold : string) (p : pyval) : bool :=
  match as_num float_of p with Some x => num_leb (NFloat (float_of threshold)) x | None => false end.

(** [_prob] *)
Definition prob (answers : list (string * pyval)) (key : string) : res pyval :=
  match default (VDict []) (dict_get answers key) with
  | VDict a =>
      match dict_get a "probabilities" with
      | Some (VDict probabilities) =>
          value ← dict_find probabilities (default VNone (dict_get a "choice"));
          p ← probability value;
          Ok (default (VFloat "0.0") p)
      | _ => Ok (VFloat "0.0")
      end
  | _ => Ok (VFloat "0.0")
  end.
Definition answer_confident (threshold : string) (answers : list (string * pyval)) (key : string) : res bool := at_least threshold <$> prob answers key.
Fixpoint all_confident (threshold : string) (answers : list (string * pyval)) (keys : list string) : res bool :=
  match keys with
  | [] => Ok true
  | k :: rest => b ← answer_confident threshold answers k; if b : bool then all_confident threshold answers rest else Ok false
  end.

(** ** [_result] *)

(** The constructor of a [Proposal], after that of its action *)
Definition new_proposal (intent status : string) (targets : list string) (action : option Action) : res Proposal :=
  let p := mkHomeProposal intent status targets action None in
  _ ← check_proposal p;
  Ok p.
Definition built_proposal (intent status : string) (targets : list string) (action : option Action) : res (option Proposal) :=
  match action with
  | None => Ok None
  | Some a => _ ← check_action a; Some <$> new_proposal intent status targets (Some a)
  end.

(** [_control] *)
Definition control (request : InterpretationRequest) (options : Options) (device : string) (v : Verb) : res (option Proposal) :=
  let values := values_of request in
  if bool_decide (device = NO_DEVICE) then built_proposal "control" "none" [] (generic_command float_repr v values)
  else
    match dict_get options device with
    | None => Err (PyError "KeyError" device)
    | Some (_, c) => built_proposal "control" "resolved" [c.(cd_ref)] (command_for float_repr c.(cd_kind) v values)
    end.

(** [_choice] *)
Definition choice_of {V} (answers : list (string * pyval)) (question : string) (allowed : list (string * V)) : res string :=
  match dict_get answers question with
  | Some (VDict answer) =>
      match dict_get answer "choice" with
      | Some (VStr s) => if dict_has allowed s then Ok s else Err (interpretation_error ERROR_INVALID_PROPOSAL)
      | _ => Err (interpretation_error ERROR_INVALID_PROPOSAL)
      end
  | _ => Err (interpretation_error ERROR_INVALID_PROPOSAL)
  end.

(** [_diagnostics] *)
Definition question_diagnostic (answers : list (string * pyval)) (question : string) : res (list (string * pyval)) :=
  let answer := match dict_get answers question with Some (VDict a) => a | _ => [] end in
  match or_empty (default VNone (dict_get answer "probabilities")) with
  | VDict probabilities =>
      value ← dict_find probabilities (default VNone (dict_get answer "choice"));
      p ← probability value;
      Ok (match p with Some p => [((question +:+ "_p")%string, p)] | None => [] end)
  | _ => Err (PyError "AttributeError" "")
  end.
Definition server_time (timing : option pyval) : res (list (string * pyval)) :=
  match timing with
  | Some (VDict t) =>
      match dict_get t "total" with
      | Some (VInt z) => r ← float_of_int z; Ok [("server_ms", VFloat r)]
      | Some (VBool b) => Ok [("server_ms", VFloat (if b then "1.0" else "0.0"))]
      | Some (VFloat r) => Ok [("server_ms", VFloat r)]
      | _ => Ok []
      end
  | _ => Ok []
  end.
Definition diagnostics_of (payload answers : list (string * pyval)) : res (list (string * pyval)) :=
  ps ← mapM (question_diagnostic answers) ["intent"; "device"; "action"];
  server ← server_time (dict_get payload "timing_ms");
  Ok (concat ps ++ match dict_get payload "backend" with Some (VStr b) => [("backend", VStr (py_take 64 b))] | _ => [] end
      ++ server ++ (if get_truthy (dict_get payload "truncated") then [("truncated", VBool true)] else [])).

(** The three most probable labels of an answer *)
Definition scored (x : string * pyval) : res (list (string * pyval)) := p ← probability x.2; Ok (match p with Some _ => [x] | None => [] end).
Definition more_probable (x y : string * pyval) : bool :=
  match as_num float_of x.2, as_num float_of y.2 with Some a, Some b => num_leb b a | _, _ => false end.
Definition answer_summary (x : string * pyval) : res (list (string * pyval)) :=
  match x.2 with
  | VDict answer =>
      if negb (bool_decide (x.1 ∈ ["intent"; "device"; "action"; "context_device"; "pick"; "follow"])) then Ok []
      else
        match or_empty (default VNone (dict_get answer "probabilities")) with
        | VDict probabilities =>
            top ← mapM scored probabilities;
            Ok [(x.1, VDict [("choice", default VNone (dict_get answer "choice"));
                             ("top", VList (map (fun y => VList [VStr y.1; y.2]) (firstn 3 (py_sorted more_probable (concat top)))))])]
        | _ => Err (PyError "AttributeError" "")
        end
  | _ => Ok []
  end.

(** [_INTENTS[intent]] gives the proposal, or the reason to abstain. *)
Definition read_answers (request : InterpretationRequest) (options : Options) (truncated : bool) (intent device action : string) : res (option Proposal * option string) :=
  let intent := default "" (dict_get INTENTS intent) in
  if truncated then Ok (None, Some "truncated_input")
  else if bool_decide (intent = "unrelated") then p ← new_proposal "unrelated" "none" [] None; Ok (Some p, None)
  else if bool_decide (device = MULTIPLE) then Ok (None, Some "multiple_devices")
  else if bool_decide (intent = "query") then
    let refs := if bool_decide (device = NO_DEVICE) then [] else match dict_get options device with Some (_, c) => [c.(cd_ref)] | None => [] end in
    p ← new_proposal "query" (match refs with [] => "none" | _ => "resolved" end) refs None;
    Ok (Some p, None)
  else
    p ← control request options device (default (verb "set") (dict_get ACTIONS action));
    Ok (p, match p with None => Some "unsupported_command" | Some _ => None end).

Context (policy_version model_version : string).

Definition bad_probabilities (answers : list (string * pyval)) (key : string) : bool :=
  match dict_get answers key with Some (VDict a) => negb (is_dict (default (VDict []) (dict_get a "probabilities"))) | _ => true end.
Definition named_model (payload : list (string * pyval)) : string :=
  let model := match dict_get payload "model" with Some (VStr m) => if is_empty (py_strip m) then model_version else m | _ => model_version end in
  match dict_get payload "revision" with
  | Some (VStr r) => if is_empty (py_strip r) then model else (model +:+ "@" +:+ py_strip r)%string
  | _ => model
  end.
Definition laya_result (request : InterpretationRequest) (options : Options) (payload : list (string * pyval)) : res InterpretationResult :=
  match dict_get payload "answers" with
  | Some (VDict answers) =>
      if existsb (bad_probabilities answers) ["intent"; "device"; "action"] then Err (interpretation_error ERROR_INVALID_PROPOSAL)
      else
        intent ← choice_of answers "intent" INTENTS;
        device ← choice_of answers "device" (map (fun x => (x.1, ())) options ++ map (fun x => (x.1, ())) DEVICE_EXITS);
        action ← choice_of answers "action" ACTIONS;
        diagnostics ← diagnostics_of payload answers;
        summary ← mapM answer_summary answers;
        let diagnostics := dict_set diagnostics "answers_json" (VStr (json_dumps false "," ":" (VDict (concat summary)))) in
        read ← read_answers request options (get_truthy (dict_get payload "truncated")) intent device action;
        let diagnostics := match read.2 with Some reason => dict_set diagnostics "reason" (VStr reason) | None => diagnostics end in
        let result := mkInterpretationResult request.(ir_interpretation_id) (if read.1 is Some _ then "decided" else "abstained") read.1
                        policy_version (py_take 128 (named_model payload)) diagnostics in
        _ ← check_result result;
        Ok result
  | _ => Err (interpretation_error ERROR_INVALID_PROPOSAL)
  end.

(** ** [_context_result] *)

(** [model_copy(update=...)] does not validate. *)
Definition with_diagnostics (result : InterpretationResult) (status : string) (p : option Proposal) (more : list (string * pyval)) : InterpretationResult :=
  mkInterpretationResult result.(is_interpretation_id) status p result.(is_policy_version) result.(is_model_version) (merge result.(is_diagnostics) more).
Definition abstain (result : InterpretationResult) (reason : string) : InterpretationResult :=
  with_diagnostics result "abstained" None [("reason", VStr reason)].

(** [==] of the SDK's models *)
Fixpoint slots_eqb (a b : list Slot) : bool :=
  match a, b with
  | [], [] => true
  | x :: a', y :: b' => bool_decide ((x.(sl_name), x.(sl_unit), x.(sl_raw_span)) = (y.(sl_name), y.(sl_unit), y.(sl_raw_span)))
      && scalar_eqb float_of x.(sl_value) y.(sl_value) && slots_eqb a' b'
  | _, _ => false
  end.
Definition action_eqb (a b : option Action) : bool :=
  match a, b with
  | Some a, Some b => bool_decide ((a.(ac_trait), a.(ac_command)) = (b.(ac_trait), b.(ac_command))) && slots_eqb a.(ac_slots) b.(ac_slots)
  | None, None => true
  | _, _ => false
  end.
Definition proposal_eqb (p q : Proposal) : bool :=
  bool_decide ((p.(pp_intent), p.(pp_target_status), p.(pp_targets), p.(pp_mention)) = (q.(pp_intent), q.(pp_target_status), q.(pp_targets), q.(pp_mention)))
  && action_eqb p.(pp_action) q.(pp_action).

Definition answer_choice (answers : list (string * pyval)) (key : string) : res pyval :=
  py_get (default (VDict []) (dict_get answers key)) "choice" VNone.
Definition CONFIDENT : string := "0.95".
Definition SURE : string := "0.99".

(** The option a pick names, when it is one of the previous targets *)
Definition picked_option (options : Options) (pick previous : pyval) : res (option HomeCandidate) :=
  known ← in_keys pick options;
  match pick with
  | VStr label =>
      if negb known || bool_decide (label ∈ [CANCEL_LABEL; REINTERPRET]) then Ok None
      else
        match dict_get options label with
        | Some (_, c) =>
            targets ← py_get previous "targets" (VList []);
            b ← str_in c.(cd_ref) targets;
            Ok (if b : bool then Some c else None)
        | None => Ok None
        end
  | _ => Ok None
  end.
Definition is_singleton (ref : string) (v : pyval) : res bool :=
  l ← py_list v; Ok (match l with [x] => is_str ref x | _ => false end).

(** The device that is followed: the one of the context, named again by the model *)
Definition followed (options : Options) (answers : list (string * pyval)) (previous follow device : pyval) : res (option (string * Verb)) :=
  intent ← answer_choice answers "intent";
  if negb (is_str "控制" intent) then Ok None
  else
    sure ← answer_confident SURE answers "intent";
    if negb sure then Ok None
    else
      known ← in_keys follow ACTIONS;
      if negb known then Ok None
      else
        sure ← answer_confident CONFIDENT answers "follow";
        if negb sure then Ok None
        else
          known ← in_keys device options;
          if negb known then Ok None
          else
            sure ← answer_confident CONFIDENT answers "context_device";
            if negb sure then Ok None
            else
              targets ← py_get previous "targets" (VList []);
              match device, follow with
              | VStr label, VStr name =>
                  match dict_get options label, dict_get ACTIONS name with
                  | Some (_, c), Some v => b ← is_singleton c.(cd_ref) targets; Ok (if b : bool then Some (label, v) else None)
                  | _, _ => Ok None
                  end
              | _, _ => Ok None
              end.

Definition is_direct (answers : list (string * pyval)) (primary : option Proposal) : res bool :=
  match primary with
  | Some p => if bool_decide (p.(pp_intent) = "unrelated") then Ok false else all_confident SURE answers ["intent"; "device"; "action"]
  | None => Ok false
  end.
Definition contradicts (primary : option Proposal) (p : Proposal) : bool := match primary with Some q => negb (proposal_eqb q p) | None => true end.

Definition follow_result (request : InterpretationRequest) (options : Options) (answers : list (string * pyval)) (result : InterpretationResult)
    (previous : pyval) : res InterpretationResult :=
  let primary := result.(is_proposal) in
  follow ← answer_choice answers "follow";
  device ← answer_choice answers "context_device";
  named ← answer_choice answers "device";
  let fallen := match primary with
    | Some p => if bool_decide (p.(pp_intent) = "unrelated") then abstain result "context_not_resolved" else result
    | None => result end in
  if is_str MULTIPLE named then Ok (abstain result "multiple_devices")
  else
    f ← followed options answers previous follow device;
    match f with
    | None => Ok fallen
    | Some (label, v) =>
        p ← control request options label v;
        match p with
        | None => Ok fallen
        | Some p =>
            apart ← match primary with
              | Some q => if bool_decide (q.(pp_intent) = "control")
                          then b ← answer_confident "0.8" answers "device"; Ok (b && negb (bool_decide (q.(pp_targets) = p.(pp_targets)))) else Ok false
              | None => Ok false end;
            if apart : bool then Ok (abstain result "model_disagreement")
            else
              followed_p ← prob answers "follow";
              device_p ← prob answers "context_device";
              Ok (with_diagnostics result "decided" (Some p)
                    [("intent_p", followed_p); ("action_p", followed_p); ("device_p", device_p); ("resolution", VStr "follow")])
        end
    end.

Definition context_result (request : InterpretationRequest) (options : Options) (payload : list (string * pyval)) (result : InterpretationResult)
    : res InterpretationResult :=
  let answers := match dict_get payload "answers" with Some (VDict a) => a | _ => [] end in
  let primary := result.(is_proposal) in
  if get_truthy (dict_get payload "truncated") then Ok result
  else
    direct ← is_direct answers primary;
    pick ← answer_choice answers "pick";
    pick_p ← prob answers "pick";
    let picked := at_least CONFIDENT pick_p in
    let context := default [] request.(ir_context) in
    let previous := or_empty (ctx_get context "proposal" VNone) in
    if picked && is_str CANCEL_LABEL pick then
      if direct : bool then Ok (abstain result "model_disagreement")
      else
        p ← new_proposal "unrelated" "none" [] None;
        Ok (with_diagnostics result "decided" (Some p) [("home_decision", VStr "cancelled"); ("resolution", VStr "pick"); ("intent_p", pick_p)])
    else
      chosen ← (if picked then picked_option options pick previous else Ok None);
      match chosen with
      | Some c =>
          stored ← py_item previous "action";
          action ← read_action stored;
          p ← new_proposal "control" "resolved" [c.(cd_ref)] (Some action);
          if direct && contradicts primary p then Ok (abstain result "model_disagreement")
          else Ok (with_diagnostics result "decided" (Some p) [("intent_p", pick_p); ("device_p", pick_p); ("action_p", pick_p); ("resolution", VStr "pick")])
      | None =>
          if truthy (ctx_get context "pending" VNone) then
            Ok (if direct && is_str REINTERPRET pick && picked then result else abstain result "pending_not_resolved")
          else if direct then Ok result
          else follow_result request options answers result previous
      end.

(** ** [interpret] *)

Definition question_state_supported (payload : list (string * pyval)) : bool :=
  match dict_get payload "features" with
  | Some (VDict f) => match dict_get f "question_state" with Some (VBool true) => true | _ => false end
  | _ => false
  end.
Definition laya_interpret (request : InterpretationRequest) : res InterpretationResult :=
  if negb (bool_decide (request.(ir_domain) = "smarthome")) then Err (interpretation_error ERROR_INVALID_REQUEST)
  else
    let options := device_options request in
    questions ← context_questions request options;
    payload ← predict (laya_body request options questions) request.(ir_timeout_ms);
    result ← laya_result request options payload;
    match questions with
    | [] => Ok result
    | _ => if question_state_supported payload then context_result request options payload result else Ok (abstain result "question_state_unsupported")
    end.

(** ** [LayaHomeContinuation] *)

Definition MODEL_REVISION : string := "7b695ba8".
Definition FOLLOW_KINDS : list (string * list string) :=
  [("打开或启动", ["light"; "switch"; "climate"; "water_heater"; "cover"; "fan"; "media"; "appliance"]);
   ("关闭或停止", ["light"; "switch"; "climate"; "water_heater"; "cover"; "fan"; "media"; "appliance"]);
   ("调高或增大", ["light"; "climate"; "water_heater"; "media"]);
   ("调低或减小", ["light"; "climate"; "water_heater"; "media"]);
   ("设为指定的数值或模式", ["light"; "climate"; "water_heater"; "cover"; "fan"; "media"]);
   ("暂停", ["appliance"])].

(** The constructor *)
Definition continuation_check (revision : string) : res unit :=
  if bool_decide (revision = MODEL_REVISION) then Ok tt else Err (PyError "ValueError" "unsupported Laya continuation contract revision").

Context (revision : string).

(** [decision] logs its reason. *)
Definition decision (reason : string) (u : HomeUnderstanding) : res HomeUnderstanding := Ok u.

Definition with_candidates (request : InterpretationRequest) (candidates : list HomeCandidate) : InterpretationRequest :=
  mkInterpretation request.(ir_interpretation_id) request.(ir_domain) request.(ir_utterance) request.(ir_device_ref) request.(ir_area_id) candidates
    request.(ir_areas) request.(ir_timeout_ms) request.(ir_context).
Definition by_ref (request : InterpretationRequest) : list (string * HomeCandidate) := fold_left (fun d c => dict_set d c.(cd_ref) c) request.(ir_candidates) [].
(** [model_copy(update={"target_status": "resolved", "targets": (ref,)})] *)
Definition resolved_to (previous : Proposal) (ref : string) : Proposal :=
  mkHomeProposal previous.(pp_intent) "resolved" [ref] previous.(pp_action) previous.(pp_mention).

(** What is asked of the model: the question, the labels to choose from, the instructions and the context *)
Record AskedQuestion := mkAsked { aq_key : string; aq_instructions : string; aq_criteria : list (string * string); aq_context : list (string * pyval) }.

Definition ask_pick (request : InterpretationRequest) (context : list (string * pyval)) (previous : Proposal) (candidates : list HomeCandidate) (options : Options)
    (said_before : pyval) : res (HomeUnderstanding + AskedQuestion) :=
  if negb (bool_decide (previous.(pp_intent) = "control")) || negb (bool_decide (previous.(pp_target_status) = "ambiguous"))
     || negb (bool_decide (2 <= length candidates <= 8)%nat) || negb (truthy (ctx_get context "pending_action" VNone))
  then inl <$> decision "ineligible_pick" NotUnderstood
  else if negb (is_str (py_join "、" (map fst options) +:+ "，要哪一个？") (ctx_get context "question" VNone)) then inl <$> decision "question_mismatch" NotUnderstood
  else if existsb (fun x => dict_has PICK_EXITS x.1) options then inl <$> decision "reserved_label" NotUnderstood
  else
    match exact_named_target nfkc_lower decimal request with
    | Some named =>
        if negb (bool_decide (named.(cd_ref) ∈ previous.(pp_targets))) then inl <$> decision "new_pick_target" NotUnderstood
        else inl <$> decision "explicit_pick" (UnderstoodProposal (resolved_to previous named.(cd_ref)))
    | None =>
        Ok (inr (mkAsked "pick" PICK_INSTRUCTIONS (merge (option_texts options) PICK_EXITS)
                   [("上一句", said_before); ("Agent", ctx_get context "question" VNone); ("待执行", ctx_get context "pending_action" VNone)]))
    end.

Definition follow_criteria (candidates : list HomeCandidate) : list (string * string) :=
  map (fun x => (x.1, default "" (dict_get ACTION_CRITERIA x.1)))
    (List.filter (fun x => forallb (fun c => bool_decide (c.(cd_kind) ∈ x.2)) candidates) FOLLOW_KINDS).
Definition ask_follow (request : InterpretationRequest) (context : list (string * pyval)) (previous : Proposal) (candidates : list HomeCandidate)
    (said_before : pyval) : res (HomeUnderstanding + AskedQuestion) :=
  if negb (bool_decide (previous.(pp_target_status) = "resolved")) || negb (bool_decide (1 <= length candidates <= 3)%nat)
     || negb (truthy (ctx_get context "response" VNone))
  then inl <$> decision "ineligible_follow" NotUnderstood
  else if has_explicit_reference nfkc_lower decimal true request then inl <$> decision "explicit_reference" NotUnderstood
  else if negb (bool_decide (length candidates = 1)%nat) then inl <$> decision "multiple_focus" NotUnderstood
  else
    match follow_criteria candidates with
    | [] => inl <$> decision "no_supported_actions" NotUnderstood
    | criteria =>
        Ok (inr (mkAsked "follow" FOLLOW_INSTRUCTIONS (dict_set criteria REINTERPRET FOLLOW_EXIT)
                   [("上一句", said_before); ("Agent", ctx_get context "response" VNone); ("设备", VList (map (fun c => VStr c.(cd_name)) candidates))]))
    end.

Definition continuation_body (request : InterpretationRequest) (q : AskedQuestion) : pyval :=
  VDict [("state", VDict [("utterance", VStr request.(ir_utterance)); ("context", VDict q.(aq_context))]);
         ("questions", VDict [(q.(aq_key), choice_question q.(aq_instructions) q.(aq_criteria) [])])].

(** The label the model chose and its probability, or why the reply does not count *)
Definition chosen_label (q : AskedQuestion) (payload : list (string * pyval)) : res (string + string * pyval) :=
  if negb (is_str revision (default VNone (dict_get payload "revision"))) then Ok (inl "revision_mismatch")
  else if get_truthy (dict_get payload "truncated") then Ok (inl "truncated_input")
  else
    match match dict_get payload "answers" with Some (VDict answers) => dict_get answers q.(aq_key) | _ => None end with
    | Some (VDict answer) =>
        if negb (is_str "choice" (default VNone (dict_get answer "type"))) then Ok (inl "invalid_answer")
        else
          match dict_get answer "choice" with
          | Some (VStr selected) =>
              if negb (dict_has q.(aq_criteria) selected) then Ok (inl "invalid_choice")
              else
                match dict_get answer "probabilities" with
                | Some (VDict probabilities) =>
                    p ← probability (default VNone (dict_get probabilities selected));
                    Ok (match p with Some p => inr (selected, p) | None => inl "invalid_probability" end)
                | _ => Ok (inl "invalid_probability")
                end
          | _ => Ok (inl "invalid_choice")
          end
    | _ => Ok (inl "invalid_answer")
    end.

(** [any(p.action != proposals[0].action for p in proposals)]: the first one is itself. *)
Definition heterogeneous (proposals : list Proposal) : bool :=
  match proposals with [] => false | p :: rest => existsb (fun q => negb (action_eqb q.(pp_action) p.(pp_action))) rest end.

Definition continue_with (bounded : InterpretationRequest) (previous : Proposal) (options : Options) (pending : bool) (choice : string) (p : pyval)
    : res HomeUnderstanding :=
  if pending && bool_decide (choice = CANCEL_LABEL) && at_least "0.5" p then decision "cancel" UnderstoodCancellation
  else if bool_decide (choice = REINTERPRET) then decision "reinterpret" NotUnderstood
  else if bool_decide (choice = CANCEL_LABEL) || negb (at_least CONFIDENT p) then decision "low_probability" NotUnderstood
  else if pending then
    match dict_get options choice with
    | Some (_, c) => decision "pick_target" (UnderstoodProposal (resolved_to previous c.(cd_ref)))
    | None => Err (PyError "KeyError" choice)
    end
  else
    match dict_get ACTIONS choice with
    | None => Err (PyError "KeyError" choice)
    | Some v =>
        proposals ← mapM (fun x => control bounded options x.1 v) options;
        match all_some id proposals with
        | None => decision "action_mapping_failed" NotUnderstood
        | Some proposals =>
            if heterogeneous proposals then decision "heterogeneous_actions" NotUnderstood
            else
              match proposals with
              | [] => Err (PyError "IndexError" "")
              | first :: _ =>
                  p ← new_proposal "control" "resolved" previous.(pp_targets) first.(pp_action);
                  decision "follow_action" (UnderstoodProposal p)
              end
        end
    end.

(** [propose] *)
Definition continuation_propose (request : InterpretationRequest) (context : option (list (string * pyval))) : res HomeUnderstanding :=
  match default [] context with
  | [] => decision "ineligible_request" NotUnderstood
  | context =>
      if negb (bool_decide (request.(ir_domain) = "smarthome")) then decision "ineligible_request" NotUnderstood
      else
        match read_proposal (ctx_get context "proposal" VNone) with
        | Err e => if is_value_error e then decision "invalid_context_proposal" NotUnderstood else Err e
        | Ok previous =>
            let known := by_ref request in
            match previous.(pp_targets), all_some (dict_get known) previous.(pp_targets) with
            | [], _ | _, None => decision "missing_focus" NotUnderstood
            | _, Some candidates =>
                if existsb (fun c => bool_decide (c.(cd_kind) ∈ ["lock"; "sensor"; "scene"])) candidates then decision "unsupported_focus" NotUnderstood
                else
                  let bounded := with_candidates request candidates in
                  let options := device_options bounded in
                  if negb (bool_decide (length options = length candidates)) then decision "ambiguous_labels" NotUnderstood
                  else
                    said_before ← py_item (VDict context) "previous_utterance";
                    let pending := match dict_get context "pending" with Some (VBool true) => true | _ => false end in
                    asked ← (if pending then ask_pick request context previous candidates options said_before
                             else ask_follow request context previous candidates said_before);
                    match asked with
                    | inl u => Ok u
                    | inr q =>
                        payload ← predict (continuation_body request q) request.(ir_timeout_ms);
                        chosen ← chosen_label q payload;
                        match chosen with
                        | inl reason => decision reason NotUnderstood
                        | inr (choice, p) => continue_with bounded previous options pending choice p
                        end
                    end
            end
        end
  end.
End Laya.

(** ** What the answers are allowed to do *)

Definition is_device `{HomeSdk} (request : InterpretationRequest) (c : HomeCandidate) : Prop := c ∈ request.(ir_candidates) /\ c.(cd_kind) <> SCENE_KIND.

Lemma all_some_elem {A B} (f : A -> option B) l ys : all_some f l = Some ys -> forall y, y ∈ ys -> exists x, x ∈ l /\ f x = Some y.
Proof.
  revert ys. induction l as [|x l IH]; simpl; intros ys; [by intros [= <-] ? ?%elem_of_nil|].
  destruct (f x) as [z|] eqn:Ef; [|done]. destruct (all_some f l) as [zs|]; [|done]. intros [= <-] y [->|Hy]%elem_of_cons; [exists x; split; [by left|done]|].
  destruct (IH zs eq_refl y Hy) as (x' & ? & ?). exists x'. split; [by right|done].
Qed.
Lemma all_some_length {A B} (f : A -> option B) l ys : all_some f l = Some ys -> length ys = length l.
Proof.
  revert ys. induction l as [|x l IH]; simpl; intros ys; [by intros [= <-]|].
  destruct (f x); [|done]. destruct (all_some f l) as [zs|]; [|done]. intros [= <-]. simpl. by rewrite (IH zs).
Qed.
Lemma all_some_some {A B} (f : A -> option B) l ys : all_some f l = Some ys -> forall x, x ∈ l -> exists y, f x = Some y /\ y ∈ ys.
Proof.
  revert ys. induction l as [|x l IH]; simpl; intros ys; [by intros _ ? ?%elem_of_nil|].
  destruct (f x) as [z|] eqn:Ef; [|done]. destruct (all_some f l) as [zs|]; [|done]. intros [= <-] x' [->|Hx]%elem_of_cons; [exists z; split; [done|by left]|].
  destruct (IH zs eq_refl x' Hx) as (y & ? & ?). exists y. split; [done|by right].
Qed.

Section Facts.
Context `{HomeSdk} (nfkc_lower : string -> string) (decimal : string -> option Z) (float_repr : string -> string).
Context (float_of : string -> spec_float) (float_of_int : Z -> res string) (type_label : string -> string).
Context (json_loads : string -> res pyval) (read_action : pyval -> res Action) (read_proposal : pyval -> res Proposal).
Context (is_httpx_timeout is_httpx_transport : exn -> bool) (ERROR_CONTEXT_TOO_LARGE : string) (transport : pyval -> Z -> LayaReply).
Context (policy_version model_version : string).
Notation values_of := (utterance_values nfkc_lower decimal).
Notation device_options := (device_options type_label).
Notation control := (control nfkc_lower decimal float_repr).
Notation predict := (predict json_loads is_httpx_timeout is_httpx_transport ERROR_CONTEXT_TOO_LARGE transport).
Notation context_result := (context_result nfkc_lower decimal float_repr float_of read_action).
Notation laya_result := (laya_result nfkc_lower decimal float_repr float_of float_of_int policy_version model_version).
Notation laya_interpret := (laya_interpret nfkc_lower decimal float_repr float_of float_of_int type_label json_loads read_action is_httpx_timeout is_httpx_transport
                              ERROR_CONTEXT_TOO_LARGE transport policy_version model_version).

(** An option is a device of the request. *)
Lemma device_options_in request label text c : (label, (text, c)) ∈ device_options request -> is_device request c.
Proof.
  revert label text c. unfold Laya.device_options.
  apply (fold_left_inv (fun options : Options => forall label text c, (label, (text, c)) ∈ options -> is_device request c)); [by intros ? ? ? ?%elem_of_nil|].
  intros options c Hc Ho label text d. unfold device_option. case_bool_decide as Hk; [apply Ho|]. cbv zeta.
  intros [(-> & [= -> ->])|?]%dict_set_elem; [by split|by eapply Ho].
Qed.
Lemma device_options_get request label x : dict_get (device_options request) label = Some x -> is_device request x.2.
Proof. destruct x as [text c]. intros Hx%dict_get_elem. by eapply device_options_in. Qed.

(** Its label is no exit. *)
Lemma contains_parenthesis s t : py_contains "（" (s +:+ "（" +:+ t) = true.
Proof. induction s as [|a s IH]; [vm_compute; by destruct t|]. change ((String a s +:+ "（" +:+ t)%string) with (String a (s +:+ "（" +:+ t)). cbn [py_contains]. by rewrite IH, orb_true_r. Qed.
Lemma parenthesis_no_exit s t : dict_has DEVICE_EXITS (s +:+ "（" +:+ t)%string = false.
Proof.
  pose proof (contains_parenthesis s t) as Hc. unfold dict_has, DEVICE_EXITS. cbn [dict_get].
  case_decide as E1; [rewrite E1 in Hc; vm_compute in Hc; done|]. case_decide as E2; [rewrite E2 in Hc; vm_compute in Hc; done|done].
Qed.
Lemma device_options_labels request label x : (label, x) ∈ device_options request -> dict_has DEVICE_EXITS label = false.
Proof.
  revert label x. unfold Laya.device_options.
  apply (fold_left_inv (fun options : Options => forall label x, (label, x) ∈ options -> dict_has DEVICE_EXITS label = false)); [by intros ? ? ?%elem_of_nil|].
  intros options c _ Ho label x. unfold device_option. case_bool_decide; [apply Ho|]. cbv zeta. intros [[-> _]|?]%dict_set_elem; [|by eapply Ho].
  destruct (dict_has options (if _ || _ then _ else _)); [apply parenthesis_no_exit|]. destruct (_ || _) eqn:E; [apply parenthesis_no_exit|].
  by apply orb_false_iff in E as [_ ?].
Qed.

(** What a control says: a verb of the model, a device of the request or none, and the values that were said *)
Inductive Told (request : InterpretationRequest) (v : Verb) : Proposal -> Prop :=
  | ToldNobody a : generic_command float_repr v (values_of request) = Some a -> Told request v (mkHomeProposal "control" "none" [] (Some a) None)
  | ToldDevice c a : is_device request c -> command_for float_repr c.(cd_kind) v (values_of request) = Some a ->
      Told request v (mkHomeProposal "control" "resolved" [c.(cd_ref)] (Some a) None).

Lemma new_proposal_spec intent status targets action p : new_proposal intent status targets action = Ok p -> p = mkHomeProposal intent status targets action None.
Proof. unfold new_proposal. cbv zeta. destruct (check_proposal _); [|done]. by intros [= <-]. Qed.
Lemma built_proposal_spec intent status targets action p : built_proposal intent status targets action = Ok (Some p) ->
  exists a, action = Some a /\ p = mkHomeProposal intent status targets (Some a) None.
Proof.
  unfold built_proposal. destruct action as [a|]; [|done]. destruct (check_action a); [|done]. cbn.
  destruct (new_proposal _ _ _ _) as [q|] eqn:E; [|done]. intros [= <-]. exists a. split; [done|by apply new_proposal_spec].
Qed.

Lemma control_told request label v p : control request (device_options request) label v = Ok (Some p) -> Told request v p.
Proof.
  unfold Laya.control. cbv zeta. case_bool_decide.
  - intros (a & Ha & ->)%built_proposal_spec. by apply ToldNobody.
  - destruct (dict_get _ label) as [[text c]|] eqn:Eo; [|done]. apply device_options_get in Eo.
    intros (a & Ha & ->)%built_proposal_spec. by apply ToldDevice.
Qed.

(** What a decided answer stands on *)
Inductive LayaGrounded (request : InterpretationRequest) (answers : list (string * pyval)) : Proposal -> Prop :=
  | LgUnrelated : LayaGrounded request answers (mkHomeProposal "unrelated" "none" [] None None)
  | LgQueryNothing : LayaGrounded request answers (mkHomeProposal "query" "none" [] None None)
  | LgQuery c : is_device request c -> LayaGrounded request answers (mkHomeProposal "query" "resolved" [c.(cd_ref)] None None)
  | LgControl v p : v ∈ map snd ACTIONS -> Told request v p -> LayaGrounded request answers p
  | LgPick c stored a targets q :
      is_device request c -> py_get (or_empty (ctx_get (default [] request.(ir_context)) "proposal" VNone)) "targets" (VList []) = Ok targets ->
      str_in c.(cd_ref) targets = Ok true ->
      py_item (or_empty (ctx_get (default [] request.(ir_context)) "proposal" VNone)) "action" = Ok stored -> read_action stored = Ok a ->
      prob float_of answers "pick" = Ok q -> at_least float_of CONFIDENT q = true ->
      LayaGrounded request answers (mkHomeProposal "control" "resolved" [c.(cd_ref)] (Some a) None).

(** A result is decided by a proposal that is grounded, or it abstains. *)
Definition decided_or_not (request : InterpretationRequest) (answers : list (string * pyval)) (r : InterpretationResult) : Prop :=
  match r.(is_proposal) with Some p => r.(is_status) = "decided" /\ LayaGrounded request answers p | None => r.(is_status) = "abstained" end.
Notation settled_ok request answers m := (forall r, m = Ok r -> decided_or_not request answers r).

Lemma abstain_settled request answers r reason : decided_or_not request answers (abstain r reason).
Proof. done. Qed.
Lemma decided_settled request answers r p more : LayaGrounded request answers p -> decided_or_not request answers (with_diagnostics r "decided" (Some p) more).
Proof. by split. Qed.
#[local] Hint Resolve abstain_settled decided_settled : eidolon.

Lemma actions_verb name v : dict_get ACTIONS name = Some v -> v ∈ map snd ACTIONS.
Proof. intros Hv%dict_get_elem. apply list_elem_of_fmap. by exists (name, v). Qed.
Lemma default_action name : default (verb "set") (dict_get ACTIONS name) ∈ map snd ACTIONS.
Proof. destruct (dict_get ACTIONS name) as [v|] eqn:E; [by apply actions_verb in E|]. apply (bool_decide_unpack _). vm_compute. exact I. Qed.

Lemma read_answers_grounded request answers truncated intent device action p reason :
  read_answers nfkc_lower decimal float_repr request (device_options request) truncated intent device action = Ok (Some p, reason) ->
  truncated = false /\ LayaGrounded request answers p.
Proof.
  unfold read_answers. cbv zeta. destruct truncated; [done|]. intros Hr. split; [done|]. revert Hr.
  case_bool_decide; [destruct (new_proposal _ _ _ _) eqn:En; [|done]; apply new_proposal_spec in En as ->; intros [= <- _]; constructor|].
  case_bool_decide; [done|]. case_bool_decide.
  - case_bool_decide.
    + destruct (new_proposal _ _ _ _) eqn:En; [|done]. apply new_proposal_spec in En as ->. intros [= <- _]. constructor.
    + destruct (dict_get _ device) as [[text c]|] eqn:Ed; (destruct (new_proposal _ _ _ _) eqn:En; [|done]); apply new_proposal_spec in En as ->; intros [= <- _].
      * constructor. by apply device_options_get in Ed.
      * constructor.
  - destruct (control _ _ _ _) as [[q|]|] eqn:Ec; [|done..]. intros [= <- _]. eapply LgControl; [apply default_action|]. by apply control_told in Ec.
Qed.

Lemma laya_result_settled request payload r : laya_result request (device_options request) payload = Ok r ->
  exists answers, dict_get payload "answers" = Some (VDict answers) /\ decided_or_not request answers r /\
    (get_truthy (dict_get payload "truncated") = true -> r.(is_proposal) = None).
Proof.
  unfold Laya.laya_result. destruct (dict_get payload "answers") as [[| | | | | |answers]|]; try done. destruct (existsb _ _); [done|].
  intros (intent & _ & (device & _ & (action & _ & (diagnostics & _ & (summary & _ & Hr)%res_bind_ok)%res_bind_ok)%res_bind_ok)%res_bind_ok)%res_bind_ok.
  cbv zeta in Hr. apply res_bind_ok in Hr as ([read reason] & Hread & (_ & _ & [= <-])%res_bind_ok). exists answers. split; [done|].
  unfold decided_or_not. cbn [is_proposal is_status fst]. destruct read as [p|]; [|done].
  apply (read_answers_grounded _ answers) in Hread as [-> ?]. done.
Qed.

(** A pick the model is sure of *)
Definition sure_pick (answers : list (string * pyval)) : Prop := exists q, prob float_of answers "pick" = Ok q /\ at_least float_of CONFIDENT q = true.
Definition is_pending (request : InterpretationRequest) : bool := truthy (ctx_get (default [] request.(ir_context)) "pending" VNone).

Lemma picked_option_spec request pick previous c : picked_option (device_options request) pick previous = Ok (Some c) ->
  is_device request c /\ exists targets, py_get previous "targets" (VList []) = Ok targets /\ str_in c.(cd_ref) targets = Ok true.
Proof.
  unfold picked_option. intros (known & _ & Hp)%res_bind_ok. destruct pick as [| | | |label| |]; try done.
  destruct (_ || _); [done|]. destruct (dict_get _ label) as [[text d]|] eqn:Ed; [|done]. apply device_options_get in Ed.
  apply res_bind_ok in Hp as (targets & Ht & (b & Hb & Hc)%res_bind_ok). destruct b; [|done]. injection Hc as <-. split; [done|]. by exists targets.
Qed.

Lemma followed_verb options answers previous follow device label v :
  followed float_of options answers previous follow device = Ok (Some (label, v)) -> v ∈ map snd ACTIONS.
Proof.
  unfold followed. intros (intent & _ & Hf)%res_bind_ok. destruct (negb _); [done|]. apply res_bind_ok in Hf as (b1 & _ & Hf). destruct (negb b1); [done|].
  apply res_bind_ok in Hf as (b2 & _ & Hf). destruct (negb b2); [done|]. apply res_bind_ok in Hf as (b3 & _ & Hf). destruct (negb b3); [done|].
  apply res_bind_ok in Hf as (b4 & _ & Hf). destruct (negb b4); [done|]. apply res_bind_ok in Hf as (b5 & _ & Hf). destruct (negb b5); [done|].
  apply res_bind_ok in Hf as (targets & _ & Hf). destruct device as [| | | |l| |]; try done. destruct follow as [| | | |name| |]; try done.
  destruct (dict_get options l) as [[text c]|]; [|done]. destruct (dict_get ACTIONS name) as [w|] eqn:Ea; [|done].
  apply res_bind_ok in Hf as (b & _ & Hf). destruct b; [|done]. injection Hf as _ <-. by apply actions_verb in Ea.
Qed.

Lemma follow_result_settled request answers result previous : decided_or_not request answers result ->
  settled_ok request answers (follow_result nfkc_lower decimal float_repr float_of request (device_options request) answers result previous).
Proof.
  intros Hs r. unfold follow_result. intros (follow & _ & (device & _ & (named & _ & Hr)%res_bind_ok)%res_bind_ok)%res_bind_ok. cbv zeta in Hr. revert Hr.
  match goal with |- context [Ok ?f] => match f with match is_proposal result with _ => _ end => set (fallen := f) end end.
  assert (decided_or_not request answers fallen) as Hfallen by (unfold fallen; destruct (is_proposal result); [case_bool_decide|]; done).
  destruct (is_str MULTIPLE named); [by intros [= <-]|].
  intros (f & Hf & Hr)%res_bind_ok. destruct f as [[label v]|]; [|by injection Hr as <-].
  apply res_bind_ok in Hr as (p & Hp & Hr). destruct p as [p|]; [|by injection Hr as <-].
  apply res_bind_ok in Hr as (apart & _ & Hr). destruct apart; [by injection Hr as <-|].
  apply res_bind_ok in Hr as (fp & _ & (dp & _ & [= <-])%res_bind_ok). apply decided_settled.
  apply followed_verb in Hf. eapply LgControl; [done|]. by apply control_told in Hp.
Qed.

Lemma context_result_settled request payload answers result r :
  dict_get payload "answers" = Some (VDict answers) -> decided_or_not request answers result ->
  (get_truthy (dict_get payload "truncated") = true -> result.(is_proposal) = None) ->
  context_result request (device_options request) payload result = Ok r ->
  decided_or_not request answers r /\ (is_pending request = true -> r.(is_proposal) <> None -> sure_pick answers).
Proof.
  intros Ha Hs Ht. unfold Laya.context_result. rewrite Ha. cbv zeta.
  destruct (get_truthy _); [intros [= <-]; split; [done|by rewrite Ht]|].
  intros (direct & _ & (pick & _ & (pick_p & Hp & Hr)%res_bind_ok)%res_bind_ok)%res_bind_ok.
  fold (is_pending request) in Hr.
  destruct (at_least float_of CONFIDENT pick_p) eqn:Epick.
  - assert (sure_pick answers) as Hsure by (by exists pick_p). split; [|done]. revert Hr. destruct (is_str CANCEL_LABEL pick); cbn [andb].
    { destruct direct; [by intros [= <-]|]. intros (p & Hnew & [= <-])%res_bind_ok. apply new_proposal_spec in Hnew as ->. apply decided_settled. constructor. }
    intros (chosen & Hc & Hr)%res_bind_ok. destruct chosen as [c|].
    + apply picked_option_spec in Hc as (Hdev & targets & Htg & Hin). apply res_bind_ok in Hr as (stored & Hst & (action & Hact & (p & Hnew & Hr)%res_bind_ok)%res_bind_ok).
      apply new_proposal_spec in Hnew as ->. destruct (_ && _); injection Hr as <-; [done|]. apply decided_settled. by eapply LgPick.
    + destruct (is_pending request); [destruct (_ && _); by injection Hr as <-|]. destruct direct; [by injection Hr as <-|].
      revert Hr. by apply follow_result_settled.
  - cbn [andb] in Hr. apply res_bind_ok in Hr as (chosen & [= <-] & Hr). destruct (is_pending request).
    + rewrite andb_false_r in Hr. injection Hr as <-. split; [done|]. by intros _ ?.
    + split; [|done]. destruct direct; [by injection Hr as <-|]. revert Hr. by apply follow_result_settled.
Qed.


(** *** Continuations *)

Context (revision : string).
Notation continuation_propose := (continuation_propose nfkc_lower decimal float_repr float_of type_label json_loads read_proposal is_httpx_timeout is_httpx_transport
                                    ERROR_CONTEXT_TOO_LARGE transport revision).
Notation continue_with := (continue_with nfkc_lower decimal float_repr float_of).

Lemma by_ref_spec request ref c : dict_get (by_ref request) ref = Some c -> c ∈ request.(ir_candidates) /\ c.(cd_ref) = ref.
Proof.
  intros Hc%dict_get_elem. revert ref c Hc. unfold by_ref.
  apply (fold_left_inv (fun d => forall ref c, (ref, c) ∈ d -> c ∈ request.(ir_candidates) /\ c.(cd_ref) = ref)); [by intros ? ? ?%elem_of_nil|].
  intros d c Hc Hd ref e [[-> ->]|?]%dict_set_elem; [done|by apply Hd].
Qed.

(** A target the model may continue with *)
Definition may_continue (request : InterpretationRequest) (previous : Proposal) (c : HomeCandidate) : Prop :=
  c ∈ request.(ir_candidates) /\ c.(cd_ref) ∈ previous.(pp_targets) /\ c.(cd_kind) ∉ ["lock"; "sensor"; "scene"].

(** What a continuation may be understood as, given whether a question to the user is pending *)
Definition in_focus (request : InterpretationRequest) (pending : bool) (previous : Proposal) (u : HomeUnderstanding) : Prop :=
  match u with
  | NotUnderstood => True
  | UnderstoodClarification _ => False
  | UnderstoodCancellation => pending = true
  | UnderstoodProposal p =>
      if pending then previous.(pp_intent) = "control" /\ previous.(pp_target_status) = "ambiguous" /\
        exists c, may_continue request previous c /\ p = resolved_to previous c.(cd_ref)
      else previous.(pp_target_status) = "resolved" /\
        exists c v a, may_continue request previous c /\ previous.(pp_targets) = [c.(cd_ref)] /\ v ∈ map snd ACTIONS /\
          command_for float_repr c.(cd_kind) v (values_of (with_candidates request [c])) = Some a /\
          p = mkHomeProposal "control" "resolved" previous.(pp_targets) (Some a) None
  end.

Lemma continue_with_focus request previous candidates pending choice p u :
  (forall c, c ∈ candidates -> may_continue request previous c) ->
  (pending = true -> previous.(pp_intent) = "control" /\ previous.(pp_target_status) = "ambiguous") ->
  (pending = false -> previous.(pp_target_status) = "resolved" /\ exists c, candidates = [c] /\ previous.(pp_targets) = [c.(cd_ref)]) ->
  continue_with (with_candidates request candidates) previous (device_options (with_candidates request candidates)) pending choice p = Ok u ->
  in_focus request pending previous u.
Proof.
  intros Hc Hp Hn. unfold Laya.continue_with, decision. destruct pending; cbn [andb].
  - destruct (Hp eq_refl) as [Hi Hs]. destruct (bool_decide (choice = CANCEL_LABEL) && _); [by intros [= <-]|]. case_bool_decide; [by intros [= <-]|]. destruct (_ || _); [by intros [= <-]|].
    destruct (dict_get _ choice) as [[text c]|] eqn:Eo; [|done]. apply device_options_get in Eo as [Hin _]. intros [= <-].
    split_and!; [done..|]. exists c. split; [|done]. by apply Hc.
  - destruct (Hn eq_refl) as (Hs & c & -> & Ht). case_bool_decide; [by intros [= <-]|]. destruct (_ || _); [by intros [= <-]|].
    destruct (dict_get ACTIONS choice) as [v|] eqn:Ev; [|done]. apply actions_verb in Ev.
    intros (proposals & Hps & Hr)%res_bind_ok. destruct (all_some id proposals) as [ps|] eqn:Ea; [|by injection Hr as <-].
    destruct (heterogeneous _ ps); [by injection Hr as <-|]. destruct ps as [|first ps]; [done|].
    apply res_bind_ok in Hr as (q & Hq%new_proposal_spec & [= <-]). split; [done|].
    destruct proposals as [|x proposals]; [done|]. cbn in Ea. destruct x as [x|]; [|done]. destruct (all_some id proposals); [|done]. injection Ea as -> _.
    destruct (device_options (with_candidates request [c])) as [|[label [text d]] options] eqn:Eo; [done|].
    cbn [mapM] in Hps. apply res_bind_ok in Hps as (y & Hctl & (ys & _ & [= -> _])%res_bind_ok). rewrite <- Eo in Hctl. cbn [fst] in Hctl.
    assert (label <> NO_DEVICE) as Hl 
      by (intros ->; pose proof (device_options_labels (with_candidates request [c]) NO_DEVICE (text, d)) as Hx; rewrite Eo in Hx; by discriminate Hx; left).
    clear text d options Eo.
    unfold Laya.control in Hctl. cbv zeta in Hctl. rewrite bool_decide_false in Hctl by done. destruct (dict_get _ label) as [[text d]|] eqn:Ed; [|done].
    apply device_options_get in Ed as [Hin _]. cbn in Hin. apply list_elem_of_singleton in Hin as ->.
    apply built_proposal_spec in Hctl as (a & Ha & ->). exists c, v, a. split_and!; [|done..]. apply Hc. by left.
Qed.

Lemma ask_pick_spec request context previous candidates options said x :
  (forall ref, ref ∈ previous.(pp_targets) -> exists c, c.(cd_ref) = ref /\ may_continue request previous c) ->
  ask_pick nfkc_lower decimal request context previous candidates options said = Ok x ->
  match x with
  | inl u => in_focus request true previous u
  | inr _ => previous.(pp_intent) = "control" /\ previous.(pp_target_status) = "ambiguous"
  end.
Proof.
  intros Hc. unfold ask_pick, decision. destruct (_ || _) eqn:Eg; [by intros [= <-]|].
  apply orb_false_iff in Eg as [[[Ei%negb_false_iff%bool_decide_eq_true Es%negb_false_iff%bool_decide_eq_true]%orb_false_iff _]%orb_false_iff _].
  destruct (negb _); [by intros [= <-]|]. destruct (existsb _ _); [by intros [= <-]|].
  destruct (exact_named_target _ _ _) as [named|]; [|by intros [= <-]]. case_bool_decide as Hin; cbn [negb]; [|by intros [= <-]].
  intros [= <-]. split_and!; [done..|]. apply Hc in Hin as (c & E & Hm). exists c. by rewrite E.
Qed.

Lemma ask_follow_spec request context previous candidates said x :
  ask_follow nfkc_lower decimal request context previous candidates said = Ok x ->
  match x with inl u => u = NotUnderstood | inr _ => previous.(pp_target_status) = "resolved" /\ length candidates = 1%nat end.
Proof.
  unfold ask_follow, decision. destruct (_ || _) eqn:Eg; [by intros [= <-]|].
  apply orb_false_iff in Eg as [[Es%negb_false_iff%bool_decide_eq_true _]%orb_false_iff _].
  destruct (has_explicit_reference _ _ _ _); [by intros [= <-]|]. case_bool_decide as El; cbn [negb]; [|by intros [= <-]].
  destruct (follow_criteria _) as [|cr crs]; [by intros [= <-]|]. intros [= <-]. by split.
Qed.

(** Whatever the model answers: a continuation is understood only about the devices of the previous proposal,
    none of which is a lock, a sensor or a scene. With a question pending, it is cancelled, or the pending action is
    kept and one of its targets chosen; otherwise it is one command for the single target of what was
    done before, with a verb of the model and the values that were said. *)
Theorem continuations_stay_in_focus request context u : continuation_propose request context = Ok u ->
  u = NotUnderstood \/
  exists previous, read_proposal (ctx_get (default [] context) "proposal" VNone) = Ok previous /\
    in_focus request (match dict_get (default [] context) "pending" with Some (VBool true) => true | _ => false end) previous u.
Proof.
  unfold Laya.continuation_propose, decision. destruct (default [] context) as [|x ctx] eqn:Ec; [intros [= <-]; by left|]. cbv zeta.
  destruct (negb _); [intros [= <-]; by left|].
  destruct (read_proposal _) as [previous|e]; [|by destruct (is_value_error e); [intros [= <-]; left|]].
  destruct (pp_targets previous) as [|t ts] eqn:Et; [intros [= <-]; by left|]. rewrite <- Et.
  destruct (all_some (dict_get (by_ref request)) (pp_targets previous)) as [candidates|] eqn:Ea; [|intros [= <-]; by left].
  destruct (existsb _ _) eqn:Ek; [intros [= <-]; by left|]. destruct (negb _); [intros [= <-]; by left|].
  intros (said & _ & (asked & Hasked & Hr)%res_bind_ok)%res_bind_ok.
  assert (forall c, c ∈ candidates -> may_continue request previous c) as Hmay.
  { intros c Hc. pose proof (all_some_elem _ _ _ Ea c Hc) as (ref & Hin & [? E]%by_ref_spec). split_and!; [done|by rewrite E|].
    intros Hk. assert (existsb (fun c => bool_decide (cd_kind c ∈ ["lock"; "sensor"; "scene"])) candidates = true) as E1; [|congruence].
    apply existsb_exists. exists c. split; [by apply list_elem_of_In|]. by apply bool_decide_eq_true. }
  assert (forall ref, ref ∈ pp_targets previous -> exists c, cd_ref c = ref /\ may_continue request previous c) as Hrefs.
  { intros ref Hin. pose proof (all_some_some _ _ _ Ea ref Hin) as (c & [_ E]%by_ref_spec & Hc). exists c. split; [done|by apply Hmay]. }
  assert (length candidates = 1%nat -> exists c, candidates = [c] /\ pp_targets previous = [cd_ref c]) as Hone.
  { intros El. pose proof (all_some_length _ _ _ Ea) as El'. destruct candidates as [|c [|]]; try done. rewrite Et in *. destruct ts; [|done].
    destruct (Hrefs t ltac:(by left)) as (d & E & _). pose proof (all_some_elem _ _ _ Ea c ltac:(by left)) as (ref & ->%list_elem_of_singleton & [_ E']%by_ref_spec).
    exists c. by rewrite E'. }
  match type of Hr with context [continue_with _ _ _ ?b _ _] => set (pending := b) in * end.
  right. exists previous. split; [done|]. destruct asked as [u'|q].
  - injection Hr as ->. destruct pending; [by apply (ask_pick_spec _ _ _ _ _ _ (inl u) Hrefs) in Hasked|]. by apply ask_follow_spec in Hasked as ->.
  - apply res_bind_ok in Hr as (payload & _ & (chosen & _ & Hr)%res_bind_ok). destruct chosen as [reason|[choice p]]; [by injection Hr as <-|].
    eapply (continue_with_focus _ _ candidates); [exact Hmay| | |exact Hr]; intros Hb; rewrite Hb in Hasked.
    + by apply (ask_pick_spec _ _ _ _ _ _ (inr q) Hrefs) in Hasked.
    + apply ask_follow_spec in Hasked as [? El]. split; [done|by apply Hone].
Qed.
End Facts.

(** ** Concrete answers *)

Definition few_floats (r : string) : spec_float :=
  default S754_nan (dict_get [("0.0", S754_zero false); ("0.5", S754_finite false 4503599627370496 (-53)); ("0.8", S754_finite false 7205759403792794 (-53));
    ("0.95", S754_finite false 8556839292003942 (-53)); ("0.99", S754_finite false 8917127262193582 (-53)); ("1.0", S754_finite false 4503599627370496 (-52))] r).
Definition model_answer (choice p : string) : pyval := VDict [("type", VStr "choice"); ("choice", VStr choice); ("probabilities", VDict [(choice, VFloat p)])].
Definition switch_on : Action := mkAction "on_off" "on" [].
Definition lamps : Proposal := mkHomeProposal "control" "ambiguous" ["living.main_light"; "master.light"] (Some switch_on) None.
Definition one_lamp : Proposal := mkHomeProposal "control" "resolved" ["living.main_light"] (Some switch_on) None.
Definition context_about (p : Proposal) (pending : bool) (question response : string) : list (string * pyval) :=
  [("history", VList []); ("previous_utterance", VStr "开灯");
   ("proposal", VDict [("target_status", VStr p.(pp_target_status)); ("targets", VList (map VStr p.(pp_targets))); ("action", VDict [("trait", VStr "on_off")])]);
   ("pending", VBool pending); ("question", VStr question); ("response", VStr response); ("pending_action", VStr "打开")].
Definition utter (utterance : string) (context : option (list (string * pyval))) : InterpretationRequest :=
  mkInterpretation "i1" "smarthome" utterance None None flat [mkHomeArea "living" "客厅"; mkHomeArea "master" "主卧"] 1000 context.
Definition reply_ok (payload : list (string * pyval)) (body : string) : res pyval := Ok (VDict payload).
Notation sample_laya payload := (@laya_interpret rules_sdk id ascii_digit id few_floats (fun _ => Ok "0.0") id (reply_ok payload) (fun _ => Ok switch_on)
  (fun _ => false) (fun _ => false) "" (fun _ _ => mkLayaReply ["{}"] None 200) LAYA_POLICY_VERSION LAYA_MODEL_VERSION).
Notation sample_continuation previous payload := (@continuation_propose rules_sdk id ascii_digit id few_floats id (reply_ok payload) (fun _ => Ok previous)
  (fun _ => false) (fun _ => false) "" (fun _ _ => mkLayaReply ["{}"] None 200) MODEL_REVISION).
Definition lamp_answers (pick : string) (p : string) : list (string * pyval) :=
  [("answers", VDict [("intent", model_answer "控制" "0.8"); ("device", model_answer "主灯" "0.8"); ("action", model_answer "打开或启动" "0.8"); ("pick", model_answer pick p)]);
   ("features", VDict [("question_state", VBool true)])].

Definition decided_of (r : res InterpretationResult) : option (string * option Proposal) :=
  match r with Ok r => Some (r.(is_status), r.(is_proposal)) | Err _ => None end.

(** Without a context the three answers decide; with a pending question only a sure pick does. *)
Example laya_answers :
  let asked := Some (context_about lamps true "要哪一个？" "") in
  decided_of (sample_laya (lamp_answers "主灯" "0.8") (utter "开灯" None)) = Some ("decided", Some one_lamp) /\
  decided_of (sample_laya (lamp_answers "主灯" "0.99") (utter "第一个" asked)) = Some ("decided", Some one_lamp) /\
  decided_of (sample_laya (lamp_answers "主灯" "0.8") (utter "第一个" asked)) = Some ("abstained", None) /\
  decided_of (sample_laya (lamp_answers CANCEL_LABEL "0.95") (utter "算了" asked)) = Some ("decided", Some (mkHomeProposal "unrelated" "none" [] None None)).
Proof. split_and!; vm_compute; reflexivity. Qed.

(** A device whose name is that of another with its identifier takes its place among the options. *)
Example options_may_collide :
  map fst (@device_options rules_sdk id (with_candidates (utter "" None)
     [mkHomeCandidate "a" "灯" [] "light" None; mkHomeCandidate "b" "灯（c）" [] "light" None; mkHomeCandidate "c" "灯" [] "light" None])) = ["灯"; "灯（c）"].
Proof. vm_compute. reflexivity. Qed.


Lemma continuations_stay_in_focus_witness :
  let request := utter "亮一点" None in
  let context := context_about one_lamp false "" "好的" in
  let brighter := mkHomeProposal "control" "resolved" ["living.main_light"] (Some (mkAction "level" "step" [mkSlot "delta" (VInt 10) (Some "%") None])) None in
  sample_continuation one_lamp [("revision", VStr MODEL_REVISION); ("answers", VDict [("follow", model_answer "调高或增大" "0.99")])] request (Some context)
    = Ok (UnderstoodProposal brighter) /\
  exists c, @may_continue request one_lamp c /\ brighter.(pp_targets) = [c.(cd_ref)].
Proof.
  intros request context brighter. split; [vm_compute; reflexivity|].
  destruct (@continuations_stay_in_focus rules_sdk id ascii_digit id few_floats id
    (reply_ok [("revision", VStr MODEL_REVISION); ("answers", VDict [("follow", model_answer "调高或增大" "0.99")])]) (fun _ => Ok one_lamp)
    (fun _ => false) (fun _ => false) "" (fun _ _ => mkLayaReply ["{}"] None 200) MODEL_REVISION request (Some context) (UnderstoodProposal brighter))
    as [E|(previous & [= <-] & _ & c & v & a & Hm & Ht & _)]; [vm_compute; reflexivity|discriminate E|].
  exists c. split; [exact Hm|]. exact Ht.
Defined.
