(* ===== verification/LiveTurns.v ===== *)
(** * [infra/observability/live_turns.py]: the turns that are happening right now.

    The board observes the event stream of every turn around [CompanionAgent.run_turn] and is read by the admin
    API. Everything runs on one thread; a step is one call of the board. The monotonic clock is in
    microseconds. The guard around the board's calls never acts on these types, but where the board holds no turn
    and may hold none: then [min] raises and the guard drops the rest of the call. *)

From S2P Require Import Prelude CoreTypes Json TurnState TurnEngine Samples TurnStore.

Definition LIVE_MAX_TURNS : nat := 64.
Definition HANDOVER_US : Z := 10000000.
Definition LIVE_TTL_US : Z := 180000000.
Definition RUNNING : string := "running".

Record LiveToolUse := mkToolUse { lu_count : Z; lu_completed : Z; lu_error_count : Z; lu_names : list string }.
Definition no_tools : LiveToolUse := mkToolUse 0 0 0 [].
(** [LiveToolUse.running] *)
Definition tools_running (u : LiveToolUse) : bool := u.(lu_completed) <? u.(lu_count).

Record LiveTurnView := mkLiveView {
  lv_turn_id : string;
  lv_conversation_id : string;
  lv_owner_id : string;
  lv_companion_id : string;
  lv_device_id : option string;
  lv_memory_realm_id : option string;
  lv_genome_id : option string;
  lv_genome_hash : option string;
  lv_trace_id : option string;
  lv_runtime_session_id : option string;
  lv_trigger : string;
  lv_input_modality : option string;
  lv_started_at : datetime;
  lv_status : string;
  lv_finished_at : option datetime;
  lv_latency_first_delta_ms : option Z;
  lv_tools : LiveToolUse;
}.
Record LiveEntry := mkEntry {
  le_view : LiveTurnView;
  le_touched_at : Z;
  le_started : Z;
  le_settled_at : option Z;
  le_tool_names : list string;
  le_tool_calls : Z;
  le_tool_results : Z;
  le_tool_errors : Z;
}.
Notation LiveBoard := (list (string * LiveEntry)).

(** [_optional] *)
Definition optional_text (o : option string) : option string := match o with Some s => if is_empty s then None else Some s | None => None end.

(** [_with] *)
Definition with_status (status : string) (finished_at : datetime) (v : LiveTurnView) : LiveTurnView :=
  mkLiveView v.(lv_turn_id) v.(lv_conversation_id) v.(lv_owner_id) v.(lv_companion_id) v.(lv_device_id) v.(lv_memory_realm_id) v.(lv_genome_id) v.(lv_genome_hash)
    v.(lv_trace_id) v.(lv_runtime_session_id) v.(lv_trigger) v.(lv_input_modality) v.(lv_started_at) status (Some finished_at) v.(lv_latency_first_delta_ms) v.(lv_tools).
Definition with_first_delta (ms : Z) (v : LiveTurnView) : LiveTurnView :=
  mkLiveView v.(lv_turn_id) v.(lv_conversation_id) v.(lv_owner_id) v.(lv_companion_id) v.(lv_device_id) v.(lv_memory_realm_id) v.(lv_genome_id) v.(lv_genome_hash)
    v.(lv_trace_id) v.(lv_runtime_session_id) v.(lv_trigger) v.(lv_input_modality) v.(lv_started_at) v.(lv_status) v.(lv_finished_at) (Some ms) v.(lv_tools).
Definition with_tools (u : LiveToolUse) (v : LiveTurnView) : LiveTurnView :=
  mkLiveView v.(lv_turn_id) v.(lv_conversation_id) v.(lv_owner_id) v.(lv_companion_id) v.(lv_device_id) v.(lv_memory_realm_id) v.(lv_genome_id) v.(lv_genome_hash)
    v.(lv_trace_id) v.(lv_runtime_session_id) v.(lv_trigger) v.(lv_input_modality) v.(lv_started_at) v.(lv_status) v.(lv_finished_at) v.(lv_latency_first_delta_ms) u.

Section Board.
(** [repr] of a string, for [str] of an event's data, and the three settings *)
Context (str_repr : string -> string) (max_turns : nat) (ttl_us handover_us : Z).

(** ** The operations *)

Definition live_expired (now : Z) (e : LiveEntry) : bool :=
  match e.(le_settled_at) with
  | Some t => handover_us <=? now - t
  | None => e.(le_touched_at) <? now - ttl_us
  end.
(** [_sweep] *)
Definition live_sweep (now : Z) (b : LiveBoard) : LiveBoard := List.filter (fun x => negb (live_expired now x.2)) b.

(** [min(..., key=touched_at)]: the first of the least *)
Definition older (x y : LiveEntry) : LiveEntry := if y.(le_touched_at) <? x.(le_touched_at) then y else x.
Definition oldest_entry (b : LiveBoard) : option LiveEntry :=
  match map snd b with [] => None | e :: rest => Some (fold_left older rest e) end.

Definition new_entry (ti : TurnInput) (now : Z) (wall : datetime) : LiveEntry :=
  let c := ti.(ti_context) in
  mkEntry
    (mkLiveView ti.(ti_turn_id) ti.(ti_conversation_id) c.(owner_id) c.(companion_id) (optional_text c.(device_id)) (optional_text (Some c.(memory_realm_id)))
       (optional_text (Some c.(genome_id))) (optional_text (Some c.(genome_hash))) (optional_text (Some c.(trace_id))) (optional_text (Some ti.(ti_session_id)))
       (trigger_value ti.(ti_trigger)) (optional_text (Some ti.(ti_input_modality))) wall RUNNING None None no_tools)
    now now None [] 0 0 0.

(** [_begin] *)
Definition live_begin (ti : TurnInput) (now : Z) (wall : datetime) (b : LiveBoard) : LiveBoard :=
  let b := live_sweep now b in
  if bool_decide (max_turns <= length b)%nat && negb (dict_has b ti.(ti_turn_id)) then
    match oldest_entry b with
    | None => b
    | Some oldest => dict_set (dict_pop b oldest.(le_view).(lv_turn_id)) ti.(ti_turn_id) (new_entry ti now wall)
    end
  else dict_set b ti.(ti_turn_id) (new_entry ti now wall).

(** [_text(data.get(key))] *)
Definition data_text (ev : TurnEvent) (key : string) : string :=
  match dict_get ev.(ev_data) key with None | Some VNone => "" | Some v => py_str str_repr v end.
(** [str(data.get("status") or "")], with what an error without one and no status at all are called *)
Definition final_status (ev : TurnEvent) : string :=
  let status := match dict_get ev.(ev_data) "status" with Some v => if truthy v then py_str str_repr v else "" | None => "" end in
  let status := if bool_decide (ev.(ev_kind) = EventKind.ERROR) && is_empty status then "errored" else status in
  str_or status "unknown".

Definition tool_use (e : LiveEntry) : LiveToolUse := mkToolUse e.(le_tool_calls) e.(le_tool_results) e.(le_tool_errors) e.(le_tool_names).
Definition touch_entry (now : Z) (e : LiveEntry) : LiveEntry :=
  mkEntry e.(le_view) now e.(le_started) e.(le_settled_at) e.(le_tool_names) e.(le_tool_calls) e.(le_tool_results) e.(le_tool_errors).
Definition set_view (f : LiveTurnView -> LiveTurnView) (e : LiveEntry) : LiveEntry :=
  mkEntry (f e.(le_view)) e.(le_touched_at) e.(le_started) e.(le_settled_at) e.(le_tool_names) e.(le_tool_calls) e.(le_tool_results) e.(le_tool_errors).
Definition count_call (name : string) (e : LiveEntry) : LiveEntry :=
  mkEntry e.(le_view) e.(le_touched_at) e.(le_started) e.(le_settled_at)
    (if negb (is_empty name) && negb (bool_decide (name ∈ e.(le_tool_names))) then e.(le_tool_names) ++ [name] else e.(le_tool_names))
    (e.(le_tool_calls) + 1) e.(le_tool_results) e.(le_tool_errors).
Definition count_result (failed : bool) (e : LiveEntry) : LiveEntry :=
  mkEntry e.(le_view) e.(le_touched_at) e.(le_started) e.(le_settled_at) e.(le_tool_names) e.(le_tool_calls) (e.(le_tool_results) + 1)
    (if failed then e.(le_tool_errors) + 1 else e.(le_tool_errors)).
Definition settle_entry (at_ : Z) (e : LiveEntry) : LiveEntry :=
  mkEntry e.(le_view) e.(le_touched_at) e.(le_started) (Some at_) e.(le_tool_names) e.(le_tool_calls) e.(le_tool_results) e.(le_tool_errors).
Definition show_tools (e : LiveEntry) : LiveEntry := set_view (with_tools (tool_use e)) e.

(** [_saw] on the entry of the event's turn *)
Definition saw_entry (ev : TurnEvent) (now : Z) (wall : datetime) (e : LiveEntry) : LiveEntry :=
  let e := touch_entry now e in
  match ev.(ev_kind) with
  | EventKind.DONE | EventKind.ERROR => set_view (with_status (final_status ev) wall) (settle_entry now e)
  | EventKind.DELTA =>
      match e.(le_view).(lv_latency_first_delta_ms) with
      | None => set_view (with_first_delta (Z.max 0 (Z.quot (now - e.(le_started)) 1000))) e
      | Some _ => e
      end
  | EventKind.TOOL_CALL => show_tools (count_call (data_text ev "name") e)
  | EventKind.TOOL_RESULT => show_tools (count_result (match dict_get ev.(ev_data) "ok" with Some (VBool false) => true | _ => false end) e)
  | _ => e
  end.
Definition live_saw (turn_id : string) (ev : TurnEvent) (now : Z) (wall : datetime) (b : LiveBoard) : LiveBoard :=
  match dict_get b turn_id with None => b | Some e => dict_set b turn_id (saw_entry ev now wall e) end.

(** [_end] *)
Definition live_end (turn_id : string) (b : LiveBoard) : LiveBoard :=
  match dict_get b turn_id with
  | Some e => match e.(le_settled_at) with Some _ => b | None => dict_pop b turn_id end
  | None => b
  end.

(** [snapshot]: what it returns, on the board it leaves *)
Definition filter_matches (filter : option string) (value : string) : bool := match filter with None => true | Some f => bool_decide (value = f) end.
Definition newest_view_first (x y : LiveTurnView) : bool := row_time y.(lv_started_at) <=? row_time x.(lv_started_at).
Definition board_views (owner companion : option string) (b : LiveBoard) : list LiveTurnView :=
  py_sorted newest_view_first
    (List.filter (fun v => filter_matches owner v.(lv_owner_id) && filter_matches companion v.(lv_companion_id)) (map (fun x => x.2.(le_view)) b)).
Definition live_snapshot (owner companion : option string) (now : Z) (b : LiveBoard) : list LiveTurnView * LiveBoard :=
  let b := live_sweep now b in (board_views owner companion b, b).

(** ** The steps, and the turns that run at once *)

Inductive live_label :=
  | LBegin (ti : TurnInput)
  | LSaw (turn_id : string) (ev : TurnEvent)
  | LEnd (turn_id : string)
  | LRead (owner companion : option string).
(** A call with the two clocks it reads *)
Record LiveCall := mkCall { lc_label : live_label; lc_now : Z; lc_wall : datetime }.

Definition live_step (b : LiveBoard) (c : LiveCall) : LiveBoard :=
  match c.(lc_label) with
  | LBegin ti => live_begin ti c.(lc_now) c.(lc_wall) b
  | LSaw id ev => live_saw id ev c.(lc_now) c.(lc_wall) b
  | LEnd id => live_end id b
  | LRead owner companion => (live_snapshot owner companion c.(lc_now) b).2
  end.
Definition live_run (calls : list LiveCall) : LiveBoard := fold_left live_step calls [].

(** [observe]: the consumer goes away after [stop] events, closing the generator or cancelled; [others] is what happens to the board before the
    [n]-th resumption, [clock] what its two clocks read then. What it yields, how it ends, the board it leaves. *)
Inductive ObservedEnd := ObReturned | ObRaised (e : exn) | ObClosed.
Fixpoint observe_from (n : nat) (stop : option nat) (turn_id : string) (events : list TurnEvent) (end_ : option exn) (others : nat -> LiveBoard -> LiveBoard)
    (clock : nat -> Z * datetime) (b : LiveBoard) : list TurnEvent * ObservedEnd * LiveBoard :=
  let b := others n b in
  if bool_decide (stop = Some n) then ([], ObClosed, live_end turn_id b)
  else
    match events with
    | [] => ([], match end_ with Some e => ObRaised e | None => ObReturned end, live_end turn_id b)
    | ev :: rest =>
        let '(yields, out, b) := observe_from (S n) stop turn_id rest end_ others clock (live_saw turn_id ev (clock n).1 (clock n).2 b) in
        (ev :: yields, out, b)
    end.
Definition observe (stop : option nat) (ti : TurnInput) (events : list TurnEvent) (end_ : option exn) (others : nat -> LiveBoard -> LiveBoard)
    (clock : nat -> Z * datetime) (start : Z * datetime) (b : LiveBoard) : list TurnEvent * ObservedEnd * LiveBoard :=
  observe_from 0 stop ti.(ti_turn_id) events end_ others clock (live_begin ti start.1 start.2 b).

(** [CompanionAgent.run_turn]: with no observer configured, the stream itself *)
Definition run_turn_observed (board : bool) (stop : option nat) (ti : TurnInput) (events : list TurnEvent) (end_ : option exn) (others : nat -> LiveBoard -> LiveBoard)
    (clock : nat -> Z * datetime) (start : Z * datetime) (b : LiveBoard) : list TurnEvent * ObservedEnd * LiveBoard :=
  if board then observe stop ti events end_ others clock start b
  else
    (match stop with Some n => firstn n events | None => events end,
     match stop with
     | Some n => if bool_decide (n <= length events)%nat then ObClosed else match end_ with Some e => ObRaised e | None => ObReturned end
     | None => match end_ with Some e => ObRaised e | None => ObReturned end
     end, b).

(** ** What the board may say of a turn: what the calls for this turn alone leave *)

Definition own_step (turn_id : string) (e : option LiveEntry) (c : LiveCall) : option LiveEntry :=
  match c.(lc_label) with
  | LBegin ti => if bool_decide (ti.(ti_turn_id) = turn_id) then Some (new_entry ti c.(lc_now) c.(lc_wall)) else e
  | LSaw id ev => if bool_decide (id = turn_id) then saw_entry ev c.(lc_now) c.(lc_wall) <$> e else e
  | LEnd id => if bool_decide (id = turn_id) then match e with Some x => if x.(le_settled_at) is Some _ then e else None | None => None end else e
  | LRead _ _ => e
  end.
Definition own_history (turn_id : string) (calls : list LiveCall) : option LiveEntry := fold_left (own_step turn_id) calls None.
End Board.

(** ** The board *)

Section Facts.
Context (str_repr : string -> string) (max_turns : nat) (ttl_us handover_us : Z).
Notation live_sweep := (live_sweep ttl_us handover_us).
Notation live_begin := (live_begin max_turns ttl_us handover_us).
Notation live_saw := (live_saw str_repr).
Notation saw_entry := (saw_entry str_repr).
Notation live_step := (live_step str_repr max_turns ttl_us handover_us).
Notation live_run := (live_run str_repr max_turns ttl_us handover_us).
Notation own_history := (own_history str_repr).
Notation observe_from := (observe_from str_repr).
Notation observe := (observe str_repr max_turns ttl_us handover_us).

Lemma sweep_sublist now (b : LiveBoard) : live_sweep now b `sublist_of` b.
Proof.
  unfold LiveTurns.live_sweep. induction b as [|x b IH]; simpl; [done|]. destruct (negb _); [by apply sublist_skip|by apply sublist_cons].
Qed.
Lemma sweep_nodup now (b : LiveBoard) : NoDup b.*1 -> NoDup (live_sweep now b).*1.
Proof. intros. unfold LiveTurns.live_sweep. by apply NoDup_map_filter. Qed.
Lemma sweep_get now (b : LiveBoard) id e : NoDup b.*1 -> dict_get (live_sweep now b) id = Some e -> dict_get b id = Some e.
Proof. intros Hb He%dict_get_elem. apply dict_elem_get; [done|]. unfold LiveTurns.live_sweep in He. by apply elem_of_filter_list in He as [? _]. Qed.
Lemma sweep_length now (b : LiveBoard) : (length (live_sweep now b) <= length b)%nat.
Proof. apply sublist_length, sweep_sublist. Qed.

Lemma pop_length {V} (d : list (string * V)) k : dict_has d k = true -> S (length (dict_pop d k)) = length d.
Proof.
  unfold dict_has. induction d as [|[k' v] d IH]; simpl; [done|]. case_decide; [done|]. intros H1. simpl. by rewrite IH.
Qed.
Lemma set_has_length {V} (d : list (string * V)) k v : dict_has d k = true -> length (dict_set d k v) = length d.
Proof.
  unfold dict_has. induction d as [|[k' v'] d IH]; simpl; [done|]. case_decide; [done|]. intros H1. simpl. by rewrite IH.
Qed.
Lemma pop_elem {V} (d : list (string * V)) k x : x ∈ dict_pop d k -> x ∈ d.
Proof.
  induction d as [|[k' v'] d IH]; simpl; [done|]. case_decide; [intros; by right|]. intros [->|?]%elem_of_cons; [by left|right; auto].
Qed.
Lemma has_elem {V} (d : list (string * V)) k v : (k, v) ∈ d -> dict_has d k = true.
Proof.
  intros Hin. unfold dict_has. destruct (dict_get d k) eqn:E; [done|]. apply dict_get_none in E. destruct E. apply list_elem_of_fmap. by exists (k, v).
Qed.

(** An entry shows what was counted; it runs until its turn said how it went. *)
Record EntryOk (id : string) (e : LiveEntry) : Prop := {
  eo_id : e.(le_view).(lv_turn_id) = id;
  eo_tools : e.(le_view).(lv_tools) = tool_use e;
  eo_status : match e.(le_settled_at) with None => e.(le_view).(lv_status) = RUNNING /\ e.(le_view).(lv_finished_at) = None | Some _ => e.(le_view).(lv_finished_at) <> None end;
  eo_errors : 0 <= e.(le_tool_errors) <= e.(le_tool_results);
  eo_names : NoDup e.(le_tool_names) /\ Z.of_nat (length e.(le_tool_names)) <= e.(le_tool_calls);
}.
Lemma new_entry_ok ti now wall : EntryOk ti.(ti_turn_id) (new_entry ti now wall).
Proof. split; try done. split; [constructor|done]. Qed.
Lemma saw_entry_ok id ev now wall e : EntryOk id e -> EntryOk id (saw_entry ev now wall e).
Proof.
  intros [H1 H2 H3 H4 [H5 H6]]. unfold LiveTurns.saw_entry.
  destruct (ev_kind ev); try (split; [done..|by split]).
  - cbn. destruct (lv_latency_first_delta_ms _); (split; [done..|by split]).
  - split; try done. cbn. destruct (negb (is_empty _)); cbn; [|split; [done|lia]]. case_bool_decide as Hin; cbn; [split; [done|lia]|].
    split; [apply NoDup_app; split_and!; [done|intros x Hx ->%list_elem_of_singleton; done|apply NoDup_singleton]|]. rewrite length_app. cbn. lia.
  - split; try done; cbn. destruct (match dict_get _ "ok" with Some _ => _ | None => _ end); lia.
Qed.

Definition LiveInv (b : LiveBoard) : Prop := NoDup b.*1 /\ (length b <= max_turns)%nat /\ forall id e, (id, e) ∈ b -> EntryOk id e.

Lemma oldest_in (b : LiveBoard) e : oldest_entry b = Some e -> exists id, (id, e) ∈ b.
Proof.
  unfold oldest_entry. destruct b as [|[id x] b]; [done|]. cbn [map snd]. intros [= <-].
  assert (fold_left older (map snd b) x ∈ x :: map snd b) as Hin.
  { apply (fold_left_inv (fun y => y ∈ x :: map snd b)); [by left|]. intros y z Hz Hy. unfold older. destruct (_ <? _); [by right|done]. }
  apply elem_of_cons in Hin as [->|Hin]; [exists id; by left|]. apply list_elem_of_fmap in Hin as ([id' e'] & -> & Hin). exists id'. by right.
Qed.

Lemma begin_inv ti now wall b : LiveInv b -> LiveInv (live_begin ti now wall b).
Proof.
  intros (Hn & Hl & Ho). unfold LiveTurns.live_begin. cbv zeta.
  assert (LiveInv (live_sweep now b)) as (Hn' & Hl' & Ho').
  { split_and!; [by apply sweep_nodup|pose proof (sweep_length now b); lia|]. intros id e Hin. apply Ho. unfold LiveTurns.live_sweep in Hin. by apply elem_of_filter_list in Hin as [? _]. }
  clear Hn Hl Ho. generalize dependent (live_sweep now b). clear b. intros b Hn Hl Ho.
  destruct (bool_decide (max_turns <= length b)%nat) eqn:Em; cbn [andb]; [destruct (dict_has b (ti_turn_id ti)) eqn:Eh; cbn [negb]|].
  - split_and!; [by apply dict_set_nodup|by rewrite set_has_length|]. intros id e [[-> ->]|?]%dict_set_elem; [apply new_entry_ok|by apply Ho].
  - destruct (oldest_entry b) as [o|] eqn:Eo; [|done]. apply oldest_in in Eo as [id Hid]. pose proof (eo_id _ _ (Ho _ _ Hid)) as Ev. rewrite Ev.
    split_and!; [by apply dict_set_nodup, dict_pop_nodup| |].
    + pose proof (pop_length b id (has_elem _ _ _ Hid)). pose proof (dict_set_length (dict_pop b id) (ti_turn_id ti) (new_entry ti now wall)). lia.
    + intros id' e [[-> ->]|?%pop_elem]%dict_set_elem; [apply new_entry_ok|by apply Ho].
  - apply bool_decide_eq_false in Em. split_and!; [by apply dict_set_nodup| |].
    + pose proof (dict_set_length b (ti_turn_id ti) (new_entry ti now wall)). lia.
    + intros id e [[-> ->]|?]%dict_set_elem; [apply new_entry_ok|by apply Ho].
Qed.

Lemma live_step_inv c b : LiveInv b -> LiveInv (live_step b c).
Proof.
  intros Hb. unfold LiveTurns.live_step. destruct (lc_label c) as [ti|id ev|id|owner companion].
  - by apply begin_inv.
  - destruct Hb as (Hn & Hl & Ho). unfold LiveTurns.live_saw. destruct (dict_get b id) as [e|] eqn:E; [|done].
    split_and!; [by apply dict_set_nodup|rewrite set_has_length; [done|unfold dict_has; by rewrite E]|].
    intros id' e' [[-> ->]|?]%dict_set_elem; [|by apply Ho]. apply saw_entry_ok, Ho. by apply dict_get_elem.
  - destruct Hb as (Hn & Hl & Ho). unfold live_end. destruct (dict_get b id) as [e|] eqn:E; [|done]. destruct (le_settled_at e); [done|].
    split_and!; [by apply dict_pop_nodup| |].
    + pose proof (pop_length b id) as Hp. unfold dict_has in Hp. rewrite E in Hp. specialize (Hp eq_refl). lia.
    + intros id' e' ?%pop_elem. by apply Ho.
  - destruct Hb as (Hn & Hl & Ho). cbn. split_and!; [by apply sweep_nodup|pose proof (sweep_length (lc_now c) b); lia|].
    intros id e Hin. apply Ho. unfold LiveTurns.live_sweep in Hin. by apply elem_of_filter_list in Hin as [? _].
Qed.
Lemma live_run_inv calls : LiveInv (live_run calls).
Proof.
  unfold LiveTurns.live_run. apply fold_left_inv; [|intros; by apply live_step_inv]. split_and!; [constructor|simpl; lia|by intros ? ? ?%elem_of_nil].
Qed.

(** A step leaves an entry as the turn's own step makes it. *)
Lemma step_own id c b e : LiveInv b -> dict_get (live_step b c) id = Some e ->
  own_step str_repr id (dict_get b id) c = Some e \/ (dict_get b id = Some e /\ own_step str_repr id (dict_get b id) c = dict_get b id).
Proof.
  intros (Hn & Hl & Ho). unfold LiveTurns.live_step, own_step. destruct (lc_label c) as [ti|id' ev|id'|owner companion].
  - unfold LiveTurns.live_begin. cbv zeta. pose proof (sweep_nodup (lc_now c) b Hn) as Hn'. pose proof (fun e => sweep_get (lc_now c) b id e Hn) as Hg.
    generalize dependent (live_sweep (lc_now c) b). intros s Hn' Hg.
    destruct (bool_decide _ && negb _) eqn:Ec; [destruct (oldest_entry s) as [o|] eqn:Eo|].
    + destruct (decide (ti_turn_id ti = id)) as [Hid|Hid]; [rewrite Hid, dict_get_set_eq, bool_decide_true by done; by left|].
      rewrite dict_get_set_ne, bool_decide_false by done. intros He. right. split; [|done]. apply Hg.
      destruct (decide (lv_turn_id (le_view o) = id)) as [E|]; [by rewrite E, dict_pop_get_eq in He|by rewrite dict_pop_get_ne in He].
    + intros He. destruct (decide (ti_turn_id ti = id)) as [Hid|Hid]; [exfalso|rewrite bool_decide_false by done; right; split; [by apply Hg|done]].
      apply andb_prop in Ec as [_ Ec%negb_true_iff]. unfold dict_has in Ec. by rewrite Hid, He in Ec.
    + destruct (decide (ti_turn_id ti = id)) as [Hid|Hid]; [rewrite Hid, dict_get_set_eq, bool_decide_true by done; by left|].
      rewrite dict_get_set_ne, bool_decide_false by done. intros He. right. by split; [apply Hg|].
  - unfold LiveTurns.live_saw. case_bool_decide as Hid; [subst id'|].
    + destruct (dict_get b id) as [x|] eqn:E; [|by rewrite E]. rewrite dict_get_set_eq. by left.
    + intros He. right. split; [|done]. destruct (dict_get b id') as [x|]; [by rewrite dict_get_set_ne in He|done].
  - unfold live_end. case_bool_decide as Hid; [subst id'|].
    + destruct (dict_get b id) as [x|] eqn:E; [|by rewrite E]. destruct (le_settled_at x) eqn:Es; [rewrite E; by left|]. by rewrite dict_pop_get_eq.
    + intros He. right. split; [|done]. destruct (dict_get b id') as [x|]; [|done]. destruct (le_settled_at x); [done|]. by rewrite dict_pop_get_ne in He.
  - cbn. intros He. right. split; [|done]. by eapply sweep_get.
Qed.

Lemma run_own id calls e : dict_get (live_run calls) id = Some e -> own_history id calls = Some e.
Proof.
  revert e. induction calls as [|c calls IH] using rev_ind; intros e; [done|].
  unfold LiveTurns.live_run, LiveTurns.own_history. rewrite !fold_left_app. cbn [fold_left]. fold (live_run calls) (own_history id calls). intros He.
  pose proof (live_run_inv calls) as Hinv.
  destruct (dict_get (live_run calls) id) as [x|] eqn:E.
  - rewrite (IH x eq_refl). apply step_own in He; [|done]. rewrite E in He. destruct He as [?|[? Heq]]; [done|congruence].
  - pose proof He as Ho. apply step_own in Ho; [|done]. rewrite E in Ho. destruct Ho as [Ho|[? _]]; [|done].
    unfold own_step in *. destruct (lc_label c) as [ti|id' ev|id'|owner companion]; try done; case_bool_decide; done.
Qed.

(** C37: However the turns of a process interleave and whenever the board is read: it holds at most
    as many turns as it may, and each view it shows is what the calls for this turn alone make
    of it, in the scope that was asked for; one that has not said how it went is running and was
    heard of within the time to live, one that has ended is shown with its end and only for the
    time of the handover. *)
Theorem board_says_what_turns_said calls owner companion now v : v ∈ (live_snapshot ttl_us handover_us owner companion now (live_run calls)).1 ->
  (length (live_run calls) <= max_turns)%nat /\ filter_matches owner v.(lv_owner_id) = true /\ filter_matches companion v.(lv_companion_id) = true /\
  exists e, own_history v.(lv_turn_id) calls = Some e /\ v = e.(le_view) /\ v.(lv_tools) = tool_use e /\
    match e.(le_settled_at) with
    | None => v.(lv_status) = RUNNING /\ v.(lv_finished_at) = None /\ now - ttl_us <= e.(le_touched_at)
    | Some at_ => v.(lv_finished_at) <> None /\ now - at_ < handover_us
    end.
Proof.
  pose proof (live_run_inv calls) as (Hn & Hl & Ho). unfold live_snapshot, board_views. cbn [fst]. rewrite py_sorted_perm.
  intros [Hv [Hown Hcomp]%andb_prop]%elem_of_filter_list. apply list_elem_of_fmap in Hv as ([id e] & -> & Hin). cbn [snd] in *.
  unfold LiveTurns.live_sweep in Hin. apply elem_of_filter_list in Hin as [Hin Hex%negb_true_iff]. pose proof (Ho _ _ Hin) as [H1 H2 H3 _ _].
  split_and!; [done..|]. exists e. split_and!; [|done..|].
  - apply run_own. rewrite H1. by apply dict_elem_get.
  - unfold live_expired in Hex. cbn [snd] in Hex. destruct (le_settled_at e); [|destruct H3; split_and!; [done..|]; lia]. split; [done|lia].
Qed.

(** *** Observing *)

Lemma end_drops id b : NoDup b.*1 -> match dict_get (live_end id b) id with Some e => e.(le_settled_at) <> None | None => True end.
Proof.
  intros Hb. unfold live_end. destruct (dict_get b id) as [e|] eqn:E; [|by rewrite E]. destruct (le_settled_at e) eqn:Es; [by rewrite E, Es|]. by rewrite dict_pop_get_eq.
Qed.

Lemma observe_from_drops stop id events end_ others clock n b yields out b' :
  (forall n b, NoDup b.*1 -> NoDup (others n b).*1) -> NoDup b.*1 ->
  observe_from n stop id events end_ others clock b = (yields, out, b') ->
  match dict_get b' id with Some e => e.(le_settled_at) <> None | None => True end.
Proof.
  intros Hothers. revert n b yields out. induction events as [|ev events IH]; intros n b yields out Hb; cbn [LiveTurns.observe_from];
    (case_bool_decide; [intros [= <- <- <-]; by apply end_drops, Hothers|]).
  - intros [= <- <- <-]. by apply end_drops, Hothers.
  - destruct (observe_from _ _ _ _ _ _ _ _) as [[ys o] b1] eqn:E. intros [= <- <- <-]. apply IH in E; [done|].
    unfold LiveTurns.live_saw. destruct (dict_get (others n b) id); [apply dict_set_nodup|]; by apply Hothers.
Qed.
Lemma observe_from_stream stop id events end_ others clock n b :
  let '(yields, out, _) := observe_from n (option_map (fun k => n + k)%nat stop) id events end_ others clock b in
  yields = match stop with Some k => firstn k events | None => events end /\
  out = match stop with
        | Some k => if bool_decide (k <= length events)%nat then ObClosed else match end_ with Some e => ObRaised e | None => ObReturned end
        | None => match end_ with Some e => ObRaised e | None => ObReturned end
        end.
Proof.
  revert n stop b. induction events as [|ev events IH]; intros n stop b; cbn [LiveTurns.observe_from].
  - destruct stop as [[|k]|]; cbn [option_map].
    + rewrite Nat.add_0_r, bool_decide_true by done. by rewrite bool_decide_true by (cbn; lia).
    + rewrite bool_decide_false by (intros [= E]; lia). rewrite bool_decide_false by (cbn; lia). by rewrite take_nil.
    + by rewrite bool_decide_false.
  - destruct stop as [[|k]|]; cbn [option_map].
    + rewrite Nat.add_0_r, bool_decide_true by done. by rewrite bool_decide_true by (cbn; lia).
    + rewrite bool_decide_false by (intros [= E]; lia). specialize (IH (S n) (Some k)). cbn [option_map] in IH. rewrite <- Nat.add_succ_comm.
      match goal with |- context [observe_from (S n) _ _ _ _ _ _ ?b1] => specialize (IH b1); destruct (observe_from _ _ _ _ _ _ _ b1) as [[ys o] b2] end.
      destruct IH as [-> ->]. split; [done|]. cbn [length]. destruct (decide (k <= length events)%nat); [rewrite !bool_decide_true by lia|rewrite !bool_decide_false by lia]; done.
    + rewrite bool_decide_false by done. specialize (IH (S n) None). cbn [option_map] in IH.
      match goal with |- context [observe_from (S n) _ _ _ _ _ _ ?b1] => specialize (IH b1); destruct (observe_from _ _ _ _ _ _ _ b1) as [[ys o] b2] end.
      by destruct IH as [-> ->].
Qed.

(** Observing a turn changes nothing for its caller: whatever others do to the board meanwhile, the events and the end are
    those of a turn that nobody observes, and when it is over the board holds the turn only if the turn said how it went. *)
Theorem observing_changes_nothing stop ti events end_ others clock start b :
  (forall n b, NoDup b.*1 -> NoDup (others n b).*1) -> LiveInv b ->
  let '(yields, out, b') := run_turn_observed str_repr max_turns ttl_us handover_us true stop ti events end_ others clock start b in
  (yields, out) = (run_turn_observed str_repr max_turns ttl_us handover_us false stop ti events end_ others clock start b).1 /\
  match dict_get b' ti.(ti_turn_id) with Some e => e.(le_settled_at) <> None | None => True end.
Proof.
  intros Hothers Hb. unfold run_turn_observed, LiveTurns.observe. destruct (begin_inv ti start.1 start.2 b Hb) as [Hn _].
  pose proof (observe_from_stream stop ti.(ti_turn_id) events end_ others clock 0 (live_begin ti start.1 start.2 b)) as Hs.
  replace (option_map (fun k => 0 + k)%nat stop) with stop in Hs by (by destruct stop).
  destruct (observe_from _ _ _ _ _ _ _ _) as [[yields out] b'] eqn:E. destruct Hs as [-> ->]. split; [done|].
  by apply observe_from_drops in E.
Qed.
End Facts.

(** ** A board with room for two *)

Definition live_input (id : string) : TurnInput :=
  let ti := sample_input "text" (Some "hi") in
  mkTurnInput id ti.(ti_conversation_id) ti.(ti_session_id) ti.(ti_context) ti.(ti_input_modality) ti.(ti_trigger) ti.(ti_runtime_config) ti.(ti_text)
    ti.(ti_has_feedback) ti.(ti_coordinated) ti.(ti_motion_tool) ti.(ti_channel_tools) ti.(ti_channel_capabilities).
Definition at_ms (l : live_label) (ms : Z) : LiveCall := mkCall l (ms * 1000) (mkDatetime (ms * 1000) (Some 0)).
Definition tool_called (name : string) : TurnEvent := mkEvent 1 EventKind.TOOL_CALL [("name", VStr name)].
Definition tool_answered : TurnEvent := mkEvent 2 EventKind.TOOL_RESULT [("ok", VBool false)].
Definition busy_minute : list LiveCall :=
  [at_ms (LBegin (live_input "a")) 0; at_ms (LBegin (live_input "b")) 10; at_ms (LSaw "a" (tool_called "weather")) 20; at_ms (LSaw "b" (event_delta 1 "hi" None)) 30;
   at_ms (LSaw "a" tool_answered) 40; at_ms (LSaw "b" (event_done 2 TurnStatus.OK [])) 50; at_ms (LEnd "b") 51].
Notation shown calls ms := (map (fun v => (v.(lv_turn_id), v.(lv_status), v.(lv_latency_first_delta_ms), v.(lv_tools)))
  (live_snapshot LIVE_TTL_US HANDOVER_US None None (ms * 1000) (live_run id 2 LIVE_TTL_US HANDOVER_US calls)).1).

(** A third turn takes the place of the one that was touched longest ago; an ended turn is served for ten seconds, a silent
    one for three minutes. *)
Example live_board :
  shown busy_minute 60 = [("b", "ok", Some 20, no_tools); ("a", "running", None, mkToolUse 1 1 1 ["weather"])] /\
  shown (busy_minute ++ [at_ms (LBegin (live_input "c")) 100]) 110 = [("c", "running", None, no_tools); ("b", "ok", Some 20, no_tools)] /\
  shown busy_minute 11000 = [("a", "running", None, mkToolUse 1 1 1 ["weather"])] /\
  shown busy_minute 181000 = [] /\
  shown (busy_minute ++ [at_ms (LEnd "a") 100]) 110 = [("b", "ok", Some 20, no_tools)].
Proof. split_and!; vm_compute; reflexivity. Qed.

Lemma board_says_what_turns_said_witness :
  let b := live_run id 2 LIVE_TTL_US HANDOVER_US busy_minute in
  let v := default (new_entry (live_input "") 0 (mkDatetime 0 None)) (dict_get b "a") in
  (length b <= 2)%nat /\ exists e, own_history id "a" busy_minute = Some e /\ v.(le_view) = e.(le_view).
Proof.
  intros b v.
  destruct (board_says_what_turns_said id 2 LIVE_TTL_US HANDOVER_US busy_minute None None 60000 v.(le_view)) as (Hl & _ & _ & e & He & Hv & _).
  - apply list_elem_of_In. vm_compute. right. left. reflexivity.
  - split; [exact Hl|]. exists e. split; [exact He|exact Hv].
Defined.

Lemma observing_changes_nothing_witness :
  let '(yields, out, b) := run_turn_observed id 2 LIVE_TTL_US HANDOVER_US true None (live_input "a") [event_delta 1 "hi" None] (Some Cancelled) (fun _ b => b)
    (fun n => (Z.of_nat n, mkDatetime 0 None)) (0, mkDatetime 0 None) [] in
  (yields, out) = ([event_delta 1 "hi" None], ObRaised Cancelled) /\ match dict_get b "a" with Some e => e.(le_settled_at) <> None | None => True end.
Proof.
  apply (observing_changes_nothing id 2 LIVE_TTL_US HANDOVER_US None (live_input "a") [event_delta 1 "hi" None] (Some Cancelled) (fun _ b => b)
    (fun n => (Z.of_nat n, mkDatetime 0 None)) (0, mkDatetime 0 None) []); [intros n b Hb; exact Hb|].
  split; [constructor|]. split; [simpl; lia|]. intros i e Hin. by apply elem_of_nil in Hin.
Defined.
