(* ===== verification/Conversations.v ===== *)
(** * [AgentConversationReader] of [infra/persistence/agent_runtime.py], [app/admin/routers/conversations.py] and the
      activity of [owner_runtime.py]: what the admin API reads of conversations.

    The tables are those of [TurnStore]; the turns still running come from the board of [LiveTurns]. Times are compared as
    instants; rows of one instant keep the order of the table, which SQL leaves open. No statement of the program
    writes the columns [title], [status] and [ended_at] of a conversation, nor the content type of a message. What
    pydantic demands of a turn's summary is a parameter, of the other responses it is left out, as are the observability
    summaries of the rows. *)

From S2P Require Import Prelude CoreTypes Json TurnState TurnEngine TurnStore LiveTurns.

(** [a or b] *)
Definition pv_or (a b : pyval) : pyval := if truthy a then a else b.

(** ** The rows *)

Record AdminRow := mkAdminRow {
  ad_id : string; ad_conversation_id : string; ad_seq : Z; ad_trigger : string; ad_input_modality : pyval; ad_runtime_session_id : pyval;
  ad_device_id : pyval; ad_started_at : datetime; ad_finished_at : datetime; ad_status : string; ad_triage_kind : pyval; ad_first_delta_ms : pyval;
  ad_total_ms : pyval; ad_tokens_in : pyval; ad_tokens_out : pyval; ad_cost : pyval; ad_model : pyval; ad_trace_id : pyval; ad_error_code : pyval;
  ad_metadata : list (string * pyval); ad_owner_id : string; ad_companion_id : string; ad_memory_realm_id : pyval; ad_genome_id : pyval;
  ad_genome_hash : pyval; ad_schema_version : pyval; ad_realizer_version : pyval; ad_conversation_title : option string;
}.

(** [_turn_row_to_admin_dict] *)
Definition turn_row_to_admin_dict (t : TurnRow) (c : ConversationRow) : AdminRow :=
  let metadata k := get_or t.(tr_row_metadata) k VNone in
  let metrics k := get_or t.(tr_metrics) k VNone in
  let about k := get_or c.(cv_metadata) k VNone in
  mkAdminRow t.(tr_turn_id) t.(tr_conversation_id) t.(tr_seq) t.(tr_trigger)
    (pv_or (metrics "input_modality") (metadata "input_modality"))
    (pv_or (VStr t.(tr_runtime_session_id)) (pv_or (metadata "runtime_session_id") (of_opt_str c.(cv_runtime_session_id))))
    (pv_or (of_opt_str t.(tr_device_id)) (pv_or (metrics "device_id") (pv_or (metadata "device_id") (of_opt_str c.(cv_device_id)))))
    t.(tr_started_at) t.(tr_finished_at) t.(tr_status) (pv_or (metrics "triage_kind") (metadata "triage_kind"))
    (metrics "latency_first_delta_ms") (metrics "total_latency_ms") (pv_or (metrics "tokens_in") (VInt 0)) (pv_or (metrics "tokens_out") (VInt 0))
    (pv_or (metrics "cost_usd_micro") (VInt 0)) (metrics "model") (pv_or (of_opt_str t.(tr_trace_id)) (metadata "trace_id")) (metrics "error_code")
    t.(tr_row_metadata) c.(cv_owner_id) c.(cv_companion_id) (pv_or (metadata "memory_realm_id") (about "memory_realm_id"))
    (pv_or (about "genome_id") (metadata "genome_id")) (pv_or (about "genome_hash") (metadata "genome_hash"))
    (pv_or (about "schema_version") (metadata "schema_version")) (pv_or (about "realizer_version") (metadata "realizer_version")) None.

(** ** Pages *)

Section Page.
Context {A : Type} (time : A -> Z).

(** [order_by(time.desc()).where(time < before).limit(limit)] *)
Definition later_first (x y : A) : bool := time y <=? time x.
Definition is_before (before : option datetime) (x : A) : bool := match before with None => true | Some b => time x <? row_time b end.
Definition page (limit : nat) (before : option datetime) (rows : list A) : list A := firstn limit (py_sorted later_first (List.filter (is_before before) rows)).
End Page.

(** ** [AgentConversationReader] *)

Definition in_scope (owner companion : option string) (c : ConversationRow) : bool := filter_matches owner c.(cv_owner_id) && filter_matches companion c.(cv_companion_id).

(** [list_conversations]: by [updated_at], then by id *)
Definition updated_first (x y : ConversationRow) : bool :=
  let t := row_time x.(cv_updated_at) in let u := row_time y.(cv_updated_at) in
  if u <? t then true else if t <? u then false else str_leb y.(cv_id) x.(cv_id).
Definition list_conversations (db : RuntimeDb) (owner companion : option string) (limit : nat) (before : option datetime) : list ConversationRow :=
  firstn limit (py_sorted updated_first
    (List.filter (fun c => in_scope owner companion c && is_before (fun c => row_time c.(cv_updated_at)) before c) db.(db_conversations))).

(** [last_conversation_at] *)
Definition later (t u : datetime) : datetime := if row_time t <? row_time u then u else t.
Definition note_companion (d : list (string * datetime)) (c : ConversationRow) : list (string * datetime) :=
  dict_set d c.(cv_companion_id) (match dict_get d c.(cv_companion_id) with Some t => later t c.(cv_updated_at) | None => c.(cv_updated_at) end).
Definition last_conversation_at (db : RuntimeDb) (owner : string) : list (string * datetime) :=
  List.filter (fun x => negb (is_empty x.1))
    (fold_left note_companion (List.filter (fun c => bool_decide (c.(cv_owner_id) = owner)) db.(db_conversations)) []).

Definition joined (db : RuntimeDb) : list (TurnRow * ConversationRow) :=
  List.flat_map (fun t => match get_conversation db t.(tr_conversation_id) with Some c => [(t, c)] | None => [] end) db.(db_turns).
Definition joined_time (x : TurnRow * ConversationRow) : Z := row_time x.1.(tr_started_at).
Definition admin_row (x : TurnRow * ConversationRow) : AdminRow := turn_row_to_admin_dict x.1 x.2.

Definition owned_turns (db : RuntimeDb) (owner companion : option string) : list (TurnRow * ConversationRow) := List.filter (fun x => in_scope owner companion x.2) (joined db).
Definition list_turns_by_owner (db : RuntimeDb) (owner companion : option string) (limit : nat) (before : option datetime) : list AdminRow :=
  map admin_row (page joined_time limit before (owned_turns db owner companion)).

Definition list_turns_for_conversation (db : RuntimeDb) (conversation_id owner companion : string) (limit : nat) (before : option datetime) : option (list AdminRow) :=
  match get_conversation db conversation_id with
  | None => None
  | Some c =>
      if negb (bool_decide (c.(cv_owner_id) = owner)) || negb (bool_decide (c.(cv_companion_id) = companion)) then None
      else
        Some (map (fun t => turn_row_to_admin_dict t c)
                (page (fun t => row_time t.(tr_started_at)) limit before
                   (List.filter (fun t => bool_decide (t.(tr_conversation_id) = conversation_id)) db.(db_turns))))
  end.
Definition read_turn (db : RuntimeDb) (turn_id : string) : option AdminRow :=
  admin_row <$> List.find (fun x => bool_decide (x.1.(tr_turn_id) = turn_id)) (joined db).

(** [_row_to_message] and [_message_view] *)
Record MessageView := mkMessageView {
  mv_id : string; mv_role : string; mv_content : string; mv_tokens : pyval; mv_model : pyval; mv_tool_call_id : pyval; mv_tool_name : pyval;
  mv_tool_arguments : pyval; mv_created_at : datetime;
}.
Definition message_view (row : MessageRow) : res MessageView :=
  let get k := get_or row.(mr_metadata) k VNone in
  if negb (existsb (fun r => bool_decide (role_value r = row.(mr_role))) [USER; ASSISTANT; SYSTEM; TOOL; PROACTIVE_ROLE]) then Err (PyError "ValueError" row.(mr_role))
  else Ok (mkMessageView row.(mr_id) row.(mr_role) row.(mr_content) (get "tokens") (get "model") (get "tool_call_id") (get "tool_name") (get "tool_arguments")
             row.(mr_created_at)).

(** [list_for_turns]: by turn, then by [seq]; [list_for_turn] *)
Definition row_order (x y : MessageRow) : bool :=
  if bool_decide (x.(mr_turn_id) = y.(mr_turn_id)) then x.(mr_seq) <=? y.(mr_seq) else str_leb x.(mr_turn_id) y.(mr_turn_id).
Definition group_message (d : list (string * list MessageView)) (x : string * MessageView) : list (string * list MessageView) :=
  dict_set d x.1 (default [] (dict_get d x.1) ++ [x.2]).
Definition list_for_turns (db : RuntimeDb) (turn_ids : list string) : res (list (string * list MessageView)) :=
  match turn_ids with
  | [] => Ok []
  | _ =>
      views ← mapM (fun row => v ← message_view row; Ok (row.(mr_turn_id), v))
        (py_sorted row_order (List.filter (fun m => bool_decide (m.(mr_turn_id) ∈ turn_ids)) db.(db_messages)));
      Ok (fold_left group_message views (fold_left (fun d id => dict_set d id []) turn_ids []))
  end.
Definition list_for_turn (db : RuntimeDb) (turn_id : string) : res (list MessageView) :=
  mapM message_view (py_sorted (fun x y => x.(mr_seq) <=? y.(mr_seq)) (List.filter (fun m => bool_decide (m.(mr_turn_id) = turn_id)) db.(db_messages))).

(** ** The routes *)

Record TurnSummary := mkTurnSummary {
  ts_turn_id : string; ts_trace_id : pyval; ts_conversation_id : string; ts_seq : Z; ts_owner_id : string; ts_companion_id : string;
  ts_memory_realm_id : pyval; ts_genome_id : pyval; ts_genome_hash : pyval; ts_trigger : string; ts_input_modality : pyval;
  ts_runtime_session_id : pyval; ts_device_id : pyval; ts_started_at : datetime; ts_finished_at : option datetime; ts_status : string;
  ts_triage_kind : pyval; ts_first_delta_ms : pyval; ts_total_ms : pyval; ts_tokens_in : pyval; ts_tokens_out : pyval; ts_model : pyval; ts_error_code : pyval;
}.
Definition turn_summary (r : AdminRow) : TurnSummary :=
  mkTurnSummary r.(ad_id) r.(ad_trace_id) r.(ad_conversation_id) r.(ad_seq) r.(ad_owner_id) r.(ad_companion_id) r.(ad_memory_realm_id) r.(ad_genome_id)
    r.(ad_genome_hash) r.(ad_trigger) r.(ad_input_modality) r.(ad_runtime_session_id) r.(ad_device_id) r.(ad_started_at) (Some r.(ad_finished_at)) r.(ad_status)
    r.(ad_triage_kind) r.(ad_first_delta_ms) r.(ad_total_ms) r.(ad_tokens_in) r.(ad_tokens_out) r.(ad_model) r.(ad_error_code).
(** [_live_turn_summary] *)
Definition live_turn_summary (v : LiveTurnView) : TurnSummary :=
  mkTurnSummary v.(lv_turn_id) (of_opt_str v.(lv_trace_id)) v.(lv_conversation_id) 0 v.(lv_owner_id) v.(lv_companion_id) (of_opt_str v.(lv_memory_realm_id))
    (of_opt_str v.(lv_genome_id)) (of_opt_str v.(lv_genome_hash)) v.(lv_trigger) (of_opt_str v.(lv_input_modality)) (of_opt_str v.(lv_runtime_session_id))
    (of_opt_str v.(lv_device_id)) v.(lv_started_at) v.(lv_finished_at) v.(lv_status) VNone (of_opt_int v.(lv_latency_first_delta_ms)) VNone (VInt 0) (VInt 0) VNone VNone.

Definition http_error (status detail : string) : exn := PyError "HTTPException" (status +:+ " " +:+ detail)%string.

Section Routes.
Context (check_summary : TurnSummary -> res unit) (str_repr : string -> string).

Definition checked_summary (s : TurnSummary) : res TurnSummary := _ ← check_summary s; Ok s.

(** [list_conversations] of the router *)
Definition conversations_route (db : option RuntimeDb) (owner companion : option string) (limit : nat) (before : option datetime)
    : res (list ConversationRow * option datetime) :=
  match db with
  | None => Err (http_error "503" "runtime_store not configured on admin app")
  | Some db =>
      let rows := list_conversations db owner companion limit before in
      Ok (rows, if bool_decide (length rows = limit) then cv_updated_at <$> last rows else None)
  end.

(** [list_turns]: [live] is what the board shows in this scope. *)
Definition list_turns (db : option RuntimeDb) (live : list LiveTurnView) (owner companion : option string) (limit : nat) (before : option datetime)
    : res (list TurnSummary * option datetime) :=
  match db with
  | None => Err (http_error "503" "runtime_store not configured on admin app")
  | Some db =>
      let rows := list_turns_by_owner db owner companion limit before in
      turns ← mapM (fun r => checked_summary (turn_summary r)) rows;
      live ← match before with None => mapM (fun v => checked_summary (live_turn_summary v)) live | Some _ => Ok [] end;
      let known := map ts_turn_id turns in
      let turns := List.filter (fun r => negb (bool_decide (r.(ts_turn_id) ∈ known))) live ++ turns in
      let dropped := bool_decide (limit < length turns)%nat in
      let turns := firstn limit turns in
      Ok (turns, if dropped || bool_decide (length rows = limit) then ts_started_at <$> last turns else None)
  end.

(** [list_memory_audit]: the rows whose trace tells of a memory write *)
Definition truthy_dict (v : pyval) (k : string) : res pyval :=
  match v with VDict d => let x := default VNone (dict_get d k) in Ok (if truthy x then x else VDict []) | _ => Err (PyError "AttributeError" "") end.
Definition audited_write (r : AdminRow) : res pyval := trace ← truthy_dict (VDict r.(ad_metadata)) "turn_trace"; truthy_dict trace "memory_write_trace".
Definition audit_row (r : AdminRow) : res (list (AdminRow * list (string * pyval))) :=
  w ← audited_write r;
  if negb (truthy w) then Ok [] else match w with VDict d => Ok [(r, d)] | _ => Err (PyError "AttributeError" "") end.
Definition memory_audit (db : option RuntimeDb) (owner companion : option string) (limit : nat) (before : option datetime)
    : res (list (AdminRow * list (string * pyval)) * option datetime) :=
  match db with
  | None => Err (http_error "503" "runtime_store not configured on admin app")
  | Some db =>
      let rows := list_turns_by_owner db owner companion limit before in
      out ← mapM audit_row rows;
      let out := concat out in
      Ok (out, if bool_decide (length rows = limit) then (fun x => x.1.(ad_started_at)) <$> last out else None)
  end.

(** [list_conversation_turns] *)
Definition conversation_not_found (conversation_id : string) : exn := http_error "404" ("conversation " +:+ str_repr conversation_id +:+ " not found").
Definition list_conversation_turns (db : option RuntimeDb) (conversation_id owner companion : string) (limit : nat) (before : option datetime)
    : res (list (AdminRow * list MessageView) * option datetime) :=
  match db with
  | None => Err (http_error "503" "runtime_store not configured on admin app")
  | Some db =>
      match list_turns_for_conversation db conversation_id owner companion limit before with
      | None => Err (conversation_not_found conversation_id)
      | Some rows =>
          messages ← list_for_turns db (map ad_id rows);
          Ok (map (fun r => (r, default [] (dict_get messages r.(ad_id)))) rows,
              if bool_decide (length rows = limit) then ad_started_at <$> last rows else None)
      end
  end.

(** [get_turn] *)
Definition get_turn_route (db : option RuntimeDb) (turn_id : string) : res (AdminRow * list MessageView) :=
  match db with
  | None => Err (http_error "503" "runtime_store not configured on admin app")
  | Some db =>
      match read_turn db turn_id with
      | None => Err (http_error "404" ("turn " +:+ str_repr turn_id +:+ " not found"))
      | Some r => messages ← list_for_turn db turn_id; Ok (r, messages)
      end
  end.

(** [list_owner_companion_activity]; [_utc_iso] restores the offset of a naive instant. *)
Definition utc (t : datetime) : datetime := match t.(dt_tz) with Some _ => t | None => mkDatetime t.(dt_us) (Some 0) end.
Definition companion_activity (db : option RuntimeDb) (owner : string) : res (list (string * datetime)) :=
  match db with
  | None => Err (http_error "503" "runtime_store not configured; conversation history cannot be read")
  | Some db => Ok (map (fun x => (x.1, utc x.2)) (py_sorted (fun x y => row_time y.2 <=? row_time x.2) (last_conversation_at db owner)))
  end.

(** A reader that follows the cursor, on tables that stay as they are *)
Fixpoint walk {R} (fuel : nat) (read : option datetime -> res (list R * option datetime)) (before : option datetime) : res (list R) :=
  match fuel with
  | O => Ok []
  | S fuel =>
      p ← read before;
      match p.2 with
      | None => Ok p.1
      | Some b => rest ← walk fuel read (Some b); Ok (p.1 ++ rest)
      end
  end.
End Routes.

(** ** Walking the pages *)

Section Walk.
Context {A R : Type} (time : A -> Z) (at_ : A -> datetime) (g : A -> R).
Context (at_time : forall x, row_time (at_ x) = time x).
Notation strict := (StronglySorted (fun x y => time y < time x)).

Lemma sorted_strict (l : list A) : NoDup (map time l) -> strict (py_sorted (later_first time) l).
Proof.
  intros Hn. assert (StronglySorted (fun x y => later_first time x y = true) (py_sorted (later_first time) l)) as Hs.
  { apply py_sorted_sorted; unfold later_first; intros; [destruct (Z.leb_spec (time y) (time x)); [by left|right; lia]|lia]. }
  assert (NoDup (map time (py_sorted (later_first time) l))) as Hn' by (by rewrite (py_sorted_perm (later_first time) l)).
  clear Hn. induction Hs as [|x s Hs IH Hx]; [constructor|]. simpl in Hn'. apply NoDup_cons in Hn' as [Hnx Hn']. constructor; [by apply IH|].
  apply Forall_forall. intros y Hy. rewrite Forall_forall in Hx. specialize (Hx y Hy). unfold later_first in Hx.
  assert (time y <> time x) as Hne; [|lia]. intros E. apply Hnx. rewrite <- E. apply list_elem_of_fmap. by exists y.
Qed.

Lemma page_sorted limit before (l : list A) :
  page time limit before l = firstn limit (List.filter (is_before time before) (py_sorted (later_first time) l)).
Proof.
  unfold page. rewrite py_sorted_filter; [done|..]; unfold later_first; intros; [destruct (Z.leb_spec (time y) (time x)); [by left|right; lia]|lia].
Qed.

(** What is before an element of a strictly sorted list is what follows it. *)
Lemma before_suffix pre x suf : strict (pre ++ x :: suf) -> List.filter (is_before time (Some (at_ x))) (pre ++ x :: suf) = suf.
Proof.
  intros Hs. induction pre as [|y pre IH]; simpl in *.
  - inversion Hs as [|? ? _ Hx]; subst. rewrite at_time. replace (time x <? time x) with false by lia.
    assert (forall y, y ∈ suf -> time y < time x) as Hlt by (rewrite Forall_forall in Hx; intros y Hy; by apply Hx).
    clear Hs Hx. induction suf as [|y suf IH]; [done|]. simpl. rewrite at_time. assert (time y < time x) by (apply Hlt; by left).
    replace (time y <? time x) with true by lia. f_equal. apply IH. intros z Hz. apply Hlt. by right.
  - inversion Hs as [|? ? Hs' Hy]; subst. rewrite at_time. rewrite Forall_forall in Hy. assert (time x < time y) by (apply Hy, elem_of_app; right; by left).
    replace (time y <? time x) with false by lia. by apply IH.
Qed.
Lemma strict_app_r (l1 l2 : list A) : strict (l1 ++ l2) -> strict l2.
Proof. induction l1 as [|x l1 IH]; simpl; [done|]. intros H. inversion H; subst. auto. Qed.

Lemma last_firstn (k : nat) (l : list A) x : last (firstn k l) = Some x -> exists pre suf, firstn k l = pre ++ [x] /\ l = pre ++ x :: suf /\ skipn k l = suf.
Proof.
  intros [pre Hp]%last_Some. exists pre, (skipn k l). split_and!; [done| |done]. pose proof (take_drop k l) as E.
  rewrite Hp, <- app_assoc in E. by simpl in E.
Qed.

(** A cursor at the last row of a page leaves what the page did not show. *)
Lemma cursor_rest (l : list A) (k : nat) x : strict l -> last (firstn k l) = Some x -> List.filter (is_before time (Some (at_ x))) l = skipn k l.
Proof. intros Hs (pre & suf & _ & -> & ->)%last_firstn. by apply before_suffix. Qed.
Lemma cursor_narrows (l : list A) b (k : nat) x : strict l -> last (firstn k (List.filter (is_before time (Some b)) l)) = Some x ->
  List.filter (is_before time (Some (at_ x))) l = skipn k (List.filter (is_before time (Some b)) l).
Proof.
  intros Hs Hl. assert (strict (List.filter (is_before time (Some b)) l)) as Hf.
  { clear Hl. induction Hs as [|y l Hs IH Hy]; simpl; [constructor|]. destruct (_ <? _); [|done]. constructor; [done|].
    apply Forall_forall. intros z [Hz _]%elem_of_filter_list. rewrite Forall_forall in Hy. by apply Hy. }
  rewrite <- (cursor_rest _ _ _ Hf Hl). clear Hf Hs. apply last_Some in Hl as [pre Hp].
  assert (x ∈ List.filter (is_before time (Some b)) l) as [_ Hx]%elem_of_filter_list.
  { rewrite <- (take_drop k (List.filter _ l)), Hp. apply elem_of_app. left. apply elem_of_app. right. by left. }
  simpl in Hx. clear Hp. induction l as [|y l IH]; [done|]. simpl. rewrite at_time. destruct (Z.ltb_spec (time y) (row_time b)); simpl; rewrite ?at_time.
  - by rewrite IH.
  - replace (time y <? time x) with false by lia. done.
Qed.

Definition next_cursor (limit : nat) (rows : list A) : option datetime := if bool_decide (length rows = limit) then at_ <$> last rows else None.
Lemma walk_pages limit (sorted : list A) read : strict sorted ->
  (forall b, read (Some b) = Ok (map g (firstn limit (List.filter (is_before time (Some b)) sorted)), next_cursor limit (firstn limit (List.filter (is_before time (Some b)) sorted)))) ->
  (0 < limit)%nat -> forall fuel b, (length (List.filter (is_before time (Some b)) sorted) < fuel)%nat ->
  walk fuel read (Some b) = Ok (map g (List.filter (is_before time (Some b)) sorted)).
Proof.
  intros Hs Hread Hl. induction fuel as [|fuel IH]; intros b Hf; [lia|]. cbn [walk]. rewrite Hread. cbn [mbind res_bind fst snd]. unfold next_cursor.
  set (r := List.filter (is_before time (Some b)) sorted) in *. case_bool_decide as Hfull.
  - destruct (last (firstn limit r)) as [x|] eqn:Elast; cbn [fmap option_fmap option_map].
    + pose proof (cursor_narrows _ _ _ _ Hs Elast) as Hrest. fold r in Hrest. rewrite IH.
      * cbn. rewrite Hrest, <- map_app. by rewrite take_drop.
      * rewrite Hrest, length_skipn. rewrite length_firstn in Hfull. lia.
    + apply last_None in Elast. rewrite Elast in Hfull. simpl in Hfull. lia.
  - rewrite length_firstn in Hfull. by rewrite firstn_all2 by lia.
Qed.
End Walk.

(** ** The theorems *)

Lemma mapM_all_ok {A B} (f : A -> res B) (g : A -> B) l : (forall x, f x = Ok (g x)) -> mapM f l = Ok (map g l).
Proof. intros Hf. induction l as [|x l IH]; [done|]. cbn [mapM]. rewrite Hf. cbn. by rewrite IH. Qed.

Section Facts.
Context (check_summary : TurnSummary -> res unit) (str_repr : string -> string).
Notation list_turns := (list_turns check_summary).

Definition shown_turn (x : TurnRow * ConversationRow) : TurnSummary := turn_summary (admin_row x).
Definition sorted_turns (db : RuntimeDb) (owner companion : option string) : list (TurnRow * ConversationRow) :=
  py_sorted (later_first joined_time) (owned_turns db owner companion).
(** The live turns that the first page does not have as rows *)
Definition first_live (db : RuntimeDb) (live : list LiveTurnView) (owner companion : option string) (limit : nat) : list TurnSummary :=
  List.filter (fun r => negb (bool_decide (r.(ts_turn_id) ∈ map ts_turn_id (map shown_turn (firstn limit (sorted_turns db owner companion)))))) (map live_turn_summary live).

Lemma rows_of_page db owner companion limit before :
  list_turns_by_owner db owner companion limit before = map admin_row (firstn limit (List.filter (is_before joined_time before) (sorted_turns db owner companion))).
Proof. unfold list_turns_by_owner. by rewrite page_sorted. Qed.

Lemma earlier_page db live owner companion limit b : (forall s, check_summary s = Ok tt) ->
  let rows := firstn limit (List.filter (is_before joined_time (Some b)) (sorted_turns db owner companion)) in
  list_turns (Some db) live owner companion limit (Some b) = Ok (map shown_turn rows, next_cursor (fun x => x.1.(tr_started_at)) limit rows).
Proof.
  intros Hc. cbv zeta. unfold Conversations.list_turns. rewrite rows_of_page.
  set (rows := firstn limit (List.filter _ _)). assert (length rows <= limit)%nat as Hlen by (unfold rows; rewrite length_firstn; lia).
  rewrite (mapM_all_ok _ turn_summary) by (intros x; unfold checked_summary; by rewrite Hc). cbn [mbind res_bind List.filter app].
  rewrite !map_map. fold shown_turn. rewrite length_map. cbv zeta.
  rewrite bool_decide_false by lia. cbn [orb]. rewrite firstn_all2 by (rewrite length_map; lia). unfold next_cursor. rewrite length_map.
  f_equal. f_equal. case_bool_decide; [|done]. change (map (fun x => turn_summary (admin_row x)) rows) with (shown_turn <$> rows). rewrite fmap_last. by destruct (last rows).
Qed.

Lemma filter_length {A} (f : A -> bool) l : (length (List.filter f l) <= length l)%nat.
Proof. induction l as [|x l IH]; simpl; [done|]. destruct (f x); simpl; lia. Qed.
Lemma before_none {A} (time : A -> Z) l : List.filter (is_before time None) l = l.
Proof. induction l as [|x l IH]; simpl; [done|by rewrite IH]. Qed.

Lemma newest_page db live owner companion limit : (forall s, check_summary s = Ok tt) -> (length live < limit)%nat ->
  let sorted := sorted_turns db owner companion in let L := first_live db live owner companion limit in
  list_turns (Some db) live owner companion limit None
    = Ok (L ++ map shown_turn (firstn (limit - length L) sorted),
          if bool_decide (limit < length L + length (firstn limit sorted))%nat || bool_decide (length (firstn limit sorted) = limit)
          then ts_started_at <$> last (L ++ map shown_turn (firstn (limit - length L) sorted)) else None) /\ (length L < limit)%nat.
Proof.
  intros Hc Hlive. cbv zeta. unfold Conversations.list_turns. rewrite rows_of_page, before_none.
  set (sorted := sorted_turns db owner companion).
  rewrite (mapM_all_ok _ turn_summary) by (intros x; unfold checked_summary; by rewrite Hc). cbn [mbind res_bind].
  rewrite (mapM_all_ok _ live_turn_summary) by (intros x; unfold checked_summary; by rewrite Hc). cbn [mbind res_bind]. cbv zeta.
  rewrite (map_map admin_row turn_summary). change (map (fun x => turn_summary (admin_row x)) (firstn limit sorted)) with (map shown_turn (firstn limit sorted)).
  fold (first_live db live owner companion limit). unfold first_live at 1 2 3 4 5 6. fold sorted.
  set (L := List.filter _ (map live_turn_summary live)).
  assert (length L < limit)%nat as HL by (unfold L; pose proof (filter_length (fun r => negb (bool_decide (ts_turn_id r ∈ map ts_turn_id (map shown_turn (firstn limit sorted))))) (map live_turn_summary live)); rewrite length_map in *; lia).
  split; [|exact HL]. clearbody L. rewrite length_app, !length_map.
  rewrite (firstn_app limit L), (firstn_all2 L) by lia. rewrite firstn_map, firstn_firstn. by replace (min (limit - length L) limit) with (limit - length L)%nat by lia.
Qed.


(** *** Transcripts *)

Lemma group_messages_in views d id m : m ∈ default [] (dict_get (fold_left group_message views d) id) -> m ∈ default [] (dict_get d id) \/ (id, m) ∈ views.
Proof.
  revert d. induction views as [|[k v] views IH]; simpl; intros d; [by left|]. intros [Hm|Hm]%IH; [|right; by right].
  unfold group_message in Hm. cbn [fst snd] in Hm. destruct (decide (k = id)) as [->|Hk].
  - rewrite dict_get_set_eq in Hm. cbn in Hm. apply elem_of_app in Hm as [?| ->%list_elem_of_singleton]; [by left|right; by left].
  - rewrite dict_get_set_ne in Hm by done. by left.
Qed.
Lemma empty_groups (ids : list string) d (id : string) : default [] (dict_get d id) = [] -> default [] (dict_get (fold_left (fun d id => dict_set d id ([] : list MessageView)) ids d) id) = [].
Proof.
  revert d. induction ids as [|i ids IH]; simpl; intros d Hd; [done|]. apply IH. destruct (decide (i = id)) as [->|]; [by rewrite dict_get_set_eq|by rewrite dict_get_set_ne].
Qed.
Lemma res_mapM_elem {A B} (f : A -> res B) l l' : mapM f l = Ok l' -> forall y, y ∈ l' -> exists x, x ∈ l /\ f x = Ok y.
Proof.
  revert l'. induction l as [|x l IH]; intros l'; cbn [mapM]; [by intros [= <-] ? ?%elem_of_nil|].
  intros (y & Hy & (ys & Hys & [= <-])%res_bind_ok)%res_bind_ok z [->|Hz]%elem_of_cons; [exists x; split; [by left|done]|].
  destruct (IH ys Hys z Hz) as (w & ? & ?). exists w. split; [by right|done].
Qed.
Lemma list_for_turns_in db ids messages id m : list_for_turns db ids = Ok messages -> m ∈ default [] (dict_get messages id) ->
  exists row, row ∈ db.(db_messages) /\ row.(mr_turn_id) = id /\ message_view row = Ok m.
Proof.
  unfold list_for_turns. destruct ids as [|i ids]; [intros [= <-]; by intros ?%elem_of_nil|].
  intros (views & Hv & [= <-])%res_bind_ok [Hm|Hm]%group_messages_in.
  - rewrite empty_groups in Hm; [by apply elem_of_nil in Hm|]. cbn. by case_decide.
  - apply (res_mapM_elem _ _ _ Hv) in Hm as (row & Hrow & (v & Hview & [= <- <-])%res_bind_ok). rewrite py_sorted_perm in Hrow.
    apply elem_of_filter_list in Hrow as [Hrow _]. by exists row.
Qed.

Definition conversation_of (db : RuntimeDb) (conversation_id owner companion : string) : Prop :=
  exists c, get_conversation db conversation_id = Some c /\ c.(cv_owner_id) = owner /\ c.(cv_companion_id) = companion.

(** Whoever asks for a transcript gets the one answer for a conversation that does not exist and for one that belongs to
    another owner or companion; otherwise every turn is one of this conversation, and every message one
    that is stored for its turn. *)
Theorem transcripts_are_scoped db conversation_id owner companion limit before :
  (~ conversation_of db conversation_id owner companion ->
     list_conversation_turns str_repr (Some db) conversation_id owner companion limit before = Err (conversation_not_found str_repr conversation_id)) /\
  forall turns next, list_conversation_turns str_repr (Some db) conversation_id owner companion limit before = Ok (turns, next) ->
    conversation_of db conversation_id owner companion /\ (length turns <= limit)%nat /\
    forall r messages, (r, messages) ∈ turns ->
      (exists t, t ∈ db.(db_turns) /\ t.(tr_turn_id) = r.(ad_id) /\ t.(tr_conversation_id) = conversation_id) /\
      forall m, m ∈ messages -> exists row, row ∈ db.(db_messages) /\ row.(mr_turn_id) = r.(ad_id) /\ message_view row = Ok m.
Proof.
  unfold list_conversation_turns, list_turns_for_conversation, conversation_of. destruct (get_conversation db conversation_id) as [c|]; [|split; [done|done]].
  destruct (negb _ || negb _) eqn:Eg.
  - split; [done|]. done.
  - apply orb_false_iff in Eg as [Eo%negb_false_iff%bool_decide_eq_true Ec%negb_false_iff%bool_decide_eq_true].
    split; [intros []; by exists c|]. intros turns next (messages & Hm & [= <- <-])%res_bind_ok. split; [by exists c|].
    rewrite length_map, length_map. split; [unfold page; rewrite length_firstn; lia|].
    intros r ms Hr. apply list_elem_of_fmap in Hr as (r' & [= -> ->] & Hr). apply list_elem_of_fmap in Hr as (t & -> & Ht). split.
    + exists t. unfold page in Ht. apply elem_of_take in Ht as (i & Ht & _). apply list_elem_of_lookup_2 in Ht. rewrite py_sorted_perm in Ht.
      apply elem_of_filter_list in Ht as [Ht _]. apply elem_of_filter_list in Ht as [Ht E%bool_decide_eq_true]. by split_and!.
    + intros m Hmem. by eapply list_for_turns_in.
Qed.

(** *** The activity of the companions *)

Definition noted (d : list (string * datetime)) (l : list ConversationRow) : Prop :=
  NoDup d.*1 /\
  (forall c t, (c, t) ∈ d -> (exists cv, cv ∈ l /\ cv.(cv_companion_id) = c /\ cv.(cv_updated_at) = t) /\ forall cv, cv ∈ l -> cv.(cv_companion_id) = c -> row_time cv.(cv_updated_at) <= row_time t) /\
  forall cv, cv ∈ l -> cv.(cv_companion_id) ∈ d.*1.
Lemma note_noted d l cv : noted d l -> noted (note_companion d cv) (l ++ [cv]).
Proof.
  intros (Hn & Hd & Hl). unfold note_companion. set (k := cv_companion_id cv). set (t := match dict_get d k with Some _ => _ | None => _ end).
  assert ((exists x, x ∈ l ++ [cv] /\ cv_companion_id x = k /\ cv_updated_at x = t) /\ forall x, x ∈ l ++ [cv] -> cv_companion_id x = k -> row_time (cv_updated_at x) <= row_time t) as [Hex Hmax].
  { unfold t. destruct (dict_get d k) as [u|] eqn:Eu.
    - apply dict_get_elem, Hd in Eu as ((x & Hx & Hk & Hu) & Hall). unfold later. destruct (Z.ltb_spec (row_time u) (row_time (cv_updated_at cv))).
      + split; [exists cv; split_and!; [apply elem_of_app; right; by left|done..]|]. intros y [Hy| ->%list_elem_of_singleton]%elem_of_app Hk'; [|done]. specialize (Hall y Hy Hk'). lia.
      + split; [exists x; split_and!; [apply elem_of_app; by left|done..]|]. intros y [Hy| ->%list_elem_of_singleton]%elem_of_app Hk'; [by apply Hall|done].
    - split; [exists cv; split_and!; [apply elem_of_app; right; by left|done..]|]. intros y [Hy| ->%list_elem_of_singleton]%elem_of_app Hk'; [|done].
      apply Hl in Hy. rewrite Hk' in Hy. apply dict_get_none in Eu. done. }
  split_and!; [by apply dict_set_nodup| |].
  - intros c u [[-> ->]|[Hc Hin]]%dict_set_elem_ne; [done| |done]. apply Hd in Hin as ((x & ? & ? & ?) & Hall).
    split; [exists x; split_and!; [apply elem_of_app; by left|done..]|]. intros y [Hy| ->%list_elem_of_singleton]%elem_of_app Hk'; [by apply Hall|by destruct Hc].
  - intros x [Hx| ->%list_elem_of_singleton]%elem_of_app.
    + apply Hl in Hx. destruct (decide (k ∈ d.*1)); [by rewrite dict_set_keys_in|rewrite dict_set_keys_new by done; apply elem_of_app; by left].
    + destruct (decide (k ∈ d.*1)); [by rewrite dict_set_keys_in|rewrite dict_set_keys_new by done; apply elem_of_app; right; by left].
Qed.

Lemma all_noted l : noted (fold_left note_companion l []) l.
Proof.
  induction l as [|cv l IH] using rev_ind; [split_and!; [constructor|by intros ? ? ?%elem_of_nil|by intros ? ?%elem_of_nil]|].
  rewrite fold_left_app. cbn [fold_left]. by apply note_noted.
Qed.
Lemma utc_time t : row_time (utc t) = row_time t.
Proof. unfold utc, row_time. destruct t as [us [off|]]; cbn; lia. Qed.

(** The activity of an owner has every companion of a conversation of the owner once, with the latest time one
    of these conversations was touched, and no other companion. *)
Theorem activity_is_the_latest db owner l : companion_activity (Some db) owner = Ok l ->
  NoDup (map fst l) /\
  (forall c t, (c, t) ∈ l -> c <> "" /\
     (exists cv, cv ∈ db.(db_conversations) /\ cv.(cv_owner_id) = owner /\ cv.(cv_companion_id) = c /\ t = utc cv.(cv_updated_at)) /\
     forall cv, cv ∈ db.(db_conversations) -> cv.(cv_owner_id) = owner -> cv.(cv_companion_id) = c -> row_time cv.(cv_updated_at) <= row_time t) /\
  forall cv, cv ∈ db.(db_conversations) -> cv.(cv_owner_id) = owner -> cv.(cv_companion_id) <> "" -> cv.(cv_companion_id) ∈ map fst l.
Proof.
  intros [= <-]. unfold last_conversation_at. set (owned := List.filter _ db.(db_conversations)).
  assert (forall cv, cv ∈ owned <-> cv ∈ db.(db_conversations) /\ cv.(cv_owner_id) = owner) as Howned.
  { intros cv. unfold owned. rewrite elem_of_filter_list, bool_decide_eq_true. done. }
  destruct (all_noted owned) as (Hn & Hd & Hl). rewrite map_map. cbn [fst]. split_and!.
  - rewrite (py_sorted_perm (fun x y => row_time y.2 <=? row_time x.2) _). by apply NoDup_map_filter.
  - intros c t Hin. apply list_elem_of_fmap in Hin as ([c' u] & [= -> ->] & Hin). rewrite py_sorted_perm in Hin.
    apply elem_of_filter_list in Hin as [Hin Hc%negb_true_iff%is_empty_false]. apply Hd in Hin as ((cv & [Hcv Ho]%Howned & Hk & <-) & Hmax).
    split_and!; [done|by exists cv|]. intros x Hx Hxo Hxc. rewrite utc_time. apply Hmax; [by apply Howned|done].
  - intros cv Hcv Ho Hc. assert (cv ∈ owned) as [[c u] [Hk Hin]]%Hl%list_elem_of_fmap by (by apply Howned). cbn in Hk. subst c.
    apply list_elem_of_fmap. exists (cv_companion_id cv, u). split; [done|]. rewrite py_sorted_perm. apply elem_of_filter_list. split; [done|].
    by apply negb_true_iff, is_empty_false.
Qed.
End Facts.

(** ** Concrete tables *)

Definition instant (us : Z) : datetime := mkDatetime us None.
Definition about_turn (turn conversation : string) (seq us : Z) (trace : list (string * pyval)) : TurnRow :=
  mkTurnRow turn conversation seq "s1" None "user_utterance" "ok" (instant us) (instant (us + 5)) None [] [("tokens_in", VInt 3)] trace.
Definition kitchen_talk : ConversationRow := mkConversation "c1" "owner" "companion" (Some "s1") None (instant 0) (instant 30) [].
Definition written : list (string * pyval) := [("turn_trace", VDict [("memory_write_trace", VDict [("trace_kind", VStr "observation")])])].
Definition small_db (turns : list TurnRow) : RuntimeDb :=
  mkDb [] [kitchen_talk] turns [mkMessageRow "m1" "t1" 0 "user" "hello" "normal" (instant 1) []; mkMessageRow "m2" "t2" 0 "user" "again" "normal" (instant 11) []].
Definition three_turns : RuntimeDb := small_db [about_turn "t1" "c1" 0 0 written; about_turn "t2" "c1" 1 10 []; about_turn "t3" "c1" 2 20 []].
Definition everyone : option string := None.
Notation turn_ids r := (map ts_turn_id <$> r).

Example walks :
  turn_ids (walk 9 (list_turns (fun _ => Ok tt) (Some three_turns) [] everyone everyone 2) None) = Ok ["t3"; "t2"; "t1"] /\
  fst <$> list_conversation_turns id (Some three_turns) "c1" "owner" "companion" 1 (Some (instant 20)) =
    Ok [(turn_row_to_admin_dict (about_turn "t2" "c1" 1 10 []) kitchen_talk, [mkMessageView "m2" "user" "again" VNone VNone VNone VNone VNone (instant 11)])] /\
  list_conversation_turns id (Some three_turns) "c1" "owner" "other" 9 None = Err (conversation_not_found id "c1").
Proof. split_and!; vm_compute; reflexivity. Qed.

(** Two turns that start at one instant: the one at the end of a page hides the other. *)
Example a_tie_is_skipped :
  turn_ids (walk 9 (list_turns (fun _ => Ok tt) (Some (small_db [about_turn "t1" "c1" 0 10 []; about_turn "t2" "c1" 1 10 []])) [] everyone everyone 1) None) = Ok ["t1"].
Proof. vm_compute. reflexivity. Qed.

(** A page of running turns alone: the turns that started after the oldest of them are never shown. *)
Example a_long_turn_hides_history :
  let running := (new_entry (live_input "t0") 0 (instant 5)).(le_view) in
  turn_ids (walk 9 (list_turns (fun _ => Ok tt) (Some three_turns) [running] everyone everyone 1) None) = Ok ["t0"; "t1"].
Proof. vm_compute. reflexivity. Qed.

(** A full page without a memory write ends the walk through the memory audit, though there is more. *)
Example the_audit_ends_early :
  (fun l => map (fun x => x.1.(ad_id)) l) <$> walk 9 (memory_audit (Some three_turns) everyone everyone 2) None = Ok [] /\
  (fun l => map (fun x => x.1.(ad_id)) l) <$> walk 9 (memory_audit (Some three_turns) everyone everyone 3) None = Ok ["t1"].
Proof. split; vm_compute; reflexivity. Qed.

(** The guard of a turn, a speculative one too, claims its conversation: nobody was answered yet, and the companion was
    spoken to. *)
Example a_claim_is_activity :
  (fun db => companion_activity (Some db) "owner") <$> conversation_guard (instant 7) (live_input "t1") (mkDb [] [] [] [])
    = Ok (Ok [("companion", mkDatetime 7 (Some 0))]).
Proof. vm_compute. reflexivity. Qed.


Lemma activity_is_the_latest_witness : NoDup (map fst [("companion", mkDatetime 30 (Some 0))]).
Proof. apply (activity_is_the_latest three_turns "owner" [("companion", mkDatetime 30 (Some 0))]). vm_compute. reflexivity. Defined.
