(* ===== verification/Access.v ===== *)
(** * [app/admin/authority.py], [app/transport/grpc/interceptors.py] with [_authorize_runtime] of [chat_servicer.py],
      [app/admin/routers/owner_runtime.py] and the deletions of [infra/persistence/runtime_store.py]: who may ask, and
      what it takes to forget an owner.

    The SDK's verifier of credentials is a parameter, as it answers at a moment; so are the store of revocations and the
    keys of an owner in it. FastAPI resolves the dependencies of a router before a route runs. What [context.abort]
    raises is an [AbortError] of the status and its details. SQLite enforces the foreign keys ([PRAGMA foreign_keys=ON]). *)

From S2P Require Import Prelude CoreTypes Json TurnState TurnEngine Personas RuntimeSession TurnStore LongTasks MemoryOutbox AuditOutbox Registry Signals LiveTurns Conversations.

(** ** The credential of the admin API *)

Definition SERVICE_TOKEN_ENV : string := "EIDOLON_AGENT_ADMIN_API_TOKEN".
Definition is_ascii (s : string) : bool := forallb (fun c => match c with String a "" => (N_of_ascii a <? 128)%N | _ => false end) (chars s).
(** [hmac.compare_digest] of two strings *)
Definition compare_digest (a b : string) : res bool :=
  if is_ascii a && is_ascii b then Ok (bool_decide (a = b)) else Err (PyError "TypeError" "comparing strings with non-ASCII characters is not supported").

(** [str.partition(" ")]: [None] without the separator *)
Fixpoint partition_space (l : list string) : option (list string * list string) :=
  match l with
  | [] => None
  | c :: rest => if bool_decide (c = " ") then Some ([], rest) else (fun x => (c :: x.1, x.2)) <$> partition_space rest
  end.

Section Credential.
Context (case_table : string -> string).

Definition expected_token (environ : option string) : string := py_strip (default "" environ).
Definition presented_token (authorization : option string) : string :=
  match partition_space (chars (default "" authorization)) with
  | Some (scheme, token) => if bool_decide (py_lower case_table (cat scheme) = "bearer") then py_strip (cat token) else ""
  | None => ""
  end.
Definition require_service_token (environ authorization : option string) : res unit :=
  let configured := expected_token environ in
  if is_empty configured then Err (http_error "503" ("Agent admin API credential is not configured (" +:+ SERVICE_TOKEN_ENV +:+ ")"))
  else
    same ← compare_digest (presented_token authorization) configured;
    if same : bool then Ok tt else Err (http_error "401" "Agent admin API credential is missing or wrong").

(** A route of a router with [AUTHORITY_DEPENDENCIES] *)
Definition admin_guarded {S A} (environ authorization : option string) (route : S -> S * res A) (s : S) : S * res A :=
  match require_service_token environ authorization with Ok _ => route s | Err e => (s, Err e) end.

(** The header carries this token. *)
Definition bears (authorization : option string) (token : string) : Prop :=
  exists scheme rest, chars (default "" authorization) = scheme ++ " " :: rest /\ " " ∉ scheme /\
    py_lower case_table (cat scheme) = "bearer" /\ py_strip (cat rest) = token.

Lemma partition_space_spec l a b : partition_space l = Some (a, b) <-> l = a ++ " " :: b /\ " " ∉ a.
Proof.
  revert a b. induction l as [|c l IH]; intros a b; cbn [partition_space].
  - split; [done|]. by intros [H _]; destruct a.
  - case_bool_decide as Ec.
    + subst c. split; [intros [= <- <-]; split; [done|set_solver]|]. intros [H Ha]. destruct a as [|x a]; [by injection H as <-|]. injection H as <- _. set_solver.
    + assert (c :: l = a ++ " " :: b /\ " " ∉ a <-> exists a', a = c :: a' /\ partition_space l = Some (a', b)) as ->.
      { split.
        - intros [H Ha]. destruct a as [|x a]; [by injection H as -> _|]. injection H as <- H. exists a. split; [done|]. apply IH. split; [done|set_solver].
        - intros (a' & -> & [-> Ha]%IH). split; [done|]. rewrite not_elem_of_cons. by split. }
      destruct (partition_space l) as [[u v]|]; cbn; naive_solver.
Qed.

Lemma presented_token_bears authorization token : token <> "" -> presented_token authorization = token <-> bears authorization token.
Proof.
  intros Ht. unfold presented_token, bears. destruct (partition_space _) as [[a b]|] eqn:E.
  - apply partition_space_spec in E as [E Ha]. rewrite E. case_bool_decide as Eb.
    + split; [intros <-; by exists a, b|]. intros (x & y & Hxy & Hx & _ & <-). apply (conj Hxy), partition_space_spec in Hx.
      rewrite (proj2 (partition_space_spec _ a b) (conj eq_refl Ha)) in Hx. by injection Hx as <- <-.
    + split; [congruence|]. intros (x & y & Hxy & Hx & Hb & _). apply (conj Hxy), partition_space_spec in Hx.
      rewrite (proj2 (partition_space_spec _ a b) (conj eq_refl Ha)) in Hx. by injection Hx as <- <-.
  - split; [congruence|]. intros (x & y & Hxy & Hx & _). apply (conj Hxy), partition_space_spec in Hx. congruence.
Qed.

(** A guarded route runs exactly for a request that bears the configured credential; every other request is
    refused and changes nothing. *)
Theorem admin_routes_need_the_credential {S A} environ authorization (route : S -> S * res A) s :
  let configured := expected_token environ in
  (configured <> "" /\ is_ascii configured = true /\ bears authorization configured /\
     admin_guarded environ authorization route s = route s) \/
  (~ (configured <> "" /\ is_ascii configured = true /\ bears authorization configured) /\
     exists e, admin_guarded environ authorization route s = (s, Err e) /\ require_service_token environ authorization = Err e /\
       (configured = "" -> e = http_error "503" ("Agent admin API credential is not configured (" +:+ SERVICE_TOKEN_ENV +:+ ")"))).
Proof.
  intros configured. unfold admin_guarded, require_service_token, compare_digest. fold configured. destruct (is_empty configured) eqn:Ee.
  - apply is_empty_spec in Ee. right. split; [by intros [? _]|]. by eexists.
  - apply is_empty_false in Ee. destruct (is_ascii configured) eqn:Ea.
    + rewrite andb_true_r. pose proof (presented_token_bears authorization configured Ee) as Hb. destruct (is_ascii (presented_token authorization)) eqn:Ep; cbn.
      * case_bool_decide as Es.
        -- left. split_and!; [done..| |done]. by apply Hb.
        -- right. split; [intros (_ & _ & Hx); by apply Es, Hb|]. by eexists.
      * right. split; [intros (_ & _ & Hx); apply Hb in Hx; congruence|]. by eexists.
    + right. split; [by intros (_ & ? & _)|]. rewrite andb_false_r. by eexists.
Qed.
End Credential.

(** ** The credential of the gRPC service *)

(** [context.abort] raises. *)
Definition rpc_abort (code details : string) : exn := PyError "AbortError" (code +:+ ": " +:+ details)%string.
(** [except C] for the class and those below it; the chain of bases is at most three long. *)
Definition derives_from (c d : eclass) : bool :=
  let up o := o ≫= ebase in
  bool_decide (Some d ∈ [Some c; ebase c; up (ebase c); up (up (ebase c))]).

(** The two context variables of an RPC *)
Record CallScope := mkCallScope { cs_identity : option Credential; cs_token : option string }.
Definition no_scope : CallScope := mkCallScope None None.

(** A signal of the wire *)
Record PushedSignal := mkPushed { pu_modality : string; pu_label : string; pu_confidence : float64 }.
Record ProactiveEvent := mkProactive { pe_instance_id : pyval; pe_intent : pyval; pe_text : pyval; pe_style_hint : pyval }.
Definition MODALITIES : list (string * SignalModality) :=
  [("asr", ASR); ("prosody", PROSODY); ("face", FACE); ("gaze", GAZE); ("ambient", AMBIENT); ("text_sentiment", TEXT_SENTIMENT)].
(** [_signal_from_proto] *)
Definition signal_of (now : Z) (p : PushedSignal) : RealtimeSignal :=
  Signals.mkSignal now (default AMBIENT (dict_get MODALITIES p.(pu_modality))) p.(pu_label) p.(pu_confidence).
(** [_presence_from_signal] *)
Definition presence_from_signal (modality label : string) : string :=
  if negb (bool_decide (modality = "ambient")) then "present" else if bool_decide (label ∈ ["away"; "distracted"; "present"]) then label else "present".

Section Rpc.
Context (case_table : string -> string) (verify : Z -> string -> res Credential) (float_of_int : Z -> res string) (at_ : CompanionRuntimeAuthority).
Context (pow_half : Z -> Z -> SpecFloat.spec_float).

(** [AuthInterceptor.intercept_service]: [_PUBLIC_METHODS] is empty. *)
Definition intercept (now : Z) (metadata : list (string * string)) : res CallScope :=
  let token := default "" (dict_get (fold_left (fun d x => dict_set d x.1 x.2) metadata []) "authorization") in
  if negb (String.prefix "bearer " (py_lower case_table token)) then Err (rpc_abort "UNAUTHENTICATED" "missing bearer token")
  else
    let raw := py_strip (cat (skipn 7 (chars token))) in
    match verify now raw with
    | Ok identity => Ok (mkCallScope (Some identity) (Some raw))
    | Err e => Err (if is_exception e then rpc_abort "UNAUTHENTICATED" (exn_str e) else e)
    end.

(** [reauthenticate_current] *)
Definition reauthenticate_current (now : Z) (scope : CallScope) : res Credential :=
  match scope.(cs_token) with
  | Some raw => verify now raw
  | None => Err (PyError "RuntimeUnauthenticatedError" "runtime reauthentication is unavailable")
  end.

(** [_authorize_runtime] *)
Definition authorization_error (e : exn) : exn :=
  match e with
  | Eidolon c msg =>
      if derives_from c DependencyError then rpc_abort "UNAVAILABLE" msg
      else if derives_from c PermissionDeniedError then rpc_abort "PERMISSION_DENIED" msg
      else rpc_abort "FAILED_PRECONDITION" msg
  | _ => e
  end.
Definition authorize_runtime (allow_personal : bool) (identity : Credential) : res AuthorizedRuntimeSession :=
  if negb allow_personal then Err (rpc_abort "FAILED_PRECONDITION" "interactive runtime is supported only by the scoped Chat endpoint")
  else match authorize float_of_int at_ identity with Ok s => Ok s | Err e => Err (authorization_error e) end.

Definition current_identity (scope : CallScope) : res Credential :=
  match scope.(cs_identity) with Some identity => Ok identity | None => Err (rpc_abort "UNAUTHENTICATED" "no identity") end.

(** An RPC: the interceptor, then its handler *)
Definition serve {A} (now : Z) (metadata : list (string * string)) (handler : CallScope -> res A) : res A := scope ← intercept now metadata; handler scope.

(** The start of [Chat], and the renewal before a turn of a person *)
Definition chat_session (scope : CallScope) : res AuthorizedRuntimeSession := identity ← current_identity scope; authorize_runtime true identity.
Definition renew_session (now : Z) (scope : CallScope) : res AuthorizedRuntimeSession :=
  match reauthenticate_current now scope with
  | Ok renewed => authorize_runtime true renewed
  | Err e => Err (if is_exception e then rpc_abort "UNAUTHENTICATED" "personal runtime credential is no longer valid" else e)
  end.

(** [PushSignal] on the ring of signals and the states of the personas; [resolved] is the companion of the runtime. *)
Definition pushed_signal_to_persona (resolved : res string) (p : PushedSignal) (now fresh : datetime) (states : list (string * PersonaRuntimeState)) : list (string * PersonaRuntimeState) * res unit :=
  match companion_id ← resolved;
        _ ← (if unit_interval p.(pu_confidence) then Ok tt else Err (invalid "PersonaSignalInput"));
        submit_signal pow_half (Personas.mkSignal companion_id (Some p.(pu_label)) p.(pu_confidence) (presence_from_signal p.(pu_modality) p.(pu_label)) p.(pu_confidence))
          states now fresh with
  | Ok states => (states, Ok tt)
  | Err e => (states, if is_exception e then Ok tt else Err e)
  end.
Definition push_signal (personas : bool) (resolved : res string) (p : PushedSignal) (now_us : Z) (now fresh : datetime) (world : SignalBus * list (string * PersonaRuntimeState))
    (scope : CallScope) : (SignalBus * list (string * PersonaRuntimeState)) * res bool :=
  match identity ← current_identity scope; authorize_runtime false identity with
  | Err e => (world, Err e)
  | Ok s =>
      let bus := publish_signal s.(as_session_id) (signal_of now_us p) world.1 in
      if personas then let '(states, r) := pushed_signal_to_persona resolved p now fresh world.2 in ((bus, states), (fun _ => true) <$> r)
      else ((bus, world.2), Ok true)
  end.

(** [SubscribeProactive]: the pattern it subscribes to, and what it sends of the payloads published there *)
Definition proactive_event (payload : list (string * pyval)) : ProactiveEvent :=
  mkProactive (get_or payload "instance_id" (VStr "")) (get_or payload "intent" (VStr "")) (get_or payload "text" (VStr "")) (get_or payload "style_hint" (VStr "")).
Definition subscribe_proactive (payloads : list (list (string * pyval))) (scope : CallScope) : res (string * list ProactiveEvent) :=
  identity ← current_identity scope;
  s ← authorize_runtime false identity;
  Ok (("agent.proactive.triggered." +:+ as_companion_id s)%string, map proactive_event payloads).
End Rpc.

Section RpcFacts.
Context (case_table : string -> string) (verify : Z -> string -> res Credential) (float_of_int : Z -> res string) (at_ : CompanionRuntimeAuthority).
Context (pow_half : Z -> Z -> SpecFloat.spec_float).
Notation intercept := (intercept case_table verify).
Notation chat_session := (chat_session float_of_int at_).
Notation renew_session := (renew_session verify float_of_int at_).
Notation serve := (serve case_table verify).
Notation scoped := (scoped float_of_int at_).

(** The bearer token of an RPC: the last [authorization] of its metadata counts. *)
Definition rpc_token (metadata : list (string * string)) (raw : string) : Prop :=
  exists header, dict_get (fold_left (fun d x => dict_set d x.1 x.2) metadata []) "authorization" = Some header /\
    String.prefix "bearer " (py_lower case_table header) = true /\ raw = py_strip (cat (skipn 7 (chars header))).

Lemma intercept_spec now metadata scope : intercept now metadata = Ok scope <->
  exists raw identity, rpc_token metadata raw /\ verify now raw = Ok identity /\ scope = mkCallScope (Some identity) (Some raw).
Proof.
  unfold Access.intercept, rpc_token. destruct (dict_get _ "authorization") as [header|]; cbn [default id].
  - destruct (String.prefix _ _) eqn:Ep; cbn [negb].
    + destruct (verify now _) as [identity|e] eqn:Ev.
      * split; [intros [= <-]; eexists _, _; split; [by exists header|done]|]. intros (raw & i & (h & [= <-] & _ & ->) & Hv & ->). congruence.
      * split; [done|]. intros (raw & i & (h & [= <-] & _ & ->) & Hv & ->). congruence.
    + split; [done|]. intros (raw & i & (h & [= <-] & Hp & _) & _). congruence.
  - split; [done|]. by intros (? & ? & (? & [=] & _) & _).
Qed.

Lemma authorize_runtime_spec c s : authorize_runtime float_of_int at_ true c = Ok s <-> scoped c s.
Proof.
  unfold authorize_runtime. cbn [negb]. destruct (authorize float_of_int at_ c) as [s'|e] eqn:E.
  - split; [intros [= <-]; by apply authorize_scoped|]. intros Hs%scoped_authorize. congruence.
  - split; [done|]. intros Hs%scoped_authorize. congruence.
Qed.

(** A session is served exactly within the scope of an identity that the verifier finds in the bearer token of the
    call, and renewed exactly within that of what it finds in the same token now; the other two RPCs are refused
    whatever they carry, and change nothing. *)
Theorem only_scoped_chats_are_served now metadata :
  (forall s, serve now metadata chat_session = Ok s <-> exists raw identity, rpc_token metadata raw /\ verify now raw = Ok identity /\ scoped identity s) /\
  (forall scope later s, intercept now metadata = Ok scope ->
     renew_session later scope = Ok s <-> exists raw identity, rpc_token metadata raw /\ verify later raw = Ok identity /\ scoped identity s) /\
  (forall scope personas resolved p now_us at_time fresh world, exists e,
     push_signal float_of_int at_ pow_half personas resolved p now_us at_time fresh world scope = (world, Err e)) /\
  (forall scope payloads, exists e, subscribe_proactive float_of_int at_ payloads scope = Err e).
Proof.
  split_and!.
  - intros s. unfold Access.serve, Access.chat_session. rewrite res_bind_ok. split.
    + intros (scope & (raw & identity & Ht & Hv & ->)%intercept_spec & Hs). cbn in Hs. apply authorize_runtime_spec in Hs. by exists raw, identity.
    + intros (raw & identity & Ht & Hv & Hs). exists (mkCallScope (Some identity) (Some raw)). split; [apply intercept_spec; by exists raw, identity|].
      cbn. by apply authorize_runtime_spec.
  - intros scope later s (raw & identity & Ht & _ & ->)%intercept_spec. unfold Access.renew_session, reauthenticate_current. cbn [cs_token].
    assert (forall raw', rpc_token metadata raw' -> raw' = raw) as Hraw
      by (destruct Ht as (h & Eh & _ & ->); intros raw' (h' & Eh' & _ & ->); congruence).
    destruct (verify later raw) as [renewed|e] eqn:Ev.
    + rewrite authorize_runtime_spec. split; [by intros Hs; exists raw, renewed|].
      intros (raw' & identity' & Ht'%Hraw & Hv & Hs). subst raw'. congruence.
    + split; [done|]. intros (raw' & identity' & Ht'%Hraw & Hv & _). subst raw'. congruence.
  - intros scope personas resolved p now_us at_time fresh world. unfold push_signal, current_identity. destruct (cs_identity scope); by eexists.
  - intros scope payloads. unfold subscribe_proactive, current_identity. destruct (cs_identity scope); by eexists.
Qed.
End RpcFacts.

(** ** Forgetting: [delete_owner_runtime] and [delete_companion_runtime] *)

(** The tables of the store *)
Record RuntimeTables := mkTables {
  tb_db : RuntimeDb;
  tb_jobs : list JobRow;
  tb_outbox : list MemoryTurnOutboxRow;
  tb_audit : list AgentAuditOutboxRow;
}.

(** The two methods differ in the companion they ask for only; no companion equals a missing one. *)
Definition in_runtime_scope (owner : string) (companion : option string) (o : string) (c : option string) : bool :=
  bool_decide (o = owner) && match companion with None => true | Some x => bool_decide (c = Some x) end.
Section Scope.
Context (owner : string) (companion : option string).
Definition conversation_in (c : ConversationRow) : bool := in_runtime_scope owner companion c.(cv_owner_id) (Some c.(cv_companion_id)).
Definition job_in (j : JobRow) : bool := in_runtime_scope owner companion j.(jr_owner_id) j.(jr_companion_id).
Definition outbox_in (r : MemoryTurnOutboxRow) : bool := in_runtime_scope owner companion r.(ob_owner_id) (Some r.(ob_companion_id)).
Definition session_in (r : SessionRow) : bool := in_runtime_scope owner companion r.(sr_owner_id) (Some r.(sr_companion_id)).
End Scope.

(** [DELETE] of the conversations with [gone], and [ON DELETE CASCADE] to the turns and their messages *)
Definition delete_conversations (gone : ConversationRow -> bool) (db : RuntimeDb) : RuntimeDb :=
  let ids := map cv_id (List.filter gone db.(db_conversations)) in
  let orphan t := bool_decide (t.(tr_conversation_id) ∈ ids) in
  let turns := map tr_turn_id (List.filter orphan db.(db_turns)) in
  mkDb db.(db_sessions) (List.filter (fun c => negb (gone c)) db.(db_conversations)) (List.filter (fun t => negb (orphan t)) db.(db_turns))
    (List.filter (fun m => negb (bool_decide (m.(mr_turn_id) ∈ turns))) db.(db_messages)).
(** [ON DELETE SET NULL]: of a turn, whose session has an id, no id is none. *)
Definition unlink_conversation (gone : list string) (c : ConversationRow) : ConversationRow :=
  match c.(cv_runtime_session_id) with
  | Some s => if bool_decide (s ∈ gone) then mkConversation c.(cv_id) c.(cv_owner_id) c.(cv_companion_id) None c.(cv_device_id) c.(cv_started_at) c.(cv_updated_at) c.(cv_metadata)
              else c
  | None => c
  end.
Definition unlink_turn (gone : list string) (t : TurnRow) : TurnRow :=
  if bool_decide (t.(tr_runtime_session_id) ∈ gone)
  then mkTurnRow t.(tr_turn_id) t.(tr_conversation_id) t.(tr_seq) "" t.(tr_device_id) t.(tr_trigger) t.(tr_status) t.(tr_started_at) t.(tr_finished_at)
         t.(tr_trace_id) t.(tr_trace) t.(tr_metrics) t.(tr_row_metadata)
  else t.
Definition delete_sessions (gone : SessionRow -> bool) (db : RuntimeDb) : RuntimeDb :=
  let ids := map fst (List.filter (fun x => gone x.2) db.(db_sessions)) in
  mkDb (List.filter (fun x => negb (gone x.2)) db.(db_sessions)) (map (unlink_conversation ids) db.(db_conversations)) (map (unlink_turn ids) db.(db_turns)) db.(db_messages).

(** The counts by joins *)
Definition count_turns (p : ConversationRow -> bool) (db : RuntimeDb) : nat := length (List.filter (fun x => p x.2) (joined db)).
Definition message_conversation (db : RuntimeDb) (m : MessageRow) : option ConversationRow :=
  t ← TurnStore.get_turn db m.(mr_turn_id); get_conversation db t.(tr_conversation_id).
Definition count_messages (p : ConversationRow -> bool) (db : RuntimeDb) : nat :=
  length (List.filter (fun m => match message_conversation db m with Some c => p c | None => false end) db.(db_messages)).
Definition count_rows {A} (p : A -> bool) (l : list A) : nat := length (List.filter p l).

Definition delete_runtime (owner : string) (companion : option string) (tb : RuntimeTables) : RuntimeTables * list (string * nat) :=
  let db := tb.(tb_db) in
  let conversations := conversation_in owner companion in
  let counts := [("messages", count_messages conversations db); ("turns", count_turns conversations db);
                 ("memory_turn_outbox", count_rows (outbox_in owner companion) tb.(tb_outbox))] in
  let outbox := List.filter (fun r => negb (outbox_in owner companion r)) tb.(tb_outbox) in
  let jobs := List.filter (fun j => negb (job_in owner companion j)) tb.(tb_jobs) in
  let db' := delete_sessions (session_in owner companion) (delete_conversations conversations db) in
  (mkTables db' jobs outbox tb.(tb_audit),
   counts ++ [("jobs", count_rows (job_in owner companion) tb.(tb_jobs)); ("conversations", count_rows conversations db.(db_conversations));
              ("runtime_sessions", count_rows (fun x => session_in owner companion x.2) db.(db_sessions))]).
Definition delete_owner_runtime (owner : string) : RuntimeTables -> RuntimeTables * list (string * nat) := delete_runtime owner None.
Definition delete_companion_runtime (owner companion : string) : RuntimeTables -> RuntimeTables * list (string * nat) := delete_runtime owner (Some companion).

(** ** The routes of an owner *)

Record RuntimeCompanion := mkRuntimeCompanion { rc_companion_id : string; rc_genome_id : string; rc_started_at : Z; rc_last_active_at : Z }.
(** [list_owner_runtime_companions] *)
Definition runtime_companions (registry : option AgentRegistry) (owner : string) : res (list RuntimeCompanion) :=
  match registry with
  | None => Err (http_error "503" "agent registry not configured; runtime state cannot be read")
  | Some r => Ok (map (fun i => mkRuntimeCompanion i.(ai_companion_id) i.(ai_genome_id) i.(ai_created_at) (last_use i)) (for_owner owner r))
  end.

Section Routes.
Context {K : Type} (kv_put : string -> string -> K -> res K) (owner_revocation_keys : string -> list string) (isoformat : datetime -> string).

(** The loop over the keys: what was written, and how it ended *)
Fixpoint put_all (keys : list string) (value : string) (kv : K) : K * res unit :=
  match keys with
  | [] => (kv, Ok tt)
  | key :: rest => match kv_put key value kv with Ok kv => put_all rest value kv | Err e => (kv, Err e) end
  end.

(** [app.state] as these routes use it *)
Record OwnerState := mkOwnerState { os_kv : option K; os_tables : option RuntimeTables }.

(** [revoke_owner_sessions] *)
Definition revoke_owner_sessions (now : datetime) (owner : string) (s : OwnerState) : OwnerState * res string :=
  match s.(os_kv) with
  | None => (s, Err (http_error "503" "revocation_kv not configured on agent; the DEVICE_REVOCATIONS bucket failed to initialize at startup"))
  | Some kv => let '(kv, r) := put_all (owner_revocation_keys owner) (isoformat now) kv in
      (mkOwnerState (Some kv) s.(os_tables), (fun _ => isoformat now) <$> r)
  end.
(** [_write_owner_revocations] *)
Definition write_owner_revocations (now : datetime) (owner : string) (s : OwnerState) : OwnerState * res nat :=
  match s.(os_kv) with
  | None => (s, Ok 0%nat)
  | Some kv => let '(kv, r) := put_all (owner_revocation_keys owner) (isoformat now) kv in
      (mkOwnerState (Some kv) s.(os_tables), (fun _ => length (owner_revocation_keys owner)) <$> r)
  end.
(** [delete_owner_data], [delete_companion_data] *)
Definition delete_owner_data (now : datetime) (owner : string) (s : OwnerState) : OwnerState * res (list (string * nat) * nat) :=
  match s.(os_tables) with
  | None => (s, Err (http_error "503" "runtime_store not configured; cannot delete Agent runtime data"))
  | Some tables =>
      let '(s, written) := write_owner_revocations now owner s in
      match written with
      | Err e => (s, Err e)
      | Ok written => let '(tables, counts) := delete_owner_runtime owner tables in (mkOwnerState s.(os_kv) (Some tables), Ok (counts, written))
      end
  end.
Definition delete_companion_data (owner companion : string) (s : OwnerState) : OwnerState * res (list (string * nat) * nat) :=
  match s.(os_tables) with
  | None => (s, Err (http_error "503" "runtime_store not configured"))
  | Some tables => let '(tables, counts) := delete_companion_runtime owner companion tables in (mkOwnerState s.(os_kv) (Some tables), Ok (counts, 0%nat))
  end.
End Routes.

(** ** What is left *)

Section DeletionFacts.
Context (owner : string) (companion : option string).
Notation gone := (conversation_in owner companion).

(** The ids of the sessions that go *)
Definition gone_sessions (db : RuntimeDb) : list string := map fst (List.filter (fun x => session_in owner companion x.2) db.(db_sessions)).
(** A turn, and a message, of no conversation that goes *)
Definition turn_stays (db : RuntimeDb) (t : TurnRow) : Prop := forall c, c ∈ db.(db_conversations) -> c.(cv_id) = t.(tr_conversation_id) -> gone c = false.
Definition message_stays (db : RuntimeDb) (m : MessageRow) : Prop := forall t, t ∈ db.(db_turns) -> t.(tr_turn_id) = m.(mr_turn_id) -> turn_stays db t.
Definition row_counts (tb : RuntimeTables) : list (string * nat) :=
  [("messages", length tb.(tb_db).(db_messages)); ("turns", length tb.(tb_db).(db_turns)); ("memory_turn_outbox", length tb.(tb_outbox));
   ("jobs", length tb.(tb_jobs)); ("conversations", length tb.(tb_db).(db_conversations)); ("runtime_sessions", length tb.(tb_db).(db_sessions))].

Lemma conversation_in_scope c : in_scope (Some owner) companion c = gone c.
Proof.
  unfold in_scope, conversation_in, in_runtime_scope, filter_matches. f_equal. destruct companion as [x|]; [|done]. apply bool_decide_ext. naive_solver.
Qed.
Lemma length_filter_split {A} (p : A -> bool) l : (length (List.filter p l) + length (List.filter (fun x => negb (p x)) l))%nat = length l.
Proof. induction l as [|x l IH]; [done|]. cbn. destruct (p x); cbn; lia. Qed.

Lemma in_gone_ids db (t : TurnRow) : t.(tr_conversation_id) ∈ map cv_id (List.filter gone db.(db_conversations)) <-> ~ turn_stays db t.
Proof.
  unfold turn_stays. split.
  - intros (c & E & [Hc Hg]%elem_of_filter_list)%list_elem_of_fmap Hs. rewrite (Hs c Hc (eq_sym E)) in Hg. done.
  - intros Hs. apply dec_stable. intros Hn. apply Hs. intros c Hc E. apply not_true_iff_false. intros Hg. apply Hn, list_elem_of_fmap.
    exists c. split; [done|]. by apply elem_of_filter_list.
Qed.
#[local] Instance turn_stays_dec db t : Decision (turn_stays db t).
Proof.
  destruct (decide (t.(tr_conversation_id) ∈ map cv_id (List.filter gone db.(db_conversations)))) as [H|H]; [right; by apply in_gone_ids|left].
  intros c Hc E. apply not_true_iff_false. intros Hg. apply H, list_elem_of_fmap. exists c. split; [done|]. by apply elem_of_filter_list.
Qed.
Lemma orphan_stays db t : bool_decide (t.(tr_conversation_id) ∈ map cv_id (List.filter gone db.(db_conversations))) = negb (bool_decide (turn_stays db t)).
Proof. rewrite <- bool_decide_not. apply bool_decide_ext, in_gone_ids. Qed.
Lemma orphan_turns db : List.filter (fun t => bool_decide (t.(tr_conversation_id) ∈ map cv_id (List.filter gone db.(db_conversations)))) db.(db_turns)
  = List.filter (fun t => negb (bool_decide (turn_stays db t))) db.(db_turns).
Proof. apply filter_ext. intros t. apply orphan_stays. Qed.
Lemma in_gone_turns db (m : MessageRow) : m.(mr_turn_id) ∈ map tr_turn_id (List.filter (fun t => negb (bool_decide (turn_stays db t))) db.(db_turns)) <-> ~ message_stays db m.
Proof.
  unfold message_stays. split.
  - intros (t & E & [Ht Hs%negb_true_iff%bool_decide_eq_false]%elem_of_filter_list)%list_elem_of_fmap Hm. by apply Hs, Hm.
  - intros Hm. apply dec_stable. intros Hn. apply Hm. intros t Ht E. apply dec_stable. intros Hs. apply Hn, list_elem_of_fmap.
    exists t. split; [done|]. apply elem_of_filter_list. split; [done|]. by apply negb_true_iff, bool_decide_eq_false.
Qed.

(** Where the keys are unique, the joins count what the cascade removes. *)
Lemma get_conversation_unique db c : NoDup (map cv_id db.(db_conversations)) -> c ∈ db.(db_conversations) -> get_conversation db c.(cv_id) = Some c.
Proof.
  intros Hn Hc. unfold get_conversation. destruct (List.find _ _) as [d|] eqn:E.
  - apply find_some in E as [Hd%list_elem_of_In E%bool_decide_eq_true]. f_equal. by eapply NoDup_map_elem.
  - eapply find_none in E; [|by apply list_elem_of_In]. by apply bool_decide_eq_false in E.
Qed.
Lemma get_conversation_in db id c : get_conversation db id = Some c -> c ∈ db.(db_conversations) /\ c.(cv_id) = id.
Proof. unfold get_conversation. intros [Hc%list_elem_of_In E%bool_decide_eq_true]%find_some. done. Qed.
Lemma turn_counts db t : NoDup (map cv_id db.(db_conversations)) ->
  negb (bool_decide (turn_stays db t)) = match get_conversation db t.(tr_conversation_id) with Some c => gone c | None => false end.
Proof.
  intros Hn. destruct (get_conversation db _) as [c|] eqn:E.
  - apply get_conversation_in in E as [Hc E]. destruct (gone c) eqn:Eg.
    + apply negb_true_iff, bool_decide_eq_false. intros Hs. rewrite (Hs c Hc E) in Eg. done.
    + apply negb_false_iff, bool_decide_eq_true. intros d Hd Ed. by rewrite (NoDup_map_elem cv_id _ d c Hn Hd Hc ltac:(congruence)).
  - apply negb_false_iff, bool_decide_eq_true. intros d Hd Ed. pose proof (get_conversation_unique db d Hn Hd) as Hx. rewrite Ed in Hx. congruence.
Qed.
Lemma count_turns_spec db : NoDup (map cv_id db.(db_conversations)) ->
  count_turns gone db = length (List.filter (fun t => negb (bool_decide (turn_stays db t))) db.(db_turns)).
Proof.
  intros Hn. unfold count_turns, joined. induction (db_turns db) as [|t l IH]; [done|]. cbn [List.flat_map List.filter].
  rewrite List.filter_app, length_app, IH, (turn_counts db t Hn). destruct (get_conversation db _) as [c|]; [cbn; by destruct (gone c)|done].
Qed.
Lemma get_turn_unique db t : NoDup (map tr_turn_id db.(db_turns)) -> t ∈ db.(db_turns) -> TurnStore.get_turn db t.(tr_turn_id) = Some t.
Proof.
  intros Hn Ht. unfold TurnStore.get_turn. destruct (List.find _ _) as [d|] eqn:E.
  - apply find_some in E as [Hd%list_elem_of_In E%bool_decide_eq_true]. f_equal. by eapply NoDup_map_elem.
  - eapply find_none in E; [|by apply list_elem_of_In]. by apply bool_decide_eq_false in E.
Qed.
Lemma message_counts db m : NoDup (map cv_id db.(db_conversations)) -> NoDup (map tr_turn_id db.(db_turns)) ->
  bool_decide (m.(mr_turn_id) ∈ map tr_turn_id (List.filter (fun t => negb (bool_decide (turn_stays db t))) db.(db_turns)))
    = match message_conversation db m with Some c => gone c | None => false end.
Proof.
  intros Hc Ht. unfold message_conversation. destruct (TurnStore.get_turn db _) as [t|] eqn:E; cbn.
  - apply find_some in E as [Hin%list_elem_of_In E%bool_decide_eq_true]. rewrite <- turn_counts by done. destruct (decide (turn_stays db t)) as [Hs|Hs].
    + rewrite (bool_decide_true (turn_stays db t)) by done. apply bool_decide_eq_false. rewrite in_gone_turns. intros Hm. apply Hm. intros t' Hin' E'.
      by rewrite (NoDup_map_elem tr_turn_id _ t' t Ht Hin' Hin ltac:(congruence)).
    + rewrite (bool_decide_false (turn_stays db t)) by done. apply bool_decide_eq_true, in_gone_turns. intros Hm. by apply Hs, Hm.
  - apply bool_decide_eq_false. rewrite in_gone_turns. intros Hm. apply Hm. intros t Hin Et. pose proof (get_turn_unique db t Ht Hin) as Hx. rewrite Et in Hx. congruence.
Qed.

Lemma elem_of_map_filter {A B} (f : A -> B) (p : A -> bool) l y : y ∈ map f (List.filter p l) <-> exists x, x ∈ l /\ p x = true /\ y = f x.
Proof. rewrite list_elem_of_fmap. setoid_rewrite elem_of_filter_list. naive_solver. Qed.

(** C39: Forgetting an owner, or one companion of it, removes exactly their conversations with the
    turns and messages in them, their jobs, the memory turns not yet delivered and their
    sessions; what others have stays as it was, but for references to a session that is gone;
    nothing of it is listed afterwards, the audit is untouched, and the counts that are reported
    are those of the rows that went. *)
Theorem forgetting_is_exact tb tb' counts : delete_runtime owner companion tb = (tb', counts) ->
  let db := tb.(tb_db) in let db' := tb'.(tb_db) in let ids := gone_sessions db in
  (forall c', c' ∈ db'.(db_conversations) <-> exists c, c ∈ db.(db_conversations) /\ gone c = false /\ c' = unlink_conversation ids c) /\
  (forall t', t' ∈ db'.(db_turns) <-> exists t, t ∈ db.(db_turns) /\ turn_stays db t /\ t' = unlink_turn ids t) /\
  (forall m, m ∈ db'.(db_messages) <-> m ∈ db.(db_messages) /\ message_stays db m) /\
  (forall j, j ∈ tb'.(tb_jobs) <-> j ∈ tb.(tb_jobs) /\ job_in owner companion j = false) /\
  (forall r, r ∈ tb'.(tb_outbox) <-> r ∈ tb.(tb_outbox) /\ outbox_in owner companion r = false) /\
  (forall x, x ∈ db'.(db_sessions) <-> x ∈ db.(db_sessions) /\ session_in owner companion x.2 = false) /\
  tb'.(tb_audit) = tb.(tb_audit) /\
  (forall limit before, list_conversations db' (Some owner) companion limit before = [] /\ list_turns_by_owner db' (Some owner) companion limit before = []) /\
  (NoDup (map cv_id db.(db_conversations)) -> NoDup (map tr_turn_id db.(db_turns)) ->
     row_counts tb = zip_with (fun x y => (x.1, (x.2 + y.2)%nat)) counts (row_counts tb')).
Proof.
  unfold delete_runtime. intros [= <- <-]. cbv zeta. cbn [tb_db tb_jobs tb_outbox tb_audit delete_sessions delete_conversations db_conversations db_turns db_messages db_sessions].
  rewrite orphan_turns. set (db := tb.(tb_db)).
  assert (forall c, gone (unlink_conversation (gone_sessions db) c) = gone c) as Hun
    by (intros c; unfold unlink_conversation; destruct (cv_runtime_session_id c); [|done]; by case_bool_decide).
  assert (forall c', c' ∈ map (unlink_conversation (gone_sessions db)) (List.filter (fun c => negb (gone c)) db.(db_conversations)) -> gone c' = false) as Hnone.
  { intros c' (c & _ & Hg%negb_true_iff & ->)%elem_of_map_filter. by rewrite Hun. }
  split_and!.
  - intros c'. rewrite elem_of_map_filter. by setoid_rewrite negb_true_iff.
  - intros t'. rewrite elem_of_map_filter. setoid_rewrite orphan_stays. setoid_rewrite negb_involutive. by setoid_rewrite bool_decide_eq_true.
  - intros m. rewrite elem_of_filter_list, negb_true_iff, bool_decide_eq_false, in_gone_turns. split; intros [Hm Hs]; (split; [done|]).
    + intros t Ht E. apply dec_stable. intros Hn. apply Hs. intros Hx. by apply Hn, Hx.
    + intros Hn. by apply Hn.
  - intros j. by rewrite elem_of_filter_list, negb_true_iff.
  - intros r. by rewrite elem_of_filter_list, negb_true_iff.
  - intros x. by rewrite elem_of_filter_list, negb_true_iff.
  - done.
  - intros limit before. unfold list_conversations, list_turns_by_owner, page, owned_turns, joined, get_conversation.
    cbn [delete_sessions delete_conversations db_conversations db_turns db_sessions].
    fold (gone_sessions db). set (cs := map (unlink_conversation (gone_sessions db)) _) in *. clearbody cs. split.
    + rewrite (proj2 (filter_nil_iff _ cs)); [by destruct limit|]. intros c Hc. by rewrite conversation_in_scope, Hnone.
    + rewrite (proj2 (filter_nil_iff (fun x : TurnRow * ConversationRow => in_scope (Some owner) companion x.2) _)); [by destruct limit|].
      intros [t c] Hx. apply list_elem_of_In, in_flat_map in Hx as (u & _ & Hu).
      destruct (List.find _ cs) as [d|] eqn:E; [|done]. destruct Hu as [[= <- <-]|[]]. apply find_some in E as [Hd%list_elem_of_In _].
      cbn. by rewrite conversation_in_scope, Hnone.
  - intros Hc Ht. unfold row_counts. cbn [tb_db tb_jobs tb_outbox delete_sessions delete_conversations db_conversations db_turns db_messages db_sessions app zip_with fst snd].
    fold db. rewrite orphan_turns, !length_map, (count_turns_spec db Hc). unfold count_rows, count_messages.
    rewrite (filter_ext _ _ (fun m => eq_sym (message_counts db m Hc Ht))). repeat f_equal.
    + symmetry. apply length_filter_split.
    + rewrite (filter_ext _ _ (fun t => f_equal negb (orphan_stays db t))). symmetry. apply length_filter_split.
    + symmetry. apply length_filter_split.
    + symmetry. apply length_filter_split.
    + symmetry. apply length_filter_split.
    + symmetry. apply length_filter_split.
Qed.
End DeletionFacts.

Section RouteFacts.
Context {K : Type} (kv_put : string -> string -> K -> res K) (kv_get : string -> K -> option string) (owner_revocation_keys : string -> list string) (isoformat : datetime -> string).
Hypothesis kv_put_get : forall key value kv kv', kv_put key value kv = Ok kv' -> kv_get key kv' = Some value.
Hypothesis kv_put_get_ne : forall key value kv kv' other, kv_put key value kv = Ok kv' -> other <> key -> kv_get other kv' = kv_get other kv.

Lemma put_all_writes keys value kv kv' : put_all kv_put keys value kv = (kv', Ok tt) -> forall key, key ∈ keys \/ kv_get key kv = Some value -> kv_get key kv' = Some value.
Proof.
  revert kv. induction keys as [|k keys IH]; intros kv; cbn [put_all]; [intros [= <-] key [H|H]; [by apply not_elem_of_nil in H|done]|].
  destruct (kv_put k value kv) as [kv1|] eqn:E; [|done]. intros H key Hk. apply (IH _ H). destruct (decide (key = k)) as [->|Hne].
  - right. by eapply kv_put_get.
  - destruct Hk as [[->|Hk]%elem_of_cons|Hk]; [done|by left|right]. by rewrite (kv_put_get_ne _ _ _ _ _ E).
Qed.

(** The rows of an owner are deleted only after every one of its revocations, where there is a bucket for them, holds
    the moment of the deletion; if a revocation cannot be written, the rows stay. Without a bucket nothing is revoked. *)
Theorem owners_are_revoked_before_forgotten now owner s s' r : delete_owner_data kv_put owner_revocation_keys isoformat now owner s = (s', r) ->
  match r with
  | Err _ => s'.(os_tables) = s.(os_tables)
  | Ok (counts, written) => exists tables,
      s.(os_tables) = Some tables /\ (Some counts, s'.(os_tables)) = (Some (delete_owner_runtime owner tables).2, Some (delete_owner_runtime owner tables).1) /\
      match s.(os_kv) with
      | None => written = 0%nat /\ s'.(os_kv) = None
      | Some _ => written = length (owner_revocation_keys owner) /\
          exists kv, s'.(os_kv) = Some kv /\ forall key, key ∈ owner_revocation_keys owner -> kv_get key kv = Some (isoformat now)
      end
  end.
Proof.
  unfold delete_owner_data, write_owner_revocations. destruct s as [kv [tables|]]; cbn [os_tables os_kv]; [|by intros [= <- <-]].
  destruct kv as [kv|].
  - destruct (put_all _ _ _ kv) as [kv' [[]|e]] eqn:E; cbn [fmap res_fmap os_tables os_kv].
    + destruct (delete_owner_runtime owner tables) as [tables' counts] eqn:Ed. intros [= <- <-]. exists tables. rewrite Ed.
      do 3 (split; [done|]). exists kv'. split; [done|]. intros key Hk. eapply put_all_writes; [exact E|by left].
    + by intros [= <- <-].
  - destruct (delete_owner_runtime owner tables) as [tables' counts] eqn:Ed. intros [= <- <-]. exists tables. by rewrite Ed.
Qed.
End RouteFacts.

(** ** Concrete requests *)

Definition kitchen_tables : RuntimeTables := mkTables
  (mkDb [("s1", mkSessionRow "owner" "companion" None (instant 0) [] (instant 9)); ("s2", mkSessionRow "guest" "robot" None (instant 0) [] (instant 9))]
     [kitchen_talk; mkConversation "c2" "guest" "robot" (Some "s2") None (instant 0) (instant 30) []]
     [about_turn "t1" "c1" 0 0 []; about_turn "t2" "c2" 0 10 []]
     [mkMessageRow "m1" "t1" 0 "user" "hello" "normal" (instant 1) []; mkMessageRow "m2" "t2" 0 "user" "hi" "normal" (instant 11) []])
  [] [] [].
Definition bucket_put (key value : string) (kv : list (string * string)) : res (list (string * string)) :=
  if bool_decide (key = "down") then Err (PyError "TimeoutError" "") else Ok (dict_set kv key value).
Definition owner_keys (owner : string) : list string := [("owner." +:+ owner)%string; ("room." +:+ owner)%string].
Definition plain_iso (d : datetime) : string := "now".
Definition kitchen_state (kv : option (list (string * string))) : OwnerState := mkOwnerState kv (Some kitchen_tables).

Example tokens :
  require_service_token id (Some " secret ") (Some "Bearer  secret") = Ok tt /\
  require_service_token id (Some "secret") (Some "Basic secret") = Err (http_error "401" "Agent admin API credential is missing or wrong") /\
  exn_type <$> match require_service_token id None (Some "Bearer ") with Err e => Some e | Ok _ => None end = Some "HTTPException".
Proof. split_and!; vm_compute; reflexivity. Qed.

(** A token outside ASCII is no [401]: the comparison raises. *)
Example foreign_token : require_service_token id (Some "secret") (Some "Bearer é") = Err (PyError "TypeError" "comparing strings with non-ASCII characters is not supported").
Proof. vm_compute. reflexivity. Qed.

Example forgetting :
  let r := delete_owner_data bucket_put owner_keys plain_iso (instant 5) "owner" (kitchen_state (Some [])) in
  option_map (fun t => (map tr_turn_id t.(tb_db).(db_turns), map mr_id t.(tb_db).(db_messages), map fst t.(tb_db).(db_sessions))) r.1.(os_tables) = Some (["t2"], ["m2"], ["s2"]) /\
  r.1.(os_kv) = Some [("owner.owner", "now"); ("room.owner", "now")] /\
  r.2 = Ok ([("messages", 1%nat); ("turns", 1%nat); ("memory_turn_outbox", 0%nat); ("jobs", 0%nat); ("conversations", 1%nat); ("runtime_sessions", 1%nat)], 2%nat).
Proof. split_and!; vm_compute; reflexivity. Qed.

(** Without a bucket of revocations the same request deletes and revokes nothing, where revoking is refused. *)
Example forgotten_but_not_revoked :
  (fun x => x.2) <$> (delete_owner_data bucket_put owner_keys plain_iso (instant 5) "owner" (kitchen_state None)).2 = Ok 0%nat /\
  exn_type <$> match (revoke_owner_sessions bucket_put owner_keys plain_iso (instant 5) "owner" (kitchen_state None)).2 with Err e => Some e | Ok _ => None end = Some "HTTPException".
Proof. split; vm_compute; reflexivity. Qed.

(** A turn that was running while its owner was forgotten is stored afterwards, with what was said. *)
Example a_running_turn_comes_back :
  let forgotten := (delete_owner_runtime "owner" (mkTables (mkDb [] [] [] []) [] [] [])).1.(tb_db) in
  let a := mkPersist TurnStatus.OK SIMPLE (instant 1) (instant 2) None 1 0 0 None [] "my secret" "I see" false in
  (fun db => map (fun m => m.(mr_content)) db.(db_messages)) <$> persist_once (fun _ => VNone) None (instant 3) (live_input "t1") [] a forgotten forgotten
    = Ok ["my secret"; "I see"].
Proof. vm_compute. reflexivity. Qed.

Lemma forgetting_is_exact_witness :
  exists tb' counts, delete_runtime "owner" None kitchen_tables = (tb', counts) /\
    row_counts kitchen_tables = zip_with (fun x y => (x.1, (x.2 + y.2)%nat)) counts (row_counts tb') /\ length counts = 6%nat.
Proof.
  destruct (delete_runtime "owner" None kitchen_tables) as [tb' counts] eqn:E. exists tb', counts. split; [reflexivity|].
  pose proof (forgetting_is_exact "owner" None kitchen_tables tb' counts E) as H. cbv zeta in H. destruct H as (_ & _ & _ & _ & _ & _ & _ & _ & H). split.
  - apply H; apply (bool_decide_unpack _); vm_compute; exact I.
  - vm_compute in E. injection E as _ <-. reflexivity.
Defined.

Lemma owners_are_revoked_before_forgotten_witness :
  exists kv, (delete_owner_data bucket_put owner_keys plain_iso (instant 5) "owner" (kitchen_state (Some []))).1.(os_kv) = Some kv /\
    forall key, key ∈ owner_keys "owner" -> dict_get kv key = Some "now".
Proof.
  destruct (delete_owner_data bucket_put owner_keys plain_iso (instant 5) "owner" (kitchen_state (Some []))) as [s' r] eqn:E.
  pose proof (owners_are_revoked_before_forgotten bucket_put (fun key kv => dict_get kv key) owner_keys plain_iso) as H.
  specialize (H ltac:(intros key value kv kv'; unfold bucket_put; destruct (bool_decide (key = "down")); [intros [=]|intros [= <-]; apply dict_get_set_eq])).
  specialize (H ltac:(intros key value kv kv' other; unfold bucket_put; destruct (bool_decide (key = "down")); [intros [=]|intros [= <-] Hn; apply dict_get_set_ne; congruence])).
  specialize (H _ _ _ _ _ E). vm_compute in E. injection E as <- <-. cbn beta iota zeta in H. destruct H as (tables & _ & _ & _ & kv & Hkv & Hk).
  exists kv. split; [exact Hkv|exact Hk].
Defined.

Definition one_token (now : Z) (raw : string) : res Credential :=
  if bool_decide (raw = "token") && (now <? 9) then Ok (sample_credential "personal") else Err (PyError "RuntimeUnauthenticatedError" "expired").

(** The session lasts as long as the token is good. *)
Example sessions_expire :
  let metadata := [("authorization", "Bearer token")] in
  let chat now := serve id one_token now metadata (chat_session sample_float sample_authority) in
  summary_of (chat 1) = Ok ("s1", "realm-p1", ["look"], ["delegate_to_coworker"; "emit_event"], false) /\
  chat 9 = Err (rpc_abort "UNAUTHENTICATED" "expired") /\
  renew_session one_token sample_float sample_authority 9 (mkCallScope None (Some "token")) = Err (rpc_abort "UNAUTHENTICATED" "personal runtime credential is no longer valid").
Proof. split_and!; vm_compute; reflexivity. Qed.

Lemma only_scoped_chats_are_served_witness :
  let metadata := [("authorization", "Bearer token")] in
  exists scope s raw identity, intercept id one_token 1 metadata = Ok scope /\ renew_session one_token sample_float sample_authority 2 scope = Ok s /\
    one_token 2 raw = Ok identity /\ scoped sample_float sample_authority identity s.
Proof.
  intros metadata. destruct (intercept id one_token 1 metadata) as [scope|] eqn:Ei; [|vm_compute in Ei; discriminate Ei].
  destruct (renew_session one_token sample_float sample_authority 2 scope) as [s|] eqn:Er; [|vm_compute in Ei; injection Ei as <-; vm_compute in Er; discriminate Er].
  destruct (only_scoped_chats_are_served id one_token sample_float sample_authority (fun _ _ => SpecFloat.S754_nan) 1 metadata) as (_ & H & _).
  destruct (H scope 2 s Ei) as [Hs _]. destruct (Hs Er) as (raw & identity & _ & Hv & Hsc). exists scope, s, raw, identity.
  split; [reflexivity|]. split; [exact Er|]. split; [exact Hv|exact Hsc].
Defined.
