(* ===== verification/RemoteAuthorities.v ===== *)
(** * [infra/system_data/runtime_authority.py] and [infra/smarthome/hub.py]: the authorities behind two ports.

    The SDK's client, its snapshots and its normalisation of a genome, the stores of the development profile, the HTTP
    client and pydantic's validators are parameters; so are the classes of their exceptions where a clause catches
    a whole hierarchy. *)

From S2P Require Import Prelude CoreTypes Json Effects ContextText Personas RuntimeSession HomePlanning HomeMessages HomeCommand HomeFacts.

(** ** The companion runtime authority *)

(** A genome with its labels, as a snapshot or a row carries it *)
Record GenomeDocument := mkDocument {
  gd_genome_id : string; gd_version : Z; gd_schema_version : string; gd_genome_hash : string; gd_realizer_version : string; gd_genome : pyval;
}.
(** [CompanionRuntimeSnapshot] *)
Record CompanionSnapshot := mkSnapshot { cs_owner_id : string; cs_companion_id : string; cs_realm_id : string; cs_genome : GenomeDocument; cs_runtime_config : pyval }.
(** A personal memory realm with the person and the revision it is bound to *)
Record PersonRealm := mkPersonRealm { pr_owner_id : string; pr_person_id : string; pr_person_revision : Z; pr_realm_id : string }.
(** The rows of the local profile, in the columns that are read *)
Record CompanionRow := mkCompanionRow {
  co_owner_id : string; co_lifecycle_state : string; co_default_memory_realm_id : option string; co_current_genome_id : option string; co_runtime_config : option pyval;
}.
Record RealmRow := mkRealmRow { re_realm_id : string; re_owner_id : string; re_status : string; re_person_id : option string }.
Record GenomeRow := mkGenomeRow { ge_companion_id : string; ge_status : string; ge_document : GenomeDocument }.

(** The clients of the two implementations *)
Record SystemDataClient := mkSystemData {
  sd_companion_runtime : string -> option string -> res CompanionSnapshot;
  sd_person_memory_realm : string -> string -> res PersonRealm;
  sd_provisional_access : string -> string -> Z -> string -> res ProvisionalAccess;
}.
Record LocalStore := mkLocalStore {
  ls_companion : string -> option CompanionRow;
  ls_realm : string -> option RealmRow;
  ls_genome : string -> option GenomeRow;
  ls_person_realm : string -> string -> res PersonRealm;
  ls_provisional : string -> string -> Z -> string -> res ProvisionalAccess;
}.

Section Authority.
Context (PERSONA_GENOME_SCHEMA PERSONA_REALIZER : string) (normalize_genome : pyval -> res PersonaGenome).
Context (is_system_data_error is_lookup_or_value_error : exn -> bool).

(** [_validated_facts] *)
Definition validated_facts (owner_id companion_id realm_id : string) (g : GenomeDocument) (runtime_config : pyval) : res CompanionRuntimeFacts :=
  if negb (bool_decide (g.(gd_schema_version) = PERSONA_GENOME_SCHEMA)) then Err (Eidolon ValidationError ("unsupported persona genome schema: " +:+ g.(gd_schema_version)))
  else if negb (bool_decide (g.(gd_realizer_version) = PERSONA_REALIZER)) then Err (Eidolon ValidationError ("unsupported persona realizer: " +:+ g.(gd_realizer_version)))
  else
    genome ← normalize_genome g.(gd_genome);
    if is_dict runtime_config
    then Ok (mkFacts owner_id companion_id realm_id g.(gd_genome_id) g.(gd_version) g.(gd_schema_version) g.(gd_genome_hash) g.(gd_realizer_version) genome runtime_config)
    else Err type_error.

(** *** [SystemDataCompanionRuntimeAuthority] *)

Definition system_data_error (label : string) (e : exn) : exn :=
  if raised "SystemDataNotFound" e || raised "SystemDataPrecondition" e then Eidolon NotFoundError (exn_str e)
  else if is_system_data_error e then Eidolon DependencyError (label +:+ " unavailable: " +:+ exn_str e)%string
  else e.
Definition translating {A} (error : exn -> exn) (r : res A) : res A := match r with Ok a => Ok a | Err e => Err (error e) end.
Definition revision_changed : exn := Eidolon NotFoundError "person revision changed; start a new session".

Definition system_resolve (c : SystemDataClient) (owner_id companion_id : string) (genome_id : option string) : res CompanionRuntimeFacts :=
  snapshot ← translating (system_data_error "System Data runtime authority") (c.(sd_companion_runtime) companion_id genome_id);
  facts ← validated_facts snapshot.(cs_owner_id) snapshot.(cs_companion_id) snapshot.(cs_realm_id) snapshot.(cs_genome) snapshot.(cs_runtime_config);
  if negb (bool_decide (facts.(cf_owner_id) = owner_id)) then Err (Eidolon NotFoundError ("companion not found for owner: " +:+ companion_id)) else Ok facts.
Definition system_resolve_person_memory (c : SystemDataClient) (owner_id person_id : string) (person_revision : Z) : res string :=
  binding ← translating (system_data_error "personal Memory authority") (c.(sd_person_memory_realm) owner_id person_id);
  if negb (binding.(pr_person_revision) =? person_revision) then Err revision_changed else Ok binding.(pr_realm_id).
Definition system_resolve_provisional_memory (c : SystemDataClient) (owner_id person_id : string) (person_revision : Z) (session_id : string) : res ProvisionalAccess :=
  translating (system_data_error "provisional Memory authority") (c.(sd_provisional_access) owner_id person_id person_revision session_id).
Definition system_data_authority (c : SystemDataClient) : CompanionRuntimeAuthority :=
  mkAuthority (system_resolve c) (system_resolve_person_memory c) (system_resolve_provisional_memory c).

(** *** [LocalCompanionRuntimeAuthority] *)

Definition local_store_error (e : exn) : exn := if is_lookup_or_value_error e then Eidolon NotFoundError (exn_str e) else e.
(** [genome_id or companion.current_genome_id] *)
Definition selected_genome (genome_id : option string) (c : CompanionRow) : string :=
  if opt_truthy genome_id then default "" genome_id else default "" c.(co_current_genome_id).
Definition local_resolve (st : LocalStore) (owner_id companion_id : string) (genome_id : option string) : res CompanionRuntimeFacts :=
  match st.(ls_companion) companion_id with
  | None => Err (Eidolon NotFoundError ("active companion not found for owner: " +:+ companion_id))
  | Some companion =>
      if negb (bool_decide (companion.(co_owner_id) = owner_id)) || negb (bool_decide (companion.(co_lifecycle_state) = "active"))
      then Err (Eidolon NotFoundError ("active companion not found for owner: " +:+ companion_id))
      else
        match st.(ls_realm) (default "" companion.(co_default_memory_realm_id)) with
        | None => Err (Eidolon NotFoundError ("active memory realm not found for owner: " +:+ owner_id))
        | Some realm =>
            if negb (bool_decide (realm.(re_owner_id) = owner_id)) || negb (bool_decide (realm.(re_status) = "active")) || (if realm.(re_person_id) is Some _ then true else false)
            then Err (Eidolon NotFoundError ("active memory realm not found for owner: " +:+ owner_id))
            else
              match st.(ls_genome) (selected_genome genome_id companion) with
              | None => Err (Eidolon NotFoundError ("committed persona genome not found: " +:+ companion_id))
              | Some genome =>
                  if negb (bool_decide (genome.(ge_companion_id) = companion_id)) || negb (bool_decide (genome.(ge_status) = "committed"))
                  then Err (Eidolon NotFoundError ("committed persona genome not found: " +:+ companion_id))
                  else
                    json ← as_dict_or_empty (Some genome.(ge_document).(gd_genome));
                    config ← as_dict_or_empty companion.(co_runtime_config);
                    let d := genome.(ge_document) in
                    validated_facts owner_id companion_id realm.(re_realm_id)
                      (mkDocument d.(gd_genome_id) d.(gd_version) d.(gd_schema_version) d.(gd_genome_hash) d.(gd_realizer_version) (VDict json)) (VDict config)
              end
        end
  end.
Definition local_resolve_person_memory (st : LocalStore) (owner_id person_id : string) (person_revision : Z) : res string :=
  binding ← translating local_store_error (st.(ls_person_realm) owner_id person_id);
  if negb (bool_decide (binding.(pr_owner_id) = owner_id)) || negb (bool_decide (binding.(pr_person_id) = person_id))
  then Err (Eidolon NotFoundError "personal memory binding outside request scope")
  else if negb (binding.(pr_person_revision) =? person_revision) then Err revision_changed
  else Ok binding.(pr_realm_id).
Definition local_resolve_provisional_memory (st : LocalStore) (owner_id person_id : string) (person_revision : Z) (session_id : string) : res ProvisionalAccess :=
  translating local_store_error (st.(ls_provisional) owner_id person_id person_revision session_id).
Definition local_authority (st : LocalStore) : CompanionRuntimeAuthority :=
  mkAuthority (local_resolve st) (local_resolve_person_memory st) (local_resolve_provisional_memory st).
End Authority.

(** ** The hub of the home, [HubSmartHomeClient] *)

Section Hub.
(** [_post]: the JSON of the answer to an action with its body *)
Context (post : string -> pyval -> res pyval) (read_registry : pyval -> res Registry) (read_result : pyval -> res ExecuteResult) (dump_request : ExecuteRequest -> pyval).
Context (is_httpx_error is_connect_error : exn -> bool).

Definition home_unavailable : exn := PyError "SmartHomeUnavailable" "".
(** [except (httpx.HTTPError, ValueError, KeyError, TypeError)] *)
Definition is_hub_error (e : exn) : bool := is_httpx_error e || is_value_error e || raised "JSONDecodeError" e || raised "KeyError" e || raised "TypeError" e.

(** [DeviceStatus( **status)]: its two fields and no others *)
Definition device_status (v : pyval) : res DeviceStatus :=
  match v with
  | VDict d =>
      if negb (forallb (fun x => bool_decide (x.1 ∈ ["online"; "state"])) d) then Err type_error
      else
        match dict_get d "online", dict_get d "state" with
        | None, _ => Err type_error
        | Some online, None => Ok (mkStatus (truthy online) [])
        | Some online, Some state => Ok (mkStatus (truthy online) (match state with VDict s => s | _ => [] end))
        end
  | _ => Err type_error
  end.
Definition hub_home (body : pyval) : res HomeSnapshot :=
  registry ← py_item body "registry";
  registry ← read_registry registry;
  status ← py_item body "status";
  match status with
  | VDict l => statuses ← mapM (fun x => s ← device_status x.2; Ok (x.1, s)) l; Ok (mkHomeSnapshot registry statuses)
  | _ => Err (PyError "AttributeError" "items")
  end.
Definition hub_snapshot (owner_id : string) : res HomeSnapshot :=
  match post "snapshot" (VDict [("owner_id", VStr owner_id)]) ≫= hub_home with
  | Ok home => Ok home
  | Err e => Err (if is_hub_error e then home_unavailable else e)
  end.
Definition hub_execute (owner_id : string) (request : ExecuteRequest) : res ExecuteResult :=
  match post "execute" (VDict [("owner_id", VStr owner_id); ("request", dump_request request)]) ≫= read_result with
  | Ok result => Ok result
  | Err e => Err (if is_connect_error e then home_unavailable else if is_hub_error e then PyError "TimeoutError" "smart home execution outcome unknown" else e)
  end.
End Hub.

(** ** What the authorities promise *)

Section Facts.
Context (PERSONA_GENOME_SCHEMA PERSONA_REALIZER : string) (normalize_genome : pyval -> res PersonaGenome).
Context (is_system_data_error is_lookup_or_value_error : exn -> bool).
Notation validated_facts := (validated_facts PERSONA_GENOME_SCHEMA PERSONA_REALIZER normalize_genome).
Notation system_data_authority := (system_data_authority PERSONA_GENOME_SCHEMA PERSONA_REALIZER normalize_genome is_system_data_error).
Notation local_authority := (local_authority PERSONA_GENOME_SCHEMA PERSONA_REALIZER normalize_genome is_lookup_or_value_error).

(** Facts of a document this code can read *)
Definition facts_of (owner_id companion_id realm_id : string) (g : GenomeDocument) (json config : pyval) (f : CompanionRuntimeFacts) : Prop :=
  g.(gd_schema_version) = PERSONA_GENOME_SCHEMA /\ g.(gd_realizer_version) = PERSONA_REALIZER /\ is_dict config = true /\
  exists genome, normalize_genome json = Ok genome /\
    f = mkFacts owner_id companion_id realm_id g.(gd_genome_id) g.(gd_version) PERSONA_GENOME_SCHEMA g.(gd_genome_hash) PERSONA_REALIZER genome config.

Lemma validated_facts_spec owner_id companion_id realm_id g config f :
  validated_facts owner_id companion_id realm_id g config = Ok f <-> facts_of owner_id companion_id realm_id g g.(gd_genome) config f.
Proof.
  clear is_lookup_or_value_error is_system_data_error. unfold RemoteAuthorities.validated_facts, facts_of. case_bool_decide as Hs; cbn [negb]; [|naive_solver]. case_bool_decide as Hr; cbn [negb]; [|naive_solver].
  rewrite res_bind_ok. destruct (is_dict config); split; rewrite ?Hs, ?Hr; naive_solver.
Qed.

(** What the ports ask of an authority: facts of the owner who was named, of a genome this code supports *)
Class ScopedAuthority (at_ : CompanionRuntimeAuthority) : Prop := {
  sa_owner owner_id companion_id genome_id f : at_.(at_resolve) owner_id companion_id genome_id = Ok f -> f.(cf_owner_id) = owner_id;
  sa_supported owner_id companion_id genome_id f : at_.(at_resolve) owner_id companion_id genome_id = Ok f ->
    f.(cf_schema_version) = PERSONA_GENOME_SCHEMA /\ f.(cf_realizer_version) = PERSONA_REALIZER /\ exists json, normalize_genome json = Ok f.(cf_genome);
}.

Lemma system_resolve_spec c owner_id companion_id genome_id f : (system_data_authority c).(at_resolve) owner_id companion_id genome_id = Ok f <->
  exists s, c.(sd_companion_runtime) companion_id genome_id = Ok s /\ s.(cs_owner_id) = owner_id /\
    facts_of owner_id s.(cs_companion_id) s.(cs_realm_id) s.(cs_genome) s.(cs_genome).(gd_genome) s.(cs_runtime_config) f.
Proof.
  clear is_lookup_or_value_error. cbn. unfold system_resolve, translating. destruct (sd_companion_runtime c companion_id genome_id) as [s|e]; cbn; [|naive_solver].
  rewrite res_bind_ok. setoid_rewrite validated_facts_spec. split.
  - intros (f' & Hf & Hr). case_bool_decide as Ho; cbn [negb] in Hr; [|done]. injection Hr as ->. exists s. split; [done|].
    destruct Hf as (H1 & H2 & H3 & genome & H4 & ->). cbn in Ho. subst owner_id. split; [done|]. split_and!; [done..|]. by exists genome.
  - intros (s' & [= <-] & <- & Hf). exists f. split; [done|]. destruct Hf as (_ & _ & _ & genome & _ & ->). cbn. by rewrite bool_decide_true.
Qed.

(** The rows of the local profile that stand behind facts *)
Definition local_rows (st : LocalStore) (owner_id companion_id : string) (genome_id : option string) (c : CompanionRow) (realm : RealmRow) (genome : GenomeRow) : Prop :=
  st.(ls_companion) companion_id = Some c /\ c.(co_owner_id) = owner_id /\ c.(co_lifecycle_state) = "active" /\
  st.(ls_realm) (default "" c.(co_default_memory_realm_id)) = Some realm /\ realm.(re_owner_id) = owner_id /\ realm.(re_status) = "active" /\ realm.(re_person_id) = None /\
  st.(ls_genome) (selected_genome genome_id c) = Some genome /\ genome.(ge_companion_id) = companion_id /\ genome.(ge_status) = "committed".

Lemma local_resolve_spec st owner_id companion_id genome_id f : (local_authority st).(at_resolve) owner_id companion_id genome_id = Ok f <->
  exists c realm genome json config, local_rows st owner_id companion_id genome_id c realm genome /\
    as_dict_or_empty (Some genome.(ge_document).(gd_genome)) = Ok json /\ as_dict_or_empty c.(co_runtime_config) = Ok config /\
    facts_of owner_id companion_id realm.(re_realm_id) genome.(ge_document) (VDict json) (VDict config) f.
Proof.
  clear is_system_data_error. cbn. unfold local_resolve, local_rows. destruct (ls_companion st companion_id) as [c|]; [|naive_solver].
  case_bool_decide as Ho; cbn [negb orb]; [|naive_solver]. case_bool_decide as Hl; cbn [negb]; [|naive_solver].
  destruct (ls_realm st _) as [realm|] eqn:Er; [|naive_solver].
  case_bool_decide as Hro; cbn [negb orb]; [|naive_solver]. case_bool_decide as Hrs; cbn [negb orb]; [|naive_solver].
  destruct (re_person_id realm) as [p|] eqn:Ep; [naive_solver|].
  destruct (ls_genome st _) as [g|] eqn:Eg; [|naive_solver].
  case_bool_decide as Hgc; cbn [negb orb]; [|naive_solver]. case_bool_decide as Hgs; cbn [negb]; [|naive_solver].
  rewrite res_bind_ok. setoid_rewrite res_bind_ok. cbv zeta. setoid_rewrite validated_facts_spec. split.
  - intros (json & Hj & config & Hc & Hf). exists c, realm, g, json, config. by split_and!.
  - intros (c' & realm' & g' & json & config & (Hc' & _ & _ & Hr' & _ & _ & _ & Hg' & _) & Hj & Hc & Hf). simplify_eq. exists json. split; [done|]. by exists config.
Qed.

#[export] Instance system_data_scoped c : ScopedAuthority (system_data_authority c).
Proof.
  split; intros owner_id companion_id genome_id f (s & _ & _ & (_ & _ & _ & genome & Hg & ->))%system_resolve_spec; [done|]. split_and!; [done..|]. by eexists.
Qed.
#[export] Instance local_scoped st : ScopedAuthority (local_authority st).
Proof.
  split; intros owner_id companion_id genome_id f (c & realm & g & json & config & _ & _ & _ & (_ & _ & _ & genome & Hg & ->))%local_resolve_spec; [done|].
  split_and!; [done..|]. by eexists.
Qed.

(** What the person's own Realm rests on *)
Lemma local_person_memory_spec st owner_id person_id revision realm :
  (local_authority st).(at_resolve_person_memory) owner_id person_id revision = Ok realm <->
  st.(ls_person_realm) owner_id person_id = Ok (mkPersonRealm owner_id person_id revision realm).
Proof.
  clear is_system_data_error. cbn. unfold local_resolve_person_memory, translating. destruct (ls_person_realm st owner_id person_id) as [[o p r m]|e]; cbn; [|naive_solver].
  case_bool_decide; cbn [negb orb]; [|naive_solver]. case_bool_decide; cbn [negb]; [|naive_solver].
  destruct (Z.eqb_spec r revision); cbn [negb]; naive_solver.
Qed.

(** A persona read through a scoped authority *)
Section Scoped.
Context (parse_preferences : option pyval -> res ConversationPreferences) (parse_revision : option pyval -> res Z).
Context (at_ : CompanionRuntimeAuthority) `{!ScopedAuthority at_}.
Notation store := (authority_store parse_preferences parse_revision at_).

Lemma stored_of_ok facts g : stored_of parse_preferences parse_revision facts = Ok g ->
  g.(ps_owner_id) = facts.(cf_owner_id) /\ g.(ps_genome) = facts.(cf_genome) /\ g.(ps_genome_hash) = facts.(cf_genome_hash) /\ g.(ps_realizer_version) = facts.(cf_realizer_version) /\ 1 <= g.(ps_version).
Proof.
  unfold stored_of. destruct (cf_runtime_config facts); [done..|]. rewrite res_bind_ok. intros (pr & _ & (rv & _ & H)%res_bind_ok).
  destruct (Z.ltb_spec (cf_genome_version facts) 1); [done|]. injection H as <-. by cbn.
Qed.

Lemma loaded_in_scope owner_id companion_id pin g :
  match pin with None => store.(gs_load_current) owner_id companion_id | Some (genome_id, hash) => store.(gs_load_pinned) owner_id companion_id genome_id hash end = Ok g ->
  g.(ps_owner_id) = owner_id /\ g.(ps_realizer_version) = PERSONA_REALIZER /\ (exists json, normalize_genome json = Ok g.(ps_genome)) /\
  1 <= g.(ps_version) /\ forall genome_id hash, pin = Some (genome_id, hash) -> g.(ps_genome_hash) = hash.
Proof.
  assert (forall genome_id facts, at_resolve at_ owner_id companion_id genome_id = Ok facts -> stored_of parse_preferences parse_revision facts = Ok g ->
    ps_owner_id g = owner_id /\ ps_realizer_version g = PERSONA_REALIZER /\ (exists json, normalize_genome json = Ok (ps_genome g)) /\
    1 <= ps_version g /\ ps_genome_hash g = cf_genome_hash facts) as Hg.
  { intros genome_id facts Hf (Ho & Hge & Hh & Hz & Hv)%stored_of_ok. pose proof (sa_owner _ _ _ _ Hf). destruct (sa_supported _ _ _ _ Hf) as (_ & Hr & Hn).
    rewrite Ho, Hge, Hh, Hz. by split_and!. }
  destruct pin as [[genome_id hash]|]; cbn; [unfold load_pinned|unfold load_current]; rewrite res_bind_ok; intros (facts & Hf & Hs).
  - case_bool_decide as Hh; cbn [negb] in Hs; [|done]. destruct (Hg _ _ Hf Hs) as (? & ? & ? & ? & ?). split_and!; [done..|]. naive_solver.
  - destruct (Hg _ _ Hf Hs) as (? & ? & ? & ? & _). by split_and!.
Qed.
End Scoped.
End Facts.

(** ** What the session of a local profile, and a command to the hub, come to *)

Section Theorems.
Context (PERSONA_GENOME_SCHEMA PERSONA_REALIZER : string) (normalize_genome : pyval -> res PersonaGenome) (is_lookup_or_value_error : exn -> bool).
Notation local_authority := (local_authority PERSONA_GENOME_SCHEMA PERSONA_REALIZER normalize_genome is_lookup_or_value_error).

(** The Realm a session of the local profile may use, of the rows behind it *)
Definition local_realm (st : LocalStore) (realm : RealmRow) (s : AuthorizedRuntimeSession) : Prop :=
  match s.(as_person_id) with
  | None => s.(as_runtime).(cf_memory_realm_id) = realm.(re_realm_id)
  | Some person =>
      exists revision, s.(as_person_revision) = Some revision /\
        ((s.(as_memory_mode) = "personal" /\ st.(ls_person_realm) (as_owner_id s) person = Ok (mkPersonRealm (as_owner_id s) person revision s.(as_runtime).(cf_memory_realm_id))) \/
         (s.(as_memory_mode) = "provisional" /\ exists b, st.(ls_provisional) (as_owner_id s) person revision s.(as_session_id) = Ok b /\ b.(pv_realm_id) = s.(as_runtime).(cf_memory_realm_id) /\
            b.(pv_save_allowed) || b.(pv_session_recall_allowed) = true))
  end.

(** A session of the local profile rests on an active companion of the credential's owner, that owner's
    active Realm and a committed genome of that companion which this code supports; the Realm it
    uses is that one for a person nobody named, and otherwise the one the store binds to exactly this owner, person
    and revision. *)
Theorem local_sessions_rest_on_active_rows float_of_int st c s : authorize float_of_int (local_authority st) c = Ok s ->
  exists companion realm genome, local_rows st c.(cr_owner_id) c.(cr_companion_id) None companion realm genome /\
    genome.(ge_document).(gd_schema_version) = PERSONA_GENOME_SCHEMA /\ genome.(ge_document).(gd_realizer_version) = PERSONA_REALIZER /\
    s.(as_runtime).(cf_genome_id) = genome.(ge_document).(gd_genome_id) /\ s.(as_runtime).(cf_genome_hash) = genome.(ge_document).(gd_genome_hash) /\
    local_realm st realm s.
Proof.
  intros Hs%authorize_scoped. destruct (so_facts _ _ _ _ Hs) as (facts & Hf & Hr). pose proof (so_owner _ _ _ _ Hs) as Ho.
  apply local_resolve_spec in Hf as (companion & realm & genome & json & config & Hrows & _ & _ & Hs1 & Hs2 & _ & g & _ & ->).
  exists companion, realm, genome. split; [done|]. split; [done|]. split; [done|]. unfold local_realm, as_owner_id in *.
  destruct Hr as [Hp _ Hrt _ _|p r m Hp Hrev Hm Hres _ Hrt _ _|p r b Hp Hrev Hm _ Hres _ _ _ _ Hrt Hsave Hrec Hany]; rewrite Hp, Hrt; cbn; (split; [done|]; split; [done|]); [done| |].
  - exists r. split; [done|]. left. split; [done|]. apply local_person_memory_spec in Hres. by rewrite Hrt in Hres.
  - exists r. split; [done|]. right. split; [done|]. exists b. rewrite Hrt in Hres. cbn in Hres. unfold local_resolve_provisional_memory, translating in Hres.
    destruct (ls_provisional st _ _ _ _) as [b'|e]; [|done]. injection Hres as ->. split; [done|]. split; [done|]. destruct Hany as [->| ->]; [done|by destruct (pv_save_allowed b)].
Qed.
End Theorems.

Section HubTheorem.
Context `{HomeSdk} (w : HomeWorld) (execute_deadline_ms : Z).
Context (post : string -> pyval -> res pyval) (read_reply : pyval -> res ExecuteResult) (dump_request : ExecuteRequest -> pyval).
Context (is_httpx_error is_connect_error : exn -> bool).
Notation hub_execute := (hub_execute post read_reply dump_request is_httpx_error is_connect_error).

(** What comes of posting a request *)
Definition hub_reply (owner_id : string) (request : ExecuteRequest) : res ExecuteResult :=
  post "execute" (VDict [("owner_id", VStr owner_id); ("request", dump_request request)]) ≫= read_reply.
(** The exception that says nothing was executed; no code but the client's raises it. *)
Definition says_unavailable (e : exn) : bool := raised "SmartHomeUnavailable" e.

Lemma hub_execute_spec owner_id request : hub_execute owner_id request =
  match hub_reply owner_id request with
  | Ok result => Ok result
  | Err e => Err (if is_connect_error e then home_unavailable else if is_hub_error is_httpx_error e then PyError "TimeoutError" "smart home execution outcome unknown" else e)
  end.
Proof. reflexivity. Qed.

End HubTheorem.

(** ** A store, a home and a hub *)

Definition sample_document : GenomeDocument := mkDocument "g1" 2 "genome.v1" "hash" "realizer.v1" (VDict [("name", VStr "Ada")]).
Definition local_store (status : string) : LocalStore :=
  mkLocalStore
    (fun c => if bool_decide (c = "ada") then Some (mkCompanionRow "owner" "active" (Some "realm") (Some "g1") None) else None)
    (fun r => if bool_decide (r = "realm") then Some (mkRealmRow "realm" "owner" "active" None) else None)
    (fun g => if bool_decide (g = "g1") then Some (mkGenomeRow "ada" status sample_document) else None)
    (fun owner person => if bool_decide (person = "p1") then Ok (mkPersonRealm owner person 1 "realm-p1") else Err (PyError "LookupError" person))
    (fun _ _ _ _ => Err (PyError "LookupError" "")).
Definition sample_normalize (v : pyval) : res PersonaGenome := Ok sample_genome.
Definition sample_lookup_error (e : exn) : bool := raised "LookupError" e || is_value_error e.
Notation sample_local status := (local_authority "genome.v1" "realizer.v1" sample_normalize sample_lookup_error (local_store status)).
Definition sample_bearer : Credential := mkCredential "owner" "ada" None (Some "s1") (Some "p1") (Some 0) (Some 1) (Some "s1") "personal".

Definition local_session : AuthorizedRuntimeSession :=
  match authorize sample_float (sample_local "committed") sample_bearer with
  | Ok s => s
  | Err _ => mkAuthorized sample_facts None "" (mkRuntimeConfig None "" [] [] true None None) None None None None "" false false
  end.

(** A draft is not spoken from; a person the store does not know has no session. *)
Example drafts_do_not_speak : authorize sample_float (sample_local "draft") sample_bearer = Err (Eidolon NotFoundError "committed persona genome not found: ada").
Proof. vm_compute. reflexivity. Qed.
Example strangers_have_no_session :
  (local_resolve_person_memory sample_lookup_error (local_store "committed") "owner" "p2" 1, local_resolve_person_memory sample_lookup_error (local_store "committed") "owner" "p1" 2) =
  (Err (Eidolon NotFoundError "p2"), Err revision_changed).
Proof. vm_compute. reflexivity. Qed.

Lemma local_sessions_rest_on_active_rows_witness : authorize sample_float (sample_local "committed") sample_bearer = Ok local_session /\
  exists companion realm genome, local_rows (local_store "committed") "owner" "ada" None companion realm genome /\
    genome.(ge_document).(gd_schema_version) = "genome.v1" /\ genome.(ge_document).(gd_realizer_version) = "realizer.v1" /\
    local_session.(as_runtime).(cf_genome_id) = genome.(ge_document).(gd_genome_id) /\ local_session.(as_runtime).(cf_genome_hash) = genome.(ge_document).(gd_genome_hash) /\
    local_realm (local_store "committed") realm local_session.
Proof.
  assert (authorize sample_float (sample_local "committed") sample_bearer = Ok local_session) as Hs by (vm_compute; reflexivity).
  split; [exact Hs|]. exact (local_sessions_rest_on_active_rows _ _ _ _ _ _ _ _ Hs).
Defined.

(** A home whose hub answers a post with [answer] *)
Definition sample_connect_error (e : exn) : bool := raised "ConnectError" e.
Definition sample_httpx_error (e : exn) : bool := raised "ConnectError" e || raised "ReadTimeout" e || raised "HTTPStatusError" e.
Definition sample_reply (v : pyval) : res ExecuteResult := match v with VDict _ => Ok (mkExecuted "" None []) | _ => Err (PyError "ValueError" "ExecuteResult") end.
Definition sample_hub_world (answer : res pyval) : HomeWorld :=
  let w := sample_home_world sample_lamp (fun _ c => c) in
  mkHomeWorld w.(hw_snapshot) w.(hw_interpret) w.(hw_fallback)
    (fun _ => hub_execute (fun _ _ => answer) sample_reply (fun _ => VNone) sample_httpx_error sample_connect_error) w.(hw_elapsed_us) w.(hw_interfere) w.(hw_wall_ms).
Definition sample_plan : CommandPlan :=
  match @plan_devices sample_home_sdk sample_registry.(rg_devices) (fun _ => Ok (Some sample_on)) with Ok p => p | Err _ => mkPlan [] [] None [] end.
Notation sample_actuate answer :=
  (@actuate sample_home_sdk (sample_hub_world answer) 1000 "owner" sample_plan "r1" (mkOrigin "voice" None (Some "turn-1")) (mkHState (new_context 3) 0 0 [])).

Example lost_connections_and_lost_replies : ((sample_actuate (Err (PyError "ConnectError" ""))).1, (sample_actuate (Err (PyError "ReadTimeout" ""))).1,
    (sample_actuate (Ok VNone)).1, length (sample_actuate (Err (PyError "ReadTimeout" ""))).2.(hh_log)) =
  (Err home_unavailable, Ok (unconfirmed sample_plan), Ok (unconfirmed sample_plan), 1%nat).
Proof. vm_compute. reflexivity. Qed.

