(* ===== verification/TraceSummary.v ===== *)
(** * [infra/observability/replay_diff.py] and [turn_trace_summary.py]: what is shown and compared of a turn's trace.

    [hashlib.sha256], [repr] of a text and of a float, [round] and [int] of a text or a float are parameters. A list
    with floats or with documents is not sorted here, which [sorted] does or refuses; the traces have texts there. The
    decisions of an artifact are compared as scalars. *)

From Stdlib Require Import SpecFloat.
From S2P Require Import Prelude CoreTypes Json Guards Trace TurnState TurnEngine TurnStore HomePlanning ContextBudget LiveTurns Conversations.

(** ** Floats *)

(** [a / b] of two integers, correctly rounded *)
Definition z_float (z : Z) : spec_float := match z with Z0 => S754_zero false | Zpos p => S754_finite false p 0 | Zneg p => S754_finite true p 0 end.
Definition true_div (a b : Z) : res spec_float :=
  if b =? 0 then Err (PyError "ZeroDivisionError" "division by zero")
  else match SFdiv 53 1024 (z_float a) (z_float b) with
       | S754_infinity _ => Err (PyError "OverflowError" "integer division result too large for a float")
       | q => Ok q
       end.
(** 0.05, 0.0 and 0.25 *)
Definition f_0_05 : spec_float := S754_finite false 7205759403792794 (-57).
Definition f_zero : spec_float := S754_zero false.
Definition f_quarter : spec_float := S754_finite false 4503599627370496 (-54).

(** ** Reading a trace *)

Definition get_none (v : pyval) (k : string) : res pyval := py_get v k VNone.
(** [v.get(k) or {}] *)
Definition sub (v : pyval) (k : string) : res pyval := x ← get_none v k; Ok (or_empty x).
(** [v.get(k) or []] in an iteration *)
Definition elems (v : pyval) (k : string) : res (list pyval) := x ← get_none v k; py_list (pv_or x (VList [])).
(** [v.get(k) or 0], [bool(v.get(k))] *)
Definition or_zero (v : pyval) (k : string) : res pyval := x ← get_none v k; Ok (pv_or x (VInt 0)).
Definition flag (v : pyval) (k : string) : res pyval := x ← get_none v k; Ok (VBool (truthy x)).
(** [[x.get(k) for x in l if x.get(k)]] *)
Definition named (k : string) (l : list pyval) : res pyval := names ← mapM (fun x => get_none x k) l; Ok (VList (List.filter truthy names)).
(** A dict display with computed values, in order *)
Fixpoint fields (l : list (string * res pyval)) : res (list (string * pyval)) :=
  match l with [] => Ok [] | (k, r) :: rest => v ← r; d ← fields rest; Ok ((k, v) :: d) end.
Definition dict_of (l : list (string * res pyval)) : res pyval := VDict <$> fields l.

Record ReplayDiffThresholds := mkThresholds {
  max_prompt_change_ratio : spec_float; max_tool_decision_change_ratio : spec_float; max_latency_regression_ratio : spec_float; max_latency_regression_ms : Z;
}.
Definition default_thresholds : ReplayDiffThresholds := mkThresholds f_0_05 f_zero f_quarter 150.

Record ReplayTurnSnapshot := mkReplaySnapshot {
  rs_key : string; rs_prompt_fingerprint : string; rs_tool_decision : list pyval; rs_first_delta_ms : option Z; rs_total_ms : option Z;
}.
Record ReplayLatencyRegression := mkRegression {
  lr_index : nat; lr_key : string; lr_field : string; lr_baseline_ms : Z; lr_candidate_ms : Z; lr_delta_ms : Z; lr_delta_ratio : spec_float;
}.
(** An entry of [prompt_changed] or [tool_decision_changed] *)
Record ReplayChange := mkChange { ch_index : nat; ch_key : string; ch_baseline : pyval; ch_candidate : pyval }.
Record ReplayGateReport := mkReport {
  rg_passed : bool; rg_total_compared : nat; rg_thresholds : ReplayDiffThresholds; rg_prompt_changed : list ReplayChange;
  rg_tool_decision_changed : list ReplayChange; rg_latency_regressions : list ReplayLatencyRegression; rg_missing_turns : nat; rg_extra_turns : nat;
}.

Section Replay.
Context (str_repr : string -> string) (int_other : pyval -> res Z) (sha256_hex : string -> string) (float_repr : spec_float -> string) (round4_repr : spec_float -> string).

(** *** [replay_diff.py] *)

(** [int(value)] where a [TypeError] and a [ValueError] are caught *)
Definition int_caught (v : pyval) : res (option Z) :=
  match TurnEngine.py_int int_other v with
  | Ok z => Ok (Some z)
  | Err e => if raised "TypeError" e || raised "ValueError" e then Ok None else Err e
  end.
(** [_token_bucket] *)
Definition token_bucket (v : pyval) : res pyval :=
  tokens ← int_caught v;
  Ok (match tokens with None => VNone | Some t => if t <=? 0 then VInt 0 else VInt (((t - 1) / 50 + 1) * 50) end).
Definition int_or_none (v : pyval) : res (option Z) := int_caught v.

(** [sorted] of texts, or of integers *)
Definition sorted_values (l : list pyval) : res pyval :=
  match mapM (fun v => match v with VStr s => Some s | _ => None end) l, mapM (fun v => match v with VInt z => Some z | _ => None end) l with
  | Some texts, _ => Ok (VList (map VStr (py_sorted str_leb texts)))
  | _, Some numbers => Ok (VList (map VInt (py_sorted Z.leb numbers)))
  | None, None => Err type_error
  end.

(** [_prompt_safe_shape] *)
Definition segment_shape (seg : pyval) : res pyval :=
  dict_of [("kind", get_none seg "kind"); ("source", get_none seg "source"); ("token_bucket", get_none seg "token_estimate" ≫= token_bucket);
           ("dropped", flag seg "dropped"); ("degraded", m ← sub seg "metadata"; flag m "degraded")].
Definition memory_shape (memory : pyval) : res pyval :=
  dict_of [("attempted", flag memory "attempted"); ("skipped_reason", get_none memory "skipped_reason"); ("degraded", flag memory "degraded");
           ("degraded_reason", get_none memory "degraded_reason"); ("hit_count", or_zero memory "hit_count"); ("kg_triple_count", or_zero memory "kg_triple_count");
           ("context_injected", flag memory "context_injected")].
Definition prompt_safe_shape (trace : pyval) : res pyval :=
  ledger ← sub trace "context_ledger"; memory ← sub trace "memory_trace"; privacy ← sub trace "privacy"; turn ← sub trace "turn";
  dict_of [("schema_version", get_none trace "schema_version"); ("triage", get_none turn "triage"); ("trigger", get_none turn "trigger");
           ("context", segments ← elems ledger "segments"; VList <$> mapM segment_shape segments);
           ("degraded_sources", elems ledger "degraded_sources" ≫= sorted_values);
           ("memory", memory_shape memory); ("privacy_mode", get_none privacy "mode")].
(** [_stable_hash] *)
Definition stable_hash (v : pyval) : string := py_take 16 (sha256_hex (json_dumps true "," ":" v)).

(** [snapshot_from_turn_trace] *)
Definition tool_decision (item : pyval) : res pyval :=
  name ← get_none item "name"; ok ← get_none item "ok"; code ← get_none item "error_code";
  Ok (VStr (py_str str_repr name +:+ ":" +:+ py_str str_repr (VBool (truthy ok)) +:+ ":" +:+ py_str str_repr (pv_or code (VStr "")))).
Definition snapshot_from_turn_trace (trace : pyval) (fallback_key : string) : res ReplayTurnSnapshot :=
  turn ← sub trace "turn"; latency ← sub trace "latency"; tools ← elems trace "tool_trace";
  id ← get_none turn "turn_id";
  shape ← prompt_safe_shape trace;
  decisions ← mapM tool_decision tools;
  first_delta ← get_none latency "first_delta_ms" ≫= int_or_none;
  total ← get_none latency "total_ms" ≫= int_or_none;
  Ok (mkReplaySnapshot (py_str str_repr (pv_or id (VStr fallback_key))) (stable_hash shape) decisions first_delta total).

(** [snapshots_from_artifact] *)
Definition snapshot_of_item (idx : nat) (item : pyval) : res ReplayTurnSnapshot :=
  match item with
  | VDict d =>
      let get k := default VNone (dict_get d k) in
      let n := int_str (Z.of_nat idx) in
      match dict_get d "prompt_fingerprint" with
      | Some fingerprint =>
          decisions ← py_list (pv_or (get "tool_decision") (VList []));
          first_delta ← int_or_none (get "first_delta_ms"); total ← int_or_none (get "total_ms");
          Ok (mkReplaySnapshot (py_str str_repr (pv_or (get "key") (VStr n))) (py_str str_repr fingerprint) decisions first_delta total)
      | None =>
          trace ← (if truthy (get "turn_trace") then Ok (get "turn_trace")
                   else inner ← get_none (or_empty (get "metadata")) "turn_trace"; Ok (pv_or inner item));
          snapshot_from_turn_trace trace n
      end
  | _ => Err (PyError "ValueError" ("turn " +:+ int_str (Z.of_nat idx) +:+ " must be an object"))
  end.
Fixpoint snapshots_from (idx : nat) (items : list pyval) : res (list ReplayTurnSnapshot) :=
  match items with [] => Ok [] | item :: rest => s ← snapshot_of_item idx item; l ← snapshots_from (S idx) rest; Ok (s :: l) end.
Definition snapshots_from_artifact (data : pyval) : res (list ReplayTurnSnapshot) :=
  match match data with VDict d => default data (dict_get d "turns") | _ => data end with
  | VList items => snapshots_from 0 items
  | _ => Err (PyError "ValueError" "replay artifact must be a list or {'turns': [...]}")
  end.

(** [_latency_regression] *)
Definition latency_regression (index : nat) (key field : string) (base cand : option Z) (thresholds : ReplayDiffThresholds) : res (list ReplayLatencyRegression) :=
  match base, cand with
  | Some base, Some cand =>
      if cand <=? base then Ok []
      else
        let delta := cand - base in
        ratio ← true_div delta (Z.max base 1);
        if delta <=? thresholds.(max_latency_regression_ms) then Ok []
        else if SFleb ratio thresholds.(max_latency_regression_ratio) then Ok []
        else Ok [mkRegression index key field base cand delta ratio]
  | _, _ => Ok []
  end.

(** [compare_replay_snapshots]: one index of the loop, and the loop *)
Record Compared := mkCompared { cp_prompt : list ReplayChange; cp_tools : list ReplayChange; cp_latency : list ReplayLatencyRegression }.
Definition compared_key (idx : nat) (base cand : ReplayTurnSnapshot) : string := str_or cand.(rs_key) (str_or base.(rs_key) (int_str (Z.of_nat idx))).
(** Two lists of decisions that are equal for Python *)
Definition same_decisions (a b : list pyval) : bool := bool_decide (length a = length b) && forallb (fun x => py_eq x.1 x.2) (zip a b).
Definition compare_turn (thresholds : ReplayDiffThresholds) (idx : nat) (base cand : ReplayTurnSnapshot) : res Compared :=
  let key := compared_key idx base cand in
  first ← latency_regression idx key "first_delta_ms" base.(rs_first_delta_ms) cand.(rs_first_delta_ms) thresholds;
  total ← latency_regression idx key "total_ms" base.(rs_total_ms) cand.(rs_total_ms) thresholds;
  Ok (mkCompared
        (if bool_decide (base.(rs_prompt_fingerprint) = cand.(rs_prompt_fingerprint)) then []
         else [mkChange idx key (VStr base.(rs_prompt_fingerprint)) (VStr cand.(rs_prompt_fingerprint))])
        (if same_decisions base.(rs_tool_decision) cand.(rs_tool_decision) then []
         else [mkChange idx key (VList base.(rs_tool_decision)) (VList cand.(rs_tool_decision))])
        (first ++ total)).
Fixpoint compare_turns (thresholds : ReplayDiffThresholds) (idx : nat) (baseline candidate : list ReplayTurnSnapshot) : res Compared :=
  match baseline, candidate with
  | base :: baseline, cand :: candidate =>
      c ← compare_turn thresholds idx base cand;
      rest ← compare_turns thresholds (S idx) baseline candidate;
      Ok (mkCompared (c.(cp_prompt) ++ rest.(cp_prompt)) (c.(cp_tools) ++ rest.(cp_tools)) (c.(cp_latency) ++ rest.(cp_latency)))
  | _, _ => Ok (mkCompared [] [] [])
  end.
Definition compare_replay_snapshots (thresholds : ReplayDiffThresholds) (baseline candidate : list ReplayTurnSnapshot) : res ReplayGateReport :=
  let total := Nat.min (length baseline) (length candidate) in
  c ← compare_turns thresholds 0 baseline candidate;
  let missing := (length baseline - length candidate)%nat in let extra := (length candidate - length baseline)%nat in
  let denom := Z.of_nat (Nat.max total 1) in
  prompt_ratio ← true_div (Z.of_nat (length c.(cp_prompt))) denom;
  tool_ratio ← true_div (Z.of_nat (length c.(cp_tools))) denom;
  let passed := bool_decide (missing = 0%nat) && bool_decide (extra = 0%nat) && SFleb prompt_ratio thresholds.(max_prompt_change_ratio)
                && SFleb tool_ratio thresholds.(max_tool_decision_change_ratio) && bool_decide (c.(cp_latency) = []) in
  Ok (mkReport passed total thresholds c.(cp_prompt) c.(cp_tools) c.(cp_latency) missing extra).

(** The [to_metadata] of the records *)
Definition float_value (f : spec_float) : pyval := VFloat (float_repr f).
Definition thresholds_to_metadata (t : ReplayDiffThresholds) : pyval :=
  VDict [("max_prompt_change_ratio", float_value t.(max_prompt_change_ratio)); ("max_tool_decision_change_ratio", float_value t.(max_tool_decision_change_ratio));
         ("max_latency_regression_ratio", float_value t.(max_latency_regression_ratio)); ("max_latency_regression_ms", VInt t.(max_latency_regression_ms))].
Definition snapshot_to_metadata (s : ReplayTurnSnapshot) : pyval :=
  VDict [("key", VStr s.(rs_key)); ("prompt_fingerprint", VStr s.(rs_prompt_fingerprint)); ("tool_decision", VList s.(rs_tool_decision));
         ("first_delta_ms", of_opt_int s.(rs_first_delta_ms)); ("total_ms", of_opt_int s.(rs_total_ms))].
Definition regression_to_metadata (r : ReplayLatencyRegression) : pyval :=
  VDict [("index", VInt (Z.of_nat r.(lr_index))); ("key", VStr r.(lr_key)); ("field", VStr r.(lr_field)); ("baseline_ms", VInt r.(lr_baseline_ms));
         ("candidate_ms", VInt r.(lr_candidate_ms)); ("delta_ms", VInt r.(lr_delta_ms)); ("delta_ratio", VFloat (round4_repr r.(lr_delta_ratio)))].
Definition change_value (c : ReplayChange) : pyval :=
  VDict [("index", VInt (Z.of_nat c.(ch_index))); ("key", VStr c.(ch_key)); ("baseline", c.(ch_baseline)); ("candidate", c.(ch_candidate))].
Definition report_to_metadata (r : ReplayGateReport) : pyval :=
  let count {A} (l : list A) := VInt (Z.of_nat (length l)) in
  VDict [("passed", VBool r.(rg_passed)); ("total_compared", VInt (Z.of_nat r.(rg_total_compared))); ("thresholds", thresholds_to_metadata r.(rg_thresholds));
         ("summary", VDict [("prompt_changed", count r.(rg_prompt_changed)); ("tool_decision_changed", count r.(rg_tool_decision_changed));
                            ("latency_regressions", count r.(rg_latency_regressions)); ("missing_turns", VInt (Z.of_nat r.(rg_missing_turns)));
                            ("extra_turns", VInt (Z.of_nat r.(rg_extra_turns)))]);
         ("prompt_changed", VList (map change_value r.(rg_prompt_changed))); ("tool_decision_changed", VList (map change_value r.(rg_tool_decision_changed)));
         ("latency_regressions", VList (map regression_to_metadata r.(rg_latency_regressions)))].

(** *** [turn_trace_summary.py] *)

(** [_int_or_zero] *)
Definition int_or_nought (v : pyval) : res Z := default 0 <$> int_caught v.
(** [list(v.get(k) or [])] *)
Definition listed (v : pyval) (k : string) : res pyval := VList <$> elems v k.
Definition or_text (v : pyval) (k dflt : string) : res pyval := x ← get_none v k; Ok (pv_or x (VStr dflt)).
Definition count_flag (k : string) (l : list pyval) : res pyval := flags ← mapM (fun x => get_none x k) l; Ok (VInt (Z.of_nat (length (List.filter truthy flags)))).
Definition count_without (k : string) (l : list pyval) : res pyval := flags ← mapM (fun x => get_none x k) l; Ok (VInt (Z.of_nat (length (List.filter (fun x => negb (truthy x)) flags)))).
Definition sum_of (k : string) (l : list pyval) : res pyval := ns ← mapM (fun x => get_none x k ≫= int_or_nought) l; Ok (VInt (fold_right Z.add 0 ns)).

(** [_context_summary] *)
Definition context_summary (ledger : pyval) : res pyval :=
  segments ← elems ledger "segments"; dropped ← elems ledger "dropped_segments";
  dict_of [("total_token_estimate", or_zero ledger "total_token_estimate"); ("segment_kinds", named "kind" segments); ("dropped_count", Ok (VInt (Z.of_nat (length dropped))));
           ("dropped_kinds", named "kind" dropped); ("degraded_sources", listed ledger "degraded_sources")].
(** [_development_guard_summary] *)
Definition development_guard_summary (guards : pyval) : res pyval :=
  context ← sub guards "context_budget"; memory_write ← sub guards "memory_write_policy"; tool ← sub guards "tool_policy"; tool_schema ← sub guards "tool_schema_budget";
  dict_of
    [("context_budget", dict_of
        [("mode", get_none context "mode"); ("applied", flag context "applied"); ("max_tokens", get_none context "max_tokens");
         ("protected_token_estimate", or_zero context "protected_token_estimate"); ("optional_token_estimate", or_zero context "optional_token_estimate");
         ("output_reserve_tokens", get_none context "output_reserve_tokens"); ("dropped_count", or_zero context "dropped_count");
         ("shadow_dropped_count", or_zero context "shadow_dropped_count"); ("shadow_dropped_kinds", listed context "shadow_dropped_kinds")]);
     ("tool_schema_budget", dict_of
        [("schema_count", or_zero tool_schema "schema_count"); ("schema_token_estimate", or_zero tool_schema "schema_token_estimate");
         ("schema_budget_tokens", get_none tool_schema "schema_budget_tokens"); ("schema_budget_exceeded", flag tool_schema "schema_budget_exceeded")]);
     ("memory_write_policy", dict_of
        [("trace_kind", or_text memory_write "trace_kind" "memory_turn_observation"); ("durable_result", or_text memory_write "durable_result" "async_memory_worker");
         ("mode", get_none memory_write "mode"); ("shadow_only", flag memory_write "shadow_only"); ("fanout_allowed", flag memory_write "fanout_allowed");
         ("skipped_reason", get_none memory_write "skipped_reason"); ("ingest_policy", get_none memory_write "ingest_policy")]);
     ("tool_policy", dict_of
        [("schema_strict", flag tool "schema_strict"); ("require_idempotency_for_side_effect_tools", flag tool "require_idempotency_for_side_effect_tools");
         ("max_tool_iters", get_none tool "max_tool_iters")])].
(** [_harness_summary] *)
Definition harness_summary (harness : pyval) : res pyval :=
  tools ← sub harness "tools"; handoffs ← elems harness "handoffs";
  dict_of [("kind", get_none harness "kind"); ("segment_kinds", listed harness "segment_kinds"); ("visible_tool_names", listed tools "visible_names");
           ("handoff_count", Ok (VInt (Z.of_nat (length handoffs)))); ("handoff_tool_names", named "tool_name" handoffs)].

Definition tools_summary (trace : pyval) (tools : list pyval) : res pyval :=
  dict_of [("count", Ok (VInt (Z.of_nat (length tools)))); ("names", named "name" tools); ("error_count", count_without "ok" tools); ("cached_count", count_flag "cached" tools);
           ("total_latency_ms", sum_of "latency_ms" tools); ("repeat_suppressed_count", or_zero trace "tool_repeat_suppressed_count")].
Definition memory_summary (memory : pyval) : res pyval :=
  dict_of [("attempted", flag memory "attempted"); ("degraded", flag memory "degraded"); ("degraded_reason", get_none memory "degraded_reason");
           ("skipped_reason", get_none memory "skipped_reason"); ("hit_count", or_zero memory "hit_count"); ("kg_triple_count", or_zero memory "kg_triple_count");
           ("context_injected", flag memory "context_injected")].
Definition memory_write_summary (write : pyval) : res pyval :=
  dict_of [("trace_kind", or_text write "trace_kind" "memory_turn_observation"); ("durable_result", or_text write "durable_result" "async_memory_worker");
           ("ingest_policy", get_none write "ingest_policy"); ("fanout_allowed", flag write "fanout_allowed"); ("skipped_reason", get_none write "skipped_reason")].
Definition latency_summary (latency first_delta total : pyval) : res pyval :=
  dict_of [("guard_ms", get_none latency "guard_ms"); ("triage_ms", get_none latency "triage_ms"); ("compile_ms", get_none latency "compile_ms");
           ("first_delta_ms", py_get latency "first_delta_ms" first_delta); ("output_ms", get_none latency "output_ms"); ("tool_ms", py_get latency "tool_ms" (VInt 0));
           ("total_ms", py_get latency "total_ms" total)].

(** [build_turn_observability_summary]; no summary is [VNone]. *)
Definition trace_summary (trace first_delta total : pyval) : res pyval :=
  ledger ← sub trace "context_ledger"; memory ← sub trace "memory_trace"; memory_write ← sub trace "memory_write_trace"; tools ← elems trace "tool_trace";
  privacy ← sub trace "privacy"; latency ← sub trace "latency"; guards ← sub trace "development_guards"; harness ← sub trace "harness";
  snapshot ← snapshot_from_turn_trace trace "turn";
  dict_of
    [("schema_version", get_none trace "schema_version"); ("privacy_mode", get_none privacy "mode"); ("prompt_fingerprint", Ok (VStr snapshot.(rs_prompt_fingerprint)));
     ("context", context_summary ledger); ("context_structure_version", get_none trace "context_structure_version"); ("history_presentation", get_none trace "history_presentation");
     ("context_tags", listed trace "context_tags"); ("interrupted_context_dropped_count", or_zero trace "interrupted_context_dropped_count");
     ("stale_generation_dropped", or_zero trace "stale_generation_dropped"); ("memory", memory_summary memory); ("memory_write", memory_write_summary memory_write);
     ("tools", tools_summary trace tools); ("harness", harness_summary harness); ("latency", latency_summary latency first_delta total);
     ("development_guards", development_guard_summary guards)].
Definition build_turn_observability_summary (metadata first_delta total : pyval) : res pyval :=
  trace ← get_none (or_empty metadata) "turn_trace";
  if is_dict trace then trace_summary trace first_delta total else Ok VNone.
End Replay.

(** [build_live_turn_observability_summary] *)
Definition build_live_turn_observability_summary (t : LiveToolUse) (first_delta_ms : option Z) : pyval :=
  VDict [("live", VBool true);
         ("tools", VDict [("count", VInt t.(lu_count)); ("completed", VInt t.(lu_completed)); ("names", VList (map VStr t.(lu_names)));
                          ("error_count", VInt t.(lu_error_count)); ("total_latency_ms", VNone)]);
         ("latency", VDict [("first_delta_ms", of_opt_int first_delta_ms); ("total_ms", VNone)])].

(** ** Only labels are read *)

(** What of a document is read: all of it, some fields, or some fields of every element *)
Inductive shape :=
  | Whole
  | Fields (l : list (string * shape))
  | Items (l : list (string * shape)).

(** A document without what is not read *)
Fixpoint redact (s : shape) (v : pyval) : pyval :=
  let keep := fix keep (l : list (string * shape)) (d : list (string * pyval)) : list (string * pyval) :=
    match l with
    | [] => []
    | (k, s) :: l => match dict_get d k with Some x => (k, redact s x) :: keep l d | None => keep l d end
    end in
  match s with
  | Whole => v
  | Fields l => match v with VDict d => VDict (keep l d) | _ => v end
  | Items l => match v with VList xs => VList (map (fun x => match x with VDict d => VDict (keep l d) | _ => x end) xs) | _ => v end
  end.

Notation shape_fields := (list (string * shape)).
Definition whole (l : list string) : shape_fields := map (fun k => (k, Whole)) l.
Definition segment_fields : shape_fields := [("kind", Whole); ("source", Whole); ("token_estimate", Whole); ("dropped", Whole); ("metadata", Fields [("degraded", Whole)])].
Definition ledger_fields : shape_fields :=
  [("segments", Items segment_fields); ("dropped_segments", Items (whole ["kind"])); ("degraded_sources", Whole); ("total_token_estimate", Whole)].
Definition memory_fields : shape_fields := whole ["attempted"; "degraded"; "degraded_reason"; "skipped_reason"; "hit_count"; "kg_triple_count"; "context_injected"].
Definition write_fields : shape_fields := whole ["trace_kind"; "durable_result"; "ingest_policy"; "fanout_allowed"; "skipped_reason"].
Definition tool_fields : shape_fields := whole ["name"; "ok"; "error_code"; "cached"; "latency_ms"].
Definition turn_fields : shape_fields := whole ["turn_id"; "triage"; "trigger"].
Definition latency_fields : shape_fields := whole ["guard_ms"; "triage_ms"; "compile_ms"; "first_delta_ms"; "output_ms"; "tool_ms"; "total_ms"].
Definition harness_fields : shape_fields :=
  [("kind", Whole); ("segment_kinds", Whole); ("tools", Fields (whole ["visible_names"])); ("handoffs", Items (whole ["tool_name"]))].
Definition budget_guard_fields : shape_fields :=
  whole ["mode"; "applied"; "max_tokens"; "protected_token_estimate"; "optional_token_estimate"; "output_reserve_tokens"; "dropped_count"; "shadow_dropped_count"; "shadow_dropped_kinds"].
Definition write_guard_fields : shape_fields := whole ["trace_kind"; "durable_result"; "mode"; "shadow_only"; "fanout_allowed"; "skipped_reason"; "ingest_policy"].
Definition tool_guard_fields : shape_fields := whole ["schema_strict"; "require_idempotency_for_side_effect_tools"; "max_tool_iters"].
Definition schema_guard_fields : shape_fields := whole ["schema_count"; "schema_token_estimate"; "schema_budget_tokens"; "schema_budget_exceeded"].
Definition guards_fields : shape_fields :=
  [("context_budget", Fields budget_guard_fields); ("memory_write_policy", Fields write_guard_fields); ("tool_policy", Fields tool_guard_fields);
   ("tool_schema_budget", Fields schema_guard_fields)].
Definition trace_fields : shape_fields :=
  [("schema_version", Whole); ("turn", Fields turn_fields); ("latency", Fields latency_fields); ("context_ledger", Fields ledger_fields);
   ("memory_trace", Fields memory_fields); ("memory_write_trace", Fields write_fields); ("tool_trace", Items tool_fields); ("privacy", Fields (whole ["mode"]));
   ("harness", Fields harness_fields); ("context_structure_version", Whole); ("history_presentation", Whole); ("context_tags", Whole);
   ("interrupted_context_dropped_count", Whole); ("stale_generation_dropped", Whole); ("tool_repeat_suppressed_count", Whole);
   ("development_guards", Fields guards_fields)].
(** What a summary reads of a turn's metadata *)
Definition metadata_read : shape := Fields [("turn_trace", Fields trace_fields)].

(** One element of [Items] *)
Definition redact_item (l : list (string * shape)) (x : pyval) : pyval := redact (Fields l) x.
Fixpoint shape_at (l : list (string * shape)) (k : string) : option shape :=
  match l with [] => None | (k', s) :: l => if bool_decide (k = k') then Some s else shape_at l k end.

Fixpoint kept (l : list (string * shape)) (d : list (string * pyval)) : list (string * pyval) :=
  match l with
  | [] => []
  | (k, s) :: l => match dict_get d k with Some x => (k, redact s x) :: kept l d | None => kept l d end
  end.
Lemma redact_fields l d : redact (Fields l) (VDict d) = VDict (kept l d).
Proof. reflexivity. Qed.
Lemma redact_items l xs : redact (Items l) (VList xs) = VList (map (redact_item l) xs).
Proof. reflexivity. Qed.

Lemma kept_get l d k s : NoDup l.*1 -> shape_at l k = Some s -> dict_get (kept l d) k = redact s <$> dict_get d k.
Proof.
  intros Hn Hs. induction l as [|[k' s'] l IH]; [done|]. cbn [shape_at] in Hs. cbn in Hn. apply NoDup_cons in Hn as [Hk Hn].
  assert (k' ∉ (kept l d).*1) as Hout.
  { clear -Hk. induction l as [|[k s] l IH]; cbn [kept]; [apply not_elem_of_nil|]. cbn in Hk. apply not_elem_of_cons in Hk as [Hne Hk].
    destruct (dict_get d k); [|by apply IH]. cbn. apply not_elem_of_cons. split; [done|by apply IH]. }
  case_bool_decide as E; cbn [kept].
  - subst k'. injection Hs as ->. destruct (dict_get d k) as [x|] eqn:Ed.
    + cbn. by rewrite decide_True.
    + by apply dict_get_none.
  - destruct (dict_get d k') as [x|]; [cbn; rewrite decide_False by done|]; by apply IH.
Qed.

Lemma kept_nil l : kept l [] = [].
Proof. induction l as [|[k s] l IH]; [done|]. exact IH. Qed.
Lemma or_empty_redacted l x : or_empty (redact (Fields l) x) = redact (Fields l) (or_empty x).
Proof.
  destruct x as [|b|z|r|t|xs|d]; try (unfold or_empty; change (redact (Fields l) ?y) with y at 1 2; destruct (truthy _); [done|]; by rewrite redact_fields, kept_nil).
  rewrite redact_fields. destruct d as [|p d].
  { change (or_empty (VDict [])) with (VDict []). by rewrite redact_fields, kept_nil. }
  change (or_empty (VDict (p :: d))) with (VDict (p :: d)). rewrite redact_fields.
  unfold or_empty. by destruct (kept l (p :: d)).
Qed.
Lemma py_list_redacted l x : py_list (pv_or (redact (Items l) x) (VList [])) = map (redact_item l) <$> py_list (pv_or x (VList [])).
Proof.
  assert (forall xs : list string, map (redact_item l) (map VStr xs) = map VStr xs) as Hs by (intros xs; rewrite map_map; by apply map_ext).
  destruct x as [|b|z|r|t|xs|d]; try (change (redact (Items l) ?y) with y; unfold pv_or; destruct (truthy _); [|done]; cbn; by rewrite ?Hs).
  - rewrite redact_items. by destruct xs.
  - change (redact (Items l) (VDict d)) with (VDict d). unfold pv_or. destruct (truthy _); [|done]. cbn. f_equal. rewrite map_map. by apply map_ext.
Qed.
Lemma mapM_map {A B C} (f : B -> res C) (g : A -> B) l : mapM f (map g l) = mapM (fun x => f (g x)) l.
Proof. induction l as [|x l IH]; [done|]. cbn. destruct (f (g x)); cbn; [|done]. by rewrite IH. Qed.
Lemma mapM_same {A B} (f g : A -> res B) l : (forall x, f x = g x) -> mapM f l = mapM g l.
Proof. intros H. induction l as [|x l IH]; [done|]. cbn. rewrite H. destruct (g x); cbn; [|done]. by rewrite IH. Qed.

Section Redacted.
Context (l : list (string * shape)) (l_distinct : NoDup l.*1).

Lemma whole_redacted v k dflt : shape_at l k = Some Whole -> py_get (redact (Fields l) v) k dflt = py_get v k dflt.
Proof. intros Hs. destruct v as [| | | | | |d]; try done. rewrite redact_fields. cbn. rewrite (kept_get _ _ _ _ l_distinct Hs). by destruct (dict_get d k). Qed.
Lemma sub_redacted l' v k : shape_at l k = Some (Fields l') -> sub (redact (Fields l) v) k = redact (Fields l') <$> sub v k.
Proof.
  intros Hs. unfold sub, get_none. destruct v as [| | | | | |d]; try done. rewrite redact_fields. cbn [py_get]. rewrite (kept_get _ _ _ _ l_distinct Hs).
  destruct (dict_get d k) as [x|]; cbn -[redact or_empty]; f_equal; [apply or_empty_redacted|]. by rewrite <- or_empty_redacted.
Qed.
Lemma elems_redacted l' v k : shape_at l k = Some (Items l') -> elems (redact (Fields l) v) k = map (redact_item l') <$> elems v k.
Proof.
  intros Hs. unfold elems, get_none. destruct v as [| | | | | |d]; try done. rewrite redact_fields. cbn [py_get]. rewrite (kept_get _ _ _ _ l_distinct Hs).
  destruct (dict_get d k) as [x|]; cbn -[redact pv_or]; [apply py_list_redacted|done].
Qed.
Lemma elems_whole v k : shape_at l k = Some Whole -> elems (redact (Fields l) v) k = elems v k.
Proof. intros Hs. unfold elems, get_none. by rewrite whole_redacted. Qed.
End Redacted.

Lemma bind_same {A B} (m : res A) (f : A -> A) (g g' : A -> res B) : (forall x, g (f x) = g' x) -> (f <$> m) ≫= g = m ≫= g'.
Proof. intros H. destruct m; cbn; [apply H|done]. Qed.
Lemma bind_under {A B} (m : res A) (g g' : A -> res B) : (forall x, g x = g' x) -> m ≫= g = m ≫= g'.
Proof. intros H. destruct m; cbn; [apply H|done]. Qed.

(** Removes [redact] from the reads of fields, and from the reads of parts under a binder. *)
Ltac read_label := first [reflexivity | by_compute].
Ltac read_labels := rewrite ?whole_redacted, ?elems_whole by read_label; try reflexivity.
Lemma bind_sub {B} l l' v k (g g' : pyval -> res B) : NoDup l.*1 -> shape_at l k = Some (Fields l') -> (forall x, g (redact (Fields l') x) = g' x) ->
  sub (redact (Fields l) v) k ≫= g = sub v k ≫= g'.
Proof. intros Hn Hs Hg. rewrite (sub_redacted l Hn l') by done. by apply bind_same. Qed.
Lemma bind_elems {B} l l' v k (g g' : list pyval -> res B) : NoDup l.*1 -> shape_at l k = Some (Items l') -> (forall x, g (map (redact_item l') x) = g' x) ->
  elems (redact (Fields l) v) k ≫= g = elems v k ≫= g'.
Proof. intros Hn Hs Hg. rewrite (elems_redacted l Hn l') by done. by apply bind_same. Qed.
Ltac read_sub := eapply bind_sub; [by_compute|reflexivity|intros ?].
Ltac read_elems := eapply bind_elems; [by_compute|reflexivity|intros ?].

Section Labels.
Context (str_repr : string -> string) (int_other : pyval -> res Z) (sha256_hex : string -> string).

Lemma each_redacted {B} (f : pyval -> res B) l xs : (forall x, f (redact (Fields l) x) = f x) -> mapM f (map (redact_item l) xs) = mapM f xs.
Proof. intros H. rewrite mapM_map. by apply mapM_same. Qed.
Lemma named_redacted k l xs : NoDup l.*1 -> shape_at l k = Some Whole -> named k (map (redact_item l) xs) = named k xs.
Proof. intros Hn Hs. unfold named. rewrite each_redacted; [done|]. intros x. unfold get_none. by rewrite whole_redacted. Qed.

Lemma segment_shape_redacted seg : segment_shape int_other (redact (Fields segment_fields) seg) = segment_shape int_other seg.
Proof. unfold segment_shape, flag, get_none. read_labels. do 7 f_equal. read_sub. read_labels. Qed.
Lemma memory_shape_redacted x : memory_shape (redact (Fields memory_fields) x) = memory_shape x.
Proof. unfold memory_shape, flag, or_zero, get_none. read_labels. Qed.
Lemma memory_summary_redacted x : memory_summary (redact (Fields memory_fields) x) = memory_summary x.
Proof. unfold memory_summary, flag, or_zero, get_none. read_labels. Qed.
Lemma memory_write_summary_redacted x : memory_write_summary (redact (Fields write_fields) x) = memory_write_summary x.
Proof. unfold memory_write_summary, flag, or_text, get_none. read_labels. Qed.
Lemma latency_summary_redacted x first_delta total : latency_summary (redact (Fields latency_fields) x) first_delta total = latency_summary x first_delta total.
Proof. unfold latency_summary, get_none. read_labels. Qed.
Lemma context_summary_redacted x : context_summary (redact (Fields ledger_fields) x) = context_summary x.
Proof.
  unfold context_summary. read_elems. read_elems. rewrite length_map, !named_redacted by read_label. unfold or_zero, listed, get_none. read_labels.
Qed.
Lemma harness_summary_redacted x : harness_summary (redact (Fields harness_fields) x) = harness_summary x.
Proof.
  unfold harness_summary. read_sub. read_elems. rewrite length_map, !named_redacted by read_label. unfold listed, get_none. read_labels.
Qed.
Lemma development_guard_summary_redacted x : development_guard_summary (redact (Fields guards_fields) x) = development_guard_summary x.
Proof.
  unfold development_guard_summary. do 4 read_sub. unfold flag, or_zero, or_text, listed, get_none. read_labels.
Qed.
Lemma tool_decision_redacted x : tool_decision str_repr (redact (Fields tool_fields) x) = tool_decision str_repr x.
Proof. unfold tool_decision, get_none. read_labels. Qed.
Lemma context_shape_redacted x : (segments ← elems (redact (Fields ledger_fields) x) "segments"; VList <$> mapM (segment_shape int_other) segments)
  = (segments ← elems x "segments"; VList <$> mapM (segment_shape int_other) segments).
Proof. read_elems. by rewrite (each_redacted _ _ _ segment_shape_redacted). Qed.
Lemma prompt_safe_shape_redacted x : prompt_safe_shape int_other (redact (Fields trace_fields) x) = prompt_safe_shape int_other x.
Proof.
  unfold prompt_safe_shape. do 4 read_sub. rewrite memory_shape_redacted, context_shape_redacted. unfold get_none. read_labels.
Qed.
Lemma snapshot_redacted x fallback : snapshot_from_turn_trace str_repr int_other sha256_hex (redact (Fields trace_fields) x) fallback = snapshot_from_turn_trace str_repr int_other sha256_hex x fallback.
Proof.
  unfold snapshot_from_turn_trace. do 2 read_sub. read_elems. rewrite prompt_safe_shape_redacted, (each_redacted _ _ _ tool_decision_redacted).
  unfold get_none. read_labels.
Qed.
Lemma tools_summary_redacted x tools : tools_summary int_other (redact (Fields trace_fields) x) (map (redact_item tool_fields) tools) = tools_summary int_other x tools.
Proof.
  assert (forall {B} (f : pyval -> res B) k, shape_at tool_fields k = Some Whole ->
    mapM (fun y => get_none y k ≫= f) (map (redact_item tool_fields) tools) = mapM (fun y => get_none y k ≫= f) tools) as Hf.
  { intros B f k Hk. apply each_redacted. intros y. unfold get_none. by rewrite whole_redacted by first [exact Hk|read_label]. }
  assert (forall k, shape_at tool_fields k = Some Whole -> mapM (fun y => get_none y k) (map (redact_item tool_fields) tools) = mapM (fun y => get_none y k) tools) as Hg.
  { intros k Hk. apply each_redacted. intros y. unfold get_none. by rewrite whole_redacted by first [exact Hk|read_label]. }
  unfold tools_summary, named, count_without, count_flag, sum_of. rewrite length_map, !Hg, Hf by reflexivity. unfold or_zero, get_none. read_labels.
Qed.
Lemma trace_summary_redacted x first_delta total :
  trace_summary str_repr int_other sha256_hex (redact (Fields trace_fields) x) first_delta total = trace_summary str_repr int_other sha256_hex x first_delta total.
Proof.
  unfold trace_summary. do 3 read_sub. read_elems. do 4 read_sub. rewrite snapshot_redacted, context_summary_redacted, memory_summary_redacted, memory_write_summary_redacted,
    tools_summary_redacted, harness_summary_redacted, latency_summary_redacted, development_guard_summary_redacted.
  unfold listed, or_zero, get_none. read_labels.
Qed.
End Labels.

(** Of a turn, its summary reads labels, flags, counts and durations, which [metadata_read] lists; nothing else that is stored with it,
    and no text of a segment, a message, a memory or an argument, has any influence on the summary. *)
Theorem summaries_read_labels_only str_repr int_other sha256_hex metadata first_delta total :
  build_turn_observability_summary str_repr int_other sha256_hex (redact metadata_read metadata) first_delta total
  = build_turn_observability_summary str_repr int_other sha256_hex metadata first_delta total.
Proof.
  unfold build_turn_observability_summary, metadata_read. rewrite or_empty_redacted. set (m := or_empty metadata). clearbody m.
  destruct m as [| | | | | |d]; try reflexivity. rewrite redact_fields. cbn [kept]. unfold get_none. cbn [py_get].
  destruct (dict_get d "turn_trace") as [trace|]; cbn -[trace_summary redact is_dict trace_fields]; [|reflexivity].
  rewrite decide_True by done. change (default VNone (Some ?x)) with x. rewrite trace_summary_redacted. by destruct trace.
Qed.

(** ** The gate *)

Section Gate.
Context (t : ReplayDiffThresholds).

(** A latency that the gate lets pass *)
Definition tolerable (base cand : option Z) : Prop :=
  match base, cand with
  | Some base, Some cand => cand <= base \/ cand - base <= t.(max_latency_regression_ms) \/
      exists ratio, true_div (cand - base) (Z.max base 1) = Ok ratio /\ SFleb ratio t.(max_latency_regression_ratio) = true
  | _, _ => True
  end.
Definition latencies_tolerable (base cand : ReplayTurnSnapshot) : Prop :=
  tolerable base.(rs_first_delta_ms) cand.(rs_first_delta_ms) /\ tolerable base.(rs_total_ms) cand.(rs_total_ms).
Definition prompt_changes (baseline candidate : list ReplayTurnSnapshot) : list (ReplayTurnSnapshot * ReplayTurnSnapshot) :=
  List.filter (fun x => negb (bool_decide (x.1.(rs_prompt_fingerprint) = x.2.(rs_prompt_fingerprint)))) (zip baseline candidate).
Definition decision_changes (baseline candidate : list ReplayTurnSnapshot) : list (ReplayTurnSnapshot * ReplayTurnSnapshot) :=
  List.filter (fun x => negb (same_decisions x.1.(rs_tool_decision) x.2.(rs_tool_decision))) (zip baseline candidate).
(** A share of the compared turns that is within a limit *)
Definition within_share (n total : nat) (limit : spec_float) : Prop :=
  exists ratio, true_div (Z.of_nat n) (Z.of_nat (Nat.max total 1)) = Ok ratio /\ SFleb ratio limit = true.

Lemma latency_regression_spec index key field base cand l : latency_regression index key field base cand t = Ok l -> l = [] <-> tolerable base cand.
Proof.
  unfold latency_regression, tolerable. destruct base as [b|], cand as [c|]; try (by intros [= <-]).
  destruct (Z.leb_spec c b); [intros [= <-]; split; [by left|done]|]. destruct (true_div _ _) as [ratio|]; cbn; [|done].
  destruct (Z.leb_spec (c - b) (max_latency_regression_ms t)); [intros [= <-]; split; [by right; left|done]|].
  destruct (SFleb ratio _) eqn:E; intros [= <-].
  - split; [|done]. intros _. right. right. by exists ratio.
  - split; [done|]. intros [?|[?|(r & [= <-] & Hr)]]; [lia|lia|congruence].
Qed.

Lemma compare_turns_spec idx baseline candidate c : compare_turns t idx baseline candidate = Ok c ->
  length c.(cp_prompt) = length (prompt_changes baseline candidate) /\ length c.(cp_tools) = length (decision_changes baseline candidate) /\
  (c.(cp_latency) = [] <-> Forall (fun x => latencies_tolerable x.1 x.2) (zip baseline candidate)).
Proof.
  revert idx candidate c. induction baseline as [|base baseline IH]; intros idx [|cand candidate] c; cbn [compare_turns]; try (intros [= <-]; by split_and!).
  rewrite res_bind_ok. intros (c1 & H1 & (c2 & H2 & [= <-])%res_bind_ok). destruct (IH _ _ _ H2) as (Hp & Ht & Hl).
  unfold compare_turn in H1. apply res_bind_ok in H1 as (l1 & E1 & (l2 & E2 & [= <-])%res_bind_ok).
  apply latency_regression_spec in E1, E2. cbn [cp_prompt cp_tools cp_latency]. unfold prompt_changes, decision_changes in *. cbn [zip zip_with].
  cbn [List.filter fst snd]. rewrite !length_app, Hp, Ht. split_and!.
  - case_bool_decide; done.
  - destruct (same_decisions _ _); done.
  - rewrite Forall_cons, <- Hl. unfold latencies_tolerable. cbn [fst snd]. rewrite <- E1, <- E2. split; [by intros [[-> ->]%app_nil ->]%app_nil|by intros [[-> ->] ->]].
Qed.

(** The gate passes exactly when every turn has its counterpart, the shares of the turns whose prompts and whose tool decisions changed are
    within their limits, and no latency of any turn got worse beyond both of its limits. *)
Theorem gate_passes_within_limits baseline candidate report : compare_replay_snapshots t baseline candidate = Ok report ->
  let total := Nat.min (length baseline) (length candidate) in
  report.(rg_total_compared) = total /\
  (report.(rg_passed) = true <->
     length baseline = length candidate /\ within_share (length (prompt_changes baseline candidate)) total t.(max_prompt_change_ratio) /\
     within_share (length (decision_changes baseline candidate)) total t.(max_tool_decision_change_ratio) /\
     forall i base cand, baseline !! i = Some base -> candidate !! i = Some cand -> latencies_tolerable base cand).
Proof.
  unfold compare_replay_snapshots. cbv zeta. rewrite res_bind_ok. intros (c & Hc & (pr & Hpr & (tr & Htr & [= <-])%res_bind_ok)%res_bind_ok).
  destruct (compare_turns_spec _ _ _ _ Hc) as (Hp & Ht & Hl). cbn [rg_total_compared rg_passed]. split; [done|].
  rewrite !andb_true_iff, !bool_decide_eq_true, Hl, Forall_lookup. unfold within_share. rewrite <- Hp, <- Ht, Hpr, Htr.
  assert (forall (b c : list ReplayTurnSnapshot), (forall i x, zip b c !! i = Some x -> latencies_tolerable x.1 x.2) <->
    forall i base cand, b !! i = Some base -> c !! i = Some cand -> latencies_tolerable base cand) as ->.
  { intros b c'. setoid_rewrite lookup_zip_with_Some. split; [|naive_solver]. intros H i base cand Hb Hc'. by apply (H i (base, cand)); exists base, cand. }
  split.
  - intros [[[[? ?] ?] ?] ?]. split; [lia|]. naive_solver.
  - intros (? & (? & [= <-] & ?) & (? & [= <-] & ?) & ?). split_and!; try done; lia.
Qed.
End Gate.

(** ** The summary of a stored turn *)

Lemma fields_get (l : list (string * res pyval)) d k r : fields l = Ok d -> dict_get l k = Some r -> exists v, r = Ok v /\ dict_get d k = Some v.
Proof.
  revert d. induction l as [|[k' r'] l IH]; intros d; cbn [fields]; [done|]. rewrite res_bind_ok. intros (v & -> & (d' & Hd & [= <-])%res_bind_ok) Hk.
  cbn in *. destruct (decide (k = k')); [injection Hk as <-; by exists v|by eapply IH].
Qed.
Lemma dict_of_get l s k r : dict_of l = Ok s -> dict_get l k = Some r -> exists d v, s = VDict d /\ r = Ok v /\ dict_get d k = Some v.
Proof.
  unfold dict_of. destruct (fields l) as [d|] eqn:E; [|done]. intros [= <-] Hk. destruct (fields_get _ _ _ _ E Hk) as (v & Hr & Hv). by exists d, v.
Qed.

Section Stored.
Context (str_repr : string -> string) (int_other : pyval -> res Z) (sha256_hex : string -> string).
Notation summary := (build_turn_observability_summary str_repr int_other sha256_hex).

(** What the tools of a turn come to *)
Definition tools_counted (tools : list ToolTrace) (suppressed : Z) : pyval :=
  VDict [("count", VInt (Z.of_nat (length tools))); ("names", VList (map VStr (List.filter (fun n => negb (is_empty n)) (map tt_name tools))));
         ("error_count", VInt (Z.of_nat (length (List.filter (fun x => negb x.(tt_ok)) tools)))); ("cached_count", VInt (Z.of_nat (length (List.filter tt_cached tools))));
         ("total_latency_ms", VInt (fold_right Z.add 0 (map tt_latency_ms tools))); ("repeat_suppressed_count", VInt suppressed)].
Definition schema_budget_unknown : pyval :=
  VDict [("schema_count", VInt 0); ("schema_token_estimate", VInt 0); ("schema_budget_tokens", VNone); ("schema_budget_exceeded", VBool false)].

Lemma filter_map_truthy {A} (f : A -> pyval) p l : (forall x, truthy (f x) = p x) -> List.filter truthy (map f l) = map f (List.filter p l).
Proof. intros H. induction l as [|x l IH]; [done|]. cbn. rewrite H. destruct (p x); cbn; by rewrite IH. Qed.
Lemma get_zero d k z : dict_get d k = Some (VInt z) -> or_zero (VDict d) k = Ok (VInt z).
Proof. intros H. unfold or_zero, get_none. cbn. rewrite H. cbn. unfold pv_or. destruct z; reflexivity. Qed.

Lemma tools_counted_spec d tools suppressed : dict_get d "tool_repeat_suppressed_count" = Some (VInt suppressed) ->
  tools_summary int_other (VDict d) (map tool_trace_to_metadata tools) = Ok (tools_counted tools suppressed).
Proof.
  intros Hd. unfold tools_summary, named, count_without, count_flag, sum_of. rewrite (get_zero _ _ _ Hd), !mapM_map, length_map.
  rewrite (mapM_all_ok _ (fun x => VStr x.(tt_name))), (mapM_all_ok _ (fun x => VBool x.(tt_ok))), (mapM_all_ok _ (fun x => VBool x.(tt_cached))), (mapM_all_ok _ tt_latency_ms) by reflexivity.
  cbn [mbind res_bind]. unfold dict_of. cbn [fields mbind res_bind fmap res_fmap]. unfold tools_counted.
  rewrite (filter_map_truthy _ (fun x => negb (is_empty x.(tt_name)))), (filter_map_truthy _ tt_cached) by reflexivity.
  do 3 f_equal. f_equal; [|f_equal; [|f_equal]].
  - f_equal. f_equal. clear. induction tools as [|x l IH]; [done|]. cbn. destruct (negb (is_empty (tt_name x))); cbn; by rewrite IH.
  - f_equal. do 2 f_equal. clear. induction tools as [|x l IH]; [done|]. cbn. destruct (tt_ok x); cbn; by rewrite IH.
  - f_equal. by rewrite length_map.
Qed.
End Stored.
